(* ===== verification/_CoqProject ===== *)
-Q . S2P
Prelude.v
WebEnv.v
WkNavigationUtil.v
ErrorRetry.v
WebStateList.v
WebStateListLemmas.v
WebStateListEffects.v
WebStateListMutations.v
WebStateListSpec.v
CGFloat.v
PageDisplayState.v
FullscreenModel.v
FullscreenModelSpec.v
ListModel.v
CRWWKNavigationStates.v
SessionWindow.v
WebStateListSerialization.v
KeyedArchive.v
NavigationItem.v
BrowserURLRewriter.v
NavigationItemStorage.v
NavigationManager.v
SessionController.v
LegacyNavigationManager.v
SessionLemmas.v
SessionSpec.v
WKWebViewCache.v
WKBasedNavigationManager.v
WKBasedLemmas.v
WKBasedSpec.v
WKBasedRestore.v
WKBasedExamples.v
StdSet.v
CookieCache.v
CertPolicy.v
CertVerification.v
CertVerificationSpec.v
CertVerificationExamples.v
SessionCertificates.v
SessionStorage.v
SessionStorageSpec.v
SessionStorageExamples.v
ChunkedDataStreamUploader.v
BaseValues.v
NotificationPromo.v
FilePaths.v
BrowserStateInfoCache.v
BrowserStateManager.v
ReadingListModel.v
OfflineURLUtils.v
DistillerViewer.v
URLDownloader.v
URLDownloaderSpec.v
ReadingListDownloadService.v
ReadingListServiceSpec.v
ReadingListExamples.v
ReferrerUtil.v
FirstUserActionRecorder.v
WebThread.v
CacheCounter.v
SyncSetupService.v
WebUIData.v
WebUIDataSource.v
WebUIDataRefs.v
WebUIDataInv.v
WebUIDataSteps.v
WebUIDataJobs.v
WebUIDataEvents.v
WebUIDataRun.v
WebUIDataSpec.v
WebUIDataExamples.v
WebUIPageBuilder.v
WebFrame.v
WebFramesManager.v
WebFrameExamples.v
DialogPresenter.v
DialogPresenterSpec.v
DialogPresenterExamples.v
