(* ===== verification/Prelude.v ===== *)
(** * Verification library for the iOS port of Chromium

    The repository is the ios/ directory of Chromium: //ios/web (tabs that
    drive a WKWebView and keep a session history), //ios/net and //ios/chrome
    (the browser).  This library models the parts that hold state and decide
    how it changes, and proves what each of them promises.  The parts and how
    they interact:

    - a window owns a WebStateList, the ordered list of its tabs, with the tab
      that is active and the tab that opened each tab; the list is saved as a
      SessionWindowIOS and restored from it;
    - a tab (WebState) has a NavigationManagerImpl.  Its session history is
      kept by a CRWSessionController (the legacy implementation), or is the
      back-forward list of the web view (WKBasedNavigationManagerImpl).  An
      entry is a NavigationItemImpl, which carries a PageDisplayState and, when
      its load failed, an ErrorRetryStateMachine;
    - wk_navigation_util encodes a session and a failed URL as URLs that
      WebKit can load; the error machine and WKBasedNavigationManagerImpl
      recognize them;
    - CRWWKNavigationStates keeps the loads in flight of a tab;
      FullscreenModel turns the scrolling of a page into the progress of the
      toolbars; ListModel holds the items of the tables of the interface;
    - a tab is stored as a CRWSessionStorage, with its items, the certificates
      its user accepted and its user data, and a new tab takes it over;
      CRWCertVerificationController decides, with the CertificatePolicyCache,
      whether a page is loaded over a bad certificate;
    - ReadingListDownloadService follows the reading list and drives
      URLDownloader, whose pages DistillerViewer makes; offline_url_utils names
      the result;
    - ChromeBrowserStateManagerImpl loads browser states and registers each in
      a BrowserStateInfoCache;
    - pages of the application get their data from sources that the UI and the
      IO thread share (URLDataManagerIOSBackend); CRWWebUIPageBuilder makes one
      HTML text of a page and the scripts and style sheets it names;
    - a page announces its frames, which WebFramesManagerImpl keeps; a
      WebFrameImpl calls JavaScript functions in its frame and waits for the
      answers.  DialogPresenter shows the dialogs pages ask for, one at a time;
    - CookieCache, CertificatePolicyCache, ChunkedDataStreamUploader,
      referrer_util and WebThreadImpl serve the network code; NotificationPromo,
      FirstUserActionRecorder, CacheCounter and SyncSetupService the browser.

    ** Files

    - [Prelude]: this file.  The outcome and state monad [M] with its weakest
      precondition [wp], vectors indexed by integers, widths, strings,
      reachability, counting loops, and the tactics [wp_simp], [case_if] and
      [bool_to_prop].
    - [WebEnv]: the code outside the repository (GURL, net, base, the
      embedder's WebClient) as the class [WebEnv], its documented behaviour as
      [WebEnvLaws], and the concrete environment [Toy] that satisfies it.
      [BaseValues], [FilePaths], [StdSet]: values, preferences and times,
      paths and files, and the ordered containers of the standard library.
    - [WkNavigationUtil]: src/web/navigation/wk_navigation_util.mm,
      src/web/history_state_util.cc.
    - [ErrorRetry]: src/web/navigation/error_retry_state_machine.mm.
    - [WebStateList], [WebStateListLemmas], [WebStateListEffects],
      [WebStateListMutations], [WebStateListSpec]: web_state_list.mm,
      web_state_list_order_controller.mm and web_state_opener.mm of
      src/chrome/browser/web_state_list.  The definitions are in the first
      file, the invariant [wsl_inv] and the queries in the second, the state
      each mutation ends in in the next two, the properties in the last.
    - [CGFloat], [PageDisplayState]: IEEE 754 doubles (the Standard Library's
      SpecFloat) and src/web/public/web_state/page_display_state.mm.
    - [FullscreenModel], [FullscreenModelSpec]:
      src/chrome/browser/ui/fullscreen/fullscreen_model.mm.
    - [ListModel]: src/chrome/browser/ui/list_model/list_model.mm.
    - [CRWWKNavigationStates]:
      src/web/web_state/ui/crw_wk_navigation_states.mm.
    - [SessionWindow]: session_window_ios.mm and NSCoder+Compatibility.mm of
      src/chrome/browser/sessions, and
      src/web/navigation/serializable_user_data_manager_impl.mm.
    - [WebStateListSerialization]: web_state_list_serialization.mm, over the
      list of [WebStateList] and the windows of [SessionWindow].
    - [NavigationItem]: src/web/navigation/navigation_item_impl.mm and
      time_smoother.cc.
    - [BrowserURLRewriter]: src/web/browser_url_rewriter_impl.mm.
    - [NavigationManager]: src/web/navigation/navigation_manager_impl.mm, with
      the virtual functions it calls as classes.
    - [SessionController], [LegacyNavigationManager]:
      crw_session_controller.mm and legacy_navigation_manager_impl.mm of
      src/web/navigation; the second instantiates the classes of
      [NavigationManager].  [SessionLemmas] and [SessionSpec] hold the lemmas
      and the properties.
    - [WKWebViewCache], [WKBasedNavigationManager]:
      src/web/navigation/wk_based_navigation_manager_impl.mm, the state with
      the web view and the shim over its list, and the operations; another
      instance of the classes of [NavigationManager].  [WKBasedLemmas] has the
      history the manager shows and what a lookup may change, [WKBasedSpec] and
      [WKBasedRestore] the properties, [WKBasedExamples] concrete managers.
    - [KeyedArchive] (NSCoder, and src/web/navigation/nscoder_util.mm),
      [NavigationItemStorage]: src/web/crw_navigation_item_storage.mm and
      navigation_item_storage_builder.mm; [SessionCertificates]:
      session_certificate_policy_cache_impl.mm, its storage and its builder;
      [SessionStorage]: src/web/public/crw_session_storage.mm and
      src/web/navigation/session_storage_builder.mm, over a class that both
      navigation managers instantiate.  [SessionStorageSpec] has the round trip
      of a session, [SessionStorageExamples] concrete sessions.
    - [CertVerification], [CertVerificationSpec], [CertVerificationExamples]:
      src/web/net/crw_cert_verification_controller.mm.
    - [CookieCache]: src/net/cookies/cookie_cache.cc;
      [ChunkedDataStreamUploader]: src/net/chunked_data_stream_uploader.cc;
      [CertPolicy]: cert_policy.cc, certificate_policy_cache.cc and
      cert_host_pair.cc of src/web/net; [ReferrerUtil]:
      src/web/public/referrer_util.cc; [WebThread]: src/web/web_thread_impl.cc
      and web_sub_thread.cc.
    - [BrowserStateInfoCache], [BrowserStateManager]:
      src/chrome/browser/browser_state and browser_state_metrics.
    - [ReadingListModel] (the interface of the model, outside the repository),
      [OfflineURLUtils], [DistillerViewer], [URLDownloader],
      [URLDownloaderSpec], [ReadingListDownloadService],
      [ReadingListServiceSpec], [ReadingListExamples]:
      src/chrome/browser/reading_list and dom_distiller.
    - [NotificationPromo]: src/chrome/browser/notification_promo.cc;
      [FirstUserActionRecorder]:
      src/chrome/browser/metrics/first_user_action_recorder.cc;
      [CacheCounter]: src/chrome/browser/browsing_data/cache_counter.cc;
      [SyncSetupService]: src/chrome/browser/sync/sync_setup_service.cc.

    - [WebUIData]: url_data_manager_ios.cc, url_data_source_ios_impl.cc and
      url_data_manager_ios_backend.mm of src/web/webui, two threads with their
      tasks.  [WebUIDataRefs] has the references to sources, [WebUIDataInv] the
      invariants, [WebUIDataSteps], [WebUIDataJobs], [WebUIDataEvents] and
      [WebUIDataRun] that every event preserves them, [WebUIDataSpec] the
      properties and [WebUIDataExamples] runs.  [WebUIDataSource]:
      web_ui_ios_data_source_impl.mm and url_data_source_ios.mm.
    - [WebUIPageBuilder]: src/web/webui/crw_web_ui_page_builder.mm.
    - [WebFrame]: src/web/web_state/web_frame_impl.mm; [WebFramesManager]:
      web_frames_manager_impl.mm, web_frame_util.mm and the messages about
      frames of ui/crw_web_controller.mm; [WebFrameExamples]: their tests.
    - [DialogPresenter], [DialogPresenterSpec], [DialogPresenterExamples]:
      src/chrome/browser/ui/dialogs and ui/alert_coordinator.

    ** How the code is modelled

    The state of an object is a record with the names of its fields, and a
    method is a function from that state to an outcome: [Ok] with the result
    and the new state, or [Crash] with the DCHECK, CHECK or NOTREACHED that
    fired, or the undefined behaviour or exception that would follow.  The
    model is of a build with DCHECKs, so that "never fails" covers them all.
    Calls on observers, delegates and embedders are entries of a log in the
    order the code makes them; they do not call back, except that the list's
    lock is part of its state and each entry of its log records it.  WebStates
    are addresses in a heap, so that the aliasing of openers, the lifetime of
    WebStates and dangling pointers are in the model.  [int] has 32 bits and
    [NSInteger] and [size_t] 64; sizes of vectors are assumed below the
    maximum of their index type where a theorem says so.  Floating point is
    exact IEEE 754, with NaN and infinities.

    A service outside the repository is a class of its operations with a
    class of its documented behaviour, and a toy instance at which witnesses
    are evaluated.  Asynchronous code keeps what is under way in its state
    (posted tasks, replies, a running distiller), and the steps that complete
    it are operations in any order.  The unit tests of several classes are
    translated and run on the model.

    Loops over a vector are structural.  CloseAllWebStates takes the number of
    rounds: the number of tabs is enough, as its theorem states.
    GetIndexForOffset allows two rounds more than there are items: each round
    moves the index by at least one item and stops at either end.
    [replace_loop] (the images of a distilled page) takes as many rounds as the
    text has characters, which is enough unless the text searched for is empty,
    when no number is.  The loop of CacheCounter takes three turns,
    SetSyncEnabled one nested call.  A load of WKBasedNavigationManagerImpl
    nests once, when it restores a session; [wk_load] allows one more.  The
    tasks of the certificate controller run in [rounds]; as many as the work
    that waits are enough.  Replacing in a page takes a round for
    each character of its text and one more.

    ** What the theorems show

    - WebStateList: any sequence of legal calls keeps the list well formed
      and fails no check; each operation's effect on the order of the tabs,
      the openers, the active tab and the notifications; termination of
      CloseAllWebStates; rejection of mutations while a mutation notifies; the
      places the order controller chooses.
    - Saving and restoring: a window goes through serialization, archiving and
      deserialization with every tab, opener and the active tab; decoding
      repairs bad indices.  The session of a tab is stored, encoded, decoded
      and taken over by a new tab, which stores the same session; sessions of
      earlier versions and damaged ones.
    - Certificates: a page is loaded over a bad certificate only when its user
      accepted that leaf certificate, for that host, with errors that include
      its own, in any order of the tasks that decide; every decision is
      answered once; what was accepted survives a restart.
    - Session history: every history reachable by the controller's operations
      is well formed; the effect of a commit; going back and the list of back
      items agree; the offsets of back and forward skip redirects; pages
      cannot navigate to URLs of the application.
    - Navigation items: cached titles are never stale; smoothed timestamps
      strictly increase.
    - wk_navigation_util: the window of items a restored session keeps, the
      URL it is encoded in, and the round trips of redirect and placeholder
      URLs.
    - ErrorRetryStateMachine: the commands of every reachable state, the events
      each state accepts, the protocols of a first failure and of a retry.
    - CRWWKNavigationStates: the table refines a list of navigations in the
      order of addition; a navigation counts as committed exactly when it was.
    - PageDisplayState: equality is an equivalence although NaN marks unset
      values, and serialization round trips.
    - WKBasedNavigationManagerImpl: items are created once, when looked up;
      back, current and forward items are the history; the effect of a commit;
      detaching keeps the history, and a detached manager restores it; loads
      wait for a restoration and its callbacks run once.
    - FullscreenModel: progress stays in [0, 1] on every input; scrolling,
      disabling and short content.
    - Reading list: the downloader is a queue of tasks done one at a time and
      drains when it is answered; its text is the page with the kept images
      renamed; no check of downloader and service fails in any order of
      events; when an entry is downloaded and what the end of a download makes
      of it; offline URLs round trip.
    - Browser states: the cache's keys and the preference agree, and a path is
      loaded once.
    - Network: the differences of a cookie update; certificate answers follow
      the calls; one callback for a chunked read; the Referer header is what
      the network policy lets through; the registry of threads.
    - NotificationPromo, FirstUserActionRecorder, CacheCounter,
      SyncSetupService: the limit of views, the one action reported, the one
      result of a count, the types that are synced.
    - ListModel: index paths and model coordinates name the same items.
    - WebUI: in any order of the tasks of both threads a source is deleted
      once, on the UI thread, not before its last reference and not never; a
      request learns its MIME type before its data; what a job reads is the
      data.  The page a builder completes is the same in any order of answers,
      and it is completed at most once.
    - Frames: every call a frame accepted is answered exactly once; messages to
      other frames than the main frame are sealed; the frames observers heard
      of are the manager's; the messages with which a page fails a check.
    - Dialogs: every completion handler is called exactly once, no check of the
      presenter fails in documented use, dialogs are shown in the order of the
      requests.

    Where the code does not do what a comment or its own intent says, a
    theorem states what it does (for instance
    [CreateRestoreSessionUrl_reads_past_end],
    [DetermineNewActiveIndex_selects_first], [GetIndexForOffset_overflow],
    [restore_opener_overflow], [Restore_over_shown_history_fails],
    [empty_image_url_never_returns],
    [wifi_reconnection_fails_processed_entry],
    [tab_restored_without_certificates_stores_none],
    [circular_import_never_completes], [frameBecameAvailable_checks],
    [confirm_after_cancelAllDialogs]).

    ** What is not modelled

    UIKit and WebKit code: view controllers, coordinators, mediators and most
    of CRWWebController and of WebStateImpl, of which only the messages about
    frames are here.  What they decide lies in the order in which UIKit and
    WebKit call them, which this repository does not state.  File and network
    input and output: snapshots, downloads, the saving of sessions, protocol
    handlers.  The services that adapt components whose code is not in this
    repository (bookmarks, history, sign-in, passwords, autofill, payments,
    translate, sync): what is left here is their construction and forwarding.
    Resources, build files, and the code of tests, whose cases are examples of
    this library where a class is modelled.

    Observers that call back into the object that notifies them are not
    modelled beyond the list's lock and the reading list; completion handlers
    of dialogs and callbacks of frames do not call the object back.  Where the
    tabs of a window are coded ([SessionWindow]), a session is reduced to its
    committed index and its user data; [SessionStorage] has all of it.  Memory
    is managed as the code does it for WebStates and for the sources of WebUI;
    elsewhere objects live as long as their owner. *)

From stdpp Require Export base tactics option list strings numbers gmap sets.
From Stdlib Require Export ZArith Lia.

#[global] Set Default Proof Using "Type".
#[global] Open Scope Z_scope.

(** ** Outcomes

    The code under src/ guards itself with DCHECK, CHECK and NOTREACHED and
    reads vectors by an index nobody checks.  Every operation of the model
    therefore ends in [Ok] or in a [Crash] that names the check that fired
    (in a build with DCHECKs enabled) or the undefined behaviour that would
    follow; a loop that the code can enter and never leave is
    [NeverReturns]. *)
Inductive crash : Set :=
  | DCheckFailed
  | CheckFailed
  | NotReached
  | OutOfRange
  | NullDeref
  | IntOverflow
  | ObjCException
  | NeverReturns.

Inductive res (A : Type) : Type :=
  | Ok (a : A)
  | Crash (c : crash).
Arguments Ok {A} a.
Arguments Crash {A} c.

#[global] Instance crash_eq_dec : EqDecision crash.
Proof. solve_decision. Defined.

Definition is_ok {A} (r : res A) : bool :=
  match r with Ok _ => true | Crash _ => false end.

Definition crash_of {A} (r : res A) : option crash :=
  match r with Ok _ => None | Crash c => Some c end.

Declare Scope ios_scope.
Delimit Scope ios_scope with ios.

(** ** The state and error monad

    A method of a C++ or Objective-C class is a function from the state of
    the object to an outcome that carries the result and the new state. *)
Definition M (S A : Type) : Type := S → res (A * S).

#[global] Instance M_ret {S} : MRet (M S) := λ A a s, Ok (a, s).
#[global] Instance M_bind {S} : MBind (M S) := λ A B f m s,
  match m s with
  | Ok (a, s') => f a s'
  | Crash c => Crash c
  end.
#[global] Instance M_fmap {S} : FMap (M S) := λ A B f m s,
  match m s with
  | Ok (a, s') => Ok (f a, s')
  | Crash c => Crash c
  end.

Section monad_ops.
Context {S : Type}.

Definition fail {A} (c : crash) : M S A := λ _, Crash c.
Definition gets {A} (f : S → A) : M S A := λ s, Ok (f s, s).
Definition modify (f : S → S) : M S unit := λ s, Ok (tt, f s).
Definition lift_res {A} (r : res A) : M S A := λ s,
  match r with Ok a => Ok (a, s) | Crash c => Crash c end.

(** [DCHECK(b)], [CHECK(b)] and [NOTREACHED()]. *)
Definition DCHECK (b : bool) : M S unit :=
  if b then mret tt else fail DCheckFailed.
Definition CHECK (b : bool) : M S unit :=
  if b then mret tt else fail CheckFailed.
Definition NOTREACHED {A} : M S A := fail NotReached.

(** [if (c) { m }] *)
Definition whenM (c : bool) (m : M S unit) : M S unit :=
  if c then m else mret tt.

(** Use of a pointer that must not be null. *)
Definition not_null {A} (o : option A) : M S A :=
  match o with Some a => mret a | None => fail NullDeref end.

(** ** Weakest preconditions

    [wp m Q s] says that [m] run from [s] trips no check and ends in a
    result and a state that satisfy [Q]. *)
Definition wp {A} (m : M S A) (Q : A → S → Prop) (s : S) : Prop :=
  match m s with
  | Ok (a, s') => Q a s'
  | Crash _ => False
  end.

Lemma wp_ret {A} (a : A) Q s : wp (mret a) Q s ↔ Q a s.
Proof. done. Qed.

Lemma wp_bind {A B} (m : M S A) (f : A → M S B) Q s :
  wp (m ≫= f) Q s ↔ wp m (λ a s', wp (f a) Q s') s.
Proof.
  unfold wp, mbind, M_bind. by destruct (m s) as [[a s']|c].
Qed.

Lemma wp_fmap {A B} (m : M S A) (f : A → B) Q s :
  wp (f <$> m) Q s ↔ wp m (λ a s', Q (f a) s') s.
Proof.
  unfold wp, fmap, M_fmap. by destruct (m s) as [[a s']|c].
Qed.

Lemma wp_gets {A} (f : S → A) Q s : wp (gets f) Q s ↔ Q (f s) s.
Proof. done. Qed.

Lemma wp_modify (f : S → S) Q s : wp (modify f) Q s ↔ Q tt (f s).
Proof. done. Qed.

Lemma wp_lift_res {A} (r : res A) Q s :
  wp (lift_res r) Q s ↔
  match r with Ok a => Q a s | Crash _ => False end.
Proof. by destruct r. Qed.

Lemma wp_DCHECK b Q s : wp (DCHECK b) Q s ↔ b = true ∧ Q tt s.
Proof. destruct b; unfold DCHECK, wp, fail; simpl; naive_solver. Qed.

Lemma wp_CHECK b Q s : wp (CHECK b) Q s ↔ b = true ∧ Q tt s.
Proof. destruct b; unfold CHECK, wp, fail; simpl; naive_solver. Qed.

Lemma wp_not_null {A} (o : option A) Q s :
  wp (not_null o) Q s ↔ ∃ a, o = Some a ∧ Q a s.
Proof. destruct o; unfold not_null, wp, fail; simpl; naive_solver. Qed.

Lemma wp_whenM c m Q s :
  wp (whenM c m) Q s ↔ if c then wp m Q s else Q tt s.
Proof. by destruct c. Qed.

Lemma wp_if {A} (b : bool) (m1 m2 : M S A) Q s :
  wp (if b then m1 else m2) Q s ↔
  if b then wp m1 Q s else wp m2 Q s.
Proof. by destruct b. Qed.

Lemma wp_mono {A} (m : M S A) (Q Q' : A → S → Prop) s :
  (∀ a s', Q a s' → Q' a s') → wp m Q s → wp m Q' s.
Proof.
  intros HQ. unfold wp. destruct (m s) as [[a s']|c]; [apply HQ|done].
Qed.

Lemma wp_and {A} (m : M S A) (Q Q' : A → S → Prop) s :
  wp m Q s → wp m Q' s → wp m (λ a s', Q a s' ∧ Q' a s') s.
Proof. unfold wp. by destruct (m s) as [[a s']|c]. Qed.

Lemma wp_run {A} (m : M S A) Q s :
  wp m Q s → ∃ a s', m s = Ok (a, s') ∧ Q a s'.
Proof. unfold wp. destruct (m s) as [[a s']|c]; [eauto|done]. Qed.

Lemma wp_run_unit (m : M S unit) (P : S → Prop) s :
  wp m (λ _ s', P s') s → ∃ s', m s = Ok (tt, s') ∧ P s'.
Proof. intros ([] & s' & Hrun & H)%wp_run. by exists s'. Qed.

Lemma wp_of_run {A} (m : M S A) (Q : A → S → Prop) s a s' :
  m s = Ok (a, s') → Q a s' → wp m Q s.
Proof. unfold wp. by intros ->. Qed.

(** A computation that fails: in its first part, or in the rest. *)
Lemma crash_in {A B} (m : M S A) (f : A → M S B) c s : m s = Crash c → (m ≫= f) s = Crash c.
Proof. unfold mbind, M_bind. by intros ->. Qed.

Lemma crash_after {A B} (m : M S A) (f : A → M S B) c s :
  wp m (λ a s', f a s' = Crash c) s → (m ≫= f) s = Crash c.
Proof. unfold wp, mbind, M_bind. by destruct (m s) as [[a s']|]. Qed.
End monad_ops.

Arguments wp : simpl never.

(** The expectations of the repository's unit tests: a test that fails one
    ends in a [Crash]. *)
Section gtest.
Context {S : Type}.
Definition EXPECT_TRUE (b : bool) : M S unit := CHECK b.
Definition EXPECT_FALSE (b : bool) : M S unit := CHECK (negb b).
Definition EXPECT_EQ {A} `{EqDecision A} (x y : A) : M S unit := CHECK (bool_decide (x = y)).
(** The test runs to its end from this state. *)
Definition passes {A} (m : M S A) (s : S) : bool := is_ok (m s).
End gtest.

Create Rewrite HintDb wpdb.
#[export] Hint Rewrite @wp_ret @wp_bind @wp_fmap @wp_gets @wp_modify
  @wp_lift_res @wp_DCHECK @wp_CHECK @wp_not_null @wp_whenM : wpdb.

(** Pushes [wp] through the monadic structure of the goal. *)
Ltac wp_simp := repeat (progress autorewrite with wpdb; cbv beta).

(** The same for a pure computation in [res]. *)
#[global] Instance res_ret : MRet res := @Ok.
#[global] Instance res_bind : MBind res := λ A B f m,
  match m with Ok a => f a | Crash c => Crash c end.

(** ** Boolean tests of the code as propositions *)
Ltac bool_to_prop :=
  repeat match goal with
  | H : (_ && _) = true |- _ => apply andb_true_iff in H as [? ?]
  | H : (_ && _) = false |- _ => apply andb_false_iff in H as [?|?]
  | H : (_ || _) = false |- _ => apply orb_false_iff in H as [? ?]
  | H : (_ || _) = true |- _ => apply orb_true_iff in H as [?|?]
  | H : negb _ = true |- _ => apply negb_true_iff in H
  | H : negb _ = false |- _ => apply negb_false_iff in H
  | H : (_ =? _) = true |- _ => apply Z.eqb_eq in H
  | H : (_ =? _) = false |- _ => apply Z.eqb_neq in H
  | H : (_ <? _) = true |- _ => apply Z.ltb_lt in H
  | H : (_ <? _) = false |- _ => apply Z.ltb_ge in H
  | H : (_ <=? _) = true |- _ => apply Z.leb_le in H
  | H : (_ <=? _) = false |- _ => apply Z.leb_gt in H
  | H : bool_decide _ = true |- _ => apply bool_decide_eq_true in H
  | H : bool_decide _ = false |- _ => apply bool_decide_eq_false in H
  end.

(** Case analysis on the test of the first [if] of the goal. *)
Ltac case_if :=
  match goal with
  | |- context [if ?b then _ else _] =>
      let E := fresh "Hb" in destruct b eqn:E; bool_to_prop
  end.

(** ** Vectors indexed by an integer

    [std::vector] and [NSArray] are indexed by integers that may be negative
    in the code's index arithmetic ([-1] is the usual invalid index). *)
Section vectors.
Context {A : Type}.
Implicit Types (l : list A) (i j : Z).

Definition zlen l : Z := Z.of_nat (length l).

Definition vec_at l i : option A :=
  if 0 <=? i then l !! Z.to_nat i else None.

Definition vec_set l i (x : A) : list A :=
  if 0 <=? i then <[Z.to_nat i := x]> l else l.

(** [v.insert(v.begin() + i, x)] for [0 <= i <= size]. *)
Definition vec_insert l i (x : A) : list A :=
  take (Z.to_nat i) l ++ x :: drop (Z.to_nat i) l.

(** [v.erase(v.begin() + i)] for [0 <= i < size]. *)
Definition vec_erase l i : list A :=
  take (Z.to_nat i) l ++ drop (S (Z.to_nat i)) l.

Definition contains_index l i : bool := (0 <=? i) && (i <? zlen l).

Lemma zlen_nonneg l : 0 <= zlen l.
Proof. unfold zlen. lia. Qed.
Lemma zlen_nil : zlen [] = 0.
Proof. done. Qed.
Lemma zlen_cons x l : zlen (x :: l) = zlen l + 1.
Proof. unfold zlen. simpl. lia. Qed.
Lemma zlen_app l k : zlen (l ++ k) = zlen l + zlen k.
Proof. unfold zlen. rewrite length_app. lia. Qed.
Lemma zlen_take i l : 0 <= i → zlen (take (Z.to_nat i) l) = Z.min i (zlen l).
Proof. intros. unfold zlen. rewrite length_take. lia. Qed.
Lemma zlen_zero_nil l : zlen l = 0 → l = [].
Proof. destruct l; unfold zlen; simpl; [done|lia]. Qed.

Lemma contains_index_spec l i : contains_index l i = true ↔ 0 <= i < zlen l.
Proof.
  unfold contains_index. rewrite andb_true_iff, Z.leb_le, Z.ltb_lt. done.
Qed.

Lemma vec_at_Some_range l i x : vec_at l i = Some x → 0 <= i < zlen l.
Proof.
  unfold vec_at, zlen. destruct (Z.leb_spec 0 i); [|done].
  intros ?%lookup_lt_Some. lia.
Qed.
Lemma vec_at_in_range l i : 0 <= i < zlen l → ∃ x, vec_at l i = Some x.
Proof.
  unfold vec_at, zlen. intros [Hi Hlt].
  rewrite (proj2 (Z.leb_le 0 i) Hi). apply lookup_lt_is_Some. lia.
Qed.
Lemma vec_at_None l i : vec_at l i = None ↔ i < 0 ∨ zlen l <= i.
Proof.
  unfold vec_at, zlen. destruct (Z.leb_spec 0 i); [|intuition lia].
  rewrite lookup_ge_None. intuition lia.
Qed.
Lemma vec_at_nonneg l i : 0 <= i → vec_at l i = l !! Z.to_nat i.
Proof. unfold vec_at. by intros ->%Z.leb_le. Qed.

Lemma vec_at_of_nat l (n : nat) : vec_at l (Z.of_nat n) = l !! n.
Proof. rewrite vec_at_nonneg by lia. by rewrite Nat2Z.id. Qed.

Lemma zlen_vec_set l i x : zlen (vec_set l i x) = zlen l.
Proof.
  unfold vec_set, zlen. destruct (0 <=? i); [|done]. by rewrite length_insert.
Qed.
Lemma vec_at_vec_set l i j x :
  vec_at (vec_set l i x) j =
  if bool_decide (i = j ∧ 0 <= i < zlen l) then Some x else vec_at l j.
Proof.
  unfold vec_at, vec_set, zlen. destruct (Z.leb_spec 0 i).
  - destruct (Z.leb_spec 0 j); [|by rewrite bool_decide_eq_false_2 by lia].
    rewrite list_lookup_insert.
    case_bool_decide; case_decide; try done; lia.
  - by rewrite bool_decide_eq_false_2 by lia.
Qed.

Lemma zlen_vec_insert l i x :
  0 <= i <= zlen l → zlen (vec_insert l i x) = zlen l + 1.
Proof.
  intros. unfold vec_insert. rewrite zlen_app, zlen_cons, zlen_take by lia.
  unfold zlen in *. rewrite length_drop. lia.
Qed.
Lemma vec_at_vec_insert l i j x :
  0 <= i <= zlen l →
  vec_at (vec_insert l i x) j =
  if j <? i then vec_at l j
  else if j =? i then Some x else vec_at l (j - 1).
Proof.
  unfold vec_at, vec_insert, zlen. intros Hi.
  destruct (Z.leb_spec 0 j).
  2:{ destruct (Z.ltb_spec j i); [done|lia]. }
  destruct (Z.ltb_spec j i).
  { rewrite lookup_app_l by (rewrite length_take; lia).
    apply lookup_take_lt. lia. }
  rewrite lookup_app_r by (rewrite length_take; lia).
  rewrite length_take, Nat.min_l by lia.
  destruct (Z.eqb_spec j i) as [->|].
  { by rewrite Nat.sub_diag. }
  rewrite (proj2 (Z.leb_le 0 (j - 1))) by lia.
  rewrite lookup_cons_ne_0 by lia. rewrite lookup_drop. f_equal. lia.
Qed.

Lemma zlen_vec_erase l i :
  0 <= i < zlen l → zlen (vec_erase l i) = zlen l - 1.
Proof.
  intros. unfold vec_erase. rewrite zlen_app, zlen_take by lia.
  unfold zlen in *. rewrite length_drop. lia.
Qed.
Lemma vec_at_vec_erase l i j :
  0 <= i < zlen l →
  vec_at (vec_erase l i) j =
  if j <? i then vec_at l j else vec_at l (j + 1).
Proof.
  unfold vec_at, vec_erase, zlen. intros Hi.
  destruct (Z.leb_spec 0 j).
  2:{ destruct (Z.ltb_spec j i); [done|lia]. }
  destruct (Z.ltb_spec j i).
  { rewrite lookup_app_l by (rewrite length_take; lia).
    apply lookup_take_lt. lia. }
  rewrite lookup_app_r by (rewrite length_take; lia).
  rewrite length_take, Nat.min_l by lia. rewrite lookup_drop.
  rewrite (proj2 (Z.leb_le 0 (j + 1))) by lia. f_equal. lia.
Qed.

Lemma vec_ext l k : (∀ i, vec_at l i = vec_at k i) → l = k.
Proof.
  intros H. apply list_eq. intros n. specialize (H (Z.of_nat n)).
  by rewrite !vec_at_of_nat in H.
Qed.

Lemma vec_at_app l k i :
  vec_at (l ++ k) i = if i <? zlen l then vec_at l i else vec_at k (i - zlen l).
Proof.
  unfold vec_at, zlen. destruct (Z.leb_spec 0 i).
  2:{ destruct (Z.ltb_spec i (Z.of_nat (length l))); [done|].
      rewrite (proj2 (Z.leb_gt 0 _)) by lia. done. }
  destruct (Z.ltb_spec i (Z.of_nat (length l))).
  - apply lookup_app_l. lia.
  - rewrite (proj2 (Z.leb_le 0 _)) by lia.
    rewrite lookup_app_r by lia. f_equal. lia.
Qed.

Lemma vec_at_take l n i :
  vec_at (take n l) i = if i <? Z.of_nat n then vec_at l i else None.
Proof.
  unfold vec_at. destruct (Z.leb_spec 0 i); [|by destruct (i <? _)].
  destruct (Z.ltb_spec i (Z.of_nat n)).
  - apply lookup_take_lt. lia.
  - apply lookup_take_ge. lia.
Qed.

Lemma vec_insert_end l x : vec_insert l (zlen l) x = l ++ [x].
Proof.
  unfold vec_insert, zlen. rewrite Nat2Z.id.
  by rewrite take_ge, drop_ge by lia.
Qed.
End vectors.

Create Rewrite HintDb zlen.
#[export] Hint Rewrite @zlen_nil @zlen_cons @zlen_app @zlen_vec_set : zlen.

(** [v[i]] of a vector, undefined out of range. *)
Definition at_ {S A} (l : list A) (i : Z) : M S A :=
  match vec_at l i with Some a => mret a | None => fail OutOfRange end.

Lemma wp_at {S A} (l : list A) i (Q : A → S → Prop) s :
  wp (at_ l i) Q s ↔ ∃ a, vec_at l i = Some a ∧ Q a s.
Proof. unfold at_, wp. destruct (vec_at l i); simpl; naive_solver. Qed.
#[export] Hint Rewrite @wp_at : wpdb.

(** ** Widths

    [int] has 32 bits and [NSInteger] 64 on the platforms the code runs on. *)
Definition INT_MAX : Z := 2147483647.
Definition INT_MIN : Z := -2147483648.
Definition NSNotFound : Z := 9223372036854775807.
Definition in_int (z : Z) : bool := (INT_MIN <=? z) && (z <=? INT_MAX).

Lemma in_int_nonneg z : 0 <= z <= INT_MAX → in_int z = true.
Proof. intros. unfold in_int, INT_MIN. apply andb_true_iff. split; apply Z.leb_le; lia. Qed.

(** Two's complement conversion of any integer to [int]. *)
Definition to_int32 (z : Z) : Z := (z + 2147483648) mod 4294967296 - 2147483648.
(** Conversion of any integer to [size_t] (64 bits). *)
Definition to_size_t (z : Z) : Z := z mod 18446744073709551616.

Lemma to_int32_id z : in_int z = true → to_int32 z = z.
Proof.
  unfold in_int, INT_MIN, INT_MAX, to_int32. intros H. bool_to_prop.
  rewrite Z.mod_small by lia. lia.
Qed.
Lemma to_int32_size_t z : to_int32 (to_size_t z) = to_int32 z.
Proof.
  unfold to_int32, to_size_t. f_equal.
  rewrite <- (Z.add_mod_idemp_l (z mod _)) by lia.
  rewrite Z.mod_mod_divide by (by exists 4294967296).
  by rewrite Z.add_mod_idemp_l by lia.
Qed.

(** Signed addition of two [int]s, undefined on overflow. *)
Definition int_add {S} (a b : Z) : M S Z :=
  if in_int (a + b) then mret (a + b) else fail IntOverflow.

(** ** [std::string] *)

(** [s.find(p) == 0]. *)
Fixpoint starts_with (s p : string) {struct p} : bool :=
  match p, s with
  | EmptyString, _ => true
  | String c p', String d s' => bool_decide (c = d) && starts_with s' p'
  | _, EmptyString => false
  end.

(** [s.substr(n)]. *)
Fixpoint string_drop (n : nat) (s : string) {struct n} : string :=
  match n, s with
  | O, _ => s
  | S n', String _ s' => string_drop n' s'
  | S _, EmptyString => EmptyString
  end.

Lemma starts_with_app p s : starts_with (p +:+ s) p = true.
Proof.
  induction p as [|c p IH]; simpl; [done|].
  rewrite bool_decide_eq_true_2 by done. exact IH.
Qed.

Lemma string_drop_app p s : string_drop (String.length p) (p +:+ s) = s.
Proof. by induction p. Qed.

Lemma string_cons_app c (s t : string) : String c s +:+ t = String c (s +:+ t).
Proof. done. Qed.

Lemma string_app_nil_r (s : string) : s +:+ "" = s.
Proof. induction s as [|c s IH]; [done|]. by rewrite string_cons_app, IH. Qed.

Lemma string_app_assoc (s t u : string) : (s +:+ t) +:+ u = s +:+ (t +:+ u).
Proof. induction s as [|c s IH]; [done|]. by rewrite !string_cons_app, IH. Qed.

Lemma string_length_app (s t : string) :
  String.length (s +:+ t) = (String.length s + String.length t)%nat.
Proof. induction s as [|c s IH]; [done|]. rewrite string_cons_app. simpl. by rewrite IH. Qed.

(** [s.substr(0, n)]. *)
Fixpoint string_take (n : nat) (s : string) {struct n} : string :=
  match n, s with
  | S n', String c s' => String c (string_take n' s')
  | _, _ => EmptyString
  end.

Lemma string_take_app p s : string_take (String.length p) (p +:+ s) = p.
Proof. induction p as [|c p IH]; [done|]. rewrite string_cons_app. simpl. by rewrite IH. Qed.

Lemma string_drop_add n m s : string_drop (n + m) s = string_drop m (string_drop n s).
Proof.
  revert s. induction n as [|n IH]; intros s; simpl; [done|].
  destruct s; [|apply IH]. by destruct m.
Qed.

(** The first occurrence of [p] in [s]. *)
Fixpoint string_find (p s : string) {struct s} : option nat :=
  if starts_with s p then Some O
  else match s with
       | EmptyString => None
       | String _ s' => S <$> string_find p s'
       end.

(** [s.find(p, pos)]. *)
Definition string_find_from (p s : string) (pos : nat) : option nat :=
  if (pos <=? String.length s)%nat then Nat.add pos <$> string_find p (string_drop pos s)
  else None.

Lemma starts_with_inv s p : starts_with s p = true → ∃ r, s = p +:+ r.
Proof.
  revert s. induction p as [|c p IH]; intros s H; simpl; [by exists s|].
  destruct s as [|d s]; [done|]. simpl in H. apply andb_true_iff in H as [Hc H].
  apply bool_decide_eq_true in Hc as ->. destruct (IH s H) as [r ->]. by exists r.
Qed.

Lemma string_find_Some p s n :
  string_find p s = Some n → ∃ a b, s = a +:+ p +:+ b ∧ String.length a = n.
Proof.
  revert n. induction s as [|c s IH]; intros n; cbn [string_find];
    destruct (starts_with _ p) eqn:E; intros H; simplify_eq.
  - apply starts_with_inv in E as [r Hr]. by exists "", r.
  - apply starts_with_inv in E as [r Hr]. by exists "", r.
  - destruct (string_find p s) as [k|]; simplify_eq/=.
    destruct (IH k eq_refl) as (a & b & -> & <-). by exists (String c a), b.
Qed.

(** ** Transition systems *)
Section reachability.
Context {St Ev : Type} (step : St → Ev → St → Prop).

(** States reached from [s0] by a sequence of events. *)
Inductive reachable (s0 : St) : St → Prop :=
  | reach_refl : reachable s0 s0
  | reach_step s e s' : reachable s0 s → step s e s' → reachable s0 s'.

(** An invariant that holds initially and that every step preserves holds
    in every reachable state. *)
Lemma reachable_invariant (I : St → Prop) s0 :
  I s0 → (∀ s e s', I s → step s e s' → I s') →
  ∀ s, reachable s0 s → I s.
Proof. intros H0 Hstep s Hr. induction Hr; eauto. Qed.
End reachability.

(** ** More on insertion and erasure *)
Section vector_elements.
Context {A B : Type}.
Implicit Types (l : list A) (i j : Z).

Lemma fmap_vec_insert (f : A → B) l i x :
  f <$> vec_insert l i x = vec_insert (f <$> l) i (f x).
Proof. unfold vec_insert. by rewrite fmap_app, fmap_cons, fmap_take, fmap_drop. Qed.

Lemma fmap_vec_erase (f : A → B) l i :
  f <$> vec_erase l i = vec_erase (f <$> l) i.
Proof. unfold vec_erase. by rewrite fmap_app, fmap_take, fmap_drop. Qed.

Lemma fmap_vec_set (f : A → B) l i x :
  f <$> vec_set l i x = vec_set (f <$> l) i (f x).
Proof. unfold vec_set. destruct (0 <=? i); [|done]. apply list_fmap_insert. Qed.

Lemma zlen_fmap (f : A → B) l : zlen (f <$> l) = zlen l.
Proof. unfold zlen. by rewrite length_fmap. Qed.

Lemma vec_at_fmap (f : A → B) l i : vec_at (f <$> l) i = f <$> vec_at l i.
Proof. unfold vec_at. destruct (0 <=? i); [|done]. apply list_lookup_fmap. Qed.

Lemma elem_of_vec_at l x : x ∈ l ↔ ∃ i, vec_at l i = Some x.
Proof.
  rewrite list_elem_of_lookup. split.
  - intros [n Hn]. exists (Z.of_nat n). by rewrite vec_at_of_nat.
  - intros [i Hi]. exists (Z.to_nat i).
    by rewrite <- vec_at_nonneg by (apply vec_at_Some_range in Hi; lia).
Qed.

Lemma vec_insert_permutation l i x : vec_insert l i x ≡ₚ x :: l.
Proof.
  unfold vec_insert. rewrite <- Permutation_middle.
  by rewrite take_drop.
Qed.

Lemma vec_erase_permutation l i x :
  vec_at l i = Some x → l ≡ₚ x :: vec_erase l i.
Proof.
  intros Hx. pose proof (vec_at_Some_range _ _ _ Hx).
  rewrite vec_at_nonneg in Hx by lia. unfold vec_erase.
  rewrite <- (take_drop_middle l (Z.to_nat i) x) at 1 by done.
  by rewrite Permutation_middle.
Qed.

Lemma vec_set_self l i x : vec_at l i = Some x → vec_set l i x = l.
Proof.
  intros Hx. pose proof (vec_at_Some_range _ _ _ Hx).
  unfold vec_set. rewrite (proj2 (Z.leb_le 0 i)) by lia.
  rewrite vec_at_nonneg in Hx by lia. by apply list_insert_id.
Qed.

Lemma vec_set_permutation l i x y :
  vec_at l i = Some x → vec_set l i y ≡ₚ y :: vec_erase l i.
Proof.
  intros Hx. pose proof (vec_at_Some_range _ _ _ Hx) as Hr.
  rewrite (vec_erase_permutation (vec_set l i y) i y).
  2:{ rewrite vec_at_vec_set. by rewrite bool_decide_eq_true_2. }
  apply perm_skip. rewrite vec_at_nonneg in Hx by lia.
  unfold vec_set, vec_erase. rewrite (proj2 (Z.leb_le 0 i)) by lia.
  rewrite take_insert_ge by lia. rewrite drop_insert_lt by lia. done.
Qed.

Lemma elem_of_vec_set l i x y z :
  vec_at l i = Some x → z ∈ vec_set l i y → z = y ∨ z ∈ vec_erase l i.
Proof. intros Hx. by rewrite (vec_set_permutation l i x y Hx), elem_of_cons. Qed.

Lemma elem_of_vec_erase l i x z :
  vec_at l i = Some x → z ∈ vec_erase l i → z ∈ l.
Proof. intros Hx Hz. rewrite (vec_erase_permutation l i x Hx). by apply list_elem_of_further. Qed.

Lemma NoDup_vec_erase l i x :
  vec_at l i = Some x → NoDup l → x ∉ vec_erase l i ∧ NoDup (vec_erase l i).
Proof. intros Hx. rewrite (vec_erase_permutation l i x Hx) at 1. apply NoDup_cons. Qed.

Lemma vec_set_last l x y k : zlen l = k → vec_set (l ++ [x]) k y = l ++ [y].
Proof.
  intros <-. unfold vec_set, zlen. rewrite (proj2 (Z.leb_le 0 _)) by lia. rewrite Nat2Z.id.
  by rewrite insert_app_r_alt, Nat.sub_diag by done.
Qed.

Lemma vec_at_last l x k : zlen l = k → vec_at (l ++ [x]) k = Some x.
Proof. intros <-. rewrite vec_at_app, Z.ltb_irrefl, Z.sub_diag. done. Qed.

Lemma vec_at_NoDup_inj l i j x :
  NoDup l → vec_at l i = Some x → vec_at l j = Some x → i = j.
Proof.
  intros Hnd Hi Hj. pose proof (vec_at_Some_range _ _ _ Hi).
  pose proof (vec_at_Some_range _ _ _ Hj).
  rewrite vec_at_nonneg in Hi, Hj by lia.
  pose proof (NoDup_lookup _ _ _ _ Hnd Hi Hj). lia.
Qed.

Lemma vec_at_drop l n i : 0 <= i → vec_at (drop n l) i = vec_at l (Z.of_nat n + i).
Proof.
  intros. rewrite !vec_at_nonneg by lia. rewrite lookup_drop. f_equal. lia.
Qed.
End vector_elements.

(** ** Counting loops

    [for (int i = first; i < first + n; ++i) body(i)], with the results of the
    body. *)
Section counting.
Context {S A : Type}.

Fixpoint for_indices (n : nat) (i : Z) (body : Z → M S A) : M S (list A) :=
  match n with
  | O => mret []
  | Datatypes.S n' =>
      a ← body i;
      rest ← for_indices n' (i + 1) body;
      mret (a :: rest)
  end.

(** A loop keeps an invariant on the index, the results so far and the state. *)
Lemma wp_for_indices (Inv : Z → list A → S → Prop) n i body (Q : list A → S → Prop) s :
  Inv i [] s →
  (∀ j acc s, i <= j < i + Z.of_nat n → Inv j acc s →
    wp (body j) (λ a s', Inv (j + 1) (acc ++ [a]) s') s) →
  (∀ acc s, Inv (i + Z.of_nat n) acc s → Q acc s) →
  wp (for_indices n i body) Q s.
Proof.
  intros H0 Hstep HQ.
  assert (∀ acc, Inv i acc s →
    wp (for_indices n i body) (λ rest, Inv (i + Z.of_nat n) (acc ++ rest)) s) as Hgen.
  2:{ eapply wp_mono; [|apply (Hgen []); exact H0]. intros acc s' HI. by apply HQ. }
  clear H0 HQ. revert i s Hstep. induction n as [|n IH]; intros i s Hstep acc Hacc; simpl.
  { wp_simp. rewrite app_nil_r. by replace (i + Z.of_nat 0) with i by lia. }
  wp_simp. eapply wp_mono; [|apply Hstep; [lia|exact Hacc]].
  intros a s' HI. simpl in HI. wp_simp. eapply wp_mono; [|apply (IH (i + 1) s'); [|exact HI]].
  - intros rest s'' HI'. cbv beta in HI'. wp_simp. rewrite <- app_assoc in HI'.
    by replace (i + Z.of_nat (Datatypes.S n)) with (i + 1 + Z.of_nat n) by lia.
  - intros j acc' s0 Hj. apply Hstep. lia.
Qed.
End counting.
