(* ===== verification/WebEnv.v ===== *)
(** * What the code under src/ takes from elsewhere

    GURL, //net, //base, ui::PageTransition, the embedder's WebClient and the
    application bundle are not part of the repository.  They are the fields of
    [WebEnv], an argument of every definition that calls them; [WebEnvLaws]
    collects the documented behaviour the code relies on.  The module [Toy]
    gives a concrete environment that satisfies the laws, at which the
    witnesses are evaluated. *)

From Stdlib Require Import Ascii.
From S2P Require Import Prelude.

(** UTF-16 code units. *)
Notation string16 := (list Z).

(** [GURL::Replacements], with the components the code replaces. *)
Record Replacements := MkReplacements {
  SetSchemeStr : option string;
  SetPathStr : option string;
  SetRefStr : option string;
}.

(** The dictionary that restore_session.html receives as JSON. *)
Record SessionValue := MkSessionValue {
  session_offset : Z;
  session_urls : list string;
  session_titles : list string16;
}.

Class WebEnv := {
  (* url/gurl.h, url/url_constants.h *)
  GURL : Type;
  #[global] GURL_eq_dec :: EqDecision GURL;
  #[global] GURL_countable :: Countable GURL;
  GURL_of : string → GURL;
  EmptyGURL : GURL;
  spec : GURL → string;
  is_valid : GURL → bool;
  is_empty : GURL → bool;
  IsAboutBlank : GURL → bool;
  SchemeIs : GURL → string → bool;
  SchemeIsFile : GURL → bool;
  SchemeIsCryptographic : GURL → bool;
  url_scheme : GURL → string;
  url_host : GURL → string;
  url_path : GURL → string;
  url_query : GURL → string;
  url_ref : GURL → string;
  GetContent : GURL → string;
  GetOrigin : GURL → GURL;
  GetAsReferrer : GURL → GURL;
  Resolve : GURL → string → GURL;
  EqualsIgnoringRef : GURL → GURL → bool;
  ReplaceComponents : GURL → Replacements → GURL;
  kAboutBlankURL : string;
  kAboutScheme : string;
  kFileScheme : string;
  kDataScheme : string;
  kStandardSchemeSeparator : string;
  (* net/base/url_util.h, net/base/escape.h *)
  AppendQueryParameter : GURL → string → string → GURL;
  GetValueForKeyInQuery : GURL → string → option string;
  EscapeQueryParamValue : string → bool → string;
  UnescapeURLComponent : string → Z → string;
  URL_SPECIAL_CHARS_EXCEPT_PATH_SEPARATORS : Z;
  SPACES : Z;
  PATH_SEPARATORS : Z;
  (* base/strings/string_util.h, base/json/json_writer.h *)
  StartsWith : string → string → bool;
  JSONWriter_Write : SessionValue → string;
  (* the bundle's restore_session.html and the embedder's WebClient *)
  restore_session_resource_path : string;
  IsAppSpecificURL : GURL → bool;
  IsSlimNavigationManagerEnabled : bool;
  (* the URL rewriters the WebClient registers at start; a BrowserState is a
     pointer *)
  PostBrowserURLRewriterCreation : list (GURL → option positive → bool * GURL);
  (* components/url_formatter, ui/gfx/text_elider.h *)
  FormatUrl : GURL → string16;
  ElideString : string16 → Z → string16;
  (* ui/base/page_transition_types.h: a 32-bit enumeration *)
  PAGE_TRANSITION_LINK : Z;
  PAGE_TRANSITION_FORM_SUBMIT : Z;
  PAGE_TRANSITION_RELOAD : Z;
  PAGE_TRANSITION_CLIENT_REDIRECT : Z;
  PAGE_TRANSITION_FORWARD_BACK : Z;
  PAGE_TRANSITION_IS_REDIRECT_MASK : Z;
  PageTransitionIsRedirect : Z → bool;
  PageTransitionCoreTypeIs : Z → Z → bool;
}.

(** Letters and ['='], which canonicalization of a URL fragment keeps. *)
Definition plain_char (c : Ascii.ascii) : bool :=
  let n := Ascii.N_of_ascii c in
  ((65 <=? n) && (n <=? 90) || (97 <=? n) && (n <=? 122) || (n =? 61))%N.
Definition plain (s : string) : bool := forallb plain_char (String.list_ascii_of_string s).

Class WebEnvLaws `{!WebEnv} : Prop := {
  law_spec_roundtrip u : is_valid u = true → GURL_of (spec u) = u;
  law_empty_invalid : is_valid EmptyGURL = false;
  law_empty_parse : GURL_of (spec EmptyGURL) = EmptyGURL;
  law_empty_is_empty : is_empty EmptyGURL = true;
  law_empty_not_about_blank : IsAboutBlank EmptyGURL = false;
  law_about_blank_scheme u : IsAboutBlank u = true → SchemeIs u kAboutScheme = true;
  law_about_not_file u : SchemeIs u kAboutScheme = true → SchemeIsFile u = false;
  law_scheme_is_file u : SchemeIs u kFileScheme = SchemeIsFile u;
  law_replace_scheme u p f :
    SchemeIsFile (ReplaceComponents u (MkReplacements (Some kFileScheme) p f)) = true;
  law_replace_ref_keeps_scheme u f :
    SchemeIsFile (ReplaceComponents u (MkReplacements None None f)) = SchemeIsFile u;
  law_replace_ref_keeps_path u f :
    url_path (ReplaceComponents u (MkReplacements None None f)) = url_path u;
  law_replace_ref u p s :
    SchemeIsFile u = true → plain p = true →
    url_ref (ReplaceComponents u
      (MkReplacements None None (Some (p +:+ EscapeQueryParamValue s false)))) =
    p +:+ EscapeQueryParamValue s false;
  law_unescape_escape_spec u :
    is_valid u = true →
    UnescapeURLComponent (EscapeQueryParamValue (spec u) false)
      (Z.lor (Z.lor URL_SPECIAL_CHARS_EXCEPT_PATH_SEPARATORS SPACES) PATH_SEPARATORS) =
    spec u;
  law_chrome_offline_scheme : SchemeIs (GURL_of "chrome://offline/") "chrome" = true;
  law_chrome_offline_host : url_host (GURL_of "chrome://offline/") = "offline";
  law_replace_path_scheme u p s :
    SchemeIs (ReplaceComponents u (MkReplacements None (Some p) None)) s = SchemeIs u s;
  law_replace_path_host u p :
    url_host (ReplaceComponents u (MkReplacements None (Some p) None)) = url_host u;
  law_chrome_offline_no_query p k :
    GetValueForKeyInQuery
      (ReplaceComponents (GURL_of "chrome://offline/") (MkReplacements None (Some p) None)) k =
    None;
  law_append_chrome_scheme u k v s :
    SchemeIs u "chrome" = true →
    SchemeIs (AppendQueryParameter u k v) s = SchemeIs u s;
  law_append_chrome_host u k v :
    SchemeIs u "chrome" = true →
    url_host (AppendQueryParameter u k v) = url_host u;
  law_append_chrome_lookup u k v k' :
    SchemeIs u "chrome" = true →
    GetValueForKeyInQuery (AppendQueryParameter u k v) k' =
    match GetValueForKeyInQuery u k' with
    | Some v' => Some v'
    | None => if bool_decide (k = k') then Some v else None
    end;
  law_append_about_blank k v :
    IsAboutBlank (AppendQueryParameter (GURL_of kAboutBlankURL) k v) = true;
  law_append_valid k v :
    is_valid (AppendQueryParameter (GURL_of kAboutBlankURL) k v) = true;
  law_append_query k v :
    plain k = true →
    StartsWith (url_query (AppendQueryParameter (GURL_of kAboutBlankURL) k v)) k = true;
  law_append_lookup k v :
    GetValueForKeyInQuery (AppendQueryParameter (GURL_of kAboutBlankURL) k v) k = Some v;
  law_redirect_mask t :
    PageTransitionIsRedirect t = negb (Z.land t PAGE_TRANSITION_IS_REDIRECT_MASK =? 0);
  law_forward_back_redirect t :
    PageTransitionIsRedirect (Z.lor t PAGE_TRANSITION_FORWARD_BACK) =
    PageTransitionIsRedirect t;
  law_reload_transition : Z.land PAGE_TRANSITION_RELOAD PAGE_TRANSITION_FORWARD_BACK = 0;
}.

(** ** A concrete environment *)
Module Toy.
(** about:blank with a query, the file restore_session.html with a
    fragment, pages of an application scheme, chrome://offline with a path and
    a query, pages of the web (an origin
    and a path), and the invalid URLs. *)
Inductive url : Set :=
  | UAbout (query : string)
  | UFile (ref : string)
  | UApp (page : string)
  | UOffline (path : string) (params : list (string * string))
  | UWeb (origin : string) (path : string)
  | UInvalid (s : string).

#[export] Instance url_eq_dec : EqDecision url.
Proof. solve_decision. Defined.

(** Splits at the first ["/"]. *)
Fixpoint split_slash (s : string) : option (string * string) :=
  match s with
  | EmptyString => None
  | String c s' =>
      if bool_decide (c = "/"%char) then Some (EmptyString, s')
      else match split_slash s' with
           | Some (a, b) => Some (String c a, b)
           | None => None
           end
  end.

Fixpoint no_slash (s : string) : bool :=
  match s with
  | EmptyString => true
  | String c s' => negb (bool_decide (c = "/"%char)) && no_slash s'
  end.

(** Lists of strings as one string: a ["+"] before each character and a ["."]
    at the end of each string. *)
Fixpoint encode1 (s : string) : string :=
  match s with
  | EmptyString => "."
  | String c s' => String "+" (String c (encode1 s'))
  end.

Fixpoint encode (l : list string) : string :=
  match l with
  | [] => ""
  | s :: l' => encode1 s +:+ encode l'
  end.

Fixpoint decode (s : string) : list string :=
  match s with
  | String "." s' => "" :: decode s'
  | String _ (String c s') =>
      match decode s' with
      | [] => [String c ""]
      | x :: l => String c x :: l
      end
  | _ => []
  end.

Lemma decode_encode1 s r : decode (encode1 s +:+ r) = s :: decode r.
Proof.
  induction s as [|c s IH]; [done|].
  change (decode (String "+" (String c (encode1 s +:+ r))) = String c s :: decode r).
  cbn [decode]. by rewrite IH.
Qed.

Lemma decode_encode l : decode (encode l) = l.
Proof. induction l as [|s l IH]; [done|]. cbn [encode]. by rewrite decode_encode1, IH. Qed.

Fixpoint flatten (l : list (string * string)) : list string :=
  match l with
  | [] => []
  | (k, v) :: l' => k :: v :: flatten l'
  end.

Fixpoint unflatten (l : list string) : list (string * string) :=
  match l with
  | k :: v :: l' => (k, v) :: unflatten l'
  | _ => []
  end.

Lemma unflatten_flatten l : unflatten (flatten l) = l.
Proof. induction l as [|[k v] l IH]; [done|]. simpl. by rewrite IH. Qed.

Fixpoint toy_param (l : list (string * string)) (k : string) : option string :=
  match l with
  | [] => None
  | (k', v) :: l' => if bool_decide (k' = k) then Some v else toy_param l' k
  end.

Lemma toy_param_snoc l k v k' :
  toy_param (l ++ [(k, v)]) k' =
  match toy_param l k' with
  | Some v' => Some v'
  | None => if bool_decide (k = k') then Some v else None
  end.
Proof.
  induction l as [|[a b] l IH]; simpl; [done|]. by destruct (bool_decide (a = k')).
Qed.

Definition offline_root : string := "chrome://offline/".

Definition toy_spec (u : url) : string :=
  match u with
  | UAbout q => String "a" q
  | UFile r => String "f" r
  | UApp p => String "p" p
  | UOffline EmptyString [] => offline_root
  | UOffline p l => String "c" (String "1" (encode (p :: flatten l)))
  | UWeb o p => String "w" (o +:+ String "/" p)
  | UInvalid s => s
  end%char.

Definition toy_parse (s : string) : url :=
  match s with
  | String "a" q => UAbout q
  | String "f" r => UFile r
  | String "p" p => UApp p
  | String "c" (String "1" r) =>
      match decode r with
      | p :: l => UOffline p (unflatten l)
      | [] => UInvalid s
      end
  | String "c" _ => UOffline EmptyString []
  | String "w" op =>
      match split_slash op with
      | Some (o, p) => UWeb o p
      | None => UInvalid s
      end
  | _ => UInvalid s
  end%char.

Definition toy_valid (u : url) : bool :=
  match u with
  | UInvalid _ => false
  | UWeb o _ => no_slash o
  | _ => true
  end.

Definition toy_value (u : url) (k : string) : option string :=
  match u with
  | UAbout q => if starts_with q k
                then Some (string_drop (String.length k) q) else None
  | UOffline _ l => toy_param l k
  | _ => None
  end.

Definition toy_replace (u : url) (r : Replacements) : url :=
  match SetSchemeStr r with
  | Some _ => UFile (default EmptyString (SetRefStr r))
  | None =>
      match u with
      | UFile old => UFile (default old (SetRefStr r))
      | UOffline p l => UOffline (default p (SetPathStr r)) l
      | _ => u
      end
  end.

Lemma split_slash_app o p :
  no_slash o = true → split_slash (o +:+ String "/" p) = Some (o, p).
Proof.
  induction o as [|c o IH]; simpl; [done|].
  intros [Hc Ho]%andb_true_iff. bool_to_prop.
  rewrite bool_decide_eq_false_2 by done. by rewrite IH.
Qed.

Lemma toy_spec_parse u : toy_valid u = true → toy_parse (toy_spec u) = u.
Proof.
  destruct u as [q|r|p|p l|o p|s]; intros Hv; try done.
  - cbn [toy_spec]. destruct p as [|c p]; [destruct l as [|kv l]; [done|]|].
    all: cbn [toy_parse]; rewrite decode_encode; by rewrite unflatten_flatten.
  - cbn [toy_spec toy_parse]. by rewrite split_slash_app.
Qed.

Definition url_code (u : url) : list string :=
  match u with
  | UAbout q => ["a"; q] | UFile r => ["f"; r] | UApp p => ["p"; p]
  | UOffline p l => "c" :: p :: flatten l
  | UWeb o p => ["w"; o; p] | UInvalid s => ["i"; s]
  end.
Definition url_decode (l : list string) : option url :=
  match l with
  | ["a"; q] => Some (UAbout q) | ["f"; r] => Some (UFile r) | ["p"; p] => Some (UApp p)
  | "c" :: p :: l => Some (UOffline p (unflatten l))
  | ["w"; o; p] => Some (UWeb o p) | ["i"; s] => Some (UInvalid s)
  | _ => None
  end.
#[export] Instance url_countable : Countable url.
Proof.
  apply (inj_countable url_code url_decode).
  intros [q|r|p|p l|o p|s]; try done. simpl. by rewrite unflatten_flatten.
Defined.

#[export] Instance env : WebEnv := {|
  GURL := url;
  GURL_of := toy_parse;
  EmptyGURL := UInvalid "";
  spec := toy_spec;
  is_valid := toy_valid;
  is_empty u := bool_decide (toy_spec u = EmptyString);
  IsAboutBlank u := match u with UAbout _ => true | _ => false end;
  SchemeIs u s := match u with
    | UAbout _ => bool_decide (s = "about"%string)
    | UFile _ => bool_decide (s = "file"%string)
    | UApp _ => bool_decide (s = "app"%string)
    | UOffline _ _ => bool_decide (s = "chrome"%string)
    | UWeb _ _ => bool_decide (s = "https"%string)
    | UInvalid _ => false
    end;
  SchemeIsFile u := match u with UFile _ => true | _ => false end;
  SchemeIsCryptographic u := match u with UWeb _ _ => true | _ => false end;
  url_scheme u := match u with
    | UAbout _ => "about" | UFile _ => "file" | UApp _ => "app"
    | UOffline _ _ => "chrome" | UWeb _ _ => "https" | UInvalid _ => ""
    end;
  url_host u := match u with UWeb o _ => o | UOffline _ _ => "offline" | _ => "" end;
  url_path u := match u with
    | UFile _ => "R" | UWeb _ p => p | UOffline p _ => p | _ => ""
    end;
  url_query u := match u with UAbout q => q | _ => "" end;
  url_ref u := match u with UFile r => r | _ => "" end;
  GetContent u := match u with UAbout q => q | _ => "" end;
  GetOrigin u := match u with UWeb o _ => UWeb o "" | _ => UInvalid "" end;
  GetAsReferrer u := match u with UWeb o p => UWeb o p | _ => UInvalid "" end;
  Resolve u _ := match u with UWeb o _ => UWeb o "" | _ => u end;
  EqualsIgnoringRef u v := match u, v with
    | UFile _, UFile _ => true
    | _, _ => bool_decide (u = v)
    end;
  ReplaceComponents := toy_replace;
  kAboutBlankURL := "a";
  kAboutScheme := "about";
  kFileScheme := "file";
  kDataScheme := "data";
  kStandardSchemeSeparator := "://";
  AppendQueryParameter u k v := match u with
    | UAbout q => UAbout (q +:+ k +:+ v)
    | UOffline p l => UOffline p (l ++ [(k, v)])
    | _ => u
    end;
  GetValueForKeyInQuery := toy_value;
  EscapeQueryParamValue s _ := s;
  UnescapeURLComponent s _ := s;
  URL_SPECIAL_CHARS_EXCEPT_PATH_SEPARATORS := 4;
  SPACES := 1;
  PATH_SEPARATORS := 2;
  StartsWith := starts_with;
  JSONWriter_Write v := "json";
  restore_session_resource_path := "R";
  IsAppSpecificURL u := match u with UApp _ => true | _ => false end;
  IsSlimNavigationManagerEnabled := true;
  PostBrowserURLRewriterCreation := [];
  FormatUrl u := map (λ c, Z.of_N (Ascii.N_of_ascii c))
                   (String.list_ascii_of_string (toy_spec u));
  ElideString s n := take (Z.to_nat n) s;
  PAGE_TRANSITION_LINK := 0;
  PAGE_TRANSITION_FORM_SUBMIT := 7;
  PAGE_TRANSITION_RELOAD := 8;
  PAGE_TRANSITION_CLIENT_REDIRECT := 1073741824;
  PAGE_TRANSITION_FORWARD_BACK := 16777216;
  PAGE_TRANSITION_IS_REDIRECT_MASK := 3221225472;
  PageTransitionIsRedirect t := negb (Z.land t 3221225472 =? 0);
  PageTransitionCoreTypeIs t c := Z.land t 255 =? Z.land c 255;
|}.

(** The URLs, at the type the environment gives them. *)
Definition web (origin path : string) : @GURL env := UWeb origin path.
Definition about (query : string) : @GURL env := UAbout query.
Definition app (page : string) : @GURL env := UApp page.
Definition file (ref : string) : @GURL env := UFile ref.

Lemma lor_forward_back t :
  Z.land (Z.lor t 16777216) 3221225472 = Z.land t 3221225472.
Proof. rewrite Z.land_lor_distr_l. by rewrite Z.lor_0_r. Qed.

#[export] Instance laws : WebEnvLaws.
Proof.
  split; simpl; try done; try (intros u; by destruct u).
  - exact toy_spec_parse.
  - intros u k v k' Hs. destruct u; try done. apply toy_param_snoc.
  - intros k v _. exact (starts_with_app k v).
  - intros k v. change ("" +:+ k +:+ v) with (k +:+ v).
    by rewrite starts_with_app, string_drop_app.
  - intros t. by rewrite lor_forward_back.
Qed.
End Toy.
