(* ===== verification/WkNavigationUtil.v ===== *)
(** * wk_navigation_util: placeholder and session restoration URLs

    Models src/web/navigation/wk_navigation_util.mm and
    src/web/history_state_util.cc. *)

From S2P Require Import Prelude.
From S2P Require Import WebEnv.

(** The part of the abstract class [web::NavigationItem] that session
    restoration reads; [NavigationItem.v] gives the implementation. *)
Class NavigationItemView `{!WebEnv} (I : Type) := {
  item_GetURL : I → GURL;
  item_GetTitle : I → string16;
}.

Section definitions.
Context `{ENV : WebEnv}.

Definition kMaxSessionSize : Z := 75.
Definition kRestoreSessionSessionHashPrefix : string := "session=".
Definition kRestoreSessionTargetUrlHashPrefix : string := "targetUrl=".
Definition kOriginalUrlKey : string := "for".

(** The positions of [*begin] and [*end] in a vector of [size] items. *)
Definition GetSafeItemIterators (last_committed_item_index size : Z) : Z * Z :=
  if size <=? kMaxSessionSize then (0, size)
  else if last_committed_item_index <? kMaxSessionSize / 2 then
    (0, kMaxSessionSize)
  else if to_size_t (size - last_committed_item_index) <? kMaxSessionSize / 2 then
    (size - kMaxSessionSize, size)
  else
    (last_committed_item_index - kMaxSessionSize / 2,
     last_committed_item_index + kMaxSessionSize / 2 + 1).

Definition IsPlaceholderUrl (url : GURL) : bool :=
  IsAboutBlank url && StartsWith (url_query url) kOriginalUrlKey.

Definition GetRestoreSessionBaseUrl : GURL :=
  ReplaceComponents (GURL_of kAboutBlankURL)
    (MkReplacements (Some kFileScheme) (Some restore_session_resource_path) None).

Definition IsRestoreSessionUrl (url : GURL) : bool :=
  SchemeIsFile url && bool_decide (url_path url = url_path GetRestoreSessionBaseUrl).

Definition IsWKInternalUrl (url : GURL) : bool :=
  IsPlaceholderUrl url || IsRestoreSessionUrl url.

(** Ends with [DCHECK(placeholder_url.is_valid())]. *)
Definition CreatePlaceholderUrlForUrl (original_url : GURL) : res GURL :=
  if negb (is_valid original_url) then Ok EmptyGURL
  else
    let placeholder_url :=
      AppendQueryParameter (GURL_of kAboutBlankURL) kOriginalUrlKey
        (spec original_url) in
    if is_valid placeholder_url then Ok placeholder_url else Crash DCheckFailed.

Definition ExtractUrlFromPlaceholderUrl (url : GURL) : GURL :=
  if IsPlaceholderUrl url then
    match GetValueForKeyInQuery url kOriginalUrlKey with
    | Some value =>
        let decoded_url := GURL_of value in
        if is_valid decoded_url then decoded_url else EmptyGURL
    | None => EmptyGURL
    end
  else EmptyGURL.

Definition URLNeedsUserAgentType (url : GURL) : bool :=
  if IsAppSpecificURL url then false
  else if SchemeIs url kAboutScheme && IsPlaceholderUrl url then
    negb (IsAppSpecificURL (ExtractUrlFromPlaceholderUrl url))
  else if SchemeIs url kAboutScheme then false
  else if SchemeIs url kFileScheme && IsRestoreSessionUrl url then true
  else if SchemeIs url kFileScheme then false
  else true.

Definition CreateRedirectUrl (target_url : GURL) : GURL :=
  ReplaceComponents GetRestoreSessionBaseUrl
    (MkReplacements None None
      (Some (kRestoreSessionTargetUrlHashPrefix +:+
             EscapeQueryParamValue (spec target_url) false))).

(** [Some target] when the code returns true and writes [target] to its
    output parameter. *)
Definition ExtractTargetURL (restore_session_url : GURL) : res (option GURL) :=
  if negb (IsRestoreSessionUrl restore_session_url) then Crash DCheckFailed
  else
    let ref := url_ref restore_session_url in
    if starts_with ref kRestoreSessionTargetUrlHashPrefix then
      let encoded_target_url :=
        string_drop (String.length kRestoreSessionTargetUrlHashPrefix) ref in
      let unescape_rules :=
        Z.lor (Z.lor URL_SPECIAL_CHARS_EXCEPT_PATH_SEPARATORS SPACES)
          PATH_SEPARATORS in
      Ok (Some (GURL_of (UnescapeURLComponent encoded_target_url unescape_rules)))
    else Ok None.

(** The loop [for (it = begin; it != end; ++it)] of CreateRestoreSessionUrl,
    with [n = end - begin] rounds left. *)
Fixpoint restored_entries {I : Type} `{!NavigationItemView I} (items : list I)
    (n : nat) (it : Z) : res (list string * list string16) :=
  match n with
  | O => Ok ([], [])
  | S n' =>
      match vec_at items it with
      | None => Crash OutOfRange
      | Some item =>
          let original_url := item_GetURL item in
          restored_url ←
            (if IsAppSpecificURL original_url
             then CreatePlaceholderUrlForUrl original_url
             else Ok original_url);
          '(urls, titles) ← restored_entries items n' (it + 1);
          Ok (spec restored_url :: urls, item_GetTitle item :: titles)
      end
  end.

(** [int offset = last_committed_item_index + 1 - new_size], computed in
    [size_t] and converted. *)
Definition restore_session_offset (last_committed_item_index new_size : Z) : Z :=
  to_int32 (to_size_t (last_committed_item_index + 1 - new_size)).

Definition CreateRestoreSessionUrl {I : Type} `{!NavigationItemView I}
    (last_committed_item_index : Z) (items : list I) : res GURL :=
  if negb ((0 <=? last_committed_item_index) &&
           (last_committed_item_index <? to_int32 (zlen items)))
  then Crash DCheckFailed
  else
    let '(begin, end_) :=
      GetSafeItemIterators last_committed_item_index (zlen items) in
    let new_size := end_ - begin in
    '(restored_urls, restored_titles) ←
      restored_entries items (Z.to_nat new_size) begin;
    let offset := restore_session_offset last_committed_item_index new_size in
    let session := MkSessionValue offset restored_urls restored_titles in
    let session_json := JSONWriter_Write session in
    let ref := kRestoreSessionSessionHashPrefix +:+
               EscapeQueryParamValue session_json false in
    Ok (ReplaceComponents GetRestoreSessionBaseUrl
          (MkReplacements None None (Some ref))).

(** src/web/history_state_util.cc *)
Definition IsHistoryStateChangeValid (current_url to_url : GURL) : res bool :=
  if negb (is_valid current_url) then Crash CheckFailed
  else if negb (is_valid to_url) then Crash CheckFailed
  else Ok (bool_decide (GetOrigin to_url = GetOrigin current_url)).
End definitions.

(** ** Lemmas *)
Section lemmas.
Context `{ENV : WebEnv} `{LAWS : !WebEnvLaws}.

Lemma restore_base_is_file : SchemeIsFile GetRestoreSessionBaseUrl = true.
Proof using All. apply law_replace_scheme. Qed.

Lemma restore_base_with_ref f :
  IsRestoreSessionUrl
    (ReplaceComponents GetRestoreSessionBaseUrl (MkReplacements None None f)) = true.
Proof using All.
  unfold IsRestoreSessionUrl.
  rewrite law_replace_ref_keeps_scheme, law_replace_ref_keeps_path.
  by rewrite restore_base_is_file, bool_decide_eq_true_2.
Qed.

Lemma CreateRedirectUrl_is_restore u : IsRestoreSessionUrl (CreateRedirectUrl u) = true.
Proof using All. apply restore_base_with_ref. Qed.

Lemma ExtractTargetURL_redirect u :
  is_valid u = true → ExtractTargetURL (CreateRedirectUrl u) = Ok (Some u).
Proof using All.
  intros Hv. unfold ExtractTargetURL. rewrite CreateRedirectUrl_is_restore.
  cbv beta iota zeta delta [negb]. unfold CreateRedirectUrl.
  rewrite law_replace_ref by (done || apply restore_base_is_file).
  rewrite starts_with_app, string_drop_app.
  by rewrite law_unescape_escape_spec, law_spec_roundtrip.
Qed.

Lemma CreatePlaceholderUrlForUrl_ok u :
  CreatePlaceholderUrlForUrl u =
  Ok (if is_valid u
      then AppendQueryParameter (GURL_of kAboutBlankURL) kOriginalUrlKey (spec u)
      else EmptyGURL).
Proof using All.
  unfold CreatePlaceholderUrlForUrl. destruct (is_valid u); simpl; [|done].
  by rewrite law_append_valid.
Qed.

Lemma placeholder_is_placeholder v :
  IsPlaceholderUrl
    (AppendQueryParameter (GURL_of kAboutBlankURL) kOriginalUrlKey v) = true.
Proof using All.
  unfold IsPlaceholderUrl. rewrite law_append_about_blank. by apply law_append_query.
Qed.

Lemma about_blank_not_restore u :
  IsAboutBlank u = true → IsRestoreSessionUrl u = false.
Proof using All.
  intros Hb. unfold IsRestoreSessionUrl.
  by rewrite law_about_not_file by by apply law_about_blank_scheme.
Qed.

Lemma placeholder_not_restore u :
  IsPlaceholderUrl u = true → IsRestoreSessionUrl u = false.
Proof using All.
  unfold IsPlaceholderUrl. intros [Hb _]%andb_true_iff. by apply about_blank_not_restore.
Qed.

Lemma empty_not_placeholder : IsPlaceholderUrl EmptyGURL = false.
Proof using All. unfold IsPlaceholderUrl. by rewrite law_empty_not_about_blank. Qed.

(** What session restoration stores for an item. *)
Definition restored_spec {I : Type} `{!NavigationItemView I} (item : I) : string :=
  spec (if IsAppSpecificURL (item_GetURL item)
        then match CreatePlaceholderUrlForUrl (item_GetURL item) with
             | Ok p => p | Crash _ => EmptyGURL end
        else item_GetURL item).

(** The items from position [it] on, [n] of them. *)
Definition window {I : Type} (n : nat) (it : Z) (items : list I) : list I :=
  take n (drop (Z.to_nat it) items).

Lemma restored_entries_step {I : Type} `{!NavigationItemView I} (items : list I) n it :
  restored_entries items (S n) it =
  match vec_at items it with
  | None => Crash OutOfRange
  | Some item =>
      match restored_entries items n (it + 1) with
      | Ok (urls, titles) =>
          Ok (restored_spec item :: urls, item_GetTitle item :: titles)
      | Crash c => Crash c
      end
  end.
Proof using All.
  simpl. destruct (vec_at items it) as [item|]; [|done]. unfold restored_spec.
  rewrite CreatePlaceholderUrlForUrl_ok.
  destruct (IsAppSpecificURL (item_GetURL item)); simpl;
    by destruct (restored_entries items n (it + 1)) as [[??]|].
Qed.

Lemma restored_entries_ok {I : Type} `{!NavigationItemView I} (items : list I) n it :
  0 <= it → it + Z.of_nat n <= zlen items →
  restored_entries items n it =
  Ok (restored_spec <$> window n it items, item_GetTitle <$> window n it items).
Proof using All.
  revert it. induction n as [|n IH]; intros it Hit Hn; [done|].
  rewrite restored_entries_step.
  destruct (vec_at_in_range items it) as [x Hx]; [lia|].
  rewrite Hx, IH by lia. rewrite vec_at_nonneg in Hx by lia.
  unfold window. rewrite (drop_S items x (Z.to_nat it)) by done.
  replace (Z.to_nat (it + 1)) with (S (Z.to_nat it)) by lia. done.
Qed.

Lemma restored_entries_overrun {I : Type} `{!NavigationItemView I} (items : list I) n it :
  0 <= it <= zlen items → zlen items < it + Z.of_nat n →
  restored_entries items n it = Crash OutOfRange.
Proof using All.
  revert it. induction n as [|n IH]; intros it Hit Hn; [lia|].
  rewrite restored_entries_step.
  destruct (vec_at items it) eqn:Hx; [|done].
  apply vec_at_Some_range in Hx. by rewrite IH by lia.
Qed.

(** The window of entries kept by session restoration. *)
Lemma GetSafeItemIterators_cases last n :
  0 <= last < n → n <= INT_MAX →
  let '(b, e) := GetSafeItemIterators last n in
  0 <= b <= last ∧ last < e ∧ e - b = Z.min n kMaxSessionSize ∧
  (e <= n ∨ e = n + 1) ∧
  (e = n + 1 ↔ kMaxSessionSize < n ∧ n - last = kMaxSessionSize / 2) ∧
  (b = 0 ↔ n <= kMaxSessionSize ∨ last <= kMaxSessionSize / 2).
Proof.
  unfold GetSafeItemIterators, kMaxSessionSize, to_size_t, INT_MAX.
  change (75 / 2) with 37. intros Hl Hn.
  rewrite (Z.mod_small (n - last)) by lia.
  repeat case_if; lia.
Qed.

Lemma restore_session_offset_exact last sz :
  0 <= last <= INT_MAX - 1 → 0 <= sz <= INT_MAX →
  restore_session_offset last sz = last + 1 - sz.
Proof.
  intros. unfold restore_session_offset.
  rewrite to_int32_size_t. apply to_int32_id.
  unfold in_int, INT_MIN, INT_MAX in *. lia.
Qed.

Lemma CreateRestoreSessionUrl_unfold {I : Type} `{!NavigationItemView I}
    last (items : list I) b e :
  0 <= last < zlen items → zlen items <= INT_MAX →
  GetSafeItemIterators last (zlen items) = (b, e) →
  CreateRestoreSessionUrl last items =
  match restored_entries items (Z.to_nat (e - b)) b with
  | Ok (urls, titles) =>
      Ok (ReplaceComponents GetRestoreSessionBaseUrl
           (MkReplacements None None
             (Some (kRestoreSessionSessionHashPrefix +:+
               EscapeQueryParamValue
                 (JSONWriter_Write
                   (MkSessionValue (last + 1 - (e - b)) urls titles)) false))))
  | Crash c => Crash c
  end.
Proof using All.
  intros Hl Hn Hbe. unfold CreateRestoreSessionUrl.
  rewrite to_int32_id by (unfold in_int, INT_MIN, INT_MAX in *; lia).
  rewrite (proj2 (Z.leb_le 0 last)), (proj2 (Z.ltb_lt last _)) by lia.
  cbv beta iota zeta delta [andb negb]. rewrite Hbe.
  pose proof (GetSafeItemIterators_cases last (zlen items) Hl Hn) as Hc.
  rewrite Hbe in Hc. unfold kMaxSessionSize in Hc.
  rewrite restore_session_offset_exact by (unfold INT_MAX in *; lia).
  by destruct (restored_entries items (Z.to_nat (e - b)) b) as [[??]|].
Qed.
End lemmas.

(** ** Properties *)

(** The window of session entries that GetSafeItemIterators selects starts
    inside the vector, contains the last committed entry and has exactly
    min(size, kMaxSessionSize) entries; its end is at most one past the end of
    the vector, and it is past the end exactly when the history is trimmed and
    37 entries lie at or after the last committed one. *)
Theorem GetSafeItemIterators_window last n :
  0 <= last < n → n <= INT_MAX →
  let '(b, e) := GetSafeItemIterators last n in
  0 <= b <= last ∧ last < e ∧ e - b = Z.min n kMaxSessionSize ∧ e <= n + 1 ∧
  (n < e ↔ kMaxSessionSize < n ∧ n - last = kMaxSessionSize / 2).
Proof.
  intros Hl Hn. pose proof (GetSafeItemIterators_cases last n Hl Hn) as H.
  destruct (GetSafeItemIterators last n) as [b e]. destruct H as (?&?&?&[?|?]&[H1 H2]&_).
  - repeat split; try lia; intros; exfalso; lia.
  - repeat split; try lia; intros; apply H1; lia.
Qed.

(** When the window stays inside the vector, CreateRestoreSessionUrl
    succeeds and returns a restore_session.html URL whose fragment encodes the
    URLs and titles of exactly the entries of the window, application-specific
    URLs being replaced by their placeholders. *)
Theorem CreateRestoreSessionUrl_encodes_window `{!WebEnv, !WebEnvLaws}
    {I : Type} `{!NavigationItemView I} last (items : list I) b e :
  0 <= last < zlen items → zlen items <= INT_MAX →
  GetSafeItemIterators last (zlen items) = (b, e) → e <= zlen items →
  ∃ u, CreateRestoreSessionUrl last items = Ok u ∧
    IsRestoreSessionUrl u = true ∧
    url_ref u = "session=" +:+
      EscapeQueryParamValue
        (JSONWriter_Write
          (MkSessionValue (last + 1 - (e - b))
            (restored_spec <$> window (Z.to_nat (e - b)) b items)
            (item_GetTitle <$> window (Z.to_nat (e - b)) b items))) false.
Proof.
  intros Hl Hn Hbe He.
  pose proof (GetSafeItemIterators_cases last (zlen items) Hl Hn) as Hc.
  rewrite Hbe in Hc.
  rewrite (CreateRestoreSessionUrl_unfold last items b e) by done.
  rewrite restored_entries_ok by lia.
  eexists. split; [done|]. split; [apply restore_base_with_ref|].
  by apply law_replace_ref; [apply restore_base_is_file|].
Qed.

(** On a trimmed history with exactly 37 entries at or after the last
    committed one, CreateRestoreSessionUrl reads one entry past the end of the
    vector. *)
Theorem CreateRestoreSessionUrl_reads_past_end `{!WebEnv, !WebEnvLaws}
    {I : Type} `{!NavigationItemView I} last (items : list I) :
  0 <= last → kMaxSessionSize < zlen items <= INT_MAX →
  zlen items - last = kMaxSessionSize / 2 →
  CreateRestoreSessionUrl last items = Crash OutOfRange.
Proof.
  intros Hl Hn H37.
  assert (0 <= last < zlen items) as Hl'.
  { change (kMaxSessionSize / 2) with 37 in H37. lia. }
  pose proof (GetSafeItemIterators_cases last (zlen items) Hl' (proj2 Hn)) as Hc.
  destruct (GetSafeItemIterators last (zlen items)) as [b e] eqn:Hbe.
  destruct Hc as (?&?&?&_&[_ Hend]&_). specialize (Hend (conj (proj1 Hn) H37)).
  rewrite (CreateRestoreSessionUrl_unfold last items b e) by (done || lia).
  by rewrite restored_entries_overrun by lia.
Qed.

(** Restore_session.html moves [offset] entries away from the last of the
    [new_size] entries it pushed; the entry reached is the last committed one
    exactly when no entry was trimmed from the front of the history.  Once 75
    entries or more precede the last committed one the offset is positive,
    which restore_session.html documents as impossible. *)
Theorem restore_session_offset_position last n b e :
  0 <= last < n → n <= INT_MAX → GetSafeItemIterators last n = (b, e) →
  let offset := restore_session_offset last (e - b) in
  (e - b - 1 + offset = last - b ↔ n <= kMaxSessionSize ∨ last <= kMaxSessionSize / 2) ∧
  (0 < offset ↔ kMaxSessionSize <= last).
Proof.
  intros Hl Hn Hbe. pose proof (GetSafeItemIterators_cases last n Hl Hn) as Hc.
  rewrite Hbe in Hc. cbv zeta. unfold kMaxSessionSize in *.
  rewrite restore_session_offset_exact by (unfold INT_MAX in *; lia).
  destruct Hc as (?&?&?&_&_&[Hb1 Hb2]). split; split; intros; lia.
Qed.

(** A valid URL survives the redirect encoding: the redirect URL is a
    restore_session.html URL, is no placeholder, and ExtractTargetURL gives
    the URL back. *)
Theorem redirect_url_roundtrip `{!WebEnv, !WebEnvLaws} u :
  is_valid u = true →
  IsRestoreSessionUrl (CreateRedirectUrl u) = true ∧
  IsPlaceholderUrl (CreateRedirectUrl u) = false ∧
  ExtractTargetURL (CreateRedirectUrl u) = Ok (Some u).
Proof.
  intros Hv. pose proof (CreateRedirectUrl_is_restore u) as Hr.
  split; [done|]. split; [|by apply ExtractTargetURL_redirect].
  destruct (IsPlaceholderUrl (CreateRedirectUrl u)) eqn:Hp; [|done].
  apply placeholder_not_restore in Hp. congruence.
Qed.

(** CreatePlaceholderUrlForUrl trips no DCHECK; the placeholder of a valid
    URL is recognised as one, is no restore_session.html URL, gives the URL
    back and needs a user agent exactly when the URL it stands for is not
    application specific; an invalid URL gives the empty URL, which stands for
    nothing. *)
Theorem placeholder_url_roundtrip `{!WebEnv, !WebEnvLaws} u :
  ∃ p, CreatePlaceholderUrlForUrl u = Ok p ∧
    IsPlaceholderUrl p = is_valid u ∧
    IsRestoreSessionUrl p && is_valid u = false ∧
    ExtractUrlFromPlaceholderUrl p = (if is_valid u then u else EmptyGURL) ∧
    (is_valid u = true → IsAppSpecificURL p = false →
     URLNeedsUserAgentType p = negb (IsAppSpecificURL u)).
Proof.
  eexists. split; [apply CreatePlaceholderUrlForUrl_ok|].
  destruct (is_valid u) eqn:Hv.
  - pose proof (placeholder_is_placeholder (spec u)) as Hp.
    assert (ExtractUrlFromPlaceholderUrl (AppendQueryParameter
              (GURL_of kAboutBlankURL) kOriginalUrlKey (spec u)) = u) as Hx.
    { unfold ExtractUrlFromPlaceholderUrl. rewrite Hp, law_append_lookup.
      by rewrite law_spec_roundtrip, Hv. }
    split; [done|]. split; [by rewrite placeholder_not_restore|]. split; [done|].
    intros _ Happ. unfold URLNeedsUserAgentType. rewrite Happ, Hp, Hx.
    by rewrite law_about_blank_scheme by apply law_append_about_blank.
  - split; [apply empty_not_placeholder|]. split; [by rewrite andb_false_r|].
    unfold ExtractUrlFromPlaceholderUrl. by rewrite empty_not_placeholder.
Qed.

(** ** Witnesses: the properties at concrete inputs *)

#[local] Existing Instance Toy.env.
#[local] Existing Instance Toy.laws.

#[local] Instance toy_item_view : @NavigationItemView Toy.env (@GURL Toy.env) := {|
  item_GetURL u := u;
  item_GetTitle _ := [];
|}.

Lemma GetSafeItemIterators_window_witness :
  (0 <= 90 < 100 ∧ 100 <= INT_MAX) ∧
  let '(b, e) := GetSafeItemIterators 90 100 in
  0 <= b <= 90 ∧ 90 < e ∧ e - b = Z.min 100 kMaxSessionSize ∧ e <= 100 + 1 ∧
  (100 < e ↔ kMaxSessionSize < 100 ∧ 100 - 90 = kMaxSessionSize / 2).
Proof.
  split; [unfold INT_MAX; lia|].
  apply (GetSafeItemIterators_window 90 100); unfold INT_MAX; lia.
Defined.

Lemma CreateRestoreSessionUrl_encodes_window_witness :
  ∃ u, CreateRestoreSessionUrl 1 [Toy.web "x" "y"; Toy.app "z"; Toy.web "t" ""] = Ok u ∧
    IsRestoreSessionUrl u = true ∧
    url_ref u = "session=" +:+
      EscapeQueryParamValue
        (JSONWriter_Write
          (MkSessionValue (1 + 1 - (3 - 0))
            (restored_spec <$> window (Z.to_nat (3 - 0)) 0
              [Toy.web "x" "y"; Toy.app "z"; Toy.web "t" ""])
            (item_GetTitle <$> window (Z.to_nat (3 - 0)) 0
              [Toy.web "x" "y"; Toy.app "z"; Toy.web "t" ""]))) false.
Proof.
  apply (CreateRestoreSessionUrl_encodes_window 1 _ 0 3);
    [unfold zlen; simpl; lia|unfold INT_MAX, zlen; simpl; lia|reflexivity|
     unfold zlen; simpl; lia].
Defined.

Lemma CreateRestoreSessionUrl_reads_past_end_witness :
  CreateRestoreSessionUrl 63 (replicate 100 (Toy.web "x" "y")) = Crash OutOfRange.
Proof.
  apply CreateRestoreSessionUrl_reads_past_end; unfold zlen, kMaxSessionSize, INT_MAX;
    rewrite ?length_replicate; [lia|lia|reflexivity].
Defined.

Lemma restore_session_offset_position_witness :
  (GetSafeItemIterators 99 100 = (25, 100)) ∧
  let offset := restore_session_offset 99 (100 - 25) in
  (100 - 25 - 1 + offset = 99 - 25 ↔ 100 <= kMaxSessionSize ∨ 99 <= kMaxSessionSize / 2) ∧
  (0 < offset ↔ kMaxSessionSize <= 99).
Proof.
  split; [reflexivity|].
  apply (restore_session_offset_position 99 100 25 100);
    [lia|unfold INT_MAX; lia|reflexivity].
Defined.

Lemma redirect_url_roundtrip_witness :
  let u := Toy.web "example.com" "path" in
  IsRestoreSessionUrl (CreateRedirectUrl u) = true ∧
  IsPlaceholderUrl (CreateRedirectUrl u) = false ∧
  ExtractTargetURL (CreateRedirectUrl u) = Ok (Some u).
Proof.
  exact (@redirect_url_roundtrip Toy.env Toy.laws (Toy.web "example.com" "path") eq_refl).
Defined.

Lemma placeholder_url_roundtrip_witness :
  let u := Toy.web "example.com" "path" in
  ∃ p, CreatePlaceholderUrlForUrl u = Ok p ∧
    IsPlaceholderUrl p = is_valid u ∧
    IsRestoreSessionUrl p && is_valid u = false ∧
    ExtractUrlFromPlaceholderUrl p = (if is_valid u then u else EmptyGURL) ∧
    (is_valid u = true → IsAppSpecificURL p = false →
     URLNeedsUserAgentType p = negb (IsAppSpecificURL u)).
Proof.
  exact (@placeholder_url_roundtrip Toy.env Toy.laws (Toy.web "example.com" "path")).
Defined.
