(* ===== verification/ErrorRetry.v ===== *)
(** * ErrorRetryStateMachine

    Models src/web/navigation/error_retry_state_machine.mm: the machine that
    follows the errors and retries of one navigation item. *)

From S2P Require Import Prelude.
From S2P Require Import WebEnv.
From S2P Require Import WkNavigationUtil.

Inductive ErrorRetryState : Set :=
  | kNewRequest
  | kNoNavigationError
  | kLoadingPlaceholder
  | kReadyToDisplayErrorForFailedNavigation
  | kDisplayingNativeErrorForFailedNavigation
  | kDisplayingWebErrorForFailedNavigation
  | kNavigatingToFailedNavigationItem
  | kRetryFailedNavigationItem.

Inductive ErrorRetryCommand : Set :=
  | kLoadPlaceholder
  | kLoadErrorView
  | kReload
  | kRewriteWebViewURL
  | kDoNothing.

#[export] Instance ErrorRetryState_eq_dec : EqDecision ErrorRetryState.
Proof. solve_decision. Defined.
#[export] Instance ErrorRetryCommand_eq_dec : EqDecision ErrorRetryCommand.
Proof. solve_decision. Defined.

Section machine.
Context `{ENV : WebEnv}.

Record ErrorRetryStateMachine := MkMachine {
  state_ : ErrorRetryState;
  machine_url_ : GURL;
}.

Notation MM := (M ErrorRetryStateMachine).

(** The default constructor; the copy constructor is the identity. *)
Definition ErrorRetryStateMachine_new : ErrorRetryStateMachine :=
  MkMachine kNewRequest EmptyGURL.

Definition SetState (st : ErrorRetryState) : MM unit :=
  modify (λ m, MkMachine st (machine_url_ m)).

Definition SetURL (url : GURL) : MM unit :=
  modify (λ m, MkMachine (state_ m) url).

Definition SetNoNavigationError : MM unit := SetState kNoNavigationError.

Definition SetDisplayingWebError : MM unit :=
  st ← gets state_;
  DCHECK (bool_decide (st = kReadyToDisplayErrorForFailedNavigation) ||
          bool_decide (st = kRetryFailedNavigationItem));;
  SetState kDisplayingWebErrorForFailedNavigation.

Definition BackForwardOrReloadFailed (web_view_url error_url : GURL)
    : MM ErrorRetryCommand :=
  SetState kReadyToDisplayErrorForFailedNavigation;;
  mret kLoadErrorView.

Definition DidFailProvisionalNavigation (web_view_url error_url : GURL)
    : MM ErrorRetryCommand :=
  st ← gets state_;
  match st with
  | kNewRequest =>
      if bool_decide (web_view_url = CreateRedirectUrl error_url) then
        SetState kReadyToDisplayErrorForFailedNavigation;;
        mret kLoadErrorView
      else
        SetState kLoadingPlaceholder;;
        mret kLoadPlaceholder
  | kNoNavigationError
  | kRetryFailedNavigationItem
  | kDisplayingNativeErrorForFailedNavigation
  | kDisplayingWebErrorForFailedNavigation =>
      BackForwardOrReloadFailed web_view_url error_url
  | kLoadingPlaceholder
  | kReadyToDisplayErrorForFailedNavigation
  | kNavigatingToFailedNavigationItem => NOTREACHED
  end.

Definition DidFailNavigation (web_view_url error_url : GURL)
    : MM ErrorRetryCommand :=
  st ← gets state_;
  match st with
  | kNewRequest =>
      SetState kReadyToDisplayErrorForFailedNavigation;;
      mret kLoadErrorView
  | kNoNavigationError
  | kRetryFailedNavigationItem
  | kDisplayingNativeErrorForFailedNavigation
  | kDisplayingWebErrorForFailedNavigation =>
      BackForwardOrReloadFailed web_view_url error_url
  | kLoadingPlaceholder
  | kReadyToDisplayErrorForFailedNavigation
  | kNavigatingToFailedNavigationItem => NOTREACHED
  end.

(** Cases (4), (10) and (5): a load finished while an error is displayed. *)
Definition DidFinishNavigation_displaying_error (web_view_url : GURL)
    : MM ErrorRetryCommand :=
  url ← gets machine_url_;
  placeholder ← lift_res (CreatePlaceholderUrlForUrl url);
  if bool_decide (web_view_url = placeholder) then
    SetState kNavigatingToFailedNavigationItem;;
    mret kRewriteWebViewURL
  else
    restored ←
      (if IsRestoreSessionUrl web_view_url then
         target ← lift_res (ExtractTargetURL web_view_url);
         mret (bool_decide (target = Some url))
       else mret false);
    if (restored : bool) then
      SetState kNoNavigationError;;
      mret kDoNothing
    else
      DCHECK (bool_decide (web_view_url = url));;
      SetState kNoNavigationError;;
      mret kDoNothing.

Definition DidFinishNavigation (web_view_url : GURL) : MM ErrorRetryCommand :=
  st ← gets state_;
  url ← gets machine_url_;
  match st with
  | kLoadingPlaceholder =>
      placeholder ← lift_res (CreatePlaceholderUrlForUrl url);
      DCHECK (bool_decide (web_view_url = placeholder));;
      SetState kReadyToDisplayErrorForFailedNavigation;;
      mret kLoadErrorView
  | kNewRequest =>
      if IsRestoreSessionUrl web_view_url then mret kDoNothing
      else SetState kNoNavigationError;; mret kDoNothing
  | kReadyToDisplayErrorForFailedNavigation =>
      DCHECK (bool_decide (web_view_url = url));;
      SetState kDisplayingWebErrorForFailedNavigation;;
      mret kDoNothing
  | kDisplayingNativeErrorForFailedNavigation
  | kDisplayingWebErrorForFailedNavigation =>
      DidFinishNavigation_displaying_error web_view_url
  | kNavigatingToFailedNavigationItem =>
      DCHECK (bool_decide (web_view_url = url));;
      SetState kRetryFailedNavigationItem;;
      mret kReload
  | kRetryFailedNavigationItem =>
      DCHECK (bool_decide (web_view_url = url));;
      SetState kNoNavigationError;;
      mret kDoNothing
  | kNoNavigationError => mret kDoNothing
  end.

(** ** The machine as a transition system

    The calls CRWWebController makes on the machine of an item. *)
Inductive MachineEvent :=
  | EvSetURL (url : GURL)
  | EvSetNoNavigationError
  | EvSetDisplayingWebError
  | EvDidFailProvisional (web_view_url error_url : GURL)
  | EvDidFail (web_view_url error_url : GURL)
  | EvDidFinish (web_view_url : GURL).

Definition run_event (ev : MachineEvent) : MM (option ErrorRetryCommand) :=
  match ev with
  | EvSetURL url => SetURL url;; mret None
  | EvSetNoNavigationError => SetNoNavigationError;; mret None
  | EvSetDisplayingWebError => SetDisplayingWebError;; mret None
  | EvDidFailProvisional w e => Some <$> DidFailProvisionalNavigation w e
  | EvDidFail w e => Some <$> DidFailNavigation w e
  | EvDidFinish w => Some <$> DidFinishNavigation w
  end.

Definition machine_step (m : ErrorRetryStateMachine) (ev : MachineEvent)
    (m' : ErrorRetryStateMachine) : Prop :=
  ∃ cmd, run_event ev m = Ok (cmd, m').
End machine.
Arguments ErrorRetryStateMachine {_}.
Arguments MachineEvent {_}.

(** ** Specification *)
Section specification.
Context `{ENV : WebEnv}.

(** The command that accompanies the entry into a state. *)
Definition command_of_state (st : ErrorRetryState) : ErrorRetryCommand :=
  match st with
  | kLoadingPlaceholder => kLoadPlaceholder
  | kReadyToDisplayErrorForFailedNavigation => kLoadErrorView
  | kNavigatingToFailedNavigationItem => kRewriteWebViewURL
  | kRetryFailedNavigationItem => kReload
  | _ => kDoNothing
  end.

(** The calls a machine accepts: the others trip a DCHECK. *)
Definition accepts (m : ErrorRetryStateMachine) (ev : MachineEvent) : Prop :=
  match ev with
  | EvSetURL _ | EvSetNoNavigationError => True
  | EvSetDisplayingWebError =>
      state_ m = kReadyToDisplayErrorForFailedNavigation ∨
      state_ m = kRetryFailedNavigationItem
  | EvDidFailProvisional _ _ | EvDidFail _ _ =>
      state_ m ≠ kLoadingPlaceholder ∧
      state_ m ≠ kReadyToDisplayErrorForFailedNavigation ∧
      state_ m ≠ kNavigatingToFailedNavigationItem
  | EvDidFinish w =>
      match state_ m with
      | kNewRequest | kNoNavigationError => True
      | kLoadingPlaceholder => CreatePlaceholderUrlForUrl (machine_url_ m) = Ok w
      | kReadyToDisplayErrorForFailedNavigation
      | kNavigatingToFailedNavigationItem
      | kRetryFailedNavigationItem => w = machine_url_ m
      | kDisplayingNativeErrorForFailedNavigation
      | kDisplayingWebErrorForFailedNavigation =>
          w = machine_url_ m ∨
          CreatePlaceholderUrlForUrl (machine_url_ m) = Ok w ∨
          IsRestoreSessionUrl w = true ∧
          ExtractTargetURL w = Ok (Some (machine_url_ m))
      end
  end.

(** The events of a list in order, with the commands they issue. *)
Fixpoint run_events (evs : list MachineEvent)
    : M ErrorRetryStateMachine (list ErrorRetryCommand) :=
  match evs with
  | [] => mret []
  | ev :: evs' =>
      cmd ← run_event ev;
      cmds ← run_events evs';
      mret (match cmd with Some c => c :: cmds | None => cmds end)
  end.
End specification.

Ltac machine_crush :=
  unfold run_event, DidFinishNavigation, DidFailProvisionalNavigation,
    DidFailNavigation, DidFinishNavigation_displaying_error,
    BackForwardOrReloadFailed, SetDisplayingWebError, SetNoNavigationError,
    SetURL, SetState, NOTREACHED, DCHECK, mbind, M_bind, fmap, M_fmap, gets,
    modify, lift_res, mret, M_ret, fail in *; simpl in *.

Section lemmas.
Context `{ENV : WebEnv} `{LAWS : !WebEnvLaws}.

Lemma ExtractTargetURL_total w :
  IsRestoreSessionUrl w = true → ∃ o, ExtractTargetURL w = Ok o.
Proof.
  intros Hw. unfold ExtractTargetURL. rewrite Hw. simpl.
  case_if; eauto.
Qed.

Lemma step_command m ev cmd m' :
  run_event ev m = Ok (Some cmd, m') →
  cmd = command_of_state (state_ m') ∧ machine_url_ m' = machine_url_ m.
Proof.
  destruct m as [[] u]; destruct ev; machine_crush; intros H;
    repeat case_match; simplify_eq; auto.
Qed.

Lemma step_not_native m ev m' :
  state_ m ≠ kDisplayingNativeErrorForFailedNavigation →
  machine_step m ev m' →
  state_ m' ≠ kDisplayingNativeErrorForFailedNavigation.
Proof.
  intros Hm [cmd H].
  destruct m as [[] u]; destruct ev; machine_crush;
    repeat case_match; simplify_eq; done.
Qed.
End lemmas.

(** ** Properties *)
Section properties.
Context `{ENV : WebEnv} `{LAWS : !WebEnvLaws}.

Lemma finish_displaying_accepts m w :
  is_ok (DidFinishNavigation_displaying_error w m) = true ↔
  w = machine_url_ m ∨
  CreatePlaceholderUrlForUrl (machine_url_ m) = Ok w ∨
  IsRestoreSessionUrl w = true ∧ ExtractTargetURL w = Ok (Some (machine_url_ m)).
Proof using All.
  destruct m as [st u]. unfold DidFinishNavigation_displaying_error. machine_crush.
  rewrite CreatePlaceholderUrlForUrl_ok. set (p := if is_valid u then _ else _).
  case_bool_decide as Hp; [naive_solver|].
  destruct (IsRestoreSessionUrl w) eqn:Hr.
  - destruct (ExtractTargetURL_total w Hr) as [o Ho]. rewrite Ho.
    case_bool_decide as Hou; [naive_solver|]. simpl. case_bool_decide; naive_solver.
  - simpl. case_bool_decide; naive_solver.
Qed.

(** A call on the machine trips a DCHECK exactly when [accepts] rejects
    it: a failure may not arrive while a placeholder or an error view is
    loading or a rewrite is under way, and a finished navigation must be to
    the tracked URL, to its placeholder or to a session entry that targets
    it, as the state requires. *)
Theorem run_event_accepts m ev :
  is_ok (run_event ev m) = true ↔ accepts m ev.
Proof using All.
  destruct ev as [url| | |w e|w e|w].
  1-5: destruct m as [[] u]; machine_crush; repeat case_match; simpl; naive_solver.
  destruct (state_ m) eqn:Hst.
  5,6: rewrite <- (finish_displaying_accepts m w) || idtac.
  all: unfold accepts; rewrite Hst; rewrite <- ?(finish_displaying_accepts m w);
    destruct m as [st u]; simpl in Hst; subst st;
    machine_crush; rewrite ?CreatePlaceholderUrlForUrl_ok;
    repeat case_match; simpl in *; simplify_eq; bool_to_prop; naive_solver.
Qed.

(** In every state reached from a new machine the command issued by a
    call is the one that belongs to the state entered (load the placeholder,
    load the error view, rewrite the URL, reload, or nothing), the tracked
    URL is kept by every call that issues a command, and the state
    kDisplayingNativeErrorForFailedNavigation is never entered. *)
Theorem reachable_commands m ev cmd m' :
  reachable machine_step ErrorRetryStateMachine_new m →
  run_event ev m = Ok (Some cmd, m') →
  cmd = command_of_state (state_ m') ∧ machine_url_ m' = machine_url_ m ∧
  state_ m' ≠ kDisplayingNativeErrorForFailedNavigation.
Proof using All.
  intros Hr Hrun. destruct (step_command _ _ _ _ Hrun) as [Hc Hu].
  split; [done|]. split; [done|].
  apply (step_not_native m ev); [|by eexists].
  apply (reachable_invariant machine_step
    (λ m, state_ m ≠ kDisplayingNativeErrorForFailedNavigation)
    ErrorRetryStateMachine_new); [done|apply step_not_native|done].
Qed.

Definition retry_events (u p : GURL) : list MachineEvent :=
  [EvDidFinish p; EvDidFinish u; EvDidFinish u].

(** C30: the retry protocol of the header comment.  A machine that displays an
    error for a valid URL answers the back/forward navigation to the
    placeholder with a rewrite, the rewritten URL with a reload, and a
    successful reload with kNoNavigationError; when the reload fails instead
    the error view is loaded again and the machine is back to displaying
    the error. *)
Theorem retry_protocol u p w e :
  is_valid u = true → CreatePlaceholderUrlForUrl u = Ok p →
  run_events (retry_events u p)
    (MkMachine kDisplayingWebErrorForFailedNavigation u) =
    Ok ([kRewriteWebViewURL; kReload; kDoNothing], MkMachine kNoNavigationError u) ∧
  run_events [EvDidFinish p; EvDidFinish u; EvDidFailProvisional w e; EvDidFinish u]
    (MkMachine kDisplayingWebErrorForFailedNavigation u) =
    Ok ([kRewriteWebViewURL; kReload; kLoadErrorView; kDoNothing],
        MkMachine kDisplayingWebErrorForFailedNavigation u).
Proof using All.
  intros Hv Hp. unfold retry_events, run_events.
  split; machine_crush; rewrite Hp; rewrite (bool_decide_eq_true_2 (p = p)) by done;
    simpl; rewrite (bool_decide_eq_true_2 (u = u)) by done; simpl;
    rewrite (bool_decide_eq_true_2 (u = u)) by done; done.
Qed.

(** The life of an item whose first load fails.  The machine asks for the
    placeholder, then for the error view once the placeholder has finished,
    and displays the error when the error page has finished under the
    item's URL. *)
Theorem first_failure_protocol u p w :
  CreatePlaceholderUrlForUrl u = Ok p → w ≠ CreateRedirectUrl u →
  run_events [EvSetURL u; EvDidFailProvisional w u; EvDidFinish p; EvDidFinish u]
    ErrorRetryStateMachine_new =
  Ok ([kLoadPlaceholder; kLoadErrorView; kDoNothing],
      MkMachine kDisplayingWebErrorForFailedNavigation u).
Proof using All.
  intros Hp Hw. unfold run_events. machine_crush.
  rewrite (bool_decide_eq_false_2 (w = _)) by done. simpl. rewrite Hp.
  rewrite (bool_decide_eq_true_2 (p = p)) by done. simpl.
  by rewrite (bool_decide_eq_true_2 (u = u)) by done.
Qed.
End properties.

(** ** Witnesses *)
#[local] Existing Instance Toy.env.
#[local] Existing Instance Toy.laws.

Lemma run_event_accepts_witness :
  is_ok (run_event (EvDidFinish (Toy.web "h" "p"))
          (MkMachine kRetryFailedNavigationItem (Toy.web "h" "p"))) = true ↔
  accepts (MkMachine kRetryFailedNavigationItem (Toy.web "h" "p"))
    (EvDidFinish (Toy.web "h" "p")).
Proof. apply run_event_accepts. Defined.

Lemma reachable_commands_witness :
  kLoadPlaceholder = command_of_state kLoadingPlaceholder ∧
  machine_url_ (MkMachine kLoadingPlaceholder EmptyGURL) =
    machine_url_ ErrorRetryStateMachine_new ∧
  kLoadingPlaceholder ≠ kDisplayingNativeErrorForFailedNavigation.
Proof.
  apply (reachable_commands ErrorRetryStateMachine_new
    (EvDidFailProvisional (Toy.web "h" "p") (Toy.web "h" "p"))
    kLoadPlaceholder (MkMachine kLoadingPlaceholder EmptyGURL)).
  - constructor.
  - reflexivity.
Defined.

Lemma retry_protocol_witness :
  let u := Toy.web "h" "p" in
  let p := Toy.about "forwh/p" in
  run_events (retry_events u p)
    (MkMachine kDisplayingWebErrorForFailedNavigation u) =
    Ok ([kRewriteWebViewURL; kReload; kDoNothing], MkMachine kNoNavigationError u) ∧
  run_events [EvDidFinish p; EvDidFinish u; EvDidFailProvisional u u; EvDidFinish u]
    (MkMachine kDisplayingWebErrorForFailedNavigation u) =
    Ok ([kRewriteWebViewURL; kReload; kLoadErrorView; kDoNothing],
        MkMachine kDisplayingWebErrorForFailedNavigation u).
Proof.
  apply (@retry_protocol Toy.env Toy.laws (Toy.web "h" "p") (Toy.about "forwh/p"));
    reflexivity.
Defined.

Lemma first_failure_protocol_witness :
  run_events [EvSetURL (Toy.web "h" "p");
              EvDidFailProvisional (Toy.web "h" "p") (Toy.web "h" "p");
              EvDidFinish (Toy.about "forwh/p"); EvDidFinish (Toy.web "h" "p")]
    ErrorRetryStateMachine_new =
  Ok ([kLoadPlaceholder; kLoadErrorView; kDoNothing],
      MkMachine kDisplayingWebErrorForFailedNavigation (Toy.web "h" "p")).
Proof.
  apply (@first_failure_protocol Toy.env Toy.laws _ (Toy.about "forwh/p"));
    [reflexivity|discriminate].
Defined.
