(* ===== verification/WebStateList.v ===== *)
(** * WebStateList: the tabs of a window

    Models src/chrome/browser/web_state_list/web_state_list.mm,
    web_state_list_order_controller.mm and web_state_opener.mm.  A WebState is
    a pointer into a heap of live WebStates; the list owns the WebStates it
    wraps, and openers are plain pointers. *)

From S2P Require Import Prelude.
From S2P Require Import WebEnv.

(** Addresses of WebStates. *)
Notation wsptr := positive.

Section data.
Context `{ENV : WebEnv}.

(** What the list reads of a WebState: its visible URL and the index of the
    last committed item of its navigation manager. *)
Record WebState := MkWebState {
  GetVisibleURL : GURL;
  GetLastCommittedItemIndex : Z;
}.

(** A null [opener] has an undefined [navigation_index]; the constructors of
    the code give it -1. *)
Record WebStateOpener := MkOpener {
  opener : option wsptr;
  navigation_index : Z;
}.

Record WebStateWrapper := MkWrapper {
  web_state : wsptr;
  opener_ : WebStateOpener;
}.

(** The calls on the delegate and on the observers, and the destruction of a
    WebState. *)
Inductive WebStateListEvent :=
  | EvWillAddWebState (ws : wsptr)
  | EvInsertedAt (ws : wsptr) (index : Z) (activating : bool)
  | EvMoved (ws : wsptr) (from_index to_index : Z)
  | EvReplacedAt (old_ws new_ws : wsptr) (index : Z)
  | EvWillDetachAt (ws : wsptr) (index : Z)
  | EvDetachedAt (ws : wsptr) (index : Z)
  | EvWillCloseAt (ws : wsptr) (index : Z) (user_action : bool)
  | EvActivatedAt (old_ws new_ws : option wsptr) (active_index : Z) (reason : Z)
  | EvDelegateDetached (ws : wsptr)
  | EvDestroyed (ws : wsptr).

(** [log_] lists the events so far, oldest first, each with the value of
    [locked_] at the time of the call. *)
Record WebStateList := MkWebStateList {
  web_state_wrappers_ : list WebStateWrapper;
  active_index_ : Z;
  locked_ : bool;
  heap_ : gmap wsptr WebState;
  log_ : list (bool * WebStateListEvent);
}.

End data.
Arguments WebState {_}.
Arguments WebStateList {_}.
Notation WM := (M WebStateList).

(** WebStateList::InsertionFlags and ClosingFlags. *)
Definition INSERT_NO_FLAGS : Z := 0.
Definition INSERT_ACTIVATE : Z := 1.
Definition INSERT_FORCE_INDEX : Z := 2.
Definition INSERT_INHERIT_OPENER : Z := 4.
Definition CLOSE_NO_FLAGS : Z := 0.
Definition CLOSE_USER_ACTION : Z := 1.

(** WebStateListObserver::ChangeReason. *)
Definition CHANGE_REASON_NONE : Z := 0.
Definition CHANGE_REASON_REPLACED : Z := 1.
Definition CHANGE_REASON_USER_ACTION : Z := 2.

Definition kInvalidIndex : Z := -1.

Definition IsInsertionFlagSet (flagset flag : Z) : bool :=
  Z.land flagset flag =? flag.
Definition IsClosingFlagSet (flagset flag : Z) : bool :=
  Z.land flagset flag =? flag.

(** [opener] must not be null. *)
Definition WasOpenedBy (w : WebStateWrapper) (opener_ptr : wsptr)
    (opener_navigation_index : Z) (use_group : bool) : bool :=
  if negb (bool_decide (opener (opener_ w) = Some opener_ptr)) then false
  else if negb use_group then true
  else navigation_index (opener_ w) =? opener_navigation_index.

(** ** Queries *)
Section queries.
Context `{ENV : WebEnv}.
Implicit Types (l : WebStateList).

Definition count l : Z := zlen (web_state_wrappers_ l).
Definition empty l : bool := count l =? 0.
Definition active_index l : Z := active_index_ l.

Definition ContainsIndex l (index : Z) : bool :=
  (0 <=? index) && (index <? count l).

Definition GetWebStateAt (index : Z) : WM wsptr :=
  b ← gets (λ l, ContainsIndex l index);
  DCHECK b;;
  ws ← gets web_state_wrappers_;
  w ← at_ ws index;
  mret (web_state w).

Definition GetActiveWebState : WM (option wsptr) :=
  i ← gets active_index_;
  if negb (i =? kInvalidIndex) then Some <$> GetWebStateAt i else mret None.

(** The first index from [index] on whose wrapper owns [ws]. *)
Fixpoint first_index_of (p : option wsptr) (ws : list WebStateWrapper)
    (index : Z) : Z :=
  match ws with
  | [] => kInvalidIndex
  | w :: ws' =>
      if bool_decide (Some (web_state w) = p) then index
      else first_index_of p ws' (index + 1)
  end.

Definition GetIndexOfWebState l (p : option wsptr) : Z :=
  first_index_of p (web_state_wrappers_ l) 0.

(** The first index from [index] on, [skip] left out, whose WebState has the
    visible URL [url]. *)
Fixpoint first_index_with_url (url : GURL) (skip : option Z)
    (ws : list WebStateWrapper) (index : Z) : WM Z :=
  match ws with
  | [] => mret kInvalidIndex
  | w :: ws' =>
      if bool_decide (skip = Some index) then
        first_index_with_url url skip ws' (index + 1)
      else
        s ← gets (λ l, heap_ l !! web_state w);
        s ← not_null s;
        if bool_decide (GetVisibleURL s = url) then mret index
        else first_index_with_url url skip ws' (index + 1)
  end.

Definition GetIndexOfWebStateWithURL (url : GURL) : WM Z :=
  ws ← gets web_state_wrappers_;
  first_index_with_url url None ws 0.

Definition GetIndexOfInactiveWebStateWithURL (url : GURL) : WM Z :=
  ws ← gets web_state_wrappers_;
  active ← gets active_index_;
  first_index_with_url url (Some active) ws 0.

Definition GetOpenerOfWebStateAt (index : Z) : WM WebStateOpener :=
  b ← gets (λ l, ContainsIndex l index);
  DCHECK b;;
  ws ← gets web_state_wrappers_;
  w ← at_ ws index;
  mret (opener_ w).

(** The loop of GetIndexOfNthWebStateOpenedBy from [index] on. *)
Fixpoint nth_opened_by (ws : list WebStateWrapper) (opener_ptr : wsptr)
    (opener_navigation_index : Z) (use_group : bool)
    (index n found_index : Z) : Z :=
  match ws with
  | [] => found_index
  | w :: ws' =>
      if n =? 0 then found_index
      else if WasOpenedBy w opener_ptr opener_navigation_index use_group then
        nth_opened_by ws' opener_ptr opener_navigation_index use_group
          (index + 1) (n - 1) index
      else if negb (found_index =? kInvalidIndex) then found_index
      else nth_opened_by ws' opener_ptr opener_navigation_index use_group
             (index + 1) n found_index
  end.

Definition GetIndexOfNthWebStateOpenedBy (opener : option wsptr)
    (start_index : Z) (use_group : bool) (n : Z) : WM Z :=
  DCHECK (0 <? n);;
  l ← gets id;
  match opener with
  | None => mret kInvalidIndex
  | Some opener_ptr =>
      if negb (ContainsIndex l start_index) || (start_index =? INT_MAX)
      then mret kInvalidIndex
      else
        opener_navigation_index ←
          (if use_group then
             s ← not_null (heap_ l !! opener_ptr);
             mret (GetLastCommittedItemIndex s)
           else mret (-1));
        mret (nth_opened_by
          (drop (Z.to_nat (start_index + 1)) (web_state_wrappers_ l))
          opener_ptr opener_navigation_index use_group
          (start_index + 1) n kInvalidIndex)
  end.

Definition GetIndexOfNextWebStateOpenedBy (opener : option wsptr)
    (start_index : Z) (use_group : bool) : WM Z :=
  GetIndexOfNthWebStateOpenedBy opener start_index use_group 1.

Definition GetIndexOfLastWebStateOpenedBy (opener : option wsptr)
    (start_index : Z) (use_group : bool) : WM Z :=
  GetIndexOfNthWebStateOpenedBy opener start_index use_group INT_MAX.

(** [WebStateOpener(opener)]: reads the navigation index of the opener. *)
Definition NavigationIndexFromWebState (ws : option wsptr) : WM Z :=
  match ws with
  | None => mret (-1)
  | Some p =>
      s ← gets (λ l, heap_ l !! p);
      s ← not_null s;
      mret (GetLastCommittedItemIndex s)
  end.

Definition WebStateOpener_of (ws : option wsptr) : WM WebStateOpener :=
  i ← NavigationIndexFromWebState ws;
  mret (MkOpener ws i).

Definition WebStateOpener_null : WebStateOpener := MkOpener None (-1).

(** ** WebStateListOrderController *)

Definition DetermineInsertionIndex (opener : option wsptr) : WM Z :=
  l ← gets id;
  match opener with
  | None => mret (count l)
  | Some _ =>
      let opener_index := GetIndexOfWebState l opener in
      DCHECK (negb (opener_index =? kInvalidIndex));;
      list_child_index ← GetIndexOfLastWebStateOpenedBy opener opener_index true;
      let reference_index :=
        if negb (list_child_index =? kInvalidIndex) then list_child_index
        else opener_index in
      DCHECK (reference_index <? INT_MAX);;
      mret (reference_index + 1)
  end.

Definition GetValidIndex (index removing_index : Z) : Z :=
  if removing_index <? index then Z.min 0 (index - 1) else index.

Definition DetermineNewActiveIndex (removing_index : Z) : WM Z :=
  l ← gets id;
  DCHECK (ContainsIndex l removing_index);;
  removing ← GetWebStateAt removing_index;
  index ← GetIndexOfNextWebStateOpenedBy (Some removing) removing_index false;
  if negb (index =? kInvalidIndex) then
    mret (GetValidIndex index removing_index)
  else
    o ← GetOpenerOfWebStateAt removing_index;
    match opener o with
    | Some _ =>
        index ← GetIndexOfNextWebStateOpenedBy (opener o) removing_index false;
        if negb (index =? kInvalidIndex) then
          mret (GetValidIndex index removing_index)
        else mret (GetValidIndex (GetIndexOfWebState l (opener o)) removing_index)
    | None =>
        if count l =? 1 then mret kInvalidIndex
        else if count l - 1 <=? removing_index then mret (removing_index - 1)
        else mret removing_index
    end.
End queries.

(** ** Operations *)
Section operations.
Context `{ENV : WebEnv}.

Definition set_wrappers (ws : list WebStateWrapper) : WM unit :=
  modify (λ l, MkWebStateList ws (active_index_ l) (locked_ l) (heap_ l) (log_ l)).
Definition set_active_index (i : Z) : WM unit :=
  modify (λ l, MkWebStateList (web_state_wrappers_ l) i (locked_ l) (heap_ l) (log_ l)).
Definition set_locked (b : bool) : WM unit :=
  modify (λ l, MkWebStateList (web_state_wrappers_ l) (active_index_ l) b (heap_ l) (log_ l)).
Definition notify (e : WebStateListEvent) : WM unit :=
  modify (λ l, MkWebStateList (web_state_wrappers_ l) (active_index_ l) (locked_ l)
                 (heap_ l) (log_ l ++ [(locked_ l, e)])).
(** Destruction of an owned WebState. *)
Definition destroy (ws : wsptr) : WM unit :=
  modify (λ l, MkWebStateList (web_state_wrappers_ l) (active_index_ l) (locked_ l)
                 (delete ws (heap_ l)) (log_ l ++ [(locked_ l, EvDestroyed ws)])).

(** [CHECK(!locked_); base::AutoReset<bool> scoped_lock(&locked_, true); m] *)
Definition with_lock {A} (m : WM A) : WM A :=
  old ← gets locked_;
  CHECK (negb old);;
  set_locked true;;
  r ← m;
  set_locked old;;
  mret r.

Definition SetOpenerOfWebStateAt (index : Z) (o : WebStateOpener) : WM unit :=
  l ← gets id;
  DCHECK (ContainsIndex l index);;
  DCHECK (ContainsIndex l (GetIndexOfWebState l (opener o)));;
  w ← at_ (web_state_wrappers_ l) index;
  set_wrappers (vec_set (web_state_wrappers_ l) index (MkWrapper (web_state w) o)).

Definition NotifyIfActiveWebStateChanged (old_web_state : option wsptr)
    (reason : Z) : WM unit :=
  new_web_state ← GetActiveWebState;
  if bool_decide (old_web_state = new_web_state) then mret tt
  else
    i ← gets active_index_;
    notify (EvActivatedAt old_web_state new_web_state i reason).

Definition ActivateWebStateAt (index : Z) : WM unit :=
  b ← gets (λ l, ContainsIndex l index);
  DCHECK b;;
  old_web_state ← GetActiveWebState;
  set_active_index index;;
  NotifyIfActiveWebStateChanged old_web_state CHANGE_REASON_USER_ACTION.

Definition clear_opener (old_web_state : wsptr) (w : WebStateWrapper) : WebStateWrapper :=
  if bool_decide (opener (opener_ w) = Some old_web_state)
  then MkWrapper (web_state w) WebStateOpener_null else w.

Definition ClearOpenersReferencing (index : Z) : WM unit :=
  ws ← gets web_state_wrappers_;
  w ← at_ ws index;
  set_wrappers (clear_opener (web_state w) <$> ws).

Definition InsertWebState (index : Z) (ws : wsptr) (insertion_flags : Z)
    (o : WebStateOpener) : WM Z :=
  let activating := IsInsertionFlagSet insertion_flags INSERT_ACTIVATE in
  index ← with_lock (
    o ← (if IsInsertionFlagSet insertion_flags INSERT_INHERIT_OPENER
         then active ← GetActiveWebState; WebStateOpener_of active
         else mret o);
    index ← (if negb (IsInsertionFlagSet insertion_flags INSERT_FORCE_INDEX) then
               index ← DetermineInsertionIndex (opener o);
               c ← gets count;
               mret (if (index <? 0) || (c <? index) then c else index)
             else mret index);
    l ← gets id;
    DCHECK (ContainsIndex l index || (index =? count l));;
    notify (EvWillAddWebState ws);;
    set_wrappers (vec_insert (web_state_wrappers_ l) index
                    (MkWrapper ws WebStateOpener_null));;
    whenM (index <=? active_index_ l) (set_active_index (active_index_ l + 1));;
    notify (EvInsertedAt ws index activating);;
    whenM (bool_decide (is_Some (opener o))) (SetOpenerOfWebStateAt index o);;
    mret index);
  whenM activating (ActivateWebStateAt index);;
  mret index.

Definition MoveWebStateAt (from_index to_index : Z) : WM unit :=
  with_lock (
    l ← gets id;
    DCHECK (ContainsIndex l from_index);;
    DCHECK (ContainsIndex l to_index);;
    if from_index =? to_index then mret tt
    else
      w ← at_ (web_state_wrappers_ l) from_index;
      set_wrappers (vec_insert (vec_erase (web_state_wrappers_ l) from_index)
                      to_index w);;
      (if active_index_ l =? from_index then set_active_index to_index
       else
         let min := Z.min from_index to_index in
         let max := Z.max from_index to_index in
         let delta := if from_index <? to_index then -1 else 1 in
         whenM ((min <=? active_index_ l) && (active_index_ l <=? max))
           (set_active_index (active_index_ l + delta)));;
      notify (EvMoved (web_state w) from_index to_index)).

(** Returns the WebState replaced, whose ownership goes to the caller. *)
Definition ReplaceWebStateAt (index : Z) (ws : wsptr) : WM wsptr :=
  b ← gets (λ l, ContainsIndex l index);
  DCHECK b;;
  notify (EvWillAddWebState ws);;
  ClearOpenersReferencing index;;
  wrappers ← gets web_state_wrappers_;
  w ← at_ wrappers index;
  DCHECK (negb (bool_decide (ws = web_state w)));;
  set_wrappers (vec_set wrappers index (MkWrapper ws WebStateOpener_null));;
  notify (EvReplacedAt (web_state w) ws index);;
  NotifyIfActiveWebStateChanged (Some (web_state w)) CHANGE_REASON_REPLACED;;
  notify (EvDelegateDetached (web_state w));;
  mret (web_state w).

(** The wrapper emptied by [ReplaceWebState(nullptr)] is erased by the next
    statement: the two are one step here. *)
Definition DetachWebStateAt (index : Z) : WM wsptr :=
  with_lock (
    b ← gets (λ l, ContainsIndex l index);
    DCHECK b;;
    new_active_index ← DetermineNewActiveIndex index;
    l ← gets id;
    w ← at_ (web_state_wrappers_ l) index;
    notify (EvWillDetachAt (web_state w) index);;
    ClearOpenersReferencing index;;
    wrappers ← gets web_state_wrappers_;
    set_wrappers (vec_erase wrappers index);;
    let active_web_state_was_closed := index =? active_index_ l in
    (if index <? active_index_ l then set_active_index (active_index_ l - 1)
     else whenM (active_index_ l =? index) (set_active_index new_active_index));;
    notify (EvDetachedAt (web_state w) index);;
    whenM active_web_state_was_closed
      (NotifyIfActiveWebStateChanged (Some (web_state w)) CHANGE_REASON_NONE);;
    notify (EvDelegateDetached (web_state w));;
    mret (web_state w)).

Definition CloseWebStateAt (index close_flags : Z) : WM unit :=
  detached_web_state ← DetachWebStateAt index;
  with_lock (
    let user_action := IsClosingFlagSet close_flags CLOSE_USER_ACTION in
    notify (EvWillCloseAt detached_web_state index user_action);;
    destroy detached_web_state).

(** [while (!empty()) CloseWebStateAt(count() - 1, close_flags)], with a bound
    on the number of rounds; [None] when the bound is reached. *)
Fixpoint CloseAllWebStates (fuel : nat) (close_flags : Z) : WM (option unit) :=
  e ← gets empty;
  if (e : bool) then mret (Some tt)
  else
    match fuel with
    | O => mret None
    | S fuel' =>
        c ← gets count;
        CloseWebStateAt (c - 1) close_flags;;
        CloseAllWebStates fuel' close_flags
    end.

(** The constructor; the delegate and the observers are the log. *)
Definition WebStateList_new (heap : gmap wsptr WebState) : WebStateList :=
  MkWebStateList [] kInvalidIndex false heap [].

(** [~WebStateList()] *)
Definition WebStateList_destructor (fuel : nat) : WM (option unit) :=
  locked ← gets locked_;
  CHECK (negb locked);;
  CloseAllWebStates fuel CLOSE_NO_FLAGS.
End operations.
