(* ===== verification/WebStateListLemmas.v ===== *)
(** * WebStateList: the invariant and the effect of each operation *)

From S2P Require Import Prelude.
From S2P Require Import WebEnv.
From S2P Require Import WebStateList.

Section invariant.
Context `{ENV : WebEnv}.
Implicit Types (l : WebStateList).

(** The WebStates of the list, in order. *)
Definition web_states l : list wsptr := web_state <$> web_state_wrappers_ l.

Definition active_web_state l : option wsptr := vec_at (web_states l) (active_index_ l).

(** The list owns each of its WebStates once and keeps it alive, every opener
    is another WebState of the list, and the active index is the invalid index
    or an index of the list; [int] counts its elements. *)
Record wsl_inv l : Prop := {
  inv_nodup : NoDup (web_states l);
  inv_live : ∀ p, p ∈ web_states l → is_Some (heap_ l !! p);
  inv_openers : ∀ w p, w ∈ web_state_wrappers_ l → opener (opener_ w) = Some p →
    p ∈ web_states l ∧ p ≠ web_state w;
  inv_active : -1 <= active_index_ l < count l;
  inv_count : count l < INT_MAX;
}.

Lemma count_web_states l : zlen (web_states l) = count l.
Proof. apply zlen_fmap. Qed.

Lemma web_states_at l i : vec_at (web_states l) i = web_state <$> vec_at (web_state_wrappers_ l) i.
Proof. apply vec_at_fmap. Qed.

Lemma wrapper_at l i :
  0 <= i < count l → ∃ w, vec_at (web_state_wrappers_ l) i = Some w.
Proof. apply vec_at_in_range. Qed.

Lemma wrapper_at_range l i w :
  vec_at (web_state_wrappers_ l) i = Some w → 0 <= i < count l.
Proof. apply vec_at_Some_range. Qed.

Lemma ContainsIndex_spec l i : ContainsIndex l i = true ↔ 0 <= i < count l.
Proof. unfold ContainsIndex. rewrite andb_true_iff, Z.leb_le, Z.ltb_lt. done. Qed.

Lemma ContainsIndex_at l i w :
  vec_at (web_state_wrappers_ l) i = Some w → ContainsIndex l i = true.
Proof. intros H. apply ContainsIndex_spec. by eapply wrapper_at_range. Qed.

(** ** Lookups *)

Lemma first_index_of_spec p ws k :
  let r := first_index_of (Some p) ws k in
  (r = -1 ∧ p ∉ web_state <$> ws) ∨
  (k <= r ∧ vec_at (web_state <$> ws) (r - k) = Some p).
Proof.
  revert k. induction ws as [|w ws IH]; intros k; simpl.
  { left. split; [done|]. apply not_elem_of_nil. }
  case_bool_decide as Hw.
  - right. split; [lia|]. rewrite Z.sub_diag, vec_at_nonneg by lia. simpl. congruence.
  - destruct (IH (k + 1)) as [[-> Hn]|[Hk Hr]].
    + left. split; [done|]. rewrite not_elem_of_cons. split; [naive_solver|done].
    + right. split; [lia|].
      rewrite vec_at_nonneg in Hr by lia. rewrite vec_at_nonneg by lia.
      replace (Z.to_nat (_ - k)) with (S (Z.to_nat (first_index_of (Some p) ws (k + 1) - (k + 1)))) by lia.
      done.
Qed.

Lemma GetIndexOfWebState_in l p :
  p ∈ web_states l → vec_at (web_states l) (GetIndexOfWebState l (Some p)) = Some p.
Proof.
  intros Hp. destruct (first_index_of_spec p (web_state_wrappers_ l) 0) as [[_ Hn]|[_ Hr]].
  - done.
  - by rewrite Z.sub_0_r in Hr.
Qed.

Lemma GetIndexOfWebState_in_range l p :
  p ∈ web_states l → 0 <= GetIndexOfWebState l (Some p) < count l.
Proof.
  intros Hp%GetIndexOfWebState_in%vec_at_Some_range. by rewrite count_web_states in Hp.
Qed.

Lemma GetIndexOfWebState_not_in l p :
  p ∉ web_states l → GetIndexOfWebState l (Some p) = kInvalidIndex.
Proof.
  intros Hp. destruct (first_index_of_spec p (web_state_wrappers_ l) 0) as [[Hr _]|[_ Hr]].
  - done.
  - destruct Hp. apply elem_of_vec_at. eauto.
Qed.

Lemma wp_GetWebStateAt i Q l :
  wp (GetWebStateAt i) Q l ↔ ∃ w, vec_at (web_state_wrappers_ l) i = Some w ∧ Q (web_state w) l.
Proof.
  unfold GetWebStateAt. wp_simp. split.
  - intros (_ & w & Hw & HQ). eauto.
  - intros (w & Hw & HQ). split; [by eapply ContainsIndex_at|eauto].
Qed.

Lemma wp_GetOpenerOfWebStateAt i Q l :
  wp (GetOpenerOfWebStateAt i) Q l ↔
  ∃ w, vec_at (web_state_wrappers_ l) i = Some w ∧ Q (opener_ w) l.
Proof.
  unfold GetOpenerOfWebStateAt. wp_simp. split.
  - intros (_ & w & Hw & HQ). eauto.
  - intros (w & Hw & HQ). split; [by eapply ContainsIndex_at|eauto].
Qed.

Lemma wp_GetActiveWebState Q l :
  -1 <= active_index_ l < count l →
  wp GetActiveWebState Q l ↔ Q (active_web_state l) l.
Proof.
  intros Ha. unfold GetActiveWebState, active_web_state. wp_simp.
  rewrite web_states_at. case_if.
  - unfold kInvalidIndex in *. destruct (wrapper_at l (active_index_ l)) as [w Hw]; [lia|].
    wp_simp. rewrite wp_GetWebStateAt, Hw. simpl. naive_solver.
  - wp_simp. rewrite (proj2 (vec_at_None _ _)) by (unfold kInvalidIndex in *; lia). done.
Qed.

(** ** Openers *)

Definition opened_by (ws : list WebStateWrapper) (p : wsptr) (nav : Z) (g : bool) (i : Z) : Prop :=
  ∃ w, vec_at ws i = Some w ∧ WasOpenedBy w p nav g = true.

Lemma opened_by_range ws p nav g i : opened_by ws p nav g i → 0 <= i < zlen ws.
Proof. intros (w & Hw & _). by eapply vec_at_Some_range. Qed.

Lemma opened_by_0 w ws p nav g :
  opened_by (w :: ws) p nav g 0 ↔ WasOpenedBy w p nav g = true.
Proof.
  unfold opened_by. rewrite vec_at_nonneg by lia. simpl. naive_solver.
Qed.

Lemma opened_by_cons w ws p nav g i :
  0 < i → opened_by (w :: ws) p nav g i ↔ opened_by ws p nav g (i - 1).
Proof.
  intros Hi. unfold opened_by. rewrite !vec_at_nonneg by lia.
  replace (Z.to_nat i) with (S (Z.to_nat (i - 1))) by lia. done.
Qed.

Lemma opened_by_drop ws p nav g n i :
  0 <= i → opened_by (drop n ws) p nav g i ↔ opened_by ws p nav g (Z.of_nat n + i).
Proof. intros. unfold opened_by. by rewrite vec_at_drop. Qed.

(** The rest of a run: [f] is the index found last, just before [k]. *)
Lemma nth_opened_by_run ws p nav g k n f :
  f = k - 1 → 0 <= f → 0 <= n →
  let r := nth_opened_by ws p nav g k n f in
  f <= r <= f + n ∧ (∀ i, f < i <= r → opened_by ws p nav g (i - k)) ∧
  (r = f + n ∨ ¬ opened_by ws p nav g (r + 1 - k)).
Proof.
  revert k n f. induction ws as [|w ws IH]; intros k n f -> Hf Hn; simpl.
  { split; [lia|]. split; [lia|]. right. intros H%opened_by_range. unfold zlen in H; simpl in H; lia. }
  destruct (Z.eqb_spec n 0) as [->|Hn0].
  { split; [lia|]. split; [lia|]. left. lia. }
  destruct (WasOpenedBy w p nav g) eqn:Hw.
  - destruct (IH (k + 1) (n - 1) k) as (Hr & Hall & Hend); [lia..|].
    set (r := nth_opened_by _ _ _ _ _ _ _) in *.
    split; [lia|]. split.
    + intros i Hi. destruct (decide (i = k)) as [->|].
      * rewrite Z.sub_diag. by apply opened_by_0.
      * apply opened_by_cons; [lia|]. replace (i - k - 1) with (i - (k + 1)) by lia.
        apply Hall. lia.
    + destruct Hend as [->|Hend]; [left; lia|right].
      rewrite opened_by_cons by lia. by replace (r + 1 - k - 1) with (r + 1 - (k + 1)) by lia.
  - rewrite (proj2 (Z.eqb_neq _ _)) by (unfold kInvalidIndex; lia). simpl.
    split; [lia|]. split; [lia|]. right.
    replace (k - 1 + 1 - k) with 0 by lia. rewrite opened_by_0. congruence.
Qed.

(** The whole search from [k] on: nothing, or the end of the first run. *)
Lemma nth_opened_by_spec ws p nav g k n :
  0 <= k → 0 < n →
  let r := nth_opened_by ws p nav g k n kInvalidIndex in
  (r = kInvalidIndex ∧ ∀ i, k <= i → ¬ opened_by ws p nav g (i - k)) ∨
  ∃ s, k <= s <= r ∧ r < s + n ∧
    (∀ i, k <= i < s → ¬ opened_by ws p nav g (i - k)) ∧
    (∀ i, s <= i <= r → opened_by ws p nav g (i - k)) ∧
    (r = s + n - 1 ∨ ¬ opened_by ws p nav g (r + 1 - k)).
Proof.
  revert k. induction ws as [|w ws IH]; intros k Hk Hn; simpl.
  { left. split; [done|]. intros i _ H%opened_by_range. unfold zlen in H; simpl in H; lia. }
  rewrite (proj2 (Z.eqb_neq n 0)) by lia.
  destruct (WasOpenedBy w p nav g) eqn:Hw.
  - right. destruct (nth_opened_by_run ws p nav g (k + 1) (n - 1) k) as (Hr & Hall & Hend); [lia..|].
    set (r := nth_opened_by _ _ _ _ _ _ _) in *. exists k.
    split; [lia|]. split; [lia|]. split; [lia|]. split.
    + intros i Hi. destruct (decide (i = k)) as [->|].
      * rewrite Z.sub_diag. by apply opened_by_0.
      * apply opened_by_cons; [lia|]. replace (i - k - 1) with (i - (k + 1)) by lia.
        apply Hall. lia.
    + destruct Hend as [->|Hend]; [left; lia|right].
      rewrite opened_by_cons by lia. by replace (r + 1 - k - 1) with (r + 1 - (k + 1)) by lia.
  - assert (¬ opened_by (w :: ws) p nav g 0) as H0 by (rewrite opened_by_0; congruence).
    assert (∀ i, k < i → opened_by (w :: ws) p nav g (i - k) ↔ opened_by ws p nav g (i - (k + 1))) as Hc.
    { intros i Hi. rewrite opened_by_cons by lia. by replace (i - k - 1) with (i - (k + 1)) by lia. }
    destruct (IH (k + 1)) as [[Hr Hnone]|(s & Hs & Hsn & Hpre & Hall & Hend)]; [lia..| |].
    + left. split; [done|]. intros i Hi. destruct (decide (i = k)) as [->|].
      * by rewrite Z.sub_diag.
      * rewrite Hc by lia. apply Hnone. lia.
    + right. exists s. set (r := nth_opened_by _ _ _ _ _ _ _) in *.
      split; [lia|]. split; [lia|]. split; [|split].
      * intros i Hi. destruct (decide (i = k)) as [->|]; [by rewrite Z.sub_diag|].
        rewrite Hc by lia. apply Hpre. lia.
      * intros i Hi. rewrite Hc by lia. apply Hall. lia.
      * destruct Hend as [?|Hend]; [by left|right]. by rewrite Hc by lia.
Qed.

(** The navigation index compared with, for a live opener. *)
Definition group_index l (p : wsptr) (use_group : bool) : Z :=
  if use_group then
    match heap_ l !! p with Some s => GetLastCommittedItemIndex s | None => -1 end
  else -1.

Definition nth_opened l p start g n : Z :=
  nth_opened_by (drop (Z.to_nat (start + 1)) (web_state_wrappers_ l)) p
    (group_index l p g) g (start + 1) n kInvalidIndex.

Lemma wp_GetIndexOfNthWebStateOpenedBy l p start g n Q :
  0 < n → 0 <= start < count l → start < INT_MAX → is_Some (heap_ l !! p) →
  Q (nth_opened l p start g n) l →
  wp (GetIndexOfNthWebStateOpenedBy (Some p) start g n) Q l.
Proof.
  intros Hn Hs Hm [s Hp] HQ. unfold GetIndexOfNthWebStateOpenedBy. wp_simp.
  split; [by apply Z.ltb_lt|]. simpl.
  rewrite (proj2 (ContainsIndex_spec l start)) by done.
  rewrite (proj2 (Z.eqb_neq start INT_MAX)) by lia. simpl.
  wp_simp. unfold nth_opened, group_index in HQ. rewrite Hp in HQ.
  destruct g; wp_simp; eauto.
Qed.

Lemma nth_opened_spec l p start g n :
  0 < n → 0 <= start →
  let r := nth_opened l p start g n in
  let opened := opened_by (web_state_wrappers_ l) p (group_index l p g) g in
  (r = kInvalidIndex ∧ ∀ i, start < i → ¬ opened i) ∨
  ∃ s, start < s <= r ∧ r < count l ∧ r < s + n ∧
    (∀ i, start < i < s → ¬ opened i) ∧ (∀ i, s <= i <= r → opened i) ∧
    (r = s + n - 1 ∨ ¬ opened (r + 1)).
Proof.
  intros Hn Hs. unfold nth_opened. cbv zeta.
  set (nav := group_index l p g). set (d := drop _ _).
  assert (∀ i, start + 1 <= i → opened_by d p nav g (i - (start + 1)) ↔
            opened_by (web_state_wrappers_ l) p nav g i) as Hd.
  { intros i Hi. unfold d. rewrite opened_by_drop by lia.
    by replace (Z.of_nat (Z.to_nat (start + 1)) + (i - (start + 1))) with i by lia. }
  destruct (nth_opened_by_spec d p nav g (start + 1) n) as [[Hr Hnone]|(s & Hs' & Hsn & Hpre & Hall & Hend)];
    [lia..| |].
  - left. split; [done|]. intros i Hi. rewrite <- Hd by lia. apply Hnone. lia.
  - right. exists s. set (r := nth_opened_by _ _ _ _ _ _ _) in *.
    assert (∀ i, s <= i <= r → opened_by (web_state_wrappers_ l) p nav g i) as Hall'.
    { intros i Hi. rewrite <- Hd by lia. by apply Hall. }
    split; [lia|]. split; [by apply (opened_by_range _ _ _ _ _ (Hall' r ltac:(lia)))|].
    split; [lia|]. split; [|split; [done|]].
    + intros i Hi. rewrite <- Hd by lia. apply Hpre. lia.
    + destruct Hend as [?|Hend]; [by left|right]. by rewrite <- Hd by lia.
Qed.

Lemma nth_opened_range l p start g n :
  0 < n → 0 <= start →
  nth_opened l p start g n = kInvalidIndex ∨ start < nth_opened l p start g n < count l.
Proof.
  intros Hn Hs. destruct (nth_opened_spec l p start g n Hn Hs) as [[? _]|(s & ? & ? & _)].
  - by left.
  - right. lia.
Qed.

(** ** The order controller *)

Definition insertion_index l (o : option wsptr) : Z :=
  match o with
  | None => count l
  | Some p =>
      let i := GetIndexOfWebState l (Some p) in
      let c := nth_opened l p i true INT_MAX in
      (if c =? kInvalidIndex then i else c) + 1
  end.

Definition new_active_index l (w : WebStateWrapper) (i : Z) : Z :=
  let c := nth_opened l (web_state w) i false 1 in
  if negb (c =? kInvalidIndex) then GetValidIndex c i
  else
    match opener (opener_ w) with
    | Some p =>
        let c := nth_opened l p i false 1 in
        if negb (c =? kInvalidIndex) then GetValidIndex c i
        else GetValidIndex (GetIndexOfWebState l (Some p)) i
    | None =>
        if count l =? 1 then kInvalidIndex
        else if count l - 1 <=? i then i - 1 else i
    end.

Lemma wp_DetermineInsertionIndex l o Q :
  wsl_inv l → (∀ p, o = Some p → p ∈ web_states l) →
  Q (insertion_index l o) l → wp (DetermineInsertionIndex o) Q l.
Proof.
  intros Hinv Ho HQ. unfold DetermineInsertionIndex. wp_simp.
  destruct o as [p|]; wp_simp; [|done].
  specialize (Ho p eq_refl). pose proof (GetIndexOfWebState_in_range l p Ho) as Hi.
  pose proof (inv_count _ Hinv) as Hc. cbv beta delta [id].
  set (i := GetIndexOfWebState l (Some p)) in *.
  split; [rewrite (proj2 (Z.eqb_neq _ _)) by (unfold kInvalidIndex; lia); done|].
  unfold GetIndexOfLastWebStateOpenedBy.
  apply wp_GetIndexOfNthWebStateOpenedBy; [done|lia|lia|by apply (inv_live _ Hinv)|].
  pose proof (nth_opened_range l p i true INT_MAX ltac:(done) (proj1 Hi)) as Hr.
  wp_simp. split.
  - apply Z.ltb_lt. destruct (Z.eqb_spec (nth_opened l p i true INT_MAX) kInvalidIndex); simpl; lia.
  - simpl in HQ. fold i in HQ.
    by destruct (nth_opened l p i true INT_MAX =? kInvalidIndex).
Qed.

Lemma insertion_index_range l o :
  (∀ p, o = Some p → p ∈ web_states l) → 0 <= insertion_index l o <= count l.
Proof.
  intros Ho. destruct o as [p|]; simpl.
  2:{ pose proof (zlen_nonneg (web_state_wrappers_ l)). unfold count. lia. }
  specialize (Ho p eq_refl). pose proof (GetIndexOfWebState_in_range l p Ho) as Hi.
  pose proof (nth_opened_range l p _ true INT_MAX ltac:(done) (proj1 Hi)) as Hr.
  destruct (Z.eqb_spec (nth_opened l p (GetIndexOfWebState l (Some p)) true INT_MAX) kInvalidIndex); lia.
Qed.

Lemma wp_DetermineNewActiveIndex l i w Q :
  wsl_inv l → vec_at (web_state_wrappers_ l) i = Some w →
  Q (new_active_index l w i) l → wp (DetermineNewActiveIndex i) Q l.
Proof.
  intros Hinv Hw HQ. pose proof (wrapper_at_range _ _ _ Hw) as Hi.
  pose proof (inv_count _ Hinv) as Hc.
  assert (web_state w ∈ web_states l) as Hwl.
  { apply elem_of_vec_at. exists i. by rewrite web_states_at, Hw. }
  unfold DetermineNewActiveIndex. wp_simp.
  split; [by apply ContainsIndex_spec|]. rewrite wp_GetWebStateAt.
  exists w. split; [done|]. wp_simp. unfold GetIndexOfNextWebStateOpenedBy.
  apply wp_GetIndexOfNthWebStateOpenedBy; [lia|lia|lia|by apply (inv_live _ Hinv)|].
  unfold new_active_index in HQ.
  destruct (negb (nth_opened l (web_state w) i false 1 =? kInvalidIndex)); wp_simp; [done|].
  rewrite wp_GetOpenerOfWebStateAt. exists w. split; [done|].
  destruct (opener (opener_ w)) as [p|] eqn:Hp.
  - wp_simp.
    assert (p ∈ web_states l) as Hpl by (eapply (inv_openers _ Hinv); [apply elem_of_vec_at|]; eauto).
    apply wp_GetIndexOfNthWebStateOpenedBy; [lia|lia|lia|by apply (inv_live _ Hinv)|].
    destruct (negb (nth_opened l p i false 1 =? kInvalidIndex)); wp_simp; done.
  - unfold id. destruct (count l =? 1); wp_simp; [done|].
    destruct (count l - 1 <=? i); wp_simp; done.
Qed.

Lemma new_active_index_range l i w :
  wsl_inv l → vec_at (web_state_wrappers_ l) i = Some w →
  -1 <= new_active_index l w i < count l - 1 ∧
  (1 < count l → 0 <= new_active_index l w i).
Proof.
  intros Hinv Hw. pose proof (wrapper_at_range _ _ _ Hw) as Hi.
  unfold new_active_index, GetValidIndex, kInvalidIndex in *.
  pose proof (nth_opened_range l (web_state w) i false 1 ltac:(lia) (proj1 Hi)) as Hr.
  unfold kInvalidIndex in Hr.
  destruct (Z.eqb_spec (nth_opened l (web_state w) i false 1) (-1)); simpl.
  2:{ rewrite (proj2 (Z.ltb_lt i _)) by lia. lia. }
  destruct (opener (opener_ w)) as [p|] eqn:Hp.
  - destruct (inv_openers _ Hinv w p) as [Hpl Hne]; [apply elem_of_vec_at; eauto|done|].
    pose proof (nth_opened_range l p i false 1 ltac:(lia) (proj1 Hi)) as Hr2.
    unfold kInvalidIndex in Hr2.
    destruct (Z.eqb_spec (nth_opened l p i false 1) (-1)); simpl.
    2:{ rewrite (proj2 (Z.ltb_lt i _)) by lia. lia. }
    pose proof (GetIndexOfWebState_in_range l p Hpl).
    pose proof (GetIndexOfWebState_in l p Hpl) as Hpi.
    destruct (Z.ltb_spec i (GetIndexOfWebState l (Some p))); [lia|].
    assert (GetIndexOfWebState l (Some p) ≠ i); [|lia].
    intros Heq. rewrite Heq, web_states_at, Hw in Hpi. simpl in Hpi. congruence.
  - destruct (Z.eqb_spec (count l) 1); [lia|].
    destruct (Z.leb_spec (count l - 1) i); lia.
Qed.
End invariant.
