(* ===== verification/WebStateListEffects.v ===== *)
(** * WebStateList: the effect of each mutation, and the invariant *)

From S2P Require Import Prelude.
From S2P Require Import WebEnv.
From S2P Require Import WebStateList.
From S2P Require Import WebStateListLemmas.

Section effects.
Context `{ENV : WebEnv}.
Implicit Types (l : WebStateList).

Definition lock_state (b : bool) l : WebStateList :=
  MkWebStateList (web_state_wrappers_ l) (active_index_ l) b (heap_ l) (log_ l).

Definition log_event (e : WebStateListEvent) l : WebStateList :=
  MkWebStateList (web_state_wrappers_ l) (active_index_ l) (locked_ l) (heap_ l)
    (log_ l ++ [(locked_ l, e)]).

Definition log_activation (old : option wsptr) (reason : Z) l : WebStateList :=
  if bool_decide (old = active_web_state l) then l
  else log_event (EvActivatedAt old (active_web_state l) (active_index_ l) reason) l.

(** The part of the state the invariant reads. *)
Definition same_tabs l l' : Prop :=
  web_state_wrappers_ l' = web_state_wrappers_ l ∧
  active_index_ l' = active_index_ l ∧ heap_ l' = heap_ l.

Lemma same_tabs_inv l l' : same_tabs l l' → wsl_inv l → wsl_inv l'.
Proof.
  intros (Hw & Ha & Hh) [Hnd Hl Ho Hact Hc].
  split; unfold web_states, count in *; rewrite ?Hw, ?Ha, ?Hh; done.
Qed.

Lemma log_activation_same old r l : same_tabs l (log_activation old r l).
Proof. unfold log_activation. case_bool_decide; done. Qed.

Lemma wp_with_lock {A} (m : WM A) Q l :
  locked_ l = false →
  wp m (λ r l', Q r (lock_state false l')) (lock_state true l) →
  wp (with_lock m) Q l.
Proof.
  intros Hl Hm. unfold with_lock. wp_simp. rewrite Hl. split; [done|].
  unfold set_locked. wp_simp. unfold lock_state in Hm. simpl.
  eapply wp_mono; [|exact Hm]. intros r l' HQ. wp_simp. done.
Qed.

Lemma wp_with_lock_locked {A} (m : WM A) l :
  locked_ l = true → with_lock m l = Crash CheckFailed.
Proof. intros Hl. unfold with_lock, mbind, M_bind, gets. by rewrite Hl. Qed.

Lemma wp_notify e Q l : wp (notify e) Q l ↔ Q tt (log_event e l).
Proof. done. Qed.

Lemma wp_NotifyIfActive old r Q l :
  -1 <= active_index_ l < count l →
  wp (NotifyIfActiveWebStateChanged old r) Q l ↔ Q tt (log_activation old r l).
Proof.
  intros Ha. unfold NotifyIfActiveWebStateChanged, log_activation. wp_simp.
  rewrite wp_GetActiveWebState by done. case_bool_decide; wp_simp; done.
Qed.

Definition activate i l : WebStateList :=
  log_activation (active_web_state l) CHANGE_REASON_USER_ACTION
    (MkWebStateList (web_state_wrappers_ l) i (locked_ l) (heap_ l) (log_ l)).

Lemma wp_ActivateWebStateAt i Q l :
  -1 <= active_index_ l < count l → 0 <= i < count l →
  Q tt (activate i l) → wp (ActivateWebStateAt i) Q l.
Proof.
  intros Ha Hi HQ. unfold ActivateWebStateAt. wp_simp.
  split; [by apply ContainsIndex_spec|]. rewrite wp_GetActiveWebState by done.
  unfold set_active_index. wp_simp. apply wp_NotifyIfActive; [change (-1 <= i < count l); lia|]. done.
Qed.

(** ** Insertion *)

Definition insert_opener l (flags : Z) (o : WebStateOpener) : WebStateOpener :=
  if IsInsertionFlagSet flags INSERT_INHERIT_OPENER
  then MkOpener (active_web_state l)
         match active_web_state l with
         | Some p => group_index l p true
         | None => -1
         end
  else o.

Definition insert_index l (index flags : Z) (o : WebStateOpener) : Z :=
  if IsInsertionFlagSet flags INSERT_FORCE_INDEX then index
  else insertion_index l (opener (insert_opener l flags o)).

Definition stored_opener (o : WebStateOpener) : WebStateOpener :=
  match opener o with Some _ => o | None => WebStateOpener_null end.

Definition inserted l (r : Z) (ws : wsptr) (flags : Z) (o : WebStateOpener) : WebStateList :=
  MkWebStateList
    (vec_insert (web_state_wrappers_ l) r
      (MkWrapper ws (stored_opener (insert_opener l flags o))))
    (if r <=? active_index_ l then active_index_ l + 1 else active_index_ l)
    false (heap_ l)
    ((log_ l ++ [(true, EvWillAddWebState ws)]) ++
      [(true, EvInsertedAt ws r (IsInsertionFlagSet flags INSERT_ACTIVATE))]).

Record insert_pre l (index : Z) (ws : wsptr) (flags : Z) (o : WebStateOpener) : Prop := {
  pre_inv : wsl_inv l;
  pre_room : count l + 1 < INT_MAX;
  pre_fresh : ws ∉ web_states l;
  pre_live : is_Some (heap_ l !! ws);
  pre_opener : IsInsertionFlagSet flags INSERT_INHERIT_OPENER = false →
    ∀ p, opener o = Some p → p ∈ web_states l;
  pre_index : IsInsertionFlagSet flags INSERT_FORCE_INDEX = true → 0 <= index <= count l;
}.

Lemma active_web_state_in l p : active_web_state l = Some p → p ∈ web_states l.
Proof. intros H. apply elem_of_vec_at. by eexists. Qed.

Lemma insert_opener_in l index ws flags o p :
  insert_pre l index ws flags o →
  opener (insert_opener l flags o) = Some p → p ∈ web_states l.
Proof.
  intros Hpre. unfold insert_opener. case_if; simpl.
  - apply active_web_state_in.
  - intros Hp. by apply (pre_opener _ _ _ _ _ Hpre).
Qed.

Lemma insert_index_range l index ws flags o :
  insert_pre l index ws flags o → 0 <= insert_index l index flags o <= count l.
Proof.
  intros Hpre. unfold insert_index. case_if.
  - by apply (pre_index _ _ _ _ _ Hpre).
  - apply insertion_index_range. intros p. by eapply insert_opener_in.
Qed.

Lemma vec_set_vec_insert {A} (v : list A) i x y :
  0 <= i <= zlen v → vec_set (vec_insert v i x) i y = vec_insert v i y.
Proof.
  intros Hi. apply vec_ext. intros j.
  rewrite vec_at_vec_set, !vec_at_vec_insert by done.
  rewrite zlen_vec_insert by done.
  case_bool_decide; repeat case_if; try done; lia.
Qed.

Lemma group_index_live l p :
  is_Some (heap_ l !! p) →
  ∃ s, heap_ l !! p = Some s ∧ group_index l p true = GetLastCommittedItemIndex s.
Proof. intros [s Hs]. exists s. unfold group_index. by rewrite Hs. Qed.

Lemma wp_insert_opener l flags o (Q : WebStateOpener → WebStateList → Prop) :
  wsl_inv l → Q (insert_opener l flags o) l →
  wp (if IsInsertionFlagSet flags INSERT_INHERIT_OPENER
      then active ← GetActiveWebState; WebStateOpener_of active
      else mret o) Q l.
Proof.
  intros Hinv HQ. unfold insert_opener in HQ. case_if; wp_simp; [|done].
  rewrite wp_GetActiveWebState by apply (inv_active _ Hinv).
  unfold WebStateOpener_of, NavigationIndexFromWebState. wp_simp.
  destruct (active_web_state l) as [p|] eqn:Hp; wp_simp; [|done].
  destruct (group_index_live l p) as (s & Hs & Hg).
  { apply (inv_live _ Hinv). by apply active_web_state_in. }
  exists s. split; [done|]. by rewrite <- Hg.
Qed.

Lemma wp_insert_position l index flags ws o (Q : Z → WebStateList → Prop) :
  insert_pre l index ws flags o →
  Q (insert_index l index flags o) l →
  wp (if negb (IsInsertionFlagSet flags INSERT_FORCE_INDEX) then
        i ← DetermineInsertionIndex (opener (insert_opener l flags o));
        c ← gets count;
        mret (if (i <? 0) || (c <? i) then c else i)
      else mret index) Q l.
Proof.
  intros Hpre HQ. pose proof (insert_index_range _ _ _ _ _ Hpre) as Hr.
  unfold insert_index in *. destruct (IsInsertionFlagSet flags INSERT_FORCE_INDEX); simpl; wp_simp; [done|].
  apply wp_DetermineInsertionIndex; [apply Hpre| |].
  { intros p. by eapply insert_opener_in. }
  wp_simp. rewrite (proj2 (Z.ltb_ge _ 0)), (proj2 (Z.ltb_ge _ (insertion_index _ _))) by lia. done.
Qed.

Lemma SetOpener_after_insert l r ws o a b lg p Q :
  0 <= r <= count l → p ∈ web_states l → opener o = Some p →
  Q tt (MkWebStateList (vec_insert (web_state_wrappers_ l) r (MkWrapper ws o)) a b (heap_ l) lg) →
  wp (SetOpenerOfWebStateAt r o) Q
    (MkWebStateList (vec_insert (web_state_wrappers_ l) r (MkWrapper ws WebStateOpener_null))
       a b (heap_ l) lg).
Proof.
  intros Hr Hp Ho HQ. unfold SetOpenerOfWebStateAt. wp_simp. unfold id.
  set (w0 := MkWrapper ws WebStateOpener_null). set (l' := MkWebStateList _ _ _ _ _).
  assert (count l' = count l + 1) as Hc by (by apply zlen_vec_insert).
  assert (p ∈ web_states l') as Hp'.
  { unfold web_states, l'. simpl. rewrite fmap_vec_insert, vec_insert_permutation.
    apply list_elem_of_further. exact Hp. }
  split; [apply ContainsIndex_spec; lia|]. rewrite Ho.
  split; [apply ContainsIndex_spec; by apply GetIndexOfWebState_in_range|].
  exists w0. split.
  { simpl. rewrite vec_at_vec_insert by done.
    by rewrite Z.ltb_irrefl, Z.eqb_refl. }
  unfold set_wrappers. wp_simp. simpl. rewrite vec_set_vec_insert by done. exact HQ.
Qed.

Lemma wp_store_opener l r ws o a b lg Q :
  0 <= r <= count l → (∀ p, opener o = Some p → p ∈ web_states l) →
  Q tt (MkWebStateList
          (vec_insert (web_state_wrappers_ l) r (MkWrapper ws (stored_opener o)))
          a b (heap_ l) lg) →
  wp (whenM (bool_decide (is_Some (opener o))) (SetOpenerOfWebStateAt r o)) Q
    (MkWebStateList (vec_insert (web_state_wrappers_ l) r (MkWrapper ws WebStateOpener_null))
       a b (heap_ l) lg).
Proof.
  intros Hr Ho HQ. unfold stored_opener in HQ. wp_simp.
  destruct (opener o) as [p|] eqn:Hp.
  - rewrite bool_decide_eq_true_2 by done.
    apply (SetOpener_after_insert l r ws o a b lg p); [done|by apply Ho|done|done].
  - rewrite bool_decide_eq_false_2 by (by intros [? ?]). done.
Qed.

Definition insert_result l (r : Z) (ws : wsptr) (flags : Z) (o : WebStateOpener) : WebStateList :=
  if IsInsertionFlagSet flags INSERT_ACTIVATE
  then activate r (inserted l r ws flags o) else inserted l r ws flags o.

Lemma inserted_count l r ws flags o :
  0 <= r <= count l → count (inserted l r ws flags o) = count l + 1.
Proof. intros. by apply zlen_vec_insert. Qed.

Lemma inserted_active_range l r ws flags o :
  wsl_inv l → 0 <= r <= count l →
  -1 <= active_index_ (inserted l r ws flags o) < count l + 1.
Proof.
  intros Hinv Hr. pose proof (inv_active _ Hinv). simpl. case_if; lia.
Qed.

Lemma wp_InsertWebState l index ws flags o (Q : Z → WebStateList → Prop) :
  locked_ l = false → insert_pre l index ws flags o →
  (let r := insert_index l index flags o in Q r (insert_result l r ws flags o)) →
  wp (InsertWebState index ws flags o) Q l.
Proof.
  intros Hlock Hpre HQ. pose proof (insert_index_range _ _ _ _ _ Hpre) as Hr.
  unfold InsertWebState. wp_simp. apply wp_with_lock; [done|]. wp_simp.
  pose proof (same_tabs_inv l (lock_state true l) ltac:(done) (pre_inv _ _ _ _ _ Hpre)) as Hinv.
  apply (wp_insert_opener (lock_state true l)); [done|]. wp_simp.
  apply (wp_insert_position (lock_state true l) index flags ws o).
  { destruct Hpre. by split. }
  wp_simp. unfold id.
  change (insert_index (lock_state true l) index flags o) with (insert_index l index flags o).
  change (insert_opener (lock_state true l) flags o) with (insert_opener l flags o).
  cbv zeta in HQ. set (r := insert_index l index flags o) in *.
  split. { destruct (ContainsIndex (lock_state true l) r) eqn:Hc; [done|]. simpl.
    apply Z.eqb_eq. change (count (lock_state true l)) with (count l).
    destruct (decide (r = count l)) as [|Hne]; [done|].
    assert (ContainsIndex (lock_state true l) r = true); [|congruence].
    apply ContainsIndex_spec. change (count (lock_state true l)) with (count l). lia. }
  rewrite wp_notify. unfold set_wrappers, set_active_index. wp_simp. simpl.
  assert (wp (whenM (IsInsertionFlagSet flags INSERT_ACTIVATE) (ActivateWebStateAt r);; mret r) Q
            (inserted l r ws flags o)) as Hact.
  { unfold insert_result in HQ. wp_simp. case_if; wp_simp; [|done].
    pose proof (inserted_count l r ws flags o Hr) as Hc.
    apply wp_ActivateWebStateAt; rewrite ?Hc; [|lia|by wp_simp].
    by apply inserted_active_range; [apply Hpre|]. }
  unfold inserted in Hact.
  destruct (r <=? active_index_ l); rewrite ?wp_modify, ?wp_bind, wp_notify, wp_bind;
    apply (wp_store_opener l); try done; try (by intros p; eapply insert_opener_in);
    wp_simp; exact Hact.
Qed.
End effects.
#[export] Hint Rewrite @wp_notify : wpdb.
