(* ===== verification/WebStateListMutations.v ===== *)
(** * WebStateList: moving, replacing, detaching and closing

    The state each operation ends in, and that it satisfies the invariant. *)

From S2P Require Import Prelude.
From S2P Require Import WebEnv.
From S2P Require Import WebStateList.
From S2P Require Import WebStateListLemmas.
From S2P Require Import WebStateListEffects.

Section mutations.
Context `{ENV : WebEnv}.
Implicit Types (l : WebStateList).

Lemma web_state_wrapper_in l w : w ∈ web_state_wrappers_ l → web_state w ∈ web_states l.
Proof. intros Hw. by apply list_elem_of_fmap_2. Qed.

Lemma log_activation_inv old r l : wsl_inv l → wsl_inv (log_activation old r l).
Proof. apply same_tabs_inv, log_activation_same. Qed.

Lemma log_activation_web_states old r l :
  web_states (log_activation old r l) = web_states l.
Proof. unfold web_states. by destruct (log_activation_same old r l) as (-> & _). Qed.

Lemma log_activation_active old r l :
  active_web_state (log_activation old r l) = active_web_state l.
Proof.
  unfold active_web_state. rewrite log_activation_web_states.
  by destruct (log_activation_same old r l) as (_ & -> & _).
Qed.

Lemma log_event_inv e l : wsl_inv l → wsl_inv (log_event e l).
Proof. by apply same_tabs_inv. Qed.

Lemma activate_inv i l : wsl_inv l → 0 <= i < count l → wsl_inv (activate i l).
Proof.
  intros [Hnd Hl Ho Ha Hc] Hi. apply log_activation_inv. split; try done.
  change (-1 <= i < count l). lia.
Qed.

Lemma inserted_inv l index ws flags o :
  insert_pre l index ws flags o → wsl_inv (inserted l (insert_index l index flags o) ws flags o).
Proof.
  intros Hpre. pose proof (insert_index_range _ _ _ _ _ Hpre) as Hr.
  set (r := insert_index l index flags o) in *.
  pose proof (inserted_active_range l r ws flags o (pre_inv _ _ _ _ _ Hpre) Hr) as Hact.
  pose proof (inserted_count l r ws flags o Hr) as Hc.
  assert (web_states (inserted l r ws flags o) ≡ₚ ws :: web_states l) as Hp.
  { unfold web_states. simpl. by rewrite fmap_vec_insert, vec_insert_permutation. }
  destruct (pre_inv _ _ _ _ _ Hpre) as [Hnd Hl Ho _ _]. split.
  - rewrite Hp. apply NoDup_cons. split; [by apply (pre_fresh _ _ _ _ _ Hpre)|done].
  - intros p. rewrite Hp, elem_of_cons. intros [->|?]; [by apply (pre_live _ _ _ _ _ Hpre)|by apply Hl].
  - intros w p. simpl. rewrite vec_insert_permutation, elem_of_cons, Hp, elem_of_cons.
    intros [->|Hw] Hop.
    + simpl in *. unfold stored_opener in Hop.
      destruct (opener (insert_opener l flags o)) as [q|] eqn:Hq; [|done].
      rewrite Hq in Hop. injection Hop as ->.
      pose proof (insert_opener_in _ _ _ _ _ _ Hpre Hq).
      split; [by right|]. intros ->. by apply (pre_fresh _ _ _ _ _ Hpre).
    + destruct (Ho w p Hw Hop) as [? ?]. split; [by right|done].
  - rewrite Hc. done.
  - rewrite Hc. by apply (pre_room _ _ _ _ _ Hpre).
Qed.

Lemma insert_result_inv l index ws flags o :
  insert_pre l index ws flags o →
  wsl_inv (insert_result l (insert_index l index flags o) ws flags o).
Proof.
  intros Hpre. pose proof (insert_index_range _ _ _ _ _ Hpre) as Hr.
  unfold insert_result. case_if; [|by apply inserted_inv].
  apply activate_inv; [by apply inserted_inv|]. rewrite inserted_count by done. lia.
Qed.

(** ** Moving *)

(** Where the element at index [k] is after a move from [i] to [j]. *)
Definition moved_index (i j k : Z) : Z :=
  if k =? i then j
  else if (Z.min i j <=? k) && (k <=? Z.max i j)
       then k + (if i <? j then -1 else 1) else k.

Lemma vec_at_moved {A} (v : list A) i j k w :
  vec_at v i = Some w → 0 <= j < zlen v → 0 <= k < zlen v →
  vec_at (vec_insert (vec_erase v i) j w) (moved_index i j k) = vec_at v k.
Proof.
  intros Hw Hj Hk. pose proof (vec_at_Some_range _ _ _ Hw) as Hi.
  rewrite vec_at_vec_insert by (rewrite zlen_vec_erase by done; lia).
  unfold moved_index. destruct (Z.eqb_spec k i) as [->|Hki].
  { by rewrite Z.ltb_irrefl, Z.eqb_refl. }
  rewrite !vec_at_vec_erase by done.
  destruct (Z.leb_spec (Z.min i j) k), (Z.leb_spec k (Z.max i j)),
    (Z.ltb_spec i j); simpl;
    repeat case_if; try lia; f_equal; lia.
Qed.

Lemma moved_index_range i j k n :
  0 <= i < n → 0 <= j < n → -1 <= k < n → -1 <= moved_index i j k < n.
Proof.
  intros. unfold moved_index. destruct (Z.eqb_spec k i); [lia|].
  destruct (Z.leb_spec (Z.min i j) k), (Z.leb_spec k (Z.max i j)),
    (Z.ltb_spec i j); simpl; lia.
Qed.

Definition moved l (i j : Z) (w : WebStateWrapper) : WebStateList :=
  MkWebStateList (vec_insert (vec_erase (web_state_wrappers_ l) i) j w)
    (moved_index i j (active_index_ l)) false (heap_ l)
    (log_ l ++ [(true, EvMoved (web_state w) i j)]).

Lemma relock l : locked_ l = false → lock_state false (lock_state true l) = l.
Proof. destruct l; simpl. by intros ->. Qed.

Lemma wp_MoveWebStateAt l i j w Q :
  locked_ l = false → vec_at (web_state_wrappers_ l) i = Some w → 0 <= j < count l →
  (if i =? j then Q tt l else Q tt (moved l i j w)) →
  wp (MoveWebStateAt i j) Q l.
Proof.
  intros Hlock Hw Hj HQ. pose proof (wrapper_at_range _ _ _ Hw) as Hi.
  unfold MoveWebStateAt. apply wp_with_lock; [done|]. wp_simp. unfold id.
  split; [by apply ContainsIndex_spec|]. split; [by apply ContainsIndex_spec|].
  destruct (Z.eqb_spec i j) as [->|Hij]; [wp_simp; by rewrite relock|].
  wp_simp. exists w. split; [done|]. unfold set_wrappers, set_active_index. wp_simp.
  unfold moved, moved_index in HQ. simpl. simpl in HQ.
  destruct (active_index_ l =? i); [by wp_simp|].
  destruct ((Z.min i j <=? active_index_ l) && (active_index_ l <=? Z.max i j)); by wp_simp.
Qed.

Lemma moved_permutation l i j w :
  vec_at (web_state_wrappers_ l) i = Some w →
  web_state_wrappers_ (moved l i j w) ≡ₚ web_state_wrappers_ l.
Proof.
  intros Hw. simpl. rewrite vec_insert_permutation. symmetry. by apply vec_erase_permutation.
Qed.

Lemma moved_inv l i j w :
  wsl_inv l → vec_at (web_state_wrappers_ l) i = Some w → 0 <= j < count l →
  wsl_inv (moved l i j w).
Proof.
  intros [Hnd Hl Ho Ha Hc] Hw Hj. pose proof (moved_permutation l i j w Hw) as Hp.
  assert (web_states (moved l i j w) ≡ₚ web_states l) as Hps by (by apply fmap_Permutation).
  assert (count (moved l i j w) = count l) as Hcm.
  { unfold count, zlen. by rewrite (Permutation_length Hp). }
  pose proof (wrapper_at_range _ _ _ Hw). split.
  - by rewrite Hps.
  - intros p. rewrite Hps. apply Hl.
  - intros w' p. rewrite Hp, Hps. apply Ho.
  - rewrite Hcm. simpl. by apply moved_index_range.
  - by rewrite Hcm.
Qed.

(** ** Clearing openers *)

Lemma clear_opener_web_state p w : web_state (clear_opener p w) = web_state w.
Proof. unfold clear_opener. by case_bool_decide. Qed.

Lemma clear_opener_opener p w q :
  opener (opener_ (clear_opener p w)) = Some q → opener (opener_ w) = Some q ∧ q ≠ p.
Proof. unfold clear_opener. case_bool_decide; simpl; naive_solver. Qed.

Lemma fmap_clear_opener p (ws : list WebStateWrapper) : web_state <$> (clear_opener p <$> ws) = web_state <$> ws.
Proof.
  rewrite <- list_fmap_compose. apply list_fmap_ext. intros ? w _.
  apply clear_opener_web_state.
Qed.

Definition opener_cleared l (p : wsptr) : WebStateList :=
  MkWebStateList (clear_opener p <$> web_state_wrappers_ l) (active_index_ l)
    (locked_ l) (heap_ l) (log_ l).

Lemma wp_ClearOpenersReferencing l i w Q :
  vec_at (web_state_wrappers_ l) i = Some w →
  Q tt (opener_cleared l (web_state w)) → wp (ClearOpenersReferencing i) Q l.
Proof.
  intros Hw HQ. unfold ClearOpenersReferencing, set_wrappers. wp_simp. eauto.
Qed.

(** ** Replacing *)

Definition replaced l (i : Z) (w : WebStateWrapper) (ws : wsptr) : WebStateList :=
  log_event (EvDelegateDetached (web_state w))
    (log_activation (Some (web_state w)) CHANGE_REASON_REPLACED
      (MkWebStateList
        (vec_set (clear_opener (web_state w) <$> web_state_wrappers_ l) i
          (MkWrapper ws WebStateOpener_null))
        (active_index_ l) (locked_ l) (heap_ l)
        ((log_ l ++ [(locked_ l, EvWillAddWebState ws)]) ++
          [(locked_ l, EvReplacedAt (web_state w) ws i)]))).

Lemma wp_ReplaceWebStateAt l i w ws Q :
  wsl_inv l → vec_at (web_state_wrappers_ l) i = Some w → ws ≠ web_state w →
  Q (web_state w) (replaced l i w ws) → wp (ReplaceWebStateAt i ws) Q l.
Proof.
  intros Hinv Hw Hne HQ. unfold ReplaceWebStateAt. wp_simp.
  split; [by eapply ContainsIndex_at|].
  apply (wp_ClearOpenersReferencing _ i w); [done|]. wp_simp. simpl.
  exists (clear_opener (web_state w) w).
  rewrite vec_at_fmap, Hw, clear_opener_web_state. split; [done|]. wp_simp.
  rewrite bool_decide_eq_false_2 by done. split; [done|].
  unfold set_wrappers. wp_simp. rewrite wp_NotifyIfActive.
  - wp_simp. exact HQ.
  - unfold count. simpl. rewrite zlen_vec_set, zlen_fmap. apply (inv_active _ Hinv).
Qed.

Lemma replaced_web_states l i w ws :
  web_states (replaced l i w ws) = vec_set (web_states l) i ws.
Proof.
  change (web_states (log_activation (Some (web_state w)) CHANGE_REASON_REPLACED
    (MkWebStateList (vec_set (clear_opener (web_state w) <$> web_state_wrappers_ l) i
        (MkWrapper ws WebStateOpener_null)) (active_index_ l) (locked_ l) (heap_ l)
        ((log_ l ++ [(locked_ l, EvWillAddWebState ws)]) ++
          [(locked_ l, EvReplacedAt (web_state w) ws i)])))
    = vec_set (web_states l) i ws).
  rewrite log_activation_web_states. unfold web_states at 1. simpl.
  by rewrite fmap_vec_set, fmap_clear_opener.
Qed.

Lemma cleared_openers l p i w' q :
  wsl_inv l → vec_at (web_states l) i = Some p →
  w' ∈ vec_erase (clear_opener p <$> web_state_wrappers_ l) i →
  opener (opener_ w') = Some q → q ∈ vec_erase (web_states l) i ∧ q ≠ web_state w'.
Proof.
  intros Hinv Hp Hw' Hop. unfold web_states in Hp. rewrite vec_at_fmap in Hp.
  destruct (vec_at (web_state_wrappers_ l) i) as [w|] eqn:Hw; [|done].
  simpl in Hp. injection Hp as <-.
  rewrite <- fmap_vec_erase in Hw'. apply list_elem_of_fmap in Hw' as (w0 & -> & Hw0).
  apply clear_opener_opener in Hop as [Hop Hne]. rewrite clear_opener_web_state.
  pose proof (vec_erase_permutation _ _ _ Hw) as Hperm.
  destruct (inv_openers _ Hinv w0 q) as [Hq Hself]; [|done|].
  { rewrite Hperm. by apply list_elem_of_further. }
  split; [|done].
  assert (web_states l ≡ₚ web_state w :: vec_erase (web_states l) i) as Hps.
  { apply vec_erase_permutation. by rewrite web_states_at, Hw. }
  rewrite Hps, elem_of_cons in Hq. by destruct Hq.
Qed.

Lemma replaced_inv l i w ws :
  wsl_inv l → vec_at (web_state_wrappers_ l) i = Some w →
  ws ∉ web_states l → is_Some (heap_ l !! ws) →
  wsl_inv (replaced l i w ws).
Proof.
  intros Hinv Hw Hfresh Hlive. unfold replaced.
  apply log_event_inv, log_activation_inv.
  set (l' := MkWebStateList _ _ _ _ _).
  assert (vec_at (web_states l) i = Some (web_state w)) as Hat by (by rewrite web_states_at, Hw).
  assert (web_states l' ≡ₚ ws :: vec_erase (web_states l) i) as Hp.
  { unfold web_states at 1, l'. simpl. rewrite fmap_vec_set, fmap_clear_opener.
    by eapply vec_set_permutation. }
  assert (ws ∉ vec_erase (web_states l) i) as Hf.
  { intros Hin. apply Hfresh. by eapply elem_of_vec_erase. }
  assert (count l' = count l) as Hc.
  { unfold count, l'. simpl. by rewrite zlen_vec_set, zlen_fmap. }
  split; rewrite ?Hc; try apply Hinv.
  - rewrite Hp. apply NoDup_cons. split; [done|].
    by apply (NoDup_vec_erase _ _ _ Hat (inv_nodup _ Hinv)).
  - intros q. rewrite Hp, elem_of_cons. intros [->|Hq]; [done|]. apply (inv_live _ Hinv).
    by eapply elem_of_vec_erase.
  - intros w' q Hw' Hop.
    apply (elem_of_vec_set _ _ (clear_opener (web_state w) w)) in Hw';
      [|by rewrite vec_at_fmap, Hw].
    destruct Hw' as [->|Hw']; [done|].
    destruct (cleared_openers _ _ _ _ _ Hinv Hat Hw' Hop).
    split; [|done]. rewrite Hp. by apply list_elem_of_further.
Qed.

(** ** Detaching *)

Definition detached_index l (i : Z) (w : WebStateWrapper) : Z :=
  if i <? active_index_ l then active_index_ l - 1
  else if active_index_ l =? i then new_active_index l w i else active_index_ l.

Definition detached_locked l (i : Z) (w : WebStateWrapper) : WebStateList :=
  MkWebStateList
    (vec_erase (clear_opener (web_state w) <$> web_state_wrappers_ l) i)
    (detached_index l i w) true (heap_ l)
    ((log_ l ++ [(true, EvWillDetachAt (web_state w) i)]) ++
      [(true, EvDetachedAt (web_state w) i)]).

Definition detached l (i : Z) (w : WebStateWrapper) : WebStateList :=
  lock_state false (log_event (EvDelegateDetached (web_state w))
    (if i =? active_index_ l
     then log_activation (Some (web_state w)) CHANGE_REASON_NONE (detached_locked l i w)
     else detached_locked l i w)).

Lemma detached_same_tabs l i w : same_tabs (detached_locked l i w) (detached l i w).
Proof.
  unfold detached. case_if; [|done].
  destruct (log_activation_same (Some (web_state w)) CHANGE_REASON_NONE (detached_locked l i w))
    as (? & ? & ?). done.
Qed.

Lemma detached_locked_web_states l i w :
  web_states (detached_locked l i w) = vec_erase (web_states l) i.
Proof. unfold web_states. simpl. by rewrite fmap_vec_erase, fmap_clear_opener. Qed.

Lemma detached_web_states l i w :
  web_states (detached l i w) = vec_erase (web_states l) i.
Proof.
  rewrite <- (detached_locked_web_states l i w). unfold web_states at 1.
  by destruct (detached_same_tabs l i w) as (-> & _).
Qed.

Lemma detached_locked_count l i w :
  0 <= i < count l → count (detached_locked l i w) = count l - 1.
Proof.
  intros Hi. unfold count. simpl. rewrite zlen_vec_erase; rewrite zlen_fmap; done.
Qed.

Lemma detached_index_range l i w :
  wsl_inv l → vec_at (web_state_wrappers_ l) i = Some w →
  -1 <= detached_index l i w < count l - 1.
Proof.
  intros Hinv Hw. pose proof (wrapper_at_range _ _ _ Hw) as Hi.
  pose proof (new_active_index_range l i w Hinv Hw) as [Hn _].
  pose proof (inv_active _ Hinv). unfold detached_index.
  destruct (Z.ltb_spec i (active_index_ l)); [lia|].
  destruct (Z.eqb_spec (active_index_ l) i); lia.
Qed.

Lemma detached_inv l i w :
  wsl_inv l → vec_at (web_state_wrappers_ l) i = Some w → wsl_inv (detached l i w).
Proof.
  intros Hinv Hw. apply (same_tabs_inv (detached_locked l i w)); [apply detached_same_tabs|].
  pose proof (wrapper_at_range _ _ _ Hw) as Hi.
  pose proof (detached_index_range l i w Hinv Hw) as Hact.
  assert (vec_at (web_states l) i = Some (web_state w)) as Hat by (by rewrite web_states_at, Hw).
  split; rewrite ?detached_locked_web_states, ?detached_locked_count by done.
  - by apply (NoDup_vec_erase _ _ _ Hat (inv_nodup _ Hinv)).
  - intros q Hq. apply (inv_live _ Hinv). by eapply elem_of_vec_erase.
  - intros w' q Hw' Hop. by eapply cleared_openers.
  - done.
  - pose proof (inv_count _ Hinv). lia.
Qed.

Lemma wp_DetachWebStateAt l i w Q :
  locked_ l = false → wsl_inv l → vec_at (web_state_wrappers_ l) i = Some w →
  Q (web_state w) (detached l i w) → wp (DetachWebStateAt i) Q l.
Proof.
  intros Hlock Hinv Hw HQ. pose proof (wrapper_at_range _ _ _ Hw) as Hi.
  unfold DetachWebStateAt. apply wp_with_lock; [done|]. wp_simp.
  split; [by apply ContainsIndex_spec|].
  apply (wp_DetermineNewActiveIndex _ _ w); [by apply (same_tabs_inv l)|done|].
  change (new_active_index (lock_state true l) w i) with (new_active_index l w i).
  wp_simp. exists w. split; [done|]. wp_simp.
  apply (wp_ClearOpenersReferencing _ i w); [done|]. wp_simp.
  unfold set_wrappers, set_active_index. wp_simp. unfold id. simpl.
  assert (wp (notify (EvDetachedAt (web_state w) i);;
      whenM (i =? active_index_ l)
        (NotifyIfActiveWebStateChanged (Some (web_state w)) CHANGE_REASON_NONE);;
      notify (EvDelegateDetached (web_state w));; mret (web_state w))
      (λ r l', Q r (lock_state false l'))
      (MkWebStateList (vec_erase (clear_opener (web_state w) <$> web_state_wrappers_ l) i)
        (detached_index l i w) true (heap_ l)
        (log_ l ++ [(true, EvWillDetachAt (web_state w) i)]))) as Hrest.
  { wp_simp. unfold detached in HQ.
    destruct (i =? active_index_ l); [rewrite wp_NotifyIfActive|]; wp_simp; try exact HQ.
    unfold count. simpl. rewrite zlen_vec_erase; rewrite zlen_fmap; [|done].
    by apply detached_index_range. }
  revert Hrest. unfold detached_index. wp_simp. intros Hrest.
  destruct (i <? active_index_ l); wp_simp; [exact Hrest|].
  destruct (active_index_ l =? i); wp_simp; exact Hrest.
Qed.

(** ** Closing *)

Definition closed l (i : Z) (w : WebStateWrapper) (flags : Z) : WebStateList :=
  MkWebStateList (web_state_wrappers_ (detached l i w)) (active_index_ (detached l i w))
    false (delete (web_state w) (heap_ l))
    ((log_ (detached l i w) ++
       [(true, EvWillCloseAt (web_state w) i (IsClosingFlagSet flags CLOSE_USER_ACTION))]) ++
      [(true, EvDestroyed (web_state w))]).

Lemma wp_CloseWebStateAt l i w flags Q :
  locked_ l = false → wsl_inv l → vec_at (web_state_wrappers_ l) i = Some w →
  Q tt (closed l i w flags) → wp (CloseWebStateAt i flags) Q l.
Proof.
  intros Hlock Hinv Hw HQ. unfold CloseWebStateAt. wp_simp.
  apply (wp_DetachWebStateAt l i w); [done..|].
  apply wp_with_lock; [done|]. unfold destroy. wp_simp.
  unfold closed in HQ. destruct (detached_same_tabs l i w) as (_ & _ & Hheap).
  unfold lock_state, log_event. simpl. simpl in Hheap. rewrite Hheap. exact HQ.
Qed.

Lemma closed_web_states l i w flags :
  web_states (closed l i w flags) = vec_erase (web_states l) i.
Proof. apply detached_web_states. Qed.

Lemma closed_inv l i w flags :
  wsl_inv l → vec_at (web_state_wrappers_ l) i = Some w → wsl_inv (closed l i w flags).
Proof.
  intros Hinv Hw. destruct (detached_inv l i w Hinv Hw) as [Hnd Hl Ho Ha Hc].
  split; try done. intros p Hp. simpl.
  rewrite lookup_delete_ne.
  - destruct (detached_same_tabs l i w) as (_ & _ & Hheap). simpl in Hheap.
    rewrite <- Hheap. by apply Hl.
  - intros <-. assert (vec_at (web_states l) i = Some (web_state w)) as Hat
      by (by rewrite web_states_at, Hw).
    apply (NoDup_vec_erase _ _ _ Hat (inv_nodup _ Hinv)).
    by rewrite <- (closed_web_states l i w flags).
Qed.

(** ** Openers *)

Definition opener_set l (i : Z) (w : WebStateWrapper) (o : WebStateOpener) : WebStateList :=
  MkWebStateList (vec_set (web_state_wrappers_ l) i (MkWrapper (web_state w) o))
    (active_index_ l) (locked_ l) (heap_ l) (log_ l).

Lemma wp_SetOpenerOfWebStateAt l i w o p Q :
  vec_at (web_state_wrappers_ l) i = Some w → opener o = Some p → p ∈ web_states l →
  Q tt (opener_set l i w o) → wp (SetOpenerOfWebStateAt i o) Q l.
Proof.
  intros Hw Ho Hp HQ. unfold SetOpenerOfWebStateAt. wp_simp. unfold id.
  split; [by eapply ContainsIndex_at|]. rewrite Ho.
  split; [apply ContainsIndex_spec; by apply GetIndexOfWebState_in_range|].
  exists w. split; [done|]. unfold set_wrappers. by wp_simp.
Qed.

Lemma opener_set_web_states l i w o :
  vec_at (web_state_wrappers_ l) i = Some w → web_states (opener_set l i w o) = web_states l.
Proof.
  intros Hw. unfold web_states. simpl. rewrite fmap_vec_set. simpl.
  apply vec_set_self. by rewrite vec_at_fmap, Hw.
Qed.

Lemma opener_set_inv l i w o p :
  wsl_inv l → vec_at (web_state_wrappers_ l) i = Some w → opener o = Some p →
  p ∈ web_states l → p ≠ web_state w → wsl_inv (opener_set l i w o).
Proof.
  intros [Hnd Hl Ho Ha Hc] Hw Hop Hp Hne.
  assert (count (opener_set l i w o) = count l) as Hcount by apply zlen_vec_set.
  split; rewrite ?opener_set_web_states, ?Hcount by done; try done.
  intros w' q [->|Hin]%(elem_of_vec_set _ _ _ _ _ Hw); simpl; [naive_solver|].
  intros Hq. apply Ho; [|done]. by eapply elem_of_vec_erase.
Qed.
End mutations.
