(* ===== verification/WebStateListSpec.v ===== *)
(** * WebStateList: correctness of the operations

    The properties of the window's list of tabs, proved from the effects of
    the operations, with a concrete use of each. *)

From S2P Require Import Prelude.
From S2P Require Import WebEnv.
From S2P Require Import WebStateList.
From S2P Require Import WebStateListLemmas.
From S2P Require Import WebStateListEffects.
From S2P Require Import WebStateListMutations.

Section spec.
Context `{ENV : WebEnv}.
Implicit Types (l : WebStateList).

Lemma insert_result_web_states l r ws flags o :
  web_states (insert_result l r ws flags o) = vec_insert (web_states l) r ws.
Proof.
  assert (web_states (inserted l r ws flags o) = vec_insert (web_states l) r ws) as H.
  { unfold web_states. simpl. by rewrite fmap_vec_insert. }
  unfold insert_result, activate. case_if; [|done].
  rewrite log_activation_web_states. exact H.
Qed.

Lemma inserted_active_web_state l r ws flags o :
  wsl_inv l → 0 <= r <= count l →
  active_web_state (inserted l r ws flags o) = active_web_state l.
Proof.
  intros Hinv Hr. pose proof (inv_active _ Hinv). unfold active_web_state.
  assert (web_states (inserted l r ws flags o) = vec_insert (web_states l) r ws) as ->.
  { unfold web_states. simpl. by rewrite fmap_vec_insert. }
  rewrite vec_at_vec_insert by (by rewrite count_web_states). simpl.
  destruct (Z.leb_spec r (active_index_ l));
    repeat case_if; try lia; try done; f_equal; lia.
Qed.

Lemma insert_result_active l r ws flags o :
  wsl_inv l → 0 <= r <= count l →
  active_web_state (insert_result l r ws flags o) =
  if IsInsertionFlagSet flags INSERT_ACTIVATE then Some ws else active_web_state l.
Proof.
  intros Hinv Hr. unfold insert_result, activate. case_if.
  - rewrite log_activation_active. unfold active_web_state, web_states. simpl.
    rewrite vec_at_fmap, vec_at_vec_insert by done. by rewrite Z.ltb_irrefl, Z.eqb_refl.
  - by apply inserted_active_web_state.
Qed.

Lemma log_activation_locked old r l : locked_ (log_activation old r l) = locked_ l.
Proof. unfold log_activation. by case_bool_decide. Qed.

Lemma insert_result_unlocked l r ws flags o : locked_ (insert_result l r ws flags o) = false.
Proof. unfold insert_result, activate. case_if; [|done]. by rewrite log_activation_locked. Qed.

(** C22: InsertWebState puts the WebState at the requested index under
    INSERT_FORCE_INDEX and otherwise where the order controller puts a child
    of its opener (the active WebState under INSERT_INHERIT_OPENER), never
    outside the list; the other WebStates keep their order, and the active
    WebState is the new one under INSERT_ACTIVATE and otherwise the same
    WebState as before. *)
Theorem InsertWebState_correct l index ws flags o :
  insert_pre l index ws flags o → locked_ l = false →
  ∃ r l', InsertWebState index ws flags o l = Ok (r, l') ∧
    r = (if IsInsertionFlagSet flags INSERT_FORCE_INDEX then index
         else insertion_index l (opener (insert_opener l flags o))) ∧
    0 <= r <= count l ∧
    web_states l' = vec_insert (web_states l) r ws ∧
    active_web_state l' =
      (if IsInsertionFlagSet flags INSERT_ACTIVATE then Some ws else active_web_state l) ∧
    wsl_inv l' ∧ locked_ l' = false.
Proof.
  intros Hpre Hlock. pose proof (insert_index_range _ _ _ _ _ Hpre) as Hr.
  apply wp_run. apply wp_InsertWebState; [done..|]. cbv zeta.
  split; [done|]. split; [done|].
  split; [apply insert_result_web_states|].
  split; [apply insert_result_active; [apply (pre_inv _ _ _ _ _ Hpre)|done]|].
  split; [by apply insert_result_inv|apply insert_result_unlocked].
Qed.

(** DetermineInsertionIndex puts a WebState without opener at the end, and
    one with an opener right after the first contiguous run of WebStates
    opened from the opener's current page, or right after the opener when
    there is none. *)
Theorem DetermineInsertionIndex_after_group l p :
  wsl_inv l → p ∈ web_states l →
  let from := GetIndexOfWebState l (Some p) in
  let child := opened_by (web_state_wrappers_ l) p (group_index l p true) true in
  DetermineInsertionIndex None l = Ok (count l, l) ∧
  ∃ r, DetermineInsertionIndex (Some p) l = Ok (r, l) ∧
    from < r <= count l ∧ ¬ child r ∧
    ((r = from + 1 ∧ ∀ i, from < i → ¬ child i) ∨
     ∃ s, from < s < r ∧ (∀ i, from < i < s → ¬ child i) ∧ (∀ i, s <= i < r → child i)).
Proof.
  intros Hinv Hp from child. split; [done|].
  pose proof (GetIndexOfWebState_in_range l p Hp) as Hf. pose proof (inv_count _ Hinv) as Hc.
  exists (insertion_index l (Some p)).
  assert (DetermineInsertionIndex (Some p) l = Ok (insertion_index l (Some p), l)) as Hrun.
  { assert (wp (DetermineInsertionIndex (Some p)) (λ r l', r = insertion_index l (Some p) ∧ l' = l) l)
      as (r & l' & Hrun & -> & ->)%wp_run; [|done].
    apply wp_DetermineInsertionIndex; naive_solver. }
  split; [exact Hrun|]. unfold insertion_index. fold from.
  assert (∀ i, child i → i < count l) as Hlt by (intros i Hi%opened_by_range; apply Hi).
  destruct (nth_opened_spec l p from true INT_MAX) as [[Hr Hnone]|(s & Hs & Hrc & Hrs & Hpre & Hall & Hend)];
    [done|unfold from; lia|..].
  - rewrite Hr, Z.eqb_refl. split; [unfold from; lia|].
    split; [apply Hnone; lia|]. left. split; [done|]. exact Hnone.
  - rewrite (proj2 (Z.eqb_neq _ _)) by (unfold kInvalidIndex, from in *; lia).
    set (r := nth_opened l p from true INT_MAX) in *.
    split; [unfold from in *; lia|]. split.
    + destruct Hend as [Hend|Hend]; [|done]. unfold from in *. lia.
    + right. exists s. split; [lia|]. split; [done|]. intros i Hi. apply Hall. lia.
Qed.

Lemma moved_active l i j w :
  wsl_inv l → vec_at (web_state_wrappers_ l) i = Some w → 0 <= j < count l →
  active_web_state (moved l i j w) = active_web_state l.
Proof.
  intros Hinv Hw Hj. pose proof (inv_active _ Hinv) as Ha.
  pose proof (wrapper_at_range _ _ _ Hw) as Hi.
  unfold active_web_state, web_states. simpl. rewrite !vec_at_fmap.
  destruct (Z.eqb_spec (active_index_ l) (-1)) as [E|].
  - assert (moved_index i j (active_index_ l) = -1) as ->.
    { unfold moved_index. rewrite E. rewrite (proj2 (Z.eqb_neq _ _)) by lia.
      by rewrite (proj2 (Z.leb_gt _ _)) by lia. }
    by rewrite E.
  - f_equal. apply vec_at_moved; [done|exact Hj|unfold count in *; lia].
Qed.

(** MoveWebStateAt moves one WebState from one index to another, shifts
    those between them by one, and keeps every opener and the active WebState. *)
Theorem MoveWebStateAt_correct l i j :
  wsl_inv l → locked_ l = false → 0 <= i < count l → 0 <= j < count l →
  ∃ l', MoveWebStateAt i j l = Ok (tt, l') ∧
    (∀ k, 0 <= k < count l →
      vec_at (web_state_wrappers_ l') (moved_index i j k) = vec_at (web_state_wrappers_ l) k) ∧
    web_state_wrappers_ l' ≡ₚ web_state_wrappers_ l ∧
    active_web_state l' = active_web_state l ∧
    wsl_inv l' ∧ locked_ l' = false.
Proof.
  intros Hinv Hlock Hi Hj. destruct (wrapper_at l i Hi) as [w Hw].
  assert (wp (MoveWebStateAt i j) (λ _ l', l' = if i =? j then l else moved l i j w) l)
    as ([] & l' & Hrun & ->)%wp_run.
  { apply (wp_MoveWebStateAt l i j w); [done..|]. by destruct (i =? j). }
  exists (if i =? j then l else moved l i j w). split; [done|].
  destruct (Z.eqb_spec i j) as [->|Hne].
  - split_and!; try done. intros k Hk. f_equal. unfold moved_index.
    destruct (Z.eqb_spec k j); [done|].
    destruct (Z.leb_spec (Z.min j j) k), (Z.leb_spec k (Z.max j j)); simpl; try done. lia.
  - split; [intros k Hk; by apply vec_at_moved|].
    split; [by apply moved_permutation|]. split; [by apply moved_active|].
    split; [by apply moved_inv|done].
Qed.

Lemma detached_active_other l i w :
  wsl_inv l → vec_at (web_state_wrappers_ l) i = Some w → i ≠ active_index_ l →
  active_web_state (detached l i w) = active_web_state l.
Proof.
  intros Hinv Hw Hne. pose proof (wrapper_at_range _ _ _ Hw) as Hi.
  unfold active_web_state. rewrite detached_web_states.
  destruct (detached_same_tabs l i w) as (_ & -> & _). simpl. unfold detached_index.
  rewrite vec_at_vec_erase by (by rewrite count_web_states).
  rewrite (proj2 (Z.eqb_neq (active_index_ l) i)) by done.
  destruct (Z.ltb_spec i (active_index_ l)).
  - rewrite (proj2 (Z.ltb_ge _ _)) by lia. f_equal. lia.
  - by rewrite (proj2 (Z.ltb_lt _ _)) by lia.
Qed.

(** C21: DetachWebStateAt removes exactly the WebState at the index and hands
    it to the caller alive; no opener of a remaining WebState refers to it; the
    active WebState stays active unless it is the one removed, in which case
    the order controller's choice is active, and some WebState is active as
    long as one is left. *)
Theorem DetachWebStateAt_correct l i :
  wsl_inv l → locked_ l = false → 0 <= i < count l →
  ∃ w l', vec_at (web_state_wrappers_ l) i = Some w ∧
    DetachWebStateAt i l = Ok (web_state w, l') ∧
    web_states l' = vec_erase (web_states l) i ∧ web_state w ∉ web_states l' ∧
    is_Some (heap_ l' !! web_state w) ∧
    (∀ w', w' ∈ web_state_wrappers_ l' → opener (opener_ w') ≠ Some (web_state w)) ∧
    (active_index_ l ≠ i → active_web_state l' = active_web_state l) ∧
    (active_index_ l = i → active_index_ l' = new_active_index l w i ∧
      (1 < count l → is_Some (active_web_state l'))) ∧
    wsl_inv l' ∧ locked_ l' = false.
Proof.
  intros Hinv Hlock Hi. destruct (wrapper_at l i Hi) as [w Hw].
  assert (vec_at (web_states l) i = Some (web_state w)) as Hat by (by rewrite web_states_at, Hw).
  destruct (NoDup_vec_erase _ _ _ Hat (inv_nodup _ Hinv)) as [Hnin _].
  pose proof (detached_inv l i w Hinv Hw) as Hinv'.
  destruct (detached_same_tabs l i w) as (_ & Hact & Hheap).
  exists w, (detached l i w). split; [done|].
  assert (wp (DetachWebStateAt i) (λ r l', r = web_state w ∧ l' = detached l i w) l)
    as (r & l' & Hrun & -> & ->)%wp_run by (by eapply wp_DetachWebStateAt).
  split; [done|]. rewrite detached_web_states. split; [done|]. split; [done|].
  split. { rewrite Hheap. apply (inv_live _ Hinv), elem_of_vec_at; eauto. }
  split. { intros w' Hw' Hop. apply Hnin. rewrite <- (detached_web_states l i w).
    by apply (inv_openers _ Hinv' w'). }
  split; [intros Hne; by apply detached_active_other|]. split; [|done].
  intros Ha. rewrite Hact. simpl. unfold detached_index.
  rewrite (proj2 (Z.ltb_ge _ _)), (proj2 (Z.eqb_eq _ _)) by lia. split; [done|].
  intros Hc. destruct (new_active_index_range l i w Hinv Hw) as [Hr Hpos].
  unfold active_web_state. rewrite Hact, detached_web_states. simpl. unfold detached_index.
  rewrite (proj2 (Z.ltb_ge _ _)), (proj2 (Z.eqb_eq _ _)) by lia.
  destruct (vec_at_in_range (vec_erase (web_states l) i) (new_active_index l w i)) as [x ->]; [|done].
  rewrite zlen_vec_erase by (by rewrite count_web_states). rewrite count_web_states. lia.
Qed.

Lemma GetValidIndex_after i j : 0 <= i < j → GetValidIndex j i = 0.
Proof. intros. unfold GetValidIndex. rewrite (proj2 (Z.ltb_lt i j)) by lia. lia. Qed.

Lemma nth_opened_found l p i k :
  0 <= i < k → opened_by (web_state_wrappers_ l) p (-1) false k →
  nth_opened l p i false 1 ≠ kInvalidIndex ∧ i < nth_opened l p i false 1.
Proof.
  intros Hi Hk. destruct (nth_opened_spec l p i false 1) as [[_ Hnone]|(s & Hs & _)]; [lia..| |].
  - destruct (Hnone k); [lia|done].
  - unfold kInvalidIndex. lia.
Qed.

Lemma new_active_index_first l i w :
  0 <= i →
  (∃ k, i < k ∧ opened_by (web_state_wrappers_ l) (web_state w) (-1) false k) ∨
  (∃ p, opener (opener_ w) = Some p ∧
    ((∃ k, i < k ∧ opened_by (web_state_wrappers_ l) p (-1) false k) ∨
     i < GetIndexOfWebState l (Some p))) →
  new_active_index l w i = 0.
Proof.
  intros Hi Hcase. unfold new_active_index.
  pose proof (nth_opened_range l (web_state w) i false 1 ltac:(lia) Hi) as Hc.
  destruct (Z.eqb_spec (nth_opened l (web_state w) i false 1) kInvalidIndex) as [Hno|Hyes]; simpl.
  2:{ apply GetValidIndex_after. lia. }
  destruct Hcase as [(k & Hk & Ho)|(p & -> & Hcase)].
  { by destruct (nth_opened_found l (web_state w) i k) as [? _]. }
  pose proof (nth_opened_range l p i false 1 ltac:(lia) Hi) as Hcp.
  destruct (Z.eqb_spec (nth_opened l p i false 1) kInvalidIndex) as [Hnop|Hyesp]; simpl.
  2:{ apply GetValidIndex_after. lia. }
  destruct Hcase as [(k & Hk & Ho)|Hp].
  { by destruct (nth_opened_found l p i k) as [? _]. }
  apply GetValidIndex_after. lia.
Qed.

(** When the active WebState is removed and a WebState it opened, one
    with the same opener or its opener follows it in the list,
    DetermineNewActiveIndex selects index 0, whatever the index of that
    WebState: GetValidIndex clamps with [std::min(0, index - 1)]. *)
Theorem DetermineNewActiveIndex_selects_first l i w :
  wsl_inv l → vec_at (web_state_wrappers_ l) i = Some w →
  (∃ k, i < k ∧ opened_by (web_state_wrappers_ l) (web_state w) (-1) false k) ∨
  (∃ p, opener (opener_ w) = Some p ∧
    ((∃ k, i < k ∧ opened_by (web_state_wrappers_ l) p (-1) false k) ∨
     i < GetIndexOfWebState l (Some p))) →
  DetermineNewActiveIndex i l = Ok (0, l).
Proof.
  intros Hinv Hw Hcase. pose proof (wrapper_at_range _ _ _ Hw) as Hi.
  assert (wp (DetermineNewActiveIndex i) (λ r l', r = new_active_index l w i ∧ l' = l) l)
    as (r & l' & -> & -> & ->)%wp_run by (by eapply wp_DetermineNewActiveIndex).
  do 2 f_equal. apply new_active_index_first; [lia|done].
Qed.

Lemma replaced_active l i w ws :
  wsl_inv l → vec_at (web_state_wrappers_ l) i = Some w → ws ∉ web_states l →
  is_Some (heap_ l !! ws) → active_web_state (replaced l i w ws) ≠ Some (web_state w).
Proof.
  intros Hinv Hw Hf Hlive Hact%active_web_state_in.
  assert (vec_at (web_states l) i = Some (web_state w)) as Hat by (by rewrite web_states_at, Hw).
  rewrite replaced_web_states in Hact.
  apply (elem_of_vec_set _ _ _ _ _ Hat) in Hact as [Heq|Hin].
  - apply Hf. rewrite <- Heq. apply elem_of_vec_at; eauto.
  - by apply (NoDup_vec_erase _ _ _ Hat (inv_nodup _ Hinv)).
Qed.

(** ReplaceWebStateAt swaps one WebState for another, without opener, and
    clears the openers that refer to the old one.  The observers are always
    told that the old WebState was the active one and another is now, also
    when the WebState replaced was not the active one. *)
Theorem ReplaceWebStateAt_correct l i ws :
  wsl_inv l → 0 <= i < count l → ws ∉ web_states l → is_Some (heap_ l !! ws) →
  ∃ w l', vec_at (web_state_wrappers_ l) i = Some w ∧
    ReplaceWebStateAt i ws l = Ok (web_state w, l') ∧
    web_states l' = vec_set (web_states l) i ws ∧
    (∀ w', w' ∈ web_state_wrappers_ l' → opener (opener_ w') ≠ Some (web_state w)) ∧
    wsl_inv l' ∧ active_index_ l' = active_index_ l ∧
    log_ l' = log_ l ++ (pair (locked_ l) <$>
      [EvWillAddWebState ws; EvReplacedAt (web_state w) ws i;
       EvActivatedAt (Some (web_state w)) (active_web_state l') (active_index_ l)
         CHANGE_REASON_REPLACED;
       EvDelegateDetached (web_state w)]).
Proof.
  intros Hinv Hi Hf Hlive. destruct (wrapper_at l i Hi) as [w Hw].
  assert (vec_at (web_states l) i = Some (web_state w)) as Hat by (by rewrite web_states_at, Hw).
  assert (ws ≠ web_state w) as Hne.
  { intros ->. apply Hf, elem_of_vec_at. eauto. }
  assert (wp (ReplaceWebStateAt i ws) (λ r l', r = web_state w ∧ l' = replaced l i w ws) l)
    as (r & l' & Hrun & -> & ->)%wp_run by (by eapply wp_ReplaceWebStateAt).
  pose proof (replaced_inv l i w ws Hinv Hw Hf Hlive) as Hinv'.
  pose proof (replaced_active l i w ws Hinv Hw Hf Hlive) as Hact.
  exists w, (replaced l i w ws). split; [done|]. split; [done|].
  split; [apply replaced_web_states|]. split.
  { intros w' Hw' Hop. destruct (inv_openers _ Hinv' w' _ Hw' Hop) as [Hin _].
    rewrite replaced_web_states in Hin.
    apply (elem_of_vec_set _ _ _ _ _ Hat) in Hin as [Heq|Hin]; [congruence|].
    by apply (NoDup_vec_erase _ _ _ Hat (inv_nodup _ Hinv)). }
  split; [done|]. unfold replaced in *. revert Hact.
  set (l1 := MkWebStateList _ _ _ _ _).
  change (active_web_state (log_event (EvDelegateDetached (web_state w))
    (log_activation (Some (web_state w)) CHANGE_REASON_REPLACED l1))) with
    (active_web_state (log_activation (Some (web_state w)) CHANGE_REASON_REPLACED l1)).
  rewrite log_activation_active. intros Hact.
  unfold log_activation. rewrite bool_decide_eq_false_2 by naive_solver. simpl.
  split; [done|]. by rewrite <- !app_assoc.
Qed.

(** ** Closing everything *)

Lemma closed_unlocked l i w flags : locked_ (closed l i w flags) = false.
Proof. done. Qed.

Lemma wp_CloseAllWebStates n flags l (Q : option unit → WebStateList → Prop) :
  locked_ l = false → wsl_inv l → count l = Z.of_nat n →
  (∀ l', web_states l' = [] → wsl_inv l' → locked_ l' = false →
    (∀ p, heap_ l' !! p = if bool_decide (p ∈ web_states l) then None else heap_ l !! p) →
    Q (Some tt) l') →
  wp (CloseAllWebStates n flags) Q l.
Proof.
  revert l. induction n as [|n IH]; intros l Hlock Hinv Hn HQ; simpl; wp_simp; unfold empty.
  { rewrite Hn. simpl. wp_simp.
    assert (web_states l = []) as Hnil.
    { apply zlen_zero_nil. by rewrite count_web_states. }
    apply HQ; try done. intros p. rewrite Hnil.
    by rewrite bool_decide_eq_false_2 by apply not_elem_of_nil. }
  rewrite (proj2 (Z.eqb_neq _ _)) by lia. wp_simp.
  destruct (wrapper_at l (count l - 1)) as [w Hw]; [lia|].
  apply (wp_CloseWebStateAt l (count l - 1) w); [done..|].
  assert (vec_at (web_states l) (count l - 1) = Some (web_state w)) as Hat
    by (by rewrite web_states_at, Hw).
  pose proof (closed_web_states l (count l - 1) w flags) as Hws.
  apply IH; [done|by apply closed_inv| |].
  { rewrite <- count_web_states, Hws, zlen_vec_erase; rewrite count_web_states; lia. }
  intros l' Hl' Hinv' Hlock' Hheap. apply HQ; [done..|]. intros p. rewrite Hheap, Hws.
  assert (p ∈ web_states l ↔ p = web_state w ∨ p ∈ vec_erase (web_states l) (count l - 1)) as Hiff.
  { rewrite (vec_erase_permutation _ _ _ Hat) at 1. apply elem_of_cons. }
  simpl. destruct (decide (p = web_state w)) as [->|Hne].
  - rewrite (bool_decide_eq_true_2 (_ ∈ web_states l)) by naive_solver.
    rewrite lookup_delete_eq. by case_bool_decide.
  - rewrite lookup_delete_ne by done. repeat case_bool_decide; naive_solver.
Qed.

(** C23: CloseAllWebStates, called by the destructor too, terminates: with one
    round per WebState it empties the list and destroys every WebState the
    list owned and no other. *)
Theorem CloseAllWebStates_terminates l flags :
  wsl_inv l → locked_ l = false →
  ∃ l', CloseAllWebStates (Z.to_nat (count l)) flags l = Ok (Some tt, l') ∧
    web_states l' = [] ∧ active_web_state l' = None ∧ locked_ l' = false ∧
    ∀ p, heap_ l' !! p = if bool_decide (p ∈ web_states l) then None else heap_ l !! p.
Proof.
  intros Hinv Hlock.
  assert (count l = Z.of_nat (Z.to_nat (count l))) as Hn.
  { unfold count. pose proof (zlen_nonneg (web_state_wrappers_ l)). lia. }
  assert (wp (CloseAllWebStates (Z.to_nat (count l)) flags)
    (λ r l', r = Some tt ∧ web_states l' = [] ∧ active_web_state l' = None ∧ locked_ l' = false ∧
      ∀ p, heap_ l' !! p = if bool_decide (p ∈ web_states l) then None else heap_ l !! p) l)
    as (r & l' & Hrun & -> & ?)%wp_run; [|eauto].
  apply wp_CloseAllWebStates; [done..|]. intros l' Hnil Hinv' ? ?.
  split_and!; try done. unfold active_web_state. rewrite Hnil.
  unfold vec_at. by case_match.
Qed.

(** While a mutation is being notified, inserting, moving, detaching,
    closing and destroying the list fail their CHECK, whatever the arguments;
    activating another WebState does not. *)
Theorem locked_list_rejects_mutations l i j ws flags o :
  locked_ l = true →
  InsertWebState i ws flags o l = Crash CheckFailed ∧
  MoveWebStateAt i j l = Crash CheckFailed ∧
  DetachWebStateAt i l = Crash CheckFailed ∧
  CloseWebStateAt i flags l = Crash CheckFailed ∧
  (∀ fuel, WebStateList_destructor fuel l = Crash CheckFailed) ∧
  (wsl_inv l → 0 <= i < count l → ActivateWebStateAt i l = Ok (tt, activate i l)).
Proof.
  intros Hlock.
  assert (∀ k, DetachWebStateAt k l = Crash CheckFailed) as Hd
    by (intros k; by apply wp_with_lock_locked).
  split_and!.
  - unfold InsertWebState, mbind at 1, M_bind. by rewrite wp_with_lock_locked.
  - by apply wp_with_lock_locked.
  - done.
  - unfold CloseWebStateAt, mbind at 1, M_bind. by rewrite Hd.
  - intros fuel. unfold WebStateList_destructor, gets, mbind, M_bind. by rewrite Hlock.
  - intros Hinv Hi.
    assert (wp (ActivateWebStateAt i) (λ _ l', l' = activate i l) l) as ([] & l' & Hrun & ->)%wp_run; [|done].
    apply wp_ActivateWebStateAt; [apply (inv_active _ Hinv)|done|done].
Qed.

(** ** Every use of the list *)

(** A call on the list, or a change of the WebStates outside it: [OpWebState]
    creates a WebState, navigates it or destroys it. *)
Inductive wsl_op :=
  | OpWebState (p : wsptr) (s : option WebState)
  | OpInsert (index : Z) (ws : wsptr) (flags : Z) (o : WebStateOpener)
  | OpMove (from_index to_index : Z)
  | OpReplace (index : Z) (ws : wsptr)
  | OpDetach (index : Z)
  | OpClose (index flags : Z)
  | OpCloseAll (flags : Z)
  | OpActivate (index : Z)
  | OpSetOpener (index : Z) (o : WebStateOpener).

Definition run_op (op : wsl_op) : WM unit :=
  match op with
  | OpWebState p s => modify (λ l, MkWebStateList (web_state_wrappers_ l) (active_index_ l)
                        (locked_ l) (partial_alter (λ _, s) p (heap_ l)) (log_ l))
  | OpInsert i ws f o => InsertWebState i ws f o;; mret tt
  | OpMove i j => MoveWebStateAt i j
  | OpReplace i ws => ReplaceWebStateAt i ws;; mret tt
  | OpDetach i => DetachWebStateAt i;; mret tt
  | OpClose i f => CloseWebStateAt i f
  | OpCloseAll f => l ← gets id; CloseAllWebStates (Z.to_nat (count l)) f;; mret tt
  | OpActivate i => ActivateWebStateAt i
  | OpSetOpener i o => SetOpenerOfWebStateAt i o
  end.

(** What the callers owe: indices of the list, WebStates that are alive and
    not in the list yet, openers in the list. *)
Definition op_ok l (op : wsl_op) : Prop :=
  match op with
  | OpWebState p s => p ∈ web_states l → is_Some s
  | OpInsert i ws f o =>
      count l + 1 < INT_MAX ∧ ws ∉ web_states l ∧ is_Some (heap_ l !! ws) ∧
      (IsInsertionFlagSet f INSERT_INHERIT_OPENER = false →
        ∀ p, opener o = Some p → p ∈ web_states l) ∧
      (IsInsertionFlagSet f INSERT_FORCE_INDEX = true → 0 <= i <= count l)
  | OpMove i j => 0 <= i < count l ∧ 0 <= j < count l
  | OpReplace i ws => 0 <= i < count l ∧ ws ∉ web_states l ∧ is_Some (heap_ l !! ws)
  | OpDetach i => 0 <= i < count l
  | OpClose i _ => 0 <= i < count l
  | OpCloseAll _ => True
  | OpActivate i => 0 <= i < count l
  | OpSetOpener i o => 0 <= i < count l ∧
      ∃ p, opener o = Some p ∧ p ∈ web_states l ∧ vec_at (web_states l) i ≠ Some p
  end.

Definition wsl_step l (op : wsl_op) l' : Prop := op_ok l op ∧ run_op op l = Ok (tt, l').

Definition unlocked_inv l : Prop := wsl_inv l ∧ locked_ l = false.

Lemma wp_run_op l op :
  unlocked_inv l → op_ok l op → wp (run_op op) (λ _, unlocked_inv) l.
Proof.
  intros [Hinv Hlock]. destruct op; simpl; wp_simp.
  - intros Hs. split; [|done]. destruct Hinv as [Hnd Hl Ho Ha Hc]. split; try done.
    intros q Hq. simpl. destruct (decide (q = p)) as [->|Hne].
    + rewrite lookup_partial_alter_eq. by apply Hs.
    + rewrite lookup_partial_alter_ne by done. by apply Hl.
  - intros (Hroom & Hf & Hlive & Hop & Hi).
    assert (insert_pre l index ws flags o) as Hpre by (by split).
    apply wp_InsertWebState; [done..|]. cbv zeta. wp_simp.
    split; [by apply insert_result_inv|apply insert_result_unlocked].
  - intros [[w Hw]%wrapper_at Hj]. apply (wp_MoveWebStateAt l _ _ w); [done..|].
    case_if; split; try done. by apply moved_inv.
  - intros ([w Hw]%wrapper_at & Hf & Hlive). apply (wp_ReplaceWebStateAt l _ w); [done..| |].
    { intros ->. apply Hf, elem_of_vec_at. exists index. by rewrite web_states_at, Hw. }
    wp_simp. split; [by apply replaced_inv|]. unfold replaced. simpl.
    by rewrite log_activation_locked.
  - intros [w Hw]%wrapper_at. apply (wp_DetachWebStateAt l _ w); [done..|]. wp_simp.
    split; [by apply detached_inv|done].
  - intros [w Hw]%wrapper_at. apply (wp_CloseWebStateAt l _ w); [done..|].
    split; [by apply closed_inv|done].
  - intros _. apply wp_CloseAllWebStates; [done|done| |by intros; wp_simp].
    unfold count. pose proof (zlen_nonneg (web_state_wrappers_ l)). unfold id. lia.
  - intros Hi. apply wp_ActivateWebStateAt; [apply (inv_active _ Hinv)|done|].
    split; [by apply activate_inv|]. unfold activate. by rewrite log_activation_locked.
  - intros ([w Hw]%wrapper_at & p & Hop & Hp & Hne).
    apply (wp_SetOpenerOfWebStateAt l _ w o p); [done..|].
    split; [|done]. apply (opener_set_inv l index w o p); try done.
    intros ->. apply Hne. by rewrite web_states_at, Hw.
Qed.

(** C1: starting from an empty list, any sequence of calls whose callers pass
    indices of the list, live WebStates that are not in it and openers that
    are in it trips no check and never leaves the invariant: no WebState twice,
    every WebState alive, every opener another WebState of the list, the
    active index in range, the lock released. *)
Theorem reachable_lists_never_fail heap l :
  reachable wsl_step (WebStateList_new heap) l →
  wsl_inv l ∧ locked_ l = false ∧ ∀ op, op_ok l op → ∃ l', wsl_step l op l'.
Proof.
  intros Hr. assert (unlocked_inv l) as Hinv.
  { revert l Hr. apply reachable_invariant.
    - split; [|done]. split; simpl; try done; [constructor|inversion 1|inversion 1].
    - intros s op s' Hs [Hok Hrun]. pose proof (wp_run_op s op Hs Hok) as Hwp.
      unfold wp in Hwp. by rewrite Hrun in Hwp. }
  destruct Hinv as [Hinv Hlock]. split; [done|]. split; [done|].
  intros op Hok. destruct (wp_run _ _ _ (wp_run_op l op (conj Hinv Hlock) Hok)) as ([] & l' & Hrun & _).
  by exists l'.
Qed.
End spec.

(** ** Concrete uses *)

#[local] Existing Instance Toy.env.
#[local] Existing Instance Toy.laws.

Definition example_web_state : WebState := MkWebState (Toy.web "a" "b") 0.

(** Three tabs, the last two opened from the first page of the first one,
    which is active; WebState 4 is outside the list. *)
Definition example_tabs : WebStateList :=
  MkWebStateList
    [MkWrapper 1%positive WebStateOpener_null;
     MkWrapper 2%positive (MkOpener (Some 1%positive) 0);
     MkWrapper 3%positive (MkOpener (Some 1%positive) 0)]
    0 false
    (list_to_map ((λ p, (p, example_web_state)) <$> [1; 2; 3; 4]%positive)) [].

Lemma example_tabs_inv : wsl_inv example_tabs.
Proof.
  split.
  - change (NoDup [1; 2; 3]%positive). apply (bool_decide_unpack _). vm_compute. exact I.
  - change (∀ p, p ∈ [1; 2; 3]%positive → is_Some (heap_ example_tabs !! p)).
    intros p. rewrite !elem_of_cons, elem_of_nil.
    intros [->|[->|[->|[]]]]; eexists; reflexivity.
  - change (∀ w p, w ∈ web_state_wrappers_ example_tabs → opener (opener_ w) = Some p →
      p ∈ [1; 2; 3]%positive ∧ p ≠ web_state w).
    intros w p. simpl. rewrite !elem_of_cons, elem_of_nil.
    intros [->|[->|[->|[]]]]; simpl; intros [= <-]; (split; [set_solver|done]).
  - unfold count, zlen. simpl. lia.
  - unfold count, zlen, INT_MAX. simpl. lia.
Qed.

Lemma example_fresh : 4%positive ∉ web_states example_tabs.
Proof. apply (bool_decide_unpack _). vm_compute. exact I. Qed.

Lemma example_insert_pre :
  insert_pre example_tabs 0 4%positive 5 WebStateOpener_null.
Proof.
  split; [apply example_tabs_inv|reflexivity|apply example_fresh|
          eexists; reflexivity|discriminate|discriminate].
Qed.

Lemma InsertWebState_correct_witness :
  ∃ r l', InsertWebState 0 4%positive 5 WebStateOpener_null example_tabs = Ok (r, l') ∧
    r = insertion_index example_tabs (Some 1%positive) ∧ 0 <= r <= 3 ∧
    web_states l' = vec_insert [1; 2; 3]%positive r 4%positive ∧
    active_web_state l' = Some 4%positive ∧ wsl_inv l' ∧ locked_ l' = false.
Proof.
  exact (InsertWebState_correct example_tabs 0 4%positive 5 WebStateOpener_null
    example_insert_pre eq_refl).
Defined.

Lemma DetermineInsertionIndex_after_group_witness :
  ∃ r, DetermineInsertionIndex (Some 1%positive) example_tabs = Ok (r, example_tabs) ∧
    0 < r <= 3.
Proof.
  destruct (DetermineInsertionIndex_after_group example_tabs 1%positive example_tabs_inv)
    as (_ & r & Hrun & Hr & _).
  - apply (bool_decide_unpack _). vm_compute. exact I.
  - exists r. split; [exact Hrun|exact Hr].
Defined.

Lemma MoveWebStateAt_correct_witness :
  ∃ l', MoveWebStateAt 0 2 example_tabs = Ok (tt, l') ∧
    active_web_state l' = Some 1%positive ∧ wsl_inv l'.
Proof.
  destruct (MoveWebStateAt_correct example_tabs 0 2 example_tabs_inv eq_refl)
    as (l' & Hrun & _ & _ & Ha & Hinv & _); [by split|by split|].
  exists l'. split; [exact Hrun|]. split; [exact Ha|exact Hinv].
Defined.

Lemma DetachWebStateAt_correct_witness :
  ∃ w l', vec_at (web_state_wrappers_ example_tabs) 2 = Some w ∧
    DetachWebStateAt 2 example_tabs = Ok (web_state w, l') ∧
    active_web_state l' = Some 1%positive ∧ wsl_inv l'.
Proof.
  destruct (DetachWebStateAt_correct example_tabs 2 example_tabs_inv eq_refl)
    as (w & l' & Hw & Hrun & _ & _ & _ & _ & Ha & _ & Hinv & _); [by split|].
  exists w, l'. split; [exact Hw|]. split; [exact Hrun|].
  split; [apply Ha; discriminate|exact Hinv].
Defined.

Lemma DetermineNewActiveIndex_selects_first_witness :
  DetermineNewActiveIndex 1 example_tabs = Ok (0, example_tabs).
Proof.
  apply (DetermineNewActiveIndex_selects_first example_tabs 1
    (MkWrapper 2%positive (MkOpener (Some 1%positive) 0)) example_tabs_inv); [reflexivity|].
  right. exists 1%positive. split; [reflexivity|]. left. exists 2. split; [reflexivity|].
  eexists. split; [reflexivity|reflexivity].
Defined.

Lemma ReplaceWebStateAt_correct_witness :
  ∃ w l', ReplaceWebStateAt 1 4%positive example_tabs = Ok (web_state w, l') ∧
    active_index_ l' = 0 ∧
    log_ l' = [(false, EvWillAddWebState 4); (false, EvReplacedAt (web_state w) 4 1);
      (false, EvActivatedAt (Some (web_state w)) (active_web_state l') 0 1);
      (false, EvDelegateDetached (web_state w))]%positive.
Proof.
  destruct (ReplaceWebStateAt_correct example_tabs 1 4%positive example_tabs_inv)
    as (w & l' & _ & Hrun & _ & _ & _ & Ha & Hlog);
    [by split|apply example_fresh|eexists; reflexivity|].
  exists w, l'. split; [exact Hrun|]. split; [exact Ha|exact Hlog].
Defined.

Lemma CloseAllWebStates_terminates_witness :
  ∃ l', CloseAllWebStates 3 CLOSE_USER_ACTION example_tabs = Ok (Some tt, l') ∧
    web_states l' = [].
Proof.
  destruct (CloseAllWebStates_terminates example_tabs CLOSE_USER_ACTION example_tabs_inv eq_refl)
    as (l' & Hrun & Hnil & _).
  exists l'. split; [exact Hrun|exact Hnil].
Defined.

Lemma locked_list_rejects_mutations_witness :
  DetachWebStateAt 0 (lock_state true example_tabs) = Crash CheckFailed.
Proof.
  apply (locked_list_rejects_mutations (lock_state true example_tabs) 0 0 4%positive 0
    WebStateOpener_null eq_refl).
Defined.

Lemma reachable_lists_never_fail_witness :
  wsl_inv (WebStateList_new ∅) ∧
  ∃ l', wsl_step (WebStateList_new ∅) (OpWebState 1%positive (Some example_web_state)) l'.
Proof.
  destruct (reachable_lists_never_fail ∅ (WebStateList_new ∅)) as (Hinv & _ & Hok).
  - apply reach_refl.
  - split; [exact Hinv|]. apply Hok. simpl. done.
Defined.
