(* ===== verification/CGFloat.v ===== *)
(** * CGFloat: 64-bit IEEE 754 arithmetic

    [CGFloat] is [double] on the platforms the code runs on.  The operations
    are those of the Standard Library's executable specification of IEEE 754,
    so that NaN, infinities and rounding are those of the code. *)

From Stdlib Require Export SpecFloat.
From S2P Require Import Prelude.

Declare Scope cgfloat_scope.
Delimit Scope cgfloat_scope with cg.

Notation CGFloat := spec_float.

Definition f0 : CGFloat := S754_zero false.
Definition f1 : CGFloat := S754_finite false 4503599627370496 (-52).
(** [std::numeric_limits<CGFloat>::epsilon()], 2^-52. *)
Definition fepsilon : CGFloat := S754_finite false 4503599627370496 (-104).
Definition NAN : CGFloat := S754_nan.

Definition fadd : CGFloat → CGFloat → CGFloat := SFadd 53 1024.
Definition fsub : CGFloat → CGFloat → CGFloat := SFsub 53 1024.
Definition fmul : CGFloat → CGFloat → CGFloat := SFmul 53 1024.
Definition fdiv : CGFloat → CGFloat → CGFloat := SFdiv 53 1024.
Definition fopp : CGFloat → CGFloat := SFopp.
Definition fabs : CGFloat → CGFloat := SFabs.
Definition feq : CGFloat → CGFloat → bool := SFeqb.
Definition flt : CGFloat → CGFloat → bool := SFltb.
Definition fle : CGFloat → CGFloat → bool := SFleb.
Definition isnan (x : CGFloat) : bool :=
  match x with S754_nan => true | _ => false end.

Infix "+" := fadd : cgfloat_scope.
Infix "-" := fsub : cgfloat_scope.
Infix "*" := fmul : cgfloat_scope.
Infix "/" := fdiv : cgfloat_scope.
Notation "- x" := (fopp x) : cgfloat_scope.

(** [std::min] and [std::max], which return their first argument when the
    comparison fails, as it does on NaN. *)
Definition fmin (a b : CGFloat) : CGFloat := if flt b a then b else a.
Definition fmax (a b : CGFloat) : CGFloat := if flt a b then b else a.

Definition AreCGFloatsEqual (a b : CGFloat) : bool :=
  fle (fabs (a - b)%cg) fepsilon.

#[global] Instance spec_float_eq_dec : EqDecision CGFloat.
Proof. solve_decision. Defined.

(** CGPoint, UIEdgeInsets, CGSize. *)
Record CGPoint := CGPointMake { pt_x : CGFloat; pt_y : CGFloat }.
Record UIEdgeInsets := UIEdgeInsetsMake {
  inset_top : CGFloat; inset_left : CGFloat;
  inset_bottom : CGFloat; inset_right : CGFloat;
}.
Definition UIEdgeInsetsZero : UIEdgeInsets := UIEdgeInsetsMake f0 f0 f0 f0.
Definition UIEdgeInsetsEqualToEdgeInsets (a b : UIEdgeInsets) : bool :=
  feq (inset_top a) (inset_top b) && feq (inset_left a) (inset_left b) &&
  feq (inset_bottom a) (inset_bottom b) && feq (inset_right a) (inset_right b).
Record CGSize := CGSizeMake { size_width : CGFloat; size_height : CGFloat }.

(** ** Comparison *)

(** Equality of floating-point numbers is equality of values that are not NaN,
    the two zeros identified. *)
Definition is_zero (x : CGFloat) : bool :=
  match x with S754_zero _ => true | _ => false end.

Lemma Pos_compare_cont_Eq p q : Pos.compare_cont Eq p q = Eq ↔ p = q.
Proof. apply (Pos.compare_eq_iff p q). Qed.

Lemma feq_spec x y :
  feq x y = true ↔ isnan x = false ∧ (x = y ∨ is_zero x = true ∧ is_zero y = true).
Proof.
  unfold feq, SFeqb, SFcompare.
  destruct x as [s|s| |s m e], y as [s'|s'| |s' m' e'];
    try destruct s; try destruct s'; simpl; try naive_solver;
    destruct (Z.compare_spec e e') as [->|?|?];
    try (split; [done|intros [_ [[=]|[]]]; first [lia|done]]);
    destruct (Pos.compare_cont Eq m m') eqn:Hc;
    try (apply Pos_compare_cont_Eq in Hc as ->; naive_solver);
    (split; [done|]); intros [_ [[= ->]|[]]]; try done;
    by rewrite (proj2 (Pos_compare_cont_Eq m' m') eq_refl) in Hc.
Qed.

Lemma flt_not_nan x y : flt x y = true → isnan x = false ∧ isnan y = false.
Proof. destruct x, y; done. Qed.

Lemma flt_fle x y : flt x y = true → fle x y = true.
Proof.
  unfold flt, fle, SFltb, SFleb. destruct (SFcompare x y) as [[]|]; done.
Qed.

(** Clamping to [0, 1] with [std::min] and [std::max] always gives a number
    of the interval, also from NaN. *)
Definition in_unit_interval (p : CGFloat) : Prop := fle f0 p = true ∧ fle p f1 = true.

Lemma clamp_unit p : in_unit_interval (fmax f0 (fmin f1 p)).
Proof.
  unfold fmax, fmin, in_unit_interval. destruct (flt p f1) eqn:Hp.
  - destruct (flt f0 p) eqn:H0; [|by vm_compute]. split; by apply flt_fle.
  - by vm_compute.
Qed.

Lemma unit_not_nan p : in_unit_interval p → isnan p = false.
Proof. by destruct p as [| | |]; [| |intros [? ?]|]. Qed.
