(* ===== verification/PageDisplayState.v ===== *)
(** * PageDisplayState: the scroll and zoom state of a page

    Models src/web/public/web_state/page_display_state.mm.  NaN marks a value
    that was never set, so equality is not the one of [double]. *)

From S2P Require Import Prelude.
From S2P Require Import CGFloat.

Record PageScrollState := MkScrollState {
  content_offset_ : CGPoint;
  content_inset_ : UIEdgeInsets;
}.
Record PageZoomState := MkZoomState {
  minimum_zoom_scale_ : CGFloat;
  maximum_zoom_scale_ : CGFloat;
  zoom_scale_ : CGFloat;
}.
Record PageDisplayState := MkDisplayState {
  scroll_state_ : PageScrollState;
  zoom_state_ : PageZoomState;
}.

(** The values of the NSDictionary a state is stored in. *)
Inductive NSValue :=
  | NSNumber_double (d : CGFloat)
  | NSValue_CGPoint (p : CGPoint)
  | NSValue_UIEdgeInsets (i : UIEdgeInsets).
Notation Serialization := (gmap string NSValue).

Definition kContentOffsetKey : string := "contentOffset".
Definition kContentInsetKey : string := "contentInset".
Definition kMinZoomKey : string := "minZoom".
Definition kMaxZoomKey : string := "maxZoom".
Definition kZoomKey : string := "zoom".
Definition kDeprecatedXOffsetKey : string := "scrollX".
Definition kDeprecatedYOffsetKey : string := "scrollY".
Definition kInvalidContentOffset : CGPoint := CGPointMake NAN NAN.
Definition kInvalidContentInset : UIEdgeInsets := UIEdgeInsetsMake NAN NAN NAN NAN.

Definition StateValuesAreEqual (value1 value2 : CGFloat) : bool :=
  if isnan value1 then isnan value2 else feq value1 value2.

Definition StateContentOffsetsAreEqual (offset1 offset2 : CGPoint) : bool :=
  StateValuesAreEqual (pt_x offset1) (pt_x offset2) &&
  StateValuesAreEqual (pt_y offset1) (pt_y offset2).

Definition StateContentInsetsAreEqual (inset1 inset2 : UIEdgeInsets) : bool :=
  StateValuesAreEqual (inset_top inset1) (inset_top inset2) &&
  StateValuesAreEqual (inset_left inset1) (inset_left inset2) &&
  StateValuesAreEqual (inset_bottom inset1) (inset_bottom inset2) &&
  StateValuesAreEqual (inset_right inset1) (inset_right inset2).

Definition IsContentOffsetValid (content_offset : CGPoint) : bool :=
  negb (isnan (pt_x content_offset)) && negb (isnan (pt_y content_offset)).

Definition IsContentInsetValid (content_inset : UIEdgeInsets) : bool :=
  negb (isnan (inset_top content_inset)) && negb (isnan (inset_left content_inset)) &&
  negb (isnan (inset_bottom content_inset)) && negb (isnan (inset_right content_inset)).

(** A message the value does not answer raises. *)
Definition GetFloatValue (key : string) (serialization : Serialization) : res CGFloat :=
  match serialization !! key with
  | Some (NSNumber_double d) => Ok d
  | Some _ => Crash ObjCException
  | None => Ok NAN
  end.

Definition GetContentOffset (serialization : Serialization) : res CGPoint :=
  match serialization !! kContentOffsetKey with
  | Some (NSValue_CGPoint p) => Ok p
  | Some _ => Crash ObjCException
  | None =>
      x ← GetFloatValue kDeprecatedXOffsetKey serialization;
      y ← GetFloatValue kDeprecatedYOffsetKey serialization;
      mret (CGPointMake x y)
  end.

Definition GetContentInset (serialization : Serialization) : res UIEdgeInsets :=
  match serialization !! kContentInsetKey with
  | Some (NSValue_UIEdgeInsets i) => Ok i
  | Some _ => Crash ObjCException
  | None =>
      if bool_decide (is_Some (serialization !! kDeprecatedXOffsetKey)) &&
         bool_decide (is_Some (serialization !! kDeprecatedYOffsetKey))
      then Ok UIEdgeInsetsZero
      else Ok kInvalidContentInset
  end.

(** ** PageScrollState *)
Definition PageScrollState_default : PageScrollState :=
  MkScrollState kInvalidContentOffset kInvalidContentInset.

Definition ScrollState_IsValid (s : PageScrollState) : bool :=
  IsContentOffsetValid (content_offset_ s) && IsContentInsetValid (content_inset_ s).

Definition GetEffectiveContentOffsetForContentInset (s : PageScrollState)
    (content_inset : UIEdgeInsets) : CGPoint :=
  CGPointMake
    (pt_x (content_offset_ s) + inset_left (content_inset_ s) - inset_left content_inset)%cg
    (pt_y (content_offset_ s) + inset_top (content_inset_ s) - inset_top content_inset)%cg.

Definition ScrollState_eqb (s other : PageScrollState) : bool :=
  StateContentOffsetsAreEqual (content_offset_ s) (content_offset_ other) &&
  StateContentInsetsAreEqual (content_inset_ s) (content_inset_ other).

(** ** PageZoomState *)
Definition PageZoomState_default : PageZoomState := MkZoomState NAN NAN NAN.

Definition ZoomState_IsValid (z : PageZoomState) : bool :=
  negb (isnan (minimum_zoom_scale_ z)) && negb (isnan (maximum_zoom_scale_ z)) &&
  negb (isnan (zoom_scale_ z)) &&
  fle (minimum_zoom_scale_ z) (zoom_scale_ z) &&
  fle (zoom_scale_ z) (maximum_zoom_scale_ z).

Definition GetMinMaxZoomDifference (z : PageZoomState) : CGFloat :=
  (maximum_zoom_scale_ z - minimum_zoom_scale_ z)%cg.

Definition ZoomState_eqb (z other : PageZoomState) : bool :=
  StateValuesAreEqual (minimum_zoom_scale_ z) (minimum_zoom_scale_ other) &&
  StateValuesAreEqual (maximum_zoom_scale_ z) (maximum_zoom_scale_ other) &&
  StateValuesAreEqual (zoom_scale_ z) (zoom_scale_ other).

(** ** PageDisplayState *)
Definition PageDisplayState_default : PageDisplayState :=
  MkDisplayState PageScrollState_default PageZoomState_default.

Definition PageDisplayState_of_values (content_offset : CGPoint)
    (content_inset : UIEdgeInsets)
    (minimum_zoom_scale maximum_zoom_scale zoom_scale : CGFloat) : PageDisplayState :=
  MkDisplayState (MkScrollState content_offset content_inset)
    (MkZoomState minimum_zoom_scale maximum_zoom_scale zoom_scale).

Definition PageDisplayState_of_serialization (serialization : Serialization) :
    res PageDisplayState :=
  content_offset ← GetContentOffset serialization;
  content_inset ← GetContentInset serialization;
  minimum ← GetFloatValue kMinZoomKey serialization;
  maximum ← GetFloatValue kMaxZoomKey serialization;
  zoom ← GetFloatValue kZoomKey serialization;
  mret (PageDisplayState_of_values content_offset content_inset minimum maximum zoom).

Definition DisplayState_IsValid (s : PageDisplayState) : bool :=
  ScrollState_IsValid (scroll_state_ s) && ZoomState_IsValid (zoom_state_ s).

Definition DisplayState_eqb (s other : PageDisplayState) : bool :=
  ScrollState_eqb (scroll_state_ s) (scroll_state_ other) &&
  ZoomState_eqb (zoom_state_ s) (zoom_state_ other).

Definition GetSerialization (s : PageDisplayState) : Serialization :=
  list_to_map
    [(kContentOffsetKey, NSValue_CGPoint (content_offset_ (scroll_state_ s)));
     (kContentInsetKey, NSValue_UIEdgeInsets (content_inset_ (scroll_state_ s)));
     (kMinZoomKey, NSNumber_double (minimum_zoom_scale_ (zoom_state_ s)));
     (kMaxZoomKey, NSNumber_double (maximum_zoom_scale_ (zoom_state_ s)));
     (kZoomKey, NSNumber_double (zoom_scale_ (zoom_state_ s)))].

(** ** Equality *)

Definition same_value (x y : CGFloat) : Prop :=
  x = y ∨ is_zero x = true ∧ is_zero y = true.

Lemma StateValuesAreEqual_spec x y : StateValuesAreEqual x y = true ↔ same_value x y.
Proof.
  unfold StateValuesAreEqual, same_value. destruct (isnan x) eqn:Hx.
  - destruct x, y; naive_solver.
  - rewrite feq_spec. naive_solver.
Qed.

#[local] Instance same_value_equivalence : Equivalence same_value.
Proof.
  unfold same_value. split.
  - intros x. by left.
  - intros x y [->|[? ?]]; auto.
  - intros x y z [->|[? ?]] [->|[? ?]]; auto.
Qed.

(** The floating-point values of a state, in order. *)
Definition state_values (s : PageDisplayState) : list CGFloat :=
  let o := content_offset_ (scroll_state_ s) in
  let i := content_inset_ (scroll_state_ s) in
  let z := zoom_state_ s in
  [pt_x o; pt_y o; inset_top i; inset_left i; inset_bottom i; inset_right i;
   minimum_zoom_scale_ z; maximum_zoom_scale_ z; zoom_scale_ z].

Lemma DisplayState_eqb_values s t :
  DisplayState_eqb s t = true ↔ Forall2 same_value (state_values s) (state_values t).
Proof.
  unfold DisplayState_eqb, ScrollState_eqb, ZoomState_eqb, StateContentOffsetsAreEqual,
    StateContentInsetsAreEqual, state_values.
  rewrite !andb_true_iff, !StateValuesAreEqual_spec, !Forall2_cons. intuition.
Qed.

Lemma state_values_inj s t : state_values s = state_values t → s = t.
Proof. destruct s as [[[] []] []], t as [[[] []] []]. by intros [=]; subst. Qed.

Lemma same_values_nonzero v v' :
  (∀ x, x ∈ v → is_zero x = false) → Forall2 same_value v v' → v = v'.
Proof.
  intros Hz Hv. induction Hv as [|x y v v' Hxy Hv IH]; [done|].
  destruct Hxy as [->|[Hx _]].
  - f_equal. apply IH. intros z ?. apply Hz. by apply list_elem_of_further.
  - rewrite Hz in Hx; [done|]. by apply list_elem_of_here.
Qed.

(** ** Serialization *)

Lemma serialized_roundtrip s : PageDisplayState_of_serialization (GetSerialization s) = Ok s.
Proof. by destruct s as [[o i] [mn mx z]]. Qed.

(** PageDisplayState's [==] is an equivalence relation, although its values
    may be NaN; it distinguishes two states exactly when some value differs,
    the two zeros identified and NaN equal to itself. *)
Theorem DisplayState_eqb_equivalence :
  Equivalence (λ s t, DisplayState_eqb s t = true) ∧
  (∀ s t, DisplayState_eqb s t = true ↔ Forall2 same_value (state_values s) (state_values t)) ∧
  (∀ s t, DisplayState_eqb s t = true →
    (∀ x, x ∈ state_values s → is_zero x = false) → s = t).
Proof.
  split; [|split].
  - split.
    + intros s. by apply DisplayState_eqb_values.
    + intros s t. rewrite !DisplayState_eqb_values. intros. by symmetry.
    + intros s t u. rewrite !DisplayState_eqb_values. intros. by etrans.
  - apply DisplayState_eqb_values.
  - intros s t Heq%DisplayState_eqb_values Hz. by apply state_values_inj, same_values_nonzero.
Qed.

(** A PageDisplayState is read back exactly from its serialization, valid
    or not. *)
Theorem GetSerialization_roundtrip s :
  PageDisplayState_of_serialization (GetSerialization s) = Ok s ∧
  DisplayState_eqb s s = true.
Proof.
  split; [apply serialized_roundtrip|]. by apply DisplayState_eqb_values.
Qed.

(** The dictionaries written before the content inset was stored. *)
Definition legacy_serialization (x y zoom : CGFloat) : Serialization :=
  list_to_map [(kDeprecatedXOffsetKey, NSNumber_double x);
               (kDeprecatedYOffsetKey, NSNumber_double y);
               (kZoomKey, NSNumber_double zoom)].

(** A legacy dictionary with the two scroll offsets is read with a zero
    inset, so its scroll state is valid when the offsets are numbers; without
    a zoom range the zoom state, and the whole state, is never valid, whatever
    the zoom scale. *)
Theorem legacy_serialization_read x y zoom :
  ∃ s, PageDisplayState_of_serialization (legacy_serialization x y zoom) = Ok s ∧
    content_offset_ (scroll_state_ s) = CGPointMake x y ∧
    ScrollState_IsValid (scroll_state_ s) = negb (isnan x) && negb (isnan y) ∧
    zoom_scale_ (zoom_state_ s) = zoom ∧
    ZoomState_IsValid (zoom_state_ s) = false ∧ DisplayState_IsValid s = false.
Proof.
  eexists. split; [reflexivity|]. split; [done|]. split.
  - unfold ScrollState_IsValid, IsContentOffsetValid. simpl. by rewrite andb_true_r.
  - split; [done|]. split; [done|]. unfold DisplayState_IsValid. simpl. apply andb_false_r.
Qed.
