(* ===== verification/FullscreenModel.v ===== *)
(** * FullscreenModel: how much of the toolbars a scroll shows

    Models src/chrome/browser/ui/fullscreen/fullscreen_model.mm and its header.
    The model receives scroll events and toolbar heights and maintains the
    progress of the toolbars, 0 when collapsed and 1 when visible. *)

From S2P Require Import Prelude.
From S2P Require Import CGFloat.

(** The calls on the observers. *)
Inductive FullscreenModelCall :=
  | FullscreenModelToolbarHeightsUpdated
  | FullscreenModelProgressUpdated
  | FullscreenModelEnabledStateChanged
  | FullscreenModelScrollEventStarted
  | FullscreenModelScrollEventEnded
  | FullscreenModelWasReset.

(** [calls_] lists the calls on the observers so far, each with the value of
    [observer_callback_count_] at the time. *)
Record FullscreenModel := MkFullscreenModel {
  progress_ : CGFloat;
  base_offset_ : CGFloat;
  collapsed_toolbar_height_ : CGFloat;
  expanded_toolbar_height_ : CGFloat;
  bottom_toolbar_height_ : CGFloat;
  y_content_offset_ : CGFloat;
  scroll_view_height_ : CGFloat;
  content_height_ : CGFloat;
  top_inset_ : CGFloat;
  disabled_counter_ : Z;
  disabled_for_short_content_ : bool;
  scrolling_ : bool;
  zooming_ : bool;
  dragging_ : bool;
  ignoring_current_scroll_ : bool;
  resizes_scroll_view_ : bool;
  safe_area_insets_ : UIEdgeInsets;
  observer_callback_count_ : Z;
  calls_ : list (Z * FullscreenModelCall);
}.
Notation FM := (M FullscreenModel).

Definition with_progress_ (x : CGFloat) (m : FullscreenModel) : FullscreenModel :=
  MkFullscreenModel x (base_offset_ m) (collapsed_toolbar_height_ m) (expanded_toolbar_height_ m) (bottom_toolbar_height_ m) (y_content_offset_ m) (scroll_view_height_ m) (content_height_ m) (top_inset_ m) (disabled_counter_ m) (disabled_for_short_content_ m) (scrolling_ m) (zooming_ m) (dragging_ m) (ignoring_current_scroll_ m) (resizes_scroll_view_ m) (safe_area_insets_ m) (observer_callback_count_ m) (calls_ m).
Definition with_base_offset_ (x : CGFloat) (m : FullscreenModel) : FullscreenModel :=
  MkFullscreenModel (progress_ m) x (collapsed_toolbar_height_ m) (expanded_toolbar_height_ m) (bottom_toolbar_height_ m) (y_content_offset_ m) (scroll_view_height_ m) (content_height_ m) (top_inset_ m) (disabled_counter_ m) (disabled_for_short_content_ m) (scrolling_ m) (zooming_ m) (dragging_ m) (ignoring_current_scroll_ m) (resizes_scroll_view_ m) (safe_area_insets_ m) (observer_callback_count_ m) (calls_ m).
Definition with_collapsed_toolbar_height_ (x : CGFloat) (m : FullscreenModel) : FullscreenModel :=
  MkFullscreenModel (progress_ m) (base_offset_ m) x (expanded_toolbar_height_ m) (bottom_toolbar_height_ m) (y_content_offset_ m) (scroll_view_height_ m) (content_height_ m) (top_inset_ m) (disabled_counter_ m) (disabled_for_short_content_ m) (scrolling_ m) (zooming_ m) (dragging_ m) (ignoring_current_scroll_ m) (resizes_scroll_view_ m) (safe_area_insets_ m) (observer_callback_count_ m) (calls_ m).
Definition with_expanded_toolbar_height_ (x : CGFloat) (m : FullscreenModel) : FullscreenModel :=
  MkFullscreenModel (progress_ m) (base_offset_ m) (collapsed_toolbar_height_ m) x (bottom_toolbar_height_ m) (y_content_offset_ m) (scroll_view_height_ m) (content_height_ m) (top_inset_ m) (disabled_counter_ m) (disabled_for_short_content_ m) (scrolling_ m) (zooming_ m) (dragging_ m) (ignoring_current_scroll_ m) (resizes_scroll_view_ m) (safe_area_insets_ m) (observer_callback_count_ m) (calls_ m).
Definition with_bottom_toolbar_height_ (x : CGFloat) (m : FullscreenModel) : FullscreenModel :=
  MkFullscreenModel (progress_ m) (base_offset_ m) (collapsed_toolbar_height_ m) (expanded_toolbar_height_ m) x (y_content_offset_ m) (scroll_view_height_ m) (content_height_ m) (top_inset_ m) (disabled_counter_ m) (disabled_for_short_content_ m) (scrolling_ m) (zooming_ m) (dragging_ m) (ignoring_current_scroll_ m) (resizes_scroll_view_ m) (safe_area_insets_ m) (observer_callback_count_ m) (calls_ m).
Definition with_y_content_offset_ (x : CGFloat) (m : FullscreenModel) : FullscreenModel :=
  MkFullscreenModel (progress_ m) (base_offset_ m) (collapsed_toolbar_height_ m) (expanded_toolbar_height_ m) (bottom_toolbar_height_ m) x (scroll_view_height_ m) (content_height_ m) (top_inset_ m) (disabled_counter_ m) (disabled_for_short_content_ m) (scrolling_ m) (zooming_ m) (dragging_ m) (ignoring_current_scroll_ m) (resizes_scroll_view_ m) (safe_area_insets_ m) (observer_callback_count_ m) (calls_ m).
Definition with_scroll_view_height_ (x : CGFloat) (m : FullscreenModel) : FullscreenModel :=
  MkFullscreenModel (progress_ m) (base_offset_ m) (collapsed_toolbar_height_ m) (expanded_toolbar_height_ m) (bottom_toolbar_height_ m) (y_content_offset_ m) x (content_height_ m) (top_inset_ m) (disabled_counter_ m) (disabled_for_short_content_ m) (scrolling_ m) (zooming_ m) (dragging_ m) (ignoring_current_scroll_ m) (resizes_scroll_view_ m) (safe_area_insets_ m) (observer_callback_count_ m) (calls_ m).
Definition with_content_height_ (x : CGFloat) (m : FullscreenModel) : FullscreenModel :=
  MkFullscreenModel (progress_ m) (base_offset_ m) (collapsed_toolbar_height_ m) (expanded_toolbar_height_ m) (bottom_toolbar_height_ m) (y_content_offset_ m) (scroll_view_height_ m) x (top_inset_ m) (disabled_counter_ m) (disabled_for_short_content_ m) (scrolling_ m) (zooming_ m) (dragging_ m) (ignoring_current_scroll_ m) (resizes_scroll_view_ m) (safe_area_insets_ m) (observer_callback_count_ m) (calls_ m).
Definition with_top_inset_ (x : CGFloat) (m : FullscreenModel) : FullscreenModel :=
  MkFullscreenModel (progress_ m) (base_offset_ m) (collapsed_toolbar_height_ m) (expanded_toolbar_height_ m) (bottom_toolbar_height_ m) (y_content_offset_ m) (scroll_view_height_ m) (content_height_ m) x (disabled_counter_ m) (disabled_for_short_content_ m) (scrolling_ m) (zooming_ m) (dragging_ m) (ignoring_current_scroll_ m) (resizes_scroll_view_ m) (safe_area_insets_ m) (observer_callback_count_ m) (calls_ m).
Definition with_disabled_counter_ (x : Z) (m : FullscreenModel) : FullscreenModel :=
  MkFullscreenModel (progress_ m) (base_offset_ m) (collapsed_toolbar_height_ m) (expanded_toolbar_height_ m) (bottom_toolbar_height_ m) (y_content_offset_ m) (scroll_view_height_ m) (content_height_ m) (top_inset_ m) x (disabled_for_short_content_ m) (scrolling_ m) (zooming_ m) (dragging_ m) (ignoring_current_scroll_ m) (resizes_scroll_view_ m) (safe_area_insets_ m) (observer_callback_count_ m) (calls_ m).
Definition with_disabled_for_short_content_ (x : bool) (m : FullscreenModel) : FullscreenModel :=
  MkFullscreenModel (progress_ m) (base_offset_ m) (collapsed_toolbar_height_ m) (expanded_toolbar_height_ m) (bottom_toolbar_height_ m) (y_content_offset_ m) (scroll_view_height_ m) (content_height_ m) (top_inset_ m) (disabled_counter_ m) x (scrolling_ m) (zooming_ m) (dragging_ m) (ignoring_current_scroll_ m) (resizes_scroll_view_ m) (safe_area_insets_ m) (observer_callback_count_ m) (calls_ m).
Definition with_scrolling_ (x : bool) (m : FullscreenModel) : FullscreenModel :=
  MkFullscreenModel (progress_ m) (base_offset_ m) (collapsed_toolbar_height_ m) (expanded_toolbar_height_ m) (bottom_toolbar_height_ m) (y_content_offset_ m) (scroll_view_height_ m) (content_height_ m) (top_inset_ m) (disabled_counter_ m) (disabled_for_short_content_ m) x (zooming_ m) (dragging_ m) (ignoring_current_scroll_ m) (resizes_scroll_view_ m) (safe_area_insets_ m) (observer_callback_count_ m) (calls_ m).
Definition with_zooming_ (x : bool) (m : FullscreenModel) : FullscreenModel :=
  MkFullscreenModel (progress_ m) (base_offset_ m) (collapsed_toolbar_height_ m) (expanded_toolbar_height_ m) (bottom_toolbar_height_ m) (y_content_offset_ m) (scroll_view_height_ m) (content_height_ m) (top_inset_ m) (disabled_counter_ m) (disabled_for_short_content_ m) (scrolling_ m) x (dragging_ m) (ignoring_current_scroll_ m) (resizes_scroll_view_ m) (safe_area_insets_ m) (observer_callback_count_ m) (calls_ m).
Definition with_dragging_ (x : bool) (m : FullscreenModel) : FullscreenModel :=
  MkFullscreenModel (progress_ m) (base_offset_ m) (collapsed_toolbar_height_ m) (expanded_toolbar_height_ m) (bottom_toolbar_height_ m) (y_content_offset_ m) (scroll_view_height_ m) (content_height_ m) (top_inset_ m) (disabled_counter_ m) (disabled_for_short_content_ m) (scrolling_ m) (zooming_ m) x (ignoring_current_scroll_ m) (resizes_scroll_view_ m) (safe_area_insets_ m) (observer_callback_count_ m) (calls_ m).
Definition with_ignoring_current_scroll_ (x : bool) (m : FullscreenModel) : FullscreenModel :=
  MkFullscreenModel (progress_ m) (base_offset_ m) (collapsed_toolbar_height_ m) (expanded_toolbar_height_ m) (bottom_toolbar_height_ m) (y_content_offset_ m) (scroll_view_height_ m) (content_height_ m) (top_inset_ m) (disabled_counter_ m) (disabled_for_short_content_ m) (scrolling_ m) (zooming_ m) (dragging_ m) x (resizes_scroll_view_ m) (safe_area_insets_ m) (observer_callback_count_ m) (calls_ m).
Definition with_resizes_scroll_view_ (x : bool) (m : FullscreenModel) : FullscreenModel :=
  MkFullscreenModel (progress_ m) (base_offset_ m) (collapsed_toolbar_height_ m) (expanded_toolbar_height_ m) (bottom_toolbar_height_ m) (y_content_offset_ m) (scroll_view_height_ m) (content_height_ m) (top_inset_ m) (disabled_counter_ m) (disabled_for_short_content_ m) (scrolling_ m) (zooming_ m) (dragging_ m) (ignoring_current_scroll_ m) x (safe_area_insets_ m) (observer_callback_count_ m) (calls_ m).
Definition with_safe_area_insets_ (x : UIEdgeInsets) (m : FullscreenModel) : FullscreenModel :=
  MkFullscreenModel (progress_ m) (base_offset_ m) (collapsed_toolbar_height_ m) (expanded_toolbar_height_ m) (bottom_toolbar_height_ m) (y_content_offset_ m) (scroll_view_height_ m) (content_height_ m) (top_inset_ m) (disabled_counter_ m) (disabled_for_short_content_ m) (scrolling_ m) (zooming_ m) (dragging_ m) (ignoring_current_scroll_ m) (resizes_scroll_view_ m) x (observer_callback_count_ m) (calls_ m).
Definition with_observer_callback_count_ (x : Z) (m : FullscreenModel) : FullscreenModel :=
  MkFullscreenModel (progress_ m) (base_offset_ m) (collapsed_toolbar_height_ m) (expanded_toolbar_height_ m) (bottom_toolbar_height_ m) (y_content_offset_ m) (scroll_view_height_ m) (content_height_ m) (top_inset_ m) (disabled_counter_ m) (disabled_for_short_content_ m) (scrolling_ m) (zooming_ m) (dragging_ m) (ignoring_current_scroll_ m) (resizes_scroll_view_ m) (safe_area_insets_ m) x (calls_ m).
Definition with_calls_ (x : list (Z * FullscreenModelCall)) (m : FullscreenModel) : FullscreenModel :=
  MkFullscreenModel (progress_ m) (base_offset_ m) (collapsed_toolbar_height_ m) (expanded_toolbar_height_ m) (bottom_toolbar_height_ m) (y_content_offset_ m) (scroll_view_height_ m) (content_height_ m) (top_inset_ m) (disabled_counter_ m) (disabled_for_short_content_ m) (scrolling_ m) (zooming_ m) (dragging_ m) (ignoring_current_scroll_ m) (resizes_scroll_view_ m) (safe_area_insets_ m) (observer_callback_count_ m) x.

Definition set_progress_ (x : CGFloat) : FM unit := modify (with_progress_ x).
Definition set_base_offset_ (x : CGFloat) : FM unit := modify (with_base_offset_ x).
Definition set_collapsed_toolbar_height_ (x : CGFloat) : FM unit := modify (with_collapsed_toolbar_height_ x).
Definition set_expanded_toolbar_height_ (x : CGFloat) : FM unit := modify (with_expanded_toolbar_height_ x).
Definition set_bottom_toolbar_height_ (x : CGFloat) : FM unit := modify (with_bottom_toolbar_height_ x).
Definition set_y_content_offset_ (x : CGFloat) : FM unit := modify (with_y_content_offset_ x).
Definition set_scroll_view_height_ (x : CGFloat) : FM unit := modify (with_scroll_view_height_ x).
Definition set_content_height_ (x : CGFloat) : FM unit := modify (with_content_height_ x).
Definition set_top_inset_ (x : CGFloat) : FM unit := modify (with_top_inset_ x).
Definition set_disabled_counter_ (x : Z) : FM unit := modify (with_disabled_counter_ x).
Definition set_disabled_for_short_content_ (x : bool) : FM unit := modify (with_disabled_for_short_content_ x).
Definition set_scrolling_ (x : bool) : FM unit := modify (with_scrolling_ x).
Definition set_zooming_ (x : bool) : FM unit := modify (with_zooming_ x).
Definition set_dragging_ (x : bool) : FM unit := modify (with_dragging_ x).
Definition set_ignoring_current_scroll_ (x : bool) : FM unit := modify (with_ignoring_current_scroll_ x).
Definition set_resizes_scroll_view_ (x : bool) : FM unit := modify (with_resizes_scroll_view_ x).
Definition set_safe_area_insets_ (x : UIEdgeInsets) : FM unit := modify (with_safe_area_insets_ x).
Definition set_observer_callback_count_ (x : Z) : FM unit := modify (with_observer_callback_count_ x).
Definition set_calls_ (x : list (Z * FullscreenModelCall)) : FM unit := modify (with_calls_ x).

Definition call_observers (c : FullscreenModelCall) : FM unit :=
  m ← gets id;
  set_calls_ (calls_ m ++ [(observer_callback_count_ m, c)]).

(** [ScopedIncrementer incrementer(&observer_callback_count_); body], where
    the count is a [size_t]. *)
Definition with_incrementer (body : FM unit) : FM unit :=
  n ← gets observer_callback_count_;
  set_observer_callback_count_ (to_size_t (n + 1));;
  body;;
  n ← gets observer_callback_count_;
  set_observer_callback_count_ (to_size_t (n - 1)).

(** ** Accessors of the header *)
Definition FullscreenModel_new : FullscreenModel :=
  MkFullscreenModel f0 NAN f0 f0 f0 f0 f0 f0 f0 0 false false false false false false
    UIEdgeInsetsZero 0 [].
Definition enabled (m : FullscreenModel) : bool := disabled_counter_ m =? 0.
Definition has_base_offset (m : FullscreenModel) : bool := negb (isnan (base_offset_ m)).
Definition toolbar_height_delta (m : FullscreenModel) : CGFloat :=
  (expanded_toolbar_height_ m - collapsed_toolbar_height_ m)%cg.
Definition can_collapse_toolbar (m : FullscreenModel) : bool :=
  flt (scroll_view_height_ m + toolbar_height_delta m)%cg (content_height_ m).
Definition is_scrolled_to_bottom (m : FullscreenModel) : bool :=
  fle (content_height_ m) (y_content_offset_ m + scroll_view_height_ m)%cg.
Definition GetToolbarInsetsAtProgress (m : FullscreenModel) (progress : CGFloat) : UIEdgeInsets :=
  UIEdgeInsetsMake
    (collapsed_toolbar_height_ m +
      progress * (expanded_toolbar_height_ m - collapsed_toolbar_height_ m))%cg
    f0 (progress * bottom_toolbar_height_ m)%cg f0.
Definition min_toolbar_insets (m : FullscreenModel) : UIEdgeInsets :=
  GetToolbarInsetsAtProgress m f0.
Definition max_toolbar_insets (m : FullscreenModel) : UIEdgeInsets :=
  GetToolbarInsetsAtProgress m f1.
Definition current_toolbar_insets (m : FullscreenModel) : UIEdgeInsets :=
  GetToolbarInsetsAtProgress m (progress_ m).

(** ** Progress *)
Definition SetProgress (progress : CGFloat) : FM unit :=
  let progress := fmin f1 progress in
  let progress := fmax f0 progress in
  p ← gets progress_;
  if AreCGFloatsEqual p progress then mret tt
  else
    set_progress_ progress;;
    with_incrementer (call_observers FullscreenModelProgressUpdated).

Definition UpdateBaseOffset : FM unit :=
  m ← gets id;
  set_base_offset_ (y_content_offset_ m - (f1 - progress_ m) * toolbar_height_delta m)%cg.

Definition UpdateProgress : FM unit :=
  m ← gets id;
  let delta := (base_offset_ m - y_content_offset_ m)%cg in
  SetProgress (f1 + delta / toolbar_height_delta m)%cg.

(** ** Disabling *)
Definition IncrementDisabledCounter : FM unit :=
  n ← gets disabled_counter_;
  set_disabled_counter_ (to_size_t (n + 1));;
  n ← gets disabled_counter_;
  whenM (n =? 1)
    (with_incrementer (
      call_observers FullscreenModelEnabledStateChanged;;
      SetProgress f1;;
      UpdateBaseOffset)).

Definition DecrementDisabledCounter : FM unit :=
  n ← gets disabled_counter_;
  DCHECK (0 <? n);;
  set_disabled_counter_ (to_size_t (n - 1));;
  n ← gets disabled_counter_;
  whenM (n =? 0)
    (with_incrementer (call_observers FullscreenModelEnabledStateChanged)).

Definition disabling_threshold (m : FullscreenModel) : CGFloat :=
  (if resizes_scroll_view_ m
   then scroll_view_height_ m + (expanded_toolbar_height_ m + bottom_toolbar_height_ m)
   else scroll_view_height_ m +
          (inset_top (safe_area_insets_ m) + inset_bottom (safe_area_insets_ m)))%cg.

Definition short_content (m : FullscreenModel) : bool :=
  negb (AreCGFloatsEqual (content_height_ m) f0) &&
  negb (AreCGFloatsEqual (scroll_view_height_ m) f0) &&
  fle (content_height_ m) (disabling_threshold m).

Definition UpdateDisabledCounterForContentHeight : FM unit :=
  m ← gets id;
  let disable := short_content m in
  if bool_decide (disabled_for_short_content_ m = disable) then mret tt
  else
    set_disabled_for_short_content_ disable;;
    if disable then IncrementDisabledCounter else DecrementDisabledCounter.

(** ** Navigation, animation, toolbar heights *)
Definition ResetForNavigation : FM unit :=
  set_progress_ f1;;
  set_scrolling_ false;;
  set_base_offset_ NAN;;
  with_incrementer (call_observers FullscreenModelWasReset).

Definition IgnoreRemainderOfCurrentScroll : FM unit :=
  s ← gets scrolling_;
  if negb s then mret tt else set_ignoring_current_scroll_ true.

Definition AnimationEndedWithProgress (progress : CGFloat) : FM unit :=
  DCHECK (fle f0 progress);;
  DCHECK (fle progress f1);;
  set_progress_ progress.

(** The common body of the three setters of a toolbar height. *)
Definition SetToolbarHeight (get : FullscreenModel → CGFloat)
    (set : CGFloat → FM unit) (height : CGFloat) : FM unit :=
  h ← gets get;
  if AreCGFloatsEqual h height then mret tt
  else
    DCHECK (fle f0 height);;
    set height;;
    ResetForNavigation;;
    with_incrementer (call_observers FullscreenModelToolbarHeightsUpdated).

Definition SetCollapsedToolbarHeight : CGFloat → FM unit :=
  SetToolbarHeight collapsed_toolbar_height_ set_collapsed_toolbar_height_.
Definition SetExpandedToolbarHeight : CGFloat → FM unit :=
  SetToolbarHeight expanded_toolbar_height_ set_expanded_toolbar_height_.
Definition SetBottomToolbarHeight : CGFloat → FM unit :=
  SetToolbarHeight bottom_toolbar_height_ set_bottom_toolbar_height_.

Definition SetScrollViewHeight (scroll_view_height : CGFloat) : FM unit :=
  set_scroll_view_height_ scroll_view_height;;
  UpdateDisabledCounterForContentHeight.

Definition SetContentHeight (content_height : CGFloat) : FM unit :=
  set_content_height_ content_height;;
  UpdateDisabledCounterForContentHeight.

Definition SetTopContentInset (top_inset : CGFloat) : FM unit :=
  set_top_inset_ top_inset.

Definition SetResizesScrollView (resizes_scroll_view : bool) : FM unit :=
  set_resizes_scroll_view_ resizes_scroll_view.

Definition SetWebViewSafeAreaInsets (safe_area_insets : UIEdgeInsets) : FM unit :=
  i ← gets safe_area_insets_;
  if UIEdgeInsetsEqualToEdgeInsets i safe_area_insets then mret tt
  else
    set_safe_area_insets_ safe_area_insets;;
    UpdateDisabledCounterForContentHeight.

(** ** Scrolling *)
Inductive ScrollAction :=
  | kIgnore
  | kUpdateBaseOffset
  | kUpdateProgress
  | kUpdateBaseOffsetAndProgress.

Definition ActionForScrollFromOffset (m : FullscreenModel) (from_offset : CGFloat) :
    ScrollAction :=
  if negb (enabled m) || negb (scrolling_ m) || zooming_ m ||
     negb (observer_callback_count_ m =? 0) ||
     AreCGFloatsEqual (toolbar_height_delta m) f0 ||
     AreCGFloatsEqual (y_content_offset_ m) from_offset
  then kUpdateBaseOffset
  else
    let scrolling_content_down := flt (y_content_offset_ m - from_offset)%cg f0 in
    let scrolling_past_top := fle (y_content_offset_ m) (- top_inset_ m)%cg in
    let content_fits := fle (content_height_ m) (scroll_view_height_ m - top_inset_ m)%cg in
    if ignoring_current_scroll_ m ||
       (scrolling_past_top && negb scrolling_content_down) ||
       (content_fits && negb scrolling_content_down)
    then kIgnore
    else if has_base_offset m then kUpdateProgress else kUpdateBaseOffsetAndProgress.

Definition SetYContentOffset (y_content_offset : CGFloat) : FM unit :=
  from_offset ← gets y_content_offset_;
  set_y_content_offset_ y_content_offset;;
  m ← gets id;
  match ActionForScrollFromOffset m from_offset with
  | kUpdateBaseOffset => UpdateBaseOffset
  | kUpdateProgress => UpdateProgress
  | kUpdateBaseOffsetAndProgress => UpdateBaseOffset;; UpdateProgress
  | kIgnore => mret tt
  end.

Definition SetScrollViewIsScrolling (scrolling : bool) : FM unit :=
  s ← gets scrolling_;
  if bool_decide (s = scrolling) then mret tt
  else
    set_scrolling_ scrolling;;
    whenM (negb scrolling)
      (set_ignoring_current_scroll_ false;;
       with_incrementer (call_observers FullscreenModelScrollEventEnded)).

Definition SetScrollViewIsZooming (zooming : bool) : FM unit := set_zooming_ zooming.

Definition SetScrollViewIsDragging (dragging : bool) : FM unit :=
  d ← gets dragging_;
  if bool_decide (d = dragging) then mret tt
  else
    set_dragging_ dragging;;
    whenM dragging
      (with_incrementer (
        call_observers FullscreenModelScrollEventStarted;;
        UpdateBaseOffset)).

(** ** ChromeBroadcastObserverInterface *)
Definition OnScrollViewSizeBroadcasted (scroll_view_size : CGSize) : FM unit :=
  SetScrollViewHeight (size_height scroll_view_size).
Definition OnScrollViewContentSizeBroadcasted (content_size : CGSize) : FM unit :=
  SetContentHeight (size_height content_size).
Definition OnScrollViewContentInsetBroadcasted (content_inset : UIEdgeInsets) : FM unit :=
  SetTopContentInset (inset_top content_inset).
Definition OnContentScrollOffsetBroadcasted (offset : CGFloat) : FM unit :=
  SetYContentOffset offset.
Definition OnScrollViewIsScrollingBroadcasted (scrolling : bool) : FM unit :=
  SetScrollViewIsScrolling scrolling.
Definition OnScrollViewIsZoomingBroadcasted (zooming : bool) : FM unit :=
  SetScrollViewIsZooming zooming.
Definition OnScrollViewIsDraggingBroadcasted (dragging : bool) : FM unit :=
  SetScrollViewIsDragging dragging.
Definition OnCollapsedToolbarHeightBroadcasted (height : CGFloat) : FM unit :=
  SetCollapsedToolbarHeight height.
Definition OnExpandedToolbarHeightBroadcasted (height : CGFloat) : FM unit :=
  SetExpandedToolbarHeight height.
Definition OnBottomToolbarHeightBroadcasted (height : CGFloat) : FM unit :=
  SetBottomToolbarHeight height.
