(* ===== verification/FullscreenModelSpec.v ===== *)
(** * FullscreenModel: progress, disabling and scrolling *)

From S2P Require Import Prelude.
From S2P Require Import CGFloat.
From S2P Require Import FullscreenModel.

(** ** The effect of each operation *)
Section effects.
Implicit Types (m : FullscreenModel).

Definition small_count m : Prop := 0 <= observer_callback_count_ m < 8.

Lemma to_size_t_id z : 0 <= z < 18446744073709551616 → to_size_t z = z.
Proof. intros. by apply Z.mod_small. Qed.

Lemma wp_with_incrementer body Q m :
  small_count m →
  wp body (λ _ m', observer_callback_count_ m' = observer_callback_count_ m + 1 ∧
      Q tt (with_observer_callback_count_ (observer_callback_count_ m) m'))
    (with_observer_callback_count_ (observer_callback_count_ m + 1) m) →
  wp (with_incrementer body) Q m.
Proof.
  intros Hc Hbody. unfold with_incrementer, small_count in *.
  unfold set_observer_callback_count_. wp_simp.
  rewrite to_size_t_id by lia. eapply wp_mono; [|exact Hbody].
  intros [] m' [Hm' HQ]. wp_simp. rewrite Hm', to_size_t_id by lia.
  by replace (observer_callback_count_ m + 1 - 1) with (observer_callback_count_ m) by lia.
Qed.

(** The model after the observers were called from a callback scope. *)
Definition notified (c : FullscreenModelCall) m : FullscreenModel :=
  with_calls_ (calls_ m ++ [(observer_callback_count_ m + 1, c)]) m.

Lemma wp_notify_observers c Q m :
  small_count m → Q tt (notified c m) → wp (with_incrementer (call_observers c)) Q m.
Proof.
  intros Hc HQ. apply wp_with_incrementer; [done|]. unfold call_observers, set_calls_.
  wp_simp. split; [done|]. by destruct m.
Qed.

Definition progress_after (p : CGFloat) m : FullscreenModel :=
  let p := fmax f0 (fmin f1 p) in
  if AreCGFloatsEqual (progress_ m) p then m
  else notified FullscreenModelProgressUpdated (with_progress_ p m).

Lemma wp_SetProgress p Q m :
  small_count m → Q tt (progress_after p m) → wp (SetProgress p) Q m.
Proof.
  intros Hc HQ. unfold SetProgress, progress_after in *. wp_simp.
  destruct (AreCGFloatsEqual _ _); wp_simp; [done|].
  unfold set_progress_. wp_simp. by apply wp_notify_observers.
Qed.

Definition rebased m : FullscreenModel :=
  with_base_offset_ (y_content_offset_ m - (f1 - progress_ m) * toolbar_height_delta m)%cg m.

Lemma wp_UpdateBaseOffset Q m : wp UpdateBaseOffset Q m ↔ Q tt (rebased m).
Proof. done. Qed.

Definition progress_of_scroll m : CGFloat :=
  (f1 + (base_offset_ m - y_content_offset_ m) / toolbar_height_delta m)%cg.

Lemma wp_UpdateProgress Q m :
  small_count m → Q tt (progress_after (progress_of_scroll m) m) → wp UpdateProgress Q m.
Proof. intros Hc HQ. unfold UpdateProgress. wp_simp. by apply wp_SetProgress. Qed.

(** ** Invariant *)

(** [n] is the number of features that disabled the model and did not enable
    it again. *)
Record fs_inv (n : Z) m : Prop := {
  fs_progress : in_unit_interval (progress_ m);
  fs_idle : observer_callback_count_ m = 0;
  fs_counter : disabled_counter_ m = n + (if disabled_for_short_content_ m then 1 else 0);
  fs_features : 0 <= n;
  fs_calls : Forall (λ c, 1 <= c.1) (calls_ m);
}.

Lemma fs_inv_small n m : fs_inv n m → small_count m.
Proof. intros [_ Hi _ _ _]. unfold small_count. lia. Qed.

Lemma Forall_snoc_calls (cs : list (Z * FullscreenModelCall)) k c :
  Forall (λ c, 1 <= c.1) cs → 1 <= k → Forall (λ c, 1 <= c.1) (cs ++ [(k, c)]).
Proof. intros. apply Forall_app. split; [done|]. by constructor. Qed.

Lemma notified_inv n c m : fs_inv n m → fs_inv n (notified c m).
Proof.
  intros [Hp Hi Hc Hn Hl]. split; try done. apply Forall_snoc_calls; [done|]. lia.
Qed.

Lemma notified_reset_inv n c m :
  fs_inv n m → fs_inv n (notified c (with_base_offset_ NAN
    (with_scrolling_ false (with_progress_ f1 m)))).
Proof.
  intros [Hp Hi Hc Hn Hl]. apply notified_inv. split; try done; by vm_compute.
Qed.

Lemma wp_ResetForNavigation Q m :
  small_count m →
  Q tt (notified FullscreenModelWasReset (with_base_offset_ NAN
    (with_scrolling_ false (with_progress_ f1 m)))) → wp ResetForNavigation Q m.
Proof.
  intros Hc HQ. unfold ResetForNavigation, set_progress_, set_scrolling_, set_base_offset_.
  wp_simp. by apply wp_notify_observers.
Qed.

(** The model after it was disabled by the first feature. *)
Definition disabled m : FullscreenModel :=
  with_observer_callback_count_ (observer_callback_count_ m)
    (rebased (progress_after f1
      (with_calls_ (calls_ m ++ [(observer_callback_count_ m + 1, FullscreenModelEnabledStateChanged)])
        (with_observer_callback_count_ (observer_callback_count_ m + 1) m)))).

Lemma progress_after_count p m :
  observer_callback_count_ (progress_after p m) = observer_callback_count_ m.
Proof. unfold progress_after. by destruct (AreCGFloatsEqual _ _). Qed.

Lemma progress_after_unit p m :
  in_unit_interval (progress_ m) → in_unit_interval (progress_ (progress_after p m)).
Proof.
  intros. unfold progress_after. destruct (AreCGFloatsEqual _ _); [done|]. apply clamp_unit.
Qed.

Lemma wp_IncrementDisabledCounter Q m :
  observer_callback_count_ m = 0 → 0 <= disabled_counter_ m < 18446744073709551615 →
  (let m' := with_disabled_counter_ (disabled_counter_ m + 1) m in
   Q tt (if disabled_counter_ m =? 0 then disabled m' else m')) →
  wp IncrementDisabledCounter Q m.
Proof.
  intros Hi Hd HQ. unfold IncrementDisabledCounter, set_disabled_counter_. wp_simp. simpl.
  rewrite to_size_t_id by lia.
  destruct (Z.eqb_spec (disabled_counter_ m) 0) as [E|].
  2:{ by rewrite (proj2 (Z.eqb_neq _ _)) by lia. }
  rewrite E in *. simpl. apply wp_with_incrementer; [unfold small_count; simpl; lia|].
  unfold call_observers, set_calls_. wp_simp. simpl.
  apply wp_SetProgress; [unfold small_count; simpl; lia|].
  rewrite wp_UpdateBaseOffset. split; [|exact HQ].
  unfold rebased. simpl. by rewrite progress_after_count.
Qed.

Lemma progress_after_inv_fields p m :
  disabled_counter_ (progress_after p m) = disabled_counter_ m ∧
  disabled_for_short_content_ (progress_after p m) = disabled_for_short_content_ m ∧
  (Forall (λ c, 1 <= c.1) (calls_ m) → 0 <= observer_callback_count_ m →
   Forall (λ c, 1 <= c.1) (calls_ (progress_after p m))).
Proof.
  unfold progress_after. destruct (AreCGFloatsEqual _ _); [done|].
  split; [done|]. split; [done|]. intros. apply Forall_snoc_calls; [done|simpl; lia].
Qed.

Lemma disabled_inv m n :
  in_unit_interval (progress_ m) → observer_callback_count_ m = 0 →
  disabled_counter_ m = n + (if disabled_for_short_content_ m then 1 else 0) → 0 <= n →
  Forall (λ c, 1 <= c.1) (calls_ m) → fs_inv n (disabled m).
Proof.
  intros Hp Hi Hc Hn Hl. unfold disabled.
  set (m1 := with_calls_ _ _).
  destruct (progress_after_inv_fields f1 m1) as (Hd & Hs & Hcalls).
  split; simpl; [by apply progress_after_unit|done| |done|].
  - by rewrite Hd, Hs.
  - apply Hcalls; [|simpl; lia]. apply Forall_snoc_calls; [done|lia].
Qed.

Lemma wp_DecrementDisabledCounter Q m :
  observer_callback_count_ m = 0 → 0 < disabled_counter_ m < 18446744073709551616 →
  (let m' := with_disabled_counter_ (disabled_counter_ m - 1) m in
   Q tt (if disabled_counter_ m =? 1 then notified FullscreenModelEnabledStateChanged m' else m')) →
  wp DecrementDisabledCounter Q m.
Proof.
  intros Hi Hd HQ. unfold DecrementDisabledCounter, set_disabled_counter_. wp_simp.
  split; [apply Z.ltb_lt; lia|]. simpl. rewrite to_size_t_id by lia.
  destruct (Z.eqb_spec (disabled_counter_ m) 1) as [E|].
  - rewrite E in *. simpl. apply wp_notify_observers; [unfold small_count; simpl; lia|exact HQ].
  - by rewrite (proj2 (Z.eqb_neq _ _)) by lia.
Qed.

Definition max_features : Z := 18446744073709551614.

Lemma wp_features_disable n m :
  fs_inv n m → n < max_features → wp IncrementDisabledCounter (λ _, fs_inv (n + 1)) m.
Proof.
  unfold max_features. intros [Hp Hi Hc Hn Hl] Hmax.
  apply wp_IncrementDisabledCounter; [done| |].
  { destruct (disabled_for_short_content_ m); lia. }
  cbv zeta. case_if; [apply disabled_inv; simpl; try done; lia|].
  split; simpl; try done; lia.
Qed.

Lemma wp_features_enable n m :
  fs_inv n m → 0 < n <= max_features → wp DecrementDisabledCounter (λ _, fs_inv (n - 1)) m.
Proof.
  unfold max_features. intros [Hp Hi Hc Hn Hl] Hpos.
  apply wp_DecrementDisabledCounter; [done| |].
  { destruct (disabled_for_short_content_ m); lia. }
  cbv zeta. case_if; [apply notified_inv|]; split; simpl; try done; lia.
Qed.

Lemma wp_UpdateDisabledCounter n m :
  fs_inv n m → n <= max_features →
  wp UpdateDisabledCounterForContentHeight (λ _ m', fs_inv n m' ∧
    disabled_for_short_content_ m' = short_content m) m.
Proof.
  unfold max_features. intros [Hp Hi Hc Hn Hl] Hmax.
  unfold UpdateDisabledCounterForContentHeight, set_disabled_for_short_content_. wp_simp.
  unfold id. case_bool_decide as Hsame; wp_simp; [by split|].
  destruct (short_content m) eqn:Hs.
  - assert (disabled_for_short_content_ m = false) as Hf by (by destruct (disabled_for_short_content_ m)).
    rewrite Hf in Hc. apply wp_IncrementDisabledCounter; [done|simpl; lia|].
    cbv zeta. simpl. split.
    + case_if; [apply disabled_inv; simpl; try done; lia|]. split; simpl; try done; lia.
    + case_if; [|done]. unfold disabled. simpl.
      match goal with |- disabled_for_short_content_ (progress_after ?p ?x) = _ =>
        destruct (progress_after_inv_fields p x) as (_ & -> & _) end. done.
  - assert (disabled_for_short_content_ m = true) as Hf by (by destruct (disabled_for_short_content_ m)).
    rewrite Hf in Hc. apply wp_DecrementDisabledCounter; [done|simpl; lia|].
    cbv zeta. simpl. split; case_if; try done; [apply notified_inv|]; split; simpl; try done; lia.
Qed.

(** A setter that does not touch what the invariant reads. *)
Definition harmless (set : FM unit) : Prop :=
  ∀ n m, fs_inv n m → wp set (λ _, fs_inv n) m.

Lemma wp_SetToolbarHeight n m get set height :
  harmless (set height) → fs_inv n m → fle f0 height = true →
  wp (SetToolbarHeight get set height) (λ _, fs_inv n) m.
Proof.
  intros Hset Hinv Hh. unfold SetToolbarHeight. wp_simp.
  destruct (AreCGFloatsEqual _ _); wp_simp; [done|]. split; [done|].
  eapply wp_mono; [|by apply Hset]. intros [] m' Hinv'. wp_simp.
  apply wp_ResetForNavigation; [by eapply fs_inv_small|].
  pose proof (notified_reset_inv n FullscreenModelWasReset m' Hinv') as Hr.
  apply wp_notify_observers; [by eapply fs_inv_small|by apply notified_inv].
Qed.

Lemma rebased_inv n m : fs_inv n m → fs_inv n (rebased m).
Proof. by intros [? ? ? ? ?]. Qed.

Lemma progress_after_inv n p m : fs_inv n m → fs_inv n (progress_after p m).
Proof.
  intros Hinv. unfold progress_after. destruct (AreCGFloatsEqual _ _); [done|].
  apply notified_inv. destruct Hinv. split; try done. apply clamp_unit.
Qed.

Lemma wp_SetYContentOffset_inv n m y :
  fs_inv n m → wp (SetYContentOffset y) (λ _, fs_inv n) m.
Proof.
  intros Hinv. unfold SetYContentOffset, set_y_content_offset_. wp_simp. unfold id.
  assert (fs_inv n (with_y_content_offset_ y m)) as Hy by (by destruct Hinv).
  destruct (ActionForScrollFromOffset _ _); wp_simp; rewrite ?wp_UpdateBaseOffset; try done.
  - by apply rebased_inv.
  - apply wp_UpdateProgress; [by eapply fs_inv_small|by apply progress_after_inv].
  - apply rebased_inv in Hy.
    apply wp_UpdateProgress; [by eapply fs_inv_small|by apply progress_after_inv].
Qed.
End effects.

(** ** Every use of the model *)

Inductive fs_event :=
  | EvDisable | EvEnable | EvReset | EvIgnoreScroll
  | EvAnimationEnded (p : CGFloat)
  | EvCollapsedHeight (h : CGFloat) | EvExpandedHeight (h : CGFloat) | EvBottomHeight (h : CGFloat)
  | EvScrollViewSize (s : CGSize) | EvContentSize (s : CGSize) | EvContentInset (i : UIEdgeInsets)
  | EvScrollOffset (y : CGFloat) | EvScrolling (b : bool) | EvZooming (b : bool) | EvDragging (b : bool)
  | EvResizes (b : bool) | EvSafeArea (i : UIEdgeInsets).

Definition run_fs_event (e : fs_event) : FM unit :=
  match e with
  | EvDisable => IncrementDisabledCounter
  | EvEnable => DecrementDisabledCounter
  | EvReset => ResetForNavigation
  | EvIgnoreScroll => IgnoreRemainderOfCurrentScroll
  | EvAnimationEnded p => AnimationEndedWithProgress p
  | EvCollapsedHeight h => OnCollapsedToolbarHeightBroadcasted h
  | EvExpandedHeight h => OnExpandedToolbarHeightBroadcasted h
  | EvBottomHeight h => OnBottomToolbarHeightBroadcasted h
  | EvScrollViewSize s => OnScrollViewSizeBroadcasted s
  | EvContentSize s => OnScrollViewContentSizeBroadcasted s
  | EvContentInset i => OnScrollViewContentInsetBroadcasted i
  | EvScrollOffset y => OnContentScrollOffsetBroadcasted y
  | EvScrolling b => OnScrollViewIsScrollingBroadcasted b
  | EvZooming b => OnScrollViewIsZoomingBroadcasted b
  | EvDragging b => OnScrollViewIsDraggingBroadcasted b
  | EvResizes b => SetResizesScrollView b
  | EvSafeArea i => SetWebViewSafeAreaInsets i
  end.

(** The features that have disabled the model, before and after an event; an
    animation ends between 0 and 1 and heights are not negative. *)
Definition fs_event_ok (n : Z) (e : fs_event) : Prop :=
  match e with
  | EvDisable => n < max_features
  | EvEnable => 0 < n
  | EvAnimationEnded p => in_unit_interval p
  | EvCollapsedHeight h | EvExpandedHeight h | EvBottomHeight h => fle f0 h = true
  | _ => True
  end.
Definition features_after (n : Z) (e : fs_event) : Z :=
  match e with EvDisable => n + 1 | EvEnable => n - 1 | _ => n end.

Definition fs_step (s : FullscreenModel * Z) (e : fs_event) (s' : FullscreenModel * Z) : Prop :=
  fs_event_ok s.2 e ∧ run_fs_event e s.1 = Ok (tt, s'.1) ∧ s'.2 = features_after s.2 e.

Lemma wp_UpdateDisabledCounter_inv n m :
  fs_inv n m → n <= max_features →
  wp UpdateDisabledCounterForContentHeight (λ _, fs_inv n) m.
Proof.
  intros Hinv Hmax. eapply wp_mono; [|by apply (wp_UpdateDisabledCounter n)]. by intros ? ? [? _].
Qed.

Lemma wp_run_fs_event n m e :
  fs_inv n m → n <= max_features → fs_event_ok n e →
  wp (run_fs_event e) (λ _, fs_inv (features_after n e)) m.
Proof.
  intros Hinv Hmax Hok. destruct e; simpl in *.
  - by apply wp_features_disable.
  - by apply wp_features_enable.
  - apply wp_ResetForNavigation; [by eapply fs_inv_small|by apply notified_reset_inv].
  - unfold IgnoreRemainderOfCurrentScroll, set_ignoring_current_scroll_. wp_simp.
    case_if; wp_simp; [done|by destruct Hinv].
  - destruct Hok. unfold AnimationEndedWithProgress, set_progress_. wp_simp.
    split; [done|]. split; [done|]. by destruct Hinv.
  - apply wp_SetToolbarHeight; [by intros ? ? []|done..].
  - apply wp_SetToolbarHeight; [by intros ? ? []|done..].
  - apply wp_SetToolbarHeight; [by intros ? ? []|done..].
  - unfold OnScrollViewSizeBroadcasted, SetScrollViewHeight, set_scroll_view_height_. wp_simp.
    apply wp_UpdateDisabledCounter_inv; [by destruct Hinv|done].
  - unfold OnScrollViewContentSizeBroadcasted, SetContentHeight, set_content_height_. wp_simp.
    apply wp_UpdateDisabledCounter_inv; [by destruct Hinv|done].
  - by destruct Hinv.
  - by apply wp_SetYContentOffset_inv.
  - unfold OnScrollViewIsScrollingBroadcasted, SetScrollViewIsScrolling, set_scrolling_. wp_simp.
    case_bool_decide; wp_simp; [done|].
    destruct b; simpl; wp_simp; [by destruct Hinv|].
    unfold set_ignoring_current_scroll_. wp_simp.
    apply wp_notify_observers; [by apply (fs_inv_small n m)|].
    apply notified_inv. by destruct Hinv.
  - by destruct Hinv.
  - unfold OnScrollViewIsDraggingBroadcasted, SetScrollViewIsDragging, set_dragging_. wp_simp.
    case_bool_decide; wp_simp; [done|]. destruct b; simpl; wp_simp; [|by destruct Hinv].
    apply wp_with_incrementer; [by apply (fs_inv_small n m)|].
    unfold call_observers, set_calls_. wp_simp. rewrite wp_UpdateBaseOffset. split; [done|].
    destruct Hinv as [Hp Hi Hc Hn Hl]. split; simpl; try done.
    apply Forall_snoc_calls; [done|lia].
  - by destruct Hinv.
  - unfold SetWebViewSafeAreaInsets, set_safe_area_insets_. wp_simp.
    case_if; wp_simp; [done|].
    apply wp_UpdateDisabledCounter_inv; [by destruct Hinv|done].
Qed.

(** C36: whatever scroll offsets, heights, insets and flags the model receives,
    NaN and infinities included, its progress stays a number between 0 and 1,
    the observers are only called inside a callback scope, the model is
    disabled exactly by the features that disabled it plus short content, and
    no event trips a check. *)
Theorem reachable_models_well_formed s :
  reachable fs_step (FullscreenModel_new, 0) s →
  in_unit_interval (progress_ s.1) ∧ observer_callback_count_ s.1 = 0 ∧
  disabled_counter_ s.1 = s.2 + (if disabled_for_short_content_ s.1 then 1 else 0) ∧
  Forall (λ c, 1 <= c.1) (calls_ s.1) ∧
  ∀ e, fs_event_ok s.2 e → ∃ s', fs_step s e s'.
Proof.
  intros Hr. assert (fs_inv s.2 s.1 ∧ s.2 <= max_features) as [Hinv Hmax].
  { revert s Hr. apply reachable_invariant.
    - split; [|done]. by split.
    - intros [m n] e [m' n'] [Hinv Hmax] (Hok & Hrun & Hn). simpl in *. subst n'.
      pose proof (wp_run_fs_event n m e Hinv Hmax Hok) as Hwp. unfold wp in Hwp.
      rewrite Hrun in Hwp. split; [done|]. destruct e; simpl in *; lia. }
  destruct (Hinv) as [Hp Hi Hc Hn Hl]. split_and!; try done.
  intros e Hok. destruct (wp_run _ _ _ (wp_run_fs_event _ _ e Hinv Hmax Hok)) as ([] & m' & Hrun & _).
  by exists (m', features_after s.2 e).
Qed.

Lemma SetYContentOffset_rebases y m :
  enabled m = false ∨ scrolling_ m = false ∨ zooming_ m = true ∨
    observer_callback_count_ m ≠ 0 →
  SetYContentOffset y m = Ok (tt, rebased (with_y_content_offset_ y m)).
Proof.
  intros Hcase. unfold SetYContentOffset, gets, mbind, M_bind, set_y_content_offset_, modify, id.
  assert (ActionForScrollFromOffset (with_y_content_offset_ y m) (y_content_offset_ m) =
            kUpdateBaseOffset) as ->; [|done].
  unfold ActionForScrollFromOffset, enabled in *. simpl.
  destruct (disabled_counter_ m =? 0), (scrolling_ m), (zooming_ m),
    (Z.eqb_spec (observer_callback_count_ m) 0); simpl; try done.
  naive_solver.
Qed.

(** A scroll never changes the progress, nor calls the observers, while
    the model is disabled, the scroll is not the user's, the page is zooming,
    an observer is being called or the rest of the scroll is to be ignored. *)
Theorem SetYContentOffset_keeps_progress y m :
  enabled m = false ∨ scrolling_ m = false ∨ zooming_ m = true ∨
    observer_callback_count_ m ≠ 0 ∨ ignoring_current_scroll_ m = true →
  ∃ m', SetYContentOffset y m = Ok (tt, m') ∧ progress_ m' = progress_ m ∧
    calls_ m' = calls_ m ∧ y_content_offset_ m' = y.
Proof.
  intros Hcase. destruct (decide (ignoring_current_scroll_ m = true)) as [Hig|Hig].
  - unfold SetYContentOffset, gets, mbind, M_bind, set_y_content_offset_, modify, id.
    unfold ActionForScrollFromOffset. simpl. rewrite Hig. simpl.
    repeat case_if; eexists; (split; [reflexivity|done]).
  - eexists. split; [apply SetYContentOffset_rebases; naive_solver|done].
Qed.

(** Otherwise, a user scroll of a page that does not fit, below the top
    inset and with a base offset recorded, moves the progress to
    1 + (base offset - offset) / (toolbar height difference) clamped to [0, 1],
    and calls the observers exactly when it changes by more than epsilon. *)
Theorem SetYContentOffset_updates_progress y m :
  enabled m = true → scrolling_ m = true → zooming_ m = false →
  observer_callback_count_ m = 0 → ignoring_current_scroll_ m = false →
  AreCGFloatsEqual (toolbar_height_delta m) f0 = false →
  AreCGFloatsEqual y (y_content_offset_ m) = false →
  fle y (- top_inset_ m)%cg = false →
  fle (content_height_ m) (scroll_view_height_ m - top_inset_ m)%cg = false →
  has_base_offset m = true →
  let p := fmax f0 (fmin f1 (f1 + (base_offset_ m - y) / toolbar_height_delta m)%cg) in
  ∃ m', SetYContentOffset y m = Ok (tt, m') ∧ base_offset_ m' = base_offset_ m ∧
    y_content_offset_ m' = y ∧ observer_callback_count_ m' = 0 ∧
    if AreCGFloatsEqual (progress_ m) p
    then progress_ m' = progress_ m ∧ calls_ m' = calls_ m
    else progress_ m' = p ∧ calls_ m' = calls_ m ++ [(1, FullscreenModelProgressUpdated)].
Proof.
  intros He Hs Hz Hi Hig Hd Hy Htop Hfit Hb p.
  assert (wp (SetYContentOffset y) (λ _ m', base_offset_ m' = base_offset_ m ∧
    y_content_offset_ m' = y ∧ observer_callback_count_ m' = 0 ∧
    if AreCGFloatsEqual (progress_ m) p
    then progress_ m' = progress_ m ∧ calls_ m' = calls_ m
    else progress_ m' = p ∧ calls_ m' = calls_ m ++ [(1, FullscreenModelProgressUpdated)]) m)
    as ([] & m' & Hrun & ?)%wp_run; [|by exists m'].
  unfold SetYContentOffset, set_y_content_offset_. wp_simp. unfold id.
  unfold ActionForScrollFromOffset. simpl.
  change (enabled (with_y_content_offset_ y m)) with (enabled m).
  change (toolbar_height_delta (with_y_content_offset_ y m)) with (toolbar_height_delta m).
  change (has_base_offset (with_y_content_offset_ y m)) with (has_base_offset m).
  rewrite He, Hs, Hz, Hi, Hd, Hy, Hig, Htop, Hfit, Hb. simpl.
  apply wp_UpdateProgress; [unfold small_count; simpl; lia|].
  unfold progress_after. change (progress_of_scroll (with_y_content_offset_ y m)) with
    (f1 + (base_offset_ m - y) / toolbar_height_delta m)%cg. fold p. simpl.
  destruct (AreCGFloatsEqual (progress_ m) p); simpl; rewrite ?Hi; done.
Qed.

Lemma disabled_progress m :
  AreCGFloatsEqual (progress_ (disabled m)) f1 = true.
Proof.
  unfold disabled. simpl. unfold progress_after. simpl.
  change (fmax f0 (fmin f1 f1)) with f1. by destruct (AreCGFloatsEqual (progress_ m) f1) eqn:E.
Qed.

(** The first feature that disables the model shows the toolbars (the
    progress is 1 up to epsilon), and no scroll hides them while it is
    disabled. *)
Theorem IncrementDisabledCounter_shows_toolbars n m :
  fs_inv n m → n < max_features → enabled m = true →
  ∃ m', IncrementDisabledCounter m = Ok (tt, m') ∧ fs_inv (n + 1) m' ∧ enabled m' = false ∧
    AreCGFloatsEqual (progress_ m') f1 = true ∧
    ∀ y, ∃ m'', SetYContentOffset y m' = Ok (tt, m'') ∧ progress_ m'' = progress_ m'.
Proof.
  intros Hinv Hn He. pose proof (fs_idle _ _ Hinv) as Hidle.
  unfold enabled in He. apply Z.eqb_eq in He.
  assert (wp IncrementDisabledCounter (λ _ m', m' = disabled (with_disabled_counter_ 1 m)) m)
    as ([] & m' & Hrun & ->)%wp_run.
  { apply wp_IncrementDisabledCounter; [done|lia|]. cbv zeta. by rewrite He. }
  pose proof (wp_features_disable n m Hinv Hn) as Hwp. unfold wp in Hwp. rewrite Hrun in Hwp.
  assert (disabled_counter_ (disabled (with_disabled_counter_ 1 m)) = 1) as Hd.
  { unfold disabled. simpl. by destruct (progress_after_inv_fields f1 (with_calls_
      (calls_ m ++ [(observer_callback_count_ m + 1, FullscreenModelEnabledStateChanged)])
      (with_observer_callback_count_ (observer_callback_count_ m + 1)
        (with_disabled_counter_ 1 m)))) as (-> & _). }
  assert (enabled (disabled (with_disabled_counter_ 1 m)) = false) as He'.
  { unfold enabled. by rewrite Hd. }
  exists (disabled (with_disabled_counter_ 1 m)). split_and!; try done.
  - apply disabled_progress.
  - intros y. eexists. split; [apply SetYContentOffset_rebases; by left|done].
Qed.

(** After the height of the page is received, the model is enabled exactly
    when no feature disables it and the content is taller than the threshold
    (or a height was not received yet). *)
Theorem SetContentHeight_enabled n m h :
  fs_inv n m → n <= max_features →
  ∃ m', SetContentHeight h m = Ok (tt, m') ∧ fs_inv n m' ∧
    enabled m' = (n =? 0) && negb (short_content (with_content_height_ h m)).
Proof.
  intros Hinv Hn.
  assert (fs_inv n (with_content_height_ h m)) as Hinv' by (by destruct Hinv).
  destruct (wp_run _ _ _ (wp_UpdateDisabledCounter n _ Hinv' Hn)) as ([] & m' & Hrun & Hm' & Hs).
  exists m'. split; [done|]. split; [done|]. rewrite <- Hs.
  destruct Hm' as [_ _ Hc Hpos _]. unfold enabled. rewrite Hc.
  destruct (disabled_for_short_content_ m'); simpl.
  - rewrite andb_false_r. apply Z.eqb_neq. lia.
  - by rewrite Z.add_0_r, andb_true_r.
Qed.

(** ** Concrete uses *)

Definition two : CGFloat := (f1 + f1)%cg.
Definition four : CGFloat := (two + two)%cg.
Definition eight : CGFloat := (four + four)%cg.

(** Toolbars of height 0 to 4 over a page of height 16 in a view of height 8,
    being scrolled from offset 2. *)
Definition example_model : FullscreenModel :=
  MkFullscreenModel f1 two f0 four f0 two eight (eight + eight)%cg f0 0 false true false
    false false false UIEdgeInsetsZero 0 [].

Lemma example_model_inv : fs_inv 0 example_model.
Proof. split; try done; by vm_compute. Qed.

Lemma reachable_models_well_formed_witness :
  in_unit_interval (progress_ FullscreenModel_new) ∧
  ∃ s', fs_step (FullscreenModel_new, 0) (EvScrollOffset NAN) s'.
Proof.
  destruct (reachable_models_well_formed (FullscreenModel_new, 0)) as (Hp & _ & _ & _ & Hok).
  - apply reach_refl.
  - split; [exact Hp|]. apply Hok. exact I.
Defined.

Lemma SetYContentOffset_keeps_progress_witness :
  ∃ m', SetYContentOffset NAN (with_zooming_ true example_model) = Ok (tt, m') ∧
    progress_ m' = f1 ∧ calls_ m' = [] ∧ y_content_offset_ m' = NAN.
Proof.
  apply (SetYContentOffset_keeps_progress NAN (with_zooming_ true example_model)).
  right; right; left; reflexivity.
Defined.

Lemma SetYContentOffset_updates_progress_witness :
  let p := fmax f0 (fmin f1 (f1 + (two - four) / toolbar_height_delta example_model)%cg) in
  ∃ m', SetYContentOffset four example_model = Ok (tt, m') ∧ base_offset_ m' = two ∧
    y_content_offset_ m' = four ∧ observer_callback_count_ m' = 0 ∧
    if AreCGFloatsEqual f1 p
    then progress_ m' = f1 ∧ calls_ m' = []
    else progress_ m' = p ∧ calls_ m' = [] ++ [(1, FullscreenModelProgressUpdated)].
Proof.
  apply (SetYContentOffset_updates_progress four example_model); vm_compute; reflexivity.
Defined.

Lemma IncrementDisabledCounter_shows_toolbars_witness :
  ∃ m', IncrementDisabledCounter example_model = Ok (tt, m') ∧ enabled m' = false.
Proof.
  destruct (IncrementDisabledCounter_shows_toolbars 0 example_model example_model_inv)
    as (m' & Hrun & _ & He & _); [reflexivity|reflexivity|].
  exists m'. split; [exact Hrun|exact He].
Defined.

Lemma SetContentHeight_enabled_witness :
  ∃ m', SetContentHeight four example_model = Ok (tt, m') ∧ fs_inv 0 m' ∧
    enabled m' = (0 =? 0) && negb (short_content (with_content_height_ four example_model)).
Proof.
  apply (SetContentHeight_enabled 0 example_model four example_model_inv).
  vm_compute. discriminate.
Defined.
