(* ===== verification/ListModel.v ===== *)
(** * ListModel: the items of a table, by section and type

    Models src/chrome/browser/ui/list_model/list_model.mm: items are named by
    index path (section and item) and by model coordinates (section identifier,
    item type, index among the items of that type). *)

From S2P Require Import Prelude.

(** An item is an object, compared by identity; its type does not change while
    it is in a model. *)
Record ListItem := MkItem {
  item_id : positive;
  item_type : Z;
}.

#[export] Instance ListItem_eq_dec : EqDecision ListItem.
Proof. solve_decision. Defined.

Inductive ListModelCollapsableMode : Set :=
  | ListModelCollapsableModeHeader
  | ListModelCollapsableModeFirstCell.

Definition kSectionIdentifierEnumZero : Z := 10.
Definition kItemTypeEnumZero : Z := 100.

(** [defaults_] is the dictionary the user defaults hold under
    kListModelCollapsedKey.  A dictionary not yet created answers like an
    empty one. *)
Record ListModel := MkListModel {
  sectionIdentifiers_ : list Z;
  sections_ : list (list ListItem);
  headers_ : gmap Z ListItem;
  footers_ : gmap Z ListItem;
  collapsedKeys_ : gmap Z string;
  collapsableMode_ : ListModelCollapsableMode;
  defaults_ : gmap string bool;
}.
Notation LM := (M ListModel).

(** Section and item. *)
Notation NSIndexPath := (Z * Z)%type.

Definition ListModel_init (defaults : gmap string bool) : ListModel :=
  MkListModel [] [] ∅ ∅ ∅ ListModelCollapsableModeHeader defaults.

Definition set_sections (ids : list Z) (ss : list (list ListItem)) : LM unit :=
  modify (λ m, MkListModel ids ss (headers_ m) (footers_ m) (collapsedKeys_ m)
                 (collapsableMode_ m) (defaults_ m)).
Definition set_headers (h : gmap Z ListItem) : LM unit :=
  modify (λ m, MkListModel (sectionIdentifiers_ m) (sections_ m) h (footers_ m)
                 (collapsedKeys_ m) (collapsableMode_ m) (defaults_ m)).
Definition set_footers (f : gmap Z ListItem) : LM unit :=
  modify (λ m, MkListModel (sectionIdentifiers_ m) (sections_ m) (headers_ m) f
                 (collapsedKeys_ m) (collapsableMode_ m) (defaults_ m)).
Definition set_collapsedKeys (c : gmap Z string) : LM unit :=
  modify (λ m, MkListModel (sectionIdentifiers_ m) (sections_ m) (headers_ m) (footers_ m)
                 c (collapsableMode_ m) (defaults_ m)).
Definition setCollapsableMode (mode : ListModelCollapsableMode) : LM unit :=
  modify (λ m, MkListModel (sectionIdentifiers_ m) (sections_ m) (headers_ m) (footers_ m)
                 (collapsedKeys_ m) mode (defaults_ m)).
Definition set_defaults (d : gmap string bool) : LM unit :=
  modify (λ m, MkListModel (sectionIdentifiers_ m) (sections_ m) (headers_ m) (footers_ m)
                 (collapsedKeys_ m) (collapsableMode_ m) d).

(** [[array objectAtIndex:i]] raises out of range. *)
Definition objectAtIndex {A} (l : list A) (i : Z) : LM A :=
  match vec_at l i with Some a => mret a | None => fail ObjCException end.

(** [base::checked_cast<NSUInteger>(z)] *)
Definition checked_NSUInteger (z : Z) : LM Z := CHECK (0 <=? z);; mret z.

(** [indexOfObject:], from index [i] on. *)
Fixpoint index_of {A} `{EqDecision A} (x : A) (l : list A) (i : Z) : Z :=
  match l with
  | [] => NSNotFound
  | y :: l' => if bool_decide (y = x) then i else index_of x l' (i + 1)
  end.

(** ** Private methods *)

Definition internalSectionForIdentifier (sectionIdentifier : Z) (m : ListModel) : Z :=
  index_of sectionIdentifier (sectionIdentifiers_ m) 0.

(** The enumeration of itemForItemType:inSectionItems:atIndex: from the item
    [idx] on. *)
Fixpoint item_for_type (itemType : Z) (items : list ListItem) (index idx indexInItemType : Z) : Z :=
  match items with
  | [] => NSNotFound
  | obj :: items' =>
      if item_type obj =? itemType then
        if indexInItemType =? index then idx
        else item_for_type itemType items' index (idx + 1) (indexInItemType + 1)
      else item_for_type itemType items' index (idx + 1) indexInItemType
  end.

Definition itemForItemType (itemType : Z) (items : list ListItem) (index : Z) : Z :=
  item_for_type itemType items index 0 0.

(** The loop of indexInItemTypeForItem:inSectionItems:; [None] when the item
    is not found. *)
Fixpoint index_in_type (item : ListItem) (items : list ListItem) (indexInItemType : Z) : option Z :=
  match items with
  | [] => None
  | sectionItem :: items' =>
      if bool_decide (sectionItem = item) then Some indexInItemType
      else index_in_type item items'
             (if item_type sectionItem =? item_type item then indexInItemType + 1
              else indexInItemType)
  end.

Definition indexInItemTypeForItem (item : ListItem) (items : list ListItem) : LM Z :=
  DCHECK (bool_decide (item ∈ items));;
  match index_in_type item items 0 with
  | Some i => mret i
  | None => fail DCheckFailed
  end.

Definition hasSectionForSectionIdentifier (sectionIdentifier : Z) : LM bool :=
  section ← gets (internalSectionForIdentifier sectionIdentifier);
  mret (negb (section =? NSNotFound)).

Definition sectionForSectionIdentifier (sectionIdentifier : Z) : LM Z :=
  section ← gets (internalSectionForIdentifier sectionIdentifier);
  DCHECK (negb (section =? NSNotFound));;
  mret section.

(** The index of the section and its items. *)
Definition section_items (sectionIdentifier : Z) : LM (Z * list ListItem) :=
  section ← sectionForSectionIdentifier sectionIdentifier;
  ss ← gets sections_;
  items ← objectAtIndex ss section;
  mret (section, items).

Definition set_section_items (section : Z) (items : list ListItem) : LM unit :=
  m ← gets id;
  set_sections (sectionIdentifiers_ m) (vec_set (sections_ m) section items).

(** ** Modification *)

Definition addSectionWithIdentifier (sectionIdentifier : Z) : LM unit :=
  DCHECK (kSectionIdentifierEnumZero <=? sectionIdentifier);;
  section ← gets (internalSectionForIdentifier sectionIdentifier);
  DCHECK (NSNotFound =? section);;
  m ← gets id;
  set_sections (sectionIdentifiers_ m ++ [sectionIdentifier]) (sections_ m ++ [[]]).

Definition insertSectionWithIdentifier (sectionIdentifier index : Z) : LM unit :=
  DCHECK (kSectionIdentifierEnumZero <=? sectionIdentifier);;
  section ← gets (internalSectionForIdentifier sectionIdentifier);
  DCHECK (NSNotFound =? section);;
  m ← gets id;
  DCHECK (index <=? zlen (sections_ m));;
  set_sections (vec_insert (sectionIdentifiers_ m) index sectionIdentifier)
    (vec_insert (sections_ m) index []).

Definition addItem (item : ListItem) (sectionIdentifier : Z) : LM unit :=
  DCHECK (kItemTypeEnumZero <=? item_type item);;
  '(section, items) ← section_items sectionIdentifier;
  set_section_items section (items ++ [item]).

Definition insertItem (item : ListItem) (sectionIdentifier index : Z) : LM unit :=
  DCHECK (kItemTypeEnumZero <=? item_type item);;
  '(section, items) ← section_items sectionIdentifier;
  DCHECK (index <=? zlen items);;
  set_section_items section (vec_insert items index item).

Definition removeItemWithType_at (itemType sectionIdentifier index : Z) : LM unit :=
  '(section, items) ← section_items sectionIdentifier;
  let item := itemForItemType itemType items index in
  DCHECK (negb (NSNotFound =? item));;
  set_section_items section (vec_erase items item).

Definition removeItemWithType (itemType sectionIdentifier : Z) : LM unit :=
  removeItemWithType_at itemType sectionIdentifier 0.

Definition removeSectionWithIdentifier (sectionIdentifier : Z) : LM unit :=
  section ← sectionForSectionIdentifier sectionIdentifier;
  m ← gets id;
  set_sections (vec_erase (sectionIdentifiers_ m) section) (vec_erase (sections_ m) section);;
  set_collapsedKeys (delete sectionIdentifier (collapsedKeys_ m)).

Definition deleteAllItemsFromSectionWithIdentifier (sectionIdentifier : Z) : LM unit :=
  '(section, _) ← section_items sectionIdentifier;
  set_section_items section [].

Definition setHeader (header : option ListItem) (sectionIdentifier : Z) : LM unit :=
  h ← gets headers_;
  match header with
  | Some i => set_headers (<[sectionIdentifier := i]> h)
  | None => set_headers (delete sectionIdentifier h)
  end.

Definition setFooter (footer : option ListItem) (sectionIdentifier : Z) : LM unit :=
  f ← gets footers_;
  match footer with
  | Some i => set_footers (<[sectionIdentifier := i]> f)
  | None => set_footers (delete sectionIdentifier f)
  end.

(** ** Queries from index paths *)

Definition sectionIdentifierForSection (section : Z) : LM Z :=
  ids ← gets sectionIdentifiers_;
  s ← checked_NSUInteger section;
  DCHECK (s <? zlen ids);;
  objectAtIndex ids section.

Definition hasItemAtIndexPath (indexPath : option NSIndexPath) : LM bool :=
  match indexPath with
  | None => mret false
  | Some (section, item) =>
      ss ← gets sections_;
      s ← checked_NSUInteger section;
      if s <? zlen ss then
        items ← objectAtIndex ss section;
        i ← checked_NSUInteger item;
        mret (i <? zlen items)
      else mret false
  end.

Definition itemAtIndexPath (indexPath : NSIndexPath) : LM ListItem :=
  let '(section, item) := indexPath in
  ss ← gets sections_;
  s ← checked_NSUInteger section;
  DCHECK (s <? zlen ss);;
  items ← objectAtIndex ss section;
  i ← checked_NSUInteger item;
  DCHECK (i <? zlen items);;
  objectAtIndex items item.

Definition itemTypeForIndexPath (indexPath : NSIndexPath) : LM Z :=
  item_type <$> itemAtIndexPath indexPath.

Definition indexInItemTypeForIndexPath (indexPath : NSIndexPath) : LM Z :=
  ss ← gets sections_;
  s ← checked_NSUInteger (indexPath.1);
  DCHECK (s <? zlen ss);;
  items ← objectAtIndex ss (indexPath.1);
  item ← itemAtIndexPath indexPath;
  indexInItemTypeForItem item items.

Definition headerForSectionWithIdentifier (sectionIdentifier : Z) : LM (option ListItem) :=
  gets (λ m, headers_ m !! sectionIdentifier).

Definition footerForSectionWithIdentifier (sectionIdentifier : Z) : LM (option ListItem) :=
  gets (λ m, footers_ m !! sectionIdentifier).

Definition headerForSection (section : Z) : LM (option ListItem) :=
  sectionIdentifier ← sectionIdentifierForSection section;
  gets (λ m, headers_ m !! sectionIdentifier).

Definition footerForSection (section : Z) : LM (option ListItem) :=
  sectionIdentifier ← sectionIdentifierForSection section;
  gets (λ m, footers_ m !! sectionIdentifier).

Definition itemsInSectionWithIdentifier (sectionIdentifier : Z) : LM (list ListItem) :=
  section ← sectionForSectionIdentifier sectionIdentifier;
  ss ← gets sections_;
  s ← checked_NSUInteger section;
  DCHECK (s <? zlen ss);;
  objectAtIndex ss section.

(** ** Queries from model coordinates *)

Definition hasItemForItemType_at (itemType sectionIdentifier index : Z) : LM bool :=
  has ← hasSectionForSectionIdentifier sectionIdentifier;
  if negb has then mret false
  else
    '(_, items) ← section_items sectionIdentifier;
    mret (negb (itemForItemType itemType items index =? NSNotFound)).

Definition hasItemForItemType (itemType sectionIdentifier : Z) : LM bool :=
  hasItemForItemType_at itemType sectionIdentifier 0.

Definition indexPathForItemType_at (itemType sectionIdentifier index : Z) : LM NSIndexPath :=
  '(section, items) ← section_items sectionIdentifier;
  mret (section, itemForItemType itemType items index).

Definition indexPathForItemType_in (itemType sectionIdentifier : Z) : LM NSIndexPath :=
  indexPathForItemType_at itemType sectionIdentifier 0.

(** The enumeration of indexPathForItemType: from the section [section] on. *)
Fixpoint index_path_for_type (itemType : Z) (ss : list (list ListItem)) (section : Z)
    : option NSIndexPath :=
  match ss with
  | [] => None
  | items :: ss' =>
      let item := itemForItemType itemType items 0 in
      if item =? NSNotFound then index_path_for_type itemType ss' (section + 1)
      else Some (section, item)
  end.

Definition indexPathForItemType (itemType : Z) : LM (option NSIndexPath) :=
  gets (λ m, index_path_for_type itemType (sections_ m) 0).

(** ** Queries from items *)

Definition hasItem_in (item : ListItem) (sectionIdentifier : Z) : LM bool :=
  items ← itemsInSectionWithIdentifier sectionIdentifier;
  mret (negb (index_of item items 0 =? NSNotFound)).

Fixpoint has_item_loop (item : ListItem) (ids : list Z) : LM bool :=
  match ids with
  | [] => mret false
  | sid :: ids' =>
      b ← hasItem_in item sid;
      if (b : bool) then mret true else has_item_loop item ids'
  end.

Definition hasItem (item : ListItem) : LM bool :=
  ids ← gets sectionIdentifiers_;
  has_item_loop item ids.

Fixpoint index_path_of_item (item : ListItem) (ss : list (list ListItem)) (section : Z)
    : LM NSIndexPath :=
  match ss with
  | [] => NOTREACHED
  | items :: ss' =>
      let itemIndex := index_of item items 0 in
      if negb (itemIndex =? NSNotFound) then mret (section, itemIndex)
      else index_path_of_item item ss' (section + 1)
  end.

Definition indexPathForItem (item : ListItem) : LM NSIndexPath :=
  ss ← gets sections_;
  index_path_of_item item ss 0.

(** ** Collapsing *)

Definition setCollapsedKey (sectionIdentifier : Z) (collapsedKey : string) : LM unit :=
  has ← hasSectionForSectionIdentifier sectionIdentifier;
  DCHECK has;;
  keys ← gets collapsedKeys_;
  DCHECK (bool_decide (collapsedKey ∉ (map_to_list keys).*2));;
  set_collapsedKeys (<[sectionIdentifier := collapsedKey]> keys).

Definition setSectionCollapsed (sectionIdentifier : Z) (collapsed : bool) : LM unit :=
  has ← hasSectionForSectionIdentifier sectionIdentifier;
  DCHECK has;;
  keys ← gets collapsedKeys_;
  match keys !! sectionIdentifier with
  | None => fail DCheckFailed
  | Some sectionKey =>
      d ← gets defaults_;
      set_defaults (<[sectionKey := collapsed]> d)
  end.

Definition sectionIsCollapsed (sectionIdentifier : Z) : LM bool :=
  has ← hasSectionForSectionIdentifier sectionIdentifier;
  DCHECK has;;
  keys ← gets collapsedKeys_;
  match keys !! sectionIdentifier with
  | None => mret false
  | Some sectionKey => gets (λ m, default false (defaults_ m !! sectionKey))
  end.

(** ** Data source *)

Definition numberOfSections : LM Z := gets (λ m, zlen (sections_ m)).

Definition numberOfItemsInSection (section : Z) : LM Z :=
  ss ← gets sections_;
  s ← checked_NSUInteger section;
  DCHECK (s <? zlen ss);;
  sectionIdentifier ← sectionIdentifierForSection section;
  items ← objectAtIndex ss section;
  collapsed ← sectionIsCollapsed sectionIdentifier;
  if (collapsed : bool) then
    mode ← gets collapsableMode_;
    match mode with
    | ListModelCollapsableModeHeader => mret 0
    | ListModelCollapsableModeFirstCell => DCHECK (0 <? zlen items);; mret 1
    end
  else mret (zlen items).

(** ** Invariant *)

Definition all_items (m : ListModel) : list ListItem := mjoin (sections_ m).

Record items_ok (l : list ListItem) : Prop := {
  io_nodup : NoDup l;
  io_types : Forall (λ it, kItemTypeEnumZero <= item_type it) l;
  io_count : zlen l < NSNotFound;
}.

Record lm_inv (m : ListModel) : Prop := {
  lm_ids : NoDup (sectionIdentifiers_ m);
  lm_length : zlen (sectionIdentifiers_ m) = zlen (sections_ m);
  lm_count : zlen (sections_ m) < NSNotFound;
  lm_enum : Forall (λ sid, kSectionIdentifierEnumZero <= sid) (sectionIdentifiers_ m);
  lm_items : items_ok (all_items m);
  lm_keys : ∀ sid k, collapsedKeys_ m !! sid = Some k → sid ∈ sectionIdentifiers_ m;
  lm_keys_inj : ∀ sid sid' k, collapsedKeys_ m !! sid = Some k →
    collapsedKeys_ m !! sid' = Some k → sid = sid';
}.

#[export] Instance items_ok_proper : Proper ((≡ₚ) ==> iff) items_ok.
Proof.
  assert (∀ l k, l ≡ₚ k → items_ok l → items_ok k) as H.
  { intros l k Hp [Hn Ht Hc]. split; [by rewrite <- Hp|by rewrite <- Hp|].
    unfold zlen in *. by rewrite <- (Permutation_length Hp). }
  intros l k Hp. split; apply H; [done|by symmetry].
Qed.

Lemma items_ok_app_r l k : items_ok (l ++ k) → items_ok k.
Proof.
  intros [Hn Ht Hc]. apply NoDup_app in Hn as (_ & _ & Hn). apply Forall_app in Ht as [_ Ht].
  rewrite zlen_app in Hc. pose proof (zlen_nonneg l). split; [done|done|lia].
Qed.

Lemma items_ok_cons it l :
  items_ok l → it ∉ l → kItemTypeEnumZero <= item_type it → zlen l + 1 < NSNotFound →
  items_ok (it :: l).
Proof.
  intros [Hn Ht Hc] Hin Hty Hroom. split; [by constructor|by constructor|by rewrite zlen_cons].
Qed.

Section indices.
Context {A : Type} `{EqDecision A}.
Implicit Types (l : list A).

Lemma index_of_found l x i :
  x ∈ l → ∃ j, index_of x l i = i + j ∧ vec_at l j = Some x.
Proof.
  revert i. induction l as [|y l IH]; intros i Hx; [by apply elem_of_nil in Hx|]. simpl.
  case_bool_decide as Hy.
  - exists 0. split; [lia|]. by rewrite <- Hy.
  - apply elem_of_cons in Hx as [->|Hx]; [done|]. destruct (IH (i + 1) Hx) as (j & -> & Hj).
    pose proof (vec_at_Some_range _ _ _ Hj). exists (j + 1). split; [lia|].
    rewrite vec_at_nonneg in Hj by lia. rewrite vec_at_nonneg by lia.
    by replace (Z.to_nat (j + 1)) with (S (Z.to_nat j)) by lia.
Qed.

Lemma index_of_missing l x i : x ∉ l → index_of x l i = NSNotFound.
Proof.
  revert i. induction l as [|y l IH]; intros i Hx; [done|]. simpl.
  apply not_elem_of_cons in Hx as [Hne Hx]. rewrite bool_decide_eq_false_2 by done. by apply IH.
Qed.

Lemma index_of_at l x j : NoDup l → vec_at l j = Some x → index_of x l 0 = j.
Proof.
  intros Hnd Hj. destruct (index_of_found l x 0) as (k & -> & Hk); [apply elem_of_vec_at; eauto|].
  by rewrite (vec_at_NoDup_inj l j k x).
Qed.

Lemma mjoin_erase (ll : list (list A)) j l :
  vec_at ll j = Some l → mjoin ll ≡ₚ l ++ mjoin (vec_erase ll j).
Proof. intros Hj. by rewrite (vec_erase_permutation ll j l Hj) at 1. Qed.

Lemma mjoin_set (ll : list (list A)) j l l' :
  vec_at ll j = Some l → mjoin (vec_set ll j l') ≡ₚ l' ++ mjoin (vec_erase ll j).
Proof. intros Hj. by rewrite (vec_set_permutation ll j l l' Hj). Qed.
End indices.

(** The section [j] of identifier [sid], and its items. *)
Definition section_at (m : ListModel) (j sid : Z) (items : list ListItem) : Prop :=
  vec_at (sectionIdentifiers_ m) j = Some sid ∧ vec_at (sections_ m) j = Some items.

Lemma section_at_of_id m sid :
  lm_inv m → sid ∈ sectionIdentifiers_ m → ∃ j items, section_at m j sid items.
Proof.
  intros Hinv [j Hj]%elem_of_vec_at. pose proof (vec_at_Some_range _ _ _ Hj).
  destruct (vec_at_in_range (sections_ m) j) as [items Hi]; [rewrite <- (lm_length _ Hinv); lia|].
  by exists j, items.
Qed.

Lemma internalSection_at m j sid items :
  lm_inv m → section_at m j sid items →
  internalSectionForIdentifier sid m = j ∧ 0 <= j < zlen (sections_ m) ∧ j < NSNotFound.
Proof.
  intros Hinv [Hj Hi]. pose proof (vec_at_Some_range _ _ _ Hi). pose proof (lm_count _ Hinv).
  split; [|lia]. apply index_of_at; [apply Hinv|done].
Qed.

Lemma internalSection_missing m sid :
  sid ∉ sectionIdentifiers_ m → internalSectionForIdentifier sid m = NSNotFound.
Proof. apply index_of_missing. Qed.

Lemma wp_objectAtIndex {A} (l : list A) i (Q : A → ListModel → Prop) m :
  wp (objectAtIndex l i) Q m ↔ ∃ a, vec_at l i = Some a ∧ Q a m.
Proof. unfold objectAtIndex, wp. destruct (vec_at l i); simpl; naive_solver. Qed.

Lemma wp_checked z (Q : Z → ListModel → Prop) m :
  wp (checked_NSUInteger z) Q m ↔ (0 <=? z) = true ∧ Q z m.
Proof. unfold checked_NSUInteger. by wp_simp. Qed.

#[local] Hint Rewrite @wp_objectAtIndex wp_checked : wpdb.

Lemma wp_sectionFor m j sid items (Q : Z → ListModel → Prop) :
  lm_inv m → section_at m j sid items → Q j m → wp (sectionForSectionIdentifier sid) Q m.
Proof.
  intros Hinv Hs HQ. destruct (internalSection_at m j sid items Hinv Hs) as (Hj & _ & Hlt).
  unfold sectionForSectionIdentifier. wp_simp. rewrite Hj.
  by rewrite (proj2 (Z.eqb_neq _ _)) by lia.
Qed.

Lemma wp_section_items m j sid items (Q : Z * list ListItem → ListModel → Prop) :
  lm_inv m → section_at m j sid items → Q (j, items) m → wp (section_items sid) Q m.
Proof.
  intros Hinv Hs HQ. unfold section_items. wp_simp. apply (wp_sectionFor m j sid items); [done..|].
  wp_simp. exists items. split; [apply Hs|done].
Qed.

Lemma wp_hasSection m sid (Q : bool → ListModel → Prop) :
  lm_inv m → Q (bool_decide (sid ∈ sectionIdentifiers_ m)) m →
  wp (hasSectionForSectionIdentifier sid) Q m.
Proof.
  intros Hinv HQ. unfold hasSectionForSectionIdentifier. wp_simp. revert HQ. case_bool_decide as Hin.
  - destruct (section_at_of_id m sid Hinv Hin) as (j & items & Hs).
    destruct (internalSection_at m j sid items Hinv Hs) as (-> & _ & Hlt).
    by rewrite (proj2 (Z.eqb_neq j NSNotFound)) by lia.
  - by rewrite internalSection_missing.
Qed.

(** ** Position of an item among those of its type *)

(** The number of items of type [ty] before [j]. *)
Definition type_rank (ty : Z) (items : list ListItem) (j : Z) : Z :=
  zlen (filter (λ it, item_type it = ty) (take (Z.to_nat j) items)).

Lemma type_rank_cons ty it items j :
  0 < j → type_rank ty (it :: items) j =
    (if item_type it =? ty then 1 else 0) + type_rank ty items (j - 1).
Proof.
  intros Hj. unfold type_rank. replace (Z.to_nat j) with (S (Z.to_nat (j - 1))) by lia. simpl take.
  rewrite filter_cons. case_decide as Ht.
  - rewrite (proj2 (Z.eqb_eq _ _) Ht), zlen_cons. lia.
  - rewrite (proj2 (Z.eqb_neq _ _) Ht). lia.
Qed.

Lemma vec_at_cons {A} (x : A) l j : 0 < j → vec_at (x :: l) j = vec_at l (j - 1).
Proof.
  intros Hj. rewrite !vec_at_nonneg by lia.
  by replace (Z.to_nat j) with (S (Z.to_nat (j - 1))) by lia.
Qed.

Lemma vec_at_cons_0 {A} (x : A) l : vec_at (x :: l) 0 = Some x.
Proof. done. Qed.

Lemma item_for_type_at ty items it j idx n :
  vec_at items j = Some it → item_type it = ty →
  item_for_type ty items (n + type_rank ty items j) idx n = idx + j.
Proof.
  revert j idx n. induction items as [|x items IH]; intros j idx n Hj Ht.
  { apply vec_at_Some_range in Hj. unfold zlen in Hj. simpl in Hj. lia. }
  pose proof (vec_at_Some_range _ _ _ Hj) as Hr. simpl.
  destruct (decide (j = 0)) as [->|Hne].
  - rewrite vec_at_cons_0 in Hj. injection Hj as ->.
    rewrite (proj2 (Z.eqb_eq _ _) Ht). unfold type_rank. simpl take. rewrite filter_nil, zlen_nil.
    by rewrite Z.add_0_r, Z.eqb_refl, Z.add_0_r.
  - rewrite vec_at_cons in Hj by lia. rewrite type_rank_cons by lia.
    assert (0 <= type_rank ty items (j - 1)) by apply zlen_nonneg.
    destruct (item_type x =? ty).
    + rewrite (proj2 (Z.eqb_neq _ _)) by lia.
      replace (n + (1 + type_rank ty items (j - 1))) with (n + 1 + type_rank ty items (j - 1)) by lia.
      rewrite IH by done. lia.
    + rewrite Z.add_0_l, IH by done. lia.
Qed.

Lemma item_for_type_found ty items k idx n :
  item_for_type ty items k idx n ≠ NSNotFound →
  ∃ j it, vec_at items j = Some it ∧ item_type it = ty ∧ k = n + type_rank ty items j ∧
    item_for_type ty items k idx n = idx + j.
Proof.
  revert idx n. induction items as [|x items IH]; intros idx n Hf; [done|]. simpl in *.
  destruct (Z.eqb_spec (item_type x) ty) as [Ht|Ht].
  - destruct (Z.eqb_spec n k) as [Hnk|Hne].
    + exists 0, x. split; [done|]. split; [done|]. unfold type_rank. simpl take.
      rewrite filter_nil, zlen_nil. lia.
    + destruct (IH _ _ Hf) as (j & it & Hj & Hty & Hk & Hidx).
      pose proof (vec_at_Some_range _ _ _ Hj). exists (j + 1), it.
      rewrite vec_at_cons, type_rank_cons, (proj2 (Z.eqb_eq _ _) Ht) by lia.
      replace (j + 1 - 1) with j by lia. split; [done|]. split; [done|]. split; [lia|].
      rewrite Hidx. lia.
  - destruct (IH _ _ Hf) as (j & it & Hj & Hty & Hk & Hidx).
    pose proof (vec_at_Some_range _ _ _ Hj). exists (j + 1), it.
    rewrite vec_at_cons, type_rank_cons, (proj2 (Z.eqb_neq _ _) Ht) by lia.
    replace (j + 1 - 1) with j by lia. split; [done|]. split; [done|]. split; [lia|].
    rewrite Hidx. lia.
Qed.

Lemma index_in_type_at items it j n :
  NoDup items → vec_at items j = Some it →
  index_in_type it items n = Some (n + type_rank (item_type it) items j).
Proof.
  revert j n. induction items as [|x items IH]; intros j n Hnd Hj.
  { apply vec_at_Some_range in Hj. unfold zlen in Hj. simpl in Hj. lia. }
  apply NoDup_cons in Hnd as [Hx Hnd]. pose proof (vec_at_Some_range _ _ _ Hj) as Hr. simpl.
  destruct (decide (j = 0)) as [->|Hne].
  - rewrite vec_at_cons_0 in Hj. injection Hj as ->. rewrite bool_decide_eq_true_2 by done.
    unfold type_rank. simpl take. rewrite filter_nil, zlen_nil. f_equal. lia.
  - rewrite vec_at_cons in Hj by lia. rewrite bool_decide_eq_false_2.
    2:{ intros ->. apply Hx, elem_of_vec_at. eauto. }
    rewrite (IH (j - 1)), type_rank_cons by (done || lia).
    f_equal. destruct (item_type x =? item_type it); lia.
Qed.

(** ** Every change keeps the invariant *)

Definition with_sections (ids : list Z) (ss : list (list ListItem)) (m : ListModel) : ListModel :=
  MkListModel ids ss (headers_ m) (footers_ m) (collapsedKeys_ m) (collapsableMode_ m) (defaults_ m).

Lemma wp_set_section_items j items' (Q : unit → ListModel → Prop) m :
  wp (set_section_items j items') Q m ↔
  Q tt (with_sections (sectionIdentifiers_ m) (vec_set (sections_ m) j items') m).
Proof. done. Qed.
#[local] Hint Rewrite wp_set_section_items : wpdb.

Lemma set_items_inv m j sid items items' :
  lm_inv m → section_at m j sid items →
  items_ok (items' ++ mjoin (vec_erase (sections_ m) j)) →
  lm_inv (with_sections (sectionIdentifiers_ m) (vec_set (sections_ m) j items') m).
Proof.
  intros [Hids Hlen Hcount Henum Hitems Hkeys Hinj] [_ Hj] Hok. split; try done; simpl.
  - by rewrite zlen_vec_set.
  - by rewrite zlen_vec_set.
  - unfold all_items. simpl. by rewrite (mjoin_set (sections_ m) j items).
Qed.

Lemma add_items_ok m j sid items items' it :
  lm_inv m → section_at m j sid items → items' ≡ₚ it :: items →
  it ∉ all_items m → kItemTypeEnumZero <= item_type it → zlen (all_items m) + 1 < NSNotFound →
  items_ok (items' ++ mjoin (vec_erase (sections_ m) j)).
Proof.
  intros Hinv [_ Hj] Hp Hin Hty Hroom. rewrite Hp. simpl.
  pose proof (mjoin_erase (sections_ m) j items Hj) as Hall. fold (all_items m) in Hall.
  rewrite <- Hall. apply items_ok_cons; [apply Hinv|done..].
Qed.

Lemma sublist_items_ok m j sid items dropped items' :
  lm_inv m → section_at m j sid items → items ≡ₚ dropped ++ items' →
  items_ok (items' ++ mjoin (vec_erase (sections_ m) j)).
Proof.
  intros Hinv [_ Hj] Hp. pose proof (lm_items _ Hinv) as Hok. unfold all_items in Hok.
  rewrite (mjoin_erase (sections_ m) j items Hj), Hp, <- app_assoc in Hok.
  by apply items_ok_app_r in Hok.
Qed.

Lemma new_section_inv m sid i :
  lm_inv m → kSectionIdentifierEnumZero <= sid → sid ∉ sectionIdentifiers_ m →
  zlen (sections_ m) + 1 < NSNotFound → 0 <= i <= zlen (sections_ m) →
  lm_inv (with_sections (vec_insert (sectionIdentifiers_ m) i sid) (vec_insert (sections_ m) i []) m).
Proof.
  intros [Hids Hlen Hcount Henum Hitems Hkeys Hinj] Hsid Hnew Hroom Hi. split; simpl.
  - rewrite vec_insert_permutation. by constructor.
  - rewrite !zlen_vec_insert by lia. lia.
  - rewrite zlen_vec_insert by done. lia.
  - rewrite vec_insert_permutation. by constructor.
  - unfold all_items. simpl. by rewrite vec_insert_permutation.
  - intros s k Hk. rewrite vec_insert_permutation. right. by eapply Hkeys.
  - done.
Qed.

Lemma removed_section_inv m j sid items :
  lm_inv m → section_at m j sid items →
  lm_inv (MkListModel (vec_erase (sectionIdentifiers_ m) j) (vec_erase (sections_ m) j)
    (headers_ m) (footers_ m) (delete sid (collapsedKeys_ m)) (collapsableMode_ m) (defaults_ m)).
Proof.
  intros [Hids Hlen Hcount Henum Hitems Hkeys Hinj] [Hs Hj].
  pose proof (vec_at_Some_range _ _ _ Hs). pose proof (vec_at_Some_range _ _ _ Hj).
  destruct (NoDup_vec_erase _ _ _ Hs Hids) as [Hnin Hnd]. split; simpl.
  - done.
  - rewrite !zlen_vec_erase by done. lia.
  - rewrite zlen_vec_erase by done. lia.
  - rewrite (vec_erase_permutation _ _ _ Hs) in Henum. by apply Forall_cons in Henum as [_ ?].
  - unfold all_items in Hitems |- *. simpl. rewrite (mjoin_erase _ _ _ Hj) in Hitems.
    by apply items_ok_app_r in Hitems.
  - intros s k [Hne Hk]%lookup_delete_Some. pose proof (Hkeys s k Hk) as Hin.
    rewrite (vec_erase_permutation _ _ _ Hs) in Hin. by apply elem_of_cons in Hin as [->|?].
  - intros s s' k [_ Hk]%lookup_delete_Some [_ Hk']%lookup_delete_Some. by eapply Hinj.
Qed.

(** ** Uses of a model *)

(** A change of the model, or of the user defaults by another model. *)
Inductive lm_op :=
  | OpAddSection (sid : Z)
  | OpInsertSection (sid i : Z)
  | OpAddItem (it : ListItem) (sid : Z)
  | OpInsertItem (it : ListItem) (sid i : Z)
  | OpRemoveItem (ty sid k : Z)
  | OpRemoveSection (sid : Z)
  | OpDeleteAllItems (sid : Z)
  | OpSetHeader (h : option ListItem) (sid : Z)
  | OpSetFooter (f : option ListItem) (sid : Z)
  | OpSetMode (mode : ListModelCollapsableMode)
  | OpSetCollapsedKey (sid : Z) (key : string)
  | OpSetCollapsed (sid : Z) (collapsed : bool)
  | OpSetDefaults (d : gmap string bool).

Definition run_op (op : lm_op) : LM unit :=
  match op with
  | OpAddSection sid => addSectionWithIdentifier sid
  | OpInsertSection sid i => insertSectionWithIdentifier sid i
  | OpAddItem it sid => addItem it sid
  | OpInsertItem it sid i => insertItem it sid i
  | OpRemoveItem ty sid k => removeItemWithType_at ty sid k
  | OpRemoveSection sid => removeSectionWithIdentifier sid
  | OpDeleteAllItems sid => deleteAllItemsFromSectionWithIdentifier sid
  | OpSetHeader h sid => setHeader h sid
  | OpSetFooter f sid => setFooter f sid
  | OpSetMode mode => setCollapsableMode mode
  | OpSetCollapsedKey sid key => setCollapsedKey sid key
  | OpSetCollapsed sid b => setSectionCollapsed sid b
  | OpSetDefaults d => set_defaults d
  end.

(** What the callers owe: identifiers and types in their ranges, sections that
    exist (or do not, to add them), items that are not in the model yet, item
    indices of the section, collapsed keys that are not in use. *)
Definition op_ok (m : ListModel) (op : lm_op) : Prop :=
  match op with
  | OpAddSection sid =>
      kSectionIdentifierEnumZero <= sid ∧ sid ∉ sectionIdentifiers_ m ∧
      zlen (sections_ m) + 1 < NSNotFound
  | OpInsertSection sid i =>
      kSectionIdentifierEnumZero <= sid ∧ sid ∉ sectionIdentifiers_ m ∧
      zlen (sections_ m) + 1 < NSNotFound ∧ 0 <= i <= zlen (sections_ m)
  | OpAddItem it sid =>
      kItemTypeEnumZero <= item_type it ∧ sid ∈ sectionIdentifiers_ m ∧
      it ∉ all_items m ∧ zlen (all_items m) + 1 < NSNotFound
  | OpInsertItem it sid i =>
      kItemTypeEnumZero <= item_type it ∧ sid ∈ sectionIdentifiers_ m ∧
      it ∉ all_items m ∧ zlen (all_items m) + 1 < NSNotFound ∧
      ∀ j items, section_at m j sid items → 0 <= i <= zlen items
  | OpRemoveItem ty sid k =>
      sid ∈ sectionIdentifiers_ m ∧
      ∀ j items, section_at m j sid items → itemForItemType ty items k ≠ NSNotFound
  | OpRemoveSection sid => sid ∈ sectionIdentifiers_ m
  | OpDeleteAllItems sid => sid ∈ sectionIdentifiers_ m
  | OpSetCollapsedKey sid key =>
      sid ∈ sectionIdentifiers_ m ∧ ∀ sid', collapsedKeys_ m !! sid' ≠ Some key
  | OpSetCollapsed sid _ => is_Some (collapsedKeys_ m !! sid)
  | _ => True
  end.

Definition lm_step (m : ListModel) (op : lm_op) (m' : ListModel) : Prop :=
  op_ok m op ∧ run_op op m = Ok (tt, m').

Lemma lm_inv_frame m m' :
  sectionIdentifiers_ m' = sectionIdentifiers_ m → sections_ m' = sections_ m →
  collapsedKeys_ m' = collapsedKeys_ m → lm_inv m → lm_inv m'.
Proof.
  intros Hi Hs Hk [H1 H2 H3 H4 H5 H6 H7]. unfold all_items in *.
  split; unfold all_items; rewrite ?Hi, ?Hs, ?Hk; done.
Qed.

Lemma wp_add_section m sid i (Q : unit → ListModel → Prop) :
  lm_inv m → kSectionIdentifierEnumZero <= sid → sid ∉ sectionIdentifiers_ m →
  wp (set_sections (vec_insert (sectionIdentifiers_ m) i sid) (vec_insert (sections_ m) i [])) Q m →
  0 <= i <= zlen (sections_ m) →
  wp (insertSectionWithIdentifier sid i) Q m.
Proof.
  intros Hinv Hsid Hnew HQ Hi. unfold insertSectionWithIdentifier. wp_simp.
  rewrite internalSection_missing by done. split; [by apply Z.leb_le|]. split; [done|].
  unfold id. split; [apply Z.leb_le; lia|]. exact HQ.
Qed.

Lemma wp_insertItem m j sid items it i :
  lm_inv m → section_at m j sid items → 0 <= i <= zlen items →
  it ∉ all_items m → kItemTypeEnumZero <= item_type it → zlen (all_items m) + 1 < NSNotFound →
  wp (insertItem it sid i) (λ _, lm_inv) m.
Proof.
  intros Hinv Hs Hi Hin Hty Hroom. unfold insertItem. wp_simp. split; [by apply Z.leb_le|].
  apply (wp_section_items m j sid items); [done..|]. wp_simp. split; [apply Z.leb_le; lia|].
  eapply set_items_inv; [done..|]. eapply add_items_ok; try done. apply vec_insert_permutation.
Qed.

Lemma wp_removeItem m j sid items ty k :
  lm_inv m → section_at m j sid items → itemForItemType ty items k ≠ NSNotFound →
  wp (removeItemWithType_at ty sid k) (λ _, lm_inv) m.
Proof.
  intros Hinv Hs Hk. unfold removeItemWithType_at. wp_simp.
  apply (wp_section_items m j sid items); [done..|]. wp_simp.
  split; [by rewrite (proj2 (Z.eqb_neq _ _)) by congruence|].
  eapply set_items_inv; [done..|].
  destruct (item_for_type_found ty items k 0 0 Hk) as (i & it & Hi & _ & _ & Hidx).
  unfold itemForItemType. rewrite Hidx. eapply (sublist_items_ok m j sid items [it]); [done..|].
  by apply vec_erase_permutation.
Qed.

Lemma wp_setCollapsedKey m sid key :
  lm_inv m → sid ∈ sectionIdentifiers_ m → (∀ sid', collapsedKeys_ m !! sid' ≠ Some key) →
  wp (setCollapsedKey sid key) (λ _, lm_inv) m.
Proof.
  intros Hinv Hin Hkey. unfold setCollapsedKey. wp_simp. apply wp_hasSection; [done|].
  rewrite bool_decide_eq_true_2 by done. wp_simp. split; [done|]. split.
  { apply bool_decide_eq_true_2. intros ([s k] & -> & Hk%elem_of_map_to_list)%list_elem_of_fmap.
    by apply (Hkey s). }
  destruct Hinv as [H1 H2 H3 H4 H5 H6 H7]. split; try done; simpl.
  - intros s k [[<- _]|[_ Hk]]%lookup_insert_Some; [done|by eapply H6].
  - intros s s' k [[<- <-]|[_ Hk]]%lookup_insert_Some [[<- Heq]|[_ Hk']]%lookup_insert_Some; try done.
    + by apply Hkey in Hk'.
    + subst. by apply Hkey in Hk.
    + by eapply H7.
Qed.

Lemma wp_run_lm_op m op : lm_inv m → op_ok m op → wp (run_op op) (λ _, lm_inv) m.
Proof.
  intros Hinv. pose proof (lm_length _ Hinv) as Hlen. pose proof (zlen_nonneg (sections_ m)).
  destruct op as [sid|sid i|it sid|it sid i|ty sid k|sid|sid|h sid|f sid|mode|sid key|sid b|d]; simpl.
  - intros (Hsid & Hnew & Hroom). unfold addSectionWithIdentifier. wp_simp.
    rewrite internalSection_missing by done. split; [by apply Z.leb_le|]. split; [done|].
    rewrite <- !vec_insert_end. unfold id. rewrite Hlen. apply (new_section_inv m); [done..|lia].
  - intros (Hsid & Hnew & Hroom & Hi). apply wp_add_section; [done..| |done].
    by apply (new_section_inv m).
  - intros (Hty & (j & items & Hs)%section_at_of_id & Hin & Hroom); [|done].
    unfold addItem. wp_simp. split; [by apply Z.leb_le|].
    apply (wp_section_items m j sid items); [done..|]. wp_simp.
    eapply set_items_inv; [done..|]. eapply add_items_ok; try done. by rewrite Permutation_app_comm.
  - intros (Hty & (j & items & Hs)%section_at_of_id & Hin & Hroom & Hi); [|done].
    eapply wp_insertItem; try done. by eapply Hi.
  - intros ((j & items & Hs)%section_at_of_id & Hk); [|done].
    eapply wp_removeItem; try done. by eapply Hk.
  - intros (j & items & Hs)%section_at_of_id; [|done].
    unfold removeSectionWithIdentifier. wp_simp. apply (wp_sectionFor m j sid items); [done..|].
    wp_simp. unfold set_sections, set_collapsedKeys, id. wp_simp.
    exact (removed_section_inv m j sid items Hinv Hs).
  - intros (j & items & Hs)%section_at_of_id; [|done].
    unfold deleteAllItemsFromSectionWithIdentifier. wp_simp.
    apply (wp_section_items m j sid items); [done..|]. wp_simp.
    eapply set_items_inv; [done..|]. by eapply (sublist_items_ok m j sid items items); [..|rewrite app_nil_r].
  - intros _. unfold setHeader. wp_simp. destruct h; by apply (lm_inv_frame m).
  - intros _. unfold setFooter. wp_simp. destruct f; by apply (lm_inv_frame m).
  - intros _. by apply (lm_inv_frame m).
  - intros [Hin Hkey]. by apply wp_setCollapsedKey.
  - intros [k Hk]. unfold setSectionCollapsed. wp_simp. apply wp_hasSection; [done|].
    rewrite bool_decide_eq_true_2 by (by eapply (lm_keys _ Hinv)). wp_simp. split; [done|].
    rewrite Hk. by apply (lm_inv_frame m).
  - intros _. by apply (lm_inv_frame m).
Qed.

Lemma reachable_lm_inv d m : reachable lm_step (ListModel_init d) m → lm_inv m.
Proof.
  revert m. apply reachable_invariant.
  - split; simpl; try done; [constructor|split; [constructor|constructor|done]].
  - intros s op s' Hs [Hok Hrun]. pose proof (wp_run_lm_op s op Hs Hok) as Hwp.
    unfold wp in Hwp. by rewrite Hrun in Hwp.
Qed.

(** ** Index paths and model coordinates *)

Lemma wp_exact {A} (op : LM A) x m :
  wp op (λ a m', a = x ∧ m' = m) m → op m = Ok (x, m).
Proof. unfold wp. destruct (op m) as [[a m']|]; [by intros [-> ->]|done]. Qed.

Lemma section_at_index m j items :
  lm_inv m → vec_at (sections_ m) j = Some items → ∃ sid, section_at m j sid items.
Proof.
  intros Hinv Hj. pose proof (vec_at_Some_range _ _ _ Hj).
  destruct (vec_at_in_range (sectionIdentifiers_ m) j) as [sid Hs]; [rewrite (lm_length _ Hinv); lia|].
  by exists sid.
Qed.

Lemma section_items_ok m j sid items :
  lm_inv m → section_at m j sid items → NoDup items ∧ zlen items < NSNotFound.
Proof.
  intros Hinv [_ Hj]. pose proof (lm_items _ Hinv) as [Hn _ Hc]. unfold all_items in *.
  rewrite (mjoin_erase _ _ _ Hj) in Hn. unfold zlen in Hc.
  rewrite (Permutation_length (mjoin_erase _ _ _ Hj)), length_app in Hc.
  apply NoDup_app in Hn as (Hn & _). split; [done|]. unfold zlen. lia.
Qed.

Lemma sectionIdentifierForSection_at m j sid items :
  section_at m j sid items → sectionIdentifierForSection j m = Ok (sid, m).
Proof.
  intros [Hs _]. pose proof (vec_at_Some_range _ _ _ Hs). apply wp_exact.
  unfold sectionIdentifierForSection. wp_simp. split; [apply Z.leb_le; lia|].
  split; [apply Z.ltb_lt; lia|]. by exists sid.
Qed.

Lemma wp_itemAtIndexPath m j sid items i it (Q : ListItem → ListModel → Prop) :
  section_at m j sid items → vec_at items i = Some it → Q it m →
  wp (itemAtIndexPath (j, i)) Q m.
Proof.
  intros [_ Hj] Hi HQ. pose proof (vec_at_Some_range _ _ _ Hj).
  pose proof (vec_at_Some_range _ _ _ Hi). unfold itemAtIndexPath. cbv beta iota. wp_simp.
  split; [apply Z.leb_le; lia|]. split; [apply Z.ltb_lt; lia|]. exists items. split; [done|]. wp_simp.
  split; [apply Z.leb_le; lia|]. split; [apply Z.ltb_lt; lia|]. by exists it.
Qed.

Lemma indexInItemType_at m j sid items i it :
  lm_inv m → section_at m j sid items → vec_at items i = Some it →
  indexInItemTypeForIndexPath (j, i) m = Ok (type_rank (item_type it) items i, m).
Proof.
  intros Hinv Hs Hi. destruct (section_items_ok m j sid items Hinv Hs) as [Hnd _].
  destruct Hs as [Hsid Hj]. pose proof (vec_at_Some_range _ _ _ Hj). apply wp_exact.
  unfold indexInItemTypeForIndexPath. cbn [fst]. wp_simp. split; [apply Z.leb_le; lia|].
  split; [apply Z.ltb_lt; lia|]. exists items. split; [done|]. wp_simp.
  apply (wp_itemAtIndexPath m j sid items i it); [done..|].
  unfold indexInItemTypeForItem. wp_simp. split.
  { apply bool_decide_eq_true_2, elem_of_vec_at. eauto. }
  rewrite (index_in_type_at items it i) by done. by wp_simp.
Qed.

Lemma indexPathForItemType_run m j sid items ty k :
  lm_inv m → section_at m j sid items →
  indexPathForItemType_at ty sid k m = Ok ((j, itemForItemType ty items k), m).
Proof.
  intros Hinv Hs. apply wp_exact. unfold indexPathForItemType_at. wp_simp.
  apply (wp_section_items m j sid items); [done..|]. by wp_simp.
Qed.

Lemma index_path_of_item_at ss it j items i n m :
  NoDup (mjoin ss) → vec_at ss j = Some items → vec_at items i = Some it → i < NSNotFound →
  index_path_of_item it ss n m = Ok ((n + j, i), m).
Proof.
  revert j n. induction ss as [|x ss IH]; intros j n Hnd Hj Hi Hmax.
  { apply vec_at_Some_range in Hj. unfold zlen in Hj. simpl in Hj. lia. }
  pose proof (vec_at_Some_range _ _ _ Hj) as Hr. simpl in Hnd |- *.
  apply NoDup_app in Hnd as (Hx & Hdis & Hnd).
  destruct (decide (j = 0)) as [->|Hne].
  - rewrite vec_at_cons_0 in Hj. injection Hj as ->.
    rewrite (index_of_at items it i), (proj2 (Z.eqb_neq _ _)) by (done || lia).
    by rewrite Z.add_0_r.
  - rewrite vec_at_cons in Hj by lia. rewrite index_of_missing.
    + simpl. rewrite (IH (j - 1)) by done. do 3 f_equal. lia.
    + intros Hin. apply (Hdis it Hin). apply list_elem_of_join. exists items.
      split; apply elem_of_vec_at; eauto.
Qed.

Lemma hasItem_run m ty sid k :
  lm_inv m → hasItemForItemType_at ty sid k m = Ok (true, m) →
  ∃ j items, section_at m j sid items ∧ itemForItemType ty items k ≠ NSNotFound.
Proof.
  intros Hinv Hrun.
  assert (wp (hasItemForItemType_at ty sid k) (λ b _, b = true → ∃ j items,
    section_at m j sid items ∧ itemForItemType ty items k ≠ NSNotFound) m) as Hwp.
  { unfold hasItemForItemType_at. wp_simp. apply wp_hasSection; [done|].
    case_bool_decide as Hin; simpl; wp_simp; [|done].
    destruct (section_at_of_id m sid Hinv Hin) as (j & items & Hs).
    apply (wp_section_items m j sid items); [done..|]. wp_simp.
    intros Hf%negb_true_iff%Z.eqb_neq. eauto. }
  unfold wp in Hwp. rewrite Hrun in Hwp. by apply Hwp.
Qed.

(** C29: in every model that callers build by the rules, index paths and model
    coordinates name the same items: from an index path, the section
    identifier, the type and the index among the items of the type lead back
    to the path, and so does the item; coordinates the model has lead to an
    item with these coordinates.  No rule-abiding change fails a check. *)
Theorem model_coordinates_roundtrip d m :
  reachable lm_step (ListModel_init d) m →
  (∀ op, op_ok m op → ∃ m', lm_step m op m') ∧
  (∀ section item items it,
    vec_at (sections_ m) section = Some items → vec_at items item = Some it →
    ∃ sid k, sectionIdentifierForSection section m = Ok (sid, m) ∧
      itemAtIndexPath (section, item) m = Ok (it, m) ∧
      indexInItemTypeForIndexPath (section, item) m = Ok (k, m) ∧
      indexPathForItemType_at (item_type it) sid k m = Ok ((section, item), m) ∧
      indexPathForItem it m = Ok ((section, item), m)) ∧
  (∀ ty sid k, hasItemForItemType_at ty sid k m = Ok (true, m) →
    ∃ section item it, indexPathForItemType_at ty sid k m = Ok ((section, item), m) ∧
      itemAtIndexPath (section, item) m = Ok (it, m) ∧ item_type it = ty ∧
      sectionIdentifierForSection section m = Ok (sid, m) ∧
      indexInItemTypeForIndexPath (section, item) m = Ok (k, m)).
Proof.
  intros Hinv%reachable_lm_inv. split; [|split].
  - intros op Hok. destruct (wp_run _ _ _ (wp_run_lm_op m op Hinv Hok)) as ([] & m' & Hrun & _).
    by exists m'.
  - intros j i items it Hj Hi. destruct (section_at_index m j items Hinv Hj) as [sid Hs].
    destruct (section_items_ok m j sid items Hinv Hs) as [_ Hc].
    pose proof (vec_at_Some_range _ _ _ Hi).
    exists sid, (type_rank (item_type it) items i).
    split; [by eapply sectionIdentifierForSection_at|].
    split; [apply wp_exact; by eapply wp_itemAtIndexPath|].
    split; [by eapply indexInItemType_at|]. split.
    + rewrite (indexPathForItemType_run m j sid items) by done. unfold itemForItemType.
      pose proof (item_for_type_at _ items it i 0 0 Hi eq_refl) as Heq.
      rewrite Z.add_0_l in Heq. by rewrite Heq.
    + unfold indexPathForItem, gets, mbind, M_bind.
      apply index_path_of_item_at with (n := 0) (items := items); [apply Hinv|done|done|lia].
  - intros ty sid k Hrun. destruct (hasItem_run m ty sid k Hinv Hrun) as (j & items & Hs & Hf).
    destruct (item_for_type_found ty items k 0 0 Hf) as (i & it & Hi & Hty & Hk & Hidx).
    exists j, i, it. rewrite (indexPathForItemType_run m j sid items) by done.
    unfold itemForItemType. rewrite Hidx. split; [done|].
    split; [apply wp_exact; by eapply wp_itemAtIndexPath|]. split; [done|].
    split; [by eapply sectionIdentifierForSection_at|].
    rewrite (indexInItemType_at m j sid items i it) by done. by rewrite Hty, Hk.
Qed.

(** ** Concrete uses *)

Definition example_model : ListModel :=
  MkListModel [10; 11] [[]; [MkItem 1 100; MkItem 2 101; MkItem 3 101]] ∅ ∅ ∅
    ListModelCollapsableModeHeader ∅.

Lemma example_model_reachable : reachable lm_step (ListModel_init ∅) example_model.
Proof.
  assert (∀ m op m', reachable lm_step (ListModel_init ∅) m → op_ok m op →
    run_op op m = Ok (tt, m') → reachable lm_step (ListModel_init ∅) m') as Hstep.
  { intros m op m' Hr Hok Hrun. eapply reach_step; [exact Hr|]. split; [exact Hok|exact Hrun]. }
  assert (∀ (x : Z) (l : list Z), bool_decide (x ∈ l) = true → x ∈ l) as Hin
    by (intros x l; apply bool_decide_eq_true_1).
  assert (∀ (x : ListItem) (l : list ListItem), bool_decide (x ∈ l) = false → x ∉ l) as Hnin
    by (intros x l; apply bool_decide_eq_false_1).
  pose (mk ids ss := MkListModel ids ss ∅ ∅ ∅ ListModelCollapsableModeHeader ∅).
  apply (Hstep (mk [10; 11] [[]; [MkItem 1 100; MkItem 2 101]]) (OpAddItem (MkItem 3 101) 11));
    [|split; [done|split; [by apply Hin|split; [by apply Hnin|done]]]|reflexivity].
  apply (Hstep (mk [10; 11] [[]; [MkItem 1 100]]) (OpAddItem (MkItem 2 101) 11));
    [|split; [done|split; [by apply Hin|split; [by apply Hnin|done]]]|reflexivity].
  apply (Hstep (mk [10; 11] [[]; []]) (OpAddItem (MkItem 1 100) 11));
    [|split; [done|split; [by apply Hin|split; [by apply Hnin|done]]]|reflexivity].
  apply (Hstep (mk [11] [[]]) (OpInsertSection 10 0));
    [|split; [done|split; [set_solver|done]]|reflexivity].
  apply (Hstep (ListModel_init ∅) (OpAddSection 11));
    [apply reach_refl|split; [done|split; [set_solver|done]]|reflexivity].
Qed.

Lemma model_coordinates_roundtrip_witness :
  ∃ sid k, sectionIdentifierForSection 1 example_model = Ok (sid, example_model) ∧
    indexInItemTypeForIndexPath (1, 2) example_model = Ok (k, example_model) ∧
    indexPathForItemType_at 101 sid k example_model = Ok ((1, 2), example_model).
Proof.
  destruct (model_coordinates_roundtrip ∅ example_model example_model_reachable) as (_ & Hpath & _).
  destruct (Hpath 1 2 [MkItem 1 100; MkItem 2 101; MkItem 3 101] (MkItem 3 101) eq_refl eq_refl)
    as (sid & k & H1 & _ & H2 & H3 & _).
  exists sid, k. split; [exact H1|]. split; [exact H2|exact H3].
Defined.
