(* ===== verification/CRWWKNavigationStates.v ===== *)
(** * CRWWKNavigationStates: the navigations in flight

    Models src/web/web_state/ui/crw_wk_navigation_states.mm: the table from
    WKNavigation objects to their states and navigation contexts.  The table
    is shown to implement a list of the navigations in the order they were
    added. *)

From stdpp Require Import sorting.
From S2P Require Import Prelude.

(** WKNavigationState, with the values of the C++ enumeration. *)
Inductive WKNavigationState : Set :=
  | NONE
  | REQUESTED
  | STARTED
  | REDIRECTED
  | PROVISIONALY_FAILED
  | COMMITTED
  | FINISHED
  | FAILED.

#[export] Instance WKNavigationState_eq_dec : EqDecision WKNavigationState.
Proof. solve_decision. Defined.

Definition state_value (s : WKNavigationState) : Z :=
  match s with
  | NONE => 0
  | REQUESTED => 1
  | STARTED => 2
  | REDIRECTED => 3
  | PROVISIONALY_FAILED => 4
  | COMMITTED => 5
  | FINISHED => 6
  | FAILED => 7
  end.

(** Addresses of WKNavigation objects and of NavigationContextImpl objects;
    [None] is the null pointer. *)
Notation wknav := positive.
Notation ctxptr := positive.

(** Key of the table: [None] is the [NSNull] object [_nullNavigation]. *)
Notation navkey := (option wknav).

Record CRWWKNavigationsStateRecord := MkRecord {
  record_context : option ctxptr;
  record_state : WKNavigationState;
  record_index : Z;
  record_committed : bool;
}.

(** The properties an initializer does not set are zero. *)
Definition initWithState (state : WKNavigationState) (index : Z)
    : CRWWKNavigationsStateRecord :=
  MkRecord None state index false.
Definition initWithContext (context : option ctxptr) (index : Z)
    : CRWWKNavigationsStateRecord :=
  MkRecord context NONE index false.

Definition set_record_state (s : WKNavigationState) (r : CRWWKNavigationsStateRecord) :=
  MkRecord (record_context r) s (record_index r) (record_committed r).
Definition set_record_committed (r : CRWWKNavigationsStateRecord) :=
  MkRecord (record_context r) (record_state r) (record_index r) true.
Definition set_record_context (c : option ctxptr) (r : CRWWKNavigationsStateRecord) :=
  MkRecord c (record_state r) (record_index r) (record_committed r).

Record CRWWKNavigationStates := MkStates {
  records_ : gmap navkey CRWWKNavigationsStateRecord;
  lastStateIndex_ : Z;
}.
Notation NM := (M CRWWKNavigationStates).

Section table.
(** The order in which fast enumeration visits the keys of an NSMapTable. *)
Context (enumeration : gmap navkey CRWWKNavigationsStateRecord →
           list (navkey * CRWWKNavigationsStateRecord)).

Definition CRWWKNavigationStates_init : CRWWKNavigationStates := MkStates ∅ 0.

Definition keyForNavigation (navigation : option wknav) : navkey :=
  match navigation with Some n => Some n | None => None end.

(** [++_lastStateIndex], on an [NSUInteger]. *)
Definition next_index : NM Z :=
  i ← gets lastStateIndex_;
  modify (λ s, MkStates (records_ s) (to_size_t (i + 1)));;
  mret (to_size_t (i + 1)).

Definition setObject (key : navkey) (record : CRWWKNavigationsStateRecord) : NM unit :=
  modify (λ s, MkStates (<[key := record]> (records_ s)) (lastStateIndex_ s)).

(** States a navigation may be added with. *)
Definition initial_state (state : WKNavigationState) : bool :=
  bool_decide (state = REQUESTED) || bool_decide (state = STARTED) ||
  bool_decide (state = COMMITTED).

Definition state_change_ok (old state : WKNavigationState) (navigation : option wknav) : bool :=
  (state_value old <? state_value state) ||
  (bool_decide (old = state) && bool_decide (state = REDIRECTED)) ||
  (bool_decide (old = FINISHED) && bool_decide (state = COMMITTED)) ||
  bool_decide (navigation = None).

Definition setState (state : WKNavigationState) (navigation : option wknav) : NM unit :=
  let key := keyForNavigation navigation in
  found ← gets (λ s, records_ s !! key);
  record ←
    match found with
    | None =>
        DCHECK (initial_state state);;
        i ← next_index;
        mret (initWithState state i)
    | Some record =>
        DCHECK (state_change_ok (record_state record) state navigation);;
        mret (set_record_state state record)
    end;
  setObject key
    (if bool_decide (state = COMMITTED) then set_record_committed record else record).

Definition stateForNavigation (navigation : option wknav) : NM WKNavigationState :=
  record ← gets (λ s, records_ s !! keyForNavigation navigation);
  mret (match record with Some r => record_state r | None => NONE end).

Definition removeNavigation (navigation : option wknav) : NM (option ctxptr) :=
  let key := keyForNavigation navigation in
  record ← gets (λ s, records_ s !! key);
  match record with
  | None => fail DCheckFailed
  | Some r =>
      modify (λ s, MkStates (delete key (records_ s)) (lastStateIndex_ s));;
      mret (record_context r)
  end.

Definition setContext (context : option ctxptr) (navigation : option wknav) : NM unit :=
  let key := keyForNavigation navigation in
  found ← gets (λ s, records_ s !! key);
  record ←
    match found with
    | None => i ← next_index; mret (initWithContext context i)
    | Some record => mret (set_record_context context record)
    end;
  setObject key record.

Definition contextForNavigation (navigation : option wknav) : NM (option ctxptr) :=
  record ← gets (λ s, records_ s !! keyForNavigation navigation);
  mret (match record with Some r => record_context r | None => None end).

(** The loop of getLastAddedNavigation:record: over the entries. *)
Fixpoint last_added_loop (entries : list (navkey * CRWWKNavigationsStateRecord))
    (lastAddedIndex : Z) (out : option (navkey * CRWWKNavigationsStateRecord))
    : option (navkey * CRWWKNavigationsStateRecord) :=
  match entries with
  | [] => out
  | e :: entries' =>
      if lastAddedIndex <? record_index (e.2)
      then last_added_loop entries' (record_index (e.2)) (Some e)
      else last_added_loop entries' lastAddedIndex out
  end.

(** The navigation, nil for the null key, and its record. *)
Definition getLastAddedNavigation
    : NM (option wknav * option CRWWKNavigationsStateRecord) :=
  entries ← gets (λ s, enumeration (records_ s));
  mret (match last_added_loop entries 0 None with
        | Some (key, record) => (key, Some record)
        | None => (None, None)
        end).

Definition lastAddedNavigation : NM (option wknav) :=
  fst <$> getLastAddedNavigation.

(** A message to a nil record answers 0. *)
Definition lastAddedNavigationState : NM WKNavigationState :=
  found ← getLastAddedNavigation;
  mret (match found.2 with Some r => record_state r | None => NONE end).

Definition is_pending (s : WKNavigationState) : bool :=
  bool_decide (s = REQUESTED) || bool_decide (s = STARTED) || bool_decide (s = REDIRECTED).

Definition pendingNavigations : NM (gset navkey) :=
  entries ← gets (λ s, enumeration (records_ s));
  mret (foldr (λ e result,
          if is_pending (record_state (e.2)) then {[ e.1 ]} ∪ result else result)
          ∅ entries).

Definition isCommittedNavigation (navigation : option wknav) : NM bool :=
  record ← gets (λ s, records_ s !! keyForNavigation navigation);
  mret (match record with Some r => record_committed r | None => false end).

(** The table holds its keys weakly: an entry goes away with its WKNavigation,
    which the [NSNull] key never does. *)
Definition navigation_released (navigation : wknav) : NM unit :=
  modify (λ s, MkStates (delete (Some navigation) (records_ s)) (lastStateIndex_ s)).

(** ** Calls *)

Inductive nav_call :=
  | CallSetState (state : WKNavigationState) (navigation : option wknav)
  | CallSetContext (context : option ctxptr) (navigation : option wknav)
  | CallRemove (navigation : option wknav)
  | CallReleased (navigation : wknav)
  | CallState (navigation : option wknav)
  | CallContext (navigation : option wknav)
  | CallIsCommitted (navigation : option wknav)
  | CallLastAdded
  | CallLastAddedState
  | CallPending.

Inductive nav_answer :=
  | AnsUnit
  | AnsState (s : WKNavigationState)
  | AnsContext (c : option ctxptr)
  | AnsNavigation (n : option wknav)
  | AnsBool (b : bool)
  | AnsSet (ns : gset navkey).

Definition run_call (c : nav_call) : NM nav_answer :=
  match c with
  | CallSetState st n => setState st n;; mret AnsUnit
  | CallSetContext ctx n => setContext ctx n;; mret AnsUnit
  | CallRemove n => AnsContext <$> removeNavigation n
  | CallReleased n => navigation_released n;; mret AnsUnit
  | CallState n => AnsState <$> stateForNavigation n
  | CallContext n => AnsContext <$> contextForNavigation n
  | CallIsCommitted n => AnsBool <$> isCommittedNavigation n
  | CallLastAdded => AnsNavigation <$> lastAddedNavigation
  | CallLastAddedState => AnsState <$> lastAddedNavigationState
  | CallPending => AnsSet <$> pendingNavigations
  end.

(** ** Specification: the navigations in the order they were added *)

Record nav_entry := MkEntry {
  entry_nav : navkey;
  entry_state : WKNavigationState;
  entry_committed : bool;
  entry_context : option ctxptr;
}.

Fixpoint find_entry (k : navkey) (a : list nav_entry) : option nav_entry :=
  match a with
  | [] => None
  | e :: a' => if bool_decide (entry_nav e = k) then Some e else find_entry k a'
  end.

(** Changes the entry of [k] and leaves its place. *)
Definition update_entry (k : navkey) (f : nav_entry → nav_entry) (a : list nav_entry)
    : list nav_entry :=
  (λ e, if bool_decide (entry_nav e = k) then f e else e) <$> a.

Definition remove_entry (k : navkey) (a : list nav_entry) : list nav_entry :=
  filter (λ e, entry_nav e ≠ k) a.

Definition move_to (st : WKNavigationState) (e : nav_entry) : nav_entry :=
  MkEntry (entry_nav e) st (bool_decide (st = COMMITTED) || entry_committed e)
    (entry_context e).

Definition attach (c : option ctxptr) (e : nav_entry) : nav_entry :=
  MkEntry (entry_nav e) (entry_state e) (entry_committed e) c.

Definition spec_call (c : nav_call) (a : list nav_entry) : res (nav_answer * list nav_entry) :=
  match c with
  | CallSetState st n =>
      match find_entry n a with
      | None =>
          if initial_state st
          then Ok (AnsUnit, a ++ [MkEntry n st (bool_decide (st = COMMITTED)) None])
          else Crash DCheckFailed
      | Some e =>
          if state_change_ok (entry_state e) st n
          then Ok (AnsUnit, update_entry n (move_to st) a)
          else Crash DCheckFailed
      end
  | CallSetContext ctx n =>
      match find_entry n a with
      | None => Ok (AnsUnit, a ++ [MkEntry n NONE false ctx])
      | Some _ => Ok (AnsUnit, update_entry n (attach ctx) a)
      end
  | CallRemove n =>
      match find_entry n a with
      | None => Crash DCheckFailed
      | Some e => Ok (AnsContext (entry_context e), remove_entry n a)
      end
  | CallReleased n => Ok (AnsUnit, remove_entry (Some n) a)
  | CallState n => Ok (AnsState (from_option entry_state NONE (find_entry n a)), a)
  | CallContext n => Ok (AnsContext (find_entry n a ≫= entry_context), a)
  | CallIsCommitted n => Ok (AnsBool (from_option entry_committed false (find_entry n a)), a)
  | CallLastAdded => Ok (AnsNavigation (last a ≫= entry_nav), a)
  | CallLastAddedState => Ok (AnsState (from_option entry_state NONE (last a)), a)
  | CallPending =>
      Ok (AnsSet (list_to_set (entry_nav <$> filter (λ e, is_pending (entry_state e) = true) a)), a)
  end.

(** Sequences of calls, and their answers. *)
Fixpoint run_calls (cs : list nav_call) : NM (list nav_answer) :=
  match cs with
  | [] => mret []
  | c :: cs' => r ← run_call c; rs ← run_calls cs'; mret (r :: rs)
  end.

Fixpoint spec_calls (cs : list nav_call) (a : list nav_entry)
    : res (list nav_answer * list nav_entry) :=
  match cs with
  | [] => Ok ([], a)
  | c :: cs' =>
      match spec_call c a with
      | Crash x => Crash x
      | Ok (r, a') =>
          match spec_calls cs' a' with
          | Crash x => Crash x
          | Ok (rs, a'') => Ok (r :: rs, a'')
          end
      end
  end.

(** Whether [n] was committed since it was last removed or released. *)
Definition committed_after (n : option wknav) (b : bool) (c : nav_call) : bool :=
  match c with
  | CallSetState COMMITTED m => bool_decide (m = n) || b
  | CallRemove m => negb (bool_decide (m = n)) && b
  | CallReleased m => negb (bool_decide (Some m = n)) && b
  | _ => b
  end.
End table.

(** ** The table implements the list *)

Notation entry := (navkey * CRWWKNavigationsStateRecord)%type.

Definition index_lt (x y : entry) : Prop := record_index (x.2) < record_index (y.2).

Definition entry_of (x : entry) : nav_entry :=
  MkEntry (x.1) (record_state (x.2)) (record_committed (x.2)) (record_context (x.2)).

(** [es] lists the entries of the table by increasing index. *)
Record table_entries (s : CRWWKNavigationStates) (es : list entry) : Prop := {
  te_sorted : StronglySorted index_lt es;
  te_lookup : ∀ k r, (k, r) ∈ es ↔ records_ s !! k = Some r;
  te_bounds : ∀ x, x ∈ es → 1 <= record_index (x.2) <= lastStateIndex_ s;
}.

Definition implements (s : CRWWKNavigationStates) (a : list nav_entry) : Prop :=
  0 <= lastStateIndex_ s ∧ ∃ es, table_entries s es ∧ a = entry_of <$> es.

Section refinement.
Context (enumeration : gmap navkey CRWWKNavigationsStateRecord → list entry).
Implicit Types (s : CRWWKNavigationStates) (es : list entry).

Lemma index_lt_NoDup es : StronglySorted index_lt es → NoDup es.
Proof.
  induction 1 as [|x es Hs IH Hx]; constructor; [|done].
  intros Hin. rewrite Forall_forall in Hx. specialize (Hx x Hin). unfold index_lt in Hx. lia.
Qed.

Lemma table_entries_permutation s es :
  table_entries s es → es ≡ₚ map_to_list (records_ s).
Proof.
  intros [Hs Hl _]. apply NoDup_Permutation; [by apply index_lt_NoDup|apply NoDup_map_to_list|].
  intros [k r]. by rewrite elem_of_map_to_list.
Qed.

Lemma find_entry_of k es :
  (find_entry k (entry_of <$> es) = None ∧ ∀ r, (k, r) ∉ es) ∨
  ∃ r, find_entry k (entry_of <$> es) = Some (entry_of (k, r)) ∧ (k, r) ∈ es.
Proof.
  induction es as [|[k' r'] es IH]; simpl.
  { left. split; [done|]. intros r. apply not_elem_of_nil. }
  case_bool_decide as Hk; simpl in Hk.
  - subst k'. right. exists r'. split; [done|left].
  - destruct IH as [[Hf Hn]|(r & Hf & Hin)].
    + left. split; [done|]. intros r [[=]|?]%elem_of_cons; [done|]. by apply (Hn r).
    + right. exists r. split; [done|by right].
Qed.

Lemma find_entry_table s es k :
  table_entries s es →
  find_entry k (entry_of <$> es) = (λ r, entry_of (k, r)) <$> records_ s !! k.
Proof.
  intros [_ Hl _]. destruct (find_entry_of k es) as [[-> Hn]|(r & -> & Hin)].
  - destruct (records_ s !! k) as [r|] eqn:Hr; [|done]. by apply Hl, Hn in Hr.
  - apply Hl in Hin. by rewrite Hin.
Qed.

(** A new entry goes to the end. *)
Lemma table_entries_add s es k r :
  table_entries s es → records_ s !! k = None → 0 <= lastStateIndex_ s →
  record_index r = lastStateIndex_ s + 1 →
  table_entries (MkStates (<[k := r]> (records_ s)) (lastStateIndex_ s + 1)) (es ++ [(k, r)]).
Proof.
  intros [Hs Hl Hb] Hk H0 Hr. split.
  - apply StronglySorted_app_2; [|done|repeat constructor].
    intros x y Hx ->%list_elem_of_singleton. unfold index_lt. simpl.
    pose proof (Hb x Hx). lia.
  - intros k' r'. simpl. rewrite elem_of_app, list_elem_of_singleton, Hl.
    destruct (decide (k' = k)) as [->|Hne].
    + rewrite lookup_insert_eq, Hk. naive_solver.
    + rewrite lookup_insert_ne by done. naive_solver.
  - intros x [Hx| ->%list_elem_of_singleton]%elem_of_app; simpl; [|lia].
    pose proof (Hb x Hx). lia.
Qed.

Definition update_pair (k : navkey) (f : CRWWKNavigationsStateRecord → CRWWKNavigationsStateRecord)
    (x : entry) : entry :=
  if bool_decide (x.1 = k) then (x.1, f (x.2)) else x.

Lemma sorted_fmap (f : entry → entry) es :
  (∀ x, record_index ((f x).2) = record_index (x.2)) →
  StronglySorted index_lt es → StronglySorted index_lt (f <$> es).
Proof.
  intros Hf. induction 1 as [|x es Hs IH Hx]; [constructor|].
  rewrite fmap_cons. apply StronglySorted_cons. split; [|done].
  rewrite Forall_fmap. eapply Forall_impl; [exact Hx|].
  intros y. unfold index_lt. simpl. by rewrite !Hf.
Qed.

(** An update in place keeps the order. *)
Lemma table_entries_update s es k f r :
  table_entries s es → records_ s !! k = Some r → (∀ r, record_index (f r) = record_index r) →
  table_entries (MkStates (<[k := f r]> (records_ s)) (lastStateIndex_ s))
    (update_pair k f <$> es).
Proof.
  intros [Hs Hl Hb] Hk Hf.
  assert (∀ x, record_index ((update_pair k f x).2) = record_index (x.2)) as Hu.
  { intros x. unfold update_pair. case_bool_decide; simpl; auto. }
  split.
  - by apply sorted_fmap.
  - intros k' r'. simpl. rewrite list_elem_of_fmap. unfold update_pair. split.
    + intros ([k0 r0] & Heq & Hin%Hl). simpl in *. case_bool_decide.
      * simplify_eq/=. by rewrite lookup_insert_eq.
      * simplify_eq. by rewrite lookup_insert_ne.
    + destruct (decide (k' = k)) as [->|Hne].
      * rewrite lookup_insert_eq. intros [= <-]. exists (k, r). simpl.
        rewrite bool_decide_eq_true_2 by done. split; [done|by apply Hl].
      * rewrite lookup_insert_ne by done. intros Hr. exists (k', r'). simpl.
        rewrite bool_decide_eq_false_2 by done. split; [done|by apply Hl].
  - intros x (y & -> & Hy)%list_elem_of_fmap. rewrite Hu. by apply Hb.
Qed.

Lemma update_entry_of k f g es :
  (∀ r, entry_of (k, f r) = g (entry_of (k, r))) →
  update_entry k g (entry_of <$> es) = entry_of <$> (update_pair k f <$> es).
Proof.
  intros Hfg. unfold update_entry. rewrite <- !list_fmap_compose. apply list_fmap_ext.
  intros _ [k' r'] _. unfold compose, update_pair. simpl.
  case_bool_decide as Hk; [|done]. subst. by rewrite Hfg.
Qed.

Lemma sorted_filter (P : entry → Prop) `{!∀ x, Decision (P x)} es :
  StronglySorted index_lt es → StronglySorted index_lt (filter P es).
Proof.
  induction 1 as [|x es Hs IH Hx]; [constructor|]. rewrite filter_cons.
  case_decide; [|done]. constructor; [done|].
  rewrite Forall_forall in *. intros y [_ Hy]%list_elem_of_filter. by apply Hx.
Qed.

Lemma table_entries_delete s es k :
  table_entries s es →
  table_entries (MkStates (delete k (records_ s)) (lastStateIndex_ s))
    (filter (λ x, x.1 ≠ k) es).
Proof.
  intros [Hs Hl Hb]. split.
  - by apply sorted_filter.
  - intros k' r'. simpl. rewrite list_elem_of_filter, Hl. simpl.
    rewrite lookup_delete_Some. naive_solver.
  - intros x [_ Hx]%list_elem_of_filter. by apply Hb.
Qed.

Lemma remove_entry_of k es :
  remove_entry k (entry_of <$> es) = entry_of <$> filter (λ x, x.1 ≠ k) es.
Proof.
  unfold remove_entry. induction es as [|[k' r'] es IH]; [done|].
  rewrite fmap_cons, !filter_cons. simpl. case_decide; [|done].
  rewrite fmap_cons. by rewrite IH.
Qed.

(** The search keeps the entry of the greatest index, whatever the order. *)
Lemma last_added_loop_max entries i out :
  let r := last_added_loop entries i out in
  (r = out ∧ ∀ x, x ∈ entries → record_index (x.2) <= i) ∨
  ∃ x, r = Some x ∧ x ∈ entries ∧ i < record_index (x.2) ∧
    ∀ y, y ∈ entries → record_index (y.2) <= record_index (x.2).
Proof.
  revert i out. induction entries as [|e entries IH]; intros i out; simpl.
  { left. split; [done|]. intros x Hx. by apply elem_of_nil in Hx. }
  destruct (Z.ltb_spec i (record_index (e.2))) as [Hlt|Hge].
  - right. destruct (IH (record_index (e.2)) (Some e)) as [[-> Hall]|(x & -> & Hx & Hgt & Hall)].
    + exists e. split; [done|]. split; [left|]. split; [done|].
      intros y [->|Hy]%elem_of_cons; [lia|by apply Hall].
    + exists x. split; [done|]. split; [by right|]. split; [lia|].
      intros y [->|Hy]%elem_of_cons; [lia|by apply Hall].
  - destruct (IH i out) as [[-> Hall]|(x & -> & Hx & Hgt & Hall)].
    + left. split; [done|]. intros y [->|Hy]%elem_of_cons; [lia|by apply Hall].
    + right. exists x. split; [done|]. split; [by right|]. split; [lia|].
      intros y [->|Hy]%elem_of_cons; [lia|by apply Hall].
Qed.

Lemma last_added_loop_last s es entries :
  table_entries s es → entries ≡ₚ es → last_added_loop entries 0 None = last es.
Proof.
  intros [Hs _ Hb] Hp.
  destruct (last_added_loop_max entries 0 None) as [[-> Hall]|(x & -> & Hx & _ & Hall)].
  - destruct es as [|x es]; [done|]. exfalso.
    assert (x ∈ x :: es) as Hx by left. pose proof (Hb x Hx).
    rewrite <- Hp in Hx. pose proof (Hall x Hx). lia.
  - rewrite Hp in Hx. destruct es as [|z es _] using rev_ind; [by apply elem_of_nil in Hx|].
    rewrite last_snoc. f_equal.
    apply elem_of_app in Hx as [Hx|Hx]; [|by apply list_elem_of_singleton in Hx]. exfalso.
    apply StronglySorted_app in Hs as (Hlt & _ & _).
    specialize (Hlt x z Hx ltac:(by left)). unfold index_lt in Hlt.
    assert (z ∈ entries) as Hz by (rewrite Hp; set_solver).
    pose proof (Hall z Hz). lia.
Qed.

(** ** Each call *)

Definition same_outcome {A} (n : Z) (x : res (A * CRWWKNavigationStates))
    (y : res (A * list nav_entry)) : Prop :=
  match x, y with
  | Ok (r, s'), Ok (r', a') => r = r' ∧ implements s' a' ∧ lastStateIndex_ s' <= n
  | Crash c, Crash c' => c = c'
  | _, _ => False
  end.

Lemma same_outcome_mono {A} n n' (x : res (A * CRWWKNavigationStates)) y :
  n <= n' → same_outcome n x y → same_outcome n' x y.
Proof.
  intros Hn. unfold same_outcome. destruct x as [[r s']|c], y as [[r' a']|c']; try done.
  intros (-> & Hi & Hb). split; [done|]. split; [done|lia].
Qed.

Definition room s : Prop := lastStateIndex_ s + 1 < 18446744073709551616.

Lemma to_size_t_room s : 0 <= lastStateIndex_ s → room s →
  to_size_t (lastStateIndex_ s + 1) = lastStateIndex_ s + 1.
Proof. intros H0 Hr. unfold to_size_t, room in *. apply Z.mod_small. lia. Qed.

Lemma implements_add s es k r e :
  0 <= lastStateIndex_ s → table_entries s es → records_ s !! k = None →
  record_index r = lastStateIndex_ s + 1 → entry_of (k, r) = e →
  implements (MkStates (<[k := r]> (records_ s)) (lastStateIndex_ s + 1))
    ((entry_of <$> es) ++ [e]).
Proof.
  intros H0 Hes Hk Hr <-. split; [simpl; lia|]. exists (es ++ [(k, r)]).
  split; [by apply table_entries_add|]. by rewrite fmap_app.
Qed.

Lemma implements_update s es k f g r :
  0 <= lastStateIndex_ s → table_entries s es → records_ s !! k = Some r →
  (∀ r, record_index (f r) = record_index r) →
  (∀ r, entry_of (k, f r) = g (entry_of (k, r))) →
  implements (MkStates (<[k := f r]> (records_ s)) (lastStateIndex_ s))
    (update_entry k g (entry_of <$> es)).
Proof.
  intros H0 Hes Hk Hf Hfg. split; [done|]. exists (update_pair k f <$> es).
  split; [by apply table_entries_update|]. by apply update_entry_of.
Qed.

Lemma implements_delete s es k :
  0 <= lastStateIndex_ s → table_entries s es →
  implements (MkStates (delete k (records_ s)) (lastStateIndex_ s))
    (remove_entry k (entry_of <$> es)).
Proof.
  intros H0 Hes. split; [done|]. exists (filter (λ x, x.1 ≠ k) es).
  split; [by apply table_entries_delete|]. apply remove_entry_of.
Qed.

Lemma key_id n : keyForNavigation n = n.
Proof. by destruct n. Qed.

Lemma setState_refines s es st n :
  0 <= lastStateIndex_ s → table_entries s es → room s →
  same_outcome (lastStateIndex_ s + 1) (run_call enumeration (CallSetState st n) s)
    (spec_call (CallSetState st n) (entry_of <$> es)).
Proof.
  intros H0 Hes Hr. simpl. rewrite (find_entry_table s es) by done.
  unfold setState, next_index, gets, setObject, modify, mbind, M_bind, DCHECK.
  rewrite key_id. destruct (records_ s !! n) as [r|] eqn:Hn; simpl.
  - destruct (state_change_ok (record_state r) st n); simpl; [|done].
    split; [done|]. split; [|lia].
    set (f r := if bool_decide (st = COMMITTED) then set_record_committed (set_record_state st r)
                else set_record_state st r).
    apply (implements_update s es n f (move_to st)); try done; intros r0; unfold f, move_to, entry_of;
      by case_bool_decide.
  - destruct (initial_state st); simpl; [|done].
    rewrite to_size_t_room by done. split; [done|]. split; [|simpl; lia].
    apply implements_add; try done; by case_bool_decide.
Qed.

Lemma setContext_refines s es ctx n :
  0 <= lastStateIndex_ s → table_entries s es → room s →
  same_outcome (lastStateIndex_ s + 1) (run_call enumeration (CallSetContext ctx n) s)
    (spec_call (CallSetContext ctx n) (entry_of <$> es)).
Proof.
  intros H0 Hes Hr. simpl. rewrite (find_entry_table s es) by done.
  unfold setContext, next_index, gets, setObject, modify, mbind, M_bind.
  rewrite key_id. destruct (records_ s !! n) as [r|] eqn:Hn; simpl.
  - split; [done|]. split; [|lia].
    by apply (implements_update s es n (set_record_context ctx) (attach ctx)).
  - rewrite to_size_t_room by done. split; [done|]. split; [|simpl; lia].
    by apply implements_add.
Qed.

Lemma removeNavigation_refines s es n :
  0 <= lastStateIndex_ s → table_entries s es →
  same_outcome (lastStateIndex_ s) (run_call enumeration (CallRemove n) s)
    (spec_call (CallRemove n) (entry_of <$> es)).
Proof.
  intros H0 Hes. simpl. rewrite (find_entry_table s es) by done.
  unfold removeNavigation, gets, modify, mbind, M_bind, fmap, M_fmap.
  rewrite key_id. destruct (records_ s !! n) as [r|] eqn:Hn; simpl; [|done].
  split; [done|]. split; [|lia]. by apply implements_delete.
Qed.

Hypothesis enumerates : ∀ m, enumeration m ≡ₚ map_to_list m.

Lemma enumeration_entries s es : table_entries s es → enumeration (records_ s) ≡ₚ es.
Proof using All. intros Hes. by rewrite enumerates, (table_entries_permutation s es). Qed.

Lemma lastAdded_run s es :
  table_entries s es →
  getLastAddedNavigation enumeration s =
    Ok (match last es with Some (k, r) => (k, Some r) | None => (None, None) end, s).
Proof using All.
  intros Hes. unfold getLastAddedNavigation, gets, mbind, M_bind. cbv beta iota.
  rewrite (last_added_loop_last s es _ Hes) by (by apply enumeration_entries).
  by destruct (last es) as [[k r]|].
Qed.

Lemma pending_set entries :
  foldr (λ (e : entry) result,
    if is_pending (record_state (e.2)) then {[ e.1 ]} ∪ result else result) (∅ : gset navkey) entries =
  list_to_set (entry_nav <$> filter (λ e, is_pending (entry_state e) = true) (entry_of <$> entries)).
Proof.
  induction entries as [|[k r] entries IH]; [done|].
  rewrite fmap_cons, filter_cons. simpl. rewrite IH.
  destruct (is_pending (record_state r)); by case_decide.
Qed.

Lemma query_refines s es c :
  0 <= lastStateIndex_ s → table_entries s es →
  (match c with CallSetState _ _ | CallSetContext _ _ | CallRemove _ | CallReleased _ => False
   | _ => True end) →
  same_outcome (lastStateIndex_ s) (run_call enumeration c s) (spec_call c (entry_of <$> es)).
Proof using All.
  intros H0 Hes Hc. assert (implements s (entry_of <$> es)) as Hi by (split; eauto).
  destruct c; try done; unfold run_call, fmap at 1, M_fmap, spec_call.
  - unfold stateForNavigation, gets, mbind, M_bind. rewrite key_id, (find_entry_table s es) by done.
    by destruct (records_ s !! navigation).
  - unfold contextForNavigation, gets, mbind, M_bind. rewrite key_id, (find_entry_table s es) by done.
    by destruct (records_ s !! navigation).
  - unfold isCommittedNavigation, gets, mbind, M_bind. rewrite key_id, (find_entry_table s es) by done.
    by destruct (records_ s !! navigation).
  - unfold lastAddedNavigation, fmap at 1, M_fmap. rewrite (lastAdded_run s es) by done.
    rewrite fmap_last. by destruct (last es) as [[k r]|].
  - unfold lastAddedNavigationState, mbind, M_bind. rewrite (lastAdded_run s es) by done.
    rewrite fmap_last. by destruct (last es) as [[k r]|].
  - unfold pendingNavigations, gets, mbind, M_bind. rewrite pending_set.
    split; [|split; [done|lia]]. f_equal. by rewrite enumeration_entries.
Qed.

Lemma run_call_refines s a c :
  implements s a → room s →
  same_outcome (lastStateIndex_ s + 1) (run_call enumeration c s) (spec_call c a).
Proof using All.
  intros (H0 & es & Hes & ->) Hr.
  destruct c;
    try (by apply setState_refines); try (by apply setContext_refines);
    eapply (same_outcome_mono (lastStateIndex_ s)); try lia;
    try (by apply query_refines); [by apply removeNavigation_refines|].
  split; [done|]. split; [by apply implements_delete|simpl; lia].
Qed.
End refinement.

(** ** Properties *)

Section spec.
Context (enumeration : gmap navkey CRWWKNavigationsStateRecord → list entry).
Hypothesis enumerates : ∀ m, enumeration m ≡ₚ map_to_list m.
Implicit Types (s : CRWWKNavigationStates) (a : list nav_entry).

Lemma run_calls_refines cs s a :
  implements s a → lastStateIndex_ s + zlen cs < 18446744073709551616 →
  same_outcome (lastStateIndex_ s + zlen cs) (run_calls enumeration cs s) (spec_calls cs a).
Proof using All.
  revert s a. induction cs as [|c cs IH]; intros s a Hi Hr; simpl.
  { split; [done|]. split; [done|]. unfold zlen. simpl. lia. }
  rewrite zlen_cons in Hr. pose proof (zlen_nonneg cs).
  pose proof (run_call_refines enumeration enumerates s a c Hi) as Hc.
  unfold mbind, M_bind, same_outcome in *.
  destruct (run_call enumeration c s) as [[r s']|x], (spec_call c a) as [[r' a']|x'];
    specialize (Hc ltac:(unfold room; lia)); try done.
  destruct Hc as (<- & Hi' & Hn). specialize (IH s' a' Hi' ltac:(lia)).
  destruct (run_calls enumeration cs s') as [[rs s'']|x], (spec_calls cs a') as [[rs' a'']|x']; try done.
  destruct IH as (<- & Hi'' & Hn'). split; [done|]. split; [done|].
  rewrite zlen_cons. lia.
Qed.

Lemma implements_init : implements CRWWKNavigationStates_init [].
Proof.
  split; [simpl; lia|]. exists []. split; [|done]. split; [constructor| |].
  - intros k r. simpl. rewrite lookup_empty. split; [by intros ?%elem_of_nil|done].
  - intros x Hx. by apply elem_of_nil in Hx.
Qed.

(** C28: the table of navigations behaves as a list in the order of addition.
    Any sequence of calls, fewer than the counter can number, gets from the
    table the answers of the list, whatever the order in which the table
    enumerates its keys: an update keeps the navigation's place, the last
    added navigation is the last of the list, pending navigations are those
    requested, started or redirected, and the DCHECK on a state fails in the
    table exactly when it fails on the list. *)
Theorem CRWWKNavigationStates_refines_list cs :
  zlen cs < 18446744073709551616 →
  match run_calls enumeration cs CRWWKNavigationStates_init, spec_calls cs [] with
  | Ok (answers, s'), Ok (answers', a') => answers = answers' ∧ implements s' a'
  | Crash c, Crash c' => c = c'
  | _, _ => False
  end.
Proof using All.
  intros Hn. pose proof (run_calls_refines cs _ _ implements_init Hn) as H.
  unfold same_outcome in H. repeat case_match; naive_solver.
Qed.

Lemma find_entry_app k a e :
  find_entry k (a ++ [e]) =
  match find_entry k a with
  | Some e' => Some e'
  | None => if bool_decide (entry_nav e = k) then Some e else None
  end.
Proof.
  induction a as [|e' a IH]; simpl; [done|].
  destruct (bool_decide (entry_nav e' = k)); [done|exact IH].
Qed.

Lemma find_entry_update k k' f a :
  (∀ e, entry_nav (f e) = entry_nav e) →
  find_entry k (update_entry k' f a) =
  if bool_decide (k' = k) then f <$> find_entry k a else find_entry k a.
Proof.
  intros Hf. induction a as [|e a IH]; simpl; [by case_bool_decide|].
  destruct (decide (entry_nav e = k')) as [Hk|Hk].
  - rewrite (bool_decide_eq_true_2 (entry_nav e = k')), Hf by done.
    repeat case_bool_decide; try done; congruence.
  - rewrite (bool_decide_eq_false_2 (entry_nav e = k')) by done.
    repeat case_bool_decide; try done; congruence.
Qed.

Lemma find_entry_remove k k' a :
  find_entry k (remove_entry k' a) = if bool_decide (k' = k) then None else find_entry k a.
Proof.
  unfold remove_entry. induction a as [|e a IH]; [by case_bool_decide|].
  rewrite filter_cons. destruct (decide (entry_nav e ≠ k')) as [Hk|Hk].
  - simpl. rewrite IH. repeat case_bool_decide; try done; congruence.
  - rewrite IH. simpl. repeat case_bool_decide; try done.
    destruct Hk. congruence.
Qed.

Definition committed_in (n : option wknav) a : bool :=
  from_option entry_committed false (find_entry n a).

Lemma committed_in_call n c a r a' :
  spec_call c a = Ok (r, a') → committed_in n a' = committed_after n (committed_in n a) c.
Proof.
  unfold committed_in. destruct c as [st m|ctx m|m|m|m|m|m| | |]; simpl;
    try (by intros [= _ <-]); try destruct (find_entry m a) as [e|] eqn:Hm; simpl.
  - destruct (state_change_ok _ _ _); [|done]. intros [= _ <-].
    rewrite find_entry_update by done.
    destruct (decide (m = n)) as [->|Hne].
    + rewrite Hm, !bool_decide_eq_true_2 by done. simpl. by destruct st.
    + rewrite !bool_decide_eq_false_2 by done. by destruct st.
  - destruct (initial_state st); [|done]. intros [= _ <-]. rewrite find_entry_app. simpl.
    destruct (decide (m = n)) as [->|Hne].
    + rewrite Hm, !bool_decide_eq_true_2 by done. simpl. by destruct st.
    + rewrite !(bool_decide_eq_false_2 (m = n)) by done.
      destruct (find_entry n a); by destruct st.
  - intros [= _ <-]. rewrite find_entry_update by done.
    case_bool_decide; [|done]. subst. by rewrite Hm.
  - intros [= _ <-]. rewrite find_entry_app. simpl.
    destruct (find_entry n a) eqn:Hn; [done|]. by case_bool_decide.
  - intros [= _ <-]. rewrite find_entry_remove. by case_bool_decide.
  - done.
  - intros [= _ <-]. rewrite find_entry_remove. by case_bool_decide.
Qed.

Lemma committed_in_calls n cs a rs a' :
  spec_calls cs a = Ok (rs, a') →
  committed_in n a' = foldl (committed_after n) (committed_in n a) cs.
Proof.
  revert a rs. induction cs as [|c cs IH]; simpl; intros a rs; [by intros [= _ <-]|].
  destruct (spec_call c a) as [[r a1]|] eqn:Hc; [|done].
  destruct (spec_calls cs a1) as [[rs' a2]|] eqn:Hcs; [|done]. intros [= _ <-].
  rewrite <- (committed_in_call n c a r a1) by done. by eapply IH.
Qed.

(** A navigation counts as committed exactly when it was committed since
    it was last removed from the table or released, also when it finished or
    failed in between, when it finished first, and for the null navigation. *)
Theorem isCommittedNavigation_ever cs answers s n :
  zlen cs < 18446744073709551616 →
  run_calls enumeration cs CRWWKNavigationStates_init = Ok (answers, s) →
  isCommittedNavigation n s = Ok (foldl (committed_after n) false cs, s).
Proof using All.
  intros Hn Hrun. pose proof (run_calls_refines cs _ _ implements_init Hn) as H.
  unfold same_outcome in H. rewrite Hrun in H.
  destruct (spec_calls cs []) as [[rs a]|] eqn:Hcs; [|done].
  destruct H as (_ & (_ & es & Hes & ->) & _).
  pose proof (committed_in_calls n cs [] rs _ Hcs) as Hc. change (committed_in n []) with false in Hc. rewrite <- Hc.
  unfold isCommittedNavigation, committed_in, gets, mbind, M_bind.
  rewrite key_id, (find_entry_table s es) by done. by destruct (records_ s !! n).
Qed.

(** The null navigation is stored like any other. *)
Lemma null_navigation_is_stored s ctx :
  ∃ s', setContext ctx None s = Ok (tt, s') ∧ contextForNavigation None s' = Ok (ctx, s').
Proof.
  unfold setContext, contextForNavigation, next_index, setObject, gets, modify, mbind, M_bind.
  simpl. destruct (records_ s !! None) as [r|]; simpl; eexists; (split; [done|]); simpl;
    by rewrite lookup_insert_eq.
Qed.
End spec.

(** ** Concrete uses *)

(** A navigation that finishes before it commits, and a null one. *)
Definition example_calls : list nav_call :=
  [CallSetState REQUESTED (Some 1%positive); CallSetContext (Some 7%positive) None;
   CallSetState FINISHED (Some 1%positive); CallSetState COMMITTED (Some 1%positive);
   CallLastAdded; CallRemove None; CallLastAdded; CallPending].

Lemma CRWWKNavigationStates_refines_list_witness :
  ∃ s', run_calls map_to_list example_calls CRWWKNavigationStates_init =
    Ok ([AnsUnit; AnsUnit; AnsUnit; AnsUnit; AnsNavigation None;
         AnsContext (Some 7%positive); AnsNavigation (Some 1%positive); AnsSet ∅], s').
Proof.
  pose proof (CRWWKNavigationStates_refines_list map_to_list (λ m, reflexivity _) example_calls
    eq_refl) as H.
  destruct (run_calls map_to_list example_calls CRWWKNavigationStates_init) as [[rs s']|]
    eqn:Hrun; [|exact (False_ind _ H)].
  exists s'. destruct H as [-> _]. reflexivity.
Defined.

Lemma isCommittedNavigation_ever_witness :
  ∃ answers s,
    run_calls map_to_list example_calls CRWWKNavigationStates_init = Ok (answers, s) ∧
    isCommittedNavigation (Some 1%positive) s = Ok (true, s).
Proof.
  eexists _, _. split; [reflexivity|].
  exact (isCommittedNavigation_ever map_to_list (λ m, reflexivity _) example_calls _ _
    (Some 1%positive) eq_refl eq_refl).
Defined.
