(* ===== verification/SessionWindow.v ===== *)
(** * Sessions of a window: user data, coding, SessionWindowIOS

    Models src/web/navigation/serializable_user_data_manager_impl.mm,
    src/chrome/browser/sessions/NSCoder+Compatibility.mm and
    session_window_ios.mm.  Of a CRWSessionStorage the model keeps the last
    committed index and the user data. *)

From S2P Require Import Prelude.

(** ** SerializableUserDataManagerImpl *)

(** Objects stored as user data. *)
Inductive NSCodingValue :=
  | NSNullValue
  | NSNumberValue (z : Z)
  | NSStringValue (s : string).

Notation UserDict := (gmap string NSCodingValue).

(** [base::mac::ObjCCast<NSNumber>] of a value or nil. *)
Definition ObjCCast_NSNumber (v : option NSCodingValue) : option Z :=
  match v with Some (NSNumberValue z) => Some z | _ => None end.

Record SerializableUserDataManagerImpl := MkManager { data_ : UserDict }.

Definition SerializableUserDataManagerImpl_new : SerializableUserDataManagerImpl :=
  MkManager ∅.

Definition AddSerializableData (data : NSCodingValue) (key : string)
    : M SerializableUserDataManagerImpl unit :=
  DCHECK (negb (Nat.eqb (String.length key) 0));;
  modify (λ m, MkManager (<[key := data]> (data_ m))).

Definition GetValueForSerializationKey (m : SerializableUserDataManagerImpl) (key : string)
    : option NSCodingValue :=
  data_ m !! key.

(** A SerializableUserDataImpl is its dictionary. *)
Definition CreateSerializableUserData (m : SerializableUserDataManagerImpl) : UserDict :=
  data_ m.

Definition AddSerializableUserData (data : option UserDict)
    : M SerializableUserDataManagerImpl unit :=
  match data with
  | Some d => modify (λ _, MkManager d)
  | None => mret tt
  end.

Record CRWSessionStorage := MkSessionStorage {
  lastCommittedItemIndex : Z;
  userData : option UserDict;
}.

(** ** NSCoder *)

(** What a keyed archive holds of a window: integers and arrays of sessions;
    [None] is an object of another class. *)
Record NSCoder := MkCoder {
  coded_ints : gmap string Z;
  coded_objects : gmap string (option (list CRWSessionStorage));
}.

Definition NSNotFound32 : Z := INT_MAX.

Definition cr_encodeIndex (index : Z) (key : string) : M NSCoder unit :=
  DCHECK (((0 <=? index) && (index <? NSNotFound32)) || (index =? NSNotFound));;
  let index32 := if index =? NSNotFound then NSNotFound32 else to_int32 index in
  modify (λ c, MkCoder (<[key := index32]> (coded_ints c)) (coded_objects c)).

(** [decodeInt32ForKey:] of a missing key is 0. *)
Definition cr_decodeIndex (c : NSCoder) (key : string) : res Z :=
  let index32 := default 0 (coded_ints c !! key) in
  if (0 <=? index32) && (index32 <=? NSNotFound32)
  then Ok (if index32 =? NSNotFound32 then NSNotFound else index32)
  else Crash DCheckFailed.

(** ** SessionWindowIOS *)

Definition kSessionsKey : string := "sessions".
Definition kSelectedIndexKey : string := "selectedIndex".

Definition IsIndexValidForSessionCount (index session_count : Z) : bool :=
  if session_count =? 0 then index =? NSNotFound else index <? session_count.

Record SessionWindowIOS := MkWindow {
  sessions : list CRWSessionStorage;
  selectedIndex : Z;
}.

Definition initWithSessions (ss : list CRWSessionStorage) (selected : Z)
    : res SessionWindowIOS :=
  if IsIndexValidForSessionCount selected (zlen ss)
  then Ok (MkWindow ss selected) else Crash DCheckFailed.

Definition SessionWindowIOS_init : res SessionWindowIOS := initWithSessions [] NSNotFound.

Definition SessionWindowIOS_encode (w : SessionWindowIOS) : M NSCoder unit :=
  cr_encodeIndex (selectedIndex w) kSelectedIndexKey;;
  modify (λ c, MkCoder (coded_ints c)
    (<[kSessionsKey := Some (sessions w)]> (coded_objects c))).

Definition SessionWindowIOS_initWithCoder (c : NSCoder) : res SessionWindowIOS :=
  selected ← cr_decodeIndex c kSelectedIndexKey;
  let ss := default [] (mjoin (coded_objects c !! kSessionsKey)) in
  let selected :=
    if negb (IsIndexValidForSessionCount selected (zlen ss)) then
      if zlen ss =? 0 then NSNotFound else 0
    else selected in
  initWithSessions ss selected.

(** ** Properties *)

Definition window_valid (w : SessionWindowIOS) : Prop :=
  IsIndexValidForSessionCount (selectedIndex w) (zlen (sessions w)) = true.

Lemma IsIndexValid_zero n : 0 <= n →
  IsIndexValidForSessionCount (if n =? 0 then NSNotFound else 0) n = true.
Proof.
  intros Hn. unfold IsIndexValidForSessionCount.
  destruct (Z.eqb_spec n 0); [done|]. apply Z.ltb_lt. lia.
Qed.

(** What initWithCoder: makes of a stored index. *)
Definition repaired_index (index32 n : Z) : Z :=
  if n =? 0 then NSNotFound else if index32 <? n then index32 else 0.

Lemma SessionWindowIOS_initWithCoder_run c :
  0 <= default 0 (coded_ints c !! kSelectedIndexKey) <= NSNotFound32 →
  let ss := default [] (mjoin (coded_objects c !! kSessionsKey)) in
  zlen ss <= NSNotFound32 →
  SessionWindowIOS_initWithCoder c =
    Ok (MkWindow ss (repaired_index (default 0 (coded_ints c !! kSelectedIndexKey)) (zlen ss))).
Proof.
  intros Hi ss Hss. unfold SessionWindowIOS_initWithCoder, cr_decodeIndex.
  set (i := default 0 _) in *. pose proof (zlen_nonneg ss) as Hn.
  rewrite (proj2 (Z.leb_le 0 i)), (proj2 (Z.leb_le i _)) by lia. simpl.
  fold ss. unfold initWithSessions, repaired_index, IsIndexValidForSessionCount, NSNotFound,
    NSNotFound32, INT_MAX in *.
  destruct (Z.eqb_spec (zlen ss) 0) as [H0|H0].
  - destruct (Z.eqb_spec i 2147483647); [done|]. simpl.
    rewrite (proj2 (Z.eqb_neq i 9223372036854775807)) by lia. done.
  - assert (0 <? zlen ss = true) as Hpos by (apply Z.ltb_lt; lia).
    destruct (Z.eqb_spec i 2147483647) as [->|_].
    + rewrite (proj2 (Z.ltb_ge 9223372036854775807 _)), (proj2 (Z.ltb_ge 2147483647 _)) by lia.
      simpl. by rewrite Hpos.
    + destruct (i <? zlen ss) eqn:Hlt; simpl; [by rewrite Hlt|by rewrite Hpos].
Qed.

(** The archive [encode] makes. *)
Definition window_coder (w : SessionWindowIOS) (c : NSCoder) : NSCoder :=
  MkCoder
    (<[kSelectedIndexKey :=
        if selectedIndex w =? NSNotFound then NSNotFound32 else selectedIndex w]> (coded_ints c))
    (<[kSessionsKey := Some (sessions w)]> (coded_objects c)).

Definition window_ok (w : SessionWindowIOS) : Prop :=
  0 <= selectedIndex w ∧ zlen (sessions w) <= INT_MAX ∧
  IsIndexValidForSessionCount (selectedIndex w) (zlen (sessions w)) = true.

Lemma window_ok_cases w :
  window_ok w →
  (selectedIndex w = NSNotFound ∧ zlen (sessions w) = 0) ∨
  (0 <= selectedIndex w < INT_MAX ∧ selectedIndex w < zlen (sessions w)).
Proof.
  intros (H0 & Hn & Hv). unfold IsIndexValidForSessionCount in Hv. revert Hv. case_if; intros Hv.
  - left. by apply Z.eqb_eq in Hv.
  - right. apply Z.ltb_lt in Hv. lia.
Qed.

Lemma SessionWindowIOS_encode_run w c :
  window_ok w → SessionWindowIOS_encode w c = Ok (tt, window_coder w c).
Proof.
  intros Hw. unfold SessionWindowIOS_encode, cr_encodeIndex, window_coder.
  destruct (window_ok_cases w Hw) as [[-> _]|[Hi _]]; [done|].
  unfold NSNotFound32. rewrite (proj2 (Z.leb_le 0 _)), (proj2 (Z.ltb_lt _ INT_MAX)) by lia.
  rewrite (proj2 (Z.eqb_neq _ NSNotFound)) by (unfold NSNotFound, INT_MAX in *; lia). simpl.
  unfold mbind, M_bind, modify. simpl. do 3 f_equal.
  by rewrite to_int32_id by (apply in_int_nonneg; lia).
Qed.

Lemma window_coder_decoded w c :
  window_ok w → SessionWindowIOS_initWithCoder (window_coder w c) = Ok w.
Proof.
  intros Hw. pose proof (window_ok_cases w Hw) as Hcase. destruct Hw as (H0 & Hn & _).
  rewrite SessionWindowIOS_initWithCoder_run; unfold window_coder; simpl;
    rewrite !lookup_insert_eq; simpl; [|destruct Hcase as [[-> _]|[Hi _]]; [done|]|done].
  - destruct w as [ss i]; simpl in *. do 2 f_equal. unfold repaired_index.
    destruct Hcase as [[-> Hz]|[Hi Hlt]].
    + by rewrite Hz.
    + rewrite (proj2 (Z.eqb_neq (zlen ss) 0)) by lia.
      rewrite (proj2 (Z.eqb_neq i NSNotFound)) by (unfold NSNotFound, INT_MAX in *; lia).
      by rewrite (proj2 (Z.ltb_lt i (zlen ss))) by done.
  - rewrite (proj2 (Z.eqb_neq _ NSNotFound)) by (unfold NSNotFound, INT_MAX in *; lia).
    unfold NSNotFound32. lia.
Qed.

(** An archive whose index is in range always decodes to a window that
    passes the check of initWithSessions:selectedIndex:, with the sessions of
    the archive (none when the key is missing or holds another class); an index
    that is not one of the sessions becomes 0, or NSNotFound without sessions;
    and decoding undoes encoding. *)
Theorem SessionWindowIOS_coding c w :
  0 <= default 0 (coded_ints c !! kSelectedIndexKey) <= INT_MAX →
  zlen (default [] (mjoin (coded_objects c !! kSessionsKey))) <= INT_MAX →
  (∃ w', SessionWindowIOS_initWithCoder c = Ok w' ∧ window_ok w' ∧
    sessions w' = default [] (mjoin (coded_objects c !! kSessionsKey)) ∧
    (IsIndexValidForSessionCount (default 0 (coded_ints c !! kSelectedIndexKey))
       (zlen (sessions w')) = false →
     selectedIndex w' = if zlen (sessions w') =? 0 then NSNotFound else 0)) ∧
  (window_ok w → ∃ c', SessionWindowIOS_encode w c = Ok (tt, c') ∧
    SessionWindowIOS_initWithCoder c' = Ok w).
Proof.
  intros Hi Hss. split.
  - rewrite SessionWindowIOS_initWithCoder_run by done. set (i := default 0 _) in *.
    set (ss := default [] _) in *. pose proof (zlen_nonneg ss). eexists. split; [done|]. simpl.
    unfold window_ok, repaired_index, IsIndexValidForSessionCount. simpl.
    destruct (Z.eqb_spec (zlen ss) 0); simpl; [done|].
    split; [|split; [done|by intros ->]].
    split; [case_if; lia|]. split; [done|].
    destruct (i <? zlen ss) eqn:Hlt; [done|]. apply Z.ltb_lt. lia.
  - intros Hw. exists (window_coder w c). split; [by apply SessionWindowIOS_encode_run|].
    by apply window_coder_decoded.
Qed.

(** ** Concrete uses *)

Definition example_window : SessionWindowIOS :=
  MkWindow [MkSessionStorage 0 None; MkSessionStorage 2 (Some ∅)] 1.

(** An archive whose index, 7, is not one of its two sessions. *)
Definition example_coder : NSCoder :=
  MkCoder {[kSelectedIndexKey := 7]} {[kSessionsKey := Some (sessions example_window)]}.

Lemma SessionWindowIOS_coding_witness :
  (∃ w, SessionWindowIOS_initWithCoder example_coder = Ok w ∧ selectedIndex w = 0) ∧
  ∃ c, SessionWindowIOS_encode example_window example_coder = Ok (tt, c) ∧
    SessionWindowIOS_initWithCoder c = Ok example_window.
Proof.
  destruct (SessionWindowIOS_coding example_coder example_window) as [(w & Hw & _ & Hs & Hi) Hrt].
  - split; apply Z.leb_le; reflexivity.
  - apply Z.leb_le. reflexivity.
  - split.
    + exists w. split; [exact Hw|]. rewrite Hs in Hi. apply Hi. reflexivity.
    + apply Hrt. split; [apply Z.leb_le; reflexivity|].
      split; [apply Z.leb_le; reflexivity|reflexivity].
Defined.
