(* ===== verification/WebStateListSerialization.v ===== *)
(** * Saving and restoring the tabs of a window

    Models src/chrome/browser/web_state_list/web_state_list_serialization.mm:
    the list of tabs is turned into a SessionWindowIOS, with the opener of each
    tab in its user data, and a window is added back to a list of tabs. *)

From S2P Require Import Prelude.
From S2P Require Import WebEnv.
From S2P Require Import WebStateList.
From S2P Require Import WebStateListLemmas.
From S2P Require Import WebStateListEffects.
From S2P Require Import WebStateListMutations.
From S2P Require Import WebStateListSpec.
From S2P Require Import SessionWindow.

Section data.
Context `{ENV : WebEnv}.

(** A list of tabs and the SerializableUserDataManager of each WebState. *)
Record BrowserTabs := MkTabs {
  tabs_list : WebStateList;
  user_data_managers : gmap wsptr SerializableUserDataManagerImpl;
}.
End data.
Arguments BrowserTabs {_}.
Notation TM := (M BrowserTabs).

Section operations.
Context `{ENV : WebEnv}.
Implicit Types (t u : BrowserTabs).

Definition with_list (l : WebStateList) t : BrowserTabs := MkTabs l (user_data_managers t).

(** An operation of the list. *)
Definition lift_list {A} (m : WM A) : TM A := λ t,
  match m (tabs_list t) with
  | Ok (a, l) => Ok (a, with_list l t)
  | Crash c => Crash c
  end.

Definition manager_of t (p : wsptr) : SerializableUserDataManagerImpl :=
  default SerializableUserDataManagerImpl_new (user_data_managers t !! p).

(** SerializableUserDataManager::FromWebState creates the manager when the
    WebState has none. *)
Definition FromWebState (p : wsptr) : TM SerializableUserDataManagerImpl :=
  modify (λ t, MkTabs (tabs_list t) (<[p := manager_of t p]> (user_data_managers t)));;
  gets (λ t, manager_of t p).

(** A call on the manager of a WebState. *)
Definition lift_manager {A} (p : wsptr) (m : M SerializableUserDataManagerImpl A) : TM A := λ t,
  match m (manager_of t p) with
  | Ok (a, d) => Ok (a, MkTabs (tabs_list t) (<[p := d]> (user_data_managers t)))
  | Crash c => Crash c
  end.

Definition kOpenerIndexKey : string := "OpenerIndex".
Definition kOpenerNavigationIndexKey : string := "OpenerNavigationIndex".

(** The parts of WebState::BuildSessionStorage the model keeps. *)
Definition BuildSessionStorage (p : wsptr) : TM CRWSessionStorage :=
  s ← gets (λ t, heap_ (tabs_list t) !! p);
  s ← not_null s;
  m ← FromWebState p;
  mret (MkSessionStorage (GetLastCommittedItemIndex s) (Some (CreateSerializableUserData m))).

(** The body of the loop of SerializeWebStateList. *)
Definition serialize_web_state_at (index : Z) : TM CRWSessionStorage :=
  p ← lift_list (GetWebStateAt index);
  o ← lift_list (GetOpenerOfWebStateAt index);
  FromWebState p;;
  match opener o with
  | Some q =>
      opener_index ← gets (λ t, GetIndexOfWebState (tabs_list t) (Some q));
      DCHECK (negb (opener_index =? kInvalidIndex));;
      lift_manager p (AddSerializableData (NSNumberValue opener_index) kOpenerIndexKey);;
      lift_manager p (AddSerializableData (NSNumberValue (navigation_index o))
                        kOpenerNavigationIndexKey)
  | None =>
      lift_manager p (AddSerializableData NSNullValue kOpenerIndexKey);;
      lift_manager p (AddSerializableData NSNullValue kOpenerNavigationIndexKey)
  end;;
  BuildSessionStorage p.

(** The count of the list does not change in the loop. *)
Definition SerializeWebStateList : TM SessionWindowIOS :=
  c ← gets (λ t, count (tabs_list t));
  serialized_session ← for_indices (Z.to_nat c) 0 serialize_web_state_at;
  active ← gets (λ t, active_index (tabs_list t));
  lift_res (initWithSessions serialized_session
    (if negb (active =? kInvalidIndex) then active else NSNotFound)).

Section deserialize.
(** The callback that creates a WebState from its session. *)
Context (web_state_factory : CRWSessionStorage → TM wsptr).

Fixpoint insert_sessions (ss : list CRWSessionStorage) : TM unit :=
  match ss with
  | [] => mret tt
  | session :: ss' =>
      p ← web_state_factory session;
      c ← gets (λ t, count (tabs_list t));
      lift_list (InsertWebState c p INSERT_FORCE_INDEX WebStateOpener_null);;
      insert_sessions ss'
  end.

(** The body of the loop that restores the openers; [intValue] truncates to
    [int]. *)
Definition restore_opener (old_count index : Z) : TM unit :=
  p ← lift_list (GetWebStateAt index);
  m ← FromWebState p;
  match ObjCCast_NSNumber (GetValueForSerializationKey m kOpenerIndexKey),
        ObjCCast_NSNumber (GetValueForSerializationKey m kOpenerNavigationIndexKey) with
  | Some boxed_opener_index, Some boxed_opener_navigation_index =>
      opener_index ← int_add (to_int32 boxed_opener_index) old_count;
      c ← gets (λ t, count (tabs_list t));
      if (opener_index <? old_count) || (c <=? opener_index) then mret tt
      else
        opener ← lift_list (GetWebStateAt opener_index);
        lift_list (SetOpenerOfWebStateAt index
          (MkOpener (Some opener) (to_int32 boxed_opener_navigation_index)))
  | _, _ => mret tt
  end.

Definition DeserializeWebStateList (session_window : SessionWindowIOS) : TM unit :=
  old_count ← gets (λ t, count (tabs_list t));
  insert_sessions (sessions session_window);;
  c ← gets (λ t, count (tabs_list t));
  for_indices (Z.to_nat (c - old_count)) old_count (restore_opener old_count);;
  if negb (selectedIndex session_window =? NSNotFound) then
    DCHECK (selectedIndex session_window <? zlen (sessions session_window));;
    DCHECK (selectedIndex session_window <? INT_MAX);;
    i ← int_add old_count (to_int32 (selectedIndex session_window));
    lift_list (ActivateWebStateAt i)
  else mret tt.
End deserialize.
End operations.

(** ** Running the parts *)

Section lemmas.
Context `{ENV : WebEnv}.
Implicit Types (t u : BrowserTabs) (l : WebStateList).

Lemma wp_lift_list {A} (m : WM A) (Q : A → BrowserTabs → Prop) t :
  wp (lift_list m) Q t ↔ wp m (λ a l, Q a (with_list l t)) (tabs_list t).
Proof. unfold wp, lift_list. by destruct (m (tabs_list t)) as [[a l]|]. Qed.

Lemma with_list_same t : with_list (tabs_list t) t = t.
Proof. by destruct t. Qed.

Definition set_manager (p : wsptr) (m : SerializableUserDataManagerImpl) t : BrowserTabs :=
  MkTabs (tabs_list t) (<[p := m]> (user_data_managers t)).

Lemma manager_of_set p m t : manager_of (set_manager p m t) p = m.
Proof. unfold manager_of, set_manager. simpl. by rewrite lookup_insert_eq. Qed.

Lemma wp_FromWebState p Q t :
  wp (FromWebState p) Q t ↔ Q (manager_of t p) (set_manager p (manager_of t p) t).
Proof.
  unfold FromWebState. wp_simp.
  change (MkTabs _ _) with (set_manager p (manager_of t p) t). by rewrite manager_of_set.
Qed.

Lemma wp_add_data p v k Q t :
  String.length k ≠ 0%nat →
  Q tt (set_manager p (MkManager (<[k := v]> (data_ (manager_of t p)))) t) →
  wp (lift_manager p (AddSerializableData v k)) Q t.
Proof.
  intros Hk%Nat.eqb_neq HQ. unfold wp, lift_manager, AddSerializableData. by rewrite Hk.
Qed.

(** The user data records the opener [o]. *)
Definition encodes_opener l (o : WebStateOpener) (d : UserDict) : Prop :=
  match opener o with
  | Some q => d !! kOpenerIndexKey = Some (NSNumberValue (GetIndexOfWebState l (Some q))) ∧
              d !! kOpenerNavigationIndexKey = Some (NSNumberValue (navigation_index o))
  | None => d !! kOpenerIndexKey = Some NSNullValue
  end.

Definition session_encodes l (w : WebStateWrapper) (s : CRWSessionStorage) : Prop :=
  ∃ d, userData s = Some d ∧ encodes_opener l (opener_ w) d ∧
    (λ ws, GetLastCommittedItemIndex ws) <$> heap_ l !! web_state w = Some (lastCommittedItemIndex s).

Lemma wp_serialize_at t i w (Q : CRWSessionStorage → BrowserTabs → Prop) :
  wsl_inv (tabs_list t) → vec_at (web_state_wrappers_ (tabs_list t)) i = Some w →
  (∀ s t', tabs_list t' = tabs_list t → session_encodes (tabs_list t) w s → Q s t') →
  wp (serialize_web_state_at i) Q t.
Proof.
  intros Hinv Hw HQ. set (l := tabs_list t) in *.
  assert (web_state w ∈ web_states l) as Hin by (by apply web_state_wrapper_in, elem_of_vec_at; eauto).
  destruct (inv_live _ Hinv _ Hin) as [ws Hws].
  unfold serialize_web_state_at. wp_simp. rewrite wp_lift_list, wp_GetWebStateAt.
  exists w. split; [done|]. wp_simp. rewrite wp_lift_list, wp_GetOpenerOfWebStateAt.
  exists w. split; [done|]. wp_simp. rewrite wp_FromWebState.
  set (t1 := set_manager _ _ _). assert (tabs_list t1 = l) as Hl1 by done.
  assert (∀ d t2, tabs_list t2 = l → data_ (manager_of t2 (web_state w)) = d →
    encodes_opener l (opener_ w) d → wp (BuildSessionStorage (web_state w)) Q t2) as Hbuild.
  { intros d t2 Hl2 Hd Henc. unfold BuildSessionStorage. wp_simp. exists ws. rewrite Hl2.
    split; [done|]. wp_simp. rewrite wp_FromWebState. wp_simp. apply HQ; [done|].
    exists d. simpl. unfold CreateSerializableUserData. rewrite Hd, Hws. done. }
  unfold encodes_opener in Hbuild. destruct (opener (opener_ w)) as [q|] eqn:Hop; wp_simp.
  - destruct (inv_openers _ Hinv w q) as [Hq _]; [apply elem_of_vec_at; eauto|done|].
    rewrite Hl1. pose proof (GetIndexOfWebState_in_range l q Hq) as Hr. split.
    { rewrite (proj2 (Z.eqb_neq _ _)) by (unfold kInvalidIndex; lia). done. }
    apply wp_add_data; [done|]. wp_simp. apply wp_add_data; [done|].
    eapply Hbuild; [done|by rewrite manager_of_set|]. simpl. rewrite manager_of_set. simpl.
    by rewrite lookup_insert_eq, lookup_insert_ne, lookup_insert_eq by done.
  - apply wp_add_data; [done|]. wp_simp. apply wp_add_data; [done|].
    eapply Hbuild; [done|by rewrite manager_of_set|]. simpl. rewrite manager_of_set. simpl.
    by rewrite lookup_insert_ne, lookup_insert_eq by done.
Qed.

(** What the window saved from a list holds. *)
Record window_saves l (win : SessionWindowIOS) : Prop := {
  saves_count : zlen (sessions win) = count l;
  saves_session : ∀ i w s, vec_at (web_state_wrappers_ l) i = Some w →
    vec_at (sessions win) i = Some s → session_encodes l w s;
  saves_selected : selectedIndex win =
    if active_index_ l =? kInvalidIndex then NSNotFound else active_index_ l;
}.

(** A list that has a tab has an active one. *)
Definition has_active l : Prop := 0 < count l → active_index_ l ≠ -1.

Lemma wp_SerializeWebStateList t (Q : SessionWindowIOS → BrowserTabs → Prop) :
  wsl_inv (tabs_list t) → has_active (tabs_list t) →
  (∀ win t', tabs_list t' = tabs_list t → window_saves (tabs_list t) win → window_ok win →
    Q win t') →
  wp SerializeWebStateList Q t.
Proof.
  intros Hinv Hact HQ. set (l := tabs_list t) in *. pose proof (inv_active _ Hinv) as Ha.
  pose proof (inv_count _ Hinv) as Hc. unfold SerializeWebStateList. wp_simp.
  assert (0 <= count l) as Hc0 by apply zlen_nonneg.
  apply (wp_for_indices (λ i acc t', tabs_list t' = l ∧ zlen acc = i ∧
    ∀ j w s, vec_at (web_state_wrappers_ l) j = Some w → vec_at acc j = Some s →
      session_encodes l w s)).
  - split; [done|]. split; [done|]. intros j w s _ Hs. apply vec_at_Some_range in Hs.
    unfold zlen in Hs. simpl in Hs. lia.
  - intros j acc t' Hj (Hl & Hz & Hall). destruct (wrapper_at l j) as [w Hw]; [fold l in Hj; lia|].
    rewrite <- Hl in Hinv, Hw. eapply wp_serialize_at; [done..|].
    intros s t'' Hl' Henc. rewrite Hl in Hl', Henc, Hw. split; [done|].
    split; [rewrite zlen_app; unfold zlen at 2; simpl; lia|].
    intros k w' s' Hw' Hs'. rewrite vec_at_app in Hs'.
    destruct (Z.ltb_spec k (zlen acc)); [by eapply Hall|].
    pose proof (vec_at_Some_range _ _ _ Hs') as Hr. change (zlen [s]) with 1 in Hr.
    assert (k = j) as -> by lia. rewrite Hz, Z.sub_diag in Hs'.
    change (vec_at [s] 0) with (Some s) in Hs'. congruence.
  - intros acc t' (Hl & Hz & Hall). wp_simp. rewrite Hl. unfold active_index.
    fold l in Hz. rewrite Z2Nat.id, Z.add_0_l in Hz by done.
    unfold initWithSessions, has_active in *.
    set (sel := if negb (active_index_ l =? kInvalidIndex) then active_index_ l else NSNotFound).
    assert (IsIndexValidForSessionCount sel (zlen acc) = true ∧ 0 <= sel) as [Hvalid Hsel].
    { unfold IsIndexValidForSessionCount, sel, kInvalidIndex, NSNotFound.
      destruct (Z.eqb_spec (zlen acc) 0), (Z.eqb_spec (active_index_ l) (-1)); simpl;
        try lia; rewrite ?Z.ltb_lt; lia. }
    rewrite Hvalid. apply HQ; [done| |].
    + split; simpl; [done|done|]. unfold sel. by destruct (active_index_ l =? kInvalidIndex).
    + split; [done|]. split; [simpl; lia|done].
Qed.
End lemmas.

(** ** Restoring *)

Section restore.
Context `{ENV : WebEnv}.
Context (web_state_factory : CRWSessionStorage → TM wsptr).
Implicit Types (t u : BrowserTabs) (l : WebStateList).

Definition add_web_state (p : wsptr) (ws : WebState) l : WebStateList :=
  MkWebStateList (web_state_wrappers_ l) (active_index_ l) (locked_ l)
    (<[p := ws]> (heap_ l)) (log_ l).

(** A factory creates a new WebState that is outside every list, with the last
    committed index and the user data of the session. *)
Definition restores_sessions : Prop := ∀ s t,
  ∃ p ws, web_state_factory s t =
      Ok (p, MkTabs (add_web_state p ws (tabs_list t))
               (<[p := MkManager (default ∅ (userData s))]> (user_data_managers t))) ∧
    heap_ (tabs_list t) !! p = None ∧
    GetLastCommittedItemIndex ws = lastCommittedItemIndex s.

Hypothesis factory_ok : restores_sessions.

Definition unopened (p : wsptr) : WebStateWrapper := MkWrapper p WebStateOpener_null.

(** The WebState [p] of [t] was made from the session [s]. *)
Definition made_from t (s : CRWSessionStorage) (p : wsptr) : Prop :=
  manager_of t p = MkManager (default ∅ (userData s)) ∧
  GetLastCommittedItemIndex <$> heap_ (tabs_list t) !! p = Some (lastCommittedItemIndex s).

Lemma add_web_state_inv p ws l :
  wsl_inv l → heap_ l !! p = None → wsl_inv (add_web_state p ws l) ∧ p ∉ web_states l.
Proof.
  intros Hinv Hp. assert (p ∉ web_states l) as Hn.
  { intros Hin. destruct (inv_live _ Hinv p Hin) as [? ?]. congruence. }
  split; [|done]. destruct Hinv as [Hnd Hl Ho Ha Hc]. split; try done.
  intros q Hq. simpl. destruct (decide (q = p)) as [->|Hne].
  - rewrite lookup_insert_eq. eauto.
  - rewrite lookup_insert_ne by done. by apply Hl.
Qed.

Definition appended l (p : wsptr) : WebStateList :=
  inserted l (count l) p INSERT_FORCE_INDEX WebStateOpener_null.

Lemma appended_wrappers l p :
  web_state_wrappers_ (appended l p) = web_state_wrappers_ l ++ [unopened p].
Proof.
  unfold appended, inserted. cbn [web_state_wrappers_].
  unfold count. by rewrite vec_insert_end.
Qed.

Lemma wp_append l p (Q : Z → WebStateList → Prop) :
  wsl_inv l → locked_ l = false → count l + 1 < INT_MAX → p ∉ web_states l →
  is_Some (heap_ l !! p) → (∀ r, wsl_inv (appended l p) → Q r (appended l p)) →
  wp (InsertWebState (count l) p INSERT_FORCE_INDEX WebStateOpener_null) Q l.
Proof.
  intros Hinv Hlock Hroom Hf Hlive HQ.
  assert (0 <= count l) as H0 by apply zlen_nonneg.
  assert (insert_pre l (count l) p INSERT_FORCE_INDEX WebStateOpener_null) as Hpre.
  { split; [done..|]. intros _. lia. }
  apply wp_InsertWebState; [done..|]. apply HQ.
  exact (insert_result_inv l (count l) p INSERT_FORCE_INDEX WebStateOpener_null Hpre).
Qed.

Lemma appended_active l p : wsl_inv l → active_index_ (appended l p) = active_index_ l.
Proof.
  intros Hinv. pose proof (inv_active _ Hinv). simpl.
  by rewrite (proj2 (Z.leb_gt _ _)) by lia.
Qed.

(** What the first loop of DeserializeWebStateList leaves. *)
Record sessions_inserted u u' (ss : list CRWSessionStorage) (ps : list wsptr) : Prop := {
  si_inv : wsl_inv (tabs_list u');
  si_locked : locked_ (tabs_list u') = false;
  si_wrappers : web_state_wrappers_ (tabs_list u') =
    web_state_wrappers_ (tabs_list u) ++ (unopened <$> ps);
  si_active : active_index_ (tabs_list u') = active_index_ (tabs_list u);
  si_made : Forall2 (made_from u') ss ps;
  si_frame : ∀ p, is_Some (heap_ (tabs_list u) !! p) →
    manager_of u' p = manager_of u p ∧
    heap_ (tabs_list u') !! p = heap_ (tabs_list u) !! p;
}.

Lemma wp_insert_sessions ss u (Q : unit → BrowserTabs → Prop) :
  wsl_inv (tabs_list u) → locked_ (tabs_list u) = false →
  count (tabs_list u) + zlen ss < INT_MAX →
  (∀ u' ps, sessions_inserted u u' ss ps → Q tt u') →
  wp (insert_sessions web_state_factory ss) Q u.
Proof using All.
  revert u Q. induction ss as [|s ss IH]; intros u Q Hinv Hlock Hroom HQ; simpl; wp_simp.
  { apply (HQ u []). split; try done. by rewrite app_nil_r. }
  rewrite zlen_cons in Hroom. pose proof (zlen_nonneg ss).
  destruct (factory_ok s u) as (p & ws & Hrun & Hfresh & Hlast).
  unfold wp at 1. rewrite Hrun. set (u1 := MkTabs _ _).
  destruct (add_web_state_inv p ws (tabs_list u) Hinv Hfresh) as [Hinv1 Hnin].
  wp_simp. rewrite wp_lift_list. apply wp_append; try done.
  { change (count (tabs_list u1)) with (count (tabs_list u)). lia. }
  { simpl. rewrite lookup_insert_eq. eauto. }
  intros _ Hinv2. set (u2 := with_list _ u1).
  assert (count (tabs_list u2) = count (tabs_list u) + 1) as Hc2.
  { unfold count. unfold u2. simpl tabs_list. rewrite appended_wrappers, zlen_app. done. }
  apply IH; [done|done|rewrite Hc2; lia|].
  intros u' ps [Hinv' Hlock' Hwr Hact Hmade Hframe]. apply (HQ u' (p :: ps)).
  assert (∀ q, heap_ (tabs_list u2) !! q = <[p := ws]> (heap_ (tabs_list u)) !! q) as Hheap by done.
  destruct (Hframe p) as [Hm Hh]; [rewrite Hheap, lookup_insert_eq; eauto|].
  split; try done.
  - rewrite Hwr. unfold u2. simpl tabs_list. rewrite appended_wrappers. simpl.
    by rewrite <- app_assoc.
  - rewrite Hact. unfold u2. simpl tabs_list. by rewrite appended_active.
  - constructor; [|done]. split.
    + rewrite Hm. unfold manager_of, u2. simpl. by rewrite lookup_insert_eq.
    + by rewrite Hh, Hheap, lookup_insert_eq, <- Hlast.
  - intros q Hq. assert (q ≠ p) as Hne by (intros ->; rewrite Hfresh in Hq; by destruct Hq).
    destruct (Hframe q) as [Hmq Hhq]; [by rewrite Hheap, lookup_insert_ne|].
    rewrite Hmq, Hhq, Hheap, lookup_insert_ne by done. split; [|done].
    unfold manager_of, u2. simpl. by rewrite lookup_insert_ne.
Qed.
End restore.

(** ** Restoring the openers *)

Section openers.
Context `{ENV : WebEnv}.
Implicit Types (t u : BrowserTabs) (l : WebStateList).

(** The opener of the saved list [l], among the new WebStates [ps]. *)
Definition restored_opener l (ps : list wsptr) (o : WebStateOpener) : WebStateOpener :=
  match opener o with
  | Some q => MkOpener (vec_at ps (GetIndexOfWebState l (Some q))) (navigation_index o)
  | None => WebStateOpener_null
  end.

Definition restored_wrapper l (ps : list wsptr) (w : WebStateWrapper) (p : wsptr)
    : WebStateWrapper :=
  MkWrapper p (restored_opener l ps (opener_ w)).

(** The navigation indices of the openers are [int]s. *)
Definition openers_int l : Prop :=
  ∀ w, w ∈ web_state_wrappers_ l → in_int (navigation_index (opener_ w)) = true.

Lemma vec_at_zip_with {A B C} (f : A → B → C) (xs : list A) (ys : list B) i x y :
  vec_at xs i = Some x → vec_at ys i = Some y → vec_at (zip_with f xs ys) i = Some (f x y).
Proof.
  intros Hx Hy. pose proof (vec_at_Some_range _ _ _ Hx).
  pose proof (vec_at_Some_range _ _ _ Hy).
  rewrite vec_at_nonneg in Hx by lia. rewrite vec_at_nonneg in Hy by lia.
  rewrite vec_at_nonneg by lia. by rewrite lookup_zip_with, Hx, Hy.
Qed.

Context (l : WebStateList) (ps : list wsptr).
Hypothesis source_inv : wsl_inv l.
Hypothesis source_ints : openers_int l.
Hypothesis ps_length : zlen ps = count l.

(** The list after the openers of the new WebStates before [k] are restored;
    [W] are the tabs it had. *)
Record restoring (W : list WebStateWrapper) (k : Z) (u1 u' : BrowserTabs) : Prop := {
  rs_inv : wsl_inv (tabs_list u');
  rs_locked : locked_ (tabs_list u') = false;
  rs_web_states : web_states (tabs_list u') = (web_state <$> W) ++ ps;
  rs_wrapper : ∀ i, vec_at (web_state_wrappers_ (tabs_list u')) i =
    if i <? k then vec_at (W ++ zip_with (restored_wrapper l ps) (web_state_wrappers_ l) ps) i
    else vec_at (W ++ (unopened <$> ps)) i;
  rs_active : active_index_ (tabs_list u') = active_index_ (tabs_list u1);
  rs_heap : heap_ (tabs_list u') = heap_ (tabs_list u1);
  rs_manager : ∀ p, manager_of u' p = manager_of u1 p;
}.

Lemma restoring_count W k u1 u' :
  restoring W k u1 u' → count (tabs_list u') = zlen W + count l.
Proof using All.
  intros Hr. rewrite <- count_web_states, (rs_web_states _ _ _ _ Hr), zlen_app, zlen_fmap. lia.
Qed.

Lemma restoring_new_at W k u1 u' j q :
  restoring W k u1 u' → vec_at ps j = Some q →
  ∃ w, vec_at (web_state_wrappers_ (tabs_list u')) (zlen W + j) = Some w ∧ web_state w = q.
Proof using All.
  intros Hr Hq. pose proof (vec_at_Some_range _ _ _ Hq). pose proof (zlen_nonneg W).
  destruct (wrapper_at (tabs_list u') (zlen W + j)) as [w Hw].
  { rewrite (restoring_count W k u1) by done. lia. }
  exists w. split; [done|].
  assert (vec_at (web_states (tabs_list u')) (zlen W + j) = Some (web_state w)) as Hp
    by (by rewrite web_states_at, Hw).
  rewrite (rs_web_states _ _ _ _ Hr), vec_at_app, zlen_fmap in Hp.
  rewrite (proj2 (Z.ltb_ge _ _)) in Hp by lia.
  replace (zlen W + j - zlen W) with j in Hp by lia. congruence.
Qed.

(** The new WebState at the loop's index has no opener yet. *)
Lemma restoring_current W i u1 u' p :
  restoring W (zlen W + i) u1 u' → vec_at ps i = Some p →
  vec_at (web_state_wrappers_ (tabs_list u')) (zlen W + i) = Some (unopened p).
Proof.
  intros Hr Hp. pose proof (vec_at_Some_range _ _ _ Hp). pose proof (zlen_nonneg W).
  rewrite (rs_wrapper _ _ _ _ Hr), Z.ltb_irrefl, vec_at_app, (proj2 (Z.ltb_ge _ _)) by lia.
  replace (zlen W + i - zlen W) with i by lia. by rewrite vec_at_fmap, Hp.
Qed.

(** Advancing the loop: by a store of the restored wrapper, or by nothing when
    the tab had no opener. *)
Lemma restoring_next W i u1 u' w p l' :
  restoring W (zlen W + i) u1 u' →
  vec_at (web_state_wrappers_ l) i = Some w → vec_at ps i = Some p →
  web_state_wrappers_ l' =
    vec_set (web_state_wrappers_ (tabs_list u')) (zlen W + i) (restored_wrapper l ps w p) →
  wsl_inv l' → locked_ l' = false → active_index_ l' = active_index_ (tabs_list u') →
  heap_ l' = heap_ (tabs_list u') →
  ∀ u'', tabs_list u'' = l' → (∀ q, manager_of u'' q = manager_of u' q) →
  restoring W (zlen W + i + 1) u1 u''.
Proof using All.
  intros Hr Hw Hp Hset Hinv Hlock Hact Hheap u'' <- Hman.
  pose proof (vec_at_Some_range _ _ _ Hp). pose proof (zlen_nonneg W).
  pose proof (restoring_current _ _ _ _ _ Hr Hp) as Hcur. split; try done.
  - unfold web_states. rewrite Hset, fmap_vec_set, vec_set_self; [apply Hr|].
    by rewrite vec_at_fmap, Hcur.
  - intros j. rewrite Hset, vec_at_vec_set. case_bool_decide as Hj.
    + destruct Hj as [<- Hj]. rewrite (proj2 (Z.ltb_lt _ _)) by lia.
      rewrite vec_at_app, (proj2 (Z.ltb_ge _ _)) by lia.
      replace (zlen W + i - zlen W) with i by lia. symmetry. by apply vec_at_zip_with.
    + rewrite (rs_wrapper _ _ _ _ Hr).
      assert (j ≠ zlen W + i) as Hne.
      { intros ->. destruct Hj. split; [done|]. by eapply vec_at_Some_range. }
      destruct (Z.ltb_spec j (zlen W + i)), (Z.ltb_spec j (zlen W + i + 1)); done || lia.
  - by rewrite Hact, (rs_active _ _ _ _ Hr).
  - by rewrite Hheap, (rs_heap _ _ _ _ Hr).
  - intros q. by rewrite Hman, (rs_manager _ _ _ _ Hr).
Qed.

Lemma manager_of_set_same t p q : manager_of (set_manager p (manager_of t p) t) q = manager_of t q.
Proof.
  destruct (decide (q = p)) as [->|Hne]; [apply manager_of_set|].
  unfold manager_of, set_manager. simpl. by rewrite lookup_insert_ne.
Qed.

(** Distinct WebStates of the saved list are distinct when restored. *)
Lemma restored_distinct W i u1 u' w p q wa :
  restoring W (zlen W + i) u1 u' → vec_at (web_state_wrappers_ l) i = Some w →
  vec_at ps i = Some p → q ∈ web_states l → q ≠ web_state w →
  vec_at (web_state_wrappers_ (tabs_list u')) (zlen W + GetIndexOfWebState l (Some q)) = Some wa →
  web_state wa ≠ p.
Proof using All.
  intros Hr Hw Hp Hq Hqw Hwa Heq. set (a := GetIndexOfWebState l (Some q)) in *.
  pose proof (restoring_current _ _ _ _ _ Hr Hp) as Hcur.
  assert (vec_at (web_states (tabs_list u')) (zlen W + a) = Some p) as H1
    by (by rewrite web_states_at, Hwa, <- Heq).
  assert (vec_at (web_states (tabs_list u')) (zlen W + i) = Some p) as H2
    by (by rewrite web_states_at, Hcur).
  pose proof (vec_at_NoDup_inj _ _ _ _ (inv_nodup _ (rs_inv _ _ _ _ Hr)) H1 H2).
  assert (a = i) as Hai by lia.
  pose proof (GetIndexOfWebState_in l q Hq) as Hqa. fold a in Hqa.
  rewrite web_states_at, Hai, Hw in Hqa. simpl in Hqa. congruence.
Qed.

Lemma wp_restore_opener W i u1 u' w p s (Q : unit → BrowserTabs → Prop) :
  zlen W + count l < INT_MAX → restoring W (zlen W + i) u1 u' →
  vec_at (web_state_wrappers_ l) i = Some w → vec_at ps i = Some p →
  session_encodes l w s → manager_of u1 p = MkManager (default ∅ (userData s)) →
  (∀ u'', restoring W (zlen W + i + 1) u1 u'' → Q tt u'') →
  wp (restore_opener (zlen W) (zlen W + i)) Q u'.
Proof using All.
  intros Hroom Hr Hw Hp (d & Hd & Henc & _) Hman HQ.
  pose proof (restoring_current _ _ _ _ _ Hr Hp) as Hcur. pose proof (zlen_nonneg W) as HW.
  pose proof (wrapper_at_range _ _ _ Hw) as Hi.
  unfold restore_opener. wp_simp. rewrite wp_lift_list, wp_GetWebStateAt.
  exists (unopened p). split; [done|]. wp_simp. rewrite wp_FromWebState, with_list_same.
  simpl web_state. set (u2 := set_manager _ _ _).
  assert (∀ q, manager_of u2 q = manager_of u' q) as Hu2 by (intros; apply manager_of_set_same).
  rewrite (rs_manager _ _ _ _ Hr), Hman, Hd. unfold GetValueForSerializationKey. simpl.
  assert (opener (opener_ w) = None → restored_wrapper l ps w p = unopened p) as Hnone.
  { intros Hop. unfold restored_wrapper, restored_opener. by rewrite Hop. }
  unfold encodes_opener in Henc. destruct (opener (opener_ w)) as [q|] eqn:Hop.
  2:{ rewrite Henc. simpl. wp_simp. apply HQ.
      eapply (restoring_next W i u1 u' w p (tabs_list u')); try done; [|apply Hr|apply Hr].
      rewrite Hnone by done. by rewrite vec_set_self. }
  destruct Henc as [-> ->]. simpl.
  destruct (inv_openers _ source_inv w q) as [Hq Hqw]; [apply elem_of_vec_at; eauto|done|].
  set (a := GetIndexOfWebState l (Some q)) in *.
  pose proof (GetIndexOfWebState_in_range l q Hq) as Ha. fold a in Ha.
  assert (in_int (navigation_index (opener_ w)) = true) as Hnav
    by (apply source_ints, elem_of_vec_at; eauto).
  rewrite (to_int32_id _ Hnav), (to_int32_id a)
    by (apply in_int_nonneg; lia).
  assert (in_int (a + zlen W) = true) as Hsum
    by (apply in_int_nonneg; lia).
  wp_simp. unfold int_add. rewrite Hsum.
  wp_simp. change (tabs_list u2) with (tabs_list u').
  rewrite (restoring_count W (zlen W + i) u1) by done.
  rewrite (proj2 (Z.ltb_ge _ _)), (proj2 (Z.leb_gt _ _)) by lia. simpl.
  destruct (vec_at_in_range ps a) as [pa Hpa]; [lia|].
  destruct (restoring_new_at W (zlen W + i) u1 u' a pa Hr Hpa) as (wa & Hwa & <-).
  wp_simp. rewrite wp_lift_list, wp_GetWebStateAt. exists wa.
  replace (a + zlen W) with (zlen W + a) by lia. split; [done|].
  rewrite wp_lift_list. change (tabs_list (with_list _ u2)) with (tabs_list u').
  pose proof (web_state_wrapper_in (tabs_list u') wa ltac:(apply elem_of_vec_at; eauto)) as Hina.
  apply (wp_SetOpenerOfWebStateAt (tabs_list u') _ (unopened p) _ (web_state wa)); try done.
  set (o := MkOpener _ _). apply HQ.
  apply (restoring_next W i u1 u' w p (opener_set (tabs_list u') (zlen W + i) (unopened p) o)
    Hr Hw Hp); try done; [| |apply Hr].
  - simpl. unfold restored_wrapper, restored_opener. rewrite Hop. fold a. by rewrite Hpa.
  - apply (opener_set_inv _ _ _ _ (web_state wa)); try done; [apply Hr|]. simpl.
    by apply (restored_distinct W i u1 u' w p q wa).
Qed.
End openers.

(** ** Saving and restoring *)

Section roundtrip.
Context `{ENV : WebEnv}.
Context (web_state_factory : CRWSessionStorage → TM wsptr).
Hypothesis factory_ok : restores_sessions web_state_factory.
Implicit Types (t u : BrowserTabs) (l : WebStateList).

(** The list after restoring a window saved from [l] at the end of [u]. *)
Record restored l u u' (win : SessionWindowIOS) (ps : list wsptr) : Prop := {
  re_length : zlen ps = count l;
  re_wrappers : web_state_wrappers_ (tabs_list u') =
    web_state_wrappers_ (tabs_list u) ++
    zip_with (restored_wrapper l ps) (web_state_wrappers_ l) ps;
  re_active : active_index_ (tabs_list u') =
    if count l =? 0 then active_index_ (tabs_list u)
    else count (tabs_list u) + active_index_ l;
  re_made : Forall2 (made_from u') (sessions win) ps;
  re_inv : wsl_inv (tabs_list u') ∧ locked_ (tabs_list u') = false;
}.

Lemma restoring_init l ps u u1 win :
  sessions_inserted u u1 (sessions win) ps →
  restoring l ps (web_state_wrappers_ (tabs_list u)) (count (tabs_list u)) u1 u1.
Proof.
  intros [Hinv Hlock Hwr Hact _ _]. split; try done.
  - unfold web_states. rewrite Hwr, fmap_app. f_equal.
    rewrite <- list_fmap_compose. unfold compose. simpl. apply list_fmap_id.
  - intros i. rewrite Hwr. destruct (Z.ltb_spec i (count (tabs_list u))); [|done].
    unfold count in *. by rewrite !vec_at_app, !(proj2 (Z.ltb_lt i _)).
Qed.

Lemma restoring_final l ps W u1 u' :
  zlen ps = count l → restoring l ps W (zlen W + count l) u1 u' →
  web_state_wrappers_ (tabs_list u') =
    W ++ zip_with (restored_wrapper l ps) (web_state_wrappers_ l) ps.
Proof.
  intros Hps Hr. apply vec_ext. intros i. rewrite (rs_wrapper _ _ _ _ _ _ Hr).
  destruct (Z.ltb_spec i (zlen W + count l)); [done|].
  pose proof (zlen_nonneg W). unfold count in *.
  rewrite !(proj2 (vec_at_None _ _)); [done|right..].
  - rewrite zlen_app. unfold zlen in *. rewrite length_zip_with. lia.
  - rewrite zlen_app, zlen_fmap. lia.
Qed.

Lemma Forall2_at {A B} (P : A → B → Prop) (xs : list A) (ys : list B) i y :
  Forall2 P xs ys → vec_at ys i = Some y → ∃ x, vec_at xs i = Some x ∧ P x y.
Proof.
  intros H Hy. pose proof (vec_at_Some_range _ _ _ Hy).
  rewrite vec_at_nonneg in Hy by lia. rewrite vec_at_nonneg by lia.
  by eapply Forall2_lookup_r.
Qed.

Lemma wp_restore_openers l win ps u u1 (Q : list unit → BrowserTabs → Prop) :
  wsl_inv l → openers_int l → window_saves l win →
  sessions_inserted u u1 (sessions win) ps →
  count (tabs_list u) + count l < INT_MAX →
  (∀ acc u', restoring l ps (web_state_wrappers_ (tabs_list u))
     (count (tabs_list u) + count l) u1 u' → Q acc u') →
  wp (for_indices (Z.to_nat (count l)) (count (tabs_list u))
        (restore_opener (count (tabs_list u)))) Q u1.
Proof.
  intros Hinv Hints Hsaves Hins Hroom HQ.
  pose proof (si_made _ _ _ _ Hins) as Hmade.
  assert (zlen ps = count l) as Hps.
  { rewrite <- (saves_count _ _ Hsaves). unfold zlen. by rewrite (Forall2_length _ _ _ Hmade). }
  assert (0 <= count l) as H0 by apply zlen_nonneg.
  apply (wp_for_indices (λ k _ u', restoring l ps (web_state_wrappers_ (tabs_list u)) k u1 u')).
  - by eapply restoring_init.
  - intros k acc u' Hk Hr. set (i := k - count (tabs_list u)).
    assert (k = zlen (web_state_wrappers_ (tabs_list u)) + i) as Hki by (unfold i, count; lia).
    destruct (wrapper_at l i) as [w Hw]; [unfold i; lia|].
    destruct (vec_at_in_range ps i) as [p Hp]; [unfold i; lia|].
    destruct (Forall2_at _ _ _ _ _ Hmade Hp) as (s & Hs & Hman & _).
    unfold count at 1. rewrite Hki in Hr |- *.
    eapply (wp_restore_opener l ps Hinv Hints Hps _ i u1 u' w p s); try done.
    by eapply (saves_session _ _ Hsaves).
  - intros acc u' Hr. apply (HQ acc). by rewrite Z2Nat.id in Hr.
Qed.

Lemma made_from_same t t' s p :
  manager_of t' p = manager_of t p → heap_ (tabs_list t') = heap_ (tabs_list t) →
  made_from t s p → made_from t' s p.
Proof. unfold made_from. by intros -> ->. Qed.

Lemma restoring_restored l win ps u u1 u' i :
  sessions_inserted u u1 (sessions win) ps → zlen ps = count l →
  restoring l ps (web_state_wrappers_ (tabs_list u)) (count (tabs_list u) + count l) u1 u' →
  (if count l =? 0 then i = active_index_ (tabs_list u') else i = count (tabs_list u) + active_index_ l) →
  ∀ u'', tabs_list u'' = (if count l =? 0 then tabs_list u' else activate i (tabs_list u')) →
  (count l ≠ 0 → 0 <= i < count (tabs_list u')) →
  (∀ p, manager_of u'' p = manager_of u' p) → restored l u u'' win ps.
Proof.
  intros Hins Hps Hr Hi u'' Hu'' Hrange Hman.
  pose proof (restoring_final _ _ _ _ _ Hps Hr) as Hwr.
  assert (same_tabs (MkWebStateList (web_state_wrappers_ (tabs_list u'))
    (if count l =? 0 then active_index_ (tabs_list u') else i) (locked_ (tabs_list u'))
    (heap_ (tabs_list u')) (log_ (tabs_list u'))) (tabs_list u'')) as (Hw & Ha & Hh).
  { rewrite Hu''. destruct (count l =? 0); [done|]. apply log_activation_same. }
  split.
  - done.
  - by rewrite Hw.
  - rewrite Ha. simpl. destruct (count l =? 0); [|done].
    by rewrite (rs_active _ _ _ _ _ _ Hr), (si_active _ _ _ _ Hins).
  - eapply Forall2_impl; [exact (si_made _ _ _ _ Hins)|]. intros s p.
    apply made_from_same; [by rewrite Hman, (rs_manager _ _ _ _ _ _ Hr)|].
    by rewrite Hh; simpl; rewrite (rs_heap _ _ _ _ _ _ Hr).
  - rewrite Hu''. destruct (Z.eqb_spec (count l) 0); [split; apply Hr|].
    split; [apply activate_inv; [apply Hr|by apply Hrange]|].
    unfold activate. rewrite log_activation_locked. apply Hr.
Qed.

Lemma wp_DeserializeWebStateList l win u (Q : unit → BrowserTabs → Prop) :
  wsl_inv l → openers_int l → has_active l → window_saves l win → window_ok win →
  wsl_inv (tabs_list u) → locked_ (tabs_list u) = false →
  count (tabs_list u) + count l < INT_MAX →
  (∀ u' ps, restored l u u' win ps → Q tt u') →
  wp (DeserializeWebStateList web_state_factory win) Q u.
Proof using All.
  intros Hinv Hints Hact Hsaves Hok Hinvu Hlock Hroom HQ.
  pose proof (saves_count _ _ Hsaves) as Hlen. pose proof (saves_selected _ _ Hsaves) as Hsel.
  pose proof (inv_active _ Hinv) as Ha. assert (0 <= count (tabs_list u)) as Hu0 by apply zlen_nonneg.
  unfold DeserializeWebStateList. wp_simp.
  apply wp_insert_sessions; [done..|lia|]. intros u1 ps Hins. wp_simp.
  assert (zlen ps = count l) as Hps.
  { rewrite <- Hlen. unfold zlen. by rewrite (Forall2_length _ _ _ (si_made _ _ _ _ Hins)). }
  assert (count (tabs_list u1) = count (tabs_list u) + count l) as Hc1.
  { unfold count at 1. rewrite (si_wrappers _ _ _ _ Hins), zlen_app, zlen_fmap. unfold count at 1. lia. }
  rewrite Hc1. replace (count (tabs_list u) + count l - count (tabs_list u)) with (count l) by lia.
  eapply (wp_restore_openers l win ps u u1); try done. intros _ u' Hr.
  pose proof (restoring_count l ps Hinv Hints Hps _ _ _ _ Hr) as Hc'. fold (count (tabs_list u)) in Hc'.
  unfold has_active, kInvalidIndex in *. rewrite Hsel.
  destruct (Z.eqb_spec (count l) 0) as [H0|H0].
  - rewrite (proj2 (Z.eqb_eq (active_index_ l) (-1))), Z.eqb_refl by lia. simpl. wp_simp.
    apply (HQ u' ps). apply (restoring_restored l win ps u u1 u' (active_index_ (tabs_list u')));
      try done; by rewrite (proj2 (Z.eqb_eq (count l) 0)) by done.
  - rewrite (proj2 (Z.eqb_neq (active_index_ l) (-1))) by lia.
    rewrite (proj2 (Z.eqb_neq (active_index_ l) NSNotFound)) by (unfold NSNotFound, INT_MAX in *; lia).
    simpl. wp_simp. split; [apply Z.ltb_lt; lia|]. split; [apply Z.ltb_lt; lia|].
    rewrite to_int32_id by (apply in_int_nonneg; lia).
    assert (in_int (count (tabs_list u) + active_index_ l) = true) as Hsum
      by (apply in_int_nonneg; lia).
    unfold int_add. rewrite Hsum. wp_simp. rewrite wp_lift_list. set (i := count (tabs_list u) + active_index_ l).
    pose proof (inv_active _ (rs_inv _ _ _ _ _ _ Hr)) as Ha'.
    apply wp_ActivateWebStateAt; [done|rewrite Hc'; unfold i; lia|].
    apply (HQ _ ps). apply (restoring_restored l win ps u u1 u' i); try done;
      rewrite ?(proj2 (Z.eqb_neq (count l) 0)) by done; try done. intros _. rewrite Hc'. unfold i. lia.
Qed.
End roundtrip.

(** ** Properties *)

Section spec.
Context `{ENV : WebEnv}.
Context (web_state_factory : CRWSessionStorage → TM wsptr).


(** A list with tabs and no active one cannot be saved: the check of the window
    fails. *)
Lemma SerializeWebStateList_no_active t win t' :
  0 < count (tabs_list t) → active_index_ (tabs_list t) = -1 →
  wsl_inv (tabs_list t) → count (tabs_list t) < NSNotFound →
  SerializeWebStateList t ≠ Ok (win, t').
Proof.
  intros Hc Ha Hinv Hmax Hrun. set (l := tabs_list t) in *.
  assert (wp SerializeWebStateList (λ _ _, False) t → False) as Habs
    by (unfold wp; by rewrite Hrun).
  assert (wp (for_indices (Z.to_nat (count l)) 0 serialize_web_state_at)
    (λ acc t', zlen acc = count l ∧ tabs_list t' = l) t) as Hloop.
  { apply (wp_for_indices (λ i acc t', tabs_list t' = l ∧ zlen acc = i)); [done| |].
    - intros j acc s Hj [Hl Hz]. destruct (wrapper_at l j) as [w Hw]; [lia|].
      rewrite <- Hl in Hinv, Hw. eapply wp_serialize_at; [done..|].
      intros x s' Hl' _. rewrite Hl', Hl, zlen_app. change (zlen [x]) with 1. by split; [|lia].
    - intros acc s [Hl Hz]. split; [lia|done]. }
  unfold wp in Hloop. unfold SerializeWebStateList, mbind, M_bind, gets in Hrun. fold l in Hrun.
  destruct (for_indices (Z.to_nat (count l)) 0 serialize_web_state_at t) as [[acc s]|]; [|done].
  destruct Hloop as [Hz Hl]. rewrite Hl in Hrun. unfold active_index in Hrun. rewrite Ha in Hrun.
  unfold kInvalidIndex, lift_res, initWithSessions, IsIndexValidForSessionCount in Hrun.
  rewrite Hz in Hrun. simpl in Hrun.
  rewrite (proj2 (Z.eqb_neq (count l) 0)), (proj2 (Z.ltb_ge NSNotFound _)) in Hrun by lia.
  done.
Qed.
(** An archived opener index near [INT_MAX] overflows before it is found to be
    out of range. *)
Lemma restore_opener_overflow u old_count index w nav :
  vec_at (web_state_wrappers_ (tabs_list u)) index = Some w → 0 < old_count →
  data_ (manager_of u (web_state w)) !! kOpenerIndexKey = Some (NSNumberValue INT_MAX) →
  data_ (manager_of u (web_state w)) !! kOpenerNavigationIndexKey = Some (NSNumberValue nav) →
  restore_opener old_count index u = Crash IntOverflow.
Proof.
  intros Hw Hold Hk Hn. pose proof (wrapper_at_range _ _ _ Hw) as Hi.
  unfold restore_opener, mbind, M_bind, lift_list, GetWebStateAt, mbind, M_bind, gets, DCHECK, at_.
  rewrite (proj2 (ContainsIndex_spec _ _)) by done. simpl. rewrite Hw. simpl.
  unfold FromWebState, mbind, M_bind, modify, gets. rewrite with_list_same.
  change (MkTabs _ _) with (set_manager (web_state w) (manager_of u (web_state w)) u).
  rewrite manager_of_set. unfold GetValueForSerializationKey. rewrite Hk, Hn. simpl.
  unfold int_add. change (to_int32 INT_MAX) with INT_MAX.
  assert (in_int (INT_MAX + old_count) = false) as ->; [|done].
  apply andb_false_iff. right. apply Z.leb_gt. lia.
Qed.
End spec.

(** ** Concrete uses *)

#[local] Existing Instance Toy.env.
#[local] Existing Instance Toy.laws.

(** Creates the WebState at the first free address. *)
Definition example_factory : CRWSessionStorage → TM wsptr := λ s t,
  let p := fresh (dom (heap_ (tabs_list t))) in
  Ok (p, MkTabs
    (add_web_state p (MkWebState (Toy.web "a" "b") (lastCommittedItemIndex s)) (tabs_list t))
    (<[p := MkManager (default ∅ (userData s))]> (user_data_managers t))).

Lemma example_factory_restores : restores_sessions example_factory.
Proof.
  intros s t. eexists _, _. split; [reflexivity|]. split; [|reflexivity].
  apply not_elem_of_dom, is_fresh.
Qed.

