(* ===== verification/KeyedArchive.v ===== *)
(** * Keyed archives

    NSKeyedArchiver and NSKeyedUnarchiver, as the storages of a session use
    them: an archive maps keys to the scalars, bytes and objects encoded under
    them, objects that conform to NSCoding being archives of their own.  A
    scalar of a missing key decodes as zero, an object as nil; decoding what
    was encoded as something else raises an exception, and so does a message
    to an object of another class.  Also
    src/web/navigation/nscoder_util.mm. *)

From S2P Require Import Prelude.
From S2P Require Import PageDisplayState.
From S2P Require Import SessionWindow.

(** What is encoded: an NSString is its UTF-8 text, or its UTF-16 text when it
    comes from a string16; a set is listed in the order of its enumeration. *)
Inductive Object :=
  | OBool (b : bool)
  | OInt (z : Z)
  | OInt64 (z : Z)
  | OBytes (s : string)
  | OString (s : string)
  | OString16 (s : list Z)
  | OData (s : string)
  | ONumber (z : Z)
  | OURL (s : string)
  | OHeaders (d : gmap string string)
  | OState (d : Serialization)
  | OUserData (d : UserDict)
  | OArray (l : list Object)
  | OSet (l : list Object)
  | OArchive (keys : gmap string (option Object)).

Notation Archive := (gmap string (option Object)).

Definition raise {A} : res A := Crash ObjCException.

(** ** Encoding *)
Definition encode_object (o : option Object) (key : string) (c : Archive) : Archive := <[key := o]> c.
Definition encodeBool (b : bool) := encode_object (Some (OBool b)).
(** [encodeInt:] takes an [int], which an NSInteger is truncated to. *)
Definition encodeInt (z : Z) := encode_object (Some (OInt (to_int32 z))).
Definition encodeInt64 (z : Z) := encode_object (Some (OInt64 z)).
Definition EncodeString (key s : string) := encode_object (Some (OBytes s)) key.

(** ** Decoding *)
Definition containsValueForKey (key : string) (c : Archive) : bool := bool_decide (is_Some (c !! key)).

Definition decodeBool (key : string) (c : Archive) : res bool :=
  match c !! key with None => Ok false | Some (Some (OBool b)) => Ok b | _ => raise end.
Definition decodeInt (key : string) (c : Archive) : res Z :=
  match c !! key with None => Ok 0 | Some (Some (OInt z)) => Ok z | _ => raise end.
Definition decodeInt64 (key : string) (c : Archive) : res Z :=
  match c !! key with None => Ok 0 | Some (Some (OInt64 z)) => Ok z | _ => raise end.
Definition DecodeString (key : string) (c : Archive) : res string :=
  match c !! key with None => Ok "" | Some (Some (OBytes s)) => Ok s | _ => raise end.
Definition decode_object (key : string) (c : Archive) : option Object := mjoin (c !! key).

(** The classes the decoded objects are used as; nil stays nil. *)
Definition as_nil {A} (f : Object → res A) (o : option Object) : res (option A) :=
  match o with None => Ok None | Some o => x ← f o; mret (Some x) end.
Definition as_string := as_nil (λ o, match o with OString s => Ok s | _ => raise end).
Definition as_string16 := as_nil (λ o, match o with OString16 s => Ok s | _ => raise end).
Definition as_data := as_nil (λ o, match o with OData s => Ok s | _ => raise end).
Definition as_number := as_nil (λ o, match o with ONumber z => Ok z | _ => raise end).
Definition as_url := as_nil (λ o, match o with OURL s => Ok s | _ => raise end).
Definition as_headers := as_nil (λ o, match o with OHeaders d => Ok d | _ => raise end).
Definition as_state := as_nil (λ o, match o with OState d => Ok d | _ => raise end).
Definition as_user_data := as_nil (λ o, match o with OUserData d => Ok d | _ => raise end).
Definition as_array := as_nil (λ o, match o with OArray l => Ok l | _ => raise end).
Definition as_set := as_nil (λ o, match o with OSet l => Ok l | _ => raise end).
Definition as_archive := as_nil (λ o, match o with OArchive c => Ok c | _ => raise end).

(** The elements of a decoded collection; one that decodes to nil cannot be
    inserted. *)
Fixpoint decode_all {A} (f : Object → res (option A)) (l : list Object) : res (list A) :=
  match l with
  | [] => Ok []
  | o :: l =>
      x ← f o;
      match x with
      | Some x => xs ← decode_all f l; mret (x :: xs)
      | None => raise
      end
  end.

Lemma decode_all_map {A} (f : Object → res (option A)) (g : A → Object) l :
  Forall (λ x, f (g x) = Ok (Some x)) l → decode_all f (g <$> l) = Ok l.
Proof.
  induction 1 as [|x l Hx _ IH]; [done|]. cbn. rewrite Hx. cbn.
  change (list_fmap _ _ g l) with (g <$> l). by rewrite IH.
Qed.

(** A key that was encoded is found, whatever was encoded after it under other
    keys. *)
Ltac coded := repeat (rewrite lookup_insert_ne by done); rewrite ?lookup_insert_eq.
