(* ===== verification/NavigationItem.v ===== *)
(** * NavigationItemImpl and TimeSmoother

    Models src/web/navigation/navigation_item_impl.mm and time_smoother.cc: one
    entry of a session history, and the timestamps given to entries. *)

From Stdlib Require Import Sorted.
From S2P Require Import Prelude.
From S2P Require Import WebEnv.
From S2P Require Import WkNavigationUtil.
From S2P Require Import ErrorRetry.
From S2P Require Import PageDisplayState.

Inductive UserAgentType : Set := UserAgentType_NONE | UserAgentType_MOBILE | UserAgentType_DESKTOP.
#[export] Instance UserAgentType_eq_dec : EqDecision UserAgentType.
Proof. solve_decision. Defined.

Inductive NavigationInitiationType : Set :=
  | Initiation_NONE
  | BROWSER_INITIATED
  | RENDERER_INITIATED.
#[export] Instance NavigationInitiationType_eq_dec : EqDecision NavigationInitiationType.
Proof. solve_decision. Defined.

Inductive ReferrerPolicy : Set :=
  | ReferrerPolicyAlways
  | ReferrerPolicyDefault
  | ReferrerPolicyNoReferrerWhenDowngrade
  | ReferrerPolicyNever
  | ReferrerPolicyOrigin
  | ReferrerPolicyOriginWhenCrossOrigin
  | ReferrerPolicySameOrigin
  | ReferrerPolicyStrictOrigin
  | ReferrerPolicyStrictOriginWhenCrossOrigin.

Inductive SecurityStyle : Set :=
  | SECURITY_STYLE_UNKNOWN
  | SECURITY_STYLE_UNAUTHENTICATED
  | SECURITY_STYLE_AUTHENTICATION_BROKEN
  | SECURITY_STYLE_AUTHENTICATED.

(** The headers of a request. *)
Notation NSDictionary := (gmap string string).

(** ** TimeSmoother

    Times are microseconds in an [int64_t]; [base::Time] saturates. *)
Record TimeSmoother := MkSmoother { low_water_mark_ : Z; high_water_mark_ : Z }.

Definition INT64_MAX : Z := 9223372036854775807.

Definition TimeSmoother_new : TimeSmoother := MkSmoother 0 0.

Definition GetSmoothedTime (s : TimeSmoother) (t : Z) : Z * TimeSmoother :=
  if (low_water_mark_ s <=? t) && (t <=? high_water_mark_ s) then
    let high := Z.min INT64_MAX (high_water_mark_ s + 1) in
    (high, MkSmoother (low_water_mark_ s) high)
  else (t, MkSmoother t t).

(** ** NavigationItemImpl *)
Section item.
Context `{ENV : WebEnv}.

Record Referrer := MkReferrer { referrer_url : GURL; referrer_policy : ReferrerPolicy }.
Definition Referrer_default : Referrer := MkReferrer EmptyGURL ReferrerPolicyDefault.

(** The icon bitmap is a handle. *)
Record FaviconStatus := MkFavicon {
  favicon_valid : bool; favicon_url : GURL; favicon_image : option positive;
}.
Definition FaviconStatus_default : FaviconStatus := MkFavicon false EmptyGURL None.

(** The certificate and the embedder's data are handles. *)
Record SSLStatus := MkSSL {
  security_style : SecurityStyle; certificate : option positive; cert_status : Z;
  content_status : Z; cert_status_host : string; ssl_user_data : option positive;
}.
Definition SSLStatus_default : SSLStatus := MkSSL SECURITY_STYLE_UNKNOWN None 0 0 "" None.

Record NavigationItem := MkItem {
  unique_id_ : Z;
  original_request_url_ : GURL;
  url_ : GURL;
  referrer_ : Referrer;
  virtual_url_ : GURL;
  title_ : string16;
  page_display_state_ : PageDisplayState;
  transition_type_ : Z;
  favicon_ : FaviconStatus;
  ssl_ : SSLStatus;
  timestamp_ : Z;
  user_agent_type_ : UserAgentType;
  http_request_headers_ : option NSDictionary;
  serialized_state_object_ : option string;
  is_created_from_push_state_ : bool;
  has_state_been_replaced_ : bool;
  is_created_from_hash_change_ : bool;
  should_skip_repost_form_confirmation_ : bool;
  post_data_ : option string;
  error_retry_state_machine_ : ErrorRetryStateMachine;
  navigation_initiation_type_ : NavigationInitiationType;
  is_unsafe_ : bool;
  cached_display_title_ : string16;
}.

Definition with_original_request_url_ (x : GURL) (i : NavigationItem) : NavigationItem :=
  MkItem (unique_id_ i) x (url_ i) (referrer_ i) (virtual_url_ i) (title_ i) (page_display_state_ i) (transition_type_ i) (favicon_ i) (ssl_ i) (timestamp_ i) (user_agent_type_ i) (http_request_headers_ i) (serialized_state_object_ i) (is_created_from_push_state_ i) (has_state_been_replaced_ i) (is_created_from_hash_change_ i) (should_skip_repost_form_confirmation_ i) (post_data_ i) (error_retry_state_machine_ i) (navigation_initiation_type_ i) (is_unsafe_ i) (cached_display_title_ i).
Definition with_url_ (x : GURL) (i : NavigationItem) : NavigationItem :=
  MkItem (unique_id_ i) (original_request_url_ i) x (referrer_ i) (virtual_url_ i) (title_ i) (page_display_state_ i) (transition_type_ i) (favicon_ i) (ssl_ i) (timestamp_ i) (user_agent_type_ i) (http_request_headers_ i) (serialized_state_object_ i) (is_created_from_push_state_ i) (has_state_been_replaced_ i) (is_created_from_hash_change_ i) (should_skip_repost_form_confirmation_ i) (post_data_ i) (error_retry_state_machine_ i) (navigation_initiation_type_ i) (is_unsafe_ i) (cached_display_title_ i).
Definition with_referrer_ (x : Referrer) (i : NavigationItem) : NavigationItem :=
  MkItem (unique_id_ i) (original_request_url_ i) (url_ i) x (virtual_url_ i) (title_ i) (page_display_state_ i) (transition_type_ i) (favicon_ i) (ssl_ i) (timestamp_ i) (user_agent_type_ i) (http_request_headers_ i) (serialized_state_object_ i) (is_created_from_push_state_ i) (has_state_been_replaced_ i) (is_created_from_hash_change_ i) (should_skip_repost_form_confirmation_ i) (post_data_ i) (error_retry_state_machine_ i) (navigation_initiation_type_ i) (is_unsafe_ i) (cached_display_title_ i).
Definition with_virtual_url_ (x : GURL) (i : NavigationItem) : NavigationItem :=
  MkItem (unique_id_ i) (original_request_url_ i) (url_ i) (referrer_ i) x (title_ i) (page_display_state_ i) (transition_type_ i) (favicon_ i) (ssl_ i) (timestamp_ i) (user_agent_type_ i) (http_request_headers_ i) (serialized_state_object_ i) (is_created_from_push_state_ i) (has_state_been_replaced_ i) (is_created_from_hash_change_ i) (should_skip_repost_form_confirmation_ i) (post_data_ i) (error_retry_state_machine_ i) (navigation_initiation_type_ i) (is_unsafe_ i) (cached_display_title_ i).
Definition with_title_ (x : string16) (i : NavigationItem) : NavigationItem :=
  MkItem (unique_id_ i) (original_request_url_ i) (url_ i) (referrer_ i) (virtual_url_ i) x (page_display_state_ i) (transition_type_ i) (favicon_ i) (ssl_ i) (timestamp_ i) (user_agent_type_ i) (http_request_headers_ i) (serialized_state_object_ i) (is_created_from_push_state_ i) (has_state_been_replaced_ i) (is_created_from_hash_change_ i) (should_skip_repost_form_confirmation_ i) (post_data_ i) (error_retry_state_machine_ i) (navigation_initiation_type_ i) (is_unsafe_ i) (cached_display_title_ i).
Definition with_page_display_state_ (x : PageDisplayState) (i : NavigationItem) : NavigationItem :=
  MkItem (unique_id_ i) (original_request_url_ i) (url_ i) (referrer_ i) (virtual_url_ i) (title_ i) x (transition_type_ i) (favicon_ i) (ssl_ i) (timestamp_ i) (user_agent_type_ i) (http_request_headers_ i) (serialized_state_object_ i) (is_created_from_push_state_ i) (has_state_been_replaced_ i) (is_created_from_hash_change_ i) (should_skip_repost_form_confirmation_ i) (post_data_ i) (error_retry_state_machine_ i) (navigation_initiation_type_ i) (is_unsafe_ i) (cached_display_title_ i).
Definition with_transition_type_ (x : Z) (i : NavigationItem) : NavigationItem :=
  MkItem (unique_id_ i) (original_request_url_ i) (url_ i) (referrer_ i) (virtual_url_ i) (title_ i) (page_display_state_ i) x (favicon_ i) (ssl_ i) (timestamp_ i) (user_agent_type_ i) (http_request_headers_ i) (serialized_state_object_ i) (is_created_from_push_state_ i) (has_state_been_replaced_ i) (is_created_from_hash_change_ i) (should_skip_repost_form_confirmation_ i) (post_data_ i) (error_retry_state_machine_ i) (navigation_initiation_type_ i) (is_unsafe_ i) (cached_display_title_ i).
Definition with_favicon_ (x : FaviconStatus) (i : NavigationItem) : NavigationItem :=
  MkItem (unique_id_ i) (original_request_url_ i) (url_ i) (referrer_ i) (virtual_url_ i) (title_ i) (page_display_state_ i) (transition_type_ i) x (ssl_ i) (timestamp_ i) (user_agent_type_ i) (http_request_headers_ i) (serialized_state_object_ i) (is_created_from_push_state_ i) (has_state_been_replaced_ i) (is_created_from_hash_change_ i) (should_skip_repost_form_confirmation_ i) (post_data_ i) (error_retry_state_machine_ i) (navigation_initiation_type_ i) (is_unsafe_ i) (cached_display_title_ i).
Definition with_ssl_ (x : SSLStatus) (i : NavigationItem) : NavigationItem :=
  MkItem (unique_id_ i) (original_request_url_ i) (url_ i) (referrer_ i) (virtual_url_ i) (title_ i) (page_display_state_ i) (transition_type_ i) (favicon_ i) x (timestamp_ i) (user_agent_type_ i) (http_request_headers_ i) (serialized_state_object_ i) (is_created_from_push_state_ i) (has_state_been_replaced_ i) (is_created_from_hash_change_ i) (should_skip_repost_form_confirmation_ i) (post_data_ i) (error_retry_state_machine_ i) (navigation_initiation_type_ i) (is_unsafe_ i) (cached_display_title_ i).
Definition with_timestamp_ (x : Z) (i : NavigationItem) : NavigationItem :=
  MkItem (unique_id_ i) (original_request_url_ i) (url_ i) (referrer_ i) (virtual_url_ i) (title_ i) (page_display_state_ i) (transition_type_ i) (favicon_ i) (ssl_ i) x (user_agent_type_ i) (http_request_headers_ i) (serialized_state_object_ i) (is_created_from_push_state_ i) (has_state_been_replaced_ i) (is_created_from_hash_change_ i) (should_skip_repost_form_confirmation_ i) (post_data_ i) (error_retry_state_machine_ i) (navigation_initiation_type_ i) (is_unsafe_ i) (cached_display_title_ i).
Definition with_user_agent_type_ (x : UserAgentType) (i : NavigationItem) : NavigationItem :=
  MkItem (unique_id_ i) (original_request_url_ i) (url_ i) (referrer_ i) (virtual_url_ i) (title_ i) (page_display_state_ i) (transition_type_ i) (favicon_ i) (ssl_ i) (timestamp_ i) x (http_request_headers_ i) (serialized_state_object_ i) (is_created_from_push_state_ i) (has_state_been_replaced_ i) (is_created_from_hash_change_ i) (should_skip_repost_form_confirmation_ i) (post_data_ i) (error_retry_state_machine_ i) (navigation_initiation_type_ i) (is_unsafe_ i) (cached_display_title_ i).
Definition with_http_request_headers_ (x : option NSDictionary) (i : NavigationItem) : NavigationItem :=
  MkItem (unique_id_ i) (original_request_url_ i) (url_ i) (referrer_ i) (virtual_url_ i) (title_ i) (page_display_state_ i) (transition_type_ i) (favicon_ i) (ssl_ i) (timestamp_ i) (user_agent_type_ i) x (serialized_state_object_ i) (is_created_from_push_state_ i) (has_state_been_replaced_ i) (is_created_from_hash_change_ i) (should_skip_repost_form_confirmation_ i) (post_data_ i) (error_retry_state_machine_ i) (navigation_initiation_type_ i) (is_unsafe_ i) (cached_display_title_ i).
Definition with_serialized_state_object_ (x : option string) (i : NavigationItem) : NavigationItem :=
  MkItem (unique_id_ i) (original_request_url_ i) (url_ i) (referrer_ i) (virtual_url_ i) (title_ i) (page_display_state_ i) (transition_type_ i) (favicon_ i) (ssl_ i) (timestamp_ i) (user_agent_type_ i) (http_request_headers_ i) x (is_created_from_push_state_ i) (has_state_been_replaced_ i) (is_created_from_hash_change_ i) (should_skip_repost_form_confirmation_ i) (post_data_ i) (error_retry_state_machine_ i) (navigation_initiation_type_ i) (is_unsafe_ i) (cached_display_title_ i).
Definition with_is_created_from_push_state_ (x : bool) (i : NavigationItem) : NavigationItem :=
  MkItem (unique_id_ i) (original_request_url_ i) (url_ i) (referrer_ i) (virtual_url_ i) (title_ i) (page_display_state_ i) (transition_type_ i) (favicon_ i) (ssl_ i) (timestamp_ i) (user_agent_type_ i) (http_request_headers_ i) (serialized_state_object_ i) x (has_state_been_replaced_ i) (is_created_from_hash_change_ i) (should_skip_repost_form_confirmation_ i) (post_data_ i) (error_retry_state_machine_ i) (navigation_initiation_type_ i) (is_unsafe_ i) (cached_display_title_ i).
Definition with_has_state_been_replaced_ (x : bool) (i : NavigationItem) : NavigationItem :=
  MkItem (unique_id_ i) (original_request_url_ i) (url_ i) (referrer_ i) (virtual_url_ i) (title_ i) (page_display_state_ i) (transition_type_ i) (favicon_ i) (ssl_ i) (timestamp_ i) (user_agent_type_ i) (http_request_headers_ i) (serialized_state_object_ i) (is_created_from_push_state_ i) x (is_created_from_hash_change_ i) (should_skip_repost_form_confirmation_ i) (post_data_ i) (error_retry_state_machine_ i) (navigation_initiation_type_ i) (is_unsafe_ i) (cached_display_title_ i).
Definition with_is_created_from_hash_change_ (x : bool) (i : NavigationItem) : NavigationItem :=
  MkItem (unique_id_ i) (original_request_url_ i) (url_ i) (referrer_ i) (virtual_url_ i) (title_ i) (page_display_state_ i) (transition_type_ i) (favicon_ i) (ssl_ i) (timestamp_ i) (user_agent_type_ i) (http_request_headers_ i) (serialized_state_object_ i) (is_created_from_push_state_ i) (has_state_been_replaced_ i) x (should_skip_repost_form_confirmation_ i) (post_data_ i) (error_retry_state_machine_ i) (navigation_initiation_type_ i) (is_unsafe_ i) (cached_display_title_ i).
Definition with_should_skip_repost_form_confirmation_ (x : bool) (i : NavigationItem) : NavigationItem :=
  MkItem (unique_id_ i) (original_request_url_ i) (url_ i) (referrer_ i) (virtual_url_ i) (title_ i) (page_display_state_ i) (transition_type_ i) (favicon_ i) (ssl_ i) (timestamp_ i) (user_agent_type_ i) (http_request_headers_ i) (serialized_state_object_ i) (is_created_from_push_state_ i) (has_state_been_replaced_ i) (is_created_from_hash_change_ i) x (post_data_ i) (error_retry_state_machine_ i) (navigation_initiation_type_ i) (is_unsafe_ i) (cached_display_title_ i).
Definition with_post_data_ (x : option string) (i : NavigationItem) : NavigationItem :=
  MkItem (unique_id_ i) (original_request_url_ i) (url_ i) (referrer_ i) (virtual_url_ i) (title_ i) (page_display_state_ i) (transition_type_ i) (favicon_ i) (ssl_ i) (timestamp_ i) (user_agent_type_ i) (http_request_headers_ i) (serialized_state_object_ i) (is_created_from_push_state_ i) (has_state_been_replaced_ i) (is_created_from_hash_change_ i) (should_skip_repost_form_confirmation_ i) x (error_retry_state_machine_ i) (navigation_initiation_type_ i) (is_unsafe_ i) (cached_display_title_ i).
Definition with_error_retry_state_machine_ (x : ErrorRetryStateMachine) (i : NavigationItem) : NavigationItem :=
  MkItem (unique_id_ i) (original_request_url_ i) (url_ i) (referrer_ i) (virtual_url_ i) (title_ i) (page_display_state_ i) (transition_type_ i) (favicon_ i) (ssl_ i) (timestamp_ i) (user_agent_type_ i) (http_request_headers_ i) (serialized_state_object_ i) (is_created_from_push_state_ i) (has_state_been_replaced_ i) (is_created_from_hash_change_ i) (should_skip_repost_form_confirmation_ i) (post_data_ i) x (navigation_initiation_type_ i) (is_unsafe_ i) (cached_display_title_ i).
Definition with_navigation_initiation_type_ (x : NavigationInitiationType) (i : NavigationItem) : NavigationItem :=
  MkItem (unique_id_ i) (original_request_url_ i) (url_ i) (referrer_ i) (virtual_url_ i) (title_ i) (page_display_state_ i) (transition_type_ i) (favicon_ i) (ssl_ i) (timestamp_ i) (user_agent_type_ i) (http_request_headers_ i) (serialized_state_object_ i) (is_created_from_push_state_ i) (has_state_been_replaced_ i) (is_created_from_hash_change_ i) (should_skip_repost_form_confirmation_ i) (post_data_ i) (error_retry_state_machine_ i) x (is_unsafe_ i) (cached_display_title_ i).
Definition with_cached_display_title_ (x : string16) (i : NavigationItem) : NavigationItem :=
  MkItem (unique_id_ i) (original_request_url_ i) (url_ i) (referrer_ i) (virtual_url_ i) (title_ i) (page_display_state_ i) (transition_type_ i) (favicon_ i) (ssl_ i) (timestamp_ i) (user_agent_type_ i) (http_request_headers_ i) (serialized_state_object_ i) (is_created_from_push_state_ i) (has_state_been_replaced_ i) (is_created_from_hash_change_ i) (should_skip_repost_form_confirmation_ i) (post_data_ i) (error_retry_state_machine_ i) (navigation_initiation_type_ i) (is_unsafe_ i) x.

(** The default constructor, given the next unique id; the copy constructor is
    the identity, the dictionaries and data it copies being values here. *)
Definition NavigationItemImpl_new (unique_id : Z) : NavigationItem :=
  MkItem unique_id EmptyGURL EmptyGURL Referrer_default EmptyGURL [] PageDisplayState_default
    PAGE_TRANSITION_LINK FaviconStatus_default SSLStatus_default 0 UserAgentType_MOBILE None None
    false false false false None ErrorRetryStateMachine_new Initiation_NONE false [].

Implicit Types (i : NavigationItem).

Definition GetUniqueID i : Z := unique_id_ i.
Definition SetOriginalRequestURL (url : GURL) i : NavigationItem := with_original_request_url_ url i.
Definition GetOriginalRequestURL i : GURL := original_request_url_ i.

Definition SetURL (url : GURL) i : NavigationItem :=
  with_error_retry_state_machine_
    (MkMachine (state_ (error_retry_state_machine_ i)) url)
    (with_cached_display_title_ [] (with_url_ url i)).
Definition GetURL i : GURL := url_ i.

Definition SetReferrer (referrer : Referrer) i : NavigationItem := with_referrer_ referrer i.
Definition GetReferrer i : Referrer := referrer_ i.

Definition SetVirtualURL (url : GURL) i : NavigationItem :=
  with_cached_display_title_ []
    (with_virtual_url_ (if bool_decide (url = url_ i) then EmptyGURL else url) i).
Definition GetVirtualURL i : GURL :=
  if is_empty (virtual_url_ i) then url_ i else virtual_url_ i.

Definition SetTitle (title : string16) i : NavigationItem :=
  if bool_decide (title_ i = title) then i
  else with_cached_display_title_ [] (with_title_ title i).
Definition GetTitle i : string16 := title_ i.

Definition SetPageDisplayState (display_state : PageDisplayState) i : NavigationItem :=
  with_page_display_state_ display_state i.

(** [title.rfind(c)] *)
Fixpoint rfind (c : Z) (title : string16) : option nat :=
  match title with
  | [] => None
  | d :: title' =>
      match rfind c title' with
      | Some n => Some (S n)
      | None => if d =? c then Some O else None
      end
  end.

Definition kMaxTitleChars : Z := 4 * 1024.

Definition GetDisplayTitleForURL (url : GURL) : string16 :=
  if is_empty url then []
  else
    let title := FormatUrl url in
    let title :=
      if SchemeIsFile url then
        match rfind 47 title with
        | Some slashpos =>
            if negb (Nat.eqb slashpos (length title - 1)) then drop (slashpos + 1) title
            else title
        | None => title
        end
      else title in
    ElideString title kMaxTitleChars.

(** The title and the item with the title cached. *)
Definition GetTitleForDisplay i : string16 * NavigationItem :=
  match title_ i with
  | _ :: _ => (title_ i, i)
  | [] =>
      match cached_display_title_ i with
      | _ :: _ => (cached_display_title_ i, i)
      | [] =>
          let title := GetDisplayTitleForURL (GetVirtualURL i) in
          (title, with_cached_display_title_ title i)
      end
  end.

Definition SetTransitionType (transition_type : Z) i : NavigationItem :=
  with_transition_type_ transition_type i.
Definition GetTransitionType i : Z := transition_type_ i.
Definition SetTimestamp (timestamp : Z) i : NavigationItem := with_timestamp_ timestamp i.

Definition SetUserAgentType (type : UserAgentType) i : res NavigationItem :=
  if Bool.eqb (negb (URLNeedsUserAgentType (GetVirtualURL i)))
       (bool_decide (type = UserAgentType_NONE))
  then Ok (with_user_agent_type_ type i)
  else Crash DCheckFailed.
Definition GetUserAgentType i : UserAgentType := user_agent_type_ i.

Definition HasPostData i : bool := bool_decide (is_Some (post_data_ i)).
Definition GetHttpRequestHeaders i : option NSDictionary := http_request_headers_ i.

(** [addEntriesFromDictionary:] overwrites the entries already there. *)
Definition AddHttpRequestHeaders (additional_headers : option NSDictionary) i : NavigationItem :=
  match additional_headers with
  | None => i
  | Some added =>
      match http_request_headers_ i with
      | Some headers => with_http_request_headers_ (Some (added ∪ headers)) i
      | None => with_http_request_headers_ (Some added) i
      end
  end.

Definition RemoveHttpRequestHeaderForKey (key : option string) i : res NavigationItem :=
  match key with
  | None => Crash DCheckFailed
  | Some key =>
      let headers := delete key <$> http_request_headers_ i in
      Ok (with_http_request_headers_
            (match headers with
             | Some h => if bool_decide (h = ∅) then None else Some h
             | None => None
             end) i)
  end.

Definition ResetHttpRequestHeaders i : NavigationItem := with_http_request_headers_ None i.

Definition SetSerializedStateObject (object : option string) i : NavigationItem :=
  with_serialized_state_object_ object i.
Definition SetIsCreatedFromPushState (push_state : bool) i : NavigationItem :=
  with_is_created_from_push_state_ push_state i.
Definition SetNavigationInitiationType (type : NavigationInitiationType) i : NavigationItem :=
  with_navigation_initiation_type_ type i.
Definition SetHasStateBeenReplaced (replace_state : bool) i : NavigationItem :=
  with_has_state_been_replaced_ replace_state i.
Definition SetIsCreatedFromHashChange (hash_change : bool) i : NavigationItem :=
  with_is_created_from_hash_change_ hash_change i.
Definition SetShouldSkipRepostFormConfirmation (skip : bool) i : NavigationItem :=
  with_should_skip_repost_form_confirmation_ skip i.
Definition SetPostData (post_data : option string) i : NavigationItem :=
  with_post_data_ post_data i.
Definition SetSSL (ssl : SSLStatus) i : NavigationItem := with_ssl_ ssl i.
Definition SetFavicon (favicon : FaviconStatus) i : NavigationItem := with_favicon_ favicon i.
Definition ResetForCommit i : NavigationItem := SetNavigationInitiationType Initiation_NONE i.

#[export] Instance NavigationItem_view : NavigationItemView NavigationItem :=
  {| item_GetURL := GetURL; item_GetTitle := GetTitle |}.
End item.
Arguments NavigationItem {_}.
Arguments Referrer {_}.

(** ** Display titles are never stale *)
Section titles.
Context `{ENV : WebEnv}.

(** The calls on an item. *)
Inductive item_op :=
  | OpSetOriginalRequestURL (u : GURL) | OpSetURL (u : GURL) | OpSetVirtualURL (u : GURL)
  | OpSetReferrer (r : Referrer) | OpSetTitle (t : string16) | OpGetTitleForDisplay
  | OpSetPageDisplayState (s : PageDisplayState) | OpSetTransitionType (t : Z)
  | OpSetTimestamp (t : Z) | OpSetUserAgentType (t : UserAgentType)
  | OpAddHeaders (h : option NSDictionary) | OpRemoveHeader (k : option string) | OpResetHeaders
  | OpSetStateObject (o : option string) | OpSetFlags (push replaced hash skip : bool)
  | OpSetPostData (d : option string) | OpSetSSL (s : SSLStatus) | OpSetFavicon (f : FaviconStatus)
  | OpResetForCommit.

Definition run_item_op (op : item_op) (i : NavigationItem) : res NavigationItem :=
  match op with
  | OpSetOriginalRequestURL u => Ok (SetOriginalRequestURL u i)
  | OpSetURL u => Ok (SetURL u i)
  | OpSetVirtualURL u => Ok (SetVirtualURL u i)
  | OpSetReferrer r => Ok (SetReferrer r i)
  | OpSetTitle t => Ok (SetTitle t i)
  | OpGetTitleForDisplay => Ok (snd (GetTitleForDisplay i))
  | OpSetPageDisplayState s => Ok (SetPageDisplayState s i)
  | OpSetTransitionType t => Ok (SetTransitionType t i)
  | OpSetTimestamp t => Ok (SetTimestamp t i)
  | OpSetUserAgentType t => SetUserAgentType t i
  | OpAddHeaders h => Ok (AddHttpRequestHeaders h i)
  | OpRemoveHeader k => RemoveHttpRequestHeaderForKey k i
  | OpResetHeaders => Ok (ResetHttpRequestHeaders i)
  | OpSetStateObject o => Ok (SetSerializedStateObject o i)
  | OpSetFlags p r h s => Ok (SetIsCreatedFromPushState p (SetHasStateBeenReplaced r
      (SetIsCreatedFromHashChange h (SetShouldSkipRepostFormConfirmation s i))))
  | OpSetPostData d => Ok (SetPostData d i)
  | OpSetSSL s => Ok (SetSSL s i)
  | OpSetFavicon f => Ok (SetFavicon f i)
  | OpResetForCommit => Ok (ResetForCommit i)
  end.

Definition title_cached (i : NavigationItem) : Prop :=
  cached_display_title_ i = [] ∨
  cached_display_title_ i = GetDisplayTitleForURL (GetVirtualURL i).

Lemma run_item_op_cached op i i' :
  title_cached i → run_item_op op i = Ok i' → title_cached i'.
Proof.
  unfold title_cached. intros Hi. destruct op; simpl; try (intros [= <-]; auto; fail).
  - intros [= <-]. unfold SetTitle. case_bool_decide; auto.
  - intros [= <-]. unfold GetTitleForDisplay. destruct (title_ i); [|done].
    destruct (cached_display_title_ i) eqn:Hc; simpl; [by right|]. by rewrite Hc.
  - unfold SetUserAgentType. case_if; [|done]. intros [= <-]. auto.
  - intros [= <-]. unfold AddHttpRequestHeaders. by repeat case_match.
  - unfold RemoveHttpRequestHeaderForKey. destruct k; [|done]. intros [= <-]. auto.
Qed.

Definition item_step (i : NavigationItem) (op : item_op) (i' : NavigationItem) : Prop :=
  run_item_op op i = Ok i'.

(** Whatever was set on an item before, GetTitleForDisplay returns its
    title, or the title made from its current virtual URL when it has none:
    the cached display title is never the one of an earlier URL. *)
Theorem GetTitleForDisplay_current n i :
  reachable item_step (NavigationItemImpl_new n) i →
  fst (GetTitleForDisplay i) =
    (if bool_decide (GetTitle i = []) then GetDisplayTitleForURL (GetVirtualURL i) else GetTitle i) ∧
  fst (GetTitleForDisplay (snd (GetTitleForDisplay i))) = fst (GetTitleForDisplay i).
Proof.
  intros Hr. assert (title_cached i) as Hi.
  { revert i Hr. apply reachable_invariant; [by left|].
    intros i op i' Hi Hop. by eapply run_item_op_cached. }
  unfold GetTitleForDisplay, GetTitle. destruct (title_ i) as [|c t] eqn:Ht; simpl.
  2:{ by rewrite Ht. }
  assert (∀ d, GetVirtualURL (with_cached_display_title_ d i) = GetVirtualURL i) as Hv by done.
  destruct Hi as [Hc|Hc]; rewrite Hc; simpl.
  - rewrite Ht, Hv. split; [done|]. by destruct (GetDisplayTitleForURL (GetVirtualURL i)).
  - destruct (GetDisplayTitleForURL (GetVirtualURL i)) eqn:E; simpl.
    + by rewrite Ht, Hv, E.
    + by rewrite Ht, Hc.
Qed.

Lemma GetVirtualURL_SetVirtualURL `{LAWS : !WebEnvLaws} u i :
  is_empty u = false → GetVirtualURL (SetVirtualURL u i) = u.
Proof using All.
  intros Hu. unfold GetVirtualURL, SetVirtualURL. simpl. case_bool_decide as Heq.
  - by rewrite law_empty_is_empty.
  - by rewrite Hu.
Qed.
End titles.

(** ** Smoothed times *)

(** The times given for a sequence of clock readings. *)
Fixpoint smoothed_times (s : TimeSmoother) (ts : list Z) : list Z :=
  match ts with
  | [] => []
  | t :: ts' => let '(t', s') := GetSmoothedTime s t in t' :: smoothed_times s' ts'
  end.

Lemma smoothed_times_from s t0 ts :
  low_water_mark_ s <= t0 <= high_water_mark_ s →
  high_water_mark_ s + zlen ts <= INT64_MAX →
  StronglySorted Z.le (t0 :: ts) → (∀ t, t ∈ ts → t + zlen ts <= INT64_MAX) →
  Forall (λ t, high_water_mark_ s < t) (smoothed_times s ts) ∧
  StronglySorted Z.lt (smoothed_times s ts).
Proof.
  revert s t0. induction ts as [|t ts IH]; intros s t0 Ht0 Hhigh Hsort Hmax; simpl.
  { split; constructor. }
  rewrite zlen_cons in Hhigh. pose proof (zlen_nonneg ts) as Hlen.
  apply StronglySorted_inv in Hsort as [Hsort Hge].
  apply Forall_inv in Hge as Ht. apply StronglySorted_inv in Hsort as Hrest.
  assert (t + zlen ts + 1 <= INT64_MAX) as Htmax.
  { specialize (Hmax t). rewrite zlen_cons in Hmax. rewrite <- Z.add_assoc.
    apply Hmax, list_elem_of_here. }
  assert (∀ u, u ∈ ts → u + zlen ts <= INT64_MAX) as Hmax'.
  { intros u Hu. specialize (Hmax u). rewrite zlen_cons in Hmax.
    assert (u + (zlen ts + 1) <= INT64_MAX); [|lia]. apply Hmax. by apply list_elem_of_further. }
  unfold GetSmoothedTime.
  destruct ((low_water_mark_ s <=? t) && (t <=? high_water_mark_ s)) eqn:Hb.
  - set (s' := MkSmoother _ _).
    assert (high_water_mark_ s' = high_water_mark_ s + 1) as Hh by (simpl; lia).
    destruct (IH s' t) as [Hall Hss]; [simpl; lia|rewrite Hh; lia|done|done|].
    rewrite Hh in Hall. replace (Z.min _ _) with (high_water_mark_ s + 1) by lia. split.
    + constructor; [lia|]. eapply Forall_impl; [exact Hall|]. simpl. lia.
    + constructor; [done|]. exact Hall.
  - assert (high_water_mark_ s < t) as Hlt by (bool_to_prop; lia).
    destruct (IH (MkSmoother t t) t) as [Hall Hss]; [simpl; lia|simpl; lia|done|done|].
    split.
    + constructor; [done|]. eapply Forall_impl; [exact Hall|]. simpl. lia.
    + by constructor.
Qed.

(** As long as the clock does not go back and stays clear of the largest
    representable time, the times TimeSmoother gives are strictly increasing,
    so that no two navigations have the same timestamp. *)
Theorem smoothed_times_strictly_increase ts :
  StronglySorted Z.le (0 :: ts) → (∀ t, t ∈ ts → t + zlen ts <= INT64_MAX) →
  zlen ts <= INT64_MAX →
  StronglySorted Z.lt (smoothed_times TimeSmoother_new ts).
Proof.
  intros Hs Hmax Hlen. by apply (smoothed_times_from TimeSmoother_new 0).
Qed.

(** ** Concrete uses *)

#[local] Existing Instance Toy.env.
#[local] Existing Instance Toy.laws.

Lemma GetTitleForDisplay_current_witness :
  let i := SetVirtualURL (Toy.web "x" "y") (NavigationItemImpl_new 1) in
  fst (GetTitleForDisplay i) = GetDisplayTitleForURL (Toy.web "x" "y").
Proof.
  apply (GetTitleForDisplay_current 1 (SetVirtualURL (Toy.web "x" "y") (NavigationItemImpl_new 1))).
  apply (reach_step _ _ (NavigationItemImpl_new 1) (OpSetVirtualURL (Toy.web "x" "y")));
    [apply reach_refl|reflexivity].
Defined.

Lemma smoothed_times_strictly_increase_witness :
  StronglySorted Z.lt (smoothed_times TimeSmoother_new [5; 5; 5; 6; 20]).
Proof.
  apply (smoothed_times_strictly_increase [5; 5; 5; 6; 20]).
  - repeat constructor; discriminate.
  - intros t Ht. rewrite !elem_of_cons, elem_of_nil in Ht.
    unfold zlen, INT64_MAX. simpl. lia.
  - unfold zlen, INT64_MAX. simpl. lia.
Defined.
