(* ===== verification/BrowserURLRewriter.v ===== *)
(** * BrowserURLRewriter

    Models src/web/browser_url_rewriter_impl.mm: the functions that replace the
    URL of a navigation before it is loaded. *)

From S2P Require Import Prelude.
From S2P Require Import WebEnv.

(** A pointer to a BrowserState. *)
Notation BrowserState := (option positive).

Section rewriters.
Context `{ENV : WebEnv}.

(** A rewriter returns whether it rewrote the URL, and the URL, which it may
    have changed in any case. *)
Definition URLRewriter : Type := GURL → BrowserState → bool * GURL.

Fixpoint RewriteURLWithWriters (url : GURL) (browser_state : BrowserState)
    (rewriters : list URLRewriter) : bool * GURL :=
  match rewriters with
  | [] => (false, url)
  | rewriter :: rewriters' =>
      let '(rewritten, url) := rewriter url browser_state in
      if rewritten then (true, url)
      else RewriteURLWithWriters url browser_state rewriters'
  end.

Definition kViewSourceScheme : string := "view-source".

Definition HandleViewSource : URLRewriter := λ url _,
  if SchemeIs url kViewSourceScheme then (true, GURL_of (GetContent url))
  else (false, url).

(** The rewriters of the single instance. *)
Definition url_rewriters_ : list URLRewriter :=
  PostBrowserURLRewriterCreation ++ [HandleViewSource].

Definition RewriteURLIfNecessary (url : GURL) (browser_state : BrowserState) : bool * GURL :=
  RewriteURLWithWriters url browser_state url_rewriters_.
End rewriters.
