(* ===== verification/NavigationItemStorage.v ===== *)
(** * Storage of navigation items

    src/web/crw_navigation_item_storage.mm (the coding of an item of a stored
    session, with the formats of earlier versions),
    src/web/navigation/navigation_item_storage_builder.mm, and the descriptions
    of user agent types of src/web/public/user_agent.mm. *)

From S2P Require Import Prelude.
From S2P Require Import WebEnv.
From S2P Require Import WkNavigationUtil.
From S2P Require Import ErrorRetry.
From S2P Require Import PageDisplayState.
From S2P Require Import KeyedArchive.
From S2P Require Import NavigationItem.

(** ** User agent types *)
Definition GetUserAgentTypeDescription (type : UserAgentType) : string :=
  match type with
  | UserAgentType_NONE => "NONE"
  | UserAgentType_MOBILE => "MOBILE"
  | UserAgentType_DESKTOP => "DESKTOP"
  end.

Definition GetUserAgentTypeWithDescription (description : string) : UserAgentType :=
  if bool_decide (description = "MOBILE") then UserAgentType_MOBILE
  else if bool_decide (description = "DESKTOP") then UserAgentType_DESKTOP
  else UserAgentType_NONE.

(** [static_cast<web::ReferrerPolicy>] and back; a value that names no policy
    has no meaning. *)
Definition policies : list ReferrerPolicy :=
  [ReferrerPolicyAlways; ReferrerPolicyDefault; ReferrerPolicyNoReferrerWhenDowngrade;
   ReferrerPolicyNever; ReferrerPolicyOrigin; ReferrerPolicyOriginWhenCrossOrigin;
   ReferrerPolicySameOrigin; ReferrerPolicyStrictOrigin;
   ReferrerPolicyStrictOriginWhenCrossOrigin].
Definition policy_of_int (z : Z) : res ReferrerPolicy :=
  match vec_at policies z with Some p => Ok p | None => Crash OutOfRange end.
Definition int_of_policy (p : ReferrerPolicy) : Z :=
  match p with
  | ReferrerPolicyAlways => 0
  | ReferrerPolicyDefault => 1
  | ReferrerPolicyNoReferrerWhenDowngrade => 2
  | ReferrerPolicyNever => 3
  | ReferrerPolicyOrigin => 4
  | ReferrerPolicyOriginWhenCrossOrigin => 5
  | ReferrerPolicySameOrigin => 6
  | ReferrerPolicyStrictOrigin => 7
  | ReferrerPolicyStrictOriginWhenCrossOrigin => 8
  end.

Lemma policy_of_int_of_policy p : policy_of_int (int_of_policy p) = Ok p.
Proof. by destruct p. Qed.

(** net/base/mac/url_conversions.h *)
Class NSURLEnv `{ENV : WebEnv} := { GURLWithNSURL : option string → GURL }.

Definition kNavigationItemStorageURLKey : string := "virtualUrlString".
Definition kNavigationItemStorageReferrerURLKey : string := "referrerUrlString".
Definition kNavigationItemStorageReferrerURLDeprecatedKey : string := "referrer".
Definition kNavigationItemStorageReferrerPolicyKey : string := "referrerPolicy".
Definition kNavigationItemStorageTimestampKey : string := "timestamp".
Definition kNavigationItemStorageTitleKey : string := "title".
Definition kNavigationItemStoragePageDisplayStateKey : string := "state".
Definition kNavigationItemStoragePOSTDataKey : string := "POSTData".
Definition kNavigationItemStorageHTTPRequestHeadersKey : string := "httpHeaders".
Definition kNavigationItemStorageSkipRepostFormConfirmationKey : string :=
  "skipResubmitDataConfirmation".
Definition kNavigationItemStorageUserAgentTypeKey : string := "userAgentType".

Section storage.
Context `{NE : NSURLEnv}.

Record CRWNavigationItemStorage := MkItemStorage {
  virtualURL : GURL;
  referrer : Referrer;
  timestamp : Z;
  title : string16;
  displayState : PageDisplayState;
  shouldSkipRepostFormConfirmation : bool;
  userAgentType : UserAgentType;
  POSTData : option string;
  HTTPRequestHeaders : option NSDictionary;
}.

(** [encodeWithCoder:] *)
Definition item_encodeWithCoder (s : CRWNavigationItemStorage) (c : Archive) : Archive :=
  let c := EncodeString kNavigationItemStorageURLKey (spec (virtualURL s)) c in
  let c := EncodeString kNavigationItemStorageReferrerURLKey (spec (referrer_url (referrer s))) c in
  let c := encodeInt (int_of_policy (referrer_policy (referrer s)))
             kNavigationItemStorageReferrerPolicyKey c in
  let c := encodeInt64 (timestamp s) kNavigationItemStorageTimestampKey c in
  let c := encode_object (Some (OString16 (title s))) kNavigationItemStorageTitleKey c in
  let c := encode_object (Some (OState (GetSerialization (displayState s))))
             kNavigationItemStoragePageDisplayStateKey c in
  let c := encodeBool (shouldSkipRepostFormConfirmation s)
             kNavigationItemStorageSkipRepostFormConfirmationKey c in
  let c := EncodeString kNavigationItemStorageUserAgentTypeKey
             (GetUserAgentTypeDescription (userAgentType s)) c in
  let c := encode_object (OData <$> POSTData s) kNavigationItemStoragePOSTDataKey c in
  encode_object (OHeaders <$> HTTPRequestHeaders s) kNavigationItemStorageHTTPRequestHeadersKey c.

(** The steps of [initWithCoder:]. *)
Definition decode_virtual_url (c : Archive) : res GURL :=
  if containsValueForKey kNavigationItemStorageURLKey c then
    s ← DecodeString kNavigationItemStorageURLKey c; mret (GURL_of s)
  else mret EmptyGURL.

Definition decode_referrer (c : Archive) : res Referrer :=
  if containsValueForKey kNavigationItemStorageReferrerURLKey c then
    referrerString ← DecodeString kNavigationItemStorageReferrerURLKey c;
    policy ← decodeInt kNavigationItemStorageReferrerPolicyKey c;
    policy ← policy_of_int policy;
    mret (MkReferrer (GURL_of referrerString) policy)
  else
    referrerURL ← as_url (decode_object kNavigationItemStorageReferrerURLDeprecatedKey c);
    mret (MkReferrer (GURLWithNSURL referrerURL) ReferrerPolicyDefault).

Definition decode_timestamp (c : Archive) : res Z :=
  if containsValueForKey kNavigationItemStorageTimestampKey c
  then decodeInt64 kNavigationItemStorageTimestampKey c else mret 0.

(** An instance variable that is not assigned is zero, here NONE. *)
Definition decode_user_agent (virtual_url : GURL) (c : Archive) : res UserAgentType :=
  if containsValueForKey kNavigationItemStorageUserAgentTypeKey c then
    userAgentDescription ← DecodeString kNavigationItemStorageUserAgentTypeKey c;
    mret (GetUserAgentTypeWithDescription userAgentDescription)
  else if IsAppSpecificURL virtual_url then mret UserAgentType_NONE
  else mret UserAgentType_NONE.

(** [initWithCoder:] *)
Definition item_initWithCoder (c : Archive) : res CRWNavigationItemStorage :=
  url ← decode_virtual_url c;
  ref ← decode_referrer c;
  time ← decode_timestamp c;
  user_agent ← decode_user_agent url c;
  title ← as_string16 (decode_object kNavigationItemStorageTitleKey c);
  serializedDisplayState ← as_state (decode_object kNavigationItemStoragePageDisplayStateKey c);
  state ← PageDisplayState_of_serialization (default ∅ serializedDisplayState);
  skip ← decodeBool kNavigationItemStorageSkipRepostFormConfirmationKey c;
  post ← as_data (decode_object kNavigationItemStoragePOSTDataKey c);
  headers ← as_headers (decode_object kNavigationItemStorageHTTPRequestHeadersKey c);
  mret (MkItemStorage url ref time (default [] title) state skip user_agent post headers).

(** ** NavigationItemStorageBuilder *)
Definition item_BuildStorage (navigation_item : option NavigationItem) :
    res CRWNavigationItemStorage :=
  match navigation_item with
  | None => Crash DCheckFailed
  | Some i =>
      Ok (MkItemStorage (GetVirtualURL i) (GetReferrer i) (timestamp_ i) (GetTitle i)
            (page_display_state_ i) (should_skip_repost_form_confirmation_ i)
            (GetUserAgentType i) (post_data_ i) (GetHttpRequestHeaders i))
  end.

(** [unique_id] is the one the new item takes. *)
Definition BuildNavigationItemImpl (unique_id : Z) (s : CRWNavigationItemStorage) : NavigationItem :=
  let item := NavigationItemImpl_new unique_id in
  let item := with_original_request_url_ (virtualURL s) item in
  let item := SetURL (virtualURL s) item in
  let item := with_referrer_ (referrer s) item in
  let item := with_timestamp_ (timestamp s) item in
  let item := with_title_ (title s) item in
  let item := with_page_display_state_ (displayState s) item in
  let item := with_should_skip_repost_form_confirmation_ (shouldSkipRepostFormConfirmation s) item in
  let item := with_transition_type_ PAGE_TRANSITION_RELOAD item in
  let item := with_user_agent_type_ (userAgentType s) item in
  let item := with_post_data_ (POSTData s) item in
  with_http_request_headers_ (HTTPRequestHeaders s) item.
End storage.
Arguments CRWNavigationItemStorage {_}.

(** ** What survives *)
Section roundtrip.
Context `{NE : NSURLEnv} `{!WebEnvLaws}.

(** A URL that its text determines. *)
Definition storable_url (u : GURL) : Prop := is_valid u = true ∨ u = EmptyGURL.
Definition storable (s : CRWNavigationItemStorage) : Prop :=
  storable_url (virtualURL s) ∧ storable_url (referrer_url (referrer s)).

Lemma storable_url_spec u : storable_url u → GURL_of (spec u) = u.
Proof using All. intros [?| ->]; [by apply law_spec_roundtrip|apply law_empty_parse]. Qed.

Lemma user_agent_roundtrip t : GetUserAgentTypeWithDescription (GetUserAgentTypeDescription t) = t.
Proof using Type. by destruct t. Qed.

Lemma item_coding_roundtrip s :
  storable s → item_initWithCoder (item_encodeWithCoder s ∅) = Ok s.
Proof using All.
  intros [Hu Hr]. destruct s as [u [ru p] t ti st skip ua post headers]. cbn in Hu, Hr.
  set (c := item_encodeWithCoder _ ∅). unfold item_initWithCoder.
  assert (decode_virtual_url c = Ok u) as ->.
  { change (Ok (GURL_of (spec u)) = Ok u). by rewrite storable_url_spec. }
  assert (decode_referrer c = Ok (MkReferrer ru p)) as ->.
  { trans (Ok (MkReferrer (GURL_of (spec ru)) p)); [by destruct p|]. by rewrite storable_url_spec. }
  assert (decode_user_agent u c = Ok ua) as Hua by by destruct ua.
  cbn -[c decode_user_agent]. rewrite Hua.
  destruct st as [[] []], post, headers; reflexivity.
Qed.

(** What the built item shows of the one that was stored. *)
Record same_stored (i i' : NavigationItem) : Prop := MkSameStored {
  stored_url : GetURL i' = GetVirtualURL i;
  stored_original_url : GetOriginalRequestURL i' = GetVirtualURL i;
  stored_virtual_url : GetVirtualURL i' = GetVirtualURL i;
  stored_referrer : GetReferrer i' = GetReferrer i;
  stored_timestamp : timestamp_ i' = timestamp_ i;
  stored_title : GetTitle i' = GetTitle i;
  stored_state : page_display_state_ i' = page_display_state_ i;
  stored_skip : should_skip_repost_form_confirmation_ i' = should_skip_repost_form_confirmation_ i;
  stored_agent : GetUserAgentType i' = GetUserAgentType i;
  stored_post : post_data_ i' = post_data_ i;
  stored_headers : GetHttpRequestHeaders i' = GetHttpRequestHeaders i;
}.

(** The fields of the item that is built. *)
Lemma built_item id s :
  BuildNavigationItemImpl id s =
  MkItem id (virtualURL s) (virtualURL s) (referrer s) EmptyGURL (title s) (displayState s)
    PAGE_TRANSITION_RELOAD FaviconStatus_default SSLStatus_default (timestamp s) (userAgentType s)
    (HTTPRequestHeaders s) None false false false (shouldSkipRepostFormConfirmation s) (POSTData s)
    (MkMachine (state_ ErrorRetryStateMachine_new) (virtualURL s)) Initiation_NONE false [].
Proof using Type. reflexivity. Qed.

Lemma GetVirtualURL_built id s : GetVirtualURL (BuildNavigationItemImpl id s) = virtualURL s.
Proof using All. unfold GetVirtualURL. cbn. by rewrite law_empty_is_empty. Qed.

(** An item whose virtual URL and referrer are storable. *)
Definition storable_item (i : NavigationItem) : Prop :=
  storable_url (GetVirtualURL i) ∧ storable_url (referrer_url (GetReferrer i)).

Lemma item_survives i id :
  storable_item i →
  ∃ s, item_BuildStorage (Some i) = Ok s ∧ item_initWithCoder (item_encodeWithCoder s ∅) = Ok s ∧
    same_stored i (BuildNavigationItemImpl id s) ∧
    item_BuildStorage (Some (BuildNavigationItemImpl id s)) = Ok s.
Proof using All.
  intros Hs. eexists. split; [reflexivity|]. split; [by apply item_coding_roundtrip|].
  set (s := MkItemStorage _ _ _ _ _ _ _ _ _). pose proof (GetVirtualURL_built id s) as Hv.
  split; [split; try reflexivity; exact Hv|].
  unfold item_BuildStorage. rewrite Hv. reflexivity.
Qed.

(** A navigation item with a valid URL and referrer survives being stored,
    encoded, decoded and built again: the new item shows the virtual URL of
    the old one, as its URL and its original request URL too, and has its
    referrer, time, title, display state, user agent, form data and headers;
    its transition is a reload and it stores as the old one did. *)
Theorem stored_item_is_restored i id :
  storable_item i →
  ∃ s i', item_BuildStorage (Some i) = Ok s ∧
    item_initWithCoder (item_encodeWithCoder s ∅) = Ok s ∧
    i' = BuildNavigationItemImpl id s ∧ same_stored i i' ∧
    GetTransitionType i' = PAGE_TRANSITION_RELOAD ∧ GetUniqueID i' = id ∧
    item_BuildStorage (Some i') = Ok s.
Proof using All.
  intros Hs. destruct (item_survives i id Hs) as (s & H1 & H2 & H3 & H4).
  by exists s, (BuildNavigationItemImpl id s).
Qed.

(** An archive of an earlier version, without the text of the referrer and
    without the user agent type, is read with the referrer stored as an NSURL
    and its default policy, and with no user agent whatever its URL is, not
    only for a URL of the application. *)
Theorem legacy_item_is_read (c : Archive) url s :
  item_initWithCoder c = Ok s →
  c !! kNavigationItemStorageReferrerURLKey = None →
  c !! kNavigationItemStorageUserAgentTypeKey = None →
  c !! kNavigationItemStorageReferrerURLDeprecatedKey = Some (OURL <$> url) →
  referrer s = MkReferrer (GURLWithNSURL url) ReferrerPolicyDefault ∧
  userAgentType s = UserAgentType_NONE.
Proof using Type.
  intros Hs Hr Hu Hd. unfold item_initWithCoder in Hs.
  assert (decode_referrer c = Ok (MkReferrer (GURLWithNSURL url) ReferrerPolicyDefault)) as Er.
  { unfold decode_referrer, containsValueForKey, decode_object. rewrite Hr, Hd. by destruct url. }
  assert (∀ u, decode_user_agent u c = Ok UserAgentType_NONE) as Eu.
  { intros u. unfold decode_user_agent, containsValueForKey. rewrite Hu. cbn.
    by destruct (IsAppSpecificURL u). }
  rewrite Er in Hs. destruct (decode_virtual_url c) as [u|]; [|done]. cbn in Hs.
  destruct (decode_timestamp c) as [t|]; [|done]. cbn in Hs. rewrite Eu in Hs. cbn in Hs.
  repeat match type of Hs with context [?m ≫= _] => destruct m; [cbn in Hs|done] end.
  by injection Hs as <-.
Qed.
End roundtrip.
