(* ===== verification/NavigationManager.v ===== *)
(** * NavigationManagerImpl

    Models src/web/navigation/navigation_manager_impl.mm: the part of a
    navigation manager shared by its implementations.  The virtual functions
    an implementation provides are the two classes of this file;
    LegacyNavigationManager.v instantiates them. *)

From S2P Require Import Prelude.
From S2P Require Import WebEnv.
From S2P Require Import WkNavigationUtil.
From S2P Require Import ErrorRetry.
From S2P Require Import PageDisplayState.
From S2P Require Import NavigationItem.
From S2P Require Import BrowserURLRewriter.

Inductive UserAgentOverrideOption : Set :=
  | Override_INHERIT
  | Override_MOBILE
  | Override_DESKTOP.
#[export] Instance UserAgentOverrideOption_eq_dec : EqDecision UserAgentOverrideOption.
Proof. solve_decision. Defined.

Inductive ReloadType : Set := ReloadType_NORMAL | ORIGINAL_REQUEST_URL.

(** The calls on the delegate. *)
Inductive NavigationManagerCall :=
  | ClearTransientContent
  | RecordPageStateInNavigationItem
  | OnGoToIndexSameDocumentNavigation (type : NavigationInitiationType) (has_user_gesture : bool)
  | WillChangeUserAgentType
  | LoadCurrentItem (type : NavigationInitiationType)
  | LoadIfNecessary
  | DelegateReload
  | OnNavigationItemsPruned (pruned_item_count : Z)
  | GoToBackForwardListItem (wk_index : Z) (unique_id : Z) (type : NavigationInitiationType)
      (has_user_gesture : bool)
  | RemoveWebView
  | OnNavigationItemCommitted (unique_id : Z).

Section base.
Context `{ENV : WebEnv}.

(** The fields of the base class, with the counter of unique ids and the calls
    made on the delegate so far. *)
Record NavigationManagerBase := MkBase {
  browser_state_ : BrowserState;
  transient_url_rewriters_ : list URLRewriter;
  unique_id_counter : Z;
  delegate_calls : list NavigationManagerCall;
}.

Record WebLoadParams := MkParams {
  params_url : GURL;
  params_virtual_url : GURL;
  params_referrer : Referrer;
  transition_type : Z;
  user_agent_override_option : UserAgentOverrideOption;
  is_renderer_initiated : bool;
  extra_headers : option NSDictionary;
  params_post_data : option string;
}.

Definition WebLoadParams_new (url : GURL) : WebLoadParams :=
  MkParams url EmptyGURL Referrer_default PAGE_TRANSITION_LINK Override_INHERIT false None None.

(** The copy constructor, whose [virtual_url] is default-constructed. *)
Definition WebLoadParams_copy (other : WebLoadParams) : WebLoadParams :=
  MkParams (params_url other) EmptyGURL (params_referrer other) (transition_type other)
    (user_agent_override_option other) (is_renderer_initiated other)
    (extra_headers other) (params_post_data other).

Definition WebLoadParams_assign (this other : WebLoadParams) : WebLoadParams :=
  MkParams (params_url other) (params_virtual_url this) (params_referrer other)
    (transition_type other) (user_agent_override_option other) (is_renderer_initiated other)
    (extra_headers other) (params_post_data other).
End base.
Arguments NavigationManagerBase {_}.
Arguments WebLoadParams {_}.

(** The state [St] of an implementation, with the fields of the base class and
    its items; [item_ref]s are its pointers to items. *)
Class NavigationManagerState `{ENV : WebEnv} (St : Type) := {
  item_ref : Type;
  get_base : St → NavigationManagerBase;
  set_base : NavigationManagerBase → St → St;
  get_item : St → item_ref → option NavigationItem;
  set_item : item_ref → NavigationItem → St → St;
  manager_IsPlaceholderUrl : GURL → bool;
}.

(** [!pointer] *)
Definition is_null {A} (o : option A) : bool := match o with None => true | Some _ => false end.

Section items.
Context `{ENV : WebEnv} {St : Type} `{!NavigationManagerState St}.
Notation NM := (M St).

Definition deref (r : item_ref) : NM NavigationItem :=
  i ← gets (λ s, get_item s r);
  not_null i.

Definition with_item (r : item_ref) (f : NavigationItem → NavigationItem) : NM unit :=
  i ← deref r;
  modify (set_item r (f i)).

Definition with_item_res (r : item_ref) (f : NavigationItem → res NavigationItem) : NM unit :=
  i ← deref r;
  i ← lift_res (f i);
  modify (set_item r i).

Definition call_delegate (c : NavigationManagerCall) : NM unit :=
  modify (λ s, let b := get_base s in
    set_base (MkBase (browser_state_ b) (transient_url_rewriters_ b) (unique_id_counter b)
                (delegate_calls b ++ [c])) s).

Definition RemoveTransientURLRewriters : NM unit :=
  modify (λ s, let b := get_base s in
    set_base (MkBase (browser_state_ b) [] (unique_id_counter b) (delegate_calls b)) s).

Definition AddTransientURLRewriter (rewriter : URLRewriter) : NM unit :=
  modify (λ s, let b := get_base s in
    set_base (MkBase (browser_state_ b) (transient_url_rewriters_ b ++ [rewriter])
                (unique_id_counter b) (delegate_calls b)) s).

(** [++unique_id_counter] *)
Definition GetUniqueIDInConstructor : NM Z :=
  b ← gets get_base;
  id ← int_add (unique_id_counter b) 1;
  modify (set_base (MkBase (browser_state_ b) (transient_url_rewriters_ b) id
                      (delegate_calls b)));;
  mret id.

Definition UpdatePendingItemUserAgentType (override : UserAgentOverrideOption)
    (inherit_from_item : option item_ref) (pending_item : item_ref) : NM unit :=
  pending ← deref pending_item;
  DCHECK (negb (bool_decide (GetUserAgentType pending = UserAgentType_NONE)) ||
          bool_decide (override = Override_INHERIT));;
  DCHECK (negb (bool_decide (GetUserAgentType pending = UserAgentType_DESKTOP)));;
  if bool_decide (GetUserAgentType pending = UserAgentType_NONE) then mret tt
  else
    match override with
    | Override_DESKTOP => with_item_res pending_item (SetUserAgentType UserAgentType_DESKTOP)
    | Override_MOBILE => with_item_res pending_item (SetUserAgentType UserAgentType_MOBILE)
    | Override_INHERIT =>
        match inherit_from_item with
        | None => mret tt
        | Some r =>
            i ← deref r;
            DCHECK (negb (bool_decide (GetUserAgentType i = UserAgentType_NONE)));;
            with_item_res pending_item (SetUserAgentType (GetUserAgentType i))
        end
    end.

(** The URL to load for a request of [url]. *)
Definition loaded_url (url : GURL) (initiation_type : NavigationInitiationType)
    (previous_url : GURL) (browser_state : BrowserState) (is_placeholder : bool)
    (additional_rewriters : list URLRewriter) : GURL :=
  let loaded :=
    if is_placeholder then url
    else
      let '(url_was_rewritten, loaded) :=
        match additional_rewriters with
        | [] => (false, url)
        | _ => RewriteURLWithWriters url browser_state additional_rewriters
        end in
      if url_was_rewritten then loaded else (RewriteURLIfNecessary loaded browser_state).2 in
  if bool_decide (initiation_type = RENDERER_INITIATED) && negb (bool_decide (loaded = url)) &&
     IsAppSpecificURL loaded && negb (IsAppSpecificURL previous_url)
  then url else loaded.

Definition CreateNavigationItemWithRewriters (url : GURL) (referrer : Referrer)
    (transition : Z) (initiation_type : NavigationInitiationType) (previous_url : GURL)
    (additional_rewriters : list URLRewriter) : NM NavigationItem :=
  b ← gets get_base;
  let loaded := loaded_url url initiation_type previous_url (browser_state_ b)
                  (manager_IsPlaceholderUrl url) additional_rewriters in
  id ← GetUniqueIDInConstructor;
  let item := SetNavigationInitiationType initiation_type
    (SetTransitionType transition (SetReferrer referrer
      (SetURL loaded (SetOriginalRequestURL loaded (NavigationItemImpl_new id))))) in
  if negb (URLNeedsUserAgentType loaded)
  then lift_res (SetUserAgentType UserAgentType_NONE item)
  else mret item.

Definition RewriteItemURLIfNecessary (i : NavigationItem) : NM NavigationItem :=
  b ← gets get_base;
  let '(rewritten, url) := RewriteURLIfNecessary (GetURL i) (browser_state_ b) in
  mret (if rewritten : bool then SetVirtualURL (GetURL i) (SetURL url i) else i).

(** Whether [r] is null or the result of a redirect. *)
Definition null_or_redirect (r : option item_ref) : NM bool :=
  match r with
  | None => mret true
  | Some r => i ← deref r; mret (PageTransitionIsRedirect (GetTransitionType i))
  end.
End items.

(** The virtual getters: an implementation may create items when they are
    looked up. *)
Class NavigationManagerGetters `{ENV : WebEnv} (St : Type) `{!NavigationManagerState St} := {
  GetTransientItemImpl : St → option item_ref;
  GetPendingItemInCurrentOrRestoredSession : M St (option item_ref);
  GetLastCommittedItemInCurrentOrRestoredSession : M St (option item_ref);
  GetLastCommittedItemIndexInCurrentOrRestoredSession : St → Z;
  GetItemCount : St → Z;
  GetItemAtIndex : Z → M St (option item_ref);
  IsRestoreSessionInProgress : St → bool;
}.

Section getters.
Context `{ENV : WebEnv} {St : Type} `{!NavigationManagerState St} `{!NavigationManagerGetters St}.
Notation NM := (M St).

Definition GetCurrentItemImpl : NM (option item_ref) :=
  t ← gets GetTransientItemImpl;
  match t with
  | Some r => mret (Some r)
  | None =>
      p ← GetPendingItemInCurrentOrRestoredSession;
      match p with
      | Some r => mret (Some r)
      | None => GetLastCommittedItemInCurrentOrRestoredSession
      end
  end.

(** Whether the item [r] is missing or restores a session. *)
Definition null_or_restore_url (s : St) (r : option item_ref) : bool :=
  match r ≫= get_item s with
  | Some i => IsRestoreSessionUrl (GetURL i)
  | None => true
  end.

Definition GetLastCommittedItemImpl : NM (option item_ref) :=
  restoring ← gets IsRestoreSessionInProgress;
  if restoring : bool then mret None
  else
    result ← GetLastCommittedItemInCurrentOrRestoredSession;
    none ← gets (λ s, null_or_restore_url s result);
    mret (if none : bool then None else result).
Definition GetLastCommittedItem : NM (option item_ref) := GetLastCommittedItemImpl.

Definition GetLastCommittedItemIndex : NM Z :=
  restoring ← gets IsRestoreSessionInProgress;
  if restoring : bool then mret (-1)
  else
    result ← GetLastCommittedItemInCurrentOrRestoredSession;
    none ← gets (λ s, null_or_restore_url s result);
    if none : bool then mret (-1)
    else gets GetLastCommittedItemIndexInCurrentOrRestoredSession.

Definition GetPendingItem : NM (option item_ref) :=
  restoring ← gets IsRestoreSessionInProgress;
  if restoring : bool then mret None else GetPendingItemInCurrentOrRestoredSession.
Definition GetTransientItem (s : St) : option item_ref := GetTransientItemImpl s.

(** The loop of GetLastCommittedNonRedirectedItem on the indices below [n]. *)
Fixpoint last_non_redirected (n : nat) : NM (option item_ref) :=
  match n with
  | O => mret None
  | S n' =>
      r ← GetItemAtIndex (Z.of_nat n');
      r ← not_null r;
      i ← deref r;
      if negb (PageTransitionIsRedirect (GetTransitionType i)) then mret (Some r)
      else last_non_redirected n'
  end.

Definition GetLastCommittedNonRedirectedItem : NM (option item_ref) :=
  c ← gets GetItemCount;
  if c =? 0 then mret None
  else
    index ← GetLastCommittedItemIndex;
    last_non_redirected (Z.to_nat (index + 1)).

(** The loop of GetLastCommittedItemWithUserAgentType on the indices below [n]. *)
Fixpoint last_with_user_agent (n : nat) : NM (option item_ref) :=
  match n with
  | O => mret None
  | S n' =>
      r ← GetItemAtIndex (Z.of_nat n');
      r ← not_null r;
      i ← deref r;
      if URLNeedsUserAgentType (GetURL i) then mret (Some r)
      else last_with_user_agent n'
  end.

Definition GetLastCommittedItemWithUserAgentType : NM (option item_ref) :=
  i ← gets GetLastCommittedItemIndexInCurrentOrRestoredSession;
  last_with_user_agent (Z.to_nat (i + 1)).

Definition CreateNavigationItem (url : GURL) (referrer : Referrer) (transition : Z)
    (initiation_type : NavigationInitiationType) : NM NavigationItem :=
  r ← GetLastCommittedItem;
  previous_url ←
    (match r with
     | Some r => i ← deref r; mret (GetURL i)
     | None => mret EmptyGURL
     end);
  b ← gets get_base;
  item ← CreateNavigationItemWithRewriters url referrer transition initiation_type
    previous_url (transient_url_rewriters_ b);
  RemoveTransientURLRewriters;;
  mret item.

Definition UpdatePendingItemUrl (url : GURL) : NM unit :=
  r ← GetPendingItemInCurrentOrRestoredSession;
  match r with
  | None => mret tt
  | Some pending_item =>
      i ← deref pending_item;
      if bool_decide (url = GetURL i) then mret tt
      else
        t ← gets GetTransientItem;
        DCHECK (is_null t);;
        with_item pending_item (λ i,
          ResetHttpRequestHeaders (SetPostData None (SetVirtualURL url (SetURL url i))))
  end.

Definition UpdateCurrentItemForReplaceState (url : GURL) (state_object : option string) : NM unit :=
  t ← gets GetTransientItem;
  DCHECK (is_null t);;
  r ← GetCurrentItemImpl;
  current_item ← not_null r;
  with_item current_item (λ i,
    SetPostData None (SetHasStateBeenReplaced true
      (SetSerializedStateObject state_object (SetURL url i)))).

End getters.

(** The virtual functions that act, and the one getter that calls the base class. *)
Class NavigationManagerActions `{ENV : WebEnv} (St : Type) `{!NavigationManagerState St} := {
  AddPendingItem : GURL → Referrer → Z → NavigationInitiationType →
    UserAgentOverrideOption → M St unit;
  GetVisibleItem : M St (option item_ref);
  FinishGoToIndex : Z → NavigationInitiationType → bool → M St unit;
  FinishReload : M St unit;
  FinishLoadURLWithParams : NavigationInitiationType → M St unit;
}.

Section actions.
Context `{ENV : WebEnv} {St : Type} `{!NavigationManagerState St} `{!NavigationManagerGetters St}.
Context `{ACT : !NavigationManagerActions St}.
Notation NM := (M St).

Definition user_agent_or_none (r : option item_ref) : NM UserAgentType :=
  match r with
  | Some r => i ← deref r; mret (GetUserAgentType i)
  | None => mret UserAgentType_NONE
  end.

Definition GoToIndex (index : Z) (initiation_type : NavigationInitiationType)
    (has_user_gesture : bool) : NM unit :=
  c ← gets GetItemCount;
  if (index <? 0) || (c <=? index) then NOTREACHED
  else
    t ← gets GetTransientItem;
    whenM (is_null t) (call_delegate RecordPageStateInNavigationItem);;
    call_delegate ClearTransientContent;;
    r ← GetItemAtIndex index;
    r ← not_null r;
    to_item ← deref r;
    let to_item_user_agent_type := GetUserAgentType to_item in
    pending_item ← GetPendingItem;
    previous_item ← (match pending_item with
                     | Some r => mret (Some r)
                     | None => GetLastCommittedItem
                     end);
    previous_item_user_agent_type ← user_agent_or_none previous_item;
    whenM (negb (bool_decide (to_item_user_agent_type = UserAgentType_NONE)) &&
           negb (bool_decide (to_item_user_agent_type = previous_item_user_agent_type)))
      (call_delegate WillChangeUserAgentType);;
    FinishGoToIndex index initiation_type has_user_gesture.

Definition LoadURLWithParams (params : WebLoadParams) : NM unit :=
  DCHECK (Z.land (transition_type params) PAGE_TRANSITION_FORWARD_BACK =? 0);;
  call_delegate ClearTransientContent;;
  call_delegate RecordPageStateInNavigationItem;;
  let initiation_type :=
    if is_renderer_initiated params then RENDERER_INITIATED else BROWSER_INITIATED in
  AddPendingItem (params_url params) (params_referrer params) (transition_type params)
    initiation_type (user_agent_override_option params);;
  pending_item ← GetPendingItemInCurrentOrRestoredSession;
  match pending_item with
  | None => mret tt
  | Some r =>
      last ← GetLastCommittedItemInCurrentOrRestoredSession;
      last_committed_url ←
        (match last with
         | Some l => i ← deref l; mret (GetVirtualURL i)
         | None => mret EmptyGURL
         end);
      pending ← deref r;
      let pending_url := GetURL pending in
      whenM (negb (bool_decide (last_committed_url = pending_url)) &&
             EqualsIgnoringRef last_committed_url pending_url)
        (with_item r (SetIsCreatedFromHashChange true));;
      whenM (is_valid (params_virtual_url params))
        (with_item r (SetVirtualURL (params_virtual_url params)))
  end;;
  t ← gets GetTransientItem;
  DCHECK (is_null t);;
  added_item ← (match pending_item with
                | Some r => mret (Some r)
                | None => GetLastCommittedItemInCurrentOrRestoredSession
                end);
  DCHECK (negb (is_null added_item));;
  added ← not_null added_item;
  whenM (negb (is_null (extra_headers params)))
    (with_item added (AddHttpRequestHeaders (extra_headers params)));;
  whenM (negb (is_null (params_post_data params)))
    (i ← deref added;
     DCHECK (negb (is_null (h ← GetHttpRequestHeaders i; h !! "Content-Type"%string)));;
     with_item added (λ i,
       SetShouldSkipRepostFormConfirmation true (SetPostData (params_post_data params) i)));;
  FinishLoadURLWithParams initiation_type.

Definition Reload (reload_type : ReloadType) (check_for_reposts : bool) : NM unit :=
  restoring ← gets IsRestoreSessionInProgress;
  if restoring : bool then mret tt
  else
    (* the first of the three items that is not null *)
    t ← gets GetTransientItem;
    reload_item ←
      (match t with
       | Some r => mret (Some r)
       | None =>
           p ← GetPendingItem;
           match p with
           | Some r => mret (Some r)
           | None => GetLastCommittedItem
           end
       end);
    if is_null reload_item then mret tt
    else
    match reload_type with
    | ORIGINAL_REQUEST_URL =>
        DCHECK (negb (is_null reload_item));;
        r ← not_null reload_item;
        with_item r (λ i, SetURL (GetOriginalRequestURL i) i)
    | ReloadType_NORMAL => mret tt
    end;;
    FinishReload.

Definition ReloadWithUserAgentType (user_agent_type : UserAgentType) : NM unit :=
  DCHECK (negb (bool_decide (user_agent_type = UserAgentType_NONE)));;
  call_delegate WillChangeUserAgentType;;
  item ← gets GetTransientItem;
  retry ← null_or_redirect item;
  item ← (if (retry : bool) then GetVisibleItem else mret item);
  retry ← null_or_redirect item;
  item ← (if (retry : bool) then GetLastCommittedNonRedirectedItem else mret item);
  match item with
  | None => mret tt
  | Some r =>
      last_non_redirect_item ← deref r;
      let reload_url := GetOriginalRequestURL last_non_redirect_item in
      let reload_url :=
        if is_empty reload_url then GetVirtualURL last_non_redirect_item else reload_url in
      reload_url ←
        (if IsSlimNavigationManagerEnabled then
           target ← (if IsRestoreSessionUrl reload_url
                     then lift_res (ExtractTargetURL reload_url) else mret None);
           mret (CreateRedirectUrl (default reload_url target))
         else mret reload_url);
      let virtual_url :=
        if bool_decide (GetVirtualURL last_non_redirect_item = reload_url) then EmptyGURL
        else GetVirtualURL last_non_redirect_item in
      override ←
        (match user_agent_type with
         | UserAgentType_DESKTOP => mret Override_DESKTOP
         | UserAgentType_MOBILE => mret Override_MOBILE
         | UserAgentType_NONE => NOTREACHED
         end);
      LoadURLWithParams
        (MkParams reload_url virtual_url (GetReferrer last_non_redirect_item)
           PAGE_TRANSITION_RELOAD override false None None)
  end.
End actions.
