(* ===== verification/SessionController.v ===== *)
(** * CRWSessionController: the session history of a tab

    Models src/web/navigation/crw_session_controller.mm joined with the
    LegacyNavigationManagerImpl that owns it
    (legacy_navigation_manager_impl.mm), after InitializeSession or Restore.
    Committed items are owned by a vector; the pending item of a new navigation
    and the transient item are owned apart. *)

From S2P Require Import Prelude.
From S2P Require Import WebEnv.
From S2P Require Import WkNavigationUtil.
From S2P Require Import NavigationItem.
From S2P Require Import BrowserURLRewriter.
From S2P Require Import NavigationManager.

Section data.
Context `{ENV : WebEnv}.

Record CRWSessionController := MkSession {
  session_browser_state_ : BrowserState;
  lastCommittedItemIndex_ : Z;
  previousItemIndex_ : Z;
  pendingItemIndex_ : Z;
  items_ : list NavigationItem;
  pendingItem_ : option NavigationItem;
  transientItem_ : option NavigationItem;
  timeSmoother_ : TimeSmoother;
}.

Definition with_lastCommittedItemIndex_ (x : Z) (s : CRWSessionController) : CRWSessionController :=
  MkSession (session_browser_state_ s) x (previousItemIndex_ s) (pendingItemIndex_ s) (items_ s) (pendingItem_ s) (transientItem_ s) (timeSmoother_ s).
Definition with_previousItemIndex_ (x : Z) (s : CRWSessionController) : CRWSessionController :=
  MkSession (session_browser_state_ s) (lastCommittedItemIndex_ s) x (pendingItemIndex_ s) (items_ s) (pendingItem_ s) (transientItem_ s) (timeSmoother_ s).
Definition with_pendingItemIndex_ (x : Z) (s : CRWSessionController) : CRWSessionController :=
  MkSession (session_browser_state_ s) (lastCommittedItemIndex_ s) (previousItemIndex_ s) x (items_ s) (pendingItem_ s) (transientItem_ s) (timeSmoother_ s).
Definition with_items_ (x : list NavigationItem) (s : CRWSessionController) : CRWSessionController :=
  MkSession (session_browser_state_ s) (lastCommittedItemIndex_ s) (previousItemIndex_ s) (pendingItemIndex_ s) x (pendingItem_ s) (transientItem_ s) (timeSmoother_ s).
Definition with_pendingItem_ (x : option NavigationItem) (s : CRWSessionController) : CRWSessionController :=
  MkSession (session_browser_state_ s) (lastCommittedItemIndex_ s) (previousItemIndex_ s) (pendingItemIndex_ s) (items_ s) x (transientItem_ s) (timeSmoother_ s).
Definition with_transientItem_ (x : option NavigationItem) (s : CRWSessionController) : CRWSessionController :=
  MkSession (session_browser_state_ s) (lastCommittedItemIndex_ s) (previousItemIndex_ s) (pendingItemIndex_ s) (items_ s) (pendingItem_ s) x (timeSmoother_ s).
Definition with_timeSmoother_ (x : TimeSmoother) (s : CRWSessionController) : CRWSessionController :=
  MkSession (session_browser_state_ s) (lastCommittedItemIndex_ s) (previousItemIndex_ s) (pendingItemIndex_ s) (items_ s) (pendingItem_ s) (transientItem_ s) x.

(** The manager with its session controller, and the reading of
    [base::Time::Now()]. *)
Record LegacyNavigationManager := MkLegacy {
  base_ : NavigationManagerBase;
  session_ : CRWSessionController;
  now_ : Z;
}.

(** A pointer to an item: the transient item, the pending item of a new
    navigation, or the item at an index. *)
Inductive session_ref := RTransient | RPending | RItem (index : Z).

#[export] Instance session_ref_eq_dec : EqDecision session_ref.
Proof. solve_decision. Defined.

(** ** Accessors *)

Definition session_item (s : CRWSessionController) (r : session_ref) : option NavigationItem :=
  match r with
  | RTransient => transientItem_ s
  | RPending => pendingItem_ s
  | RItem i => vec_at (items_ s) i
  end.

Definition set_session_item (r : session_ref) (i : NavigationItem)
    (s : CRWSessionController) : CRWSessionController :=
  match r with
  | RTransient => with_transientItem_ (Some i) s
  | RPending => with_pendingItem_ (Some i) s
  | RItem k => with_items_ (vec_set (items_ s) k i) s
  end.

Definition session_count (s : CRWSessionController) : Z := zlen (items_ s).

Definition transientItem (s : CRWSessionController) : option session_ref :=
  match transientItem_ s with Some _ => Some RTransient | None => None end.

Definition pendingItem (s : CRWSessionController) : option session_ref :=
  if pendingItemIndex_ s =? -1 then
    match pendingItem_ s with Some _ => Some RPending | None => None end
  else Some (RItem (pendingItemIndex_ s)).

Definition lastCommittedItem (s : CRWSessionController) : option session_ref :=
  if lastCommittedItemIndex_ s =? -1 then None else Some (RItem (lastCommittedItemIndex_ s)).

Definition previousItem (s : CRWSessionController) : option session_ref :=
  if (previousItemIndex_ s =? -1) || (session_count s =? 0) then None
  else Some (RItem (previousItemIndex_ s)).

Definition canPruneAllButLastCommittedItem (s : CRWSessionController) : bool :=
  negb (lastCommittedItemIndex_ s =? -1) && (pendingItemIndex_ s =? -1) &&
  is_null (transientItem s).

Definition visibleItem (s : CRWSessionController) : option session_ref :=
  match transientItem s with
  | Some r => Some r
  | None =>
      match pendingItem s with
      | Some r =>
          let isBrowserInitiated :=
            match session_item s r with
            | Some i => bool_decide (navigation_initiation_type_ i = BROWSER_INITIATED)
            | None => false
            end in
          if isBrowserInitiated && (pendingItemIndex_ s =? -1) then Some r
          else lastCommittedItem s
      | None => lastCommittedItem s
      end
  end.

Definition itemAtIndex (s : CRWSessionController) (index : Z) : option session_ref :=
  if (index <? 0) || (session_count s <=? index) then None else Some (RItem index).

(** [indexOfItem:] compares pointers. *)
Definition indexOfItem (s : CRWSessionController) (r : session_ref) : Z :=
  match r with
  | RItem i => if contains_index (items_ s) i then i else -1
  | _ => -1
  end.

(** [initWithBrowserState:] and [initWithBrowserState:navigationItems:...]. *)
Definition session_new (browser_state : BrowserState) : CRWSessionController :=
  MkSession browser_state (-1) (-1) (-1) [] None None TimeSmoother_new.

Definition session_restored (browser_state : BrowserState) (items : list NavigationItem)
    (lastCommittedItemIndex : Z) : CRWSessionController :=
  MkSession browser_state (Z.min lastCommittedItemIndex (zlen items - 1)) (-1) (-1) items
    None None TimeSmoother_new.
End data.
Arguments CRWSessionController {_}.
Arguments LegacyNavigationManager {_}.
Notation LM := (M LegacyNavigationManager).

(** ** LegacyNavigationManagerImpl: the virtual getters *)
#[export] Instance legacy_state `{ENV : WebEnv} : NavigationManagerState LegacyNavigationManager := {|
  item_ref := session_ref;
  get_base := base_;
  set_base b m := MkLegacy b (session_ m) (now_ m);
  get_item m := session_item (session_ m);
  set_item r i m := MkLegacy (base_ m) (set_session_item r i (session_ m)) (now_ m);
  manager_IsPlaceholderUrl _ := false;
|}.

#[export] Instance legacy_getters `{ENV : WebEnv} : NavigationManagerGetters LegacyNavigationManager := {|
  GetTransientItemImpl m := transientItem (session_ m) : option item_ref;
  GetPendingItemInCurrentOrRestoredSession := gets (λ m, pendingItem (session_ m));
  GetLastCommittedItemInCurrentOrRestoredSession := gets (λ m, lastCommittedItem (session_ m));
  GetLastCommittedItemIndexInCurrentOrRestoredSession m :=
    if session_count (session_ m) =? 0 then -1 else lastCommittedItemIndex_ (session_ m);
  GetItemCount m := session_count (session_ m);
  GetItemAtIndex i := gets (λ m, itemAtIndex (session_ m) i);
  IsRestoreSessionInProgress _ := false;
|}.

(** ** CRWSessionController *)
Section session.
Context `{ENV : WebEnv}.

Definition get_session : LM CRWSessionController := gets session_.
Definition set_session (s : CRWSessionController) : LM unit :=
  modify (λ m, MkLegacy (base_ m) s (now_ m)).
Definition update_session (f : CRWSessionController → CRWSessionController) : LM unit :=
  modify (λ m, MkLegacy (base_ m) (f (session_ m)) (now_ m)).

Definition currentItem : LM (option session_ref) := GetCurrentItemImpl.

Definition setLastCommittedItemIndex (lastCommittedItemIndex : Z) : LM unit :=
  s ← get_session;
  if negb (lastCommittedItemIndex_ s =? lastCommittedItemIndex) then
    update_session (with_lastCommittedItemIndex_ lastCommittedItemIndex);;
    RemoveTransientURLRewriters
  else mret tt.

Definition setPendingItemIndex (pendingItemIndex : Z) : LM unit :=
  s ← get_session;
  DCHECK (-1 <=? pendingItemIndex);;
  DCHECK (pendingItemIndex <? session_count s);;
  update_session (with_pendingItemIndex_ pendingItemIndex);;
  s ← get_session;
  DCHECK ((pendingItemIndex_ s =? -1) || negb (is_null (pendingItem s))).

Definition isRedirectTransitionForItemAtIndex (index : Z) : LM bool :=
  s ← get_session;
  DCHECK (index <? session_count s);;
  i ← at_ (items_ s) index;
  mret (negb (Z.land (GetTransitionType i) PAGE_TRANSITION_IS_REDIRECT_MASK =? 0)).

(** The loop of backwardItems from index [n] down to 1. *)
Fixpoint backward_items (n : nat) : LM (list session_ref) :=
  match n with
  | O => mret []
  | S n' =>
      redirect ← isRedirectTransitionForItemAtIndex (Z.of_nat n);
      rest ← backward_items n';
      mret (if redirect : bool then rest else RItem (Z.of_nat n') :: rest)
  end.

Definition backwardItems : LM (list session_ref) :=
  s ← get_session;
  if -1 <? lastCommittedItemIndex_ s then
    DCHECK (negb (is_null (lastCommittedItem s)));;
    items ← backward_items (Z.to_nat (lastCommittedItemIndex_ s));
    mret ((if is_null (transientItem s) then []
           else match lastCommittedItem s with Some r => [r] | None => [] end) ++ items)
  else mret [].

(** The loop of forwardItems on the items from [index] on. *)
Fixpoint forward_items (items : list NavigationItem) (index : Z) : list session_ref :=
  match items with
  | [] => []
  | i :: items' =>
      if negb (PageTransitionIsRedirect (GetTransitionType i))
      then RItem index :: forward_items items' (index + 1)
      else forward_items items' (index + 1)
  end.

Definition forwardItems (s : CRWSessionController) : list session_ref :=
  forward_items (drop (Z.to_nat (lastCommittedItemIndex_ s + 1)) (items_ s))
    (lastCommittedItemIndex_ s + 1).

Definition discardTransientItem : LM unit := update_session (with_transientItem_ None).

Definition discardNonCommittedItems : LM unit :=
  discardTransientItem;;
  update_session (with_pendingItem_ None);;
  setPendingItemIndex (-1).

Definition itemWithURL (url : GURL) (referrer : Referrer) (transition : Z)
    (initiationType : NavigationInitiationType) : LM NavigationItem :=
  CreateNavigationItem url referrer transition initiationType.

Definition shouldCreatePendingItemWithURL (URL : GURL) (transition : Z)
    (userAgentOverrideOption : UserAgentOverrideOption) : LM bool :=
  r ← currentItem;
  match r with
  | None => mret true
  | Some r =>
      current ← deref r;
      DCHECK (negb (bool_decide (userAgentOverrideOption = Override_DESKTOP)) ||
              negb (bool_decide (GetUserAgentType current = UserAgentType_DESKTOP)));;
      DCHECK (negb (bool_decide (userAgentOverrideOption = Override_MOBILE)) ||
              negb (bool_decide (GetUserAgentType current = UserAgentType_MOBILE)));;
      mret (
        let hasSameURL := bool_decide (GetURL current = URL) in
        if negb hasSameURL then true
        else
          let isPendingTransitionFormSubmit :=
            PageTransitionCoreTypeIs transition PAGE_TRANSITION_FORM_SUBMIT in
          let isCurrentTransitionFormSubmit :=
            PageTransitionCoreTypeIs (GetTransitionType current) PAGE_TRANSITION_FORM_SUBMIT in
          if isPendingTransitionFormSubmit && negb isCurrentTransitionFormSubmit then true
          else
            let isPendingTransitionReload :=
              PageTransitionCoreTypeIs transition PAGE_TRANSITION_RELOAD in
            let isInheritingUserAgentType :=
              bool_decide (userAgentOverrideOption = Override_INHERIT) in
            isPendingTransitionReload && negb isInheritingUserAgentType)
  end.

Definition addPendingItem (url : GURL) (ref : Referrer) (trans : Z)
    (initiationType : NavigationInitiationType)
    (userAgentOverrideOption : UserAgentOverrideOption) : LM unit :=
  discardTransientItem;;
  setPendingItemIndex (-1);;
  create ← shouldCreatePendingItemWithURL url trans userAgentOverrideOption;
  if negb create then mret tt
  else
    item ← itemWithURL url ref trans initiationType;
    update_session (with_pendingItem_ (Some item));;
    s ← get_session;
    DCHECK (pendingItemIndex_ s =? -1).

(** [_navigationManager->OnNavigationItemCommitted()] *)
Definition OnItemCommitted : LM unit :=
  s ← get_session;
  DCHECK (negb (is_null (lastCommittedItem s)));;
  r ← not_null (lastCommittedItem s);
  i ← deref r;
  call_delegate (OnNavigationItemCommitted (GetUniqueID i)).

Definition clearForwardItems : LM unit :=
  s ← get_session;
  DCHECK (pendingItemIndex_ s =? -1);;
  discardTransientItem;;
  s ← get_session;
  let forwardItemStartIndex := lastCommittedItemIndex_ s + 1 in
  DCHECK (0 <=? forwardItemStartIndex);;
  let itemCount := session_count s in
  if itemCount <=? forwardItemStartIndex then mret tt
  else
    whenM (forwardItemStartIndex <=? previousItemIndex_ s)
      (update_session (with_previousItemIndex_ (-1)));;
    update_session (with_items_ (take (Z.to_nat forwardItemStartIndex) (items_ s)));;
    call_delegate (OnNavigationItemsPruned (itemCount - forwardItemStartIndex)).

(** [_timeSmoother.GetSmoothedTime(base::Time::Now())] *)
Definition SmoothedNow : LM Z :=
  m ← gets id;
  let '(t, smoother) := GetSmoothedTime (timeSmoother_ (session_ m)) (now_ m) in
  update_session (with_timeSmoother_ smoother);;
  mret t.

(** Commits the pending item [r]. *)
Definition commit_pending (r : session_ref) : LM unit :=
  with_item r ResetForCommit;;
  s ← get_session;
  newItemIndex ←
    (if pendingItemIndex_ s =? -1 then
       clearForwardItems;;
       s ← get_session;
       item ← not_null (pendingItem_ s);
       update_session (λ s, with_pendingItem_ None (with_items_ (items_ s ++ [item]) s));;
       s ← get_session;
       mret (session_count s - 1)
     else mret (pendingItemIndex_ s));
  update_session (λ s, with_previousItemIndex_ (lastCommittedItemIndex_ s) s);;
  setLastCommittedItemIndex newItemIndex;;
  setPendingItemIndex (-1);;
  s ← get_session;
  DCHECK (is_null (pendingItem_ s)).

(** Stamps and announces the current item. *)
Definition announce_current : LM unit :=
  item ← currentItem;
  match item with
  | Some r =>
      t ← SmoothedNow;
      with_item r (SetTimestamp t);;
      OnItemCommitted
  | None => mret tt
  end;;
  s ← get_session;
  DCHECK (pendingItemIndex_ s =? -1).

Definition commitPendingItem : LM unit :=
  s ← get_session;
  match pendingItem s with
  | Some r => commit_pending r
  | None => mret tt
  end;;
  announce_current.

Definition addTransientItemWithURL (URL : GURL) : LM unit :=
  item ← itemWithURL URL Referrer_default PAGE_TRANSITION_CLIENT_REDIRECT BROWSER_INITIATED;
  update_session (with_transientItem_ (Some item));;
  t ← SmoothedNow;
  with_item RTransient (SetTimestamp t).

Definition pushNewItemWithURL (URL : GURL) (stateObject : option string)
    (transition : Z) : LM unit :=
  s ← get_session;
  DCHECK (is_null (pendingItem s));;
  current ← currentItem;
  DCHECK (negb (is_null current));;
  r ← not_null (lastCommittedItem s);
  last ← deref r;
  valid ← lift_res (IsHistoryStateChangeValid (GetURL last) URL);
  CHECK valid;;
  let referrer := MkReferrer (GetURL last) ReferrerPolicyDefault in
  pushed ← itemWithURL URL referrer transition BROWSER_INITIATED;
  pushed ← lift_res (SetUserAgentType (GetUserAgentType last) pushed);
  t ← SmoothedNow;
  let pushed := SetTimestamp t (SetSSL (ssl_ last)
    (SetIsCreatedFromPushState true (SetSerializedStateObject stateObject pushed))) in
  clearForwardItems;;
  update_session (λ s, with_previousItemIndex_ (lastCommittedItemIndex_ s)
    (with_items_ (items_ s ++ [pushed]) s));;
  s ← get_session;
  setLastCommittedItemIndex (session_count s - 1);;
  OnItemCommitted.

Definition copyStateFromSessionControllerAndPrune (source : CRWSessionController) : LM unit :=
  s ← get_session;
  if negb (canPruneAllButLastCommittedItem s) then mret tt
  else if session_count source =? 0 then mret tt
  else if is_null (lastCommittedItem source) then mret tt
  else
    DCHECK (-1 <? lastCommittedItemIndex_ source);;
    (if contains_index (items_ source) (lastCommittedItemIndex_ source) then mret tt
     else fail OutOfRange);;
    item ← at_ (items_ s) (lastCommittedItemIndex_ s);
    let mergedItems :=
      take (Z.to_nat (lastCommittedItemIndex_ source + 1)) (items_ source) ++ [item] in
    update_session (λ s, with_lastCommittedItemIndex_ (zlen mergedItems - 1)
      (with_previousItemIndex_ (-1) (with_items_ mergedItems s)));;
    s ← get_session;
    DCHECK (lastCommittedItemIndex_ s <? session_count s).

Definition goToItemAtIndex (index : Z) (discard : bool) : LM unit :=
  s ← get_session;
  if (index <? 0) || (session_count s <=? index) then mret tt
  else if index =? lastCommittedItemIndex_ s then mret tt
  else
    whenM discard
      (if index <? lastCommittedItemIndex_ s then discardNonCommittedItems
       else whenM (lastCommittedItemIndex_ s <? index) discardTransientItem);;
    update_session (λ s, with_lastCommittedItemIndex_ index
      (with_previousItemIndex_ (lastCommittedItemIndex_ s) s)).

Definition removeItemAtIndex (index : Z) : LM unit :=
  s ← get_session;
  DCHECK (index <? session_count s);;
  DCHECK (negb (index =? lastCommittedItemIndex_ s));;
  DCHECK (0 <=? index);;
  discardNonCommittedItems;;
  update_session (λ s, with_items_ (vec_erase (items_ s) index) s);;
  update_session (λ s, if index <? lastCommittedItemIndex_ s
    then with_lastCommittedItemIndex_ (lastCommittedItemIndex_ s - 1) s else s);;
  update_session (λ s, if index <=? previousItemIndex_ s
    then with_previousItemIndex_ (previousItemIndex_ s - 1) s else s);;
  call_delegate (OnNavigationItemsPruned 1).

(** The loop of isSameDocumentNavigationBetweenItem on the items after the
    first of the two. *)
Fixpoint same_document_items (first_url : GURL) (items : list NavigationItem) : res bool :=
  match items with
  | [] => Ok true
  | item :: items' =>
      if negb (is_created_from_push_state_ item) && negb (is_created_from_hash_change_ item)
      then Ok false
      else
        valid ← IsHistoryStateChangeValid first_url (GetURL item);
        if negb valid then Ok false else same_document_items first_url items'
  end.

Definition isSameDocumentNavigationBetweenItem (firstItem secondItem : option session_ref) : LM bool :=
  match firstItem, secondItem with
  | Some r1, Some r2 =>
      if bool_decide (r1 = r2) then mret false
      else
        first ← deref r1;
        second ← deref r2;
        if negb (bool_decide (GetOrigin (GetURL first) = GetOrigin (GetURL second)))
        then mret false
        else
          s ← get_session;
          let firstIndex := to_int32 (indexOfItem s r1) in
          let secondIndex := to_int32 (indexOfItem s r2) in
          if (firstIndex =? -1) || (secondIndex =? -1) then mret false
          else
            let startIndex := if firstIndex <? secondIndex then firstIndex else secondIndex in
            let endIndex := if firstIndex <? secondIndex then secondIndex else firstIndex in
            lift_res (same_document_items (GetURL first)
              (take (Z.to_nat (endIndex - startIndex))
                (drop (Z.to_nat (startIndex + 1)) (items_ s))))
  | _, _ => mret false
  end.
End session.
