(* ===== verification/LegacyNavigationManager.v ===== *)
(** * LegacyNavigationManagerImpl

    Models the operations of src/web/navigation/legacy_navigation_manager_impl.mm
    that call the session controller, and instantiates the virtual functions
    that NavigationManagerImpl calls. *)

From S2P Require Import Prelude.
From S2P Require Import WebEnv.
From S2P Require Import WkNavigationUtil.
From S2P Require Import NavigationItem.
From S2P Require Import BrowserURLRewriter.
From S2P Require Import NavigationManager.
From S2P Require Import SessionController.

Section legacy.
Context `{ENV : WebEnv}.

(** The manager after SetBrowserState and InitializeSession. *)
Definition InitializeSession (browser_state : BrowserState) (now : Z) : LegacyNavigationManager :=
  MkLegacy (MkBase browser_state [] 0 []) (session_new browser_state) now.

Definition AddTransientItem (url : GURL) : LM unit :=
  addTransientItemWithURL url;;
  pending ← GetPendingItem;
  item ← (match pending with
          | Some r => mret (Some r)
          | None => GetLastCommittedItemWithUserAgentType
          end);
  match item with
  | None => mret tt
  | Some r =>
      i ← deref r;
      DCHECK (negb (bool_decide (GetUserAgentType i = UserAgentType_NONE)));;
      t ← gets GetTransientItem;
      t ← not_null t;
      with_item_res t (SetUserAgentType (GetUserAgentType i))
  end.

Definition legacy_AddPendingItem (url : GURL) (referrer : Referrer) (navigation_type : Z)
    (initiation_type : NavigationInitiationType)
    (user_agent_override_option : UserAgentOverrideOption) : LM unit :=
  addPendingItem url referrer navigation_type initiation_type user_agent_override_option;;
  pending ← GetPendingItemInCurrentOrRestoredSession;
  match pending with
  | None => mret tt
  | Some r =>
      inherit_from ← GetLastCommittedItemWithUserAgentType;
      UpdatePendingItemUserAgentType user_agent_override_option inherit_from r
  end.

Definition CommitPendingItem : LM unit := commitPendingItem.
Definition DiscardNonCommittedItems : LM unit := discardNonCommittedItems.

Definition GetIndexOfItem (m : LegacyNavigationManager) (r : session_ref) : Z :=
  to_int32 (indexOfItem (session_ m) r).

Definition GetPendingItemIndex : LM Z :=
  pending ← GetPendingItem;
  if negb (is_null pending) then
    s ← get_session;
    if negb (pendingItemIndex_ s =? -1) then mret (to_int32 (pendingItemIndex_ s))
    else GetLastCommittedItemIndex
  else mret (-1).

Definition RemoveItemAtIndex (index : Z) : LM bool :=
  m ← gets id;
  last ← GetLastCommittedItemIndex;
  pending ← GetPendingItemIndex;
  if (index =? last) || (index =? pending) then mret false
  else if (index <? 0) || (GetItemCount m <=? index) then mret false
  else
    removeItemAtIndex index;;
    mret true.

Definition GetBackwardItems : LM (list session_ref) := backwardItems.
Definition GetForwardItems (m : LegacyNavigationManager) : list session_ref :=
  forwardItems (session_ m).

(** [delegate_], [WillRestore] only records a histogram. *)
Definition legacy_Restore (last_committed_item_index : Z) (items : list NavigationItem) : LM unit :=
  m ← gets id;
  pending ← GetPendingItem;
  DCHECK ((GetItemCount m =? 0) && is_null pending);;
  DCHECK (last_committed_item_index <? to_int32 (zlen items));;
  DCHECK (bool_decide (items = []) || (0 <=? last_committed_item_index));;
  set_session (session_restored (browser_state_ (base_ m)) items last_committed_item_index).

Definition CopyStateFromAndPrune (manager : LegacyNavigationManager) : LM unit :=
  copyStateFromSessionControllerAndPrune (session_ manager).

Definition CanPruneAllButLastCommittedItem (m : LegacyNavigationManager) : bool :=
  canPruneAllButLastCommittedItem (session_ m).

(** Whether the item at [index] is the result of a redirect. *)
Definition is_redirect_at (index : Z) : LM bool :=
  r ← GetItemAtIndex index;
  r ← not_null r;
  i ← deref r;
  mret (PageTransitionIsRedirect (GetTransitionType i)).

(** The inner loop going back: down to an item that is not a redirect, or 0. *)
Fixpoint skip_back (result : nat) : LM nat :=
  match result with
  | O => mret O
  | S n =>
      redirect ← is_redirect_at (Z.of_nat result);
      if negb redirect then mret result else skip_back n
  end.

(** The outer loop going back, from a positive [result]; it ends since every
    round decreases [result]. *)
Fixpoint go_back_loop (fuel : nat) (result offset : Z) : LM (Z * Z) :=
  match fuel with
  | O => mret (result, offset)
  | S fuel' =>
      if (offset <? 0) && (0 <? result) then
        n ← skip_back (Z.to_nat result);
        go_back_loop fuel' (Z.of_nat n - 1) (offset + 1)
      else mret (result, offset)
  end.

(** The inner loop going forward: over the redirects after [result]. *)
Fixpoint skip_forward (fuel : nat) (result : Z) : LM Z :=
  match fuel with
  | O => mret result
  | S fuel' =>
      c ← gets GetItemCount;
      if result + 1 <? c then
        redirect ← is_redirect_at (result + 1);
        if negb redirect then mret result else skip_forward fuel' (result + 1)
      else mret result
  end.

Fixpoint go_forward_loop (fuel : nat) (result offset : Z) : LM (Z * Z) :=
  match fuel with
  | O => mret (result, offset)
  | S fuel' =>
      c ← gets GetItemCount;
      if (0 <? offset) && (result <? c) then
        result ← skip_forward (Z.to_nat c) (result + 1);
        go_forward_loop fuel' result (offset - 1)
      else mret (result, offset)
  end.

(** The loops run at most once per item; the fuel is more than that. *)
Definition GetIndexForOffset (offset : Z) : LM Z :=
  m ← gets id;
  result ← (if pendingItemIndex_ (session_ m) =? -1 then GetLastCommittedItemIndex
            else mret (to_int32 (pendingItemIndex_ (session_ m))));
  let fuel := S (S (length (items_ (session_ m)))) in
  if offset <? 0 then
    let offset :=
      if negb (is_null (GetTransientItem m)) && (pendingItemIndex_ (session_ m) =? -1)
      then offset + 1 else offset in
    '(result, offset) ← go_back_loop fuel result offset;
    result ← int_add result offset;
    mret (if GetItemCount m <? result then INT_MIN else result)
  else if 0 <? offset then
    '(result, offset) ← go_forward_loop fuel result offset;
    result ← int_add result offset;
    mret (if result <? 0 then INT_MAX else result)
  else mret result.

Definition CanGoToOffset (offset : Z) : LM bool :=
  index ← GetIndexForOffset offset;
  c ← gets GetItemCount;
  mret ((0 <=? index) && (index <? c)).
Definition CanGoBack : LM bool := CanGoToOffset (-1).
Definition CanGoForward : LM bool := CanGoToOffset 1.

Definition legacy_FinishGoToIndex (index : Z) (type : NavigationInitiationType)
    (has_user_gesture : bool) : LM unit :=
  let to_item := RItem index in
  previous_item ← GetLastCommittedItem;
  with_item to_item (λ i,
    SetTransitionType (Z.lor (GetTransitionType i) PAGE_TRANSITION_FORWARD_BACK) i);;
  same_document_navigation ← isSameDocumentNavigationBetweenItem previous_item (Some to_item);
  if same_document_navigation : bool then
    goToItemAtIndex index true;;
    call_delegate (OnGoToIndexSameDocumentNavigation type has_user_gesture)
  else
    discardNonCommittedItems;;
    setPendingItemIndex index;;
    call_delegate (LoadCurrentItem type).

#[export] Instance legacy_actions : NavigationManagerActions LegacyNavigationManager := {|
  AddPendingItem := legacy_AddPendingItem;
  GetVisibleItem := gets (λ m, visibleItem (session_ m));
  FinishGoToIndex := legacy_FinishGoToIndex;
  FinishReload := call_delegate DelegateReload;
  FinishLoadURLWithParams type := call_delegate (LoadCurrentItem type);
|}.

Definition GoBack : LM unit :=
  index ← GetIndexForOffset (-1);
  GoToIndex index BROWSER_INITIATED true.
Definition GoForward : LM unit :=
  index ← GetIndexForOffset 1;
  GoToIndex index BROWSER_INITIATED true.

Definition GetPreviousItemIndex (m : LegacyNavigationManager) : Z :=
  previousItemIndex_ (session_ m).
Definition SetPreviousItemIndex (previous_item_index : Z) : LM unit :=
  update_session (with_previousItemIndex_ previous_item_index).

Definition AddPushStateItemIfNecessary (url : GURL) (state_object : option string)
    (transition : Z) : LM unit :=
  pushNewItemWithURL url state_object transition.
End legacy.
