(* ===== verification/SessionLemmas.v ===== *)
(** * CRWSessionController: the invariant and the effect of each operation *)

From S2P Require Import Prelude.
From S2P Require Import WebEnv.
From S2P Require Import WkNavigationUtil.
From S2P Require Import NavigationItem.
From S2P Require Import BrowserURLRewriter.
From S2P Require Import NavigationManager.
From S2P Require Import SessionController.
From S2P Require Import LegacyNavigationManager.

Section lemmas.
Context `{ENV : WebEnv}.
Implicit Types (s : CRWSessionController) (m : LegacyNavigationManager).

(** The indices of the session are -1 or indices of its items, something is
    committed whenever there are items, and a pending history navigation
    excludes a pending new one; [int] counts the items. *)
Record session_inv s : Prop := {
  si_last : -1 <= lastCommittedItemIndex_ s < session_count s;
  si_committed : lastCommittedItemIndex_ s = -1 → items_ s = [];
  si_pending : -1 <= pendingItemIndex_ s < session_count s;
  si_pending_item : pendingItemIndex_ s ≠ -1 → pendingItem_ s = None;
  si_previous : -1 <= previousItemIndex_ s < session_count s;
  si_count : session_count s < INT_MAX;
}.

Definition with_session (f : CRWSessionController → CRWSessionController) m :=
  MkLegacy (base_ m) (f (session_ m)) (now_ m).
Definition called (c : NavigationManagerCall) m : LegacyNavigationManager :=
  MkLegacy (MkBase (browser_state_ (base_ m)) (transient_url_rewriters_ (base_ m))
    (unique_id_counter (base_ m)) (delegate_calls (base_ m) ++ [c])) (session_ m) (now_ m).
Definition no_rewriters m : LegacyNavigationManager :=
  MkLegacy (MkBase (browser_state_ (base_ m)) [] (unique_id_counter (base_ m))
    (delegate_calls (base_ m))) (session_ m) (now_ m).

(** The results of the base class's getters, as functions of the state. *)
Definition current_item m : option session_ref :=
  match transientItem (session_ m) with
  | Some r => Some r
  | None =>
      match pendingItem (session_ m) with
      | Some r => Some r
      | None => lastCommittedItem (session_ m)
      end
  end.
Definition last_committed_item m : option session_ref :=
  if null_or_restore_url m (lastCommittedItem (session_ m)) then None
  else lastCommittedItem (session_ m).
Definition last_committed_index m : Z :=
  if null_or_restore_url m (lastCommittedItem (session_ m)) then -1
  else GetLastCommittedItemIndexInCurrentOrRestoredSession m.

Lemma wp_GetCurrentItemImpl Q m : wp GetCurrentItemImpl Q m ↔ Q (current_item m) m.
Proof.
  unfold GetCurrentItemImpl, current_item. wp_simp. simpl.
  destruct (transientItem (session_ m)); wp_simp; [done|].
  destruct (pendingItem (session_ m)); by wp_simp.
Qed.
Lemma wp_GetLastCommittedItem Q m : wp GetLastCommittedItem Q m ↔ Q (last_committed_item m) m.
Proof.
  unfold GetLastCommittedItem, GetLastCommittedItemImpl, last_committed_item. by wp_simp.
Qed.
Lemma wp_GetLastCommittedItemIndex Q m :
  wp GetLastCommittedItemIndex Q m ↔ Q (last_committed_index m) m.
Proof.
  unfold GetLastCommittedItemIndex, last_committed_index. wp_simp. simpl. wp_simp.
  destruct (null_or_restore_url _ _); by wp_simp.
Qed.
Lemma wp_GetPendingItem Q m : wp GetPendingItem Q m ↔ Q (pendingItem (session_ m)) m.
Proof. done. Qed.
Lemma wp_GetPendingItemInCurrent Q m :
  wp GetPendingItemInCurrentOrRestoredSession Q m ↔ Q (pendingItem (session_ m)) m.
Proof. done. Qed.
Lemma wp_GetItemAtIndex i Q m : wp (GetItemAtIndex i) Q m ↔ Q (itemAtIndex (session_ m) i) m.
Proof. done. Qed.

Lemma wp_deref (r : session_ref) Q m :
  wp (deref r) Q m ↔ ∃ i, session_item (session_ m) r = Some i ∧ Q i m.
Proof. unfold deref. by wp_simp. Qed.

Lemma wp_with_item (r : session_ref) f Q m :
  wp (with_item r f) Q m ↔ ∃ i, session_item (session_ m) r = Some i ∧
    Q tt (with_session (set_session_item r (f i)) m).
Proof. unfold with_item. wp_simp. by rewrite wp_deref. Qed.

Lemma wp_get_session Q m : wp get_session Q m ↔ Q (session_ m) m.
Proof. done. Qed.
Lemma wp_update_session f Q m : wp (update_session f) Q m ↔ Q tt (with_session f m).
Proof. done. Qed.
Lemma wp_call_delegate c Q m : wp (call_delegate c) Q m ↔ Q tt (called c m).
Proof. done. Qed.
Lemma wp_RemoveTransientURLRewriters Q m :
  wp RemoveTransientURLRewriters Q m ↔ Q tt (no_rewriters m).
Proof. done. Qed.
End lemmas.
#[export] Hint Rewrite @wp_GetCurrentItemImpl @wp_GetLastCommittedItem
  @wp_GetLastCommittedItemIndex @wp_GetPendingItem @wp_GetPendingItemInCurrent
  @wp_GetItemAtIndex @wp_deref @wp_with_item @wp_get_session @wp_update_session
  @wp_call_delegate @wp_RemoveTransientURLRewriters : wpdb.

Section effects.
Context `{ENV : WebEnv}.
Implicit Types (s : CRWSessionController) (m : LegacyNavigationManager).

Lemma session_count_nonneg s : 0 <= session_count s.
Proof. apply zlen_nonneg. Qed.

Lemma wp_no_pending_index Q m :
  Q tt (with_session (with_pendingItemIndex_ (-1)) m) → wp (setPendingItemIndex (-1)) Q m.
Proof.
  intros HQ. unfold setPendingItemIndex. wp_simp. split; [done|].
  split; [|by split]. pose proof (session_count_nonneg (session_ m)). by apply Z.ltb_lt; lia.
Qed.

Lemma wp_setLast i Q m :
  i ≠ lastCommittedItemIndex_ (session_ m) →
  Q tt (no_rewriters (with_session (with_lastCommittedItemIndex_ i) m)) →
  wp (setLastCommittedItemIndex i) Q m.
Proof.
  intros Hi HQ. unfold setLastCommittedItemIndex. wp_simp.
  rewrite (proj2 (Z.eqb_neq _ _)) by done. by wp_simp.
Qed.

(** The session without what is not committed. *)
Definition committed_only s : CRWSessionController :=
  with_pendingItemIndex_ (-1) (with_pendingItem_ None (with_transientItem_ None s)).

Lemma wp_discardNonCommittedItems Q m :
  Q tt (with_session committed_only m) → wp discardNonCommittedItems Q m.
Proof.
  intros HQ. unfold discardNonCommittedItems, discardTransientItem. wp_simp.
  by apply wp_no_pending_index.
Qed.

Lemma committed_only_inv s : session_inv s → session_inv (committed_only s).
Proof.
  intros [? ? ? ? ? ?]. split; try done. simpl.
  pose proof (session_count_nonneg s). unfold session_count in *. simpl. lia.
Qed.

(** The session without the items after the last committed one. *)
Definition pruned s : CRWSessionController :=
  with_transientItem_ None
    (with_previousItemIndex_
      (if lastCommittedItemIndex_ s + 1 <=? previousItemIndex_ s then -1 else previousItemIndex_ s)
      (with_items_ (take (Z.to_nat (lastCommittedItemIndex_ s + 1)) (items_ s)) s)).

Definition prune_calls s : list NavigationManagerCall :=
  if session_count s <=? lastCommittedItemIndex_ s + 1 then []
  else [OnNavigationItemsPruned (session_count s - (lastCommittedItemIndex_ s + 1))].

Definition calls_added (cs : list NavigationManagerCall) m : LegacyNavigationManager :=
  MkLegacy (MkBase (browser_state_ (base_ m)) (transient_url_rewriters_ (base_ m))
    (unique_id_counter (base_ m)) (delegate_calls (base_ m) ++ cs)) (session_ m) (now_ m).

Lemma pruned_count s :
  session_inv s → session_count (pruned s) = lastCommittedItemIndex_ s + 1.
Proof.
  intros [? ? ? ? ? ?]. unfold session_count, pruned in *. simpl. rewrite zlen_take; lia.
Qed.

Lemma pruned_nothing s :
  session_inv s → session_count s <= lastCommittedItemIndex_ s + 1 →
  pruned s = with_transientItem_ None s.
Proof.
  intros [? ? ? ? ? ?] Hc. unfold pruned.
  assert (previousItemIndex_ s < lastCommittedItemIndex_ s + 1) by lia.
  rewrite (proj2 (Z.leb_gt _ _)) by lia. rewrite take_ge; [by destruct s|].
  unfold session_count, zlen in *. lia.
Qed.

Lemma wp_clearForwardItems Q m :
  session_inv (session_ m) → pendingItemIndex_ (session_ m) = -1 →
  Q tt (calls_added (prune_calls (session_ m)) (with_session pruned m)) →
  wp clearForwardItems Q m.
Proof.
  intros Hinv Hp HQ. unfold clearForwardItems, discardTransientItem. wp_simp.
  split; [by apply Z.eqb_eq|]. simpl.
  change (session_count (with_transientItem_ None (session_ m))) with (session_count (session_ m)).
  pose proof (si_last _ Hinv) as Hlast.
  split; [apply Z.leb_le; lia|].
  unfold calls_added, prune_calls, with_session in HQ.
  destruct (Z.leb_spec (session_count (session_ m)) (lastCommittedItemIndex_ (session_ m) + 1)) as [Hle|Hgt].
  - wp_simp. rewrite pruned_nothing in HQ by done. simpl in HQ. rewrite app_nil_r in HQ.
    by destruct m as [[] ? ?].
  - unfold pruned in HQ. destruct (lastCommittedItemIndex_ (session_ m) + 1 <=? previousItemIndex_ (session_ m)) eqn:E;
      wp_simp; (destruct m as [[] [] ?]; simpl in *; exact HQ).
Qed.

(** ** Commits *)

Definition smoothed_now m : Z := (GetSmoothedTime (timeSmoother_ (session_ m)) (now_ m)).1.
Definition next_smoother m : TimeSmoother := (GetSmoothedTime (timeSmoother_ (session_ m)) (now_ m)).2.

Lemma wp_SmoothedNow Q m :
  wp SmoothedNow Q m ↔ Q (smoothed_now m) (with_session (with_timeSmoother_ (next_smoother m)) m).
Proof.
  unfold SmoothedNow, smoothed_now, next_smoother. wp_simp. unfold id.
  destruct (GetSmoothedTime _ _) as [t sm]. by wp_simp.
Qed.

(** Commits the pending item [p] of a new navigation. *)
Definition new_committed (p : NavigationItem) s : CRWSessionController :=
  with_lastCommittedItemIndex_ (lastCommittedItemIndex_ s + 1)
    (with_previousItemIndex_ (lastCommittedItemIndex_ s)
      (with_pendingItem_ None
        (with_items_ (items_ (pruned s) ++ [ResetForCommit p]) (pruned s)))).

Lemma new_committed_count p s :
  session_inv s → session_count (new_committed p s) = lastCommittedItemIndex_ s + 2.
Proof.
  intros Hinv. pose proof (pruned_count s Hinv) as Hc. unfold session_count in *. simpl in *.
  rewrite zlen_app, Hc. unfold zlen. simpl. lia.
Qed.

Lemma wp_commit_pending_new p Q m :
  session_inv (session_ m) → pendingItemIndex_ (session_ m) = -1 →
  pendingItem_ (session_ m) = Some p →
  Q tt (no_rewriters (calls_added (prune_calls (session_ m))
    (with_session (new_committed p) m))) →
  wp (commit_pending RPending) Q m.
Proof.
  intros Hinv Hidx Hp HQ. pose proof (si_last _ Hinv) as Hlast.
  set (m1 := with_session (with_pendingItem_ (Some (ResetForCommit p))) m).
  assert (session_inv (session_ m1)) as Hinv1 by (by destruct Hinv).
  unfold commit_pending. wp_simp. exists p. split; [done|]. wp_simp.
  change (set_session_item RPending (ResetForCommit p)) with (with_pendingItem_ (Some (ResetForCommit p))).
  fold m1. change (pendingItemIndex_ (session_ m1)) with (pendingItemIndex_ (session_ m)).
  rewrite Hidx. simpl. wp_simp.
  apply wp_clearForwardItems; [done|done|]. wp_simp.
  exists (ResetForCommit p). split; [done|]. wp_simp.
  set (m2 := with_session _ (with_session _ _)).
  assert (session_count (session_ m2) - 1 = lastCommittedItemIndex_ (session_ m) + 1) as Hcount.
  { pose proof (new_committed_count p (session_ m) Hinv) as Hc. unfold session_count in *.
    unfold m2. simpl in *. lia. }
  match goal with |- context [session_count ?x - 1] => replace (session_count x - 1) with
    (lastCommittedItemIndex_ (session_ m) + 1) by (symmetry; exact Hcount) end.
  apply wp_setLast; [unfold m2; simpl; lia|]. wp_simp.
  apply wp_no_pending_index. wp_simp. split; [done|].
  unfold m2, m1, prune_calls in *. destruct m as [[] [] ?]; simpl in *. subst. exact HQ.
Qed.

(** The rest of commitPendingItem: the current item [r] gets its timestamp and
    the commit is announced. *)
Definition stamped (r : session_ref) (i : NavigationItem) m : LegacyNavigationManager :=
  with_session (λ s, set_session_item r (SetTimestamp (smoothed_now m) i)
    (with_timeSmoother_ (next_smoother m) s)) m.

Lemma new_committed_inv p s :
  session_inv s → pendingItemIndex_ s = -1 → session_count s + 1 < INT_MAX →
  session_inv (new_committed p s).
Proof.
  intros Hinv Hp Hroom. pose proof (new_committed_count p s Hinv) as Hc.
  destruct Hinv as [? ? ? ? ? ?]. split; rewrite ?Hc; simpl; try lia.
Qed.

(** The state after the commit of a new navigation to [p]. *)
Definition committed_session p m : CRWSessionController :=
  with_items_ (items_ (pruned (session_ m)) ++ [SetTimestamp (smoothed_now m) (ResetForCommit p)])
    (with_timeSmoother_ (next_smoother m) (new_committed p (session_ m))).

Definition committed_new p m : LegacyNavigationManager :=
  MkLegacy (MkBase (browser_state_ (base_ m)) [] (unique_id_counter (base_ m))
      (delegate_calls (base_ m) ++ prune_calls (session_ m) ++
        [OnNavigationItemCommitted (GetUniqueID p)]))
    (committed_session p m) (now_ m).

Lemma committed_session_count p m :
  session_inv (session_ m) →
  session_count (committed_session p m) = lastCommittedItemIndex_ (session_ m) + 2.
Proof.
  intros Hinv. rewrite <- (new_committed_count p _ Hinv). unfold session_count. simpl.
  by rewrite !zlen_app.
Qed.

Lemma committed_session_inv p m :
  session_inv (session_ m) → pendingItemIndex_ (session_ m) = -1 →
  session_count (session_ m) + 1 < INT_MAX → session_inv (committed_session p m).
Proof.
  intros Hinv Hp Hroom. pose proof (committed_session_count p m Hinv) as Hc.
  pose proof (si_last _ Hinv). pose proof (si_committed _ Hinv).
  split; rewrite ?Hc; simpl; try lia.
Qed.

Lemma wp_commitPendingItem_new p Q m :
  session_inv (session_ m) → pendingItemIndex_ (session_ m) = -1 →
  pendingItem_ (session_ m) = Some p →
  Q tt (committed_new p m) → wp commitPendingItem Q m.
Proof.
  intros Hinv Hidx Hp HQ. unfold commitPendingItem. wp_simp.
  unfold pendingItem at 1. rewrite Hidx, Hp. simpl.
  apply (wp_commit_pending_new p); [done..|]. unfold announce_current, currentItem. wp_simp.
  set (m1 := no_rewriters _).
  assert (session_ m1 = new_committed p (session_ m)) as Hs1 by done.
  assert (zlen (items_ (pruned (session_ m))) = lastCommittedItemIndex_ (session_ m) + 1) as Hlen
    by (by apply pruned_count).
  assert (current_item m1 = Some (RItem (lastCommittedItemIndex_ (session_ m) + 1))) as ->.
  { unfold current_item. simpl. unfold pendingItem, lastCommittedItem. simpl.
    rewrite Hidx. simpl. rewrite (proj2 (Z.eqb_neq _ _)) by (pose proof (si_last _ Hinv); lia). done. }
  wp_simp. rewrite wp_SmoothedNow. wp_simp. exists (ResetForCommit p).
  split; [by apply (vec_at_last (items_ (pruned (session_ m))))|].
  unfold OnItemCommitted. wp_simp.
  set (m2 := with_session (set_session_item _ _) _).
  assert (session_ m2 = committed_session p m) as Hs2.
  { unfold committed_session, m2.
    rewrite <- (vec_set_last (items_ (pruned (session_ m))) (ResetForCommit p)
      (SetTimestamp (smoothed_now m) (ResetForCommit p)) _ Hlen). done. }
  assert (lastCommittedItem (session_ m2) = Some (RItem (lastCommittedItemIndex_ (session_ m) + 1))) as Hl.
  { rewrite Hs2. unfold lastCommittedItem. simpl.
    by rewrite (proj2 (Z.eqb_neq _ _)) by (pose proof (si_last _ Hinv); lia). }
  rewrite Hl. split; [done|]. eexists. split; [done|].
  wp_simp. eexists. split. { rewrite Hs2. by apply (vec_at_last (items_ (pruned (session_ m)))). }
  wp_simp. split.
  { apply Z.eqb_eq. change (pendingItemIndex_ (session_ m2) = -1). rewrite Hs2. exact Hidx. }
  assert (m2 = MkLegacy (base_ m2) (committed_session p m) (now_ m)) as -> by (rewrite <- Hs2; reflexivity).
  unfold called. simpl. unfold committed_new in HQ. by rewrite <- app_assoc.
Qed.

(** ** Items *)

Lemma set_session_item_inv s r i x :
  session_inv s → session_item s r = Some i → session_inv (set_session_item r x s).
Proof.
  intros [Hl Hc Hp Hpi Hv Hn] Hi. destruct r as [| |k].
  - by split.
  - split; try done. simpl in *. intros Hne. by rewrite Hpi in Hi.
  - assert (session_count (set_session_item (RItem k) x s) = session_count s) as E
      by apply zlen_vec_set.
    split; rewrite ?E; simpl in *; try done.
    intros Hlast. rewrite Hc in Hi by done. apply vec_at_Some_range in Hi.
    unfold zlen in Hi. simpl in Hi. lia.
Qed.

Lemma current_item_exists s m r :
  s = session_ m → session_inv s → current_item m = Some r →
  ∃ i, session_item s r = Some i.
Proof.
  intros -> [Hl Hc Hp Hpi Hv Hn]. unfold current_item. simpl.
  unfold transientItem, pendingItem, lastCommittedItem.
  destruct (transientItem_ (session_ m)) eqn:Ht; simpl.
  { intros [= <-]. by eexists. }
  destruct (Z.eqb_spec (pendingItemIndex_ (session_ m)) (-1)).
  - destruct (pendingItem_ (session_ m)) eqn:Hpe; simpl.
    { intros [= <-]. by eexists. }
    destruct (Z.eqb_spec (lastCommittedItemIndex_ (session_ m)) (-1)); [done|].
    intros [= <-]. apply vec_at_in_range. unfold session_count in *. lia.
  - intros [= <-]. apply vec_at_in_range. unfold session_count in *. lia.
Qed.

Lemma last_item_exists s :
  session_inv s → lastCommittedItemIndex_ s ≠ -1 →
  lastCommittedItem s = Some (RItem (lastCommittedItemIndex_ s)) ∧
  ∃ i, vec_at (items_ s) (lastCommittedItemIndex_ s) = Some i.
Proof.
  intros [Hl Hc Hp Hpi Hv Hn] Hne. unfold lastCommittedItem.
  rewrite (proj2 (Z.eqb_neq _ _)) by done. split; [done|].
  apply vec_at_in_range. unfold session_count in *. lia.
Qed.

Definition base_counter m : Z := unique_id_counter (base_ m).

Lemma wp_announce_current Q m :
  session_inv (session_ m) → pendingItemIndex_ (session_ m) = -1 →
  (current_item m ≠ None → lastCommittedItemIndex_ (session_ m) ≠ -1) →
  (∀ m', session_inv (session_ m') → base_counter m' = base_counter m → Q tt m') →
  wp announce_current Q m.
Proof.
  intros Hinv Hidx Hcur HQ. unfold announce_current, currentItem. wp_simp.
  destruct (current_item m) as [r|] eqn:Hr.
  2:{ wp_simp. split; [by apply Z.eqb_eq|]. by apply HQ. }
  destruct (current_item_exists _ m r eq_refl Hinv Hr) as [i Hi].
  destruct (last_item_exists _ Hinv) as [Hlast [li Hli]]; [by apply Hcur|].
  wp_simp. rewrite wp_SmoothedNow. wp_simp. exists i.
  split; [by destruct r|]. unfold OnItemCommitted. wp_simp.
  set (m2 := with_session _ _).
  assert (session_inv (session_ m2)) as Hinv2.
  { unfold m2. simpl. apply (set_session_item_inv _ _ i); [|by destruct r]. by destruct Hinv. }
  assert (lastCommittedItemIndex_ (session_ m2) = lastCommittedItemIndex_ (session_ m)) as Hl2
    by (by destruct r).
  destruct (last_item_exists _ Hinv2) as [Hlast2 [li2 Hli2]]; [rewrite Hl2; by apply Hcur|].
  rewrite Hlast2. split; [done|]. eexists. split; [done|]. wp_simp. exists li2.
  split; [exact Hli2|]. wp_simp. split; [by destruct r; apply Z.eqb_eq|].
  by apply HQ; [|destruct r].
Qed.

(** ** Every commit *)

Lemma wp_commitPendingItem_none Q m :
  session_inv (session_ m) → pendingItemIndex_ (session_ m) = -1 →
  pendingItem_ (session_ m) = None →
  (lastCommittedItemIndex_ (session_ m) ≠ -1 ∨ transientItem_ (session_ m) = None) →
  (∀ m', session_inv (session_ m') → base_counter m' = base_counter m → Q tt m') →
  wp commitPendingItem Q m.
Proof.
  intros Hinv Hidx Hp Hok HQ.
  unfold commitPendingItem. wp_simp. unfold pendingItem at 1. rewrite Hidx, Hp. simpl. wp_simp.
  apply wp_announce_current; [done|done| |done].
  unfold current_item. simpl.
  destruct (Z.eqb_spec (lastCommittedItemIndex_ (session_ m)) (-1)) as [E|]; [|done].
  destruct Hok as [?|Ht]; [done|]. unfold transientItem, pendingItem, lastCommittedItem.
  by rewrite Ht, Hidx, Hp, E.
Qed.

(** A pending item among the committed ones becomes the last committed one. *)
Lemma wp_commitPendingItem_index Q m :
  session_inv (session_ m) → pendingItemIndex_ (session_ m) ≠ -1 →
  (∀ m', session_inv (session_ m') → base_counter m' = base_counter m → Q tt m') →
  wp commitPendingItem Q m.
Proof.
  intros Hinv Hidx HQ.
  unfold commitPendingItem. wp_simp. unfold pendingItem at 1.
  rewrite (proj2 (Z.eqb_neq _ _)) by done.
  unfold commit_pending. wp_simp.
  set (k := pendingItemIndex_ (session_ m)) in *.
  destruct (vec_at_in_range (items_ (session_ m)) k) as [i Hi].
  { pose proof (si_pending _ Hinv). unfold session_count, k in *. lia. }
  exists i. split; [exact Hi|]. wp_simp.
  set (m1 := with_session _ _).
  assert (session_inv (session_ m1)) as Hinv1 by (by apply (set_session_item_inv _ _ i)).
  change (pendingItemIndex_ (session_ m1)) with k.
  rewrite (proj2 (Z.eqb_neq _ _)) by done. wp_simp.
  set (m2 := with_session (λ s, with_previousItemIndex_ (lastCommittedItemIndex_ s) s) m1).
  assert (wp (setLastCommittedItemIndex k) (λ _ m', m' = with_session (with_lastCommittedItemIndex_ k) m2 ∨
    m' = no_rewriters (with_session (with_lastCommittedItemIndex_ k) m2)) m2) as Hset.
  { destruct (decide (k = lastCommittedItemIndex_ (session_ m2))) as [E|Hne].
    - unfold setLastCommittedItemIndex. wp_simp. rewrite <- E, Z.eqb_refl. simpl. wp_simp.
      left. rewrite E. by destruct m as [? [] ?].
    - apply wp_setLast; [done|]. by right. }
  eapply wp_mono; [|exact Hset]. intros [] m3 Hm3.
  assert (session_ m3 = with_lastCommittedItemIndex_ k (session_ m2) ∧ base_counter m3 = base_counter m)
    as [Hs3 Hb3] by (by destruct Hm3 as [->| ->]).
  wp_simp. apply wp_no_pending_index. wp_simp.
  pose proof (si_pending _ Hinv1) as Hk. change (pendingItemIndex_ (session_ m1)) with k in Hk.
  pose proof (si_last _ Hinv1). pose proof (si_count _ Hinv1).
  assert (session_inv (with_pendingItemIndex_ (-1) (session_ m3))) as Hinv3.
  { rewrite Hs3. split; simpl; try done; try (change (session_count _) with (session_count (session_ m1)); lia). }
  split. { change (is_null (pendingItem_ (session_ m3)) = true). rewrite Hs3. simpl.
    by rewrite (si_pending_item _ Hinv). }
  apply wp_announce_current; [done|done| |].
  { intros _. simpl. rewrite Hs3. done. }
  intros m' Hm' Hb'. apply HQ; [done|]. rewrite Hb'. exact Hb3.
Qed.

Lemma wp_commitPendingItem_inv Q m :
  session_inv (session_ m) → session_count (session_ m) + 1 < INT_MAX →
  (pendingItem (session_ m) ≠ None ∨ lastCommittedItemIndex_ (session_ m) ≠ -1 ∨
    transientItem_ (session_ m) = None) →
  (∀ m', session_inv (session_ m') → base_counter m' = base_counter m → Q tt m') →
  wp commitPendingItem Q m.
Proof.
  intros Hinv Hroom Hok HQ.
  destruct (decide (pendingItemIndex_ (session_ m) = -1)) as [Hidx|Hidx];
    [|by apply wp_commitPendingItem_index].
  destruct (pendingItem_ (session_ m)) as [p|] eqn:Hp.
  - apply (wp_commitPendingItem_new p); [done..|]. apply HQ; [|done].
    by apply committed_session_inv.
  - apply wp_commitPendingItem_none; try done. destruct Hok as [Hpend|?]; [|done].
    unfold pendingItem in Hpend. by rewrite Hidx, Hp in Hpend.
Qed.
End effects.
