(* ===== verification/SessionSpec.v ===== *)
(** * The session history: correctness

    Commits, every other change of the history, the offsets of back and
    forward, and the URLs a page may have loaded. *)

From S2P Require Import Prelude.
From S2P Require Import WebEnv.
From S2P Require Import WkNavigationUtil.
From S2P Require Import NavigationItem.
From S2P Require Import BrowserURLRewriter.
From S2P Require Import NavigationManager.
From S2P Require Import SessionController.
From S2P Require Import LegacyNavigationManager.
From S2P Require Import SessionLemmas.

Section spec.
Context `{ENV : WebEnv} `{LAWS : !WebEnvLaws}.
Implicit Types (s : CRWSessionController) (m : LegacyNavigationManager).

(** ** New items *)

(** The manager after an item was created. *)
Definition item_created m : LegacyNavigationManager :=
  MkLegacy (MkBase (browser_state_ (base_ m)) [] (base_counter m + 1)
    (delegate_calls (base_ m))) (session_ m) (now_ m).

Lemma wp_GetUniqueID Q m :
  0 <= base_counter m < INT_MAX →
  Q (base_counter m + 1) (MkLegacy (MkBase (browser_state_ (base_ m))
    (transient_url_rewriters_ (base_ m)) (base_counter m + 1) (delegate_calls (base_ m)))
    (session_ m) (now_ m)) → wp GetUniqueIDInConstructor Q m.
Proof.
  unfold base_counter. intros Hc HQ. unfold GetUniqueIDInConstructor, int_add. wp_simp.
  assert (in_int (unique_id_counter (base_ m) + 1) = true) as Hint.
  { unfold in_int, INT_MIN. rewrite andb_true_iff, !Z.leb_le. unfold INT_MAX in *. lia. }
  simpl. rewrite Hint. by wp_simp.
Qed.

(** The URL of the page a new item is requested from. *)
Definition previous_url m : GURL :=
  match last_committed_item m ≫= session_item (session_ m) with
  | Some i => GetURL i
  | None => EmptyGURL
  end.

(** What CreateNavigationItem makes of a request. *)
Definition item_made (url : GURL) (ref : Referrer) (tr : Z) (init : NavigationInitiationType)
    m (i : NavigationItem) : Prop :=
  GetURL i = loaded_url url init (previous_url m) (browser_state_ (base_ m)) false
    (transient_url_rewriters_ (base_ m)) ∧
  GetOriginalRequestURL i = GetURL i ∧ GetReferrer i = ref ∧ GetTransitionType i = tr ∧
  navigation_initiation_type_ i = init ∧
  (GetUserAgentType i = UserAgentType_NONE ↔ URLNeedsUserAgentType (GetURL i) = false).

Lemma wp_CreateNavigationItem_made url ref tr init (Q : NavigationItem → LegacyNavigationManager → Prop) m :
  session_inv (session_ m) → 0 <= base_counter m < INT_MAX →
  (∀ i, item_made url ref tr init m i → Q i (item_created m)) →
  wp (CreateNavigationItem url ref tr init) Q m.
Proof using All.
  intros Hinv Hc HQ. unfold CreateNavigationItem. wp_simp.
  assert (wp (b ← gets get_base;
        item ← CreateNavigationItemWithRewriters url ref tr init (previous_url m)
                 (transient_url_rewriters_ b);
        RemoveTransientURLRewriters;; mret item) Q m) as Hrest.
  { unfold CreateNavigationItemWithRewriters. wp_simp.
    change (manager_IsPlaceholderUrl url) with false. change (get_base m) with (base_ m).
    set (loaded := loaded_url _ _ _ _ _ _) in *.
    apply wp_GetUniqueID; [done|]. wp_simp.
    destruct (URLNeedsUserAgentType loaded) eqn:Hu; simpl; wp_simp.
    { apply HQ. split_and!; try done. simpl. change (GetURL _) with loaded. by rewrite Hu. }
    unfold SetUserAgentType, GetVirtualURL. simpl.
    rewrite law_empty_is_empty, Hu. simpl. wp_simp. apply HQ. by split_and!. }
  revert Hrest. unfold previous_url.
  destruct (last_committed_item m) as [r|] eqn:Hr; simpl; wp_simp; [|done].
  revert Hr. unfold last_committed_item, null_or_restore_url. simpl.
  destruct (lastCommittedItem (session_ m)) as [r'|] eqn:Hl; simpl; [|done].
  destruct (session_item (session_ m) r') as [i|] eqn:Hi; simpl; [|done].
  destruct (IsRestoreSessionUrl (GetURL i)); [done|]. intros [= <-].
  rewrite Hi. intros Hrest. exists i. split; [done|]. by wp_simp.
Qed.

Lemma wp_CreateNavigationItem url ref tr init (Q : NavigationItem → LegacyNavigationManager → Prop) m :
  session_inv (session_ m) → 0 <= base_counter m < INT_MAX →
  (∀ i, Q i (item_created m)) → wp (CreateNavigationItem url ref tr init) Q m.
Proof using All. intros. by apply wp_CreateNavigationItem_made. Qed.

(** A navigation a page asks for never loads an app-specific URL the page
    did not name itself: unless the page is app-specific, URL rewriters cannot
    turn the request into one.  The item keeps the request and gets the user
    agent NONE exactly when its URL needs no user agent. *)
Theorem CreateNavigationItem_protects_app_urls url ref tr m :
  session_inv (session_ m) → 0 <= base_counter m < INT_MAX →
  IsAppSpecificURL (previous_url m) = false → IsAppSpecificURL url = false →
  ∃ i m', CreateNavigationItem url ref tr RENDERER_INITIATED m = Ok (i, m') ∧
    IsAppSpecificURL (GetURL i) = false ∧ GetOriginalRequestURL i = GetURL i ∧
    GetReferrer i = ref ∧ GetTransitionType i = tr ∧
    (GetUserAgentType i = UserAgentType_NONE ↔ URLNeedsUserAgentType (GetURL i) = false) ∧
    transient_url_rewriters_ (base_ m') = [] ∧ session_ m' = session_ m.
Proof using All.
  intros Hinv Hc Hprev Hurl. apply wp_run.
  apply wp_CreateNavigationItem_made; [done..|].
  intros i (Hu & Ho & Hr & Ht & _ & Hua). split_and!; try done.
  rewrite Hu. unfold loaded_url. rewrite bool_decide_eq_true_2 by done. simpl.
  set (loaded := let '(_, _) := _ in _).
  destruct (IsAppSpecificURL loaded) eqn:Happ; [|by rewrite andb_false_r].
  rewrite Hprev. case_bool_decide as Heq; simpl; [by rewrite Heq|done].
Qed.

(** ** Every operation of the session *)

Definition minv m : Prop := session_inv (session_ m) ∧ 0 <= base_counter m.

Lemma wp_addPendingItem url ref tr init Q m :
  minv m → base_counter m < INT_MAX →
  (∀ m', minv m' → items_ (session_ m') = items_ (session_ m) →
    lastCommittedItemIndex_ (session_ m') = lastCommittedItemIndex_ (session_ m) → Q tt m') →
  wp (addPendingItem url ref tr init Override_INHERIT) Q m.
Proof using All.
  intros [Hinv Hc] Hmax HQ. unfold addPendingItem, discardTransientItem. wp_simp.
  apply wp_no_pending_index. wp_simp.
  set (m1 := with_session (with_pendingItemIndex_ (-1)) _).
  assert (session_inv (session_ m1)) as Hinv1.
  { destruct Hinv as [? ? ? ? ? ?]. split; try done. simpl.
    change (-1 <= -1 < session_count (session_ m)). pose proof (session_count_nonneg (session_ m)). lia. }
  unfold shouldCreatePendingItemWithURL, currentItem. wp_simp.
  assert (∀ b : bool, wp (if negb b then mret tt
    else item ← itemWithURL url ref tr init;
         update_session (with_pendingItem_ (Some item));;
         s ← get_session; DCHECK (pendingItemIndex_ s =? -1)) Q m1) as Hrest.
  { intros b. destruct b; simpl; wp_simp; [|by apply HQ].
    unfold itemWithURL. apply wp_CreateNavigationItem; [done|done|]. intros i. wp_simp.
    split; [done|]. apply HQ; try done. split; [by destruct Hinv1|].
    change (0 <= base_counter m + 1). lia. }
  destruct (current_item m1) as [r|] eqn:Hr; wp_simp; [|exact (Hrest true)].
  destruct (current_item_exists _ m1 r eq_refl Hinv1 Hr) as [i Hi].
  exists i. split; [exact Hi|]. wp_simp. split; [done|]. split; [done|]. apply Hrest.
Qed.

Lemma wp_addTransientItem url Q m :
  minv m → base_counter m < INT_MAX → (∀ m', minv m' → Q tt m') →
  wp (addTransientItemWithURL url) Q m.
Proof using All.
  intros [Hinv Hc] Hmax HQ. unfold addTransientItemWithURL, itemWithURL. wp_simp.
  apply wp_CreateNavigationItem; [done|done|]. intros i. wp_simp. rewrite wp_SmoothedNow.
  wp_simp. exists i. split; [done|]. apply HQ.
  split; [by destruct Hinv|]. change (0 <= base_counter m + 1). lia.
Qed.

Lemma wp_goToItemAtIndex i d Q m :
  minv m → (∀ m', minv m' → Q tt m') → wp (goToItemAtIndex i d) Q m.
Proof.
  intros [Hinv Hc] HQ. unfold goToItemAtIndex. wp_simp.
  destruct (Z.ltb_spec i 0); simpl; wp_simp; [by apply HQ|].
  destruct (Z.leb_spec (session_count (session_ m)) i); wp_simp; [by apply HQ|].
  destruct (Z.eqb_spec i (lastCommittedItemIndex_ (session_ m))); wp_simp; [by apply HQ|].
  assert (∀ m1, minv m1 → session_count (session_ m1) = session_count (session_ m) →
    wp (update_session (λ s, with_lastCommittedItemIndex_ i
      (with_previousItemIndex_ (lastCommittedItemIndex_ s) s))) Q m1) as Hgo.
  { intros m1 [Hinv1 Hc1] Hcount. wp_simp. apply HQ. split; [|done].
    destruct Hinv1 as [Hl Hco Hp Hpi Hv Hn]. split; try done; simpl; try lia.
    change (-1 <= i < session_count (session_ m1)). lia. }
  destruct d; [|by apply Hgo]. case_if.
  - apply wp_discardNonCommittedItems. by apply Hgo; [split; [apply committed_only_inv|]|].
  - wp_simp. case_if; [|by apply Hgo]. unfold discardTransientItem. wp_simp.
    apply Hgo; [|done]. split; [by destruct Hinv|done].
Qed.

Lemma wp_removeItemAtIndex i Q m :
  minv m → 0 <= i < session_count (session_ m) → i ≠ lastCommittedItemIndex_ (session_ m) →
  (∀ m', minv m' → items_ (session_ m') = vec_erase (items_ (session_ m)) i → Q tt m') →
  wp (removeItemAtIndex i) Q m.
Proof.
  intros [Hinv Hc] Hi Hne HQ. unfold removeItemAtIndex. wp_simp.
  split; [by apply Z.ltb_lt; lia|]. split; [by rewrite (proj2 (Z.eqb_neq _ _))|].
  split; [by apply Z.leb_le; lia|].
  apply wp_discardNonCommittedItems. wp_simp.
  destruct Hinv as [Hl Hco Hp Hpi Hv Hn].
  assert (zlen (vec_erase (items_ (session_ m)) i) = session_count (session_ m) - 1) as Hlen
    by (by apply zlen_vec_erase).
  assert (0 <= lastCommittedItemIndex_ (session_ m)) as Hpos.
  { destruct (decide (lastCommittedItemIndex_ (session_ m) = -1)) as [E|]; [|lia].
    unfold session_count in Hi. rewrite Hco in Hi by done. unfold zlen in Hi. simpl in Hi. lia. }
  apply HQ; [|by simpl; repeat case_if]. split; [|done].
  simpl. destruct (Z.ltb_spec i (lastCommittedItemIndex_ (session_ m))); simpl;
    (destruct (Z.leb_spec i (previousItemIndex_ (session_ m))); simpl);
    (split; unfold session_count; simpl; rewrite ?Hlen; try done; try lia).
Qed.

(** The last committed item is not a page that restores a session. *)
Definition last_not_restoring s : Prop :=
  ∀ i, vec_at (items_ s) (lastCommittedItemIndex_ s) = Some i → IsRestoreSessionUrl (GetURL i) = false.

Lemma GetLastCommittedItemIndex_legacy m :
  session_inv (session_ m) → last_not_restoring (session_ m) →
  last_committed_index m = lastCommittedItemIndex_ (session_ m).
Proof.
  intros Hinv Hr. unfold last_committed_index, null_or_restore_url. simpl.
  destruct (decide (lastCommittedItemIndex_ (session_ m) = -1)) as [E|Hne].
  { unfold lastCommittedItem. by rewrite E. }
  destruct (last_item_exists _ Hinv Hne) as [-> [i Hi]]. simpl. rewrite Hi, Hr by done.
  destruct (Z.eqb_spec (session_count (session_ m)) 0); [|done].
  pose proof (si_last _ Hinv). lia.
Qed.

Lemma wp_GetPendingItemIndex (Q : Z → LegacyNavigationManager → Prop) m :
  (∀ p, Q p m) → wp GetPendingItemIndex Q m.
Proof.
  intros HQ. unfold GetPendingItemIndex. wp_simp.
  destruct (pendingItem (session_ m)); simpl; wp_simp; [|apply HQ].
  destruct (pendingItemIndex_ (session_ m) =? -1); simpl; wp_simp; apply HQ.
Qed.

Lemma wp_RemoveItemAtIndex i Q m :
  minv m → last_not_restoring (session_ m) →
  Q false m →
  (∀ m', minv m' → items_ (session_ m') = vec_erase (items_ (session_ m)) i → Q true m') →
  wp (RemoveItemAtIndex i) Q m.
Proof.
  intros Hinv Hr Hf Ht. unfold RemoveItemAtIndex. wp_simp. unfold id.
  rewrite GetLastCommittedItemIndex_legacy by (by destruct Hinv || done).
  apply wp_GetPendingItemIndex. intros p.
  destruct (Z.eqb_spec i (lastCommittedItemIndex_ (session_ m))); simpl; wp_simp; [done|].
  case_if; wp_simp; [done|].
  destruct ((i <? 0) || (session_count (session_ m) <=? i)) eqn:Hrange; wp_simp; [done|].
  bool_to_prop. apply wp_removeItemAtIndex; [done|lia|done|].
  intros m' Hm' Hitems. wp_simp. by apply Ht.
Qed.

Lemma wp_copyState src Q m :
  minv m → session_inv src → lastCommittedItemIndex_ src + 2 < INT_MAX →
  (∀ m', minv m' → Q tt m') → wp (copyStateFromSessionControllerAndPrune src) Q m.
Proof.
  intros [Hinv Hc] Hsrc Hroom HQ. unfold copyStateFromSessionControllerAndPrune. wp_simp.
  unfold canPruneAllButLastCommittedItem.
  destruct (Z.eqb_spec (lastCommittedItemIndex_ (session_ m)) (-1)); simpl; wp_simp; [by apply HQ|].
  destruct (Z.eqb_spec (pendingItemIndex_ (session_ m)) (-1)); simpl; wp_simp; [|by apply HQ].
  destruct (is_null _); simpl; wp_simp; [|by apply HQ].
  case_if; wp_simp; [by apply HQ|].
  destruct (decide (lastCommittedItemIndex_ src = -1)) as [E|Hne].
  { unfold lastCommittedItem. rewrite E. simpl. wp_simp. by apply HQ. }
  destruct (last_item_exists _ Hsrc Hne) as [-> [si Hsi]]. simpl. wp_simp.
  pose proof (si_last _ Hsrc) as Hls. split; [by apply Z.ltb_lt; lia|].
  rewrite (proj2 (contains_index_spec _ _)) by (unfold session_count in *; lia). wp_simp.
  destruct (last_item_exists _ Hinv) as [_ [li Hli]]; [done|].
  exists li. split; [exact Hli|]. wp_simp.
  set (merged := take _ _ ++ [li]).
  assert (zlen merged = lastCommittedItemIndex_ src + 2) as Hlen.
  { unfold merged. rewrite zlen_app, zlen_take by lia. unfold session_count in *.
    replace (zlen [li]) with 1 by done. lia. }
  destruct Hinv as [Hl Hco Hp Hpi Hv Hn].
  split; [apply Z.ltb_lt; unfold session_count; simpl; lia|]. apply HQ. split; [|done].
  split; unfold session_count; simpl; rewrite ?Hlen; try done; try lia.
Qed.

(** The calls on the session controller and on the manager that own it. *)
Inductive session_op :=
  | OpAddPendingItem (url : GURL) (ref : Referrer) (tr : Z) (init : NavigationInitiationType)
  | OpAddTransientItem (url : GURL)
  | OpAddTransientURLRewriter (rewriter : URLRewriter)
  | OpCommitPendingItem
  | OpDiscardNonCommittedItems
  | OpGoToItemAtIndex (index : Z) (discard : bool)
  | OpLoadItemAtIndex (index : Z)
  | OpRemoveItemAtIndex (index : Z)
  | OpCopyStateFromAndPrune (manager : LegacyNavigationManager).

Definition run_session_op (op : session_op) : LM unit :=
  match op with
  | OpAddPendingItem url ref tr init => addPendingItem url ref tr init Override_INHERIT
  | OpAddTransientItem url => addTransientItemWithURL url
  | OpAddTransientURLRewriter r => AddTransientURLRewriter r
  | OpCommitPendingItem => CommitPendingItem
  | OpDiscardNonCommittedItems => DiscardNonCommittedItems
  | OpGoToItemAtIndex i d => goToItemAtIndex i d
  | OpLoadItemAtIndex i => discardNonCommittedItems;; setPendingItemIndex i
  | OpRemoveItemAtIndex i => RemoveItemAtIndex i;; mret tt
  | OpCopyStateFromAndPrune m => CopyStateFromAndPrune m
  end.

(** What the callers owe. *)
Definition session_op_ok m (op : session_op) : Prop :=
  match op with
  | OpAddPendingItem _ _ _ _ | OpAddTransientItem _ => base_counter m < INT_MAX
  | OpCommitPendingItem => session_count (session_ m) + 1 < INT_MAX ∧
      (pendingItem (session_ m) ≠ None ∨ lastCommittedItemIndex_ (session_ m) ≠ -1 ∨
        transientItem_ (session_ m) = None)
  | OpLoadItemAtIndex i => 0 <= i < session_count (session_ m)
  | OpRemoveItemAtIndex _ => last_not_restoring (session_ m)
  | OpCopyStateFromAndPrune src => session_inv (session_ src) ∧
      lastCommittedItemIndex_ (session_ src) + 2 < INT_MAX
  | _ => True
  end.

Definition session_step m (op : session_op) m' : Prop :=
  session_op_ok m op ∧ run_session_op op m = Ok (tt, m').

Lemma wp_run_session_op op m :
  minv m → session_op_ok m op → wp (run_session_op op) (λ _, minv) m.
Proof using All.
  intros Hm Hok. destruct op; simpl in *.
  - by apply wp_addPendingItem.
  - by apply wp_addTransientItem.
  - done.
  - destruct Hm, Hok. apply wp_commitPendingItem_inv; [done..|].
    intros m' Hm' Hb. split; [done|]. by rewrite Hb.
  - apply wp_discardNonCommittedItems. destruct Hm. by split; [apply committed_only_inv|].
  - by apply wp_goToItemAtIndex.
  - wp_simp. apply wp_discardNonCommittedItems. unfold setPendingItemIndex. wp_simp.
    destruct Hm as [Hinv Hc]. apply committed_only_inv in Hinv as Hco.
    assert (session_count (committed_only (session_ m)) = session_count (session_ m)) as Hcount by done.
    split; [apply Z.leb_le; lia|]. split; [apply Z.ltb_lt; simpl; lia|].
    split. { unfold pendingItem. simpl. by destruct (index =? -1). }
    split; [|done]. destruct Hinv. split; try done. simpl.
    change (-1 <= index < session_count (session_ m)). lia.
  - wp_simp. apply wp_RemoveItemAtIndex; [done|done| |]; by intros; wp_simp.
  - destruct Hok. by apply wp_copyState.
Qed.


(** ** Commits *)

(** C24: committing a new navigation drops the items after the last committed
    one (and says how many), appends the pending item with its initiation type
    reset and a smoothed timestamp, makes it the last committed item and the
    old one the previous item, discards the transient item and the transient
    URL rewriters, and announces the commit. *)
Theorem commitPendingItem_new_navigation p m :
  session_inv (session_ m) → pendingItemIndex_ (session_ m) = -1 →
  pendingItem_ (session_ m) = Some p →
  let s := session_ m in let next := lastCommittedItemIndex_ s + 1 in
  ∃ m' t, commitPendingItem m = Ok (tt, m') ∧ let s' := session_ m' in
    t = fst (GetSmoothedTime (timeSmoother_ s) (now_ m)) ∧
    items_ s' = take (Z.to_nat next) (items_ s) ++ [SetTimestamp t (ResetForCommit p)] ∧
    lastCommittedItemIndex_ s' = next ∧ previousItemIndex_ s' = lastCommittedItemIndex_ s ∧
    pendingItem_ s' = None ∧ pendingItemIndex_ s' = -1 ∧ transientItem_ s' = None ∧
    transient_url_rewriters_ (base_ m') = [] ∧
    delegate_calls (base_ m') = delegate_calls (base_ m) ++
      (if session_count s <=? next then [] else [OnNavigationItemsPruned (session_count s - next)]) ++
      [OnNavigationItemCommitted (GetUniqueID p)].
Proof.
  intros Hinv Hidx Hp s next.
  assert (wp commitPendingItem (λ _ m', m' = committed_new p m) m) as ([] & m' & Hrun & ->)%wp_run
    by (by apply (wp_commitPendingItem_new p)).
  exists (committed_new p m), (smoothed_now m). split; [done|]. by split_and!.
Qed.

(** ** Offsets *)

Definition redirect_at m (j : Z) : bool :=
  match vec_at (items_ (session_ m)) j with
  | Some i => PageTransitionIsRedirect (GetTransitionType i)
  | None => false
  end.

Lemma wp_is_redirect_at j Q m :
  0 <= j < session_count (session_ m) → Q (redirect_at m j) m → wp (is_redirect_at j) Q m.
Proof.
  intros Hj HQ. unfold is_redirect_at. wp_simp. simpl. unfold itemAtIndex.
  rewrite (proj2 (Z.ltb_ge _ _)), (proj2 (Z.leb_gt _ _)) by lia. simpl.
  exists (RItem j). split; [done|]. wp_simp.
  destruct (vec_at_in_range (items_ (session_ m)) j Hj) as [i Hi].
  exists i. split; [done|]. wp_simp. unfold redirect_at in HQ. by rewrite Hi in HQ.
Qed.

Lemma wp_skip_back n Q m :
  Z.of_nat n < session_count (session_ m) →
  (∀ j : nat, (j <= n)%nat → (∀ k, Z.of_nat j < k <= Z.of_nat n → redirect_at m k = true) →
    (j = O ∨ redirect_at m (Z.of_nat j) = false) → Q j m) →
  wp (skip_back n) Q m.
Proof.
  revert Q. induction n as [|n IH]; intros Q Hn HQ; simpl; wp_simp.
  { apply HQ; [lia|lia|by left]. }
  apply wp_is_redirect_at; [lia|].
  destruct (redirect_at m (Z.of_nat (S n))) eqn:Hr; simpl; wp_simp.
  - apply IH; [lia|]. intros j Hj Hall Hend. apply HQ; [lia| |done].
    intros k Hk. destruct (decide (k = Z.of_nat (S n))) as [->|]; [done|]. apply Hall. lia.
  - apply HQ; [lia|lia|]. by right.
Qed.

Lemma wp_skip_forward fuel r Q m :
  r < session_count (session_ m) → 0 <= r → session_count (session_ m) - r <= Z.of_nat fuel →
  (∀ j, r <= j < session_count (session_ m) →
    (∀ k, r < k <= j → redirect_at m k = true) →
    (j + 1 = session_count (session_ m) ∨ redirect_at m (j + 1) = false) → Q j m) →
  wp (skip_forward fuel r) Q m.
Proof.
  revert r Q. induction fuel as [|fuel IH]; intros r Q Hr Hr0 Hf HQ; simpl; wp_simp; [lia|].
  change (GetItemCount m) with (session_count (session_ m)).
  destruct (Z.ltb_spec (r + 1) (session_count (session_ m))); wp_simp.
  2:{ apply HQ; [lia|lia|]. left. lia. }
  apply wp_is_redirect_at; [lia|].
  destruct (redirect_at m (r + 1)) eqn:Hred; simpl; wp_simp.
  - apply IH; [lia..|]. intros j Hj Hall Hend. apply HQ; [lia| |done].
    intros k Hk. destruct (decide (k = r + 1)) as [->|]; [done|]. apply Hall. lia.
  - apply HQ; [lia|lia|]. by right.
Qed.

(** The index the offsets count from. *)
Definition offset_origin m : Z :=
  if pendingItemIndex_ (session_ m) =? -1 then lastCommittedItemIndex_ (session_ m)
  else pendingItemIndex_ (session_ m).

Lemma offset_origin_range m :
  session_inv (session_ m) → -1 <= offset_origin m < session_count (session_ m).
Proof.
  intros [? ? ? ? ? ?]. unfold offset_origin.
  destruct (pendingItemIndex_ (session_ m) =? -1); lia.
Qed.

Lemma wp_offset_origin (Q : Z → LegacyNavigationManager → Prop) m :
  session_inv (session_ m) → last_not_restoring (session_ m) →
  wp (if pendingItemIndex_ (session_ m) =? -1 then GetLastCommittedItemIndex
      else mret (to_int32 (pendingItemIndex_ (session_ m)))) Q m ↔ Q (offset_origin m) m.
Proof.
  intros Hinv Hr. unfold offset_origin.
  destruct (pendingItemIndex_ (session_ m) =? -1); wp_simp.
  - by rewrite GetLastCommittedItemIndex_legacy by done.
  - pose proof (si_pending _ Hinv). pose proof (si_count _ Hinv). rewrite to_int32_id; [done|].
    unfold in_int, INT_MIN. rewrite andb_true_iff, !Z.leb_le. unfold INT_MAX in *. lia.
Qed.

Lemma wp_int_add a b (Q : Z → LegacyNavigationManager → Prop) m :
  INT_MIN <= a + b <= INT_MAX → Q (a + b) m → wp (int_add a b) Q m.
Proof.
  intros H HQ. unfold int_add.
  assert (in_int (a + b) = true) as -> by (unfold in_int; by rewrite andb_true_iff, !Z.leb_le).
  by wp_simp.
Qed.

(** Back by one: the entry before the last one that is not a redirect. *)
Definition back_index m (r : Z) : Prop :=
  (r < 0 ∧ ∀ k, 0 < k <= offset_origin m → redirect_at m k = true) ∨
  (∃ j, 0 < j <= offset_origin m ∧ redirect_at m j = false ∧ r = j - 1 ∧
    ∀ k, j < k <= offset_origin m → redirect_at m k = true).

(** Forward by one: the end of the chain of redirects that starts after the
    origin. *)
Definition forward_index m (r : Z) : Prop :=
  (offset_origin m + 1 = session_count (session_ m) ∧ r = session_count (session_ m)) ∨
  (offset_origin m < r < session_count (session_ m) ∧
    (∀ k, offset_origin m + 1 < k <= r → redirect_at m k = true) ∧
    (r + 1 = session_count (session_ m) ∨ redirect_at m (r + 1) = false)).

Lemma wp_offset_back Q m :
  session_inv (session_ m) → last_not_restoring (session_ m) →
  (transientItem_ (session_ m) = None ∨ pendingItemIndex_ (session_ m) ≠ -1) →
  (∀ r, back_index m r → Q r m) → wp (GetIndexForOffset (-1)) Q m.
Proof.
  intros Hinv Hr Ht HQ. pose proof (offset_origin_range m Hinv) as Ho.
  pose proof (si_count _ Hinv) as Hn.
  unfold GetIndexForOffset, id. rewrite wp_bind, wp_gets, wp_bind, wp_offset_origin by done. wp_simp.
  assert (negb (is_null (GetTransientItem m)) && (pendingItemIndex_ (session_ m) =? -1) = false) as ->.
  { unfold GetTransientItem. simpl. unfold transientItem. destruct Ht as [-> |?]; [done|].
    rewrite (proj2 (Z.eqb_neq _ _)) by done. apply andb_false_r. }
  change (GetItemCount m) with (session_count (session_ m)). simpl.
  destruct (Z.ltb_spec 0 (offset_origin m)) as [Hpos|Hle].
  - wp_simp. apply wp_skip_back; [lia|]. intros j Hj Hall Hend.
    wp_simp. destruct (length (items_ (session_ m))); simpl; wp_simp;
      (apply wp_int_add; [unfold INT_MIN, INT_MAX in *; lia|]); wp_simp;
      rewrite (proj2 (Z.ltb_ge _ _)) by lia; rewrite Z.add_0_r; apply HQ;
      (destruct Hend as [->|Hend]; [left|]; try (split; [lia|intros k Hk; apply Hall; lia]));
      (destruct (decide (j = O)) as [->|]; [left; split; [lia|intros k Hk; apply Hall; lia]|]);
      right; exists (Z.of_nat j); (split; [lia|]); (split; [done|]); (split; [done|]);
      intros k Hk; apply Hall; lia.
  - wp_simp. apply wp_int_add; [unfold INT_MIN, INT_MAX in *; lia|]. wp_simp.
    rewrite (proj2 (Z.ltb_ge _ _)) by lia. apply HQ. left. split; [lia|]. intros k Hk. lia.
Qed.

Lemma wp_offset_forward Q m :
  session_inv (session_ m) → last_not_restoring (session_ m) →
  (∀ r, forward_index m r → Q r m) → wp (GetIndexForOffset 1) Q m.
Proof.
  intros Hinv Hr HQ. pose proof (offset_origin_range m Hinv) as Ho.
  pose proof (si_count _ Hinv) as Hn.
  unfold GetIndexForOffset, id. rewrite wp_bind, wp_gets, wp_bind, wp_offset_origin by done. wp_simp.
  change (1 <? 0) with false. change (0 <? 1) with true. cbv iota.
  simpl. wp_simp. change (GetItemCount m) with (session_count (session_ m)).
  rewrite (proj2 (Z.ltb_lt _ _)) by lia. simpl. wp_simp.
  destruct (Z.eqb_spec (offset_origin m + 1) (session_count (session_ m))) as [E|Hne].
  - assert (∀ Q, Q (offset_origin m + 1) m → wp (skip_forward (Z.to_nat (session_count (session_ m)))
      (offset_origin m + 1)) Q m) as Hskip.
    { intros Q' HQ'. destruct (Z.to_nat _) as [|n]; simpl; wp_simp; [done|].
      change (GetItemCount m) with (session_count (session_ m)).
      rewrite (proj2 (Z.ltb_ge _ _)) by lia. by wp_simp. }
    apply Hskip. destruct (length (items_ (session_ m))); simpl; wp_simp;
      (apply wp_int_add; [unfold INT_MIN, INT_MAX in *; lia|]); wp_simp;
      rewrite (proj2 (Z.ltb_ge _ _)) by lia; rewrite Z.add_0_r; apply HQ; left; lia.
  - apply wp_skip_forward; [lia..|]. intros j Hj Hall Hend.
    destruct (length (items_ (session_ m))); simpl; wp_simp;
      (apply wp_int_add; [unfold INT_MIN, INT_MAX in *; lia|]); wp_simp;
      rewrite (proj2 (Z.ltb_ge _ _)) by lia; rewrite Z.add_0_r; apply HQ; right;
      (split; [lia|]); by split.
Qed.

(** Going back by one skips the pages that only redirect: it leads to the
    entry before the last entry that is not the result of a redirect, and is
    possible exactly when there is one after the first entry.  Going forward by
    one leads to the end of the chain of redirects that starts at the next
    entry, and is possible exactly when there is a next entry. *)
Theorem GetIndexForOffset_one_step m :
  session_inv (session_ m) → last_not_restoring (session_ m) →
  (transientItem_ (session_ m) = None ∨ pendingItemIndex_ (session_ m) ≠ -1) →
  (∃ r, GetIndexForOffset (-1) m = Ok (r, m) ∧ back_index m r) ∧
  (∃ b, CanGoBack m = Ok (b, m) ∧
    (b = true ↔ ∃ j, 0 < j <= offset_origin m ∧ redirect_at m j = false)) ∧
  (∃ r, GetIndexForOffset 1 m = Ok (r, m) ∧ forward_index m r) ∧
  CanGoForward m = Ok (offset_origin m + 1 <? session_count (session_ m), m).
Proof.
  intros Hinv Hr Ht. pose proof (offset_origin_range m Hinv) as Ho.
  assert (wp (GetIndexForOffset (-1)) (λ r m', back_index m r ∧ m' = m) m)
    as (rb & ? & Hb & Hback & ->)%wp_run by (by apply wp_offset_back).
  assert (wp (GetIndexForOffset 1) (λ r m', forward_index m r ∧ m' = m) m)
    as (rf & ? & Hf & Hforward & ->)%wp_run by (by apply wp_offset_forward).
  unfold CanGoBack, CanGoForward, CanGoToOffset, mbind, M_bind, gets.
  rewrite Hb, Hf. change (GetItemCount m) with (session_count (session_ m)).
  split; [by exists rb|]. split; [|split; [by exists rf|]].
  - eexists. split; [done|]. rewrite andb_true_iff, Z.leb_le, Z.ltb_lt.
    destruct Hback as [[Hneg Hall]|(j & Hj & Hjr & -> & Hall)].
    + split; [lia|]. intros (j & Hj & Hjr). rewrite Hall in Hjr; [done|lia].
    + split; [|lia]. intros _. by exists j.
  - unfold mret, M_ret. do 2 f_equal. destruct Hforward as [[E ->]|(Hrf & _)].
    + rewrite (proj2 (Z.ltb_ge _ (session_count _))) by lia. rewrite andb_false_r.
      symmetry. apply Z.ltb_ge. lia.
    + rewrite (proj2 (Z.leb_le _ _)), !(proj2 (Z.ltb_lt _ _)) by lia. done.
Qed.

(** GetIndexForOffset guards against overflow by looking at the sign of the
    sum, after the signed addition has overflowed: on an empty session the
    offset INT_MIN makes it undefined. *)
Theorem GetIndexForOffset_overflow browser_state now :
  GetIndexForOffset INT_MIN (InitializeSession browser_state now) = Crash IntOverflow ∧
  GetIndexForOffset (INT_MIN + 1) (InitializeSession browser_state now) =
    Ok (INT_MIN, InitializeSession browser_state now).
Proof. by split. Qed.

(** ** The back list *)

Lemma wp_isRedirect j Q m :
  0 <= j < session_count (session_ m) → Q (redirect_at m j) m →
  wp (isRedirectTransitionForItemAtIndex j) Q m.
Proof using All.
  intros Hj HQ. unfold isRedirectTransitionForItemAtIndex. wp_simp.
  split; [by apply Z.ltb_lt; lia|].
  destruct (vec_at_in_range (items_ (session_ m)) j Hj) as [i Hi].
  exists i. split; [done|]. wp_simp. unfold redirect_at in HQ. rewrite Hi in HQ.
  by rewrite law_redirect_mask in HQ.
Qed.

(** The entries to go back to from index [n], the nearest first. *)
Fixpoint back_entries m (n : nat) : list Z :=
  match n with
  | O => []
  | S n' => if redirect_at m (Z.of_nat n) then back_entries m n' else Z.of_nat n' :: back_entries m n'
  end.

Lemma wp_backward_items n Q m :
  Z.of_nat n < session_count (session_ m) → Q (RItem <$> back_entries m n) m →
  wp (backward_items n) Q m.
Proof using All.
  revert Q. induction n as [|n IH]; intros Q Hn HQ; simpl; wp_simp; [done|].
  apply wp_isRedirect; [lia|]. wp_simp. apply IH; [lia|]. wp_simp.
  simpl in HQ. by destruct (redirect_at m (Z.of_nat (S n))).
Qed.

Lemma back_entries_head m n j :
  0 < j <= Z.of_nat n → redirect_at m j = false →
  (∀ k, j < k <= Z.of_nat n → redirect_at m k = true) → head (back_entries m n) = Some (j - 1).
Proof.
  induction n as [|n IH]; intros Hj Hr Hall; [lia|]. simpl.
  destruct (decide (j = Z.of_nat (S n))) as [->|Hne].
  - rewrite Hr. simpl. f_equal. lia.
  - rewrite Hall by lia. apply IH; [lia|done|]. intros k Hk. apply Hall. lia.
Qed.

Lemma back_entries_nil m n :
  (∀ k, 0 < k <= Z.of_nat n → redirect_at m k = true) → back_entries m n = [].
Proof.
  induction n as [|n IH]; intros Hall; [done|]. simpl. rewrite Hall by lia.
  apply IH. intros k Hk. apply Hall. lia.
Qed.

Lemma back_entries_spec m n k :
  k ∈ back_entries m n → 0 <= k < Z.of_nat n ∧ redirect_at m (k + 1) = false.
Proof.
  induction n as [|n IH]; simpl; intros Hk; [by apply not_elem_of_nil in Hk|].
  destruct (redirect_at m (Z.of_nat (S n))) eqn:Hred.
  - destruct (IH Hk). split; [lia|done].
  - apply elem_of_cons in Hk as [->|Hk].
    + split; [lia|]. by replace (Z.of_nat n + 1) with (Z.of_nat (S n)) by lia.
    + destruct (IH Hk). split; [lia|done].
Qed.

(** The back list of the session and the offset arithmetic of the manager
    agree: with neither a transient item nor a pending jump, the first entry of
    the back list is the one GoBack goes to, and the list is empty exactly when
    going back is not possible. *)
Theorem backwardItems_agrees_with_GoBack m :
  session_inv (session_ m) → last_not_restoring (session_ m) →
  transientItem_ (session_ m) = None → pendingItemIndex_ (session_ m) = -1 →
  ∃ l r, backwardItems m = Ok (RItem <$> l, m) ∧ GetIndexForOffset (-1) m = Ok (r, m) ∧
    head l = (if 0 <=? r then Some r else None) ∧
    ∀ k, k ∈ l → 0 <= k < lastCommittedItemIndex_ (session_ m) ∧ redirect_at m (k + 1) = false.
Proof using All.
  intros Hinv Hr Ht Hp. pose proof (si_last _ Hinv) as Hlast.
  assert (offset_origin m = lastCommittedItemIndex_ (session_ m)) as Ho
    by (unfold offset_origin; by rewrite Hp).
  assert (wp (GetIndexForOffset (-1)) (λ r m', back_index m r ∧ m' = m) m)
    as (r & ? & Hrun & Hback & ->)%wp_run by (apply wp_offset_back; auto).
  set (n := Z.to_nat (lastCommittedItemIndex_ (session_ m))).
  assert (wp backwardItems (λ l m', l = RItem <$> back_entries m n ∧ m' = m) m)
    as (? & ? & Hb & -> & ->)%wp_run.
  { unfold backwardItems. wp_simp.
    destruct (Z.ltb_spec (-1) (lastCommittedItemIndex_ (session_ m))) as [Hpos|Hneg].
    - wp_simp. destruct (last_item_exists _ Hinv) as [-> _]; [lia|]. split; [done|].
      apply wp_backward_items; [lia|]. wp_simp. unfold transientItem. by rewrite Ht.
    - wp_simp. unfold n. by replace (Z.to_nat _) with O by lia. }
  exists (back_entries m n), r. split; [done|]. split; [done|]. split.
  - unfold back_index in Hback. rewrite Ho in Hback.
    destruct Hback as [[Hneg Hall]|(j & Hj & Hjr & -> & Hall)].
    + rewrite (proj2 (Z.leb_gt _ _)) by lia. rewrite back_entries_nil; [done|].
      intros k Hk. apply Hall. lia.
    + rewrite (proj2 (Z.leb_le _ _)) by lia. apply back_entries_head; [lia|done|].
      intros k Hk. apply Hall. lia.
  - intros k Hk. destruct (back_entries_spec m n k Hk) as [Hrange Hred].
    split; [unfold n in *; lia|done].
Qed.
End spec.

(** ** Concrete uses *)

#[local] Existing Instance Toy.env.
#[local] Existing Instance Toy.laws.

Definition example_item (id : Z) (page : string) : NavigationItem :=
  SetURL (Toy.web "x" page) (NavigationItemImpl_new id).

(** Two entries, the first of which is the last committed one, and a new
    navigation pending. *)
Definition example_manager : LegacyNavigationManager :=
  MkLegacy (MkBase None [] 3 [])
    (MkSession None 0 (-1) (-1) [example_item 1 "a"; example_item 2 "b"]
      (Some (example_item 3 "c")) None TimeSmoother_new) 100.

Lemma example_manager_inv : session_inv (session_ example_manager).
Proof. split; try done; unfold session_count, zlen, INT_MAX; simpl; lia. Qed.

Lemma example_not_restoring : last_not_restoring (session_ example_manager).
Proof. 
  intros i Hi. assert (Some i = Some (example_item 1 "a")) as E by (rewrite <- Hi; reflexivity).
  by injection E as ->.
 Qed.

Lemma CreateNavigationItem_protects_app_urls_witness :
  ∃ i m', CreateNavigationItem (Toy.web "x" "d") Referrer_default 0 RENDERER_INITIATED
      example_manager = Ok (i, m') ∧
    IsAppSpecificURL (GetURL i) = false ∧ session_ m' = session_ example_manager.
Proof.
  destruct (@CreateNavigationItem_protects_app_urls Toy.env Toy.laws (Toy.web "x" "d")
    Referrer_default 0 example_manager example_manager_inv)
    as (i & m' & Hrun & Happ & _ & _ & _ & _ & _ & Hs);
    [split; [discriminate|reflexivity]|reflexivity|reflexivity|].
  exists i, m'. split; [exact Hrun|]. split; [exact Happ|exact Hs].
Defined.

Lemma commitPendingItem_new_navigation_witness :
  ∃ m' t, commitPendingItem example_manager = Ok (tt, m') ∧ t = 100 ∧
    items_ (session_ m') =
      [example_item 1 "a"; SetTimestamp t (ResetForCommit (example_item 3 "c"))] ∧
    delegate_calls (base_ m') = [OnNavigationItemsPruned 1; OnNavigationItemCommitted 3].
Proof.
  destruct (@commitPendingItem_new_navigation Toy.env (example_item 3 "c") example_manager
    example_manager_inv eq_refl eq_refl) as (m' & t & Hrun & Ht & Hi & _ & _ & _ & _ & _ & _ & Hd).
  exists m', t. split; [exact Hrun|]. split; [exact Ht|]. split; [exact Hi|exact Hd].
Defined.


Lemma GetIndexForOffset_one_step_witness :
  CanGoForward example_manager = Ok (true, example_manager) ∧
  ∃ r, GetIndexForOffset (-1) example_manager = Ok (r, example_manager) ∧
    back_index example_manager r.
Proof.
  destruct (@GetIndexForOffset_one_step Toy.env example_manager example_manager_inv
    example_not_restoring (or_introl eq_refl)) as (Hb & _ & _ & Hf).
  split; [exact Hf|exact Hb].
Defined.

Lemma backwardItems_agrees_with_GoBack_witness :
  ∃ l r, backwardItems example_manager = Ok (RItem <$> l, example_manager) ∧
    GetIndexForOffset (-1) example_manager = Ok (r, example_manager) ∧
    head l = (if 0 <=? r then Some r else None).
Proof.
  destruct (@backwardItems_agrees_with_GoBack Toy.env Toy.laws example_manager
    example_manager_inv example_not_restoring eq_refl eq_refl) as (l & r & Hl & Hr & Hh & _).
  exists l, r. split; [exact Hl|]. split; [exact Hr|exact Hh].
Defined.
