(* ===== verification/WKWebViewCache.v ===== *)
(** * WKBasedNavigationManagerImpl: its state and its view of the web view

    Models the state of src/web/navigation/wk_based_navigation_manager_impl.mm
    and .h, WKWebViewCache (the shim over the back-forward list of the web
    view, which creates a navigation item when it is first looked up, and keeps
    copies of the items while the manager is detached), and the getters that
    NavigationManagerImpl calls.  The web view is part of the state: WebKit and
    the web controller change it between the calls of the manager. *)

From S2P Require Import Prelude.
From S2P Require Import WebEnv.
From S2P Require Import WkNavigationUtil.
From S2P Require Import NavigationItem.
From S2P Require Import BrowserURLRewriter.
From S2P Require Import NavigationManager.

Section data.
Context `{ENV : WebEnv}.

(** An item of the back-forward list, with the navigation item its
    CRWNavigationItemHolder keeps. *)
Record WKBackForwardListItem := MkWKItem {
  wk_URL : GURL;
  wk_title : string16;
  navigationItem : option NavigationItem;
}.

(** The web view as CRWWebViewNavigationProxy shows it: its URL and its
    WKBackForwardList, the oldest item first. *)
Record WKWebView := MkWebView {
  webView_URL : GURL;
  backList : list WKBackForwardListItem;
  currentItem : option WKBackForwardListItem;
  forwardList : list WKBackForwardListItem;
}.

(** [itemAtIndex:], relative to the current item; nil out of range. *)
Definition itemAtIndex (v : WKWebView) (index : Z) : option WKBackForwardListItem :=
  if index =? 0 then currentItem v
  else if 0 <? index then vec_at (forwardList v) (index - 1)
  else vec_at (backList v) (zlen (backList v) + index).

(** [setNavigationItem:] of the holder of that item. *)
Definition with_navigationItem (i : NavigationItem) (w : WKBackForwardListItem) :
    WKBackForwardListItem := MkWKItem (wk_URL w) (wk_title w) (Some i).
Definition set_list (l : list WKBackForwardListItem) (k : Z) (i : NavigationItem) :
    list WKBackForwardListItem :=
  if k <? 0 then l else alter (with_navigationItem i) (Z.to_nat k) l.
Definition setNavigationItem (index : Z) (i : NavigationItem) (v : WKWebView) : WKWebView :=
  if index =? 0 then
    MkWebView (webView_URL v) (backList v) (with_navigationItem i <$> currentItem v) (forwardList v)
  else if 0 <? index then
    MkWebView (webView_URL v) (backList v) (currentItem v) (set_list (forwardList v) (index - 1) i)
  else
    MkWebView (webView_URL v) (set_list (backList v) (zlen (backList v) + index) i)
      (currentItem v) (forwardList v).

(** A callback that waits for the end of a restoration: a load that was put
    off, or any other, by a number. *)
Inductive RestoreCallback :=
  | LoadAfterRestore (params : WebLoadParams)
  | OtherCallback (id : Z).

(** The fields of the class and of its WKWebViewCache, the web view if there is
    one, the reading of [base::Time::Now()], and the other callbacks that ran. *)
Record WKBasedNavigationManager := MkWK {
  wk_base : NavigationManagerBase;
  pending_item_ : option NavigationItem;
  pending_item_index_ : Z;
  previous_item_index_ : Z;
  last_committed_item_index_ : Z;
  empty_window_open_item_ : option NavigationItem;
  transient_item_ : option NavigationItem;
  time_smoother_ : TimeSmoother;
  attached_to_web_view_ : bool;
  cached_items_ : list (option NavigationItem);
  cached_current_item_index_ : Z;
  is_restore_session_in_progress_ : bool;
  restored_visible_item_ : option NavigationItem;
  restore_session_completion_callbacks_ : list RestoreCallback;
  proxy : option WKWebView;
  now : Z;
  callbacks_run : list Z;
}.

Definition with_wk_base (x : NavigationManagerBase) (s : WKBasedNavigationManager) :
    WKBasedNavigationManager :=
  MkWK x (pending_item_ s) (pending_item_index_ s) (previous_item_index_ s)
    (last_committed_item_index_ s) (empty_window_open_item_ s) (transient_item_ s)
    (time_smoother_ s) (attached_to_web_view_ s) (cached_items_ s)
    (cached_current_item_index_ s) (is_restore_session_in_progress_ s)
    (restored_visible_item_ s) (restore_session_completion_callbacks_ s) (proxy s) (now s)
    (callbacks_run s).
Definition with_pending_item_ (x : option NavigationItem) (s : WKBasedNavigationManager) :
    WKBasedNavigationManager :=
  MkWK (wk_base s) x (pending_item_index_ s) (previous_item_index_ s)
    (last_committed_item_index_ s) (empty_window_open_item_ s) (transient_item_ s)
    (time_smoother_ s) (attached_to_web_view_ s) (cached_items_ s)
    (cached_current_item_index_ s) (is_restore_session_in_progress_ s)
    (restored_visible_item_ s) (restore_session_completion_callbacks_ s) (proxy s) (now s)
    (callbacks_run s).
Definition with_pending_item_index_ (x : Z) (s : WKBasedNavigationManager) :
    WKBasedNavigationManager :=
  MkWK (wk_base s) (pending_item_ s) x (previous_item_index_ s) (last_committed_item_index_ s)
    (empty_window_open_item_ s) (transient_item_ s) (time_smoother_ s) (attached_to_web_view_ s)
    (cached_items_ s) (cached_current_item_index_ s) (is_restore_session_in_progress_ s)
    (restored_visible_item_ s) (restore_session_completion_callbacks_ s) (proxy s) (now s)
    (callbacks_run s).
Definition with_previous_item_index_ (x : Z) (s : WKBasedNavigationManager) :
    WKBasedNavigationManager :=
  MkWK (wk_base s) (pending_item_ s) (pending_item_index_ s) x (last_committed_item_index_ s)
    (empty_window_open_item_ s) (transient_item_ s) (time_smoother_ s) (attached_to_web_view_ s)
    (cached_items_ s) (cached_current_item_index_ s) (is_restore_session_in_progress_ s)
    (restored_visible_item_ s) (restore_session_completion_callbacks_ s) (proxy s) (now s)
    (callbacks_run s).
Definition with_last_committed_item_index_ (x : Z) (s : WKBasedNavigationManager) :
    WKBasedNavigationManager :=
  MkWK (wk_base s) (pending_item_ s) (pending_item_index_ s) (previous_item_index_ s) x
    (empty_window_open_item_ s) (transient_item_ s) (time_smoother_ s) (attached_to_web_view_ s)
    (cached_items_ s) (cached_current_item_index_ s) (is_restore_session_in_progress_ s)
    (restored_visible_item_ s) (restore_session_completion_callbacks_ s) (proxy s) (now s)
    (callbacks_run s).
Definition with_empty_window_open_item_ (x : option NavigationItem) (s : WKBasedNavigationManager) :
    WKBasedNavigationManager :=
  MkWK (wk_base s) (pending_item_ s) (pending_item_index_ s) (previous_item_index_ s)
    (last_committed_item_index_ s) x (transient_item_ s) (time_smoother_ s)
    (attached_to_web_view_ s) (cached_items_ s) (cached_current_item_index_ s)
    (is_restore_session_in_progress_ s) (restored_visible_item_ s)
    (restore_session_completion_callbacks_ s) (proxy s) (now s) (callbacks_run s).
Definition with_transient_item_ (x : option NavigationItem) (s : WKBasedNavigationManager) :
    WKBasedNavigationManager :=
  MkWK (wk_base s) (pending_item_ s) (pending_item_index_ s) (previous_item_index_ s)
    (last_committed_item_index_ s) (empty_window_open_item_ s) x (time_smoother_ s)
    (attached_to_web_view_ s) (cached_items_ s) (cached_current_item_index_ s)
    (is_restore_session_in_progress_ s) (restored_visible_item_ s)
    (restore_session_completion_callbacks_ s) (proxy s) (now s) (callbacks_run s).
Definition with_time_smoother_ (x : TimeSmoother) (s : WKBasedNavigationManager) :
    WKBasedNavigationManager :=
  MkWK (wk_base s) (pending_item_ s) (pending_item_index_ s) (previous_item_index_ s)
    (last_committed_item_index_ s) (empty_window_open_item_ s) (transient_item_ s) x
    (attached_to_web_view_ s) (cached_items_ s) (cached_current_item_index_ s)
    (is_restore_session_in_progress_ s) (restored_visible_item_ s)
    (restore_session_completion_callbacks_ s) (proxy s) (now s) (callbacks_run s).
Definition with_attached_to_web_view_ (x : bool) (s : WKBasedNavigationManager) :
    WKBasedNavigationManager :=
  MkWK (wk_base s) (pending_item_ s) (pending_item_index_ s) (previous_item_index_ s)
    (last_committed_item_index_ s) (empty_window_open_item_ s) (transient_item_ s)
    (time_smoother_ s) x (cached_items_ s) (cached_current_item_index_ s)
    (is_restore_session_in_progress_ s) (restored_visible_item_ s)
    (restore_session_completion_callbacks_ s) (proxy s) (now s) (callbacks_run s).
Definition with_cached_items_ (x : list (option NavigationItem)) (s : WKBasedNavigationManager) :
    WKBasedNavigationManager :=
  MkWK (wk_base s) (pending_item_ s) (pending_item_index_ s) (previous_item_index_ s)
    (last_committed_item_index_ s) (empty_window_open_item_ s) (transient_item_ s)
    (time_smoother_ s) (attached_to_web_view_ s) x (cached_current_item_index_ s)
    (is_restore_session_in_progress_ s) (restored_visible_item_ s)
    (restore_session_completion_callbacks_ s) (proxy s) (now s) (callbacks_run s).
Definition with_cached_current_item_index_ (x : Z) (s : WKBasedNavigationManager) :
    WKBasedNavigationManager :=
  MkWK (wk_base s) (pending_item_ s) (pending_item_index_ s) (previous_item_index_ s)
    (last_committed_item_index_ s) (empty_window_open_item_ s) (transient_item_ s)
    (time_smoother_ s) (attached_to_web_view_ s) (cached_items_ s) x
    (is_restore_session_in_progress_ s) (restored_visible_item_ s)
    (restore_session_completion_callbacks_ s) (proxy s) (now s) (callbacks_run s).
Definition with_is_restore_session_in_progress_ (x : bool) (s : WKBasedNavigationManager) :
    WKBasedNavigationManager :=
  MkWK (wk_base s) (pending_item_ s) (pending_item_index_ s) (previous_item_index_ s)
    (last_committed_item_index_ s) (empty_window_open_item_ s) (transient_item_ s)
    (time_smoother_ s) (attached_to_web_view_ s) (cached_items_ s)
    (cached_current_item_index_ s) x (restored_visible_item_ s)
    (restore_session_completion_callbacks_ s) (proxy s) (now s) (callbacks_run s).
Definition with_restored_visible_item_ (x : option NavigationItem) (s : WKBasedNavigationManager) :
    WKBasedNavigationManager :=
  MkWK (wk_base s) (pending_item_ s) (pending_item_index_ s) (previous_item_index_ s)
    (last_committed_item_index_ s) (empty_window_open_item_ s) (transient_item_ s)
    (time_smoother_ s) (attached_to_web_view_ s) (cached_items_ s)
    (cached_current_item_index_ s) (is_restore_session_in_progress_ s) x
    (restore_session_completion_callbacks_ s) (proxy s) (now s) (callbacks_run s).
Definition with_restore_session_completion_callbacks_ (x : list RestoreCallback) (s : WKBasedNavigationManager) :
    WKBasedNavigationManager :=
  MkWK (wk_base s) (pending_item_ s) (pending_item_index_ s) (previous_item_index_ s)
    (last_committed_item_index_ s) (empty_window_open_item_ s) (transient_item_ s)
    (time_smoother_ s) (attached_to_web_view_ s) (cached_items_ s)
    (cached_current_item_index_ s) (is_restore_session_in_progress_ s)
    (restored_visible_item_ s) x (proxy s) (now s) (callbacks_run s).
Definition with_proxy (x : option WKWebView) (s : WKBasedNavigationManager) :
    WKBasedNavigationManager :=
  MkWK (wk_base s) (pending_item_ s) (pending_item_index_ s) (previous_item_index_ s)
    (last_committed_item_index_ s) (empty_window_open_item_ s) (transient_item_ s)
    (time_smoother_ s) (attached_to_web_view_ s) (cached_items_ s)
    (cached_current_item_index_ s) (is_restore_session_in_progress_ s)
    (restored_visible_item_ s) (restore_session_completion_callbacks_ s) x (now s)
    (callbacks_run s).
Definition with_now (x : Z) (s : WKBasedNavigationManager) :
    WKBasedNavigationManager :=
  MkWK (wk_base s) (pending_item_ s) (pending_item_index_ s) (previous_item_index_ s)
    (last_committed_item_index_ s) (empty_window_open_item_ s) (transient_item_ s)
    (time_smoother_ s) (attached_to_web_view_ s) (cached_items_ s)
    (cached_current_item_index_ s) (is_restore_session_in_progress_ s)
    (restored_visible_item_ s) (restore_session_completion_callbacks_ s) (proxy s) x
    (callbacks_run s).
Definition with_callbacks_run (x : list Z) (s : WKBasedNavigationManager) :
    WKBasedNavigationManager :=
  MkWK (wk_base s) (pending_item_ s) (pending_item_index_ s) (previous_item_index_ s)
    (last_committed_item_index_ s) (empty_window_open_item_ s) (transient_item_ s)
    (time_smoother_ s) (attached_to_web_view_ s) (cached_items_ s)
    (cached_current_item_index_ s) (is_restore_session_in_progress_ s)
    (restored_visible_item_ s) (restore_session_completion_callbacks_ s) (proxy s) (now s) x.
End data.
Arguments WKBackForwardListItem {_}.
Arguments WKWebView {_}.
Arguments RestoreCallback {_}.
Arguments WKBasedNavigationManager {_}.
Notation WKM := (M WKBasedNavigationManager).

(** A pointer to an item: the pending item, the transient one, the one of an
    empty window, the restored one, the item of the back-forward list or of the
    cache at an index. *)
Inductive wk_ref :=
  | RWKPending | RWKTransient | RWKEmptyWindow | RWKRestored
  | RWKItem (index : Z) | RWKCached (index : Z).
#[export] Instance wk_ref_eq_dec : EqDecision wk_ref.
Proof. solve_decision. Defined.

Section cache.
Context `{ENV : WebEnv}.
Implicit Types (s : WKBasedNavigationManager).

(** The constructor, with SetBrowserState and SetDelegate. *)
Definition WKBasedNavigationManager_new (browser_state : BrowserState) (view : option WKWebView)
    (time : Z) : WKBasedNavigationManager :=
  MkWK (MkBase browser_state [] 0 []) None (-1) (-1) (-1) None None TimeSmoother_new true [] (-1)
    false None [] view time [].

(** ** WKWebViewCache: reading *)

Definition IsAttachedToWebView s : bool := attached_to_web_view_ s.

Definition view_count (v : WKWebView) : Z :=
  zlen (backList v) + (if currentItem v then 1 else 0) + zlen (forwardList v).

Definition GetBackForwardListItemCount s : Z :=
  if negb (IsAttachedToWebView s) then zlen (cached_items_ s)
  else match proxy s with Some v => view_count v | None => 0 end.

Definition GetCurrentItemIndex s : Z :=
  if negb (IsAttachedToWebView s) then cached_current_item_index_ s
  else match proxy s with
       | Some v => if currentItem v then to_int32 (zlen (backList v)) else -1
       | None => -1
       end.

(** GetWKItemAtIndex after its DCHECK; a negative index is a large one. *)
Definition wk_item_at s (index : Z) : option WKBackForwardListItem :=
  if (index <? 0) || (GetBackForwardListItemCount s <=? index) then None
  else proxy s ≫= λ v, itemAtIndex v (to_int32 index - GetCurrentItemIndex s).

(** ** The items *)

Definition wk_get_item s (r : wk_ref) : option NavigationItem :=
  match r with
  | RWKPending => pending_item_ s
  | RWKTransient => transient_item_ s
  | RWKEmptyWindow => empty_window_open_item_ s
  | RWKRestored => restored_visible_item_ s
  | RWKItem k => wk_item_at s k ≫= navigationItem
  | RWKCached k => mjoin (vec_at (cached_items_ s) k)
  end.

Definition wk_set_item (r : wk_ref) (i : NavigationItem) s : WKBasedNavigationManager :=
  match r with
  | RWKPending => with_pending_item_ (Some i) s
  | RWKTransient => with_transient_item_ (Some i) s
  | RWKEmptyWindow => with_empty_window_open_item_ (Some i) s
  | RWKRestored => with_restored_visible_item_ (Some i) s
  | RWKItem k =>
      with_proxy (setNavigationItem (to_int32 k - GetCurrentItemIndex s) i <$> proxy s) s
  | RWKCached k => with_cached_items_ (vec_set (cached_items_ s) k (Some i)) s
  end.

#[export] Instance wk_state : NavigationManagerState WKBasedNavigationManager := {|
  item_ref := wk_ref;
  get_base := wk_base;
  set_base := with_wk_base;
  get_item := wk_get_item;
  set_item := wk_set_item;
  manager_IsPlaceholderUrl := IsPlaceholderUrl;
|}.

(** [time_smoother_.GetSmoothedTime(base::Time::Now())] *)
Definition smoothed_now : WKM Z :=
  s ← gets (λ s, s);
  let '(t, smoother) := GetSmoothedTime (time_smoother_ s) (now s) in
  modify (with_time_smoother_ smoother);;
  mret t.

Definition GetWKItemAtIndex (index : Z) : WKM (option WKBackForwardListItem) :=
  s ← gets (λ s, s);
  DCHECK (IsAttachedToWebView s);;
  mret (wk_item_at s index).

(** The virtual URL of an item that restores a session. *)
Definition with_restored_virtual_url (new_item : NavigationItem) : res NavigationItem :=
  let url := GetURL new_item in
  if IsRestoreSessionUrl url then
    target ← ExtractTargetURL url;
    Ok (match target with
        | Some virtual_url =>
            if IsPlaceholderUrl virtual_url
            then SetVirtualURL (ExtractUrlFromPlaceholderUrl virtual_url) new_item
            else SetVirtualURL virtual_url new_item
        | None => new_item
        end)
  else Ok new_item.

(** The navigation item made for an item of the list that has none. *)
Definition create_item (wk_item : WKBackForwardListItem)
    (prev_wk_item : option WKBackForwardListItem) : WKM NavigationItem :=
  new_item ← CreateNavigationItemWithRewriters (wk_URL wk_item)
    (match prev_wk_item with
     | Some p => MkReferrer (wk_URL p) ReferrerPolicyAlways
     | None => Referrer_default
     end)
    PAGE_TRANSITION_LINK RENDERER_INITIATED
    (match prev_wk_item with Some p => wk_URL p | None => EmptyGURL end) [];
  t ← smoothed_now;
  lift_res (with_restored_virtual_url (SetTitle (wk_title wk_item) (SetTimestamp t new_item))).

Definition cache_GetNavigationItemImplAtIndex (index : Z) (create_if_missing : bool) :
    WKM (option wk_ref) :=
  s ← gets (λ s, s);
  if (index <? 0) || (GetBackForwardListItemCount s <=? index) then mret None
  else if negb (IsAttachedToWebView s) then
    item ← at_ (cached_items_ s) index;
    mret (if item : option NavigationItem then Some (RWKCached index) else None)
  else
    wk_item ← GetWKItemAtIndex index;
    match wk_item with
    | None => mret None
    | Some w =>
        if navigationItem w then mret (Some (RWKItem index))
        else if negb create_if_missing then mret None
        else
          prev_wk_item ← (if index =? 0 then mret None else GetWKItemAtIndex (index - 1));
          new_item ← create_item w prev_wk_item;
          modify (wk_set_item (RWKItem index) new_item);;
          mret (Some (RWKItem index))
    end.

Definition GetNavigationItemImplAtIndex (index : Z) : WKM (option wk_ref) :=
  s ← gets (λ s, s);
  if empty_window_open_item_ s then mret (if index =? 0 then Some RWKEmptyWindow else None)
  else cache_GetNavigationItemImplAtIndex index true.

(** ** WKWebViewCache: detaching *)

Definition DetachFromWebView : WKM unit :=
  s ← gets (λ s, s);
  whenM (IsAttachedToWebView s)
    (modify (with_cached_current_item_index_ (GetCurrentItemIndex s));;
     items ← for_indices (Z.to_nat (GetBackForwardListItemCount s)) 0 (λ index,
       r ← cache_GetNavigationItemImplAtIndex index true;
       r ← not_null r;
       item ← deref r;
       mret (Some (item : NavigationItem)));
     modify (with_cached_items_ items));;
  modify (with_attached_to_web_view_ false).

Definition ResetToAttached : WKM unit :=
  modify (with_cached_items_ []);;
  modify (with_cached_current_item_index_ (-1));;
  modify (with_attached_to_web_view_ true).

Definition ReleaseCachedItems : WKM (list (option NavigationItem)) :=
  s ← gets (λ s, s);
  DCHECK (negb (IsAttachedToWebView s));;
  modify (with_cached_items_ []);;
  mret (cached_items_ s).

(** ** The getters of the manager *)

Definition wk_GetItemCount s : Z :=
  if empty_window_open_item_ s then 1 else to_int32 (GetBackForwardListItemCount s).

Definition wk_last_committed_index s : Z :=
  if (0 <=? pending_item_index_ s) || (if empty_window_open_item_ s then true else false)
  then last_committed_item_index_ s else GetCurrentItemIndex s.

Definition wk_last_committed : WKM (option wk_ref) :=
  s ← gets (λ s, s);
  if empty_window_open_item_ s then mret (Some RWKEmptyWindow)
  else
    let index := wk_last_committed_index s in
    if index =? -1 then
      DCHECK (wk_GetItemCount s =? 0);;
      mret None
    else GetNavigationItemImplAtIndex index.

Definition wk_pending : WKM (option wk_ref) :=
  s ← gets (λ s, s);
  if pending_item_index_ s =? -1 then mret (if pending_item_ s then Some RWKPending else None)
  else GetNavigationItemImplAtIndex (pending_item_index_ s).

Definition wk_transient s : option wk_ref :=
  if transient_item_ s then Some RWKTransient else None.

#[export] Instance wk_getters : NavigationManagerGetters WKBasedNavigationManager := {|
  GetTransientItemImpl := wk_transient : _ → option item_ref;
  GetPendingItemInCurrentOrRestoredSession := wk_pending;
  GetLastCommittedItemInCurrentOrRestoredSession := wk_last_committed;
  GetLastCommittedItemIndexInCurrentOrRestoredSession := wk_last_committed_index;
  GetItemCount := wk_GetItemCount;
  GetItemAtIndex := GetNavigationItemImplAtIndex;
  IsRestoreSessionInProgress := is_restore_session_in_progress_;
|}.
End cache.
