(* ===== verification/WKBasedNavigationManager.v ===== *)
(** * WKBasedNavigationManagerImpl: its operations

    Models src/web/navigation/wk_based_navigation_manager_impl.mm over the
    state and getters of WKWebViewCache.v, and instantiates the virtual
    functions NavigationManagerImpl calls.  RemoveWebView is the one call on
    the delegate that changes the state: WebStateImpl has the web controller
    remove its view, which detaches the manager first. *)

From S2P Require Import Prelude.
From S2P Require Import WebEnv.
From S2P Require Import WkNavigationUtil.
From S2P Require Import NavigationItem.
From S2P Require Import BrowserURLRewriter.
From S2P Require Import NavigationManager.
From S2P Require Import WKWebViewCache.

Section operations.
Context `{ENV : WebEnv}.
Implicit Types (s : WKBasedNavigationManager).

Definition manager : WKM WKBasedNavigationManager := gets (λ s, s).
Definition is_some {A} (o : option A) : bool := negb (is_null o).

(** [SetNavigationItemInWKItem] on the item at an offset of the current one. *)
Definition SetNavigationItemInWKItem (wk_item : option WKBackForwardListItem) (offset : Z)
    (item : NavigationItem) : WKM unit :=
  DCHECK (is_some wk_item);;
  modify (λ s, with_proxy (setNavigationItem offset item <$> proxy s) s).

(** [IsSameOrPlaceholderOf] *)
Definition IsSameOrPlaceholderOf (url1 url2 : GURL) : res bool :=
  if bool_decide (url1 = url2) then Ok true
  else
    placeholder ← CreatePlaceholderUrlForUrl url2;
    Ok (bool_decide (url1 = placeholder)).

Definition DiscardNonCommittedItems : WKM unit :=
  modify (with_pending_item_ None);;
  modify (with_transient_item_ None);;
  modify (with_pending_item_index_ (-1)).

(** The calls of the delegate that keep a log; the id of the item. *)
Definition wk_OnNavigationItemCommitted : WKM unit :=
  item ← GetLastCommittedItemInCurrentOrRestoredSession;
  DCHECK (is_some item);;
  item ← not_null item;
  i ← deref item;
  call_delegate (OnNavigationItemCommitted (GetUniqueID i));;
  whenM (negb (IsRestoreSessionUrl (GetURL i))) (modify (with_restored_visible_item_ None)).

(** The URL of the item, or the empty URL without one. *)
Definition url_or_empty (r : option item_ref) : WKM GURL :=
  match r with
  | Some r => i ← deref r; mret (GetURL i)
  | None => mret EmptyGURL
  end.

Definition AddTransientItem (url : GURL) : WKM unit :=
  s ← manager;
  DCHECK (IsAttachedToWebView s);;
  last_committed_item ← GetLastCommittedItem;
  previous_url ← url_or_empty last_committed_item;
  item ← CreateNavigationItemWithRewriters url Referrer_default PAGE_TRANSITION_CLIENT_REDIRECT
    BROWSER_INITIATED previous_url [];
  modify (with_transient_item_ (Some item));;
  t ← smoothed_now;
  with_item RWKTransient (SetTimestamp t);;
  pending ← GetPendingItem;
  item ← (match pending with
          | Some r => mret (Some r)
          | None => GetLastCommittedItemWithUserAgentType
          end);
  match item with
  | None => mret tt
  | Some r =>
      i ← deref r;
      DCHECK (negb (bool_decide (GetUserAgentType i = UserAgentType_NONE)));;
      with_item_res RWKTransient (SetUserAgentType (GetUserAgentType i))
  end.

(** Whether the pending item, just created, is the current item of the list. *)
Definition pending_is_current : WKM bool :=
  s ← manager;
  match proxy s, proxy s ≫= currentItem, pending_item_ s with
  | Some v, Some current_wk_item, Some pending =>
      same ← lift_res (IsSameOrPlaceholderOf (wk_URL current_wk_item) (GetURL pending));
      if same : bool
      then lift_res (IsSameOrPlaceholderOf (wk_URL current_wk_item) (webView_URL v))
      else mret false
  | _, _, _ => mret false
  end.

Definition wk_AddPendingItem (url : GURL) (referrer : Referrer) (navigation_type : Z)
    (initiation_type : NavigationInitiationType)
    (user_agent_override_option : UserAgentOverrideOption) : WKM unit :=
  DiscardNonCommittedItems;;
  modify (with_pending_item_index_ (-1));;
  last_committed_item ← GetLastCommittedItemInCurrentOrRestoredSession;
  previous_url ← url_or_empty last_committed_item;
  b ← gets get_base;
  item ← CreateNavigationItemWithRewriters url referrer navigation_type initiation_type
    previous_url (transient_url_rewriters_ b);
  modify (with_pending_item_ (Some item));;
  RemoveTransientURLRewriters;;
  inherit_from ← GetLastCommittedItemWithUserAgentType;
  UpdatePendingItemUserAgentType user_agent_override_option inherit_from RWKPending;;
  s ← manager;
  if negb (IsAttachedToWebView s) then mret tt
  else
    same ← pending_is_current;
    if negb same then mret tt
    else
      s ← manager;
      modify (with_pending_item_index_ (GetCurrentItemIndex s));;
      match proxy s ≫= currentItem, pending_item_ s with
      | Some w, Some pending =>
          whenM (is_null (navigationItem w)) (SetNavigationItemInWKItem (Some w) 0 pending)
      | _, _ => mret tt
      end;;
      modify (with_pending_item_ None).

(** The part of CommitPendingItem that stores a new navigation. *)
Definition commit_new_item (pending : NavigationItem) : WKM unit :=
  t ← smoothed_now;
  let item := SetTimestamp t (ResetForCommit pending) in
  modify (with_pending_item_ (Some item));;
  s ← manager;
  match proxy s with
  | Some (MkWebView url back None forward) =>
      DCHECK (StartsWith (spec url) kAboutBlankURL);;
      DCHECK (zlen back =? 0);;
      DCHECK (zlen forward =? 0);;
      modify (with_empty_window_open_item_ (Some item))
  | _ =>
      modify (with_empty_window_open_item_ None);;
      SetNavigationItemInWKItem (proxy s ≫= currentItem) 0 item
  end.

Definition CommitPendingItem : WKM unit :=
  s ← manager;
  DCHECK (IsAttachedToWebView s);;
  if (pending_item_index_ s =? -1) && is_null (pending_item_ s) then mret tt
  else
    let last_committed_item_was_empty_window_open_item := is_some (empty_window_open_item_ s) in
    match pending_item_ s with
    | Some pending => whenM (pending_item_index_ s =? -1) (commit_new_item pending)
    | None => mret tt
    end;;
    modify (with_pending_item_index_ (-1));;
    modify (with_pending_item_ None);;
    whenM (negb last_committed_item_was_empty_window_open_item)
      (modify (λ s, with_previous_item_index_ (last_committed_item_index_ s) s));;
    modify (λ s, with_last_committed_item_index_
      (if empty_window_open_item_ s then 0 else GetCurrentItemIndex s) s);;
    wk_OnNavigationItemCommitted.

Definition GetIndexForOffset (offset : Z) : WKM Z :=
  s ← manager;
  let current_item_index :=
    if pending_item_index_ s =? -1 then
      if empty_window_open_item_ s then 0 else GetCurrentItemIndex s
    else pending_item_index_ s in
  let offset :=
    if (offset <? 0) && is_some (GetTransientItem s) && (pending_item_index_ s =? -1)
    then offset + 1 else offset in
  int_add current_item_index offset.

Definition SetPreviousItemIndex (previous_item_index : Z) : WKM unit :=
  s ← manager;
  DCHECK (IsAttachedToWebView s);;
  modify (with_previous_item_index_ previous_item_index).

Definition SetPendingItemIndex (index : Z) : WKM unit := modify (with_pending_item_index_ index).

(** The index of the item a pointer points to. *)
Definition GetIndexOfItem s (item : wk_ref) : Z :=
  if bool_decide (item = RWKEmptyWindow) && is_some (empty_window_open_item_ s) then 0
  else
    match item with
    | RWKItem k =>
        if IsAttachedToWebView s && is_some (wk_get_item s (RWKItem k)) then to_int32 k else -1
    | RWKCached k =>
        if negb (IsAttachedToWebView s) && is_some (wk_get_item s (RWKCached k))
        then to_int32 k else -1
    | _ => -1
    end.

Definition GetPendingItemIndex : WKM Z :=
  pending ← GetPendingItem;
  if is_some pending then
    s ← manager;
    if negb (pending_item_index_ s =? -1) then mret (pending_item_index_ s)
    else GetLastCommittedItemIndex
  else mret (-1).

Definition CanGoToOffset (offset : Z) : WKM bool :=
  s ← manager;
  if is_restore_session_in_progress_ s then mret false
  else if empty_window_open_item_ s then mret (offset =? 0)
  else
    index ← GetIndexForOffset offset;
    mret ((0 <=? index) && (index <? GetItemCount s)).
Definition CanGoBack : WKM bool := CanGoToOffset (-1).
Definition CanGoForward : WKM bool := CanGoToOffset 1.

(** The loop of GetBackwardItems, down from the index [n - 1]. *)
Fixpoint items_below (n : nat) : WKM (list (option item_ref)) :=
  match n with
  | O => mret []
  | S n' =>
      r ← GetItemAtIndex (Z.of_nat n');
      rest ← items_below n';
      mret (r :: rest)
  end.

Definition GetBackwardItems : WKM (list (option item_ref)) :=
  s ← manager;
  if is_restore_session_in_progress_ s then mret []
  else
    let current_back_forward_item_index := GetCurrentItemIndex s in
    first ← (if is_some (GetTransientItem s) && (0 <=? current_back_forward_item_index)
             then r ← GetItemAtIndex current_back_forward_item_index; mret [r]
             else mret []);
    rest ← items_below (Z.to_nat current_back_forward_item_index);
    mret (first ++ rest).

Definition GetForwardItems : WKM (list (option item_ref)) :=
  s ← manager;
  if is_restore_session_in_progress_ s then mret []
  else
    let first := GetCurrentItemIndex s + 1 in
    for_indices (Z.to_nat (GetItemCount s - first)) first GetItemAtIndex.

(** ** Restoring a session *)

(** [delegate_->RemoveWebView()]: the web controller, if it has a view, has the
    manager detach from it. *)
Definition wk_RemoveWebView : WKM unit :=
  call_delegate RemoveWebView;;
  s ← manager;
  match proxy s with
  | None => mret tt
  | Some _ => DetachFromWebView;; modify (with_proxy None)
  end.

(** The items of a vector of owned pointers, rewritten. *)
Fixpoint rewrite_items (items : list (option NavigationItem)) : WKM (list NavigationItem) :=
  match items with
  | [] => mret []
  | item :: items =>
      item ← not_null item;
      item ← RewriteItemURLIfNecessary item;
      items ← rewrite_items items;
      mret (item :: items)
  end.

Section load.
(** The virtual LoadURLWithParams. *)
Variable load : WebLoadParams → WKM unit.

Definition UnsafeRestore (last_committed_item_index : Z) (items : list (option NavigationItem)) :
    WKM unit :=
  items ← rewrite_items items;
  url ← lift_res (CreateRestoreSessionUrl last_committed_item_index items);
  first ← at_ items 0;
  let params := MkParams url (GetVirtualURL first) Referrer_default PAGE_TRANSITION_RELOAD
                  Override_INHERIT false None None in
  let firstTitle := GetTitle first in
  modify (with_is_restore_session_in_progress_ true);;
  whenM (-1 <? last_committed_item_index)
    (visible ← at_ items last_committed_item_index;
     modify (with_restored_visible_item_ (Some visible)));;
  load params;;
  pendingItem ← GetPendingItemInCurrentOrRestoredSession;
  match pendingItem with
  | Some r => with_item r (SetTitle firstTitle)
  | None => mret tt
  end.

Definition Restore (last_committed_item_index : Z) (items : list (option NavigationItem)) :
    WKM unit :=
  s ← manager;
  DCHECK (negb (is_restore_session_in_progress_ s));;
  DCHECK (last_committed_item_index <? to_int32 (zlen items));;
  DCHECK (bool_decide (items = []) || (0 <=? last_committed_item_index));;
  if bool_decide (items = []) then mret tt
  else
    whenM (negb (IsAttachedToWebView s)) ResetToAttached;;
    DiscardNonCommittedItems;;
    count ← gets GetItemCount;
    whenM (0 <? count) wk_RemoveWebView;;
    count ← gets GetItemCount;
    DCHECK (count =? 0);;
    s ← manager;
    DCHECK (pending_item_index_ s =? -1);;
    modify (with_previous_item_index_ (-1));;
    modify (with_last_committed_item_index_ (-1));;
    UnsafeRestore last_committed_item_index items.

(** Restoring what a detached manager cached. *)
Definition restore_cached (index : Z) : WKM unit :=
  items ← ReleaseCachedItems;
  Restore index items;;
  s ← manager;
  DCHECK (IsAttachedToWebView s).

Definition wk_FinishGoToIndex (index : Z) (type : NavigationInitiationType)
    (has_user_gesture : bool) : WKM unit :=
  s ← manager;
  if negb (IsAttachedToWebView s) then restore_cached index
  else
    DiscardNonCommittedItems;;
    item ← GetItemAtIndex index;
    item ← not_null item;
    with_item item (λ i,
      SetTransitionType (Z.lor (GetTransitionType i) PAGE_TRANSITION_FORWARD_BACK) i);;
    wk_item ← GetWKItemAtIndex index;
    match wk_item with
    | Some _ =>
        i ← deref item;
        call_delegate (GoToBackForwardListItem index (GetUniqueID i) type has_user_gesture)
    | None =>
        s ← manager;
        DCHECK ((index =? 0) && is_some (empty_window_open_item_ s))
    end.

Definition wk_FinishReload : WKM unit :=
  s ← manager;
  if negb (IsAttachedToWebView s) then restore_cached (GetCurrentItemIndex s)
  else call_delegate DelegateReload.

(** [v.resize(n)] of a vector of owned pointers. *)
Definition resize (l : list (option NavigationItem)) (n : Z) : list (option NavigationItem) :=
  take (Z.to_nat n) l ++ replicate (Z.to_nat (n - zlen l)) None.

Definition wk_FinishLoadURLWithParams (initiation_type : NavigationInitiationType) : WKM unit :=
  s ← manager;
  if negb (IsAttachedToWebView s) then
    DCHECK (pending_item_index_ s =? -1);;
    match pending_item_ s with
    | Some pending =>
        if 0 <? GetBackForwardListItemCount s then
          cached_items ← ReleaseCachedItems;
          s ← manager;
          let next_item_index := GetCurrentItemIndex s + 1 in
          DCHECK (0 <? next_item_index);;
          modify (with_pending_item_ None);;
          Restore next_item_index
            (vec_set (resize cached_items (next_item_index + 1)) next_item_index (Some pending));;
          s ← manager;
          DCHECK (IsAttachedToWebView s)
        else
          ResetToAttached;;
          call_delegate (LoadCurrentItem initiation_type)
    | None =>
        ResetToAttached;;
        call_delegate (LoadCurrentItem initiation_type)
    end
  else call_delegate (LoadCurrentItem initiation_type).

Definition wk_LoadIfNecessary : WKM unit :=
  s ← manager;
  if negb (IsAttachedToWebView s) then restore_cached (GetCurrentItemIndex s)
  else call_delegate LoadIfNecessary.

Definition wk_GetVisibleItem : WKM (option item_ref) :=
  s ← manager;
  if is_restore_session_in_progress_ s || is_some (restored_visible_item_ s)
  then mret ((if restored_visible_item_ s then Some RWKRestored else None) : option item_ref)
  else
    match (GetTransientItem s : option item_ref) with
    | Some r => mret (Some r)
    | None =>
        pending_item ← GetPendingItemInCurrentOrRestoredSession;
        match pending_item with
        | Some r =>
            i ← deref r;
            let is_user_initiated :=
              bool_decide (navigation_initiation_type_ i = BROWSER_INITIATED) in
            if is_user_initiated && (pending_item_index_ s =? -1) then mret (Some r)
            else GetLastCommittedItem
        | None => GetLastCommittedItem
        end
    end.

Definition wk_actions : NavigationManagerActions WKBasedNavigationManager := {|
  AddPendingItem := wk_AddPendingItem;
  GetVisibleItem := wk_GetVisibleItem;
  FinishGoToIndex := wk_FinishGoToIndex;
  FinishReload := wk_FinishReload;
  FinishLoadURLWithParams := wk_FinishLoadURLWithParams;
|}.
End load.

(** LoadURLWithParams puts a load off while a session is restored; the bound
    parameters are a copy.  Restoring loads in turn: [fuel] bounds the nesting,
    and a load in a detached manager nests once. *)
Fixpoint wk_LoadURLWithParams (fuel : nat) (params : WebLoadParams) : WKM unit :=
  match fuel with
  | O => fail NeverReturns
  | S fuel =>
      s ← manager;
      if is_restore_session_in_progress_ s && negb (IsRestoreSessionUrl (params_url params)) then
        modify (λ s, with_restore_session_completion_callbacks_
          (restore_session_completion_callbacks_ s ++ [LoadAfterRestore (WebLoadParams_copy params)]) s)
      else LoadURLWithParams (ACT := wk_actions (wk_LoadURLWithParams fuel)) params
  end.
Definition wk_load : WebLoadParams → WKM unit := wk_LoadURLWithParams 2.

Definition wk_Restore : Z → list (option NavigationItem) → WKM unit := Restore wk_load.
Definition wk_GoToIndex (index : Z) : WKM unit :=
  GoToIndex (ACT := wk_actions wk_load) index BROWSER_INITIATED true.
Definition GoBack : WKM unit := index ← GetIndexForOffset (-1); wk_GoToIndex index.
Definition GoForward : WKM unit := index ← GetIndexForOffset 1; wk_GoToIndex index.
Definition wk_Reload : ReloadType → bool → WKM unit := Reload (ACT := wk_actions wk_load).

(** A callback runs once. *)
Definition run_callback (c : RestoreCallback) : WKM unit :=
  match c with
  | LoadAfterRestore params => wk_load params
  | OtherCallback id => modify (λ s, with_callbacks_run (callbacks_run s ++ [id]) s)
  end.

Definition AddRestoreCompletionCallback (id : Z) : WKM unit :=
  s ← manager;
  if negb (is_restore_session_in_progress_ s) then run_callback (OtherCallback id)
  else modify (λ s, with_restore_session_completion_callbacks_
         (restore_session_completion_callbacks_ s ++ [OtherCallback id]) s).

(** The loop over the callbacks; one that adds another would invalidate the
    iterator. *)
Fixpoint run_callbacks (callbacks : list RestoreCallback) : WKM unit :=
  match callbacks with
  | [] => mret tt
  | c :: callbacks =>
      before ← manager;
      run_callback c;;
      after ← manager;
      if zlen (restore_session_completion_callbacks_ before) =?
         zlen (restore_session_completion_callbacks_ after)
      then run_callbacks callbacks else fail OutOfRange
  end.

Definition OnRendererInitiatedNavigationStarted (url : GURL) : WKM unit :=
  s ← manager;
  if negb (IsRestoreSessionUrl url) && is_restore_session_in_progress_ s then
    modify (with_is_restore_session_in_progress_ false);;
    run_callbacks (restore_session_completion_callbacks_ s);;
    modify (with_restore_session_completion_callbacks_ []);;
    wk_LoadIfNecessary wk_load
  else mret tt.

Definition ApplyWKWebViewForwardHistoryClobberWorkaround : WKM unit :=
  s ← manager;
  DCHECK (IsAttachedToWebView s);;
  let current_item_index := GetCurrentItemIndex s in
  DCHECK (0 <=? current_item_index);;
  let item_count := GetItemCount s in
  DCHECK (current_item_index <? item_count);;
  forward_items ← for_indices (Z.to_nat (item_count - current_item_index)) current_item_index
    (λ index,
      r ← GetItemAtIndex index;
      r ← not_null r;
      item ← deref r;
      mret (Some item));
  DiscardNonCommittedItems;;
  UnsafeRestore wk_load 0 forward_items.
End operations.
