(* ===== verification/WKBasedLemmas.v ===== *)
(** * WKBasedNavigationManagerImpl: the history it shows

    The items of the web view as one list, the history of the manager (the
    items known so far, from the web view or from the cache), and what looking
    an item up does to the state: it may create that item, and nothing else
    changes ([materialized]). *)

From S2P Require Import Prelude.
From S2P Require Import WebEnv.
From S2P Require Import WkNavigationUtil.
From S2P Require Import NavigationItem.
From S2P Require Import BrowserURLRewriter.
From S2P Require Import NavigationManager.
From S2P Require Import WKWebViewCache.

Section view.
Context `{ENV : WebEnv}.
Implicit Types (v : WKWebView) (s : WKBasedNavigationManager).

(** The items of the web view, the oldest first. *)
Definition view_items v : list WKBackForwardListItem :=
  backList v ++ option_list (currentItem v) ++ forwardList v.

(** A list without a current item is empty, and [int] counts its items. *)
Definition view_ok v : Prop :=
  (currentItem v = None → backList v = [] ∧ forwardList v = []) ∧ zlen (view_items v) < INT_MAX.

Lemma view_count_items v : view_count v = zlen (view_items v).
Proof.
  unfold view_count, view_items, zlen. rewrite !length_app. destruct (currentItem v); simpl; lia.
Qed.

(** The position of an item relative to the current one. *)
Lemma itemAtIndex_items v i :
  view_ok v → 0 <= i < zlen (view_items v) →
  itemAtIndex v (i - zlen (backList v)) = vec_at (view_items v) i.
Proof.
  intros [Hnone _] Hi. unfold itemAtIndex, view_items in *.
  destruct (currentItem v) as [c|] eqn:Hc.
  2:{ destruct (Hnone eq_refl) as [Hb Hf]. rewrite Hb, Hf in Hi.
      unfold zlen in Hi. simpl in Hi. lia. }
  rewrite !zlen_app in Hi. simpl in *. rewrite zlen_cons in Hi. pose proof (zlen_nonneg (backList v)).
  rewrite vec_at_app. destruct (Z.eqb_spec (i - zlen (backList v)) 0) as [E|Hne].
  - rewrite (proj2 (Z.ltb_ge i _)) by lia. by replace (i - zlen (backList v)) with 0 by lia.
  - destruct (Z.ltb_spec 0 (i - zlen (backList v))).
    + rewrite (proj2 (Z.ltb_ge i _)) by lia.
      change (c :: forwardList v) with ([c] ++ forwardList v). rewrite vec_at_app.
      change (zlen [c]) with 1. by rewrite (proj2 (Z.ltb_ge _ 1)) by lia.
    + rewrite (proj2 (Z.ltb_lt i _)) by lia. f_equal. lia.
Qed.

Lemma set_list_app l k i it :
  set_list (l ++ k) i it =
  if i <? zlen l then set_list l i it ++ k else l ++ set_list k (i - zlen l) it.
Proof.
  unfold set_list, zlen. destruct (Z.ltb_spec i (Z.of_nat (length l))).
  - destruct (Z.ltb_spec i 0); [done|]. by rewrite alter_app_l by lia.
  - rewrite (proj2 (Z.ltb_ge i 0)), (proj2 (Z.ltb_ge (i - _) 0)) by lia.
    rewrite alter_app_r_alt by lia. by replace (Z.to_nat i - length l)%nat
      with (Z.to_nat (i - Z.of_nat (length l))) by lia.
Qed.

Lemma vec_at_set_list l i it j :
  vec_at (set_list l i it) j =
  if bool_decide (i = j) then with_navigationItem it <$> vec_at l j else vec_at l j.
Proof.
  unfold set_list, vec_at. destruct (Z.ltb_spec i 0), (Z.leb_spec 0 j); case_bool_decide; try done;
    subst; try lia.
  - by rewrite list_lookup_alter_eq.
  - by rewrite list_lookup_alter_ne by lia.
Qed.

Lemma zlen_set_list l i it : zlen (set_list l i it) = zlen l.
Proof. unfold set_list, zlen. destruct (i <? 0); [done|]. by rewrite length_alter. Qed.

Lemma view_items_set v i it :
  view_ok v → 0 <= i < zlen (view_items v) →
  view_items (setNavigationItem (i - zlen (backList v)) it v) = set_list (view_items v) i it ∧
  zlen (backList (setNavigationItem (i - zlen (backList v)) it v)) =
    zlen (backList v).
Proof.
  intros [Hnone _] Hi. unfold setNavigationItem, view_items in *.
  destruct (currentItem v) as [c|] eqn:Hc.
  2:{ destruct (Hnone eq_refl) as [Hb Hf]. rewrite Hb, Hf in Hi. unfold zlen in Hi. simpl in Hi. lia. }
  simpl in *. rewrite set_list_app.
  destruct (Z.eqb_spec (i - zlen (backList v)) 0) as [E|Hne]; simpl.
  - rewrite (proj2 (Z.ltb_ge i _)), E by lia. done.
  - destruct (Z.ltb_spec 0 (i - zlen (backList v))); simpl.
    + rewrite (proj2 (Z.ltb_ge i _)) by lia. simpl.
      change (c :: forwardList v) with ([c] ++ forwardList v). rewrite set_list_app.
      change (zlen [c]) with 1. by rewrite (proj2 (Z.ltb_ge _ 1)) by lia.
    + rewrite (proj2 (Z.ltb_lt i _)) by lia. simpl.
      replace (zlen (backList v) + (i - zlen (backList v))) with i by lia.
      by rewrite zlen_set_list.
Qed.
End view.

Section history.
Context `{ENV : WebEnv} `{LAWS : !WebEnvLaws}.
Implicit Types (v : WKWebView) (s : WKBasedNavigationManager).

(** The items known so far, of the web view or of the cache. *)
Definition history s : list (option NavigationItem) :=
  if attached_to_web_view_ s then
    match proxy s with Some v => navigationItem <$> view_items v | None => [] end
  else cached_items_ s.

Definition missing (l : list (option NavigationItem)) : Z :=
  foldr (λ (o : option NavigationItem) n, if o then n else n + 1) 0 l.

(** The unique ids used once every item of the history is created. *)
Definition budget s : Z := unique_id_counter (wk_base s) + missing (history s).

Record wk_inv s : Prop := {
  wi_view v : proxy s = Some v → view_ok v;
  wi_cached : attached_to_web_view_ s = false →
    Forall is_Some (cached_items_ s) ∧
    (if bool_decide (cached_items_ s = []) then cached_current_item_index_ s = -1
     else 0 <= cached_current_item_index_ s < zlen (cached_items_ s)) ∧
    zlen (cached_items_ s) < INT_MAX;
  wi_counter : 0 <= unique_id_counter (wk_base s);
}.

Lemma missing_nonneg l : 0 <= missing l.
Proof. induction l as [|[i|] l IH]; simpl; lia. Qed.

Lemma missing_set l k w :
  vec_at l k = Some None → missing (vec_set l k (Some w)) = missing l - 1.
Proof.
  unfold vec_at, vec_set. destruct (0 <=? k); [|done]. generalize (Z.to_nat k). clear k.
  intros n. revert l. induction n as [|n IH]; intros [|o l] H; simplify_eq/=; [lia|].
  rewrite IH by done. destruct o; lia.
Qed.

Lemma missing_in_range l k : vec_at l k = Some None → 1 <= missing l.
Proof.
  intros H. pose proof (missing_nonneg (vec_set l k (Some (NavigationItemImpl_new 0)))) as Hn.
  rewrite missing_set in Hn by done. lia.
Qed.

Lemma to_int32_count n : 0 <= n < INT_MAX → to_int32 n = n.
Proof. intros H. apply to_int32_id, in_int_nonneg. lia. Qed.

(** The number of items, and the current one. *)
Lemma count_history s : GetBackForwardListItemCount s = zlen (history s).
Proof.
  unfold GetBackForwardListItemCount, history, IsAttachedToWebView.
  destruct (attached_to_web_view_ s); [|done]. simpl.
  destruct (proxy s) as [v|]; [|done]. by rewrite view_count_items, zlen_fmap.
Qed.

Lemma back_le v : zlen (backList v) <= zlen (view_items v).
Proof. unfold view_items, zlen. rewrite length_app. lia. Qed.

Lemma current_index_view s v :
  wk_inv s → attached_to_web_view_ s = true → proxy s = Some v → view_items v ≠ [] →
  GetCurrentItemIndex s = zlen (backList v).
Proof.
  intros Hinv Ha Hp Hne. destruct (wi_view _ Hinv v Hp) as [Hnone Hlen].
  unfold GetCurrentItemIndex, IsAttachedToWebView. rewrite Ha, Hp. simpl.
  pose proof (back_le v). pose proof (zlen_nonneg (backList v)).
  destruct (currentItem v) eqn:Hc; [by apply to_int32_count; lia|].
  destruct (Hnone eq_refl) as [Hb Hf]. destruct Hne. unfold view_items. by rewrite Hb, Hc, Hf.
Qed.

Lemma current_index_range s :
  wk_inv s → (history s = [] ∧ GetCurrentItemIndex s = -1) ∨
             (0 <= GetCurrentItemIndex s < zlen (history s)).
Proof.
  intros Hinv. destruct (attached_to_web_view_ s) eqn:Ha.
  - unfold history. rewrite Ha. destruct (proxy s) as [v|] eqn:Hp.
    2:{ left. unfold GetCurrentItemIndex, IsAttachedToWebView. by rewrite Ha, Hp. }
    destruct (decide (view_items v = [])) as [E|Hne].
    + left. rewrite E. split; [done|]. unfold GetCurrentItemIndex, IsAttachedToWebView.
      rewrite Ha, Hp. simpl. destruct (currentItem v) eqn:Hc; [|done].
      unfold view_items in E. rewrite Hc in E. by apply app_eq_nil in E as [_ ?].
    + right. rewrite (current_index_view s v) by done. rewrite zlen_fmap.
      pose proof (zlen_nonneg (backList v)). split; [done|].
      destruct (wi_view _ Hinv v Hp) as [Hnone _]. unfold view_items, zlen. rewrite !length_app.
      destruct (currentItem v) eqn:Hc; simpl; [lia|]. destruct (Hnone eq_refl) as [Hb Hf].
      destruct Hne. unfold view_items. by rewrite Hb, Hc, Hf.
  - destruct (wi_cached _ Hinv Ha) as (_ & Hc & _).
    unfold history, GetCurrentItemIndex, IsAttachedToWebView. rewrite Ha. simpl.
    case_bool_decide; [left|right]; auto.
Qed.

(** GetWKItemAtIndex is an index into the list of the web view. *)
Lemma wk_item_at_items s i :
  wk_inv s → attached_to_web_view_ s = true →
  wk_item_at s i = proxy s ≫= λ v, vec_at (view_items v) i.
Proof.
  intros Hinv Ha. unfold wk_item_at. rewrite count_history. unfold history. rewrite Ha.
  destruct (proxy s) as [v|] eqn:Hp; simpl; [|by destruct (_ || _)].
  rewrite zlen_fmap. destruct (wi_view _ Hinv v Hp) as [Hn Hlen].
  destruct ((i <? 0) || (zlen (view_items v) <=? i)) eqn:Hr; bool_to_prop.
  1,2: symmetry; apply vec_at_None; lia.
  rewrite (current_index_view s v), to_int32_count by (done || lia ||
    (intros E; rewrite E in *; unfold zlen in *; simpl in *; lia)).
  apply itemAtIndex_items; [by split|lia].
Qed.

Lemma get_item_history s i :
  wk_inv s → attached_to_web_view_ s = true →
  wk_get_item s (RWKItem i) = mjoin (vec_at (history s) i).
Proof.
  intros Hinv Ha. unfold wk_get_item, history. rewrite wk_item_at_items, Ha by done.
  destruct (proxy s) as [v|]; simpl; [|by destruct i].
  rewrite vec_at_fmap. by destruct (vec_at (view_items v) i).
Qed.

(** ** What a lookup may change *)

(** What WebKit shows of a list, without the navigation items. *)
Definition view_shape v : GURL * Z * bool * list (GURL * string16) :=
  (webView_URL v, zlen (backList v), if currentItem v then true else false,
   (λ w, (wk_URL w, wk_title w)) <$> view_items v).

(** Some items of the history were created, each with a new unique id; all
    else is as it was. *)
Record materialized s s' : Prop := {
  mat_fields :
    s' = with_proxy (proxy s') (with_time_smoother_ (time_smoother_ s') (with_wk_base (wk_base s') s));
  mat_base :
    wk_base s' = MkBase (browser_state_ (wk_base s)) (transient_url_rewriters_ (wk_base s))
                   (unique_id_counter (wk_base s')) (delegate_calls (wk_base s));
  mat_shape : view_shape <$> proxy s' = view_shape <$> proxy s;
  mat_keeps k it : vec_at (history s) k = Some (Some it) → vec_at (history s') k = Some (Some it);
  mat_counter : unique_id_counter (wk_base s) <= unique_id_counter (wk_base s');
  mat_budget : budget s' = budget s;
}.

Lemma materialized_refl s : materialized s s.
Proof. split; try done; [by destruct s|by destruct (wk_base s)]. Qed.

Lemma mat_attached s s' : materialized s s' → attached_to_web_view_ s' = attached_to_web_view_ s.
Proof. intros [-> _ _ _ _ _]. done. Qed.
Lemma mat_cached s s' : materialized s s' → cached_items_ s' = cached_items_ s.
Proof. intros [-> _ _ _ _ _]. done. Qed.
Lemma mat_pending_index s s' : materialized s s' → pending_item_index_ s' = pending_item_index_ s.
Proof. intros [-> _ _ _ _ _]. done. Qed.
Lemma mat_empty_window s s' :
  materialized s s' → empty_window_open_item_ s' = empty_window_open_item_ s.
Proof. intros [-> _ _ _ _ _]. done. Qed.

Lemma materialized_trans s1 s2 s3 :
  materialized s1 s2 → materialized s2 s3 → materialized s1 s3.
Proof.
  intros [F1 B1 V1 K1 C1 M1] [F2 B2 V2 K2 C2 M2]. split; try congruence; try lia.
  - rewrite F2, F1. by destruct s1.
  - rewrite B2, B1. done.
  - intros k it H. by apply K2, K1.
Qed.

Lemma shape_view_ok v v' : view_shape v' = view_shape v → view_ok v → view_ok v'.
Proof.
  unfold view_shape. intros [= _ Hb Hc Hi] [Hnone Hlen].
  assert (zlen (view_items v') = zlen (view_items v)) as Hl.
  { apply (f_equal zlen) in Hi. by rewrite !zlen_fmap in Hi. }
  split; [|lia]. intros E. rewrite E in Hc. destruct (currentItem v) eqn:Ev; [done|].
  destruct (Hnone eq_refl) as [Hbv Hfv].
  unfold view_items in Hl. rewrite E, Ev, Hbv, Hfv in Hl. simpl in Hl.
  unfold zlen in Hl. rewrite length_app in Hl. simpl in Hl.
  split; apply length_zero_iff_nil; lia.
Qed.

Lemma mat_view s s' :
  materialized s s' → (∀ v, proxy s = Some v → view_ok v) → ∀ v, proxy s' = Some v → view_ok v.
Proof.
  intros [_ _ V _ _ _] Hv v Hp. rewrite Hp in V. destruct (proxy s) as [v0|]; [|discriminate].
  apply (inj Some) in V. eapply shape_view_ok; [exact V|by apply Hv].
Qed.

Lemma mat_inv s s' : materialized s s' → wk_inv s → wk_inv s'.
Proof.
  intros Hm [Hv Hc Hk]. pose proof (mat_counter _ _ Hm). split; [by eapply mat_view| |lia].
  destruct Hm as [-> _ _ _ _ _]. exact Hc.
Qed.

Lemma mat_count s s' : materialized s s' → zlen (history s') = zlen (history s).
Proof.
  intros Hm. unfold history. rewrite (mat_attached _ _ Hm), (mat_cached _ _ Hm).
  destruct (attached_to_web_view_ s); [|done].
  pose proof (mat_shape _ _ Hm) as V.
  destruct (proxy s) as [v|], (proxy s') as [v'|]; try done.
  apply (inj Some) in V. injection V as _ _ _ Hi. apply (f_equal zlen) in Hi.
  rewrite !zlen_fmap in Hi. by rewrite !zlen_fmap.
Qed.

Lemma mat_current s s' : materialized s s' → GetCurrentItemIndex s' = GetCurrentItemIndex s.
Proof.
  intros Hm. unfold GetCurrentItemIndex, IsAttachedToWebView. rewrite (mat_attached _ _ Hm).
  pose proof (mat_shape _ _ Hm) as V. destruct Hm as [-> _ _ _ _ _]. simpl.
  destruct (negb _); [done|].
  destruct (proxy s) as [v|], (proxy s') as [v'|]; simpl in V; try done.
  injection V as _ Hb Hc _. rewrite Hb. by destruct (currentItem v), (currentItem v').
Qed.
End history.

(** ** Creating an item *)

Section creating.
Context `{ENV : WebEnv} `{LAWS : !WebEnvLaws}.

(** What CreateNavigationItemWithRewriters makes. *)
Definition made_item (id : Z) (loaded : GURL) (ref : Referrer) (transition : Z)
    (init : NavigationInitiationType) : NavigationItem :=
  let item := SetNavigationInitiationType init (SetTransitionType transition (SetReferrer ref
                (SetURL loaded (SetOriginalRequestURL loaded (NavigationItemImpl_new id))))) in
  if URLNeedsUserAgentType loaded then item else with_user_agent_type_ UserAgentType_NONE item.

Lemma wp_CreateNavigationItemWithRewriters {St} `{!NavigationManagerState St}
    url ref tr init prev rewriters (Q : NavigationItem → St → Prop) s :
  0 <= unique_id_counter (get_base s) < INT_MAX →
  let b := get_base s in
  let id := unique_id_counter b + 1 in
  Q (made_item id (loaded_url url init prev (browser_state_ b) (manager_IsPlaceholderUrl url)
                     rewriters) ref tr init)
    (set_base (MkBase (browser_state_ b) (transient_url_rewriters_ b) id (delegate_calls b)) s) →
  wp (CreateNavigationItemWithRewriters url ref tr init prev rewriters) Q s.
Proof using All.
  intros Hc b id HQ. unfold CreateNavigationItemWithRewriters, GetUniqueIDInConstructor, int_add.
  wp_simp. fold b id. rewrite in_int_nonneg by (subst id b; lia). wp_simp. fold b. wp_simp.
  unfold made_item in HQ. set (loaded := loaded_url _ _ _ _ _ _) in *.
  destruct (URLNeedsUserAgentType loaded) eqn:Hu; simpl; wp_simp; [done|].
  unfold SetUserAgentType, GetVirtualURL. simpl. rewrite law_empty_is_empty, Hu. simpl. by wp_simp.
Qed.

Lemma made_item_url id loaded ref tr init : GetURL (made_item id loaded ref tr init) = loaded.
Proof. unfold made_item. by destruct (URLNeedsUserAgentType loaded). Qed.
Lemma made_item_virtual_url id loaded ref tr init :
  GetVirtualURL (made_item id loaded ref tr init) = loaded.
Proof using All.
  unfold made_item, GetVirtualURL. destruct (URLNeedsUserAgentType loaded); simpl;
    by rewrite law_empty_is_empty.
Qed.
Lemma made_item_user_agent id loaded ref tr init :
  GetUserAgentType (made_item id loaded ref tr init) =
  if URLNeedsUserAgentType loaded then UserAgentType_MOBILE else UserAgentType_NONE.
Proof. unfold made_item. by destruct (URLNeedsUserAgentType loaded). Qed.

(** ** Looking an item up *)

Implicit Types (s : WKBasedNavigationManager).

(** The pointer to the item of the history at an index. *)
Definition ref_at s (i : Z) : wk_ref :=
  if attached_to_web_view_ s then RWKItem i else RWKCached i.

(** The item made for an item [w] of the list after the item [prev]. *)
Definition created_for s (w : WKBackForwardListItem) (prev : option WKBackForwardListItem)
    (it : NavigationItem) : Prop :=
  GetURL it = loaded_url (wk_URL w) RENDERER_INITIATED
    (match prev with Some p => wk_URL p | None => EmptyGURL end)
    (browser_state_ (wk_base s)) (IsPlaceholderUrl (wk_URL w)) [] ∧
  GetTitle it = wk_title w ∧
  GetReferrer it = match prev with
                   | Some p => MkReferrer (wk_URL p) ReferrerPolicyAlways
                   | None => Referrer_default
                   end ∧
  GetUniqueID it = unique_id_counter (wk_base s) + 1.

Lemma SetTitle_fields title (it : NavigationItem) :
  GetURL (SetTitle title it) = GetURL it ∧ GetTitle (SetTitle title it) = title ∧
  GetReferrer (SetTitle title it) = GetReferrer it ∧
  GetUniqueID (SetTitle title it) = GetUniqueID it.
Proof. unfold SetTitle, GetTitle. case_bool_decide; by subst. Qed.

Lemma SetVirtualURL_fields url (it : NavigationItem) :
  GetURL (SetVirtualURL url it) = GetURL it ∧ GetTitle (SetVirtualURL url it) = GetTitle it ∧
  GetReferrer (SetVirtualURL url it) = GetReferrer it ∧
  GetUniqueID (SetVirtualURL url it) = GetUniqueID it.
Proof. done. Qed.

Lemma with_restored_virtual_url_ok it : ∃ it', with_restored_virtual_url it = Ok it' ∧
  GetURL it' = GetURL it ∧ GetTitle it' = GetTitle it ∧ GetReferrer it' = GetReferrer it ∧
  GetUniqueID it' = GetUniqueID it.
Proof.
  unfold with_restored_virtual_url, ExtractTargetURL.
  destruct (IsRestoreSessionUrl (GetURL it)); [|by eexists]. cbn [negb].
  destruct (starts_with (url_ref (GetURL it)) kRestoreSessionTargetUrlHashPrefix);
    [|by eexists].
  set (url := GURL_of _). eexists. split; [reflexivity|]. by destruct (IsPlaceholderUrl url).
Qed.

Lemma wp_create_item w prev (Q : NavigationItem → WKBasedNavigationManager → Prop) s :
  0 <= unique_id_counter (wk_base s) < INT_MAX →
  (∀ it t, created_for s w prev it →
    let b := wk_base s in
    Q it (with_time_smoother_ t (with_wk_base (MkBase (browser_state_ b)
      (transient_url_rewriters_ b) (unique_id_counter b + 1) (delegate_calls b)) s))) →
  wp (create_item w prev) Q s.
Proof using All.
  intros Hc HQ. unfold create_item. wp_simp.
  apply wp_CreateNavigationItemWithRewriters; [done|]. cbv zeta. wp_simp.
  unfold smoothed_now. wp_simp.
  destruct (GetSmoothedTime _ _) as [t smoother]. wp_simp.
  set (item := made_item _ _ _ _ _).
  destruct (with_restored_virtual_url_ok (SetTitle (wk_title w) (SetTimestamp t item)))
    as (it & -> & Hu & Ht & Hr & Hid). wp_simp.
  destruct (SetTitle_fields (wk_title w) (SetTimestamp t item)) as (Su & St & Sr & Si).
  apply HQ. unfold created_for. rewrite Hu, Ht, Hr, Hid, Su, St, Sr, Si.
  change (GetURL (SetTimestamp t item)) with (GetURL item).
  change (GetReferrer (SetTimestamp t item)) with (GetReferrer item).
  change (GetUniqueID (SetTimestamp t item)) with (GetUniqueID item).
  subst item. rewrite made_item_url. split_and!; try done.
  all: unfold made_item; by destruct (URLNeedsUserAgentType _).
Qed.

Lemma wp_lookup_out create i (Q : option wk_ref → WKBasedNavigationManager → Prop) s :
  i < 0 ∨ zlen (history s) <= i → Q None s →
  wp (cache_GetNavigationItemImplAtIndex i create) Q s.
Proof.
  intros Hi HQ. unfold cache_GetNavigationItemImplAtIndex. wp_simp. rewrite count_history.
  destruct ((i <? 0) || (zlen (history s) <=? i)) eqn:Hr; [by wp_simp|]. bool_to_prop. lia.
Qed.

Lemma in_history s i o : vec_at (history s) i = Some o →
  (i <? 0) || (GetBackForwardListItemCount s <=? i) = false.
Proof.
  intros H. apply vec_at_Some_range in H. rewrite count_history.
  apply orb_false_iff. split; [apply Z.ltb_ge|apply Z.leb_gt]; lia.
Qed.

Lemma wp_lookup_known create i it (Q : option wk_ref → WKBasedNavigationManager → Prop) s :
  wk_inv s → vec_at (history s) i = Some (Some it) → Q (Some (ref_at s i)) s →
  wp (cache_GetNavigationItemImplAtIndex i create) Q s.
Proof.
  intros Hinv Hit HQ. unfold cache_GetNavigationItemImplAtIndex. wp_simp.
  rewrite (in_history _ _ _ Hit). unfold IsAttachedToWebView, ref_at in *.
  destruct (attached_to_web_view_ s) eqn:Ha; simpl.
  - wp_simp. unfold GetWKItemAtIndex, IsAttachedToWebView. wp_simp. split; [done|].
    rewrite wk_item_at_items by done. unfold history in Hit. rewrite Ha in Hit.
    destruct (proxy s) as [v|]; simpl; [|by destruct i]. rewrite vec_at_fmap in Hit.
    destruct (vec_at (view_items v) i) as [w|]; simplify_eq/=. rewrite Hit. by wp_simp.
  - unfold history in Hit. rewrite Ha in Hit. unfold at_. rewrite Hit. by wp_simp.
Qed.

Lemma set_item_created s v i it t b :
  wk_inv s → attached_to_web_view_ s = true → proxy s = Some v → vec_at (history s) i = Some None →
  b = MkBase (browser_state_ (wk_base s)) (transient_url_rewriters_ (wk_base s))
        (unique_id_counter (wk_base s) + 1) (delegate_calls (wk_base s)) →
  let s' := wk_set_item (RWKItem i) it (with_time_smoother_ t (with_wk_base b s)) in
  history s' = vec_set (history s) i (Some it) ∧ materialized s s'.
Proof.
  intros Hinv Ha Hp Hmiss -> s'. destruct (wi_view _ Hinv v Hp) as [Hnone Hlen].
  assert (Hr : 0 <= i < zlen (view_items v)).
  { apply vec_at_Some_range in Hmiss. unfold history in Hmiss. by rewrite Ha, Hp, zlen_fmap in Hmiss. }
  assert (Hs' : proxy s' = Some (setNavigationItem (i - zlen (backList v)) it v)).
  { subst s'. unfold wk_set_item. simpl. rewrite Hp. simpl. do 2 f_equal.
    rewrite to_int32_count by lia. f_equal.
    change (GetCurrentItemIndex s = zlen (backList v)).
    apply current_index_view; try done. intros E. rewrite E in Hr. unfold zlen in Hr. simpl in Hr. lia. }
  destruct (view_items_set v i it (conj Hnone Hlen) Hr) as [Hitems Hback].
  assert (Hh : history s' = vec_set (history s) i (Some it)).
  { unfold history. rewrite Hs'. change (attached_to_web_view_ s') with (attached_to_web_view_ s).
    rewrite Ha, Hp, Hitems. apply vec_ext. intros j.
    rewrite vec_at_vec_set, vec_at_fmap, vec_at_set_list, zlen_fmap, vec_at_fmap.
    case_bool_decide as Hij.
    - subst j. rewrite bool_decide_eq_true_2 by done.
      destruct (vec_at_in_range _ _ Hr) as [w ->]. done.
    - by rewrite bool_decide_eq_false_2 by (intros [? ?]; done). }
  split; [done|]. split; try done.
  - rewrite Hs', Hp. simpl. f_equal. unfold view_shape. rewrite Hback, Hitems.
    assert ((λ w, (wk_URL w, wk_title w)) <$> set_list (view_items v) i it =
            (λ w, (wk_URL w, wk_title w)) <$> view_items v) as ->.
    { apply vec_ext. intros j. rewrite !vec_at_fmap, vec_at_set_list. case_bool_decide; [|done].
      by destruct (vec_at (view_items v) j). }
    unfold setNavigationItem. destruct (_ =? 0); simpl; [by destruct (currentItem v)|].
    by destruct (0 <? _).
  - intros k it0 Hk. rewrite Hh, vec_at_vec_set. case_bool_decide as Hc; [|done].
    destruct Hc as [-> _]. congruence.
  - simpl. lia.
  - unfold budget. rewrite Hh, missing_set by done. simpl. lia.
Qed.

Lemma wp_lookup_missing i (Q : option wk_ref → WKBasedNavigationManager → Prop) s :
  wk_inv s → budget s <= INT_MAX → vec_at (history s) i = Some None →
  (∀ s' it v w, materialized s s' → wk_inv s' → history s' = vec_set (history s) i (Some it) →
     attached_to_web_view_ s = true →
     proxy s = Some v → vec_at (view_items v) i = Some w →
     created_for s w (if i =? 0 then None else vec_at (view_items v) (i - 1)) it →
     Q (Some (RWKItem i)) s') →
  wp (cache_GetNavigationItemImplAtIndex i true) Q s.
Proof using All.
  intros Hinv Hbudget Hmiss HQ. unfold cache_GetNavigationItemImplAtIndex. wp_simp.
  rewrite (in_history _ _ _ Hmiss). unfold IsAttachedToWebView.
  destruct (attached_to_web_view_ s) eqn:Ha; simpl.
  2:{ destruct (wi_cached _ Hinv Ha) as [Hall _]. unfold history in Hmiss. rewrite Ha in Hmiss.
      destruct (elem_of_vec_at (cached_items_ s) None) as [_ H]. 
      rewrite Forall_forall in Hall. destruct (Hall None (H (ex_intro _ i Hmiss))). done. }
  assert (Hv : ∃ v w, proxy s = Some v ∧ vec_at (view_items v) i = Some w ∧ navigationItem w = None).
  { unfold history in Hmiss. rewrite Ha in Hmiss. destruct (proxy s) as [v|]; [|by destruct i].
    rewrite vec_at_fmap in Hmiss. destruct (vec_at (view_items v) i) as [w|] eqn:Hw; simplify_eq/=.
    eauto. }
  destruct Hv as (v & w & Hp & Hw & Hnone). wp_simp.
  unfold GetWKItemAtIndex, IsAttachedToWebView. wp_simp. split; [done|].
  rewrite wk_item_at_items, Hp by done. simpl. rewrite Hw, Hnone. simpl. wp_simp.
  assert (Hc : 0 <= unique_id_counter (wk_base s) < INT_MAX).
  { pose proof (missing_in_range _ _ Hmiss). pose proof (wi_counter _ Hinv).
    unfold budget in Hbudget. lia. }
  assert (Hrest : wp (create_item w (if i =? 0 then None else vec_at (view_items v) (i - 1)))
    (λ new_item s', Q (Some (RWKItem i)) (wk_set_item (RWKItem i) new_item s')) s).
  { apply wp_create_item; [done|]. intros it t Hit. cbv zeta.
    edestruct (set_item_created s v i it t) as [Hh Hm]; [done..|reflexivity|].
    eapply HQ; try done. by eapply mat_inv. }
  destruct (Z.eqb_spec i 0); wp_simp.
  - eapply wp_mono; [|exact Hrest]. intros. by wp_simp.
  - split; [done|]. rewrite wk_item_at_items, Hp by done. simpl.
    eapply wp_mono; [|exact Hrest]. intros. by wp_simp.
Qed.

(** A lookup in range gives the item of the history, which may be new. *)
Lemma wp_lookup i (Q : option wk_ref → WKBasedNavigationManager → Prop) s :
  wk_inv s → budget s <= INT_MAX → 0 <= i < zlen (history s) →
  (∀ s' it, materialized s s' → wk_inv s' → vec_at (history s') i = Some (Some it) →
     Q (Some (ref_at s i)) s') →
  wp (cache_GetNavigationItemImplAtIndex i true) Q s.
Proof using All.
  intros Hinv Hbudget Hi HQ. destruct (vec_at_in_range _ _ Hi) as [[it|] Hit].
  - eapply wp_lookup_known; try done. eapply HQ; try done. apply materialized_refl.
  - apply wp_lookup_missing; [done..|]. intros s' it v w Hm Hinv' Hh Ha _ _ _.
    specialize (HQ s' it). unfold ref_at in HQ. rewrite Ha in HQ. apply HQ; try done.
    rewrite Hh, vec_at_vec_set. by rewrite bool_decide_eq_true_2.
Qed.
End creating.
