(* ===== verification/WKBasedSpec.v ===== *)
(** * WKBasedNavigationManagerImpl: correctness

    Items are created when they are first looked up, once; a manager detached
    from its web view shows the history it had; the lists of back and forward
    items; commits; and the restoration of a session. *)

From S2P Require Import Prelude.
From S2P Require Import WebEnv.
From S2P Require Import WkNavigationUtil.
From S2P Require Import NavigationItem.
From S2P Require Import BrowserURLRewriter.
From S2P Require Import NavigationManager.
From S2P Require Import WKWebViewCache.
From S2P Require Import WKBasedNavigationManager.
From S2P Require Import WKBasedLemmas.

Section spec.
Context `{ENV : WebEnv} `{LAWS : !WebEnvLaws}.
Implicit Types (s : WKBasedNavigationManager).

(** ** Looking items up *)

(** The item of an entry of the web view is created the first time it is
    looked up, from the entry and the one before it, and later lookups give
    that item again; no other item, and nothing else, changes. *)
Theorem GetItemAtIndex_creates_once i s :
  wk_inv s → budget s <= INT_MAX → empty_window_open_item_ s = None →
  0 <= i < zlen (history s) →
  ∃ s' it, GetNavigationItemImplAtIndex i s = Ok (Some (ref_at s i), s') ∧
    wk_inv s' ∧ budget s' = budget s ∧ history s' = vec_set (history s) i (Some it) ∧
    match vec_at (history s) i with
    | Some (Some known) => it = known ∧ s' = s
    | _ => ∃ v w, proxy s = Some v ∧ vec_at (view_items v) i = Some w ∧
        created_for s w (if i =? 0 then None else vec_at (view_items v) (i - 1)) it
    end ∧
    GetNavigationItemImplAtIndex i s' = Ok (Some (ref_at s i), s').
Proof using All.
  intros Hinv Hbudget Hempty Hi.
  assert (Hknown : ∀ s1 it, wk_inv s1 → empty_window_open_item_ s1 = None →
    vec_at (history s1) i = Some (Some it) →
    GetNavigationItemImplAtIndex i s1 = Ok (Some (ref_at s1 i), s1)).
  { intros s1 it Hinv1 He Hit.
    enough (wp (GetNavigationItemImplAtIndex i) (λ r s', r = Some (ref_at s1 i) ∧ s' = s1) s1)
      as (r & s' & Hrun & -> & ->)%wp_run by done.
    unfold GetNavigationItemImplAtIndex. wp_simp. rewrite He. by eapply wp_lookup_known. }
  destruct (vec_at_in_range _ _ Hi) as [[it|] Hit]; rewrite Hit.
  - exists s, it. rewrite vec_set_self by done. split_and!; try done; by eapply Hknown.
  - assert (wp (GetNavigationItemImplAtIndex i) (λ r s', r = Some (ref_at s i) ∧
      ∃ it v w, materialized s s' ∧ wk_inv s' ∧ history s' = vec_set (history s) i (Some it) ∧
        proxy s = Some v ∧ vec_at (view_items v) i = Some w ∧
        created_for s w (if i =? 0 then None else vec_at (view_items v) (i - 1)) it) s)
      as (r & s' & Hrun & -> & new & v & w & Hm & Hinv' & Hh & Hp & Hw & Hc)%wp_run.
    { unfold GetNavigationItemImplAtIndex. wp_simp. rewrite Hempty.
      apply wp_lookup_missing; [done..|]. intros s' new v w Hm Hinv' Hh Ha Hp Hw Hc.
      unfold ref_at. rewrite Ha. split; [done|]. by exists new, v, w. }
    exists s', new. split_and!; try done; [by apply mat_budget|by exists v, w|].
    assert (ref_at s i = ref_at s' i) as -> by (unfold ref_at; by rewrite (mat_attached s s')).
    apply (Hknown s' new); [done|by rewrite (mat_empty_window s s')|].
    rewrite Hh, vec_at_vec_set. by rewrite bool_decide_eq_true_2.
Qed.

(** ** Detaching *)

(** The loop that copies the items. *)
Lemma wp_copy_items n first (Q : list (option NavigationItem) → WKBasedNavigationManager → Prop) s
    (lookup : Z → WKM (option wk_ref)) :
  wk_inv s → budget s <= INT_MAX → attached_to_web_view_ s = true →
  (∀ i s' Q, materialized s s' → wk_inv s' → 0 <= i < zlen (history s') →
     (∀ s'' it, materialized s' s'' → wk_inv s'' → vec_at (history s'') i = Some (Some it) →
        Q (Some (RWKItem i)) s'') → wp (lookup i) Q s') →
  0 <= first → first + Z.of_nat n <= zlen (history s) →
  (∀ items s', materialized s s' → wk_inv s' → zlen items = Z.of_nat n →
     (∀ k, 0 <= k < Z.of_nat n → ∃ it, vec_at items k = Some (Some it) ∧
        vec_at (history s') (first + k) = Some (Some it)) →
     Q items s') →
  wp (for_indices n first (λ index,
       r ← lookup index; r ← not_null r; item ← deref r;
       mret (Some (item : NavigationItem)))) Q s.
Proof using All.
  intros Hinv Hbudget Ha Hlookup Hf Hn HQ.
  apply (wp_for_indices (λ j acc s', materialized s s' ∧ wk_inv s' ∧ zlen acc = j - first ∧
    ∀ k, 0 <= k < j - first → ∃ it, vec_at acc k = Some (Some it) ∧
      vec_at (history s') (first + k) = Some (Some it))).
  - split_and!; [apply materialized_refl|done|rewrite zlen_nil; lia|intros k ?; lia].
  - intros j acc s1 Hj (Hm & Hinv1 & Hlen & Hall). wp_simp.
    apply Hlookup; [done|done|rewrite (mat_count s s1) by done; lia|].
    intros s2 it Hm2 Hinv2 Hit. wp_simp. exists (RWKItem j). split; [done|]. unfold deref. wp_simp.
    exists it. assert (Ha2 : attached_to_web_view_ s2 = true)
      by (by rewrite (mat_attached s1 s2), (mat_attached s s1)).
    split; [change (wk_get_item s2 (RWKItem j) = Some it); by rewrite get_item_history, Hit|].
    wp_simp. split_and!; [by eapply materialized_trans|done|rewrite zlen_app; unfold zlen at 2; simpl; lia|].
    intros k Hk. rewrite vec_at_app. destruct (Z.ltb_spec k (zlen acc)).
    + destruct (Hall k) as (it' & Hit' & Hh); [lia|]. exists it'. split; [done|].
      by apply (mat_keeps s1 s2).
    + exists it. replace (k - zlen acc) with 0 by lia. split; [done|].
      by replace (first + k) with j by lia.
  - intros acc s1 (Hm & Hinv1 & Hlen & Hall). apply HQ; try done; [lia|].
    intros k Hk. apply Hall. lia.
Qed.

Lemma wp_DetachFromWebView (Q : unit → WKBasedNavigationManager → Prop) s :
  wk_inv s → budget s <= INT_MAX → zlen (history s) < INT_MAX →
  (∀ s', wk_inv s' → attached_to_web_view_ s' = false →
     empty_window_open_item_ s' = empty_window_open_item_ s →
     zlen (history s') = zlen (history s) → GetCurrentItemIndex s' = GetCurrentItemIndex s →
     (∀ i it, vec_at (history s) i = Some (Some it) → vec_at (history s') i = Some (Some it)) →
     Q tt s') → wp DetachFromWebView Q s.
Proof using All.
  intros Hinv Hbudget Hmax HQ.
  unfold DetachFromWebView, IsAttachedToWebView. wp_simp.
  destruct (attached_to_web_view_ s) eqn:Ha; wp_simp.
  2:{ assert (with_attached_to_web_view_ false s = s) as -> by (destruct s; simpl in *; by subst).
      by apply HQ. }
  set (s0 := with_cached_current_item_index_ _ s).
  assert (history s0 = history s) as Hh0 by (unfold history; simpl; by rewrite Ha).
  assert (wk_inv s0) as Hinv0.
  { destruct Hinv as [Hv Hc Hk]. split; [done| |done]. simpl. by rewrite Ha. }
  rewrite count_history.
  apply (wp_copy_items _ _ _ s0 (λ i, cache_GetNavigationItemImplAtIndex i true)); try done.
  - intros i s1 Q1 Hm1 Hinv1 Hi HQ1. apply wp_lookup; try done.
    { pose proof (mat_budget _ _ Hm1). unfold budget in *. rewrite Hh0 in H. simpl in H. lia. }
    intros s2 it Hm2 Hinv2 Hit. unfold ref_at.
    rewrite (mat_attached s0 s1) by done. simpl. rewrite Ha. by apply (HQ1 s2 it).
  - pose proof (zlen_nonneg (history s)). rewrite Hh0. lia.
  - intros items s1 Hm Hinv1 Hlen Hall. wp_simp.
    pose proof (zlen_nonneg (history s)) as Hnn. rewrite Z2Nat.id in Hlen, Hall by done.
    pose proof (current_index_range s Hinv) as Hcur.
    assert (Hc1 : cached_current_item_index_ s1 = GetCurrentItemIndex s)
      by (by destruct Hm as [-> _ _ _ _ _]).
    apply HQ; [|done|exact (mat_empty_window _ _ Hm)|exact Hlen|exact Hc1|].
    + split; [exact (wi_view _ Hinv1)| |exact (wi_counter _ Hinv1)]. intros _. simpl. split_and!.
      * apply Forall_forall. intros o [k Hk]%elem_of_vec_at.
        destruct (Hall k) as (it & Hit & _); [apply vec_at_Some_range in Hk; lia|].
        rewrite Hit in Hk. injection Hk as <-. done.
      * rewrite Hc1. case_bool_decide as He.
        -- destruct Hcur as [[_ ?]|]; [done|]. rewrite He in Hlen. unfold zlen in Hlen at 1. simpl in Hlen. lia.
        -- destruct Hcur as [[E _]|]; [|lia]. rewrite E in Hlen. by apply zlen_zero_nil in Hlen.
      * lia.
    + intros i it Hit. unfold history. simpl.
      apply vec_at_Some_range in Hit as Hi.
      destruct (Hall i Hi) as (it' & -> & Hh). simpl in Hh.
      rewrite <- Hh0 in Hit. apply (mat_keeps s0 s1 Hm) in Hit.
      change (0 + i) with i in Hh. congruence.
Qed.

(** Detaching keeps the history: as many items, the same current one, every
    item that was known; from then on no lookup asks the web view, which may be
    removed or replaced. *)
Theorem DetachFromWebView_keeps_history s :
  wk_inv s → budget s <= INT_MAX → zlen (history s) < INT_MAX →
  ∃ s', DetachFromWebView s = Ok (tt, s') ∧ wk_inv s' ∧ attached_to_web_view_ s' = false ∧
    zlen (history s') = zlen (history s) ∧ GetCurrentItemIndex s' = GetCurrentItemIndex s ∧
    (∀ i it, vec_at (history s) i = Some (Some it) → vec_at (history s') i = Some (Some it)) ∧
    ∀ view i, 0 <= i < zlen (history s') →
      cache_GetNavigationItemImplAtIndex i true (with_proxy view s') =
      Ok (Some (RWKCached i), with_proxy view s').
Proof using All.
  intros Hinv Hbudget Hmax.
  assert (wp DetachFromWebView (λ _ s', wk_inv s' ∧ attached_to_web_view_ s' = false ∧
    zlen (history s') = zlen (history s) ∧ GetCurrentItemIndex s' = GetCurrentItemIndex s ∧
    (∀ i it, vec_at (history s) i = Some (Some it) → vec_at (history s') i = Some (Some it))) s)
    as (s' & Hrun & Hinv' & Ha' & Hlen & Hcur & Hkeep)%wp_run_unit
    by (apply wp_DetachFromWebView; [done..|]; intros; by split_and!).
  exists s'. split_and!; try done. intros view i Hi.
  assert (vec_at (history s') i = vec_at (cached_items_ s') i) as Hv
    by (unfold history; by rewrite Ha').
  destruct (vec_at_in_range _ _ Hi) as [o Ho]. rewrite Hv in Ho.
  destruct (wi_cached _ Hinv' Ha') as [Hall _]. rewrite Forall_forall in Hall.
  destruct (Hall o) as [it ->]; [apply elem_of_vec_at; eauto|].
  unfold cache_GetNavigationItemImplAtIndex, gets, mbind, M_bind. rewrite count_history.
  assert (history (with_proxy view s') = history s') as -> by (unfold history; simpl; by rewrite Ha').
  rewrite (proj2 (orb_false_iff _ _)) by (rewrite Z.ltb_ge, Z.leb_gt; lia).
  unfold IsAttachedToWebView. simpl. rewrite Ha'. simpl. unfold at_. by rewrite Ho.
Qed.

(** ** Back and forward *)

(** The pointers to the items from [i] on. *)
Definition refs s (i n : Z) : list (option wk_ref) := (λ k, Some (ref_at s k)) <$> seqZ i n.

Lemma refs_materialized s s' i n : materialized s s' → refs s' i n = refs s i n.
Proof using Type. intros Hm. unfold refs, ref_at. by rewrite (mat_attached s s'). Qed.

Lemma refs_snoc s i n : 0 <= n → refs s i (n + 1) = refs s i n ++ [Some (ref_at s (i + n))].
Proof using Type. intros Hn. unfold refs. rewrite seqZ_app by lia. by rewrite fmap_app. Qed.

Lemma refs_split s i n m :
  0 <= n → 0 <= m → refs s i n ++ refs s (i + n) m = refs s i (n + m).
Proof using Type. intros Hn Hm. unfold refs. by rewrite seqZ_app, fmap_app by lia. Qed.

Lemma wp_wk_GetItemAtIndex i (Q : option wk_ref → WKBasedNavigationManager → Prop) s :
  wk_inv s → budget s <= INT_MAX → empty_window_open_item_ s = None →
  0 <= i < zlen (history s) →
  (∀ s', materialized s s' → wk_inv s' → Q (Some (ref_at s i)) s') →
  wp (GetNavigationItemImplAtIndex i) Q s.
Proof using All.
  intros Hinv Hb Hempty Hi HQ. unfold GetNavigationItemImplAtIndex. wp_simp. rewrite Hempty.
  apply wp_lookup; [done..|]. intros s' it Hm Hinv' _. by apply HQ.
Qed.

Lemma wp_items_below n (Q : list (option wk_ref) → WKBasedNavigationManager → Prop) s :
  wk_inv s → budget s <= INT_MAX → empty_window_open_item_ s = None →
  Z.of_nat n <= zlen (history s) →
  (∀ s', materialized s s' → wk_inv s' → Q (reverse (refs s 0 (Z.of_nat n))) s') →
  wp (items_below n) Q s.
Proof using All.
  revert Q s. induction n as [|n IH]; intros Q s Hinv Hb Hempty Hn HQ; simpl; wp_simp.
  { apply HQ; [apply materialized_refl|done]. }
  apply wp_wk_GetItemAtIndex; [done..|lia|]. intros s1 Hm1 Hinv1. wp_simp.
  apply IH; [done|by rewrite (mat_budget s s1)|by rewrite (mat_empty_window s s1)
    |rewrite (mat_count s s1) by done; lia|].
  intros s2 Hm2 Hinv2. wp_simp.
  replace (Some (ref_at s (Z.of_nat n)) :: reverse (refs s1 0 (Z.of_nat n)))
    with (reverse (refs s 0 (Z.of_nat (S n)))); [apply HQ; [by eapply materialized_trans|done]|].
  rewrite Nat2Z.inj_succ, <- Z.add_1_r, refs_snoc, reverse_snoc by lia.
  by rewrite (refs_materialized s s1).
Qed.

Lemma wp_items_from n i (Q : list (option wk_ref) → WKBasedNavigationManager → Prop) s :
  wk_inv s → budget s <= INT_MAX → empty_window_open_item_ s = None →
  0 <= i → i + Z.of_nat n <= zlen (history s) →
  (∀ s', materialized s s' → wk_inv s' → Q (refs s i (Z.of_nat n)) s') →
  wp (for_indices n i GetNavigationItemImplAtIndex) Q s.
Proof using All.
  intros Hinv Hb Hempty Hi Hn HQ.
  apply (wp_for_indices (λ j acc s', materialized s s' ∧ wk_inv s' ∧ acc = refs s i (j - i))).
  - rewrite Z.sub_diag. by split_and!; [apply materialized_refl|..].
  - intros j acc s1 Hj (Hm & Hinv1 & ->).
    apply wp_wk_GetItemAtIndex; [done|by rewrite (mat_budget s s1)|by rewrite (mat_empty_window s s1)
      |rewrite (mat_count s s1) by done; lia|].
    intros s2 Hm2 Hinv2. split_and!; [by eapply materialized_trans|done|].
    replace (j + 1 - i) with (j - i + 1) by lia. rewrite refs_snoc by lia.
    replace (i + (j - i)) with j by lia. unfold ref_at. by rewrite (mat_attached s s1).
  - intros acc s1 (Hm & Hinv1 & ->). replace (i + Z.of_nat n - i) with (Z.of_nat n) by lia.
    by apply HQ.
Qed.

(** The offset counted from the current item: a transient item is one step. *)
Definition from_current s (offset : Z) : Z :=
  if (offset <? 0) && is_some (transient_item_ s) then offset + 1 else offset.

Lemma CanGoToOffset_in_history offset s :
  is_restore_session_in_progress_ s = false → empty_window_open_item_ s = None →
  pending_item_index_ s = -1 → zlen (history s) < INT_MAX →
  in_int (GetCurrentItemIndex s + from_current s offset) = true →
  let index := GetCurrentItemIndex s + from_current s offset in
  CanGoToOffset offset s = Ok ((0 <=? index) && (index <? zlen (history s)), s).
Proof using Type.
  intros Hr Hempty Hp Hmax Hint. unfold CanGoToOffset, GetIndexForOffset, manager, gets, mbind, M_bind.
  rewrite Hr, Hempty, Hp. simpl (-1 =? -1).
  assert ((offset <? 0) && is_some (GetTransientItem s) && true =
          (offset <? 0) && is_some (transient_item_ s)) as ->.
  { rewrite andb_true_r. unfold GetTransientItem. simpl. unfold wk_transient.
    by destruct (transient_item_ s). }
  cbv zeta. fold (from_current s offset). rewrite Hempty. unfold int_add. rewrite Hint. simpl. unfold wk_GetItemCount.
  rewrite Hempty, count_history, to_int32_count; [done|].
  pose proof (zlen_nonneg (history s)). lia.
Qed.

(** The items behind the current one, the nearest first, and the ones ahead. *)
Definition behind s : list (option wk_ref) :=
  let current := GetCurrentItemIndex s in
  (if is_some (transient_item_ s) && (0 <=? current) then refs s current 1 else []) ++
  reverse (refs s 0 current).
Definition ahead s : list (option wk_ref) :=
  let current := GetCurrentItemIndex s in
  refs s (current + 1) (zlen (history s) - (current + 1)).

Lemma refs_nil s i n : n <= 0 → refs s i n = [].
Proof using Type. intros Hn. unfold refs. by rewrite seqZ_nil. Qed.

Lemma zlen_refs s i n : 0 <= n → zlen (refs s i n) = n.
Proof using Type. intros Hn. unfold refs, zlen. rewrite length_fmap, length_seqZ. lia. Qed.

Lemma behind_ahead_history s :
  wk_inv s → let current := GetCurrentItemIndex s in
  reverse (behind s) ++
    (if is_some (transient_item_ s) || (current =? -1) then [] else [Some (ref_at s current)]) ++
    ahead s = refs s 0 (zlen (history s)).
Proof using Type.
  intros Hinv current. unfold behind, ahead. fold current.
  destruct (current_index_range s Hinv) as [[E Hc]|Hc]; fold current in Hc.
  - rewrite E, Hc, orb_true_r, andb_false_r. rewrite !refs_nil by (change (zlen []) with 0; lia). done.
  - rewrite (proj2 (Z.eqb_neq current _)), (proj2 (Z.leb_le 0 current)) by lia.
    rewrite reverse_app, reverse_involutive, orb_false_r, andb_true_r.
    transitivity (refs s 0 current ++ refs s current 1 ++
                  refs s (current + 1) (zlen (history s) - (current + 1))).
    + assert (refs s current 1 = [Some (ref_at s current)]) as ->
        by done.
      destruct (is_some (transient_item_ s)); by rewrite <- app_assoc.
    + rewrite refs_split by lia. rewrite (refs_split s 0 current) by lia. f_equal. lia.
Qed.

Lemma behind_nil s : wk_inv s →
  bool_decide (behind s ≠ []) =
  (0 <=? GetCurrentItemIndex s + from_current s (-1)).
Proof using Type.
  intros Hinv. unfold behind, from_current. change (-1 <? 0) with true. simpl.
  set (current := GetCurrentItemIndex s).
  destruct (current_index_range s Hinv) as [[_ Hc]|Hc]; fold current in Hc.
  - rewrite Hc, andb_false_r. simpl. by destruct (is_some (transient_item_ s)).
  - rewrite (proj2 (Z.leb_le 0 current)), andb_true_r by lia.
    destruct (is_some (transient_item_ s)); simpl.
    + rewrite (proj2 (Z.leb_le 0 _)) by lia. done.
    + destruct (Z.leb_spec 0 (current + -1)); [|by rewrite refs_nil by lia].
      apply bool_decide_eq_true. intros E%(f_equal zlen).
      unfold zlen in E at 1. rewrite length_reverse in E. fold (zlen (refs s 0 current)) in E.
      rewrite zlen_refs in E by lia. unfold zlen in E. simpl in E. lia.
Qed.

Lemma ahead_nil s : wk_inv s →
  bool_decide (ahead s ≠ []) = (GetCurrentItemIndex s + 1 <? zlen (history s)).
Proof using Type.
  intros Hinv. unfold ahead. set (current := GetCurrentItemIndex s).
  destruct (Z.ltb_spec (current + 1) (zlen (history s))); [|by rewrite refs_nil by lia].
  apply bool_decide_eq_true. intros E%(f_equal zlen). rewrite zlen_refs in E by lia.
  rewrite zlen_nil in E. lia.
Qed.

Lemma wp_GetBackwardItems (Q : list (option wk_ref) → WKBasedNavigationManager → Prop) s :
  wk_inv s → budget s <= INT_MAX → empty_window_open_item_ s = None →
  is_restore_session_in_progress_ s = false →
  (∀ s', materialized s s' → wk_inv s' → Q (behind s) s') → wp GetBackwardItems Q s.
Proof using All.
  intros Hinv Hb Hempty Hr HQ. unfold GetBackwardItems, manager. wp_simp. rewrite Hr.
  set (current := GetCurrentItemIndex s) in *. pose proof (zlen_nonneg (history s)).
  assert (Hcur : current < zlen (history s))
    by (destruct (current_index_range s Hinv) as [[_ E]|?]; subst current; lia).
  assert (Hbelow : ∀ first s1, materialized s s1 → wk_inv s1 →
    first = (if is_some (transient_item_ s) && (0 <=? current) then refs s current 1 else []) →
    wp (items_below (Z.to_nat current)) (λ rest, Q (first ++ rest)) s1).
  { intros first s1 Hm1 Hinv1 ->.
    apply wp_items_below; [done|by rewrite (mat_budget s s1)|by rewrite (mat_empty_window s s1)
      |rewrite (mat_count s s1) by done; lia|].
    intros s2 Hm2 Hinv2. rewrite (refs_materialized s s1) by done.
    replace (refs s 0 (Z.of_nat (Z.to_nat current))) with (refs s 0 current);
      [apply (HQ s2); [by eapply materialized_trans|done]|].
    destruct (Z.ltb_spec current 0); [|by rewrite Z2Nat.id]. by rewrite !refs_nil by lia. }
  assert (is_some (GetTransientItem s) = is_some (transient_item_ s)) as ->.
  { unfold GetTransientItem. simpl. unfold wk_transient. by destruct (transient_item_ s). }
  destruct (is_some (transient_item_ s) && (0 <=? current)) eqn:Ht; wp_simp.
  - bool_to_prop. apply wp_wk_GetItemAtIndex; [done..|]. intros s1 Hm1 Hinv1. wp_simp.
    eapply wp_mono; [|by apply (Hbelow [Some (ref_at s current)] s1)].
    intros rest s2 HQ2. by wp_simp.
  - eapply wp_mono; [|apply (Hbelow [] s); [apply materialized_refl|done..]].
    intros rest s2 HQ2. by wp_simp.
Qed.

Lemma wp_GetForwardItems (Q : list (option wk_ref) → WKBasedNavigationManager → Prop) s :
  wk_inv s → budget s <= INT_MAX → empty_window_open_item_ s = None →
  is_restore_session_in_progress_ s = false → zlen (history s) < INT_MAX →
  (∀ s', materialized s s' → wk_inv s' → Q (ahead s) s') → wp GetForwardItems Q s.
Proof using All.
  intros Hinv Hb Hempty Hr Hmax HQ. unfold GetForwardItems, manager. wp_simp. rewrite Hr. wp_simp.
  pose proof (zlen_nonneg (history s)).
  assert (GetItemCount s = zlen (history s)) as ->.
  { simpl. unfold wk_GetItemCount. by rewrite Hempty, count_history, to_int32_count. }
  assert (Hcur : -1 <= GetCurrentItemIndex s < zlen (history s))
    by (destruct (current_index_range s Hinv) as [[_ E]|?]; lia).
  apply wp_items_from; [done..|lia|lia|]. rewrite Z2Nat.id by lia. done.
Qed.


(** In a window opened without a page the one item is both the last
    committed item and, since the list of the web view is empty, an item to go
    forward to; going forward is not possible. *)
Theorem GetForwardItems_of_empty_window v it s :
  attached_to_web_view_ s = true → proxy s = Some v → view_items v = [] →
  empty_window_open_item_ s = Some it → is_restore_session_in_progress_ s = false →
  GetForwardItems s = Ok ([Some RWKEmptyWindow], s) ∧
  wk_last_committed s = Ok (Some RWKEmptyWindow, s) ∧
  CanGoForward s = Ok (false, s).
Proof using Type.
  intros Ha Hp Hv Hempty Hr. unfold view_items in Hv.
  apply app_eq_nil in Hv as [Hb [Hc Hf]%app_eq_nil].
  assert (currentItem v = None) as Hnone by (by destruct (currentItem v)).
  unfold CanGoForward, CanGoToOffset, wk_last_committed, GetForwardItems, manager, gets, mbind,
    M_bind. rewrite Hr, Hempty. split_and!; try done.
  unfold GetCurrentItemIndex, IsAttachedToWebView. rewrite Ha, Hp, Hnone. simpl.
  unfold wk_GetItemCount. rewrite Hempty. simpl. unfold GetNavigationItemImplAtIndex, gets, mbind, M_bind.
  by rewrite Hempty.
Qed.

(** ** Committing *)

(** The delegate is told the item. *)
Definition log_call (c : NavigationManagerCall) s : WKBasedNavigationManager :=
  let b := wk_base s in
  with_wk_base (MkBase (browser_state_ b) (transient_url_rewriters_ b) (unique_id_counter b)
                  (delegate_calls b ++ [c])) s.

Lemma wp_wk_OnNavigationItemCommitted r it (Q : unit → WKBasedNavigationManager → Prop) s :
  wk_last_committed s = Ok (Some r, s) → wk_get_item s r = Some it →
  (let s' := log_call (OnNavigationItemCommitted (GetUniqueID it)) s in
   Q tt (if IsRestoreSessionUrl (GetURL it) then s' else with_restored_visible_item_ None s')) →
  wp wk_OnNavigationItemCommitted Q s.
Proof using Type.
  intros Hlast Hit HQ. unfold wk_OnNavigationItemCommitted. wp_simp.
  apply (wp_of_run _ _ _ _ _ Hlast). wp_simp. split; [done|]. exists r. split; [done|].
  unfold deref. wp_simp. exists it. split; [done|]. wp_simp. unfold call_delegate. wp_simp.
  by destruct (IsRestoreSessionUrl (GetURL it)); wp_simp.
Qed.

(** The item a manager without a pending index shows as the last committed. *)
Definition shows s (it : NavigationItem) : Prop :=
  match empty_window_open_item_ s with
  | Some i => i = it
  | None => vec_at (history s) (GetCurrentItemIndex s) = Some (Some it)
  end.

Lemma last_committed_shown s it :
  wk_inv s → attached_to_web_view_ s = true → pending_item_index_ s = -1 → shows s it →
  ∃ r, wk_last_committed s = Ok (Some r, s) ∧ wk_get_item s r = Some it.
Proof using All.
  unfold shows. intros Hinv Ha Hidx Hit. destruct (empty_window_open_item_ s) as [i|] eqn:He.
  - subst i. exists RWKEmptyWindow. split; [|done].
    unfold wk_last_committed, gets, mbind, M_bind. by rewrite He.
  - exists (RWKItem (GetCurrentItemIndex s)). rewrite get_item_history, Hit by done. split; [|done].
    enough (wp wk_last_committed (λ r s', r = Some (RWKItem (GetCurrentItemIndex s)) ∧ s' = s) s)
      as (r & s' & Hrun & -> & ->)%wp_run by done.
    unfold wk_last_committed. wp_simp. rewrite He. unfold wk_last_committed_index.
    rewrite Hidx, He. simpl.
    apply vec_at_Some_range in Hit as Hr. rewrite (proj2 (Z.eqb_neq _ (-1))) by lia.
    unfold GetNavigationItemImplAtIndex. wp_simp. rewrite He.
    eapply wp_lookup_known; [done..|]. unfold ref_at. by rewrite Ha.
Qed.

(** What the commit of [item] leaves. *)
Definition committed (item : NavigationItem) (v : WKWebView) s s' : Prop :=
  (if currentItem v
   then let current := zlen (backList v) in
        empty_window_open_item_ s' = None ∧ last_committed_item_index_ s' = current ∧
        history s' = vec_set (history s) current (Some item)
   else empty_window_open_item_ s' = Some item ∧ last_committed_item_index_ s' = 0 ∧
        history s' = history s) ∧
  (∃ r, wk_last_committed s' = Ok (Some r, s') ∧ wk_get_item s' r = Some item) ∧
  pending_item_ s' = None ∧ pending_item_index_ s' = -1 ∧
  previous_item_index_ s' = (if empty_window_open_item_ s then previous_item_index_ s
                             else last_committed_item_index_ s) ∧
  delegate_calls (wk_base s') =
    delegate_calls (wk_base s) ++ [OnNavigationItemCommitted (GetUniqueID item)] ∧
  (IsRestoreSessionUrl (GetURL item) = false → restored_visible_item_ s' = None).

(** The end of a commit: [s1] is the state with the item stored. *)
Lemma wp_commit_end item s1 (Q : unit → WKBasedNavigationManager → Prop) :
  wk_inv s1 → attached_to_web_view_ s1 = true → pending_item_index_ s1 = -1 → shows s1 item →
  (∀ s', s' = (let s' := log_call (OnNavigationItemCommitted (GetUniqueID item)) s1 in
               if IsRestoreSessionUrl (GetURL item) then s' else with_restored_visible_item_ None s') →
     wk_inv s' → (∃ r, wk_last_committed s' = Ok (Some r, s') ∧ wk_get_item s' r = Some item) →
     Q tt s') →
  wp wk_OnNavigationItemCommitted Q s1.
Proof using All.
  intros Hinv Ha Hidx Hs HQ. destruct (last_committed_shown _ _ Hinv Ha Hidx Hs) as (r & Hl & Hit).
  apply (wp_wk_OnNavigationItemCommitted r item); [done..|].
  cbv zeta. destruct Hinv as [Hv Hca Hco].
  apply HQ; [done|by destruct (IsRestoreSessionUrl _)|].
  apply last_committed_shown; by destruct (IsRestoreSessionUrl _).
Qed.

(** The item of the current entry of the web view. *)
Lemma stored_current s v c item :
  wk_inv s → attached_to_web_view_ s = true → proxy s = Some v → currentItem v = Some c →
  let s1 := with_proxy (setNavigationItem 0 item <$> proxy s) s in
  let current := zlen (backList v) in
  wk_inv s1 ∧ history s1 = vec_set (history s) current (Some item) ∧
  GetCurrentItemIndex s1 = current ∧ vec_at (history s1) current = Some (Some item).
Proof using Type.
  intros Hinv Ha Hp Hc s1 current. destruct (wi_view _ Hinv v Hp) as [Hnone Hlen].
  assert (Hr : 0 <= current < zlen (view_items v)).
  { subst current. pose proof (zlen_nonneg (backList v)). split; [done|].
    unfold view_items. rewrite Hc. unfold zlen. rewrite !length_app. simpl. lia. }
  destruct (view_items_set v current item (conj Hnone Hlen) Hr) as [Hitems Hback].
  subst current. rewrite Z.sub_diag in Hitems, Hback.
  assert (Hh : history s1 = vec_set (history s) (zlen (backList v)) (Some item)).
  { subst s1. unfold history. simpl. rewrite Ha, Hp. simpl. rewrite Hitems. apply vec_ext. intros j.
    rewrite vec_at_vec_set, vec_at_fmap, vec_at_set_list, zlen_fmap, vec_at_fmap.
    case_bool_decide as Hj; [|by rewrite bool_decide_eq_false_2 by (intros [? _]; done)].
    subst j. rewrite bool_decide_eq_true_2 by done.
    by destruct (vec_at_in_range _ _ Hr) as [w ->]. }
  split_and!; [|done| |].
  - destruct Hinv as [Hv Hca Hk]. split; [|done|done]. subst s1. simpl. rewrite Hp. simpl.
    intros v' [= <-]. split; [unfold setNavigationItem; simpl; by rewrite Hc|].
    by rewrite Hitems, zlen_set_list.
  - subst s1. unfold GetCurrentItemIndex, IsAttachedToWebView. simpl. rewrite Ha, Hp. simpl.
    rewrite Hc. simpl. apply to_int32_count. lia.
  - rewrite Hh, vec_at_vec_set, bool_decide_eq_true_2; [done|]. split; [done|].
    unfold history. by rewrite Ha, Hp, zlen_fmap.
Qed.

(** C26: The commit of a new navigation stores the pending item for the current
    entry of the web view, or as the item of the window when the web view has
    no entry; that item is then the last committed one, is reported, and
    nothing is pending. *)
Theorem CommitPendingItem_stores_new_item pending v s :
  wk_inv s → attached_to_web_view_ s = true → proxy s = Some v →
  pending_item_ s = Some pending → pending_item_index_ s = -1 →
  (currentItem v = None → StartsWith (spec (webView_URL v)) kAboutBlankURL = true) →
  ∃ s' t, CommitPendingItem s = Ok (tt, s') ∧ wk_inv s' ∧
    committed (SetTimestamp t (ResetForCommit pending)) v s s'.
Proof using All.
  intros Hinv Ha Hp Hpend Hidx Hblank.
  enough (wp CommitPendingItem (λ _ s', wk_inv s' ∧ ∃ t,
    committed (SetTimestamp t (ResetForCommit pending)) v s s') s)
    as (s' & Hrun & Hinv' & t & Hc)%wp_run_unit by by exists s', t.
  unfold CommitPendingItem, manager. wp_simp. split; [done|]. rewrite Hidx, Hpend. simpl.
  unfold commit_new_item, smoothed_now, manager. wp_simp.
  destruct (GetSmoothedTime _ _) as [t smoother]. wp_simp.
  set (item := SetTimestamp _ _). simpl. rewrite Hp.
  destruct (wi_view _ Hinv v Hp) as [Hnone Hlen].
  destruct (currentItem v) as [c|] eqn:Hcur.
  - destruct (stored_current s v c item) as (Hinv1 & Hh1 & Hc1 & Hit1); [done..|].
    destruct v as [url back cur forward]. simpl in Hcur. subst cur. simpl in *.
    unfold SetNavigationItemInWKItem. wp_simp. split; [done|]. destruct Hinv1 as [V1 K1 N1].
    destruct (empty_window_open_item_ s) eqn:He; simpl; wp_simp; apply (wp_commit_end item);
      [done|done|done|exact (eq_trans (f_equal _ Hc1) Hit1)|
      |done|done|done|exact (eq_trans (f_equal _ Hc1) Hit1)|].
    all: intros s' Hs' Hinv' Hlast; split; [done|]; exists t; unfold committed; fold item;
      rewrite He; cbv zeta; cbn [currentItem backList].
    all: split_and!; first [exact Hlast | rewrite Hs'; destruct (IsRestoreSessionUrl (GetURL item));
      first [done | exact Hc1 | exact Hh1]].
  - destruct (Hnone eq_refl) as [Hb Hf].
    destruct v as [url back cur forward]. simpl in Hcur, Hb, Hf. subst cur back forward. simpl in *.
    wp_simp. split; [by apply Hblank|]. wp_simp.
    destruct Hinv as [V1 K1 N1].
    destruct (empty_window_open_item_ s) eqn:He; simpl; wp_simp; apply (wp_commit_end item); try done.
    all: intros s' Hs' Hinv' Hlast; split; [done|]; exists t; unfold committed; fold item;
      rewrite He; cbv zeta; cbn [currentItem backList].
    all: split_and!; try exact Hlast; rewrite Hs'; by destruct (IsRestoreSessionUrl (GetURL item)).
Qed.
End spec.
