(* ===== verification/WKBasedRestore.v ===== *)
(** * WKBasedNavigationManagerImpl: restoring a session

    A restoration loads restore_session.html with the session in its URL.  It
    starts in a manager that shows nothing: a new one, or one that was detached
    from a web view that is gone. *)

From S2P Require Import Prelude.
From S2P Require Import WebEnv.
From S2P Require Import WkNavigationUtil.
From S2P Require Import NavigationItem.
From S2P Require Import BrowserURLRewriter.
From S2P Require Import NavigationManager.
From S2P Require Import WKWebViewCache.
From S2P Require Import WKBasedNavigationManager.
From S2P Require Import WKBasedLemmas.
From S2P Require Import WKBasedSpec.

Section restore.
Context `{ENV : WebEnv} `{LAWS : !WebEnvLaws}.
Implicit Types (s : WKBasedNavigationManager) (items : list NavigationItem).

(** An item as RewriteItemURLIfNecessary leaves it. *)
Definition rewritten s (i : NavigationItem) : NavigationItem :=
  let '(changed, url) := RewriteURLIfNecessary (GetURL i) (browser_state_ (wk_base s)) in
  if changed : bool then SetVirtualURL (GetURL i) (SetURL url i) else i.

Lemma wp_rewrite_items items (Q : list NavigationItem → WKBasedNavigationManager → Prop) s :
  Q (rewritten s <$> items) s → wp (rewrite_items (Some <$> items)) Q s.
Proof using Type.
  revert Q. induction items as [|i items IH]; intros Q HQ; simpl; wp_simp; [done|].
  unfold RewriteItemURLIfNecessary. wp_simp. unfold rewritten in *.
  change (get_base s) with (wk_base s). simpl in HQ.
  destruct (RewriteURLIfNecessary (GetURL i) _) as [changed url]. wp_simp.
  apply IH. by wp_simp.
Qed.

(** The sessions whose window of items stays inside the vector. *)
Definition restorable (last : Z) {A} (items : list A) : Prop :=
  0 <= last < zlen items ∧ zlen items < INT_MAX ∧
  ¬ (kMaxSessionSize < zlen items ∧ zlen items - last = kMaxSessionSize / 2).

Lemma restore_session_url last items :
  restorable last items →
  ∃ url, CreateRestoreSessionUrl last items = Ok url ∧ IsRestoreSessionUrl url = true.
Proof using All.
  intros (Hl & Hn & Hin). pose proof (GetSafeItemIterators_cases last (zlen items)) as Hc.
  destruct (GetSafeItemIterators last (zlen items)) as [b e] eqn:Hbe.
  destruct Hc as (Hb & He & Hlen & Hend & Hover & _); [lia|lia|].
  rewrite (CreateRestoreSessionUrl_unfold last items b e) by (done || lia).
  assert (kMaxSessionSize = 75) as Hk by done. rewrite Hk in *.
  rewrite restored_entries_ok by lia. eexists. split; [done|]. apply restore_base_with_ref.
Qed.

(** Nothing is shown, and the web view that would show it is gone. *)
Definition blank s : Prop :=
  attached_to_web_view_ s = true ∧ proxy s = None ∧ empty_window_open_item_ s = None.

Lemma blank_last_committed s (Q : option wk_ref → WKBasedNavigationManager → Prop) :
  blank s → pending_item_index_ s = -1 → Q None s → wp wk_last_committed Q s.
Proof using Type.
  intros (Ha & Hp & He) Hi HQ. unfold wk_last_committed. wp_simp. rewrite He.
  unfold wk_last_committed_index. rewrite Hi, He. unfold GetCurrentItemIndex, IsAttachedToWebView.
  rewrite Ha, Hp. simpl. wp_simp. split; [|done]. unfold wk_GetItemCount.
  rewrite He. unfold GetBackForwardListItemCount, IsAttachedToWebView. by rewrite Ha, Hp.
Qed.

(** The pending item of a restoration. *)
Definition restore_item s (url virtual_url : GURL) (item : NavigationItem) : Prop :=
  ∃ p, GetURL p = loaded_url url BROWSER_INITIATED EmptyGURL (browser_state_ (wk_base s)) false
                    (transient_url_rewriters_ (wk_base s)) ∧
    navigation_initiation_type_ p = BROWSER_INITIATED ∧
    item = if is_valid virtual_url then SetVirtualURL virtual_url p else p.

(** The state once [p] is the pending item. *)
Definition with_pending p s : WKBasedNavigationManager :=
  let b := wk_base s in
  with_pending_item_ (Some p) (with_pending_item_index_ (-1) (with_transient_item_ None
    (with_wk_base (MkBase (browser_state_ b) [] (unique_id_counter b + 1) (delegate_calls b)) s))).

Lemma wp_AddPendingItem_blank url ref tr init (Q : unit → WKBasedNavigationManager → Prop) s :
  blank s → 0 <= unique_id_counter (wk_base s) < INT_MAX →
  (∀ p, GetURL p = loaded_url url init EmptyGURL (browser_state_ (wk_base s))
                     (IsPlaceholderUrl url) (transient_url_rewriters_ (wk_base s)) →
     navigation_initiation_type_ p = init → Q tt (with_pending p s)) →
  wp (wk_AddPendingItem url ref tr init Override_INHERIT) Q s.
Proof using All.
  intros Hblank Hc HQ. unfold wk_AddPendingItem, DiscardNonCommittedItems. wp_simp.
  set (s0 := with_pending_item_index_ (-1) _).
  apply blank_last_committed; [done|done|]. unfold url_or_empty. wp_simp.
  apply wp_CreateNavigationItemWithRewriters; [done|]. cbv zeta. wp_simp.
  unfold RemoveTransientURLRewriters, GetLastCommittedItemWithUserAgentType. wp_simp.
  destruct Hblank as (Ha & Hp & He).
  assert (∀ s1, attached_to_web_view_ s1 = true → proxy s1 = None → empty_window_open_item_ s1 = None →
    pending_item_index_ s1 = -1 → wk_last_committed_index s1 = -1) as Hlast.
  { intros s1 Ha1 Hp1 He1 Hi1. unfold wk_last_committed_index, GetCurrentItemIndex, IsAttachedToWebView.
    by rewrite Hi1, He1, Ha1, Hp1. }
  cbn -[loaded_url wk_last_committed_index made_item]. rewrite Hlast by done. simpl. wp_simp.
  set (item := made_item _ _ _ _ _). unfold UpdatePendingItemUserAgentType, deref. wp_simp.
  exists item. split; [done|].
  assert (GetUserAgentType item ≠ UserAgentType_DESKTOP) as Hua
    by (subst item; rewrite made_item_user_agent; by destruct (URLNeedsUserAgentType _)).
  wp_simp. split; [by rewrite orb_true_r|]. wp_simp. rewrite bool_decide_eq_false_2 by done.
  split; [done|]. specialize (HQ item (made_item_url _ _ _ _ _)). unfold manager.
  assert (navigation_initiation_type_ item = init) as Hinit
    by (subst item; unfold made_item; by destruct (URLNeedsUserAgentType _)).
  specialize (HQ Hinit). case_if; wp_simp.
  all: unfold IsAttachedToWebView; cbn; rewrite Ha; cbn; wp_simp.
  all: unfold pending_is_current, manager; wp_simp; cbn; rewrite Hp; wp_simp; exact HQ.
Qed.

(** The state after restore_session.html was loaded: [p] is pending. *)
Definition logged (calls : list NavigationManagerCall) s : WKBasedNavigationManager :=
  let b := wk_base s in
  with_wk_base (MkBase (browser_state_ b) (transient_url_rewriters_ b) (unique_id_counter b)
                  (delegate_calls b ++ calls)) s.
Definition restore_loaded (p : NavigationItem) s : WKBasedNavigationManager :=
  with_pending p (logged [ClearTransientContent; RecordPageStateInNavigationItem;
                          LoadCurrentItem BROWSER_INITIATED] s).

Definition restore_params (url virtual_url : GURL) : WebLoadParams :=
  MkParams url virtual_url Referrer_default PAGE_TRANSITION_RELOAD Override_INHERIT false None None.

Lemma wp_update_pending (b : bool) f p s (Q : unit → WKBasedNavigationManager → Prop) :
  Q tt (with_pending (if b then f p else p) s) →
  wp (whenM b (with_item RWKPending f)) Q (with_pending p s).
Proof using Type.
  intros HQ. destruct b; wp_simp; [|done]. unfold with_item, deref. wp_simp. by exists p.
Qed.

Lemma wp_load_restore_url n url virtual_url (Q : unit → WKBasedNavigationManager → Prop) s :
  blank s → is_restore_session_in_progress_ s = true → IsRestoreSessionUrl url = true →
  0 <= unique_id_counter (wk_base s) < INT_MAX →
  (∀ p, restore_item s url virtual_url p → Q tt (restore_loaded p s)) →
  wp (wk_LoadURLWithParams (S n) (restore_params url virtual_url)) Q s.
Proof using All.
  intros Hblank Hr Hurl Hc HQ. cbn [wk_LoadURLWithParams]. unfold manager. wp_simp.
  rewrite Hr. cbn [params_url restore_params]. rewrite Hurl. simpl.
  unfold LoadURLWithParams. wp_simp. cbn [restore_params transition_type]. rewrite law_reload_transition.
  split; [done|]. unfold call_delegate. wp_simp. cbn -[wk_AddPendingItem].
  apply wp_AddPendingItem_blank; [done..|]. intros p Hp Hinit. wp_simp.
  assert (IsPlaceholderUrl url = false) as Hph.
  { destruct (IsPlaceholderUrl url) eqn:E; [|done]. apply placeholder_not_restore in E. congruence. }
  rewrite Hph in Hp. set (s1 := with_pending p _).
  assert (blank s1) as Hblank1 by done. assert (pending_item_index_ s1 = -1) as Hidx1 by done.
  unfold wk_pending. wp_simp. rewrite Hidx1. change (pending_item_ s1) with (Some p). cbn -[s1].
  wp_simp. apply blank_last_committed; [done..|]. wp_simp. unfold deref. wp_simp. exists p. split; [done|].
  set (hash := negb _ && _).
  rewrite wp_bind. apply wp_update_pending. cbv beta. apply wp_update_pending. wp_simp.
  split; [done|]. wp_simp. split; [done|]. exists RWKPending. split; [done|]. wp_simp.
  unfold wk_FinishLoadURLWithParams, manager, IsAttachedToWebView. wp_simp.
  destruct Hblank as (Ha & _ & _). cbn. rewrite Ha. cbn. unfold call_delegate. wp_simp.
  set (p1 := if hash then SetIsCreatedFromHashChange true p else p).
  set (p2 := if is_valid virtual_url then _ else _).
  assert (restore_item s url virtual_url p2) as Hitem.
  { exists p1. split; [by destruct hash|]. split; [by destruct hash|done]. }
  specialize (HQ p2 Hitem). unfold restore_loaded, with_pending, logged in HQ. cbn in HQ.
  cbn. by rewrite <- !app_assoc.
Qed.

(** The state once the restoration of [items] has begun. *)
Definition restoring (p first visible : NavigationItem) s : WKBasedNavigationManager :=
  restore_loaded (SetTitle (GetTitle first) p)
    (with_restored_visible_item_ (Some visible) (with_is_restore_session_in_progress_ true s)).

Lemma wp_UnsafeRestore n last items (Q : unit → WKBasedNavigationManager → Prop) s :
  blank s → restorable last items → 0 <= unique_id_counter (wk_base s) < INT_MAX →
  (∀ url first visible p,
     CreateRestoreSessionUrl last (rewritten s <$> items) = Ok url →
     rewritten s <$> vec_at items 0 = Some first → rewritten s <$> vec_at items last = Some visible →
     restore_item s url (GetVirtualURL first) p → Q tt (restoring p first visible s)) →
  wp (UnsafeRestore (wk_LoadURLWithParams (S n)) last (Some <$> items)) Q s.
Proof using All.
  intros Hblank Hrest Hc HQ. unfold UnsafeRestore. wp_simp. apply wp_rewrite_items. wp_simp.
  destruct Hrest as (Hl & Hrest).
  destruct (restore_session_url last (rewritten s <$> items)) as (url & Hurl & Hurl').
  { unfold restorable. by rewrite zlen_fmap. }
  destruct (vec_at_in_range items 0) as [i0 H0]; [lia|].
  destruct (vec_at_in_range items last) as [il Hil]; [lia|].
  rewrite Hurl. wp_simp. exists (rewritten s i0). rewrite vec_at_fmap, H0. split; [done|].
  rewrite (proj2 (Z.ltb_lt (-1) last)) by lia. wp_simp.
  exists (rewritten s il). rewrite vec_at_fmap, Hil. split; [done|]. wp_simp.
  apply wp_load_restore_url; [done..|]. intros p Hp. wp_simp.
  change GetPendingItemInCurrentOrRestoredSession with wk_pending. unfold wk_pending. wp_simp.
  cbn -[SetTitle GetTitle]. wp_simp. unfold with_item, deref. wp_simp. exists p. split; [done|].
  wp_simp. apply (HQ url (rewritten s i0) (rewritten s il) p); try done.
  - by rewrite H0.
  - by rewrite Hil.
Qed.

(** A detached manager with a cached history whose web view is gone. *)
Record detached s items : Prop := {
  dt_attached : attached_to_web_view_ s = false;
  dt_cached : cached_items_ s = Some <$> items;
  dt_proxy : proxy s = None;
  dt_empty_window : empty_window_open_item_ s = None;
  dt_restoring : is_restore_session_in_progress_ s = false;
  dt_counter : 0 <= unique_id_counter (wk_base s) < INT_MAX;
}.

(** What restoring the history [items] at [index] leaves. *)
Definition restores (index : Z) items s s' : Prop :=
  attached_to_web_view_ s' = true ∧ is_restore_session_in_progress_ s' = true ∧
  cached_items_ s' = [] ∧ previous_item_index_ s' = -1 ∧ last_committed_item_index_ s' = -1 ∧
  wk_GetVisibleItem s' = Ok (Some RWKRestored, s') ∧
  restored_visible_item_ s' = rewritten s <$> vec_at items index ∧
  (∃ url first p, CreateRestoreSessionUrl index (rewritten s <$> items) = Ok url ∧
     rewritten s <$> vec_at items 0 = Some first ∧
     restore_item s url (GetVirtualURL first) p ∧
     pending_item_ s' = Some (SetTitle (GetTitle first) p)) ∧
  delegate_calls (wk_base s') =
    delegate_calls (wk_base s) ++ [ClearTransientContent; RecordPageStateInNavigationItem;
                                   LoadCurrentItem BROWSER_INITIATED] ∧
  restore_session_completion_callbacks_ s' = restore_session_completion_callbacks_ s.

Lemma visible_while_restoring v s :
  is_restore_session_in_progress_ s = true → restored_visible_item_ s = Some v →
  wk_GetVisibleItem s = Ok (Some RWKRestored, s).
Proof using Type.
  intros Hr Hv. unfold wk_GetVisibleItem, manager, gets, mbind, M_bind. by rewrite Hr, Hv.
Qed.

Lemma wp_Restore_detached n index items s :
  detached s items → restorable index items →
  wp (restore_cached (wk_LoadURLWithParams (S n)) index) (λ _ s', restores index items s s') s.
Proof using All.
  intros [Ha Hcached Hp He Hr Hc] Hrest. unfold restore_cached, ReleaseCachedItems. wp_simp.
  unfold IsAttachedToWebView. rewrite Ha. split; [done|]. wp_simp. rewrite Hcached.
  remember (wk_LoadURLWithParams (S n)) as load eqn:Hload.
  unfold Restore, manager. wp_simp. cbn. destruct Hrest as (Hl & Hmax & Hin).
  rewrite Hr. split; [done|]. rewrite zlen_fmap, to_int32_count by lia.
  split; [apply Z.ltb_lt; lia|]. rewrite (proj2 (Z.leb_le 0 index)), orb_true_r by lia. split; [done|].
  rewrite bool_decide_eq_false_2 by (intros E%fmap_nil_inv; subst; unfold zlen in Hl; simpl in Hl; lia).
  rewrite Ha. cbn. unfold ResetToAttached, DiscardNonCommittedItems. wp_simp.
  set (s1 := with_pending_item_index_ (-1) _).
  assert (wk_GetItemCount s1 = 0) as Hcount by (unfold wk_GetItemCount; subst s1; cbn; by rewrite He, Hp).
  rewrite Hcount. cbn -[s1]. wp_simp. rewrite Hcount. split; [done|]. wp_simp. split; [done|]. wp_simp.
  subst load. apply wp_UnsafeRestore; [done|by split|done|].
  intros url first visible p Hurl Hfirst Hvis Hp'. wp_simp. split; [done|].
  unfold restores. split; [reflexivity|]. split; [reflexivity|]. split; [reflexivity|].
  split; [reflexivity|]. split; [reflexivity|].
  split; [by eapply visible_while_restoring|]. split; [by symmetry|].
  split; [|split; reflexivity]. exists url, first, p. split; [exact Hurl|].
  split; [exact Hfirst|]. split; [exact Hp'|reflexivity].
Qed.


(** Restoring a session over a web view that shows one fails: removing the
    web view detaches the manager, which then counts the items it cached. *)
Theorem Restore_over_shown_history_fails load last items v s :
  wk_inv s → budget s <= INT_MAX → attached_to_web_view_ s = true → proxy s = Some v →
  view_items v ≠ [] → empty_window_open_item_ s = None →
  is_restore_session_in_progress_ s = false → 0 <= last < zlen items → zlen items < INT_MAX →
  Restore load last (Some <$> items) s = Crash DCheckFailed.
Proof using All.
  intros Hinv Hb Ha Hp Hv He Hr Hl Hmax. unfold Restore, manager.
  apply crash_after. wp_simp. rewrite Hr. apply crash_after. wp_simp. split; [done|].
  apply crash_after. wp_simp. rewrite zlen_fmap, to_int32_count by lia.
  split; [apply Z.ltb_lt; lia|]. apply crash_after. wp_simp.
  rewrite (proj2 (Z.leb_le 0 last)), orb_true_r by lia. split; [done|].
  rewrite bool_decide_eq_false_2 by (intros E%fmap_nil_inv; subst; unfold zlen in Hl; simpl in Hl; lia).
  unfold IsAttachedToWebView. rewrite Ha. apply crash_after. wp_simp.
  apply crash_after. unfold DiscardNonCommittedItems. wp_simp.
  set (s1 := with_pending_item_index_ (-1) _).
  assert (wk_inv s1) as Hinv1 by (by destruct Hinv).
  assert (Hh : history s1 = navigationItem <$> view_items v) by (unfold history; simpl; by rewrite Ha, Hp).
  assert (Hlen : 0 < zlen (history s1) < INT_MAX).
  { destruct (wi_view _ Hinv v Hp) as [_ Hlt]. rewrite Hh, zlen_fmap.
    pose proof (zlen_nonneg (view_items v)). split; [|done].
    destruct (decide (zlen (view_items v) = 0)) as [E|]; [by apply zlen_zero_nil in E|lia]. }
  assert (Hcount : ∀ s2, empty_window_open_item_ s2 = None → zlen (history s2) = zlen (history s1) →
    GetItemCount s2 = zlen (history s1)).
  { intros s2 He2 Hh2. simpl. unfold wk_GetItemCount.
    rewrite He2, count_history, Hh2. by apply to_int32_count; lia. }
  apply crash_after. wp_simp. rewrite Hcount by done.
  rewrite (proj2 (Z.ltb_lt 0 _)) by lia. apply crash_after. wp_simp. unfold wk_RemoveWebView, manager.
  unfold call_delegate. wp_simp. simpl. rewrite Hp. wp_simp.
  apply wp_DetachFromWebView; [by destruct Hinv|done|exact (proj2 Hlen)|].
  intros s2 _ Ha2 He2 Hh2 _ _. wp_simp. apply crash_after. wp_simp.
  change wk_GetItemCount with (GetItemCount (St := WKBasedNavigationManager)). rewrite Hcount.
  - apply crash_in. by rewrite (proj2 (Z.eqb_neq _ 0)) by lia.
  - exact (eq_trans He2 He).
  - unfold history. simpl. rewrite Ha2. unfold history in Hh2 at 1. rewrite Ha2 in Hh2. exact Hh2.
Qed.

(** In a detached manager that cached nothing (its window showed no entry),
    loading or reloading fails: there is nothing to restore, so the manager
    stays detached. *)
Theorem detached_without_history_cannot_load load s :
  attached_to_web_view_ s = false → cached_items_ s = [] → cached_current_item_index_ s = -1 →
  is_restore_session_in_progress_ s = false →
  wk_LoadIfNecessary load s = Crash DCheckFailed ∧ wk_FinishReload load s = Crash DCheckFailed.
Proof using Type.
  intros Ha Hc Hi Hr.
  assert (Hcur : GetCurrentItemIndex s = -1)
    by (unfold GetCurrentItemIndex, IsAttachedToWebView; by rewrite Ha).
  assert (restore_cached load (-1) s = Crash DCheckFailed) as Hrun.
  { unfold restore_cached, ReleaseCachedItems. apply crash_after. wp_simp.
    unfold IsAttachedToWebView. rewrite Ha, Hc. split; [done|]. wp_simp.
    unfold Restore, manager. apply crash_after. wp_simp. cbn. rewrite Hr.
    split; [done|]. split; [done|]. split; [done|]. wp_simp. apply crash_after. wp_simp.
    cbn. by rewrite Ha. }
  unfold wk_LoadIfNecessary, wk_FinishReload, manager, gets, mbind, M_bind.
  unfold IsAttachedToWebView. rewrite Ha, Hcur. done.
Qed.

(** ** Loads while a session is restored *)

(** A load asked for while a session is restored waits, without the virtual
    URL it was given, and nothing else changes; callbacks wait likewise.  At
    the end of the restoration the callbacks run in the order they came. *)
Theorem loads_wait_for_restoration n params id url s :
  is_restore_session_in_progress_ s = true → IsRestoreSessionUrl (params_url params) = false →
  wk_LoadURLWithParams (S n) params s =
    Ok (tt, with_restore_session_completion_callbacks_
      (restore_session_completion_callbacks_ s ++
       [LoadAfterRestore (MkParams (params_url params) EmptyGURL (params_referrer params)
          (transition_type params) (user_agent_override_option params)
          (is_renderer_initiated params) (extra_headers params) (params_post_data params))]) s) ∧
  AddRestoreCompletionCallback id s =
    Ok (tt, with_restore_session_completion_callbacks_
      (restore_session_completion_callbacks_ s ++ [OtherCallback id]) s) ∧
  (IsRestoreSessionUrl url = true → OnRendererInitiatedNavigationStarted url s = Ok (tt, s)).
Proof using Type.
  intros Hr Hurl. split_and!.
  - cbn [wk_LoadURLWithParams]. unfold manager, gets, modify, mbind, M_bind. by rewrite Hr, Hurl.
  - unfold AddRestoreCompletionCallback, manager, gets, modify, mbind, M_bind. by rewrite Hr.
  - intros Hu. unfold OnRendererInitiatedNavigationStarted, manager, gets, mbind, M_bind. by rewrite Hu.
Qed.

(** The callbacks that are not loads run in order. *)
Lemma run_other_callbacks ids s :
  run_callbacks (OtherCallback <$> ids) s = Ok (tt, with_callbacks_run (callbacks_run s ++ ids) s).
Proof using Type.
  revert s. induction ids as [|id ids IH]; intros s; simpl.
  - rewrite app_nil_r. by destruct s.
  - unfold manager, gets, modify, mbind, M_bind. simpl.
    rewrite Z.eqb_refl, IH. simpl. by rewrite <- app_assoc.
Qed.

(** When the restoration ends, the callbacks that waited run once each in
    the order they came, none waits any more, and the current item is loaded;
    another navigation of the page then runs none. *)
Theorem restoration_ends_once ids url s :
  is_restore_session_in_progress_ s = true → IsRestoreSessionUrl url = false →
  attached_to_web_view_ s = true →
  restore_session_completion_callbacks_ s = OtherCallback <$> ids →
  ∃ s', OnRendererInitiatedNavigationStarted url s = Ok (tt, s') ∧
    is_restore_session_in_progress_ s' = false ∧ restore_session_completion_callbacks_ s' = [] ∧
    callbacks_run s' = callbacks_run s ++ ids ∧
    delegate_calls (wk_base s') = delegate_calls (wk_base s) ++ [LoadIfNecessary] ∧
    OnRendererInitiatedNavigationStarted url s' = Ok (tt, s').
Proof using Type.
  intros Hr Hu Ha Hcb.
  set (s1 := with_is_restore_session_in_progress_ false s).
  set (s2 := with_restore_session_completion_callbacks_ [] (with_callbacks_run (callbacks_run s1 ++ ids) s1)).
  exists (logged [LoadIfNecessary] s2). split_and!; try done.
  - unfold OnRendererInitiatedNavigationStarted, manager, gets, modify, mbind, M_bind.
    rewrite Hu, Hr. simpl. rewrite Hcb, run_other_callbacks. simpl.
    unfold wk_LoadIfNecessary, manager, gets, modify, mbind, M_bind, IsAttachedToWebView. simpl.
    by rewrite Ha.
  - unfold OnRendererInitiatedNavigationStarted, manager, gets, mbind, M_bind. by rewrite Hu.
Qed.
End restore.
