(* ===== verification/WKBasedExamples.v ===== *)
(** * WKBasedNavigationManagerImpl: examples

    Concrete managers, the theorems at them, and runs of the operations. *)

From S2P Require Import Prelude.
From S2P Require Import WebEnv.
From S2P Require Import WkNavigationUtil.
From S2P Require Import NavigationItem.
From S2P Require Import NavigationManager.
From S2P Require Import WKWebViewCache.
From S2P Require Import WKBasedNavigationManager.
From S2P Require Import WKBasedLemmas.
From S2P Require Import WKBasedSpec.
From S2P Require Import WKBasedRestore.

Module WKBasedExamples.

Definition entry (page : string) : WKBackForwardListItem :=
  MkWKItem (Toy.web "x" page) [97] None.

(** Two pages behind the current one, one ahead. *)
Definition view : WKWebView :=
  MkWebView (Toy.web "x" "c") [entry "a"; entry "b"] (Some (entry "c")) [entry "d"].
Definition shown : WKBasedNavigationManager := WKBasedNavigationManager_new None (Some view) 100.

(** A navigation was just begun. *)
Definition page (id : Z) (p : string) : NavigationItem :=
  SetURL (Toy.web "x" p) (NavigationItemImpl_new id).
Definition loading : WKBasedNavigationManager := with_pending_item_ (Some (page 9 "c")) shown.

(** Detached, with the web view gone. *)
Definition cached : list NavigationItem := [page 1 "a"; page 2 "b"; page 3 "c"].
Definition unplugged : WKBasedNavigationManager :=
  with_cached_items_ (Some <$> cached) (with_cached_current_item_index_ 1
    (with_attached_to_web_view_ false (WKBasedNavigationManager_new None None 100))).

Lemma shown_inv : wk_inv shown.
Proof.
  split; [|done|done]. intros v [= <-]. split; [done|]. reflexivity.
Qed.
Lemma loading_inv : wk_inv loading.
Proof.
  split; [|done|done]. intros v [= <-]. split; [done|]. reflexivity.
Qed.

(** Looking at the lists creates the items of the other entries. *)
Example lists_of_shown :
  match (b ← GetBackwardItems; f ← GetForwardItems; mret (b, f)) shown with
  | Ok (lists, s') =>
      lists = ([Some (RWKItem 1); Some (RWKItem 0)], [Some (RWKItem 3)]) ∧
      unique_id_counter (wk_base s') = 3
  | Crash _ => False
  end.
Proof. by vm_compute. Qed.

Lemma GetItemAtIndex_creates_once_witness :
  ∃ s' it, GetNavigationItemImplAtIndex 1 shown = Ok (Some (RWKItem 1), s') ∧
    history s' = [None; Some it; None; None] ∧ GetURL it = Toy.web "x" "b" ∧ GetUniqueID it = 1.
Proof.
  destruct (@GetItemAtIndex_creates_once Toy.env Toy.laws 1 shown shown_inv)
    as (s' & it & Hrun & _ & _ & Hh & (v & w & [= <-] & [= <-] & Hu & _ & _ & Hid) & _);
    [by vm_compute|done|by vm_compute|].
  exists s', it. split; [exact Hrun|]. split; [exact Hh|]. split; [exact Hu|exact Hid].
Defined.

Lemma DetachFromWebView_keeps_history_witness :
  ∃ s', DetachFromWebView shown = Ok (tt, s') ∧ attached_to_web_view_ s' = false ∧
    zlen (history s') = 4 ∧ GetCurrentItemIndex s' = 2.
Proof.
  destruct (@DetachFromWebView_keeps_history Toy.env Toy.laws shown shown_inv)
    as (s' & Hrun & _ & Ha & Hlen & Hcur & _); [by vm_compute..|].
  exists s'. split; [exact Hrun|]. split; [exact Ha|]. split; [exact Hlen|exact Hcur].
Defined.


Lemma GetForwardItems_of_empty_window_witness :
  let s := with_empty_window_open_item_ (Some (page 1 "a"))
    (with_proxy (Some (MkWebView (Toy.about "") [] None [])) shown) in
  GetForwardItems s = Ok ([Some RWKEmptyWindow], s) ∧ CanGoForward s = Ok (false, s).
Proof.
  intros s.
  destruct (@GetForwardItems_of_empty_window Toy.env (MkWebView (Toy.about "") [] None [])
    (page 1 "a") s eq_refl eq_refl eq_refl eq_refl eq_refl) as (Hf & _ & Hc).
  split; [exact Hf|exact Hc].
Defined.

Lemma CommitPendingItem_stores_new_item_witness :
  ∃ s' t, CommitPendingItem loading = Ok (tt, s') ∧
    history s' = [None; None; Some (SetTimestamp t (ResetForCommit (page 9 "c"))); None] ∧
    last_committed_item_index_ s' = 2 ∧
    delegate_calls (wk_base s') = [OnNavigationItemCommitted 9].
Proof.
  destruct (@CommitPendingItem_stores_new_item Toy.env Toy.laws (page 9 "c") view loading loading_inv
    eq_refl eq_refl eq_refl eq_refl) as (s' & t & Hrun & _ & (_ & Hlast & Hh) & _ & _ & _ & _ & Hd & _);
    [done|].
  exists s', t. split; [exact Hrun|]. split; [exact Hh|]. split; [exact Hlast|exact Hd].
Defined.

Lemma unplugged_detached : detached unplugged cached.
Proof. split; try reflexivity. by vm_compute. Qed.


Lemma Restore_over_shown_history_fails_witness :
  wk_Restore 0 [Some (page 1 "a")] shown = Crash DCheckFailed.
Proof.
  apply (@Restore_over_shown_history_fails Toy.env Toy.laws wk_load 0 [page 1 "a"] view shown shown_inv);
    [by vm_compute|reflexivity|reflexivity|done|reflexivity|reflexivity|by vm_compute|by vm_compute].
Defined.

Lemma detached_without_history_cannot_load_witness :
  let s := with_cached_current_item_index_ (-1) (with_cached_items_ [] unplugged) in
  wk_LoadIfNecessary wk_load s = Crash DCheckFailed.
Proof.
  intros s.
  by apply (@detached_without_history_cannot_load Toy.env wk_load s eq_refl eq_refl eq_refl eq_refl).
Defined.

Lemma loads_wait_for_restoration_witness :
  let s := with_is_restore_session_in_progress_ true shown in
  wk_load (MkParams (Toy.web "x" "e") (Toy.web "x" "v") Referrer_default 0 Override_INHERIT false
             None None) s =
    Ok (tt, with_restore_session_completion_callbacks_
      [LoadAfterRestore (MkParams (Toy.web "x" "e") EmptyGURL Referrer_default 0 Override_INHERIT false
         None None)] s).
Proof.
  intros s. unfold wk_load.
  destruct (@loads_wait_for_restoration Toy.env 1
    (MkParams (Toy.web "x" "e") (Toy.web "x" "v") Referrer_default 0 Override_INHERIT false None None)
    7 (Toy.web "x" "e") s eq_refl eq_refl) as (Hrun & _). exact Hrun.
Defined.

Lemma restoration_ends_once_witness :
  let s := with_restore_session_completion_callbacks_ (OtherCallback <$> [4; 5])
    (with_is_restore_session_in_progress_ true shown) in
  ∃ s', OnRendererInitiatedNavigationStarted (Toy.web "x" "e") s = Ok (tt, s') ∧
    callbacks_run s' = [4; 5] ∧ delegate_calls (wk_base s') = [LoadIfNecessary].
Proof.
  intros s.
  destruct (@restoration_ends_once Toy.env [4; 5] (Toy.web "x" "e") s eq_refl eq_refl eq_refl eq_refl)
    as (s' & Hrun & _ & _ & Hc & Hd & _).
  exists s'. split; [exact Hrun|]. split; [exact Hc|exact Hd].
Defined.
End WKBasedExamples.
