(* ===== verification/StdSet.v ===== *)
(** * Ordered containers of the C++ standard library

    [std::set<T, Compare>] as the list of its elements in order: insertion that
    keeps the element already there, construction from a range, search,
    [std::set_difference] and [std::upper_bound].  The comparator is a strict
    weak order; lexicographic comparison of strings is one. *)

From Stdlib Require Import Sorting.Sorted.
From S2P Require Import Prelude.

(** What the standard requires of a comparator. *)
Class StrictWeakOrder {A} (ltb : A → A → bool) : Prop := {
  swo_irrefl x : ltb x x = false;
  swo_trans x y z : ltb x y = true → ltb y z = true → ltb x z = true;
  swo_weak x y z : ltb x z = true → ltb x y = true ∨ ltb y z = true;
}.

Section order.
Context {A : Type} (ltb : A → A → bool).

(** Neither element comes before the other. *)
Definition equiv (x y : A) : bool := negb (ltb x y) && negb (ltb y x).

Definition sorted (l : list A) : Prop := StronglySorted (λ x y, ltb x y = true) l.

(** [set.insert(x)] *)
Fixpoint set_insert (x : A) (l : list A) : list A :=
  match l with
  | [] => [x]
  | y :: l' =>
      if ltb x y then x :: l
      else if ltb y x then y :: set_insert x l' else l
  end.

(** [set(first, last)], which inserts the range in its order. *)
Definition set_of_range (xs : list A) : list A := foldl (λ l x, set_insert x l) [] xs.

(** [set.count(x) != 0] *)
Definition set_count (x : A) (l : list A) : bool := existsb (equiv x) l.

(** [std::set_difference(l, m)] with this comparator. *)
Fixpoint set_difference (l : list A) : list A → list A :=
  fix go (m : list A) : list A :=
    match l, m with
    | [], _ => []
    | _, [] => l
    | x :: l', y :: m' =>
        if ltb x y then x :: set_difference l' m
        else if ltb y x then go m' else set_difference l' m'
    end.

(** [v.insert(std::upper_bound(v.begin(), v.end(), x), x)] on a vector that is
    partitioned by [x]: after the elements that do not come after [x]. *)
Fixpoint upper_bound_insert (x : A) (l : list A) : list A :=
  match l with
  | [] => [x]
  | y :: l' => if ltb x y then x :: l else y :: upper_bound_insert x l'
  end.

Context `{SWO : !StrictWeakOrder ltb}.

Lemma ltb_irrefl x : ltb x x = false.
Proof using All. apply swo_irrefl. Qed.

Lemma ltb_asym x y : ltb x y = true → ltb y x = false.
Proof using All.
  intros Hxy. destruct (ltb y x) eqn:E; [|done].
  pose proof (swo_trans x y x Hxy E). by rewrite ltb_irrefl in H.
Qed.

Lemma equiv_refl x : equiv x x = true.
Proof using All. unfold equiv. by rewrite ltb_irrefl. Qed.

Lemma equiv_sym x y : equiv x y = equiv y x.
Proof. unfold equiv. apply andb_comm. Qed.

Lemma equiv_true x y : equiv x y = true ↔ ltb x y = false ∧ ltb y x = false.
Proof. unfold equiv. rewrite andb_true_iff, !negb_true_iff. done. Qed.

Lemma ltb_equiv_l x y z : equiv x y = true → ltb x z = ltb y z.
Proof using All.
  rewrite equiv_true. intros [H1 H2].
  destruct (ltb x z) eqn:E1, (ltb y z) eqn:E2; try done.
  - destruct (swo_weak x y z E1); congruence.
  - destruct (swo_weak y x z E2); congruence.
Qed.

Lemma ltb_equiv_r x y z : equiv x y = true → ltb z x = ltb z y.
Proof using All.
  rewrite equiv_true. intros [H1 H2].
  destruct (ltb z x) eqn:E1, (ltb z y) eqn:E2; try done.
  - destruct (swo_weak z y x E1); congruence.
  - destruct (swo_weak z x y E2); congruence.
Qed.

Lemma equiv_trans x y z : equiv x y = true → equiv y z = true → equiv x z = true.
Proof using All.
  intros Hxy Hyz. apply equiv_true.
  rewrite (ltb_equiv_l x y z Hxy), (ltb_equiv_r x y z Hxy). by apply equiv_true.
Qed.

(** ** Insertion *)
Lemma set_insert_elem x l y : y ∈ set_insert x l → y = x ∨ y ∈ l.
Proof.
  induction l as [|z l IH]; cbn [set_insert].
  - rewrite list_elem_of_singleton. auto.
  - destruct (ltb x z).
    + rewrite elem_of_cons. done.
    + destruct (ltb z x); [|auto]. rewrite !elem_of_cons. intros [->|?%IH]; tauto.
Qed.

Lemma set_insert_keeps x l y : y ∈ l → y ∈ set_insert x l.
Proof.
  induction l as [|z l IH]; cbn [set_insert]; [intros []%elem_of_nil|].
  intros Hy. destruct (ltb x z); [by right|]. destruct (ltb z x); [|done].
  apply elem_of_cons in Hy as [->|Hy]; [by left|right; auto].
Qed.

Lemma set_insert_sorted x l : sorted l → sorted (set_insert x l).
Proof using All.
  induction 1 as [|y l Hs IH Hall]; cbn [set_insert].
  { repeat constructor. }
  destruct (ltb x y) eqn:Exy.
  - constructor; [by constructor|]. constructor; [done|].
    eapply List.Forall_impl; [|exact Hall]. intros z Hz. by apply (swo_trans x y z).
  - destruct (ltb y x) eqn:Eyx; [|by constructor]. constructor; [done|].
    apply Forall_forall. intros z [->|Hz]%set_insert_elem; [done|].
    by apply (proj1 (Forall_forall _ _) Hall).
Qed.

Lemma set_of_range_app xs ys :
  set_of_range (xs ++ ys) = foldl (λ l x, set_insert x l) (set_of_range xs) ys.
Proof. apply foldl_app. Qed.

Lemma set_of_range_sorted xs : sorted (set_of_range xs).
Proof using All.
  induction xs as [|x xs IH] using rev_ind; [constructor|].
  rewrite set_of_range_app. by apply set_insert_sorted.
Qed.

Lemma set_of_range_elem xs y : y ∈ set_of_range xs → y ∈ xs.
Proof.
  induction xs as [|x xs IH] using rev_ind; [done|].
  rewrite set_of_range_app. intros [->|Hy]%set_insert_elem; apply elem_of_app;
    [right; by left|auto].
Qed.

Lemma set_insert_last x l :
  Forall (λ y, ltb y x = true) l → set_insert x l = l ++ [x].
Proof using All.
  induction 1 as [|y l Hy Hl IH]; cbn [set_insert]; [done|].
  rewrite (ltb_asym y x Hy), Hy. by rewrite IH.
Qed.

(** A range that is sorted already is the set. *)
Lemma set_of_range_id xs : sorted xs → set_of_range xs = xs.
Proof using All.
  unfold set_of_range. change xs with ([] ++ xs) at 1 3.
  generalize (@nil A) as l. induction xs as [|x xs IH]; intros l Hs; cbn [foldl].
  { by rewrite app_nil_r. }
  rewrite set_insert_last.
  - rewrite IH; by rewrite <- app_assoc.
  - apply Forall_forall. intros y Hy. induction l as [|z l IHl]; [by apply elem_of_nil in Hy|].
    cbn [app] in Hs. apply StronglySorted_inv in Hs as [Hs Hall].
    apply elem_of_cons in Hy as [->|Hy]; [|auto].
    rewrite List.Forall_forall in Hall. apply Hall, in_or_app. right. by left.
Qed.

(** The class of an inserted element is in the set. *)
Lemma set_count_insert x l y :
  set_count y (set_insert x l) = set_count y l || equiv y x.
Proof using All.
  induction l as [|z l IH]; cbn [set_insert]; unfold set_count in *; cbn [existsb].
  - apply orb_false_r.
  - destruct (ltb x z) eqn:Exz; cbn [existsb].
    + by rewrite orb_comm.
    + destruct (ltb z x) eqn:Ezx; cbn [existsb].
      * rewrite IH. by rewrite orb_assoc.
      * assert (Hzx : equiv z x = true) by (by apply equiv_true).
        destruct (equiv y x) eqn:Eyx; [|by rewrite orb_false_r].
        rewrite (equiv_trans y x z Eyx) by (by rewrite equiv_sym). done.
Qed.

Lemma set_count_of_range xs y : set_count y (set_of_range xs) = existsb (equiv y) xs.
Proof using All.
  induction xs as [|x xs IH] using rev_ind; [done|].
  rewrite set_of_range_app. cbn [foldl]. rewrite set_count_insert, IH.
  rewrite existsb_app. cbn [existsb]. by rewrite orb_false_r.
Qed.

Lemma set_count_false_lt x l y :
  sorted (y :: l) → ltb x y = true → set_count x (y :: l) = false.
Proof using All.
  intros Hs Hxy. apply not_true_is_false. unfold set_count. rewrite existsb_exists.
  intros (z & Hz & Heq). apply StronglySorted_inv in Hs as [_ Hall].
  apply equiv_true in Heq as [Heq _].
  destruct Hz as [->|Hz]; [congruence|].
  rewrite List.Forall_forall in Hall. specialize (Hall z Hz).
  rewrite (swo_trans x y z Hxy Hall) in Heq. done.
Qed.

(** ** Difference *)
Lemma set_difference_nil_r l : set_difference l [] = l.
Proof. by destruct l. Qed.

(** Of two sorted sets: the elements of the first with no equivalent in the
    second, in their order. *)
Lemma set_difference_spec l m :
  sorted l → sorted m →
  set_difference l m = List.filter (λ x, negb (set_count x m)) l.
Proof using All.
  intros Hl. revert m. induction Hl as [|x l Hl IHl Hx]; intros m Hm.
  { by destruct m. }
  induction Hm as [|y m Hm IHm Hy].
  { rewrite set_difference_nil_r. cbn [List.filter set_count existsb negb].
    f_equal. clear. induction l; simpl; congruence. }
  cbn [set_difference]. destruct (ltb x y) eqn:Exy.
  - cbn [List.filter]. rewrite (set_count_false_lt x m y) by (done || by constructor).
    cbn [negb]. f_equal. apply IHl. by constructor.
  - destruct (ltb y x) eqn:Eyx.
    + etransitivity; [exact IHm|]. apply List.filter_ext_in. intros z Hz. f_equal.
      unfold set_count. cbn [existsb].
      enough (equiv z y = false) as -> by done.
      apply not_true_is_false. rewrite equiv_true. intros [_ H].
      assert (ltb y z = true); [|congruence].
      destruct Hz as [<-|Hz]; [done|].
      rewrite List.Forall_forall in Hx. apply (swo_trans y x z Eyx), Hx, Hz.
    + assert (Exy' : equiv x y = true) by (by apply equiv_true).
      cbn [List.filter]. unfold set_count at 1. cbn [existsb]. rewrite Exy'. cbn [orb negb].
      rewrite (IHl m Hm). apply List.filter_ext_in. intros z Hz. f_equal.
      unfold set_count. cbn [existsb].
      enough (equiv z y = false) as -> by done.
      apply not_true_is_false. intros Hzy.
      rewrite List.Forall_forall in Hx. specialize (Hx z Hz).
      rewrite (ltb_equiv_l x y z Exy') in Hx. apply equiv_true in Hzy as [_ Hzy]. congruence.
Qed.

Lemma filter_sorted (f : A → bool) l : sorted l → sorted (List.filter f l).
Proof.
  induction 1 as [|x l Hs IH Hall]; cbn [List.filter]; [constructor|].
  destruct (f x); [|done]. constructor; [done|].
  rewrite List.Forall_forall in *. intros y [Hy _]%List.filter_In. auto.
Qed.

Lemma sorted_mono (ltb' : A → A → bool) l :
  (∀ x y, ltb x y = true → ltb' x y = true) → sorted l →
  StronglySorted (λ x y, ltb' x y = true) l.
Proof.
  intros Himp. induction 1 as [|x l Hs IH Hall]; constructor; [done|].
  eapply List.Forall_impl; [|exact Hall]. intros y. apply Himp.
Qed.

(** ** Sorted vectors *)
Definition sorted_le (l : list A) : Prop := StronglySorted (λ x y, ltb y x = false) l.

Lemma upper_bound_insert_elem x l y : y ∈ upper_bound_insert x l ↔ y = x ∨ y ∈ l.
Proof.
  induction l as [|z l IH]; cbn [upper_bound_insert].
  - rewrite list_elem_of_singleton, elem_of_nil. tauto.
  - destruct (ltb x z); rewrite !elem_of_cons; [done|]. rewrite IH. tauto.
Qed.

Lemma upper_bound_insert_sorted x l : sorted_le l → sorted_le (upper_bound_insert x l).
Proof using All.
  induction 1 as [|y l Hs IH Hall]; cbn [upper_bound_insert].
  { repeat constructor. }
  destruct (ltb x y) eqn:Exy.
  - constructor; [by constructor|]. rewrite List.Forall_forall in *.
    intros z [->|Hz]; [by apply ltb_asym|].
    destruct (ltb z x) eqn:E; [|done].
    destruct (swo_weak z y x E) as [H|H].
    + by rewrite (Hall z Hz) in H.
    + by rewrite (ltb_asym x y Exy) in H.
  - constructor; [done|]. apply Forall_forall.
    intros z [->|Hz]%upper_bound_insert_elem; [done|].
    by apply (proj1 (Forall_forall _ _) Hall).
Qed.

Lemma upper_bound_insert_permutation x l : upper_bound_insert x l ≡ₚ x :: l.
Proof.
  induction l as [|z l IH]; cbn [upper_bound_insert]; [done|].
  destruct (ltb x z); [done|]. rewrite IH. apply perm_swap.
Qed.
End order.

(** ** Lexicographic comparison

    [std::string::operator<] compares bytes as unsigned characters. *)
Fixpoint string_ltb (s t : string) : bool :=
  match s, t with
  | EmptyString, String _ _ => true
  | _, EmptyString => false
  | String c s', String d t' =>
      let m := Ascii.N_of_ascii c in
      let n := Ascii.N_of_ascii d in
      if (m <? n)%N then true else if (n <? m)%N then false else string_ltb s' t'
  end.

(** Decides the order of the two first characters. *)
Ltac char_cases :=
  repeat match goal with
  | |- context [(?m <? ?n)%N] => destruct (N.ltb_spec m n)
  | H : context [(?m <? ?n)%N] |- _ => destruct (N.ltb_spec m n)
  end.

Lemma string_ltb_total s t : string_ltb s t = false → string_ltb t s = false → s = t.
Proof.
  revert t. induction s as [|c s IH]; intros [|d t]; cbn [string_ltb]; try done.
  char_cases; try done; try lia. intros H1 H2.
  rewrite (IH t H1 H2). f_equal. rewrite <- (Ascii.ascii_N_embedding c).
  rewrite <- (Ascii.ascii_N_embedding d). f_equal. lia.
Qed.

#[global] Instance string_ltb_swo : StrictWeakOrder string_ltb.
Proof.
  split.
  - intros s. induction s as [|c s IH]; cbn [string_ltb]; [done|]. by rewrite N.ltb_irrefl.
  - intros s. induction s as [|c s IH]; intros [|d t] [|e u]; cbn [string_ltb]; try done.
    char_cases; try done; try lia. apply IH.
  - intros s t u. revert s u. induction t as [|d t IH]; intros [|c s] [|e u];
      cbn [string_ltb]; try (by auto).
    char_cases; try (by auto); lia.
Qed.

(** Comparison by the first component of a tuple that differs, as
    [std::tie(a, b, ...) < std::tie(...)] and chains of comparisons do it. *)
Fixpoint lex_ltb (l m : list string) : bool :=
  match l, m with
  | x :: l', y :: m' =>
      if negb (bool_decide (x = y)) then string_ltb x y else lex_ltb l' m'
  | _, _ => false
  end.

Lemma lex_ltb_irrefl l : lex_ltb l l = false.
Proof. induction l as [|x l IH]; cbn [lex_ltb]; [done|]. by rewrite bool_decide_eq_true_2. Qed.

Lemma lex_ltb_total l m :
  length l = length m → lex_ltb l m = false → lex_ltb m l = false → l = m.
Proof.
  revert m. induction l as [|x l IH]; intros [|y m]; cbn [lex_ltb]; try done.
  intros [= Hlen]. destruct (decide (x = y)) as [->|Hne].
  - rewrite bool_decide_eq_true_2 by done. cbn [negb]. intros. f_equal. auto.
  - rewrite !bool_decide_eq_false_2 by congruence. cbn [negb]. intros H1 H2.
    destruct Hne. by apply string_ltb_total.
Qed.

Lemma lex_ltb_trans l m k :
  length l = length m → length m = length k →
  lex_ltb l m = true → lex_ltb m k = true → lex_ltb l k = true.
Proof.
  revert m k. induction l as [|x l IH]; intros [|y m] [|z k]; cbn [lex_ltb]; try done.
  intros [= H1] [= H2].
  destruct (decide (x = y)) as [->|Hxy].
  - rewrite (bool_decide_eq_true_2 (y = y)) by done. cbn [negb].
    destruct (decide (y = z)) as [->|Hyz].
    + rewrite bool_decide_eq_true_2 by done. cbn [negb]. by apply IH.
    + by rewrite bool_decide_eq_false_2 by done.
  - rewrite (bool_decide_eq_false_2 (x = y)) by done. cbn [negb].
    destruct (decide (y = z)) as [->|Hyz].
    + by rewrite (bool_decide_eq_false_2 (x = z)) by done.
    + rewrite (bool_decide_eq_false_2 (y = z)) by done. cbn [negb]. intros Hlt1 Hlt2.
      pose proof (swo_trans x y z Hlt1 Hlt2) as Hlt.
      rewrite bool_decide_eq_false_2; [done|]. intros ->. by rewrite (ltb_irrefl string_ltb) in Hlt.
Qed.

Lemma lex_ltb_weak l m k :
  length l = length m → length m = length k →
  lex_ltb l k = true → lex_ltb l m = true ∨ lex_ltb m k = true.
Proof.
  revert m k. induction l as [|x l IH]; intros [|y m] [|z k]; cbn [lex_ltb]; try done.
  intros [= H1] [= H2].
  destruct (decide (x = z)) as [->|Hxz].
  - rewrite (bool_decide_eq_true_2 (z = z)) by done. cbn [negb].
    destruct (decide (z = y)) as [->|Hyz].
    + rewrite (bool_decide_eq_true_2 (y = y)) by done. by apply IH.
    + rewrite !bool_decide_eq_false_2 by congruence. cbn [negb]. intros _.
      destruct (string_ltb z y) eqn:E1; [by left|].
      destruct (string_ltb y z) eqn:E2; [by right|].
      destruct Hyz. by apply string_ltb_total.
  - rewrite (bool_decide_eq_false_2 (x = z)) by done. cbn [negb]. intros Hlt.
    destruct (swo_weak x y z Hlt) as [H|H]; [left|right].
    + rewrite bool_decide_eq_false_2; [done|]. intros ->. by rewrite (ltb_irrefl string_ltb) in H.
    + rewrite bool_decide_eq_false_2; [done|]. intros ->. by rewrite (ltb_irrefl string_ltb) in H.
Qed.

(** Comparison of the keys of records that all have the same number of
    components. *)
Lemma lex_ltb_swo {A} (key : A → list string) (n : nat) :
  (∀ x, length (key x) = n) → StrictWeakOrder (λ x y, lex_ltb (key x) (key y)).
Proof.
  intros Hn. split.
  - intros x. apply lex_ltb_irrefl.
  - intros x y z. apply lex_ltb_trans; congruence.
  - intros x y z. apply lex_ltb_weak; congruence.
Qed.

Lemma lex_equiv {A} (key : A → list string) (n : nat) x y :
  (∀ x, length (key x) = n) →
  equiv (λ x y, lex_ltb (key x) (key y)) x y = true ↔ key x = key y.
Proof.
  intros Hn. rewrite equiv_true. split.
  - intros [H1 H2]. apply lex_ltb_total; congruence.
  - intros ->. by rewrite lex_ltb_irrefl.
Qed.

Lemma set_count_lex {A} (key : A → list string) (n : nat) x l :
  (∀ x, length (key x) = n) →
  set_count (λ x y, lex_ltb (key x) (key y)) x l = bool_decide (key x ∈ key <$> l).
Proof.
  intros Hn. apply eq_bool_prop_intro. rewrite !Is_true_true.
  rewrite bool_decide_eq_true, list_elem_of_fmap. unfold set_count. rewrite existsb_exists.
  split.
  - intros (y & Hy & He). apply (lex_equiv key n) in He; [|done].
    exists y. by rewrite list_elem_of_In.
  - intros (y & He & Hy). exists y. rewrite <- list_elem_of_In.
    split; [done|]. by apply (lex_equiv key n).
Qed.
