(* ===== verification/CookieCache.v ===== *)
(** * The cookie cache

    src/net/cookies/cookie_cache.cc: the set of cookies with a given name that
    a request for a URL would send, and the difference an update makes.  The
    class net::CanonicalCookie is outside the repository: only the four fields
    the cache compares are used.  The second part runs the repository's own
    tests of the class (cookie_cache_unittest.cc) on the model. *)

From S2P Require Import Prelude WebEnv StdSet.

Class CanonicalCookieEnv := {
  CanonicalCookie : Type;
  Domain : CanonicalCookie → string;
  Path : CanonicalCookie → string;
  Name : CanonicalCookie → string;
  Value : CanonicalCookie → string;
}.

(** std::set<net::CanonicalCookie, CookieComparator> *)
Notation CookieSet := (list CanonicalCookie).
Notation CookieKey := (GURL * string)%type.
(** The only field of the class, [cache_]. *)
Notation CookieCache := (gmap CookieKey CookieSet).

Section cookie_cache.
Context `{ENV : WebEnv} `{CC : CanonicalCookieEnv}.

(** CookieCache::CookieComparator *)
Definition CookieComparator (lhs rhs : CanonicalCookie) : bool :=
  if negb (bool_decide (Domain lhs = Domain rhs)) then string_ltb (Domain lhs) (Domain rhs)
  else if negb (bool_decide (Path lhs = Path rhs)) then string_ltb (Path lhs) (Path rhs)
  else if negb (bool_decide (Name lhs = Name rhs)) then string_ltb (Name lhs) (Name rhs)
  else false.

(** CookieCache::CookieAndValueComparator *)
Definition CookieAndValueComparator (lhs rhs : CanonicalCookie) : bool :=
  if negb (bool_decide (Domain lhs = Domain rhs)) then string_ltb (Domain lhs) (Domain rhs)
  else if negb (bool_decide (Path lhs = Path rhs)) then string_ltb (Path lhs) (Path rhs)
  else if negb (bool_decide (Name lhs = Name rhs)) then string_ltb (Name lhs) (Name rhs)
  else if negb (bool_decide (Value lhs = Value rhs)) then string_ltb (Value lhs) (Value rhs)
  else false.

(** [cache_[key]], which adds an empty set for a new key. *)
Definition cache_at (key : CookieKey) : M CookieCache CookieSet := λ cache_,
  match cache_ !! key with
  | Some s => Ok (s, cache_)
  | None => Ok ([], <[key := []]> cache_)
  end.

(** [out->insert(out->end(), s.begin(), s.end())], unless [out] is null. *)
Definition append_out (out : option (list CanonicalCookie)) (s : CookieSet) :
    option (list CanonicalCookie) :=
  (λ v, v ++ s) <$> out.

Definition Update (url : GURL) (name : string) (new_cookies : list CanonicalCookie)
    (out_removed_cookies out_added_cookies : option (list CanonicalCookie)) :
    M CookieCache
      (bool * option (list CanonicalCookie) * option (list CanonicalCookie)) :=
  let key := (url, name) in
  old_set ← cache_at key;
  let new_set := set_of_range CookieComparator new_cookies in
  let added_cookies := set_of_range CookieComparator
    (set_difference CookieAndValueComparator new_set old_set) in
  let removed_cookies := set_of_range CookieComparator
    (set_difference CookieAndValueComparator old_set new_set) in
  if bool_decide (added_cookies = []) && bool_decide (removed_cookies = []) then
    mret (false, out_removed_cookies, out_added_cookies)
  else
    modify (λ cache_, <[key := new_set]> cache_);;
    mret (true, append_out out_removed_cookies removed_cookies,
          append_out out_added_cookies added_cookies).

(** ** The comparators *)
Definition cookie_id (c : CanonicalCookie) : list string := [Domain c; Path c; Name c].
Definition cookie_fields (c : CanonicalCookie) : list string :=
  [Domain c; Path c; Name c; Value c].

(** The cookies of a set, as the cache tells them apart. *)
Definition fields_of (s : CookieSet) : list (list string) := cookie_fields <$> s.

#[local] Instance CookieComparator_swo : StrictWeakOrder CookieComparator.
Proof. exact (lex_ltb_swo cookie_id 3 (λ _, eq_refl)). Qed.

#[local] Instance CookieAndValueComparator_swo : StrictWeakOrder CookieAndValueComparator.
Proof. exact (lex_ltb_swo cookie_fields 4 (λ _, eq_refl)). Qed.

(** Cookies ordered by the first comparator are ordered by the second. *)
Lemma CookieComparator_refines c d :
  CookieComparator c d = true → CookieAndValueComparator c d = true.
Proof.
  unfold CookieComparator, CookieAndValueComparator.
  by repeat case_bool_decide.
Qed.

Lemma sorted_by_value s : sorted CookieComparator s → sorted CookieAndValueComparator s.
Proof. apply sorted_mono, CookieComparator_refines. Qed.

(** ** Update *)
Definition cache_inv (cache_ : CookieCache) : Prop :=
  map_Forall (λ _ s, sorted CookieComparator s) cache_.

(** The set the cache keeps for a key. *)
Definition cached (cache_ : CookieCache) (key : CookieKey) : CookieSet :=
  default [] (cache_ !! key).

(** The cookies of [s] that are not in [t]. *)
Definition not_in (s t : CookieSet) : CookieSet :=
  List.filter (λ c, negb (bool_decide (cookie_fields c ∈ fields_of t))) s.

Lemma cached_sorted cache_ key :
  cache_inv cache_ → sorted CookieComparator (cached cache_ key).
Proof.
  intros Hinv. unfold cached. destruct (cache_ !! key) as [s|] eqn:E; [|constructor].
  by apply (Hinv key s).
Qed.

Lemma set_difference_not_in s t :
  sorted CookieComparator s → sorted CookieComparator t →
  set_of_range CookieComparator (set_difference CookieAndValueComparator s t) = not_in s t.
Proof.
  intros Hs Ht. rewrite set_difference_spec by (try apply _; by apply sorted_by_value).
  unfold not_in. rewrite (List.filter_ext _ (λ c, negb (bool_decide (cookie_fields c ∈ fields_of t)))).
  2:{ intros c. f_equal. exact (set_count_lex cookie_fields 4 c t (λ _, eq_refl)). }
  apply set_of_range_id; [apply _|]. by apply filter_sorted.
Qed.

Lemma not_in_nil s t : not_in s t = [] ↔ fields_of s ⊆ fields_of t.
Proof.
  unfold not_in, fields_of. induction s as [|c s IH]; cbn [List.filter].
  { split; [intros _; apply list_subseteq_nil|done]. }
  rewrite fmap_cons. case_bool_decide as H; cbn [negb].
  - rewrite IH, list_subseteq_cons_iff. tauto.
  - split; [done|]. intros Hsub. destruct H. apply Hsub. by left.
Qed.

Lemma run_cache_at cache_ key :
  ∃ cache', cache_at key cache_ = Ok (cached cache_ key, cache') ∧
    cached cache' key = cached cache_ key ∧
    (cache_inv cache_ → cache_inv cache') ∧
    ∀ k, k ≠ key → cache' !! k = cache_ !! k.
Proof.
  unfold cache_at, cached. destruct (cache_ !! key) as [s|] eqn:E.
  - exists cache_. by rewrite E.
  - eexists. split; [done|]. rewrite lookup_insert_eq.
    split; [done|]. split.
    + intros Hinv. apply map_Forall_insert_2; [constructor|done].
    + intros k Hk. by rewrite lookup_insert_ne.
Qed.

(** C33: Update never fails.  It computes the cookies of the new set that were
    not cached with the same value and the cached ones that are not in the new
    set, reports a change exactly when the two sets differ in some (domain,
    path, name, value), then stores the new set, and leaves the other keys
    alone; of several new cookies with the same domain, path and name only the
    first counts.  The sets stay sorted. *)
Theorem Update_correct cache_ url name new_cookies out_removed out_added :
  cache_inv cache_ →
  let old := cached cache_ (url, name) in
  let new := set_of_range CookieComparator new_cookies in
  let changed := negb (bool_decide (fields_of new ⊆ fields_of old ∧
                                    fields_of old ⊆ fields_of new)) in
  ∃ cache',
    Update url name new_cookies out_removed out_added cache_ =
    Ok (changed,
        (if changed then append_out out_removed (not_in old new) else out_removed),
        (if changed then append_out out_added (not_in new old) else out_added), cache') ∧
    cached cache' (url, name) = (if changed then new else old) ∧
    (∀ k, k ≠ (url, name) → cache' !! k = cache_ !! k) ∧
    cache_inv cache'.
Proof.
  intros Hinv old new.
  destruct (run_cache_at cache_ (url, name)) as (c1 & Hrun & Hc1 & Hinv1 & Hothers).
  unfold Update. unfold mbind at 1, M_bind at 1. rewrite Hrun. cbv beta iota zeta.
  fold old new.
  assert (Hnew : sorted CookieComparator new) by (apply set_of_range_sorted, _).
  assert (Hold : sorted CookieComparator old) by (by apply cached_sorted).
  rewrite (set_difference_not_in new old Hnew Hold), (set_difference_not_in old new Hold Hnew).
  rewrite <- bool_decide_and.
  rewrite (bool_decide_ext _ (fields_of new ⊆ fields_of old ∧ fields_of old ⊆ fields_of new))
    by (by rewrite !not_in_nil).
  case_bool_decide; cbn [negb]; eexists; (split; [reflexivity|]); [split_and!; auto|].
  split_and!.
  - unfold cached. by rewrite lookup_insert_eq.
  - intros k Hk. rewrite lookup_insert_ne by done. auto.
  - apply map_Forall_insert_2; [done|]. by apply Hinv1.
Qed.

(** A second update with the same cookies reports no change and no cookie,
    whatever the first one found. *)
Theorem Update_twice cache_ url name new_cookies r a r' a' b r1 a1 cache1 :
  cache_inv cache_ →
  Update url name new_cookies r a cache_ = Ok (b, r1, a1, cache1) →
  ∃ cache2, Update url name new_cookies r' a' cache1 = Ok (false, r', a', cache2).
Proof.
  intros Hinv Hrun.
  destruct (Update_correct cache_ url name new_cookies r a Hinv) as (c' & Hrun' & Hc & _ & Hinv1).
  rewrite Hrun in Hrun'. injection Hrun' as -> _ _ ->.
  destruct (Update_correct c' url name new_cookies r' a' Hinv1) as (c2 & Hrun2 & _).
  exists c2. rewrite Hrun2.
  assert (Hsame : fields_of (set_of_range CookieComparator new_cookies)
                  ⊆ fields_of (cached c' (url, name)) ∧
                  fields_of (cached c' (url, name))
                  ⊆ fields_of (set_of_range CookieComparator new_cookies)).
  { clear -Hc. revert Hc. case_bool_decide; cbn [negb]; intros ->; [done|split; reflexivity]. }
  by rewrite (bool_decide_eq_true_2 _ Hsame).
Qed.
End cookie_cache.

(** ** The tests of cookie_cache_unittest.cc

    A cookie of a test is its domain, path, name and value: the tests leave
    the other fields at fixed values. *)
Module CookieCacheTest.
#[local] Existing Instance Toy.env.

#[local] Instance test_cookies : CanonicalCookieEnv := {|
  CanonicalCookie := string * string * string * string;
  Domain c := c.1.1.1;
  Path c := c.1.1.2;
  Name c := c.1.2;
  Value c := c.2;
|}.

Definition MakeCookie (url : GURL) (name value : string) : CanonicalCookie :=
  (url_host url, url_path url, name, value).

Definition UpdateAddsCookieAllowsnullptr : M CookieCache unit :=
  let test_url := Toy.web "www.google.com" "" in
  let cookies := [MakeCookie test_url "abc" "def"] in
  '(b1, _, _) ← Update test_url "abc" cookies None None; EXPECT_TRUE b1;;
  '(b2, _, _) ← Update test_url "abc" cookies None None; EXPECT_FALSE b2.

Definition UpdateAddsCookie : M CookieCache unit :=
  let test_url := Toy.web "www.google.com" "" in
  let cookies := [MakeCookie test_url "abc" "def"] in
  '(b1, removed, changed) ← Update test_url "abc" cookies (Some []) (Some []);
  EXPECT_TRUE b1;;
  EXPECT_EQ removed (Some []);;
  EXPECT_EQ (length <$> changed) (Some 1%nat);;
  EXPECT_EQ (map Name <$> changed) (Some ["abc"]);;
  EXPECT_EQ (map Value <$> changed) (Some ["def"]);;
  '(b2, removed2, changed2) ← Update test_url "abc" cookies (Some []) (Some []);
  EXPECT_FALSE b2;;
  EXPECT_EQ removed2 (Some []);;
  EXPECT_EQ changed2 (Some []).

Definition UpdateAddsDistinctCookie : M CookieCache unit :=
  let test_url := Toy.web "www.google.com" "" in
  let test_url_path := Toy.web "www.google.com" "foo" in
  let test_url_path_long := Toy.web "www.google.com" "foo/bar" in
  let cookies := [MakeCookie test_url "abc" "def"] in
  '(b1, removed, changed) ← Update test_url_path_long "abc" cookies (Some []) (Some []);
  EXPECT_TRUE b1;;
  EXPECT_EQ removed (Some []);;
  EXPECT_EQ (length <$> changed) (Some 1%nat);;
  let cookies := cookies ++ [MakeCookie test_url_path "abc" "def"] in
  '(b2, removed, changed) ← Update test_url_path_long "abc" cookies (Some []) (Some []);
  EXPECT_TRUE b2;;
  EXPECT_EQ removed (Some []);;
  EXPECT_EQ (length <$> changed) (Some 1%nat);;
  let cookies := cookies ++ [MakeCookie test_url_path_long "abc" "def"] in
  '(b3, removed, changed) ← Update test_url_path_long "abc" cookies (Some []) (Some []);
  EXPECT_TRUE b3;;
  EXPECT_EQ removed (Some []);;
  EXPECT_EQ (length <$> changed) (Some 1%nat).

Definition UpdateValueChanged : M CookieCache unit :=
  let test_url := Toy.web "www.google.com" "" in
  '(b1, _, _) ← Update test_url "abc" [MakeCookie test_url "abc" "def"] None None;
  EXPECT_TRUE b1;;
  '(b2, removed, changed) ←
    Update test_url "abc" [MakeCookie test_url "abc" "ghi"] (Some []) (Some []);
  EXPECT_TRUE b2;;
  EXPECT_EQ (map Name <$> removed) (Some ["abc"]);;
  EXPECT_EQ (map Value <$> removed) (Some ["def"]);;
  EXPECT_EQ (map Name <$> changed) (Some ["abc"]);;
  EXPECT_EQ (map Value <$> changed) (Some ["ghi"]).

Definition UpdateDeletedCookie : M CookieCache unit :=
  let test_url := Toy.web "www.google.com" "" in
  '(b1, _, _) ← Update test_url "abc" [MakeCookie test_url "abc" "def"] None None;
  EXPECT_TRUE b1;;
  '(b2, removed, changed) ← Update test_url "abc" [] (Some []) (Some []);
  EXPECT_TRUE b2;;
  EXPECT_EQ (length <$> removed) (Some 1%nat);;
  EXPECT_EQ changed (Some []).

Definition UpdatePathChanged : M CookieCache unit :=
  let test_url := Toy.web "www.google.com" "" in
  let test_url_path := Toy.web "www.google.com" "foo" in
  '(b1, _, _) ← Update test_url "abc" [MakeCookie test_url "abc" "def"] None None;
  EXPECT_TRUE b1;;
  '(b2, removed, changed) ←
    Update test_url "abc" [MakeCookie test_url_path "abc" "def"] (Some []) (Some []);
  EXPECT_TRUE b2;;
  EXPECT_EQ (length <$> removed) (Some 1%nat);;
  EXPECT_EQ (length <$> changed) (Some 1%nat).

Definition MultipleDomains : M CookieCache unit :=
  let test_url_a := Toy.web "www.google.com" "" in
  let test_url_b := Toy.web "test.google.com" "" in
  let cookies := [MakeCookie (Toy.web "google.com" "") "abc" "def"] in
  '(b1, _, _) ← Update test_url_a "abc" cookies None None; EXPECT_TRUE b1;;
  '(b2, _, _) ← Update test_url_a "abc" cookies None None; EXPECT_FALSE b2;;
  '(b3, _, _) ← Update test_url_b "abc" cookies None None; EXPECT_TRUE b3;;
  '(b4, _, _) ← Update test_url_b "abc" cookies None None; EXPECT_FALSE b4.

Definition MultipleNames : M CookieCache unit :=
  let cookieurl := Toy.web "google.com" "" in
  let abc := [MakeCookie cookieurl "abc" "def"] in
  let def := [MakeCookie cookieurl "def" "def"] in
  '(b1, _, _) ← Update cookieurl "abc" abc None None; EXPECT_TRUE b1;;
  '(b2, _, _) ← Update cookieurl "abc" abc None None; EXPECT_FALSE b2;;
  '(b3, _, _) ← Update cookieurl "def" def None None; EXPECT_TRUE b3;;
  '(b4, _, _) ← Update cookieurl "def" def None None; EXPECT_FALSE b4;;
  '(b5, _, _) ← Update cookieurl "abc" abc None None; EXPECT_FALSE b5.

Lemma cookie_cache_unittests :
  forallb (λ t, passes t ∅)
    [UpdateAddsCookieAllowsnullptr; UpdateAddsCookie; UpdateAddsDistinctCookie;
     UpdateValueChanged; UpdateDeletedCookie; UpdatePathChanged; MultipleDomains;
     MultipleNames] = true.
Proof. vm_compute. reflexivity. Qed.

Lemma Update_correct_witness :
  cache_inv ∅ ∧
  ∃ b r a cache', Update (Toy.web "a" "") "n" [MakeCookie (Toy.web "a" "") "n" "v"]
    None (Some []) ∅ = Ok (b, r, a, cache').
Proof.
  split; [apply map_Forall_empty|].
  destruct (Update_correct ∅ (Toy.web "a" "") "n" [MakeCookie (Toy.web "a" "") "n" "v"]
    None (Some []) (map_Forall_empty _)) as (c & Hrun & _).
  do 3 eexists. exists c. exact Hrun.
Defined.

Lemma Update_twice_witness :
  ∃ b r1 a1 cache1 cache2,
    Update (Toy.web "a" "") "n" [] None None ∅ = Ok (b, r1, a1, cache1) ∧
    Update (Toy.web "a" "") "n" [] None None cache1 = Ok (false, None, None, cache2).
Proof.
  destruct (Update_correct ∅ (Toy.web "a" "") "n" [] None None (map_Forall_empty _))
    as (c & Hrun & _).
  destruct (Update_twice ∅ (Toy.web "a" "") "n" [] None None None None _ _ _ _
    (map_Forall_empty _) Hrun) as [c2 H].
  do 4 eexists. exists c2. split; [exact Hrun|exact H].
Defined.
End CookieCacheTest.
