(* ===== verification/CertPolicy.v ===== *)
(** * Certificate policies

    src/web/net/cert_policy.cc, certificate_policy_cache.cc and
    cert_host_pair.cc: the certificate errors a user has accepted, per host.
    A certificate (net::X509Certificate) is outside the repository: the code
    uses the SHA-256 fingerprint of its chain, a string of bytes.  A
    net::CertStatus is a set of bits in 32 bits.  The last part runs the
    repository's tests of these classes. *)

From S2P Require Import Prelude StdSet.

Class CertEnv := {
  X509Certificate : Type;
  #[global] X509Certificate_eq_dec :: EqDecision X509Certificate;
  CalculateChainFingerprint256 : X509Certificate → string;
}.

(** Bitwise complement in 32 bits. *)
Definition not32 (x : Z) : Z := Z.lxor x (Z.ones 32).
Definition is_cert_status (x : Z) : Prop := 0 <= x < 2 ^ 32.

(** CertPolicy::Judgment *)
Inductive Judgment : Set := UNKNOWN | ALLOWED | DENIED.
#[global] Instance Judgment_eq_dec : EqDecision Judgment.
Proof. solve_decision. Defined.

Section cert_policy.
Context `{CE : CertEnv}.

(** The private fields of CertPolicy. *)
Record CertPolicy := MkCertPolicy { allowed_ : gmap string Z }.
Definition CertPolicy_new : CertPolicy := MkCertPolicy ∅.

Definition Check_ (p : CertPolicy) (cert : X509Certificate) (error : Z) : Judgment :=
  match allowed_ p !! CalculateChainFingerprint256 cert with
  | Some allowed =>
      if negb (Z.land allowed error =? 0) &&
         (Z.lxor (not32 (Z.land allowed error)) (not32 error) =? 0)
      then ALLOWED else UNKNOWN
  | None => UNKNOWN
  end.

Definition Allow (cert : X509Certificate) (error : Z) (p : CertPolicy) : CertPolicy :=
  MkCertPolicy (<[CalculateChainFingerprint256 cert := error]> (allowed_ p)).

(** The private field of CertificatePolicyCache. *)
Record CertificatePolicyCache := MkCertificatePolicyCache {
  cert_policy_for_host_ : gmap string CertPolicy;
}.
Definition CertificatePolicyCache_new : CertificatePolicyCache :=
  MkCertificatePolicyCache ∅.

(** [cert_policy_for_host_[host]], which adds an empty policy for a new host. *)
Definition policy_at (c : CertificatePolicyCache) (host : string) : CertPolicy :=
  default CertPolicy_new (cert_policy_for_host_ c !! host).
Definition set_policy (host : string) (p : CertPolicy) (c : CertificatePolicyCache) :
    CertificatePolicyCache :=
  MkCertificatePolicyCache (<[host := p]> (cert_policy_for_host_ c)).

(** [on_io] says whether the call is made on the IO thread. *)
Definition AllowCertForHost (on_io : bool) (cert : X509Certificate) (host : string)
    (error : Z) : M CertificatePolicyCache unit :=
  DCHECK on_io;;
  modify (λ c, set_policy host (Allow cert error (policy_at c host)) c).

Definition QueryPolicy (on_io : bool) (cert : X509Certificate) (host : string)
    (error : Z) : M CertificatePolicyCache Judgment :=
  DCHECK on_io;;
  modify (λ c, set_policy host (policy_at c host) c);;
  gets (λ c, Check_ (policy_at c host) cert error).

Definition ClearCertificatePolicies (on_io : bool) : M CertificatePolicyCache unit :=
  DCHECK on_io;;
  modify (λ _, CertificatePolicyCache_new).

(** CertHostPair *)
Record CertHostPair := MkCertHostPair {
  cert_ : X509Certificate;
  host_ : string;
  cert_hash_ : string;
}.

Definition CertHostPair_new (cert : X509Certificate) (host : string) : CertHostPair :=
  MkCertHostPair cert host (CalculateChainFingerprint256 cert).

(** operator<, through [std::tie]. *)
Definition pair_ltb (p other : CertHostPair) : bool :=
  string_ltb (host_ p) (host_ other) ||
  (negb (string_ltb (host_ other) (host_ p)) &&
   string_ltb (cert_hash_ p) (cert_hash_ other)).

(** ** The bits of a status *)
Lemma not32_lxor a b : Z.lxor (not32 a) (not32 b) = Z.lxor a b.
Proof.
  unfold not32. rewrite (Z.lxor_comm b), Z.lxor_assoc, <- (Z.lxor_assoc (Z.ones 32)).
  by rewrite Z.lxor_nilpotent, Z.lxor_0_l.
Qed.

(** The test of the code: [error] is not empty and has no bit outside the
    bits that were allowed. *)
Lemma status_test allowed error :
  negb (Z.land allowed error =? 0) &&
  (Z.lxor (not32 (Z.land allowed error)) (not32 error) =? 0) = true ↔
  error ≠ 0 ∧ ∀ n, 0 <= n → Z.testbit error n = true → Z.testbit allowed n = true.
Proof.
  rewrite not32_lxor, andb_true_iff, negb_true_iff, Z.eqb_neq, Z.eqb_eq, Z.lxor_eq_0_iff.
  split.
  - intros [H1 H2]. split; [congruence|]. intros n _ Hn.
    rewrite <- H2, Z.land_spec in Hn. by apply andb_true_iff in Hn as [? _].
  - intros [H1 H2].
    assert (Z.land allowed error = error) as ->; [|done].
    apply Z.bits_inj'. intros n Hn. rewrite Z.land_spec.
    destruct (Z.testbit error n) eqn:E; [|by rewrite andb_false_r]. by rewrite H2.
Qed.

(** What the policy remembers of a certificate. *)
Definition remembered (p : CertPolicy) (cert : X509Certificate) : option Z :=
  allowed_ p !! CalculateChainFingerprint256 cert.

(** Check answers ALLOWED exactly when the certificate was allowed for a
    set of errors that contains every one of the errors asked about, and at
    least one is asked about; it never answers DENIED. *)
Theorem Check_allowed p cert error :
  (Check_ p cert error = ALLOWED ↔
   ∃ allowed, remembered p cert = Some allowed ∧ error ≠ 0 ∧
     ∀ n, 0 <= n → Z.testbit error n = true → Z.testbit allowed n = true) ∧
  Check_ p cert error ≠ DENIED.
Proof.
  unfold Check_, remembered.
  destruct (allowed_ p !! CalculateChainFingerprint256 cert) as [a|].
  2:{ split; [|done]. split; [done|]. by intros (? & ? & _). }
  pose proof (status_test a error) as H.
  destruct (negb _ && _).
  - split; [|done]. split; [|done]. intros _. exists a. split; [done|]. by apply H.
  - split; [|done]. split; [done|]. intros (a' & [= <-] & Hc). by apply H in Hc.
Qed.

(** ** The cache against its history *)
Inductive cache_op :=
  | OpAllow (cert : X509Certificate) (host : string) (error : Z)
  | OpQuery (cert : X509Certificate) (host : string) (error : Z)
  | OpClear.

Definition run_cache_op (o : cache_op) : M CertificatePolicyCache unit :=
  match o with
  | OpAllow cert host error => AllowCertForHost true cert host error
  | OpQuery cert host error => _ ← QueryPolicy true cert host error; mret tt
  | OpClear => ClearCertificatePolicies true
  end.

Fixpoint run_cache_ops (l : list cache_op) : M CertificatePolicyCache unit :=
  match l with
  | [] => mret tt
  | o :: l' => run_cache_op o;; run_cache_ops l'
  end.

(** The errors allowed last, since the last clear, for a host and a
    fingerprint; the history has its latest operation first. *)
Fixpoint last_allowed (hist : list cache_op) (host fp : string) : option Z :=
  match hist with
  | [] => None
  | OpAllow cert h error :: hist' =>
      if bool_decide (h = host) && bool_decide (CalculateChainFingerprint256 cert = fp)
      then Some error else last_allowed hist' host fp
  | OpQuery _ _ _ :: hist' => last_allowed hist' host fp
  | OpClear :: _ => None
  end.

Definition agrees (hist : list cache_op) (c : CertificatePolicyCache) : Prop :=
  ∀ host fp, allowed_ (policy_at c host) !! fp = last_allowed hist host fp.

Lemma policy_at_set c host p host' :
  policy_at (set_policy host p c) host' =
  if bool_decide (host = host') then p else policy_at c host'.
Proof.
  unfold policy_at, set_policy. simpl. case_bool_decide as H.
  - subst. by rewrite lookup_insert_eq.
  - by rewrite lookup_insert_ne.
Qed.

Lemma run_cache_op_agrees hist c o :
  agrees hist c → ∃ c', run_cache_op o c = Ok (tt, c') ∧ agrees (o :: hist) c'.
Proof.
  intros Hag. destruct o as [cert h e|cert h e|]; (eexists; split; [reflexivity|]);
    intros host fp; cbn [last_allowed]; rewrite ?policy_at_set.
  - case_bool_decide as Hh; cbn [andb]; [subst|apply Hag].
    cbn [allowed_ Allow]. case_bool_decide as Hf.
    + subst. by rewrite lookup_insert_eq.
    + rewrite lookup_insert_ne by done. apply Hag.
  - case_bool_decide; [subst|]; apply Hag.
  - unfold policy_at. simpl. rewrite lookup_empty. simpl. apply lookup_empty.
Qed.

Lemma run_cache_ops_agrees l hist c :
  agrees hist c → ∃ c', run_cache_ops l c = Ok (tt, c') ∧ agrees (rev l ++ hist) c'.
Proof.
  revert hist c. induction l as [|o l IH]; intros hist c Hag; [by exists c|].
  destruct (run_cache_op_agrees hist c o Hag) as (c1 & H1 & Hag1).
  destruct (IH (o :: hist) c1 Hag1) as (c2 & H2 & Hag2). exists c2.
  cbn [run_cache_ops rev]. unfold mbind, M_bind. rewrite H1. split; [done|].
  by rewrite <- app_assoc.
Qed.

(** C35: on the IO thread, any sequence of calls of the cache succeeds, and a
    query then answers from the calls alone: ALLOWED when the latest permission
    since the last clear for this host and this certificate covers the errors,
    UNKNOWN otherwise; neither a query nor another host or certificate
    changes the answer. *)
Theorem QueryPolicy_refines_history l cert host error :
  ∃ c c' j, run_cache_ops l CertificatePolicyCache_new = Ok (tt, c) ∧
    QueryPolicy true cert host error c = Ok (j, c') ∧
    j = match last_allowed (rev l) host (CalculateChainFingerprint256 cert) with
        | Some allowed =>
            if bool_decide (error ≠ 0 ∧ Z.land allowed error = error)
            then ALLOWED else UNKNOWN
        | None => UNKNOWN
        end.
Proof.
  destruct (run_cache_ops_agrees l [] CertificatePolicyCache_new) as (c & Hrun & Hag).
  { intros h fp. unfold policy_at. simpl. rewrite lookup_empty. simpl. apply lookup_empty. }
  rewrite app_nil_r in Hag. eexists c, _, _. split; [done|]. split; [reflexivity|].
  unfold Check_. rewrite policy_at_set, bool_decide_eq_true_2 by done. rewrite Hag.
  destruct (last_allowed _ _ _) as [a|]; [|done].
  rewrite not32_lxor. case_bool_decide as H.
  - destruct H as [H1 ->]. rewrite (proj2 (Z.eqb_neq error 0)) by done.
    by rewrite Z.lxor_nilpotent.
  - destruct (Z.eqb_spec (Z.land a error) 0); [done|]. cbn [negb andb].
    destruct (Z.eqb_spec (Z.lxor (Z.land a error) error) 0) as [E|]; [|done].
    apply Z.lxor_eq in E. destruct H. split; [congruence|done].
Qed.

(** Off the IO thread every call of the cache fails its check. *)
Theorem cache_requires_io cert host error c :
  AllowCertForHost false cert host error c = Crash DCheckFailed ∧
  QueryPolicy false cert host error c = Crash DCheckFailed ∧
  ClearCertificatePolicies false c = Crash DCheckFailed.
Proof. done. Qed.

(** ** Pairs as keys of a container *)
Lemma pair_ltb_lex p q :
  pair_ltb p q = lex_ltb [host_ p; cert_hash_ p] [host_ q; cert_hash_ q].
Proof.
  unfold pair_ltb. cbn [lex_ltb]. case_bool_decide as Hh; cbn [negb].
  - rewrite Hh, !(ltb_irrefl string_ltb). cbn [orb andb negb].
    case_bool_decide as Hc; cbn [negb]; [by rewrite Hc, (ltb_irrefl string_ltb)|done].
  - destruct (string_ltb (host_ p) (host_ q)) eqn:E; [done|]. cbn [orb].
    destruct (string_ltb (host_ q) (host_ p)) eqn:E'; [done|].
    destruct Hh. by apply string_ltb_total.
Qed.

(** C37: the operator is a comparator a C++ container accepts (a strict weak
    order), and two pairs are one key exactly when they have the same host and
    the same certificate chain. *)
Theorem pair_ltb_key :
  StrictWeakOrder pair_ltb ∧
  ∀ c1 h1 c2 h2,
    equiv pair_ltb (CertHostPair_new c1 h1) (CertHostPair_new c2 h2) = true ↔
    h1 = h2 ∧ CalculateChainFingerprint256 c1 = CalculateChainFingerprint256 c2.
Proof.
  assert (Hlex : ∀ p q, pair_ltb p q =
    lex_ltb [host_ p; cert_hash_ p] [host_ q; cert_hash_ q]) by exact pair_ltb_lex.
  pose proof (lex_ltb_swo (λ p, [host_ p; cert_hash_ p]) 2 (λ _, eq_refl)) as [Hi Ht Hw].
  split.
  - split; intros *; rewrite !Hlex; [apply Hi|apply Ht|apply Hw].
  - intros c1 h1 c2 h2. unfold equiv. rewrite !Hlex.
    pose proof (lex_equiv (λ p, [host_ p; cert_hash_ p]) 2
      (CertHostPair_new c1 h1) (CertHostPair_new c2 h2) (λ _, eq_refl)) as H.
    unfold equiv in H. rewrite H. cbn [host_ cert_hash_ CertHostPair_new].
    split; [by intros [= ? ?]|by intros [-> ->]].
Qed.
End cert_policy.

(** ** The tests of cert_policy_unittest.cc and cert_host_pair_unittest.cc

    The certificates of the tests are names of files; their fingerprints are
    different. *)
Module CertTest.
#[local] Instance test_certs : CertEnv := {|
  X509Certificate := string;
  CalculateChainFingerprint256 c := c;
|}.

Definition CERT_STATUS_COMMON_NAME_INVALID : Z := 1.
Definition CERT_STATUS_DATE_INVALID : Z := 2.
Definition CERT_STATUS_AUTHORITY_INVALID : Z := 4.

Definition Policy : M CertPolicy unit :=
  let google_cert := "google_der" in
  let webkit_cert := "webkit_der" in
  let expect j cert error := (r ← gets (λ p, Check_ p cert error); EXPECT_EQ j r) in
  expect UNKNOWN google_cert CERT_STATUS_DATE_INVALID;;
  expect UNKNOWN webkit_cert CERT_STATUS_COMMON_NAME_INVALID;;
  modify (Allow google_cert CERT_STATUS_DATE_INVALID);;
  expect ALLOWED google_cert CERT_STATUS_DATE_INVALID;;
  expect UNKNOWN google_cert CERT_STATUS_COMMON_NAME_INVALID;;
  expect UNKNOWN google_cert
    (Z.lor CERT_STATUS_DATE_INVALID CERT_STATUS_COMMON_NAME_INVALID);;
  expect UNKNOWN webkit_cert CERT_STATUS_COMMON_NAME_INVALID;;
  modify (Allow google_cert CERT_STATUS_AUTHORITY_INVALID);;
  expect UNKNOWN google_cert CERT_STATUS_DATE_INVALID;;
  expect ALLOWED google_cert CERT_STATUS_AUTHORITY_INVALID;;
  expect UNKNOWN webkit_cert CERT_STATUS_COMMON_NAME_INVALID;;
  modify (Allow google_cert
    (Z.lor CERT_STATUS_DATE_INVALID CERT_STATUS_AUTHORITY_INVALID));;
  expect ALLOWED google_cert CERT_STATUS_DATE_INVALID;;
  expect ALLOWED google_cert CERT_STATUS_AUTHORITY_INVALID;;
  expect UNKNOWN google_cert CERT_STATUS_COMMON_NAME_INVALID;;
  expect UNKNOWN webkit_cert CERT_STATUS_COMMON_NAME_INVALID.

Definition kCertFileName1 : string := "ok_cert.pem".
Definition kCertFileName2 : string := "expired_cert.pem".
Definition kHostName1 : string := "www.example.com".
Definition kHostName2 : string := "www.chromium.test".

(** The expectations of the tests of pairs that differ. *)
Definition expect_ordered (pair1 pair2 : CertHostPair) : M unit unit :=
  EXPECT_FALSE (pair_ltb pair1 pair1);;
  EXPECT_FALSE (pair_ltb pair2 pair2);;
  EXPECT_TRUE ((pair_ltb pair1 pair2 && negb (pair_ltb pair2 pair1)) ||
               (pair_ltb pair2 pair1 && negb (pair_ltb pair1 pair2))).

Definition Construction : M unit unit :=
  let pair := CertHostPair_new kCertFileName1 kHostName1 in
  EXPECT_EQ kCertFileName1 (cert_ pair);;
  EXPECT_EQ kHostName1 (host_ pair).

Definition ComparisonWithDifferentCertsAndHosts : M unit unit :=
  expect_ordered (CertHostPair_new kCertFileName1 kHostName1)
                 (CertHostPair_new kCertFileName2 kHostName2).

Definition ComparisonWithSameCert : M unit unit :=
  expect_ordered (CertHostPair_new kCertFileName1 kHostName1)
                 (CertHostPair_new kCertFileName1 kHostName2).

Definition ComparisonWithSameHost : M unit unit :=
  expect_ordered (CertHostPair_new kCertFileName1 kHostName1)
                 (CertHostPair_new kCertFileName2 kHostName1).

Definition ComparisonWithSameCertAndHost : M unit unit :=
  let pair1 := CertHostPair_new kCertFileName1 kHostName1 in
  let pair2 := CertHostPair_new kCertFileName1 kHostName1 in
  EXPECT_FALSE (pair_ltb pair1 pair1);;
  EXPECT_FALSE (pair_ltb pair2 pair2);;
  EXPECT_FALSE (pair_ltb pair1 pair2);;
  EXPECT_FALSE (pair_ltb pair2 pair1).

Lemma cert_unittests :
  passes Policy CertPolicy_new = true ∧
  forallb (λ t, passes t tt)
    [Construction; ComparisonWithDifferentCertsAndHosts; ComparisonWithSameCert;
     ComparisonWithSameHost; ComparisonWithSameCertAndHost] = true.
Proof. vm_compute. done. Qed.
End CertTest.
