(* ===== verification/CertVerification.v ===== *)
(** * Deciding whether to load a page over a bad certificate

    src/web/net/crw_cert_verification_controller.mm, with
    GetSecurityStyleFromTrustResult of
    src/web/web_state/wk_web_view_security_util.mm.  A trust is evaluated by a
    task of the thread pool; the answer comes back to the main queue; a
    rejected trust is then looked up in the [CertificatePolicyCache] on the IO
    thread, whose answer comes back to the main queue again.  The tasks that
    wait are part of the state: those of the pool may run in any order, the
    queue of the IO thread and the main queue are first in, first out.

    Security.framework and net::X509Certificate are outside the repository
    ([TrustEnv], with their documented behaviour in [TrustLaws]). *)

From S2P Require Import Prelude.
From S2P Require Import StdSet.
From S2P Require Import CertPolicy.
From S2P Require Import WebEnv.
From S2P Require Import NavigationItem.

Inductive SecTrustResultType : Set :=
  | kSecTrustResultInvalid | kSecTrustResultProceed | kSecTrustResultConfirm
  | kSecTrustResultDeny | kSecTrustResultUnspecified | kSecTrustResultRecoverableTrustFailure
  | kSecTrustResultFatalTrustFailure | kSecTrustResultOtherError.
#[export] Instance SecTrustResultType_eq_dec : EqDecision SecTrustResultType.
Proof. solve_decision. Defined.
#[export] Instance SecurityStyle_eq_dec : EqDecision SecurityStyle.
Proof. solve_decision. Defined.

Class TrustEnv `{CE : CertEnv} := {
  (* net/cert/x509_certificate.h, net/cert/x509_util_ios.h *)
  cert_buffer : X509Certificate → string;
  intermediate_buffers : X509Certificate → list string;
  CreateFromBuffer : string → list string → option X509Certificate;
  CreateFromBytes : string → option X509Certificate;
  SecCertificate : Type;
  CreateX509CertificateFromSecCertificate :
    SecCertificate → list SecCertificate → option X509Certificate;
  (* net/cert/cert_status_flags.h, net/cert/cert_verify_proc_ios.h *)
  IsCertStatusError : Z → bool;
  CERT_STATUS_INVALID : Z;
  CERT_STATUS_AUTHORITY_INVALID : Z;
  SecTrust : Type;
  GetCertFailureStatusFromTrust : option SecTrust → Z;
  (* Security.framework; [None] when the call does not succeed *)
  SecTrustEvaluate : option SecTrust → option SecTrustResultType;
  SecTrustCertificates : option SecTrust → list SecCertificate;
}.

Class TrustLaws `{TE : TrustEnv} : Prop := {
  (* a certificate is its buffers *)
  law_cert_ext c c' :
    cert_buffer c = cert_buffer c' → intermediate_buffers c = intermediate_buffers c' → c = c';
  law_create_buffers b l c :
    CreateFromBuffer b l = Some c → cert_buffer c = b ∧ intermediate_buffers c = l;
  law_create_from_bytes b : CreateFromBytes b = CreateFromBuffer b [];
  law_buffer_valid c : is_Some (CreateFromBuffer (cert_buffer c) []);
  law_sec_leaf s c :
    CreateX509CertificateFromSecCertificate s [] = Some c → intermediate_buffers c = [];
  (* the result kSecTrustResultConfirm is deprecated since iOS 7 *)
  law_no_confirm t : SecTrustEvaluate t ≠ Some kSecTrustResultConfirm;
}.

(** web::CertAcceptPolicy *)
Inductive CertAcceptPolicy : Set :=
  | CERT_ACCEPT_POLICY_NON_RECOVERABLE_ERROR
  | CERT_ACCEPT_POLICY_RECOVERABLE_ERROR_UNDECIDED_BY_USER
  | CERT_ACCEPT_POLICY_RECOVERABLE_ERROR_ACCEPTED_BY_USER
  | CERT_ACCEPT_POLICY_ALLOW.
#[export] Instance CertAcceptPolicy_eq_dec : EqDecision CertAcceptPolicy.
Proof. solve_decision. Defined.

Definition GetSecurityStyleFromTrustResult (result : SecTrustResultType) : res SecurityStyle :=
  match result with
  | kSecTrustResultInvalid => Ok SECURITY_STYLE_UNKNOWN
  | kSecTrustResultProceed | kSecTrustResultUnspecified => Ok SECURITY_STYLE_AUTHENTICATED
  | kSecTrustResultDeny | kSecTrustResultRecoverableTrustFailure
  | kSecTrustResultFatalTrustFailure | kSecTrustResultOtherError =>
      Ok SECURITY_STYLE_AUTHENTICATION_BROKEN
  | kSecTrustResultConfirm => Crash NotReached
  end.

Section controller.
Context `{TE : TrustEnv}.

(** The completion handlers: a caller's handler is a number. *)
Inductive VerifiedHandler :=
  | DecideLoadPolicy (handler : Z) (host : option string)
  | QuerySSLStatus (handler : Z).

Inductive IOTask :=
  | AllowCertTask (cert : X509Certificate) (host : option string) (status : Z)
  | DecideTask (handler : Z) (trust : option SecTrust) (host : option string)
      (result : SecTrustResultType).

Inductive MainTask :=
  | TrustVerified (trust : option SecTrust) (k : VerifiedHandler) (result : SecTrustResultType)
  | PolicyDecided (handler : Z) (policy : CertAcceptPolicy) (status : Z).

(** A call of a caller's handler. *)
Inductive Answer :=
  | AnswerPolicy (handler : Z) (policy : CertAcceptPolicy) (status : Z)
  | AnswerStatus (handler : Z) (style : SecurityStyle) (status : Z).

Record Verifier := MkVerifier {
  certPolicyCache_ : CertificatePolicyCache;
  pool : list (option SecTrust * VerifiedHandler);
  io_queue : list IOTask;
  main_queue : list MainTask;
  answers : list Answer;
}.
Definition Verifier_new (cache : CertificatePolicyCache) : Verifier := MkVerifier cache [] [] [] [].

Definition with_cache (c : CertificatePolicyCache) (v : Verifier) : Verifier :=
  MkVerifier c (pool v) (io_queue v) (main_queue v) (answers v).
Definition with_pool (l : list (option SecTrust * VerifiedHandler)) (v : Verifier) : Verifier :=
  MkVerifier (certPolicyCache_ v) l (io_queue v) (main_queue v) (answers v).
Definition with_io (l : list IOTask) (v : Verifier) : Verifier :=
  MkVerifier (certPolicyCache_ v) (pool v) l (main_queue v) (answers v).
Definition with_main (l : list MainTask) (v : Verifier) : Verifier :=
  MkVerifier (certPolicyCache_ v) (pool v) (io_queue v) l (answers v).
Definition with_answers (l : list Answer) (v : Verifier) : Verifier :=
  MkVerifier (certPolicyCache_ v) (pool v) (io_queue v) (main_queue v) l.

Definition post_io (t : IOTask) : M Verifier unit :=
  modify (λ v, with_io (io_queue v ++ [t]) v).
Definition post_main (t : MainTask) : M Verifier unit :=
  modify (λ v, with_main (main_queue v ++ [t]) v).
Definition answer (a : Answer) : M Verifier unit :=
  modify (λ v, with_answers (answers v ++ [a]) v).
(** A call of the cache. *)
Definition on_cache {A} (m : M CertificatePolicyCache A) : M Verifier A := λ v,
  match m (certPolicyCache_ v) with
  | Ok (a, c) => Ok (a, with_cache c v)
  | Crash e => Crash e
  end.

(** [base::SysNSStringToUTF8] of nil is empty. *)
Definition SysNSStringToUTF8 (host : option string) : string := default "" host.

Definition verifyTrust (trust : option SecTrust) (k : VerifiedHandler) : M Verifier unit :=
  modify (λ v, with_pool (pool v ++ [(trust, k)]) v).

Definition decideLoadPolicyForTrust (trust : option SecTrust) (host : option string)
    (handler : Z) : M Verifier unit :=
  verifyTrust trust (DecideLoadPolicy handler host).

Definition querySSLStatusForTrust (trust : option SecTrust) (handler : Z) : M Verifier unit :=
  verifyTrust trust (QuerySSLStatus handler).

(** The certificate without its intermediates. *)
Definition strip_intermediates (cert : X509Certificate) : M Verifier X509Certificate :=
  if negb (bool_decide (intermediate_buffers cert = [])) then
    let stripped := CreateFromBuffer (cert_buffer cert) [] in
    DCHECK (bool_decide (is_Some stripped));;
    not_null stripped
  else mret cert.

Definition allowCert (cert : X509Certificate) (host : option string) (status : Z) :
    M Verifier unit :=
  cert ← strip_intermediates cert;
  DCHECK (bool_decide (intermediate_buffers cert = []));;
  post_io (AllowCertTask cert host status).

Definition certStatusFromTrustResult (trustResult : SecTrustResultType)
    (trust : option SecTrust) : Z :=
  match trustResult with
  | kSecTrustResultProceed | kSecTrustResultUnspecified => 0
  | kSecTrustResultDeny => Z.lor 0 CERT_STATUS_AUTHORITY_INVALID
  | _ =>
      let certStatus := Z.lor 0 (GetCertFailureStatusFromTrust trust) in
      if negb (IsCertStatusError certStatus) then Z.lor certStatus CERT_STATUS_INVALID
      else certStatus
  end.

Definition loadPolicyForRejectedTrustResult (trustResult : SecTrustResultType)
    (certStatus : Z) (trust : option SecTrust) (host : option string) :
    M Verifier CertAcceptPolicy :=
  style ← lift_res (GetSecurityStyleFromTrustResult trustResult);
  DCHECK (negb (bool_decide (SECURITY_STYLE_AUTHENTICATED = style)));;
  if negb (bool_decide (trustResult = kSecTrustResultRecoverableTrustFailure)) ||
     (zlen (SecTrustCertificates trust) =? 0)
  then mret CERT_ACCEPT_POLICY_NON_RECOVERABLE_ERROR
  else
    leaf ← at_ (SecTrustCertificates trust) 0;
    match CreateX509CertificateFromSecCertificate leaf [] with
    | None => mret CERT_ACCEPT_POLICY_NON_RECOVERABLE_ERROR
    | Some leafCert =>
        judgment ← on_cache (QueryPolicy true leafCert (SysNSStringToUTF8 host) certStatus);
        mret (if bool_decide (judgment = ALLOWED)
              then CERT_ACCEPT_POLICY_RECOVERABLE_ERROR_ACCEPTED_BY_USER
              else CERT_ACCEPT_POLICY_RECOVERABLE_ERROR_UNDECIDED_BY_USER)
    end.

(** ** The tasks *)

(** A task of the pool: evaluates the trust. *)
Definition evaluated (trust : option SecTrust) : SecTrustResultType :=
  match SecTrustEvaluate trust with
  | Some trustResult => trustResult
  | None => kSecTrustResultInvalid
  end.
Definition run_pool_task (t : option SecTrust * VerifiedHandler) : M Verifier unit :=
  post_main (TrustVerified t.1 t.2 (evaluated t.1)).

Definition run_main_task (t : MainTask) : M Verifier unit :=
  match t with
  | TrustVerified trust (DecideLoadPolicy handler host) trustResult =>
      if bool_decide (trustResult = kSecTrustResultProceed) ||
         bool_decide (trustResult = kSecTrustResultUnspecified)
      then answer (AnswerPolicy handler CERT_ACCEPT_POLICY_ALLOW 0)
      else post_io (DecideTask handler trust host trustResult)
  | TrustVerified trust (QuerySSLStatus handler) trustResult =>
      securityStyle ← lift_res (GetSecurityStyleFromTrustResult trustResult);
      answer (AnswerStatus handler securityStyle (certStatusFromTrustResult trustResult trust))
  | PolicyDecided handler policy status => answer (AnswerPolicy handler policy status)
  end.

Definition run_io_task (t : IOTask) : M Verifier unit :=
  match t with
  | AllowCertTask cert host status =>
      on_cache (AllowCertForHost true cert (SysNSStringToUTF8 host) status)
  | DecideTask handler trust host trustResult =>
      let certStatus := certStatusFromTrustResult trustResult trust in
      policy ← loadPolicyForRejectedTrustResult trustResult certStatus trust host;
      post_main (PolicyDecided handler policy certStatus)
  end.

(** What may happen: a call on the UI thread, or a task that runs. *)
Inductive Event :=
  | Decide (trust : option SecTrust) (host : option string) (handler : Z)
  | Query (trust : option SecTrust) (handler : Z)
  | Accept (cert : X509Certificate) (host : option string) (status : Z)
  | PoolRuns (i : nat)
  | IORuns
  | MainRuns.

Definition perform (e : Event) : M Verifier unit :=
  match e with
  | Decide trust host handler => decideLoadPolicyForTrust trust host handler
  | Query trust handler => querySSLStatusForTrust trust handler
  | Accept cert host status => allowCert cert host status
  | PoolRuns i =>
      l ← gets pool;
      match l !! i with
      | Some t => modify (λ v, with_pool (delete i l) v);; run_pool_task t
      | None => mret tt
      end
  | IORuns =>
      l ← gets io_queue;
      match l with
      | t :: l => modify (with_io l);; run_io_task t
      | [] => mret tt
      end
  | MainRuns =>
      l ← gets main_queue;
      match l with
      | t :: l => modify (with_main l);; run_main_task t
      | [] => mret tt
      end
  end.

Fixpoint perform_all (l : list Event) : M Verifier unit :=
  match l with
  | [] => mret tt
  | e :: l => perform e;; perform_all l
  end.
End controller.
