(* ===== verification/CertVerificationSpec.v ===== *)
(** * What the verification controller promises

    Over any calls and any order of the waiting tasks (CertVerification.v):
    no check of the code fails, every answer agrees with the trust that was
    asked about, a bad certificate is accepted only for a host for which the
    user accepted that very leaf certificate and those errors, and every
    handler is called exactly once when the tasks have run. *)

From S2P Require Import Prelude.
From S2P Require Import CertPolicy.
From S2P Require Import WebEnv.
From S2P Require Import NavigationItem.
From S2P Require Import CertVerification.

Section promises.
Context `{TL : TrustLaws}.

Definition accepted_by_ios (trust : option SecTrust) : Prop :=
  evaluated trust = kSecTrustResultProceed ∨ evaluated trust = kSecTrustResultUnspecified.

(** The certificate the policy of a trust is looked up for. *)
Definition leaf_certificate (trust : option SecTrust) : option X509Certificate :=
  match SecTrustCertificates trust with
  | s :: _ => CreateX509CertificateFromSecCertificate s []
  | [] => None
  end.

(** [cert'] is [cert] without its intermediates. *)
Definition leaf_of (cert cert' : X509Certificate) : Prop :=
  cert_buffer cert' = cert_buffer cert ∧ intermediate_buffers cert' = [].

(** The user was shown, and accepted, the errors [st] of a certificate with
    this fingerprint. *)
Definition consent (hist : list Event) (host fp : string) (st : Z) : Prop :=
  ∃ cert cert' h, Accept cert h st ∈ hist ∧ leaf_of cert cert' ∧
    SysNSStringToUTF8 h = host ∧ CalculateChainFingerprint256 cert' = fp.

Definition covers (accepted status : Z) : Prop :=
  status ≠ 0 ∧ ∀ n, 0 <= n → Z.testbit status n = true → Z.testbit accepted n = true.

(** What an answer may say of a trust, after the calls [hist]. *)
Definition justified_policy (hist : list Event) (trust : option SecTrust)
    (host : option string) (policy : CertAcceptPolicy) (status : Z) : Prop :=
  match policy with
  | CERT_ACCEPT_POLICY_ALLOW => accepted_by_ios trust ∧ status = 0
  | CERT_ACCEPT_POLICY_NON_RECOVERABLE_ERROR =>
      status = certStatusFromTrustResult (evaluated trust) trust ∧ ¬ accepted_by_ios trust ∧
      (evaluated trust ≠ kSecTrustResultRecoverableTrustFailure ∨ leaf_certificate trust = None)
  | CERT_ACCEPT_POLICY_RECOVERABLE_ERROR_UNDECIDED_BY_USER =>
      status = certStatusFromTrustResult (evaluated trust) trust ∧
      evaluated trust = kSecTrustResultRecoverableTrustFailure ∧ is_Some (leaf_certificate trust)
  | CERT_ACCEPT_POLICY_RECOVERABLE_ERROR_ACCEPTED_BY_USER =>
      status = certStatusFromTrustResult (evaluated trust) trust ∧
      evaluated trust = kSecTrustResultRecoverableTrustFailure ∧
      ∃ cert st, leaf_certificate trust = Some cert ∧ covers st status ∧
        consent hist (SysNSStringToUTF8 host) (CalculateChainFingerprint256 cert) st
  end.

Definition justified (hist : list Event) (a : Answer) : Prop :=
  match a with
  | AnswerPolicy handler policy status =>
      ∃ trust host, Decide trust host handler ∈ hist ∧
        justified_policy hist trust host policy status
  | AnswerStatus handler style status =>
      ∃ trust, Query trust handler ∈ hist ∧
        GetSecurityStyleFromTrustResult (evaluated trust) = Ok style ∧
        status = certStatusFromTrustResult (evaluated trust) trust
  end.

(** ** The invariant of the waiting tasks *)
Definition asked (hist : list Event) (trust : option SecTrust) (k : VerifiedHandler) : Prop :=
  match k with
  | DecideLoadPolicy handler host => Decide trust host handler ∈ hist
  | QuerySSLStatus handler => Query trust handler ∈ hist
  end.

Definition io_ok (hist : list Event) (t : IOTask) : Prop :=
  match t with
  | AllowCertTask cert' host st => ∃ cert, Accept cert host st ∈ hist ∧ leaf_of cert cert'
  | DecideTask handler trust host result =>
      Decide trust host handler ∈ hist ∧ result = evaluated trust ∧ ¬ accepted_by_ios trust
  end.

Definition main_ok (hist : list Event) (t : MainTask) : Prop :=
  match t with
  | TrustVerified trust k result => asked hist trust k ∧ result = evaluated trust
  | PolicyDecided handler policy status => justified hist (AnswerPolicy handler policy status)
  end.

Definition cache_ok (hist : list Event) (c : CertificatePolicyCache) : Prop :=
  ∀ host fp st, allowed_ (policy_at c host) !! fp = Some st → consent hist host fp st.

Record tasks_ok (hist : list Event) (v : Verifier) : Prop := MkTasksOk {
  pool_ok : Forall (λ t, asked hist t.1 t.2) (pool v);
  queue_ok : Forall (io_ok hist) (io_queue v);
  waiting_ok : Forall (main_ok hist) (main_queue v);
  known_ok : cache_ok hist (certPolicyCache_ v);
  answers_ok : Forall (justified hist) (answers v);
}.

Lemma tasks_ok_new : tasks_ok [] (Verifier_new CertificatePolicyCache_new).
Proof using Type.
  split; try constructor. intros host fp st. unfold policy_at. cbn.
  rewrite lookup_empty. cbn. by rewrite lookup_empty.
Qed.

(** *** A longer history justifies as much *)
Lemma consent_mono h h' host fp st : h ⊆ h' → consent h host fp st → consent h' host fp st.
Proof using Type. intros Hs (c & c' & ho & H & Hr). exists c, c', ho. split; [by apply Hs|done]. Qed.

Lemma justified_mono h h' a : h ⊆ h' → justified h a → justified h' a.
Proof using Type.
  intros Hs. destruct a as [hd p st|hd style st]; cbn [justified].
  - intros (t & ho & H & J). exists t, ho. split; [by apply Hs|].
    destruct p; cbn in *; try done.
    destruct J as (E & R & c & s & L & C & K). split; [done|]. split; [done|].
    exists c, s. split; [done|]. split; [done|]. by eapply consent_mono.
  - intros (t & H & J). exists t. split; [by apply Hs|done].
Qed.

Lemma tasks_ok_mono h h' v : h ⊆ h' → tasks_ok h v → tasks_ok h' v.
Proof using Type.
  intros Hs [H1 H2 H3 H4 H5]. split.
  - eapply Forall_impl; [done|]. intros [t []]; cbn; apply Hs.
  - eapply Forall_impl; [done|]. intros [c ho s|hd t ho r]; cbn.
    + intros (c' & H & L). exists c'. split; [by apply Hs|done].
    + intros (H & R). split; [by apply Hs|done].
  - eapply Forall_impl; [done|]. intros [t k r|hd p s]; [|by apply justified_mono].
    intros [H R]. split; [|done]. destruct k; cbn in *; by apply Hs.
  - intros ho fp s H. eapply consent_mono; [done|]. by apply H4.
  - eapply Forall_impl; [done|]. intros a. by apply justified_mono.
Qed.
(** ** Every step keeps the invariant *)
Lemma wp_on_policy_cache {A} (m : M CertificatePolicyCache A) (Q : A → Verifier → Prop) v :
  wp (on_cache m) Q v ↔ wp m (λ a c, Q a (with_cache c v)) (certPolicyCache_ v).
Proof using Type. unfold wp, on_cache. by destruct (m _) as [[]|]. Qed.

Lemma style_of_evaluated trust :
  ∃ style, GetSecurityStyleFromTrustResult (evaluated trust) = Ok style ∧
    (style = SECURITY_STYLE_AUTHENTICATED ↔ accepted_by_ios trust).
Proof using TL.
  assert (evaluated trust ≠ kSecTrustResultConfirm) as Hc.
  { unfold evaluated. pose proof (law_no_confirm trust) as H.
    destruct (SecTrustEvaluate trust); congruence. }
  unfold accepted_by_ios.
  destruct (evaluated trust); (done || (eexists; split; [reflexivity|])); intuition congruence.
Qed.

Lemma cache_ok_query hist c host : cache_ok hist c → cache_ok hist (set_policy host (policy_at c host) c).
Proof using Type.
  intros H h fp st. rewrite policy_at_set. case_bool_decide; [subst|]; apply H.
Qed.

Lemma cache_ok_allow hist c cert h cert' st :
  cache_ok hist c → Accept cert h st ∈ hist → leaf_of cert cert' →
  cache_ok hist (set_policy (SysNSStringToUTF8 h)
                   (Allow cert' st (policy_at c (SysNSStringToUTF8 h))) c).
Proof using Type.
  intros H Ha Hl ho fp st'. rewrite policy_at_set. case_bool_decide as E; [|apply H].
  subst ho. cbn. destruct (decide (CalculateChainFingerprint256 cert' = fp)) as [<-|N].
  - rewrite lookup_insert_eq. intros [= <-]. by exists cert, cert', h.
  - rewrite lookup_insert_ne by done. apply H.
Qed.

Lemma wp_loadPolicy hist trust host v :
  ¬ accepted_by_ios trust → cache_ok hist (certPolicyCache_ v) →
  wp (loadPolicyForRejectedTrustResult (evaluated trust)
        (certStatusFromTrustResult (evaluated trust) trust) trust host)
     (λ p v', justified_policy hist trust host p (certStatusFromTrustResult (evaluated trust) trust) ∧
        ∃ c, v' = with_cache c v ∧ cache_ok hist c) v.
Proof using TL.
  intros Hrej Hc. unfold loadPolicyForRejectedTrustResult.
  destruct (style_of_evaluated trust) as (style & -> & Hs). wp_simp.
  split; [by rewrite bool_decide_eq_false_2 by (intros <-; by apply Hrej, Hs)|].
  assert (v = with_cache (certPolicyCache_ v) v) as Hv by by destruct v.
  case_bool_decide as Hr; cbn [negb orb].
  2:{ wp_simp. cbn. eauto 10. }
  destruct (SecTrustCertificates trust) as [|s l] eqn:El; cbn [zlen].
  { rewrite zlen_nil. cbn [Z.eqb]. wp_simp. cbn. unfold leaf_certificate. rewrite El. eauto 10. }
  assert (leaf_certificate trust = CreateX509CertificateFromSecCertificate s []) as Hl
    by (unfold leaf_certificate; by rewrite El).
  replace (zlen (s :: l) =? 0) with false by (symmetry; apply Z.eqb_neq; rewrite zlen_cons; pose proof (zlen_nonneg l); lia).
  cbv iota. wp_simp. exists s. split; [done|].
  destruct (CreateX509CertificateFromSecCertificate s []) as [cert|]; wp_simp.
  2:{ cbn. eauto 10. }
  rewrite wp_on_policy_cache. unfold QueryPolicy. wp_simp. split; [done|].
  split; [|eexists; split; [done|]; by apply cache_ok_query].
  rewrite policy_at_set, (bool_decide_eq_true_2 (SysNSStringToUTF8 host = _)) by done.
  case_bool_decide as Hj; cbn; rewrite Hl; [|by eauto].
  apply Check_allowed in Hj as (a & Ha & Hcov). split; [done|]. split; [done|].
  exists cert, a. split; [done|]. split; [done|]. by apply Hc.
Qed.
(** *** Handlers and work that wait *)
Definition verified_handler (k : VerifiedHandler) : Z :=
  match k with DecideLoadPolicy handler _ | QuerySSLStatus handler => handler end.
Definition io_handler (t : IOTask) : option Z :=
  match t with AllowCertTask _ _ _ => None | DecideTask handler _ _ _ => Some handler end.
Definition main_handler (t : MainTask) : Z :=
  match t with TrustVerified _ k _ => verified_handler k | PolicyDecided handler _ _ => handler end.
Definition answered (a : Answer) : Z :=
  match a with AnswerPolicy handler _ _ | AnswerStatus handler _ _ => handler end.
Definition requested (e : Event) : option Z :=
  match e with Decide _ _ handler | Query _ handler => Some handler | _ => None end.

(** Every handler that was given, called or not yet. *)
Definition held (v : Verifier) : list Z :=
  (verified_handler ∘ snd <$> pool v) ++ omap io_handler (io_queue v) ++
  (main_handler <$> main_queue v) ++ (answered <$> answers v).

Definition io_work (t : IOTask) : nat := match t with AllowCertTask _ _ _ => 1 | DecideTask _ _ _ _ => 2 end.
Definition main_work (t : MainTask) : nat := match t with TrustVerified _ _ _ => 3 | PolicyDecided _ _ _ => 1 end.
Definition work (v : Verifier) : nat :=
  4 * length (pool v) + sum_list_with io_work (io_queue v) + sum_list_with main_work (main_queue v).

(** A task that holds the handlers [hs] and was worth [w] has run. *)
Definition has_run (hist : list Event) (hs : list Z) (w : nat) (v v' : Verifier) : Prop :=
  tasks_ok hist v' ∧ held v' ≡ₚ hs ++ held v ∧ (work v' < w + work v)%nat.

Ltac posted :=
  unfold held, work; cbn;
  rewrite ?fmap_app, ?omap_app, ?sum_list_with_app; cbn; try (solve_Permutation || lia).

Lemma has_run_post_io hist v t w :
  tasks_ok hist v → io_ok hist t → (io_work t < w)%nat →
  wp (post_io t) (λ _ v', has_run hist (option_list (io_handler t)) w v v') v.
Proof using Type.
  intros [H1 H2 H3 H4 H5] Ht Hw. unfold post_io. wp_simp.
  split; [|split; [destruct t|]; posted].
  split; cbn; try done. apply Forall_app; split; [done|]. by apply Forall_singleton.
Qed.

Lemma has_run_post_main hist v t w :
  tasks_ok hist v → main_ok hist t → (main_work t < w)%nat →
  wp (post_main t) (λ _ v', has_run hist [main_handler t] w v v') v.
Proof using Type.
  intros [H1 H2 H3 H4 H5] Ht Hw. unfold post_main. wp_simp. split; [|split; posted].
  split; cbn; try done. apply Forall_app; split; [done|]. by apply Forall_singleton.
Qed.

Lemma has_run_answer hist v a w :
  tasks_ok hist v → justified hist a → (0 < w)%nat →
  wp (answer a) (λ _ v', has_run hist [answered a] w v v') v.
Proof using Type.
  intros [H1 H2 H3 H4 H5] Ha Hw. unfold answer. wp_simp. split; [|split; posted].
  split; cbn; try done. apply Forall_app; split; [done|]. by apply Forall_singleton.
Qed.

Lemma accepted_test trust :
  bool_decide (evaluated trust = kSecTrustResultProceed) ||
  bool_decide (evaluated trust = kSecTrustResultUnspecified) = true ↔ accepted_by_ios trust.
Proof using Type. by rewrite orb_true_iff, !bool_decide_eq_true. Qed.

Lemma wp_run_main_task hist v t :
  tasks_ok hist v → main_ok hist t →
  wp (run_main_task t) (λ _ v', has_run hist [main_handler t] (main_work t) v v') v.
Proof using TL.
  intros Hv Ht. destruct t as [trust [handler host|handler] result|handler p st]; cbn in *.
  - destruct Ht as [Ha ->]. destruct (_ || _) eqn:E.
    + apply accepted_test in E. apply has_run_answer; [done| |cbn; lia].
      exists trust, host. done.
    + apply has_run_post_io; [done| |cbn; lia]. split_and!; try done.
      rewrite <- accepted_test, E. done.
  - destruct Ht as [Ha ->]. destruct (style_of_evaluated trust) as (style & Hs & _).
    rewrite Hs. wp_simp. apply has_run_answer; [done| |cbn; lia]. by exists trust.
  - apply has_run_answer; [done..|cbn; lia].
Qed.

Lemma tasks_ok_cache hist v c : tasks_ok hist v → cache_ok hist c → tasks_ok hist (with_cache c v).
Proof using Type. intros [H1 H2 H3 H4 H5] Hc. by split. Qed.

Lemma wp_run_io_task hist v t :
  tasks_ok hist v → io_ok hist t →
  wp (run_io_task t) (λ _ v', has_run hist (option_list (io_handler t)) (io_work t) v v') v.
Proof using TL.
  intros Hv Ht. pose proof (known_ok _ _ Hv) as Hc.
  destruct t as [cert' host st|handler trust host result]; cbn in *.
  - destruct Ht as (cert & Ha & Hl). rewrite wp_on_policy_cache. unfold AllowCertForHost. wp_simp.
    split; [by eapply tasks_ok_cache, cache_ok_allow|split; posted].
  - destruct Ht as (Ha & -> & Hr). wp_simp.
    eapply wp_mono; [|by apply (wp_loadPolicy hist)]. intros p v' (Hj & c & -> & Hc').
    eapply wp_mono; [|apply (has_run_post_main hist _ _ 2); [by apply tasks_ok_cache| |cbn; lia]].
    + done.
    + exists trust, host. done.
Qed.
(** *** One event *)
Definition is_task (e : Event) : bool :=
  match e with PoolRuns _ | IORuns | MainRuns => true | _ => false end.
Definition nothing_waits (e : Event) (v : Verifier) : Prop :=
  match e with
  | PoolRuns i => pool v !! i = None
  | IORuns => io_queue v = []
  | MainRuns => main_queue v = []
  | _ => False
  end.

Record performed (hist : list Event) (e : Event) (v v' : Verifier) : Prop := MkPerformed {
  performed_ok : tasks_ok (hist ++ [e]) v';
  performed_held : held v' ≡ₚ option_list (requested e) ++ held v;
  performed_work : is_task e = true → (work v' < work v)%nat ∨ nothing_waits e v ∧ v' = v;
}.

Lemma performed_run hist e v v0 v' hs w :
  is_task e = true → requested e = None → has_run hist hs w v0 v' →
  hs ++ held v0 ≡ₚ held v → work v = (w + work v0)%nat → performed hist e v v'.
Proof using TL.
  intros He Hr (H1 & H2 & H3) Hh Hw. split.
  - eapply tasks_ok_mono; [|done]. set_solver.
  - rewrite Hr. cbn. by rewrite H2.
  - left. lia.
Qed.

Lemma wp_strip_intermediates cert v :
  wp (strip_intermediates cert) (λ cert' v', v' = v ∧ leaf_of cert cert') v.
Proof using TL.
  unfold strip_intermediates. case_bool_decide as Hi; cbn [negb]; wp_simp; [done|].
  destruct (law_buffer_valid cert) as [c Hc]. rewrite Hc. split; [done|].
  exists c. split; [done|]. split; [done|]. by apply law_create_buffers in Hc.
Qed.

Lemma performed_call hist e v (m : M Verifier unit) hs :
  is_task e = false → option_list (requested e) = hs →
  wp m (λ _ v', tasks_ok (hist ++ [e]) v' ∧ held v' ≡ₚ hs ++ held v) v →
  wp m (λ _, performed hist e v) v.
Proof using Type.
  intros He <- Hm. eapply wp_mono; [|exact Hm]. intros [] v' [H1 H2].
  split; [done..|]. by rewrite He.
Qed.

Lemma wp_verifyTrust hist v trust k :
  tasks_ok hist v → asked hist trust k →
  wp (verifyTrust trust k) (λ _ v', tasks_ok hist v' ∧ held v' ≡ₚ [verified_handler k] ++ held v) v.
Proof using Type.
  intros [H1 H2 H3 H4 H5] Ha. unfold verifyTrust. wp_simp. split; [|posted].
  split; cbn; try done. apply Forall_app; split; [done|]. by apply Forall_singleton.
Qed.

Lemma wp_allowCert hist v cert host st :
  tasks_ok hist v → Accept cert host st ∈ hist →
  wp (allowCert cert host st) (λ _ v', tasks_ok hist v' ∧ held v' ≡ₚ held v) v.
Proof using TL.
  intros Hv Ha. unfold allowCert. wp_simp.
  eapply wp_mono; [|apply wp_strip_intermediates]. intros cert' v' [-> Hl]. wp_simp.
  split; [by rewrite bool_decide_eq_true_2 by apply Hl|].
  eapply wp_mono; [|apply (has_run_post_io hist _ _ 2); [done|by exists cert|cbn; lia]].
  intros [] v' (H1 & H2 & _). done.
Qed.

Lemma wp_perform hist v e :
  tasks_ok hist v → wp (perform e) (λ _ v', performed hist e v v') v.
Proof using TL.
  intros Hv. assert (Hh : tasks_ok (hist ++ [e]) v) by (eapply tasks_ok_mono; [|done]; set_solver).
  assert (He : e ∈ hist ++ [e]) by set_solver.
  pose proof Hv as [H1 H2 H3 H4 H5].
  destruct e as [trust host handler|trust handler|cert host st|i| |]; cbn [perform].
  - eapply performed_call; [done..|]. by apply wp_verifyTrust.
  - eapply performed_call; [done..|]. by apply wp_verifyTrust.
  - eapply performed_call; [done..|]. by apply (wp_allowCert _ _ cert host st).
  - wp_simp. destruct (pool v !! i) as [t|] eqn:Et; wp_simp.
    2:{ split; [done..|]. by right. }
    pose proof (Forall_lookup_1 _ _ _ _ H1 Et) as Ht. unfold run_pool_task.
    pose proof (delete_Permutation _ _ _ Et) as Hp.
    eapply wp_mono; [|apply (has_run_post_main hist _ _ 4); [|done|cbn; lia]].
    + intros [] v' Hr. eapply performed_run; [done..| |].
      * unfold held. cbn. rewrite Hp at 2. done.
      * unfold work. cbn. rewrite (Permutation_length Hp). cbn. lia.
    + split; cbn; try done. by apply Forall_delete.
  - wp_simp. destruct (io_queue v) as [|t l] eqn:Et; wp_simp.
    { split; [done..|]. by right. }
    apply Forall_cons in H2 as [Ht H2].
    eapply wp_mono; [|apply (wp_run_io_task hist); [by split|done]].
    intros [] v' Hr. eapply performed_run; [done..| |].
    + unfold held. cbn. rewrite Et. destruct (io_handler t) eqn:Eo; cbn; rewrite Eo; solve_Permutation.
    + unfold work. cbn. rewrite Et. cbn. lia.
  - wp_simp. destruct (main_queue v) as [|t l] eqn:Et; wp_simp.
    { split; [done..|]. by right. }
    apply Forall_cons in H3 as [Ht H3].
    eapply wp_mono; [|apply (wp_run_main_task hist); [by split|done]].
    intros [] v' Hr. eapply performed_run; [done..| |].
    + unfold held. cbn. rewrite Et. cbn. solve_Permutation.
    + unfold work. cbn. rewrite Et. cbn. lia.
Qed.
(** *** Any events *)
Lemma wp_perform_all evs hist v :
  tasks_ok hist v →
  wp (perform_all evs) (λ _ v', tasks_ok (hist ++ evs) v' ∧
    held v' ≡ₚ omap requested evs ++ held v) v.
Proof using TL.
  revert hist v. induction evs as [|e evs IH]; intros hist v Hv; cbn [perform_all].
  - wp_simp. by rewrite app_nil_r.
  - wp_simp. eapply wp_mono; [|by apply (wp_perform hist)]. intros [] v1 [H1 Hh _].
    eapply wp_mono; [|by apply (IH (hist ++ [e]))]. intros [] v2 [H2 Hh2].
    rewrite <- app_assoc in H2. split; [done|]. rewrite Hh2, Hh. cbn.
    destruct (requested e); cbn; solve_Permutation.
Qed.

(** One task of each kind, again and again. *)
Definition rounds (n : nat) : list Event := concat (replicate n [PoolRuns 0; IORuns; MainRuns]).

Lemma perform_all_app evs evs' v :
  perform_all (evs ++ evs') v = (perform_all evs;; perform_all evs') v.
Proof using Type.
  revert v. induction evs as [|e evs IH]; intros v; [done|].
  cbn. unfold mbind, M_bind. destruct (perform e v) as [[[] v']|]; [apply IH|done].
Qed.

Definition idle (v : Verifier) : Prop := pool v = [] ∧ io_queue v = [] ∧ main_queue v = [].

Lemma wp_one_round hist v :
  tasks_ok hist v →
  wp (perform_all (rounds 1)) (λ _ v', (∃ hist', tasks_ok hist' v') ∧ held v' ≡ₚ held v ∧
    ((work v' < work v)%nat ∨ idle v ∧ v' = v)) v.
Proof using TL.
  intros Hv. unfold rounds. cbn [replicate concat perform_all app]. wp_simp.
  eapply wp_mono; [|by apply (wp_perform hist)]. intros [] v1 [H1 P1 W1]. wp_simp.
  eapply wp_mono; [|by eapply wp_perform]. intros [] v2 [H2 P2 W2]. wp_simp.
  eapply wp_mono; [|by eapply wp_perform]. intros [] v3 [H3 P3 W3].
  wp_simp. cbn in P1, P2, P3. split; [by eexists|]. split; [by rewrite P3, P2, P1|].
  destruct (W1 eq_refl) as [?|[N1 ->]], (W2 eq_refl) as [?|[N2 ->]], (W3 eq_refl) as [?|[N3 ->]];
    try (left; lia). right. split; [|done]. split; [|done]. cbn in N1. by destruct (pool v).
Qed.

Lemma wp_rounds n hist v :
  tasks_ok hist v → (work v <= n)%nat →
  wp (perform_all (rounds n)) (λ _ v', held v' ≡ₚ held v ∧ idle v') v.
Proof using TL.
  revert hist v. induction n as [|n IH]; intros hist v Hv Hw.
  - cbn. wp_simp. split; [done|]. unfold idle, work in *.
    destruct (pool v); [|cbn in Hw; lia].
    destruct (io_queue v) as [|[]]; [|cbn in Hw; lia..].
    destruct (main_queue v) as [|[]]; [done|cbn in Hw; lia..].
  - change (rounds (S n)) with (rounds 1 ++ rounds n). unfold wp. rewrite perform_all_app.
    apply wp_bind. eapply wp_mono; [|by apply (wp_one_round hist)].
    intros [] v1 ([h1 H1] & P1 & [Hlt|[Hi ->]]).
    + eapply wp_mono; [|apply (IH h1); [done|lia]]. intros [] v2. by rewrite P1.
    + assert (work v = 0%nat) as W by (destruct Hi as (E1 & E2 & E3); unfold work; by rewrite E1, E2, E3).
      apply (IH h1); [done|lia].
Qed.

Lemma held_idle v : idle v → held v = answered <$> answers v.
Proof using Type. intros (E1 & E2 & E3). unfold held. by rewrite E1, E2, E3. Qed.

Lemma wp_run_allow cert host st (Q : unit → Verifier → Prop) v :
  wp (run_io_task (AllowCertTask cert host st)) Q v ↔
  Q tt (with_cache (set_policy (SysNSStringToUTF8 host)
    (Allow cert st (policy_at (certPolicyCache_ v) (SysNSStringToUTF8 host))) (certPolicyCache_ v)) v).
Proof using Type. done. Qed.

Lemma wp_decide_allowed handler trust host leaf (Q : unit → Verifier → Prop) v :
  let status := certStatusFromTrustResult (evaluated trust) trust in
  evaluated trust = kSecTrustResultRecoverableTrustFailure →
  leaf_certificate trust = Some leaf →
  Check_ (policy_at (certPolicyCache_ v) (SysNSStringToUTF8 host)) leaf status = ALLOWED →
  Q tt (with_main (main_queue v ++ [PolicyDecided handler
          CERT_ACCEPT_POLICY_RECOVERABLE_ERROR_ACCEPTED_BY_USER status])
       (with_cache (set_policy (SysNSStringToUTF8 host)
          (policy_at (certPolicyCache_ v) (SysNSStringToUTF8 host)) (certPolicyCache_ v)) v)) →
  wp (run_io_task (DecideTask handler trust host (evaluated trust))) Q v.
Proof using Type.
  intros status Ee Hl Hc HQ. cbn [run_io_task]. fold status. unfold leaf_certificate in Hl.
  destruct (SecTrustCertificates trust) as [|s l] eqn:El; [done|].
  unfold loadPolicyForRejectedTrustResult. rewrite Ee, El, bool_decide_eq_true_2 by done.
  replace (zlen (s :: l) =? 0) with false
    by (symmetry; apply Z.eqb_neq; rewrite zlen_cons; pose proof (zlen_nonneg l); lia).
  cbn [negb orb GetSecurityStyleFromTrustResult]. wp_simp. split; [done|]. exists s. split; [done|]. rewrite Hl. wp_simp.
  rewrite wp_on_policy_cache. unfold QueryPolicy, post_main. wp_simp. split; [done|].
  rewrite policy_at_set, (bool_decide_eq_true_2 (SysNSStringToUTF8 host = _)), Hc by done.
  by rewrite (bool_decide_eq_true_2 (ALLOWED = ALLOWED)).
Qed.

(** C8: whatever the calls and whatever the order of the waiting tasks, no check
    of the controller fails, and every answer is right for a trust that was
    asked about: a load is allowed only when iOS trusts the certificate, or
    when the failure is recoverable and the user has accepted, for that host,
    that leaf certificate with errors that include all those it has. *)
Theorem load_decisions_are_justified (evs : list Event) :
  ∃ v, perform_all evs (Verifier_new CertificatePolicyCache_new) = Ok (tt, v) ∧
    ∀ a, a ∈ answers v → justified evs a.
Proof using TL.
  pose proof (wp_perform_all evs [] _ tasks_ok_new) as H.
  apply wp_run_unit in H as (v & Hr & [_ _ _ _ Ha] & _). exists v. split; [done|].
  by apply Forall_forall.
Qed.

(** C9: once the waiting tasks have run, every completion handler that was given
    has been called, and each exactly once. *)
Theorem handlers_called_exactly_once (evs : list Event) :
  ∃ n v, perform_all (evs ++ rounds n) (Verifier_new CertificatePolicyCache_new) = Ok (tt, v) ∧
    idle v ∧ (answered <$> answers v) ≡ₚ omap requested evs.
Proof using TL.
  pose proof (wp_perform_all evs [] _ tasks_ok_new) as H.
  apply wp_run_unit in H as (v & Hr & Hv & Hh).
  pose proof (wp_rounds (work v) _ v Hv (le_n _)) as H.
  apply wp_run_unit in H as (v' & Hr' & Hh' & Hi). exists (work v), v'.
  rewrite perform_all_app. unfold mbind, M_bind. rewrite Hr. split; [done|]. split; [done|].
  rewrite held_idle in Hh' by done. rewrite Hh', Hh. cbn. by rewrite app_nil_r.
Qed.

(** A user who accepts a certificate's errors for a host is not asked again:
    the next decision about a trust with that leaf certificate, for that host
    and with no further errors, is that the user has accepted it, whatever
    intermediates either chain has. *)
Theorem consent_is_remembered cert h st trust host handler leaf v :
  idle v → evaluated trust = kSecTrustResultRecoverableTrustFailure →
  leaf_certificate trust = Some leaf → cert_buffer leaf = cert_buffer cert →
  SysNSStringToUTF8 h = SysNSStringToUTF8 host →
  covers st (certStatusFromTrustResult (evaluated trust) trust) →
  ∃ v', perform_all [Accept cert h st; Decide trust host handler; PoolRuns 0; MainRuns;
                     IORuns; IORuns; MainRuns] v = Ok (tt, v') ∧
    answers v' = answers v ++ [AnswerPolicy handler
      CERT_ACCEPT_POLICY_RECOVERABLE_ERROR_ACCEPTED_BY_USER
      (certStatusFromTrustResult (evaluated trust) trust)].
Proof using TL.
  intros (E1 & E2 & E3) Ee Hl Hb Hh Hc. destruct v as [c p q m ans]. cbn in E1, E2, E3. subst p q m.
  destruct (wp_run _ _ _ (wp_strip_intermediates cert (MkVerifier c [] [] [] ans)))
    as (cert' & v' & Hs & -> & Hb' & Hi).
  unfold leaf_certificate in Hl. destruct (SecTrustCertificates trust) as [|s l] eqn:El; [done|].
  assert (leaf = cert') as ->.
  { apply law_cert_ext; [congruence|]. by rewrite Hi, (law_sec_leaf _ _ Hl). }
  assert (Hw : wp (perform_all [Accept cert h st; Decide trust host handler; PoolRuns 0; MainRuns;
    IORuns; IORuns; MainRuns]) (λ _ v', answers v' = ans ++ [AnswerPolicy handler
      CERT_ACCEPT_POLICY_RECOVERABLE_ERROR_ACCEPTED_BY_USER
      (certStatusFromTrustResult (evaluated trust) trust)]) (MkVerifier c [] [] [] ans)).
  2:{ by apply wp_run_unit in Hw as (v' & ? & ?); exists v'. }
  set (status := certStatusFromTrustResult (evaluated trust) trust) in *.
  cbn [perform_all perform]. unfold allowCert, decideLoadPolicyForTrust, verifyTrust, post_io. wp_simp.
  unfold wp at 1. rewrite Hs. wp_simp. split; [by rewrite bool_decide_eq_true_2|].
  unfold run_pool_task, post_main. repeat (progress (cbn -[evaluated]; wp_simp)).
  rewrite !bool_decide_eq_false_2 by congruence. cbn [orb]. unfold post_io.
  wp_simp. cbn -[evaluated run_io_task]. wp_simp. cbn -[evaluated run_io_task]. rewrite wp_run_allow. wp_simp.
  cbn -[evaluated run_io_task]. wp_simp. apply (wp_decide_allowed _ _ _ cert'); [done| | |].
  - unfold leaf_certificate. by rewrite El.
  - cbn -[evaluated]. rewrite Hh, policy_at_set, (bool_decide_eq_true_2 (SysNSStringToUTF8 host = _)) by done.
    apply Check_allowed. exists st. split; [|done]. apply lookup_insert_eq.
  - wp_simp. cbn -[evaluated]. unfold answer. by wp_simp.
Qed.
End promises.
