(* ===== verification/CertVerificationExamples.v ===== *)
(** * The verification controller on concrete certificates

    A certificate is its own text, a trust is the answer iOS gives and a chain
    of texts.  The tests of
    src/web/net/crw_cert_verification_controller_unittest.mm run on the model,
    and the theorems of CertVerificationSpec.v are applied. *)

From S2P Require Import Prelude.
From S2P Require Import CertPolicy.
From S2P Require Import WebEnv.
From S2P Require Import NavigationItem.
From S2P Require Import CertVerification.
From S2P Require Import CertVerificationSpec.

Module ToyTrust.
#[export] Instance toy_certs : CertEnv := {
  X509Certificate := string * list string;
  CalculateChainFingerprint256 c := String.concat "," (c.1 :: c.2);
}.

(** net::CERT_STATUS_COMMON_NAME_INVALID *)
Definition name_invalid : Z := 1.
Definition all_errors : Z := 0xFF00FFFF.

#[export] Instance toy_trust : TrustEnv := {
  cert_buffer := fst;
  intermediate_buffers := snd;
  CreateFromBuffer b l := Some (b, l);
  CreateFromBytes b := Some (b, []);
  SecCertificate := string;
  CreateX509CertificateFromSecCertificate s l := Some (s, l);
  IsCertStatusError s := negb (Z.land s all_errors =? 0);
  CERT_STATUS_INVALID := 128;
  CERT_STATUS_AUTHORITY_INVALID := 4;
  SecTrust := bool * list string;
  GetCertFailureStatusFromTrust t :=
    match t with Some (false, _) => Z.lor 4 name_invalid | _ => 0 end;
  SecTrustEvaluate t :=
    match t with
    | Some (true, _) => Some kSecTrustResultProceed
    | Some (false, _) => Some kSecTrustResultRecoverableTrustFailure
    | None => None
    end;
  SecTrustCertificates t := match t with Some (_, chain) => chain | None => [] end;
}.

#[export] Instance toy_laws : TrustLaws.
Proof.
  split; cbn.
  - by intros [] [] [= ->] [= ->].
  - by intros b l [] [= -> ->].
  - done.
  - by eexists.
  - by intros s [] [= _ ->].
  - by intros [[[] ?]|].
Qed.

Definition valid_trust : option SecTrust := Some (true, ["leaf"; "root"]).
Definition invalid_trust : option SecTrust := Some (false, ["leaf"; "root"]).
Definition kHostName : option string := Some "www.example.com".

(** The answers once the calls are made and the tasks have run. *)
Definition outcome (calls : list Event) : res (list Answer) :=
  match perform_all (calls ++ rounds 8) (Verifier_new CertificatePolicyCache_new) with
  | Ok (_, v) => Ok (answers v)
  | Crash c => Crash c
  end.

Example PolicyForValidTrust :
  outcome [Decide valid_trust kHostName 1] = Ok [AnswerPolicy 1 CERT_ACCEPT_POLICY_ALLOW 0].
Proof. by vm_compute. Qed.

Example PolicyForInvalidTrust :
  outcome [Decide invalid_trust kHostName 1] =
  Ok [AnswerPolicy 1 CERT_ACCEPT_POLICY_RECOVERABLE_ERROR_UNDECIDED_BY_USER 5].
Proof. by vm_compute. Qed.

Example PolicyForInvalidTrustAcceptedByUser :
  outcome [Accept ("leaf", []) kHostName all_errors; Decide invalid_trust kHostName 1] =
  Ok [AnswerPolicy 1 CERT_ACCEPT_POLICY_RECOVERABLE_ERROR_ACCEPTED_BY_USER 5].
Proof. by vm_compute. Qed.

Example AllowCertIgnoresIntermediateCerts :
  outcome [Accept ("leaf", ["leaf"]) kHostName all_errors; Decide invalid_trust kHostName 1] =
  Ok [AnswerPolicy 1 CERT_ACCEPT_POLICY_RECOVERABLE_ERROR_ACCEPTED_BY_USER 5].
Proof. by vm_compute. Qed.

Example PolicyForNullTrust :
  outcome [Decide None kHostName 1] =
  Ok [AnswerPolicy 1 CERT_ACCEPT_POLICY_NON_RECOVERABLE_ERROR 128].
Proof. by vm_compute. Qed.

Example PolicyForNullHost :
  outcome [Decide invalid_trust None 1] =
  Ok [AnswerPolicy 1 CERT_ACCEPT_POLICY_RECOVERABLE_ERROR_UNDECIDED_BY_USER 5].
Proof. by vm_compute. Qed.

Example SSLStatusForValidTrust :
  outcome [Query valid_trust 1] = Ok [AnswerStatus 1 SECURITY_STYLE_AUTHENTICATED 0].
Proof. by vm_compute. Qed.

Example SSLStatusForInvalidTrust :
  outcome [Query invalid_trust 1] = Ok [AnswerStatus 1 SECURITY_STYLE_AUTHENTICATION_BROKEN 5].
Proof. by vm_compute. Qed.

(** Calls that overlap. *)
Definition some_calls : list Event :=
  [Decide invalid_trust kHostName 1; Accept ("leaf", ["root"]) kHostName 5;
   Query valid_trust 2; Decide invalid_trust kHostName 3].

Lemma load_decisions_are_justified_witness :
  ∃ v, perform_all some_calls (Verifier_new CertificatePolicyCache_new) = Ok (tt, v) ∧
    ∀ a, a ∈ answers v → justified some_calls a.
Proof. apply (load_decisions_are_justified some_calls). Defined.

Lemma handlers_called_exactly_once_witness :
  ∃ n v, perform_all (some_calls ++ rounds n) (Verifier_new CertificatePolicyCache_new) = Ok (tt, v) ∧
    idle v ∧ (answered <$> answers v) ≡ₚ [1; 2; 3].
Proof. apply (handlers_called_exactly_once some_calls). Defined.

Lemma consent_is_remembered_witness :
  ∃ v', perform_all [Accept ("leaf", ["leaf"]) kHostName 7; Decide invalid_trust kHostName 1;
      PoolRuns 0; MainRuns; IORuns; IORuns; MainRuns]
      (Verifier_new CertificatePolicyCache_new) = Ok (tt, v') ∧
    answers v' = [AnswerPolicy 1 CERT_ACCEPT_POLICY_RECOVERABLE_ERROR_ACCEPTED_BY_USER 5].
Proof.
  assert (covers 7 5) as Hc.
  { split; [done|]. intros n Hn. assert (n = 0 ∨ n = 1 ∨ n = 2 ∨ 3 <= n) as [->|[->|[->|?]]] by lia; try done.
    rewrite (Z.bits_above_log2 5 n); [done|lia|]. cbn. lia. }
  exact (consent_is_remembered ("leaf", ["leaf"]) kHostName 7 invalid_trust kHostName 1 ("leaf", [])
    (Verifier_new CertificatePolicyCache_new) (conj eq_refl (conj eq_refl eq_refl)) eq_refl eq_refl
    eq_refl eq_refl Hc).
Defined.
End ToyTrust.
