(* ===== verification/SessionCertificates.v ===== *)
(** * The certificates accepted in a session

    src/web/web_state/session_certificate_policy_cache_impl.mm (the set of the
    certificates a user accepted in a tab),
    src/web/public/crw_session_certificate_policy_cache_storage.mm (their
    coding in a stored session, with the format of earlier versions) and
    src/web/web_state/session_certificate_policy_cache_storage_builder.mm.
    An NSSet of storages compares them as objects, so each that is registered
    stays; a set is the list of its elements and the order in which it is
    enumerated is an argument. *)

From S2P Require Import Prelude.
From S2P Require Import CertPolicy.
From S2P Require Import KeyedArchive.
From S2P Require Import CertVerification.
From S2P Require Import CertVerificationSpec.

(** base/strings/sys_string_conversions.h: a string that is not UTF-8 becomes
    nil. *)
Class StringEnv := { is_utf8 : string → bool }.
Definition SysUTF8ToNSString `{StringEnv} (s : string) : option string :=
  if is_utf8 s then Some s else None.

Definition kCertificateSerializationKey : string := "CertificateSerializationKey".
Definition kHostSerializationKey : string := "HostSerializationKey".
Definition kStatusSerializationKey : string := "StatusSerializationKey".
Definition kCertificateStoragesKey : string := "kCertificateStoragesKey".
Definition kCertificateStoragesDeprecatedKey : string := "allowedCertificates".

(** A net::CertStatus read from an NSNumber. *)
Definition status_of_number (z : Z) : Z := z mod 2 ^ 32.

Section certificates.
Context `{TE : TrustEnv} `{SE : !StringEnv}.

(** ** CRWSessionCertificateStorage *)
Record CRWSessionCertificateStorage := MkCertStorage {
  storage_certificate : X509Certificate;
  storage_host : string;
  storage_status : Z;
}.

Definition initWithCertificate (cert : option X509Certificate) (host : string) (status : Z) :
    res CRWSessionCertificateStorage :=
  match cert with
  | None => Crash DCheckFailed
  | Some cert =>
      if bool_decide (host = "") then Crash DCheckFailed else Ok (MkCertStorage cert host status)
  end.

Definition CertificateToNSData (certificate : X509Certificate) : string := cert_buffer certificate.
Definition NSDataToCertificate (data : option string) : option X509Certificate :=
  CreateFromBytes (default "" data).

Definition initWithCertData (certData hostName : option string) (certStatus : option Z) :
    res (option CRWSessionCertificateStorage) :=
  let cert := NSDataToCertificate certData in
  let host := SysNSStringToUTF8 hostName in
  match cert, certStatus with
  | Some cert, Some certStatus =>
      if bool_decide (host = "") then Ok None
      else s ← initWithCertificate (Some cert) host (status_of_number certStatus); mret (Some s)
  | _, _ => Ok None
  end.

Definition initWithDeprecatedSerialization (serialization : list Object) :
    res (option CRWSessionCertificateStorage) :=
  match serialization with
  | [certData; hostName; certStatus] =>
      certData ← as_data (Some certData);
      hostName ← as_string (Some hostName);
      certStatus ← as_number (Some certStatus);
      initWithCertData certData hostName certStatus
  | _ => Ok None
  end.

Definition cert_initWithCoder (c : Archive) : res (option CRWSessionCertificateStorage) :=
  certData ← as_data (decode_object kCertificateSerializationKey c);
  hostName ← as_string (decode_object kHostSerializationKey c);
  certStatus ← as_number (decode_object kStatusSerializationKey c);
  initWithCertData certData hostName certStatus.

Definition cert_encodeWithCoder (s : CRWSessionCertificateStorage) (c : Archive) : Archive :=
  let c := encode_object (Some (OData (CertificateToNSData (storage_certificate s))))
             kCertificateSerializationKey c in
  let c := encode_object (OString <$> SysUTF8ToNSString (storage_host s)) kHostSerializationKey c in
  encode_object (Some (ONumber (storage_status s))) kStatusSerializationKey c.

(** ** CRWSessionCertificatePolicyCacheStorage: its set of storages, or nil *)
Record CRWSessionCertificatePolicyCacheStorage := MkPolicyCacheStorage {
  certificateStorages : option (list CRWSessionCertificateStorage);
}.

(** An element of the decoded set. *)
Definition decode_cert (o : Object) : res (option CRWSessionCertificateStorage) :=
  match o with OArchive c => cert_initWithCoder c | _ => raise end.

(** The storages of an earlier version; those that cannot be read are left
    out. *)
Fixpoint decode_deprecated (l : list Object) : res (list CRWSessionCertificateStorage) :=
  match l with
  | [] => Ok []
  | o :: l =>
      a ← as_array (Some o);
      s ← initWithDeprecatedSerialization (default [] a);
      ss ← decode_deprecated l;
      mret (option_list s ++ ss)
  end.

Definition policy_initWithCoder (c : Archive) : res CRWSessionCertificatePolicyCacheStorage :=
  set ← as_set (decode_object kCertificateStoragesKey c);
  storages ← decode_all decode_cert (default [] set);
  if zlen storages =? 0 then
    deprecatedSerializations ← as_set (decode_object kCertificateStoragesDeprecatedKey c);
    storages ← decode_deprecated (default [] deprecatedSerializations);
    mret (MkPolicyCacheStorage (Some storages))
  else mret (MkPolicyCacheStorage (Some storages)).

Definition encode_cert (s : CRWSessionCertificateStorage) : Object :=
  OArchive (cert_encodeWithCoder s ∅).

Definition policy_encodeWithCoder (s : CRWSessionCertificatePolicyCacheStorage) (c : Archive) :
    Archive :=
  encode_object ((λ l, OSet (encode_cert <$> l)) <$> certificateStorages s) kCertificateStoragesKey c.

(** ** SessionCertificatePolicyCacheImpl *)
Record SessionCertificatePolicyCacheImpl := MkSessionCache {
  allowed_certs_ : option (list CRWSessionCertificateStorage);
}.
Definition SessionCertificatePolicyCacheImpl_new : SessionCertificatePolicyCacheImpl :=
  MkSessionCache (Some []).

(** A message to nil does nothing. *)
Definition RegisterAllowedCertificate (certificate : option X509Certificate) (host : string)
    (status : Z) : M SessionCertificatePolicyCacheImpl unit :=
  s ← lift_res (initWithCertificate certificate host status);
  modify (λ c, MkSessionCache ((λ l, l ++ [s]) <$> allowed_certs_ c)).

Definition SetAllowedCerts (allowed_certs : option (list CRWSessionCertificateStorage))
    (c : SessionCertificatePolicyCacheImpl) : SessionCertificatePolicyCacheImpl :=
  MkSessionCache allowed_certs.
Definition GetAllowedCerts (c : SessionCertificatePolicyCacheImpl) :
    option (list CRWSessionCertificateStorage) :=
  allowed_certs_ c.

(** [setWithSet:] of nil is the empty set. *)
Definition setWithSet (s : option (list CRWSessionCertificateStorage)) :
    list CRWSessionCertificateStorage :=
  default [] s.

(** The task UpdateCertificatePolicyCache posts to the IO thread. *)
Fixpoint allow_certs (l : list CRWSessionCertificateStorage) : M CertificatePolicyCache unit :=
  match l with
  | [] => mret tt
  | s :: l =>
      AllowCertForHost true (storage_certificate s) (storage_host s) (storage_status s);;
      allow_certs l
  end.
Definition UpdateCertificatePolicyCache
    (enumerated : list CRWSessionCertificateStorage → list CRWSessionCertificateStorage)
    (c : SessionCertificatePolicyCacheImpl) : M CertificatePolicyCache unit :=
  allow_certs (enumerated (setWithSet (allowed_certs_ c))).

(** ** SessionCertificatePolicyCacheStorageBuilder *)
Definition policy_BuildStorage (cache : SessionCertificatePolicyCacheImpl) :
    CRWSessionCertificatePolicyCacheStorage :=
  MkPolicyCacheStorage (Some (setWithSet (GetAllowedCerts cache))).

(** A message to a nil storage answers nil. *)
Definition BuildSessionCertificatePolicyCache
    (cache_storage : option CRWSessionCertificatePolicyCacheStorage) :
    SessionCertificatePolicyCacheImpl :=
  SetAllowedCerts (cache_storage ≫= certificateStorages) SessionCertificatePolicyCacheImpl_new.
End certificates.

(** ** Permissions across a restart *)
Section restart.
Context `{TL : TrustLaws} `{SE : !StringEnv}.
Implicit Types (s : CRWSessionCertificateStorage) (l : list CRWSessionCertificateStorage).

(** A leaf certificate, accepted for a host that is text. *)
Definition storable_cert s : Prop :=
  intermediate_buffers (storage_certificate s) = [] ∧ storage_host s ≠ "" ∧
  is_utf8 (storage_host s) = true ∧ is_cert_status (storage_status s).

Lemma status_of_number_id z : is_cert_status z → status_of_number z = z.
Proof using Type. intros H. by apply Z.mod_small. Qed.

Lemma cert_roundtrip s : storable_cert s → decode_cert (encode_cert s) = Ok (Some s).
Proof using All.
  intros (Hi & Hh & Hu & Hs). destruct s as [cert host st]. cbn in Hi, Hh, Hu, Hs.
  assert (CreateFromBytes (cert_buffer cert) = Some cert) as Hc.
  { rewrite law_create_from_bytes. destruct (law_buffer_valid cert) as [c Hc]. rewrite Hc. f_equal.
    apply law_create_buffers in Hc as [Hb Hl]. by apply law_cert_ext; rewrite ?Hb, ?Hl. }
  unfold decode_cert, encode_cert, cert_initWithCoder.
  trans (initWithCertData (Some (cert_buffer cert)) (Some host) (Some st)).
  { unfold cert_encodeWithCoder, SysUTF8ToNSString. cbn [storage_host]. by rewrite Hu. }
  unfold initWithCertData, NSDataToCertificate, initWithCertificate. cbn. rewrite Hc.
  rewrite bool_decide_eq_false_2 by done. cbn. by rewrite status_of_number_id.
Qed.

Lemma certs_roundtrip l :
  Forall storable_cert l →
  policy_initWithCoder (policy_encodeWithCoder (MkPolicyCacheStorage (Some l)) ∅) =
  Ok (MkPolicyCacheStorage (Some l)).
Proof using All.
  intros Hl. set (c := policy_encodeWithCoder _ ∅). unfold policy_initWithCoder.
  assert (as_set (decode_object kCertificateStoragesKey c) = Ok (Some (encode_cert <$> l))) as -> by done.
  assert (as_set (decode_object kCertificateStoragesDeprecatedKey c) = Ok None) as -> by done.
  assert (decode_all decode_cert (default [] (Some (encode_cert <$> l))) = Ok l) as Hd.
  { apply decode_all_map. eapply Forall_impl; [exact Hl|]. apply cert_roundtrip. }
  unfold mbind at 1, res_bind. rewrite Hd. cbn -[zlen]. destruct (zlen l =? 0) eqn:E; [|done].
  apply Z.eqb_eq, zlen_zero_nil in E. by subst.
Qed.

(** The status of the last permission for a host and a fingerprint. *)
Fixpoint last_entry l (host fp : string) : option Z :=
  match l with
  | [] => None
  | s :: l =>
      match last_entry l host fp with
      | Some z => Some z
      | None =>
          if bool_decide (storage_host s = host) &&
             bool_decide (CalculateChainFingerprint256 (storage_certificate s) = fp)
          then Some (storage_status s) else None
      end
  end.

Lemma wp_allow_certs l c (Q : unit → CertificatePolicyCache → Prop) :
  (∀ c', (∀ host fp, allowed_ (policy_at c' host) !! fp =
            match last_entry l host fp with
            | Some z => Some z
            | None => allowed_ (policy_at c host) !! fp
            end) → Q tt c') →
  wp (allow_certs l) Q c.
Proof using Type.
  revert c. induction l as [|s l IH]; intros c HQ; cbn [allow_certs].
  - wp_simp. by apply HQ.
  - unfold AllowCertForHost. wp_simp. split; [done|]. apply IH. intros c' Hc'. apply HQ.
    intros host fp. rewrite Hc', policy_at_set. cbn [last_entry].
    destruct (last_entry l host fp); [done|]. case_bool_decide as Eh; cbn [andb]; [|done].
    subst host. cbn. case_bool_decide as Ef.
    + subst fp. by rewrite lookup_insert_eq.
    + by rewrite lookup_insert_ne.
Qed.

Lemma last_entry_in l host fp z :
  last_entry l host fp = Some z → ∃ s, s ∈ l ∧ storage_host s = host ∧
    CalculateChainFingerprint256 (storage_certificate s) = fp ∧ storage_status s = z.
Proof using Type.
  induction l as [|s l IH]; cbn; [done|]. destruct (last_entry l host fp) eqn:E.
  - intros [= ->]. destruct IH as (s' & ? & ?); [done|]. exists s'. split; [by right|done].
  - destruct (_ && _) eqn:Et; [|done]. intros [= <-]. bool_to_prop.
    exists s. by split; [left|].
Qed.

Lemma last_entry_found l s :
  s ∈ l → ∃ z, last_entry l (storage_host s)
                 (CalculateChainFingerprint256 (storage_certificate s)) = Some z.
Proof using Type.
  induction l as [|x l IH]; [by intros ?%elem_of_nil|]. intros [->|H]%elem_of_cons; cbn.
  - destruct (last_entry l _ _); [by eexists|]. rewrite !bool_decide_eq_true_2 by done. by eexists.
  - destruct (IH H) as [z ->]. by eexists.
Qed.

Lemma Check_remembered p cert z error :
  remembered p cert = Some z →
  (covers z error → Check_ p cert error = ALLOWED) ∧ (¬ covers z error → Check_ p cert error = UNKNOWN).
Proof using Type.
  intros Hz. destruct (Check_allowed p cert error) as [Ha Hd]. split.
  - intros Hc. apply Ha. by exists z.
  - intros Hc. destruct (Check_ p cert error); [done| |done].
    destruct (proj1 Ha eq_refl) as (z' & Hz' & Hcov). destruct Hc. by simplify_eq.
Qed.

(** The cache after the permissions [l] are given to an empty one. *)
Lemma allow_certs_new l :
  ∃ c, allow_certs l CertificatePolicyCache_new = Ok (tt, c) ∧
    ∀ host fp, allowed_ (policy_at c host) !! fp = last_entry l host fp.
Proof using Type.
  apply wp_run_unit, wp_allow_certs. intros c Hc ho fp. rewrite Hc. destruct (last_entry _ _ _); [done|].
  unfold policy_at. cbn. by rewrite lookup_empty.
Qed.

(** What a query for [cert] at [host] answers in [c]. *)
Lemma query_run cert host error c :
  QueryPolicy true cert host error c =
  Ok (Check_ (policy_at c host) cert error, set_policy host (policy_at c host) c).
Proof using Type.
  pose proof (policy_at_set c host (policy_at c host) host) as H.
  rewrite bool_decide_eq_true_2 in H by done. trans (Ok
    (Check_ (policy_at (set_policy host (policy_at c host) c) host) cert error,
     set_policy host (policy_at c host) c)); [reflexivity|by rewrite H].
Qed.


(** Two permissions for the same certificate and host are both kept, and a
    restart may keep either: with the errors of the later one at the end of the
    enumeration the later one holds, as before the restart, with those of the
    earlier one at the end it does not. *)
Theorem restart_keeps_either_permission cert host st1 st2 error :
  let s1 := MkCertStorage cert host st1 in
  let s2 := MkCertStorage cert host st2 in
  host ≠ "" → covers st2 error → ¬ covers st1 error →
  ∃ cache c1 c2 c1' c2',
    (RegisterAllowedCertificate (Some cert) host st1;;
     RegisterAllowedCertificate (Some cert) host st2) SessionCertificatePolicyCacheImpl_new = Ok (tt, cache) ∧
    GetAllowedCerts cache = Some [s1; s2] ∧
    UpdateCertificatePolicyCache id cache CertificatePolicyCache_new = Ok (tt, c1) ∧
    QueryPolicy true cert host error c1 = Ok (ALLOWED, c1') ∧
    UpdateCertificatePolicyCache (@rev _) cache CertificatePolicyCache_new = Ok (tt, c2) ∧
    QueryPolicy true cert host error c2 = Ok (UNKNOWN, c2').
Proof using Type.
  intros s1 s2 Hh H2 H1. exists (MkSessionCache (Some [s1; s2])).
  assert (∀ st, initWithCertificate (Some cert) host st = Ok (MkCertStorage cert host st)) as Hi.
  { intros st. cbn. by rewrite bool_decide_eq_false_2. }
  destruct (allow_certs_new [s1; s2]) as (c1 & R1 & E1), (allow_certs_new [s2; s1]) as (c2 & R2 & E2).
  exists c1, c2. eexists _, _.
  split; [unfold RegisterAllowedCertificate, mbind, M_bind, lift_res; by rewrite !Hi|].
  split; [done|]. rewrite !query_run.
  assert (∀ s s', storage_certificate s = cert → storage_host s = host →
    last_entry [s'; s] host (CalculateChainFingerprint256 cert) = Some (storage_status s)) as Hlast.
  { intros s s' Es Eh. cbn. rewrite (bool_decide_eq_true_2 (storage_host s = host)) by done.
    by rewrite (bool_decide_eq_true_2 (CalculateChainFingerprint256 _ = _)) by congruence. }
  destruct (Check_remembered (policy_at c1 host) cert st2 error) as [A1 _].
  { unfold remembered. rewrite E1. by apply (Hlast s2 s1). }
  destruct (Check_remembered (policy_at c2 host) cert st1 error) as [_ A2].
  { unfold remembered. rewrite E2. by apply (Hlast s1 s2). }
  rewrite A1, A2 by done. done.
Qed.

(** A tab restored from a stored session that has no certificates forgets
    every certificate its user accepts from then on: its set is nil, so
    nothing is registered, and the next session stored for it is empty. *)
Theorem tab_restored_without_certificates_stores_none cert host st :
  host ≠ "" →
  ∃ cache, RegisterAllowedCertificate (Some cert) host st (BuildSessionCertificatePolicyCache None) =
      Ok (tt, cache) ∧
    GetAllowedCerts cache = None ∧ policy_BuildStorage cache = MkPolicyCacheStorage (Some []).
Proof using Type.
  intros Hh. eexists. unfold RegisterAllowedCertificate, mbind, M_bind, lift_res, initWithCertificate.
  rewrite bool_decide_eq_false_2 by done. by split.
Qed.
End restart.
