(* ===== verification/SessionStorage.v ===== *)
(** * Storage of sessions

    src/web/public/crw_session_storage.mm (the coding of the session of a tab,
    with the keys of earlier versions), the coding of user data of
    src/web/navigation/serializable_user_data_manager_impl.mm, and
    src/web/navigation/session_storage_builder.mm, which stores and restores
    the state of a WebStateImpl over either navigation manager. *)

From S2P Require Import Prelude.
From S2P Require Import WebEnv.
From S2P Require Import SessionWindow.
From S2P Require Import KeyedArchive.
From S2P Require Import NavigationItem.
From S2P Require Import NavigationItemStorage.
From S2P Require Import NavigationManager.
From S2P Require Import SessionController.
From S2P Require Import LegacyNavigationManager.
From S2P Require Import WKWebViewCache.
From S2P Require Import WKBasedNavigationManager.
From S2P Require Import CertPolicy.
From S2P Require Import CertVerification.
From S2P Require Import SessionCertificates.

Definition kCertificatePolicyCacheStorageKey : string := "certificatePolicyCacheStorage".
Definition kCertificatePolicyCacheStorageDeprecatedKey : string := "certificatePolicyManager".
Definition kItemStoragesKey : string := "entries".
Definition kHasOpenerKey : string := "openedByDOM".
Definition kLastCommittedItemIndexKey : string := "lastCommittedItemIndex".
Definition kPreviousItemIndexKey : string := "previousItemIndex".
Definition kLastCommittedItemIndexDeprecatedKey : string := "currentNavigationIndex".
Definition kPreviousItemIndexDeprecatedKey : string := "previousNavigationIndex".
Definition kSerializedUserDataKey : string := "serializedUserData".

(** ** SerializableUserDataImpl *)
Definition user_data_Encode (data : UserDict) (c : Archive) : Archive :=
  encode_object (Some (OUserData data)) kSerializedUserDataKey c.
Definition user_data_Decode (c : Archive) : res UserDict :=
  data ← as_user_data (decode_object kSerializedUserDataKey c);
  mret (default ∅ data).

Section storage.
Context `{NE : NSURLEnv} `{TE : TrustEnv} `{SE : !StringEnv}.

(** ** CRWSessionStorage *)
Record CRWSessionStorage := MkStoredSession {
  hasOpener : bool;
  lastCommittedItemIndex : Z;
  previousItemIndex : Z;
  itemStorages : option (list CRWNavigationItemStorage);
  certPolicyCacheStorage : option CRWSessionCertificatePolicyCacheStorage;
  userData : option UserDict;
}.

Definition encode_item (s : CRWNavigationItemStorage) : Object := OArchive (item_encodeWithCoder s ∅).
Definition decode_item (o : Object) : res (option CRWNavigationItemStorage) :=
  match o with OArchive c => s ← item_initWithCoder c; mret (Some s) | _ => raise end.

Definition session_encodeWithCoder (s : CRWSessionStorage) (c : Archive) : Archive :=
  let c := encodeBool (hasOpener s) kHasOpenerKey c in
  let c := encodeInt (lastCommittedItemIndex s) kLastCommittedItemIndexKey c in
  let c := encodeInt (previousItemIndex s) kPreviousItemIndexKey c in
  let c := encode_object ((λ l, OArray (encode_item <$> l)) <$> itemStorages s) kItemStoragesKey c in
  let c := encode_object ((λ p, OArchive (policy_encodeWithCoder p ∅)) <$> certPolicyCacheStorage s)
             kCertificatePolicyCacheStorageKey c in
  match userData s with Some d => user_data_Encode d c | None => c end.

(** An index under its key, or under the key of earlier versions. *)
Definition decode_index (key deprecated_key : string) (c : Archive) : res Z :=
  if containsValueForKey key c then decodeInt key c else decodeInt deprecated_key c.

Definition decode_policy_storage (o : option Object) :
    res (option CRWSessionCertificatePolicyCacheStorage) :=
  a ← as_archive o;
  match a with
  | Some a => p ← policy_initWithCoder a; mret (Some p)
  | None => mret None
  end.

Definition session_initWithCoder (decoder : Archive) : res CRWSessionStorage :=
  has_opener ← decodeBool kHasOpenerKey decoder;
  last ← decode_index kLastCommittedItemIndexKey kLastCommittedItemIndexDeprecatedKey decoder;
  previous ← decode_index kPreviousItemIndexKey kPreviousItemIndexDeprecatedKey decoder;
  entries ← as_array (decode_object kItemStoragesKey decoder);
  items ← decode_all decode_item (default [] entries);
  let last := if zlen items =? 0 then -1 else last in
  policy ← decode_policy_storage (decode_object kCertificatePolicyCacheStorageKey decoder);
  policy ← match policy with
           | Some _ => mret policy
           | None =>
               decode_policy_storage
                 (decode_object kCertificatePolicyCacheStorageDeprecatedKey decoder)
           end;
  data ← user_data_Decode decoder;
  mret (MkStoredSession has_opener last previous (Some items) policy (Some data)).
End storage.
Arguments CRWSessionStorage {_ _}.

(** ** SessionStorageBuilder *)

(** The virtual operations of a navigation manager that restoring a session
    uses. *)
Class NavigationManagerRestore `{ENV : WebEnv} (St : Type) := {
  manager_Restore : Z → list NavigationItem → M St unit;
  manager_GetPreviousItemIndex : St → Z;
  manager_SetPreviousItemIndex : Z → M St unit;
}.
#[export] Instance legacy_restore `{ENV : WebEnv} : NavigationManagerRestore LegacyNavigationManager := {|
  manager_Restore := legacy_Restore;
  manager_GetPreviousItemIndex := GetPreviousItemIndex;
  manager_SetPreviousItemIndex := LegacyNavigationManager.SetPreviousItemIndex;
|}.
#[export] Instance wk_restore `{ENV : WebEnv} : NavigationManagerRestore WKBasedNavigationManager := {|
  manager_Restore index items := wk_Restore index (Some <$> items);
  manager_GetPreviousItemIndex := previous_item_index_;
  manager_SetPreviousItemIndex := WKBasedNavigationManager.SetPreviousItemIndex;
|}.

Section builder.
Context `{NE : NSURLEnv} `{TE : TrustEnv} {St : Type} `{!NavigationManagerState St}
  `{!NavigationManagerGetters St} `{!NavigationManagerRestore St}.

(** The fields of a WebStateImpl a session consists of. *)
Record WebStateSession := MkWebStateSession {
  created_with_opener_ : bool;
  navigation_manager_ : St;
  certificate_policy_cache_ : SessionCertificatePolicyCacheImpl;
  user_data_manager_ : SerializableUserDataManagerImpl;
}.
Notation WSM := (M WebStateSession).

(** A call of the navigation manager. *)
Definition on_manager {A} (m : M St A) : WSM A := λ w,
  match m (navigation_manager_ w) with
  | Ok (a, s) => Ok (a, MkWebStateSession (created_with_opener_ w) s (certificate_policy_cache_ w)
                          (user_data_manager_ w))
  | Crash c => Crash c
  end.

(** A call of the manager of user data. *)
Definition on_user_data {A} (m : M SerializableUserDataManagerImpl A) : WSM A := λ w,
  match m (user_data_manager_ w) with
  | Ok (a, d) => Ok (a, MkWebStateSession (created_with_opener_ w) (navigation_manager_ w)
                          (certificate_policy_cache_ w) d)
  | Crash c => Crash c
  end.

(** The storage of the item at an index. *)
Definition store_item (index : Z) : M St CRWNavigationItemStorage :=
  r ← GetItemAtIndex index;
  i ← gets (λ s, r ≫= get_item s);
  lift_res (item_BuildStorage i).

Definition session_BuildStorage : WSM CRWSessionStorage :=
  w ← gets id;
  last ← on_manager GetLastCommittedItemIndex;
  previous ← gets (λ w, manager_GetPreviousItemIndex (navigation_manager_ w));
  count ← gets (λ w, GetItemCount (navigation_manager_ w));
  items ← on_manager (for_indices (Z.to_nat count) 0 store_item);
  mret (MkStoredSession (created_with_opener_ w) last previous (Some items)
          (Some (policy_BuildStorage (certificate_policy_cache_ w)))
          (Some (CreateSerializableUserData (user_data_manager_ w)))).

(** The items of a storage, built and rewritten. *)
Fixpoint build_items (l : list CRWNavigationItemStorage) : M St (list NavigationItem) :=
  match l with
  | [] => mret []
  | s :: l =>
      id ← GetUniqueIDInConstructor;
      i ← RewriteItemURLIfNecessary (BuildNavigationItemImpl id s);
      items ← build_items l;
      mret (i :: items)
  end.

Definition ExtractSessionState (storage : CRWSessionStorage) : WSM unit :=
  modify (λ w, MkWebStateSession (hasOpener storage) (navigation_manager_ w)
    (certificate_policy_cache_ w) (user_data_manager_ w));;
  items ← on_manager (build_items (default [] (itemStorages storage)));
  on_manager (manager_Restore (to_int32 (lastCommittedItemIndex storage)) items);;
  on_manager (manager_SetPreviousItemIndex (to_int32 (previousItemIndex storage)));;
  modify (λ w, MkWebStateSession (created_with_opener_ w) (navigation_manager_ w)
    (BuildSessionCertificatePolicyCache (certPolicyCacheStorage storage)) (user_data_manager_ w));;
  on_user_data (AddSerializableUserData (userData storage)).
End builder.
Arguments WebStateSession {_} _.
