(* ===== verification/SessionStorageSpec.v ===== *)
(** * A session survives being stored

    A session is built from a tab, encoded, decoded and extracted into a new
    tab; storing the new tab gives the same session (SessionStorage.v over the
    legacy navigation manager). *)

From S2P Require Import Prelude.
From S2P Require Import WebEnv.
From S2P Require Import WkNavigationUtil.
From S2P Require Import SessionWindow.
From S2P Require Import KeyedArchive.
From S2P Require Import NavigationItem.
From S2P Require Import BrowserURLRewriter.
From S2P Require Import NavigationItemStorage.
From S2P Require Import NavigationManager.
From S2P Require Import SessionController.
From S2P Require Import LegacyNavigationManager.
From S2P Require Import SessionLemmas.
From S2P Require Import CertPolicy.
From S2P Require Import CertVerification.
From S2P Require Import CertVerificationSpec.
From S2P Require Import SessionCertificates.
From S2P Require Import SessionStorage.

Section coding.
Context `{NE : NSURLEnv} `{!WebEnvLaws} `{TL : TrustLaws} `{SE : !StringEnv}.

(** A storage as a tab builds it. *)
Record storable_session (s : CRWSessionStorage) : Prop := MkStorableSession {
  ss_items : ∃ l, itemStorages s = Some l ∧ Forall storable l ∧
    (l = [] → lastCommittedItemIndex s = -1);
  ss_certs : ∃ l, certPolicyCacheStorage s = Some (MkPolicyCacheStorage (Some l)) ∧
    Forall storable_cert l;
  ss_data : is_Some (userData s);
  ss_last : in_int (lastCommittedItemIndex s) = true;
  ss_previous : in_int (previousItemIndex s) = true;
}.

Lemma decode_item_roundtrip s : storable s → decode_item (encode_item s) = Ok (Some s).
Proof using All.
  intros Hs. unfold decode_item, encode_item. by rewrite item_coding_roundtrip.
Qed.

Lemma session_coding_roundtrip s :
  storable_session s → session_initWithCoder (session_encodeWithCoder s ∅) = Ok s.
Proof using All.
  intros [(l & Hl & Hi & He) (cs & Hc & Hcs) [d Hd] Hla Hpr].
  destruct s as [o la pr its cert data]. cbn in Hl, He, Hc, Hd, Hla, Hpr. subst its cert data.
  set (c := session_encodeWithCoder _ ∅). unfold session_initWithCoder.
  assert (decodeBool kHasOpenerKey c = Ok o) as -> by done.
  assert (decode_index kLastCommittedItemIndexKey kLastCommittedItemIndexDeprecatedKey c = Ok la)
    as -> by (trans (Ok (to_int32 la)); [done|by rewrite to_int32_id]).
  assert (decode_index kPreviousItemIndexKey kPreviousItemIndexDeprecatedKey c = Ok pr)
    as -> by (trans (Ok (to_int32 pr)); [done|by rewrite to_int32_id]).
  assert (as_array (decode_object kItemStoragesKey c) = Ok (Some (encode_item <$> l))) as -> by done.
  assert (decode_all decode_item (default [] (Some (encode_item <$> l))) = Ok l) as Hdl.
  { apply decode_all_map. eapply Forall_impl; [exact Hi|]. apply decode_item_roundtrip. }
  unfold mbind, res_bind. rewrite Hdl.
  assert (decode_policy_storage (decode_object kCertificatePolicyCacheStorageKey c) =
          Ok (Some (MkPolicyCacheStorage (Some cs)))) as Hp.
  { trans (decode_policy_storage (Some (OArchive
      (policy_encodeWithCoder (MkPolicyCacheStorage (Some cs)) ∅)))); [done|].
    unfold decode_policy_storage, as_archive, as_nil. cbn -[policy_initWithCoder policy_encodeWithCoder].
    by rewrite certs_roundtrip. }
  assert (user_data_Decode c = Ok d) as Hu by done. rewrite Hp, Hu. cbn -[zlen].
  destruct (Z.eqb_spec (zlen l) 0) as [E|E]; [|done].
  apply zlen_zero_nil in E. by rewrite (He E).
Qed.
End coding.

(** ** Storing a tab *)
Section storing.
Context `{NE : NSURLEnv} `{!WebEnvLaws} `{TL : TrustLaws} `{SE : !StringEnv}.
Implicit Types (m : LegacyNavigationManager) (w : WebStateSession LegacyNavigationManager).

(** What is stored of an item and of a tab. *)
Definition storage_of (i : NavigationItem) : CRWNavigationItemStorage :=
  MkItemStorage (GetVirtualURL i) (GetReferrer i) (timestamp_ i) (GetTitle i)
    (page_display_state_ i) (should_skip_repost_form_confirmation_ i) (GetUserAgentType i)
    (post_data_ i) (GetHttpRequestHeaders i).
Definition session_of w : CRWSessionStorage :=
  let s := session_ (navigation_manager_ w) in
  MkStoredSession (created_with_opener_ w) (lastCommittedItemIndex_ s) (previousItemIndex_ s)
    (Some (storage_of <$> items_ s)) (Some (policy_BuildStorage (certificate_policy_cache_ w)))
    (Some (data_ (user_data_manager_ w))).

Lemma wp_on_manager {A} (f : LM A) (Q : A → WebStateSession LegacyNavigationManager → Prop) w :
  wp (on_manager f) Q w ↔
  wp f (λ a m, Q a (MkWebStateSession (created_with_opener_ w) m (certificate_policy_cache_ w)
                      (user_data_manager_ w))) (navigation_manager_ w).
Proof using Type. unfold wp, on_manager. by destruct (f _) as [[]|]. Qed.

Lemma wp_store_item m index (Q : _ → _ → Prop) :
  wp (store_item index) Q m ↔
  ∃ i, vec_at (items_ (session_ m)) index = Some i ∧ Q (storage_of i) m.
Proof using Type.
  unfold store_item. wp_simp. unfold itemAtIndex, session_count.
  destruct (vec_at (items_ (session_ m)) index) as [i|] eqn:E.
  - pose proof (vec_at_Some_range _ _ _ E). replace (_ || _) with false by (symmetry; apply orb_false_iff;
      split; [apply Z.ltb_ge|apply Z.leb_gt]; lia). cbn. rewrite E. split.
    + intros HQ. by exists i.
    + by intros (i' & [= <-] & HQ).
  - apply vec_at_None in E. replace (_ || _) with true by (symmetry; apply orb_true_iff;
      destruct E; [left; apply Z.ltb_lt|right; apply Z.leb_le]; lia). cbn.
    split; [done|by intros (? & ? & _)].
Qed.

Lemma wp_store_items m n (Q : _ → _ → Prop) :
  Z.of_nat n = zlen (items_ (session_ m)) →
  Q (storage_of <$> items_ (session_ m)) m →
  wp (for_indices n 0 store_item) Q m.
Proof using Type.
  intros Hn HQ.
  apply (wp_for_indices (λ j acc m', m' = m ∧ acc = storage_of <$> take (Z.to_nat j) (items_ (session_ m)))).
  - done.
  - intros j acc m' Hj [-> ->]. apply wp_store_item.
    destruct (vec_at_in_range (items_ (session_ m)) j) as [i Hi]; [lia|].
    exists i. split; [done|]. split; [done|]. rewrite vec_at_nonneg in Hi by lia.
    replace (Z.to_nat (j + 1)) with (S (Z.to_nat j)) by lia. by rewrite (take_S_r _ _ i), fmap_app.
  - intros acc m' [-> ->]. rewrite take_ge; [done|]. unfold zlen in Hn. lia.
Qed.

(** The legacy manager, with nothing that hides the committed item. *)
Definition shows_committed m : Prop :=
  last_committed_index m = lastCommittedItemIndex_ (session_ m).

Lemma session_BuildStorage_run w :
  shows_committed (navigation_manager_ w) → session_BuildStorage w = Ok (session_of w, w).
Proof using Type.
  intros Hs. assert (wp session_BuildStorage (λ s w', s = session_of w ∧ w' = w) w) as Hw.
  { unfold session_BuildStorage. wp_simp. rewrite wp_on_manager. wp_simp. rewrite Hs. wp_simp.
    rewrite wp_on_manager. apply wp_store_items.
    - cbn. unfold session_count. rewrite Z2Nat.id; [done|apply zlen_nonneg].
    - wp_simp. by destruct w. }
  apply wp_run in Hw as (s & w' & Hr & -> & ->). done.
Qed.
End storing.

(** ** Restoring a tab *)
Section restoring.
Context `{NE : NSURLEnv} `{!WebEnvLaws} `{TL : TrustLaws} `{SE : !StringEnv}.
Implicit Types (m : LegacyNavigationManager) (w : WebStateSession LegacyNavigationManager).

Definition rewritten_url (browser_state : BrowserState) (u : GURL) : GURL :=
  let '(rewritten, url) := RewriteURLIfNecessary u browser_state in if rewritten then url else u.

(** The item a storage becomes. *)
Definition restored browser_state (s : CRWNavigationItemStorage) (i : NavigationItem) : Prop :=
  storage_of i = s ∧ GetURL i = rewritten_url browser_state (virtualURL s).

Lemma rewritten_stores_same url i :
  virtual_url_ i = EmptyGURL → is_empty (GetURL i) = false →
  storage_of (SetVirtualURL (GetURL i) (SetURL url i)) = storage_of i.
Proof using All.
  intros Hv He. destruct i. cbn in Hv, He. subst. unfold storage_of, GetVirtualURL. cbn.
  rewrite law_empty_is_empty. f_equal. case_bool_decide; [by rewrite law_empty_is_empty|by rewrite He].
Qed.

(** What RewriteItemURLIfNecessary does to an item. *)
Definition rewrite_item browser_state (i : NavigationItem) : NavigationItem :=
  let '(rewritten, url) := RewriteURLIfNecessary (GetURL i) browser_state in
  if rewritten then SetVirtualURL (GetURL i) (SetURL url i) else i.

Lemma rewrite_item_stores_same browser_state i :
  virtual_url_ i = EmptyGURL → is_empty (GetURL i) = false →
  storage_of (rewrite_item browser_state i) = storage_of i ∧
  GetURL (rewrite_item browser_state i) = rewritten_url browser_state (GetURL i).
Proof using All.
  intros Hv He. unfold rewrite_item, rewritten_url.
  destruct (RewriteURLIfNecessary (GetURL i) browser_state) as [[] url]; [|done].
  split; [by apply rewritten_stores_same|by destruct i].
Qed.

Lemma restored_built browser_state id s :
  is_empty (virtualURL s) = false →
  restored browser_state s (rewrite_item browser_state (BuildNavigationItemImpl id s)).
Proof using All.
  intros He.
  destruct (rewrite_item_stores_same browser_state (BuildNavigationItemImpl id s) eq_refl He) as [H1 H2].
  split; [|exact H2]. rewrite H1. unfold storage_of. rewrite GetVirtualURL_built, built_item. by destruct s.
Qed.

Lemma wp_build_items l m (Q : list NavigationItem → LegacyNavigationManager → Prop) :
  0 <= unique_id_counter (base_ m) → unique_id_counter (base_ m) + zlen l <= INT_MAX →
  Forall (λ s, is_empty (virtualURL s) = false) l →
  (∀ items m', Forall2 (restored (browser_state_ (base_ m))) l items →
     session_ m' = session_ m → browser_state_ (base_ m') = browser_state_ (base_ m) → Q items m') →
  wp (build_items l) Q m.
Proof using All.
  revert m Q. induction l as [|s l IH]; intros m Q H0 Hn Hl HQ; cbn [build_items].
  { wp_simp. by apply HQ. }
  rewrite zlen_cons in Hn. pose proof (zlen_nonneg l).
  apply Forall_cons in Hl as [Hs Hl]. unfold GetUniqueIDInConstructor, int_add.
  wp_simp. rewrite in_int_nonneg by (cbn; lia). wp_simp. unfold RewriteItemURLIfNecessary. wp_simp.
  pose proof (restored_built (browser_state_ (base_ m)) (unique_id_counter (base_ m) + 1) s Hs) as Hr.
  unfold rewrite_item in Hr.
  cbn -[BuildNavigationItemImpl RewriteURLIfNecessary SetVirtualURL SetURL GetURL] in Hr |- *.
  destruct (RewriteURLIfNecessary _ _) as [rw url]. wp_simp. apply IH; cbn; [lia..|done|].
  intros items m' Hi Hse Hb. wp_simp. apply HQ; [by constructor|done..].
Qed.

(** A new tab, in the browser state [browser_state]. *)
Definition fresh browser_state now : WebStateSession LegacyNavigationManager :=
  MkWebStateSession false (InitializeSession browser_state now) SessionCertificatePolicyCacheImpl_new
    SerializableUserDataManagerImpl_new.

Lemma wp_ExtractSessionState browser_state now (s : CRWSessionStorage) l cs d
    (Q : unit → WebStateSession LegacyNavigationManager → Prop) :
  itemStorages s = Some l → certPolicyCacheStorage s = Some (MkPolicyCacheStorage cs) →
  userData s = Some d → zlen l <= INT_MAX →
  Forall (λ s, is_empty (virtualURL s) = false) l →
  lastCommittedItemIndex s < zlen l → (if bool_decide (l = []) then -1 else 0) <= lastCommittedItemIndex s →
  in_int (previousItemIndex s) = true →
  (∀ w, Forall2 (restored browser_state) l (items_ (session_ (navigation_manager_ w))) →
     created_with_opener_ w = hasOpener s →
     lastCommittedItemIndex_ (session_ (navigation_manager_ w)) = lastCommittedItemIndex s →
     previousItemIndex_ (session_ (navigation_manager_ w)) = previousItemIndex s →
     certificate_policy_cache_ w = MkSessionCache cs → data_ (user_data_manager_ w) = d → Q tt w) →
  wp (ExtractSessionState s) Q (fresh browser_state now).
Proof using All.
  intros Hl Hc Hd Hn He Hlast Hlast0 Hp HQ. unfold ExtractSessionState. wp_simp.
  rewrite wp_on_manager, Hl, Hc, Hd. pose proof (zlen_nonneg l) as Hz. unfold INT_MAX in Hn.
  assert (to_int32 (lastCommittedItemIndex s) = lastCommittedItemIndex s) as ->.
  { apply to_int32_id. unfold in_int, INT_MIN, INT_MAX. case_bool_decide; bool_to_prop;
    apply andb_true_iff; split; apply Z.leb_le; lia. }
  rewrite (to_int32_id (previousItemIndex s)) by done.
  apply wp_build_items; [done|cbn; unfold INT_MAX; lia|done|]. intros items m Hi Hs Hb. wp_simp.
  rewrite wp_on_manager. cbn [manager_Restore legacy_restore navigation_manager_]. unfold legacy_Restore.
  wp_simp. rewrite Hs. assert (zlen items = zlen l) as Hlen.
  { unfold zlen. by rewrite <- (Forall2_length _ _ _ Hi). }
  split; [cbn; unfold session_count; by rewrite Hs|].
  split.
  { apply Z.ltb_lt. rewrite Hlen, to_int32_id; [lia|]. apply in_int_nonneg. unfold INT_MAX. lia. }
  split.
  { apply orb_true_iff. destruct items; [left; done|right]. apply Z.leb_le.
    rewrite bool_decide_eq_false_2 in Hlast0; [done|]. intros ->. by apply Forall2_nil_inv_l in Hi. }
  unfold set_session. wp_simp. rewrite wp_on_manager. apply HQ; try done.
  cbn. rewrite Hlen. lia.
Qed.

(** *** Storing the restored tab *)
Lemma restored_storage browser_state l items :
  Forall2 (restored browser_state) l items → storage_of <$> items = l.
Proof using Type. induction 1 as [|s i l items [Hs _] _ IH]; cbn; by f_equal. Qed.

Lemma shows_committed_at m :
  -1 <= lastCommittedItemIndex_ (session_ m) < zlen (items_ (session_ m)) →
  (∀ i, vec_at (items_ (session_ m)) (lastCommittedItemIndex_ (session_ m)) = Some i →
     IsRestoreSessionUrl (GetURL i) = false) →
  (lastCommittedItemIndex_ (session_ m) = -1 → items_ (session_ m) = []) →
  shows_committed m.
Proof using Type.
  intros Hr Hi Hn. unfold shows_committed, last_committed_index, lastCommittedItem, null_or_restore_url.
  cbn. unfold session_count. destruct (Z.eqb_spec (lastCommittedItemIndex_ (session_ m)) (-1)) as [E|E].
  { by rewrite E. }
  destruct (vec_at_in_range (items_ (session_ m)) (lastCommittedItemIndex_ (session_ m))) as [i Hat]; [lia|].
  cbn. rewrite Hat. cbn. rewrite (Hi i) by done.
  replace (zlen _ =? 0) with false; [done|]. symmetry. apply Z.eqb_neq. lia.
Qed.

(** A tab whose session can be stored and restored in [browser_state]. *)
Record restorable browser_state w : Prop := MkRestorable {
  re_inv : session_inv (session_ (navigation_manager_ w));
  re_shows : shows_committed (navigation_manager_ w);
  re_items : Forall (λ i, storable_item i ∧ is_empty (GetVirtualURL i) = false ∧
    IsRestoreSessionUrl (rewritten_url browser_state (GetVirtualURL i)) = false)
    (items_ (session_ (navigation_manager_ w)));
  re_certs : ∃ cs, allowed_certs_ (certificate_policy_cache_ w) = Some cs ∧ Forall storable_cert cs;
}.

Lemma restorable_storable browser_state w : restorable browser_state w → storable_session (session_of w).
Proof using All.
  intros [Hi _ Hit (cs & Hc & Hcs)]. split.
  - eexists. split; [reflexivity|]. split.
    + apply Forall_fmap. eapply Forall_impl; [exact Hit|]. by intros i (H1 & _).
    + cbn. intros Hn%fmap_nil_inv. destruct Hi as [L _ _ _ _ _]. unfold session_count in L. rewrite Hn, zlen_nil in L. lia.
  - exists cs. split; [|done]. cbn. unfold policy_BuildStorage, GetAllowedCerts. by rewrite Hc.
  - by eexists.
  - destruct Hi. cbn. apply andb_true_iff. unfold INT_MIN, INT_MAX in *. split; apply Z.leb_le; lia.
  - destruct Hi. cbn. apply andb_true_iff. unfold INT_MIN, INT_MAX in *. split; apply Z.leb_le; lia.
Qed.

(** A tab that stores the session of [w]. *)
Definition took_over browser_state w w' : Prop :=
  Forall2 (restored browser_state) (storage_of <$> items_ (session_ (navigation_manager_ w)))
    (items_ (session_ (navigation_manager_ w'))) ∧
  session_of w' = session_of w ∧
  lastCommittedItemIndex_ (session_ (navigation_manager_ w')) =
    lastCommittedItemIndex_ (session_ (navigation_manager_ w)).

Lemma Extract_session_of browser_state now w :
  restorable browser_state w →
  ∃ w', ExtractSessionState (session_of w) (fresh browser_state now) = Ok (tt, w') ∧
    took_over browser_state w w'.
Proof using All.
  intros Hr. pose proof (restorable_storable _ _ Hr) as [_ _ _ _ Hp].
  destruct Hr as [[L1 L2 _ _ L3 L4] _ Hit (cs & Hc & Hcs)]. unfold session_count in *.
  apply wp_run_unit. eapply wp_ExtractSessionState; try reflexivity; try exact Hp; rewrite ?zlen_fmap; cbn.
  - lia.
  - apply Forall_fmap. eapply Forall_impl; [exact Hit|]. by intros i (_ & ? & _).
  - lia.
  - case_bool_decide as E; [lia|]. destruct (decide (items_ (session_ (navigation_manager_ w)) = [])) as [N|N].
    + by rewrite N in E.
    + destruct (decide (lastCommittedItemIndex_ (session_ (navigation_manager_ w)) = -1)); [|lia].
      by destruct N, L2.
  - intros w' Hi Ho Hl Hpr Hce Hd. split; [done|]. split; [|done].
    unfold session_of. rewrite (restored_storage _ _ _ Hi), Ho, Hl, Hpr, Hce, Hd. done.
Qed.

Lemma took_over_shows browser_state w w' :
  restorable browser_state w → took_over browser_state w w' → shows_committed (navigation_manager_ w').
Proof using All.
  intros [[L1 L2 _ _ _ _] _ Hit _] (Hi & _ & Hl). unfold session_count in *.
  pose proof (Forall2_length _ _ _ Hi) as Hlen. rewrite length_fmap in Hlen.
  apply shows_committed_at; rewrite Hl.
  - unfold zlen in *. by rewrite <- Hlen.
  - intros i Hat. rewrite Forall2_fmap_l in Hi. assert (H0 := vec_at_Some_range _ _ _ Hat).
    rewrite vec_at_nonneg in Hat by lia.
    destruct (Forall2_lookup_r _ _ _ _ _ Hi Hat) as (i0 & Hat0 & _ & ->).
    rewrite Forall_lookup in Hit. by destruct (Hit _ _ Hat0) as (_ & _ & ?).
  - intros E. apply length_zero_iff_nil. by rewrite <- Hlen, (L2 E).
Qed.


(** A stored session whose committed index is not an index of its items is
    not restored: the check of the navigation manager fails. *)
Theorem ExtractSessionState_checks_index browser_state now (s : CRWSessionStorage) l :
  itemStorages s = Some l → l ≠ [] → zlen l <= INT_MAX →
  Forall (λ s, is_empty (virtualURL s) = false) l → in_int (lastCommittedItemIndex s) = true →
  lastCommittedItemIndex s < 0 ∨ zlen l <= lastCommittedItemIndex s →
  ExtractSessionState s (fresh browser_state now) = Crash DCheckFailed.
Proof using All.
  intros Hl Hne Hn He Hin Hbad. unfold INT_MAX in Hn.
  pose proof (wp_build_items l (InitializeSession browser_state now) (λ items m,
    Forall2 (restored browser_state) l items ∧ session_ m = session_new browser_state)) as Hw.
  destruct (wp_run _ _ _ (Hw ltac:(done) ltac:(cbn; unfold INT_MAX; lia) He
    (λ items m Hi Hs Hb, conj Hi Hs))) as (items & m & Hr & Hi & Hs).
  assert (zlen items = zlen l) as Hlen by (unfold zlen; by rewrite <- (Forall2_length _ _ _ Hi)).
  assert (legacy_Restore (lastCommittedItemIndex s) items m = Crash DCheckFailed) as Hc.
  { assert (GetPendingItem m = Ok (None, m)) as Hpe.
    { trans (Ok (pendingItem (session_ m), m)); [done|by rewrite Hs]. }
    unfold legacy_Restore, mbind, M_bind, gets, DCHECK. rewrite Hpe. cbn. unfold session_count.
    rewrite Hs. cbn. rewrite Hlen, to_int32_id by (apply in_int_nonneg; unfold INT_MAX; pose proof (zlen_nonneg l); lia).
    destruct (Z.ltb_spec (lastCommittedItemIndex s) (zlen l)); [|done].
    assert (items ≠ []) as Hni by (intros E; apply Hne, zlen_zero_nil; by rewrite <- Hlen, E).
    rewrite bool_decide_eq_false_2 by done. by destruct (Z.leb_spec 0 (lastCommittedItemIndex s)); [lia|]. }
  unfold ExtractSessionState. rewrite Hl, (to_int32_id (lastCommittedItemIndex s)) by done.
  apply crash_after. wp_simp. apply crash_after. rewrite wp_on_manager. unfold wp.
  cbn [navigation_manager_ fresh default]. cbn [from_option id]. rewrite Hr.
  apply crash_in. unfold on_manager. cbn [navigation_manager_ manager_Restore legacy_restore].
  by rewrite Hc.
Qed.
End restoring.

(** ** Sessions of earlier versions *)
Section earlier.
Context `{NE : NSURLEnv} `{TE : TrustEnv} `{SE : !StringEnv}.

(** A stored session without items is read with no committed index,
    whatever index it holds; one with items and without the current keys takes
    its indices from the keys of earlier versions. *)
Theorem stored_indices_are_read (c : Archive) (s : CRWSessionStorage) :
  session_initWithCoder c = Ok s →
  ∃ l, itemStorages s = Some l ∧
    (l = [] → lastCommittedItemIndex s = -1) ∧
    (∀ i, l ≠ [] → c !! kLastCommittedItemIndexKey = None →
       c !! kLastCommittedItemIndexDeprecatedKey = Some (Some (OInt i)) → lastCommittedItemIndex s = i) ∧
    (∀ i, c !! kPreviousItemIndexKey = None →
       c !! kPreviousItemIndexDeprecatedKey = Some (Some (OInt i)) → previousItemIndex s = i).
Proof using Type.
  intros Hs. unfold session_initWithCoder in Hs.
  assert (∀ key old i, c !! key = None → c !! old = Some (Some (OInt i)) → decode_index key old c = Ok i) as Hold.
  { intros key old i H1 H2. unfold decode_index, containsValueForKey, decodeInt. by rewrite H1, H2. }
  destruct (decodeBool _ c) as [o|]; [|done]. cbn [mbind res_bind] in Hs.
  destruct (decode_index kLastCommittedItemIndexKey _ c) as [la|] eqn:El; [|done]. cbn [mbind res_bind] in Hs.
  destruct (decode_index kPreviousItemIndexKey _ c) as [pr|] eqn:Ep; [|done]. cbn [mbind res_bind] in Hs.
  destruct (as_array _) as [e|]; [|done]. cbn [mbind res_bind] in Hs.
  destruct (decode_all _ _) as [l|]; [|done]. cbn [mbind res_bind] in Hs.
  destruct (decode_policy_storage (decode_object kCertificatePolicyCacheStorageKey c)) as [p|]; [|done]. cbn [mbind res_bind] in Hs.
  destruct (match p with Some _ => _ | None => _ end) as [p'|]; [|done]. cbn [mbind res_bind] in Hs.
  destruct (user_data_Decode c) as [d|]; [|done]. injection Hs as <-. exists l. cbn.
  split; [done|]. split; [intros ->; by rewrite zlen_nil|]. split.
  - intros i Hne H1 H2. rewrite (Hold _ _ _ H1 H2) in El. injection El as <-.
    destruct (Z.eqb_spec (zlen l) 0) as [E|]; [|done]. by destruct Hne; apply zlen_zero_nil.
  - intros i H1 H2. rewrite (Hold _ _ _ H1 H2) in Ep. by injection Ep as <-.
Qed.
End earlier.
