(* ===== verification/SessionStorageExamples.v ===== *)
(** * Stored sessions: examples

    The theorems of NavigationItemStorage.v, SessionCertificates.v and
    SessionStorageSpec.v at concrete items, certificates and tabs, and the
    repository's tests of the storages run on the model
    (crw_navigation_item_storage_unittest.mm, crw_session_storage_unittest.mm,
    crw_session_certificate_policy_cache_storage_unittest.mm). *)

From S2P Require Import Prelude.
From S2P Require Import WebEnv.
From S2P Require Import WkNavigationUtil.
From S2P Require Import CGFloat.
From S2P Require Import PageDisplayState.
From S2P Require Import SessionWindow.
From S2P Require Import KeyedArchive.
From S2P Require Import NavigationItem.
From S2P Require Import BrowserURLRewriter.
From S2P Require Import NavigationItemStorage.
From S2P Require Import NavigationManager.
From S2P Require Import SessionController.
From S2P Require Import LegacyNavigationManager.
From S2P Require Import SessionLemmas.
From S2P Require Import CertPolicy.
From S2P Require Import CertVerification.
From S2P Require Import CertVerificationSpec.
From S2P Require Import CertVerificationExamples.
From S2P Require Import SessionCertificates.
From S2P Require Import SessionStorage.
From S2P Require Import SessionStorageSpec.

Module ToySession.
Import ToyTrust.
#[local] Existing Instance Toy.env.
#[local] Existing Instance Toy.laws.

#[export] Instance toy_nsurl : NSURLEnv := {| GURLWithNSURL u := GURL_of (default EmptyString u) |}.
#[export] Instance toy_strings : StringEnv :=
  {| is_utf8 s := forallb (λ c, (Ascii.N_of_ascii c <? 128)%N) (String.list_ascii_of_string s) |}.

(** ** Items *)
Definition init_test : CRWNavigationItemStorage :=
  MkItemStorage (Toy.web "init.test" "") (MkReferrer (Toy.web "referrer.url" "") ReferrerPolicyDefault)
    1540000000000000 [84; 105; 116; 108; 101] PageDisplayState_default false UserAgentType_DESKTOP
    (Some "Test data") (Some {["HeaderKey" := "HeaderValue"]}).

Example CRWNavigationItemStorageTest_EncodeDecode :
  item_initWithCoder (item_encodeWithCoder init_test ∅) = Ok init_test.
Proof. apply item_coding_roundtrip. split; by left. Qed.

Definition page (id : Z) (path : string) : NavigationItem :=
  with_user_agent_type_ UserAgentType_DESKTOP (SetTitle [65] (SetURL (Toy.web "x" path)
    (NavigationItemImpl_new id))).

Lemma page_storable id path :
  storable_item (page id path).
Proof. split; [by left|by right]. Qed.

Lemma stored_item_is_restored_witness :
  ∃ s i', item_BuildStorage (Some (page 1 "a")) = Ok s ∧
    item_initWithCoder (item_encodeWithCoder s ∅) = Ok s ∧
    GetURL i' = Toy.web "x" "a" ∧ GetUserAgentType i' = UserAgentType_DESKTOP ∧ GetUniqueID i' = 7.
Proof.
  destruct (stored_item_is_restored (page 1 "a") 7 (page_storable 1 "a"))
    as (s & i' & H1 & H2 & _ & [Hu _ _ _ _ _ _ _ Ha _ _] & _ & Hid & _).
  exists s, i'. split; [exact H1|]. split; [exact H2|]. split; [exact Hu|]. split; [exact Ha|exact Hid].
Defined.

(** An archive with the keys of an earlier version. *)
Definition old_archive : Archive :=
  <[kNavigationItemStorageReferrerURLDeprecatedKey := Some (OURL (spec (Toy.web "r" "")))]>
  (<[kNavigationItemStorageURLKey := Some (OBytes (spec (Toy.web "x" "a")))]> ∅).

(** A property of a result. *)
Definition ok_with {A} (p : A → bool) (r : res A) : bool :=
  match r with Ok a => p a | Crash _ => false end.
Lemma ok_with_inv {A} (p : A → bool) (r : res A) : ok_with p r = true → ∃ a, r = Ok a ∧ p a = true.
Proof. destruct r as [a|]; [|done]. by exists a. Qed.

Lemma legacy_item_is_read_witness :
  ∃ s, item_initWithCoder old_archive = Ok s ∧ virtualURL s = Toy.web "x" "a" ∧
    referrer s = MkReferrer (Toy.web "r" "") ReferrerPolicyDefault ∧ userAgentType s = UserAgentType_NONE.
Proof.
  assert (ok_with (λ s, bool_decide (virtualURL s = Toy.web "x" "a")) (item_initWithCoder old_archive) =
    true) as He by by vm_compute.
  apply ok_with_inv in He as (s & E & Hv%bool_decide_eq_true).
  pose proof (legacy_item_is_read old_archive (Some (spec (Toy.web "r" ""))) s E eq_refl eq_refl eq_refl)
    as [Hr Hu].
  exists s. split; [exact E|]. split; [exact Hv|]. split; [exact Hr|exact Hu].
Defined.

(** ** Certificates *)
Definition ok_cert : X509Certificate := ("ok_cert", []).
Definition other_cert : X509Certificate := ("other", []).
Definition in_test (cert : X509Certificate) (status : Z) : CRWSessionCertificateStorage :=
  MkCertStorage cert "test1.com" status.

Example CacheStorage_EncodeDecode :
  policy_initWithCoder (policy_encodeWithCoder (MkPolicyCacheStorage (Some [in_test ok_cert 64])) ∅) =
  Ok (MkPolicyCacheStorage (Some [in_test ok_cert 64])).
Proof. by vm_compute. Qed.

(** A storage of an earlier version, with an element that is not a triple. *)
Example CacheStorage_deprecated :
  policy_initWithCoder {[kCertificateStoragesDeprecatedKey :=
    Some (OSet [OArray [OData "ok_cert"; OString "test1.com"; ONumber 64]; OArray []])]} =
  Ok (MkPolicyCacheStorage (Some [in_test ok_cert 64])).
Proof. by vm_compute. Qed.

Lemma in_test_storable cert status :
  intermediate_buffers cert = [] → is_cert_status status → storable_cert (in_test cert status).
Proof. intros Hi Hs. split; [exact Hi|]. split; [done|]. split; [by vm_compute|exact Hs]. Qed.

Lemma covers_same st : is_cert_status st → st ≠ 0 → covers st st.
Proof. by split. Qed.

Lemma not_covers_0 st : st ≠ 0 → ¬ covers 0 st.
Proof.
  intros Hne [_ H]. apply Hne, Z.bits_inj'. intros n Hn. rewrite Z.bits_0.
  destruct (Z.testbit st n) eqn:E; [|done]. apply H in E; [|done]. by rewrite Z.bits_0 in E.
Qed.


Lemma restart_keeps_either_permission_witness :
  ∃ cache c1 c2 c1' c2',
    (RegisterAllowedCertificate (Some ok_cert) "test1.com" 0;;
     RegisterAllowedCertificate (Some ok_cert) "test1.com" 4) SessionCertificatePolicyCacheImpl_new =
      Ok (tt, cache) ∧
    GetAllowedCerts cache = Some [in_test ok_cert 0; in_test ok_cert 4] ∧
    UpdateCertificatePolicyCache id cache CertificatePolicyCache_new = Ok (tt, c1) ∧
    QueryPolicy true ok_cert "test1.com" 4 c1 = Ok (ALLOWED, c1') ∧
    UpdateCertificatePolicyCache (@rev _) cache CertificatePolicyCache_new = Ok (tt, c2) ∧
    QueryPolicy true ok_cert "test1.com" 4 c2 = Ok (UNKNOWN, c2').
Proof.
  apply (restart_keeps_either_permission ok_cert "test1.com" 0 4 4);
    [done|by apply covers_same|by apply not_covers_0].
Defined.

Lemma tab_restored_without_certificates_stores_none_witness :
  ∃ cache, RegisterAllowedCertificate (Some ok_cert) "test1.com" 64
      (BuildSessionCertificatePolicyCache None) = Ok (tt, cache) ∧
    GetAllowedCerts cache = None ∧ policy_BuildStorage cache = MkPolicyCacheStorage (Some []).
Proof. by apply (tab_restored_without_certificates_stores_none ok_cert "test1.com" 64). Defined.

(** ** Tabs *)
Definition tab_items : list NavigationItem := [page 1 "a"; page 2 "b"; page 3 "c"].
Definition tab : WebStateSession LegacyNavigationManager :=
  MkWebStateSession true
    (MkLegacy (MkBase None [] 3 [])
       (with_previousItemIndex_ 2 (session_restored None tab_items 1)) 100)
    (MkSessionCache (Some [in_test ok_cert 64]))
    (MkManager (<["key" := NSStringValue "value"]> ∅)).

Lemma tab_restorable : restorable None tab.
Proof.
  split.
  - split; try done; by vm_compute.
  - by vm_compute.
  - apply Forall_forall. intros i Hi. assert (∃ id path, i = page id path ∧
      is_empty (Toy.web "x" path) = false ∧
      IsRestoreSessionUrl (rewritten_url None (Toy.web "x" path)) = false) as (id & path & -> & H1 & H2).
    { repeat (apply elem_of_cons in Hi as [->|Hi]; [eexists _, _; split; [reflexivity|by vm_compute]|]).
      by apply elem_of_nil in Hi. }
    split; [apply page_storable|]. by split.
  - exists [in_test ok_cert 64]. split; [reflexivity|].
    apply Forall_singleton, in_test_storable; [done|by split].
Qed.


(** A session of which the index was lost. *)
Definition damaged : CRWSessionStorage :=
  MkStoredSession false (-1) (-1) (Some [init_test]) None None.

Lemma ExtractSessionState_checks_index_witness :
  ExtractSessionState damaged (fresh None 5) = Crash DCheckFailed.
Proof.
  apply (ExtractSessionState_checks_index None 5 damaged [init_test]); try done.
  - repeat constructor.
  - by left.
Defined.

(** A session written before the keys were renamed. *)
Definition old_session : Archive :=
  <[kItemStoragesKey := Some (OArray [encode_item init_test])]>
  (<[kPreviousItemIndexDeprecatedKey := Some (OInt 3)]>
  (<[kLastCommittedItemIndexDeprecatedKey := Some (OInt 0)]> ∅)).

Lemma stored_indices_are_read_witness :
  ∃ s, session_initWithCoder old_session = Ok s ∧ lastCommittedItemIndex s = 0 ∧ previousItemIndex s = 3.
Proof.
  assert (ok_with (λ s, negb (zlen (default [] (itemStorages s)) =? 0))
    (session_initWithCoder old_session) = true) as He by by vm_compute.
  apply ok_with_inv in He as (s & E & Hn).
  destruct (stored_indices_are_read old_session s E) as (l & Hl & _ & H1 & H2).
  exists s. split; [exact E|]. split; [|by apply H2]. apply H1; [|done..].
  intros ->. by rewrite Hl in Hn.
Defined.
End ToySession.
