(* ===== verification/ChunkedDataStreamUploader.v ===== *)
(** * Chunked uploads

    src/net/chunked_data_stream_uploader.cc: the meeting of the network
    layer, which asks for the next piece of a request body ([ReadInternal]),
    and of the application, which says when data or the end is ready
    ([UploadWhenReady]).  Either may come first.  The base class
    net::UploadDataStream is outside the repository: the calls the uploader
    makes on it are entries of a log.  The delegate is a class. *)

From Stdlib Require Import Strings.Byte.
From S2P Require Import Prelude.

(** net/base/net_errors.h *)
Class NetErrors := {
  net_OK : Z;
  ERR_FAILED : Z;
  ERR_IO_PENDING : Z;
}.

(** ChunkedDataStreamUploader::Delegate.  OnRead is given the size of the
    buffer; it returns its result and the bytes it put in the buffer. *)
Class UploaderDelegate := {
  Delegate : Type;
  OnRead : Z → M Delegate (Z * list Byte.byte);
}.

(** The contract of OnRead: it does not fail, and it has written as many bytes
    as it says, at most the size of the buffer. *)
Class UploaderDelegateLaws `{!UploaderDelegate} : Prop := {
  law_OnRead n d : 0 < n → ∃ k bytes d', OnRead n d = Ok ((k, bytes), d') ∧
    (0 < k → zlen bytes = k ∧ k <= n);
}.

(** What the uploader calls on its base class. *)
Inductive base_call : Set :=
  | SetIsFinalChunk
  | OnReadCompleted (result : Z).

Section uploader.
Context `{NE : NetErrors} `{UD : UploaderDelegate}.

(** The fields of the class, the contents of the network layer's buffers (a
    net::IOBuffer is an address) and the calls on the base class. *)
Record Uploader := MkUploader {
  delegate_ : Delegate;
  pending_read_buffer_ : option positive;
  pending_read_buffer_length_ : Z;
  pending_internal_read_ : bool;
  is_final_chunk_ : bool;
  is_front_of_stream_ : bool;
  buffers : gmap positive (list Byte.byte);
  base_calls : list base_call;
}.

Definition Uploader_new (d : Delegate) : Uploader :=
  MkUploader d None 0 false false true ∅ [].

Definition set_delegate (d : Delegate) (u : Uploader) : Uploader :=
  MkUploader d (pending_read_buffer_ u) (pending_read_buffer_length_ u)
    (pending_internal_read_ u) (is_final_chunk_ u) (is_front_of_stream_ u)
    (buffers u) (base_calls u).
Definition set_pending (b : option positive) (n : Z) (u : Uploader) : Uploader :=
  MkUploader (delegate_ u) b n (pending_internal_read_ u) (is_final_chunk_ u)
    (is_front_of_stream_ u) (buffers u) (base_calls u).
Definition set_pending_internal_read (b : bool) (u : Uploader) : Uploader :=
  MkUploader (delegate_ u) (pending_read_buffer_ u) (pending_read_buffer_length_ u) b
    (is_final_chunk_ u) (is_front_of_stream_ u) (buffers u) (base_calls u).
Definition set_is_final_chunk (b : bool) (u : Uploader) : Uploader :=
  MkUploader (delegate_ u) (pending_read_buffer_ u) (pending_read_buffer_length_ u)
    (pending_internal_read_ u) b (is_front_of_stream_ u) (buffers u) (base_calls u).
Definition set_is_front_of_stream (b : bool) (u : Uploader) : Uploader :=
  MkUploader (delegate_ u) (pending_read_buffer_ u) (pending_read_buffer_length_ u)
    (pending_internal_read_ u) (is_final_chunk_ u) b (buffers u) (base_calls u).
Definition call_base (c : base_call) (u : Uploader) : Uploader :=
  MkUploader (delegate_ u) (pending_read_buffer_ u) (pending_read_buffer_length_ u)
    (pending_internal_read_ u) (is_final_chunk_ u) (is_front_of_stream_ u)
    (buffers u) (base_calls u ++ [c]).

(** Writes at the start of a buffer. *)
Definition write_buffer (b : positive) (bytes : list Byte.byte) (u : Uploader) : Uploader :=
  MkUploader (delegate_ u) (pending_read_buffer_ u) (pending_read_buffer_length_ u)
    (pending_internal_read_ u) (is_final_chunk_ u) (is_front_of_stream_ u)
    (<[b := bytes ++ drop (length bytes) (default [] (buffers u !! b))]> (buffers u))
    (base_calls u).

(** [delegate_->OnRead(b->data(), n)] *)
Definition delegate_OnRead (b : positive) (n : Z) : M Uploader Z := λ u,
  match OnRead n (delegate_ u) with
  | Ok ((k, bytes), d) => Ok (k, write_buffer b bytes (set_delegate d u))
  | Crash c => Crash c
  end.

Definition Upload : M Uploader Z :=
  u ← gets (λ u : Uploader, u);
  b ← match pending_read_buffer_ u with
      | Some b => mret b
      | None => fail DCheckFailed
      end;
  modify (set_is_front_of_stream false);;
  bytes_read ← (if is_final_chunk_ u then modify (call_base SetIsFinalChunk);; mret 0
                else delegate_OnRead b (pending_read_buffer_length_ u));
  if negb (is_final_chunk_ u) && (bytes_read <=? 0) then
    modify (set_pending_internal_read true);;
    mret ERR_IO_PENDING
  else
    modify (set_pending None 0);;
    whenM (pending_internal_read_ u)
      (modify (set_pending_internal_read false);;
       modify (call_base (OnReadCompleted bytes_read)));;
    mret bytes_read.

Definition InitInternal : M Uploader Z :=
  gets (λ u, if is_front_of_stream_ u then net_OK else ERR_FAILED).

(** [buffer] is null or an address. *)
Definition ReadInternal (buffer : option positive) (buffer_length : Z) : M Uploader Z :=
  DCHECK (bool_decide (is_Some buffer));;
  DCHECK (0 <? buffer_length);;
  p ← gets pending_read_buffer_;
  DCHECK (bool_decide (p = None));;
  modify (set_pending buffer buffer_length);;
  Upload.

Definition ResetInternal : M Uploader unit :=
  modify (set_pending None 0);;
  modify (set_pending_internal_read false);;
  modify (set_is_final_chunk false).

Definition UploadWhenReady (is_final_chunk : bool) : M Uploader unit :=
  modify (set_is_final_chunk is_final_chunk);;
  p ← gets pending_internal_read_;
  whenM p (_ ← Upload; mret tt).

(** ** The invariant between calls *)

(** The network layer's read is pending exactly when its buffer is kept. *)
Definition uploader_inv (u : Uploader) : Prop :=
  match pending_read_buffer_ u with
  | Some _ => pending_internal_read_ u = true ∧ 0 < pending_read_buffer_length_ u
  | None => pending_internal_read_ u = false
  end.

(** Once a read has started the stream cannot be initialized again. *)
Definition started (u : Uploader) : Prop := is_front_of_stream_ u = false.

Context `{LAWS : !UploaderDelegateLaws}.

(** The outcome of a read of [n] bytes into [b], when [async] says whether the
    network layer was told to wait. *)
Definition read_outcome (async : bool) (b : positive) (n : Z) (u : Uploader)
    (r : Z) (u' : Uploader) : Prop :=
  is_front_of_stream_ u' = false ∧ is_final_chunk_ u' = is_final_chunk_ u ∧
  if is_final_chunk_ u then
    r = 0 ∧ pending_read_buffer_ u' = None ∧ pending_internal_read_ u' = false ∧
    delegate_ u' = delegate_ u ∧
    base_calls u' = base_calls u ++ SetIsFinalChunk ::
      (if async then [OnReadCompleted 0] else [])
  else ∃ k bytes,
    OnRead n (delegate_ u) = Ok ((k, bytes), delegate_ u') ∧
    (∃ rest, buffers u' !! b = Some (bytes ++ rest)) ∧
    if 0 <? k then
      r = k ∧ zlen bytes = k ∧ k <= n ∧
      pending_read_buffer_ u' = None ∧ pending_internal_read_ u' = false ∧
      base_calls u' = base_calls u ++ (if async then [OnReadCompleted k] else [])
    else
      r = ERR_IO_PENDING ∧ pending_read_buffer_ u' = Some b ∧
      pending_read_buffer_length_ u' = n ∧ pending_internal_read_ u' = true ∧
      base_calls u' = base_calls u.

Lemma wp_Upload b n u :
  pending_read_buffer_ u = Some b → pending_read_buffer_length_ u = n → 0 < n →
  wp Upload (read_outcome (pending_internal_read_ u) b n u) u.
Proof using All.
  intros Hb <- Hn. unfold Upload. wp_simp. rewrite Hb. wp_simp.
  unfold read_outcome. destruct (is_final_chunk_ u) eqn:Ef; cbn [negb andb].
  - wp_simp. destruct (pending_internal_read_ u) eqn:Ep; cbn [whenM]; wp_simp; simpl;
      rewrite ?Ep, ?Ef, <- ?app_assoc; done.
  - destruct (law_OnRead (pending_read_buffer_length_ u) (delegate_ u) Hn)
      as (k & bytes & d & Hr & Hk).
    eapply wp_of_run.
    { unfold delegate_OnRead. simpl. rewrite Hr. reflexivity. }
    cbv beta. destruct (Z.leb_spec k 0) as [Hle|Hlt]; wp_simp.
    + simpl. rewrite Ef. split_and!; [done..|]. exists k, bytes. rewrite lookup_insert_eq.
      rewrite (proj2 (Z.ltb_ge 0 k)) by lia. rewrite Hr. split_and!; eauto.
    + destruct (Hk Hlt) as [H1 H2].
      destruct (pending_internal_read_ u) eqn:Ep; cbn [whenM]; wp_simp; simpl;
        rewrite ?Ef, ?Ep; (split_and!; [done..|]); exists k, bytes; rewrite lookup_insert_eq;
        rewrite (proj2 (Z.ltb_lt 0 k)) by lia; rewrite Hr, ?app_nil_r;
        split_and!; eauto.
Qed.

(** A read of the network layer, made while no read is pending, is answered
    at once with the bytes the delegate put in the buffer, or with the end of
    the body, without a completion callback; or it is kept pending when the
    delegate has nothing. *)
Theorem ReadInternal_outcome b n u :
  uploader_inv u → pending_read_buffer_ u = None → 0 < n →
  ∃ r u', ReadInternal (Some b) n u = Ok (r, u') ∧
    read_outcome false b n u r u' ∧ uploader_inv u'.
Proof using All.
  intros Hinv Hnone Hn.
  enough (wp (ReadInternal (Some b) n) (λ r u', read_outcome false b n u r u' ∧ uploader_inv u') u)
    as (r & u' & H1 & H2)%wp_run by eauto.
  unfold uploader_inv in Hinv. rewrite Hnone in Hinv.
  unfold ReadInternal. wp_simp. rewrite bool_decide_eq_true_2 by eauto.
  split; [done|]. split; [by apply Z.ltb_lt|]. rewrite Hnone.
  split; [done|].
  eapply wp_mono, (wp_Upload b n); [|done..].
  intros r u'. simpl. rewrite Hinv. intros Ho. split; [exact Ho|].
  destruct Ho as (_ & _ & Ho). simpl in Ho. unfold uploader_inv.
  destruct (is_final_chunk_ u).
  - by destruct Ho as (_ & -> & -> & _).
  - destruct Ho as (k & bytes & _ & _ & Ho). destruct (0 <? k).
    + by destruct Ho as (_ & _ & _ & -> & -> & _).
    + destruct Ho as (_ & -> & -> & -> & _). done.
Qed.

(** Data that becomes ready completes the pending read, if there is one,
    with exactly one callback that gives the number of bytes in its buffer (0
    at the end of the body); without a pending read, or when the delegate has
    nothing, no callback is made.  No check fails. *)
Theorem UploadWhenReady_outcome is_final u :
  uploader_inv u →
  ∃ u', UploadWhenReady is_final u = Ok (tt, u') ∧ uploader_inv u' ∧
    is_final_chunk_ u' = is_final ∧
    match pending_read_buffer_ u with
    | None => u' = set_is_final_chunk is_final u
    | Some b => ∃ r, read_outcome true b (pending_read_buffer_length_ u)
                       (set_is_final_chunk is_final u) r u'
    end.
Proof using All.
  intros Hinv.
  match goal with |- ∃ u', _ = _ ∧ @?Q u' =>
    enough (wp (UploadWhenReady is_final) (λ _ u', Q u') u)
      as ([] & u' & H1 & H2)%wp_run by eauto end.
  unfold UploadWhenReady. wp_simp. simpl. unfold uploader_inv in Hinv at 1.
  destruct (pending_read_buffer_ u) as [b|] eqn:Eb.
  2:{ rewrite Hinv. cbn [whenM]. wp_simp. unfold uploader_inv. simpl. by rewrite Eb. }
  destruct Hinv as [Hp Hn]. rewrite Hp. cbn [whenM]. wp_simp.
  eapply wp_mono, (wp_Upload b (pending_read_buffer_length_ u)); [|done..].
  intros r u'. simpl. rewrite Hp. intros Ho. wp_simp.
  pose proof Ho as (_ & Hf & Ho'). simpl in Hf, Ho'.
  split; [|split; [done|by exists r]]. unfold uploader_inv.
  destruct is_final.
  - by destruct Ho' as (_ & -> & -> & _).
  - destruct Ho' as (k & bytes & _ & _ & Ho'). destruct (0 <? k).
    + by destruct Ho' as (_ & _ & _ & -> & -> & _).
    + destruct Ho' as (_ & -> & -> & -> & _). done.
Qed.

(** A reset drops the pending read and the end mark; a stream that was read
    from cannot be initialized again. *)
Lemma Reset_then_Init u :
  ∃ u', ResetInternal u = Ok (tt, u') ∧ uploader_inv u' ∧ is_final_chunk_ u' = false ∧
    InitInternal u' = Ok (if is_front_of_stream_ u then net_OK else ERR_FAILED, u').
Proof. eexists. by split_and!. Qed.
End uploader.

(** ** The tests of chunked_data_stream_uploader_unittest.cc

    The state of a test is the uploader, over the tests' delegate, with what
    the base class keeps: the end of the stream, the callback of the pending
    Read and the number of callbacks made.  The base class reads from the
    uploader until the end, keeps the callback when the result is
    ERR_IO_PENDING, and runs it when the read completes. *)
Module ChunkedDataStreamUploaderTest.
#[local] Instance errors : NetErrors := {|
  net_OK := 0; ERR_FAILED := -2; ERR_IO_PENDING := -1;
|}.

Definition kDefaultIOBufferSize : Z := 1024.

(** MockChunkedDataStreamUploaderDelegate: the data it has left to give. *)
Definition mock_OnRead (buffer_length : Z) : M (list Byte.byte) (Z * list Byte.byte) :=
  data_ ← gets (λ d : list Byte.byte, d);
  if 0 <? zlen data_ then
    CHECK (zlen data_ <=? buffer_length);;
    modify (λ _, []);;
    mret (zlen data_, data_)
  else mret (0, []).

#[local] Instance mock : UploaderDelegate := {|
  Delegate := list Byte.byte;
  OnRead := mock_OnRead;
|}.

Record fixture := MkFixture {
  uploader_ : Uploader;
  eof : bool;
  callback : bool;
  callback_count : Z;
}.

Definition fixture_new : fixture := MkFixture (Uploader_new []) false false 0.

(** The calls the uploader made on its base class take effect. *)
Definition base_effect (f : fixture) (c : base_call) : fixture :=
  match c with
  | SetIsFinalChunk => MkFixture (uploader_ f) true (callback f) (callback_count f)
  | OnReadCompleted _ =>
      if callback f
      then MkFixture (uploader_ f) (eof f) false (callback_count f + 1) else f
  end.

Definition run {A} (m : M Uploader A) : M fixture A := λ f,
  match m (uploader_ f) with
  | Ok (a, u) =>
      Ok (a, foldl base_effect (MkFixture u (eof f) (callback f) (callback_count f))
               (drop (length (base_calls (uploader_ f))) (base_calls u)))
  | Crash c => Crash c
  end.

Definition SetReadData (data : list Byte.byte) : M fixture unit :=
  CHECK (zlen data <=? kDefaultIOBufferSize);;
  run (modify (set_delegate data)).

Definition Read : M fixture Z :=
  e ← gets eof;
  r ← (if (e : bool) then mret 0 else run (ReadInternal (Some 1%positive) kDefaultIOBufferSize));
  whenM (r =? ERR_IO_PENDING)
    (modify (λ f, MkFixture (uploader_ f) (eof f) true (callback_count f)));;
  mret r.

#[local] Instance byte_eq_decision : EqDecision Byte.byte := Byte.byte_eq_dec.

(** The first bytes of the buffer. *)
Definition buffer_prefix (n : Z) : M fixture (list Byte.byte) :=
  gets (λ f, take (Z.to_nat n) (default [] (buffers (uploader_ f) !! 1%positive))).

(** "Hello world!" with its final 0. *)
Definition kTestData : list Byte.byte :=
  String.list_byte_of_string "Hello world!" ++ [Byte.x00].

Definition expect_buffer (data : list Byte.byte) : M fixture unit :=
  p ← buffer_prefix (zlen data); EXPECT_EQ p data.
Definition expect_eof : M fixture unit := e ← gets eof; EXPECT_TRUE e.
Definition expect_callbacks (n : Z) : M fixture unit :=
  c ← gets callback_count; EXPECT_EQ n c.

Definition ExternalDataReadyFirst : M fixture unit :=
  SetReadData kTestData;;
  run (UploadWhenReady false);;
  bytes_read ← Read;
  EXPECT_EQ (zlen kTestData) bytes_read;;
  expect_buffer kTestData;;
  SetReadData [];;
  run (UploadWhenReady true);;
  bytes_read ← Read;
  EXPECT_EQ 0 bytes_read;;
  expect_eof;;
  expect_callbacks 0.

Definition InternalReadReadyFirst : M fixture unit :=
  ret ← Read;
  EXPECT_EQ ERR_IO_PENDING ret;;
  SetReadData kTestData;;
  run (UploadWhenReady false);;
  expect_buffer kTestData;;
  ret ← Read;
  EXPECT_EQ ERR_IO_PENDING ret;;
  SetReadData [];;
  run (UploadWhenReady true);;
  expect_eof;;
  expect_callbacks 2.

Definition NullContentWithReadFirst : M fixture unit :=
  ret ← Read;
  EXPECT_EQ ERR_IO_PENDING ret;;
  SetReadData [];;
  run (UploadWhenReady true);;
  expect_eof;;
  expect_callbacks 1.

Definition NullContentWithDataFirst : M fixture unit :=
  SetReadData [];;
  run (UploadWhenReady true);;
  bytes_read ← Read;
  EXPECT_EQ 0 bytes_read;;
  expect_eof;;
  expect_callbacks 0.

(** The bytes 0, 1, ..., 255, 0, 1, ... *)
Definition test_data_long : list Byte.byte :=
  map (λ i, default Byte.x00 (Byte.of_nat (Nat.modulo i 256)))
    (seq 0 (Z.to_nat kDefaultIOBufferSize)).

Definition MixedScenarioTest : M fixture unit :=
  SetReadData kTestData;;
  run (UploadWhenReady false);;
  bytes_read ← Read;
  EXPECT_EQ (zlen kTestData) bytes_read;;
  expect_buffer kTestData;;
  ret ← Read;
  EXPECT_EQ ERR_IO_PENDING ret;;
  SetReadData test_data_long;;
  run (UploadWhenReady false);;
  expect_buffer test_data_long;;
  ret ← Read;
  EXPECT_EQ ERR_IO_PENDING ret;;
  SetReadData kTestData;;
  run (UploadWhenReady false);;
  expect_buffer kTestData;;
  SetReadData [];;
  run (UploadWhenReady true);;
  bytes_read ← Read;
  EXPECT_EQ 0 bytes_read;;
  expect_eof;;
  expect_callbacks 2.

Lemma chunked_uploader_unittests :
  forallb (λ t, passes t fixture_new)
    [ExternalDataReadyFirst; InternalReadReadyFirst; NullContentWithReadFirst;
     NullContentWithDataFirst; MixedScenarioTest] = true.
Proof. vm_compute. reflexivity. Qed.

(** A delegate that has one byte for every read. *)
#[local] Instance one_byte : UploaderDelegate := {|
  Delegate := unit;
  OnRead _ := mret (1, [Byte.x41]);
|}.
#[local] Instance one_byte_laws : UploaderDelegateLaws.
Proof.
  split. intros n [] Hn. exists 1, [Byte.x41], tt. split; [done|]. intros _.
  split; [done|lia].
Qed.

Definition unit_delegate : @Delegate one_byte := tt.

Lemma ReadInternal_outcome_witness :
  uploader_inv (Uploader_new unit_delegate) ∧
  ∃ r u', ReadInternal (Some 1%positive) 10 (Uploader_new unit_delegate) = Ok (r, u') ∧
    uploader_inv u'.
Proof.
  split; [done|].
  destruct (ReadInternal_outcome 1%positive 10 (Uploader_new unit_delegate) eq_refl eq_refl eq_refl)
    as (r & u' & H1 & _ & H3).
  by exists r, u'.
Defined.

Lemma UploadWhenReady_outcome_witness :
  ∃ u', UploadWhenReady true
    (set_pending_internal_read true (set_pending (Some 1%positive) 10 (Uploader_new unit_delegate))) =
    Ok (tt, u') ∧ uploader_inv u'.
Proof.
  destruct (UploadWhenReady_outcome true
    (set_pending_internal_read true (set_pending (Some 1%positive) 10 (Uploader_new unit_delegate))))
    as (u' & H1 & H2 & _).
  { by split. }
  by exists u'.
Defined.
End ChunkedDataStreamUploaderTest.
