(* ===== verification/BaseValues.v ===== *)
(** * Values, preferences and times of //base

    base::Value, base::DictionaryValue, PrefService and base::Time are outside
    the repository.  [BaseValues] has the operations the code uses, and
    [BaseValuesLaws] their documented behaviour.  A dictionary is read and
    written by key, or by path: a path without a ["."] is a key.  [ToyValues]
    is a concrete instance. *)

From Stdlib Require Import Ascii Floats.SpecFloat.
From S2P Require Import Prelude CGFloat.

(** UTF-16 code units, as in [WebEnv]. *)
#[local] Notation string16 := (list Z).

Definition dot_free (k : string) : bool :=
  forallb (λ c, negb (bool_decide (c = "."%char))) (String.list_ascii_of_string k).

Class BaseValues := {
  (* base/values.h *)
  Value : Type;
  Dict : Type;
  VString : string → Value;
  VString16 : string16 → Value;
  VInteger : Z → Value;
  VDouble : CGFloat → Value;
  VBoolean : bool → Value;
  VDict : Dict → Value;
  AsString : Value → option string;
  AsString16 : Value → option string16;
  AsInteger : Value → option Z;
  AsDouble : Value → option CGFloat;
  AsBoolean : Value → option bool;
  AsDict : Value → option Dict;
  dict_empty : Dict;
  dict_keys : Dict → list string;
  FindKey : Dict → string → option Value;
  SetKey : string → Value → Dict → Dict;
  FindPath : Dict → string → option Value;
  SetPath : string → Value → Dict → Dict;
  RemovePath : string → Dict → Dict;
  MergeDictionary : Dict → Dict → Dict;
  (* components/prefs/pref_service.h: dictionary preferences *)
  PrefService : Type;
  GetDictionaryPref : PrefService → string → Dict;
  SetDictionaryPref : string → Dict → PrefService → PrefService;
  RegisterDictionaryPref : string → PrefService → PrefService;
  ClearPref : string → PrefService → PrefService;
  (* base/time/time.h, base/strings/string_number_conversions.h *)
  Time : Type;
  FromDoubleT : CGFloat → Time;
  ToDoubleT : Time → CGFloat;
  TimeFromString : string → option Time;
  plus_seconds : Time → Z → Time;
  time_ltb : Time → Time → bool;
  StringToInt : string → option Z;
  NumberToString : Z → string;
}.

(** [d.GetString(path, &s)] and the like: the value, when it has the type. *)
Definition GetString `{!BaseValues} (d : Dict) (path : string) : option string :=
  v ← FindPath d path; AsString v.
Definition GetString16 `{!BaseValues} (d : Dict) (path : string) : option string16 :=
  v ← FindPath d path; AsString16 v.
Definition GetInteger `{!BaseValues} (d : Dict) (path : string) : option Z :=
  v ← FindPath d path; AsInteger v.
Definition GetDouble `{!BaseValues} (d : Dict) (path : string) : option CGFloat :=
  v ← FindPath d path; AsDouble v.
Definition GetBoolean `{!BaseValues} (d : Dict) (path : string) : option bool :=
  v ← FindPath d path; AsBoolean v.
Definition GetDictionary `{!BaseValues} (d : Dict) (path : string) : option Dict :=
  v ← FindPath d path; AsDict v.

Class BaseValuesLaws `{!BaseValues} : Prop := {
  law_AsString s : AsString (VString s) = Some s;
  law_AsString16 s : AsString16 (VString16 s) = Some s;
  law_AsString_integer n : AsString (VInteger n) = None;
  law_AsInteger n : AsInteger (VInteger n) = Some n;
  law_AsDouble f : AsDouble (VDouble f) = Some f;
  law_AsBoolean b : AsBoolean (VBoolean b) = Some b;
  law_AsDict d : AsDict (VDict d) = Some d;
  law_FindKey_empty k : FindKey dict_empty k = None;
  law_FindKey_SetKey k v d k' :
    FindKey (SetKey k v d) k' = if bool_decide (k = k') then Some v else FindKey d k';
  law_FindPath d k : dot_free k = true → FindPath d k = FindKey d k;
  law_SetPath k v d : dot_free k = true → SetPath k v d = SetKey k v d;
  law_RemovePath k d k' : dot_free k = true →
    FindKey (RemovePath k d) k' = if bool_decide (k = k') then None else FindKey d k';
  law_Merge_empty d k : FindKey (MergeDictionary dict_empty d) k = FindKey d k;
  law_dict_keys d k : k ∈ dict_keys d ↔ is_Some (FindKey d k);
  law_dict_keys_NoDup d : NoDup (dict_keys d);
  law_GetDictionaryPref_set n d p n' :
    GetDictionaryPref (SetDictionaryPref n d p) n' =
    if bool_decide (n = n') then d else GetDictionaryPref p n';
  law_ClearPref n p n' :
    GetDictionaryPref (ClearPref n p) n' =
    if bool_decide (n = n') then dict_empty else GetDictionaryPref p n';
  law_NumberToString_dot_free n : dot_free (NumberToString n) = true;
  law_NumberToString_inj m n : NumberToString m = NumberToString n → m = n;
  law_StringToInt n : in_int n = true → StringToInt (NumberToString n) = Some n;
}.

Section laws.
Context `{BV : BaseValues} `{LAWS : !BaseValuesLaws}.

Lemma FindPath_SetPath k v d k' :
  dot_free k = true → dot_free k' = true →
  FindPath (SetPath k v d) k' = if bool_decide (k = k') then Some v else FindPath d k'.
Proof using All.
  intros H H'. by rewrite (law_SetPath k v d H), !(law_FindPath _ k' H'), law_FindKey_SetKey.
Qed.

Lemma FindPath_empty k : dot_free k = true → FindPath dict_empty k = None.
Proof using All. intros H. rewrite law_FindPath by done. apply law_FindKey_empty. Qed.

Lemma FindPath_Merge_empty d k :
  dot_free k = true → FindPath (MergeDictionary dict_empty d) k = FindPath d k.
Proof using All. intros H. rewrite !law_FindPath by done. apply law_Merge_empty. Qed.
End laws.

(** ** A concrete instance

    Dictionaries are association lists with the latest binding first, paths
    are keys, a number is written in binary, and a time is a number of seconds
    (as text, after a ["t"]). *)
Module ToyValues.
Inductive value : Type :=
  | ValString (s : string)
  | ValString16 (s : string16)
  | ValInteger (n : Z)
  | ValDouble (f : CGFloat)
  | ValBoolean (b : bool)
  | ValDict (l : list (string * value)).

Notation dict := (list (string * value)).

Fixpoint dict_find (d : dict) (k : string) : option value :=
  match d with
  | [] => None
  | (k', v) :: d' => if bool_decide (k' = k) then Some v else dict_find d' k
  end.

Definition dict_set (k : string) (v : value) (d : dict) : dict :=
  (k, v) :: List.filter (λ kv, negb (bool_decide (kv.1 = k))) d.
Definition dict_remove (k : string) (d : dict) : dict :=
  List.filter (λ kv, negb (bool_decide (kv.1 = k))) d.

Fixpoint all_keys (d : dict) (seen : list string) : list string :=
  match d with
  | [] => []
  | (k, _) :: d' => if bool_decide (k ∈ seen) then all_keys d' seen
                    else k :: all_keys d' (k :: seen)
  end.

Lemma all_keys_elem d seen k :
  k ∈ all_keys d seen ↔ k ∉ seen ∧ is_Some (dict_find d k).
Proof.
  revert seen. induction d as [|[k' v] d IH]; intros seen; cbn [all_keys dict_find].
  - rewrite elem_of_nil. split; [done|]. by intros [_ [? ?]].
  - case_bool_decide as Hs.
    + rewrite IH. case_bool_decide as Hk; [subst; by split; intros [? ?]|done].
    + rewrite elem_of_cons, IH, not_elem_of_cons.
      case_bool_decide as Hk; [subst; split; [by intros _|by left]|].
      split; [|by intros [? ?]; right].
      intros [->|[[_ ?] ?]]; done.
Qed.

Lemma all_keys_NoDup d seen : NoDup (all_keys d seen).
Proof.
  revert seen. induction d as [|[k v] d IH]; intros seen; cbn [all_keys]; [constructor|].
  case_bool_decide; [done|]. constructor; [|done].
  rewrite all_keys_elem, not_elem_of_cons. tauto.
Qed.

Lemma dict_find_remove k d k' :
  dict_find (dict_remove k d) k' = if bool_decide (k = k') then None else dict_find d k'.
Proof.
  induction d as [|[a v] d IH]; cbn [dict_remove List.filter dict_find fst].
  - by case_bool_decide.
  - destruct (decide (a = k)) as [->|Hak].
    + rewrite (bool_decide_eq_true_2 (k = k)) by done. cbn [negb]. fold (dict_remove k d).
      rewrite IH. by case_bool_decide.
    + rewrite (bool_decide_eq_false_2 (a = k)) by done. cbn [negb dict_find].
      fold (dict_remove k d). rewrite IH.
      destruct (decide (a = k')) as [->|]; [|by rewrite (bool_decide_eq_false_2 (a = k'))].
      rewrite (bool_decide_eq_true_2 (k' = k')) by done.
      by rewrite bool_decide_eq_false_2 by done.
Qed.

Lemma dict_find_set k v d k' :
  dict_find (dict_set k v d) k' = if bool_decide (k = k') then Some v else dict_find d k'.
Proof.
  unfold dict_set. cbn [dict_find]. fold (dict_remove k d). rewrite dict_find_remove.
  by case_bool_decide.
Qed.

(** The second dictionary over the first. *)
Definition dict_merge (d e : dict) : dict := foldr (λ kv, dict_set kv.1 kv.2) d e.

Lemma dict_find_merge_empty d k : dict_find (dict_merge [] d) k = dict_find d k.
Proof.
  induction d as [|[a v] d IH]; [done|]. cbn [dict_merge foldr fst snd dict_find].
  rewrite dict_find_set. by rewrite <- IH.
Qed.

(** The binary digits of a number, the lowest first, without the highest. *)
Fixpoint digits (p : positive) : string :=
  match p with
  | xH => ""
  | xO p' => String "0" (digits p')
  | xI p' => String "1" (digits p')
  end.
Fixpoint digits_value (s : string) : option positive :=
  match s with
  | EmptyString => Some xH
  | String "0" s' => xO <$> digits_value s'
  | String "1" s' => xI <$> digits_value s'
  | _ => None
  end.
Lemma digits_value_digits p : digits_value (digits p) = Some p.
Proof. induction p as [p IH|p IH|]; cbn [digits digits_value]; [by rewrite IH..|done]. Qed.

Definition number_to_string (n : Z) : string :=
  match n with
  | Z0 => "0"
  | Zpos p => String "+" (digits p)
  | Zneg p => String "-" (digits p)
  end.
Definition string_to_int (s : string) : option Z :=
  match s with
  | String "0" EmptyString => Some 0
  | String "+" r => Zpos <$> digits_value r
  | String "-" r => Zneg <$> digits_value r
  | _ => None
  end.

Lemma string_to_number n : string_to_int (number_to_string n) = Some n.
Proof.
  destruct n; cbn [number_to_string string_to_int]; [done|by rewrite digits_value_digits..].
Qed.

Lemma dot_free_digits p : dot_free (digits p) = true.
Proof. induction p as [p IH|p IH|]; [exact IH|exact IH|done]. Qed.

(** The double of a nonnegative integer, and its integral part. *)
Definition double_of_Z (n : Z) : CGFloat := binary_normalize 53 1024 n 0 false.
Definition Z_of_double (f : CGFloat) : Z :=
  match f with
  | S754_finite s m e =>
      let a := Z.shiftl (Zpos m) e in if s then - a else a
  | _ => 0
  end.

#[export] Instance values : BaseValues := {|
  Value := value;
  Dict := dict;
  VString := ValString;
  VString16 := ValString16;
  VInteger := ValInteger;
  VDouble := ValDouble;
  VBoolean := ValBoolean;
  VDict := ValDict;
  AsString v := match v with ValString s => Some s | _ => None end;
  AsString16 v := match v with ValString16 s => Some s | _ => None end;
  AsInteger v := match v with ValInteger n => Some n | _ => None end;
  AsDouble v := match v with
    | ValDouble f => Some f | ValInteger n => Some (double_of_Z n) | _ => None end;
  AsBoolean v := match v with ValBoolean b => Some b | _ => None end;
  AsDict v := match v with ValDict d => Some d | _ => None end;
  dict_empty := [];
  dict_keys d := all_keys d [];
  FindKey := dict_find;
  SetKey := dict_set;
  FindPath := dict_find;
  SetPath := dict_set;
  RemovePath := dict_remove;
  MergeDictionary := dict_merge;
  PrefService := gmap string dict;
  GetDictionaryPref p n := default [] (p !! n);
  SetDictionaryPref n d p := <[n := d]> p;
  RegisterDictionaryPref n p := match p !! n with Some _ => p | None => <[n := []]> p end;
  ClearPref n p := <[n := []]> p;
  Time := Z;
  FromDoubleT := Z_of_double;
  ToDoubleT := double_of_Z;
  TimeFromString s := match s with String "t" r => string_to_int r | _ => None end;
  plus_seconds t n := t + n;
  time_ltb := Z.ltb;
  StringToInt s := match string_to_int s with
    | Some n => if in_int n then Some n else None
    | None => None
    end;
  NumberToString := number_to_string;
|}.

#[export] Instance laws : BaseValuesLaws.
Proof.
  split; simpl; try done.
  - exact dict_find_set.
  - intros k d k' _. apply dict_find_remove.
  - exact dict_find_merge_empty.
  - intros d k. rewrite all_keys_elem. split; [by intros [_ ?]|].
    intros ?. split; [apply not_elem_of_nil|done].
  - intros d. apply all_keys_NoDup.
  - intros n d p n'. case_bool_decide as H.
    + subst. by rewrite lookup_insert_eq.
    + by rewrite lookup_insert_ne.
  - intros n p n'. case_bool_decide as H.
    + subst. by rewrite lookup_insert_eq.
    + by rewrite lookup_insert_ne.
  - intros n. destruct n as [|p|p]; [done|exact (dot_free_digits p)..].
  - intros m n H. apply (f_equal string_to_int) in H. rewrite !string_to_number in H.
    by injection H.
  - intros n H.
    change (match string_to_int (number_to_string n) with
            | Some n' => if in_int n' then Some n' else None
            | None => None
            end = Some n). by rewrite string_to_number, H.
Qed.
End ToyValues.
