(* ===== verification/NotificationPromo.v ===== *)
(** * Promotions of the new tab page

    src/chrome/browser/notification_promo.cc: a promotion is described by the
    parameters of a field trial (or by JSON), and how often it was seen is kept
    in a preference under the promotion's id.  The object and the preference
    service are separate: a method that writes preferences leaves the object as
    it is.  [now] is the time of the call.  The second part translates the
    tests of notification_promo_unittest.cc. *)

From S2P Require Import Prelude CGFloat BaseValues.

Definition kNTPPromoFinchExperiment : string := "IOSNTPPromotion".
Definition kPrefPromoObject : string := "ios.ntppromo".
Definition kPrefPromoFirstViewTime : string := "first_view_time".
Definition kPrefPromoViews : string := "views".
Definition kPrefPromoClosed : string := "closed".

Section notification_promo.
Context `{BV : BaseValues}.

(** The fields of the class, apart from the pointer to the service. *)
Record NotificationPromo := MkNotificationPromo {
  promo_text_ : string;
  promo_payload_ : Dict;
  start_ : CGFloat;
  end_ : CGFloat;
  promo_id_ : Z;
  max_views_ : Z;
  max_seconds_ : Z;
  first_view_time_ : CGFloat;
  views_ : Z;
  closed_ : bool;
}.

Definition NotificationPromo_new : NotificationPromo :=
  MkNotificationPromo "" dict_empty f0 f0 (-1) 0 0 f0 0 false.

Definition IsPayloadParam (param_name : string) : bool :=
  negb (bool_decide (param_name = "start")) && negb (bool_decide (param_name = "end")) &&
  negb (bool_decide (param_name = "promo_text")) &&
  negb (bool_decide (param_name = "max_views")) &&
  negb (bool_decide (param_name = "max_seconds")) &&
  negb (bool_decide (param_name = "promo_id")).

(** A time given as text: the field is kept when there is no text or it is not
    a time. *)
Definition time_field (promo : Dict) (key : string) (old : CGFloat) : CGFloat :=
  match GetString promo key with
  | Some time_str =>
      match TimeFromString time_str with
      | Some time => ToDoubleT time
      | None => old
      end
  | None => old
  end.

Definition InitFromJson (promo : Dict) (p : NotificationPromo) : NotificationPromo :=
  MkNotificationPromo
    (default (promo_text_ p) (GetString promo "promo_text"))
    (default (promo_payload_ p) (GetDictionary promo "payload"))
    (time_field promo "start" (start_ p))
    (time_field promo "end" (end_ p))
    (default (promo_id_ p) (GetInteger promo "promo_id"))
    (default (max_views_ p) (GetInteger promo "max_views"))
    (default (max_seconds_ p) (GetInteger promo "max_seconds"))
    (first_view_time_ p) (views_ p) (closed_ p).

(** A parameter as an integer when it is one, as text otherwise. *)
Definition param_value (s : string) : Value :=
  match StringToInt s with
  | Some converted_number => VInteger converted_number
  | None => VString s
  end.

(** One round of the loop over the parameters, on the dictionaries [json] and
    [payload]. *)
Definition add_param (jp : Dict * Dict) (param : string * string) : Dict * Dict :=
  let '(json, payload) := jp in
  if IsPayloadParam param.1
  then (json, SetPath param.1 (param_value param.2) payload)
  else (SetPath param.1 (param_value param.2) json, payload).

(** [params] are the parameters of the field trial in the order of their
    names, if the trial has some. *)
Definition InitFromVariations (params : option (list (string * string)))
    (p : NotificationPromo) : NotificationPromo :=
  match params with
  | None => p
  | Some params =>
      let '(json, payload) := foldl add_param (dict_empty, dict_empty) params in
      InitFromJson (SetKey "payload" (VDict payload) json) p
  end.

Definition RegisterPrefs (registry : PrefService) : PrefService :=
  RegisterDictionaryPref kPrefPromoObject registry.
Definition RegisterProfilePrefs (registry : PrefService) : PrefService :=
  RegisterDictionaryPref kPrefPromoObject registry.
Definition MigrateUserPrefs (user_prefs : PrefService) : PrefService :=
  ClearPref kPrefPromoObject user_prefs.

(** WritePrefs(promo_id, first_view_time, views, closed) *)
Definition WritePrefs4 (promo_id : Z) (first_view_time : CGFloat) (views : Z)
    (closed : bool) (local_state_ : PrefService) : PrefService :=
  let ntp_promo :=
    SetPath kPrefPromoClosed (VBoolean closed)
      (SetPath kPrefPromoViews (VInteger views)
        (SetPath kPrefPromoFirstViewTime (VDouble first_view_time) dict_empty)) in
  let promo_dict :=
    MergeDictionary dict_empty (GetDictionaryPref local_state_ kPrefPromoObject) in
  SetDictionaryPref kPrefPromoObject
    (SetPath (NumberToString promo_id) (VDict ntp_promo) promo_dict) local_state_.

Definition WritePrefs (p : NotificationPromo) : PrefService → PrefService :=
  WritePrefs4 (promo_id_ p) (first_view_time_ p) (views_ p) (closed_ p).

Definition InitFromPrefs (local_state_ : PrefService) (p : NotificationPromo) :
    NotificationPromo :=
  if promo_id_ p =? -1 then p
  else
    match GetDictionary (GetDictionaryPref local_state_ kPrefPromoObject)
                        (NumberToString (promo_id_ p)) with
    | None => p
    | Some ntp_promo =>
        MkNotificationPromo (promo_text_ p) (promo_payload_ p) (start_ p) (end_ p)
          (promo_id_ p) (max_views_ p) (max_seconds_ p)
          (default (first_view_time_ p) (GetDouble ntp_promo kPrefPromoFirstViewTime))
          (default (views_ p) (GetInteger ntp_promo kPrefPromoViews))
          (default (closed_ p) (GetBoolean ntp_promo kPrefPromoClosed))
    end.

Definition ExceedsMaxViews (p : NotificationPromo) : bool :=
  if max_views_ p =? 0 then false else max_views_ p <=? views_ p.

Definition ExceedsMaxSeconds (now : Time) (p : NotificationPromo) : bool :=
  if (max_seconds_ p =? 0) || feq (first_view_time_ p) f0 then false
  else
    let last_view_time :=
      plus_seconds (FromDoubleT (first_view_time_ p)) (max_seconds_ p) in
    time_ltb last_view_time now.

Definition StartTime (p : NotificationPromo) : CGFloat := start_ p.
Definition EndTime (p : NotificationPromo) : CGFloat := end_ p.

Definition CanShow (now : Time) (p : NotificationPromo) : bool :=
  negb (closed_ p) && negb (bool_decide (promo_text_ p = "")) &&
  negb (ExceedsMaxViews p) && negb (ExceedsMaxSeconds now p) &&
  time_ltb (FromDoubleT (StartTime p)) now &&
  time_ltb now (FromDoubleT (EndTime p)).

Definition HandleClosed (p : NotificationPromo) : M PrefService unit :=
  whenM (negb (closed_ p))
    (modify (WritePrefs4 (promo_id_ p) (first_view_time_ p) (views_ p) true)).

Definition HandleViewed (now : Time) (p : NotificationPromo) : M PrefService unit :=
  views ← int_add (views_ p) 1;
  let first_view_time :=
    if feq (first_view_time_ p) f0 then ToDoubleT now else first_view_time_ p in
  modify (WritePrefs4 (promo_id_ p) first_view_time views (closed_ p)).

(** ** Preferences *)
Context `{LAWS : !BaseValuesLaws}.

(** What the preferences hold for a promotion. *)
Definition saved (prefs : PrefService) (promo_id : Z) : option Dict :=
  GetDictionary (GetDictionaryPref prefs kPrefPromoObject) (NumberToString promo_id).

(** The views and the other fields of a promotion, replaced. *)
Definition with_state (first_view_time : CGFloat) (views : Z) (closed : bool)
    (p : NotificationPromo) : NotificationPromo :=
  MkNotificationPromo (promo_text_ p) (promo_payload_ p) (start_ p) (end_ p)
    (promo_id_ p) (max_views_ p) (max_seconds_ p) first_view_time views closed.

Lemma saved_WritePrefs4 id f v c prefs id' :
  saved (WritePrefs4 id f v c prefs) id' =
  if bool_decide (id = id') then
    Some (SetPath kPrefPromoClosed (VBoolean c)
           (SetPath kPrefPromoViews (VInteger v)
             (SetPath kPrefPromoFirstViewTime (VDouble f) dict_empty)))
  else saved prefs id'.
Proof using All.
  unfold saved, WritePrefs4, GetDictionary.
  rewrite law_GetDictionaryPref_set, bool_decide_eq_true_2 by done.
  rewrite FindPath_SetPath by apply law_NumberToString_dot_free.
  rewrite FindPath_Merge_empty by apply law_NumberToString_dot_free.
  rewrite (bool_decide_ext _ (id = id')).
  2:{ split; [apply law_NumberToString_inj|by intros ->]. }
  case_bool_decide; [|done]. simpl. apply law_AsDict.
Qed.

Lemma read_saved f v c :
  let d := SetPath kPrefPromoClosed (VBoolean c)
             (SetPath kPrefPromoViews (VInteger v)
               (SetPath kPrefPromoFirstViewTime (VDouble f) dict_empty)) in
  GetDouble d kPrefPromoFirstViewTime = Some f ∧
  GetInteger d kPrefPromoViews = Some v ∧ GetBoolean d kPrefPromoClosed = Some c.
Proof using All.
  cbv zeta. unfold GetDouble, GetInteger, GetBoolean.
  rewrite !FindPath_SetPath by done. repeat case_bool_decide; try done.
  simpl. by rewrite law_AsDouble, law_AsInteger, law_AsBoolean.
Qed.

Lemma InitFromPrefs_written f v c prefs p :
  promo_id_ p ≠ -1 →
  InitFromPrefs (WritePrefs4 (promo_id_ p) f v c prefs) p = with_state f v c p.
Proof using All.
  intros Hne. unfold InitFromPrefs. rewrite (proj2 (Z.eqb_neq _ _)) by done.
  fold (saved (WritePrefs4 (promo_id_ p) f v c prefs) (promo_id_ p)).
  rewrite saved_WritePrefs4, bool_decide_eq_true_2 by done.
  destruct (read_saved f v c) as (-> & -> & ->). done.
Qed.

(** What a promotion with an id writes, a promotion object with the same
    id reads back (the time of the first view, the views, whether it was
    closed), and the entries of other ids stay as they were; a promotion
    without an id (-1) reads nothing. *)
Theorem prefs_roundtrip id f v c prefs p :
  (promo_id_ p = id → id ≠ -1 →
   InitFromPrefs (WritePrefs4 id f v c prefs) p = with_state f v c p) ∧
  (promo_id_ p ≠ id →
   InitFromPrefs (WritePrefs4 id f v c prefs) p = InitFromPrefs prefs p) ∧
  (promo_id_ p = -1 → InitFromPrefs prefs p = p).
Proof using All.
  split_and!.
  - intros <-. apply InitFromPrefs_written.
  - intros Hne. unfold InitFromPrefs.
    fold (saved (WritePrefs4 id f v c prefs) (promo_id_ p)). rewrite saved_WritePrefs4.
    by rewrite bool_decide_eq_false_2 by done.
  - intros H. unfold InitFromPrefs. by rewrite H.
Qed.

(** ** The life of a promotion

    Each time it is considered, a fresh object is initialized from the
    parameters and from the preferences; [template] is the object before the
    preferences are read. *)
Definition load (template : NotificationPromo) (prefs : PrefService) : NotificationPromo :=
  InitFromPrefs prefs template.

(** The preferences after views at these times, each by a fresh object. *)
Fixpoint viewed_at (template : NotificationPromo) (times : list Time) : M PrefService unit :=
  match times with
  | [] => mret tt
  | now :: times' =>
      p ← gets (load template);
      HandleViewed now p;;
      viewed_at template times'
  end.

Lemma load_after_write template prefs f v c :
  promo_id_ template ≠ -1 →
  load template (WritePrefs4 (promo_id_ template) f v c prefs) = with_state f v c template.
Proof using All. apply InitFromPrefs_written. Qed.

Lemma load_keeps_id template prefs : promo_id_ (load template prefs) = promo_id_ template.
Proof.
  unfold load, InitFromPrefs. destruct (_ =? _); [done|]. by destruct (GetDictionary _ _).
Qed.

Lemma load_max_views template prefs : max_views_ (load template prefs) = max_views_ template.
Proof.
  unfold load, InitFromPrefs. destruct (_ =? _); [done|]. by destruct (GetDictionary _ _).
Qed.

Lemma viewed_at_views template times prefs :
  promo_id_ template ≠ -1 →
  0 <= views_ (load template prefs) →
  views_ (load template prefs) + zlen times <= INT_MAX →
  ∃ prefs', viewed_at template times prefs = Ok (tt, prefs') ∧
    views_ (load template prefs') = views_ (load template prefs) + zlen times ∧
    closed_ (load template prefs') = closed_ (load template prefs).
Proof using All.
  intros Hid. revert prefs. induction times as [|now times IH]; intros prefs Hpos Hmax.
  { exists prefs. rewrite zlen_nil. split_and!; [done|lia|done]. }
  rewrite zlen_cons in *. pose proof (zlen_nonneg times).
  cbn [viewed_at]. unfold mbind, M_bind, gets, HandleViewed, int_add. simpl.
  rewrite in_int_nonneg by lia. simpl. rewrite load_keeps_id.
  match goal with |- context [WritePrefs4 _ ?f ?v ?c _] =>
    pose proof (load_after_write template prefs f v c Hid) as Hl;
    specialize (IH (WritePrefs4 (promo_id_ template) f v c prefs)) end.
  rewrite Hl in IH. simpl in IH. destruct IH as (prefs' & Hrun & Hv & Hc); [lia..|].
  exists prefs'. split_and!; [exact Hrun|rewrite Hv; lia|by rewrite Hc].
Qed.

(** C39: the limit of views holds across restarts: a promotion with the limit
    n > 0, never seen before, is not shown any more once n fresh objects have
    recorded a view each, and its views are counted exactly until then. *)
Theorem views_limit template prefs times now :
  promo_id_ template ≠ -1 → 0 < max_views_ template →
  views_ (load template prefs) = 0 →
  zlen times <= INT_MAX →
  ∃ prefs', viewed_at template times prefs = Ok (tt, prefs') ∧
    views_ (load template prefs') = zlen times ∧
    ExceedsMaxViews (load template prefs') = (max_views_ template <=? zlen times) ∧
    (max_views_ template <= zlen times → CanShow now (load template prefs') = false).
Proof using All.
  intros Hid Hmax H0 Hlen.
  destruct (viewed_at_views template times prefs Hid) as (prefs' & Hrun & Hv & _); [lia..|].
  exists prefs'. rewrite H0, Z.add_0_l in Hv.
  assert (He : ExceedsMaxViews (load template prefs') = (max_views_ template <=? zlen times)).
  { unfold ExceedsMaxViews. rewrite load_max_views, Hv.
    by rewrite (proj2 (Z.eqb_neq _ _)) by lia. }
  split_and!; [done..|]. intros Hle. unfold CanShow. rewrite He.
  rewrite (proj2 (Z.leb_le _ _)) by done. by rewrite andb_false_r.
Qed.

(** A promotion that was closed is never shown again, whatever else
    happens to its other fields, as long as its entry is read. *)
Theorem closed_is_final template prefs p now :
  promo_id_ template ≠ -1 → promo_id_ p = promo_id_ template →
  ∃ prefs', HandleClosed p prefs = Ok (tt, prefs') ∧
    (closed_ p = false → closed_ (load template prefs') = true ∧
       CanShow now (load template prefs') = false).
Proof using All.
  intros Hid Hp. unfold HandleClosed. destruct (closed_ p); cbn [negb whenM].
  { by exists prefs. }
  eexists. split; [reflexivity|]. intros _. rewrite Hp, load_after_write by done. done.
Qed.

(** HandleViewed does not update the object: a second view recorded by the same
    object writes the number of views of the first again. *)
Lemma second_view_of_object_not_counted p now prefs :
  promo_id_ p ≠ -1 → 0 <= views_ p < INT_MAX →
  ∃ prefs', (HandleViewed now p;; HandleViewed now p) prefs = Ok (tt, prefs') ∧
    views_ (load p prefs') = views_ p + 1.
Proof using All.
  intros Hid Hv. unfold mbind, M_bind, HandleViewed, int_add, modify. simpl.
  rewrite in_int_nonneg by lia. simpl. eexists. split; [reflexivity|].
  by rewrite load_after_write.
Qed.

(** A text that is a number is stored as an integer: InitFromVariations does not
    find the text of such a promotion, so it cannot be shown. *)
Lemma numeric_text_never_shown n now :
  in_int n = true →
  promo_text_ (InitFromVariations (Some [("promo_text", NumberToString n)])
                NotificationPromo_new) = "" ∧
  CanShow now (InitFromVariations (Some [("promo_text", NumberToString n)])
                NotificationPromo_new) = false.
Proof using All.
  intros Hn.
  assert (Ht : promo_text_ (InitFromVariations (Some [("promo_text", NumberToString n)])
                NotificationPromo_new) = "").
  { cbn [InitFromVariations foldl add_param fst snd].
    replace (IsPayloadParam "promo_text") with false by reflexivity.
    cbn [InitFromJson promo_text_ NotificationPromo_new]. unfold GetString, param_value.
    rewrite law_StringToInt by done. rewrite law_FindPath, law_FindKey_SetKey by done.
    rewrite bool_decide_eq_false_2 by done. rewrite law_SetPath by done.
    rewrite law_FindKey_SetKey, bool_decide_eq_true_2 by done. simpl.
    by rewrite law_AsString_integer. }
  split; [done|]. unfold CanShow. rewrite Ht. by rewrite andb_false_r.
Qed.
End notification_promo.

(** ** The tests of notification_promo_unittest.cc *)
Module NotificationPromoTest.
#[local] Existing Instance ToyValues.values.
#[local] Existing Instance ToyValues.laws.

(** The time of the tests, in seconds; the tests compute with it. *)
Definition Now : Time (BaseValues := ToyValues.values) := 1553000000.
Definition double (n : Z) : CGFloat := ToyValues.double_of_Z n.

(** The fields of the fixture; the parameters of the field trial are in the
    order of their names. *)
Record fixture := MkFixture {
  local_state_ : PrefService;
  notification_promo_ : NotificationPromo;
  field_trial_params : list (string * string);
  test_json_ : Dict;
  test_promo_text_ : string;
  test_start_ : CGFloat;
  test_end_ : CGFloat;
  test_promo_id_ : Z;
  test_max_views_ : Z;
  test_max_seconds_ : Z;
}.

Definition set_local_state (prefs : PrefService) (f : fixture) : fixture :=
  MkFixture prefs (notification_promo_ f) (field_trial_params f) (test_json_ f)
    (test_promo_text_ f) (test_start_ f) (test_end_ f) (test_promo_id_ f)
    (test_max_views_ f) (test_max_seconds_ f).
Definition set_promo (p : NotificationPromo) (f : fixture) : fixture :=
  MkFixture (local_state_ f) p (field_trial_params f) (test_json_ f)
    (test_promo_text_ f) (test_start_ f) (test_end_ f) (test_promo_id_ f)
    (test_max_views_ f) (test_max_seconds_ f).

(** The text of a payload value, as GetAsString gives it for the tests. *)
Definition payload_text (d : Dict) (key : string) : string :=
  match FindKey d key with
  | Some v => match AsString v with
              | Some s => s
              | None => ""
              end
  | None => ""
  end.

(** The text of a time. *)
Definition time_text (n : Z) : string := "t" +:+ NumberToString n.

(** Init: [json] is the dictionary read from the test's JSON. *)
Definition Init (json : Dict) (promo_text : string) (start promo_id max_views max_seconds : Z) :
    fixture :=
  let year_from_now := time_text (Now + 365 * 24 * 60 * 60) in
  let json_with_end_date := SetKey "end" (VString year_from_now) json in
  let start_param := default "" (GetString json "start") in
  let payload := default dict_empty (GetDictionary json "payload") in
  MkFixture (RegisterPrefs ∅) NotificationPromo_new
    (map (λ k, (k, payload_text payload k)) (dict_keys payload) ++
     [("end", year_from_now); ("max_seconds", NumberToString max_seconds);
      ("max_views", NumberToString max_views); ("promo_id", NumberToString promo_id);
      ("promo_text", promo_text); ("start", start_param)])
    json_with_end_date promo_text (double start) (double (Now + 365 * 24 * 60 * 60))
    promo_id max_views max_seconds.

(** A call of a method that writes preferences. *)
Definition on_prefs {A} (m : M PrefService A) : M fixture A := λ f,
  match m (local_state_ f) with
  | Ok (a, prefs) => Ok (a, set_local_state prefs f)
  | Crash c => Crash c
  end.

(** A new promotion, initialized from the parameters and the preferences. *)
Definition fresh_promo : M fixture NotificationPromo :=
  gets (λ f, InitFromPrefs (local_state_ f)
               (InitFromVariations (Some (field_trial_params f)) NotificationPromo_new)).

Definition EXPECT_DOUBLE_EQ (x y : CGFloat) : M fixture unit := EXPECT_TRUE (feq x y).

Definition TestServerProvidedParameters : M fixture unit :=
  f ← gets (λ f : fixture, f);
  let p := notification_promo_ f in
  EXPECT_EQ (promo_text_ p) (test_promo_text_ f);;
  EXPECT_DOUBLE_EQ (start_ p) (test_start_ f);;
  EXPECT_DOUBLE_EQ (end_ p) (test_end_ f);;
  EXPECT_EQ (promo_id_ p) (test_promo_id_ f);;
  EXPECT_EQ (max_views_ p) (test_max_views_ f);;
  EXPECT_EQ (max_seconds_ p) (test_max_seconds_ f).

Definition InitPromoFromVariations : M fixture unit :=
  modify (λ f, set_promo
    (InitFromVariations (Some (field_trial_params f)) (notification_promo_ f)) f);;
  TestServerProvidedParameters.

Definition InitPromoFromJson : M fixture unit :=
  modify (λ f, set_promo (InitFromJson (test_json_ f) (notification_promo_ f)) f);;
  TestServerProvidedParameters.

Definition set_views (n : Z) (p : NotificationPromo) : NotificationPromo :=
  with_state (first_view_time_ p) n (closed_ p) p.
Definition set_closed (b : bool) (p : NotificationPromo) : NotificationPromo :=
  with_state (first_view_time_ p) (views_ p) b p.
Definition set_text (s : string) (p : NotificationPromo) : NotificationPromo :=
  MkNotificationPromo s (promo_payload_ p) (start_ p) (end_ p) (promo_id_ p)
    (max_views_ p) (max_seconds_ p) (first_view_time_ p) (views_ p) (closed_ p).
Definition set_times (s e : CGFloat) (p : NotificationPromo) : NotificationPromo :=
  MkNotificationPromo (promo_text_ p) (promo_payload_ p) s e (promo_id_ p)
    (max_views_ p) (max_seconds_ p) (first_view_time_ p) (views_ p) (closed_ p).
Definition set_max_time (f : CGFloat) (n : Z) (p : NotificationPromo) : NotificationPromo :=
  MkNotificationPromo (promo_text_ p) (promo_payload_ p) (start_ p) (end_ p) (promo_id_ p)
    (max_views_ p) n f (views_ p) (closed_ p).

Definition update_promo (g : NotificationPromo → NotificationPromo) : M fixture unit :=
  modify (λ f, set_promo (g (notification_promo_ f)) f).
Definition write_promo : M fixture unit :=
  p ← gets notification_promo_; on_prefs (modify (WritePrefs p)).
Definition expect_show (b : bool) : M fixture unit :=
  p ← gets notification_promo_; EXPECT_EQ (CanShow Now p) b.

Definition TestViews : M fixture unit :=
  update_promo (λ p, set_views (max_views_ p - 2) p);;
  write_promo;;
  first_promo ← fresh_promo;
  EXPECT_EQ (max_views_ first_promo - 2) (views_ first_promo);;
  EXPECT_TRUE (CanShow Now first_promo);;
  on_prefs (HandleViewed Now first_promo);;
  second_promo ← fresh_promo;
  EXPECT_EQ (max_views_ second_promo - 1) (views_ second_promo);;
  EXPECT_TRUE (CanShow Now second_promo);;
  on_prefs (HandleViewed Now second_promo);;
  third_promo ← fresh_promo;
  EXPECT_EQ (max_views_ third_promo) (views_ third_promo);;
  EXPECT_FALSE (CanShow Now third_promo);;
  n ← gets test_max_views_;
  for_indices (Z.to_nat n) n (λ i, EXPECT_FALSE (CanShow Now (set_views i third_promo)));;
  for_indices (Z.to_nat n) 0 (λ i, EXPECT_TRUE (CanShow Now (set_views i third_promo)));;
  update_promo (set_views 0);;
  write_promo.

Definition TestClosed : M fixture unit :=
  first_promo ← fresh_promo;
  EXPECT_FALSE (closed_ first_promo);;
  EXPECT_TRUE (CanShow Now first_promo);;
  on_prefs (HandleClosed first_promo);;
  second_promo ← fresh_promo;
  EXPECT_TRUE (closed_ second_promo);;
  EXPECT_FALSE (CanShow Now second_promo);;
  EXPECT_TRUE (CanShow Now (set_closed false second_promo));;
  on_prefs (modify (WritePrefs (set_closed false second_promo))).

Definition TestPromoText : M fixture unit :=
  update_promo (set_text "");;
  expect_show false;;
  text ← gets test_promo_text_;
  update_promo (set_text text);;
  expect_show true.

Definition TestTime : M fixture unit :=
  let qhour := 15 * 60 in
  update_promo (set_times (double (Now - qhour)) (double (Now + qhour)));;
  expect_show true;;
  update_promo (set_times (double (Now + qhour)) (double (Now + qhour)));;
  expect_show false;;
  update_promo (set_times (double (Now - qhour)) (double (Now - qhour)));;
  expect_show false;;
  f ← gets (λ f : fixture, f);
  update_promo (set_times (test_start_ f) (test_end_ f));;
  expect_show true.

Definition TestMaxTime : M fixture unit :=
  let margin := 60 in
  update_promo (set_max_time (double (Now - margin)) (margin + 1));;
  expect_show true;;
  update_promo (set_max_time (double (Now - margin)) (margin - 1));;
  expect_show false;;
  n ← gets test_max_seconds_;
  update_promo (set_max_time f0 n);;
  expect_show true.

Definition TestFirstViewTimeRecorded : M fixture unit :=
  p ← gets notification_promo_;
  EXPECT_DOUBLE_EQ f0 (first_view_time_ p);;
  on_prefs (HandleViewed Now p);;
  temp_promo ← fresh_promo;
  EXPECT_FALSE (feq f0 (first_view_time_ temp_promo));;
  update_promo (with_state f0 0 (closed_ p));;
  write_promo.

(** 3 Aug 1999 9:26:06 GMT. *)
Definition test_start : Z := 933672366.
Definition test_json : Dict :=
  SetKey "start" (VString (time_text test_start))
    (SetKey "promo_text" (VString "What do you think of Chrome?")
      (SetKey "payload"
        (VDict (SetKey "days_active" (VInteger 7)
                 (SetKey "install_age_days" (VInteger 21) dict_empty)))
        (SetKey "max_views" (VInteger 30)
          (SetKey "max_seconds" (VInteger 30)
            (SetKey "promo_id" (VInteger 0) dict_empty))))).

Definition test_fixture : fixture :=
  Init test_json "What do you think of Chrome?" test_start 0 30 30.

Definition NotificationPromoJSONTest : M fixture unit :=
  InitPromoFromJson;;
  TestViews;; TestClosed;; TestPromoText;; TestTime;; TestMaxTime;;
  TestFirstViewTimeRecorded.

Definition NotificationPromoFinchTest : M fixture unit :=
  InitPromoFromVariations;;
  TestViews;; TestClosed;; TestPromoText;; TestTime;; TestMaxTime;;
  TestFirstViewTimeRecorded.

Lemma notification_promo_unittests :
  passes NotificationPromoJSONTest test_fixture = true ∧
  passes NotificationPromoFinchTest test_fixture = true.
Proof. split; vm_compute; reflexivity. Qed.

(** A promotion with an id and a limit of two views. *)
Definition two_views : NotificationPromo :=
  MkNotificationPromo "text" dict_empty f0 f0 7 2 0 f0 0 false.

Lemma prefs_roundtrip_witness :
  promo_id_ two_views = 7 ∧
  InitFromPrefs (WritePrefs4 7 f1 3 true ∅) two_views = with_state f1 3 true two_views.
Proof. split; [done|]. by apply (prefs_roundtrip 7 f1 3 true ∅ two_views). Defined.

Lemma views_limit_witness :
  ∃ prefs', viewed_at two_views [1; 2] ∅ = Ok (tt, prefs') ∧
    CanShow 3 (load two_views prefs') = false.
Proof.
  destruct (views_limit two_views ∅ [1; 2] 3) as (prefs' & H1 & _ & _ & H2); [done..|].
  exists prefs'. split; [exact H1|]. by apply H2.
Defined.

Lemma closed_is_final_witness :
  ∃ prefs', HandleClosed two_views ∅ = Ok (tt, prefs') ∧
    CanShow 3 (load two_views prefs') = false.
Proof.
  destruct (closed_is_final two_views ∅ two_views 3) as (prefs' & H1 & H2); [done..|].
  exists prefs'. split; [exact H1|]. by apply H2.
Defined.
End NotificationPromoTest.
