(* ===== verification/FilePaths.v ===== *)
(** * Paths and files of //base

    base::FilePath and the functions of base/files/file_util.h are outside the
    repository: a path is an abstract value with a text, and the files of the
    device are an abstract state that each function reads or changes.
    [ToyFiles] is a concrete instance. *)

From S2P Require Import Prelude WebEnv.

(** base/files/file_path.h *)
Class FilePaths := {
  FilePath : Type;
  #[global] FilePath_eq_dec :: EqDecision FilePath;
  EmptyFilePath : FilePath;
  path_value : FilePath → string;
  DirName : FilePath → FilePath;
  BaseName : FilePath → FilePath;
  MaybeAsASCII : FilePath → string;
  AppendASCII : FilePath → string → FilePath;
}.

(** [path.empty()] *)
Definition path_empty `{!FilePaths} (p : FilePath) : bool := bool_decide (path_value p = "").

Class FilePathsLaws `{!FilePaths} : Prop := {
  law_path_value_inj p q : path_value p = path_value q → p = q;
  law_empty_path : path_value EmptyFilePath = "";
}.

(** base/files/file_util.h.  CreateDirectory, DeleteFile and Move answer
    whether they succeeded; WriteFile answers the number of bytes written, or
    -1. *)
Class FileSystem `{!FilePaths} := {
  FS : Type;
  PathExists : FS → FilePath → bool;
  DirectoryExists : FS → FilePath → bool;
  CreateDirectory : FilePath → FS → bool * FS;
  DeleteFile : FilePath → FS → bool * FS;
  Move : FilePath → FilePath → FS → bool * FS;
  WriteFile : FilePath → string → FS → Z * FS;
  GetFileSize : FS → FilePath → Z;
}.

(** ** A concrete instance

    A path is the list of its components, outermost first (its text marks the
    end of each); the files are a list of existing paths with their contents. *)
Module ToyFiles.
Notation path := (list string).

#[export] Instance paths : FilePaths := {|
  FilePath := path;
  EmptyFilePath := [];
  path_value := Toy.encode;
  DirName p := take (length p - 1) p;
  BaseName p := drop (length p - 1) p;
  MaybeAsASCII p := match p with [c] => c | _ => Toy.encode p end;
  AppendASCII p c := p ++ [c];
|}.

#[export] Instance path_laws : FilePathsLaws.
Proof.
  split; [|done]. intros p q H. apply (f_equal Toy.decode) in H. simpl in H.
  by rewrite !Toy.decode_encode in H.
Qed.

Definition exists_ (fs : list (path * string)) (p : path) : bool :=
  existsb (λ f, bool_decide (f.1 = p)) fs.
Definition remove_under (p : path) (fs : list (path * string)) : list (path * string) :=
  List.filter (λ f, negb (bool_decide (take (length p) f.1 = p))) fs.
Definition content (fs : list (path * string)) (p : path) : string :=
  match List.find (λ f, bool_decide (f.1 = p)) fs with
  | Some f => f.2
  | None => ""
  end.

#[export] Instance files : FileSystem := {|
  FS := list (path * string);
  PathExists := exists_;
  DirectoryExists := exists_;
  CreateDirectory p fs := (true, (p, "") :: fs);
  DeleteFile p fs := (true, remove_under p fs);
  Move p q fs := if exists_ fs p then (true, (q, content fs p) :: remove_under p fs)
                 else (false, fs);
  WriteFile p s fs := (Z.of_nat (String.length s), (p, s) :: fs);
  GetFileSize fs p := Z.of_nat (String.length (content fs p));
|}.
End ToyFiles.
