(* ===== verification/BrowserStateInfoCache.v ===== *)
(** * Browser states

    src/chrome/browser/browser_state: [browser_state_info_cache.cc] keeps, for
    the browser states of the user data directory, a dictionary preference and
    the sorted vector of its keys; [chrome_browser_state_manager_impl.cc]
    loads browser states and adds each to the cache.  Paths (base::FilePath)
    and accounts are outside the repository. *)

From S2P Require Import Prelude StdSet CGFloat BaseValues FilePaths.

#[local] Notation string16 := (list Z).

Definition kGAIAIdKey : string := "gaia_id".
Definition kIsAuthErrorKey : string := "is_auth_error".
Definition kUserNameKey : string := "user_name".
(** prefs::kBrowserStateInfoCache *)
Definition kBrowserStateInfoCache : string := "profile.info_cache".

Section info_cache.
Context `{BV : BaseValues} `{FP : FilePaths}.

(** BrowserStateInfoCacheObserver *)
Inductive BrowserStateInfoCacheObserver :=
  | OnBrowserStateAdded (observer : positive) (path : FilePath)
  | OnBrowserStateWasRemoved (observer : positive) (path : FilePath).

(** The fields of the class (an observer is an address, the preferences are
    part of the state) and the calls made on the observers. *)
Record BrowserStateInfoCache := MkInfoCache {
  prefs_ : PrefService;
  sorted_keys_ : list string;
  user_data_dir_ : FilePath;
  observer_list_ : list positive;
  notified : list BrowserStateInfoCacheObserver;
}.

Definition cache_dict (c : BrowserStateInfoCache) : Dict :=
  GetDictionaryPref (prefs_ c) kBrowserStateInfoCache.
Definition set_prefs_keys (prefs : PrefService) (keys : list string)
    (c : BrowserStateInfoCache) : BrowserStateInfoCache :=
  MkInfoCache prefs keys (user_data_dir_ c) (observer_list_ c) (notified c).
(** A change through DictionaryPrefUpdate. *)
Definition update_dict (g : Dict → Dict) (c : BrowserStateInfoCache) : BrowserStateInfoCache :=
  set_prefs_keys (SetDictionaryPref kBrowserStateInfoCache (g (cache_dict c)) (prefs_ c))
    (sorted_keys_ c) c.
Definition notify (ev : positive → BrowserStateInfoCacheObserver)
    (c : BrowserStateInfoCache) : BrowserStateInfoCache :=
  MkInfoCache (prefs_ c) (sorted_keys_ c) (user_data_dir_ c) (observer_list_ c)
    (notified c ++ map ev (observer_list_ c)).
Definition set_observers (l : list positive) (c : BrowserStateInfoCache) :
    BrowserStateInfoCache :=
  MkInfoCache (prefs_ c) (sorted_keys_ c) (user_data_dir_ c) l (notified c).

Definition AddBrowserStateCacheKey (key : string) (c : BrowserStateInfoCache) :
    BrowserStateInfoCache :=
  set_prefs_keys (prefs_ c) (upper_bound_insert string_ltb key (sorted_keys_ c)) c.

Definition BrowserStateInfoCache_new (prefs : PrefService) (user_data_dir : FilePath) :
    BrowserStateInfoCache :=
  foldl (λ c key, AddBrowserStateCacheKey key c)
    (MkInfoCache prefs [] user_data_dir [] [])
    (dict_keys (GetDictionaryPref prefs kBrowserStateInfoCache)).

Definition CacheKeyFromBrowserStatePath (browser_state_path : FilePath) :
    M BrowserStateInfoCache string :=
  dir ← gets user_data_dir_;
  DCHECK (bool_decide (dir = DirName browser_state_path));;
  mret (MaybeAsASCII (BaseName browser_state_path)).

Definition AddBrowserState (browser_state_path : FilePath) (gaia_id : string)
    (user_name : string16) : M BrowserStateInfoCache unit :=
  key ← CacheKeyFromBrowserStatePath browser_state_path;
  let info := SetPath kUserNameKey (VString16 user_name)
                (SetPath kGAIAIdKey (VString gaia_id) dict_empty) in
  modify (update_dict (SetKey key (VDict info)));;
  modify (AddBrowserStateCacheKey key);;
  modify (notify (λ o, OnBrowserStateAdded o browser_state_path)).

Definition AddObserver (observer : positive) : M BrowserStateInfoCache unit :=
  modify (λ c, set_observers (observer_list_ c ++ [observer]) c).
Definition RemoveObserver (observer : positive) : M BrowserStateInfoCache unit :=
  modify (λ c, set_observers
    (List.filter (λ o, negb (bool_decide (o = observer))) (observer_list_ c)) c).

Definition GetNumberOfBrowserStates (c : BrowserStateInfoCache) : Z :=
  zlen (sorted_keys_ c).

(** The loop over the keys; [None] is npos. *)
Fixpoint index_of_key (keys : list string) (search_key : string) (i : Z) : option Z :=
  match keys with
  | [] => None
  | k :: keys' =>
      if bool_decide (k = search_key) then Some i else index_of_key keys' search_key (i + 1)
  end.

Definition GetIndexOfBrowserStateWithPath (browser_state_path : FilePath) :
    M BrowserStateInfoCache (option Z) :=
  c ← gets (λ c : BrowserStateInfoCache, c);
  if negb (bool_decide (DirName browser_state_path = user_data_dir_ c)) then mret None
  else
    search_key ← CacheKeyFromBrowserStatePath browser_state_path;
    mret (index_of_key (sorted_keys_ c) search_key 0).

(** [sorted_keys_.erase(std::find(..., key))] *)
Fixpoint erase_first (key : string) (keys : list string) : list string :=
  match keys with
  | [] => []
  | k :: keys' => if bool_decide (k = key) then keys' else k :: erase_first key keys'
  end.

Definition RemoveBrowserState (browser_state_path : FilePath) : M BrowserStateInfoCache unit :=
  browser_state_index ← GetIndexOfBrowserStateWithPath browser_state_path;
  match browser_state_index with
  | None => NOTREACHED
  | Some _ =>
      key ← CacheKeyFromBrowserStatePath browser_state_path;
      modify (update_dict (RemovePath key));;
      modify (λ c, set_prefs_keys (prefs_ c) (erase_first key (sorted_keys_ c)) c);;
      modify (notify (λ o, OnBrowserStateWasRemoved o browser_state_path))
  end.

(** Null when there is no dictionary under the key. *)
Definition GetInfoForBrowserStateAtIndex (index : Z) :
    M BrowserStateInfoCache (option Dict) :=
  c ← gets (λ c : BrowserStateInfoCache, c);
  DCHECK (index <? GetNumberOfBrowserStates c);;
  key ← at_ (sorted_keys_ c) index;
  mret (v ← FindKey (cache_dict c) key; AsDict v).

Definition SetInfoForBrowserStateAtIndex (index : Z) (info : Dict) :
    M BrowserStateInfoCache unit :=
  c ← gets (λ c : BrowserStateInfoCache, c);
  key ← at_ (sorted_keys_ c) index;
  modify (update_dict (SetKey key (VDict info))).

Definition GetUserNameOfBrowserStateAtIndex (index : Z) : M BrowserStateInfoCache string16 :=
  o ← GetInfoForBrowserStateAtIndex index;
  info ← not_null o;
  mret (default [] (GetString16 info kUserNameKey)).

Definition GetPathOfBrowserStateAtIndex (index : Z) : M BrowserStateInfoCache FilePath :=
  c ← gets (λ c : BrowserStateInfoCache, c);
  key ← at_ (sorted_keys_ c) index;
  mret (AppendASCII (user_data_dir_ c) key).

Definition GetGAIAIdOfBrowserStateAtIndex (index : Z) : M BrowserStateInfoCache string :=
  o ← GetInfoForBrowserStateAtIndex index;
  info ← not_null o;
  mret (default "" (GetString info kGAIAIdKey)).

Definition BrowserStateIsAuthenticatedAtIndex (index : Z) : M BrowserStateInfoCache bool :=
  gaia_id ← GetGAIAIdOfBrowserStateAtIndex index;
  if negb (bool_decide (gaia_id = "")) then mret true
  else
    user_name ← GetUserNameOfBrowserStateAtIndex index;
    mret (negb (bool_decide (user_name = []))).

Definition BrowserStateIsAuthErrorAtIndex (index : Z) : M BrowserStateInfoCache bool :=
  o ← GetInfoForBrowserStateAtIndex index;
  info ← not_null o;
  mret (default false (GetBoolean info kIsAuthErrorKey)).

Definition SetAuthInfoOfBrowserStateAtIndex (index : Z) (gaia_id : string)
    (user_name : string16) : M BrowserStateInfoCache unit :=
  old_gaia ← GetGAIAIdOfBrowserStateAtIndex index;
  old_name ← GetUserNameOfBrowserStateAtIndex index;
  if bool_decide (gaia_id = old_gaia) && bool_decide (user_name = old_name) then mret tt
  else
    o ← GetInfoForBrowserStateAtIndex index;
    info ← not_null o;
    SetInfoForBrowserStateAtIndex index
      (SetKey kUserNameKey (VString16 user_name)
        (SetKey kGAIAIdKey (VString gaia_id) info)).

Definition SetBrowserStateIsAuthErrorAtIndex (index : Z) (value : bool) :
    M BrowserStateInfoCache unit :=
  old ← BrowserStateIsAuthErrorAtIndex index;
  if bool_decide (value = old) then mret tt
  else
    o ← GetInfoForBrowserStateAtIndex index;
    info ← not_null o;
    SetInfoForBrowserStateAtIndex index (SetKey kIsAuthErrorKey (VBoolean value) info).

Definition GetUserDataDir (c : BrowserStateInfoCache) : FilePath := user_data_dir_ c.

(** BrowserStateInfoCache::RegisterPrefs *)
Definition RegisterPrefs_info_cache (registry : PrefService) : PrefService :=
  RegisterDictionaryPref kBrowserStateInfoCache registry.

(** ** The cache agrees with the preference *)
Context `{LAWS : !BaseValuesLaws}.

Definition cache_key (path : FilePath) : string := MaybeAsASCII (BaseName path).

(** Every entry of the preference is a dictionary. *)
Definition dict_of_dicts (d : Dict) : Prop :=
  ∀ k v, FindKey d k = Some v → is_Some (AsDict v).

(** The keys are sorted and distinct, and they are the keys of the preference. *)
Definition info_cache_inv (c : BrowserStateInfoCache) : Prop :=
  sorted_le string_ltb (sorted_keys_ c) ∧ NoDup (sorted_keys_ c) ∧
  (∀ k, k ∈ sorted_keys_ c ↔ is_Some (FindKey (cache_dict c) k)) ∧
  dict_of_dicts (cache_dict c).

Inductive info_op :=
  | InfoAdd (path : FilePath) (gaia_id : string) (user_name : string16)
  | InfoRemove (path : FilePath)
  | InfoSetAuth (index : Z) (gaia_id : string) (user_name : string16)
  | InfoSetAuthError (index : Z) (value : bool)
  | InfoAddObserver (o : positive)
  | InfoRemoveObserver (o : positive).

Definition run_info_op (o : info_op) : M BrowserStateInfoCache unit :=
  match o with
  | InfoAdd path gaia_id user_name => AddBrowserState path gaia_id user_name
  | InfoRemove path => RemoveBrowserState path
  | InfoSetAuth i gaia_id user_name => SetAuthInfoOfBrowserStateAtIndex i gaia_id user_name
  | InfoSetAuthError i value => SetBrowserStateIsAuthErrorAtIndex i value
  | InfoAddObserver o => AddObserver o
  | InfoRemoveObserver o => RemoveObserver o
  end.

(** What the callers of each operation ensure. *)
Definition info_op_legal (c : BrowserStateInfoCache) (o : info_op) : Prop :=
  match o with
  | InfoAdd path _ _ => DirName path = user_data_dir_ c ∧ cache_key path ∉ sorted_keys_ c
  | InfoRemove path =>
      DirName path = user_data_dir_ c ∧ cache_key path ∈ sorted_keys_ c ∧
      dot_free (cache_key path) = true
  | InfoSetAuth i _ _ | InfoSetAuthError i _ => 0 <= i < GetNumberOfBrowserStates c
  | InfoAddObserver _ | InfoRemoveObserver _ => True
  end.

Lemma cache_dict_update g c : cache_dict (update_dict g c) = g (cache_dict c).
Proof using All.
  unfold cache_dict, update_dict, set_prefs_keys. simpl.
  by rewrite law_GetDictionaryPref_set, bool_decide_eq_true_2.
Qed.

Lemma wp_CacheKey path (Q : string → BrowserStateInfoCache → Prop) c :
  DirName path = user_data_dir_ c → Q (cache_key path) c →
  wp (CacheKeyFromBrowserStatePath path) Q c.
Proof.
  intros Hd HQ. unfold CacheKeyFromBrowserStatePath. wp_simp.
  rewrite bool_decide_eq_true_2 by done. done.
Qed.

Lemma index_of_key_spec keys k i :
  match index_of_key keys k i with
  | Some j => k ∈ keys ∧ vec_at keys (j - i) = Some k ∧ i <= j
  | None => k ∉ keys
  end.
Proof.
  revert i. induction keys as [|k' keys IH]; intros i; cbn [index_of_key].
  { apply not_elem_of_nil. }
  case_bool_decide as H.
  - subst. rewrite Z.sub_diag. split; [by left|]. split; [done|lia].
  - specialize (IH (i + 1)). destruct (index_of_key keys k (i + 1)) as [j|].
    + destruct IH as (Hin & Hat & Hle). split; [by right|]. split; [|lia].
      rewrite vec_at_nonneg in * by lia.
      replace (Z.to_nat (j - i)) with (S (Z.to_nat (j - (i + 1)))) by lia. done.
    + rewrite not_elem_of_cons. naive_solver.
Qed.

Lemma erase_first_permutation k keys : k ∈ keys → keys ≡ₚ k :: erase_first k keys.
Proof.
  induction keys as [|k' keys IH]; cbn [erase_first]; [by intros ?%elem_of_nil|].
  intros Hin. case_bool_decide as H; [by subst|].
  apply elem_of_cons in Hin as [->|Hin]; [done|].
  rewrite (IH Hin) at 1. apply perm_swap.
Qed.

Lemma erase_first_sorted k keys :
  sorted_le string_ltb keys → sorted_le string_ltb (erase_first k keys).
Proof.
  induction 1 as [|k' keys Hs IH Hall]; cbn [erase_first]; [constructor|].
  case_bool_decide; [done|]. constructor; [done|].
  rewrite List.Forall_forall in *. intros z Hz. apply Hall.
  clear -Hz. induction keys as [|a keys IH]; [done|]. cbn [erase_first] in Hz.
  case_bool_decide; [by right|]. destruct Hz as [->|Hz]; [by left|right; auto].
Qed.

(** ** Lookups under the invariant *)

(** The dictionary of the browser state at an index. *)
Definition info_at (c : BrowserStateInfoCache) (i : Z) : option Dict :=
  key ← vec_at (sorted_keys_ c) i; v ← FindKey (cache_dict c) key; AsDict v.

Lemma info_at_range c i :
  info_cache_inv c → 0 <= i < GetNumberOfBrowserStates c → is_Some (info_at c i).
Proof using All.
  intros (_ & _ & Hkeys & Hdicts) Hi. unfold info_at.
  destruct (vec_at_in_range (sorted_keys_ c) i Hi) as [k Hk]. rewrite Hk. simpl.
  assert (k ∈ sorted_keys_ c) as [v Hv]%Hkeys by (apply elem_of_vec_at; eauto).
  rewrite Hv. simpl. by apply (Hdicts k).
Qed.

Lemma wp_GetInfo c i d (Q : option Dict → BrowserStateInfoCache → Prop) :
  info_at c i = Some d → Q (Some d) c → wp (GetInfoForBrowserStateAtIndex i) Q c.
Proof.
  intros Hd HQ. unfold info_at in Hd.
  destruct (vec_at (sorted_keys_ c) i) as [k|] eqn:Hk; [|done]. simpl in Hd.
  pose proof (vec_at_Some_range _ _ _ Hk).
  unfold GetInfoForBrowserStateAtIndex. wp_simp.
  split; [apply Z.ltb_lt; exact (proj2 H)|]. exists k. split; [done|]. wp_simp. by rewrite Hd.
Qed.

Definition user_name_of (d : Dict) : string16 := default [] (GetString16 d kUserNameKey).
Definition gaia_id_of (d : Dict) : string := default "" (GetString d kGAIAIdKey).
Definition auth_error_of (d : Dict) : bool := default false (GetBoolean d kIsAuthErrorKey).

Ltac read_info Hd :=
  unfold GetUserNameOfBrowserStateAtIndex, GetGAIAIdOfBrowserStateAtIndex,
    BrowserStateIsAuthErrorAtIndex;
  wp_simp; eapply wp_GetInfo; [exact Hd|]; wp_simp; eexists; split; [reflexivity|]; wp_simp.

Lemma wp_read_info c i d :
  info_at c i = Some d →
  wp (GetUserNameOfBrowserStateAtIndex i) (λ n c', n = user_name_of d ∧ c' = c) c ∧
  wp (GetGAIAIdOfBrowserStateAtIndex i) (λ g c', g = gaia_id_of d ∧ c' = c) c ∧
  wp (BrowserStateIsAuthErrorAtIndex i) (λ b c', b = auth_error_of d ∧ c' = c) c.
Proof. intros Hd. split_and!; read_info Hd; done. Qed.

Lemma wp_SetInfo c i d d' (Q : unit → BrowserStateInfoCache → Prop) :
  info_at c i = Some d →
  (∀ key, vec_at (sorted_keys_ c) i = Some key →
    Q tt (update_dict (SetKey key (VDict d')) c)) →
  wp (SetInfoForBrowserStateAtIndex i d') Q c.
Proof.
  intros Hd HQ. unfold info_at in Hd.
  destruct (vec_at (sorted_keys_ c) i) as [k|] eqn:Hk; [|done].
  unfold SetInfoForBrowserStateAtIndex. wp_simp. exists k. split; [done|]. by apply HQ.
Qed.

(** Replacing the dictionary of a known key. *)
Lemma update_known_key c key d :
  info_cache_inv c → key ∈ sorted_keys_ c →
  info_cache_inv (update_dict (SetKey key (VDict d)) c).
Proof using All.
  intros (Hs & Hnd & Hkeys & Hdicts) Hin. split_and!; [done|done| |].
  - intros k. rewrite cache_dict_update, law_FindKey_SetKey.
    change (sorted_keys_ (update_dict (SetKey key (VDict d)) c)) with (sorted_keys_ c).
    case_bool_decide as H; [subst; by split|]. apply Hkeys.
  - intros k v. rewrite cache_dict_update, law_FindKey_SetKey.
    case_bool_decide; [|by apply Hdicts]. intros [= <-]. rewrite law_AsDict. by eexists.
Qed.

Lemma info_at_update c i j key d :
  info_cache_inv c → vec_at (sorted_keys_ c) i = Some key →
  info_at (update_dict (SetKey key (VDict d)) c) j =
  if bool_decide (i = j) then Some d else info_at c j.
Proof using All.
  intros (_ & Hnd & _) Hi. unfold info_at. rewrite cache_dict_update.
  change (sorted_keys_ (update_dict (SetKey key (VDict d)) c)) with (sorted_keys_ c).
  case_bool_decide as Hij.
  - subst. rewrite Hi. simpl. rewrite law_FindKey_SetKey, bool_decide_eq_true_2 by done.
    apply law_AsDict.
  - destruct (vec_at (sorted_keys_ c) j) as [k|] eqn:Hj; [|done]. simpl.
    rewrite law_FindKey_SetKey. rewrite bool_decide_eq_false_2; [done|].
    intros ->. by pose proof (vec_at_NoDup_inj _ _ _ _ Hnd Hi Hj).
Qed.

(** ** The operations *)
Lemma wp_AddBrowserState c path g n :
  info_cache_inv c → info_op_legal c (InfoAdd path g n) →
  wp (AddBrowserState path g n) (λ _ c', info_cache_inv c' ∧
    sorted_keys_ c' = upper_bound_insert string_ltb (cache_key path) (sorted_keys_ c) ∧
    user_data_dir_ c' = user_data_dir_ c ∧
    notified c' = notified c ++
      map (λ o, OnBrowserStateAdded o path) (observer_list_ c)) c.
Proof using All.
  intros (Hs & Hnd & Hkeys & Hdicts) [Hdir Hnew]. unfold AddBrowserState. wp_simp.
  apply wp_CacheKey; [done|]. wp_simp.
  split; [|done]. unfold info_cache_inv, cache_dict, notify, AddBrowserStateCacheKey,
    update_dict, set_prefs_keys. simpl.
  rewrite law_GetDictionaryPref_set, bool_decide_eq_true_2 by done.
  fold (cache_dict c). split_and!.
  - by apply upper_bound_insert_sorted; [apply _|].
  - rewrite upper_bound_insert_permutation. by constructor.
  - intros k. rewrite upper_bound_insert_elem, law_FindKey_SetKey.
    case_bool_decide as H; [subst; split; [done|by left]|]. rewrite Hkeys.
    split; [intros [->|?]; done|by right].
  - intros k v. rewrite law_FindKey_SetKey. case_bool_decide; [|apply Hdicts].
    intros [= <-]. rewrite law_AsDict. by eexists.
Qed.

Lemma wp_RemoveBrowserState c path :
  info_cache_inv c → info_op_legal c (InfoRemove path) →
  wp (RemoveBrowserState path) (λ _ c', info_cache_inv c' ∧
    sorted_keys_ c ≡ₚ cache_key path :: sorted_keys_ c' ∧
    notified c' = notified c ++
      map (λ o, OnBrowserStateWasRemoved o path) (observer_list_ c)) c.
Proof using All.
  intros (Hs & Hnd & Hkeys & Hdicts) (Hdir & Hin & Hdot).
  unfold RemoveBrowserState, GetIndexOfBrowserStateWithPath. wp_simp.
  rewrite bool_decide_eq_true_2 by done. cbn [negb]. wp_simp.
  apply wp_CacheKey; [done|]. wp_simp.
  pose proof (index_of_key_spec (sorted_keys_ c) (cache_key path) 0) as Hix.
  destruct (index_of_key _ _ _) as [j|]; [|done]. wp_simp.
  apply wp_CacheKey; [done|]. wp_simp.
  pose proof (erase_first_permutation (cache_key path) (sorted_keys_ c) Hin) as Hp.
  split; [|done].
  unfold info_cache_inv, cache_dict, notify, update_dict, set_prefs_keys. simpl.
  rewrite law_GetDictionaryPref_set, bool_decide_eq_true_2 by done.
  fold (cache_dict c). rewrite Hp in Hnd. apply NoDup_cons in Hnd as [Hnotin Hnd].
  split_and!.
  - by apply erase_first_sorted.
  - done.
  - intros k. rewrite law_RemovePath by done. specialize (Hkeys k).
    rewrite Hp, elem_of_cons in Hkeys. case_bool_decide as H.
    + subst. split; [done|by intros [? ?]].
    + rewrite <- Hkeys. split; [by right|by intros [->|?]].
  - intros k v. rewrite law_RemovePath by done. case_bool_decide; [done|apply Hdicts].
Qed.

Lemma vec_at_key_elem c i key : vec_at (sorted_keys_ c) i = Some key → key ∈ sorted_keys_ c.
Proof. intros H. apply elem_of_vec_at. eauto. Qed.

Lemma wp_SetAuthInfo c i g n :
  info_cache_inv c → 0 <= i < GetNumberOfBrowserStates c →
  wp (SetAuthInfoOfBrowserStateAtIndex i g n) (λ _ c', info_cache_inv c' ∧
    sorted_keys_ c' = sorted_keys_ c ∧ user_data_dir_ c' = user_data_dir_ c ∧
    (∃ d, info_at c' i = Some d ∧ gaia_id_of d = g ∧ user_name_of d = n) ∧
    ∀ j, j ≠ i → info_at c' j = info_at c j) c.
Proof using All.
  intros Hinv Hi. destruct (info_at_range c i Hinv Hi) as [d Hd].
  destruct (wp_read_info c i d Hd) as (Hn & Hg & _).
  unfold SetAuthInfoOfBrowserStateAtIndex. wp_simp.
  eapply wp_mono, Hg. intros ? ? [-> ->]. wp_simp.
  eapply wp_mono, Hn. intros ? ? [-> ->].
  destruct (bool_decide (g = gaia_id_of d) && bool_decide (n = user_name_of d)) eqn:E.
  { apply andb_true_iff in E as [H1%bool_decide_eq_true H2%bool_decide_eq_true].
    wp_simp. split_and!; [done..| |done]. by exists d. }
  wp_simp. eapply wp_GetInfo; [exact Hd|]. wp_simp. exists d. split; [done|].
  eapply wp_SetInfo; [exact Hd|]. intros key Hkey.
  split_and!; [apply update_known_key; [done|by apply vec_at_key_elem in Hkey]|done|done| |].
  - eexists. split; [rewrite (info_at_update c i i key) by done;
      by rewrite bool_decide_eq_true_2|].
    clear E. unfold gaia_id_of, user_name_of, GetString, GetString16.
    rewrite !law_FindPath, !law_FindKey_SetKey by done.
    repeat (case_bool_decide; try done). simpl. by rewrite law_AsString, law_AsString16.
  - intros j Hj. rewrite (info_at_update c i j key) by done.
    by rewrite bool_decide_eq_false_2.
Qed.

Lemma wp_SetAuthError c i b :
  info_cache_inv c → 0 <= i < GetNumberOfBrowserStates c →
  wp (SetBrowserStateIsAuthErrorAtIndex i b) (λ _ c', info_cache_inv c' ∧
    sorted_keys_ c' = sorted_keys_ c ∧
    (∃ d, info_at c' i = Some d ∧ auth_error_of d = b) ∧
    ∀ j, j ≠ i → info_at c' j = info_at c j) c.
Proof using All.
  intros Hinv Hi. destruct (info_at_range c i Hinv Hi) as [d Hd].
  destruct (wp_read_info c i d Hd) as (_ & _ & He).
  unfold SetBrowserStateIsAuthErrorAtIndex. wp_simp.
  eapply wp_mono, He. intros ? ? [-> ->]. case_bool_decide as E.
  { wp_simp. split_and!; [done..| |done]. by exists d. }
  wp_simp. eapply wp_GetInfo; [exact Hd|]. wp_simp. exists d. split; [done|].
  eapply wp_SetInfo; [exact Hd|]. intros key Hkey.
  split_and!; [apply update_known_key; [done|by apply vec_at_key_elem in Hkey]|done| |].
  - eexists. split; [rewrite (info_at_update c i i key) by done;
      by rewrite bool_decide_eq_true_2|].
    unfold auth_error_of, GetBoolean.
    rewrite law_FindPath, law_FindKey_SetKey, bool_decide_eq_true_2 by done. simpl.
    by rewrite law_AsBoolean.
  - intros j Hj. rewrite (info_at_update c i j key) by done.
    by rewrite bool_decide_eq_false_2.
Qed.

Lemma new_keys prefs dir keys :
  let c := foldl (λ c key, AddBrowserStateCacheKey key c)
             (MkInfoCache prefs [] dir [] []) keys in
  prefs_ c = prefs ∧ user_data_dir_ c = dir ∧
  sorted_le string_ltb (sorted_keys_ c) ∧ sorted_keys_ c ≡ₚ keys.
Proof.
  induction keys as [|k keys IH] using rev_ind.
  { split_and!; [done..|constructor|done]. }
  rewrite foldl_app. cbn [foldl]. destruct IH as (Hp & Hd & Hs & Hperm).
  unfold AddBrowserStateCacheKey at 1 3 5 7, set_prefs_keys. simpl. split_and!; [done..| |].
  - by apply upper_bound_insert_sorted; [apply _|].
  - rewrite upper_bound_insert_permutation, Hperm. by rewrite Permutation_cons_append.
Qed.

Lemma BrowserStateInfoCache_new_inv prefs dir :
  dict_of_dicts (GetDictionaryPref prefs kBrowserStateInfoCache) →
  info_cache_inv (BrowserStateInfoCache_new prefs dir) ∧
  user_data_dir_ (BrowserStateInfoCache_new prefs dir) = dir ∧
  prefs_ (BrowserStateInfoCache_new prefs dir) = prefs.
Proof using All.
  intros Hd. unfold BrowserStateInfoCache_new.
  destruct (new_keys prefs dir
    (dict_keys (GetDictionaryPref prefs kBrowserStateInfoCache))) as (Hp & Hdir & Hs & Hk).
  split_and!; [|done|done].
  unfold info_cache_inv, cache_dict. rewrite Hp. split_and!; [done| | |done].
  - rewrite Hk. apply law_dict_keys_NoDup.
  - intros k. rewrite Hk. apply law_dict_keys.
Qed.

(** From preferences whose entries are dictionaries, the constructor and any
    sequence of operations as callers make them (a browser state is added when
    it is not known and removed when it is, indices are in range, a removed
    directory name has no dot) never fail a check, and keep the keys sorted,
    distinct and equal to the keys of the preference. *)
Theorem info_cache_consistent prefs dir op :
  dict_of_dicts (GetDictionaryPref prefs kBrowserStateInfoCache) →
  info_cache_inv (BrowserStateInfoCache_new prefs dir) ∧
  ∀ c, reachable (λ c o c', info_op_legal c o ∧ run_info_op o c = Ok (tt, c'))
         (BrowserStateInfoCache_new prefs dir) c →
    info_cache_inv c ∧
    (info_op_legal c op → ∃ c', run_info_op op c = Ok (tt, c')).
Proof using All.
  intros Hd.
  assert (Hrun : ∀ c o, info_cache_inv c → info_op_legal c o →
    wp (run_info_op o) (λ _ c', info_cache_inv c') c).
  { intros c o Hinv Hlegal. destruct o as [p g n|p|i g n|i b|o|o]; cbn [run_info_op].
    - eapply wp_mono, wp_AddBrowserState; [|done..]. by intros ? ? [? _].
    - eapply wp_mono, wp_RemoveBrowserState; [|done..]. by intros ? ? [? _].
    - eapply wp_mono, wp_SetAuthInfo; [|done..]. by intros ? ? [? _].
    - eapply wp_mono, wp_SetAuthError; [|done..]. by intros ? ? [? _].
    - exact Hinv.
    - exact Hinv. }
  assert (Hnew : info_cache_inv (BrowserStateInfoCache_new prefs dir)).
  { by apply BrowserStateInfoCache_new_inv. }
  split; [done|]. intros c Hc.
  assert (Hinv : info_cache_inv c).
  { revert c Hc. apply reachable_invariant; [done|].
    intros c o c' Hinv [Hlegal Hok]. specialize (Hrun c o Hinv Hlegal).
    unfold wp in Hrun. by rewrite Hok in Hrun. }
  split; [done|]. intros Hlegal.
  specialize (Hrun c op Hinv Hlegal). apply wp_run in Hrun as ([] & c' & H & _). by exists c'.
Qed.
End info_cache.
