(* ===== verification/BrowserStateManager.v ===== *)
(** * Loading browser states

    src/chrome/browser/browser_state: the objects of a browser state and of its
    off-the-record browser state (chrome_browser_state_impl.cc and
    off_the_record_chrome_browser_state_impl.cc, the part that creates and
    relates them) and the manager that loads browser states by path
    (chrome_browser_state_manager_impl.cc); and the counting of browser states
    of src/chrome/browser/browser_state_metrics.  Objects are addresses in a
    heap.  Services, accounts and the location of the user data directory are
    outside the repository. *)

From S2P Require Import Prelude StdSet CGFloat BaseValues FilePaths BrowserStateInfoCache.

#[local] Notation string16 := (list Z).

(** kIOSChromeInitialBrowserState *)
Definition kIOSChromeInitialBrowserState : string := "Default".

(** ios::DIR_USER_DATA of base::PathService, and the primary account of a
    browser state in its identity manager (gaia id and email). *)
Class ManagerEnv `{!FilePaths} := {
  user_data_dir : option FilePath;
  GetPrimaryAccountInfo : positive → string * string16;
}.

Section manager.
Context `{BV : BaseValues} `{FP : FilePaths} `{ME : !ManagerEnv}.

(** A browser state: its paths and its off-the-record one, if it was created;
    an off-the-record one: its path and its original. *)
Inductive ChromeBrowserState :=
  | ChromeBrowserStateImpl (state_path_ otr_state_path_ : FilePath) (otr_state_ : option positive)
  | OffTheRecordImpl (otr_state_path_ : FilePath) (original_chrome_browser_state_ : positive).

(** Initialization steps outside this file, in order. *)
Inductive manager_call :=
  | AccountConsistencyService (browser_state : positive)
  | OnNetworkInitialized (browser_state : positive)
  | AccountReconcilor (browser_state : positive)
  | UnifiedConsentService (browser_state : positive)
  | BrowserStateSizeTask (path : FilePath) (delay_seconds : Z)
  | SetActive (browser_state : positive) (active : bool)
  | LogProfileMetricsCounts (total signedin auth_errors : Z).

(** The manager's fields, with the heap of browser states, the preferences of
    the application (with the name of the last used browser state) and the
    calls made. *)
Record Manager := MkManager {
  heap : gmap positive ChromeBrowserState;
  next_address : positive;
  browser_states_ : list (FilePath * positive);
  browser_state_info_cache_ : option BrowserStateInfoCache;
  local_state : PrefService;
  kBrowserStateLastUsed : string;
  calls : list manager_call;
}.

Definition set_heap (h : gmap positive ChromeBrowserState) (n : positive) (m : Manager) : Manager :=
  MkManager h n (browser_states_ m) (browser_state_info_cache_ m) (local_state m)
    (kBrowserStateLastUsed m) (calls m).
Definition set_browser_states (l : list (FilePath * positive)) (m : Manager) : Manager :=
  MkManager (heap m) (next_address m) l (browser_state_info_cache_ m) (local_state m)
    (kBrowserStateLastUsed m) (calls m).
Definition set_cache (c : BrowserStateInfoCache) (m : Manager) : Manager :=
  MkManager (heap m) (next_address m) (browser_states_ m) (Some c) (prefs_ c)
    (kBrowserStateLastUsed m) (calls m).
Definition call (c : manager_call) (m : Manager) : Manager :=
  MkManager (heap m) (next_address m) (browser_states_ m) (browser_state_info_cache_ m)
    (local_state m) (kBrowserStateLastUsed m) (calls m ++ [c]).

(** ** The browser states *)

(** The object at an address. *)
Definition deref (s : positive) : M Manager ChromeBrowserState :=
  o ← gets (λ m, heap m !! s); not_null o.

Definition new_object (b : ChromeBrowserState) : M Manager positive := λ m,
  Ok (next_address m,
      set_heap (<[next_address m := b]> (heap m)) (Pos.succ (next_address m)) m).

Definition ChromeBrowserStateImpl_new (path : FilePath) : M Manager positive :=
  new_object (ChromeBrowserStateImpl path (AppendASCII path "OTR") None).

Definition IsOffTheRecord (s : positive) : M Manager bool :=
  b ← deref s;
  mret (match b with ChromeBrowserStateImpl _ _ _ => false | OffTheRecordImpl _ _ => true end).

Definition GetStatePath (s : positive) : M Manager FilePath :=
  b ← deref s;
  mret (match b with ChromeBrowserStateImpl p _ _ => p | OffTheRecordImpl p _ => p end).

Definition GetOriginalChromeBrowserState (s : positive) : M Manager positive :=
  b ← deref s;
  mret (match b with ChromeBrowserStateImpl _ _ _ => s | OffTheRecordImpl _ o => o end).

Definition HasOffTheRecordChromeBrowserState (s : positive) : M Manager bool :=
  b ← deref s;
  mret (match b with
        | ChromeBrowserStateImpl _ _ otr => bool_decide (is_Some otr)
        | OffTheRecordImpl _ _ => true
        end).

Definition store (s : positive) (b : ChromeBrowserState) : M Manager unit :=
  modify (λ m, set_heap (<[s := b]> (heap m)) (next_address m) m).

Definition GetOffTheRecordChromeBrowserState (s : positive) : M Manager positive :=
  b ← deref s;
  match b with
  | OffTheRecordImpl _ _ => mret s
  | ChromeBrowserStateImpl p otr_p (Some o) => mret o
  | ChromeBrowserStateImpl p otr_p None =>
      o ← new_object (OffTheRecordImpl otr_p s);
      store s (ChromeBrowserStateImpl p otr_p (Some o));;
      mret o
  end.

(** The off-the-record object is freed. *)
Definition DestroyOffTheRecordChromeBrowserState (s : positive) : M Manager unit :=
  b ← deref s;
  match b with
  | OffTheRecordImpl _ _ => NOTREACHED
  | ChromeBrowserStateImpl p otr_p otr =>
      match otr with
      | Some o => modify (λ m, set_heap (delete o (heap m)) (next_address m) m)
      | None => mret tt
      end;;
      store s (ChromeBrowserStateImpl p otr_p None)
  end.

(** ** The manager *)
Definition GetUserDataDir_ : M Manager FilePath :=
  DCHECK (bool_decide (is_Some user_data_dir));;
  not_null user_data_dir.

(** A call on the cache, which shares the application's preferences. *)
Definition on_cache {A} (f : M BrowserStateInfoCache A) : M Manager A := λ m,
  match browser_state_info_cache_ m with
  | None => Crash NullDeref
  | Some c =>
      match f (set_prefs_keys (local_state m) (sorted_keys_ c) c) with
      | Ok (a, c') => Ok (a, set_cache c' m)
      | Crash e => Crash e
      end
  end.

(** The cache is created on first use; it is then read through [on_cache]. *)
Definition GetBrowserStateInfoCache : M Manager unit :=
  o ← gets browser_state_info_cache_;
  match o with
  | Some _ => mret tt
  | None =>
      dir ← GetUserDataDir_;
      modify (λ m, set_cache (BrowserStateInfoCache_new (local_state m) dir) m)
  end.

Definition AddBrowserStateToCache (browser_state : positive) : M Manager unit :=
  otr ← IsOffTheRecord browser_state;
  DCHECK (negb otr);;
  GetBrowserStateInfoCache;;
  path ← GetStatePath browser_state;
  dir ← on_cache (gets GetUserDataDir);
  if negb (bool_decide (DirName path = dir)) then mret tt
  else
    let '(gaia, username) := GetPrimaryAccountInfo browser_state in
    browser_state_index ← on_cache (GetIndexOfBrowserStateWithPath path);
    match browser_state_index with
    | Some i => on_cache (SetAuthInfoOfBrowserStateAtIndex i gaia username)
    | None => on_cache (AddBrowserState path gaia username)
    end.

Definition DoFinalInitForServices (browser_state : positive) : M Manager unit :=
  modify (call (AccountConsistencyService browser_state));;
  modify (call (OnNetworkInitialized browser_state));;
  modify (call (AccountReconcilor browser_state));;
  modify (call (UnifiedConsentService browser_state)).

(** profile_metrics::Counts *)
Record Counts := MkCounts { total : Z; signedin : Z; auth_errors : Z }.

(** The loop of CountBrowserStateInformation from index [i], [n] rounds. *)
Fixpoint count_loop (n : nat) (i : Z) (counts : Counts) : M BrowserStateInfoCache Counts :=
  match n with
  | O => mret counts
  | S n' =>
      authenticated ← BrowserStateIsAuthenticatedAtIndex i;
      if (authenticated : bool) then
        error ← BrowserStateIsAuthErrorAtIndex i;
        count_loop n' (i + 1)
          (MkCounts (total counts) (signedin counts + 1)
             (auth_errors counts + if (error : bool) then 1 else 0))
      else count_loop n' (i + 1) counts
  end.

Definition CountBrowserStateInformation (counts : Counts) :
    M BrowserStateInfoCache (bool * Counts) :=
  number_of_browser_states ← gets GetNumberOfBrowserStates;
  let counts := MkCounts number_of_browser_states (signedin counts) (auth_errors counts) in
  if number_of_browser_states =? 0 then mret (false, counts)
  else
    counts' ← count_loop (Z.to_nat number_of_browser_states) 0 counts;
    mret (true, counts').

Definition LogNumberOfBrowserStates : M Manager unit :=
  GetBrowserStateInfoCache;;
  '(_, counts) ← on_cache (CountBrowserStateInformation (MkCounts 0 0 0));
  modify (call (LogProfileMetricsCounts (total counts) (signedin counts) (auth_errors counts))).

Definition DoFinalInit (browser_state : positive) : M Manager unit :=
  DoFinalInitForServices browser_state;;
  AddBrowserStateToCache browser_state;;
  original ← GetOriginalChromeBrowserState browser_state;
  path ← GetStatePath original;
  modify (call (BrowserStateSizeTask path 112));;
  LogNumberOfBrowserStates.

(** The order of std::map<base::FilePath, ...>. *)
Definition path_ltb (p q : FilePath * positive) : bool :=
  string_ltb (path_value p.1) (path_value q.1).

(** [browser_states_.find(path)] *)
Definition find_state (path : FilePath) (l : list (FilePath * positive)) : option positive :=
  snd <$> List.find (λ p, equiv path_ltb (path, 1%positive) p) l.

Definition GetBrowserState (path : FilePath) : M Manager positive :=
  o ← gets (λ m, find_state path (browser_states_ m));
  match o with
  | Some s => mret s
  | None =>
      s ← ChromeBrowserStateImpl_new path;
      otr ← IsOffTheRecord s;
      DCHECK (negb otr);;
      modify (λ m, set_browser_states
        (set_insert path_ltb (path, s) (browser_states_ m)) m);;
      o' ← gets (λ m, find_state path (browser_states_ m));
      DCHECK (bool_decide (o' = Some s));;
      DoFinalInit s;;
      mret s
  end.

Definition GetLastUsedBrowserStateDir (user_data_dir : FilePath) : M Manager FilePath :=
  name ← gets kBrowserStateLastUsed;
  mret (AppendASCII user_data_dir
          (if bool_decide (name = "") then kIOSChromeInitialBrowserState else name)).

Definition GetLastUsedBrowserState : M Manager positive :=
  dir ← GetUserDataDir_;
  path ← GetLastUsedBrowserStateDir dir;
  GetBrowserState path.

Definition GetLoadedBrowserStates : M Manager (list positive) :=
  gets (λ m, snd <$> browser_states_ m).

(** The destructor.  [active_state_manager] says whether an ActiveStateManager
    exists for a browser state. *)
Fixpoint deactivate (active_state_manager : positive → bool)
    (l : list (FilePath * positive)) : M Manager unit :=
  match l with
  | [] => mret tt
  | (_, s) :: l' =>
      modify (call (SetActive s false));;
      has ← HasOffTheRecordChromeBrowserState s;
      whenM has
        (o ← GetOffTheRecordChromeBrowserState s;
         whenM (active_state_manager o) (modify (call (SetActive o false))));;
      deactivate active_state_manager l'
  end.

Definition Manager_destroy (active_state_manager : positive → bool) : M Manager unit :=
  l ← gets browser_states_;
  deactivate active_state_manager l.

(** ** Original and off-the-record browser states *)

(** Every off-the-record address of a browser state is an off-the-record
    object whose original is that browser state, and addresses are below the
    next one. *)
Definition heap_inv (m : Manager) : Prop :=
  (∀ s b, heap m !! s = Some b → (s < next_address m)%positive) ∧
  ∀ s p otr_p o, heap m !! s = Some (ChromeBrowserStateImpl p otr_p (Some o)) →
    heap m !! o = Some (OffTheRecordImpl otr_p s).

Lemma wp_browser_state s b (Q : ChromeBrowserState → Manager → Prop) m :
  heap m !! s = Some b → Q b m → wp (deref s) Q m.
Proof. intros Hb HQ. unfold deref. wp_simp. eauto. Qed.

Lemma heap_inv_new m b :
  heap_inv m → (∀ p otr_p o, b ≠ ChromeBrowserStateImpl p otr_p (Some o)) →
  heap_inv (set_heap (<[next_address m := b]> (heap m)) (Pos.succ (next_address m)) m).
Proof.
  intros [Hlt Hotr] Hb. split; simpl.
  - intros s b'. destruct (decide (s = next_address m)) as [->|Hs]; [lia|].
    rewrite lookup_insert_ne by done. intros H%Hlt. lia.
  - intros s p otr_p o. destruct (decide (s = next_address m)) as [->|Hs].
    + rewrite lookup_insert_eq. intros [= E]. by destruct (Hb _ _ _ E).
    + rewrite lookup_insert_ne by done. intros H%Hotr.
      rewrite lookup_insert_ne; [done|]. intros <-. apply Hlt in H. lia.
Qed.

(** A browser state has one off-the-record browser state: it is created on
    the first request, later requests give the same object, its original is
    the browser state and its path is the one chosen at creation; after it is
    destroyed the browser state has none, and the off-the-record object cannot
    be asked to destroy itself. *)
Theorem off_the_record_lifecycle m s p otr_p otr :
  heap_inv m → heap m !! s = Some (ChromeBrowserStateImpl p otr_p otr) →
  ∃ o m1, GetOffTheRecordChromeBrowserState s m = Ok (o, m1) ∧ heap_inv m1 ∧
    (∀ o', otr = Some o' → o = o' ∧ m1 = m) ∧
    GetOffTheRecordChromeBrowserState s m1 = Ok (o, m1) ∧
    GetOffTheRecordChromeBrowserState o m1 = Ok (o, m1) ∧
    GetOriginalChromeBrowserState o m1 = Ok (s, m1) ∧
    GetStatePath o m1 = Ok (otr_p, m1) ∧ IsOffTheRecord o m1 = Ok (true, m1) ∧
    HasOffTheRecordChromeBrowserState s m1 = Ok (true, m1) ∧
    DestroyOffTheRecordChromeBrowserState o m1 = Crash NotReached ∧
    ∃ m2, DestroyOffTheRecordChromeBrowserState s m1 = Ok (tt, m2) ∧
      HasOffTheRecordChromeBrowserState s m2 = Ok (false, m2) ∧
      heap m2 !! o = None.
Proof.
  intros Hinv Hs.
  assert (Hcase : ∃ o m1, GetOffTheRecordChromeBrowserState s m = Ok (o, m1) ∧ heap_inv m1 ∧
    (∀ o', otr = Some o' → o = o' ∧ m1 = m) ∧ s ≠ o ∧
    heap m1 !! s = Some (ChromeBrowserStateImpl p otr_p (Some o)) ∧
    heap m1 !! o = Some (OffTheRecordImpl otr_p s)).
  { unfold GetOffTheRecordChromeBrowserState, deref, mbind, M_bind, gets. rewrite Hs. simpl.
    destruct otr as [o|].
    - exists o, m. pose proof (proj2 Hinv _ _ _ _ Hs) as Ho.
      split_and!; [done|done|by intros ? [= <-]| |done|done]. intros <-. congruence.
    - pose proof (proj1 Hinv _ _ Hs) as Hlt.
      assert (Hne : s ≠ next_address m) by lia.
      eexists _, _. split; [reflexivity|]. simpl. split_and!; [|done|done| |].
      + destruct (heap_inv_new m (OffTheRecordImpl otr_p s) Hinv) as [H1 H2]; [done|].
        simpl in H1, H2. split; simpl.
        * intros s' b. destruct (decide (s' = s)) as [->|]; [lia|].
          rewrite lookup_insert_ne by done. apply H1.
        * intros s' p' otr_p' o. destruct (decide (s' = s)) as [->|Hs'].
          -- rewrite lookup_insert_eq. intros [= <- <- <-].
             by rewrite lookup_insert_ne, lookup_insert_eq by done.
          -- rewrite lookup_insert_ne by done. intros Ho%H2.
             destruct (decide (o = s)) as [->|]; [|by rewrite lookup_insert_ne].
             rewrite lookup_insert_ne in Ho by done. congruence.
      + by rewrite lookup_insert_eq.
      + by rewrite lookup_insert_ne, lookup_insert_eq by done. }
  destruct Hcase as (o & m1 & Hrun & Hinv1 & Hsame & Hne & Hs1 & Ho1).
  exists o, m1. split_and!; [done..| | | | | | | |].
  all: unfold GetOffTheRecordChromeBrowserState, GetOriginalChromeBrowserState, GetStatePath,
    IsOffTheRecord, HasOffTheRecordChromeBrowserState, DestroyOffTheRecordChromeBrowserState,
    deref, mbind, M_bind, gets; rewrite ?Hs1, ?Ho1; simpl; try done.
  eexists. split; [reflexivity|]. simpl. rewrite lookup_insert_eq. simpl. split; [done|].
  by rewrite lookup_insert_ne, lookup_delete_eq by done.
Qed.

(** ** The manager and the cache *)
Context `{LAWS : !BaseValuesLaws} `{FPL : !FilePathsLaws}.

Definition cache_of (m : Manager) (dir : FilePath) : BrowserStateInfoCache :=
  match browser_state_info_cache_ m with
  | Some c => c
  | None => BrowserStateInfoCache_new (local_state m) dir
  end.

Definition cache_ok (dir : FilePath) (m : Manager) : Prop :=
  info_cache_inv (cache_of m dir) ∧ user_data_dir_ (cache_of m dir) = dir ∧
  prefs_ (cache_of m dir) = local_state m.

(** The loaded browser states are distinct paths, each a regular browser state
    with that path. *)
Definition manager_inv (dir : FilePath) (m : Manager) : Prop :=
  heap_inv m ∧ sorted path_ltb (browser_states_ m) ∧
  (∀ p s, (p, s) ∈ browser_states_ m →
    ∃ otr_p otr, heap m !! s = Some (ChromeBrowserStateImpl p otr_p otr)) ∧
  cache_ok dir m.

#[local] Instance path_ltb_swo : StrictWeakOrder path_ltb.
Proof.
  split; unfold path_ltb.
  - intros x. apply swo_irrefl.
  - intros x y z. apply swo_trans.
  - intros x y z. apply swo_weak.
Qed.

Lemma path_equiv p s q : equiv path_ltb (p, s) q = true ↔ p = q.1.
Proof using All.
  rewrite equiv_true. unfold path_ltb. simpl. split.
  - intros [H1 H2]. by apply law_path_value_inj, string_ltb_total.
  - intros ->. by rewrite (ltb_irrefl string_ltb).
Qed.

Lemma find_state_Some path l s : find_state path l = Some s → (path, s) ∈ l.
Proof using All.
  unfold find_state. intros H.
  destruct (List.find _ l) as [[p s']|] eqn:E; [|done]. simpl in H. injection H as ->.
  apply List.find_some in E as [Hin He]. apply path_equiv in He as ->.
  by apply list_elem_of_In.
Qed.

Lemma find_state_None path l s : find_state path l = None → (path, s) ∉ l.
Proof using All.
  unfold find_state. destruct (List.find _ l) as [x|] eqn:E; [done|]. intros _ Hin.
  apply list_elem_of_In in Hin.
  pose proof (List.find_none _ _ E _ Hin) as H. cbv beta in H.
  assert (equiv path_ltb (path, 1%positive) (path, s) = true) by (by apply path_equiv).
  congruence.
Qed.

Lemma find_state_insert path s l :
  find_state path l = None → find_state path (set_insert path_ltb (path, s) l) = Some s.
Proof using All.
  intros Hnone.
  destruct (find_state path (set_insert path_ltb (path, s) l)) as [s'|] eqn:E.
  - apply find_state_Some in E as [[= ->]|Hin]%set_insert_elem; [done|].
    by apply (find_state_None _ _ s') in Hnone.
  - apply (find_state_None _ _ s) in E. destruct E.
    revert Hnone. induction l as [|[q t] l IH]; intros Hnone; cbn [set_insert]; [by left|].
    destruct (path_ltb (path, s) (q, t)) eqn:E1; [by left|].
    destruct (path_ltb (q, t) (path, s)) eqn:E2.
    + right. apply IH. unfold find_state in *. cbn [List.find] in Hnone.
      by destruct (equiv path_ltb (path, 1%positive) (q, t)).
    + assert (Heq : path = q).
      { apply (path_equiv path s (q, t)). by apply equiv_true. }
      subst. by apply (find_state_None _ _ t) in Hnone; destruct Hnone; left.
Qed.

Lemma set_prefs_keys_same (c : BrowserStateInfoCache) :
  set_prefs_keys (prefs_ c) (sorted_keys_ c) c = c.
Proof. by destruct c. Qed.

Lemma wp_on_cache {A} (f : M BrowserStateInfoCache A) (Q : A → Manager → Prop) m c :
  browser_state_info_cache_ m = Some c → prefs_ c = local_state m →
  wp f (λ a c', Q a (set_cache c' m)) c → wp (on_cache f) Q m.
Proof.
  intros Hc Hp Hf. unfold on_cache, wp in *. rewrite Hc, <- Hp, set_prefs_keys_same.
  by destruct (f c) as [[a c']|].
Qed.

(** The cache exists from now on; nothing else changes. *)
Lemma wp_GetBrowserStateInfoCache dir (Q : unit → Manager → Prop) m :
  user_data_dir = Some dir → cache_ok dir m →
  (∀ m', m' = set_cache (cache_of m dir) m → Q tt m') →
  wp GetBrowserStateInfoCache Q m.
Proof.
  intros Hdir (_ & _ & Hp) HQ. unfold GetBrowserStateInfoCache. wp_simp.
  destruct (browser_state_info_cache_ m) as [c|] eqn:Ec; wp_simp.
  - apply HQ. unfold cache_of in *. rewrite Ec in *. destruct m. unfold set_cache. simpl in *.
    by rewrite Hp, Ec.
  - unfold GetUserDataDir_. wp_simp. rewrite Hdir. split; [done|]. exists dir. split; [done|].
    apply HQ. unfold cache_of. by rewrite Ec.
Qed.

(** What a step may change besides the cache and the log. *)
Definition same_states (m m' : Manager) : Prop :=
  heap m' = heap m ∧ next_address m' = next_address m ∧
  browser_states_ m' = browser_states_ m.

Lemma cache_ok_set dir c m :
  info_cache_inv c → user_data_dir_ c = dir → cache_ok dir (set_cache c m).
Proof. by intros H1 H2. Qed.

(** The entry of a path in the cache. *)
Definition cached_account (c : BrowserStateInfoCache) (path : FilePath) (g : string)
    (n : string16) : Prop :=
  ∃ i d, vec_at (sorted_keys_ c) i = Some (cache_key path) ∧ info_at c i = Some d ∧
    gaia_id_of d = g ∧ user_name_of d = n.

Lemma wp_AddBrowserState_account c path g n :
  info_cache_inv c → info_op_legal c (InfoAdd path g n) →
  wp (AddBrowserState path g n) (λ _ c', info_cache_inv c' ∧
    user_data_dir_ c' = user_data_dir_ c ∧ cached_account c' path g n) c.
Proof using All.
  intros Hinv Hlegal.
  pose proof (wp_AddBrowserState c path g n Hinv Hlegal) as Hadd.
  assert (Hdict : wp (AddBrowserState path g n) (λ _ c',
    FindKey (cache_dict c') (cache_key path) =
    Some (VDict (SetPath kUserNameKey (VString16 n)
                  (SetPath kGAIAIdKey (VString g) dict_empty)))) c).
  { destruct Hlegal as [Hd _]. unfold AddBrowserState. wp_simp.
    apply wp_CacheKey; [done|]. wp_simp.
    unfold cache_dict, notify, AddBrowserStateCacheKey, update_dict, set_prefs_keys. simpl.
    rewrite law_GetDictionaryPref_set, bool_decide_eq_true_2 by done.
    by rewrite law_FindKey_SetKey, bool_decide_eq_true_2. }
  eapply wp_mono, (wp_and _ _ _ _ Hadd Hdict). intros _ c' [(Hi & Hk & Hd & _) Hf].
  split_and!; [done..|].
  assert (cache_key path ∈ sorted_keys_ c') as [i Hx]%elem_of_vec_at.
  { rewrite Hk, upper_bound_insert_elem. by left. }
  exists i. eexists. split; [done|]. split.
  - unfold info_at. rewrite Hx. simpl. rewrite Hf. simpl. apply law_AsDict.
  - unfold gaia_id_of, user_name_of, GetString, GetString16.
    rewrite !FindPath_SetPath by done. repeat (case_bool_decide; try done). simpl.
    by rewrite law_AsString, law_AsString16.
Qed.

Lemma wp_AddBrowserStateToCache dir s path otr_p otr g n (Q : unit → Manager → Prop) m :
  user_data_dir = Some dir → cache_ok dir m →
  heap m !! s = Some (ChromeBrowserStateImpl path otr_p otr) →
  GetPrimaryAccountInfo s = (g, n) →
  (∀ c m', m' = set_cache c m → cache_ok dir m' →
    (DirName path = dir → cached_account c path g n) → Q tt m') →
  wp (AddBrowserStateToCache s) Q m.
Proof using All.
  intros Hdir Hc Hs Hacc HQ. unfold AddBrowserStateToCache, IsOffTheRecord. wp_simp.
  apply (wp_browser_state s _ _ _ Hs). wp_simp. split; [done|].
  apply (wp_GetBrowserStateInfoCache dir); [done|done|]. intros m0 ->.
  destruct Hc as (Hinv & Hd & Hp).
  unfold GetStatePath. wp_simp. eapply wp_browser_state; [exact Hs|]. wp_simp.
  eapply wp_on_cache; [reflexivity|done|]. wp_simp. unfold GetUserDataDir. rewrite Hd.
  set (c := cache_of m dir) in *.
  assert (Hsame : ∀ c', set_cache c' (set_cache c m) = set_cache c' m) by done.
  rewrite Hsame. case_bool_decide as Hpath; cbn [negb].
  2:{ wp_simp. eapply HQ; [reflexivity|by apply cache_ok_set|done]. }
  rewrite Hacc. wp_simp. eapply wp_on_cache; [reflexivity|done|].
  unfold GetIndexOfBrowserStateWithPath. wp_simp.
  rewrite bool_decide_eq_true_2 by congruence. cbn [negb]. wp_simp.
  apply wp_CacheKey; [congruence|]. wp_simp. rewrite Hsame.
  pose proof (index_of_key_spec (sorted_keys_ c) (cache_key path) 0) as Hix.
  destruct (index_of_key _ _ _) as [i|].
  - destruct Hix as (Hin & Hat & _). rewrite Z.sub_0_r in Hat.
    pose proof (vec_at_Some_range _ _ _ Hat) as Hr.
    eapply wp_on_cache; [reflexivity|done|].
    eapply wp_mono, wp_SetAuthInfo; [|done|exact Hr].
    intros [] c' (Hi & Hk & Hd' & (d & Hinfo & Hg & Hn) & _). rewrite Hsame.
    eapply HQ; [reflexivity|apply cache_ok_set; [done|congruence]|].
    intros _. exists i, d. by rewrite Hk.
  - eapply wp_on_cache; [reflexivity|done|].
    eapply wp_mono, wp_AddBrowserState_account; [|done|split; [congruence|done]].
    intros [] c' (Hi & Hd' & Ha). rewrite Hsame.
    eapply HQ; [reflexivity|apply cache_ok_set; [done|congruence]|done].
Qed.

(** ** Counting browser states *)
Definition authenticated_at (c : BrowserStateInfoCache) (i : Z) : bool :=
  match info_at c i with
  | Some d => negb (bool_decide (gaia_id_of d = "")) || negb (bool_decide (user_name_of d = []))
  | None => false
  end.
Definition auth_error_at (c : BrowserStateInfoCache) (i : Z) : bool :=
  authenticated_at c i &&
  match info_at c i with Some d => auth_error_of d | None => false end.

(** How many of the indices [i, ..., i + n - 1] pass the test. *)
Definition count_if (f : Z → bool) (i n : Z) : Z := zlen (List.filter f (seqZ i n)).

Lemma count_if_S f i n :
  0 <= n → count_if f i (n + 1) = (if f i then 1 else 0) + count_if f (i + 1) n.
Proof.
  intros Hn. unfold count_if. rewrite seqZ_cons by lia. cbn [List.filter].
  replace (Z.pred (n + 1)) with n by lia. replace (Z.succ i) with (i + 1) by lia.
  destruct (f i); [rewrite zlen_cons|]; lia.
Qed.

Lemma wp_IsAuthenticated c i :
  info_cache_inv c → 0 <= i < GetNumberOfBrowserStates c →
  wp (BrowserStateIsAuthenticatedAtIndex i) (λ b c', b = authenticated_at c i ∧ c' = c) c.
Proof using All.
  intros Hinv Hi. destruct (info_at_range c i Hinv Hi) as [d Hd].
  destruct (wp_read_info c i d Hd) as (Hn & Hg & _).
  unfold BrowserStateIsAuthenticatedAtIndex, authenticated_at. rewrite Hd. wp_simp.
  eapply wp_mono, Hg. intros ? ? [-> ->]. case_bool_decide; cbn [negb orb]; wp_simp; [|done].
  eapply wp_mono, Hn. intros ? ? [-> ->]. by wp_simp.
Qed.

Lemma wp_count_loop c n i counts :
  info_cache_inv c → 0 <= i → i + Z.of_nat n = GetNumberOfBrowserStates c →
  wp (count_loop n i counts) (λ r c', c' = c ∧
    r = MkCounts (total counts)
          (signedin counts + count_if (authenticated_at c) i (Z.of_nat n))
          (auth_errors counts + count_if (auth_error_at c) i (Z.of_nat n))) c.
Proof using All.
  intros Hinv. revert i counts. induction n as [|n IH]; intros i counts Hi Hn.
  { cbn [count_loop]. wp_simp. split; [done|]. destruct counts. unfold count_if. simpl.
    by rewrite !Z.add_0_r. }
  cbn [count_loop]. wp_simp.
  eapply wp_mono, wp_IsAuthenticated; [|done|lia]. intros ? ? [-> ->].
  assert (Hs : Z.of_nat (S n) = Z.of_nat n + 1) by lia. rewrite Hs, !count_if_S by lia.
  destruct (info_at_range c i Hinv) as [d Hd]; [lia|].
  unfold auth_error_at at 1. destruct (authenticated_at c i) eqn:Ea; cbn [andb].
  - wp_simp. destruct (wp_read_info c i d Hd) as (_ & _ & He).
    eapply wp_mono, He. intros ? ? [-> ->].
    eapply wp_mono, IH; [|lia|lia]. intros r c' [-> ->]. split; [done|]. rewrite Hd. simpl.
    f_equal; lia.
  - eapply wp_mono, IH; [|lia|lia]. intros r c' [-> ->]. split; [done|]. f_equal; lia.
Qed.

Lemma wp_Count c counts :
  info_cache_inv c →
  wp (CountBrowserStateInformation counts) (λ r c', c' = c ∧
    r = (negb (GetNumberOfBrowserStates c =? 0),
         MkCounts (GetNumberOfBrowserStates c)
           (signedin counts + count_if (authenticated_at c) 0 (GetNumberOfBrowserStates c))
           (auth_errors counts + count_if (auth_error_at c) 0 (GetNumberOfBrowserStates c)))) c.
Proof using All.
  intros Hinv. unfold CountBrowserStateInformation. wp_simp.
  pose proof (zlen_nonneg (sorted_keys_ c)) as Hpos.
  destruct (Z.eqb_spec (GetNumberOfBrowserStates c) 0) as [E|E]; wp_simp; simpl.
  - rewrite E. unfold count_if. simpl. by rewrite !Z.add_0_r.
  - unfold GetNumberOfBrowserStates in *.
    eapply wp_mono, wp_count_loop; [|done|lia|]. 2:{ unfold GetNumberOfBrowserStates. lia. }
    intros r c' [-> ->]. wp_simp. simpl. by rewrite Z2Nat.id by lia.
Qed.

Lemma count_if_bounds f g i n :
  (∀ j, f j = true → g j = true) → 0 <= count_if f i n <= count_if g i n.
Proof.
  intros Hfg. split; [apply zlen_nonneg|]. unfold count_if, zlen.
  induction (seqZ i n) as [|j l IH]; [done|]. cbn [List.filter].
  destruct (f j) eqn:E; [rewrite (Hfg j E)|destruct (g j)]; simpl; lia.
Qed.

(** Counting visits every browser state of the cache once: the total is
    their number, the others are the numbers of authenticated ones and of
    authenticated ones in an error state, and they are ordered that way.  The
    cache is not changed and no check fails. *)
Theorem CountBrowserStateInformation_counts c :
  info_cache_inv c →
  let n := GetNumberOfBrowserStates c in
  ∃ errors signed,
    CountBrowserStateInformation (MkCounts 0 0 0) c =
      Ok ((negb (n =? 0), MkCounts n signed errors), c) ∧
    signed = count_if (authenticated_at c) 0 n ∧ errors = count_if (auth_error_at c) 0 n ∧
    0 <= errors <= signed ∧ signed <= n.
Proof using All.
  intros Hinv n. pose proof (wp_Count c (MkCounts 0 0 0) Hinv) as H.
  apply wp_run in H as (r & c' & Hrun & -> & ->). simpl in Hrun.
  eexists _, _. split; [exact Hrun|]. split; [done|]. split; [done|].
  split.
  - apply count_if_bounds. intros j. unfold auth_error_at. by intros [? _]%andb_true_iff.
  - pose proof (count_if_bounds (authenticated_at c) (λ _, true) 0 n (λ _ _, eq_refl)) as [_ Hb].
    etransitivity; [exact Hb|]. unfold count_if.
    assert (Hall : ∀ l : list Z, List.filter (λ _, true) l = l)
      by (intros l; induction l as [|a l IH]; [done|]; simpl; by rewrite IH).
    rewrite Hall. unfold zlen. rewrite length_seqZ.
    pose proof (zlen_nonneg (sorted_keys_ c)). unfold n, GetNumberOfBrowserStates in *. lia.
Qed.

(** ** GetBrowserState *)
Lemma heap_inv_same m m' :
  heap m' = heap m → next_address m' = next_address m → heap_inv m → heap_inv m'.
Proof. intros H1 H2 [Ha Hb]. split; rewrite ?H1, ?H2; done. Qed.

Lemma wp_DoFinalInit dir s path otr_p otr g n (Q : unit → Manager → Prop) m :
  user_data_dir = Some dir → cache_ok dir m →
  heap m !! s = Some (ChromeBrowserStateImpl path otr_p otr) →
  GetPrimaryAccountInfo s = (g, n) →
  (∀ c m', browser_state_info_cache_ m' = Some c → same_states m m' → cache_ok dir m' →
    (DirName path = dir → cached_account c path g n) → Q tt m') →
  wp (DoFinalInit s) Q m.
Proof using All.
  intros Hdir Hc Hs Hacc HQ. unfold DoFinalInit, DoFinalInitForServices. wp_simp.
  eapply (wp_AddBrowserStateToCache dir); [done| |exact Hs|exact Hacc|].
  { destruct Hc as (H1 & H2 & H3). by split_and!. }
  intros c m' -> (Hinv & Hd & Hp) Ha.
  unfold GetOriginalChromeBrowserState, GetStatePath. wp_simp.
  eapply wp_browser_state; [exact Hs|]. wp_simp. eapply wp_browser_state; [exact Hs|]. wp_simp.
  unfold LogNumberOfBrowserStates. wp_simp.
  apply (wp_GetBrowserStateInfoCache dir); [done|by split_and!|]. intros m' ->. wp_simp.
  eapply wp_on_cache; [reflexivity|done|].
  eapply wp_mono, wp_Count; [|exact Hinv]. intros r c' [-> ->]. wp_simp.
  eapply HQ; [reflexivity|by split_and!|by split_and!|exact Ha].
Qed.

(** On states reached by loading browser states, GetBrowserState fails no
    check: a path that is loaded gives the same object again and changes
    nothing; another path gives a new browser state with that path, known to
    the manager from then on, and when the path is in the user data directory
    the cache has its entry with the primary account.  The invariant (distinct
    paths, regular browser states, a consistent cache) is kept. *)
Theorem GetBrowserState_correct dir path m :
  user_data_dir = Some dir → manager_inv dir m →
  ∃ s m', GetBrowserState path m = Ok (s, m') ∧ manager_inv dir m' ∧
    find_state path (browser_states_ m') = Some s ∧
    (∀ s', find_state path (browser_states_ m) = Some s' → s = s' ∧ m' = m) ∧
    (find_state path (browser_states_ m) = None →
       heap m' !! s = Some (ChromeBrowserStateImpl path (AppendASCII path "OTR") None) ∧
       (DirName path = dir → ∃ c, browser_state_info_cache_ m' = Some c ∧
          cached_account c path (GetPrimaryAccountInfo s).1 (GetPrimaryAccountInfo s).2)).
Proof using All.
  intros Hdir (Hheap & Hsorted & Hreg & Hc).
  match goal with |- ∃ s m', _ = _ ∧ @?R s m' =>
    enough (wp (GetBrowserState path) R m) as (s & m' & H1 & H2)%wp_run by eauto end.
  unfold GetBrowserState. wp_simp.
  destruct (find_state path (browser_states_ m)) as [s|] eqn:Ef.
  { wp_simp. split_and!; [by split_and!|done|by intros ? [= <-]|done]. }
  unfold ChromeBrowserStateImpl_new, new_object. wp_simp.
  set (s := next_address m).
  set (b := ChromeBrowserStateImpl path (AppendASCII path "OTR") None).
  eapply wp_of_run; [reflexivity|]. cbv beta.
  pose proof (heap_inv_new m b Hheap) as Hheap1. specialize (Hheap1 ltac:(done)).
  unfold IsOffTheRecord. wp_simp.
  eapply (wp_browser_state _ b); [apply lookup_insert_eq|]. wp_simp. split; [done|].
  cbn [browser_states_ set_browser_states set_heap].
  rewrite find_state_insert by done. rewrite bool_decide_eq_true_2 by done.
  split; [done|]. destruct (GetPrimaryAccountInfo s) as [g n] eqn:Hacc.
  eapply (wp_DoFinalInit dir s path _ None g n);
    [done|by destruct Hc as (? & ? & ?)|apply lookup_insert_eq|exact Hacc|].
  intros c m' Hcache (Hh & Hn & Hl) Hok Ha. wp_simp.
  cbn [heap next_address browser_states_ set_browser_states set_heap] in Hh, Hn, Hl.
  split_and!.
  - split_and!.
    + by apply (heap_inv_same (set_heap (<[s := b]> (heap m)) (Pos.succ s) m)).
    + rewrite Hl. by apply set_insert_sorted; [apply _|].
    + intros q t. rewrite Hl, Hh. intros [[= -> ->]|Hin]%set_insert_elem.
      * rewrite lookup_insert_eq. by do 2 eexists.
      * destruct (Hreg q t Hin) as (otr_p & otr & Ht).
        pose proof (proj1 Hheap _ _ Ht). rewrite lookup_insert_ne by (unfold s; lia). eauto.
    + exact Hok.
  - rewrite Hl. by apply find_state_insert.
  - done.
  - intros _. rewrite Hh, lookup_insert_eq. split; [done|]. intros Hd.
    exists c. split; [done|]. unfold s in Hacc. rewrite Hacc. by apply Ha.
Qed.
End manager.

(** ** A browser with one user data directory *)
Module BrowserStateExamples.
#[local] Existing Instance ToyValues.values.
#[local] Existing Instance ToyValues.laws.
#[local] Existing Instance ToyFiles.paths.
#[local] Existing Instance ToyFiles.path_laws.

#[local] Instance example_env : ManagerEnv := {|
  user_data_dir := Some (["data"] : list string);
  GetPrimaryAccountInfo _ := ("gaia", [97]);
|}.

Definition example_dir : FilePath := (["data"] : list string).
Definition example_otr : FilePath := (["otr"] : list string).
Definition example_path : FilePath := (["data"; "Default"] : list string).
Definition example_manager : Manager :=
  MkManager ∅ 1 [] None (RegisterPrefs_info_cache ∅) "" [].

(** One known browser state, which is then added a second time: the vector has
    its key twice, and after it is removed once the remaining key has no
    information. *)
Definition twice_added : M BrowserStateInfoCache (list Z) :=
  AddBrowserState example_path "gaia" [97];;
  AddBrowserState example_path "gaia" [97];;
  RemoveBrowserState example_path;;
  GetUserNameOfBrowserStateAtIndex 0.

Lemma browser_state_added_twice :
  crash_of (twice_added
    (BrowserStateInfoCache_new (RegisterPrefs_info_cache ∅) example_dir)) = Some NullDeref.
Proof. vm_compute. reflexivity. Qed.

Lemma registered_empty :
  dict_of_dicts (GetDictionaryPref (RegisterPrefs_info_cache ∅) kBrowserStateInfoCache).
Proof. intros k v H. by vm_compute in H. Qed.

Lemma info_cache_consistent_witness :
  ∃ c', run_info_op (InfoAdd example_path "gaia" [97])
    (BrowserStateInfoCache_new (RegisterPrefs_info_cache ∅) example_dir) = Ok (tt, c').
Proof.
  destruct (info_cache_consistent (RegisterPrefs_info_cache ∅) example_dir
    (InfoAdd example_path "gaia" [97]) registered_empty) as [_ H].
  apply (H _ (reach_refl _ _)). split; [reflexivity|]. vm_compute. by intros ?%elem_of_nil.
Defined.

Lemma CountBrowserStateInformation_counts_witness :
  ∃ errors signed,
    CountBrowserStateInformation (MkCounts 0 0 0)
      (BrowserStateInfoCache_new (RegisterPrefs_info_cache ∅) example_dir) =
    Ok ((false, MkCounts 0 signed errors),
        BrowserStateInfoCache_new (RegisterPrefs_info_cache ∅) example_dir).
Proof.
  destruct (CountBrowserStateInformation_counts
    (BrowserStateInfoCache_new (RegisterPrefs_info_cache ∅) example_dir))
    as (e & s & H & _).
  { apply BrowserStateInfoCache_new_inv, registered_empty. }
  by exists e, s.
Defined.

Lemma example_inv : manager_inv example_dir example_manager.
Proof.
  split_and!.
  - split; simpl; intros *; by rewrite lookup_empty.
  - constructor.
  - intros p s ?%elem_of_nil. done.
  - apply BrowserStateInfoCache_new_inv, registered_empty.
Qed.

Lemma GetBrowserState_correct_witness :
  ∃ s m', GetBrowserState example_path example_manager = Ok (s, m') ∧
    find_state example_path (browser_states_ m') = Some s.
Proof.
  assert (Hd : user_data_dir = Some example_dir) by reflexivity.
  destruct (GetBrowserState_correct example_dir example_path example_manager Hd example_inv)
    as (s & m' & H1 & _ & H2 & _).
  by exists s, m'.
Defined.

Lemma off_the_record_lifecycle_witness :
  ∃ o m1, GetOffTheRecordChromeBrowserState 1
    (set_heap {[1%positive := ChromeBrowserStateImpl example_path example_otr None]} 2
       example_manager) = Ok (o, m1) ∧
    GetOriginalChromeBrowserState o m1 = Ok (1%positive, m1).
Proof.
  destruct (off_the_record_lifecycle
    (set_heap {[1%positive := ChromeBrowserStateImpl example_path example_otr None]} 2
       example_manager) 1 example_path example_otr None) as (o & m1 & H1 & _ & _ & _ & _ & H2 & _).
  - split; simpl.
    + intros s b [<- _]%lookup_singleton_Some. done.
    + intros s p otr_p o [_ ?]%lookup_singleton_Some. done.
  - apply lookup_insert_eq.
  - by exists o, m1.
Defined.
End BrowserStateExamples.
