(* ===== verification/ReadingListModel.v ===== *)
(** * The reading list model

    ReadingListModel and ReadingListEntry (components/reading_list/core) are
    outside the repository.  [ReadingListEnv] has the operations the code of
    src/chrome/browser/reading_list uses, on an abstract model, and
    [ReadingListLaws] their documented behaviour; the functions that name the
    files of an entry are there too.  [ToyReadingList] is a concrete
    instance. *)

From S2P Require Import Prelude WebEnv FilePaths.

(** ReadingListEntry::DistillationState *)
Inductive DistillationState : Set :=
  | WAITING | PROCESSING | PROCESSED | WILL_RETRY | DISTILLATION_ERROR.
#[global] Instance DistillationState_eq_dec : EqDecision DistillationState.
Proof. solve_decision. Defined.

(** reading_list::OfflineFileType *)
Inductive OfflineFileType : Set := OFFLINE_TYPE_HTML | OFFLINE_TYPE_PDF.

Class ReadingListEnv `{!WebEnv} `{!FilePaths} := {
  (* components/reading_list/core/reading_list_entry.h *)
  ReadingListEntry : Type;
  entry_URL : ReadingListEntry → GURL;
  IsRead : ReadingListEntry → bool;
  DistilledState : ReadingListEntry → DistillationState;
  DistilledPath : ReadingListEntry → FilePath;
  DistilledURL : ReadingListEntry → GURL;
  FailedDownloadCounter : ReadingListEntry → Z;
  TimeUntilNextTry : ReadingListEntry → Z;
  (* components/reading_list/core/reading_list_model.h *)
  ReadingListModel : Type;
  loaded : ReadingListModel → bool;
  Keys : ReadingListModel → list GURL;
  GetEntryByURL : ReadingListModel → GURL → option ReadingListEntry;
  SetEntryDistilledState : GURL → DistillationState → ReadingListModel → ReadingListModel;
  (* url, path, distilled url, size *)
  SetEntryDistilledInfo :
    GURL → FilePath → GURL → Z → ReadingListModel → ReadingListModel;
  SetEntryTitle : GURL → string → ReadingListModel → ReadingListModel;
  DeleteAllEntries : ReadingListModel → bool * ReadingListModel;
  (* components/reading_list/core/offline_url_utils.h *)
  OfflineURLDirectoryID : GURL → string;
  OfflineRootDirectoryPath : FilePath → FilePath;
  OfflineURLDirectoryAbsolutePath : FilePath → GURL → FilePath;
  OfflinePagePath : GURL → OfflineFileType → FilePath;
  OfflineURLAbsolutePathFromRelativePath : FilePath → FilePath → FilePath;
  (* base/strings/string_util.h *)
  CollapseWhitespaceASCII : string → string;
}.

Class ReadingListLaws `{RL : ReadingListEnv} : Prop := {
  law_GetEntryByURL m u e : GetEntryByURL m u = Some e → entry_URL e = u;
  law_entry_valid m u e : GetEntryByURL m u = Some e → is_valid u = true;
  law_Keys m u : u ∈ Keys m → is_Some (GetEntryByURL m u);
  law_SetState_other u s m u' :
    u ≠ u' → GetEntryByURL (SetEntryDistilledState u s m) u' = GetEntryByURL m u';
  law_SetState_same u s m :
    match GetEntryByURL m u with
    | Some e => ∃ e', GetEntryByURL (SetEntryDistilledState u s m) u = Some e' ∧
                  DistilledState e' = s ∧ IsRead e' = IsRead e
    | None => GetEntryByURL (SetEntryDistilledState u s m) u = None
    end;
  law_SetInfo_same u p d n m :
    match GetEntryByURL m u with
    | Some e => ∃ e', GetEntryByURL (SetEntryDistilledInfo u p d n m) u = Some e' ∧
                  DistilledState e' = PROCESSED ∧ DistilledPath e' = p ∧ DistilledURL e' = d
    | None => GetEntryByURL (SetEntryDistilledInfo u p d n m) u = None
    end;
  law_SetInfo_other u p d n m u' :
    u ≠ u' → GetEntryByURL (SetEntryDistilledInfo u p d n m) u' = GetEntryByURL m u';
  law_SetTitle u t m u' :
    match GetEntryByURL m u' with
    | Some e => ∃ e', GetEntryByURL (SetEntryTitle u t m) u' = Some e' ∧
                  DistilledState e' = DistilledState e ∧
                  DistilledPath e' = DistilledPath e ∧ DistilledURL e' = DistilledURL e
    | None => GetEntryByURL (SetEntryTitle u t m) u' = None
    end;
  law_SetTitle_other u t m u' :
    u ≠ u' → GetEntryByURL (SetEntryTitle u t m) u' = GetEntryByURL m u';
  law_loaded_state u s m : loaded (SetEntryDistilledState u s m) = loaded m;
  law_loaded_info u p d n m : loaded (SetEntryDistilledInfo u p d n m) = loaded m;
  law_loaded_title u t m : loaded (SetEntryTitle u t m) = loaded m;
  law_page_path_not_empty u t : path_empty (OfflinePagePath u t) = false;
}.

(** ** A concrete instance: a list of entries *)
Module ToyReadingList.
#[local] Existing Instance Toy.env.
#[local] Existing Instance Toy.url_eq_dec.
#[local] Existing Instance ToyFiles.paths.

Record entry := MkEntry {
  e_url : Toy.url;
  e_read : bool;
  e_state : DistillationState;
  e_path : list string;
  e_distilled_url : Toy.url;
  e_failures : Z;
}.

Record model := MkModel { m_loaded : bool; m_entries : list entry }.

Definition get (m : model) (u : Toy.url) : option entry :=
  if is_valid u then List.find (λ e, bool_decide (e_url e = u)) (m_entries m) else None.
Definition update (u : Toy.url) (f : entry → entry) (m : model) : model :=
  MkModel (m_loaded m)
    (map (λ e, if bool_decide (e_url e = u) then f e else e) (m_entries m)).

(** A failure is counted when the entry was not in an error state. *)
Definition set_state (s : DistillationState) (e : entry) : entry :=
  MkEntry (e_url e) (e_read e) s (e_path e) (e_distilled_url e)
    (e_failures e + match s, e_state e with
                    | (WILL_RETRY | DISTILLATION_ERROR),
                      (WAITING | PROCESSING | PROCESSED) => 1
                    | _, _ => 0
                    end).
Definition set_info (p : list string) (d : Toy.url) (e : entry) : entry :=
  MkEntry (e_url e) (e_read e) PROCESSED p d 0.

Lemma get_update u f m u' :
  (∀ e, e_url (f e) = e_url e) →
  get (update u f m) u' =
  match get m u' with
  | Some e => Some (if bool_decide (u = u') then f e else e)
  | None => None
  end.
Proof.
  intros Hf. unfold get, update. destruct (@is_valid Toy.env u'); [|done].
  cbn [m_entries]. induction (m_entries m) as [|e l IH]; [done|].
  cbn [map List.find].
  assert (Hsame : e_url (if bool_decide (e_url e = u) then f e else e) = e_url e)
    by (destruct (bool_decide (e_url e = u)); [apply Hf|done]).
  rewrite Hsame. destruct (bool_decide (e_url e = u')) eqn:H; [|exact IH].
  apply bool_decide_eq_true in H as <-.
  by rewrite (bool_decide_ext (e_url e = u) (u = e_url e)).
Qed.

#[export] Instance env : ReadingListEnv := {|
  ReadingListEntry := entry;
  entry_URL := e_url;
  IsRead := e_read;
  DistilledState := e_state;
  DistilledPath := e_path;
  DistilledURL := e_distilled_url;
  FailedDownloadCounter := e_failures;
  TimeUntilNextTry e := e_failures e * 60;
  ReadingListModel := model;
  loaded := m_loaded;
  Keys m := List.filter is_valid (map e_url (m_entries m));
  GetEntryByURL := get;
  SetEntryDistilledState u s := update u (set_state s);
  SetEntryDistilledInfo u p d _ := update u (set_info p d);
  SetEntryTitle u t m := m;
  DeleteAllEntries m := (m_loaded m, MkModel (m_loaded m) []);
  OfflineURLDirectoryID u := Toy.toy_spec u;
  OfflineRootDirectoryPath p := p ++ ["Offline"];
  OfflineURLDirectoryAbsolutePath p u := p ++ ["Offline"; Toy.toy_spec u];
  OfflinePagePath u t := [Toy.toy_spec u;
    match t with OFFLINE_TYPE_HTML => "page.html" | OFFLINE_TYPE_PDF => "file.pdf" end];
  OfflineURLAbsolutePathFromRelativePath p r := p ++ "Offline" :: r;
  CollapseWhitespaceASCII s := s;
|}.

#[export] Instance laws : ReadingListLaws.
Proof.
  split.
  - intros m u e H. change (get m u = Some e) in H. unfold get in H.
    destruct (is_valid u); [|done]. apply List.find_some in H as [_ H].
    by apply bool_decide_eq_true in H.
  - intros m u e H. change (get m u = Some e) in H. unfold get in H. by destruct (is_valid u).
  - intros m u Hu%list_elem_of_In. apply List.filter_In in Hu as [Hin Hv].
    change (is_Some (get m u)). unfold get. rewrite Hv.
    apply List.in_map_iff in Hin as (e & <- & He).
    destruct (List.find _ _) as [e'|] eqn:Ef; [by eexists|].
    pose proof (List.find_none _ _ Ef e He) as Hn. by apply bool_decide_eq_false in Hn.
  - intros u s m u' Hne. simpl. rewrite get_update by done.
    rewrite bool_decide_eq_false_2 by done. by destruct (get m u').
  - intros u s m. simpl. rewrite get_update, bool_decide_eq_true_2 by done.
    destruct (get m u) as [e|]; [by exists (set_state s e)|done].
  - intros u p d n m. simpl. rewrite get_update, bool_decide_eq_true_2 by done.
    destruct (get m u) as [e|]; [by exists (set_info p d e)|done].
  - intros u p d n m u' Hne. simpl. rewrite get_update by done.
    rewrite bool_decide_eq_false_2 by done. by destruct (get m u').
  - intros u t m u'. simpl. destruct (get m u') as [e|]; [by exists e|done].
  - done.
  - done.
  - done.
  - done.
  - intros u t. unfold path_empty. apply bool_decide_eq_false_2.
    change (Toy.encode (@OfflinePagePath _ _ env u t) ≠ "").
    simpl. destruct t; by destruct (Toy.toy_spec u).
Qed.
End ToyReadingList.
