(* ===== verification/OfflineURLUtils.v ===== *)
(** * URLs of offline pages

    src/chrome/browser/reading_list/offline_url_utils.cc: the chrome://offline
    URL under which the distilled page of a reading list entry is shown, the
    entry's URL and the URL to display that are read back from it, and the
    test that such a URL is the one made for a processed entry. *)

From S2P Require Import Prelude WebEnv FilePaths ReadingListModel.

(** chrome_url_constants.cc *)
Definition kChromeUIScheme : string := "chrome".
Definition kChromeUIOfflineURL : string := "chrome://offline/".
Definition kChromeUIOfflineHost : string := "offline".

Definition kEntryURLQueryParam : string := "entryURL".
Definition kVirtualURLQueryParam : string := "virtualURL".

Section offline_urls.
Context `{ENV : WebEnv} `{FP : FilePaths} `{RL : !ReadingListEnv}.

Definition OfflineURLForPath (distilled_path : FilePath) (entry_url virtual_url : GURL) :
    res GURL :=
  if path_empty distilled_path then Crash DCheckFailed
  else if negb (is_valid entry_url) then Crash DCheckFailed
  else if negb (is_valid virtual_url) then Crash DCheckFailed
  else
    let page_url := GURL_of kChromeUIOfflineURL in
    let replacements := MkReplacements None (Some (path_value distilled_path)) None in
    let page_url := ReplaceComponents page_url replacements in
    let page_url := AppendQueryParameter page_url kEntryURLQueryParam (spec entry_url) in
    Ok (AppendQueryParameter page_url kVirtualURLQueryParam (spec virtual_url)).

Definition EntryURLForOfflineURL (offline_url : GURL) : GURL :=
  match GetValueForKeyInQuery offline_url kEntryURLQueryParam with
  | Some entry_url_string =>
      let entry_url := GURL_of entry_url_string in
      if is_valid entry_url then entry_url else EmptyGURL
  | None => EmptyGURL
  end.

Definition VirtualURLForOfflineURL (offline_url : GURL) : GURL :=
  match GetValueForKeyInQuery offline_url kVirtualURLQueryParam with
  | Some virtual_url_string =>
      let virtual_url := GURL_of virtual_url_string in
      if is_valid virtual_url then virtual_url else EmptyGURL
  | None => EmptyGURL
  end.

(** The result, and the value written to [resources_root_url] when it is not
    null. *)
Definition FileURLForDistilledURL (distilled_url : GURL) (offline_path : FilePath)
    (resources_root_url : option GURL) : res (GURL * option GURL) :=
  if negb (is_valid distilled_url) then Ok (EmptyGURL, resources_root_url)
  else if negb (SchemeIs distilled_url kChromeUIScheme) then Crash DCheckFailed
  else
    let file_url := GURL_of ((kFileScheme +:+ kStandardSchemeSeparator) +:+
                             path_value offline_path +:+ url_path distilled_url) in
    Ok (file_url, (λ _, Resolve file_url ".") <$> resources_root_url).

Definition IsOfflineURL (url : GURL) : bool :=
  SchemeIs url kChromeUIScheme && bool_decide (url_host url = kChromeUIOfflineHost).

(** [model] is null or a model. *)
Definition IsOfflineURLValid (url : GURL) (model : option ReadingListModel) : res bool :=
  if negb (IsOfflineURL url) then Ok false
  else
    let entry_url := EntryURLForOfflineURL url in
    match model with
    | None => Ok false
    | Some model =>
        if negb (is_valid entry_url) || negb (loaded model) then Ok false
        else
          match GetEntryByURL model entry_url with
          | None => Ok false
          | Some entry =>
              if negb (bool_decide (DistilledState entry = PROCESSED)) then Ok false
              else
                expected ← OfflineURLForPath (DistilledPath entry) (entry_URL entry)
                             (DistilledURL entry);
                mret (bool_decide (url = expected))
          end
    end.

Context `{LAWS : !WebEnvLaws} `{RLL : !ReadingListLaws}.

Lemma OfflineURLForPath_ok path entry virtual :
  path_empty path = false → is_valid entry = true → is_valid virtual = true →
  ∃ u, OfflineURLForPath path entry virtual = Ok u ∧
    IsOfflineURL u = true ∧ EntryURLForOfflineURL u = entry ∧
    VirtualURLForOfflineURL u = virtual.
Proof using ENV FP RL LAWS.
  intros Hp He Hv. unfold OfflineURLForPath. rewrite Hp, He, Hv. cbn [negb].
  eexists. split; [reflexivity|].
  set (u0 := ReplaceComponents (GURL_of kChromeUIOfflineURL)
               (MkReplacements None (Some (path_value path)) None)).
  assert (H0 : SchemeIs u0 "chrome" = true).
  { unfold u0. rewrite law_replace_path_scheme. apply law_chrome_offline_scheme. }
  assert (Hhost : url_host u0 = kChromeUIOfflineHost).
  { unfold u0. rewrite (law_replace_path_host (GURL_of kChromeUIOfflineURL) (path_value path)).
    apply law_chrome_offline_host. }
  assert (H1 : SchemeIs (AppendQueryParameter u0 kEntryURLQueryParam (spec entry)) "chrome" = true)
    by (by rewrite law_append_chrome_scheme).
  assert (Hq : ∀ k, GetValueForKeyInQuery u0 k = None)
    by (intros k; apply law_chrome_offline_no_query).
  split_and!.
  - unfold IsOfflineURL. rewrite law_append_chrome_scheme by done.
    rewrite law_append_chrome_scheme by done.
    rewrite law_append_chrome_host, law_append_chrome_host by done.
    rewrite Hhost, bool_decide_eq_true_2 by done. unfold kChromeUIScheme. by rewrite H0.
  - unfold EntryURLForOfflineURL. rewrite !law_append_chrome_lookup, Hq by done.
    rewrite bool_decide_eq_true_2 by done. by rewrite law_spec_roundtrip, He.
  - unfold VirtualURLForOfflineURL. rewrite !law_append_chrome_lookup, Hq by done.
    rewrite bool_decide_eq_false_2 by done. rewrite bool_decide_eq_true_2 by done.
    by rewrite law_spec_roundtrip, Hv.
Qed.

(** The URL made for the page of an entry is an offline URL, and the entry's
    URL and the URL to display are read back from it; it is valid for a model
    exactly when the entry is processed there with this path, and with this
    URL to display. *)
Theorem offline_url_roundtrip path entry virtual m e :
  path_empty path = false → is_valid entry = true → is_valid virtual = true →
  loaded m = true → GetEntryByURL m entry = Some e →
  path_empty (DistilledPath e) = false → is_valid (DistilledURL e) = true →
  ∃ u, OfflineURLForPath path entry virtual = Ok u ∧
    IsOfflineURL u = true ∧ EntryURLForOfflineURL u = entry ∧
    VirtualURLForOfflineURL u = virtual ∧
    ∃ b, IsOfflineURLValid u (Some m) = Ok b ∧
      (b = true → DistilledState e = PROCESSED ∧ DistilledURL e = virtual) ∧
      (DistilledState e = PROCESSED → DistilledPath e = path → DistilledURL e = virtual →
       b = true).
Proof using All.
  intros Hp He Hv Hl Hm Hdp Hdv.
  destruct (OfflineURLForPath_ok path entry virtual Hp He Hv) as (u & Hu & Hoff & Hentry & Hvirt).
  exists u. split_and!; [done..|]. unfold IsOfflineURLValid. rewrite Hoff, Hentry. cbn [negb].
  rewrite He, Hl. cbn [negb orb]. rewrite Hm.
  case_bool_decide as Hs; cbn [negb]; [|by exists false].
  pose proof (law_GetEntryByURL m entry e Hm) as Hurl.
  destruct (OfflineURLForPath_ok (DistilledPath e) (entry_URL e) (DistilledURL e))
    as (u' & Hu' & _ & _ & Hvirt'); [done|by rewrite Hurl|done|].
  rewrite Hu'. eexists. split; [reflexivity|]. split.
  - intros ->%bool_decide_eq_true. split; [done|]. congruence.
  - intros _ Hpath Hvirtual. apply bool_decide_eq_true. rewrite Hurl, Hpath, Hvirtual in Hu'.
    congruence.
Qed.

(** IsOfflineURLValid accepts a URL only when it is the offline URL of some
    processed entry of a loaded model, character for character; without a
    loaded model, and for any other URL, it answers no. *)
Theorem IsOfflineURLValid_sound url model :
  IsOfflineURLValid url model = Ok true →
  ∃ m e, model = Some m ∧ loaded m = true ∧
    GetEntryByURL m (EntryURLForOfflineURL url) = Some e ∧ DistilledState e = PROCESSED ∧
    OfflineURLForPath (DistilledPath e) (entry_URL e) (DistilledURL e) = Ok url.
Proof.
  unfold IsOfflineURLValid. destruct (IsOfflineURL url); [|done]. cbn [negb].
  destruct model as [m|]; [|done].
  destruct (negb (is_valid _) || negb (loaded m)) eqn:Ev; [done|].
  apply orb_false_iff in Ev as [_ Hl%negb_false_iff].
  destruct (GetEntryByURL m _) as [e|] eqn:Ee; [|done].
  case_bool_decide as Hs; [|done]. cbn [negb].
  destruct (OfflineURLForPath _ _ _) as [u|] eqn:Eu; [|done]. intros [= Hb].
  apply bool_decide_eq_true in Hb as ->. by exists m, e.
Qed.
End offline_urls.

Module OfflineExamples.
#[local] Existing Instance Toy.env.
#[local] Existing Instance Toy.laws.
#[local] Existing Instance ToyFiles.paths.
#[local] Existing Instance ToyReadingList.env.
#[local] Existing Instance ToyReadingList.laws.

Definition example_entry : ToyReadingList.entry :=
  ToyReadingList.MkEntry (Toy.web "a" "") false PROCESSED ["d"; "page.html"] (Toy.web "b" "") 0.
Definition example_model : ReadingListModel :=
  ToyReadingList.MkModel true [example_entry].
Definition page_path : FilePath := (["d"; "page.html"] : list string).

Lemma offline_url_roundtrip_witness :
  ∃ u, OfflineURLForPath page_path (Toy.web "a" "") (Toy.web "b" "") = Ok u ∧
    EntryURLForOfflineURL u = Toy.web "a" "" ∧
    IsOfflineURLValid u (Some example_model) = Ok true.
Proof.
  destruct (offline_url_roundtrip page_path (Toy.web "a" "") (Toy.web "b" "")
    example_model example_entry) as (u & H1 & _ & H2 & _ & b & H3 & _ & H4); try reflexivity.
  exists u. split; [exact H1|]. split; [exact H2|].
  rewrite H3. by rewrite (H4 eq_refl eq_refl eq_refl).
Defined.

Lemma IsOfflineURLValid_sound_witness :
  ∃ url m e, IsOfflineURLValid url (Some example_model) = Ok true ∧
    Some example_model = Some m ∧
    GetEntryByURL m (EntryURLForOfflineURL url) = Some e ∧ DistilledState e = PROCESSED.
Proof.
  set (url := AppendQueryParameter (AppendQueryParameter
    (ReplaceComponents (GURL_of kChromeUIOfflineURL)
      (MkReplacements None (Some (path_value page_path)) None))
    kEntryURLQueryParam (spec (Toy.web "a" ""))) kVirtualURLQueryParam (spec (Toy.web "b" ""))).
  assert (H : IsOfflineURLValid url (Some example_model) = Ok true) by reflexivity.
  destruct (IsOfflineURLValid_sound url (Some example_model) H) as (m & e & Hm & _ & He & Hs & _).
  by exists url, m, e.
Defined.
End OfflineExamples.
