(* ===== verification/DistillerViewer.v ===== *)
(** * The distiller's viewer

    src/chrome/browser/dom_distiller/distiller_viewer.cc and .h: the object
    that turns a distilled article into the HTML text and the images given to
    its callback.  dom_distiller itself is outside the repository
    ([DomDistillerEnv]): the article is a protocol buffer with its pages, and
    the base class sends JavaScript to the viewer. *)

From S2P Require Import Prelude WebEnv.

(** components/dom_distiller/core/proto/distilled_article.proto *)
Record DistilledImage := MkDistilledImage { image_url : string; image_data : string }.
Record DistilledPage := MkDistilledPage { page_html : string; page_image : list DistilledImage }.
Record DistilledArticleProto := MkArticle {
  article_title : string;
  article_pages : list DistilledPage;
}.

(** components/dom_distiller/core: the scripts of
    DomDistillerRequestViewBase::SendCommonJavaScript and ::OnArticleReady, in
    the order they are sent, and viewer::GetUnsafeArticleTemplateHtml. *)
Class DomDistillerEnv := {
  CommonJavaScript : list string;
  ArticleReadyJavaScript : DistilledArticleProto → list string;
  Theme : Type;
  FontFamily : Type;
  GetTheme : Theme;
  GetFontFamily : FontFamily;
  GetUnsafeArticleTemplateHtml : string → Theme → FontFamily → string;
}.

Section distiller_viewer.
Context `{ENV : WebEnv} `{DD : DomDistillerEnv}.

Record ImageInfo := MkImageInfo { info_url : GURL; info_data : string }.

Record DistillerViewer := MkViewer {
  url_ : GURL;
  js_buffer_ : string;
}.

(** The arguments of the callback. *)
Record distillation := MkDistillation {
  d_url : GURL;
  d_html : string;
  d_images : list ImageInfo;
  d_title : string;
}.

Definition SendJavaScript (buffer : string) (v : DistillerViewer) : DistillerViewer :=
  MkViewer (url_ v) (js_buffer_ v +:+ buffer).

(** The second constructor: distillation has started when it returns. *)
Definition DistillerViewer_new (url : GURL) : res DistillerViewer :=
  if negb (is_valid url) then Crash DCheckFailed
  else Ok (foldl (flip SendJavaScript) (MkViewer url "") CommonJavaScript).

Definition article_is_empty (article_proto : DistilledArticleProto) : bool :=
  match article_pages article_proto with
  | [] => true
  | page :: _ => bool_decide (page_html page = "")
  end.

(** The two nested loops. *)
Definition article_images (article_proto : DistilledArticleProto) : list ImageInfo :=
  concat (map (λ page, map (λ image, MkImageInfo (GURL_of (image_url image)) (image_data image))
                         (page_image page))
            (article_pages article_proto)).

Definition OnArticleReady (article_proto : DistilledArticleProto) (v : DistillerViewer) :
    distillation * DistillerViewer :=
  let v := foldl (flip SendJavaScript) v (ArticleReadyJavaScript article_proto) in
  if negb (article_is_empty article_proto) then
    let html := GetUnsafeArticleTemplateHtml (spec (url_ v)) GetTheme GetFontFamily in
    let html_and_script :=
      html +:+ ("<script> distiller_on_ios = true; " +:+ js_buffer_ v +:+ "</script>") in
    (MkDistillation (url_ v) html_and_script (article_images article_proto)
       (article_title article_proto), v)
  else (MkDistillation (url_ v) "" [] "", v).

Definition OnDistillerFinished (distilled_article : DistilledArticleProto)
    (v : DistillerViewer) : distillation * DistillerViewer :=
  OnArticleReady distilled_article v.

Lemma SendJavaScript_url l v : url_ (foldl (flip SendJavaScript) v l) = url_ v.
Proof. revert v. by induction l as [|b l IH]; intros v; simpl; [|rewrite IH]. Qed.

Lemma SendJavaScript_buffer l v :
  js_buffer_ (foldl (flip SendJavaScript) v l) = js_buffer_ v +:+ String.concat "" l.
Proof.
  revert v. induction l as [|b l IH]; intros v; cbn [foldl].
  - by rewrite string_app_nil_r.
  - rewrite IH. simpl. rewrite string_app_assoc. f_equal.
    destruct l; simpl; [by rewrite string_app_nil_r|done].
Qed.

(** The callback gets no text exactly for an article without content, and the
    scripts are sent to the page in the order they came. *)
Lemma OnArticleReady_html article v :
  d_url (OnArticleReady article v).1 = url_ v ∧
  (d_html (OnArticleReady article v).1 = "" ↔ article_is_empty article = true).
Proof.
  unfold OnArticleReady. destruct (article_is_empty article) eqn:E; cbn [negb fst d_url d_html];
    rewrite SendJavaScript_url; split; try done.
  split; [|done]. destruct (GetUnsafeArticleTemplateHtml _ _ _); done.
Qed.

Lemma DistillerViewer_new_ok url :
  is_valid url = true → ∃ v, DistillerViewer_new url = Ok v ∧ url_ v = url.
Proof.
  intros H. unfold DistillerViewer_new. rewrite H. cbn [negb]. eexists. split; [done|].
  by rewrite SendJavaScript_url.
Qed.
End distiller_viewer.
