(* ===== verification/URLDownloader.v ===== *)
(** * Downloading the pages of the reading list

    src/chrome/browser/reading_list/url_downloader.cc and .h: a queue of
    downloads and deletions of which one is handled at a time.  A step of the
    downloader ends by posting a task to its sequenced task runner, by
    starting the distiller or by starting the fetch of a PDF file; the task,
    its reply, the distiller or the fetch then calls it back.  The state keeps
    what is under way: [posted] and [replies] for the task runner, and in the
    distiller and the loader whether they still run. *)

From S2P Require Import Prelude WebEnv FilePaths ReadingListModel DistillerViewer.

(** URLDownloader::SuccessState and URLDownloader::TaskType *)
Inductive SuccessState : Set := DOWNLOAD_SUCCESS | DOWNLOAD_EXISTS | ERROR.
Inductive TaskType : Set := DELETE | DOWNLOAD.
#[global] Instance SuccessState_eq_dec : EqDecision SuccessState.
Proof. solve_decision. Defined.
#[global] Instance TaskType_eq_dec : EqDecision TaskType.
Proof. solve_decision. Defined.

(** base/md5.h and net/base/escape.h *)
Class DownloaderEnv := {
  MD5String : string → string;
  EscapeForHTML : string → string;
}.

Definition kDisableImageContextMenuScript : string :=
  "<script>" +:+
  "document.addEventListener('DOMContentLoaded', function (event) {" +:+
  "    var imgMenuDisabler = document.createElement('style');" +:+
  "    imgMenuDisabler.innerHTML = 'img { -webkit-touch-callout: none; }';" +:+
  "    document.head.appendChild(imgMenuDisabler);" +:+
  "}, false);" +:+
  "</script>".

(** ** Replacing every occurrence of a text *)

(** [html.replace(pos, n, rep)] *)
Definition string_replace (pos n : nat) (rep html : string) : string :=
  string_take pos html +:+ rep +:+ string_drop (pos + n) html.

(** The loop of SaveAndReplaceImagesInHTML over the occurrences of an image's
    URL, from the one at [pos]; [None] when it runs out of fuel. *)
Fixpoint replace_loop (fuel : nat) (image_url local_image_name mutable_html : string)
    (pos : option nat) : option string :=
  match pos with
  | None => Some mutable_html
  | Some p =>
      match fuel with
      | O => None
      | S fuel =>
          let mutable_html :=
            string_replace p (String.length image_url) local_image_name mutable_html in
          replace_loop fuel image_url local_image_name mutable_html
            (string_find_from image_url mutable_html (p + String.length local_image_name))
      end
  end.

Section url_downloader.
Context `{ENV : WebEnv} `{FP : FilePaths} `{FSY : !FileSystem} `{RL : !ReadingListEnv}
  `{DD : DomDistillerEnv} `{DE : DownloaderEnv}.

(** The requests a client can make from a completion callback. *)
Inductive request :=
  | RequestDownload (url : GURL)
  | RequestRemove (url : GURL)
  | RequestCancel (url : GURL).

(** The object whose callbacks are download_completion_ and
    delete_completion_: its state, and for each callback the requests it makes
    of the downloader meanwhile.  The downloader is busy then, so that a
    request only changes the queue, and the client observes no effect of it
    before the callback returns. *)
Class DownloaderClient := {
  Client : Type;
  download_completion : GURL → GURL → SuccessState → FilePath → Z → string →
    M Client (list request);
  delete_completion : GURL → bool → M Client (list request);
}.

Context `{CL : DownloaderClient}.

Notation Task := (TaskType * GURL)%type.

(** The tasks posted to the task runner, with what their replies are bound to. *)
Inductive posted_task :=
  | PostDelete (directory_path : FilePath) (url : GURL)
  | PostExists (path : FilePath) (url : GURL)
  | PostDeletePartial (directory_path : FilePath) (url : GURL) (title : string)
      (offline_path : FilePath) (success : SuccessState)
  | PostSavePDF (temporary_path : FilePath) (url : GURL) (path : FilePath)
  | PostSaveHTML (page_url : GURL) (images : list ImageInfo) (html title : string).

Inductive reply :=
  | ReplyDelete (url : GURL) (success : bool)
  | ReplyExists (url : GURL) (offline_url_exists : bool)
  | ReplyPostDelete (url : GURL) (title : string) (offline_path : FilePath)
      (success : SuccessState)
  | ReplyDownload (url : GURL) (title : string) (offline_path : FilePath)
      (success : SuccessState).

(** The calls made of the client. *)
Inductive completion :=
  | DownloadCompleted (url distilled_url : GURL) (success : SuccessState)
      (offline_path : FilePath) (size : Z) (title : string)
  | DeleteCompleted (url : GURL) (success : bool).

Record viewer := MkRunningViewer { the_viewer : DistillerViewer; distilling : bool }.
Record loader := MkLoader { loader_url : GURL; loading : bool }.

(** The fields of the class; the tasks and replies of task_tracker_; the files
    of the device; the client and the calls made to it so far.  (saved_size_ is
    an int64_t: sizes of files on a device do not reach its bound.) *)
Record URLDownloader := MkDownloader {
  tasks_ : list Task;
  working_ : bool;
  base_directory_ : FilePath;
  original_url_ : GURL;
  distilled_url_ : GURL;
  saved_size_ : Z;
  mime_type_ : string;
  url_loader_ : option loader;
  distiller_ : option viewer;
  posted : list posted_task;
  replies : list reply;
  files : FS;
  client : Client;
  completions : list completion;
}.

Definition URLDownloader_new (chrome_profile_path : FilePath) (fs : FS) (c : Client) :
    URLDownloader :=
  MkDownloader [] false chrome_profile_path EmptyGURL EmptyGURL 0 "" None None [] [] fs c [].

Definition with_queue (t : list Task) (w : bool) (d : URLDownloader) : URLDownloader :=
  MkDownloader t w (base_directory_ d) (original_url_ d) (distilled_url_ d) (saved_size_ d)
    (mime_type_ d) (url_loader_ d) (distiller_ d) (posted d) (replies d) (files d) (client d)
    (completions d).
Definition set_tasks (t : list Task) (d : URLDownloader) : URLDownloader :=
  with_queue t (working_ d) d.
Definition set_working (w : bool) (d : URLDownloader) : URLDownloader :=
  with_queue (tasks_ d) w d.
Definition set_urls (o u : GURL) (d : URLDownloader) : URLDownloader :=
  MkDownloader (tasks_ d) (working_ d) (base_directory_ d) o u (saved_size_ d)
    (mime_type_ d) (url_loader_ d) (distiller_ d) (posted d) (replies d) (files d) (client d)
    (completions d).
Definition set_saved_size (n : Z) (d : URLDownloader) : URLDownloader :=
  MkDownloader (tasks_ d) (working_ d) (base_directory_ d) (original_url_ d)
    (distilled_url_ d) n (mime_type_ d) (url_loader_ d) (distiller_ d) (posted d) (replies d)
    (files d) (client d) (completions d).
Definition set_mime_type (m : string) (d : URLDownloader) : URLDownloader :=
  MkDownloader (tasks_ d) (working_ d) (base_directory_ d) (original_url_ d)
    (distilled_url_ d) (saved_size_ d) m (url_loader_ d) (distiller_ d) (posted d) (replies d)
    (files d) (client d) (completions d).
Definition set_loader (l : option loader) (d : URLDownloader) : URLDownloader :=
  MkDownloader (tasks_ d) (working_ d) (base_directory_ d) (original_url_ d)
    (distilled_url_ d) (saved_size_ d) (mime_type_ d) l (distiller_ d) (posted d) (replies d)
    (files d) (client d) (completions d).
Definition set_distiller (v : option viewer) (d : URLDownloader) : URLDownloader :=
  MkDownloader (tasks_ d) (working_ d) (base_directory_ d) (original_url_ d)
    (distilled_url_ d) (saved_size_ d) (mime_type_ d) (url_loader_ d) v (posted d) (replies d)
    (files d) (client d) (completions d).
Definition with_runner (p : list posted_task) (r : list reply) (d : URLDownloader) :
    URLDownloader :=
  MkDownloader (tasks_ d) (working_ d) (base_directory_ d) (original_url_ d)
    (distilled_url_ d) (saved_size_ d) (mime_type_ d) (url_loader_ d) (distiller_ d) p r
    (files d) (client d) (completions d).
Definition set_files (fs : FS) (d : URLDownloader) : URLDownloader :=
  MkDownloader (tasks_ d) (working_ d) (base_directory_ d) (original_url_ d)
    (distilled_url_ d) (saved_size_ d) (mime_type_ d) (url_loader_ d) (distiller_ d) (posted d)
    (replies d) fs (client d) (completions d).
Definition set_client (c : Client) (d : URLDownloader) : URLDownloader :=
  MkDownloader (tasks_ d) (working_ d) (base_directory_ d) (original_url_ d)
    (distilled_url_ d) (saved_size_ d) (mime_type_ d) (url_loader_ d) (distiller_ d) (posted d)
    (replies d) (files d) c (completions d).
Definition log (c : completion) (d : URLDownloader) : URLDownloader :=
  MkDownloader (tasks_ d) (working_ d) (base_directory_ d) (original_url_ d)
    (distilled_url_ d) (saved_size_ d) (mime_type_ d) (url_loader_ d) (distiller_ d) (posted d)
    (replies d) (files d) (client d) (completions d ++ [c]).

Definition post (p : posted_task) : M URLDownloader unit :=
  modify (λ d, with_runner (posted d ++ [p]) (replies d) d).

(** A call that changes the files. *)
Definition file_op {A} (f : FS → A * FS) : M URLDownloader A := λ d,
  let '(a, fs) := f (files d) in Ok (a, set_files fs d).

(** A callback of the client. *)
Definition run_client (m : M Client (list request)) : M URLDownloader (list request) := λ d,
  match m (client d) with
  | Ok (l, c) => Ok (l, set_client c d)
  | Crash c => Crash c
  end.

Definition this : M URLDownloader URLDownloader := gets (λ d : URLDownloader, d).

(** ** The queue *)

Definition OfflinePathExists (path : FilePath) (url : GURL) : M URLDownloader unit :=
  post (PostExists path url).

Definition CancelDownloadOfflineURL (url : GURL) : M URLDownloader unit :=
  modify (λ d, set_tasks (List.filter (λ t, negb (bool_decide (t = (DOWNLOAD, url)))) (tasks_ d)) d).

Definition HandleNextTask : M URLDownloader unit :=
  d ← this;
  match working_ d, tasks_ d with
  | false, (type, url) :: rest =>
      modify (with_queue rest true);;
      let directory_path := OfflineURLDirectoryAbsolutePath (base_directory_ d) url in
      match type with
      | DELETE => post (PostDelete directory_path url)
      | DOWNLOAD =>
          DCHECK (negb (bool_decide (is_Some (distiller_ d))));;
          OfflinePathExists directory_path url
      end
  | _, _ => mret tt
  end.

Definition RemoveOfflineURL (url : GURL) : M URLDownloader unit :=
  CancelDownloadOfflineURL url;;
  modify (λ d, set_tasks (tasks_ d ++ [(DELETE, url)]) d);;
  HandleNextTask.

Definition DownloadOfflineURL (url : GURL) : M URLDownloader unit :=
  d ← this;
  whenM (negb (bool_decide ((DOWNLOAD, url) ∈ tasks_ d)))
    (modify (λ d, set_tasks (tasks_ d ++ [(DOWNLOAD, url)]) d);;
     HandleNextTask).

Definition perform (r : request) : M URLDownloader unit :=
  match r with
  | RequestDownload url => DownloadOfflineURL url
  | RequestRemove url => RemoveOfflineURL url
  | RequestCancel url => CancelDownloadOfflineURL url
  end.

Fixpoint perform_all (l : list request) : M URLDownloader unit :=
  match l with
  | [] => mret tt
  | r :: l => perform r;; perform_all l
  end.

(** ** The end of a task *)

(** The closure [post_delete] of DownloadCompletionHandler. *)
Definition post_delete (url : GURL) (title : string) (offline_path : FilePath)
    (success : SuccessState) : M URLDownloader unit :=
  d ← this;
  modify (log (DownloadCompleted url (distilled_url_ d) success offline_path
                 (saved_size_ d) title));;
  requests ← run_client (download_completion url (distilled_url_ d) success offline_path
                           (saved_size_ d) title);
  perform_all requests;;
  modify (set_distiller None);;
  modify (set_working false);;
  HandleNextTask.

Definition DownloadCompletionHandler (url : GURL) (title : string) (offline_path : FilePath)
    (success : SuccessState) : M URLDownloader unit :=
  d ← this;
  DCHECK (working_ d);;
  match success with
  | ERROR =>
      post (PostDeletePartial (OfflineURLDirectoryAbsolutePath (base_directory_ d) url)
              url title offline_path success)
  | _ => post_delete url title offline_path success
  end.

Definition DeleteCompletionHandler (url : GURL) (success : bool) : M URLDownloader unit :=
  d ← this;
  DCHECK (working_ d);;
  modify (log (DeleteCompleted url success));;
  requests ← run_client (delete_completion url success);
  perform_all requests;;
  modify (set_working false);;
  HandleNextTask.

(** ** Downloads *)

Definition DownloadURL (url : GURL) (offline_url_exists : bool) : M URLDownloader unit :=
  if offline_url_exists then DownloadCompletionHandler url "" EmptyFilePath DOWNLOAD_EXISTS
  else
    modify (set_urls url url);;
    modify (set_saved_size 0);;
    v ← lift_res (DistillerViewer_new url);
    modify (set_distiller (Some (MkRunningViewer v true))).

Definition DistilledPageRedirectedToURL (page_url redirected_url : GURL) :
    M URLDownloader unit :=
  d ← this;
  DCHECK (bool_decide (original_url_ d = page_url));;
  modify (set_urls (original_url_ d) redirected_url).

Definition DistilledPageHasMimeType (original_url : GURL) (mime_type : string) :
    M URLDownloader unit :=
  d ← this;
  DCHECK (bool_decide (original_url_ d = original_url));;
  modify (set_mime_type mime_type).

(** [response_mime_type] is null when the loader has no response. *)
Definition OnURLLoadComplete (original_url : GURL) (response_path : FilePath)
    (response_mime_type : option string) : M URLDownloader unit :=
  d ← this;
  DCHECK (bool_decide (mime_type_ d = "application/pdf"));;
  _ ← not_null (url_loader_ d);
  let path := OfflinePagePath (original_url_ d) OFFLINE_TYPE_PDF in
  let mime_type := default "" response_mime_type in
  if path_empty response_path || negb (bool_decide (mime_type = mime_type_ d)) then
    DownloadCompletionHandler (original_url_ d) "" path ERROR
  else
    post (PostSavePDF response_path original_url path);;
    modify (set_loader None).

(** TryCancelAll drops what the task runner has not started and its replies. *)
Definition CancelTask : M URLDownloader unit :=
  modify (with_runner [] []);;
  modify (set_distiller None).

Definition FetchPDFFile : M URLDownloader unit :=
  d ← this;
  let pdf_url := if is_valid (distilled_url_ d) then distilled_url_ d else original_url_ d in
  modify (set_loader (Some (MkLoader pdf_url true))).

Definition DistillerCallback (page_url : GURL) (html : string) (images : list ImageInfo)
    (title : string) : M URLDownloader unit :=
  d ← this;
  if bool_decide (html = "") then
    if bool_decide (mime_type_ d = "application/pdf") then FetchPDFFile
    else DownloadCompletionHandler page_url "" EmptyFilePath ERROR
  else post (PostSaveHTML page_url images html title).

(** ** The work done on the task runner *)

Definition CreateOfflineURLDirectory (url : GURL) : M URLDownloader bool :=
  d ← this;
  let directory_path := OfflineURLDirectoryAbsolutePath (base_directory_ d) url in
  if negb (DirectoryExists (files d) directory_path)
  then file_op (CreateDirectory directory_path)
  else mret true.

Definition SavePDFFile (temporary_path : FilePath) : M URLDownloader SuccessState :=
  d ← this;
  created ← CreateOfflineURLDirectory (original_url_ d);
  if (created : bool) then
    let path := OfflinePagePath (original_url_ d) OFFLINE_TYPE_PDF in
    let absolute_path := OfflineURLAbsolutePathFromRelativePath (base_directory_ d) path in
    moved ← file_op (Move temporary_path absolute_path);
    if (moved : bool) then
      modify (λ d, set_saved_size (saved_size_ d + GetFileSize (files d) absolute_path) d);;
      mret DOWNLOAD_SUCCESS
    else mret ERROR
  else mret ERROR.

(** Whether the image is saved, and the name of its file. *)
Definition SaveImage (url image_url : GURL) (data : string) : M URLDownloader (bool * string) :=
  d ← this;
  let image_hash := MD5String (spec image_url) in
  let directory_path := OfflineURLDirectoryAbsolutePath (base_directory_ d) url in
  let path := AppendASCII directory_path image_hash in
  if negb (PathExists (files d) path) then
    written ← file_op (WriteFile path data);
    if written <=? 0 then mret (false, image_hash)
    else
      modify (λ d, set_saved_size (saved_size_ d + written) d);;
      mret (true, image_hash)
  else mret (true, image_hash).

(** Only images that are not mixed content and have data are saved. *)
Definition save_needed (d : URLDownloader) (image : ImageInfo) : bool :=
  let image_is_mixed_content :=
    SchemeIsCryptographic (distilled_url_ d) && negb (SchemeIsCryptographic (info_url image)) in
  negb image_is_mixed_content && is_valid (info_url image) &&
  negb (bool_decide (info_data image = "")).

(** The body of the loop from an image on, and what follows the loop.  One
    occurrence of an image's URL that is not empty leaves less text to search,
    so that the length of the text is enough fuel. *)
Fixpoint replace_images (url : GURL) (images : list ImageInfo) (mutable_html : string)
    (local_images_found : bool) : M URLDownloader string :=
  match images with
  | [] =>
      mret (if local_images_found then mutable_html +:+ kDisableImageContextMenuScript
            else mutable_html)
  | image :: images =>
      if SchemeIs (info_url image) kDataScheme then
        replace_images url images mutable_html local_images_found
      else
        d ← this;
        saved ← (if save_needed d image then SaveImage url (info_url image) (info_data image)
                 else mret (true, ""));
        if negb (fst saved) then mret ""
        else
          let image_url := EscapeForHTML (spec (info_url image)) in
          let pos := string_find_from image_url mutable_html 0 in
          match replace_loop (String.length mutable_html) image_url (snd saved)
                  mutable_html pos with
          | Some mutable_html =>
              replace_images url images mutable_html
                (local_images_found || bool_decide (is_Some pos))
          | None => fail NeverReturns
          end
  end.

Definition SaveAndReplaceImagesInHTML (url : GURL) (html : string) (images : list ImageInfo) :
    M URLDownloader string :=
  replace_images url images html false.

Definition SaveHTMLForURL (html : string) (url : GURL) : M URLDownloader bool :=
  if bool_decide (html = "") then mret false
  else
    d ← this;
    let path := OfflineURLAbsolutePathFromRelativePath (base_directory_ d)
                  (OfflinePagePath url OFFLINE_TYPE_HTML) in
    written ← file_op (WriteFile path html);
    if written <=? 0 then mret false
    else
      modify (λ d, set_saved_size (saved_size_ d + written) d);;
      mret true.

Definition SaveDistilledHTML (url : GURL) (images : list ImageInfo) (html : string) :
    M URLDownloader SuccessState :=
  created ← CreateOfflineURLDirectory url;
  if (created : bool) then
    html ← SaveAndReplaceImagesInHTML url html images;
    saved ← SaveHTMLForURL html url;
    mret (if (saved : bool) then DOWNLOAD_SUCCESS else ERROR)
  else mret ERROR.

(** What a posted task does, and the reply it leaves. *)
Definition run_task (p : posted_task) : M URLDownloader reply :=
  match p with
  | PostDelete directory_path url => ReplyDelete url <$> file_op (DeleteFile directory_path)
  | PostExists path url => d ← this; mret (ReplyExists url (PathExists (files d) path))
  | PostDeletePartial directory_path url title offline_path success =>
      _ ← file_op (DeleteFile directory_path);
      mret (ReplyPostDelete url title offline_path success)
  | PostSavePDF temporary_path url path => ReplyDownload url "" path <$> SavePDFFile temporary_path
  | PostSaveHTML page_url images html title =>
      ReplyDownload page_url title (OfflinePagePath page_url OFFLINE_TYPE_HTML) <$>
        SaveDistilledHTML page_url images html
  end.

Definition run_reply (r : reply) : M URLDownloader unit :=
  match r with
  | ReplyDelete url success => DeleteCompletionHandler url success
  | ReplyExists url offline_url_exists => DownloadURL url offline_url_exists
  | ReplyPostDelete url title offline_path success => post_delete url title offline_path success
  | ReplyDownload url title offline_path success =>
      DownloadCompletionHandler url title offline_path success
  end.

(** ** The events *)

Inductive event :=
  | EvRequest (r : request)
  | EvRunTask
  | EvRunReply
  | EvRedirected (redirected_url : GURL)
  | EvHasMimeType (mime_type : string)
  | EvDistilled (article : DistilledArticleProto)
  | EvLoaded (response_path : FilePath) (response_mime_type : option string).

Definition is_distilling (d : URLDownloader) : bool :=
  match distiller_ d with Some v => distilling v | None => false end.
Definition is_loading (d : URLDownloader) : bool :=
  match url_loader_ d with Some l => loading l | None => false end.

(** When an event can happen: a request only for a valid URL, a callback only
    from an object that runs. *)
Definition request_valid (r : request) : bool :=
  match r with RequestDownload url => is_valid url | _ => true end.
Definition enabled (e : event) (d : URLDownloader) : Prop :=
  match e with
  | EvRequest r => request_valid r = true
  | EvRunTask => posted d ≠ []
  | EvRunReply => replies d ≠ []
  | EvRedirected _ | EvHasMimeType _ | EvDistilled _ => is_distilling d = true
  | EvLoaded _ _ => is_loading d = true
  end.

Definition handle (e : event) : M URLDownloader unit :=
  d ← this;
  match e with
  | EvRequest r => perform r
  | EvRunTask =>
      match posted d with
      | p :: rest =>
          modify (λ d, with_runner rest (replies d) d);;
          r ← run_task p;
          modify (λ d, with_runner (posted d) (replies d ++ [r]) d)
      | [] => mret tt
      end
  | EvRunReply =>
      match replies d with
      | r :: rest => modify (λ d, with_runner (posted d) rest d);; run_reply r
      | [] => mret tt
      end
  | EvRedirected redirected_url =>
      v ← not_null (distiller_ d);
      DistilledPageRedirectedToURL (url_ (the_viewer v)) redirected_url
  | EvHasMimeType mime_type =>
      v ← not_null (distiller_ d);
      DistilledPageHasMimeType (url_ (the_viewer v)) mime_type
  | EvDistilled article =>
      v ← not_null (distiller_ d);
      let '(result, v') := OnDistillerFinished article (the_viewer v) in
      modify (set_distiller (Some (MkRunningViewer v' false)));;
      DistillerCallback (d_url result) (d_html result) (d_images result) (d_title result)
  | EvLoaded response_path response_mime_type =>
      l ← not_null (url_loader_ d);
      modify (set_loader (Some (MkLoader (loader_url l) false)));;
      OnURLLoadComplete (loader_url l) response_path response_mime_type
  end.

Fixpoint handle_all (l : list event) : M URLDownloader unit :=
  match l with
  | [] => mret tt
  | e :: l => handle e;; handle_all l
  end.

Definition step (d : URLDownloader) (e : event) (d' : URLDownloader) : Prop :=
  enabled e d ∧ handle e d = Ok (tt, d').
End url_downloader.
