(* ===== verification/URLDownloaderSpec.v ===== *)
(** * What the downloader of the reading list guarantees

    About the definitions of [URLDownloader]: the replacement of the images'
    URLs is the reference one; every state the downloader reaches has exactly
    one activity under way when it is working, and trips no check; a client
    that makes no requests sees the queue drained. *)

From S2P Require Import Prelude WebEnv FilePaths ReadingListModel DistillerViewer URLDownloader.

(** ** Replacing the occurrences of a text *)

(** The reference: every occurrence from the left, without overlaps. *)
Fixpoint replace_reference (pat rep s : string) (skip : nat) : string :=
  match s with
  | EmptyString => EmptyString
  | String c s' =>
      match skip with
      | S skip => replace_reference pat rep s' skip
      | O => if starts_with s pat
             then rep +:+ replace_reference pat rep s' (String.length pat - 1)
             else String c (replace_reference pat rep s' O)
      end
  end.

Lemma replace_reference_skip pat rep (s t : string) :
  replace_reference pat rep (s +:+ t) (String.length s) = replace_reference pat rep t 0.
Proof. induction s as [|c s IH]; [done|]. rewrite string_cons_app. exact IH. Qed.

Lemma replace_reference_none pat rep s :
  pat ≠ "" → string_find pat s = None → replace_reference pat rep s 0 = s.
Proof.
  intros Hp. induction s as [|c s IH]; [done|]. cbn [string_find replace_reference].
  destruct (starts_with (String c s) pat); [done|]. destruct (string_find pat s); [done|].
  intros _. by rewrite IH.
Qed.

Lemma replace_reference_found pat rep s a b :
  pat ≠ "" → s = a +:+ pat +:+ b → string_find pat s = Some (String.length a) →
  replace_reference pat rep s 0 = a +:+ rep +:+ replace_reference pat rep b 0.
Proof.
  intros Hp ->. induction a as [|c a IH]; intros Hf.
  - change ("" +:+ pat +:+ b) with (pat +:+ b) in *. destruct pat as [|c pat]; [done|].
    rewrite string_cons_app in *. cbn [replace_reference].
    rewrite <- string_cons_app, starts_with_app. rewrite (Nat.sub_1_r (String.length (String c pat))). cbn [String.length Nat.pred].
    by rewrite replace_reference_skip.
  - rewrite string_cons_app in *. cbn [string_find replace_reference] in *.
    destruct (starts_with _ pat) eqn:E; [done|].
    destruct (string_find pat (a +:+ pat +:+ b)) as [n|] eqn:En; [|done].
    simplify_eq/=. rewrite string_cons_app. f_equal. apply IH. done.
Qed.

Lemma replace_loop_correct pat rep fuel (done rest : string) :
  pat ≠ "" → (String.length rest <= fuel)%nat →
  replace_loop fuel pat rep (done +:+ rest)
    (string_find_from pat (done +:+ rest) (String.length done)) =
  Some (done +:+ replace_reference pat rep rest 0).
Proof.
  intros Hp. revert done rest.
  assert (Hfrom : ∀ done rest : string, string_find_from pat (done +:+ rest) (String.length done) =
    Nat.add (String.length done) <$> string_find pat rest).
  { intros done0 rest. unfold string_find_from. rewrite string_length_app, string_drop_app.
    rewrite (proj2 (Nat.leb_le _ _)) by lia. reflexivity. }
  induction fuel as [|fuel IH]; intros done rest Hfuel; rewrite Hfrom;
    destruct (string_find pat rest) as [n|] eqn:En; cbn [fmap option_fmap option_map];
    try (simpl; by rewrite replace_reference_none).
  - apply string_find_Some in En as (a & b & -> & _).
    rewrite !string_length_app in Hfuel. destruct pat; [by destruct Hp|simpl in Hfuel; lia].
  - destruct (string_find_Some _ _ _ En) as (a & b & -> & <-).
    rewrite (replace_reference_found pat rep _ a b) by done.
    assert (Hrep : string_replace (String.length done + String.length a) (String.length pat) rep
      (done +:+ a +:+ pat +:+ b) = (done +:+ a +:+ rep) +:+ b).
    { unfold string_replace.
      rewrite <- (string_app_assoc done a). rewrite <- string_length_app at 1.
      rewrite string_take_app, !string_app_assoc, !string_drop_add, !string_drop_app.
      done. }
    cbn [replace_loop]. rewrite Hrep.
    replace (String.length done + String.length a + String.length rep)%nat
      with (String.length (done +:+ a +:+ rep)) by (rewrite !string_length_app; lia).
    rewrite IH; [by rewrite !string_app_assoc|].
    rewrite !string_length_app in Hfuel. destruct pat; [by destruct Hp|simpl in Hfuel; lia].
Qed.

(** An empty text occurs everywhere: the loop does not end. *)
Lemma replace_loop_empty fuel rep html p :
  (p <= String.length html)%nat → replace_loop fuel "" rep html (Some p) = None.
Proof.
  revert html p. induction fuel as [|fuel IH]; intros html p Hp; [done|].
  cbn [replace_loop String.length].
  assert (Hlen : (p + String.length rep <= String.length (string_replace p 0 rep html))%nat).
  { unfold string_replace. rewrite !string_length_app.
    assert (Htake : String.length (string_take p html) = p).
    { revert Hp. clear. revert html. induction p as [|p IHp]; intros [|c html] Hp;
        simpl in *; try lia. rewrite IHp; lia. }
    lia. }
  unfold string_find_from. rewrite (proj2 (Nat.leb_le _ _)) by lia.
  assert (Hfind : ∀ s, string_find "" s = Some 0%nat) by (by intros []).
  rewrite Hfind. cbn [fmap option_fmap option_map]. rewrite Nat.add_0_r. by apply IH.
Qed.

(** ** The queue as a specification

    The completions reported so far, the task under way and the tasks that
    wait.  A request changes the tasks that wait; the end of a task is
    reported, the requests the client makes then are taken in, and the first
    task that waits is started. *)
Section downloader_spec.
Context `{ENV : WebEnv} `{FP : FilePaths} `{FSY : !FileSystem} `{RL : !ReadingListEnv}
  `{DD : DomDistillerEnv} `{DE : DownloaderEnv} `{CL : !DownloaderClient}.

Notation Task := (TaskType * GURL)%type.

Record queue_spec := MkQueue {
  q_reported : list completion;
  q_current : option Task;
  q_waiting : list Task;
}.

Definition remove_downloads (url : GURL) (q : list Task) : list Task :=
  List.filter (λ t, negb (bool_decide (t = (DOWNLOAD, url)))) q.

(** A download that waits is not requested twice; a deletion makes the
    downloads that wait useless. *)
Definition enqueue (q : list Task) (r : request) : list Task :=
  match r with
  | RequestDownload url =>
      if bool_decide ((DOWNLOAD, url) ∈ q) then q else q ++ [(DOWNLOAD, url)]
  | RequestRemove url => remove_downloads url q ++ [(DELETE, url)]
  | RequestCancel url => remove_downloads url q
  end.

Definition start (s : queue_spec) : queue_spec :=
  match q_current s, q_waiting s with
  | None, t :: q => MkQueue (q_reported s) (Some t) q
  | _, _ => s
  end.

(** A download is reported with the URL that was requested, or with the URL
    of the page after redirections. *)
Definition reports (c : completion) (t : Task) : Prop :=
  match c, t with
  | DeleteCompleted url _, (DELETE, u) => url = u
  | DownloadCompleted url distilled_url _ _ _ _, (DOWNLOAD, u) => url = u ∨ url = distilled_url
  | _, _ => False
  end.

Inductive queue_step (s : queue_spec) : queue_spec → Prop :=
  | queue_request r :
      queue_step s (start (MkQueue (q_reported s) (q_current s) (enqueue (q_waiting s) r)))
  | queue_internal : queue_step s s
  | queue_complete t c requests :
      q_current s = Some t → reports c t →
      queue_step s (start (MkQueue (q_reported s ++ [c]) None
                             (foldl enqueue (q_waiting s) requests))).

(** The task under way. *)
Definition current (d : URLDownloader) : option Task :=
  match posted d, replies d with
  | PostDelete _ url :: _, _ => Some (DELETE, url)
  | PostExists _ url :: _, _ => Some (DOWNLOAD, url)
  | _ :: _, _ => Some (DOWNLOAD, original_url_ d)
  | [], ReplyDelete url _ :: _ => Some (DELETE, url)
  | [], ReplyExists url _ :: _ => Some (DOWNLOAD, url)
  | [], _ :: _ => Some (DOWNLOAD, original_url_ d)
  | [], [] =>
      if is_distilling d || is_loading d then Some (DOWNLOAD, original_url_ d) else None
  end.

Definition queue_of (d : URLDownloader) : queue_spec :=
  MkQueue (completions d) (current d) (tasks_ d).

(** How far from its end the task under way is, at most. *)
Definition stage (d : URLDownloader) : nat :=
  match posted d, replies d with
  | PostDelete _ _ :: _, _ => 2
  | PostExists _ _ :: _, _ => 8
  | PostDeletePartial _ _ _ _ _ :: _, _ => 2
  | (PostSavePDF _ _ _ | PostSaveHTML _ _ _ _) :: _, _ => 4
  | [], ReplyDelete _ _ :: _ => 1
  | [], ReplyExists _ _ :: _ => 7
  | [], ReplyPostDelete _ _ _ _ :: _ => 1
  | [], ReplyDownload _ _ _ _ :: _ => 3
  | [], [] => if is_distilling d then 6 else if is_loading d then 5 else 0
  end.

(** ** The invariant *)

(** In the queue a download is the last task of its URL, and the only one. *)
Fixpoint queue_ok (q : list Task) : Prop :=
  match q with
  | [] => True
  | (DOWNLOAD, url) :: q =>
      is_valid url = true ∧ (DOWNLOAD, url) ∉ q ∧ (DELETE, url) ∉ q ∧ queue_ok q
  | (DELETE, _) :: q => queue_ok q
  end.

(** The URLs of the images of a page are not empty texts. *)
Definition images_ok (images : list ImageInfo) : Prop :=
  Forall (λ i, SchemeIs (info_url i) kDataScheme = true ∨
               EscapeForHTML (spec (info_url i)) ≠ "") images.

Definition reported_url (d : URLDownloader) (url : GURL) : Prop :=
  url = original_url_ d ∨ url = distilled_url_ d.

Definition task_ok (d : URLDownloader) (p : posted_task) : Prop :=
  match p with
  | PostDelete _ _ => distiller_ d = None
  | PostExists _ url => is_valid url = true ∧ distiller_ d = None
  | PostDeletePartial _ url _ _ _ => reported_url d url
  | PostSavePDF _ url _ => reported_url d url
  | PostSaveHTML url images _ _ => url = original_url_ d ∧ images_ok images
  end.

Definition reply_ok (d : URLDownloader) (r : reply) : Prop :=
  match r with
  | ReplyDelete _ _ => distiller_ d = None
  | ReplyExists url _ => is_valid url = true ∧ distiller_ d = None
  | ReplyPostDelete url _ _ _ | ReplyDownload url _ _ _ => reported_url d url
  end.

(** Nothing is under way. *)
Definition quiet (d : URLDownloader) : Prop :=
  posted d = [] ∧ replies d = [] ∧ is_distilling d = false ∧ is_loading d = false.

(** Exactly one thing is under way. *)
Inductive busy (d : URLDownloader) : Prop :=
  | busy_posted p :
      posted d = [p] → replies d = [] → is_distilling d = false → is_loading d = false →
      task_ok d p → busy d
  | busy_reply r :
      posted d = [] → replies d = [r] → is_distilling d = false → is_loading d = false →
      reply_ok d r → busy d
  | busy_distilling v :
      posted d = [] → replies d = [] → is_loading d = false →
      distiller_ d = Some (MkRunningViewer v true) → url_ v = original_url_ d → busy d
  | busy_loading l :
      posted d = [] → replies d = [] → is_distilling d = false →
      url_loader_ d = Some (MkLoader l true) → reported_url d l →
      mime_type_ d = "application/pdf" → busy d.

(** What the downloader asks of its client: the callbacks keep an invariant of
    the client's and make requests for valid URLs only. *)
Class DownloaderClientLaws := {
  client_inv : Client → Prop;
  law_download_completion url distilled_url s path n title c :
    client_inv c →
    ∃ l c', download_completion url distilled_url s path n title c = Ok (l, c') ∧
      client_inv c' ∧ Forall (λ r, request_valid r = true) l;
  law_delete_completion url b c :
    client_inv c →
    ∃ l c', delete_completion url b c = Ok (l, c') ∧
      client_inv c' ∧ Forall (λ r, request_valid r = true) l;
}.
Context `{CLL : DownloaderClientLaws}.

Definition downloader_inv (d : URLDownloader) : Prop :=
  queue_ok (tasks_ d) ∧ client_inv (client d) ∧
  if working_ d then busy d else quiet d ∧ distiller_ d = None ∧ tasks_ d = [].

(** A client that makes no requests from its callbacks. *)
Definition silent_client : Prop :=
  (∀ url distilled_url s path n title c l c',
     download_completion url distilled_url s path n title c = Ok (l, c') → l = []) ∧
  (∀ url b c l c', delete_completion url b c = Ok (l, c') → l = []).

(** What a handler achieves when [t] is under way, [n] from its end: it comes
    nearer to its end, or it ends. *)
Definition outcome (reported : list completion) (t : Task) (q : list Task) (n : nat)
    (d : URLDownloader) : Prop :=
  downloader_inv d ∧
  (current d = Some t ∧ completions d = reported ∧ tasks_ d = q ∧ (stage d < n)%nat ∨
   ∃ c requests, reports c t ∧ (silent_client → requests = []) ∧
     queue_of d = start (MkQueue (reported ++ [c]) None (foldl enqueue q requests))).

(** ** The queue *)

Lemma elem_of_remove_downloads t url q :
  t ∈ remove_downloads url q ↔ t ≠ (DOWNLOAD, url) ∧ t ∈ q.
Proof.
  unfold remove_downloads. rewrite !list_elem_of_In, filter_In, negb_true_iff, bool_decide_eq_false.
  tauto.
Qed.

Lemma queue_ok_remove url q : queue_ok q → queue_ok (remove_downloads url q).
Proof.
  induction q as [|[[] u] q IH]; [done|..]; simpl; intros Hq.
  - auto.
  - destruct Hq as (Hv & H1 & H2 & Hq). case_bool_decide as E; cbn [negb]; [auto|].
    simpl. rewrite !elem_of_remove_downloads. naive_solver.
Qed.

Lemma queue_ok_snoc_download url q :
  queue_ok q → is_valid url = true → (DOWNLOAD, url) ∉ q → queue_ok (q ++ [(DOWNLOAD, url)]).
Proof.
  intros Hq Hv. induction q as [|[[] u] q IH]; simpl in *; intros Hn.
  - repeat split; [done|apply not_elem_of_nil..].
  - apply IH; [done|]. set_solver.
  - destruct Hq as (Hvu & H1 & H2 & Hq). rewrite !elem_of_app, !list_elem_of_singleton.
    set_solver.
Qed.

Lemma queue_ok_snoc_delete url q :
  queue_ok q → (DOWNLOAD, url) ∉ q → queue_ok (q ++ [(DELETE, url)]).
Proof.
  intros Hq. induction q as [|[[] u] q IH]; simpl in *; intros Hn; [done|..].
  - apply IH; [done|]. set_solver.
  - destruct Hq as (Hvu & H1 & H2 & Hq). rewrite !elem_of_app, !list_elem_of_singleton.
    set_solver.
Qed.

Lemma queue_ok_enqueue q r : queue_ok q → request_valid r = true → queue_ok (enqueue q r).
Proof.
  intros Hq Hr. destruct r as [url|url|url]; simpl in *.
  - case_bool_decide; [done|]. by apply queue_ok_snoc_download.
  - apply queue_ok_snoc_delete; [by apply queue_ok_remove|].
    rewrite elem_of_remove_downloads. naive_solver.
  - by apply queue_ok_remove.
Qed.

Lemma queue_ok_enqueue_all l q :
  queue_ok q → Forall (λ r, request_valid r = true) l → queue_ok (foldl enqueue q l).
Proof.
  intros Hq Hl. revert q Hq. induction Hl as [|r l Hr Hl IH]; intros q Hq; simpl; [done|].
  by apply IH, queue_ok_enqueue.
Qed.

(** ** The handlers *)

(** While the downloader works a request only changes the queue. *)
Lemma wp_perform_working r (d : URLDownloader) (Q : unit → URLDownloader → Prop) :
  working_ d = true → Q tt (set_tasks (enqueue (tasks_ d) r) d) → wp (perform r) Q d.
Proof.
  intros Hw HQ. destruct r as [url|url|url]; simpl in *.
  - unfold DownloadOfflineURL, this. wp_simp. case_bool_decide; cbn [negb]; wp_simp.
    + by destruct d.
    + unfold HandleNextTask, this. wp_simp. simpl. rewrite Hw. by wp_simp.
  - unfold RemoveOfflineURL, CancelDownloadOfflineURL, HandleNextTask, this. wp_simp.
    simpl. rewrite Hw. by wp_simp.
  - unfold CancelDownloadOfflineURL. by wp_simp.
Qed.

Lemma wp_perform_all_working l (d : URLDownloader) (Q : unit → URLDownloader → Prop) :
  working_ d = true → Q tt (set_tasks (foldl enqueue (tasks_ d) l) d) → wp (perform_all l) Q d.
Proof.
  revert d. induction l as [|r l IH]; intros d Hw HQ; simpl in *.
  - wp_simp. by destruct d.
  - wp_simp. apply wp_perform_working; [done|]. by apply IH.
Qed.

(** The next task is started from a quiet state. *)
Lemma wp_HandleNextTask (d : URLDownloader) (Q : unit → URLDownloader → Prop) :
  quiet d → distiller_ d = None → working_ d = false → queue_ok (tasks_ d) →
  client_inv (client d) →
  (∀ d', downloader_inv d' → queue_of d' = start (MkQueue (completions d) None (tasks_ d)) →
    Q tt d') →
  wp HandleNextTask Q d.
Proof.
  intros (Hp & Hr & Hv & Hl) Hd Hw Hq Hc HQ. unfold HandleNextTask, this. wp_simp.
  rewrite Hw. destruct (tasks_ d) as [|[[] url] rest] eqn:Et; wp_simp.
  - apply HQ; unfold queue_of, current, downloader_inv; rewrite ?Hp, ?Hr, ?Hv, ?Hl, ?Hw, Et.
    + split_and!; try done.
    + done.
  - unfold post. wp_simp. apply HQ; unfold queue_of, current, downloader_inv; simpl; rewrite Hp.
    + split_and!; [done..|]. by eapply busy_posted.
    + done.
  - unfold OfflinePathExists, post. wp_simp. simpl. rewrite Hd.
    split; [done|]. wp_simp. simpl in Hq. destruct Hq as (Hval & _ & _ & Hq).
    apply HQ; unfold queue_of, current, downloader_inv; simpl; rewrite Hp.
    + split_and!; [done..|]. by eapply busy_posted.
    + done.
Qed.

(** What a handler that ends a task starts from. *)
Definition working_quiet (d : URLDownloader) : Prop :=
  working_ d = true ∧ quiet d ∧ queue_ok (tasks_ d) ∧ client_inv (client d).

Lemma wp_run_client (m : M Client (list request)) (d : URLDownloader)
    (Q : list request → URLDownloader → Prop) :
  (∃ l c', m (client d) = Ok (l, c') ∧ Q l (set_client c' d)) → wp (run_client m) Q d.
Proof. intros (l & c' & Hm & HQ). unfold wp, run_client. by rewrite Hm. Qed.

Lemma wp_post_delete url title path s t n (d : URLDownloader) :
  working_quiet d → reports (DownloadCompleted url (distilled_url_ d) s path (saved_size_ d) title) t →
  wp (post_delete url title path s) (λ _, outcome (completions d) t (tasks_ d) n) d.
Proof using All.
  intros (Hw & Hq & Ht & Hc) Hrep. unfold post_delete, this. wp_simp. apply wp_run_client.
  destruct (law_download_completion url (distilled_url_ d) s path (saved_size_ d) title
    (client d) Hc) as (l & c' & Hrun & Hc' & Hl).
  exists l, c'. split; [exact Hrun|]. wp_simp. apply wp_perform_all_working; [done|]. wp_simp.
  apply wp_HandleNextTask; try done.
  - destruct Hq as (?&?&?&?). by split_and!.
  - simpl. by apply queue_ok_enqueue_all.
  - intros d' Hinv' Hqueue. split; [exact Hinv'|]. right. simpl in Hqueue.
    eexists _, l. split; [exact Hrep|]. split; [|exact Hqueue].
    intros [Hsil _]. by eapply Hsil.
Qed.

Lemma wp_DownloadCompletionHandler url title path s o n (d : URLDownloader) :
  working_quiet d → original_url_ d = o ∨ s ≠ ERROR → url = o ∨ url = distilled_url_ d →
  reported_url d url ∨ s ≠ ERROR → (2 < n)%nat →
  wp (DownloadCompletionHandler url title path s)
     (λ _, outcome (completions d) (DOWNLOAD, o) (tasks_ d) n) d.
Proof using All.
  intros HW Ho Hurl Hrep Hn. unfold DownloadCompletionHandler, this. wp_simp.
  split; [by apply HW|].
  assert (Hdone : wp (post_delete url title path s)
     (λ _, outcome (completions d) (DOWNLOAD, o) (tasks_ d) n) d).
  { apply wp_post_delete; [done|]. simpl. naive_solver. }
  destruct HW as (Hw & (Hp & Hr & Hv & Hl) & Hq & Hc).
  destruct s; [exact Hdone..|]. unfold post. wp_simp.
  destruct Ho as [Ho|]; [|done]. destruct Hrep as [Hrep|]; [|done].
  unfold outcome, downloader_inv, current, stage. simpl. rewrite Hw, Hp. simpl.
  split; [|left; split_and!; [by rewrite Ho|done..]]. split_and!; [done..|].
  by eapply busy_posted.
Qed.

Lemma wp_DeleteCompletionHandler url b n (d : URLDownloader) :
  working_quiet d → distiller_ d = None →
  wp (DeleteCompletionHandler url b)
     (λ _, outcome (completions d) (DELETE, url) (tasks_ d) n) d.
Proof using All.
  intros (Hw & Hq & Ht & Hc) Hd. unfold DeleteCompletionHandler, this. wp_simp.
  split; [done|]. wp_simp. apply wp_run_client.
  destruct (law_delete_completion url b (client d) Hc) as (l & c' & Hrun & Hc' & Hl).
  exists l, c'. split; [exact Hrun|]. wp_simp. apply wp_perform_all_working; [done|]. wp_simp.
  apply wp_HandleNextTask; try done.
  - simpl. by apply queue_ok_enqueue_all.
  - intros d' Hinv' Hqueue. split; [exact Hinv'|]. right. simpl in Hqueue.
    eexists (DeleteCompleted url b), l. split; [done|]. split; [|exact Hqueue].
    intros [_ Hsil]. by eapply Hsil.
Qed.

Lemma wp_DownloadURL url b (d : URLDownloader) :
  working_quiet d → distiller_ d = None → is_valid url = true →
  wp (DownloadURL url b) (λ _, outcome (completions d) (DOWNLOAD, url) (tasks_ d) 7) d.
Proof using All.
  intros HW Hd Hv. unfold DownloadURL. destruct b.
  - apply wp_DownloadCompletionHandler; [done|by right|by left|by right|lia].
  - wp_simp. destruct (DistillerViewer_new_ok url Hv) as (v & Hnew & Hurl). rewrite Hnew.
    wp_simp. destruct HW as (Hw & (Hp & Hr & Hdis & Hl) & Hq & Hc).
    unfold outcome, downloader_inv, current, stage. simpl. rewrite Hw, Hp, Hr. simpl.
    split; [|left; split_and!; [done..|simpl; lia]]. split_and!; [done..|].
    by eapply busy_distilling.
Qed.

Lemma wp_DistillerCallback url html images title (d : URLDownloader) :
  working_quiet d → url = original_url_ d → (html ≠ "" → images_ok images) →
  wp (DistillerCallback url html images title)
     (λ _, outcome (completions d) (DOWNLOAD, original_url_ d) (tasks_ d) 6) d.
Proof using All.
  intros HW -> Himages. unfold DistillerCallback, FetchPDFFile, this. wp_simp.
  pose proof HW as (Hw & (Hp & Hr & Hv & Hl) & Hq & Hc).
  case_bool_decide as Hhtml; [case_bool_decide as Hmime|].
  - wp_simp. unfold outcome, downloader_inv, current, stage. simpl. rewrite Hw, Hp, Hr. simpl.
    split; [|left; split_and!; [by rewrite orb_true_r|done..|]].
    2:{ unfold is_distilling in *. simpl. rewrite Hv. lia. }
    split_and!; [done..|]. eapply busy_loading; try done.
    by destruct (is_valid (distilled_url_ d)); [right|left].
  - apply wp_DownloadCompletionHandler; [done|by left|by left|by left; left|lia].
  - unfold post. wp_simp. unfold outcome, downloader_inv, current, stage. simpl.
    rewrite Hw, Hp. simpl. split; [|left; split_and!; [done..|lia]].
    split_and!; [done..|]. eapply busy_posted; try done. split; [done|]. by apply Himages.
Qed.

Lemma wp_OnURLLoadComplete url response mime (d : URLDownloader) :
  working_quiet d → mime_type_ d = "application/pdf" → is_Some (url_loader_ d) →
  reported_url d url →
  wp (OnURLLoadComplete url response mime)
     (λ _, outcome (completions d) (DOWNLOAD, original_url_ d) (tasks_ d) 5) d.
Proof using All.
  intros HW Hmime [l Hl] Hurl. unfold OnURLLoadComplete, this. wp_simp. rewrite Hmime.
  split; [done|]. rewrite Hl. exists l. split; [done|].
  destruct (path_empty response || _).
  - apply wp_DownloadCompletionHandler; [done|by left|by left|by left; left|lia].
  - unfold post. wp_simp. pose proof HW as (Hw & (Hp & Hr & Hv & _) & Hq & Hc).
    unfold outcome, downloader_inv, current, stage. simpl. rewrite Hw, Hp. simpl.
    split; [|left; split_and!; [done..|lia]].
    split_and!; [done..|]. by eapply busy_posted.
Qed.

(** ** The task runner *)

(** The tasks change only the files and the size. *)
Definition files_only (d d' : URLDownloader) : Prop :=
  ∃ fs n, d' = set_saved_size n (set_files fs d).

Lemma files_only_refl d : files_only d d.
Proof. exists (files d), (saved_size_ d). by destruct d. Qed.
Lemma files_only_files d d' fs : files_only d d' → files_only d (set_files fs d').
Proof. intros (f & n & ->). by exists fs, n. Qed.
Lemma files_only_size d d' n : files_only d d' → files_only d (set_saved_size n d').
Proof. intros (f & n' & ->). by exists f, n. Qed.
#[local] Hint Resolve files_only_refl files_only_files files_only_size : core.

Lemma wp_file_op {A} (f : FS → A * FS) (Q : A → URLDownloader → Prop) d :
  wp (file_op f) Q d ↔ Q (fst (f (files d))) (set_files (snd (f (files d))) d).
Proof. unfold wp, file_op. by destruct (f (files d)). Qed.

(** The name the file of an image has, empty for an image that is not saved. *)
Definition local_name (d : URLDownloader) (image : ImageInfo) : string :=
  if save_needed d image then MD5String (spec (info_url image)) else "".

Definition image_path (d : URLDownloader) (url : GURL) (image : ImageInfo) : FilePath :=
  AppendASCII (OfflineURLDirectoryAbsolutePath (base_directory_ d) url)
    (MD5String (spec (info_url image))).

(** The text that refers to the local images. *)
Fixpoint localized_html (d : URLDownloader) (images : list ImageInfo) (html : string)
    (found : bool) : string :=
  match images with
  | [] => if found then html +:+ kDisableImageContextMenuScript else html
  | image :: images =>
      if SchemeIs (info_url image) kDataScheme then localized_html d images html found
      else
        let image_url := EscapeForHTML (spec (info_url image)) in
        localized_html d images (replace_reference image_url (local_name d image) html 0)
          (found || bool_decide (is_Some (string_find image_url html)))
  end.

(** //base: a file that was written exists, and no other file disappears. *)
Class FileSystemLaws : Prop := {
  law_WriteFile p s fs : 0 < fst (WriteFile p s fs) → PathExists (snd (WriteFile p s fs)) p = true;
  law_WriteFile_keeps p s fs q :
    PathExists fs q = true → PathExists (snd (WriteFile p s fs)) q = true;
}.

(** Whether writing an image failed. *)
Definition write_failed (d : URLDownloader) (url : GURL) (images : list ImageInfo) : Prop :=
  ∃ image fs, image ∈ images ∧ save_needed d image = true ∧
    fst (WriteFile (image_path d url image) (info_data image) fs) <= 0.

Definition needs_file (d : URLDownloader) (image : ImageInfo) : bool :=
  negb (SchemeIs (info_url image) kDataScheme) && save_needed d image.

Lemma wp_SaveImage url image (d d0 : URLDownloader) :
  files_only d d0 →
  wp (SaveImage url (info_url image) (info_data image))
     (λ r d', files_only d d' ∧ r.2 = MD5String (spec (info_url image)) ∧
        (r.1 = false → ∃ fs, fst (WriteFile (image_path d url image) (info_data image) fs) <= 0) ∧
        (FileSystemLaws → r.1 = true → PathExists (files d') (image_path d url image) = true) ∧
        (FileSystemLaws → ∀ q, PathExists (files d0) q = true → PathExists (files d') q = true)) d0.
Proof.
  intros Hd. unfold SaveImage, this. wp_simp.
  assert (Hpath : AppendASCII (OfflineURLDirectoryAbsolutePath (base_directory_ d0) url)
      (MD5String (spec (info_url image))) = image_path d url image)
    by (destruct Hd as (? & ? & ->); done).
  rewrite Hpath. destruct (PathExists _ _) eqn:Ee; cbn [negb].
  - wp_simp. split_and!; try done; auto.
  - wp_simp. rewrite wp_file_op. destruct (Z.leb_spec
      (WriteFile (image_path d url image) (info_data image) (files d0)).1 0) as [Hle|Hlt].
    + wp_simp. simpl. split_and!; try done; eauto.
      intros L q Hq. by apply law_WriteFile_keeps.
    + wp_simp. simpl. split_and!; try done; eauto.
      * intros L _. by apply law_WriteFile.
      * intros L q Hq. by apply law_WriteFile_keeps.
Qed.

Lemma wp_replace_images url images html found (d d0 : URLDownloader) :
  images_ok images → files_only d d0 →
  wp (replace_images url images html found)
     (λ r d', files_only d d' ∧
        (r = "" ∧ write_failed d url images ∨
         r = localized_html d images html found ∧
         (FileSystemLaws → ∀ image, image ∈ images → needs_file d image = true →
            PathExists (files d') (image_path d url image) = true)) ∧
        (FileSystemLaws → ∀ q, PathExists (files d0) q = true → PathExists (files d') q = true)) d0.
Proof using All.
  intros Hok. revert html found d0. induction Hok as [|image images Himg Hok IH];
    intros html found d0 Hd; cbn [replace_images localized_html].
  { wp_simp. split_and!; eauto. right. split; [done|]. intros _ image []%elem_of_nil. }
  destruct (SchemeIs (info_url image) kDataScheme) eqn:Es.
  { eapply wp_mono; [|apply (IH html found d0 Hd)]. cbv beta.
    intros r d' (H1 & [[Hr (i & fs & Hi & Hf)]|[Hr Hsaved]] & H3); (split_and!; [done| |done]).
    - left. split; [done|]. exists i, fs. split; [by right|done].
    - right. split; [done|]. intros L i [->|Hi]%elem_of_cons Hn; [|by apply Hsaved].
      unfold needs_file in Hn. by rewrite Es in Hn. }
  destruct Himg as [|Himg]; [congruence|]. unfold this. wp_simp.
  assert (Hsn : save_needed d0 image = save_needed d image)
    by (destruct Hd as (? & ? & ->); done).
  rewrite Hsn.
  (* the rest of the loop, once the image is saved or need not be *)
  assert (Hrest : ∀ d1, files_only d d1 →
    (FileSystemLaws → needs_file d image = true →
       PathExists (files d1) (image_path d url image) = true) →
    (FileSystemLaws → ∀ q, PathExists (files d0) q = true → PathExists (files d1) q = true) →
    wp (match replace_loop (String.length html) (EscapeForHTML (spec (info_url image)))
                (local_name d image) html
                (string_find_from (EscapeForHTML (spec (info_url image))) html 0) with
        | Some html' => replace_images url images html'
            (found || bool_decide (is_Some
               (string_find_from (EscapeForHTML (spec (info_url image))) html 0)))
        | None => fail NeverReturns
        end)
     (λ r d', files_only d d' ∧
        (r = "" ∧ write_failed d url (image :: images) ∨
         r = localized_html d images
               (replace_reference (EscapeForHTML (spec (info_url image))) (local_name d image) html 0)
               (found || bool_decide (is_Some
                  (string_find (EscapeForHTML (spec (info_url image))) html))) ∧
         (FileSystemLaws → ∀ i, i ∈ image :: images → needs_file d i = true →
            PathExists (files d') (image_path d url i) = true)) ∧
        (FileSystemLaws → ∀ q, PathExists (files d0) q = true → PathExists (files d') q = true)) d1).
  { intros d1 Hd1 Hfile Hkeep.
    pose proof (replace_loop_correct (EscapeForHTML (spec (info_url image)))
      (local_name d image) (String.length html) "" html Himg (le_n _)) as Hloop.
    simpl in Hloop. change ("" +:+ html) with html in Hloop. rewrite Hloop.
    assert (Hpos : is_Some (string_find_from (EscapeForHTML (spec (info_url image))) html 0) ↔
      is_Some (string_find (EscapeForHTML (spec (info_url image))) html)).
    { unfold string_find_from. simpl. apply fmap_is_Some. }
    rewrite (bool_decide_ext _ _ Hpos).
    eapply wp_mono; [|apply (IH _ _ d1 Hd1)]. cbv beta.
    intros r d' (H1 & [[Hr (i & fs & Hi & Hf)]|[Hr Hsaved]] & H3); (split_and!; [done| |auto]).
    - left. split; [done|]. exists i, fs. split; [by right|done].
    - right. split; [done|]. intros L i [->|Hi]%elem_of_cons Hn; auto. }
  unfold local_name in Hrest at 1. destruct (save_needed d image) eqn:Eneed.
  - eapply wp_mono; [|apply (wp_SaveImage url image d d0 Hd)]. cbv beta.
    intros [saved name] d1 (Hd1 & Hname & Hfail & Hfile & Hkeep). simpl in Hname, Hfail, Hfile.
    simpl. subst name. destruct saved; cbn [negb].
    + apply Hrest; auto.
    + wp_simp. split_and!; [done| |done]. left. split; [done|].
      destruct Hfail as [fs Hfs]; [done|]. exists image, fs. split; [by left|done].
  - wp_simp. simpl. apply Hrest; auto. intros _ Hn. unfold needs_file in Hn.
    by rewrite Eneed, andb_false_r in Hn.
Qed.

(** C31: the text saved for a page is the distilled text in which every image
    that was kept is replaced by the name of its file, an existing file, and
    every other image (mixed content, no data) by nothing; when the file of an
    image cannot be written the result is empty. *)
Theorem SaveAndReplaceImagesInHTML_correct url html images (d : URLDownloader) :
  FileSystemLaws → images_ok images →
  ∃ r d', SaveAndReplaceImagesInHTML url html images d = Ok (r, d') ∧ files_only d d' ∧
    (r = "" ∧ write_failed d url images ∨
     r = localized_html d images html false ∧
     ∀ image, image ∈ images → needs_file d image = true →
       PathExists (files d') (image_path d url image) = true).
Proof using All.
  intros L Hok.
  pose proof (wp_replace_images url images html false d d Hok (files_only_refl d)) as H.
  apply wp_run in H as (r & d' & Hrun & H1 & H2 & _). exists r, d'.
  split; [exact Hrun|]. split; [done|]. destruct H2 as [?|[? Hs]]; [by left|right].
  split; [done|]. by apply Hs.
Qed.

(** An image whose URL has no text (an invalid URL) makes the loop over its
    occurrences endless: no amount of fuel is enough. *)
Theorem empty_image_url_never_returns fuel url html image images (d : URLDownloader) :
  SchemeIs (info_url image) kDataScheme = false → is_valid (info_url image) = false →
  EscapeForHTML (spec (info_url image)) = "" →
  replace_loop fuel "" "" html (string_find_from "" html 0) = None ∧
  SaveAndReplaceImagesInHTML url html (image :: images) d = Crash NeverReturns.
Proof.
  intros Hs Hv He.
  assert (Hloop : ∀ n, replace_loop n "" "" html (string_find_from "" html 0) = None).
  { intros n. assert (Hfind : string_find "" html = Some 0%nat) by (by destruct html).
    unfold string_find_from. simpl. rewrite Hfind. simpl. apply replace_loop_empty. lia. }
  split; [apply Hloop|].
  unfold SaveAndReplaceImagesInHTML. cbn [replace_images]. rewrite Hs, He.
  assert (Hn : save_needed d image = false).
  { unfold save_needed. by rewrite Hv, andb_false_r. }
  unfold mbind, M_bind, this, gets. rewrite Hn. simpl. by rewrite Hloop.
Qed.

Lemma wp_CreateOfflineURLDirectory url (d d0 : URLDownloader) :
  files_only d d0 → wp (CreateOfflineURLDirectory url) (λ _, files_only d) d0.
Proof.
  intros Hd. unfold CreateOfflineURLDirectory, this. wp_simp.
  destruct (DirectoryExists _ _); cbn [negb]; [by wp_simp|]. rewrite wp_file_op. auto.
Qed.

Lemma wp_SaveHTMLForURL html url (d d0 : URLDownloader) :
  files_only d d0 → wp (SaveHTMLForURL html url) (λ _, files_only d) d0.
Proof.
  intros Hd. unfold SaveHTMLForURL, this. case_bool_decide; wp_simp; [done|].
  rewrite wp_file_op. destruct (_ <=? 0); wp_simp; auto.
Qed.

Lemma wp_SaveDistilledHTML url images html (d d0 : URLDownloader) :
  images_ok images → files_only d d0 →
  wp (SaveDistilledHTML url images html) (λ _, files_only d) d0.
Proof using All.
  intros Hok Hd. unfold SaveDistilledHTML. wp_simp.
  eapply wp_mono; [|by apply (wp_CreateOfflineURLDirectory url d d0)]. intros [] d1 Hd1; [|by wp_simp].
  wp_simp. eapply wp_mono; [|by apply (wp_replace_images url images html false d d1)].
  intros r d2 (Hd2 & _). wp_simp.
  eapply wp_mono; [|by apply (wp_SaveHTMLForURL r url d d2)]. intros b d3 Hd3. by wp_simp.
Qed.

Lemma wp_SavePDFFile temporary_path (d d0 : URLDownloader) :
  files_only d d0 → wp (SavePDFFile temporary_path) (λ _, files_only d) d0.
Proof.
  intros Hd. unfold SavePDFFile, this. wp_simp.
  eapply wp_mono; [|by apply (wp_CreateOfflineURLDirectory _ d d0)]. intros [] d1 Hd1; [|by wp_simp].
  wp_simp. rewrite wp_file_op. destruct (fst _); wp_simp; auto.
Qed.

(** A task leaves a reply of the same task, nearer to its end. *)
Lemma wp_run_task p (d : URLDownloader) :
  posted d = [] → replies d = [] → is_distilling d = false → is_loading d = false →
  task_ok d p →
  wp (run_task p)
     (λ r d', files_only d d' ∧ reply_ok d r ∧
        current (with_runner [] [r] d) = current (with_runner [p] [] d) ∧
        (stage (with_runner [] [r] d) < stage (with_runner [p] [] d))%nat) d.
Proof using All.
  intros Hp Hr Hv Hl Hok. destruct p as [dir url|path url|dir url title path s|tmp url path|url images html title];
    cbn [run_task]; unfold this; wp_simp.
  - rewrite wp_file_op. unfold stage. simpl. split_and!; eauto with lia.
  - unfold stage. simpl. split_and!; eauto; try apply Hok.
  - rewrite wp_file_op. wp_simp. unfold stage. simpl. split_and!; eauto with lia.
  - eapply wp_mono; [|by apply (wp_SavePDFFile tmp d d)]. intros s d' Hd'.
    unfold stage. simpl. split_and!; eauto with lia.
  - destruct Hok as [-> Hok]. eapply wp_mono; [|by apply (wp_SaveDistilledHTML _ images html d d)].
    intros s d' Hd'. unfold stage. simpl. split_and!; eauto with lia. by left.
Qed.

(** ** The events *)

(** An event that can happen, the images of an article having URLs with a
    text. *)
Definition event_ok (e : event) (d : URLDownloader) : Prop :=
  enabled e d ∧
  match e with EvDistilled article => images_ok (article_images article) | _ => True end.

(** The events by which the task under way goes on. *)
Definition progress_event (e : event) : bool :=
  match e with
  | EvRunTask | EvRunReply | EvDistilled _ | EvLoaded _ _ => true
  | _ => false
  end.

Definition event_outcome (e : event) (d d' : URLDownloader) : Prop :=
  downloader_inv d' ∧
  match e with
  | EvRequest r =>
      queue_of d' = start (MkQueue (completions d) (current d) (enqueue (tasks_ d) r))
  | EvRedirected _ | EvHasMimeType _ => queue_of d' = queue_of d ∧ stage d' = stage d
  | _ => ∃ t, current d = Some t ∧ outcome (completions d) t (tasks_ d) (stage d) d'
  end.

Lemma busy_current d : busy d → ∃ t, current d = Some t.
Proof.
  intros [p Hp|r Hp Hr|v Hp Hr Hl Hv|l Hp Hr Hv Hl]; unfold current; rewrite Hp, ?Hr.
  - destruct p; eauto.
  - destruct r; eauto.
  - unfold is_distilling. rewrite Hv. simpl. eauto.
  - unfold is_loading. rewrite Hl, orb_true_r. eauto.
Qed.

Lemma busy_of_posted d : busy d → posted d ≠ [] →
  ∃ p, posted d = [p] ∧ replies d = [] ∧ is_distilling d = false ∧ is_loading d = false ∧
    task_ok d p.
Proof. intros [p|r Hp|v Hp|l Hp]; [naive_solver|by rewrite Hp..]. Qed.

Lemma busy_of_reply d : busy d → replies d ≠ [] →
  ∃ r, posted d = [] ∧ replies d = [r] ∧ is_distilling d = false ∧ is_loading d = false ∧
    reply_ok d r.
Proof. intros [p _ Hr|r|v _ Hr|l _ Hr]; [by rewrite Hr|naive_solver|by rewrite Hr..]. Qed.

Lemma busy_of_distilling d : busy d → is_distilling d = true →
  ∃ v, posted d = [] ∧ replies d = [] ∧ is_loading d = false ∧
    distiller_ d = Some (MkRunningViewer v true) ∧ url_ v = original_url_ d.
Proof. intros [p|r|v|l]; intros; try congruence. by exists v. Qed.

Lemma busy_of_loading d : busy d → is_loading d = true →
  ∃ l, posted d = [] ∧ replies d = [] ∧ is_distilling d = false ∧
    url_loader_ d = Some (MkLoader l true) ∧ reported_url d l ∧
    mime_type_ d = "application/pdf".
Proof. intros [p|r|v|l]; intros; try congruence. by exists l. Qed.

(** An event of something that is under way happens while the downloader
    works. *)
Lemma inv_busy e d : downloader_inv d → enabled e d →
  (match e with EvRequest _ => False | _ => True end) →
  working_ d = true ∧ busy d ∧ queue_ok (tasks_ d) ∧ client_inv (client d).
Proof.
  intros (Hq & Hc & Hw) He Hn. destruct (working_ d); [done|].
  destruct Hw as ((Hp & Hr & Hv & Hl) & _). destruct e; simpl in *; first [done|congruence].
Qed.

Lemma wp_handle_request r d :
  downloader_inv d → request_valid r = true →
  wp (handle (EvRequest r)) (λ _, event_outcome (EvRequest r) d) d.
Proof using All.
  intros (Hq & Hc & Hw) Hr. unfold handle, this. wp_simp.
  destruct (working_ d) eqn:Ew.
  - apply wp_perform_working; [done|]. unfold event_outcome, downloader_inv.
    destruct (busy_current d Hw) as [t Ht]. split.
    + split_and!; [by apply queue_ok_enqueue|done|]. simpl. rewrite Ew.
      destruct Hw as [p|r'|v|l]; [by eapply busy_posted|by eapply busy_reply|
        by eapply busy_distilling|by eapply busy_loading].
    + unfold start. cbn [q_current]. rewrite Ht. unfold queue_of.
      change (current (set_tasks _ d)) with (current d). by rewrite Ht.
  - destruct Hw as (Hquiet & Hd & Ht).
    assert (Hcur : current d = None).
    { destruct Hquiet as (Hp & Hre & Hv & Hl). unfold current. by rewrite Hp, Hre, Hv, Hl. }
    assert (Hnext : ∀ q, queue_ok q →
      wp HandleNextTask (λ _ d', downloader_inv d' ∧
        queue_of d' = start (MkQueue (completions d) (current d) q)) (set_tasks q d)).
    { intros q Hqq. rewrite Hcur. apply wp_HandleNextTask; done. }
    unfold event_outcome. rewrite Ht. destruct r as [url|url|url]; simpl in Hr |- *.
    + unfold DownloadOfflineURL, this. wp_simp. rewrite Ht.
      rewrite bool_decide_eq_false_2 by apply not_elem_of_nil. cbn [negb]. wp_simp. simpl.
      rewrite Ht. apply (Hnext [(DOWNLOAD, url)]). simpl.
      split_and!; [done|apply not_elem_of_nil..|done].
    + unfold RemoveOfflineURL, CancelDownloadOfflineURL. wp_simp. simpl. rewrite Ht. simpl.
      by apply (Hnext [(DELETE, url)]).
    + unfold CancelDownloadOfflineURL. wp_simp. simpl. rewrite Ht. unfold downloader_inv, queue_of.
      simpl. rewrite Ew. change (current (set_tasks [] d)) with (current d). by rewrite Hcur.
Qed.

Lemma wp_handle_EvRunTask d :
  downloader_inv d → enabled EvRunTask d →
  wp (handle EvRunTask) (λ _, event_outcome EvRunTask d) d.
Proof using All.
  intros Hinv He. destruct (inv_busy EvRunTask d Hinv He I) as (Hw & Hb & Hq & Hc).
  destruct (busy_of_posted d Hb He) as (p & Hp & Hr & Hv & Hl & Hok).
  unfold handle, this. wp_simp. rewrite Hp. wp_simp.
  assert (Heq : d = with_runner [p] [] d) by (destruct d; simpl in *; by subst).
  eapply wp_mono; [|apply wp_run_task; [done|exact Hr|done|done|by destruct p]].
  intros r d' ((fs & n & ->) & Hreply & Hcur & Hst). wp_simp. simpl. rewrite Hr. simpl.
  unfold event_outcome, outcome. 
  assert (Hinv' : downloader_inv (with_runner [] [r]
      (set_saved_size n (set_files fs (with_runner [] (replies d) d))))).
  { unfold downloader_inv. simpl. rewrite Hw. split_and!; [done..|].
    eapply busy_reply; done. }
  split; [exact Hinv'|]. destruct (busy_current d Hb) as [t Ht]. exists t.
  split; [done|]. split; [exact Hinv'|]. left.
  rewrite Heq in Ht at 1. split_and!; [|done..|].
  - change (current (with_runner [] [r] (with_runner [] (replies d) d)) = Some t).
    rewrite Hcur. exact Ht.
  - rewrite Heq at 2. exact Hst.
Qed.

Lemma working_quiet_of d p r :
  working_ d = true → queue_ok (tasks_ d) → client_inv (client d) →
  is_distilling d = false → is_loading d = false → p = [] → r = [] →
  working_quiet (with_runner p r d).
Proof. intros ? ? ? ? ? -> ->. by split_and!. Qed.

Lemma outcome_of_current (m : M URLDownloader unit) c t q n d :
  wp m (λ _, outcome c t q n) d →
  wp m (λ _ d', ∃ t', Some t = Some t' ∧ outcome c t' q n d') d.
Proof. apply wp_mono. intros _ d' Ho. by exists t. Qed.

Lemma wp_handle_EvRunReply d :
  downloader_inv d → enabled EvRunReply d →
  wp (handle EvRunReply) (λ _, event_outcome EvRunReply d) d.
Proof using All.
  intros Hinv He. destruct (inv_busy EvRunReply d Hinv He I) as (Hw & Hb & Hq & Hc).
  destruct (busy_of_reply d Hb He) as (r & Hp & Hr & Hv & Hl & Hok).
  unfold handle, this. wp_simp. rewrite Hr. wp_simp.
  assert (HW : working_quiet (with_runner [] [] d)) by by apply working_quiet_of.
  enough (wp (run_reply r)
    (λ _ d', ∃ t, current d = Some t ∧ outcome (completions d) t (tasks_ d) (stage d) d')
    (with_runner (posted d) [] d)) as Hrun.
  { eapply wp_mono; [|exact Hrun]. intros [] d' (t & Ht & Ho). split; [apply Ho|by exists t]. }
  unfold current, stage. rewrite Hp, Hr.
  destruct r as [url b|url b|url title path s|url title path s]; simpl in Hok |- *;
    apply outcome_of_current.
  - by apply (wp_DeleteCompletionHandler _ _ _ (with_runner [] [] d)).
  - apply (wp_DownloadURL _ _ (with_runner [] [] d)); [done|apply Hok..].
  - apply (wp_post_delete _ _ _ _ _ _ (with_runner [] [] d)); [done|]. exact Hok.
  - apply (wp_DownloadCompletionHandler _ _ _ _ _ _ (with_runner [] [] d));
      [done|by left|exact Hok|by left|lia].
Qed.

Lemma wp_handle_EvDistilled article d :
  downloader_inv d → event_ok (EvDistilled article) d →
  wp (handle (EvDistilled article)) (λ _, event_outcome (EvDistilled article) d) d.
Proof using All.
  intros Hinv [He Himg].
  destruct (inv_busy (EvDistilled article) d Hinv He I) as (Hw & Hb & Hq & Hc).
  destruct (busy_of_distilling d Hb He) as (v & Hp & Hr & Hl & Hd & Hurl).
  unfold handle, this. wp_simp. exists (MkRunningViewer v true). split; [done|].
  simpl. unfold OnDistillerFinished.
  pose proof (OnArticleReady_html article v) as [Hdu Hhtml].
  assert (Himages : d_html (OnArticleReady article v).1 ≠ "" →
    images_ok (d_images (OnArticleReady article v).1)).
  { intros Hne. unfold OnArticleReady. destruct (article_is_empty article) eqn:Ea.
    - by destruct Hne; apply Hhtml.
    - exact Himg. }
  destruct (OnArticleReady article v) as [result v']. simpl in Hdu, Himages. wp_simp.
  eapply wp_mono; [|apply wp_DistillerCallback; [split_and!; done|by rewrite Hdu|done]].
  intros [] d' Ho. simpl in Ho. split; [apply Ho|]. exists (DOWNLOAD, original_url_ d).
  simpl in He. split; [unfold current; by rewrite Hp, Hr, He|].
  unfold stage. by rewrite Hp, Hr, He.
Qed.

Lemma wp_handle_EvLoaded response mime d :
  downloader_inv d → enabled (EvLoaded response mime) d →
  wp (handle (EvLoaded response mime)) (λ _, event_outcome (EvLoaded response mime) d) d.
Proof using All.
  intros Hinv He.
  destruct (inv_busy (EvLoaded response mime) d Hinv He I) as (Hw & Hb & Hq & Hc).
  destruct (busy_of_loading d Hb He) as (l & Hp & Hr & Hv & Hload & Hurl & Hmime).
  unfold handle, this. wp_simp. exists (MkLoader l true). split; [done|]. wp_simp.
  eapply wp_mono; [|apply wp_OnURLLoadComplete;
    [split_and!; done|done|by eexists|exact Hurl]].
  intros [] d' Ho. simpl in Ho. split; [apply Ho|]. exists (DOWNLOAD, original_url_ d).
  simpl in He. split; [unfold current; by rewrite Hp, Hr, He, orb_true_r|].
  unfold stage. by rewrite Hp, Hr, Hv, He.
Qed.

Lemma wp_handle_page e d :
  downloader_inv d → enabled e d →
  (match e with EvRedirected _ | EvHasMimeType _ => True | _ => False end) →
  wp (handle e) (λ _, event_outcome e d) d.
Proof using All.
  intros Hinv He Hpage.
  destruct (inv_busy e d Hinv He ltac:(by destruct e)) as (Hw & Hb & Hq & Hc).
  assert (Hdist : is_distilling d = true) by (by destruct e).
  destruct (busy_of_distilling d Hb Hdist) as (v & Hp & Hr & Hl & Hd & Hurl).
  destruct e; try done; unfold handle, this; wp_simp; exists (MkRunningViewer v true);
    (split; [done|]); simpl;
    unfold DistilledPageRedirectedToURL, DistilledPageHasMimeType, this; wp_simp;
    (split; [by apply bool_decide_eq_true|]); unfold event_outcome, downloader_inv; simpl;
    rewrite Hw; (split; [split_and!; [done..|by eapply busy_distilling]|done]).
Qed.

Lemma wp_handle e d :
  downloader_inv d → event_ok e d → wp (handle e) (λ _, event_outcome e d) d.
Proof using All.
  intros Hinv [He Hi]. destruct e.
  - by apply wp_handle_request.
  - by apply wp_handle_EvRunTask.
  - by apply wp_handle_EvRunReply.
  - by apply wp_handle_page.
  - by apply wp_handle_page.
  - by apply wp_handle_EvDistilled.
  - by apply wp_handle_EvLoaded.
Qed.

(** ** The properties *)

Definition step_ok (d : URLDownloader) (e : event) (d' : URLDownloader) : Prop :=
  event_ok e d ∧ handle e d = Ok (tt, d').

Lemma URLDownloader_new_inv path fs c :
  client_inv c → downloader_inv (URLDownloader_new path fs c).
Proof. intros Hc. unfold downloader_inv, quiet. by split_and!. Qed.

(** In every state the downloader reaches, whatever the order of requests,
    replies, redirections and ends of distillations and fetches, no check
    fails and the handlers return; exactly one thing is under way while it is
    working, and nothing is kept when it is not; in its queue a download is the
    last task of its URL and the only one. *)
Theorem downloader_reachable path fs c d :
  client_inv c → reachable step_ok (URLDownloader_new path fs c) d →
  queue_ok (tasks_ d) ∧
  (if working_ d then busy d else quiet d ∧ distiller_ d = None ∧ tasks_ d = []) ∧
  ∀ e, event_ok e d → ∃ d', handle e d = Ok (tt, d').
Proof using All.
  intros Hc Hreach.
  assert (Hinv : downloader_inv d).
  { revert d Hreach. apply reachable_invariant; [by apply URLDownloader_new_inv|].
    intros d e d' Hd [He Hrun]. pose proof (wp_handle e d Hd He) as Hwp.
    unfold wp in Hwp. rewrite Hrun in Hwp. apply Hwp. }
  pose proof Hinv as (Hq & _ & Hw). split; [done|]. split; [done|].
  intros e He. apply (wp_handle e d Hinv), wp_run in He as ([] & d' & Hrun & _). by exists d'.
Qed.


(** Events chosen while the downloader works. *)
Fixpoint run_schedule (choose : URLDownloader → event) (n : nat) : M URLDownloader unit :=
  match n with
  | O => mret tt
  | S n =>
      d ← this;
      if working_ d then handle (choose d);; run_schedule choose n else mret tt
  end.

Definition measure (d : URLDownloader) : nat := 9 * length (tasks_ d) + stage d.

Lemma stage_le d : (stage d <= 8)%nat.
Proof.
  unfold stage. destruct (posted d) as [|[] ?]; try lia.
  destruct (replies d) as [|[] ?]; try lia. destruct (is_distilling d); [lia|].
  destruct (is_loading d); lia.
Qed.

Lemma stage_quiet d : current d = None → stage d = 0%nat.
Proof.
  unfold current, stage. destruct (posted d) as [|[] ?]; try (intros; discriminate).
  destruct (replies d) as [|[] ?]; try (intros; discriminate).
  destruct (is_distilling d); [intros; discriminate|].
  destruct (is_loading d); [intros; discriminate|done].
Qed.

Lemma stage_busy d t : current d = Some t → (0 < stage d)%nat.
Proof.
  unfold current, stage. destruct (posted d) as [|[] ?]; try lia.
  destruct (replies d) as [|[] ?]; try lia. destruct (is_distilling d); [lia|].
  destruct (is_loading d); [lia|intros; discriminate].
Qed.

Definition pending_tasks (d : URLDownloader) : list Task :=
  option_list (current d) ++ tasks_ d.

(** An event of the task under way brings the downloader nearer to idleness,
    and reports at most that task. *)
Lemma progress_decreases e d d' :
  silent_client → downloader_inv d → event_ok e d → progress_event e = true →
  handle e d = Ok (tt, d') →
  downloader_inv d' ∧ (measure d' < measure d)%nat ∧
  ∃ l t, completions d' = completions d ++ l ∧ pending_tasks d = t ++ pending_tasks d' ∧
    Forall2 reports l t.
Proof using All.
  intros Hsil Hinv He Hprog Hrun. pose proof (wp_handle e d Hinv He) as Hwp.
  unfold wp in Hwp. rewrite Hrun in Hwp. destruct Hwp as [Hinv' Hout]. split; [done|].
  assert (∃ t, current d = Some t ∧ outcome (completions d) t (tasks_ d) (stage d) d')
    as (t & Ht & _ & Ho) by (destruct e; done).
  unfold measure, pending_tasks. rewrite Ht.
  destruct Ho as [(Hcur & Hrep & Hq & Hst)|(c & l & Hc & Hl & Hq)].
  - rewrite Hq, Hrep, Hcur. split; [lia|]. exists [], []. by rewrite app_nil_r.
  - rewrite (Hl Hsil) in Hq. cbn [foldl] in Hq. pose proof (stage_busy d t Ht).
    unfold queue_of, start in Hq. cbn [q_current q_waiting q_reported] in Hq.
    destruct (tasks_ d) as [|t' q] eqn:Eq; injection Hq as Hrep Hcur Htasks;
      rewrite Htasks, Hcur, Hrep.
    + rewrite (stage_quiet d' Hcur). split; [simpl; lia|]. exists [c], [t].
      split; [done|]. split; [done|]. by repeat constructor.
    + pose proof (stage_le d'). split; [cbn [length]; lia|]. exists [c], [t].
      split; [done|]. split; [done|]. by repeat constructor.
Qed.

Lemma run_schedule_drains choose n d :
  silent_client →
  (∀ d, downloader_inv d → working_ d = true →
    progress_event (choose d) = true ∧ event_ok (choose d) d) →
  downloader_inv d → (measure d <= n)%nat →
  ∃ d', run_schedule choose n d = Ok (tt, d') ∧ downloader_inv d' ∧ working_ d' = false ∧
    ∃ l, completions d' = completions d ++ l ∧ Forall2 reports l (pending_tasks d).
Proof using All.
  intros Hsil Hch. revert d. induction n as [|n IH]; intros d Hinv Hm; cbn [run_schedule].
  all: destruct (working_ d) eqn:Ew.
  - destruct Hinv as (_ & _ & Hb). rewrite Ew in Hb. destruct (busy_current d Hb) as [t Ht].
    apply stage_busy in Ht. unfold measure in Hm. lia.
  - exists d. split; [done|]. split; [done|]. split; [done|]. exists [].
    rewrite app_nil_r. split; [done|]. destruct Hinv as (_ & _ & Hb). rewrite Ew in Hb.
    destruct Hb as ((Hp & Hr & Hv & Hl) & _ & Ht).
    unfold pending_tasks, current. by rewrite Hp, Hr, Hv, Hl, Ht.
  - destruct (Hch d Hinv Ew) as [Hprog Hok].
    destruct (wp_run _ _ _ (wp_handle _ d Hinv Hok)) as ([] & d1 & Hrun & _).
    destruct (progress_decreases _ d d1 Hsil Hinv Hok Hprog Hrun)
      as (Hinv1 & Hlt & l1 & t1 & Hc1 & Hp1 & Hf1).
    destruct (IH d1 Hinv1 ltac:(lia)) as (d' & Hrun' & Hinv' & Hw' & l2 & Hc2 & Hf2).
    exists d'. split_and!; [|done|done|].
    + unfold mbind, M_bind, this, gets. rewrite Ew, Hrun. exact Hrun'.
    + exists (l1 ++ l2). rewrite Hc2, Hc1, app_assoc. split; [done|].
      rewrite Hp1. by apply Forall2_app.
  - exists d. split; [unfold mbind, M_bind, this, gets; by rewrite Ew|].
    split; [done|]. split; [done|]. exists [].
    rewrite app_nil_r. split; [done|]. destruct Hinv as (_ & _ & Hb). rewrite Ew in Hb.
    destruct Hb as ((Hp & Hr & Hv & Hl) & _ & Ht).
    unfold pending_tasks, current. by rewrite Hp, Hr, Hv, Hl, Ht.
Qed.


(** A schedule: what is under way answers, articles being empty and loads
    failing. *)
Definition plain_schedule (d : URLDownloader) : event :=
  match posted d, replies d with
  | _ :: _, _ => EvRunTask
  | [], _ :: _ => EvRunReply
  | [], [] => if is_distilling d then EvDistilled (MkArticle "" [])
              else EvLoaded EmptyFilePath None
  end.

Lemma plain_schedule_ok d :
  downloader_inv d → working_ d = true →
  progress_event (plain_schedule d) = true ∧ event_ok (plain_schedule d) d.
Proof.
  intros (_ & _ & Hb) Hw. rewrite Hw in Hb. unfold plain_schedule, event_ok.
  destruct Hb as [p Hp|r Hp Hr|v Hp Hr Hl Hv|l Hp Hr Hv Hl]; rewrite Hp, ?Hr; simpl.
  - by rewrite Hp.
  - by rewrite Hr.
  - assert (Hd : is_distilling d = true) by (unfold is_distilling; by rewrite Hv).
    rewrite Hd. simpl. rewrite Hd. split_and!; [done..|constructor].
  - rewrite Hv. simpl. unfold is_loading. by rewrite Hl.
Qed.
End downloader_spec.
