(* ===== verification/ReadingListDownloadService.v ===== *)
(** * The download service of the reading list

    src/chrome/browser/reading_list/reading_list_download_service.cc and .h:
    the client of [URLDownloader] that follows the entries of the reading list
    model, decides by the network and by the number of failures whether an
    entry is downloaded now, later or never, and records the outcome in the
    model.  The service is the [DownloaderClient] of its downloader, so that a
    state of the downloader is a state of the whole. *)

From S2P Require Import Prelude.
From S2P Require Import WebEnv.
From S2P Require Import StdSet.
From S2P Require Import FilePaths.
From S2P Require Import ReadingListModel.
From S2P Require Import DistillerViewer.
From S2P Require Import URLDownloader.
From S2P Require Import URLDownloaderSpec.

(** services/network/public: the connection tracker's types of connection. *)
Class NetworkEnv := {
  ConnectionType : Type;
  #[global] ConnectionType_eq_dec :: EqDecision ConnectionType;
  CONNECTION_UNKNOWN : ConnectionType;
  CONNECTION_WIFI : ConnectionType;
  CONNECTION_NONE : ConnectionType;
}.

(** base/files/file_enumerator.h: the directories directly under a path. *)
Class FileEnumeration `{!FilePaths} `{!FileSystem} := {
  SubDirectories : FS → FilePath → list FilePath;
}.

Inductive UMADownloadStatus : Set := SUCCESS | FAILURE | RETRY.
#[global] Instance UMADownloadStatus_eq_dec : EqDecision UMADownloadStatus.
Proof. solve_decision. Defined.

Definition kNumberOfFailsBeforeWifiOnly : Z := 5.
Definition kNumberOfFailsBeforeStop : Z := 7.

Section service.
Context `{ENV : WebEnv} `{FP : FilePaths} `{FSY : !FileSystem} `{FE : !FileEnumeration}
  `{RL : !ReadingListEnv} `{NE : NetworkEnv}.

(** The order of std::set<GURL>. *)
Definition url_ltb (u v : GURL) : bool := string_ltb (spec u) (spec v).

(** What NetworkConnectionTracker answers: IsOffline(), and GetConnectionType()
    when it is known; the callbacks it keeps otherwise. *)
Record NetworkState := MkNetwork {
  IsOffline : bool;
  connection_type : option ConnectionType;
  connection_callbacks : nat;
}.

(** The fields of the class; the tasks it has posted: delayed downloads, and the
    cleaning of the files with the entries to download when it is done; the
    statuses reported; the network. *)
Record Service := MkService {
  reading_list_model_ : ReadingListModel;
  chrome_profile_path_ : FilePath;
  url_to_download_cellular_ : list GURL;
  url_to_download_wifi_ : list GURL;
  had_connection_ : bool;
  delayed_downloads : list (GURL * Z);
  clean_ups : list (list string * list GURL);
  statuses : list UMADownloadStatus;
  network : NetworkState;
}.

Definition Service_new (m : ReadingListModel) (p : FilePath) (n : NetworkState) : Service :=
  MkService m p [] [] (negb (IsOffline n)) [] [] [] n.

Definition set_model (m : ReadingListModel) (s : Service) : Service :=
  MkService m (chrome_profile_path_ s) (url_to_download_cellular_ s) (url_to_download_wifi_ s)
    (had_connection_ s) (delayed_downloads s) (clean_ups s) (statuses s) (network s).
Definition set_lists (c w : list GURL) (s : Service) : Service :=
  MkService (reading_list_model_ s) (chrome_profile_path_ s) c w (had_connection_ s)
    (delayed_downloads s) (clean_ups s) (statuses s) (network s).
Definition set_had_connection (b : bool) (s : Service) : Service :=
  MkService (reading_list_model_ s) (chrome_profile_path_ s) (url_to_download_cellular_ s)
    (url_to_download_wifi_ s) b (delayed_downloads s) (clean_ups s) (statuses s) (network s).
Definition set_delayed (l : list (GURL * Z)) (s : Service) : Service :=
  MkService (reading_list_model_ s) (chrome_profile_path_ s) (url_to_download_cellular_ s)
    (url_to_download_wifi_ s) (had_connection_ s) l (clean_ups s) (statuses s) (network s).
Definition set_clean_ups (l : list (list string * list GURL)) (s : Service) : Service :=
  MkService (reading_list_model_ s) (chrome_profile_path_ s) (url_to_download_cellular_ s)
    (url_to_download_wifi_ s) (had_connection_ s) (delayed_downloads s) l (statuses s)
    (network s).
Definition report_status (u : UMADownloadStatus) (s : Service) : Service :=
  MkService (reading_list_model_ s) (chrome_profile_path_ s) (url_to_download_cellular_ s)
    (url_to_download_wifi_ s) (had_connection_ s) (delayed_downloads s) (clean_ups s)
    (statuses s ++ [u]) (network s).
Definition set_network (n : NetworkState) (s : Service) : Service :=
  MkService (reading_list_model_ s) (chrome_profile_path_ s) (url_to_download_cellular_ s)
    (url_to_download_wifi_ s) (had_connection_ s) (delayed_downloads s) (clean_ups s)
    (statuses s) n.

Definition self : M Service Service := gets (λ s : Service, s).

Definition with_model (f : ReadingListModel → ReadingListModel) : M Service unit :=
  modify (λ s, set_model (f (reading_list_model_ s)) s).

Definition OfflineRoot (s : Service) : FilePath := OfflineRootDirectoryPath (chrome_profile_path_ s).

(** An entry that is not there, read, processed or given up is not downloaded. *)
Definition wants_download (entry : option ReadingListEntry) : option ReadingListEntry :=
  match entry with
  | Some e =>
      if bool_decide (DistilledState e = DISTILLATION_ERROR) ||
         bool_decide (DistilledState e = PROCESSED) || IsRead e then None else Some e
  | None => None
  end.

Definition ScheduleDownloadEntry (url : GURL) : M Service unit :=
  s ← self;
  DCHECK (loaded (reading_list_model_ s));;
  match wants_download (GetEntryByURL (reading_list_model_ s) url) with
  | None => mret tt
  | Some entry =>
      modify (λ s, set_delayed (delayed_downloads s ++ [(url, TimeUntilNextTry entry)]) s)
  end.

Fixpoint ScheduleDownloadEntries (urls : list GURL) : M Service unit :=
  match urls with
  | [] => mret tt
  | url :: urls => ScheduleDownloadEntry url;; ScheduleDownloadEntries urls
  end.

Definition DownloadUnprocessedEntries (unprocessed_entries : list GURL) : M Service unit :=
  ScheduleDownloadEntries unprocessed_entries.

(** ** The end of a download *)

Definition OnDownloadEnd (url distilled_url : GURL) (success : SuccessState)
    (distilled_path : FilePath) (size : Z) (title : string) : M Service unit :=
  s ← self;
  DCHECK (loaded (reading_list_model_ s));;
  let real_success_value := if path_empty distilled_path then ERROR else success in
  match real_success_value with
  | DOWNLOAD_SUCCESS | DOWNLOAD_EXISTS =>
      with_model (SetEntryDistilledInfo url distilled_path distilled_url size);;
      let trimmed_title := CollapseWhitespaceASCII title in
      whenM (negb (bool_decide (trimmed_title = "")))
        (with_model (SetEntryTitle url trimmed_title));;
      modify (report_status SUCCESS)
  | ERROR =>
      match GetEntryByURL (reading_list_model_ s) url with
      | Some entry =>
          if FailedDownloadCounter entry + 1 <? kNumberOfFailsBeforeStop then
            with_model (SetEntryDistilledState url WILL_RETRY);;
            ScheduleDownloadEntry url;;
            modify (report_status RETRY)
          else
            modify (report_status FAILURE);;
            with_model (SetEntryDistilledState url DISTILLATION_ERROR)
      | None =>
          modify (report_status FAILURE);;
          with_model (SetEntryDistilledState url DISTILLATION_ERROR)
      end
  end.

Definition OnDeleteEnd (url : GURL) (success : bool) : M Service unit := mret tt.

(** ** The model and the network *)

(** The two sets of SyncWithModel.  An entry listed by Keys() is in the model. *)
Definition sync_entry (m : ReadingListModel) (acc : list string * list GURL) (url : GURL) :
    res (list string * list GURL) :=
  match GetEntryByURL m url with
  | None => Crash NullDeref
  | Some entry =>
      match DistilledState entry with
      | PROCESSED => Ok (set_insert string_ltb (OfflineURLDirectoryID url) acc.1, acc.2)
      | WAITING | PROCESSING | WILL_RETRY => Ok (acc.1, set_insert url_ltb url acc.2)
      | DISTILLATION_ERROR => Ok acc
      end
  end.

Fixpoint sync_entries (m : ReadingListModel) (urls : list GURL)
    (acc : list string * list GURL) : res (list string * list GURL) :=
  match urls with
  | [] => Ok acc
  | url :: urls => acc ← sync_entry m acc url; sync_entries m urls acc
  end.

Definition SyncWithModel : M Service unit :=
  s ← self;
  DCHECK (loaded (reading_list_model_ s));;
  sets ← lift_res (sync_entries (reading_list_model_ s) (Keys (reading_list_model_ s)) ([], []));
  modify (λ s, set_clean_ups (clean_ups s ++ [sets]) s).

Definition ReadingListModelLoaded : M Service unit := SyncWithModel.

Definition OnConnectionChanged (type : ConnectionType) : M Service unit :=
  if bool_decide (type = CONNECTION_NONE) then modify (set_had_connection false)
  else
    s ← self;
    whenM (negb (had_connection_ s))
      (modify (set_had_connection true);;
       ScheduleDownloadEntries (url_to_download_cellular_ s));;
    whenM (bool_decide (type = CONNECTION_WIFI))
      (ScheduleDownloadEntries (url_to_download_wifi_ s)).

(** The directories under the root whose names are not in the set are deleted. *)
Fixpoint delete_unlisted (processed_directories : list string) (l : list FilePath) (fs : FS) : FS :=
  match l with
  | [] => fs
  | sub_directory :: l =>
      delete_unlisted processed_directories l
        (if negb (set_count string_ltb (path_value (BaseName sub_directory)) processed_directories)
         then snd (DeleteFile sub_directory fs) else fs)
  end.

(** FileEnumerator reads the entries of the directory when it starts. *)
Definition CleanUpFiles (root : FilePath) (processed_directories : list string) (fs : FS) : FS :=
  delete_unlisted processed_directories (SubDirectories fs root) fs.

(** ** The service and its downloader *)

Context `{DD : DomDistillerEnv} `{DE : DownloaderEnv}.

#[local] Instance service_client : DownloaderClient := {|
  Client := Service;
  download_completion url distilled_url s path n title :=
    (λ _, []) <$> OnDownloadEnd url distilled_url s path n title;
  delete_completion url b := (λ _, []) <$> OnDeleteEnd url b;
|}.

(** A method of the service that leaves the downloader alone. *)
Definition service {A} (m : M Service A) : M URLDownloader A := λ d,
  match m (client d) with
  | Ok (a, s) => Ok (a, set_client (s : Client) d)
  | Crash c => Crash c
  end.

Definition ProcessNewEntry (url : GURL) : M URLDownloader unit :=
  s ← service self;
  match GetEntryByURL (reading_list_model_ s) url with
  | None => CancelDownloadOfflineURL url
  | Some entry =>
      if IsRead entry then CancelDownloadOfflineURL url else service (ScheduleDownloadEntry url)
  end.

Definition ReadingListDidAddEntry (url : GURL) : M URLDownloader unit := ProcessNewEntry url.
Definition ReadingListDidMoveEntry (url : GURL) : M URLDownloader unit := ProcessNewEntry url.

Definition RemoveDownloadedEntry (url : GURL) : M URLDownloader unit :=
  s ← service self;
  DCHECK (loaded (reading_list_model_ s));;
  RemoveOfflineURL url.

Definition ReadingListWillRemoveEntry (url : GURL) : M URLDownloader unit :=
  s ← service self;
  DCHECK (bool_decide (is_Some (GetEntryByURL (reading_list_model_ s) url)));;
  RemoveDownloadedEntry url.

Definition start_download (url : GURL) : M URLDownloader unit :=
  service (with_model (SetEntryDistilledState url PROCESSING));;
  DownloadOfflineURL url.

(** When the type of the connection is not known yet the tracker keeps the
    callback, and the connection is treated as not being wifi. *)
Definition GetConnectionType : M Service ConnectionType :=
  s ← self;
  match connection_type (network s) with
  | Some type => mret type
  | None =>
      modify (set_network (MkNetwork (IsOffline (network s)) None
                             (S (connection_callbacks (network s)))));;
      mret CONNECTION_UNKNOWN
  end.

Definition DownloadEntry (url : GURL) : M URLDownloader unit :=
  s ← service self;
  DCHECK (loaded (reading_list_model_ s));;
  match wants_download (GetEntryByURL (reading_list_model_ s) url) with
  | None => mret tt
  | Some entry =>
      if IsOffline (network s) then
        let failures := FailedDownloadCounter entry in
        service (modify (set_lists
          (if failures <? kNumberOfFailsBeforeWifiOnly
           then url_to_download_cellular_ s ++ [entry_URL entry] else url_to_download_cellular_ s)
          (if failures <? kNumberOfFailsBeforeStop
           then url_to_download_wifi_ s ++ [entry_URL entry] else url_to_download_wifi_ s)))
      else if FailedDownloadCounter entry <? kNumberOfFailsBeforeWifiOnly then
        start_download (entry_URL entry)
      else if FailedDownloadCounter entry <? kNumberOfFailsBeforeStop then
        connection_type ← service GetConnectionType;
        if bool_decide (connection_type = CONNECTION_WIFI) then start_download (entry_URL entry)
        else
          service (modify (λ s, set_lists (url_to_download_cellular_ s)
                                  (url_to_download_wifi_ s ++ [entry_URL entry]) s))
      else mret tt
  end.

(** The tasks of the service: the delayed task at an index, and the first
    cleaning with its reply. *)
Definition run_delayed (i : Z) : M URLDownloader unit :=
  s ← service self;
  task ← at_ (delayed_downloads s) i;
  service (modify (set_delayed (vec_erase (delayed_downloads s) i)));;
  DownloadEntry (fst task).

Definition run_clean_up : M URLDownloader unit :=
  s ← service self;
  match clean_ups s with
  | [] => mret tt
  | (processed_directories, unprocessed_entries) :: rest =>
      service (modify (set_clean_ups rest));;
      file_op (λ fs, (tt, CleanUpFiles (OfflineRoot s) processed_directories fs));;
      service (DownloadUnprocessedEntries unprocessed_entries)
  end.
End service.
