(* ===== verification/ReadingListServiceSpec.v ===== *)
(** * The reading list downloads as a whole

    About [ReadingListDownloadService] and, through it, [URLDownloader]: the
    service meets what the downloader asks of a client; what the end of a
    download makes of the entry; when an entry is downloaded; the directories
    kept when the files are cleaned; no check fails in any state the whole
    reaches.  The last part evaluates two runs in which an entry that should
    be available offline is not. *)

From S2P Require Import Prelude.
From S2P Require Import WebEnv.
From S2P Require Import StdSet.
From S2P Require Import FilePaths.
From S2P Require Import ReadingListModel.
From S2P Require Import DistillerViewer.
From S2P Require Import URLDownloader.
From S2P Require Import URLDownloaderSpec.
From S2P Require Import ReadingListDownloadService.

Section service_spec.
Context `{ENV : WebEnv} `{FP : FilePaths} `{FSY : !FileSystem} `{FE : !FileEnumeration}
  `{RL : !ReadingListEnv} `{NE : NetworkEnv} `{DD : DomDistillerEnv} `{DE : DownloaderEnv}
  `{RLL : !ReadingListLaws}.
#[local] Existing Instance service_client.

Notation model s := (reading_list_model_ s).

(** ** The client of the downloader *)

Definition scheduled (url : GURL) (s : Service) : Service :=
  match wants_download (GetEntryByURL (model s) url) with
  | None => s
  | Some entry => set_delayed (delayed_downloads s ++ [(url, TimeUntilNextTry entry)]) s
  end.

Lemma wp_ScheduleDownloadEntry url s (Q : unit → Service → Prop) :
  loaded (model s) = true → Q tt (scheduled url s) → wp (ScheduleDownloadEntry url) Q s.
Proof.
  intros Hl HQ. unfold ScheduleDownloadEntry, self. wp_simp. split; [done|].
  unfold scheduled in HQ. by destruct (wants_download _); wp_simp.
Qed.

Lemma scheduled_model url s : model (scheduled url s) = model s.
Proof. unfold scheduled. by destruct (wants_download _). Qed.

Lemma wp_ScheduleDownloadEntries urls s :
  loaded (model s) = true →
  wp (ScheduleDownloadEntries urls) (λ _ s', model s' = model s) s.
Proof.
  revert s. induction urls as [|u urls IH]; intros s Hl; simpl; [by wp_simp|].
  wp_simp. apply wp_ScheduleDownloadEntry; [done|].
  eapply wp_mono; [|apply IH; by rewrite scheduled_model].
  intros [] s' Hs'. cbv beta in Hs'. by rewrite Hs', scheduled_model.
Qed.

(** What becomes of the entry whose download ends. *)
Definition entry_outcome (failed : bool) (url distilled_url : GURL) (path : FilePath)
    (e e' : ReadingListEntry) (s s' : Service) : Prop :=
  if failed then
    if FailedDownloadCounter e + 1 <? kNumberOfFailsBeforeStop then
      DistilledState e' = WILL_RETRY ∧
      delayed_downloads s' =
        delayed_downloads s ++ (if IsRead e then [] else [(url, TimeUntilNextTry e')])
    else DistilledState e' = DISTILLATION_ERROR ∧ delayed_downloads s' = delayed_downloads s
  else
    DistilledState e' = PROCESSED ∧ DistilledPath e' = path ∧ DistilledURL e' = distilled_url ∧
    delayed_downloads s' = delayed_downloads s.

Lemma wp_OnDownloadEnd_entry url distilled_url success path n title s e :
  loaded (model s) = true → GetEntryByURL (model s) url = Some e →
  wp (OnDownloadEnd url distilled_url success path n title)
     (λ _ s', loaded (model s') = true ∧
        (∀ u, u ≠ url → GetEntryByURL (model s') u = GetEntryByURL (model s) u) ∧
        ∃ e', GetEntryByURL (model s') url = Some e' ∧
          entry_outcome (path_empty path || bool_decide (success = ERROR))
            url distilled_url path e e' s s') s.
Proof using All.
  intros Hl He. unfold OnDownloadEnd, self, entry_outcome. wp_simp. split; [done|].
  assert (Hcase : (if path_empty path then ERROR else success) = ERROR ∧
      (path_empty path || bool_decide (success = ERROR)) = true ∨
    (if path_empty path then ERROR else success) = success ∧ success ≠ ERROR ∧
      (path_empty path || bool_decide (success = ERROR)) = false).
  { destruct (path_empty path); [by left|]. destruct success; [by right..|by left]. }
  destruct Hcase as [[-> ->]|(-> & Hs & ->)].
  - rewrite He. pose proof (law_SetState_same url WILL_RETRY (model s)) as Hw.
    pose proof (law_SetState_same url DISTILLATION_ERROR (model s)) as Hd. rewrite He in Hw, Hd.
    destruct (_ <? _); unfold with_model; wp_simp.
    + apply wp_ScheduleDownloadEntry; [by simpl; rewrite law_loaded_state|]. wp_simp.
      destruct Hw as (e' & He' & Hstate & Hread). unfold scheduled. simpl. rewrite He'. simpl.
      rewrite Hstate, Hread. simpl. destruct (IsRead e); simpl; rewrite ?app_nil_r.
      all: split; [by rewrite law_loaded_state|].
      all: split; [intros u Hu; by apply law_SetState_other|by exists e'].
    + simpl. split; [by rewrite law_loaded_state|].
      split; [intros u Hu; by apply law_SetState_other|].
      destruct Hd as (e' & He' & Hstate & _). by exists e'.
  - pose proof (law_SetInfo_same url path distilled_url n (model s)) as Hi. rewrite He in Hi.
    destruct Hi as (e1 & He1 & Hstate & Hpath & Hdist).
    pose proof (law_SetTitle url (CollapseWhitespaceASCII title)
      (SetEntryDistilledInfo url path distilled_url n (model s)) url) as Ht.
    rewrite He1 in Ht. destruct Ht as (e2 & He2 & Hs2 & Hp2 & Hd2).
    destruct success; [| |done]; unfold with_model; wp_simp; case_bool_decide; cbn [negb];
      wp_simp; simpl; rewrite ?law_loaded_title, ?law_loaded_info;
      (split; [done|]); (split; [intros u Hu; by rewrite ?law_SetTitle_other, ?law_SetInfo_other|]).
    1,3: by exists e1. all: exists e2; by rewrite Hs2, Hp2, Hd2.
Qed.

Lemma wp_OnDownloadEnd url distilled_url success path n title s :
  loaded (model s) = true →
  wp (OnDownloadEnd url distilled_url success path n title)
     (λ _ s', loaded (model s') = true) s.
Proof using All.
  intros Hl. destruct (GetEntryByURL (model s) url) as [e|] eqn:He.
  { eapply wp_mono; [|by apply wp_OnDownloadEnd_entry]. by intros [] s' [? _]. }
  unfold OnDownloadEnd, self. wp_simp. split; [done|]. rewrite He.
  unfold with_model. destruct (if path_empty path then ERROR else success); wp_simp.
  1,2: case_bool_decide; cbn [negb]; wp_simp; simpl; by rewrite ?law_loaded_title, law_loaded_info.
  simpl. by rewrite law_loaded_state.
Qed.

Definition service_inv (s : Service) : Prop := loaded (model s) = true.

Lemma service_download_completion url distilled_url s path n title (c : Client) :
  service_inv c →
  ∃ l c', download_completion url distilled_url s path n title c = Ok (l, c') ∧
    service_inv c' ∧ Forall (λ r, request_valid r = true) l.
Proof using All.
  intros Hc. pose proof (wp_run _ _ _ (wp_OnDownloadEnd url distilled_url s path n title c Hc))
    as ([] & c' & Hrun & Hc').
  exists [], c'. split; [|split; [done|constructor]].
  simpl. unfold fmap, M_fmap. by rewrite Hrun.
Qed.

Lemma service_delete_completion url b (c : Client) :
  service_inv c →
  ∃ l c', delete_completion url b c = Ok (l, c') ∧
    service_inv c' ∧ Forall (λ r, request_valid r = true) l.
Proof. intros Hc. exists [], c. split; [done|]. split; [done|constructor]. Qed.

#[export] Instance service_client_laws : DownloaderClientLaws := {|
  client_inv := service_inv;
  law_download_completion := service_download_completion;
  law_delete_completion := service_delete_completion;
|}.

Lemma service_silent : silent_client.
Proof.
  split.
  - intros url distilled_url s path n title c l c'. simpl. unfold fmap, M_fmap.
    destruct (OnDownloadEnd _ _ _ _ _ _ _) as [[??]|]; [|done]. by intros [= <- _].
  - intros url b c l c'. simpl. by intros [= <- _].
Qed.

(** The end of a download gives the entry its final state: available
    offline under the path and URL of the page; or to be tried again, then
    scheduled again unless it was read; or, at the seventh failure, given up.
    A download reported without a path counts as failed.  No other entry
    changes. *)
Theorem OnDownloadEnd_outcome url distilled_url success path n title s e :
  loaded (model s) = true → GetEntryByURL (model s) url = Some e →
  ∃ s' e', OnDownloadEnd url distilled_url success path n title s = Ok (tt, s') ∧
    GetEntryByURL (model s') url = Some e' ∧
    entry_outcome (path_empty path || bool_decide (success = ERROR))
      url distilled_url path e e' s s' ∧
    ∀ u, u ≠ url → GetEntryByURL (model s') u = GetEntryByURL (model s) u.
Proof using All.
  intros Hl He.
  destruct (wp_run _ _ _ (wp_OnDownloadEnd_entry url distilled_url success path n title s e Hl He))
    as ([] & s' & Hrun & _ & Hother & e' & He' & Hout).
  by exists s', e'.
Qed.

(** ** Cleaning the files *)

Lemma sync_entries_ok urls acc m :
  (∀ u, u ∈ urls → is_Some (GetEntryByURL m u)) →
  ∃ acc', sync_entries m urls acc = Ok acc'.
Proof.
  revert acc. induction urls as [|u urls IH]; intros acc Hk; simpl; [by eexists|].
  destruct (Hk u) as [e He]; [by left|]. unfold sync_entry. rewrite He.
  destruct (DistilledState e); apply IH; intros; apply Hk; by right.
Qed.

#[local] Instance url_ltb_swo : StrictWeakOrder url_ltb.
Proof.
  split; unfold url_ltb.
  - intros u. apply swo_irrefl.
  - intros u v w. apply swo_trans.
  - intros u v w. apply swo_weak.
Qed.

Definition entry_state_in (l : list DistillationState) (m : ReadingListModel) (u : GURL) : bool :=
  match GetEntryByURL m u with
  | Some e => bool_decide (DistilledState e ∈ l)
  | None => false
  end.
Definition is_processed : ReadingListModel → GURL → bool := entry_state_in [PROCESSED].
Definition is_unprocessed : ReadingListModel → GURL → bool :=
  entry_state_in [WAITING; PROCESSING; WILL_RETRY].

Lemma sync_entry_sets u acc acc' m :
  sync_entry m acc u = Ok acc' →
  (∀ d, set_count string_ltb d acc'.1 =
     set_count string_ltb d acc.1 ||
     (is_processed m u && equiv string_ltb d (OfflineURLDirectoryID u))) ∧
  (∀ v, set_count url_ltb v acc'.2 =
     set_count url_ltb v acc.2 || (is_unprocessed m u && equiv url_ltb v u)).
Proof.
  unfold sync_entry, is_processed, is_unprocessed, entry_state_in.
  destruct (GetEntryByURL m u) as [e|]; [|done].
  destruct (DistilledState e); intros [= <-]; simpl; split; intros x;
    rewrite ?set_count_insert by apply _; by rewrite ?orb_false_r.
Qed.

Lemma sync_entries_sets urls acc acc' m :
  sync_entries m urls acc = Ok acc' →
  (∀ d, set_count string_ltb d acc'.1 =
     set_count string_ltb d acc.1 ||
     existsb (λ u, is_processed m u && equiv string_ltb d (OfflineURLDirectoryID u)) urls) ∧
  (∀ v, set_count url_ltb v acc'.2 =
     set_count url_ltb v acc.2 || existsb (λ u, is_unprocessed m u && equiv url_ltb v u) urls).
Proof.
  revert acc. induction urls as [|u urls IH]; intros acc; cbn [sync_entries existsb].
  { intros [= ->]. split; intros x; by rewrite orb_false_r. }
  unfold mbind, res_bind. destruct (sync_entry m acc u) as [acc1|] eqn:E1; [|done].
  intros H. destruct (IH acc1 H) as [H1 H2].
  destruct (sync_entry_sets u acc acc1 m E1) as [H3 H4].
  split; intros x; [rewrite H1, H3|rewrite H2, H4]; by rewrite orb_assoc.
Qed.

(** The deletion, as the directories deleted. *)
Lemma delete_unlisted_deletes dirs l fs :
  delete_unlisted dirs l fs =
  foldl (λ fs p, snd (DeleteFile p fs)) fs
    (List.filter (λ p, negb (set_count string_ltb (path_value (BaseName p)) dirs)) l).
Proof.
  revert fs. induction l as [|p l IH]; intros fs; simpl; [done|].
  rewrite IH. by destruct (set_count _ _ _).
Qed.

(** When the model is loaded the directories of the offline pages that
    are deleted are those of no processed entry; in particular no directory
    of a processed entry.  Then a download is scheduled for the entries that
    are waiting, in progress, or to be tried again, and for no other. *)
Theorem SyncWithModel_cleans (d : URLDownloader) s :
  client d = s → loaded (model s) = true → clean_ups s = [] →
  ∃ d' d'' dirs urls,
    service ReadingListModelLoaded d = Ok (tt, d') ∧ files d' = files d ∧
    run_clean_up d' = Ok (tt, d'') ∧
    files d'' = foldl (λ fs p, snd (DeleteFile p fs)) (files d)
      (List.filter (λ p, negb (set_count string_ltb (path_value (BaseName p)) dirs))
         (SubDirectories (files d) (OfflineRoot s))) ∧
    (∀ name, set_count string_ltb name dirs =
       existsb (λ u, is_processed (model s) u && equiv string_ltb name (OfflineURLDirectoryID u))
         (Keys (model s))) ∧
    (client d'' : Service) = foldl (λ s u, scheduled u s) s urls ∧
    (∀ v, set_count url_ltb v urls =
       existsb (λ u, is_unprocessed (model s) u && equiv url_ltb v u) (Keys (model s))).
Proof using All.
  intros Hcl Hl Hc.
  destruct (sync_entries_ok (Keys (model s)) ([], []) (model s) (law_Keys (model s)))
    as ([dirs urls] & Hsync).
  destruct (sync_entries_sets _ _ _ _ Hsync) as [H1 H2].
  assert (Hsched : ∀ l s, loaded (model s) = true →
    ScheduleDownloadEntries l s = Ok (tt, foldl (λ s u, scheduled u s) s l)).
  { induction l as [|u l IH]; intros s0 Hs0; cbn [ScheduleDownloadEntries foldl]; [done|].
    assert (Hone : ScheduleDownloadEntry u s0 = Ok (tt, scheduled u s0)).
    { unfold ScheduleDownloadEntry, self, gets, mbind, M_bind, DCHECK. rewrite Hs0.
      unfold scheduled, mret, M_ret, modify. by destruct (wants_download _). }
    unfold mbind, M_bind. rewrite Hone. apply IH. by rewrite scheduled_model. }
  set (s1 := set_clean_ups [(dirs, urls)] s).
  exists (set_client (CL := service_client) s1 d).
  eexists. exists dirs, urls. split; [|split; [done|split; [|split; [|split; [|split]]]]].
  - unfold service, ReadingListModelLoaded, SyncWithModel, self, gets, mbind, M_bind, DCHECK.
    rewrite Hcl, Hl. unfold mret, M_ret, lift_res. rewrite Hsync. unfold modify. by rewrite Hc.
  - unfold run_clean_up, service, self, gets, mbind, M_bind. cbn [client set_client].
    unfold s1 at 1. cbn [clean_ups set_clean_ups]. unfold modify, file_op. cbn [client].
    unfold DownloadUnprocessedEntries. rewrite Hsched by done. reflexivity.
  - cbn [files]. by rewrite <- delete_unlisted_deletes.
  - intros name. apply H1.
  - destruct s as [????????? ]. simpl in Hc. by subst.
  - intros v. apply H2.
Qed.

(** ** When an entry is downloaded *)

Lemma wp_service {A} (m : M Service A) (d : URLDownloader) (Q : A → URLDownloader → Prop) :
  wp (service m) Q d ↔ wp m (λ a s, Q a (set_client (CL := service_client) s d)) (client d).
Proof. unfold wp, service. by destruct (m (client d)) as [[a s]|]. Qed.

Lemma inv_set_client s (d : URLDownloader) :
  downloader_inv d → loaded (model s) = true →
  downloader_inv (set_client (CL := service_client) s d).
Proof using All.
  intros (Hq & _ & Hw) Hl. unfold downloader_inv. split; [done|]. split; [exact Hl|].
  simpl. destruct (working_ d); [|done].
  destruct Hw as [p|r|v|l]; [by eapply busy_posted|by eapply busy_reply|
    by eapply busy_distilling|by eapply busy_loading].
Qed.

Lemma wp_perform_request r (d : URLDownloader) :
  downloader_inv d → request_valid r = true →
  wp (perform r) (λ _ d', downloader_inv d' ∧
    queue_of d' = start (MkQueue (completions d) (current d) (enqueue (tasks_ d) r))) d.
Proof using All.
  intros Hinv Hr.
  exact (wp_handle_request r d Hinv Hr).
Qed.

(** What the code decides for an entry that wants a download. *)
Inductive download_plan : Set :=
  | DownloadNow
  | WaitForConnection (cellular wifi : bool)
  | WaitForWifi
  | GiveUp.

Definition plan (n : NetworkState) (failures : Z) : download_plan :=
  if IsOffline n then
    WaitForConnection (failures <? kNumberOfFailsBeforeWifiOnly)
      (failures <? kNumberOfFailsBeforeStop)
  else if failures <? kNumberOfFailsBeforeWifiOnly then DownloadNow
  else if failures <? kNumberOfFailsBeforeStop then
    match connection_type n with
    | Some type => if bool_decide (type = CONNECTION_WIFI) then DownloadNow else WaitForWifi
    | None => if bool_decide (CONNECTION_UNKNOWN = CONNECTION_WIFI) then DownloadNow
              else WaitForWifi
    end
  else GiveUp.

Definition plan_outcome (p : download_plan) (url : GURL) (d d' : URLDownloader) : Prop :=
  let s := (client d : Service) in
  let s' := (client d' : Service) in
  match p with
  | DownloadNow =>
      model s' = SetEntryDistilledState url PROCESSING (model s) ∧
      queue_of d' =
        start (MkQueue (completions d) (current d) (enqueue (tasks_ d) (RequestDownload url)))
  | WaitForConnection cellular wifi =>
      queue_of d' = queue_of d ∧ model s' = model s ∧
      url_to_download_cellular_ s' =
        url_to_download_cellular_ s ++ (if cellular then [url] else []) ∧
      url_to_download_wifi_ s' = url_to_download_wifi_ s ++ (if wifi then [url] else [])
  | WaitForWifi =>
      queue_of d' = queue_of d ∧ model s' = model s ∧
      url_to_download_cellular_ s' = url_to_download_cellular_ s ∧
      url_to_download_wifi_ s' = url_to_download_wifi_ s ++ [url]
  | GiveUp => d' = d
  end.

Lemma wp_start_download url s1 (d : URLDownloader) :
  downloader_inv d → loaded (model s1) = true → is_valid url = true →
  model s1 = model (client d : Service) →
  wp (start_download url) (λ _ d', downloader_inv d' ∧ plan_outcome DownloadNow url d d')
    (set_client (CL := service_client) s1 d).
Proof using All.
  intros Hinv Hl Hv Hm. unfold start_download. wp_simp. apply wp_service.
  unfold with_model. wp_simp. cbn [client set_client].
  set (s2 := set_model (SetEntryDistilledState url PROCESSING (model s1)) s1).
  assert (Hinv2 : downloader_inv (set_client (CL := service_client) s2 d)).
  { apply inv_set_client; [done|]. unfold s2. simpl. by rewrite law_loaded_state. }
  change (wp (DownloadOfflineURL url)
    (λ _ d', downloader_inv d' ∧ plan_outcome DownloadNow url d d')
    (set_client (CL := service_client) s2 d)).
  assert (Hclient : wp (DownloadOfflineURL url) (λ _ d', client d' = s2)
    (set_client (CL := service_client) s2 d)).
  { unfold DownloadOfflineURL, HandleNextTask, OfflinePathExists, post, this. wp_simp.
    case_bool_decide; cbn [negb]; wp_simp; [done|]. simpl.
    pose proof Hinv as (_ & _ & Hw). destruct (working_ d); [by wp_simp|].
    destruct Hw as (_ & Hd & ->). simpl. wp_simp. simpl. rewrite Hd. split; [done|]. by wp_simp. }
  pose proof (wp_perform_request (RequestDownload url) _ Hinv2 Hv) as Hreq.
  eapply wp_mono; [|apply (wp_and _ _ _ _ Hreq Hclient)].
  intros [] d' [[H1 H2] H3]. split; [done|]. unfold plan_outcome. rewrite H3. split.
  - unfold s2. simpl. by rewrite Hm.
  - exact H2.
Qed.

Lemma wants_download_Some m url e :
  wants_download (GetEntryByURL m url) = Some e →
  GetEntryByURL m url = Some e ∧ entry_URL e = url ∧ is_valid url = true.
Proof using All.
  unfold wants_download. destruct (GetEntryByURL m url) as [e'|] eqn:He; [|done].
  destruct (_ || _ || _); [done|]. intros [= ->]. split; [done|].
  split; [by apply law_GetEntryByURL in He|by apply law_entry_valid in He].
Qed.

Lemma wp_DownloadEntry url (d : URLDownloader) :
  downloader_inv d →
  let s := (client d : Service) in
  wp (DownloadEntry url) (λ _ d', downloader_inv d' ∧
    match wants_download (GetEntryByURL (model s) url) with
    | Some e => plan_outcome (plan (network s) (FailedDownloadCounter e)) url d d'
    | None => d' = d
    end) d.
Proof using All.
  intros Hinv s. assert (Hl : loaded (model s) = true) by apply Hinv.
  unfold DownloadEntry. wp_simp. apply wp_service. unfold self. wp_simp.
  change (client d) with s.
  assert (Hsame : ∀ d : URLDownloader, set_client (client d) d = d) by by intros [].
  assert (Hd : set_client (CL := service_client) s d = d) by apply (Hsame d).
  rewrite Hd. split; [done|].
  destruct (wants_download _) as [e|] eqn:Ew; [|by wp_simp].
  destruct (wants_download_Some _ _ _ Ew) as (He & -> & Hv).
  assert (Hstart : wp (start_download url)
    (λ _ d', downloader_inv d' ∧ plan_outcome DownloadNow url d d') d).
  { pose proof (wp_start_download url s d Hinv Hl Hv eq_refl) as H. by rewrite Hd in H. }
  unfold plan. destruct (IsOffline (network s)).
  { apply wp_service. wp_simp. split; [by apply inv_set_client|].
    unfold plan_outcome. split; [done|]. split; [done|]. cbn [client set_client].
    change (client d) with s. destruct (_ <? _), (_ <? _); simpl; by rewrite ?app_nil_r. }
  destruct (FailedDownloadCounter e <? kNumberOfFailsBeforeWifiOnly) eqn:E5.
  { exact Hstart. }
  destruct (FailedDownloadCounter e <? kNumberOfFailsBeforeStop); [|by wp_simp].
  wp_simp. apply wp_service. unfold GetConnectionType, self. wp_simp.
  change (client d) with s. destruct (connection_type (network s)) as [type|]; wp_simp.
  - rewrite Hd. case_bool_decide.
    + exact Hstart.
    + apply wp_service. wp_simp. by split; [apply inv_set_client|].
  - case_bool_decide.
    + by apply wp_start_download.
    + apply wp_service. wp_simp. cbn [client set_client]. split; [|done].
      by apply (inv_set_client (set_lists _ _ (set_network _ s)) d).
Qed.

(** C32: an entry that wants a download is downloaded at once (queued, and
    marked as in progress) when there is a connection and it failed less than
    five times, or less than seven on wifi; otherwise it is kept for a later
    connection or for wifi, and after seven failures it is not tried again.
    An entry that is absent, read, processed or given up changes nothing. *)
Theorem DownloadEntry_follows_plan url (d : URLDownloader) :
  downloader_inv d →
  ∃ d', DownloadEntry url d = Ok (tt, d') ∧ downloader_inv d' ∧
    match wants_download (GetEntryByURL (model (client d : Service)) url) with
    | Some e => plan_outcome (plan (network (client d : Service)) (FailedDownloadCounter e)) url d d'
    | None => d' = d
    end.
Proof using All.
  intros Hinv. destruct (wp_run _ _ _ (wp_DownloadEntry url d Hinv)) as ([] & d' & Hrun & H).
  by exists d'.
Qed.

(** ** The whole *)

(** What happens to the service and its downloader: the notifications of a
    loaded model, changes of the model made elsewhere, the service's own
    tasks, changes of the network, and the events of the downloader other than
    requests. *)
Inductive service_event :=
  | SvModelChanged (m : ReadingListModel)
  | SvLoaded
  | SvWillRemoveEntry (url : GURL)
  | SvDidAddEntry (url : GURL)
  | SvDidMoveEntry (url : GURL)
  | SvDelayed (i : Z)
  | SvCleanUp
  | SvConnection (n : NetworkState) (type : ConnectionType)
  | SvDownloader (e : event).

Definition service_enabled (e : service_event) (d : URLDownloader) : Prop :=
  let s := (client d : Service) in
  match e with
  | SvModelChanged m => loaded m = true
  | SvWillRemoveEntry url => is_Some (GetEntryByURL (model s) url)
  | SvDelayed i => contains_index (delayed_downloads s) i = true
  | SvDownloader e =>
      event_ok e d ∧ match e with EvRequest _ => False | _ => True end
  | _ => True
  end.

Definition handle_service (e : service_event) : M URLDownloader unit :=
  match e with
  | SvModelChanged m => service (modify (set_model m))
  | SvLoaded => service ReadingListModelLoaded
  | SvWillRemoveEntry url => ReadingListWillRemoveEntry url
  | SvDidAddEntry url => ReadingListDidAddEntry url
  | SvDidMoveEntry url => ReadingListDidMoveEntry url
  | SvDelayed i => run_delayed i
  | SvCleanUp => run_clean_up
  | SvConnection n type =>
      service (modify (set_network n));; service (OnConnectionChanged type)
  | SvDownloader e => handle e
  end.

Lemma wp_service_only (m : M Service unit) (d : URLDownloader) :
  downloader_inv d →
  wp m (λ _ s', loaded (model s') = true) (client d) →
  wp (service m) (λ _, downloader_inv) d.
Proof using All.
  intros Hinv Hm. apply wp_service. eapply wp_mono; [|exact Hm].
  intros [] s' Hs'. by apply inv_set_client.
Qed.

Lemma wp_OnConnectionChanged type s :
  loaded (model s) = true →
  wp (OnConnectionChanged type) (λ _ s', loaded (model s') = true) s.
Proof using All.
  intros Hl. unfold OnConnectionChanged, self. case_bool_decide; wp_simp; [done|].
  assert (Hrest : ∀ s', model s' = model s →
    if bool_decide (type = CONNECTION_WIFI)
    then wp (ScheduleDownloadEntries (url_to_download_wifi_ s))
           (λ _ s', loaded (model s') = true) s'
    else loaded (model s') = true).
  { intros s' Hs'. case_bool_decide; [|by rewrite Hs'].
    eapply wp_mono; [|apply wp_ScheduleDownloadEntries; by rewrite Hs'].
    intros [] s'' Hs''. cbv beta in Hs''. by rewrite Hs'', Hs'. }
  destruct (had_connection_ s); cbn [negb whenM]; wp_simp; [by apply Hrest|].
  eapply wp_mono; [|by apply wp_ScheduleDownloadEntries].
  intros [] s' Hs'. wp_simp. apply Hrest. exact Hs'.
Qed.

Lemma wp_ProcessNewEntry url (d : URLDownloader) :
  downloader_inv d → wp (ProcessNewEntry url) (λ _, downloader_inv) d.
Proof using All.
  intros Hinv. assert (Hl : loaded (model (client d : Service)) = true) by apply Hinv.
  assert (Hd : set_client (client d) d = d) by by destruct d.
  assert (Hcancel : wp (CancelDownloadOfflineURL url) (λ _, downloader_inv) d).
  { pose proof (wp_perform_request (RequestCancel url) d Hinv eq_refl) as H.
    eapply wp_mono; [|exact H]. by intros [] d' [? _]. }
  unfold ProcessNewEntry. wp_simp. apply wp_service. unfold self. wp_simp. rewrite Hd.
  destruct (GetEntryByURL _ _) as [e|]; [|exact Hcancel].
  destruct (IsRead e); [exact Hcancel|]. apply wp_service_only; [done|].
  apply wp_ScheduleDownloadEntry; [done|]. by rewrite scheduled_model.
Qed.

Lemma wp_handle_service e (d : URLDownloader) :
  downloader_inv d → service_enabled e d → wp (handle_service e) (λ _, downloader_inv) d.
Proof using All.
  intros Hinv He. assert (Hl : loaded (model (client d : Service)) = true) by apply Hinv.
  assert (Hd : set_client (client d) d = d) by by destruct d.
  destruct e as [m| |url|url|url|i| |n type|e]; cbn [handle_service].
  - apply wp_service_only; [done|]. by wp_simp.
  - apply wp_service_only; [done|]. unfold ReadingListModelLoaded, SyncWithModel, self. wp_simp.
    split; [done|].
    destruct (sync_entries_ok (Keys (model (client d : Service))) ([], [])
      (model (client d : Service)) (law_Keys _)) as [sets Hsets].
    rewrite Hsets. by wp_simp.
  - unfold ReadingListWillRemoveEntry, RemoveDownloadedEntry. wp_simp. apply wp_service.
    unfold self. wp_simp. rewrite Hd. split; [by apply bool_decide_eq_true|].
    apply wp_service. wp_simp. rewrite Hd. split; [done|].
    pose proof (wp_perform_request (RequestRemove url) d Hinv eq_refl) as H.
    eapply wp_mono; [|exact H]. by intros [] d' [? _].
  - by apply wp_ProcessNewEntry.
  - by apply wp_ProcessNewEntry.
  - unfold run_delayed. wp_simp. apply wp_service. unfold self. wp_simp. rewrite Hd.
    apply contains_index_spec in He. destruct (vec_at_in_range _ _ He) as [task Ht].
    exists task. split; [done|]. wp_simp. apply wp_service. wp_simp.
    eapply wp_mono; [|apply wp_DownloadEntry; by apply inv_set_client].
    by intros [] d' [? _].
  - unfold run_clean_up. wp_simp. apply wp_service. unfold self. wp_simp. rewrite Hd.
    destruct (clean_ups _) as [|[dirs urls] rest]; [by wp_simp|]. wp_simp.
    apply wp_service. wp_simp. rewrite wp_file_op. apply wp_service_only.
    + simpl. assert (Hinv' := inv_set_client (set_clean_ups rest (client d)) d Hinv Hl).
      destruct Hinv' as (Hq & Hc & Hw). split; [done|]. split; [done|]. simpl in *.
      destruct (working_ d); [|done].
      destruct Hw as [p|r|v|l]; [by eapply busy_posted|by eapply busy_reply|
        by eapply busy_distilling|by eapply busy_loading].
    + eapply wp_mono; [|by apply wp_ScheduleDownloadEntries].
      intros [] s' Hs'. cbv beta in Hs'. by rewrite Hs'.
  - wp_simp. apply wp_service. wp_simp. apply wp_service_only; [by apply inv_set_client|].
    by apply wp_OnConnectionChanged.
  - destruct He as [He _]. eapply wp_mono; [|by apply wp_handle].
    by intros [] d' [? _].
Qed.

Definition service_step (d : URLDownloader) (e : service_event) (d' : URLDownloader) : Prop :=
  service_enabled e d ∧ handle_service e d = Ok (tt, d').

(** C5: once the model is loaded no check of the service or of its downloader
    fails, whatever the order of the model's notifications, of the delayed
    tasks, of changes of the network and of what happens to the downloads. *)
Theorem reading_list_downloads_safe path fs m n d e :
  loaded m = true →
  reachable service_step (URLDownloader_new path fs (Service_new m path n : Client)) d →
  service_enabled e d → ∃ d', handle_service e d = Ok (tt, d').
Proof using All.
  intros Hl Hreach He.
  assert (Hinv : downloader_inv d).
  { revert d Hreach He. intros d Hreach _. revert d Hreach.
    apply reachable_invariant; [by apply URLDownloader_new_inv|].
    intros d e' d' Hd [Hen Hrun]. pose proof (wp_handle_service e' d Hd Hen) as Hwp.
    unfold wp in Hwp. rewrite Hrun in Hwp. exact Hwp. }
  destruct (wp_run _ _ _ (wp_handle_service e d Hinv He)) as ([] & d' & Hrun & _). by exists d'.
Qed.
End service_spec.
