(* ===== verification/ReadingListExamples.v ===== *)
(** * Runs of the reading list downloads

    The downloader and its service at a concrete environment: the witnesses of
    the theorems about them, and two runs that show what becomes of an entry
    that is requested twice and of a PDF file behind a redirection. *)

From S2P Require Import Prelude.
From S2P Require Import WebEnv.
From S2P Require Import StdSet.
From S2P Require Import FilePaths.
From S2P Require Import ReadingListModel.
From S2P Require Import DistillerViewer.
From S2P Require Import URLDownloader.
From S2P Require Import URLDownloaderSpec.
From S2P Require Import ReadingListDownloadService.
From S2P Require Import ReadingListServiceSpec.

Module ReadingListExamples.
#[local] Existing Instance Toy.env.
#[local] Existing Instance ToyFiles.paths.
#[local] Existing Instance ToyFiles.files.
#[local] Existing Instance ToyReadingList.env.
#[local] Existing Instance ToyReadingList.laws.

#[local] Instance distiller_env : DomDistillerEnv := {|
  CommonJavaScript := ["common;"];
  ArticleReadyJavaScript _ := ["ready;"];
  Theme := unit;
  FontFamily := unit;
  GetTheme := tt;
  GetFontFamily := tt;
  GetUnsafeArticleTemplateHtml s _ _ := "<img wimg/1><img fmixed>";
|}.
#[local] Instance downloader_env : DownloaderEnv := {|
  MD5String s := "md5";
  EscapeForHTML s := s;
|}.
Definition sub_directories (fs : list (ToyFiles.path * string)) (root : ToyFiles.path) :
    list ToyFiles.path :=
  map fst (List.filter (λ f, bool_decide (take (length root) f.1 = root) &&
                             bool_decide (length f.1 = S (length root))) fs).
#[local] Instance enumeration : FileEnumeration := {| SubDirectories := sub_directories |}.
#[local] Instance network_env : NetworkEnv := {|
  ConnectionType := option bool;
  CONNECTION_UNKNOWN := Some false;
  CONNECTION_WIFI := Some true;
  CONNECTION_NONE := None;
|}.
#[local] Existing Instance service_client.
#[local] Existing Instance service_client_laws.

#[local] Instance file_laws : FileSystemLaws.
Proof.
  split.
  - intros p s fs _. simpl. by rewrite bool_decide_eq_true_2.
  - intros p s fs q Hq. simpl in *. by rewrite Hq, orb_true_r.
Qed.

Definition url_a : GURL := Toy.web "a" "".
Definition url_b : GURL := Toy.web "b" "".
Definition entry_a : ToyReadingList.entry :=
  ToyReadingList.MkEntry url_a false WAITING [] url_a 0.
Definition model_a : ReadingListModel := ToyReadingList.MkModel true [entry_a].
Definition profile : FilePath := (["profile"] : list string).

Definition online : NetworkState := MkNetwork false (Some (Some true)) 0.
Definition offline : NetworkState := MkNetwork true (Some None) 0.

Definition no_files : FS := ([] : list (ToyFiles.path * string)).
Definition state_of (n : NetworkState) : URLDownloader :=
  URLDownloader_new profile no_files
    (Service_new model_a profile n : Client).

Definition image_1 : DistilledImage := MkDistilledImage "wimg/1" "data".
Definition image_mixed : DistilledImage := MkDistilledImage "fmixed" "data".
Definition article : DistilledArticleProto :=
  MkArticle "title" [MkDistilledPage "text" [image_1; image_mixed]].

Fixpoint run_events (l : list service_event) : M URLDownloader unit :=
  match l with
  | [] => mret tt
  | e :: l => handle_service e;; run_events l
  end.

Definition down (e : event) : service_event := SvDownloader e.

Definition final {A} (l : list service_event) (d : URLDownloader) (f : URLDownloader → A) :
    option A :=
  match run_events l d with
  | Ok (_, d') => Some (f d')
  | Crash _ => None
  end.

Definition state_of_entry (u : GURL) (d : URLDownloader) : option DistillationState :=
  DistilledState <$> GetEntryByURL (reading_list_model_ (client d : Service)) u.

(** What a download that succeeds goes through. *)
Definition download_succeeds : list service_event :=
  map down [EvRunTask; EvRunReply; EvDistilled article; EvRunTask; EvRunReply].

(** A download from the addition of the entry to its end: the page is saved
    with its image, the mixed one left out. *)
Lemma entry_downloaded :
  final (SvDidAddEntry url_a :: SvDelayed 0 :: download_succeeds) (state_of online)
    (λ d, (state_of_entry url_a d, working_ d,
           ToyFiles.content (files d) (["profile"; "Offline"; Toy.toy_spec url_a; "page.html"])))
  = Some (Some PROCESSED, false,
          "<img md5><img ><script> distiller_on_ios = true; common;ready;</script>" +:+
          kDisableImageContextMenuScript).
Proof. vm_compute. reflexivity. Qed.

(** An entry that waits for a connection is kept for any connection and
    for wifi; when the device comes back on wifi it is scheduled twice, and
    downloaded twice.  The second download finds the files of the first and
    is reported as already there, without a path; the service takes it for a
    failure, so that an entry that is available offline is marked as to be
    tried again, with a failure more. *)
Theorem wifi_reconnection_fails_processed_entry :
  let reconnected :=
    [SvDidAddEntry url_a; SvDelayed 0; SvConnection online CONNECTION_WIFI;
     SvDelayed 0; SvDelayed 0] ++ download_succeeds in
  let exists_already := map down [EvRunTask; EvRunReply] in
  final reconnected (state_of offline) (state_of_entry url_a) = Some (Some PROCESSED) ∧
  final (reconnected ++ exists_already) (state_of offline)
    (λ d, (state_of_entry url_a d, working_ d,
           FailedDownloadCounter <$> GetEntryByURL (reading_list_model_ (client d : Service)) url_a))
  = Some (Some WILL_RETRY, false, Some 1).
Proof. vm_compute. split; reflexivity. Qed.

Definition tmp_file : FilePath := (["tmp"] : list string).

(** The PDF file of a page that redirects is saved under the entry's URL
    but reported under the URL of the redirection, which is no entry: the
    entry stays in progress for ever. *)
Theorem redirected_pdf_stays_in_progress :
  final
    [SvDidAddEntry url_a; SvDelayed 0; down EvRunTask; down EvRunReply;
     down (EvRedirected url_b); down (EvHasMimeType "application/pdf");
     down (EvDistilled (MkArticle "" []));
     down (EvLoaded tmp_file (Some "application/pdf")); down EvRunTask; down EvRunReply]
    (set_files ([(["tmp"], "pdf")] : list (ToyFiles.path * string)) (state_of online))
    (λ d, (state_of_entry url_a d, working_ d, tasks_ d,
           ToyFiles.content (files d) ["profile"; "Offline"; Toy.toy_spec url_a; "file.pdf"],
           match completions d with
           | [DownloadCompleted url _ s _ _ _] => Some (url, s)
           | _ => None
           end))
  = Some (Some PROCESSING, false, [], "pdf", Some (url_b, DOWNLOAD_SUCCESS)).
Proof. vm_compute. reflexivity. Qed.

(** ** Witnesses *)

(** The states are given with their invariant, by the library. *)
Lemma start_inv n : downloader_inv (state_of n).
Proof. apply URLDownloader_new_inv. reflexivity. Qed.

Definition images_a : list ImageInfo := [MkImageInfo (Toy.web "img" "1") "data"].

Lemma SaveAndReplaceImagesInHTML_correct_witness :
  ∃ r d', SaveAndReplaceImagesInHTML url_a "<img wimg/1>" images_a (state_of online) = Ok (r, d') ∧
    crash_of (SaveAndReplaceImagesInHTML url_a "<img wimg/1>" images_a (state_of online)) = None.
Proof.
  destruct (SaveAndReplaceImagesInHTML_correct url_a "<img wimg/1>" images_a (state_of online) file_laws)
    as (r & d' & H & _).
  { constructor; [right; discriminate|constructor]. }
  exists r, d'. split; [exact H|]. rewrite H. reflexivity.
Defined.

Lemma empty_image_url_never_returns_witness :
  SaveAndReplaceImagesInHTML url_a "html" [MkImageInfo EmptyGURL "data"] (state_of online) =
  Crash NeverReturns.
Proof.
  apply (empty_image_url_never_returns 1000 url_a "html" (MkImageInfo EmptyGURL "data") []
    (state_of online)); reflexivity.
Defined.

Lemma downloader_reachable_witness :
  reachable step_ok (state_of online) (state_of online) ∧
  ∃ d', handle (EvRequest (RequestDownload url_a)) (state_of online) = Ok (tt, d').
Proof.
  split; [apply reach_refl|].
  refine (proj2 (proj2 (downloader_reachable profile no_files (Service_new model_a profile online)
    (state_of online) _ _)) (EvRequest (RequestDownload url_a)) _).
  - reflexivity.
  - apply reach_refl.
  - split; [reflexivity|exact I].
Defined.



Lemma OnDownloadEnd_outcome_witness :
  ∃ s' e', OnDownloadEnd url_a url_b DOWNLOAD_EXISTS EmptyFilePath 0 ""
      (Service_new model_a profile online) = Ok (tt, s') ∧
    GetEntryByURL (reading_list_model_ s') url_a = Some e' ∧ DistilledState e' = WILL_RETRY.
Proof.
  destruct (OnDownloadEnd_outcome url_a url_b DOWNLOAD_EXISTS EmptyFilePath 0 ""
    (Service_new model_a profile online) entry_a) as (s' & e' & H1 & H2 & H3 & _).
  - reflexivity.
  - reflexivity.
  - exists s', e'. split; [exact H1|]. split; [exact H2|]. apply H3.
Defined.

Lemma SyncWithModel_cleans_witness :
  ∃ d' d'', service ReadingListModelLoaded (state_of online) = Ok (tt, d') ∧
    run_clean_up d' = Ok (tt, d'').
Proof.
  destruct (SyncWithModel_cleans (state_of online) (Service_new model_a profile online))
    as (d' & d'' & dirs & urls & H1 & _ & H2 & _); try reflexivity.
  by exists d', d''.
Defined.

Lemma DownloadEntry_follows_plan_witness :
  ∃ d', DownloadEntry url_a (state_of online) = Ok (tt, d') ∧
    plan_outcome DownloadNow url_a (state_of online) d'.
Proof.
  destruct (DownloadEntry_follows_plan url_a (state_of online) (start_inv online))
    as (d' & H1 & _ & H2).
  exists d'. split; [exact H1|exact H2].
Defined.

Lemma reading_list_downloads_safe_witness :
  ∃ d', handle_service (SvDidAddEntry url_a) (state_of online) = Ok (tt, d').
Proof.
  apply (reading_list_downloads_safe profile no_files
    model_a online (state_of online) (SvDidAddEntry url_a)).
  - reflexivity.
  - apply reach_refl.
  - exact I.
Defined.
End ReadingListExamples.
