(* ===== verification/FirstUserActionRecorder.v ===== *)
(** * The first user action

    src/chrome/browser/metrics/first_user_action_recorder.cc and .h, with its
    unit tests: the first action of the user that tells whether a task is
    started or continued after the application comes back is reported once.
    The action that only switches tabs is put in the message queue, so that
    what follows it can tell better. *)

From S2P Require Import Prelude.

(** The indices of the histogram names and the values of the first histogram. *)
Inductive DeviceFamilyIndex : Set := HANDSET | TABLET.
Inductive FirstUserActionType : Set :=
  | NEW_TASK | CONTINUATION | EXPIRATION | START_ON_NTP | FIRST_USER_ACTION_TYPE_COUNT.
#[global] Instance FirstUserActionType_eq_dec : EqDecision FirstUserActionType.
Proof. solve_decision. Defined.

Definition family_name (d : DeviceFamilyIndex) (handset tablet : string) : string :=
  match d with HANDSET => handset | TABLET => tablet end.

Definition kFirstUserActionNewTaskHistogramName (d : DeviceFamilyIndex) : string :=
  family_name d "FirstUserAction.BackgroundTimeNewTaskHandset"
                "FirstUserAction.BackgroundTimeNewTaskTablet".
Definition kFirstUserActionContinuationHistogramName (d : DeviceFamilyIndex) : string :=
  family_name d "FirstUserAction.BackgroundTimeContinuationHandset"
                "FirstUserAction.BackgroundTimeContinuationTablet".
Definition kFirstUserActionExpirationHistogramName (d : DeviceFamilyIndex) : string :=
  family_name d "FirstUserAction.BackgroundTimeExpirationHandset"
                "FirstUserAction.BackgroundTimeExpirationTablet".
Definition kFirstUserActionTypeHistogramName (d : DeviceFamilyIndex) : string :=
  family_name d "FirstUserAction.HandsetUserActionType" "FirstUserAction.TabletUserActionType".

Definition kIgnoredActions : list string :=
  ["MobileOmniboxUse"; "MobileFirstUserAction_Continuation"; "MobileFirstUserAction_Expiration";
   "MobileFirstUserAction_NewTask"; "MobileMenuCloseAllTabs"; "MobileMenuCloseAllIncognitoTabs";
   "MobileMenuCloseTab"; "MobileNewTabOpened"; "MobileTabClosed"; "MobileTabStripCloseTab";
   "MobileStackViewCloseTab"; "MobileToolbarShowMenu"; "MobileToolbarShowStackView"].

Definition kRethrownActions : list string := ["MobileTabSwitched"].

Definition kNewTaskActions : list string :=
  ["MobileMenuAllBookmarks"; "MobileMenuHistory"; "MobileMenuNewIncognitoTab";
   "MobileMenuNewTab"; "MobileMenuRecentTabs"; "MobileMenuVoiceSearch";
   "MobileBookmarkManagerEntryOpened"; "MobileRecentTabManagerTabFromOtherDeviceOpened";
   "MobileNTPMostVisited"; "MobileNTPShowBookmarks"; "MobileNTPShowMostVisited";
   "MobileNTPShowOpenTabs"; "MobileNTPShowHistory"; "MobileNTPShowReadingList";
   "MobileNTPSwitchToBookmarks"; "MobileNTPSwitchToMostVisited"; "MobileNTPSwitchToOpenTabs";
   "MobileTabStripNewTab"; "MobileToolbarNewTab"; "MobileToolbarStackViewNewTab";
   "MobileToolbarVoiceSearch"; "OmniboxInputInProgress"].

(** What is reported: a value of the first histogram, or a duration in
    minutes. *)
Inductive sample : Set :=
  | TypeSample (histogram : string) (value : FirstUserActionType)
  | DurationSample (histogram : string) (minutes : Z).
#[global] Instance sample_eq_dec : EqDecision sample.
Proof. solve_decision. Defined.

(** The fields of the class, the posted call of OnUserAction that
    rethrow_callback_ keeps (until it runs or is cancelled), and what was
    reported. *)
Record FirstUserActionRecorder := MkRecorder {
  device_family_ : DeviceFamilyIndex;
  recorded_action_ : bool;
  action_pending_ : bool;
  background_duration_ : Z;
  rethrow_callback_ : option string;
  reported : list sample;
}.

Definition FirstUserActionRecorder_new (is_ipad : bool) (background_minutes : Z) :
    FirstUserActionRecorder :=
  MkRecorder (if is_ipad then TABLET else HANDSET) false false background_minutes None [].

Definition set_recorded (r : FirstUserActionRecorder) : FirstUserActionRecorder :=
  MkRecorder (device_family_ r) true (action_pending_ r) (background_duration_ r)
    (rethrow_callback_ r) (reported r).
Definition set_action_pending (r : FirstUserActionRecorder) : FirstUserActionRecorder :=
  MkRecorder (device_family_ r) (recorded_action_ r) true (background_duration_ r)
    (rethrow_callback_ r) (reported r).
Definition set_rethrow (c : option string) (r : FirstUserActionRecorder) :
    FirstUserActionRecorder :=
  MkRecorder (device_family_ r) (recorded_action_ r) (action_pending_ r)
    (background_duration_ r) c (reported r).
Definition report (s : sample) (r : FirstUserActionRecorder) : FirstUserActionRecorder :=
  MkRecorder (device_family_ r) (recorded_action_ r) (action_pending_ r)
    (background_duration_ r) (rethrow_callback_ r) (reported r ++ [s]).

Definition recorder : M FirstUserActionRecorder FirstUserActionRecorder :=
  gets (λ r : FirstUserActionRecorder, r).

(** The loop that compares each string. *)
Fixpoint ArrayContainsString (to_search : list string) (to_find : string) : bool :=
  match to_search with
  | [] => false
  | s :: to_search => if String.eqb to_find s then true else ArrayContainsString to_search to_find
  end.

Definition report_duration (histogram : DeviceFamilyIndex → string) :
    M FirstUserActionRecorder unit :=
  modify (λ r, report (DurationSample (histogram (device_family_ r)) (background_duration_ r)) r).

Definition RecordAction (action_type : FirstUserActionType) : M FirstUserActionRecorder unit :=
  r ← recorder;
  whenM (negb (recorded_action_ r))
    (modify (report (TypeSample (kFirstUserActionTypeHistogramName (device_family_ r))
                       action_type));;
     modify set_recorded;;
     match action_type with
     | NEW_TASK => report_duration kFirstUserActionNewTaskHistogramName
     | CONTINUATION => report_duration kFirstUserActionContinuationHistogramName
     | EXPIRATION => report_duration kFirstUserActionExpirationHistogramName
     | START_ON_NTP => mret tt
     | FIRST_USER_ACTION_TYPE_COUNT => NOTREACHED
     end).

Definition ShouldProcessAction (action_name : string) : M FirstUserActionRecorder bool :=
  r ← recorder;
  if recorded_action_ r then mret false
  else if negb (action_pending_ r) && ArrayContainsString kRethrownActions action_name then
    modify (set_rethrow (Some action_name));;
    modify set_action_pending;;
    mret false
  else
    let known_mobile_action :=
      starts_with action_name "Mobile" || ArrayContainsString kNewTaskActions action_name in
    mret (known_mobile_action && negb (ArrayContainsString kIgnoredActions action_name)).

Definition OnUserAction (action_name : string) : M FirstUserActionRecorder unit :=
  should ← ShouldProcessAction action_name;
  whenM should
    (if ArrayContainsString kNewTaskActions action_name then RecordAction NEW_TASK
     else RecordAction CONTINUATION).

Definition Expire : M FirstUserActionRecorder unit :=
  modify (set_rethrow None);; RecordAction EXPIRATION.

Definition RecordStartOnNTP : M FirstUserActionRecorder unit := RecordAction START_ON_NTP.

(** The message queue runs what was posted. *)
Definition RunUntilIdle : M FirstUserActionRecorder unit :=
  r ← recorder;
  match rethrow_callback_ r with
  | Some action_name => modify (set_rethrow None);; OnUserAction action_name
  | None => mret tt
  end.

(** ** What is reported *)

Inductive recorder_event :=
  | UserAction (action_name : string)
  | Idle
  | Expired
  | StartedOnNTP.

Definition handle_event (e : recorder_event) : M FirstUserActionRecorder unit :=
  match e with
  | UserAction action_name => OnUserAction action_name
  | Idle => RunUntilIdle
  | Expired => Expire
  | StartedOnNTP => RecordStartOnNTP
  end.

Fixpoint handle_events (l : list recorder_event) : M FirstUserActionRecorder unit :=
  match l with
  | [] => mret tt
  | e :: l => handle_event e;; handle_events l
  end.

(** What an action says, when it says something. *)
Definition meaning (action_name : string) : option FirstUserActionType :=
  if (starts_with action_name "Mobile" || ArrayContainsString kNewTaskActions action_name) &&
     negb (ArrayContainsString kIgnoredActions action_name)
  then Some (if ArrayContainsString kNewTaskActions action_name then NEW_TASK else CONTINUATION)
  else None.

Definition orelse {A} (o : option A) (d : option A) : option A :=
  match o with Some a => Some a | None => d end.

(** The reference: the type a history of events reports.  [waiting] is the
    action that waits in the message queue, [used] whether an action was put
    there before. *)
Fixpoint first_type (l : list recorder_event) (waiting : option string) (used : bool) :
    option FirstUserActionType :=
  match l with
  | [] => None
  | UserAction a :: l =>
      if negb used && ArrayContainsString kRethrownActions a then first_type l (Some a) true
      else orelse (meaning a) (first_type l waiting used)
  | Idle :: l =>
      match waiting with
      | Some a => orelse (meaning a) (first_type l None used)
      | None => first_type l None used
      end
  | Expired :: _ => Some EXPIRATION
  | StartedOnNTP :: _ => Some START_ON_NTP
  end.

(** The samples of a type. *)
Definition samples_of (d : DeviceFamilyIndex) (minutes : Z) (t : FirstUserActionType) :
    list sample :=
  TypeSample (kFirstUserActionTypeHistogramName d) t ::
  match t with
  | NEW_TASK => [DurationSample (kFirstUserActionNewTaskHistogramName d) minutes]
  | CONTINUATION => [DurationSample (kFirstUserActionContinuationHistogramName d) minutes]
  | EXPIRATION => [DurationSample (kFirstUserActionExpirationHistogramName d) minutes]
  | _ => []
  end.

Definition recorded_once (r : FirstUserActionRecorder) (t : option FirstUserActionType)
    (r' : FirstUserActionRecorder) : Prop :=
  device_family_ r' = device_family_ r ∧ background_duration_ r' = background_duration_ r ∧
  recorded_action_ r' = bool_decide (is_Some t) ∧
  reported r' = match t with
                | Some t => samples_of (device_family_ r) (background_duration_ r) t
                | None => []
                end.

Lemma RecordAction_first t r :
  t ≠ FIRST_USER_ACTION_TYPE_COUNT → recorded_action_ r = false → reported r = [] →
  ∃ r', RecordAction t r = Ok (tt, r') ∧ recorded_once r (Some t) r'.
Proof.
  intros Ht Hr Hrep. unfold RecordAction, recorder, gets, mbind, M_bind. rewrite Hr.
  destruct r as [d ? p n c l]. simpl in *. subst.
  destruct t; try done; eexists; split; [reflexivity|by split_and!|reflexivity|by split_and!
    |reflexivity|by split_and!|reflexivity|by split_and!].
Qed.

(** After a report nothing more is reported. *)
Lemma recorded_stays l r :
  recorded_action_ r = true →
  ∃ r', handle_events l r = Ok (tt, r') ∧ recorded_action_ r' = true ∧
    device_family_ r' = device_family_ r ∧ background_duration_ r' = background_duration_ r ∧
    reported r' = reported r.
Proof.
  revert r. induction l as [|e l IH]; intros r Hr; [by exists r|].
  assert (Hone : ∃ r1, handle_event e r = Ok (tt, r1) ∧ recorded_action_ r1 = true ∧
    device_family_ r1 = device_family_ r ∧ background_duration_ r1 = background_duration_ r ∧
    reported r1 = reported r).
  { destruct r as [d b p n c s]. simpl in Hr. subst b.
    destruct e; simpl; unfold OnUserAction, ShouldProcessAction, RunUntilIdle, Expire,
      RecordStartOnNTP, RecordAction, recorder, gets, mbind, M_bind; simpl; try by eexists.
    destruct c; by eexists. }
  destruct Hone as (r1 & H1 & H2 & H3 & H4 & H5).
  destruct (IH r1 H2) as (r' & H6 & H7 & H8 & H9 & H10).
  exists r'. cbn [handle_events]. unfold mbind, M_bind. rewrite H1.
  split_and!; [exact H6|done|congruence..].
Qed.

Lemma then_nothing l r1 r t r' :
  (∃ u, handle_event r1 r = Ok (u, r')) → recorded_once r (Some t) r' →
  ∃ r'', handle_events (r1 :: l) r = Ok (tt, r'') ∧ recorded_once r (Some t) r''.
Proof.
  intros [[] H] (H1 & H2 & H3 & H4).
  destruct (recorded_stays l r') as (r'' & H5 & H6 & H7 & H8 & H9); [done|].
  exists r''. cbn [handle_events]. unfold mbind, M_bind. rewrite H. split; [exact H5|].
  unfold recorded_once. split_and!; [congruence|congruence|done|congruence].
Qed.

(** An action that is not put in the queue reports what it means. *)
Lemma OnUserAction_meaning a r :
  negb (action_pending_ r) && ArrayContainsString kRethrownActions a = false →
  recorded_action_ r = false → reported r = [] →
  match meaning a with
  | Some t => ∃ r', OnUserAction a r = Ok (tt, r') ∧ recorded_once r (Some t) r'
  | None => OnUserAction a r = Ok (tt, r)
  end.
Proof.
  intros Hp Hr Hrep. unfold meaning, OnUserAction, ShouldProcessAction, recorder, gets, mbind, M_bind.
  rewrite Hr, Hp. unfold mret, M_ret.
  destruct (_ && negb _); [|done]. cbn [whenM].
  destruct (ArrayContainsString kNewTaskActions a); by apply RecordAction_first.
Qed.

Lemma handle_events_first_type l r :
  recorded_action_ r = false → reported r = [] →
  (is_Some (rethrow_callback_ r) → action_pending_ r = true) →
  ∃ r', handle_events l r = Ok (tt, r') ∧
    recorded_once r (first_type l (rethrow_callback_ r) (action_pending_ r)) r'.
Proof.
  revert r. induction l as [|e l IH]; intros r Hr Hrep Hpend; [by exists r|].
  destruct e as [a| | |]; cbn [first_type].
  - destruct (negb (action_pending_ r) && ArrayContainsString kRethrownActions a) eqn:Ep.
    + destruct (IH (set_action_pending (set_rethrow (Some a) r))) as (r' & H1 & H2); [done..|].
      exists r'. split; [|exact H2]. cbn [handle_events handle_event].
      unfold OnUserAction, ShouldProcessAction, recorder, gets, mbind, M_bind at 1.
      unfold mbind, M_bind. rewrite Hr, Ep. exact H1.
    + pose proof (OnUserAction_meaning a r Ep Hr Hrep) as Ha.
      destruct (meaning a) as [t|]; cbn [orelse].
      * destruct Ha as (r1 & H1 & H2). apply (then_nothing l (UserAction a) r t r1); [by eexists|done].
      * destruct (IH r Hr Hrep Hpend) as (r' & H1 & H2). exists r'. split; [|exact H2].
        cbn [handle_events handle_event]. unfold mbind, M_bind. rewrite Ha. exact H1.
  - destruct (rethrow_callback_ r) as [a|] eqn:Ec.
    + assert (Hp : action_pending_ r = true) by (apply Hpend; by eexists).
      pose proof (OnUserAction_meaning a (set_rethrow None r)) as Ha. simpl in Ha.
      rewrite Hp in Ha. specialize (Ha eq_refl Hr Hrep).
      assert (Hidle : handle_event Idle r = OnUserAction a (set_rethrow None r)).
      { simpl. unfold RunUntilIdle, recorder, gets, mbind, M_bind. by rewrite Ec. }
      destruct (meaning a) as [t|]; cbn [orelse].
      * destruct Ha as (r1 & H1 & H2). apply (then_nothing l Idle r t r1); [|done].
        exists tt. by rewrite Hidle.
      * destruct (IH (set_rethrow None r)) as (r' & H1 & H2); [done..|by intros [? ?]|].
        exists r'. split; [|exact H2]. cbn [handle_events]. unfold mbind, M_bind.
        rewrite Hidle, Ha. exact H1.
    + destruct (IH r Hr Hrep) as (r' & H1 & H2); [by rewrite Ec|]. exists r'. rewrite Ec in H2.
      split; [|exact H2]. cbn [handle_events handle_event].
      unfold RunUntilIdle, recorder, gets, mbind, M_bind. by rewrite Ec.
  - destruct (RecordAction_first EXPIRATION (set_rethrow None r)) as (r1 & H1 & H2); [done..|].
    apply (then_nothing l Expired r EXPIRATION r1); [|done]. by exists tt.
  - destruct (RecordAction_first START_ON_NTP r) as (r1 & H1 & H2); [done..|].
    apply (then_nothing l StartedOnNTP r START_ON_NTP r1); [|done]. by exists tt.
Qed.

(** Over any sequence of user actions, turns of the message queue, and ends
    of the recorder, what is reported is decided by the reference: one value of
    the first histogram with, but for a start on the new tab page, one
    duration; and nothing before the first event that means something. *)
Theorem recorder_reports_first_type is_ipad minutes l :
  ∃ r', handle_events l (FirstUserActionRecorder_new is_ipad minutes) = Ok (tt, r') ∧
    reported r' =
      match first_type l None false with
      | Some t => samples_of (if is_ipad then TABLET else HANDSET) minutes t
      | None => []
      end.
Proof.
  destruct (handle_events_first_type l (FirstUserActionRecorder_new is_ipad minutes))
    as (r' & H1 & _ & _ & _ & H2); [done..|by intros [? ?]|].
  by exists r'.
Qed.

(** Switching tabs twice before the message queue runs is taken for the
    continuation of a task, although a tab opened right after a single switch
    is a new task. *)
Lemma second_switch_not_rethrown :
  first_type [UserAction "MobileTabSwitched"; UserAction "MobileTabStripNewTab"] None false =
    Some NEW_TASK ∧
  first_type [UserAction "MobileTabSwitched"; UserAction "MobileTabSwitched";
              UserAction "MobileTabStripNewTab"] None false = Some CONTINUATION.
Proof. split; reflexivity. Qed.

(** ** The tests of first_user_action_recorder_unittest.cc *)
Module FirstUserActionRecorderTest.

Definition is_pad_ : bool := false.
Definition family : DeviceFamilyIndex := HANDSET.
(** SetUp: one minute in the background. *)
Definition SetUp : FirstUserActionRecorder := FirstUserActionRecorder_new is_pad_ 1.

(** base::HistogramTester *)
Definition histogram_of (s : sample) : string :=
  match s with TypeSample h _ | DurationSample h _ => h end.
Definition ExpectTotalCount (histogram : string) (count : Z) : M FirstUserActionRecorder unit :=
  r ← recorder;
  EXPECT_EQ (zlen (List.filter (λ s, bool_decide (histogram_of s = histogram)) (reported r))) count.
Definition ExpectUniqueSample (histogram : string) (value : FirstUserActionType) (count : Z) :
    M FirstUserActionRecorder unit :=
  ExpectTotalCount histogram count;;
  r ← recorder;
  EXPECT_EQ (zlen (List.filter (λ s, bool_decide (s = TypeSample histogram value)) (reported r)))
    count.

Definition TestExpire : M FirstUserActionRecorder unit :=
  Expire;;
  ExpectUniqueSample (kFirstUserActionTypeHistogramName family) EXPIRATION 1;;
  ExpectTotalCount (kFirstUserActionExpirationHistogramName family) 1.

Definition TestRecordStartOnNTP : M FirstUserActionRecorder unit :=
  RecordStartOnNTP;;
  ExpectUniqueSample (kFirstUserActionTypeHistogramName family) START_ON_NTP 1.

Definition OnUserAction_Continuation : M FirstUserActionRecorder unit :=
  OnUserAction "MobileContextMenuOpenLink";;
  ExpectUniqueSample (kFirstUserActionTypeHistogramName family) CONTINUATION 1;;
  ExpectTotalCount (kFirstUserActionContinuationHistogramName family) 1.

Definition OnUserAction_NewTask : M FirstUserActionRecorder unit :=
  OnUserAction "MobileMenuNewTab";;
  ExpectUniqueSample (kFirstUserActionTypeHistogramName family) NEW_TASK 1;;
  ExpectTotalCount (kFirstUserActionNewTaskHistogramName family) 1.

Definition OnUserAction_Ignored : M FirstUserActionRecorder unit :=
  OnUserAction "MobileTabClosed";;
  ExpectTotalCount (kFirstUserActionTypeHistogramName family) 0;;
  ExpectTotalCount (kFirstUserActionNewTaskHistogramName family) 0;;
  ExpectTotalCount (kFirstUserActionContinuationHistogramName family) 0;;
  ExpectTotalCount (kFirstUserActionExpirationHistogramName family) 0.

Definition OnUserAction_RethrowAction_Continuation : M FirstUserActionRecorder unit :=
  OnUserAction "MobileTabSwitched";;
  RunUntilIdle;;
  ExpectUniqueSample (kFirstUserActionTypeHistogramName family) CONTINUATION 1;;
  ExpectTotalCount (kFirstUserActionContinuationHistogramName family) 1.

Definition OnUserAction_RethrowAction_NewTask : M FirstUserActionRecorder unit :=
  OnUserAction "MobileTabSwitched";;
  OnUserAction "MobileTabStripNewTab";;
  ExpectUniqueSample (kFirstUserActionTypeHistogramName family) NEW_TASK 1;;
  ExpectTotalCount (kFirstUserActionNewTaskHistogramName family) 1.

Lemma first_user_action_unittests :
  forallb (λ t, passes t SetUp)
    [TestExpire; TestRecordStartOnNTP; OnUserAction_Continuation; OnUserAction_NewTask;
     OnUserAction_Ignored; OnUserAction_RethrowAction_Continuation;
     OnUserAction_RethrowAction_NewTask] = true.
Proof. vm_compute. reflexivity. Qed.
End FirstUserActionRecorderTest.
