(* ===== verification/WebThread.v ===== *)
(** * The well-known threads

    src/web/web_thread_impl.cc, src/web/web_sub_thread.cc and
    src/web/public/web_thread.h: the registry that names the UI and the IO
    thread.  A registered thread accepts tasks until its WebThreadImpl is
    destroyed; its task runner stays in the registry after that.  The registry
    is protected by a lock, which posting to a thread that outlives the current
    one does not take.

    Task runners, threads and tasks belong to //base: a task runner is a
    handle that belongs to a thread, and records what is posted to it. *)

From S2P Require Import Prelude.

(** WebThread::ID, in the order of the threads' lifetimes. *)
Notation ID := Z.
Definition UI : ID := 0.
Definition IO : ID := 1.
Definition ID_COUNT : ID := 2.

Inductive WebThreadState : Set := UNINITIALIZED | RUNNING | SHUTDOWN.
#[global] Instance WebThreadState_eq_dec : EqDecision WebThreadState.
Proof. solve_decision. Defined.

(** A task runner, with the thread it belongs to. *)
Record task_runner := MkTaskRunner { runner_id : positive; runner_thread : positive }.
#[global] Instance task_runner_eq_dec : EqDecision task_runner.
Proof. solve_decision. Defined.

(** What a task runner was given: a closure, its delay, and whether it may run
    in a nested loop. *)
Record posted_task := MkPosted {
  posted_to : task_runner; posted_closure : positive; posted_delay : Z; posted_nestable : bool;
}.

(** WebThreadGlobals, with whether its lock is held; the tasks posted so far;
    the delegate of the IO thread and the calls made to it. *)
Inductive delegate_call : Set := DelegateInit | DelegateCleanUp.
Record WebThreadGlobals := MkGlobals {
  lock : bool;
  task_runners : list (option task_runner);
  states : list WebThreadState;
  posted : list posted_task;
  g_io_thread_delegate : bool;
  delegate_calls : list delegate_call;
}.

Definition WebThreadGlobals_new : WebThreadGlobals :=
  MkGlobals false [None; None] [UNINITIALIZED; UNINITIALIZED] [] false [].

Definition set_lock (b : bool) (g : WebThreadGlobals) : WebThreadGlobals :=
  MkGlobals b (task_runners g) (states g) (posted g) (g_io_thread_delegate g) (delegate_calls g).
Definition set_runner (i : ID) (r : option task_runner) (g : WebThreadGlobals) :
    WebThreadGlobals :=
  MkGlobals (lock g) (vec_set (task_runners g) i r) (states g) (posted g)
    (g_io_thread_delegate g) (delegate_calls g).
Definition set_state (i : ID) (s : WebThreadState) (g : WebThreadGlobals) : WebThreadGlobals :=
  MkGlobals (lock g) (task_runners g) (vec_set (states g) i s) (posted g)
    (g_io_thread_delegate g) (delegate_calls g).
Definition add_posted (p : posted_task) (g : WebThreadGlobals) : WebThreadGlobals :=
  MkGlobals (lock g) (task_runners g) (states g) (posted g ++ [p]) (g_io_thread_delegate g)
    (delegate_calls g).
Definition set_delegate (b : bool) (g : WebThreadGlobals) : WebThreadGlobals :=
  MkGlobals (lock g) (task_runners g) (states g) (posted g) b (delegate_calls g).
Definition call_delegate (c : delegate_call) (g : WebThreadGlobals) : WebThreadGlobals :=
  MkGlobals (lock g) (task_runners g) (states g) (posted g) (g_io_thread_delegate g)
    (delegate_calls g ++ [c]).

Notation MG := (M WebThreadGlobals).
Definition globals : MG WebThreadGlobals := gets (λ g : WebThreadGlobals, g).

(** base::Lock is not recursive: taking it twice never returns. *)
Definition Acquire : MG unit :=
  g ← globals;
  if lock g then fail NeverReturns else modify (set_lock true).
Definition Release : MG unit :=
  g ← globals;
  DCHECK (lock g);;
  modify (set_lock false).
Definition AutoLock {A} (m : MG A) : MG A :=
  Acquire;; a ← m; Release;; mret a.

Definition check_identifier (identifier : ID) : MG unit :=
  DCHECK (0 <=? identifier);;
  DCHECK (identifier <? ID_COUNT).

Definition BelongsToCurrentThread (current : positive) (r : task_runner) : bool :=
  bool_decide (runner_thread r = current).

(** ** WebThread *)

(** [created] is g_globals.IsCreated(): whether the registry was used before. *)
Definition IsThreadInitialized (created : bool) (identifier : ID) : MG bool :=
  if negb created then mret false
  else AutoLock (
    check_identifier identifier;;
    g ← globals;
    s ← at_ (states g) identifier;
    mret (bool_decide (s = RUNNING))).

Definition CurrentlyOn (current : positive) (identifier : ID) : MG bool :=
  AutoLock (
    check_identifier identifier;;
    g ← globals;
    r ← at_ (task_runners g) identifier;
    mret match r with Some r => BelongsToCurrentThread current r | None => false end).

(** The loop over the identifiers from [i] on. *)
Fixpoint find_current (current : positive) (l : list (option task_runner)) (i : ID) : option ID :=
  match l with
  | [] => None
  | Some r :: l => if BelongsToCurrentThread current r then Some i else find_current current l (i + 1)
  | None :: l => find_current current l (i + 1)
  end.

Definition GetCurrentThreadIdentifier (created : bool) (current : positive) : MG (option ID) :=
  if negb created then mret None
  else AutoLock (g ← globals; mret (find_current current (task_runners g) 0)).

Definition GetThreadName (thread : ID) : string :=
  if (UI <=? thread) && (thread <? ID_COUNT) then
    if thread =? UI then "Web_UIThread" else "Web_IOThread"
  else "Unknown Thread".

(** [platform_name] is base::PlatformThread::GetName(). *)
Definition GetDCheckCurrentlyOnErrorMessage (platform_name : string) (expected : ID) : string :=
  let actual_name := if bool_decide (platform_name = "") then "Unknown Thread" else platform_name in
  "Must be called on " +:+ GetThreadName expected +:+ "; actually called on " +:+
  actual_name +:+ ".".

Definition PostTaskHelper (created : bool) (current : positive) (identifier : ID)
    (task : positive) (delay : Z) (nestable : bool) : MG bool :=
  check_identifier identifier;;
  current_thread ← GetCurrentThreadIdentifier created current;
  let target_thread_outlives_current :=
    match current_thread with Some c => identifier <=? c | None => false end in
  whenM (negb target_thread_outlives_current) Acquire;;
  g ← globals;
  s ← at_ (states g) identifier;
  let accepting_tasks := bool_decide (s = RUNNING) in
  whenM accepting_tasks
    (r ← at_ (task_runners g) identifier;
     match r with
     | None => fail DCheckFailed
     | Some r => modify (add_posted (MkPosted r task delay nestable))
     end);;
  whenM (negb target_thread_outlives_current) Release;;
  mret accepting_tasks.

(** ** WebThreadImpl *)

(** [task_runner] is null or a task runner. *)
Definition WebThreadImpl_new (identifier : ID) (task_runner : option task_runner) : MG unit :=
  DCHECK (bool_decide (is_Some task_runner));;
  AutoLock (
    check_identifier identifier;;
    g ← globals;
    s ← at_ (states g) identifier;
    DCHECK (bool_decide (s = UNINITIALIZED));;
    modify (set_state identifier RUNNING);;
    r ← at_ (task_runners g) identifier;
    DCHECK (bool_decide (r = None));;
    modify (set_runner identifier task_runner)).

Definition WebThreadImpl_destroy (identifier : ID) : MG unit :=
  AutoLock (
    g ← globals;
    s ← at_ (states g) identifier;
    DCHECK (bool_decide (s = RUNNING));;
    modify (set_state identifier SHUTDOWN)).

Definition ResetGlobalsForTesting (identifier : ID) : MG unit :=
  AutoLock (
    g ← globals;
    s ← at_ (states g) identifier;
    DCHECK (bool_decide (s = SHUTDOWN));;
    modify (set_state identifier UNINITIALIZED);;
    modify (set_runner identifier None)).

(** ** WebSubThread *)

(** The fields of the class: web_thread_ is whether the thread is registered;
    the thread's task runner belongs to base::Thread. *)
Record WebSubThread := MkSubThread {
  identifier_ : ID;
  web_thread_ : bool;
  sub_task_runner : task_runner;
}.

(** The task posted by RegisterAsWebThread. *)
Definition kCompleteInitialization : positive := 1.

(** [delegate] is null or not. *)
Definition SetIOThreadDelegate (created : bool) (delegate : bool) : MG unit :=
  initialized ← IsThreadInitialized created IO;
  DCHECK (negb initialized);;
  g ← globals;
  DCHECK (negb (g_io_thread_delegate g) || negb delegate);;
  modify (set_delegate delegate).

Definition RegisterAsWebThread (is_running : bool) (t : WebSubThread) : MG WebSubThread :=
  DCHECK is_running;;
  DCHECK (negb (web_thread_ t));;
  WebThreadImpl_new (identifier_ t) (Some (sub_task_runner t));;
  modify (add_posted (MkPosted (sub_task_runner t) kCompleteInitialization 0 true));;
  mret (MkSubThread (identifier_ t) true (sub_task_runner t)).

Definition CompleteInitializationOnWebThread (t : WebSubThread) : MG unit :=
  g ← globals;
  whenM ((identifier_ t =? IO) && g_io_thread_delegate g) (modify (call_delegate DelegateInit)).

(** Run on the thread itself, when it stops. *)
Definition CleanUp (t : WebSubThread) : MG WebSubThread :=
  _ ← CurrentlyOn (runner_thread (sub_task_runner t)) IO;
  g ← globals;
  whenM ((identifier_ t =? IO) && g_io_thread_delegate g)
    (modify (call_delegate DelegateCleanUp));;
  whenM (web_thread_ t) (WebThreadImpl_destroy (identifier_ t));;
  mret (MkSubThread (identifier_ t) false (sub_task_runner t)).

(** ** Invariants *)

(** A thread has a task runner from its registration on, and the lock is free
    between calls. *)
Definition globals_inv (g : WebThreadGlobals) : Prop :=
  lock g = false ∧ zlen (task_runners g) = ID_COUNT ∧ zlen (states g) = ID_COUNT ∧
  ∀ i s r, vec_at (states g) i = Some s → vec_at (task_runners g) i = Some r →
    (s = UNINITIALIZED ↔ r = None).

Definition valid_id (i : ID) : bool := (0 <=? i) && (i <? ID_COUNT).

Definition state_of (g : WebThreadGlobals) (i : ID) : option WebThreadState := vec_at (states g) i.
Definition runner_of (g : WebThreadGlobals) (i : ID) : option task_runner :=
  default None (vec_at (task_runners g) i).

Lemma valid_id_lookup g i :
  globals_inv g → valid_id i = true →
  ∃ s r, vec_at (states g) i = Some s ∧ vec_at (task_runners g) i = Some r ∧
    (s = UNINITIALIZED ↔ r = None).
Proof.
  intros (_ & Hr & Hs & Hinv) Hi. unfold valid_id, ID_COUNT in *. bool_to_prop.
  destruct (vec_at_in_range (states g) i) as [s H1]; [lia|].
  destruct (vec_at_in_range (task_runners g) i) as [r H2]; [lia|].
  exists s, r. split_and!; eauto; by apply (Hinv i).
Qed.

Lemma wp_AutoLock {A} (m : MG A) (g : WebThreadGlobals) (Q : A → WebThreadGlobals → Prop) :
  lock g = false →
  wp m (λ a g', lock g' = true ∧ Q a (set_lock false g')) (set_lock true g) →
  wp (AutoLock m) Q g.
Proof.
  intros Hl Hm. unfold AutoLock, Acquire, Release, globals. wp_simp. rewrite Hl. wp_simp.
  eapply wp_mono; [|exact Hm]. intros a g' [Hl' HQ]. cbv beta. wp_simp. by rewrite Hl'.
Qed.

Lemma wp_check_identifier i (g : WebThreadGlobals) (Q : unit → WebThreadGlobals → Prop) :
  wp (check_identifier i) Q g ↔ valid_id i = true ∧ Q tt g.
Proof. unfold check_identifier, valid_id. wp_simp. rewrite andb_true_iff. tauto. Qed.

Lemma set_lock_back b g : lock g = false → set_lock false (set_lock b g) = g.
Proof. destruct g. simpl. by intros ->. Qed.

Lemma wp_GetCurrentThreadIdentifier (created : bool) current g (Q : option ID → WebThreadGlobals → Prop) :
  lock g = false →
  Q (if created then find_current current (task_runners g) 0 else None) g →
  wp (GetCurrentThreadIdentifier created current) Q g.
Proof.
  intros Hl HQ. unfold GetCurrentThreadIdentifier. destruct created; cbn [negb]; [|by wp_simp].
  apply wp_AutoLock; [done|]. unfold globals. wp_simp. by rewrite set_lock_back.
Qed.

Lemma inv_same_registry g g' :
  globals_inv g → lock g' = false → task_runners g' = task_runners g → states g' = states g →
  globals_inv g'.
Proof. intros (_ & H1 & H2 & H3) Hl Hr Hs. unfold globals_inv. by rewrite Hr, Hs. Qed.

Lemma wp_PostTaskHelper created current i task delay nestable g :
  globals_inv g → valid_id i = true →
  wp (PostTaskHelper created current i task delay nestable)
     (λ b g', globals_inv g' ∧ b = bool_decide (state_of g i = Some RUNNING) ∧
        task_runners g' = task_runners g ∧ states g' = states g ∧
        posted g' = posted g ++
          (if b then match runner_of g i with
                     | Some r => [MkPosted r task delay nestable]
                     | None => []
                     end
           else [])) g.
Proof.
  intros Hinv Hi. pose proof Hinv as (Hl & _).
  destruct (valid_id_lookup g i Hinv Hi) as (s & r & Hs & Hr & Hsr).
  unfold PostTaskHelper. wp_simp. apply wp_check_identifier. split; [done|].
  wp_simp. apply wp_GetCurrentThreadIdentifier; [done|].
  unfold state_of, runner_of. rewrite Hs, Hr. simpl.
  set (outlives := match _ with Some c => i <=? c | None => false end).
  assert (Hnone : s = RUNNING → r = None → False) by (intros -> ->; destruct Hsr as [_ Hx]; by specialize (Hx eq_refl)).
  destruct outlives; cbn [negb]; unfold Acquire, Release, globals; wp_simp;
    [|rewrite Hl; wp_simp];
    (exists s; split; [done|]; case_bool_decide as Hrun; wp_simp;
      [exists r; split; [done|]; destruct r as [r|]; [|by destruct Hnone]|]); wp_simp;
    rewrite ?bool_decide_eq_true_2, ?bool_decide_eq_false_2 by congruence;
    rewrite ?app_nil_r; split_and!; try done; by apply (inv_same_registry g).
Qed.

Lemma wp_CurrentlyOn current i g :
  globals_inv g → valid_id i = true →
  wp (CurrentlyOn current i)
     (λ b g', g' = g ∧ b = match runner_of g i with
                           | Some r => BelongsToCurrentThread current r
                           | None => false
                           end) g.
Proof.
  intros Hinv Hi. pose proof Hinv as (Hl & _).
  destruct (valid_id_lookup g i Hinv Hi) as (s & r & Hs & Hr & _).
  unfold CurrentlyOn. apply wp_AutoLock; [done|]. wp_simp. apply wp_check_identifier.
  split; [done|]. unfold globals. wp_simp. exists r. split; [done|]. wp_simp.
  rewrite set_lock_back by done. unfold runner_of. by rewrite Hr.
Qed.

Lemma wp_IsThreadInitialized (created : bool) i g :
  globals_inv g → valid_id i = true →
  wp (IsThreadInitialized created i)
     (λ b g', g' = g ∧ b = created && bool_decide (state_of g i = Some RUNNING)) g.
Proof.
  intros Hinv Hi. pose proof Hinv as (Hl & _).
  destruct (valid_id_lookup g i Hinv Hi) as (s & r & Hs & Hr & _).
  unfold IsThreadInitialized. destruct created; cbn [negb]; [|by wp_simp].
  apply wp_AutoLock; [done|]. wp_simp. apply wp_check_identifier.
  split; [done|]. unfold globals. wp_simp. exists s. split; [done|]. wp_simp.
  rewrite set_lock_back by done. unfold state_of. rewrite Hs. split; [done|]. split; [done|].
  apply bool_decide_ext. naive_solver.
Qed.

(** Setting the state and the task runner of an identifier. *)
Lemma globals_inv_set g i s r :
  globals_inv g → (s = UNINITIALIZED ↔ r = None) →
  globals_inv (set_lock false (set_runner i r (set_state i s (set_lock true g)))).
Proof.
  intros (_ & H1 & H2 & H3) Hsr. unfold globals_inv. simpl. rewrite !zlen_vec_set.
  split_and!; [done..|]. intros j s' r'. rewrite !vec_at_vec_set, H1, H2.
  case_bool_decide; [by intros [= <-] [= <-]|apply H3].
Qed.

Lemma wp_WebThreadImpl_new i r g :
  globals_inv g → valid_id i = true → state_of g i = Some UNINITIALIZED →
  wp (WebThreadImpl_new i (Some r))
     (λ _ g', globals_inv g' ∧ g' = set_runner i (Some r) (set_state i RUNNING g)) g.
Proof.
  intros Hinv Hi Hst. pose proof Hinv as (Hl & _).
  destruct (valid_id_lookup g i Hinv Hi) as (s & r0 & Hs & Hr & Hsr).
  unfold state_of in Hst. assert (s = UNINITIALIZED) as -> by congruence.
  unfold WebThreadImpl_new. wp_simp. split; [done|]. apply wp_AutoLock; [done|]. wp_simp.
  apply wp_check_identifier. split; [done|]. unfold globals. wp_simp.
  exists UNINITIALIZED. split; [done|]. wp_simp. split; [by apply bool_decide_eq_true|].
  exists r0. split; [done|]. wp_simp. split; [apply bool_decide_eq_true; by apply Hsr|].
  split; [done|]. split; [by apply globals_inv_set|]. destruct g. simpl in *. by subst.
Qed.

Lemma wp_WebThreadImpl_destroy i g :
  globals_inv g → valid_id i = true → state_of g i = Some RUNNING →
  wp (WebThreadImpl_destroy i) (λ _ g', globals_inv g' ∧ g' = set_state i SHUTDOWN g) g.
Proof.
  intros Hinv Hi Hst. pose proof Hinv as (Hl & _).
  destruct (valid_id_lookup g i Hinv Hi) as (s & r & Hs & Hr & Hsr).
  unfold state_of in Hst. assert (s = RUNNING) as -> by congruence.
  unfold WebThreadImpl_destroy. apply wp_AutoLock; [done|]. unfold globals. wp_simp.
  exists RUNNING. split; [done|]. wp_simp. split; [by apply bool_decide_eq_true|]. split; [done|].
  assert (Hsame : vec_set (task_runners g) i r = task_runners g) by by apply vec_set_self.
  split; [|destruct g; simpl in *; by subst].
  pose proof (globals_inv_set g i SHUTDOWN r Hinv) as Hset. unfold set_runner in Hset.
  simpl in Hset. rewrite Hsame in Hset. apply Hset. split; [done|].
  intros ->. destruct Hsr as [_ Hsr]. by specialize (Hsr eq_refl).
Qed.

Lemma wp_ResetGlobalsForTesting i g :
  globals_inv g → valid_id i = true → state_of g i = Some SHUTDOWN →
  wp (ResetGlobalsForTesting i)
     (λ _ g', globals_inv g' ∧ g' = set_runner i None (set_state i UNINITIALIZED g)) g.
Proof.
  intros Hinv Hi Hst. pose proof Hinv as (Hl & _).
  destruct (valid_id_lookup g i Hinv Hi) as (s & r & Hs & Hr & Hsr).
  unfold state_of in Hst. assert (s = SHUTDOWN) as -> by congruence.
  unfold ResetGlobalsForTesting. apply wp_AutoLock; [done|]. unfold globals. wp_simp.
  exists SHUTDOWN. split; [done|]. wp_simp. split; [by apply bool_decide_eq_true|]. split; [done|].
  split; [by apply globals_inv_set|]. destruct g. simpl in *. by subst.
Qed.

(** ** Properties *)

(** The calls of the registry, from any thread. *)
Inductive registry_call :=
  | CallRegister (i : ID) (r : task_runner)
  | CallDestroy (i : ID)
  | CallReset (i : ID)
  | CallPost (created : bool) (current : positive) (i : ID) (task : positive) (delay : Z)
      (nestable : bool)
  | CallCurrentlyOn (current : positive) (i : ID)
  | CallIsInitialized (created : bool) (i : ID)
  | CallCurrentIdentifier (created : bool) (current : positive).

(** The states in which the code may make a call. *)
Definition call_allowed (c : registry_call) (g : WebThreadGlobals) : Prop :=
  match c with
  | CallRegister i _ => valid_id i = true ∧ state_of g i = Some UNINITIALIZED
  | CallDestroy i => valid_id i = true ∧ state_of g i = Some RUNNING
  | CallReset i => valid_id i = true ∧ state_of g i = Some SHUTDOWN
  | CallPost _ _ i _ _ _ | CallCurrentlyOn _ i | CallIsInitialized _ i => valid_id i = true
  | CallCurrentIdentifier _ _ => True
  end.

Definition call_registry (c : registry_call) : MG unit :=
  match c with
  | CallRegister i r => WebThreadImpl_new i (Some r)
  | CallDestroy i => WebThreadImpl_destroy i
  | CallReset i => ResetGlobalsForTesting i
  | CallPost created current i task delay nestable =>
      _ ← PostTaskHelper created current i task delay nestable; mret tt
  | CallCurrentlyOn current i => _ ← CurrentlyOn current i; mret tt
  | CallIsInitialized created i => _ ← IsThreadInitialized created i; mret tt
  | CallCurrentIdentifier created current =>
      _ ← GetCurrentThreadIdentifier created current; mret tt
  end.

Lemma wp_call_registry c g :
  globals_inv g → call_allowed c g → wp (call_registry c) (λ _, globals_inv) g.
Proof.
  intros Hinv Hc. pose proof Hinv as (Hl & _). destruct c; simpl in *; wp_simp.
  - eapply wp_mono; [|by apply wp_WebThreadImpl_new; try apply Hc]. by intros [] g' [? _].
  - eapply wp_mono; [|by apply wp_WebThreadImpl_destroy; try apply Hc]. by intros [] g' [? _].
  - eapply wp_mono; [|by apply wp_ResetGlobalsForTesting; try apply Hc]. by intros [] g' [? _].
  - eapply wp_mono; [|by apply wp_PostTaskHelper]. intros b g' [? _]. by wp_simp.
  - eapply wp_mono; [|by apply wp_CurrentlyOn]. intros b g' [-> _]. by wp_simp.
  - eapply wp_mono; [|by apply wp_IsThreadInitialized]. intros b g' [-> _]. by wp_simp.
  - apply wp_GetCurrentThreadIdentifier; [done|]. by wp_simp.
Qed.

Lemma globals_new_inv : globals_inv WebThreadGlobals_new.
Proof.
  unfold globals_inv. simpl. split_and!; try done. intros i s r Hs Hr.
  unfold vec_at in *. destruct (0 <=? i); [|done].
  destruct (Z.to_nat i) as [|[|]]; simplify_eq/=; done.
Qed.

Definition registry_step (g : WebThreadGlobals) (c : registry_call) (g' : WebThreadGlobals) : Prop :=
  call_allowed c g ∧ call_registry c g = Ok (tt, g').

(** In every state the registry of threads reaches, a call that is allowed
    fails no check and returns: in particular no call takes the lock twice, and
    the lock is free after each; a thread is without a task runner exactly
    before its registration. *)
Theorem registry_reachable g c :
  reachable registry_step WebThreadGlobals_new g → call_allowed c g →
  (∃ g', call_registry c g = Ok (tt, g') ∧ lock g' = false) ∧
  ∀ i, valid_id i = true → (state_of g i = Some UNINITIALIZED ↔ runner_of g i = None).
Proof.
  intros Hreach Hc. assert (Hinv : globals_inv g).
  { clear c Hc. revert g Hreach. apply reachable_invariant.
    - apply globals_new_inv.
    - intros g c g' Hg [Hc Hrun]. pose proof (wp_call_registry c g Hg Hc) as Hwp.
      unfold wp in Hwp. by rewrite Hrun in Hwp. }
  split.
  - destruct (wp_run _ _ _ (wp_call_registry c g Hinv Hc)) as ([] & g' & Hrun & Hg').
    exists g'. split; [done|]. apply Hg'.
  - intros i Hi. destruct (valid_id_lookup g i Hinv Hi) as (s & r & Hs & Hr & Hsr).
    unfold state_of, runner_of. rewrite Hs, Hr. simpl. naive_solver.
Qed.

(** Each thread outlives those below it. *)
Definition lifetimes_ordered (g : WebThreadGlobals) : Prop :=
  ∀ i j, valid_id i = true → i <= j → state_of g j = Some RUNNING → state_of g i = Some RUNNING.

Lemma find_current_spec current l i c :
  find_current current l i = Some c →
  i <= c ∧ ∃ r, vec_at l (c - i) = Some (Some r) ∧ runner_thread r = current.
Proof.
  revert i. induction l as [|o l IH]; intros i H; [done|].
  assert (Hcons : ∀ o : option task_runner, i + 1 <= c →
    vec_at (o :: l) (c - i) = vec_at l (c - (i + 1))).
  { intros o' Hle. rewrite !vec_at_nonneg by lia.
    replace (Z.to_nat (c - i)) with (S (Z.to_nat (c - (i + 1)))) by lia. done. }
  simpl in H. destruct o as [r|].
  - unfold BelongsToCurrentThread in H. case_bool_decide as Hr.
    + injection H as <-. split; [lia|]. exists r. by rewrite Z.sub_diag.
    + destruct (IH _ H) as (Hle & r' & H1 & H2). split; [lia|]. exists r'. by rewrite Hcons.
  - destruct (IH _ H) as (Hle & r' & H1 & H2). split; [lia|]. exists r'. by rewrite Hcons.
Qed.

(** A task posted from a well-known thread that is running to a thread that
    outlives it is accepted, and given to that thread's task runner; the state
    that is read without the lock cannot be anything else. *)
Theorem post_to_outliving_thread current c i task delay nestable g :
  globals_inv g → lifetimes_ordered g →
  find_current current (task_runners g) 0 = Some c → state_of g c = Some RUNNING →
  valid_id i = true → i <= c →
  ∃ r g', PostTaskHelper true current i task delay nestable g = Ok (true, g') ∧
    runner_of g i = Some r ∧ posted g' = posted g ++ [MkPosted r task delay nestable] ∧
    states g' = states g ∧ task_runners g' = task_runners g.
Proof.
  intros Hinv Hord Hfind Hc Hi Hle. pose proof (Hord i c Hi Hle Hc) as Hrun.
  destruct (wp_run _ _ _ (wp_PostTaskHelper true current i task delay nestable g Hinv Hi))
    as (b & g' & Hpost & _ & Hb & Hr & Hs & Hp).
  rewrite bool_decide_eq_true_2 in Hb by done. subst b.
  destruct (valid_id_lookup g i Hinv Hi) as (s & r & H1 & H2 & Hsr).
  unfold runner_of in *. rewrite H2 in *. simpl in *.
  destruct r as [r|]; [by exists r, g'|].
  unfold state_of in Hrun. destruct Hsr as [_ Hsr]. specialize (Hsr eq_refl). congruence.
Qed.

(** The order in which threads are registered and destroyed keeps lifetimes
    ordered. *)
Lemma lifetimes_register g i r :
  lifetimes_ordered g → (∀ j, valid_id j = true → j < i → state_of g j = Some RUNNING) →
  lifetimes_ordered (set_runner i r (set_state i RUNNING g)).
Proof.
  intros Hord Hbelow j k Hj Hle. unfold state_of in *. simpl. rewrite !vec_at_vec_set.
  repeat case_bool_decide; intros Hk; try done.
  - apply Hbelow; [done|]. lia.
  - by apply (Hord j k).
Qed.

Lemma lifetimes_destroy g i :
  lifetimes_ordered g → (∀ j, i < j → state_of g j ≠ Some RUNNING) →
  lifetimes_ordered (set_state i SHUTDOWN g).
Proof.
  intros Hord Habove j k Hj Hle. unfold state_of in *. simpl. rewrite !vec_at_vec_set.
  repeat case_bool_decide; intros Hk; try done.
  - exfalso. apply (Habove k); [lia|done].
  - by apply (Hord j k).
Qed.

(** Witnesses: a UI thread, then an IO thread. *)
Definition ui_runner : task_runner := MkTaskRunner 1 1.
Definition io_runner : task_runner := MkTaskRunner 2 2.
Definition both_running : WebThreadGlobals :=
  set_runner IO (Some io_runner) (set_state IO RUNNING
    (set_runner UI (Some ui_runner) (set_state UI RUNNING WebThreadGlobals_new))).

Lemma registry_reachable_witness :
  ∃ g', call_registry (CallRegister UI ui_runner) WebThreadGlobals_new = Ok (tt, g') ∧
    lock g' = false.
Proof.
  apply (registry_reachable WebThreadGlobals_new (CallRegister UI ui_runner)).
  - apply reach_refl.
  - split; reflexivity.
Defined.

Lemma post_to_outliving_thread_witness :
  ∃ g', PostTaskHelper true 2 UI 7 0 true both_running = Ok (true, g') ∧
    posted g' = [MkPosted ui_runner 7 0 true].
Proof.
  destruct (post_to_outliving_thread 2 IO UI 7 0 true both_running)
    as (r & g' & H1 & H2 & H3 & _).
  - apply (globals_inv_set (set_runner UI (Some ui_runner) (set_state UI RUNNING
      WebThreadGlobals_new)) IO RUNNING (Some io_runner)); [|by split].
    apply (globals_inv_set WebThreadGlobals_new UI RUNNING (Some ui_runner));
      [apply globals_new_inv|by split].
  - apply lifetimes_register.
    + apply lifetimes_register.
      * intros i j Hi Hle. unfold state_of. simpl. unfold vec_at.
        destruct (0 <=? j); [|done]. by destruct (Z.to_nat j) as [|[|]].
      * intros j Hj Hlt. unfold valid_id, UI in *. bool_to_prop. lia.
    + intros j Hj Hlt. unfold valid_id, IO, ID_COUNT in *. bool_to_prop.
      assert (j = 0) as -> by lia. reflexivity.
  - reflexivity.
  - reflexivity.
  - reflexivity.
  - vm_compute. discriminate.
  - exists g'. split; [exact H1|]. rewrite H3. injection H2 as <-. reflexivity.
Defined.
