(* ===== verification/CacheCounter.v ===== *)
(** * Counting the size of the cache

    src/chrome/browser/browsing_data/cache_counter.cc: the object that asks the
    network layer for its cache's backend and the backend for its size, on the
    IO thread, and answers on the UI thread.  Each of the two questions is
    answered at once or later, and may fail.  The network layer is an argument
    of the definitions: what GetBackend and CalculateSizeOfAllEntries return,
    and what they give to their callbacks when that is ERR_IO_PENDING. *)

From S2P Require Import Prelude.

(** net/base/net_errors.h: the codes of the errors are negative. *)
Definition net_OK : Z := 0.
Definition ERR_IO_PENDING : Z := -1.

(** The answer of an operation of the network layer: a value at once, or
    ERR_IO_PENDING and the value later given to the callback. *)
Inductive answer : Set :=
  | AnswerNow (rv : Z)
  | AnswerLater (rv : Z).

Definition returned (a : answer) : Z :=
  match a with AnswerNow rv => rv | AnswerLater _ => ERR_IO_PENDING end.
Definition value (a : answer) : Z :=
  match a with AnswerNow rv | AnswerLater rv => rv end.

(** A value is not ERR_IO_PENDING. *)
Definition answer_ok (a : answer) : bool := negb (value a =? ERR_IO_PENDING).

Inductive Step : Set := STEP_GET_BACKEND | STEP_COUNT | STEP_CALLBACK | STEP_DONE.
#[global] Instance Step_eq_dec : EqDecision Step.
Proof. solve_decision. Defined.

(** The fields of IOThreadCacheCounter; the callbacks the network layer keeps,
    with what it will give them; whether OnCountingFinished is posted to the UI
    thread; the results given to result_callback_; and whether the object was
    deleted. *)
Record IOThreadCacheCounter := MkCounter {
  next_step_ : Step;
  result_ : Z;
  backend_ : bool;
  waiting_callbacks : list Z;
  finished_posted : bool;
  results : list Z;
  deleted : bool;
}.

Definition IOThreadCacheCounter_new : IOThreadCacheCounter :=
  MkCounter STEP_GET_BACKEND 0 false [] false [] false.

Definition set_step (s : Step) (c : IOThreadCacheCounter) : IOThreadCacheCounter :=
  MkCounter s (result_ c) (backend_ c) (waiting_callbacks c) (finished_posted c) (results c)
    (deleted c).
Definition set_result (r : Z) (c : IOThreadCacheCounter) : IOThreadCacheCounter :=
  MkCounter (next_step_ c) r (backend_ c) (waiting_callbacks c) (finished_posted c) (results c)
    (deleted c).
Definition set_backend (c : IOThreadCacheCounter) : IOThreadCacheCounter :=
  MkCounter (next_step_ c) (result_ c) true (waiting_callbacks c) (finished_posted c)
    (results c) (deleted c).
Definition set_waiting (l : list Z) (c : IOThreadCacheCounter) : IOThreadCacheCounter :=
  MkCounter (next_step_ c) (result_ c) (backend_ c) l (finished_posted c) (results c)
    (deleted c).
Definition set_finished (b : bool) (c : IOThreadCacheCounter) : IOThreadCacheCounter :=
  MkCounter (next_step_ c) (result_ c) (backend_ c) (waiting_callbacks c) b (results c)
    (deleted c).
Definition run_result (c : IOThreadCacheCounter) : IOThreadCacheCounter :=
  MkCounter (next_step_ c) (result_ c) (backend_ c) (waiting_callbacks c) (finished_posted c)
    (results c ++ [result_ c]) true.

Section counter.
(** The answers of HttpCache::GetBackend, which sets the backend when it
    succeeds, and of Backend::CalculateSizeOfAllEntries. *)
Variables (get_backend calculate_size : answer).

Definition counter : M IOThreadCacheCounter IOThreadCacheCounter :=
  gets (λ c : IOThreadCacheCounter, c).

Definition ask (a : answer) : M IOThreadCacheCounter Z :=
  modify (λ c, match a with
               | AnswerNow _ => c
               | AnswerLater rv => set_waiting (waiting_callbacks c ++ [rv]) c
               end);;
  mret (returned a).

Definition GetBackend : M IOThreadCacheCounter Z :=
  whenM (value get_backend =? net_OK) (modify set_backend);;
  ask get_backend.

(** The body of the loop, after the test of an error. *)
Definition count_step (rv : Z) : M IOThreadCacheCounter Z :=
  c ← counter;
  match next_step_ c with
  | STEP_GET_BACKEND => modify (set_step STEP_COUNT);; GetBackend
  | STEP_COUNT =>
      modify (set_step STEP_CALLBACK);;
      DCHECK (backend_ c);;
      ask calculate_size
  | STEP_CALLBACK =>
      modify (set_step STEP_DONE);;
      modify (set_result rv);;
      modify (set_finished true);;
      mret rv
  | STEP_DONE => NOTREACHED
  end.

(** The loop: each turn takes a step, and there are three; [None] when the fuel
    is not enough. *)
Fixpoint CountInternal (fuel : nat) (rv : Z) : M IOThreadCacheCounter (option unit) :=
  c ← counter;
  if (rv =? ERR_IO_PENDING) || bool_decide (next_step_ c = STEP_DONE) then mret (Some tt)
  else
    match fuel with
    | O => mret None
    | S fuel =>
        whenM (rv <? 0) (modify (set_step STEP_CALLBACK));;
        rv ← count_step rv;
        CountInternal fuel rv
    end.

Definition OnCountingFinished : M IOThreadCacheCounter unit :=
  modify (set_finished false);;
  modify run_result.

(** The next thing that happens: a callback of the network layer on the IO
    thread, or the task on the UI thread. *)
Definition run_next : M IOThreadCacheCounter bool :=
  c ← counter;
  match waiting_callbacks c with
  | rv :: rest =>
      modify (set_waiting rest);;
      done ← CountInternal 3 rv;
      mret (bool_decide (done = Some tt))
  | [] =>
      if finished_posted c then OnCountingFinished;; mret true else mret true
  end.

(** Count() and what follows it. *)
Definition Count_and_run : M IOThreadCacheCounter (option unit) :=
  first ← CountInternal 3 net_OK;
  run_next;; run_next;; run_next;;
  mret first.

(** What is given to the result callback: the error of the first question that
    fails, or the size. *)
Definition count_result : Z :=
  if value get_backend <? 0 then value get_backend else value calculate_size.

(** Whatever of the two questions is answered later, and whatever fails,
    the loop ends, no check fails, and the result callback is run once, with
    the error of the first question that fails or with the size; then the
    object is deleted and nothing is left to run.  (GetBackend answers an error
    or OK.) *)
Theorem cache_counted_once :
  answer_ok get_backend = true → answer_ok calculate_size = true → value get_backend <= net_OK →
  ∃ c, Count_and_run IOThreadCacheCounter_new = Ok (Some tt, c) ∧
    results c = [count_result] ∧ deleted c = true ∧ next_step_ c = STEP_DONE ∧
    waiting_callbacks c = [] ∧ finished_posted c = false.
Proof.
  unfold answer_ok, net_OK, count_result. intros Hb Hs Hle. bool_to_prop.
  assert (Hcases : value get_backend = 0 ∨ value get_backend < 0 ∧ (value get_backend <? 0) = true ∧
    (value get_backend =? ERR_IO_PENDING) = false ∧ (value get_backend =? 0) = false).
  { destruct (Z.ltb_spec (value get_backend) 0); [right|left; lia].
    split_and!; [done|done|by apply Z.eqb_neq|apply Z.eqb_neq; lia]. }
  assert (Hs' : (value calculate_size =? ERR_IO_PENDING) = false) by by apply Z.eqb_neq.
  unfold Count_and_run, run_next, OnCountingFinished, CountInternal, count_step, GetBackend, ask,
    counter, gets, modify, mbind, M_bind, mret, M_ret, DCHECK, whenM, net_OK.
  destruct get_backend as [rb|rb], calculate_size as [rs|rs]; simpl in *;
    destruct Hcases as [->|(_ & Hlt & Hp & H0)];
    repeat (rewrite ?Hlt, ?Hp, ?H0, ?Hs'; simpl; try (destruct (rs <? 0) eqn:Ers; simpl));
    try (eexists; split; [reflexivity|by split_and!]).
Qed.
End counter.

(** ** CacheCounter

    OnCacheSizeCalculated reports the size, not an error. *)
Definition OnCacheSizeCalculated (result_bytes : Z) (reports : list Z) : list Z :=
  if result_bytes <? 0 then reports else reports ++ [result_bytes].

(** A size that can be counted is reported, an error is not. *)
Lemma cache_size_reported b s :
  answer_ok b = true → answer_ok s = true → value b <= net_OK →
  OnCacheSizeCalculated (count_result b s) [] =
  if (value b <? 0) || (value s <? 0) then [] else [value s].
Proof.
  intros _ _ _. unfold OnCacheSizeCalculated, count_result.
  destruct (value b <? 0) eqn:E; [by rewrite E|]. simpl. by destruct (value s <? 0).
Qed.

Lemma cache_counted_once_witness :
  ∃ c, Count_and_run (AnswerLater 0) (AnswerNow 42) IOThreadCacheCounter_new = Ok (Some tt, c) ∧
    results c = [42].
Proof.
  destruct (cache_counted_once (AnswerLater 0) (AnswerNow 42)) as (c & H1 & H2 & _);
    [reflexivity..|discriminate|].
  by exists c.
Defined.
