(* ===== verification/SyncSetupService.v ===== *)
(** * Setting up sync

    src/chrome/browser/sync/sync_setup_service.cc and .h: what the settings
    screens call to read and change what is synced.  Changes are made while a
    handle of the sync service keeps sync from running; the handle is given
    back when the changes are committed.  syncer::SyncService is outside the
    repository ([SyncServiceEnv], with its documented behaviour in
    [SyncServiceLaws]). *)

From S2P Require Import Prelude.

(** The states of GoogleServiceAuthError, as GetSyncServiceState lists them. *)
Inductive GoogleServiceAuthError : Set :=
  | AUTH_NONE | INVALID_GAIA_CREDENTIALS | USER_NOT_SIGNED_UP | CONNECTION_FAILED
  | CAPTCHA_REQUIRED | ACCOUNT_DELETED | ACCOUNT_DISABLED | SERVICE_UNAVAILABLE | TWO_FACTOR
  | REQUEST_CANCELED | HOSTED_NOT_ALLOWED_DEPRECATED | UNEXPECTED_SERVICE_RESPONSE
  | SERVICE_ERROR | WEB_LOGIN_REQUIRED | NUM_STATES.

(** components/sync: the service, its settings and the types of data. *)
Class SyncServiceEnv := {
  ModelType : Type;
  #[global] ModelType_eq_dec :: EqDecision ModelType;
  #[global] ModelType_countable :: Countable ModelType;
  BOOKMARKS : ModelType;
  TYPED_URLS : ModelType;
  PASSWORDS : ModelType;
  PROXY_TABS : ModelType;
  AUTOFILL : ModelType;
  PREFERENCES : ModelType;
  READING_LIST : ModelType;
  UserSelectableTypes : gset ModelType;
  SyncService : Type;
  GetPreferredDataTypes_ : SyncService → gset ModelType;
  GetActiveDataTypes : SyncService → gset ModelType;
  CanSyncFeatureStart : SyncService → bool;
  IsSyncEverythingEnabled : SyncService → bool;
  IsFirstSetupComplete : SyncService → bool;
  IsFirstSetupInProgress : SyncService → bool;
  IsSetupInProgress : SyncService → bool;
  HasUnrecoverableError : SyncService → bool;
  IsPassphraseRequiredForDecryption : SyncService → bool;
  GetAuthError : SyncService → GoogleServiceAuthError;
  SetChosenDataTypes : bool → gset ModelType → SyncService → SyncService;
  SetSyncRequested : bool → SyncService → SyncService;
  SetFirstSetupComplete : SyncService → SyncService;
  (* a SyncSetupInProgressHandle is taken and given back *)
  GetSetupInProgressHandle : SyncService → SyncService;
  ReleaseHandle : SyncService → SyncService;
}.

Section sync_setup.
Context `{SE : SyncServiceEnv}.
Notation ModelTypeSet := (gset ModelType).

(** SyncSetupService::SyncServiceState *)
Inductive SyncServiceState : Set :=
  | kNoSyncServiceError | kSyncServiceSignInNeedsUpdate | kSyncServiceCouldNotConnect
  | kSyncServiceServiceUnavailable | kSyncServiceNeedsPassphrase
  | kSyncServiceUnrecoverableError.

(** In the order of SyncableDatatype. *)
Definition kDataTypes : list ModelType :=
  [BOOKMARKS; TYPED_URLS; PASSWORDS; PROXY_TABS; AUTOFILL; PREFERENCES; READING_LIST].

(** SyncableDatatype *)
Definition kSyncBookmarks : Z := 0.
Definition kSyncOmniboxHistory : Z := 1.
Definition kSyncPasswords : Z := 2.
Definition kSyncOpenTabs : Z := 3.
Definition kSyncAutofill : Z := 4.
Definition kSyncPreferences : Z := 5.
Definition kSyncReadingList : Z := 6.
Definition kNumberOfSyncableDatatypes : Z := 7.

(** The fields of the class: the handle is held or not. *)
Record SyncSetupService := MkSyncSetup {
  sync_service_ : SyncService;
  user_selectable_types_ : ModelTypeSet;
  sync_blocker_ : bool;
}.

(** The constructor puts the types of the table in the set, one by one. *)
Definition SyncSetupService_new (s : SyncService) : SyncSetupService :=
  MkSyncSetup s (foldl (λ l t, {[t]} ∪ l) ∅ kDataTypes) false.

Notation MS := (M SyncSetupService).
Definition setup : MS SyncSetupService := gets (λ s : SyncSetupService, s).
Definition with_service (f : SyncService → SyncService) : MS unit :=
  modify (λ s, MkSyncSetup (f (sync_service_ s)) (user_selectable_types_ s) (sync_blocker_ s)).
Definition set_blocker (b : bool) : MS unit :=
  modify (λ s, MkSyncSetup (sync_service_ s) (user_selectable_types_ s) b).

(** [if (!sync_blocker_) sync_blocker_ = ...->GetSetupInProgressHandle();] *)
Definition block_sync : MS unit :=
  s ← setup;
  whenM (negb (sync_blocker_ s))
    (with_service GetSetupInProgressHandle;; set_blocker true).

Definition GetModelType (datatype : Z) : MS ModelType :=
  DCHECK (datatype <? zlen kDataTypes);;
  at_ kDataTypes datatype.

Definition GetPreferredDataTypes (s : SyncSetupService) : ModelTypeSet :=
  GetPreferredDataTypes_ (sync_service_ s).
Definition IsDataTypeActive (datatype : ModelType) (s : SyncSetupService) : bool :=
  bool_decide (datatype ∈ GetActiveDataTypes (sync_service_ s)).
Definition IsDataTypePreferred (datatype : ModelType) (s : SyncSetupService) : bool :=
  bool_decide (datatype ∈ GetPreferredDataTypes s).
Definition IsSyncingAllDataTypes (s : SyncSetupService) : bool :=
  IsSyncEverythingEnabled (sync_service_ s).
Definition IsSyncEnabled (s : SyncSetupService) : bool := CanSyncFeatureStart (sync_service_ s).

Definition SetSyncEnabledWithoutChangingDatatypes (sync_enabled : bool) : MS unit :=
  block_sync;;
  with_service (SetSyncRequested sync_enabled).

(** SetSyncEnabled(true) and SetSyncingAllDataTypes(true) call each other: the
    second calls the first while sync is not enabled, which calls it back when
    no type is preferred.  [fuel] bounds the calls; [None] when it is not
    enough. *)
Fixpoint SetSyncEnabled_rec (fuel : nat) (sync_enabled : bool) : MS (option unit) :=
  SetSyncEnabledWithoutChangingDatatypes sync_enabled;;
  s ← setup;
  if sync_enabled && bool_decide (GetPreferredDataTypes s = ∅) then
    match fuel with
    | O => mret None
    | S fuel =>
        (* SetSyncingAllDataTypes(true) *)
        block_sync;;
        s ← setup;
        r ← (if negb (IsSyncEnabled s) then SetSyncEnabled_rec fuel true else mret (Some tt));
        s ← setup;
        with_service (SetChosenDataTypes true (GetPreferredDataTypes s ∩ UserSelectableTypes));;
        mret r
    end
  else mret (Some tt).

Definition SetSyncingAllDataTypes_rec (fuel : nat) (sync_all : bool) : MS (option unit) :=
  block_sync;;
  s ← setup;
  r ← (if sync_all && negb (IsSyncEnabled s) then SetSyncEnabled_rec fuel true
       else mret (Some tt));
  s ← setup;
  with_service (SetChosenDataTypes sync_all (GetPreferredDataTypes s ∩ UserSelectableTypes));;
  mret r.

Definition finish (r : option unit) : MS unit :=
  match r with Some _ => mret tt | None => fail NeverReturns end.

(** One call of each of the two is enough when sync starts once requested. *)
Definition SetSyncEnabled (sync_enabled : bool) : MS unit :=
  r ← SetSyncEnabled_rec 1 sync_enabled; finish r.
Definition SetSyncingAllDataTypes (sync_all : bool) : MS unit :=
  r ← SetSyncingAllDataTypes_rec 1 sync_all; finish r.

Definition SetDataTypeEnabled (datatype : ModelType) (enabled : bool) : MS unit :=
  block_sync;;
  s ← setup;
  let types := if enabled then {[datatype]} ∪ GetPreferredDataTypes s
               else GetPreferredDataTypes s ∖ {[datatype]} in
  let types := types ∩ user_selectable_types_ s in
  whenM (enabled && negb (IsSyncEnabled s)) (SetSyncEnabledWithoutChangingDatatypes true);;
  s ← setup;
  with_service (SetChosenDataTypes (IsSyncingAllDataTypes s) types);;
  s ← setup;
  whenM (bool_decide (GetPreferredDataTypes s = ∅)) (SetSyncEnabled false).

(** Errors the user is not shown; in a build with DCHECKs the unexpected ones
    stop the program. *)
Definition GetSyncServiceState : MS SyncServiceState :=
  s ← setup;
  let service := sync_service_ s in
  let no_auth_error :=
    mret (if HasUnrecoverableError service then kSyncServiceUnrecoverableError
          else if IsPassphraseRequiredForDecryption service then kSyncServiceNeedsPassphrase
          else kNoSyncServiceError) in
  match GetAuthError service with
  | REQUEST_CANCELED => mret kSyncServiceCouldNotConnect
  | SERVICE_UNAVAILABLE => mret kSyncServiceServiceUnavailable
  | INVALID_GAIA_CREDENTIALS => mret kSyncServiceSignInNeedsUpdate
  | AUTH_NONE | CONNECTION_FAILED | USER_NOT_SIGNED_UP | UNEXPECTED_SERVICE_RESPONSE =>
      no_auth_error
  | CAPTCHA_REQUIRED | ACCOUNT_DELETED | ACCOUNT_DISABLED | TWO_FACTOR
  | HOSTED_NOT_ALLOWED_DEPRECATED | SERVICE_ERROR | WEB_LOGIN_REQUIRED | NUM_STATES =>
      NOTREACHED
  end.

Definition UserActionIsRequiredToHaveTabSyncWork : MS bool :=
  s ← setup;
  if negb (IsSyncEnabled s) || negb (IsDataTypePreferred PROXY_TABS s) then mret true
  else
    state ← GetSyncServiceState;
    match state with
    | kNoSyncServiceError | kSyncServiceCouldNotConnect | kSyncServiceServiceUnavailable =>
        mret false
    | kSyncServiceSignInNeedsUpdate | kSyncServiceNeedsPassphrase
    | kSyncServiceUnrecoverableError => mret true
    end.

Definition HasFinishedInitialSetup (s : SyncSetupService) : bool :=
  negb (CanSyncFeatureStart (sync_service_ s)) || IsFirstSetupComplete (sync_service_ s).

Definition PrepareForFirstSyncSetup : MS unit :=
  s ← setup;
  DCHECK (negb (IsFirstSetupComplete (sync_service_ s)));;
  block_sync.

Definition CommitChanges : MS unit :=
  s ← setup;
  whenM (IsFirstSetupInProgress (sync_service_ s) && CanSyncFeatureStart (sync_service_ s))
    (with_service SetFirstSetupComplete);;
  whenM (sync_blocker_ s) (with_service ReleaseHandle);;
  set_blocker false.

Definition HasUncommittedChanges (s : SyncSetupService) : bool :=
  IsSetupInProgress (sync_service_ s).
End sync_setup.

(** ** What the sync service promises *)

Class SyncServiceLaws `{!SyncServiceEnv} := {
  (* the handles that are out; whether something else (policy, no account)
     keeps sync from starting; the selected types *)
  handles : SyncService → nat;
  may_start : SyncService → bool;
  selected : SyncService → gset ModelType;
  law_handle_taken s : handles (GetSetupInProgressHandle s) = S (handles s);
  law_handle_released s : handles (ReleaseHandle s) = Nat.pred (handles s);
  law_in_progress s : IsSetupInProgress s = bool_decide (handles s ≠ 0%nat);
  law_handle_keeps s :
    (∀ f, f = GetSetupInProgressHandle ∨ f = ReleaseHandle →
      CanSyncFeatureStart (f s) = CanSyncFeatureStart s ∧ may_start (f s) = may_start s ∧
      selected (f s) = selected s ∧ IsSyncEverythingEnabled (f s) = IsSyncEverythingEnabled s);
  law_requested b s :
    CanSyncFeatureStart (SetSyncRequested b s) = b && may_start s ∧
    may_start (SetSyncRequested b s) = may_start s ∧
    handles (SetSyncRequested b s) = handles s ∧
    selected (SetSyncRequested b s) = selected s ∧
    IsSyncEverythingEnabled (SetSyncRequested b s) = IsSyncEverythingEnabled s;
  law_chosen b t s :
    CanSyncFeatureStart (SetChosenDataTypes b t s) = CanSyncFeatureStart s ∧
    may_start (SetChosenDataTypes b t s) = may_start s ∧
    handles (SetChosenDataTypes b t s) = handles s ∧
    selected (SetChosenDataTypes b t s) = t ∧
    IsSyncEverythingEnabled (SetChosenDataTypes b t s) = b;
  law_first_setup s :
    handles (SetFirstSetupComplete s) = handles s;
  law_preferred s :
    GetPreferredDataTypes_ s =
    if IsSyncEverythingEnabled s then UserSelectableTypes else selected s;
}.

Section sync_setup_properties.
Context `{SE : SyncServiceEnv} `{SL : !SyncServiceLaws}.
Notation ModelTypeSet := (gset ModelType).

(** The handle of this object is the one the service gave it. *)
Definition blocker_ok (others : nat) (s : SyncSetupService) : Prop :=
  handles (sync_service_ s) = (others + if sync_blocker_ s then 1 else 0)%nat.

Lemma wp_block_sync others (s : SyncSetupService) (Q : unit → SyncSetupService → Prop) :
  blocker_ok others s →
  (∀ s', blocker_ok others s' → sync_blocker_ s' = true →
     user_selectable_types_ s' = user_selectable_types_ s →
     CanSyncFeatureStart (sync_service_ s') = CanSyncFeatureStart (sync_service_ s) →
     may_start (sync_service_ s') = may_start (sync_service_ s) →
     selected (sync_service_ s') = selected (sync_service_ s) →
     IsSyncEverythingEnabled (sync_service_ s') = IsSyncEverythingEnabled (sync_service_ s) →
     Q tt s') →
  wp block_sync Q s.
Proof.
  intros Hok HQ. unfold block_sync, setup. wp_simp.
  destruct (sync_blocker_ s) eqn:Eb; cbn [negb]; [by apply HQ|].
  unfold with_service, set_blocker. wp_simp.
  destruct (law_handle_keeps (sync_service_ s) _ (or_introl eq_refl)) as (H1 & H2 & H3 & H4).
  apply HQ; try done. unfold blocker_ok in *. simpl. rewrite law_handle_taken, Hok, Eb. lia.
Qed.

Lemma wp_SetSyncEnabledWithout others b (s : SyncSetupService)
    (Q : unit → SyncSetupService → Prop) :
  blocker_ok others s →
  (∀ s', blocker_ok others s' → sync_blocker_ s' = true →
     user_selectable_types_ s' = user_selectable_types_ s →
     CanSyncFeatureStart (sync_service_ s') = b && may_start (sync_service_ s) →
     may_start (sync_service_ s') = may_start (sync_service_ s) →
     selected (sync_service_ s') = selected (sync_service_ s) →
     IsSyncEverythingEnabled (sync_service_ s') = IsSyncEverythingEnabled (sync_service_ s) →
     Q tt s') →
  wp (SetSyncEnabledWithoutChangingDatatypes b) Q s.
Proof.
  intros Hok HQ. unfold SetSyncEnabledWithoutChangingDatatypes. wp_simp.
  apply (wp_block_sync others); [done|]. intros s1 H1 H2 H3 H4 H5 H6 H7.
  unfold with_service. wp_simp.
  destruct (law_requested b (sync_service_ s1)) as (R1 & R2 & R3 & R4 & R5).
  apply HQ; simpl; try done; try congruence. unfold blocker_ok in *. simpl. congruence.
Qed.

(** Disabling sync does not recurse. *)
Lemma wp_SetSyncEnabled_false others (s : SyncSetupService) (Q : unit → SyncSetupService → Prop) :
  blocker_ok others s →
  (∀ s', blocker_ok others s' → sync_blocker_ s' = true →
     CanSyncFeatureStart (sync_service_ s') = false →
     selected (sync_service_ s') = selected (sync_service_ s) →
     IsSyncEverythingEnabled (sync_service_ s') = IsSyncEverythingEnabled (sync_service_ s) →
     Q tt s') →
  wp (SetSyncEnabled false) Q s.
Proof.
  intros Hok HQ. unfold SetSyncEnabled. cbn [SetSyncEnabled_rec]. wp_simp.
  apply (wp_SetSyncEnabledWithout others); [done|]. intros s1 H1 H2 H3 H4 H5 H6 H7.
  unfold setup. wp_simp. cbn [andb]. wp_simp. unfold finish. wp_simp. by apply HQ.
Qed.

(** What is preferred after a choice. *)
Lemma GetPreferredDataTypes_chosen (everything : bool) types service set b :
  GetPreferredDataTypes (MkSyncSetup (SetChosenDataTypes everything types service) set b) =
  if everything then UserSelectableTypes else types.
Proof using All.
  unfold GetPreferredDataTypes. cbn [sync_service_]. rewrite law_preferred.
  by destruct (law_chosen everything types service) as (_ & _ & _ & -> & ->).
Qed.

(** What is selected and whether sync may start, once the types are chosen:
    nothing to sync turns sync off. *)
Lemma wp_choose_types others everything types (s : SyncSetupService)
    (Q : unit → SyncSetupService → Prop) :
  blocker_ok others s → sync_blocker_ s = true →
  IsSyncEverythingEnabled (sync_service_ s) = everything →
  (∀ s', blocker_ok others s' → sync_blocker_ s' = true →
     selected (sync_service_ s') = types →
     IsSyncEverythingEnabled (sync_service_ s') = everything →
     CanSyncFeatureStart (sync_service_ s') =
       negb (bool_decide ((if everything then UserSelectableTypes else types) = ∅)) &&
       CanSyncFeatureStart (sync_service_ s) →
     Q tt s') →
  wp (s ← setup;
      with_service (SetChosenDataTypes (IsSyncingAllDataTypes s) types);;
      s ← setup;
      whenM (bool_decide (GetPreferredDataTypes s = ∅)) (SetSyncEnabled false)) Q s.
Proof.
  intros Hok Hb He HQ. unfold setup, with_service. wp_simp. unfold IsSyncingAllDataTypes.
  rewrite He, GetPreferredDataTypes_chosen.
  destruct (law_chosen everything types (sync_service_ s)) as (C1 & C2 & C3 & C4 & C5).
  assert (Hok' : blocker_ok others (MkSyncSetup (SetChosenDataTypes everything types
      (sync_service_ s)) (user_selectable_types_ s) (sync_blocker_ s)))
    by (unfold blocker_ok in *; simpl; congruence).
  case_bool_decide as Hempty; cbn [negb andb] in HQ.
  - apply (wp_SetSyncEnabled_false others); [done|]. intros s' H1 H2 H3 H4 H5.
    simpl in H4, H5. apply HQ; congruence.
  - by apply HQ.
Qed.

(** Enabling a type of data requests sync and adds the type to the
    selected ones that Chrome for iOS handles; disabling one removes it, and
    asks sync to stop exactly when nothing is left to sync.  Sync is kept from
    running, with one handle, until the changes are committed. *)
Theorem SetDataTypeEnabled_effect (datatype : ModelType) (enabled : bool) (others : nat)
    (s : SyncSetupService) :
  blocker_ok others s →
  let types := (if enabled then {[datatype]} ∪ GetPreferredDataTypes s
                else GetPreferredDataTypes s ∖ {[datatype]}) ∩ user_selectable_types_ s in
  let everything := IsSyncEverythingEnabled (sync_service_ s) in
  let empty := bool_decide ((if everything then UserSelectableTypes else types) = ∅) in
  ∃ s', SetDataTypeEnabled datatype enabled s = Ok (tt, s') ∧
    blocker_ok others s' ∧ sync_blocker_ s' = true ∧
    selected (sync_service_ s') = types ∧
    IsSyncEverythingEnabled (sync_service_ s') = everything ∧
    CanSyncFeatureStart (sync_service_ s') =
      negb empty && (CanSyncFeatureStart (sync_service_ s) ||
                     enabled && may_start (sync_service_ s)).
Proof using All.
  intros Hok types everything empty. apply wp_run_unit.
  unfold SetDataTypeEnabled. wp_simp. apply (wp_block_sync others); [done|].
  intros s1 Hok1 Hb1 Hu1 Hc1 Hm1 Hs1 He1. unfold setup. wp_simp.
  assert (Hpref : GetPreferredDataTypes s1 = GetPreferredDataTypes s).
  { unfold GetPreferredDataTypes. by rewrite !law_preferred, He1, Hs1. }
  rewrite Hpref, Hu1. fold types. unfold IsSyncEnabled. rewrite Hc1.
  destruct enabled, (CanSyncFeatureStart (sync_service_ s)) eqn:Ec; cbn [andb negb orb] in *.
  all: fold setup.
  2: apply (wp_SetSyncEnabledWithout others); [done|]; intros s2 K1 K2 K3 K4 K5 K6 K7; cbn [andb] in K4.
  all: apply (wp_choose_types others everything); [unfold everything; congruence..|]; intros s' R1 R2 R3 R4 R5;
    split_and!; [done..|]; rewrite R5; f_equal; congruence.
Qed.

(** After CommitChanges this object keeps sync from running no more: the
    service is in the middle of a setup only if another object is. *)
Theorem CommitChanges_releases (others : nat) (s : SyncSetupService) :
  blocker_ok others s →
  ∃ s', CommitChanges s = Ok (tt, s') ∧ blocker_ok others s' ∧ sync_blocker_ s' = false ∧
    HasUncommittedChanges s' = bool_decide (others ≠ 0%nat).
Proof using All.
  intros Hok.
  enough (wp CommitChanges (λ _ s', handles (sync_service_ s') = others ∧ sync_blocker_ s' = false) s)
    as ([] & s' & Hrun & H1 & H2)%wp_run.
  { exists s'. unfold blocker_ok, HasUncommittedChanges. rewrite law_in_progress, H1, H2.
    split_and!; [done|lia|done|done]. }
  unfold blocker_ok in Hok. unfold CommitChanges, setup, with_service, set_blocker. wp_simp.
  destruct (_ && _); wp_simp; destruct (sync_blocker_ s); wp_simp; simpl;
    rewrite ?law_handle_released, ?law_first_setup, Hok; split; lia || done.
Qed.

(** Enabling sync when nothing is preferred selects everything, without a
    third call, when sync starts once it is requested. *)
Lemma SetSyncEnabled_true_selects_everything (others : nat) (s : SyncSetupService) :
  blocker_ok others s → may_start (sync_service_ s) = true →
  ∃ s', SetSyncEnabled true s = Ok (tt, s') ∧ IsSyncEnabled s' = true ∧
    (GetPreferredDataTypes s = ∅ → IsSyncingAllDataTypes s' = true).
Proof using All.
  intros Hok Hmay.
  enough (wp (SetSyncEnabled true) (λ _ s', IsSyncEnabled s' = true ∧
    (GetPreferredDataTypes s = ∅ → IsSyncingAllDataTypes s' = true)) s)
    as ([] & s' & Hrun & H)%wp_run by by exists s'.
  unfold SetSyncEnabled. cbn [SetSyncEnabled_rec]. wp_simp.
  apply (wp_SetSyncEnabledWithout others); [done|]. intros s1 H1 H2 H3 H4 H5 H6 H7.
  unfold setup. wp_simp. cbn [andb].
  assert (Hp : GetPreferredDataTypes s1 = GetPreferredDataTypes s).
  { unfold GetPreferredDataTypes. by rewrite !law_preferred, H6, H7. }
  rewrite Hp. case_bool_decide as Hempty.
  - wp_simp. apply (wp_block_sync others); [done|]. intros s2 K1 K2 K3 K4 K5 K6 K7. wp_simp.
    unfold IsSyncEnabled. rewrite K4, H4, Hmay. cbn [andb negb]. wp_simp.
    unfold with_service. wp_simp. unfold finish. wp_simp. unfold IsSyncingAllDataTypes. simpl.
    destruct (law_chosen true (GetPreferredDataTypes s2 ∩ UserSelectableTypes) (sync_service_ s2))
      as (C1 & _ & _ & _ & C5).
    rewrite C1, C5, K4, H4, Hmay. done.
  - wp_simp. unfold finish. wp_simp. unfold IsSyncEnabled. rewrite H4, Hmay. done.
Qed.

(** The two never return when sync cannot start and no type is preferred:
    each calls the other for ever. *)
Theorem SetSyncEnabled_never_returns (fuel others : nat) (s : SyncSetupService) :
  blocker_ok others s → may_start (sync_service_ s) = false →
  GetPreferredDataTypes s = ∅ →
  ∃ s', SetSyncEnabled_rec fuel true s = Ok (None, s').
Proof using All.
  intros Hok Hmay Hp.
  enough (wp (SetSyncEnabled_rec fuel true) (λ r _, r = None) s)
    as (r & s' & Hrun & ->)%wp_run by by exists s'.
  revert s Hok Hmay Hp. induction fuel as [|fuel IH]; intros s Hok Hmay Hp;
    cbn [SetSyncEnabled_rec]; wp_simp;
    (apply (wp_SetSyncEnabledWithout others); [done|]; intros s1 H1 H2 H3 H4 H5 H6 H7);
    unfold setup; wp_simp; cbn [andb];
    assert (Hp1 : GetPreferredDataTypes s1 = ∅)
      by (unfold GetPreferredDataTypes in *; by rewrite law_preferred, H6, H7, <- law_preferred);
    rewrite bool_decide_eq_true_2 by done; wp_simp; [done|].
  apply (wp_block_sync others); [done|]. intros s2 K1 K2 K3 K4 K5 K6 K7. wp_simp.
  unfold IsSyncEnabled. rewrite K4, H4, Hmay. cbn [andb negb]. wp_simp.
  eapply wp_mono; [|apply (IH s2); [done|congruence|]].
  - intros r s3 ->. wp_simp. unfold with_service. wp_simp. done.
  - unfold GetPreferredDataTypes in *. by rewrite law_preferred, K6, K7, <- law_preferred.
Qed.
End sync_setup_properties.

(** ** A concrete sync service *)

Module ToySync.
Record service := MkService {
  t_handles : nat; t_may : bool; t_requested : bool; t_everything : bool;
  t_chosen : gset Z; t_complete : bool; t_auth : GoogleServiceAuthError;
}.
Definition preferred (s : service) : gset Z :=
  if t_everything s then list_to_set [0; 1; 2; 3; 4; 5; 6; 7] else t_chosen s.
Definition can_start (s : service) : bool := t_requested s && t_may s.

#[export] Instance env : SyncServiceEnv := {
  ModelType := Z; BOOKMARKS := 0; TYPED_URLS := 1; PASSWORDS := 2; PROXY_TABS := 3;
  AUTOFILL := 4; PREFERENCES := 5; READING_LIST := 6;
  UserSelectableTypes := list_to_set [0; 1; 2; 3; 4; 5; 6; 7];
  SyncService := service;
  GetPreferredDataTypes_ := preferred;
  GetActiveDataTypes s := if can_start s && t_complete s then preferred s else ∅;
  CanSyncFeatureStart := can_start;
  IsSyncEverythingEnabled := t_everything;
  IsFirstSetupComplete := t_complete;
  IsFirstSetupInProgress s := negb (t_complete s) && bool_decide (t_handles s ≠ 0%nat);
  IsSetupInProgress s := bool_decide (t_handles s ≠ 0%nat);
  HasUnrecoverableError _ := false;
  IsPassphraseRequiredForDecryption _ := false;
  GetAuthError := t_auth;
  SetChosenDataTypes b t s :=
    MkService (t_handles s) (t_may s) (t_requested s) b t (t_complete s) (t_auth s);
  SetSyncRequested b s :=
    MkService (t_handles s) (t_may s) b (t_everything s) (t_chosen s) (t_complete s) (t_auth s);
  SetFirstSetupComplete s :=
    MkService (t_handles s) (t_may s) (t_requested s) (t_everything s) (t_chosen s) true (t_auth s);
  GetSetupInProgressHandle s :=
    MkService (S (t_handles s)) (t_may s) (t_requested s) (t_everything s) (t_chosen s)
      (t_complete s) (t_auth s);
  ReleaseHandle s :=
    MkService (Nat.pred (t_handles s)) (t_may s) (t_requested s) (t_everything s) (t_chosen s)
      (t_complete s) (t_auth s);
}.

#[export] Instance laws : SyncServiceLaws.
Proof.
  refine {| handles := t_handles : SyncService → nat; may_start := t_may : SyncService → bool;
    selected := t_chosen : SyncService → gset ModelType |}; try done.
  intros s f [->| ->]; done.
Defined.

(** Sync is off and the user has chosen bookmarks only; and a user who may not
    sync and has chosen nothing. *)
Definition fresh (may : bool) (chosen : gset Z) : SyncSetupService :=
  SyncSetupService_new (MkService 0 may false false chosen false AUTH_NONE : SyncService).

Lemma SetDataTypeEnabled_effect_witness :
  blocker_ok 0 (fresh true {[0]}) ∧
  ∃ s', SetDataTypeEnabled (PASSWORDS : ModelType) true (fresh true {[0]}) = Ok (tt, s') ∧
    CanSyncFeatureStart (sync_service_ s') = true ∧
    bool_decide (selected (sync_service_ s') = ({[0; 2]} : gset Z)) = true.
Proof.
  split; [reflexivity|].
  destruct (SetDataTypeEnabled_effect (SL := laws) PASSWORDS true 0 (fresh true {[0]}) ltac:(reflexivity))
    as (s' & Hrun & _ & _ & Hsel & _ & Hstart).
  exists s'. split; [exact Hrun|]. rewrite Hsel, Hstart. vm_compute. split; reflexivity.
Defined.

Lemma CommitChanges_releases_witness :
  blocker_ok 0 (fresh true {[0]}) ∧
  ∃ s', CommitChanges (fresh true {[0]}) = Ok (tt, s') ∧ HasUncommittedChanges s' = false.
Proof.
  split; [reflexivity|].
  destruct (CommitChanges_releases (SL := laws) 0 (fresh true {[0]}) ltac:(reflexivity)) as (s' & Hrun & _ & _ & H).
  exists s'. split; [exact Hrun|exact H].
Defined.

Lemma SetSyncEnabled_never_returns_witness :
  ∃ s', SetSyncEnabled_rec 1000 true (fresh false ∅) = Ok (None, s').
Proof. apply (SetSyncEnabled_never_returns (SL := laws) 1000 0); reflexivity. Defined.
End ToySync.
