(* ===== verification/WebUIData.v ===== *)
(** * The data of WebUI pages

    src/web/webui/url_data_manager_ios.cc, url_data_source_ios_impl.cc and
    url_data_manager_ios_backend.mm: pages of the application get their data
    from sources, objects counted by reference that two threads share.  The IO
    thread keeps the sources by name and the jobs that wait; a source is asked
    for a MIME type and for data on the UI thread, and must be deleted there.
    The tasks that wait on either thread are part of the state and run in the
    order they were posted.  One step is one task, or one call of the network
    code or of a source.  References are counted where a scoped_refptr that
    outlives the statement takes or drops one. *)

From S2P Require Import Prelude.
From S2P Require Import WebEnv.

(** Addresses of sources and jobs. *)
Notation srcid := positive.
Notation jobid := positive.

(** base::subtle::RefCountedThreadSafeBase: [rc_Release] says whether the
    count became 0.  url/gurl.h: the possibly invalid spec and where the path
    begins in it.  The schemes an embedder adds. *)
Class WebUIEnv `{ENV : WebEnv} := {
  ref_counter : Type;
  rc_new : ref_counter;
  rc_AddRef : ref_counter → ref_counter;
  rc_Release : ref_counter → ref_counter * bool;
  rc_value : ref_counter → nat;
  possibly_invalid_spec : GURL → string;
  CountCharactersBeforePath : GURL → Z;
  AdditionalWebUISchemes : list string;
}.
Class WebUIEnvLaws `{WEBUI : WebUIEnv} : Prop := {
  law_rc_new : rc_value rc_new = 0%nat;
  law_rc_AddRef c : rc_value (rc_AddRef c) = S (rc_value c);
  law_rc_Release c n : rc_value c = S n →
    rc_value (rc_Release c).1 = n ∧ (rc_Release c).2 = (n =? 0)%nat;
}.

Section data.
Context `{WEBUI : WebUIEnv}.

(** The virtual functions of a URLDataSourceIOS that answer at once. *)
Record URLDataSourceIOS := MkDelegate {
  ShouldReplaceExistingSource : bool;
  ShouldServiceRequest : GURL → bool;
  GetMimeType : string → string;
  AllowCaching : bool;
  GetContentSecurityPolicyObjectSrc : string;
  ShouldDenyXFrameOptions : bool;
  IsGzipped : string → bool;
}.

(** URLDataSourceIOSImpl: its reference count, whether [backend_] is set, and
    whether the virtual GetReplacements gives any. *)
Record URLDataSourceIOSImpl := MkSource {
  source_name_ : string;
  source_ : URLDataSourceIOS;
  GetReplacements : bool;
  ref_count : ref_counter;
  source_backend_ : bool;
}.

(** What the network code was given by a read. *)
Inductive Read := ReadBytes (s : string) | ReadFailed.

(** URLRequestChromeJob.  [weak_factory_] counts the times the weak pointers
    were invalidated; [headers_complete], [start_failed] and [reads] are what
    the job has reported; [pending_buf_] is the size of the buffer. *)
Record URLRequestChromeJob := MkJob {
  request_ : option GURL;
  job_data_ : option string;
  data_offset_ : Z;
  pending_buf_ : option Z;
  mime_type_ : string;
  allow_caching_ : bool;
  add_content_security_policy_ : bool;
  content_security_policy_object_source_ : string;
  content_security_policy_frame_source_ : string;
  deny_xframe_options_ : bool;
  is_gzipped_ : bool;
  send_content_type_header_ : bool;
  job_source_ : option srcid;
  weak_factory_ : Z;
  job_backend_ : bool;
  start_failed : bool;
  headers_complete : bool;
  reads : list Read;
}.
Definition URLRequestChromeJob_new (request : option GURL) : URLRequestChromeJob :=
  MkJob request None 0 None "" true true "object-src 'none';" "frame-src 'none';" true false false
    None 0 false false false [].

(** Tasks; [weak] is the pointer to the job that [MimeTypeAvailable] is bound
    to. *)
Inductive UIThreadTask :=
  | GetMimeTypeOnUITask (s : srcid) (path : string) (job : jobid) (weak : Z)
  | CallStartRequestTask (s : srcid) (path : string) (request_id : Z)
  | DeleteDataSourcesTask.
Inductive IOThreadTask :=
  | AddDataSourceOnIOThreadTask (s : srcid)
  | MimeTypeAvailableTask (job : jobid) (weak : Z) (s : srcid) (mime_type : string)
  | SendResponseOnIOThreadTask (s : srcid) (request_id : Z) (bytes : option string)
  | DeleteBackendTask.

(** url_data_manager_ios_backend_ of the BrowserState. *)
Inductive BackendState : Set := BackendNotCreated | BackendAlive | BackendDeleted.
#[global] Instance BackendState_eq_dec : EqDecision BackendState.
Proof. solve_decision. Defined.

(** The objects of a browser state, with the static list of the sources to
    delete, the waiting tasks and the callbacks the sources hold.  [deleted]
    and [started] record the deletions, with whether they were the UI
    thread's, and the calls of StartDataRequest. *)
Record World := MkWorld {
  w_sources : gmap srcid URLDataSourceIOSImpl;
  next_source : srcid;
  scheduled_ : option (list srcid);
  deleted : list (srcid * bool);
  ui_queue : list UIThreadTask;
  io_queue : list IOThreadTask;
  callbacks : list (srcid * Z);
  started : list (srcid * Z);
  w_browser_state : bool;
  w_backend : BackendState;
  data_sources_ : gmap string srcid;
  pending_requests_ : list (Z * jobid);
  next_request_id_ : Z;
  w_jobs : gmap jobid URLRequestChromeJob;
  next_job : jobid;
}.
Definition World_new : World :=
  MkWorld ∅ 1 None [] [] [] [] [] true BackendNotCreated ∅ [] 0 ∅ 1.
End data.

Section updates.
Context `{WEBUI : WebUIEnv}.
Implicit Types (w : World) (j : URLRequestChromeJob) (s : URLDataSourceIOSImpl).

Definition with_sources x w : World := MkWorld x (next_source w) (scheduled_ w) (deleted w)
  (ui_queue w) (io_queue w) (callbacks w) (started w) (w_browser_state w) (w_backend w)
  (data_sources_ w) (pending_requests_ w) (next_request_id_ w) (w_jobs w) (next_job w).
Definition with_next_source x w : World := MkWorld (w_sources w) x (scheduled_ w) (deleted w)
  (ui_queue w) (io_queue w) (callbacks w) (started w) (w_browser_state w) (w_backend w)
  (data_sources_ w) (pending_requests_ w) (next_request_id_ w) (w_jobs w) (next_job w).
Definition with_deletion scheduled log w : World := MkWorld (w_sources w) (next_source w) scheduled
  log (ui_queue w) (io_queue w) (callbacks w) (started w) (w_browser_state w) (w_backend w)
  (data_sources_ w) (pending_requests_ w) (next_request_id_ w) (w_jobs w) (next_job w).
Definition with_ui x w : World := MkWorld (w_sources w) (next_source w) (scheduled_ w) (deleted w)
  x (io_queue w) (callbacks w) (started w) (w_browser_state w) (w_backend w)
  (data_sources_ w) (pending_requests_ w) (next_request_id_ w) (w_jobs w) (next_job w).
Definition with_io x w : World := MkWorld (w_sources w) (next_source w) (scheduled_ w) (deleted w)
  (ui_queue w) x (callbacks w) (started w) (w_browser_state w) (w_backend w)
  (data_sources_ w) (pending_requests_ w) (next_request_id_ w) (w_jobs w) (next_job w).
Definition with_callbacks x y w : World := MkWorld (w_sources w) (next_source w) (scheduled_ w)
  (deleted w) (ui_queue w) (io_queue w) x y (w_browser_state w) (w_backend w)
  (data_sources_ w) (pending_requests_ w) (next_request_id_ w) (w_jobs w) (next_job w).
Definition with_backend browser_state backend w : World := MkWorld (w_sources w) (next_source w)
  (scheduled_ w) (deleted w) (ui_queue w) (io_queue w) (callbacks w) (started w) browser_state
  backend (data_sources_ w) (pending_requests_ w) (next_request_id_ w) (w_jobs w) (next_job w).
Definition with_data_sources x w : World := MkWorld (w_sources w) (next_source w) (scheduled_ w)
  (deleted w) (ui_queue w) (io_queue w) (callbacks w) (started w) (w_browser_state w) (w_backend w)
  x (pending_requests_ w) (next_request_id_ w) (w_jobs w) (next_job w).
Definition with_pending x next w : World := MkWorld (w_sources w) (next_source w) (scheduled_ w)
  (deleted w) (ui_queue w) (io_queue w) (callbacks w) (started w) (w_browser_state w) (w_backend w)
  (data_sources_ w) x next (w_jobs w) (next_job w).
Definition with_jobs x next w : World := MkWorld (w_sources w) (next_source w) (scheduled_ w)
  (deleted w) (ui_queue w) (io_queue w) (callbacks w) (started w) (w_browser_state w) (w_backend w)
  (data_sources_ w) (pending_requests_ w) (next_request_id_ w) x next.

Definition with_ref_count n s : URLDataSourceIOSImpl :=
  MkSource (source_name_ s) (source_ s) (GetReplacements s) n (source_backend_ s).
Definition with_source_backend b s : URLDataSourceIOSImpl :=
  MkSource (source_name_ s) (source_ s) (GetReplacements s) (ref_count s) b.

(** The data of a job and what was read of it. *)
Definition with_data data offset buf rs j : URLRequestChromeJob :=
  MkJob (request_ j) data offset buf (mime_type_ j) (allow_caching_ j)
    (add_content_security_policy_ j) (content_security_policy_object_source_ j)
    (content_security_policy_frame_source_ j) (deny_xframe_options_ j) (is_gzipped_ j)
    (send_content_type_header_ j) (job_source_ j) (weak_factory_ j) (job_backend_ j)
    (start_failed j) (headers_complete j) rs.
Definition with_mime mime complete j : URLRequestChromeJob :=
  MkJob (request_ j) (job_data_ j) (data_offset_ j) (pending_buf_ j) mime (allow_caching_ j)
    (add_content_security_policy_ j) (content_security_policy_object_source_ j)
    (content_security_policy_frame_source_ j) (deny_xframe_options_ j) (is_gzipped_ j)
    (send_content_type_header_ j) (job_source_ j) (weak_factory_ j) (job_backend_ j)
    (start_failed j) complete (reads j).
Definition with_job_source src j : URLRequestChromeJob :=
  MkJob (request_ j) (job_data_ j) (data_offset_ j) (pending_buf_ j) (mime_type_ j)
    (allow_caching_ j) (add_content_security_policy_ j) (content_security_policy_object_source_ j)
    (content_security_policy_frame_source_ j) (deny_xframe_options_ j) (is_gzipped_ j)
    (send_content_type_header_ j) src (weak_factory_ j) (job_backend_ j)
    (start_failed j) (headers_complete j) (reads j).
(** The setters StartRequest calls. *)
Definition with_options caching csp object_src frame_src deny gzipped content_type j :
    URLRequestChromeJob :=
  MkJob (request_ j) (job_data_ j) (data_offset_ j) (pending_buf_ j) (mime_type_ j) caching csp
    object_src frame_src deny gzipped content_type (job_source_ j) (weak_factory_ j)
    (job_backend_ j) (start_failed j) (headers_complete j) (reads j).
Definition with_life weak backend failed j : URLRequestChromeJob :=
  MkJob (request_ j) (job_data_ j) (data_offset_ j) (pending_buf_ j) (mime_type_ j)
    (allow_caching_ j) (add_content_security_policy_ j) (content_security_policy_object_source_ j)
    (content_security_policy_frame_source_ j) (deny_xframe_options_ j) (is_gzipped_ j)
    (send_content_type_header_ j) (job_source_ j) weak backend failed (headers_complete j)
    (reads j).
End updates.
Notation WM := (M World).
Notation JM := (M URLRequestChromeJob).

(** ** Sources *)
Section operations.
Context `{WEBUI : WebUIEnv}.

Definition the_world : WM World := gets (λ w : World, w).
Definition the_source (s : srcid) : WM URLDataSourceIOSImpl :=
  w ← the_world; not_null (w_sources w !! s).
Definition put_source (s : srcid) (x : URLDataSourceIOSImpl) : WM unit :=
  modify (λ w, with_sources (<[s := x]> (w_sources w)) w).
Definition the_job (j : jobid) : WM URLRequestChromeJob :=
  w ← the_world; not_null (w_jobs w !! j).
Definition put_job (j : jobid) (x : URLRequestChromeJob) : WM unit :=
  modify (λ w, with_jobs (<[j := x]> (w_jobs w)) (next_job w) w).
(** A method of the job itself. *)
Definition on_job {A} (j : jobid) (m : JM A) : WM A :=
  x ← the_job j;
  r ← lift_res (m x);
  put_job j r.2;;
  mret r.1.

Definition post_ui (t : UIThreadTask) : WM unit := modify (λ w, with_ui (ui_queue w ++ [t]) w).
Definition post_io (t : IOThreadTask) : WM unit := modify (λ w, with_io (io_queue w ++ [t]) w).

Definition URLDataSourceIOSImpl_new (name : string) (source : URLDataSourceIOS)
    (replacements : bool) : WM srcid :=
  w ← the_world;
  put_source (next_source w) (MkSource name source replacements rc_new false);;
  modify (with_next_source (Pos.succ (next_source w)));;
  mret (next_source w).

(** [delete data_source], on the UI thread or not. *)
Definition delete_source (on_ui : bool) (s : srcid) : WM unit :=
  the_source s;;
  modify (λ w, with_deletion (scheduled_ w) (deleted w ++ [(s, on_ui)])
    (with_sources (delete s (w_sources w)) w)).

(** ** URLDataManagerIOS *)

Definition DeleteDataSource (on_ui : bool) (s : srcid) : WM unit :=
  if on_ui then delete_source true s
  else
    w ← the_world;
    let l := default [] (scheduled_ w) in
    let schedule_delete := bool_decide (l = []) in
    modify (with_deletion (Some (l ++ [s])) (deleted w));;
    whenM schedule_delete (post_ui DeleteDataSourcesTask).

Fixpoint delete_all (l : list srcid) : WM unit :=
  match l with
  | [] => mret tt
  | s :: l => delete_source true s;; delete_all l
  end.

Definition DeleteDataSources : WM unit :=
  w ← the_world;
  match scheduled_ w with
  | None => mret tt
  | Some sources => modify (with_deletion (Some []) (deleted w));; delete_all sources
  end.

Definition IsScheduledForDeletion (s : srcid) (w : World) : bool :=
  match scheduled_ w with
  | None => false
  | Some l => bool_decide (s ∈ l)
  end.

Definition AddRef (s : srcid) : WM unit :=
  x ← the_source s;
  put_source s (with_ref_count (rc_AddRef (ref_count x)) x).
(** With DeleteURLDataSourceIOS, the trait of the class. *)
Definition Release (on_ui : bool) (s : srcid) : WM unit :=
  x ← the_source s;
  put_source s (with_ref_count (rc_Release (ref_count x)).1 x);;
  whenM (rc_Release (ref_count x)).2 (DeleteDataSource on_ui s).
Definition Release_opt (on_ui : bool) (s : option srcid) : WM unit :=
  match s with Some s => Release on_ui s | None => mret tt end.

(** AddDataSource of a source, and of one created for it. *)
Definition AddDataSource_impl (s : srcid) : WM unit :=
  AddRef s;;
  post_io (AddDataSourceOnIOThreadTask s).
Definition AddDataSource_new (name : string) (source : URLDataSourceIOS) (replacements : bool) :
    WM unit :=
  s ← URLDataSourceIOSImpl_new name source replacements;
  AddDataSource_impl s.

(** ** URLDataManagerIOSBackend *)

Definition set_source_backend (s : srcid) (b : bool) : WM unit :=
  x ← the_source s;
  put_source s (with_source_backend b x).

Definition AddDataSource (s : srcid) : WM unit :=
  x ← the_source s;
  w ← the_world;
  let old := data_sources_ w !! source_name_ x in
  if bool_decide (is_Some old) && negb (ShouldReplaceExistingSource (source_ x)) then mret tt
  else
    match old with Some i => set_source_backend i false | None => mret tt end;;
    AddRef s;;
    modify (λ w, with_data_sources (<[source_name_ x := s]> (data_sources_ w)) w);;
    Release_opt false old;;
    set_source_backend s true.

(** The constructor; [shared] is the delegate SharedResourcesDataSourceIOS
    creates, with its name. *)
Definition URLDataManagerIOSBackend_new (shared : string * URLDataSourceIOS) : WM unit :=
  w ← the_world;
  modify (with_backend (w_browser_state w) BackendAlive);;
  modify (with_pending [] 0);;
  source_impl ← URLDataSourceIOSImpl_new shared.1 shared.2 false;
  AddDataSource source_impl.

(** BrowserState::GetURLDataManagerIOSBackendOnIOThread: the browser state and
    its backend must not be deleted yet. *)
Definition GetURLDataManagerIOSBackendOnIOThread (shared : string * URLDataSourceIOS) : WM unit :=
  w ← the_world;
  match w_backend w with
  | BackendNotCreated =>
      if w_browser_state w then URLDataManagerIOSBackend_new shared else fail NullDeref
  | BackendAlive => mret tt
  | BackendDeleted => fail NullDeref
  end.

(** ~BrowserState, where it deletes the backend. *)
Definition BrowserState_destroy : WM unit :=
  w ← the_world;
  modify (with_backend false (w_backend w));;
  whenM (bool_decide (w_backend w = BackendAlive)) (post_io DeleteBackendTask).

Fixpoint for_sources (l : list srcid) (f : srcid → WM unit) : WM unit :=
  match l with
  | [] => mret tt
  | s :: l => f s;; for_sources l f
  end.

(** The destructor; [data_sources_.clear()] releases what the map holds. *)
Definition URLDataManagerIOSBackend_destroy : WM unit :=
  w ← the_world;
  let l := (map_to_list (data_sources_ w)).*2 in
  for_sources l (λ s, set_source_backend s false);;
  modify (with_data_sources ∅);;
  for_sources l (Release false);;
  w ← the_world;
  modify (with_backend (w_browser_state w) BackendDeleted).

Definition HasPendingJob (job : jobid) (w : World) : bool :=
  existsb (λ p : Z * jobid, bool_decide (p.2 = job)) (pending_requests_ w).

Fixpoint erase_job (job : jobid) (l : list (Z * jobid)) : list (Z * jobid) :=
  match l with
  | [] => []
  | p :: l => if bool_decide (p.2 = job) then l else p :: erase_job job l
  end.
Definition RemoveRequest (job : jobid) : WM unit :=
  modify (λ w, with_pending (erase_job job (pending_requests_ w)) (next_request_id_ w) w).

(** std::map of requests, in the order of the ids. *)
Fixpoint pending_insert (id : Z) (job : jobid) (l : list (Z * jobid)) : list (Z * jobid) :=
  match l with
  | [] => [(id, job)]
  | p :: l' => if id <? p.1 then (id, job) :: l
               else if id =? p.1 then l else p :: pending_insert id job l'
  end.
Fixpoint pending_find (id : Z) (l : list (Z * jobid)) : option jobid :=
  match l with
  | [] => None
  | p :: l => if p.1 =? id then Some p.2 else pending_find id l
  end.
Definition pending_erase (id : Z) (l : list (Z * jobid)) : list (Z * jobid) :=
  filter (λ p, p.1 ≠ id) l.

Definition CheckURLIsValid (url : GURL) : WM bool :=
  DCHECK (IsAppSpecificURL url || bool_decide (url_scheme url ∈ AdditionalWebUISchemes));;
  if negb (is_valid url) then NOTREACHED else mret true.

(** The path is left as it is, empty, when there is none. *)
Definition URLToRequestPath (url : GURL) : string :=
  let offset := CountCharactersBeforePath url + 1 in
  if offset <? Z.of_nat (String.length (possibly_invalid_spec url)) then
    string_drop (Z.to_nat offset) (possibly_invalid_spec url)
  else "".

Definition GetDataSourceFromURL (url : GURL) (w : World) : option srcid :=
  match data_sources_ w !! url_host url with
  | Some s => Some s
  | None => data_sources_ w !! (url_scheme url +:+ "://")
  end.

Definition StartRequest (url : GURL) (job : jobid) : WM bool :=
  ok ← CheckURLIsValid url;
  if negb ok then mret false else
  w ← the_world;
  match GetDataSourceFromURL url w with
  | None => mret false
  | Some s =>
      x ← the_source s;
      if negb (ShouldServiceRequest (source_ x) url) then mret false else
      let path := URLToRequestPath url in
      let request_id := next_request_id_ w in
      next ← int_add request_id 1;
      modify (with_pending (pending_insert request_id job (pending_requests_ w)) next);;
      j ← the_job job;
      put_job job (with_options (AllowCaching (source_ x)) true
        (GetContentSecurityPolicyObjectSrc (source_ x)) "frame-src 'none';"
        (ShouldDenyXFrameOptions (source_ x)) (IsGzipped (source_ x) path) false j);;
      AddRef s;;
      post_ui (GetMimeTypeOnUITask s path job (weak_factory_ j));;
      AddRef s;;
      post_ui (CallStartRequestTask s path request_id);;
      mret true
  end.

(** ** URLRequestChromeJob *)

(** [ReadRawDataComplete] ends a read that was pending. *)
Definition ReadRawDataComplete (r : Read) : JM unit :=
  modify (λ j, with_data (job_data_ j) (data_offset_ j) (pending_buf_ j) (reads j ++ [r]) j).

Definition slen (s : string) : Z := Z.of_nat (String.length s).

(** Returns the count, and what was written to the buffer. *)
Definition CompleteRead (buf_size : Z) : JM (Z * string) :=
  j ← gets (λ j : URLRequestChromeJob, j);
  not_null (request_ j);;
  data ← not_null (job_data_ j);
  let remaining := to_int32 (to_size_t (slen data - data_offset_ j)) in
  let buf_size := if remaining <? buf_size then remaining else buf_size in
  if 0 <? buf_size then
    offset ← int_add (data_offset_ j) buf_size;
    modify (with_data (job_data_ j) offset (pending_buf_ j) (reads j));;
    mret (buf_size, string_take (Z.to_nat buf_size) (string_drop (Z.to_nat (data_offset_ j)) data))
  else mret (buf_size, "").

Definition job_DataAvailable (bytes : option string) : JM unit :=
  match bytes with
  | Some data =>
      modify (λ j, with_data (Some data) (data_offset_ j) (pending_buf_ j) (reads j) j);;
      j ← gets (λ j : URLRequestChromeJob, j);
      match pending_buf_ j with
      | Some size =>
          r ← CompleteRead size;
          modify (λ j, with_data (job_data_ j) (data_offset_ j) None (reads j) j);;
          ReadRawDataComplete (ReadBytes r.2)
      | None => mret tt
      end
  | None => ReadRawDataComplete ReadFailed
  end.

(** [None] stands for net::ERR_IO_PENDING. *)
Definition ReadRawData (buf_size : Z) : JM (option (Z * string)) :=
  j ← gets (λ j : URLRequestChromeJob, j);
  match job_data_ j with
  | None =>
      DCHECK (negb (bool_decide (is_Some (pending_buf_ j))));;
      modify (with_data None (data_offset_ j) (Some buf_size) (reads j));;
      mret None
  | Some _ => Some <$> CompleteRead buf_size
  end.

Definition Start (shared : string * URLDataSourceIOS) (job : jobid) : WM unit :=
  j ← the_job job;
  match request_ j with
  | None => mret tt
  | Some url =>
      GetURLDataManagerIOSBackendOnIOThread shared;;
      put_job job (with_life (weak_factory_ j) true (start_failed j) j);;
      ok ← StartRequest url job;
      whenM (negb ok)
        (j ← the_job job; put_job job (with_life (weak_factory_ j) (job_backend_ j) true j))
  end.

Definition Kill (job : jobid) : WM unit :=
  j ← the_job job;
  put_job job (with_life (weak_factory_ j + 1) (job_backend_ j) (start_failed j) j);;
  whenM (job_backend_ j) (RemoveRequest job).

(** The destructor; the members go after its body. *)
Definition URLRequestChromeJob_destroy (job : jobid) : WM unit :=
  j ← the_job job;
  w ← the_world;
  whenM (job_backend_ j) (CHECK (negb (HasPendingJob job w)));;
  modify (λ w, with_jobs (delete job (w_jobs w)) (next_job w) w);;
  Release_opt false (job_source_ j).

Definition job_GetMimeType (j : URLRequestChromeJob) : bool * string :=
  (negb (bool_decide (mime_type_ j = "")), mime_type_ j).

Definition kChromeURLContentSecurityPolicyHeaderBase : string :=
  "Content-Security-Policy: script-src chrome://resources 'self' 'unsafe-eval'; ".
Definition kChromeURLXFrameOptionsHeader : string := "X-Frame-Options: DENY".
(** The status line and the headers added to it. *)
Definition GetResponseInfo (j : URLRequestChromeJob) : list string :=
  "HTTP/1.1 200 OK" ::
  (if add_content_security_policy_ j then
     [kChromeURLContentSecurityPolicyHeaderBase +:+ content_security_policy_object_source_ j +:+
      content_security_policy_frame_source_ j] else []) ++
  (if deny_xframe_options_ j then [kChromeURLXFrameOptionsHeader] else []) ++
  (if is_gzipped_ j then ["Content-Encoding: gzip"] else []) ++
  (if negb (allow_caching_ j) then ["Cache-Control: no-cache"] else []) ++
  (if send_content_type_header_ j && negb (bool_decide (mime_type_ j = "")) then
     ["Content-Type:" +:+ mime_type_ j] else []).

Inductive SourceStream := BaseStream | GzipStream (s : SourceStream) | I18nStream (s : SourceStream).
Definition SetUpSourceStream (job : jobid) : WM SourceStream :=
  j ← the_job job;
  let stream := if is_gzipped_ j then GzipStream BaseStream else BaseStream in
  match job_source_ j with
  | None => mret stream
  | Some s => x ← the_source s; mret (if GetReplacements x then I18nStream stream else stream)
  end.

Definition MimeTypeAvailable (job : jobid) (s : srcid) (mime_type : string) : WM unit :=
  j ← the_job job;
  put_job job (with_mime mime_type (headers_complete j) j);;
  whenM (bool_decide (mime_type = "text/html"))
    (AddRef s;;
     j ← the_job job;
     put_job job (with_job_source (Some s) j);;
     Release_opt false (job_source_ j));;
  j ← the_job job;
  put_job job (with_mime (mime_type_ j) true j).

Definition DataAvailable (request_id : Z) (bytes : option string) : WM unit :=
  w ← the_world;
  match pending_find request_id (pending_requests_ w) with
  | None => mret tt
  | Some job =>
      modify (with_pending (pending_erase request_id (pending_requests_ w)) (next_request_id_ w));;
      on_job job (job_DataAvailable bytes)
  end.

(** ** Responses *)

Definition SendResponse (s : srcid) (request_id : Z) (bytes : option string) : WM unit :=
  w ← the_world;
  if IsScheduledForDeletion s w then mret tt
  else AddRef s;; post_io (SendResponseOnIOThreadTask s request_id bytes).

Definition SendResponseOnIOThread (s : srcid) (request_id : Z) (bytes : option string) : WM unit :=
  x ← the_source s;
  whenM (source_backend_ x) (DataAvailable request_id bytes).

(** On the UI thread: StartDataRequest is given a callback that holds the
    source. *)
Definition CallStartRequest (s : srcid) (path : string) (request_id : Z) : WM unit :=
  AddRef s;;
  modify (λ w, with_callbacks (callbacks w ++ [(s, request_id)]) (started w ++ [(s, request_id)]) w).

Definition GetMimeTypeOnUI (s : srcid) (path : string) (job : jobid) (weak : Z) : WM unit :=
  x ← the_source s;
  AddRef s;;
  post_io (MimeTypeAvailableTask job weak s (GetMimeType (source_ x) path)).

(** ** Running tasks *)

(** A task drops what it is bound to after it ran. *)
Definition run_ui_thread_task (t : UIThreadTask) : WM unit :=
  match t with
  | GetMimeTypeOnUITask s path job weak => GetMimeTypeOnUI s path job weak;; Release true s
  | CallStartRequestTask s path request_id => CallStartRequest s path request_id;; Release true s
  | DeleteDataSourcesTask => DeleteDataSources
  end.

Definition weak_valid (job : jobid) (weak : Z) (w : World) : bool :=
  match w_jobs w !! job with Some j => weak_factory_ j =? weak | None => false end.

Definition run_io_thread_task (shared : string * URLDataSourceIOS) (t : IOThreadTask) : WM unit :=
  match t with
  | AddDataSourceOnIOThreadTask s =>
      GetURLDataManagerIOSBackendOnIOThread shared;; AddDataSource s;; Release false s
  | MimeTypeAvailableTask job weak s mime_type =>
      w ← the_world;
      whenM (weak_valid job weak w) (MimeTypeAvailable job s mime_type);;
      Release false s
  | SendResponseOnIOThreadTask s request_id bytes =>
      SendResponseOnIOThread s request_id bytes;; Release false s
  | DeleteBackendTask => URLDataManagerIOSBackend_destroy
  end.

Definition run_ui : WM unit :=
  w ← the_world;
  match ui_queue w with
  | [] => mret tt
  | t :: q => modify (with_ui q);; run_ui_thread_task t
  end.
Definition run_io (shared : string * URLDataSourceIOS) : WM unit :=
  w ← the_world;
  match io_queue w with
  | [] => mret tt
  | t :: q => modify (with_io q);; run_io_thread_task shared t
  end.

(** ** What happens from outside *)

Inductive Event :=
  | EvAddDataSource (name : string) (source : URLDataSourceIOS) (replacements : bool)
  | EvRunUI
  | EvRunIO
  | EvCreateJob (request : option GURL)
  | EvStart (job : jobid)
  | EvRead (job : jobid) (buf_size : Z)
  | EvKill (job : jobid)
  | EvOrphan (job : jobid)
  | EvRunCallback (n : nat) (on_ui : bool) (bytes : option string)
  | EvDropCallback (n : nat) (on_ui : bool)
  | EvSendResponse (s : srcid) (request_id : Z) (bytes : option string)
  | EvDestroyBrowserState.

(** The source's callback goes away after it was run, or unused. *)
Definition take_callback (n : nat) : WM (srcid * Z) :=
  w ← the_world;
  c ← not_null (callbacks w !! n);
  modify (with_callbacks (delete n (callbacks w)) (started w));;
  mret c.

Definition log_read (r : option (Z * string)) : JM unit :=
  match r with Some r => ReadRawDataComplete (ReadBytes r.2) | None => mret tt end.

Definition run_event (shared : string * URLDataSourceIOS) (e : Event) : WM unit :=
  match e with
  | EvAddDataSource name source replacements => AddDataSource_new name source replacements
  | EvRunUI => run_ui
  | EvRunIO => run_io shared
  | EvCreateJob request =>
      modify (λ w, with_jobs (<[next_job w := URLRequestChromeJob_new request]> (w_jobs w))
        (Pos.succ (next_job w)) w)
  | EvStart job => Start shared job
  | EvRead job buf_size => on_job job (r ← ReadRawData buf_size; log_read r)
  | EvKill job => Kill job
  | EvOrphan job => Kill job;; URLRequestChromeJob_destroy job
  | EvRunCallback n on_ui bytes =>
      c ← take_callback n;
      SendResponse c.1 c.2 bytes;;
      Release on_ui c.1
  | EvDropCallback n on_ui => c ← take_callback n; Release on_ui c.1
  | EvSendResponse s request_id bytes => SendResponse s request_id bytes
  | EvDestroyBrowserState => BrowserState_destroy
  end.

Definition is_add (t : IOThreadTask) : bool :=
  match t with AddDataSourceOnIOThreadTask _ => true | _ => false end.

(** When each may happen: the network code starts a job once and reads while
    no read is pending; the requests of a browser state end before it, and it
    does not end while a source is being added to a backend that was not
    created; a source answers what it was asked. *)
Definition legal (e : Event) (w : World) : Prop :=
  match e with
  | EvAddDataSource _ _ _ | EvCreateJob _ => w_browser_state w = true
  | EvRunUI | EvRunIO => True
  | EvStart job =>
      w_browser_state w = true ∧
      ∃ j, w_jobs w !! job = Some j ∧ job_backend_ j = false ∧
        (∀ url, request_ j = Some url → is_valid url = true ∧
          (IsAppSpecificURL url = true ∨ url_scheme url ∈ AdditionalWebUISchemes)) ∧
        next_request_id_ w < INT_MAX
  | EvRead job _ => ∃ j, w_jobs w !! job = Some j ∧ pending_buf_ j = None
  | EvKill job | EvOrphan job => is_Some (w_jobs w !! job)
  | EvRunCallback n _ _ | EvDropCallback n _ => is_Some (callbacks w !! n)
  | EvSendResponse s request_id _ => is_Some (w_sources w !! s) ∧ (s, request_id) ∈ started w
  | EvDestroyBrowserState =>
      w_browser_state w = true ∧ w_jobs w = ∅ ∧
      (w_backend w = BackendNotCreated → existsb is_add (io_queue w) = false)
  end.
End operations.

(** A step of either thread: what may happen, run to its end. *)
Definition webui_step `{WEBUI : WebUIEnv} (shared : string * URLDataSourceIOS) (w : World)
    (e : Event) (w' : World) : Prop :=
  legal e w ∧ run_event shared e w = Ok (tt, w').
Definition webui_reachable `{WEBUI : WebUIEnv} (shared : string * URLDataSourceIOS) :
    World → Prop :=
  reachable (webui_step shared) World_new.
