(* ===== verification/WebUIDataSource.v ===== *)
(** * The sources of strings and resources

    src/web/webui/web_ui_ios_data_source_impl.mm and url_data_source_ios.mm:
    the delegate most pages of the application use.  It answers from the
    resources of the application, or with its strings as JSON.  The strings
    are a dictionary of //base, the resources belong to the embedder. *)

From S2P Require Import Prelude.
From S2P Require Import WebEnv.
From S2P Require Import WebUIData.

(** base::DictionaryValue, as far as it is used: an entry is a string or a
    boolean. *)
Inductive DictEntry := DictString (s : string) | DictString16 (s : string16) | DictBool (b : bool).
Notation Dictionary := (gmap string DictEntry).

(** The embedder's client and the functions of //base and //ui. *)
Class WebUIClient := {
  GetLocalizedString : Z → string16;
  GetDataResourceBytes : Z → option string;
  LoadTimeDataDefaults : Dictionary;
  UTF16ToUTF8 : string16 → string;
  TemplateReplacementsFromDictionaryValue : Dictionary → gmap string string → gmap string string;
  AppendJsonJS : Dictionary → string;
  EndsWithInsensitive : string → string → bool;
}.

Section source.
Context `{WEBUI : WebUIEnv} {CLIENT : WebUIClient}.

(** URLDataSourceIOS, where a class does not override it. *)
Definition URLDataSourceIOS_defaults (GetMimeType : string → string) : URLDataSourceIOS :=
  MkDelegate true IsAppSpecificURL GetMimeType true "object-src 'none';" true (λ _, false).

(** The fields of WebUIIOSDataSourceImpl. *)
Record WebUIIOSDataSourceImpl := MkWebUISource {
  impl_source_name_ : string;
  default_resource_ : Z;
  json_path_ : string;
  path_to_idr_map_ : gmap string Z;
  replacements_ : gmap string string;
  localized_strings_ : Dictionary;
  deny_xframe_options_ : bool;
  load_time_data_defaults_added_ : bool;
  replace_existing_source_ : bool;
  use_gzip_ : bool;
}.

(** The constructor does not set [use_gzip_]: it is what the memory had. *)
Definition WebUIIOSDataSourceImpl_new (source_name : string) (memory : bool) :
    WebUIIOSDataSourceImpl :=
  MkWebUISource source_name (-1) "" ∅ ∅ ∅ true false true memory.

Implicit Types (s : WebUIIOSDataSourceImpl).

Definition with_strings localized replacements s : WebUIIOSDataSourceImpl :=
  MkWebUISource (impl_source_name_ s) (default_resource_ s) (json_path_ s) (path_to_idr_map_ s)
    replacements localized (deny_xframe_options_ s) (load_time_data_defaults_added_ s)
    (replace_existing_source_ s) (use_gzip_ s).
Definition with_resources json default paths s : WebUIIOSDataSourceImpl :=
  MkWebUISource (impl_source_name_ s) default json paths (replacements_ s) (localized_strings_ s)
    (deny_xframe_options_ s) (load_time_data_defaults_added_ s) (replace_existing_source_ s)
    (use_gzip_ s).
Definition with_flags deny added gzip s : WebUIIOSDataSourceImpl :=
  MkWebUISource (impl_source_name_ s) (default_resource_ s) (json_path_ s) (path_to_idr_map_ s)
    (replacements_ s) (localized_strings_ s) deny added (replace_existing_source_ s) gzip.

Definition AddString16 (name : string) (value : string16) s : WebUIIOSDataSourceImpl :=
  with_strings (<[name := DictString16 value]> (localized_strings_ s))
    (<[name := UTF16ToUTF8 value]> (replacements_ s)) s.
Definition AddString (name value : string) s : WebUIIOSDataSourceImpl :=
  with_strings (<[name := DictString value]> (localized_strings_ s))
    (<[name := value]> (replacements_ s)) s.
Definition AddLocalizedString (name : string) (ids : Z) s : WebUIIOSDataSourceImpl :=
  AddString16 name (GetLocalizedString ids) s.
(** MergeDictionary takes the entries of its argument over those it has. *)
Definition AddLocalizedStrings (localized_strings : Dictionary) s : WebUIIOSDataSourceImpl :=
  with_strings (localized_strings ∪ localized_strings_ s)
    (TemplateReplacementsFromDictionaryValue localized_strings (replacements_ s)) s.
Definition AddBoolean (name : string) (value : bool) s : WebUIIOSDataSourceImpl :=
  with_strings (<[name := DictBool value]> (localized_strings_ s)) (replacements_ s) s.
Definition SetJsonPath (path : string) s : WebUIIOSDataSourceImpl :=
  with_resources path (default_resource_ s) (path_to_idr_map_ s) s.
Definition AddResourcePath (path : string) (resource_id : Z) s : WebUIIOSDataSourceImpl :=
  with_resources (json_path_ s) (default_resource_ s) (<[path := resource_id]> (path_to_idr_map_ s)) s.
Definition SetDefaultResource (resource_id : Z) s : WebUIIOSDataSourceImpl :=
  with_resources (json_path_ s) resource_id (path_to_idr_map_ s) s.
Definition DisableDenyXFrameOptions s : WebUIIOSDataSourceImpl :=
  with_flags false (load_time_data_defaults_added_ s) (use_gzip_ s) s.
Definition UseGzip s : WebUIIOSDataSourceImpl :=
  with_flags (deny_xframe_options_ s) (load_time_data_defaults_added_ s) true s.

Definition impl_GetMimeType (path : string) : string :=
  if EndsWithInsensitive path ".js" then "application/javascript"
  else if EndsWithInsensitive path ".json" then "application/json"
  else if EndsWithInsensitive path ".pdf" then "application/pdf"
  else if EndsWithInsensitive path ".css" then "text/css"
  else if EndsWithInsensitive path ".svg" then "image/svg+xml"
  else "text/html".

Definition impl_IsGzipped (path : string) s : bool :=
  use_gzip_ s && (bool_decide (json_path_ s = "") || negb (bool_decide (path = json_path_ s))).

(** The delegate the source is, for the backend. *)
Definition InternalDataSource s : URLDataSourceIOS :=
  MkDelegate (replace_existing_source_ s) IsAppSpecificURL impl_GetMimeType false
    "object-src 'none';" (deny_xframe_options_ s) (λ path, impl_IsGzipped path s).

Definition EnsureLoadTimeDataDefaultsAdded : M WebUIIOSDataSourceImpl unit :=
  s ← gets (λ s, s);
  if load_time_data_defaults_added_ s then mret tt
  else
    modify (λ s, with_flags (deny_xframe_options_ s) true (use_gzip_ s) s);;
    modify (AddLocalizedStrings LoadTimeDataDefaults).

(** What the callback is run with, at once. *)
Definition StartDataRequest (path : string) : M WebUIIOSDataSourceImpl (option string) :=
  EnsureLoadTimeDataDefaultsAdded;;
  s ← gets (λ s, s);
  if negb (bool_decide (json_path_ s = "")) && bool_decide (path = json_path_ s) then
    mret (Some (AppendJsonJS (localized_strings_ s)))
  else
    let resource_id := default (default_resource_ s) (path_to_idr_map_ s !! path) in
    DCHECK (negb (resource_id =? -1));;
    mret (GetDataResourceBytes resource_id).

(** ** What a source answers *)

(** The state of a source after its first request. *)
Definition with_defaults s : WebUIIOSDataSourceImpl :=
  if load_time_data_defaults_added_ s then s
  else AddLocalizedStrings LoadTimeDataDefaults (with_flags (deny_xframe_options_ s) true (use_gzip_ s) s).

(** A request is answered on every path the source has, or that it has a
    default for; the strings of the page are there, unless load time defaults
    have the same name; the second request finds the same strings. *)
Theorem StartDataRequest_answers s path :
  path = json_path_ s ∧ path ≠ "" ∨ default (default_resource_ s) (path_to_idr_map_ s !! path) ≠ -1 →
  ∃ r, StartDataRequest path s = Ok (r, with_defaults s) ∧
    StartDataRequest path (with_defaults s) = Ok (r, with_defaults s) ∧
    (path = json_path_ s → path ≠ "" → r = Some (AppendJsonJS (localized_strings_ (with_defaults s)))) ∧
    (path ≠ json_path_ s → r = GetDataResourceBytes (default (default_resource_ s) (path_to_idr_map_ s !! path))).
Proof.
  intros Hserved.
  assert (Hd : ∀ t, EnsureLoadTimeDataDefaultsAdded t = Ok (tt, with_defaults t))
    by (intros t; unfold EnsureLoadTimeDataDefaultsAdded, with_defaults, gets, mbind, M_bind;
        by destruct (load_time_data_defaults_added_ t)).
  assert (Hidem : with_defaults (with_defaults s) = with_defaults s)
    by (unfold with_defaults at 2 3; destruct (load_time_data_defaults_added_ s) eqn:Ha;
        unfold with_defaults; by rewrite ?Ha).
  assert (Hj : json_path_ (with_defaults s) = json_path_ s ∧
    path_to_idr_map_ (with_defaults s) = path_to_idr_map_ s ∧
    default_resource_ (with_defaults s) = default_resource_ s)
    by (unfold with_defaults; by destruct (load_time_data_defaults_added_ s)).
  destruct Hj as (Hj & Hp & Hr). unfold StartDataRequest, gets, mbind, M_bind.
  rewrite !Hd, Hidem, Hj, Hp, Hr. set (id := default (default_resource_ s) _) in *.
  destruct (decide (path = json_path_ s)) as [->|Hne].
  - destruct (decide (json_path_ s = "")) as [Hempty|Hempty].
    + rewrite Hempty. cbn. destruct Hserved as [[_ []]|Hid]; [done|].
      rewrite (proj2 (Z.eqb_neq id (-1)) Hid). cbn. eexists. split_and!; try done.
    + rewrite (bool_decide_eq_false_2 _ Hempty), bool_decide_eq_true_2 by done. cbn.
      eexists. by split_and!.
  - rewrite (bool_decide_eq_false_2 _ Hne), andb_false_r. destruct Hserved as [[]|Hid]; [done|].
    rewrite (proj2 (Z.eqb_neq id (-1)) Hid). cbn. eexists. by split_and!.
Qed.

(** Whether a source that nobody asked to use gzip says its files are gzipped
    depends on what its memory had before. *)
Theorem gzip_is_never_initialised name path :
  impl_IsGzipped path (WebUIIOSDataSourceImpl_new name true) = true ∧
  impl_IsGzipped path (WebUIIOSDataSourceImpl_new name false) = false ∧
  IsGzipped (URLDataSourceIOS_defaults impl_GetMimeType) path = false.
Proof. done. Qed.

(** The strings of a source are never gzipped. *)
Lemma json_is_not_gzipped s : json_path_ s ≠ "" → impl_IsGzipped (json_path_ s) s = false.
Proof.
  intros Hne. unfold impl_IsGzipped. rewrite (bool_decide_eq_false_2 _ Hne), bool_decide_eq_true_2 by done.
  apply andb_false_r.
Qed.
End source.
