(* ===== verification/WebUIDataRefs.v ===== *)
(** * References to the sources of WebUI data

    For WebUIData.v: the count of every source is the number of its holders,
    and a source without one waits to be deleted.  [refs] is stated with the
    references an operation holds while it runs and the sources it is about to
    delete; the lemmas on AddRef, Release and the deletion are used by every
    operation that passes a source on. *)

From S2P Require Import Prelude.
From S2P Require Import WebEnv.
From S2P Require Import WebUIData.

(** How often a source is in a list. *)
Section occurrences.
Implicit Types (s x : srcid) (l k : list srcid).

Definition occ s l : nat := length (filter (λ x, x = s) l).

Lemma occ_Permutation s l k : l ≡ₚ k → occ s l = occ s k.
Proof. intros Hp. unfold occ. by rewrite Hp. Qed.

Lemma occ_cons s x l : occ s (x :: l) = ((if decide (x = s) then 1 else 0) + occ s l)%nat.
Proof. unfold occ. rewrite filter_cons. by case_decide. Qed.

Lemma occ_zero s l : occ s l = 0%nat ↔ s ∉ l.
Proof.
  unfold occ. induction l as [|x l IH]; [split; [set_solver|done]|].
  rewrite filter_cons. case_decide; simpl; set_solver.
Qed.

End occurrences.

Section refs.
Context `{WEBUI : WebUIEnv}.
Implicit Types (w : World) (s : srcid) (L Z : list srcid).

(** What holds a source. *)
Definition ui_ref (t : UIThreadTask) : option srcid :=
  match t with
  | GetMimeTypeOnUITask s _ _ _ | CallStartRequestTask s _ _ => Some s
  | DeleteDataSourcesTask => None
  end.
Definition io_ref (t : IOThreadTask) : option srcid :=
  match t with
  | AddDataSourceOnIOThreadTask s | MimeTypeAvailableTask _ _ s _
  | SendResponseOnIOThreadTask s _ _ => Some s
  | DeleteBackendTask => None
  end.
Definition job_refs (m : gmap jobid URLRequestChromeJob) : list srcid :=
  omap (λ p, job_source_ p.2) (map_to_list m).
Definition holders w : list srcid :=
  omap ui_ref (ui_queue w) ++ omap io_ref (io_queue w) ++ (callbacks w).*1 ++
  (map_to_list (data_sources_ w)).*2 ++ job_refs (w_jobs w).

Definition sched w : list srcid := default [] (scheduled_ w).

(** [L] is held by the operation that runs, [Z] is about to be deleted. *)
Record refs w L Z : Prop := {
  refs_count s x : w_sources w !! s = Some x → rc_value (ref_count x) = occ s (holders w ++ L);
  refs_held s : s ∈ holders w ++ L → is_Some (w_sources w !! s);
  refs_zero s x : w_sources w !! s = Some x → s ∉ holders w ++ L → s ∈ sched w ++ Z;
  refs_sched s : s ∈ sched w ++ Z → is_Some (w_sources w !! s) ∧ s ∉ holders w ++ L;
  refs_nodup : NoDup (sched w ++ Z);
  refs_task : sched w ≠ [] → DeleteDataSourcesTask ∈ ui_queue w;
  refs_deleted : NoDup (deleted w).*1 ∧
    ∀ p, p ∈ deleted w → p.2 = true ∧ w_sources w !! p.1 = None;
  refs_next s : is_Some (w_sources w !! s) ∨ s ∈ (deleted w).*1 → (s < next_source w)%positive;
}.

(** A step that neither counts nor deletes, and passes references on. *)
Lemma refs_frame w w' L L' Z :
  refs w L Z →
  (∀ s, ref_count <$> w_sources w' !! s = ref_count <$> w_sources w !! s) →
  scheduled_ w' = scheduled_ w → deleted w' = deleted w → next_source w' = next_source w →
  (DeleteDataSourcesTask ∈ ui_queue w → DeleteDataSourcesTask ∈ ui_queue w') →
  holders w' ++ L' ≡ₚ holders w ++ L →
  refs w' L' Z.
Proof.
  intros [Hc Hh Hz Hs Hn Ht Hd Hx] Hsrc Hsch Hdel Hnext Hui Hp.
  assert (Hdom : ∀ s, is_Some (w_sources w' !! s) ↔ is_Some (w_sources w !! s)).
  { intros s. by rewrite <-(fmap_is_Some ref_count), Hsrc, fmap_is_Some. }
  assert (Hin : ∀ s, s ∈ holders w' ++ L' ↔ s ∈ holders w ++ L) by (intros s; by rewrite Hp).
  assert (Hsd : sched w' = sched w) by (unfold sched; by rewrite Hsch).
  split.
  - intros s x Hx'. pose proof (Hsrc s) as Hs'. rewrite Hx' in Hs'.
    destruct (w_sources w !! s) as [y|] eqn:Hy; simplify_eq/=.
    rewrite (occ_Permutation _ _ _ Hp). rewrite <-(Hc _ _ Hy). congruence.
  - intros s. rewrite Hin, Hdom. apply Hh.
  - intros s x Hx'. rewrite Hin, Hsd.
    destruct (proj1 (Hdom s) (mk_is_Some _ _ Hx')) as [y Hy]. by apply (Hz _ y).
  - intros s. rewrite Hsd, Hdom, Hin. apply Hs.
  - by rewrite Hsd.
  - rewrite Hsd. auto.
  - rewrite Hdel. destruct Hd as [Hd1 Hd2]. split; [done|]. intros p Hp'.
    destruct (Hd2 p Hp') as [? Hn']. split; [done|].
    pose proof (Hdom p.1) as Hdp. rewrite Hn' in Hdp. destruct (w_sources w' !! p.1); [|done].
    by destruct (proj1 Hdp (mk_is_Some _ _ eq_refl)).
  - intros s. rewrite Hdom, Hdel, Hnext. apply Hx.
Qed.

(** ** What the operations on a source leave alone *)

Definition attrs w : gmap srcid (string * bool) :=
  (λ x, (source_name_ x, source_backend_ x)) <$> w_sources w.

(** Everything but the sources and their names: the list of the sources to
    delete may have grown, with the task that deletes them. *)
Record others w w' : Prop := {
  others_ui : ∃ n, ui_queue w' = ui_queue w ++ replicate n DeleteDataSourcesTask;
  others_io : io_queue w' = io_queue w;
  others_callbacks : callbacks w' = callbacks w;
  others_started : started w' = started w;
  others_bs : w_browser_state w' = w_browser_state w;
  others_backend : w_backend w' = w_backend w;
  others_pending : pending_requests_ w' = pending_requests_ w;
  others_next : next_request_id_ w' = next_request_id_ w;
  others_jobs : w_jobs w' = w_jobs w;
  others_next_job : next_job w' = next_job w;
}.
Record quiet w w' : Prop := {
  quiet_others : others w w';
  quiet_ds : data_sources_ w' = data_sources_ w;
  quiet_attrs s a : attrs w' !! s = Some a → attrs w !! s = Some a;
}.

#[global] Instance others_refl : Reflexive others.
Proof. intros w. split; try done. exists 0%nat. by rewrite app_nil_r. Qed.

#[global] Instance others_trans : Transitive others.
Proof.
  intros w1 w2 w3 H1 H2. destruct H1 as [[n1 ?]], H2 as [[n2 ?]]. split; try congruence.
  exists (n1 + n2)%nat. rewrite replicate_add, app_assoc. congruence.
Qed.

#[global] Instance quiet_refl : Reflexive quiet.
Proof. by intros w. Qed.

#[global] Instance quiet_trans : Transitive quiet.
Proof.
  intros w1 w2 w3 [? ? ?] [? ? ?]. split; [by etrans|congruence|by eauto].
Qed.

(** The same for the equality of everything but the sources. *)
Lemma others_sources w X n l d : others w (with_sources X (with_deletion l d (with_next_source n w))).
Proof. split; try done. exists 0%nat. by rewrite app_nil_r. Qed.

Lemma quiet_with_sources w X :
  (∀ s, (λ x, (source_name_ x, source_backend_ x)) <$> X !! s = attrs w !! s) →
  quiet w (with_sources X w).
Proof.
  intros HX. split; [apply (others_sources w X _ (scheduled_ w) (deleted w))|done|].
  intros s a. unfold attrs at 1. cbn [with_sources w_sources]. by rewrite lookup_fmap, HX.
Qed.

Lemma attrs_lookup w s x :
  w_sources w !! s = Some x → attrs w !! s = Some (source_name_ x, source_backend_ x).
Proof. intros Hx. unfold attrs. by rewrite lookup_fmap, Hx. Qed.

Lemma holders_quiet w w' : quiet w w' → holders w' = holders w.
Proof.
  intros [[[n Hui] Hio Hcb ? ? ? ? ? Hj ?] Hds ?]. unfold holders.
  rewrite Hui, Hio, Hcb, Hds, Hj, omap_app. f_equal.
  assert (omap ui_ref (replicate n DeleteDataSourcesTask) = []) as ->
    by (clear; induction n as [|n IH]; [done|exact IH]).
  apply app_nil_r.
Qed.

(** ** Counting *)

Lemma wp_the_source s w (Q : URLDataSourceIOSImpl → World → Prop) x :
  w_sources w !! s = Some x → Q x w → wp (the_source s) Q w.
Proof. intros Hx HQ. unfold the_source, the_world. wp_simp. eauto. Qed.

(** The count of a source changes; [Z] has it when nothing holds it. *)
Lemma refs_put_count w L L' Z s x n :
  refs w L (if decide (s ∈ holders w ++ L) then Z else s :: Z) → w_sources w !! s = Some x →
  rc_value n = occ s (holders w ++ L') →
  (∀ t, t ≠ s → occ t L' = occ t L) →
  refs (with_sources (<[s := with_ref_count n x]> (w_sources w)) w) L'
    (if decide (s ∈ holders w ++ L') then Z else s :: Z).
Proof.
  set (Z0 := if decide (s ∈ holders w ++ L) then Z else s :: Z).
  set (Z' := if decide (s ∈ holders w ++ L') then Z else s :: Z).
  intros [Hc Hh Hz Hs Hn Ht Hd Hx] Hsx Hval Hocc.
  assert (HsZ : s ∉ sched w ++ Z).
  { revert Hn Hs. unfold Z0. case_decide as Hin; intros Hn Hs Hin'; [by apply (Hs s Hin')|].
    eapply (NoDup_Permutation_proper _ (s :: sched w ++ Z)) in Hn; [|solve_Permutation].
    by apply NoDup_cons in Hn as [? _]. }
  assert (Hn' : NoDup (sched w ++ Z)).
  { revert Hn. unfold Z0. case_decide; [done|]. intros Hn.
    eapply (NoDup_Permutation_proper _ (s :: sched w ++ Z)) in Hn; [|solve_Permutation].
    by apply NoDup_cons in Hn as [_ ?]. }
  assert (HZ : ∀ t, t ≠ s → (t ∈ sched w ++ Z' ↔ t ∈ sched w ++ Z0)).
  { intros t Hts. unfold Z', Z0. repeat case_decide; set_solver. }
  assert (Hsz : s ∈ sched w ++ Z' ↔ s ∉ holders w ++ L').
  { unfold Z'. case_decide; set_solver. }
  assert (HinL : ∀ t, t ≠ s → (t ∈ holders w ++ L' ↔ t ∈ holders w ++ L)).
  { intros t Hts. rewrite !elem_of_app.
    assert (t ∈ L' ↔ t ∈ L) as ->; [|done].
    pose proof (occ_zero t L) as H1. pose proof (occ_zero t L') as H2. rewrite Hocc in H2 by done.
    destruct (decide (t ∈ L)), (decide (t ∈ L')); tauto. }
  assert (Hdom : ∀ t, is_Some (<[s := with_ref_count n x]> (w_sources w) !! t) ↔
                      is_Some (w_sources w !! t)).
  { intros t. rewrite lookup_insert_is_Some. destruct (decide (s = t)) as [<-|];
      [rewrite Hsx|]; naive_solver. }
  assert (Happ : ∀ t, t ≠ s → occ t (holders w ++ L') = occ t (holders w ++ L)).
  { intros t Hts. unfold occ. rewrite !filter_app, !length_app. specialize (Hocc t Hts).
    unfold occ in Hocc. lia. }
  split; change (holders (with_sources _ w)) with (holders w);
    change (sched (with_sources _ w)) with (sched w); cbn [with_sources w_sources deleted next_source ui_queue]; try done.
  - intros t y. destruct (decide (t = s)) as [->|Hts].
    + rewrite lookup_insert. rewrite decide_True by done. intros [= <-]. done.
    + rewrite lookup_insert_ne by done. rewrite Happ by done. apply Hc.
  - intros t. rewrite Hdom. destruct (decide (t = s)) as [->|]; [rewrite Hsx; eauto|].
    rewrite HinL by done. apply Hh.
  - intros t y Hy Hnt. destruct (decide (t = s)) as [->|]; [by apply Hsz|].
    rewrite lookup_insert_ne in Hy by done. rewrite HZ by done. apply (Hz _ y Hy).
    by rewrite <-HinL.
  - intros t. rewrite Hdom. destruct (decide (t = s)) as [->|]; [rewrite Hsz, Hsx; eauto|].
    rewrite HZ, HinL by done. apply Hs.
  - unfold Z'. case_decide; [done|].
    eapply (NoDup_Permutation_proper _ (s :: sched w ++ Z)); [solve_Permutation|].
    by apply NoDup_cons.
  - destruct Hd as [? Hd2]. split; [done|]. intros p Hp. destruct (Hd2 p Hp) as [? Hnp].
    split; [done|]. rewrite lookup_insert_ne; [done|]. intros ->. congruence.
  - intros t. rewrite Hdom. apply Hx.
Qed.

(** A source that lost its last holder, on either thread. *)
Lemma wp_delete_source w L Z s (Q : unit → World → Prop) :
  refs w L (s :: Z) →
  (∀ w', refs w' L Z → quiet w w' → scheduled_ w' = scheduled_ w → ui_queue w' = ui_queue w →
     deleted w' = deleted w ++ [(s, true)] → Q tt w') →
  wp (delete_source true s) Q w.
Proof.
  intros [Hc Hh Hz Hs Hn Ht Hd Hx] HQ.
  destruct (Hs s) as [[x Hsx] Hns]; [set_solver|].
  assert (Hns' : s ∉ sched w ++ Z).
  { intros Hin. apply (NoDup_cons_1_1 s (sched w ++ Z)); [|done].
    eapply (NoDup_Permutation_proper _ (sched w ++ s :: Z)); [solve_Permutation|done]. }
  unfold delete_source. wp_simp. apply (wp_the_source s w _ x Hsx). wp_simp. apply HQ; try done.
  - split; change (holders (with_deletion _ _ _)) with (holders w);
      change (sched (with_deletion _ _ _)) with (sched w);
      cbn [with_sources with_deletion w_sources deleted next_source ui_queue scheduled_]; try done.
    + intros t y [? Hy]%lookup_delete_Some. by apply Hc.
    + intros t Hin. rewrite lookup_delete_ne by (intros ->; done). by apply Hh.
    + intros t y [Hts Hy]%lookup_delete_Some Hnt. pose proof (Hz t y Hy Hnt). set_solver.
    + intros t Hin. rewrite lookup_delete_ne by (intros ->; done). apply Hs. set_solver.
    + eapply (NoDup_Permutation_proper _ (s :: sched w ++ Z)) in Hn; [|solve_Permutation].
      by apply NoDup_cons in Hn as [_ ?].
    + destruct Hd as [Hd1 Hd2]. rewrite fmap_app. split.
      * apply NoDup_app. split; [done|]. split; [|apply NoDup_singleton].
        intros t (p & -> & Hp)%list_elem_of_fmap Hin. destruct (Hd2 p Hp) as [_ Hnone].
        set_solver.
      * intros p [Hp| ->%list_elem_of_singleton]%elem_of_app;
          [|by rewrite lookup_delete, decide_True].
        destruct (Hd2 p Hp) as [? Hnone]. split; [done|]. by apply lookup_delete_None; right.
    + intros t. rewrite fmap_app, elem_of_app. intros [Hin|[Hin|Hin]]; apply Hx; [|by right|].
      * rewrite lookup_delete_is_Some in Hin. tauto.
      * apply list_elem_of_singleton in Hin as ->. left. by exists x.
  - split; [|done|]; [split; try done; exists 0%nat; by rewrite app_nil_r|].
    intros t a. unfold attrs. cbn [with_sources with_deletion w_sources].
    rewrite fmap_delete. by intros [_ ?]%lookup_delete_Some.
Qed.

(** A source is put on the list, and a task will take it from there. *)
Lemma refs_schedule w w' L s :
  refs w L [s] → w_sources w' = w_sources w → holders w' = holders w →
  sched w' = sched w ++ [s] → deleted w' = deleted w → next_source w' = next_source w →
  DeleteDataSourcesTask ∈ ui_queue w' → refs w' L [].
Proof.
  intros [Hc Hh Hz Hs Hn Ht Hd Hx] Hsrc Hhold Hsch Hdel Hnext Hui.
  split; rewrite ?Hsrc, ?Hhold, ?Hsch, ?Hdel, ?Hnext, ?app_nil_r; auto.
Qed.

(** The UI thread deletes at once, and asks nobody else to. *)
Definition kept w w' : Prop :=
  ui_queue w' = ui_queue w ∧ scheduled_ w' = scheduled_ w ∧ deleted w ⊆ deleted w'.

Lemma wp_DeleteDataSource on_ui w L s (Q : unit → World → Prop) :
  refs w L [s] →
  (∀ w', refs w' L [] → quiet w w' → (on_ui = true → kept w w') → Q tt w') →
  wp (DeleteDataSource on_ui s) Q w.
Proof.
  intros Hr HQ. unfold DeleteDataSource. destruct on_ui.
  { apply (wp_delete_source w L [] s Q Hr). intros w' ???? Hd. apply HQ; [done..|].
    intros _. split_and!; [done..|]. rewrite Hd. set_solver. }
  unfold the_world, post_ui. wp_simp. case_bool_decide as Hl; wp_simp; (apply HQ; [..|done]).
  - apply (refs_schedule w _ L s Hr); try done; [|set_solver].
    unfold holders. cbn [with_ui with_deletion ui_queue]. rewrite omap_app. cbn. by rewrite app_nil_r.
  - split; [|done|by intros]. split; try done. by exists 1%nat.
  - apply (refs_schedule w _ L s Hr); try done. by apply (refs_task _ _ _ Hr).
  - split; [|done|by intros]. split; try done. exists 0%nat. by rewrite app_nil_r.
Qed.

Lemma wp_delete_all w L Z (Q : unit → World → Prop) :
  refs w L Z →
  (∀ w', refs w' L [] → quiet w w' → scheduled_ w' = scheduled_ w → ui_queue w' = ui_queue w →
     deleted w' = deleted w ++ ((., true) <$> Z) → Q tt w') →
  wp (delete_all Z) Q w.
Proof.
  revert w. induction Z as [|s Z IH]; intros w Hr HQ; cbn [delete_all]; wp_simp.
  { apply HQ; try done. by rewrite app_nil_r. }
  apply (wp_delete_source w L Z s _ Hr). intros w1 Hr1 Hq1 Hs1 Hu1 Hd1.
  apply (IH w1 Hr1). intros w2 Hr2 Hq2 Hs2 Hu2 Hd2.
  apply HQ; [done|by etrans|congruence|congruence|].
  rewrite Hd2, Hd1, <-app_assoc. done.
Qed.

(** The task deletes what the list has when it runs. *)
Lemma wp_DeleteDataSources w L q (Q : unit → World → Prop) :
  refs w L [] → ui_queue w = DeleteDataSourcesTask :: q →
  (∀ w', refs w' L [] → quiet (with_ui q w) w' → sched w' = [] → ui_queue w' = q →
     deleted w' = deleted w ++ ((., true) <$> sched w) → Q tt w') →
  wp DeleteDataSources Q (with_ui q w).
Proof.
  intros Hr Hui HQ. unfold DeleteDataSources, the_world. wp_simp. cbn [with_ui scheduled_].
  assert (Hh : holders (with_ui q w) = holders w) by (unfold holders; by rewrite Hui).
  destruct Hr as [Hc Hhe Hz Hs Hn Ht Hd Hx].
  destruct (scheduled_ w) as [l|] eqn:Hsch; wp_simp.
  - set (w1 := with_deletion (Some []) (deleted (with_ui q w)) (with_ui q w)).
    assert (Hl : sched w = l) by (unfold sched; by rewrite Hsch).
    rewrite Hl in *. rewrite !app_nil_r in *.
    assert (refs w1 L l) as Hr1.
    { split; change (holders w1) with (holders (with_ui q w)); rewrite ?Hh; done. }
    apply (wp_delete_all w1 L l _ Hr1). intros w' Hr' Hq' Hs' Hu' Hd'. apply HQ; try done.
    + etrans; [|done]. split; [|done|by intros]. split; try done.
      exists 0%nat. by rewrite app_nil_r.
    + unfold sched. by rewrite Hs'.
  - assert (Hl : sched w = []) by (unfold sched; by rewrite Hsch).
    apply HQ; [|done|unfold sched; cbn; by rewrite Hsch|done|by rewrite Hl, app_nil_r].
    by split; rewrite ?Hh.
Qed.

(** A new source waits for its first reference. *)
Lemma refs_new w L Z x :
  refs w L Z → rc_value (ref_count x) = 0%nat →
  refs (with_next_source (Pos.succ (next_source w))
    (with_sources (<[next_source w := x]> (w_sources w)) w)) L (next_source w :: Z).
Proof.
  intros [Hc Hh Hz Hs Hn Ht Hd Hx] Hx0. set (n := next_source w).
  assert (Hnone : w_sources w !! n = None).
  { apply eq_None_not_Some. intros Hsome. pose proof (Hx n (or_introl Hsome)). unfold n in *. lia. }
  assert (Hnh : n ∉ holders w ++ L).
  { intros Hin. destruct (Hh n Hin) as [y Hy]. congruence. }
  assert (Hne : ∀ s y, w_sources w !! s = Some y → s ≠ n) by (intros s y Hy ->; congruence).
  split; change (holders (with_next_source _ _)) with (holders w);
    change (sched (with_next_source _ _)) with (sched w);
    cbn [with_next_source with_sources w_sources deleted next_source ui_queue]; try done.
  - intros s y. destruct (decide (s = n)) as [->|Hsn].
    + rewrite lookup_insert, decide_True by done. intros [= <-]. rewrite Hx0. symmetry.
      by apply occ_zero.
    + rewrite lookup_insert_ne by done. apply Hc.
  - intros s Hin. rewrite lookup_insert_is_Some'. right. by apply Hh.
  - intros s y. destruct (decide (s = n)) as [->|Hsn]; [set_solver|].
    rewrite lookup_insert_ne by done. intros Hy Hns. pose proof (Hz s y Hy Hns). set_solver.
  - intros s Hin. rewrite lookup_insert_is_Some'.
    destruct (decide (s = n)) as [->|Hsn]; [by split; [left|]|].
    destruct (Hs s) as [??]; [set_solver|]. by split; [right|].
  - eapply (NoDup_Permutation_proper _ (n :: sched w ++ Z)); [solve_Permutation|].
    apply NoDup_cons. split; [|done]. intros Hin. destruct (Hs n Hin) as [[y Hy] _]. congruence.
  - destruct Hd as [Hd1 Hd2]. split; [done|]. intros p Hp. destruct (Hd2 p Hp) as [? Hp'].
    split; [done|]. rewrite lookup_insert_ne; [done|]. intros Heq.
    assert (n ∈ (deleted w).*1) as Hin by (rewrite Heq; by apply list_elem_of_fmap_2).
    pose proof (Hx n (or_intror Hin)). unfold n in *. lia.
  - intros s. rewrite lookup_insert_is_Some'. fold n. intros [[->|Hin]|Hin]; [lia| |];
      [specialize (Hx s (or_introl Hin))|specialize (Hx s (or_intror Hin))]; fold n in Hx; lia.
Qed.
End refs.

Section counting.
Context `{WEBUI : WebUIEnv} {LAWS : WebUIEnvLaws}.
Implicit Types (w : World) (s : srcid) (L Z : list srcid).

Lemma wp_AddRef_gen w L Z s (Q : unit → World → Prop) :
  refs w L (if decide (s ∈ holders w ++ L) then Z else s :: Z) → is_Some (w_sources w !! s) →
  (∀ X, (∀ t, (λ x, (source_name_ x, source_backend_ x)) <$> X !! t = attrs w !! t) →
     refs (with_sources X w) (s :: L) Z → Q tt (with_sources X w)) →
  wp (AddRef s) Q w.
Proof using All.
  intros Hr [x Hx] HQ. unfold AddRef, put_source. wp_simp. apply (wp_the_source s w _ x Hx).
  wp_simp. apply HQ.
  - intros t. unfold attrs. rewrite lookup_fmap.
    destruct (decide (s = t)) as [<-|];
      [rewrite lookup_insert, decide_True by done; by rewrite Hx|by rewrite lookup_insert_ne].
  - replace Z with (if decide (s ∈ holders w ++ s :: L) then Z else s :: Z)
      by (rewrite decide_True by set_solver; done).
    apply (refs_put_count w L); try done.
    + rewrite law_rc_AddRef, (refs_count _ _ _ Hr s x Hx).
      assert (holders w ++ s :: L ≡ₚ s :: holders w ++ L) as Hp by solve_Permutation.
      rewrite (occ_Permutation _ _ _ Hp), occ_cons. by rewrite decide_True.
    + intros t Hts. rewrite occ_cons. by rewrite decide_False.
Qed.

Lemma wp_AddRef w L Z s (Q : unit → World → Prop) :
  refs w L Z → s ∈ holders w ++ L →
  (∀ X, (∀ t, (λ x, (source_name_ x, source_backend_ x)) <$> X !! t = attrs w !! t) →
     refs (with_sources X w) (s :: L) Z → Q tt (with_sources X w)) →
  wp (AddRef s) Q w.
Proof using All.
  intros Hr Hin. apply wp_AddRef_gen; [by rewrite decide_True|]. by apply (refs_held _ _ _ Hr).
Qed.

Lemma wp_Release on_ui w L s (Q : unit → World → Prop) :
  refs w (s :: L) [] →
  (∀ w', refs w' L [] → quiet w w' → (on_ui = true → kept w w') → Q tt w') →
  wp (Release on_ui s) Q w.
Proof using All.
  intros Hr HQ. destruct (refs_held _ _ _ Hr s) as [x Hx]; [set_solver|].
  pose proof (refs_count _ _ _ Hr s x Hx) as Hval.
  assert (holders w ++ s :: L ≡ₚ s :: holders w ++ L) as Hp by solve_Permutation.
  rewrite (occ_Permutation _ _ _ Hp), occ_cons, decide_True in Hval by done.
  destruct (law_rc_Release _ _ Hval) as [Hval' Hzero].
  unfold Release, put_source. wp_simp. apply (wp_the_source s w _ x Hx). wp_simp. rewrite Hzero.
  set (w1 := with_sources (<[s := with_ref_count (rc_Release (ref_count x)).1 x]> (w_sources w)) w).
  assert (Hr1 : refs w1 L (if decide (s ∈ holders w ++ L) then [] else [s])).
  { apply (refs_put_count w (s :: L)); try done; [by rewrite decide_True by set_solver|].
    intros t Hts. rewrite occ_cons. by rewrite decide_False. }
  assert (Hq : quiet w w1).
  { apply quiet_with_sources. intros t. unfold attrs. rewrite lookup_fmap.
    destruct (decide (s = t)) as [<-|];
      [rewrite lookup_insert, decide_True by done; by rewrite Hx|by rewrite lookup_insert_ne]. }
  pose proof (occ_zero s (holders w ++ L)) as Hz. case_decide as Hin.
  - replace (occ s (holders w ++ L) =? 0)%nat with false
      by (symmetry; apply Nat.eqb_neq; tauto).
    by apply HQ; [..|intros _; split_and!].
  - replace (occ s (holders w ++ L) =? 0)%nat with true
      by (symmetry; apply Nat.eqb_eq; tauto).
    cbn [whenM]. apply (wp_DeleteDataSource on_ui w1 L s _ Hr1).
    intros w' Hr' Hq' Hk'. apply HQ; [done|by etrans|done].
Qed.
End counting.
