(* ===== verification/WebUIDataInv.v ===== *)
(** * Invariants of WebUI data

    For WebUIData.v: the sources by name and what a source knows of the
    backend agree; every pending request belongs to a job that waits; the
    backend is there while a task needs it; and a request that waits for data
    gets its MIME type first.  Every event preserves them, together with the
    reference counts of WebUIDataRefs.v, and trips no check. *)

From S2P Require Import Prelude.
From S2P Require Import WebEnv.
From S2P Require Import WebUIData.
From S2P Require Import WebUIDataRefs.

Section invariants.
Context `{WEBUI : WebUIEnv}.
Implicit Types (w : World) (s : srcid) (j : jobid) (L : list srcid).

(** ** Sources by name *)
Record by_name w : Prop := {
  by_name_in n s : data_sources_ w !! n = Some s → attrs w !! s = Some (n, true);
  by_name_backend n s : attrs w !! s = Some (n, true) → data_sources_ w !! n = Some s;
  by_name_alive : w_backend w ≠ BackendAlive → data_sources_ w = ∅;
}.

(** ** Requests *)

(** What was read of a job so far. *)
Fixpoint read_bytes (l : list Read) : string :=
  match l with
  | [] => ""
  | ReadBytes s :: l => s +:+ read_bytes l
  | ReadFailed :: l => read_bytes l
  end.

Record job_ok (backend : BackendState) (J : URLRequestChromeJob) : Prop := {
  job_data d : job_data_ J = Some d →
    is_Some (request_ J) ∧ 0 <= data_offset_ J <= Z.max 0 (to_int32 (to_size_t (slen d))) ∧
    read_bytes (reads J) = string_take (Z.to_nat (data_offset_ J)) d;
  job_no_data : job_data_ J = None → data_offset_ J = 0 ∧ read_bytes (reads J) = "";
  job_backend : job_backend_ J = true → backend = BackendAlive;
  job_fresh : job_backend_ J = false → job_data_ J = None;
}.

Record jobs_ok (pending : list (Z * jobid)) (next : Z) (jobs : gmap jobid URLRequestChromeJob)
    (next_job : jobid) (bs : bool) (backend : BackendState) : Prop := {
  jobs_pending id j : (id, j) ∈ pending → 0 <= id < next ∧ ∃ J, jobs !! j = Some J ∧
    job_backend_ J = true ∧ is_Some (request_ J) ∧ job_data_ J = None;
  jobs_ids : NoDup pending.*1;
  jobs_once : NoDup pending.*2;
  jobs_next : 0 <= next <= INT_MAX;
  jobs_each j J : jobs !! j = Some J → job_ok backend J ∧ (j < next_job)%positive;
  jobs_closed : bs = false → jobs = ∅;
  jobs_not_created : backend = BackendNotCreated → pending = [] ∧ next = 0;
}.

(** ** The end of the browser state *)
Definition is_delete (t : IOThreadTask) : bool :=
  match t with DeleteBackendTask => true | _ => false end.

Inductive closing (io : list IOThreadTask) : bool → BackendState → Prop :=
  | Open backend : existsb is_delete io = false → backend ≠ BackendDeleted → closing io true backend
  | Closing io1 io2 : io = io1 ++ DeleteBackendTask :: io2 →
      existsb is_delete io1 = false → existsb is_delete io2 = false → existsb is_add io2 = false →
      closing io false BackendAlive
  | Closed backend : existsb is_delete io = false → existsb is_add io = false →
      backend ≠ BackendAlive → closing io false backend.

(** ** MIME types before data *)

(** The MIME type for [j], whose weak pointer is [g], comes before an answer
    to the request [id]. *)
Inductive mime_first (ui : list UIThreadTask) (io : list IOThreadTask) (st : list (srcid * Z)) (id : Z)
    (j : jobid) (g : Z) : Prop :=
  | mime_asked ui1 ui2 s path : ui = ui1 ++ GetMimeTypeOnUITask s path j g :: ui2 →
      (∀ s' path', CallStartRequestTask s' path' id ∉ ui1) → (∀ s', (s', id) ∉ st) →
      mime_first ui io st id j g
  | mime_answered io1 io2 s mime : io = io1 ++ MimeTypeAvailableTask j g s mime :: io2 →
      (∀ s' bytes, SendResponseOnIOThreadTask s' id bytes ∉ io1) → mime_first ui io st id j g.

Record order_ok (ui : list UIThreadTask) (io : list IOThreadTask) (cb st : list (srcid * Z))
    (pending : list (Z * jobid)) (next : Z) (jobs : gmap jobid URLRequestChromeJob) : Prop := {
  order_call s path id : CallStartRequestTask s path id ∈ ui → id < next;
  order_started s id : (s, id) ∈ st → id < next;
  order_send s id bytes : SendResponseOnIOThreadTask s id bytes ∈ io → (s, id) ∈ st;
  order_callback c : c ∈ cb → c ∈ st;
  order_pending id j J : (id, j) ∈ pending → jobs !! j = Some J → headers_complete J = false →
    mime_first ui io st id j (weak_factory_ J);
}.

(** Everything but the references and the names. *)
Record flow w : Prop := {
  flow_jobs : jobs_ok (pending_requests_ w) (next_request_id_ w) (w_jobs w) (next_job w)
    (w_browser_state w) (w_backend w);
  flow_closing : closing (io_queue w) (w_browser_state w) (w_backend w);
  flow_order : order_ok (ui_queue w) (io_queue w) (callbacks w) (started w) (pending_requests_ w)
    (next_request_id_ w) (w_jobs w);
}.

Record webui_inv L w : Prop := {
  inv_refs : refs w L [];
  inv_names : by_name w;
  inv_flow : flow w;
}.

(** ** Order under the steps of the queues *)

Lemma mime_first_grow ui io st id j g ui' io' :
  mime_first ui io st id j g → mime_first (ui ++ ui') (io ++ io') st id j g.
Proof.
  intros [ui1 ui2 s path -> Hn Hst|io1 io2 s mime -> Hn].
  - apply (mime_asked _ _ _ _ _ _ ui1 (ui2 ++ ui') s path); [|done..]. by rewrite <-app_assoc.
  - apply (mime_answered _ _ _ _ _ _ io1 (io2 ++ io') s mime); [|done]. by rewrite <-app_assoc.
Qed.

(** Tasks that answer no request are posted. *)
Lemma order_ui ui io cb st pending next jobs n :
  order_ok ui io cb st pending next jobs →
  order_ok (ui ++ replicate n DeleteDataSourcesTask) io cb st pending next jobs.
Proof.
  intros [H1 H2 H3 H4 H5]. split; try done.
  - intros s path id [Hin|Hin]%elem_of_app; [by eapply H1|]. by apply elem_of_replicate in Hin as [? _].
  - intros id j J Hp HJ Hh. rewrite <-(app_nil_r io). by apply mime_first_grow, H5.
Qed.

Lemma order_io ui io cb st pending next jobs t :
  (∀ s id bytes, t = SendResponseOnIOThreadTask s id bytes → (s, id) ∈ st) →
  order_ok ui io cb st pending next jobs →
  order_ok ui (io ++ [t]) cb st pending next jobs.
Proof.
  intros Ht [H1 H2 H3 H4 H5]. split; try done.
  - intros s id bytes [Hin|Hin%list_elem_of_singleton]%elem_of_app; [by eapply H3|by eapply Ht].
  - intros id j J Hp HJ Hh. rewrite <-(app_nil_r ui). by apply mime_first_grow, H5.
Qed.

(** The next task of the UI thread. *)
Lemma order_run_mime ui io cb st pending next jobs s path j g mime :
  order_ok (GetMimeTypeOnUITask s path j g :: ui) io cb st pending next jobs →
  order_ok ui (io ++ [MimeTypeAvailableTask j g s mime]) cb st pending next jobs.
Proof.
  intros [H1 H2 H3 H4 H5]. split; try done.
  - intros ????. by eapply H1, list_elem_of_further.
  - intros s' id bytes [Hin|Hin%list_elem_of_singleton]%elem_of_app; [by eapply H3|done].
  - intros id j' J Hp HJ Hh. destruct (H5 id j' J Hp HJ Hh) as [ui1 ui2 s' path' Heq Hn Hst|].
    + destruct ui1 as [|t ui1]; simplify_eq/=.
      * eapply (mime_answered _ _ _ _ _ _ io []); [done|].
        intros s0 bytes Hin%H3. by apply (Hst s0).
      * eapply mime_asked; [done| |done]. intros s'' path'' Hin.
        by eapply Hn, list_elem_of_further.
    + subst. eapply mime_answered; [|done]. by rewrite <-app_assoc.
Qed.

Lemma order_run_call ui io cb st pending next jobs s path id :
  order_ok (CallStartRequestTask s path id :: ui) io cb st pending next jobs →
  order_ok ui io (cb ++ [(s, id)]) (st ++ [(s, id)]) pending next jobs.
Proof.
  intros [H1 H2 H3 H4 H5]. split.
  - intros ????. by eapply H1, list_elem_of_further.
  - intros s' id' [Hin|Hin%list_elem_of_singleton]%elem_of_app; [by eapply H2|].
    simplify_eq. eapply H1, list_elem_of_here.
  - intros ??? Hin%H3. apply elem_of_app. by left.
  - intros c. rewrite !elem_of_app. intros [Hin|?]; [|by right]. left. by apply H4.
  - intros id' j J Hp HJ Hh. destruct (H5 id' j J Hp HJ Hh) as [ui1 ui2 s' path' Heq Hn Hst|].
    + destruct ui1 as [|t ui1]; simplify_eq/=. eapply mime_asked; [done| |].
      * intros s'' path'' Hin. by eapply Hn, list_elem_of_further.
      * intros s'' [Hin|Hin%list_elem_of_singleton]%elem_of_app; [by apply (Hst s'')|].
        simplify_eq. by eapply Hn, list_elem_of_here.
    + by eapply mime_answered.
Qed.

Lemma order_run_delete ui io cb st pending next jobs :
  order_ok (DeleteDataSourcesTask :: ui) io cb st pending next jobs →
  order_ok ui io cb st pending next jobs.
Proof.
  intros [H1 H2 H3 H4 H5]. split; try done.
  - intros ????. by eapply H1, list_elem_of_further.
  - intros id j J Hp HJ Hh. destruct (H5 id j J Hp HJ Hh) as [ui1 ui2 s' path' Heq Hn Hst|];
      [|by eapply mime_answered].
    destruct ui1 as [|t ui1]; simplify_eq/=. eapply mime_asked; [done| |done].
    intros s'' path'' Hin. by eapply Hn, list_elem_of_further.
Qed.

(** The next task of the IO thread: if it brings a MIME type, the jobs that
    still wait are others, or other pointers. *)
Lemma order_run_io ui io cb st pending next jobs jobs' pending' t :
  order_ok ui (t :: io) cb st pending next jobs →
  (∀ p, p ∈ pending' → p ∈ pending) →
  (∀ id j J', (id, j) ∈ pending' → jobs' !! j = Some J' → headers_complete J' = false →
     ∃ J, jobs !! j = Some J ∧ headers_complete J = false ∧ weak_factory_ J = weak_factory_ J' ∧
       ∀ s mime, t ≠ MimeTypeAvailableTask j (weak_factory_ J) s mime) →
  order_ok ui io cb st pending' next jobs'.
Proof.
  intros [H1 H2 H3 H4 H5] Hpend Hjobs. split; try done.
  - intros ??? Hin. by eapply H3, list_elem_of_further.
  - intros id j J' Hp HJ' Hh'. destruct (Hjobs id j J' Hp HJ' Hh') as (J & HJ & Hh & <- & Ht).
    destruct (H5 id j J (Hpend _ Hp) HJ Hh) as [|io1 io2 s mime Heq Hn]; [by eapply mime_asked|].
    destruct io1 as [|t' io1]; simplify_eq/=; [by destruct (Ht s mime)|].
    eapply mime_answered; [done|]. intros s' bytes Hin. by eapply Hn, list_elem_of_further.
Qed.

(** An answer finds the MIME type with its job. *)
Lemma order_answer ui io cb st pending next jobs s id bytes j J :
  order_ok ui (SendResponseOnIOThreadTask s id bytes :: io) cb st pending next jobs →
  (id, j) ∈ pending → jobs !! j = Some J → headers_complete J = true.
Proof.
  intros [H1 H2 H3 H4 H5] Hp HJ. destruct (headers_complete J) eqn:Hh; [done|].
  destruct (H5 id j J Hp HJ Hh) as [? ? ? ? Heq Hn Hst|io1 ? ? ? Heq Hn].
  - destruct (Hst s). eapply H3, list_elem_of_here.
  - destruct io1; simplify_eq/=. exfalso. by eapply Hn, list_elem_of_here.
Qed.

Lemma order_jobs ui io cb st pending pending' next jobs jobs' :
  order_ok ui io cb st pending next jobs →
  (∀ p, p ∈ pending' → p ∈ pending) →
  (∀ id j J', (id, j) ∈ pending' → jobs' !! j = Some J' → ∃ J, jobs !! j = Some J ∧
     headers_complete J = headers_complete J' ∧ weak_factory_ J = weak_factory_ J') →
  order_ok ui io cb st pending' next jobs'.
Proof.
  intros [H1 H2 H3 H4 H5] Hpend Hjobs. split; try done. intros id j J' Hp HJ' Hh.
  destruct (Hjobs id j J' Hp HJ') as (J & HJ & Hhe & <-). apply H5; [by apply Hpend|done|congruence].
Qed.

(** ** Steps that leave the flow alone *)

Lemma flow_others w w' : others w w' → flow w → flow w'.
Proof.
  intros [[n Hui] Hio Hcb Hst Hbs Hb Hp Hn Hj Hnj] [Hjobs Hcl Hord].
  split; rewrite ?Hui, ?Hio, ?Hcb, ?Hst, ?Hbs, ?Hb, ?Hp, ?Hn, ?Hj, ?Hnj; [done..|].
  by apply order_ui.
Qed.

Lemma by_name_quiet w w' L : quiet w w' → refs w' L [] → by_name w → by_name w'.
Proof.
  intros Hq Hr [H1 H2 H3]. pose proof (quiet_ds _ _ Hq) as Hds.
  pose proof (others_backend _ _ (quiet_others _ _ Hq)) as Hb.
  split; rewrite ?Hds, ?Hb; [|intros n s ?%(quiet_attrs _ _ Hq); by apply H2|done].
  intros n s Hs. destruct (refs_held _ _ _ Hr s) as [x Hx].
  { apply elem_of_app. left. unfold holders. rewrite !elem_of_app. do 3 right. left.
    rewrite Hds. apply list_elem_of_fmap. exists (n, s). split; [done|]. by apply elem_of_map_to_list. }
  pose proof (attrs_lookup _ _ _ Hx) as Ha. pose proof (quiet_attrs _ _ Hq _ _ Ha) as Ha'.
  rewrite (H1 n s Hs) in Ha'. by rewrite Ha, <-Ha'.
Qed.

Lemma webui_inv_quiet w w' L : quiet w w' → refs w' L [] → by_name w → flow w → webui_inv L w'.
Proof.
  intros Hq Hr Hn Hf. split; [done|by eapply by_name_quiet|].
  by apply (flow_others w), Hf; apply quiet_others.
Qed.
End invariants.
