(* ===== verification/WebUIDataSteps.v ===== *)
(** * The steps of WebUI data preserve the invariants

    For WebUIData.v and WebUIDataInv.v: the lemmas on each operation and each
    event. *)

From S2P Require Import Prelude.
From S2P Require Import WebEnv.
From S2P Require Import WebUIData.
From S2P Require Import WebUIDataRefs.
From S2P Require Import WebUIDataInv.

(** ** References in maps *)
Section map_refs.
Context `{WEBUI : WebUIEnv}.

Definition opt_list {A} (o : option A) : list A := match o with Some x => [x] | None => [] end.

Lemma map_to_list_replace {K A} `{Countable K} (m : gmap K A) k x :
  map_to_list (<[k := x]> m) ++ opt_list ((λ y, (k, y)) <$> m !! k) ≡ₚ (k, x) :: map_to_list m.
Proof.
  rewrite <-insert_delete_eq, map_to_list_insert by apply lookup_delete_eq.
  destruct (m !! k) as [y|] eqn:Hk; cbn.
  - rewrite <-(map_to_list_delete m k y Hk). solve_Permutation.
  - rewrite app_nil_r, delete_id; done.
Qed.

Lemma ds_refs_insert (m : gmap string srcid) n s :
  (map_to_list (<[n := s]> m)).*2 ++ opt_list (m !! n) ≡ₚ s :: (map_to_list m).*2.
Proof.
  change (s :: (map_to_list m).*2) with (((n, s) :: map_to_list m).*2).
  rewrite <-map_to_list_replace, fmap_app. by destruct (m !! n).
Qed.

Lemma job_refs_insert (m : gmap jobid URLRequestChromeJob) j J :
  job_refs (<[j := J]> m) ++ opt_list (m !! j ≫= job_source_) ≡ₚ
  opt_list (job_source_ J) ++ job_refs m.
Proof.
  unfold job_refs.
  transitivity (omap (λ p, job_source_ p.2) ((j, J) :: map_to_list m)).
  - rewrite <-map_to_list_replace, omap_app. f_equiv.
    destruct (m !! j) as [J'|]; [|done]. cbn. by destruct (job_source_ J').
  - cbn. by destruct (job_source_ J).
Qed.

Lemma job_refs_delete (m : gmap jobid URLRequestChromeJob) j J :
  m !! j = Some J → job_refs m ≡ₚ opt_list (job_source_ J) ++ job_refs (delete j m).
Proof.
  intros HJ. unfold job_refs. rewrite <-(map_to_list_delete m j J HJ). cbn.
  by destruct (job_source_ J).
Qed.
End map_refs.

Section operations.
Context `{WEBUI : WebUIEnv} {LAWS : WebUIEnvLaws}.
Implicit Types (w : World) (s : srcid) (j : jobid) (L : list srcid).

(** ** Posting *)
Lemma holders_post_io w t :
  holders (with_io (io_queue w ++ [t]) w) ≡ₚ opt_list (io_ref t) ++ holders w.
Proof using Type.
  unfold holders. cbn [with_io ui_queue io_queue callbacks data_sources_ w_jobs]. rewrite omap_app.
  cbn. destruct (io_ref t); cbn; solve_Permutation.
Qed.

Lemma holders_post_ui w t :
  holders (with_ui (ui_queue w ++ [t]) w) ≡ₚ opt_list (ui_ref t) ++ holders w.
Proof using Type.
  unfold holders. cbn [with_ui ui_queue io_queue callbacks data_sources_ w_jobs]. rewrite omap_app.
  cbn. destruct (ui_ref t); cbn; solve_Permutation.
Qed.

Lemma holders_pop_io w t q :
  io_queue w = t :: q → holders w ≡ₚ opt_list (io_ref t) ++ holders (with_io q w).
Proof using Type.
  intros Hq. unfold holders. cbn [with_io ui_queue io_queue callbacks data_sources_ w_jobs].
  rewrite Hq. cbn. destruct (io_ref t); cbn; solve_Permutation.
Qed.

Lemma holders_pop_ui w t q :
  ui_queue w = t :: q → holders w ≡ₚ opt_list (ui_ref t) ++ holders (with_ui q w).
Proof using Type.
  intros Hq. unfold holders. cbn [with_ui ui_queue io_queue callbacks data_sources_ w_jobs].
  rewrite Hq. cbn. destruct (ui_ref t); cbn; solve_Permutation.
Qed.

Lemma by_name_sources w X :
  (∀ t, (λ x, (source_name_ x, source_backend_ x)) <$> X !! t = attrs w !! t) →
  by_name w → by_name (with_sources X w).
Proof using Type.
  intros HX [H1 H2 H3].
  assert (Ha : attrs (with_sources X w) = attrs w).
  { apply map_eq. intros t. unfold attrs at 1. cbn. by rewrite lookup_fmap, HX. }
  split; rewrite ?Ha; done.
Qed.

(** A task that holds a source is posted to the IO thread. *)
Lemma wp_share_io w L s t (Q : unit → World → Prop) :
  refs w L [] → by_name w → flow (with_io (io_queue w ++ [t]) w) →
  s ∈ holders w ++ L → io_ref t = Some s →
  (∀ w', webui_inv L w' → kept w w' → Q tt w') →
  wp (AddRef s) (λ _ w', wp (post_io t) Q w') w.
Proof using All.
  intros Hr Hn Hf Hin Ht HQ. apply (wp_AddRef w L [] s _ Hr Hin). intros X HX HrX.
  unfold post_io. wp_simp. apply HQ; [|split_and!; done]. split; [| |by destruct Hf].
  - apply (refs_frame _ _ _ L _ HrX); try done. rewrite holders_post_io, Ht. cbn. solve_Permutation.
  - by apply (by_name_sources w X HX) in Hn as [? ? ?].
Qed.

(** ** Adding a source *)
Lemma wp_set_source_backend w L Z s b (Q : unit → World → Prop) :
  refs w L Z → is_Some (w_sources w !! s) →
  (∀ w', refs w' L Z → others w w' → data_sources_ w' = data_sources_ w →
     attrs w' = alter (λ p, (p.1, b)) s (attrs w) → holders w' = holders w → Q tt w') →
  wp (set_source_backend s b) Q w.
Proof using Type.
  intros Hr [x Hx] HQ. unfold set_source_backend, put_source. wp_simp.
  apply (wp_the_source s w _ x Hx). wp_simp. apply HQ; [|apply (others_sources w _ _ (scheduled_ w) (deleted w))|done| |done].
  - apply (refs_frame _ _ _ L _ Hr); try done. intros t. cbn.
    destruct (decide (s = t)) as [<-|];
      [rewrite lookup_insert, decide_True by done; by rewrite Hx|by rewrite lookup_insert_ne].
  - unfold attrs. cbn. rewrite fmap_insert. apply map_eq. intros t.
    destruct (decide (s = t)) as [<-|].
    + by rewrite lookup_insert, decide_True, lookup_alter_eq, lookup_fmap, Hx by done.
    + by rewrite lookup_insert_ne, lookup_alter_ne by done.
Qed.

(** The names after [s] took the place of what [n0] had. *)
Lemma names_replace (ds : gmap string srcid) (A0 A2 : gmap srcid (string * bool)) n0 s :
  (∀ n t, ds !! n = Some t → A0 !! t = Some (n, true)) →
  (∀ n t, A0 !! t = Some (n, true) → ds !! n = Some t) →
  (∀ t n b, A2 !! t = Some (n, b) →
     if decide (ds !! n0 = Some t) then b = false else A0 !! t = Some (n, b)) →
  (∀ n t, <[n0 := s]> ds !! n = Some t → is_Some (A2 !! t)) →
  fst <$> A2 !! s = Some n0 →
  let A3 := alter (λ p, (p.1, true)) s A2 in
  (∀ n t, <[n0 := s]> ds !! n = Some t → A3 !! t = Some (n, true)) ∧
  (∀ n t, A3 !! t = Some (n, true) → <[n0 := s]> ds !! n = Some t).
Proof using Type.
  intros H1 H2 H02 Halive Hs A3. destruct (A2 !! s) as [[ns bs]|] eqn:HAs; simplify_eq/=.
  assert (Hother : ∀ t, t ≠ s → A3 !! t = A2 !! t) by (intros; by apply lookup_alter_ne).
  assert (Hself : A3 !! s = Some (n0, true)) by (by unfold A3; rewrite lookup_alter_eq, HAs).
  split; intros n t Hnt.
  - destruct (decide (n = n0)) as [->|Hn];
      [rewrite lookup_insert, decide_True in Hnt by done; by simplify_eq|].
    destruct (Halive n t Hnt) as [[m b] Hm]. rewrite lookup_insert_ne in Hnt by done.
    pose proof (H1 _ _ Hnt) as Ht. pose proof (H02 _ _ _ Hm) as Hm'. case_decide as Hd.
    { apply H1 in Hd. congruence. }
    destruct (decide (t = s)) as [->|]; [|rewrite Hother by done; congruence].
    congruence.
  - destruct (decide (t = s)) as [->|Hts].
    + rewrite Hself in Hnt. simplify_eq. by rewrite lookup_insert, decide_True.
    + rewrite Hother in Hnt by done. pose proof (H02 _ _ _ Hnt) as Hm. case_decide as Hd; [done|].
      pose proof (H2 _ _ Hm) as Hds. rewrite lookup_insert_ne; [done|]. intros <-. congruence.
Qed.

Lemma ds_held w n s : data_sources_ w !! n = Some s → s ∈ holders w.
Proof using Type.
  intros Hs. unfold holders. rewrite !elem_of_app. do 3 right. left.
  apply list_elem_of_fmap. exists (n, s). split; [done|]. by apply elem_of_map_to_list.
Qed.

Lemma refs_ds_insert w L s n :
  refs w (s :: L) [] →
  refs (with_data_sources (<[n := s]> (data_sources_ w)) w) (opt_list (data_sources_ w !! n) ++ L) [].
Proof using Type.
  intros Hr. apply (refs_frame w _ (s :: L) _ [] Hr); try done.
  unfold holders. cbn [with_data_sources ui_queue io_queue callbacks data_sources_ w_jobs].
  pose proof (ds_refs_insert (data_sources_ w) n s) as Hp.
  set (A := (map_to_list (<[n := s]> (data_sources_ w))).*2) in *.
  set (B := opt_list _) in *. set (C := (map_to_list (data_sources_ w)).*2) in *.
  set (U := omap ui_ref _). set (I := omap io_ref _). set (K := (callbacks w).*1).
  set (J := job_refs _).
  transitivity (U ++ I ++ K ++ J ++ L ++ (A ++ B)); [solve_Permutation|].
  rewrite Hp. solve_Permutation.
Qed.

(** Releasing what a scoped_refptr held, if it did. *)
Lemma wp_Release_opt w L o (Q : unit → World → Prop) :
  refs w (opt_list o ++ L) [] → (∀ w', refs w' L [] → quiet w w' → Q tt w') →
  wp (Release_opt false o) Q w.
Proof using All.
  intros Hr HQ. destruct o as [s|]; cbn [Release_opt]; [|wp_simp; by apply HQ].
  apply (wp_Release false w L s _ Hr). intros w' ???. by apply HQ.
Qed.

Lemma wp_clear_old w L Z o (Q : unit → World → Prop) :
  refs w L Z → (∀ i, o = Some i → is_Some (w_sources w !! i)) →
  (∀ w', refs w' L Z → others w w' → data_sources_ w' = data_sources_ w → holders w' = holders w →
     (∀ t, attrs w' !! t = if decide (o = Some t) then (λ p, (p.1, false)) <$> attrs w !! t
                           else attrs w !! t) → Q tt w') →
  wp (match o with Some i => set_source_backend i false | None => mret tt end) Q w.
Proof using Type.
  intros Hr Ho HQ. destruct o as [i|]; [|wp_simp; by apply HQ].
  apply (wp_set_source_backend w L Z i false _ Hr); [by apply Ho|].
  intros w' Hr' Hot Hds Ha Hh. apply HQ; try done. intros t. rewrite Ha.
  destruct (decide (i = t)) as [->|];
    [by rewrite lookup_alter_eq, decide_True|].
  rewrite lookup_alter_ne, decide_False by congruence. done.
Qed.

Lemma others_ds w x : others w (with_data_sources x w).
Proof using Type. split; try done. exists 0%nat. by rewrite app_nil_r. Qed.

(** A source is added; its references are [L] and what holds it, or it is new
    and nothing has its name. *)
Lemma wp_AddDataSource w L s x (Q : unit → World → Prop) :
  refs w L (if decide (s ∈ holders w ++ L) then [] else [s]) →
  w_sources w !! s = Some x → by_name w → w_backend w = BackendAlive →
  (s ∈ holders w ++ L ∨ data_sources_ w !! source_name_ x = None) →
  (∀ w', refs w' L [] → by_name w' → others w w' → Q tt w') →
  wp (AddDataSource s) Q w.
Proof using All.
  intros Hr Hx [Hn1 Hn2 Hn3] Hb Hnew HQ.
  unfold AddDataSource, the_world. wp_simp. apply (wp_the_source s w _ x Hx). wp_simp.
  set (n0 := source_name_ x) in *. set (old := data_sources_ w !! n0) in *.
  rewrite wp_if. destruct (bool_decide (is_Some old) && negb _) eqn:Hskip.
  { wp_simp. apply andb_prop in Hskip as [Ho%bool_decide_eq_true _].
    apply HQ; [|done|done]. destruct Hnew as [Hin|Hnone]; [by rewrite decide_True in Hr|].
    rewrite Hnone in Ho. by destruct Ho. }
  clear Hskip. wp_simp. eapply (wp_clear_old w L); [exact Hr| |].
  { intros i Hi. unfold old in Hi. apply Hn1 in Hi. unfold attrs in Hi. rewrite lookup_fmap in Hi.
    destruct (w_sources w !! i); [by eexists|done]. }
  intros w1 Hr1 Hot1 Hds1 Hh1 Ha1. wp_simp.
  assert (Hxa : fst <$> attrs w1 !! s = Some n0).
  { rewrite Ha1, (attrs_lookup _ _ _ Hx). by destruct (decide (old = Some s)). }
  rewrite <-Hh1 in Hr1. apply (wp_AddRef_gen w1 L [] s); [done| |].
  { destruct (w_sources w1 !! s) eqn:Hs1; [by eexists|]. unfold attrs in Hxa.
    rewrite lookup_fmap, Hs1 in Hxa. done. }
  intros X HX HrX. wp_simp. set (w2 := with_sources X w1) in *.
  assert (Ha2 : attrs w2 = attrs w1).
  { apply map_eq. intros t. unfold w2, attrs at 1. cbn. by rewrite lookup_fmap, HX. }
  assert (Hot2 : others w w2).
  { etrans; [done|]. apply (others_sources w1 X _ (scheduled_ w1) (deleted w1)). }
  set (w3 := with_data_sources (<[n0 := s]> (data_sources_ w2)) w2).
  assert (Hr3 : refs w3 (opt_list old ++ L) []).
  { unfold old. rewrite <-Hds1. exact (refs_ds_insert w2 L s n0 HrX). }
  apply (wp_Release_opt w3 L old _ Hr3). intros w4 Hr4 Hq4. wp_simp.
  assert (Hds4 : data_sources_ w4 = <[n0 := s]> (data_sources_ w)).
  { rewrite (quiet_ds _ _ Hq4). cbn. by rewrite Hds1. }
  assert (Halive4 : ∀ n t, <[n0 := s]> (data_sources_ w) !! n = Some t → is_Some (w_sources w4 !! t)).
  { intros n t Ht. rewrite <-Hds4 in Ht. apply (refs_held _ _ _ Hr4), elem_of_app. left.
    by eapply ds_held. }
  assert (Ha4 : ∀ t a, attrs w4 !! t = Some a → attrs w1 !! t = Some a).
  { intros t a Hta. apply (quiet_attrs _ _ Hq4) in Hta. change (attrs w3) with (attrs w2) in Hta.
    by rewrite Ha2 in Hta. }
  assert (Hs4 : is_Some (w_sources w4 !! s)).
  { apply (Halive4 n0). by rewrite lookup_insert, decide_True. }
  apply (wp_set_source_backend w4 L [] s true _ Hr4 Hs4).
  intros w5 Hr5 Hot5 Hds5 Ha5 Hh5.
  assert (Hot : others w w5) by (etrans; [exact Hot2|]; etrans; [apply others_ds|];
    etrans; [apply (quiet_others _ _ Hq4)|done]).
  apply HQ; [done| |done].
  destruct (names_replace (data_sources_ w) (attrs w) (attrs w4) n0 s) as [Hin Hback]; try done.
  - intros t n b Hta. apply Ha4 in Hta. rewrite Ha1 in Hta. fold old.
    destruct (decide (old = Some t)); [|done].
    destruct (attrs w !! t); by simplify_eq/=.
  - intros n t Ht. destruct (Halive4 n t Ht) as [y Hy]. rewrite (attrs_lookup _ _ _ Hy). by eexists.
  - destruct Hs4 as [y Hy]. rewrite (attrs_lookup _ _ _ Hy).
    rewrite (Ha4 _ _ (attrs_lookup _ _ _ Hy)) in Hxa. exact Hxa.
  - split; rewrite ?Hds5, ?Hds4, ?Ha5; [done|intros n t; apply Hback|].
    rewrite (others_backend _ _ Hot), Hb. done.
Qed.
End operations.
