(* ===== verification/WebUIDataJobs.v ===== *)
(** * The jobs of WebUI data

    For WebUIData.v: reading the data of a job, and the requests that are
    pending. *)

From S2P Require Import Prelude.
From S2P Require Import WebEnv.
From S2P Require Import WebUIData.
From S2P Require Import WebUIDataRefs.
From S2P Require Import WebUIDataInv.
From S2P Require Import WebUIDataSteps.

(** ** Bytes *)
Lemma string_take_add n m s :
  string_take (n + m) s = string_take n s +:+ string_take m (string_drop n s).
Proof.
  revert s. induction n as [|n IH]; intros s; [done|]. destruct s as [|c s]; [by destruct m|].
  cbn [string_take string_drop Nat.add]. by rewrite IH.
Qed.

Lemma to_int32_sub z o : 0 <= o <= to_int32 z → to_int32 (z - o) = to_int32 z - o.
Proof.
  unfold to_int32. intros Ho. set (m := (z + 2147483648) mod 4294967296) in *.
  assert (0 <= m < 4294967296) by (apply Z.mod_pos_bound; lia).
  assert ((z - o + 2147483648) mod 4294967296 = m - o) as ->; [|lia].
  symmetry. apply (Z.mod_unique_pos _ _ ((z + 2147483648) / 4294967296)); [lia|].
  pose proof (Z.div_mod (z + 2147483648) 4294967296). fold m in H0. lia.
Qed.

Lemma read_bytes_app l r : read_bytes (l ++ [ReadBytes r]) = read_bytes l +:+ r.
Proof.
  induction l as [|[s|] l IH]; cbn; [by rewrite string_app_nil_r| |done].
  by rewrite IH, string_app_assoc.
Qed.

Section jobs.
Context `{WEBUI : WebUIEnv}.
Implicit Types (w : World) (s : srcid) (j : jobid) (J : URLRequestChromeJob) (L : list srcid).

(** What of a job does not change when it is read. *)
Definition same_job J J' : Prop :=
  request_ J' = request_ J ∧ job_backend_ J' = job_backend_ J ∧
  headers_complete J' = headers_complete J ∧ weak_factory_ J' = weak_factory_ J ∧
  job_source_ J' = job_source_ J.

(** How much of the data can be read: its size as an int. *)
Definition readable (d : string) : Z := Z.max 0 (to_int32 (to_size_t (slen d))).

Lemma wp_CompleteRead J d size (Q : Z * string → URLRequestChromeJob → Prop) :
  is_Some (request_ J) → job_data_ J = Some d → 0 <= data_offset_ J <= readable d →
  (∀ n k, data_offset_ J + Z.of_nat k <= readable d →
     Q (n, string_take k (string_drop (Z.to_nat (data_offset_ J)) d))
       (with_data (Some d) (data_offset_ J + Z.of_nat k) (pending_buf_ J) (reads J) J)) →
  wp (CompleteRead size) Q J.
Proof.
  intros [url Hurl] Hd Hoff HQ. unfold CompleteRead. wp_simp. exists url. split; [done|].
  wp_simp. exists d. split; [done|]. unfold readable in *. rewrite to_int32_size_t in *.
  set (off := data_offset_ J) in *. set (m := to_int32 (slen d)) in *.
  assert (Hin : in_int m = true).
  { unfold m, to_int32, in_int, INT_MIN, INT_MAX.
    pose proof (Z.mod_pos_bound (slen d + 2147483648) 4294967296). lia. }
  assert (Hrem : off = 0 ∧ to_int32 (slen d - off) <= 0 ∨ to_int32 (slen d - off) = m - off).
  { destruct (Z.le_gt_cases m 0); [left|right; apply to_int32_sub; unfold m in *; lia].
    assert (off = 0) as -> by lia. rewrite Z.sub_0_r. done. }
  set (rem := to_int32 (slen d - off)) in *.
  set (n := if rem <? size then rem else size).
  assert (Hn : n <= rem) by (unfold n; destruct (Z.ltb_spec rem size); lia).
  destruct (Z.ltb_spec 0 n) as [Hpos|Hneg]; wp_simp.
  - unfold int_add. unfold in_int, INT_MIN, INT_MAX in *.
    destruct Hrem as [[??]|Hrem]; [lia|].
    replace ((-2147483648 <=? off + n) && (off + n <=? 2147483647)) with true by lia.
    wp_simp. rewrite Hd. pose proof (HQ n (Z.to_nat n)) as HQ'.
    rewrite Z2Nat.id in HQ' by lia. apply HQ'. lia.
  - pose proof (HQ n 0%nat) as HQ'. rewrite Z.add_0_r in HQ'.
    replace (with_data (Some d) off (pending_buf_ J) (reads J) J) with J in HQ'
      by (destruct J; cbn in *; by subst).
    apply HQ'. lia.
Qed.

(** A job that got its bytes, for a read that is over. *)
Lemma job_ok_read backend J d k buf :
  job_ok backend J → job_data_ J = Some d → data_offset_ J + Z.of_nat k <= readable d →
  job_ok backend (with_data (Some d) (data_offset_ J + Z.of_nat k) buf
    (reads J ++ [ReadBytes (string_take k (string_drop (Z.to_nat (data_offset_ J)) d))]) J).
Proof.
  intros [H1 H2 H3 H4] Hd Hk. destruct (H1 d Hd) as (Hurl & Hoff & Hread).
  split; cbn; [|done|done|intros Hb; by rewrite (H4 Hb) in Hd].
  intros d' [= <-]. split; [done|]. split; [unfold readable in Hk; lia|].
  rewrite read_bytes_app, Hread. rewrite Z2Nat.inj_add, Nat2Z.id by lia.
  by rewrite string_take_add.
Qed.

Lemma wp_job_DataAvailable backend J bytes (Q : unit → URLRequestChromeJob → Prop) :
  job_ok backend J → is_Some (request_ J) → job_data_ J = None → job_backend_ J = true →
  (∀ J', job_ok backend J' → same_job J J' → job_data_ J' = bytes → Q tt J') →
  wp (job_DataAvailable bytes) Q J.
Proof.
  intros Hok Hurl Hnone Hb HQ. pose proof Hok as [H1 H2 H3 H4]. destruct (H2 Hnone) as [Hoff Hread].
  destruct bytes as [d|]; cbn [job_DataAvailable].
  - wp_simp. set (J1 := with_data (Some d) _ _ _ J).
    assert (Hok1 : job_ok backend J1).
    { split; [|done|done|cbn; congruence]. intros d' [= <-]. cbn. rewrite Hoff, Hread. split; [done|].
      split; [lia|done]. }
    destruct (pending_buf_ J1) as [size|]; [|wp_simp; by apply HQ].
    wp_simp. apply (wp_CompleteRead J1 d); [done|done| |].
    { unfold readable. cbn. rewrite Hoff. lia. }
    intros n k Hk. unfold ReadRawDataComplete. wp_simp.
    apply HQ; [|done|done]. by apply (job_ok_read backend J1 d k None).
  - unfold ReadRawDataComplete. wp_simp. apply HQ; [|done|done].
    split; cbn; rewrite ?Hnone; [done| |done|done]. intros _. split; [done|].
    rewrite <-Hread. clear. induction (reads J) as [|[] l IH]; cbn; [done| |done]. by rewrite IH.
Qed.

Lemma wp_read backend J size (Q : unit → URLRequestChromeJob → Prop) :
  job_ok backend J → pending_buf_ J = None →
  (∀ J', job_ok backend J' → same_job J J' → job_data_ J' = job_data_ J → Q tt J') →
  wp (r ← ReadRawData size; log_read r) Q J.
Proof.
  intros Hok Hbuf HQ. pose proof Hok as [H1 H2 H3 H4]. unfold ReadRawData. wp_simp.
  destruct (job_data_ J) as [d|] eqn:Hd; wp_simp.
  - destruct (H1 d eq_refl) as (Hurl & Hoff & Hread).
    apply (wp_CompleteRead J d); [done|done|done|]. intros n k Hk.
    cbn [log_read]. unfold ReadRawDataComplete. wp_simp. apply HQ; [|done|done].
    by apply (job_ok_read backend J d k (pending_buf_ J)).
  - rewrite Hbuf. split; [done|]. wp_simp. apply HQ; [|done|done].
    split; cbn; done.
Qed.

(** ** Pending requests *)
Lemma pending_find_in id l j : pending_find id l = Some j → (id, j) ∈ l.
Proof.
  induction l as [|[id' j'] l IH]; cbn; [done|].
  destruct (Z.eqb_spec id' id) as [->|]; [intros [= ->]; apply list_elem_of_here|].
  intros ?%IH. by apply list_elem_of_further.
Qed.

Lemma pending_insert_last id j l :
  (∀ id' j', (id', j') ∈ l → id' < id) → pending_insert id j l = l ++ [(id, j)].
Proof.
  induction l as [|[id' j'] l IH]; intros Hl; cbn; [done|].
  pose proof (Hl id' j' (list_elem_of_here _ _)).
  destruct (Z.ltb_spec id id'); [lia|]. destruct (Z.eqb_spec id id'); [lia|].
  rewrite IH; [done|]. intros id'' j'' Hin. by eapply Hl, list_elem_of_further.
Qed.

Lemma erase_job_sublist j l : sublist (erase_job j l) l.
Proof.
  induction l as [|p l IH]; cbn; [done|]. case_bool_decide; by constructor.
Qed.

Lemma erase_job_gone j l id : NoDup l.*2 → (id, j) ∉ erase_job j l.
Proof.
  induction l as [|[id' j'] l IH]; cbn; [intros _; apply not_elem_of_nil|].
  intros [Hj' Hl]%NoDup_cons. case_bool_decide as Heq; cbn in *.
  - subst. intros Hin. apply Hj', list_elem_of_fmap. by exists (id, j).
  - intros [[= -> ->]|Hin]%elem_of_cons; [done|]. by apply IH.
Qed.

Lemma pending_once (l : list (Z * jobid)) id id' j :
  NoDup l.*2 → (id, j) ∈ l → (id', j) ∈ l → id = id'.
Proof.
  induction l as [|[i k] l IH]; [by intros _ ?%not_elem_of_nil|].
  intros [Hk Hl]%NoDup_cons. cbn in Hk.
  assert (∀ i', (i', k) ∉ l) as Hno.
  { intros i' Hin. apply Hk, list_elem_of_fmap. by exists (i', k). }
  intros H1%elem_of_cons H2%elem_of_cons. destruct H1 as [?|H1], H2 as [?|H2]; simplify_eq; try done.
  - by destruct (Hno id').
  - by destruct (Hno id).
  - by apply IH.
Qed.

Lemma jobs_ok_update pending pending' next jobs nj bs backend j J J' :
  jobs_ok pending next jobs nj bs backend → jobs !! j = Some J → job_ok backend J' →
  sublist pending' pending →
  (∀ id, (id, j) ∈ pending' → job_backend_ J' = true ∧ is_Some (request_ J') ∧ job_data_ J' = None) →
  jobs_ok pending' next (<[j := J']> jobs) nj bs backend.
Proof.
  intros [H1 H2 H3 H4 H5 H6 H7] HJ Hok Hsub Hpend.
  assert (Hin : ∀ p, p ∈ pending' → p ∈ pending) by (intros p; by apply (sublist_subseteq _ _ Hsub)).
  split; try done.
  - intros id j' Hp. destruct (H1 id j' (Hin _ Hp)) as (Hid & J0 & HJ0 & Hrest). split; [done|].
    destruct (decide (j' = j)) as [->|].
    + exists J'. rewrite lookup_insert, decide_True by done. split; [done|]. by apply (Hpend id).
    + exists J0. by rewrite lookup_insert_ne by done.
  - eapply sublist_NoDup; [exact H2|]. by apply fmap_sublist.
  - eapply sublist_NoDup; [exact H3|]. by apply fmap_sublist.
  - intros j' J0. destruct (decide (j' = j)) as [->|].
    + rewrite lookup_insert, decide_True by done. intros [= <-]. split; [done|]. by eapply H5.
    + rewrite lookup_insert_ne by done. apply H5.
  - intros Hbs. rewrite (H6 Hbs) in HJ. by rewrite lookup_empty in HJ.
  - intros Hb. destruct (H7 Hb) as [-> ?]. split; [|done]. by apply sublist_nil_r in Hsub.
Qed.

(** A job is replaced; the source it holds changes hands. *)
Lemma refs_put_job w L j J J' nj :
  refs w (opt_list (job_source_ J') ++ L) [] → w_jobs w !! j = Some J →
  refs (with_jobs (<[j := J']> (w_jobs w)) nj w) (opt_list (job_source_ J) ++ L) [].
Proof.
  intros Hr HJ. apply (refs_frame w _ (opt_list (job_source_ J') ++ L) _ [] Hr); try done.
  unfold holders. cbn [with_jobs ui_queue io_queue callbacks data_sources_ w_jobs].
  pose proof (job_refs_insert (w_jobs w) j J') as Hp. rewrite HJ in Hp. cbn in Hp.
  set (A := job_refs (<[j := J']> (w_jobs w))) in *. set (B := opt_list (job_source_ J)) in *.
  set (C := opt_list (job_source_ J')) in *. set (D := job_refs (w_jobs w)) in *.
  set (U := omap ui_ref _). set (I := omap io_ref _). set (K := (callbacks w).*1).
  set (M := (map_to_list _).*2).
  transitivity (U ++ I ++ K ++ M ++ L ++ (A ++ B)); [solve_Permutation|].
  rewrite Hp. solve_Permutation.
Qed.

Lemma refs_put_job_same w L j J J' nj :
  refs w L [] → w_jobs w !! j = Some J → job_source_ J' = job_source_ J →
  refs (with_jobs (<[j := J']> (w_jobs w)) nj w) L [].
Proof.
  intros Hr HJ Hs. pose proof (job_refs_insert (w_jobs w) j J') as Hp. rewrite HJ in Hp. cbn in Hp.
  rewrite Hs in Hp. rewrite (Permutation_app_comm (opt_list (job_source_ J))) in Hp.
  apply Permutation_app_inv_r in Hp. apply (refs_frame w _ L _ [] Hr); try done.
  unfold holders. cbn [with_jobs ui_queue io_queue callbacks data_sources_ w_jobs]. by rewrite Hp.
Qed.

Lemma wp_the_job w j J (Q : URLRequestChromeJob → World → Prop) :
  w_jobs w !! j = Some J → Q J w → wp (the_job j) Q w.
Proof. intros HJ HQ. unfold the_job, the_world. wp_simp. eauto. Qed.

Lemma wp_on_job {A} w j J (m : M URLRequestChromeJob A) (Q : A → World → Prop) :
  w_jobs w !! j = Some J →
  wp m (λ a J', Q a (with_jobs (<[j := J']> (w_jobs w)) (next_job w) w)) J →
  wp (on_job j m) Q w.
Proof.
  intros HJ (a & J' & Hrun & HQ)%wp_run. unfold on_job, put_job. wp_simp.
  apply (wp_the_job w j J); [done|]. rewrite Hrun. wp_simp. done.
Qed.

Lemma by_name_same w w' :
  w_sources w' = w_sources w → data_sources_ w' = data_sources_ w → w_backend w' = w_backend w →
  by_name w → by_name w'.
Proof.
  intros Hs Hd Hb [H1 H2 H3]. unfold attrs in *. split; unfold attrs; rewrite ?Hs, ?Hd, ?Hb; done.
Qed.
End jobs.
