(* ===== verification/WebUIDataEvents.v ===== *)
(** * The events of WebUI data

    For WebUIData.v: every event that may happen trips no check and preserves
    the invariants of WebUIDataInv.v. *)

From S2P Require Import Prelude.
From S2P Require Import WebEnv.
From S2P Require Import WebUIData.
From S2P Require Import WebUIDataRefs.
From S2P Require Import WebUIDataInv.
From S2P Require Import WebUIDataSteps.
From S2P Require Import WebUIDataJobs.

Section events.
Context `{WEBUI : WebUIEnv} {LAWS : WebUIEnvLaws}.
Implicit Types (w : World) (s : srcid) (j : jobid) (L : list srcid).

(** ** The backend *)

(** The backend is there, or may be created. *)
Definition backend_usable w : Prop :=
  w_backend w = BackendAlive ∨ w_backend w = BackendNotCreated ∧ w_browser_state w = true ∧
    pending_requests_ w = [] ∧ next_request_id_ w = 0.

Lemma wp_GetBackend shared w L (Q : unit → World → Prop) :
  refs w L [] → by_name w → backend_usable w →
  (∀ w', refs w' L [] → by_name w' → others (with_backend (w_browser_state w) BackendAlive w) w' →
     Q tt w') →
  wp (GetURLDataManagerIOSBackendOnIOThread shared) Q w.
Proof using All.
  intros Hr [Hn1 Hn2 Hn3] Hu HQ. unfold GetURLDataManagerIOSBackendOnIOThread, the_world. wp_simp.
  destruct Hu as [Hb|(Hb & Hbs & Hp & Hid)]; rewrite Hb.
  { wp_simp. apply HQ; [done|done|]. split; cbn; rewrite ?Hb; try done.
    exists 0%nat. by rewrite app_nil_r. }
  rewrite Hbs. unfold URLDataManagerIOSBackend_new, URLDataSourceIOSImpl_new, put_source, the_world.
  wp_simp. set (w1 := with_pending [] 0 _).
  set (x := MkSource shared.1 shared.2 false rc_new false).
  set (n := next_source w1).
  set (w2 := with_next_source _ (with_sources _ w1)).
  assert (Hds : data_sources_ w = ∅) by (apply Hn3; by rewrite Hb).
  assert (Hr2 : refs w2 L [n]).
  { apply (refs_new w1 L [] x); [|apply law_rc_new].
    apply (refs_frame w _ L _ [] Hr); done. }
  assert (Hx : w_sources w2 !! n = Some x) by (cbn; by rewrite lookup_insert, decide_True).
  assert (Hnh : n ∉ holders w2 ++ L) by (apply (refs_sched _ _ _ Hr2); set_solver).
  assert (Ha : attrs w2 = <[n := (shared.1, false)]> (attrs w))
    by (unfold attrs; cbn; by rewrite fmap_insert).
  apply (wp_AddDataSource w2 L n x); [by rewrite decide_False|done| |done| |].
  - split; change (data_sources_ w2) with (data_sources_ w); rewrite ?Ha.
    + intros m t. rewrite Hds. by rewrite lookup_empty.
    + intros m t. destruct (decide (n = t)) as [<-|];
        [rewrite lookup_insert, decide_True by done; naive_solver|].
      rewrite lookup_insert_ne by done. apply Hn2.
    + done.
  - right. change (data_sources_ w2) with (data_sources_ w). by rewrite Hds, lookup_empty.
  - intros w' Hr' Hn' Hot. apply HQ; [done|done|]. etrans; [|exact Hot].
    split; try done. exists 0%nat. by rewrite app_nil_r.
Qed.

Lemma wp_clear_backends l w L Z (Q : unit → World → Prop) :
  refs w L Z → (∀ s, s ∈ l → is_Some (w_sources w !! s)) →
  (∀ w', refs w' L Z → others w w' → data_sources_ w' = data_sources_ w → holders w' = holders w →
     (∀ t n, attrs w' !! t = Some (n, true) → attrs w !! t = Some (n, true) ∧ t ∉ l) → Q tt w') →
  wp (for_sources l (λ s, set_source_backend s false)) Q w.
Proof using All.
  revert w. induction l as [|s l IH]; intros w Hr Hl HQ; cbn [for_sources]; wp_simp.
  { apply HQ; try done. intros t n Ht. split; [done|]. apply not_elem_of_nil. }
  apply (wp_set_source_backend w L Z s false _ Hr); [apply Hl; set_solver|].
  intros w1 Hr1 Hot1 Hds1 Ha1 Hh1. apply (IH w1 Hr1).
  { intros t Ht. destruct (Hl t) as [x Hx]; [set_solver|].
    assert (is_Some (attrs w1 !! t)) as Hs.
    { rewrite Ha1, lookup_alter_is_Some, (attrs_lookup _ _ _ Hx). by eexists. }
    unfold attrs in Hs. rewrite lookup_fmap in Hs. by apply fmap_is_Some in Hs. }
  intros w2 Hr2 Hot2 Hds2 Hh2 Ha2. apply HQ; [done|by etrans|congruence|congruence|].
  intros t n Ht. destruct (Ha2 t n Ht) as [Ht1 Htl]. rewrite Ha1 in Ht1.
  destruct (decide (s = t)) as [<-|Hst].
  - rewrite lookup_alter_eq in Ht1. by destruct (attrs w !! s); simplify_eq/=.
  - rewrite lookup_alter_ne in Ht1 by done. split; [done|set_solver].
Qed.

Lemma wp_release_all l w L (Q : unit → World → Prop) :
  refs w (l ++ L) [] → (∀ w', refs w' L [] → quiet w w' → Q tt w') →
  wp (for_sources l (Release false)) Q w.
Proof using All.
  revert w. induction l as [|s l IH]; intros w Hr HQ; cbn [for_sources]; wp_simp; [by apply HQ|].
  apply (wp_Release false w (l ++ L) s _ Hr). intros w1 Hr1 Hq1 _.
  apply (IH w1 Hr1). intros w2 Hr2 Hq2. apply HQ; [done|by etrans].
Qed.

Lemma wp_backend_destroy w L (Q : unit → World → Prop) :
  refs w L [] → by_name w →
  (∀ w', refs w' L [] → by_name w' →
     others (with_backend (w_browser_state w) BackendDeleted w) w' → Q tt w') →
  wp URLDataManagerIOSBackend_destroy Q w.
Proof using All.
  intros Hr [Hn1 Hn2 Hn3] HQ. unfold URLDataManagerIOSBackend_destroy, the_world. wp_simp.
  set (l := (map_to_list (data_sources_ w)).*2).
  assert (Hl : ∀ n s, data_sources_ w !! n = Some s → s ∈ l).
  { intros n s Hs. apply list_elem_of_fmap. exists (n, s). split; [done|].
    by apply elem_of_map_to_list. }
  eapply (wp_clear_backends l w L); [exact Hr| |].
  { intros s Hs. apply (refs_held _ _ _ Hr). unfold holders. rewrite !elem_of_app. left. do 3 right.
    by left. }
  intros w1 Hr1 Hot1 Hds1 Hh1 Ha1. wp_simp.
  set (w2 := with_data_sources ∅ w1).
  assert (Hr2 : refs w2 (l ++ L) []).
  { apply (refs_frame w1 _ L _ [] Hr1); try done. unfold holders, w2.
    cbn [with_data_sources data_sources_ ui_queue io_queue callbacks w_jobs].
    rewrite Hds1, map_to_list_empty. fold l.
    cbn. solve_Permutation. }
  apply (wp_release_all l w2 L _ Hr2). intros w3 Hr3 Hq3. wp_simp.
  apply HQ.
  - apply (refs_frame w3 _ L _ [] Hr3); done.
  - split; cbn; rewrite ?(quiet_ds _ _ Hq3); cbn.
    + intros n s. by rewrite lookup_empty.
    + intros n s Hs%(quiet_attrs _ _ Hq3). destruct (Ha1 s n Hs) as [Hs0 Hsl].
      destruct Hsl. eapply Hl, Hn2, Hs0.
    + done.
  - assert (Hot : others w w3)
      by (etrans; [exact Hot1|]; etrans; [apply others_ds|apply (quiet_others _ _ Hq3)]).
    destruct Hot. by split; cbn; rewrite ?others_bs0.
Qed.

(** ** Closing *)
Lemma closing_post io bs b t :
  is_delete t = false → (is_add t = true → bs = true) → closing io bs b → closing (io ++ [t]) bs b.
Proof using Type.
  intros Hd Ha H. inversion H as [backend Hn Hb|io1 io2 Heq H1 H2 H3|backend H1 H2 H3]; subst.
  - apply Open; [|done]. by rewrite existsb_app, Hn; cbn; rewrite Hd.
  - apply (Closing _ io1 (io2 ++ [t])); [by rewrite <-app_assoc|done| |];
      rewrite existsb_app, ?H2, ?H3; cbn; [by rewrite Hd|].
    destruct (is_add t); [by specialize (Ha eq_refl)|done].
  - apply Closed; [| |done]; rewrite existsb_app, ?H1, ?H2; cbn; [by rewrite Hd|].
    destruct (is_add t); [by specialize (Ha eq_refl)|done].
Qed.

Lemma closing_pop io bs b t :
  is_delete t = false → closing (t :: io) bs b → closing io bs b.
Proof using Type.
  intros Hd H. inversion H as [backend Hn Hb|io1 io2 Heq H1 H2 H3|backend H1 H2 H3]; subst; cbn in *.
  - apply Open; [|done]. by rewrite Hd in Hn.
  - destruct io1 as [|t' io1]; simplify_eq/=. apply (Closing _ io1 io2); try done.
    by rewrite Hd in H1.
  - apply Closed; [by rewrite Hd in H1| |done]. by apply orb_false_iff in H2 as [_ ?].
Qed.

Lemma closing_alive io bs b t :
  closing (t :: io) bs b → t = DeleteBackendTask →
  bs = false ∧ existsb is_delete io = false ∧ existsb is_add io = false.
Proof using Type.
  intros H ->. inversion H as [backend Hn Hb|io1 io2 Heq H1 H2 H3|backend H1 H2 H3]; subst; cbn in *;
    [done| |done].
  destruct io1 as [|t' io1]; simplify_eq/=; done.
Qed.

(** A source is added while the backend is usable. *)
Lemma flow_usable w s q :
  flow w → io_queue w = AddDataSourceOnIOThreadTask s :: q → backend_usable w.
Proof using Type.
  intros [Hj Hc Ho] Hq. rewrite Hq in Hc. unfold backend_usable.
  destruct (w_backend w) eqn:Hb; [right|by left|].
  - destruct (jobs_not_created _ _ _ _ _ _ Hj eq_refl). split_and!; try done.
    inversion Hc; subst; cbn in *; done.
  - exfalso. inversion Hc; subst; cbn in *; done.
Qed.

Lemma flow_create w : flow w → w_browser_state w = true → backend_usable w →
  flow (with_backend (w_browser_state w) BackendAlive w).
Proof using Type.
  intros [[J1 J2 J3 J4 J5 J6 J7] Hc Ho] Hbs Hu. split; [|cbn|done].
  - split; try done. intros j J HJ. destruct (J5 j J HJ) as [[? ? ? ?] ?]. by split.
  - inversion Hc; subst; [by apply Open|congruence..].
Qed.

Lemma flow_pop_io w t q :
  flow w → io_queue w = t :: q → is_delete t = false →
  (∀ j g s mime, t ≠ MimeTypeAvailableTask j g s mime) → flow (with_io q w).
Proof using Type.
  intros [Hj Hc Ho] Hq Hd Ht. rewrite Hq in *. split; [done|by eapply closing_pop|].
  eapply order_run_io; [exact Ho|done|]. intros id j J _ HJ Hh. exists J. split_and!; try done.
Qed.

Lemma flow_post_io w t :
  flow w → is_delete t = false → (is_add t = true → w_browser_state w = true) →
  (∀ s id bytes, t = SendResponseOnIOThreadTask s id bytes → (s, id) ∈ started w) →
  flow (with_io (io_queue w ++ [t]) w).
Proof using Type.
  intros [Hj Hc Ho] Hd Ha Ht. split; [done|by apply closing_post|by apply order_io].
Qed.

(** A task that was popped leaves its reference to the step. *)
Lemma refs_pop_io w t q :
  refs w [] [] → io_queue w = t :: q → refs (with_io q w) (opt_list (io_ref t)) [].
Proof using Type.
  intros Hr Hq. apply (refs_frame w _ [] _ [] Hr); try done.
  rewrite (holders_pop_io w t q Hq). solve_Permutation.
Qed.

Lemma refs_pop_ui w t q :
  refs w [] [] → ui_queue w = t :: q → t ≠ DeleteDataSourcesTask →
  refs (with_ui q w) (opt_list (ui_ref t)) [].
Proof using Type.
  intros Hr Hq Ht. apply (refs_frame w _ [] _ [] Hr); try done.
  - cbn. rewrite Hq. intros [|]%elem_of_cons; [by subst|done].
  - rewrite (holders_pop_ui w t q Hq). solve_Permutation.
Qed.

Lemma wp_Release_inv on_ui w L s (Q : unit → World → Prop) :
  webui_inv (s :: L) w → (∀ w', webui_inv L w' → (on_ui = true → kept w w') → Q tt w') →
  wp (Release on_ui s) Q w.
Proof using All.
  intros [Hr Hn Hf] HQ. apply (wp_Release on_ui w L s _ Hr). intros w' Hr' Hq' Hk.
  apply HQ; [|done]. by apply (webui_inv_quiet w).
Qed.

(** ** The IO thread *)
Lemma wp_run_add shared w s q :
  webui_inv [] w → io_queue w = AddDataSourceOnIOThreadTask s :: q →
  wp (run_io_thread_task shared (AddDataSourceOnIOThreadTask s)) (λ _ w', webui_inv [] w') (with_io q w).
Proof using All.
  intros [Hr Hn Hf] Hq. cbn [run_io_thread_task]. wp_simp.
  pose proof (flow_usable w s q Hf Hq) as Hu. pose proof (refs_pop_io w _ q Hr Hq) as Hr0.
  cbn in Hr0. pose proof (flow_pop_io w _ q Hf Hq eq_refl ltac:(done)) as Hf0.
  apply (wp_GetBackend shared (with_io q w) [s]); [done|by apply (by_name_same w)|done|].
  intros w1 Hr1 Hn1 Hot1.
  assert (Hin : s ∈ holders w1 ++ [s]) by set_solver.
  assert (Hf1 : flow w1).
  { apply (flow_others _ _ Hot1). destruct Hu as [Hb|(Hb & Hbs & ?)].
    - destruct Hf0. split; cbn in *; by rewrite ?Hb in *.
    - apply flow_create; [done|done|by right]. }
  destruct (refs_held _ _ _ Hr1 s Hin) as [x Hx]. wp_simp.
  apply (wp_AddDataSource w1 [s] s x); [by rewrite decide_True|done|done| |by left|].
  { by rewrite (others_backend _ _ Hot1). }
  intros w2 Hr2 Hn2 Hot2. wp_simp. apply (wp_Release_inv false w2 []).
  { split; [done|done|]. by apply (flow_others w1). }
  by intros w3 Hi3 _.
Qed.

Lemma wp_MimeTypeAvailable w L j J s mime (Q : unit → World → Prop) :
  refs w L [] → by_name w → s ∈ L → w_jobs w !! j = Some J →
  (∀ w' src, refs w' L [] → by_name w' →
     others (with_jobs (<[j := with_job_source src (with_mime mime true J)]> (w_jobs w)) (next_job w) w)
       w' → Q tt w') →
  wp (MimeTypeAvailable j s mime) Q w.
Proof using All.
  intros Hr Hn Hs HJ HQ. unfold MimeTypeAvailable, put_job. wp_simp.
  apply (wp_the_job w j J _ HJ). wp_simp.
  set (J1 := with_mime mime (headers_complete J) J).
  set (w1 := with_jobs (<[j := J1]> (w_jobs w)) (next_job w) w).
  assert (HJ1 : w_jobs w1 !! j = Some J1) by (cbn; by rewrite lookup_insert, decide_True).
  assert (Hr1 : refs w1 L []) by (by apply (refs_put_job_same w L j J)).
  assert (Hn1 : by_name w1) by (by apply (by_name_same w)).
  case_bool_decide as Hhtml.
  - wp_simp. apply (wp_AddRef w1 L [] s _ Hr1); [set_solver|]. intros X HX HrX. wp_simp.
    apply (wp_the_job _ j J1); [done|]. wp_simp.
    set (w2 := with_jobs _ _ _).
    assert (Hr2 : refs w2 (opt_list (job_source_ J) ++ L) []).
    { apply (refs_put_job (with_sources X w1) L j J1 (with_job_source (Some s) J1)); done. }
    assert (Hn2 : by_name w2).
    { apply (by_name_same (with_sources X w1)); try done. by apply by_name_sources. }
    apply (wp_Release_opt w2 L _ _ Hr2). intros w3 Hr3 Hq3.
    pose proof (quiet_others _ _ Hq3) as Hot3. wp_simp.
    apply (wp_the_job _ j (with_job_source (Some s) J1)).
    { rewrite (others_jobs _ _ Hot3). cbn. by rewrite lookup_insert, decide_True. }
    wp_simp. apply (HQ _ (Some s)).
    + apply (refs_put_job_same w3 L j (with_job_source (Some s) J1)); [done| |done].
      rewrite (others_jobs _ _ Hot3). cbn. by rewrite lookup_insert, decide_True.
    + apply (by_name_same w3); try done. by eapply by_name_quiet.
    + destruct Hot3 as [? ? ? ? ? ? ? ? Hj ?]. split; try done; cbn.
      rewrite Hj. cbn. by rewrite !insert_insert_eq.
  - wp_simp. apply (wp_the_job w1 j J1 _ HJ1). wp_simp. apply (HQ _ (job_source_ J)).
    + by apply (refs_put_job_same w1 L j J1).
    + by apply (by_name_same w1).
    + split; try done; cbn; [exists 0%nat; by rewrite app_nil_r|].
      rewrite !insert_insert_eq. by destruct J.
Qed.

Lemma wp_run_mime shared w j g s mime q :
  webui_inv [] w → io_queue w = MimeTypeAvailableTask j g s mime :: q →
  wp (run_io_thread_task shared (MimeTypeAvailableTask j g s mime)) (λ _ w', webui_inv [] w') (with_io q w).
Proof using All.
  intros [Hr Hn [Hj Hc Ho]] Hq. cbn [run_io_thread_task]. unfold the_world. wp_simp.
  pose proof (refs_pop_io w _ q Hr Hq) as Hr0. cbn in Hr0.
  assert (Hn0 : by_name (with_io q w)) by (by apply (by_name_same w)).
  rewrite Hq in Hc, Ho. apply closing_pop in Hc; [|done].
  assert (Hrel : ∀ w1, refs w1 [s] [] → by_name w1 → flow w1 →
    wp (Release false s) (λ _ w', webui_inv [] w') w1).
  { intros w1 Hr1 Hn1 Hf1. apply (wp_Release_inv false w1 []); [done|]. by intros w' Hi _. }
  unfold weak_valid. cbn [with_io w_jobs].
  destruct (w_jobs w !! j) as [J|] eqn:HJ; [destruct (Z.eqb_spec (weak_factory_ J) g) as [Hg|Hg]|].
  - wp_simp. apply (wp_MimeTypeAvailable (with_io q w) [s] j J s mime);
      [done|done|set_solver|done|]. intros w1 src Hr1 Hn1 Hot1. wp_simp.
    apply Hrel; [done|done|]. apply (flow_others _ _ Hot1). split; cbn; [|done|].
    + destruct (jobs_each _ _ _ _ _ _ Hj j J HJ) as [[H1 H2 H3 H4] _].
      apply (jobs_ok_update (pending_requests_ w) _ _ _ _ _ _ j J); [done|done|done|done|].
      intros id Hid. destruct (jobs_pending _ _ _ _ _ _ Hj id j Hid) as (_ & J0 & HJ0 & ?).
      cbn. congruence.
    + eapply order_run_io; [exact Ho|done|]. intros id j' J' Hid HJ' Hh.
      destruct (decide (j' = j)) as [->|Hne].
      * rewrite lookup_insert, decide_True in HJ' by done. by simplify_eq/=.
      * rewrite lookup_insert_ne in HJ' by done. exists J'. split_and!; try done.
        intros s' mime' Heq. congruence.
  - wp_simp. apply Hrel; [done|done|]. split; cbn; [done|done|].
    eapply order_run_io; [exact Ho|done|]. intros id j' J' Hid HJ' Hh. exists J'.
    split_and!; try done. intros s' mime' Heq. congruence.
  - wp_simp. apply Hrel; [done|done|]. split; cbn; [done|done|].
    eapply order_run_io; [exact Ho|done|]. intros id j' J' Hid HJ' Hh. exists J'.
    split_and!; try done. intros s' mime' Heq. congruence.
Qed.

Lemma wp_DataAvailable w L id bytes (Q : unit → World → Prop) :
  webui_inv L w → (∀ w', webui_inv L w' → Q tt w') → wp (DataAvailable id bytes) Q w.
Proof using Type.
  intros [Hr Hn [Hj Hc Ho]] HQ. unfold DataAvailable, the_world. wp_simp.
  destruct (pending_find id (pending_requests_ w)) as [j|] eqn:Hfind; [|wp_simp; by apply HQ].
  apply pending_find_in in Hfind as Hin. wp_simp.
  destruct (jobs_pending _ _ _ _ _ _ Hj id j Hin) as (_ & J & HJ & Hback & Hurl & Hnone).
  destruct (jobs_each _ _ _ _ _ _ Hj j J HJ) as [Hok _].
  set (p' := pending_erase id (pending_requests_ w)).
  assert (Hsub : sublist p' (pending_requests_ w)) by apply sublist_filter.
  assert (Hgone : ∀ id', (id', j) ∉ p').
  { intros id' [Hne Hin']%list_elem_of_filter. cbn in Hne.
    apply Hne. by apply (pending_once _ _ _ j (jobs_once _ _ _ _ _ _ Hj)). }
  eapply wp_on_job; [exact HJ|]. cbn [with_pending w_jobs next_job].
  apply (wp_job_DataAvailable (w_backend w)); [done|done|done|done|].
  intros J' Hok' (Hu & Hb & Hh & Hw & Hs) _. apply HQ. split.
  - eapply (refs_put_job_same (with_pending p' _ w)); [|done|done].
    apply (refs_frame w _ L _ [] Hr); done.
  - by apply (by_name_same w).
  - split; cbn; [|done|].
    + apply (jobs_ok_update (pending_requests_ w) _ _ _ _ _ _ j J); [done..|].
      intros id' Hid'. by destruct (Hgone id').
    + eapply order_jobs; [exact Ho|apply sublist_subseteq, Hsub|]. intros id' j' J0 Hin' HJ0.
      destruct (decide (j' = j)) as [->|Hne]; [by destruct (Hgone id')|].
      rewrite lookup_insert_ne in HJ0 by done. by exists J0.
Qed.
End events.
