(* ===== verification/WebUIDataRun.v ===== *)
(** * Every event of WebUI data preserves the invariants

    For WebUIData.v: the tasks of both threads, what the network code does
    with its jobs, and what the sources and the browser state do. *)

From S2P Require Import Prelude.
From S2P Require Import WebEnv.
From S2P Require Import WebUIData.
From S2P Require Import WebUIDataRefs.
From S2P Require Import WebUIDataInv.
From S2P Require Import WebUIDataSteps.
From S2P Require Import WebUIDataJobs.
From S2P Require Import WebUIDataEvents.

Section run.
Context `{WEBUI : WebUIEnv} {LAWS : WebUIEnvLaws}.
Implicit Types (w : World) (s : srcid) (j : jobid) (L : list srcid).

(** ** The IO thread *)
Lemma wp_run_send shared w s id bytes q :
  webui_inv [] w → io_queue w = SendResponseOnIOThreadTask s id bytes :: q →
  wp (run_io_thread_task shared (SendResponseOnIOThreadTask s id bytes)) (λ _ w', webui_inv [] w')
    (with_io q w).
Proof using All.
  intros [Hr Hn Hf] Hq. cbn [run_io_thread_task]. unfold SendResponseOnIOThread. wp_simp.
  pose proof (refs_pop_io w _ q Hr Hq) as Hr0. cbn in Hr0.
  assert (Hi0 : webui_inv [s] (with_io q w)).
  { split; [done|by apply (by_name_same w)|]. by eapply (flow_pop_io w). }
  assert (Hrel : ∀ w1, webui_inv [s] w1 → wp (Release false s) (λ _ w', webui_inv [] w') w1).
  { intros w1 Hi1. apply (wp_Release_inv false w1 [] s _ Hi1). by intros w' Hi _. }
  destruct (refs_held _ _ _ Hr0 s) as [x Hx]; [set_solver|].
  apply (wp_the_source s _ _ x Hx). wp_simp. destruct (source_backend_ x).
  - by apply (wp_DataAvailable _ [s]).
  - by apply Hrel.
Qed.

Lemma wp_run_delete_backend shared w q :
  webui_inv [] w → io_queue w = DeleteBackendTask :: q →
  wp (run_io_thread_task shared DeleteBackendTask) (λ _ w', webui_inv [] w') (with_io q w).
Proof using All.
  intros [Hr Hn [Hj Hc Ho]] Hq. cbn [run_io_thread_task].
  pose proof (refs_pop_io w _ q Hr Hq) as Hr0. cbn in Hr0. rewrite Hq in Hc, Ho.
  destruct (closing_alive _ _ _ _ Hc eq_refl) as (Hbs & Hd & Ha).
  apply (wp_backend_destroy _ []); [done|by apply (by_name_same w)|]. intros w' Hr' Hn' Hot.
  split; [done|done|]. apply (flow_others _ _ Hot). destruct Hj as [J1 J2 J3 J4 J5 J6 J7].
  split; cbn.
  - rewrite (J6 Hbs). split; try done. intros id j Hin. destruct (J1 id j Hin) as (_ & J & HJ & _).
    by rewrite (J6 Hbs), lookup_empty in HJ.
  - rewrite Hbs. by apply Closed.
  - eapply order_run_io; [exact Ho|done|]. intros id j J _ HJ Hh. by exists J.
Qed.

Lemma wp_run_io shared w :
  webui_inv [] w → wp (run_io shared) (λ _ w', webui_inv [] w') w.
Proof using All.
  intros Hi. unfold run_io, the_world. wp_simp. destruct (io_queue w) as [|t q] eqn:Hq; wp_simp.
  { done. }
  destruct t as [s|j g s mime|s id bytes|].
  - by eapply (wp_run_add shared w s).
  - by eapply (wp_run_mime shared w).
  - by eapply (wp_run_send shared w).
  - by eapply (wp_run_delete_backend shared w).
Qed.

(** ** The UI thread *)

(** What a step of the UI thread does to the sources that wait. *)
Definition ui_progress w q w' : Prop :=
  ui_queue w' = q ∧ deleted w ⊆ deleted w' ∧
  ∀ s, s ∈ sched w → s ∈ sched w' ∨ (s, true) ∈ deleted w'.

Lemma ui_progress_kept w q w1 w2 :
  ui_queue w1 = q → scheduled_ w1 = scheduled_ w → deleted w1 = deleted w → kept w1 w2 →
  ui_progress w q w2.
Proof using Type.
  intros Hu Hs Hd (Hu2 & Hs2 & Hd2). unfold ui_progress, sched. rewrite Hs2, Hs, Hu2.
  split_and!; [done| |by left]. by rewrite <-Hd.
Qed.

Lemma kept_trans w1 w2 w3 : kept w1 w2 → kept w2 w3 → kept w1 w3.
Proof using All. intros (?&?&?) (?&?&?). split_and!; [congruence|congruence|set_solver]. Qed.

Lemma wp_run_ui_mime w s path j g q :
  webui_inv [] w → ui_queue w = GetMimeTypeOnUITask s path j g :: q →
  wp (run_ui_thread_task (GetMimeTypeOnUITask s path j g)) (λ _ w', webui_inv [] w' ∧ ui_progress w q w')
    (with_ui q w).
Proof using All.
  intros [Hr Hn [Hj Hc Ho]] Hq. cbn [run_ui_thread_task]. unfold GetMimeTypeOnUI.
  pose proof (refs_pop_ui w _ q Hr Hq ltac:(done)) as Hr0. cbn in Hr0. wp_simp.
  destruct (refs_held _ _ _ Hr0 s) as [x Hx]; [set_solver|].
  apply (wp_the_source s _ _ x Hx). wp_simp.
  rewrite Hq in Ho. eapply (wp_share_io _ [s] s); [done|by apply (by_name_same w)| |set_solver|done|].
  { split; cbn; [done|by apply closing_post|]. by eapply order_run_mime. }
  intros w1 Hi1 Hk1. apply (wp_Release_inv true w1 [] s _ Hi1). intros w2 Hi2 Hk2. split; [done|].
  apply (ui_progress_kept w q (with_ui q w)); try done. eapply kept_trans; [done|by apply Hk2].
Qed.

Lemma wp_run_ui_call w s path id q :
  webui_inv [] w → ui_queue w = CallStartRequestTask s path id :: q →
  wp (run_ui_thread_task (CallStartRequestTask s path id)) (λ _ w', webui_inv [] w' ∧ ui_progress w q w')
    (with_ui q w).
Proof using All.
  intros [Hr Hn [Hj Hc Ho]] Hq. cbn [run_ui_thread_task]. unfold CallStartRequest.
  pose proof (refs_pop_ui w _ q Hr Hq ltac:(done)) as Hr0. cbn in Hr0. wp_simp. rewrite Hq in Ho.
  apply (wp_AddRef _ [s] [] s _ Hr0); [set_solver|]. intros X HX HrX. wp_simp.
  set (w1 := with_callbacks _ _ _).
  assert (Hi1 : webui_inv [s] w1).
  { split.
    - apply (refs_frame _ _ _ [s] _ HrX); try done. unfold holders, w1.
      cbn [with_callbacks with_sources with_ui ui_queue io_queue callbacks data_sources_ w_jobs].
      rewrite fmap_app. cbn. solve_Permutation.
    - apply (by_name_same (with_sources X (with_ui q w))); try done.
      apply by_name_sources; [done|]. by apply (by_name_same w).
    - split; cbn; [done|done|]. by eapply order_run_call. }
  apply (wp_Release_inv true w1 [] s _ Hi1). intros w2 Hi2 Hk2. split; [done|].
  apply (ui_progress_kept w q w1); try done. by apply Hk2.
Qed.

Lemma wp_run_ui_delete w q :
  webui_inv [] w → ui_queue w = DeleteDataSourcesTask :: q →
  wp (run_ui_thread_task DeleteDataSourcesTask) (λ _ w', webui_inv [] w' ∧ ui_progress w q w')
    (with_ui q w).
Proof using All.
  intros [Hr Hn [Hj Hc Ho]] Hq. cbn [run_ui_thread_task]. rewrite Hq in Ho.
  apply (wp_DeleteDataSources w [] q _ Hr Hq). intros w' Hr' Hq' Hs' Hu' Hd'. split.
  - apply (webui_inv_quiet (with_ui q w)); [done|done|by apply (by_name_same w)|].
    split; cbn; [done|done|]. by eapply order_run_delete.
  - split_and!; [done|rewrite Hd'; set_solver|]. intros s Hs. right. rewrite Hd'.
    apply elem_of_app. right. apply list_elem_of_fmap. by exists s.
Qed.

Lemma wp_run_ui w :
  webui_inv [] w → wp run_ui (λ _ w', webui_inv [] w' ∧ ui_progress w (tail (ui_queue w)) w') w.
Proof using All.
  intros Hi. unfold run_ui, the_world. wp_simp. destruct (ui_queue w) as [|t q] eqn:Hq; wp_simp.
  { split; [done|]. split_and!; [done|done|by left]. }
  cbn [tail]. destruct t.
  - by apply wp_run_ui_mime.
  - by apply wp_run_ui_call.
  - by apply wp_run_ui_delete.
Qed.

(** ** Sources and their callbacks *)
Lemma wp_add_new w name source repl (Q : unit → World → Prop) :
  webui_inv [] w → w_browser_state w = true → (∀ w', webui_inv [] w' → Q tt w') →
  wp (AddDataSource_new name source repl) Q w.
Proof using All.
  intros [Hr [Hn1 Hn2 Hn3] Hf] Hbs HQ.
  unfold AddDataSource_new, URLDataSourceIOSImpl_new, AddDataSource_impl, put_source, the_world.
  wp_simp. set (x := MkSource name source repl rc_new false). set (n := next_source w).
  set (w1 := with_next_source _ _).
  assert (Hr1 : refs w1 [] [n]) by (apply (refs_new w [] [] x); [done|apply law_rc_new]).
  assert (Hnh : n ∉ holders w1 ++ []) by (apply (refs_sched _ _ _ Hr1); set_solver).
  assert (Hnone : attrs w !! n = None).
  { unfold attrs. rewrite lookup_fmap. destruct (w_sources w !! n) eqn:Hsn; [|done].
    pose proof (refs_next _ _ _ Hr n (or_introl (mk_is_Some _ _ Hsn))). unfold n in *. lia. }
  assert (Ha : attrs w1 = <[n := (name, false)]> (attrs w))
    by (unfold attrs; cbn; by rewrite fmap_insert).
  assert (Hbn1 : by_name w1).
  { split; rewrite ?Ha; [|intros m t|done].
    - intros m t Ht. rewrite lookup_insert_ne; [by apply Hn1|]. intros <-.
      apply Hn1 in Ht. congruence.
    - destruct (decide (n = t)) as [<-|];
        [rewrite lookup_insert, decide_True by done; naive_solver|].
      rewrite lookup_insert_ne by done. apply Hn2. }
  apply (wp_AddRef_gen w1 [] [] n).
  { by rewrite decide_False. }
  { cbn. rewrite lookup_insert, decide_True by done. by eexists. }
  intros X HX HrX. unfold post_io. wp_simp. apply HQ. split.
  - apply (refs_frame _ _ _ [] _ HrX); try done. rewrite holders_post_io. cbn. solve_Permutation.
  - apply (by_name_same (with_sources X w1)); try done. by apply by_name_sources.
  - by destruct (flow_post_io w (AddDataSourceOnIOThreadTask n) Hf eq_refl (λ _, Hbs) ltac:(done)).
Qed.

Lemma wp_SendResponse w L s id bytes (Q : unit → World → Prop) :
  webui_inv L w → is_Some (w_sources w !! s) → (s, id) ∈ started w →
  (∀ w', webui_inv L w' → Q tt w') → wp (SendResponse s id bytes) Q w.
Proof using All.
  intros Hi [x Hx] Hst HQ. pose proof Hi as [Hr Hn Hf]. unfold SendResponse, the_world. wp_simp.
  destruct (IsScheduledForDeletion s w) eqn:Hs; wp_simp; [by apply HQ|].
  apply (wp_share_io w L s); [done|done| | |done|].
  - apply flow_post_io; [done|done|done|]. intros s' id' b' [= -> -> ->]. done.
  - destruct (decide (s ∈ holders w ++ L)) as [|Hns]; [done|].
    pose proof (refs_zero _ _ _ Hr s x Hx Hns) as Hsch. rewrite app_nil_r in Hsch.
    unfold IsScheduledForDeletion, sched in *. destruct (scheduled_ w); [|by apply not_elem_of_nil in Hsch].
    by apply bool_decide_eq_false in Hs.
  - intros w' Hi' _. by apply HQ.
Qed.

Lemma wp_take_callback w n c (Q : srcid * Z → World → Prop) :
  webui_inv [] w → callbacks w !! n = Some c →
  (∀ w', webui_inv [c.1] w' → c ∈ started w' → Q c w') →
  wp (take_callback n) Q w.
Proof using Type.
  intros [Hr Hn [Hj Hc Ho]] Hn0 HQ. unfold take_callback, the_world. wp_simp.
  exists c. split; [done|]. wp_simp.
  assert (Hp : callbacks w ≡ₚ c :: delete n (callbacks w)) by (by apply delete_Permutation).
  destruct Ho as [O1 O2 O3 O4 O5].
  apply HQ; [|apply O4; rewrite Hp; apply list_elem_of_here]. split.
  - apply (refs_frame _ _ _ [c.1] _ Hr); try done. unfold holders.
    cbn [with_callbacks ui_queue io_queue callbacks data_sources_ w_jobs].
    rewrite (fmap_Permutation fst _ _ Hp). cbn. solve_Permutation.
  - by apply (by_name_same w).
  - split; cbn; [done|done|]. split; try done. intros c' Hc'. apply O4. rewrite Hp.
    by apply list_elem_of_further.
Qed.

(** ** Jobs *)
Lemma wp_create_job w request (Q : unit → World → Prop) :
  webui_inv [] w → w_browser_state w = true → (∀ w', webui_inv [] w' → Q tt w') →
  wp (modify (λ w, with_jobs (<[next_job w := URLRequestChromeJob_new request]> (w_jobs w))
        (Pos.succ (next_job w)) w)) Q w.
Proof using Type.
  intros [Hr Hn [Hj Hc Ho]] Hbs HQ. wp_simp. destruct Hj as [J1 J2 J3 J4 J5 J6 J7].
  assert (Hnone : w_jobs w !! next_job w = None).
  { destruct (w_jobs w !! next_job w) as [J|] eqn:HJ; [|done]. destruct (J5 _ _ HJ). lia. }
  apply HQ. split.
  - apply (refs_frame _ _ _ [] _ Hr); try done. unfold holders.
    cbn [with_jobs ui_queue io_queue callbacks data_sources_ w_jobs].
    pose proof (job_refs_insert (w_jobs w) (next_job w) (URLRequestChromeJob_new request)) as Hp.
    rewrite Hnone in Hp. cbn in Hp. rewrite app_nil_r in Hp. by rewrite Hp.
  - by apply (by_name_same w).
  - split; cbn; [|done|].
    + split; try done.
      * intros id j Hin. destruct (J1 id j Hin) as (Hid & J & HJ & Hrest). split; [done|].
        exists J. rewrite lookup_insert_ne; [done|]. intros <-. congruence.
      * intros j J. destruct (decide (next_job w = j)) as [<-|Hne].
        { rewrite lookup_insert, decide_True by done. intros [= <-]. split; [|lia]. by split. }
        rewrite lookup_insert_ne by done. intros HJ. destruct (J5 j J HJ). split; [done|lia].
      * congruence.
    + eapply order_jobs; [exact Ho|done|]. intros id j J Hin. destruct (J1 id j Hin) as (_ & J0 & HJ0 & _).
      destruct (decide (next_job w = j)) as [<-|Hne]; [congruence|].
      rewrite lookup_insert_ne by done. intros HJ. by exists J.
Qed.

(** A job changes, but for what the threads know of it. *)
Lemma inv_put_job w L j J J' :
  webui_inv L w → w_jobs w !! j = Some J → job_ok (w_backend w) J' →
  job_source_ J' = job_source_ J → headers_complete J' = headers_complete J →
  weak_factory_ J' = weak_factory_ J →
  (∀ id, (id, j) ∈ pending_requests_ w →
     job_backend_ J' = true ∧ is_Some (request_ J') ∧ job_data_ J' = None) →
  webui_inv L (with_jobs (<[j := J']> (w_jobs w)) (next_job w) w).
Proof using Type.
  intros [Hr Hn [Hj Hc Ho]] HJ Hok' Hs Hh Hw Hpend. split.
  - by apply (refs_put_job_same w L j J).
  - by apply (by_name_same w).
  - split; cbn; [by apply (jobs_ok_update (pending_requests_ w) _ _ _ _ _ _ j J)|done|].
    eapply order_jobs; [exact Ho|done|]. intros id j' J0 _ HJ0.
    destruct (decide (j = j')) as [<-|Hne].
    + rewrite lookup_insert, decide_True in HJ0 by done. simplify_eq. by exists J.
    + rewrite lookup_insert_ne in HJ0 by done. by exists J0.
Qed.

Lemma inv_pending w L id j J :
  webui_inv L w → w_jobs w !! j = Some J → (id, j) ∈ pending_requests_ w →
  job_backend_ J = true ∧ is_Some (request_ J) ∧ job_data_ J = None.
Proof using Type.
  intros [Hr Hn [Hj Hc Ho]] HJ Hin.
  destruct (jobs_pending _ _ _ _ _ _ Hj id j Hin) as (_ & J0 & HJ0 & ?). congruence.
Qed.

Lemma inv_job w L j J : webui_inv L w → w_jobs w !! j = Some J → job_ok (w_backend w) J.
Proof using Type. intros [Hr Hn [Hj Hc Ho]] HJ. by eapply jobs_each. Qed.

Lemma wp_on_job_read w j J size (Q : unit → World → Prop) :
  webui_inv [] w → w_jobs w !! j = Some J → pending_buf_ J = None →
  (∀ w', webui_inv [] w' → Q tt w') →
  wp (on_job j (r ← ReadRawData size; log_read r)) Q w.
Proof using Type.
  intros Hi HJ Hbuf HQ. eapply wp_on_job; [exact HJ|].
  apply (wp_read (w_backend w)); [by eapply inv_job|done|].
  intros J' Hok' (Hu & Hb & Hh & Hw & Hs) Hd.
  apply HQ, (inv_put_job w [] j J); try done.
  intros id Hin. rewrite Hb, Hu, Hd. by eapply inv_pending.
Qed.

(** After Kill, no request of the job is pending. *)
Lemma wp_Kill w j (Q : unit → World → Prop) :
  webui_inv [] w → is_Some (w_jobs w !! j) →
  (∀ w', webui_inv [] w' → is_Some (w_jobs w' !! j) →
     (∀ id, (id, j) ∉ pending_requests_ w') → Q tt w') →
  wp (Kill j) Q w.
Proof using Type.
  intros [Hr Hn [Hj Hc Ho]] [J HJ] HQ. unfold Kill, put_job. wp_simp.
  apply (wp_the_job w j J _ HJ). wp_simp.
  set (J' := with_life _ _ _ J). set (w1 := with_jobs _ _ w).
  destruct (jobs_each _ _ _ _ _ _ Hj j J HJ) as [[H1 H2 H3 H4] _].
  assert (Hok' : job_ok (w_backend w) J') by (by split).
  assert (Hr1 : refs w1 [] []) by (by apply (refs_put_job_same w [] j J)).
  assert (Hgo : ∀ pend, sublist pend (pending_requests_ w) → (∀ id, (id, j) ∉ pend) →
    Q tt (with_pending pend (next_request_id_ w1) w1)).
  { intros pend Hsub Hgone. apply HQ; [|cbn; rewrite lookup_insert, decide_True by done; by eexists|done].
    split.
    - apply (refs_frame _ _ _ [] _ Hr1); done.
    - by apply (by_name_same w).
    - split; cbn; [|done|].
      + apply (jobs_ok_update (pending_requests_ w) _ _ _ _ _ _ j J); [done..|].
        intros id Hin. by destruct (Hgone id).
      + eapply order_jobs; [exact Ho|by apply sublist_subseteq|]. intros id j' J0 Hin HJ0.
        destruct (decide (j' = j)) as [->|Hne]; [by destruct (Hgone id)|].
        rewrite lookup_insert_ne in HJ0 by done. by exists J0. }
  destruct (job_backend_ J) eqn:Hb; cbn [J'].
  - unfold RemoveRequest. wp_simp. apply Hgo; [apply erase_job_sublist|].
    intros id. by apply erase_job_gone, (jobs_once _ _ _ _ _ _ Hj).
  - wp_simp. apply (Hgo (pending_requests_ w)); [done|]. intros id Hin.
    destruct (jobs_pending _ _ _ _ _ _ Hj id j Hin) as (_ & J0 & HJ0 & Hback & _). congruence.
Qed.

Lemma wp_Orphan w j (Q : unit → World → Prop) :
  webui_inv [] w → is_Some (w_jobs w !! j) → (∀ w', webui_inv [] w' → Q tt w') →
  wp (Kill j;; URLRequestChromeJob_destroy j) Q w.
Proof using All.
  intros Hi HJ HQ. wp_simp. apply (wp_Kill w j _ Hi HJ).
  intros w1 [Hr [Hn1 Hn2 Hn3] [Hj Hc Ho]] [J HJ1] Hgone. unfold URLRequestChromeJob_destroy, the_world.
  wp_simp. apply (wp_the_job w1 j J _ HJ1). wp_simp.
  assert (Hno : HasPendingJob j w1 = false).
  { unfold HasPendingJob. apply not_true_is_false. intros ([id k] & Hin & Hk)%existsb_exists.
    apply bool_decide_eq_true in Hk. cbn in Hk. subst k. by apply (Hgone id), list_elem_of_In. }
  rewrite Hno. cbn [negb].
  set (w2 := with_jobs (delete j (w_jobs w1)) (next_job w1) w1).
  assert (Hgo : wp (Release_opt false (job_source_ J)) Q w2).
  { apply (wp_Release_opt w2 [] (job_source_ J)).
    - apply (refs_frame w1 _ [] _ [] Hr); try done. unfold holders.
      unfold w2. cbn [with_jobs ui_queue io_queue callbacks data_sources_ w_jobs].
      rewrite (job_refs_delete (w_jobs w1) j J HJ1). solve_Permutation.
    - intros w3 Hr3 Hq3. apply HQ. apply (webui_inv_quiet w2); [done|done|by apply (by_name_same w1)|].
      destruct Hj as [J1 J2 J3 J4 J5 J6 J7]. split; cbn; [|done|].
      + split; try done.
        * intros id j' Hin. destruct (J1 id j' Hin) as (Hid & J0 & HJ0 & Hrest). split; [done|].
          exists J0. rewrite lookup_delete_ne; [done|]. intros <-. by apply (Hgone id).
        * intros j' J0 [_ HJ0]%lookup_delete_Some. by apply J5.
        * intros Hbs. by rewrite (J6 Hbs), delete_empty.
      + eapply order_jobs; [exact Ho|done|]. intros id j' J0 _ [_ HJ0]%lookup_delete_Some.
        by exists J0. }
  destruct (job_backend_ J); wp_simp; [split; [done|]|]; apply Hgo.
Qed.

(** ** Starting a job *)

(** The new request is asked for its MIME type first. *)
Lemma order_start ui io cb st pending next jobs j J J' s path :
  order_ok ui io cb st pending next jobs →
  (∀ id, (id, j) ∉ pending) → jobs !! j = Some J → weak_factory_ J' = weak_factory_ J →
  order_ok ((ui ++ [GetMimeTypeOnUITask s path j (weak_factory_ J)]) ++
      [CallStartRequestTask s path next]) io cb st
    (pending ++ [(next, j)]) (next + 1) (<[j := J']> jobs).
Proof using Type.
  intros [H1 H2 H3 H4 H5] Hgone HJ Hw. split; try done.
  - intros s' path' id. rewrite <-app_assoc. cbn. intros [Hin%H1|Hin]%elem_of_app; [lia|].
    apply elem_of_cons in Hin as [?|Hin%list_elem_of_singleton]; simplify_eq. lia.
  - intros s' id Hin%H2. lia.
  - intros id j' J0 [Hin|Hin%list_elem_of_singleton]%elem_of_app HJ0 Hh.
    + destruct (decide (j' = j)) as [->|Hne]; [by destruct (Hgone id)|].
      rewrite lookup_insert_ne in HJ0 by done. rewrite <-app_assoc, <-(app_nil_r io).
      by apply mime_first_grow, H5.
    + simplify_eq. rewrite lookup_insert, decide_True in HJ0 by done. simplify_eq.
      rewrite <-app_assoc, Hw. apply (mime_asked _ _ _ _ _ _ ui [CallStartRequestTask s path next] s path).
      * done.
      * intros s' path' Hin%H1. lia.
      * intros s' Hin%H2. lia.
Qed.

Lemma jobs_start pending next jobs nj bs backend j J J' :
  jobs_ok pending next jobs nj bs backend → (∀ id, (id, j) ∉ pending) → jobs !! j = Some J →
  job_ok backend J' → job_backend_ J' = true → is_Some (request_ J') → job_data_ J' = None →
  next < INT_MAX → jobs_ok (pending ++ [(next, j)]) (next + 1) (<[j := J']> jobs) nj bs backend.
Proof using Type.
  intros Hj Hgone HJ Hok Hb Hu Hd Hmax.
  destruct (jobs_ok_update pending pending next jobs nj bs backend j J J') as [K1 K2 K3 K4 K5 K6 K7];
    [done..|intros id Hin; by destruct (Hgone id)|].
  assert (Hnot : backend ≠ BackendNotCreated) by (rewrite (job_backend _ _ Hok Hb); done).
  split; try done.
  - intros id j' [Hin|Hin%list_elem_of_singleton]%elem_of_app.
    + destruct (K1 id j' Hin) as [? ?]. split; [lia|done].
    + simplify_eq. split; [lia|]. exists J'. by rewrite lookup_insert, decide_True.
  - rewrite fmap_app. apply NoDup_app. split; [done|]. split; [|apply NoDup_singleton].
    intros id ([id' j'] & -> & Hin)%list_elem_of_fmap Hid%list_elem_of_singleton. cbn in Hid.
    destruct (K1 id' j' Hin). lia.
  - rewrite fmap_app. apply NoDup_app. split; [done|]. split; [|apply NoDup_singleton].
    intros k ([id' j'] & -> & Hin)%list_elem_of_fmap Hid%list_elem_of_singleton. cbn in Hid.
    subst j'. by destruct (Hgone id').
  - lia.
Qed.

(** A task that holds a source is posted to the UI thread. *)
Lemma wp_share_ui {A} w L s t (k : unit → WM A) (Q : A → World → Prop) :
  refs w L [] → by_name w → s ∈ holders w ++ L → ui_ref t = Some s →
  (∀ X w', w' = with_ui (ui_queue w ++ [t]) (with_sources X w) → refs w' L [] → by_name w' →
     wp (k tt) Q w') →
  wp (AddRef s) (λ _ w', wp (post_ui t ≫= k) Q w') w.
Proof using All.
  intros Hr Hn Hin Ht HQ. apply (wp_AddRef w L [] s _ Hr Hin). intros X HX HrX.
  unfold post_ui. wp_simp. apply (HQ X); [done| |].
  - apply (refs_frame _ _ _ L _ HrX); try done; [cbn; set_solver|].
    rewrite (holders_post_ui (with_sources X w)), Ht. cbn. solve_Permutation.
  - apply (by_name_same (with_sources X w)); try done. by apply by_name_sources.
Qed.

Lemma GetDataSourceFromURL_ds url w s :
  GetDataSourceFromURL url w = Some s → ∃ n, data_sources_ w !! n = Some s.
Proof using Type.
  unfold GetDataSourceFromURL. destruct (data_sources_ w !! url_host url) eqn:Hh;
    [intros [= ->]; by exists (url_host url)|by eexists].
Qed.

Lemma wp_StartRequest w j J url (Q : bool → World → Prop) :
  webui_inv [] w → w_jobs w !! j = Some J → job_backend_ J = true → request_ J = Some url →
  job_data_ J = None → (∀ id, (id, j) ∉ pending_requests_ w) →
  is_valid url = true → (IsAppSpecificURL url = true ∨ url_scheme url ∈ AdditionalWebUISchemes) →
  next_request_id_ w < INT_MAX →
  (∀ ok w', webui_inv [] w' → is_Some (w_jobs w' !! j) → Q ok w') →
  wp (StartRequest url j) Q w.
Proof using All.
  intros Hi HJ Hback Hurl Hdata Hgone Hvalid Happ Hmax HQ. unfold StartRequest, CheckURLIsValid.
  wp_simp. split.
  { destruct Happ as [->|?]; [done|]. rewrite bool_decide_eq_true_2 by done. apply orb_true_r. }
  rewrite Hvalid. cbn [negb]. wp_simp. cbn [negb]. unfold the_world. wp_simp.
  pose proof Hi as [Hr Hn [Hj Hc Ho]].
  destruct (GetDataSourceFromURL url w) as [s|] eqn:Hs; [|wp_simp; by apply HQ].
  destruct (GetDataSourceFromURL_ds url w s Hs) as [n Hds].
  pose proof (ds_held w n s Hds) as Hsh. destruct (refs_held _ _ _ Hr s) as [x Hx]; [set_solver|].
  wp_simp. apply (wp_the_source s w _ x Hx). rewrite wp_if.
  destruct (negb (ShouldServiceRequest (source_ x) url)); wp_simp; [by apply HQ|].
  unfold int_add. destruct (jobs_next _ _ _ _ _ _ Hj) as [Hnext _].
  rewrite (in_int_nonneg (next_request_id_ w + 1)) by lia. wp_simp.
  apply (wp_the_job _ j J); [done|]. unfold put_job. wp_simp.
  rewrite pending_insert_last by (intros id' j' Hin; by apply (jobs_pending _ _ _ _ _ _ Hj) in Hin as [? _]; lia).
  set (id := next_request_id_ w). set (path := URLToRequestPath url).
  set (J' := with_options _ _ _ _ _ _ _ J).
  set (w1 := with_jobs _ _ _).
  assert (Hr1 : refs w1 [] []).
  { apply (refs_put_job_same (with_pending (pending_requests_ w ++ [(id, j)]) (id + 1) w) [] j J);
      [|done|done]. by apply (refs_frame w _ [] _ [] Hr). }
  assert (Hn1 : by_name w1) by (by apply (by_name_same w)).
  assert (Hok : job_ok (w_backend w) J').
  { destruct (inv_job w [] j J Hi HJ). by split. }
  apply (wp_share_ui w1 [] s); [done|done| |done|].
  { apply elem_of_app. left. by apply (ds_held w1 n). }
  intros X2 w2 Hw2 Hr2 Hn2. rewrite wp_bind. apply (wp_share_ui w2 [] s); [done|done| |done|].
  { rewrite Hw2. unfold holders. cbn. rewrite omap_app. cbn. set_solver. }
  intros X3 w3 Hw3 Hr3 Hn3. wp_simp. apply HQ.
  - split; [done|done|]. rewrite Hw3, Hw2. split; cbn; [|done|].
    + by apply (jobs_start _ _ _ _ _ _ j J).
    + by apply order_start.
  - rewrite Hw3, Hw2. cbn. rewrite lookup_insert, decide_True by done. by eexists.
Qed.

Lemma wp_Start shared w j (Q : unit → World → Prop) :
  webui_inv [] w → legal (EvStart j) w → (∀ w', webui_inv [] w' → Q tt w') →
  wp (Start shared j) Q w.
Proof using All.
  intros Hi (Hbs & J & HJ & Hback & Hurl & Hmax) HQ. unfold Start, put_job. wp_simp.
  apply (wp_the_job w j J _ HJ). destruct (request_ J) as [url|] eqn:Hreq; wp_simp; [|by apply HQ].
  destruct (Hurl url eq_refl) as [Hvalid Happ]. pose proof Hi as [Hr Hn Hf].
  assert (Hu : backend_usable w).
  { destruct Hf as [Hj Hc Ho]. rewrite Hbs in Hc. inversion Hc as [backend Hd Hnd| |]; subst.
    unfold backend_usable. destruct (w_backend w) eqn:Hb; [right|by left|done].
    by destruct (jobs_not_created _ _ _ _ _ _ Hj eq_refl). }
  apply (wp_GetBackend shared w []); [done|done|done|]. intros w1 Hr1 Hn1 Hot1. wp_simp.
  assert (Hi1 : webui_inv [] w1).
  { split; [done|done|]. apply (flow_others _ _ Hot1). by apply flow_create. }
  assert (HJ1 : w_jobs w1 !! j = Some J) by (by rewrite (others_jobs _ _ Hot1)).
  assert (Hgone : ∀ id, (id, j) ∉ pending_requests_ w1).
  { intros id Hin. destruct (inv_pending w1 [] id j J Hi1 HJ1 Hin). congruence. }
  assert (Halive : w_backend w1 = BackendAlive) by (by rewrite (others_backend _ _ Hot1)).
  set (J2 := with_life _ _ _ J). set (w2 := with_jobs _ _ w1).
  assert (Hi2 : webui_inv [] w2).
  { apply (inv_put_job w1 [] j J); try done.
    - destruct (inv_job w1 [] j J Hi1 HJ1). by split.
    - intros id Hin. by destruct (Hgone id). }
  pose proof (job_fresh _ _ (inv_job w [] j J Hi HJ) Hback) as Hfresh.
  apply (wp_StartRequest w2 j J2 url); try done.
  { cbn. by rewrite lookup_insert, decide_True. }
  { cbn. by rewrite (others_next _ _ Hot1). }
  intros ok w3 Hi3 [J3 HJ3]. wp_simp. destruct ok; cbn [negb]; [by apply HQ|].
  wp_simp. apply (wp_the_job w3 j J3 _ HJ3). wp_simp. apply HQ, (inv_put_job w3 [] j J3); try done.
  - destruct (inv_job w3 [] j J3 Hi3 HJ3). by split.
  - intros id Hin. by apply (inv_pending w3 [] id j J3).
Qed.

(** ** The end of the browser state *)
Lemma wp_destroy_browser_state w (Q : unit → World → Prop) :
  webui_inv [] w → legal EvDestroyBrowserState w → (∀ w', webui_inv [] w' → Q tt w') →
  wp BrowserState_destroy Q w.
Proof using All.
  intros [Hr Hn [Hj Hc Ho]] (Hbs & Hjobs & Hadd) HQ. unfold BrowserState_destroy, the_world.
  wp_simp. rewrite Hbs in Hc. inversion Hc as [backend Hd Hb| |]; subst.
  destruct Hj as [J1 J2 J3 J4 J5 J6 J7].
  assert (Hj' : jobs_ok (pending_requests_ w) (next_request_id_ w) (w_jobs w) (next_job w) false
    (w_backend w)) by (by split).
  case_bool_decide as Halive.
  - unfold post_io. wp_simp. apply HQ. split.
    + apply (refs_frame w _ [] _ [] Hr); try done. unfold holders.
      cbn [with_io with_backend ui_queue io_queue callbacks data_sources_ w_jobs].
      rewrite omap_app. cbn. by rewrite !app_nil_r.
    + by apply (by_name_same w).
    + split; cbn; [done| |by apply order_io]. rewrite Halive.
      apply (Closing _ (io_queue w) []); done.
  - wp_simp. apply HQ. split; [by apply (refs_frame w _ [] _ [] Hr)|by apply (by_name_same w)|].
    split; cbn; [done| |done]. apply Closed; [done| |done]. apply Hadd.
    by destruct (w_backend w).
Qed.

(** ** Every event *)
Lemma wp_run_event shared e w :
  webui_inv [] w → legal e w → wp (run_event shared e) (λ _ w', webui_inv [] w') w.
Proof using All.
  intros Hi Hl. destruct e; cbn [run_event].
  - by apply wp_add_new.
  - eapply wp_mono; [|by apply wp_run_ui]. by intros _ w' [? _].
  - by apply wp_run_io.
  - by apply wp_create_job.
  - by apply wp_Start.
  - destruct Hl as (J & HJ & Hbuf). by apply (wp_on_job_read w job J).
  - by apply wp_Kill.
  - by apply wp_Orphan.
  - destruct Hl as [c Hc]. wp_simp. apply (wp_take_callback w n c _ Hi Hc). intros w1 Hi1 Hst.
    wp_simp. destruct c as [s id]. apply (wp_SendResponse w1 [s]); [done| |done|].
    { apply (refs_held _ _ _ (inv_refs _ _ Hi1)). cbn. set_solver. }
    intros w2 Hi2. apply (wp_Release_inv on_ui w2 [] s _ Hi2). by intros w3 Hi3 _.
  - destruct Hl as [c Hc]. wp_simp. apply (wp_take_callback w n c _ Hi Hc). intros w1 Hi1 Hst.
    apply (wp_Release_inv on_ui w1 [] c.1 _ Hi1). by intros w3 Hi3 _.
  - destruct Hl as [Hs Hst]. by apply (wp_SendResponse w []).
  - by apply wp_destroy_browser_state.
Qed.

Lemma webui_inv_new : webui_inv [] World_new.
Proof using Type.
  assert (Hnil : ∀ {A} (x : A), x ∉ []) by (intros A x; apply not_elem_of_nil).
  assert (Hh : holders World_new = []).
  { unfold holders, job_refs. cbn. by rewrite !map_to_list_empty. }
  split.
  - split; rewrite ?Hh; cbn.
    + intros s x. by rewrite lookup_empty.
    + intros s Hs. by destruct (Hnil _ s).
    + intros s x. by rewrite lookup_empty.
    + intros s Hs. by destruct (Hnil _ s).
    + constructor.
    + done.
    + split; [constructor|]. intros p Hp. by destruct (Hnil _ p).
    + intros s [[x Hx]|Hs]; [by rewrite lookup_empty in Hx|by destruct (Hnil _ s)].
  - split; cbn; [| |done]; intros n s; unfold attrs; cbn; by rewrite ?fmap_empty, lookup_empty.
  - split; cbn; [|by apply Open|].
    + split; [|constructor|constructor|unfold INT_MAX; lia| |done|done].
      * intros id j Hin. by destruct (Hnil _ (id, j)).
      * intros j J. by rewrite lookup_empty.
    + split; intros; exfalso; eapply Hnil; eassumption.
Qed.

(** What every reachable state satisfies, and what every event keeps. *)
Lemma webui_reachable_inv shared w : webui_reachable shared w → webui_inv [] w.
Proof using All.
  intros Hr. refine (reachable_invariant _ _ _ webui_inv_new _ w Hr).
  intros w1 e w2 Hi [Hl Hrun]. pose proof (wp_run_event shared e w1 Hi Hl) as Hwp.
  unfold wp in Hwp. by rewrite Hrun in Hwp.
Qed.
End run.
