(* ===== verification/WebUIDataSpec.v ===== *)
(** * What the data of WebUI pages promises

    For WebUIData.v: nothing happens to a source after it was deleted, it is
    deleted once, on the UI thread, and as soon as nothing holds it; a request
    learns its MIME type before its data comes; and the reads of a job are its
    data.  The examples run the threads to the states the comments of the code
    describe. *)

From S2P Require Import Prelude.
From S2P Require Import WebEnv.
From S2P Require Import WebUIData.
From S2P Require Import WebUIDataRefs.
From S2P Require Import WebUIDataInv.
From S2P Require Import WebUIDataSteps.
From S2P Require Import WebUIDataJobs.
From S2P Require Import WebUIDataEvents.
From S2P Require Import WebUIDataRun.

Section spec.
Context `{WEBUI : WebUIEnv} {LAWS : WebUIEnvLaws}.
Implicit Types (w : World) (s : srcid) (j : jobid).


(** The UI thread runs the tasks that wait, and those only. *)
Fixpoint run_uis (n : nat) : WM unit :=
  match n with O => mret tt | S n => run_ui;; run_uis n end.

Lemma wp_run_uis n w (ds : list srcid) (Q : unit → World → Prop) :
  webui_inv [] w → length (ui_queue w) = n →
  (∀ s, s ∈ ds → s ∈ sched w ∨ (s, true) ∈ deleted w) →
  (∀ w', webui_inv [] w' → ui_queue w' = [] → (∀ s, s ∈ ds → (s, true) ∈ deleted w') → Q tt w') →
  wp (run_uis n) Q w.
Proof using All.
  revert w. induction n as [|n IH]; intros w Hi Hlen Hds HQ; cbn [run_uis]; wp_simp.
  - apply nil_length_inv in Hlen. apply HQ; [done|done|]. intros s Hs.
    destruct (Hds s Hs) as [Hsch|]; [|done].
    assert (Hne : sched w ≠ []) by (intros Heq; rewrite Heq in Hsch; by apply not_elem_of_nil in Hsch).
    pose proof (refs_task _ _ _ (inv_refs _ _ Hi) Hne) as Ht. rewrite Hlen in Ht.
    by apply not_elem_of_nil in Ht.
  - eapply wp_mono; [|by apply wp_run_ui]. intros [] w1 [Hi1 (Hu & Hd & Hs)].
    apply (IH w1 Hi1); [rewrite Hu; destruct (ui_queue w); cbn in *; lia| |done].
    intros s Hin. destruct (Hds s Hin) as [Hsch|Hdel]; [by apply Hs|right; by apply Hd].
Qed.

(** C12: A source that nothing holds is deleted by the time the UI thread has run
    the tasks that wait for it now. *)
Theorem unreferenced_sources_are_deleted shared w s :
  webui_reachable shared w → is_Some (w_sources w !! s) → s ∉ holders w →
  ∃ w', run_uis (length (ui_queue w)) w = Ok (tt, w') ∧ ui_queue w' = [] ∧ (s, true) ∈ deleted w'.
Proof using All.
  intros Hw [x Hx] Hs. pose proof (webui_reachable_inv shared w Hw) as Hi.
  apply wp_run_unit, (wp_run_uis _ w [s]); [done|done| |].
  - intros s' ->%list_elem_of_singleton. left.
    pose proof (refs_zero _ _ _ (inv_refs _ _ Hi) s x Hx). rewrite !app_nil_r in H. by apply H.
  - intros w' _ Hu Hd. split; [done|]. apply Hd, list_elem_of_here.
Qed.


(** C13: What a job gave to the network code is the beginning of its data; and a
    read of data of at most INT_MAX bytes gives the next bytes, as many as
    were asked for and there are. *)
Theorem reads_are_the_data shared w j J d size :
  webui_reachable shared w → w_jobs w !! j = Some J → job_data_ J = Some d →
  slen d <= INT_MAX → 0 < size →
  read_bytes (reads J) = string_take (Z.to_nat (data_offset_ J)) d ∧
  0 <= data_offset_ J <= slen d ∧
  ∃ n J', CompleteRead size J = Ok ((n, string_take (Z.to_nat n)
      (string_drop (Z.to_nat (data_offset_ J)) d)), J') ∧
    n = Z.min size (slen d - data_offset_ J) ∧ data_offset_ J' = data_offset_ J + n.
Proof using All.
  intros Hw HJ Hd Hmax Hsize. pose proof (webui_reachable_inv shared w Hw) as Hi.
  destruct (job_data _ _ (inv_job w [] j J Hi HJ) d Hd) as ([url Hurl] & Hoff & Hread).
  assert (Hpos : 0 <= slen d) by (unfold slen; lia).
  rewrite to_int32_size_t, (to_int32_id (slen d)) in Hoff by (by apply in_int_nonneg).
  split; [done|]. split; [lia|]. set (off := data_offset_ J) in *.
  unfold CompleteRead, gets, mbind, M_bind. rewrite Hurl, Hd. cbn [not_null mret M_ret]. fold off.
  rewrite to_int32_size_t, (to_int32_id (slen d - off)) by (apply in_int_nonneg; lia).
  set (n := if slen d - off <? size then slen d - off else size).
  assert (Hn : n = Z.min size (slen d - off)) by (unfold n; destruct (Z.ltb_spec (slen d - off) size); lia).
  destruct (Z.ltb_spec 0 n) as [Hlt|Hge].
  - unfold int_add. rewrite in_int_nonneg by lia. eexists n, _. split_and!; [done|done|done].
  - assert (n = 0) as -> by lia. exists 0, J. split_and!; [|done|fold off; lia].
    destruct (string_drop (Z.to_nat off) d); done.
Qed.
End spec.
