(* ===== verification/WebUIDataExamples.v ===== *)
(** * WebUI data on concrete sources

    Reference counts are numbers, the sources answer from constants.  The
    runs reach the states the comments of url_data_source_ios_impl.cc and
    url_data_manager_ios_backend.mm describe, and the theorems of
    WebUIDataSpec.v are applied there. *)

From S2P Require Import Prelude.
From S2P Require Import WebEnv.
From S2P Require Import WebUIData.
From S2P Require Import WebUIDataRefs.
From S2P Require Import WebUIDataInv.
From S2P Require Import WebUIDataJobs.
From S2P Require Import WebUIDataSpec.

(** ** Executable runs *)
Section runs.
Context `{WEBUI : WebUIEnv}.

Definition url_ok (url : GURL) : bool :=
  is_valid url && (IsAppSpecificURL url || bool_decide (url_scheme url ∈ AdditionalWebUISchemes)).
Definition no_jobs (m : gmap jobid URLRequestChromeJob) : bool :=
  match map_to_list m with [] => true | _ => false end.

Definition legalb (e : Event) (w : World) : bool :=
  match e with
  | EvAddDataSource _ _ _ | EvCreateJob _ => w_browser_state w
  | EvRunUI | EvRunIO => true
  | EvStart job =>
      w_browser_state w &&
      match w_jobs w !! job with
      | Some j => negb (job_backend_ j) && match request_ j with Some url => url_ok url | None => true end &&
                  (next_request_id_ w <? INT_MAX)
      | None => false
      end
  | EvRead job _ =>
      match w_jobs w !! job with
      | Some j => match pending_buf_ j with None => true | Some _ => false end
      | None => false
      end
  | EvKill job | EvOrphan job => match w_jobs w !! job with Some _ => true | None => false end
  | EvRunCallback n _ _ | EvDropCallback n _ =>
      match callbacks w !! n with Some _ => true | None => false end
  | EvSendResponse s request_id _ =>
      match w_sources w !! s with Some _ => true | None => false end &&
      bool_decide ((s, request_id) ∈ started w)
  | EvDestroyBrowserState =>
      w_browser_state w && no_jobs (w_jobs w) &&
      (negb (bool_decide (w_backend w = BackendNotCreated)) || negb (existsb is_add (io_queue w)))
  end.

Lemma legalb_sound e w : legalb e w = true → legal e w.
Proof.
  destruct e; cbn; try done.
  - intros [Hbs H]%andb_prop. split; [done|]. destruct (w_jobs w !! job) as [j|]; [|done].
    apply andb_prop in H as [[Hb Hu]%andb_prop Hm%Z.ltb_lt]. exists j.
    split_and!; [done|by apply negb_true_iff in Hb| |done]. intros url Hurl. rewrite Hurl in Hu.
    apply andb_prop in Hu as [Hv Hs]. split; [done|].
    apply orb_prop in Hs as [|?%bool_decide_eq_true]; [by left|by right].
  - destruct (w_jobs w !! job) as [j|]; [|done]. intros H. exists j. split; [done|].
    by destruct (pending_buf_ j).
  - destruct (w_jobs w !! job); [by eexists|done].
  - destruct (w_jobs w !! job); [by eexists|done].
  - destruct (callbacks w !! n); [by eexists|done].
  - destruct (callbacks w !! n); [by eexists|done].
  - intros [Hs Hst%bool_decide_eq_true]%andb_prop. split; [|done].
    destruct (w_sources w !! s); [by eexists|done].
  - intros [[Hbs Hj]%andb_prop H]%andb_prop. split_and!; [done| |].
    + unfold no_jobs in Hj. apply map_to_list_empty_iff. by destruct (map_to_list (w_jobs w)).
    + intros Hb. rewrite (bool_decide_eq_true_2 _ Hb) in H. by apply negb_true_iff in H.
Qed.

Lemma is_Some_of {A} (o : option A) :
  match o with Some _ => true | None => false end = true → is_Some o.
Proof. destruct o; [by eexists|done]. Qed.

Lemma Some_default {A} (o : option A) d :
  match o with Some _ => true | None => false end = true → o = Some (default d o).
Proof. by destruct o. Qed.

(** A run from the beginning; it stops where an event may not happen. *)
Fixpoint run_events (shared : string * URLDataSourceIOS) (l : list Event) (w : World) :
    option World :=
  match l with
  | [] => Some w
  | e :: l =>
      if legalb e w then
        match run_event shared e w with Ok (_, w') => run_events shared l w' | Crash _ => None end
      else None
  end.

Lemma run_events_reachable shared l w w' :
  webui_reachable shared w → run_events shared l w = Some w' → webui_reachable shared w'.
Proof.
  revert w. induction l as [|e l IH]; intros w Hw; cbn; [by intros [= ->]|].
  destruct (legalb e w) eqn:Hl; [|done].
  destruct (run_event shared e w) as [[[] w1]|] eqn:Hrun; [|done].
  apply IH. eapply reach_step; [exact Hw|]. split; [by apply legalb_sound|done].
Qed.

Definition after (shared : string * URLDataSourceIOS) (l : list Event) : World :=
  default World_new (run_events shared l World_new).
Definition runs (shared : string * URLDataSourceIOS) (l : list Event) : bool :=
  match run_events shared l World_new with Some _ => true | None => false end.

Lemma after_reachable shared l : runs shared l = true → webui_reachable shared (after shared l).
Proof.
  unfold runs, after. destruct (run_events shared l World_new) eqn:Hl; [|done]. intros _.
  eapply run_events_reachable; [apply reach_refl|exact Hl].
Qed.
End runs.

Module ToyWebUI.
#[local] Existing Instance Toy.env.

#[export] Instance toy_webui : WebUIEnv := {
  ref_counter := nat;
  rc_new := 0%nat;
  rc_AddRef := S;
  rc_Release c := (pred c, Nat.eqb (pred c) 0);
  rc_value c := c;
  possibly_invalid_spec := spec;
  CountCharactersBeforePath _ := 16;
  AdditionalWebUISchemes := ["chrome"];
}.
#[export] Instance toy_webui_laws : WebUIEnvLaws.
Proof. split; [done|done|]. cbn. by intros c n ->. Qed.

(** The delegates of the tests: every URL is served, as a page. *)
Definition page : URLDataSourceIOS :=
  MkDelegate true (λ _, true) (λ _, "text/html") true "object-src 'none';" true (λ _, false).
Definition shared : string * URLDataSourceIOS := ("resources", page).
Definition offline : GURL := GURL_of "chrome://offline/".

(** A page of the source "offline" is asked for: the source is number 1, the
    shared resources are number 2, the job is number 1. *)
Definition ask : list Event :=
  [EvAddDataSource "offline" page true; EvRunIO; EvCreateJob (Some offline); EvStart 1%positive].
(** Its MIME type is found, its data asked for and sent. *)
Definition answer : list Event :=
  ask ++ [EvRunUI; EvRunUI; EvRead 1 4; EvRunCallback 0 true (Some "<html>"); EvRunIO].
(** The data reaches the job. *)
Definition served : list Event := answer ++ [EvRunIO].

Example path_of_offline : URLToRequestPath offline = "".
Proof. by vm_compute. Qed.

Example served_runs : runs shared served = true.
Proof. by vm_compute. Qed.

(** The read that waited was given four bytes; the page holds its source. *)
Example served_job :
  match w_jobs (after shared served) !! 1%positive with
  | Some J => read_bytes (reads J) = "<htm" ∧ job_source_ J = Some 1%positive ∧
      GetResponseInfo J = ["HTTP/1.1 200 OK";
        "Content-Security-Policy: script-src chrome://resources 'self' 'unsafe-eval'; object-src 'none';frame-src 'none';";
        "X-Frame-Options: DENY"]
  | None => False
  end.
Proof. by vm_compute. Qed.

(** Another source of the same name releases the first, which is not deleted
    before the page that holds it ends. *)
Definition replaced : list Event :=
  served ++ [EvAddDataSource "offline" page true; EvRunIO].
Example replaced_source :
  let w := after shared replaced in
  (data_sources_ w !! "offline", source_backend_ <$> w_sources w !! 1%positive, sched w) =
  (Some 3%positive, Some false, []).
Proof. by vm_compute. Qed.

(** The page ends on the IO thread: the source waits for the UI thread. *)
Definition unheld : list Event := replaced ++ [EvOrphan 1].
Example unheld_source :
  let w := after shared unheld in (sched w, deleted w, length (ui_queue w)) = ([1%positive], [], 1%nat).
Proof. by vm_compute. Qed.

(** It sends an answer all the same, which must not hold it again. *)
Definition late_answer : Event := EvSendResponse 1 0 (Some "late").
Example late_answer_is_dropped :
  match run_event shared late_answer (after shared unheld) with
  | Ok (_, w') => (io_queue w', sched w') = ([], [1%positive])
  | Crash _ => False
  end.
Proof. by vm_compute. Qed.


Lemma unreferenced_sources_are_deleted_witness :
  ∃ w', run_uis (length (ui_queue (after shared unheld))) (after shared unheld) = Ok (tt, w') ∧
    ui_queue w' = [] ∧ (1%positive, true) ∈ deleted w'.
Proof.
  apply (@unreferenced_sources_are_deleted _ _ toy_webui_laws shared).
  - apply after_reachable. by vm_compute.
  - apply is_Some_of. by vm_compute.
  - apply (bool_decide_eq_false_1 (1%positive ∈ holders (after shared unheld))). by vm_compute.
Defined.


Definition served_job_state : URLRequestChromeJob :=
  default (URLRequestChromeJob_new None) (w_jobs (after shared served) !! 1%positive).
Lemma reads_are_the_data_witness :
  read_bytes (reads served_job_state) =
    string_take (Z.to_nat (data_offset_ served_job_state)) "<html>" ∧
  0 <= data_offset_ served_job_state <= slen "<html>" ∧
  ∃ n J', CompleteRead 4 served_job_state = Ok ((n, string_take (Z.to_nat n)
      (string_drop (Z.to_nat (data_offset_ served_job_state)) "<html>")), J') ∧
    n = Z.min 4 (slen "<html>" - data_offset_ served_job_state) ∧
    data_offset_ J' = data_offset_ served_job_state + n.
Proof.
  apply (@reads_are_the_data _ _ toy_webui_laws shared (after shared served) 1%positive).
  - apply after_reachable. by vm_compute.
  - apply Some_default. by vm_compute.
  - by vm_compute.
  - by vm_compute.
  - done.
Defined.
End ToyWebUI.
