(* ===== verification/WebUIPageBuilder.v ===== *)
(** * Pages of the application, in one piece

    src/web/webui/crw_web_ui_page_builder.mm: the HTML of a page is fetched,
    then the scripts and style sheets it names, then what the style sheets
    import; when nothing is being fetched any more the tags are replaced by
    the text they name and the completion handler is called.  One build is a
    state with the subresources the loop has not come to, those being fetched
    and the calls of the completion handler; they are answered in any order.

    Regular expressions, sets and file names belong to Foundation and //base:
    what an expression matches and the order in which a set is enumerated are
    given. *)

From Stdlib Require Import Ascii.
From stdpp Require Import sorting.
From S2P Require Import Prelude.
From S2P Require Import WebEnv.

Class PageBuilderEnv `{ENV : WebEnv} := {
  (* the first groups of the matches of prefix(.*?)suffix *)
  matchesInString : string → string → string → list string;
  set_enumeration : list string → list string;
  FileExtension : GURL → string;
  (* web_ui_bundle.js of the bundle *)
  webUIJavaScript : string;
}.
Class PageBuilderLaws `{PB : PageBuilderEnv} : Prop := {
  law_enumeration l : NoDup (set_enumeration l) ∧ ∀ x, x ∈ set_enumeration l ↔ x ∈ l;
}.

(** [replaceOccurrencesOfString:withString:options:range:] with options 0 and
    a range from the beginning, of [range] characters: the occurrences within
    the range, from the left, without overlap. *)
Fixpoint replace_prefix (fuel : nat) (target replacement s : string) (range : nat) : string :=
  match fuel with
  | O => s
  | S fuel =>
      if (String.length target <=? range)%nat && negb (bool_decide (target = "")) &&
         starts_with s target
      then replacement +:+ replace_prefix fuel target replacement
             (string_drop (String.length target) s) (range - String.length target)
      else match s with
           | EmptyString => s
           | String c s' => String c (replace_prefix fuel target replacement s' (pred range))
           end
  end.

(** A range past the end raises an exception. *)
Definition replaceOccurrences (target replacement s : string) (range : nat) : res string :=
  if (range <=? String.length s)%nat then
    Ok (replace_prefix (S (String.length s)) target replacement s range)
  else Crash ObjCException.

Section builder.
Context `{PB : PageBuilderEnv}.

(** The quotation mark. *)
Definition quote : string := String (ascii_of_nat 34) EmptyString.
Definition kJSTagPrefix : string := "<script src=" +:+ quote.
Definition kJSTagSuffix : string := quote +:+ "></script>".
Definition kCSSTagPrefix : string :=
  "<link rel=" +:+ quote +:+ "stylesheet" +:+ quote +:+ " href=" +:+ quote.
Definition kCSSTagSuffix : string := quote +:+ ">".
Definition kWebUIScriptTextTemplate (text : string) : string := "<script>" +:+ text +:+ "</script>".
Definition kWebUIStyleTextTemplate (text : string) : string := "<style>" +:+ text +:+ "</style>".
Definition kWebUIJSURL : string := "chrome://resources/js/ios/web_ui.js".

(** What a build has at hand; [html_length] is the length of the page as it
    was fetched. *)
Record PageBuild := MkBuild {
  pageURL : GURL;
  html_length : nat;
  webUIHTML : string;
  pendingSubresourceCount : Z;
  subresources : gmap GURL string;
  todo : list string;
  fetching : list GURL;
  completions : list string;
}.
Implicit Types b : PageBuild.

Definition with_html x b : PageBuild := MkBuild (pageURL b) (html_length b) x
  (pendingSubresourceCount b) (subresources b) (todo b) (fetching b) (completions b).
Definition with_count x b : PageBuild := MkBuild (pageURL b) (html_length b) (webUIHTML b)
  x (subresources b) (todo b) (fetching b) (completions b).
Definition with_subresources x b : PageBuild := MkBuild (pageURL b) (html_length b) (webUIHTML b)
  (pendingSubresourceCount b) x (todo b) (fetching b) (completions b).
Definition with_todo x b : PageBuild := MkBuild (pageURL b) (html_length b) (webUIHTML b)
  (pendingSubresourceCount b) (subresources b) x (fetching b) (completions b).
Definition with_fetching x b : PageBuild := MkBuild (pageURL b) (html_length b) (webUIHTML b)
  (pendingSubresourceCount b) (subresources b) (todo b) x (completions b).
Definition with_completions x b : PageBuild := MkBuild (pageURL b) (html_length b) (webUIHTML b)
  (pendingSubresourceCount b) (subresources b) (todo b) (fetching b) x.

Notation PM := (M PageBuild).
Definition the_build : PM PageBuild := gets (λ b, b).

(** DCHECK(matchRange.length) in the loop over the matches. *)
Definition URLStringsFromResource (resource prefix suffix : string) : PM (list string) :=
  let matches := matchesInString prefix suffix resource in
  DCHECK (forallb (λ m, negb (bool_decide (m = ""))) matches);;
  mret matches.
Definition URLStringsFromHTML (html : string) : PM (list string) :=
  js ← URLStringsFromResource html kJSTagPrefix kJSTagSuffix;
  css ← URLStringsFromResource html kCSSTagPrefix kCSSTagSuffix;
  mret (set_enumeration (js ++ css)).
Definition URLStringsFromCSS (css : string) : PM (list string) :=
  l ← URLStringsFromResource css "@import url(" ");";
  mret (set_enumeration l).

Definition isCSSSubresourceURL (u : GURL) : bool := bool_decide (FileExtension u = ".css").
Definition isValidSubresourceURL (u : GURL) : bool :=
  bool_decide (FileExtension u = ".css") || bool_decide (FileExtension u = ".js").

Definition addCSSTagToHTML (html : string) (url source : GURL) : res string :=
  let sourceTag := kCSSTagPrefix +:+ spec source +:+ kCSSTagSuffix in
  let extendedTag := (kCSSTagPrefix +:+ spec url +:+ kCSSTagSuffix) +:+ sourceTag in
  replaceOccurrences sourceTag extendedTag html (String.length html).

(** std::map goes through its keys in the order of their specs. *)
Definition spec_le (p q : GURL * string) : Prop := String.leb (spec p.1) (spec q.1) = true.
#[local] Instance spec_le_dec : RelDecision spec_le :=
  λ p q, decide (String.leb (spec p.1) (spec q.1) = true).
Definition in_order (m : gmap GURL string) : list (GURL * string) :=
  merge_sort spec_le (map_to_list m).

Definition inline_one (html : string) (p : GURL * string) : string :=
  let linkTag :=
    if isCSSSubresourceURL p.1 then kCSSTagPrefix +:+ spec p.1 +:+ kCSSTagSuffix
    else kJSTagPrefix +:+ spec p.1 +:+ kJSTagSuffix in
  let textTag :=
    if isCSSSubresourceURL p.1 then kWebUIStyleTextTemplate p.2
    else kWebUIScriptTextTemplate p.2 in
  replace_prefix (S (String.length html)) linkTag textTag html (String.length html).
Definition flattenHTML (html : string) (m : gmap GURL string) : string :=
  fold_left inline_one (in_order (<[GURL_of kWebUIJSURL := webUIJavaScript]> m)) html.

Definition fetchResourceWithURL (u : GURL) : PM unit :=
  modify (λ b, with_fetching (fetching b ++ [u]) b).

(** The completion handler is called once nothing is pending. *)
Definition complete_if_done : PM unit :=
  b ← the_build;
  whenM (pendingSubresourceCount b =? 0)
    (modify (with_html (flattenHTML (webUIHTML b) (subresources b)));;
     modify (λ b, with_completions (completions b ++ [webUIHTML b]) b)).

(** The beginning of buildWebUIPageForHTML, before its loop. *)
Definition PageBuild_new (url : GURL) (html : string) : PageBuild :=
  MkBuild url (String.length html) html 0 ∅ [] [] [].
Definition buildWebUIPageForHTML : PM unit :=
  b ← the_build;
  urls ← URLStringsFromHTML (webUIHTML b);
  modify (with_count (zlen urls));;
  if zlen urls =? 0 then modify (λ b, with_completions (completions b ++ [webUIHTML b]) b)
  else modify (with_todo urls).

(** One round of the loop. *)
Definition loop_round : PM unit :=
  b ← the_build;
  match todo b with
  | [] => mret tt
  | urlString :: rest =>
      modify (with_todo rest);;
      if bool_decide (urlString = kWebUIJSURL) then
        modify (λ b, with_count (pendingSubresourceCount b - 1) b);;
        complete_if_done
      else
        let url := Resolve (pageURL b) urlString in
        whenM (negb (bool_decide (spec url = urlString)))
          (html ← lift_res (replaceOccurrences urlString (spec url) (webUIHTML b) (html_length b));
           modify (with_html html));;
        fetchResourceWithURL url
  end.

(** The loop over the imports of a style sheet. *)
Fixpoint import_loop (source : GURL) (l : list string) : PM unit :=
  match l with
  | [] => mret tt
  | urlString :: l =>
      let url := Resolve source urlString in
      b ← the_build;
      html ← lift_res (addCSSTagToHTML (webUIHTML b) url source);
      modify (with_html html);;
      modify (λ b, with_count (pendingSubresourceCount b + 1) b);;
      fetchResourceWithURL url;;
      import_loop source l
  end.

(** The handler of a subresource. *)
Definition subresourceHandler (subresource : string) (url : GURL) : PM unit :=
  (if isCSSSubresourceURL url then
     urls ← URLStringsFromCSS subresource;
     import_loop url urls
   else mret tt);;
  modify (λ b, with_subresources (<[url := subresource]> (subresources b)) b);;
  modify (λ b, with_count (pendingSubresourceCount b - 1) b);;
  complete_if_done.

(** The delegate answers the [n]th of the fetches that wait. *)
Definition deliver (n : nat) (subresource : string) : PM unit :=
  b ← the_build;
  url ← not_null (fetching b !! n);
  modify (with_fetching (delete n (fetching b)));;
  subresourceHandler subresource url.

(** ** Builds *)

Inductive BuildEvent := Round | Answer (n : nat) (subresource : string).
Definition run_build_event (e : BuildEvent) : PM unit :=
  match e with Round => loop_round | Answer n s => deliver n s end.

(** A page that was fetched, and what may happen while its subresources are. *)
Definition build_step (b : PageBuild) (e : BuildEvent) (b' : PageBuild) : Prop :=
  run_build_event e b = Ok (tt, b').
Definition build_reachable (url : GURL) (html : string) (b : PageBuild) : Prop :=
  ∃ b0, buildWebUIPageForHTML (PageBuild_new url html) = Ok (tt, b0) ∧
    reachable build_step b0 b.

(** What is left to be done is what is pending. *)
Definition build_inv b : Prop :=
  pendingSubresourceCount b = zlen (todo b) + zlen (fetching b) ∧
  completions b = if pendingSubresourceCount b =? 0 then [webUIHTML b] else [].

Lemma wp_complete_if_done b (Q : unit → PageBuild → Prop) :
  pendingSubresourceCount b = zlen (todo b) + zlen (fetching b) → completions b = [] →
  (∀ b', build_inv b' → pageURL b' = pageURL b → todo b' = todo b → fetching b' = fetching b →
     subresources b' = subresources b → html_length b' = html_length b →
     webUIHTML b' = (if pendingSubresourceCount b =? 0
                     then flattenHTML (webUIHTML b) (subresources b) else webUIHTML b) → Q tt b') →
  wp complete_if_done Q b.
Proof.
  intros Hp Hc HQ. unfold complete_if_done, the_build. wp_simp.
  destruct (Z.eqb_spec (pendingSubresourceCount b) 0) as [Hz|Hz]; wp_simp; apply HQ; try done.
  - split; [done|]. cbn. by rewrite Hc, Hz.
  - split; [done|]. by rewrite Hc, (proj2 (Z.eqb_neq _ _) Hz).
Qed.

Lemma wp_import_loop source l b (Q : unit → PageBuild → Prop) :
  (∀ h, (l = [] → h = webUIHTML b) →
     Q tt (with_html h (with_count (pendingSubresourceCount b + zlen l)
     (with_fetching (fetching b ++ (Resolve source <$> l)) b)))) →
  wp (import_loop source l) Q b.
Proof.
  revert b. induction l as [|u l IH]; intros b HQ; cbn [import_loop]; wp_simp.
  { specialize (HQ (webUIHTML b) (λ _, eq_refl)). rewrite zlen_nil, Z.add_0_r, app_nil_r in HQ. by destruct b. }
  unfold the_build. wp_simp. unfold addCSSTagToHTML, replaceOccurrences. rewrite Nat.leb_refl.
  unfold fetchResourceWithURL. wp_simp. apply IH. intros h _. specialize (HQ h ltac:(done)).
  cbn in *. rewrite zlen_cons, Z.add_assoc, (Z.add_comm _ 1), Z.add_assoc in HQ.
  rewrite <-app_assoc. cbn. replace (pendingSubresourceCount b + 1 + zlen l)
    with (1 + pendingSubresourceCount b + zlen l) by lia. exact HQ.
Qed.

Lemma zlen_delete {A} (l : list A) n x : l !! n = Some x → zlen (delete n l) = zlen l - 1.
Proof.
  intros Hx. unfold zlen. rewrite length_delete by (by eexists).
  apply lookup_lt_Some in Hx. lia.
Qed.

(** What an answer does, but for the style sheets it makes the builder fetch. *)
Lemma wp_deliver n s b u (Q : unit → PageBuild → Prop) :
  build_inv b → fetching b !! n = Some u →
  (isCSSSubresourceURL u = true →
     forallb (λ m, negb (bool_decide (m = ""))) (matchesInString "@import url(" ");" s) = true) →
  let imports := if isCSSSubresourceURL u
                 then set_enumeration (matchesInString "@import url(" ");" s) else [] in
  (∀ b', build_inv b' → pageURL b' = pageURL b → html_length b' = html_length b →
     todo b' = todo b → fetching b' = delete n (fetching b) ++ (Resolve u <$> imports) →
     subresources b' = <[u := s]> (subresources b) →
     (imports = [] → webUIHTML b' = (if pendingSubresourceCount b' =? 0
        then flattenHTML (webUIHTML b) (subresources b') else webUIHTML b)) →
     Q tt b') →
  wp (deliver n s) Q b.
Proof.
  intros [Hp Hc] Hn Hm imports HQ. unfold deliver, the_build. wp_simp. exists u. split; [done|].
  wp_simp. unfold subresourceHandler. wp_simp.
  pose proof (zlen_delete _ _ _ Hn) as Hlen.
  assert (Hcount : pendingSubresourceCount b <> 0).
  { pose proof (zlen_nonneg (todo b)). pose proof (zlen_nonneg (delete n (fetching b))). lia. }
  rewrite (proj2 (Z.eqb_neq _ _) Hcount) in Hc.
  assert (Hgo : ∀ h, (imports = [] → h = webUIHTML b) →
    wp (modify (λ b, with_subresources (<[u := s]> (subresources b)) b);;
        modify (λ b, with_count (pendingSubresourceCount b - 1) b);; complete_if_done) Q
      (with_html h (with_count (pendingSubresourceCount b + zlen imports)
        (with_fetching (delete n (fetching b) ++ (Resolve u <$> imports)) b)))).
  { intros h Hh. wp_simp. apply wp_complete_if_done; cbn; [|done|].
    - rewrite zlen_app, zlen_fmap. lia.
    - intros b' Hi H1 H2 H3 H4 H5 H6. apply HQ; [done..|]. intros Hnil. rewrite H6, H4, (Hh Hnil).
      destruct Hi as [Hi _]. rewrite Hi, H2, H3, zlen_app, zlen_fmap.
      replace (pendingSubresourceCount b + zlen imports - 1) with
        (zlen (todo b) + (zlen (delete n (fetching b)) + zlen imports)) by lia. done. }
  destruct (isCSSSubresourceURL u).
  - unfold URLStringsFromCSS, URLStringsFromResource. wp_simp. split; [by apply Hm|]. wp_simp.
    apply wp_import_loop. intros h Hh. by apply (Hgo h).
  - wp_simp. specialize (Hgo (webUIHTML b) (λ _, eq_refl)). unfold imports in Hgo.
    rewrite (zlen_nil (A:=string)), Z.add_0_r in Hgo. cbn in Hgo. rewrite app_nil_r in Hgo.
    destruct b. cbn in *. by rewrite !wp_bind in Hgo.
Qed.

(** A round of the loop; [h] is the page after the URL was replaced. *)
Lemma wp_loop_round b s rest h (Q : unit → PageBuild → Prop) :
  build_inv b → todo b = s :: rest →
  (if bool_decide (s = kWebUIJSURL) || bool_decide (spec (Resolve (pageURL b) s) = s)
   then h = webUIHTML b
   else replaceOccurrences s (spec (Resolve (pageURL b) s)) (webUIHTML b) (html_length b) = Ok h) →
  (∀ b', build_inv b' → pageURL b' = pageURL b → html_length b' = html_length b → todo b' = rest →
     subresources b' = subresources b →
     fetching b' = fetching b ++
       (if bool_decide (s = kWebUIJSURL) then [] else [Resolve (pageURL b) s]) →
     webUIHTML b' = (if pendingSubresourceCount b' =? 0 then flattenHTML h (subresources b') else h) →
     Q tt b') →
  wp loop_round Q b.
Proof.
  intros [Hp Hc] Ht Hh HQ. rewrite Ht, zlen_cons in Hp.
  assert (Hpos : 0 < pendingSubresourceCount b).
  { pose proof (zlen_nonneg rest). pose proof (zlen_nonneg (fetching b)). lia. }
  assert (Hz : (pendingSubresourceCount b =? 0) = false) by lia. rewrite Hz in Hc.
  unfold loop_round, the_build. wp_simp. rewrite Ht. wp_simp. rewrite wp_if.
  case_bool_decide as Hs.
  - cbn in Hh. subst h. wp_simp. apply wp_complete_if_done; cbn; [lia|done|].
    intros b' Hi H1 H2 H3 H4 H5 H6. apply HQ; [done..|by rewrite app_nil_r|].
    destruct Hi as [Hi _]. rewrite H6, H4, Hi, H2, H3.
    by replace (pendingSubresourceCount b - 1) with (zlen rest + zlen (fetching b)) by lia.
  - cbn in Hh. wp_simp. unfold fetchResourceWithURL. case_bool_decide as Hr; cbn.
    + subst h. wp_simp. apply HQ; cbn; rewrite ?Hz; try done.
      split; cbn; [rewrite zlen_app; unfold zlen; cbn; unfold zlen in Hp; lia|by rewrite Hz, Hc].
    + wp_simp. rewrite Hh. wp_simp. apply HQ; cbn; rewrite ?Hz; try done.
      split; cbn; [rewrite zlen_app; unfold zlen; cbn; unfold zlen in Hp; lia|by rewrite Hz, Hc].
Qed.

(** A round that ends replaced the URL, or had nothing to replace. *)
Lemma loop_round_ends b s rest b' :
  todo b = s :: rest → loop_round b = Ok (tt, b') →
  ∃ h, if bool_decide (s = kWebUIJSURL) || bool_decide (spec (Resolve (pageURL b) s) = s)
       then h = webUIHTML b
       else replaceOccurrences s (spec (Resolve (pageURL b) s)) (webUIHTML b) (html_length b) = Ok h.
Proof.
  intros Ht Hrun. case_bool_decide as Hs; [by eexists|]. case_bool_decide as Hr; [by eexists|].
  destruct (replaceOccurrences s _ (webUIHTML b) (html_length b)) as [h|c] eqn:Hh; [by exists h|].
  exfalso. unfold loop_round, the_build, gets, mbind, M_bind in Hrun. rewrite Ht in Hrun.
  cbn [modify] in Hrun. rewrite bool_decide_eq_false_2, bool_decide_eq_false_2 in Hrun by done.
  cbn in Hrun. unfold mbind, M_bind, lift_res in Hrun. cbn in Hrun. by rewrite Hh in Hrun.
Qed.

Lemma loop_round_inv b b' :
  build_inv b → loop_round b = Ok (tt, b') → build_inv b'.
Proof.
  intros Hi Hrun. destruct (todo b) as [|s rest] eqn:Ht.
  { unfold loop_round, the_build, gets, mbind, M_bind in Hrun. rewrite Ht in Hrun.
    by injection Hrun as <-. }
  destruct (loop_round_ends b s rest b' Ht Hrun) as [h Hh].
  assert (Hwp : wp loop_round (λ _ b', build_inv b') b)
    by (by apply (wp_loop_round b s rest h _ Hi Ht Hh)).
  unfold wp in Hwp. by rewrite Hrun in Hwp.
Qed.

(** What an answer needs to be handled: the style sheet has no empty import. *)
Lemma deliver_ends b n s b' u :
  deliver n s b = Ok (tt, b') → fetching b !! n = Some u → isCSSSubresourceURL u = true →
  forallb (λ m, negb (bool_decide (m = ""))) (matchesInString "@import url(" ");" s) = true.
Proof.
  intros Hrun Hn Hcss. destruct (forallb _ _) eqn:Hm; [done|]. exfalso.
  unfold deliver, the_build, gets, mbind, M_bind, not_null, modify, mret, M_ret in Hrun.
  rewrite Hn in Hrun. unfold subresourceHandler, mbind, M_bind in Hrun. rewrite Hcss in Hrun.
  unfold URLStringsFromCSS, URLStringsFromResource, mbind, M_bind, DCHECK in Hrun.
  by rewrite Hm in Hrun.
Qed.

Lemma deliver_inv b n s b' : build_inv b → deliver n s b = Ok (tt, b') → build_inv b'.
Proof.
  intros Hi Hrun. destruct (fetching b !! n) as [u|] eqn:Hn.
  - assert (Hwp : wp (deliver n s) (λ _ b', build_inv b') b).
    { apply (wp_deliver n s b u _ Hi Hn); [|done]. intros Hcss. by eapply deliver_ends. }
    unfold wp in Hwp. by rewrite Hrun in Hwp.
  - unfold deliver, the_build, gets, mbind, M_bind, not_null in Hrun. by rewrite Hn in Hrun.
Qed.

(** The build before its loop. *)
Lemma build_new_inv url html b0 :
  buildWebUIPageForHTML (PageBuild_new url html) = Ok (tt, b0) →
  build_inv b0 ∧ pageURL b0 = url ∧ webUIHTML b0 = html ∧ html_length b0 = String.length html ∧
  subresources b0 = ∅ ∧ fetching b0 = [] ∧
  todo b0 = set_enumeration (matchesInString kJSTagPrefix kJSTagSuffix html ++
    matchesInString kCSSTagPrefix kCSSTagSuffix html).
Proof.
  intros Hrun. unfold buildWebUIPageForHTML, URLStringsFromHTML, URLStringsFromResource, the_build,
    gets, mbind, M_bind, DCHECK in Hrun. cbn [PageBuild_new webUIHTML] in Hrun.
  set (js := matchesInString kJSTagPrefix kJSTagSuffix html) in *.
  set (css := matchesInString kCSSTagPrefix kCSSTagSuffix html) in *.
  destruct (forallb _ js); [|done]. cbn in Hrun. unfold mbind, M_bind in Hrun.
  destruct (forallb _ css); [|done]. cbn in Hrun. unfold mbind, M_bind in Hrun. cbn in Hrun.
  set (urls := set_enumeration (js ++ css)) in *.
  destruct (Z.eqb_spec (zlen urls) 0) as [Hz|Hz]; cbn in Hrun; injection Hrun as <-.
  - rewrite (zlen_zero_nil _ Hz) in *. by split_and!.
  - split_and!; try done. split; cbn; [rewrite zlen_nil; lia|].
    by rewrite (proj2 (Z.eqb_neq _ _) Hz).
Qed.

Lemma build_reachable_inv url html b : build_reachable url html b → build_inv b.
Proof.
  intros (b0 & Hnew & Hr). apply build_new_inv in Hnew as [Hi _].
  refine (reachable_invariant _ _ _ Hi _ b Hr). intros b1 [|n s] b2 Hi1 Hstep.
  - by eapply loop_round_inv.
  - by eapply deliver_inv.
Qed.

(** ** What a build promises *)

(** C15: However the answers are ordered, the completion handler is called once,
    with the page as it is then, and only when nothing is left to be fetched;
    until then it is not called. *)
Theorem page_is_completed_once url html b :
  build_reachable url html b →
  completions b = (if bool_decide (todo b = [] ∧ fetching b = []) then [webUIHTML b] else []).
Proof.
  intros [Hp Hc]%build_reachable_inv. rewrite Hc.
  pose proof (zlen_nonneg (todo b)). pose proof (zlen_nonneg (fetching b)).
  destruct (Z.eqb_spec (pendingSubresourceCount b) 0) as [Hz|Hz].
  - rewrite bool_decide_eq_true_2; [done|].
    split; apply zlen_zero_nil; lia.
  - rewrite bool_decide_eq_false_2; [done|]. intros [Ht Hf].
    rewrite Ht, Hf in Hp. unfold zlen in Hp. cbn in Hp. lia.
Qed.

(** The subresources of a page whose URLs are canonical. *)
Definition page_urls (url : GURL) (html : string) : list GURL :=
  Resolve url <$> filter (λ s, s ≠ kWebUIJSURL)
    (set_enumeration (matchesInString kJSTagPrefix kJSTagSuffix html ++
      matchesInString kCSSTagPrefix kCSSTagSuffix html)).
Definition page_contents (url : GURL) (html : string) (content : GURL → string) :
    gmap GURL string :=
  list_to_map ((λ u, (u, content u)) <$> page_urls url html).

(** Every answer so far was what the URL has. *)
Definition answered_step (content : GURL → string) (b : PageBuild) (e : BuildEvent) (b' : PageBuild) :
    Prop :=
  build_step b e b' ∧
  match e with Round => True | Answer n s => content <$> fetching b !! n = Some s end.

Lemma lookup_page_contents content (l : list GURL) u :
  (list_to_map ((λ u, (u, content u)) <$> l) : gmap GURL string) !! u =
  if decide (u ∈ l) then Some (content u) else None.
Proof.
  induction l as [|x l IH]; cbn; [by rewrite lookup_empty|].
  destruct (decide (x = u)) as [->|Hne].
  - rewrite lookup_insert, decide_True by done. by rewrite decide_True by apply list_elem_of_here.
  - rewrite lookup_insert_ne, IH by done. destruct (decide (u ∈ l)).
    + by rewrite decide_True by (by apply list_elem_of_further).
    + rewrite decide_False; [done|]. by intros [|]%elem_of_cons.
Qed.
End builder.

Section order.
Context `{PB : PageBuilderEnv} (content : GURL → string) (url : GURL) (html : string).

(** The page names its subresources the way their URLs are written, and its
    style sheets import nothing. *)
Hypothesis canonical : ∀ s, s ∈ set_enumeration (matchesInString kJSTagPrefix kJSTagSuffix html ++
  matchesInString kCSSTagPrefix kCSSTagSuffix html) → s ≠ kWebUIJSURL → spec (Resolve url s) = s.
Hypothesis no_imports : ∀ u, isCSSSubresourceURL u = true →
  set_enumeration (matchesInString "@import url(" ");" (content u)) = [].

(** What was answered, what is being fetched and what the loop has not come
    to make up the page. *)
Definition order_inv (b : PageBuild) : Prop :=
  build_inv b ∧ pageURL b = url ∧
  (∀ s, s ∈ todo b → s ≠ kWebUIJSURL → spec (Resolve url s) = s) ∧
  (∃ answered, (∀ u, subresources b !! u = if decide (u ∈ answered) then Some (content u) else None) ∧
     answered ++ fetching b ++ (Resolve url <$> filter (λ s, s ≠ kWebUIJSURL) (todo b)) ≡ₚ
     page_urls url html) ∧
  webUIHTML b = (if pendingSubresourceCount b =? 0 then flattenHTML html (subresources b) else html).

Lemma order_step b e b' :
  order_inv b → pendingSubresourceCount b ≠ 0 → answered_step content b e b' → order_inv b'.
Proof using canonical no_imports.
  intros (Hi & Hu & Hcan & (answered & Hsub & Hperm) & Hh) Hp [Hrun Hans].
  rewrite (proj2 (Z.eqb_neq _ _) Hp) in Hh. unfold build_step in Hrun.
  destruct e as [|n s]; cbn [run_build_event] in Hrun.
  - destruct (todo b) as [|s rest] eqn:Ht.
    { unfold loop_round, the_build, gets, mbind, M_bind in Hrun. rewrite Ht in Hrun.
      injection Hrun as <-. split_and!; [done|done|by rewrite Ht|exists answered; by rewrite Ht|].
      by rewrite (proj2 (Z.eqb_neq _ _) Hp). }
    assert (Hwp : wp loop_round (λ _ b', order_inv b') b).
    { apply (wp_loop_round b s rest (webUIHTML b)); [done|done| |].
      - destruct (decide (s = kWebUIJSURL)) as [->|Hs]; [by rewrite bool_decide_eq_true_2|].
        rewrite Hu, (bool_decide_eq_true_2 (spec _ = s)), orb_true_r; [done|].
        apply Hcan; [apply list_elem_of_here|done].
      - intros b1 Hi1 H1 H2 H3 H4 H5 H6. split_and!; [done|congruence| | |].
        + rewrite H3. intros s' Hs'. apply Hcan. by apply list_elem_of_further.
        + exists answered. split; [by rewrite H4|]. rewrite H5, H3, <-Hperm, Hu.
          rewrite filter_cons. case_bool_decide as Hs.
          * rewrite decide_False by (by intros []). by rewrite app_nil_r.
          * rewrite decide_True by done. cbn. solve_Permutation.
        + by rewrite H6, Hh. }
    unfold wp in Hwp. by rewrite Hrun in Hwp.
  - destruct (fetching b !! n) as [u|] eqn:Hn; [|done]. cbn in Hans. injection Hans as Hans.
    assert (Hwp : wp (deliver n s) (λ _ b', order_inv b') b).
    { apply (wp_deliver n s b u _ Hi Hn); [intros Hcss; by eapply deliver_ends|].
      assert (Himp : (if isCSSSubresourceURL u then
        set_enumeration (matchesInString "@import url(" ");" s) else []) = []).
      { destruct (isCSSSubresourceURL u) eqn:Hcss; [|done]. rewrite <-Hans. by apply no_imports. }
      rewrite Himp. intros b1 Hi1 H1 H2 H3 H4 H5 H6. cbn in H4. rewrite app_nil_r in H4.
      split_and!; [done|congruence|by rewrite H3| |].
      - exists (u :: answered). split.
        + intros v. rewrite H5. destruct (decide (u = v)) as [<-|Hne].
          * rewrite lookup_insert, decide_True by done. by rewrite decide_True, Hans by apply list_elem_of_here.
          * rewrite lookup_insert_ne, Hsub by done. destruct (decide (v ∈ answered)).
            { by rewrite decide_True by (by apply list_elem_of_further). }
            rewrite decide_False; [done|]. by intros [|]%elem_of_cons.
        + rewrite H3, H4, <-Hperm. rewrite (delete_Permutation (fetching b) n u Hn) at 2.
          cbn. solve_Permutation.
      - by rewrite (H6 eq_refl), Hh. }
    unfold wp in Hwp. by rewrite Hrun in Hwp.
Qed.

Lemma order_step_any b e b' : order_inv b → answered_step content b e b' → order_inv b'.
Proof using canonical no_imports.
  intros Ho Hstep. destruct (decide (pendingSubresourceCount b = 0)) as [Hz|]; [|by eapply order_step].
  pose proof Ho as ([Hp _] & _). rewrite Hz in Hp.
  pose proof (zlen_nonneg (todo b)). pose proof (zlen_nonneg (fetching b)).
  assert (todo b = []) as Ht by (apply zlen_zero_nil; lia).
  assert (fetching b = []) as Hf by (apply zlen_zero_nil; lia).
  destruct Hstep as [Hrun Hans]. destruct e as [|n s].
  - unfold build_step, run_build_event, loop_round, the_build, gets, mbind, M_bind in Hrun.
    rewrite Ht in Hrun. by injection Hrun as <-.
  - by rewrite Hf in Hans.
Qed.

End order.

Section imports.
Context `{PB : PageBuilderEnv} {LAWS : PageBuilderLaws}.

(** The style sheet [css] of [u] is answered [n] times. *)
Fixpoint answer_again (css : string) (n : nat) : M PageBuild unit :=
  match n with O => mret tt | S n => deliver 0 css;; answer_again css n end.

(** C40: A style sheet that imports itself is fetched again with every answer: the
    completion handler is never called. *)
Theorem circular_import_never_completes b u css s n :
  build_inv b → todo b = [] → fetching b = [u] →
  isCSSSubresourceURL u = true → matchesInString "@import url(" ");" css = [s] → s ≠ "" →
  Resolve u s = u →
  ∃ b', answer_again css n b = Ok (tt, b') ∧ fetching b' = [u] ∧ completions b' = [].
Proof using All.
  intros Hi Ht Hf Hcss Hm Hs Hres. apply wp_run_unit.
  assert (Henum : set_enumeration [s] = [s]).
  { destruct (law_enumeration [s]) as [Hnd Hin]. apply Permutation_singleton_r.
    apply NoDup_Permutation; [done|apply NoDup_singleton|done]. }
  assert (Hc : ∀ b', build_inv b' → fetching b' = [u] → completions b' = []).
  { intros b' [Hp' Hc'] Hf'. rewrite Hc', (proj2 (Z.eqb_neq _ _)); [done|].
    pose proof (zlen_nonneg (todo b')). rewrite Hp', Hf'. unfold zlen at 2. cbn. lia. }
  revert b Hi Ht Hf. induction n as [|n IH]; intros b Hi Ht Hf; cbn [answer_again]; wp_simp.
  { split; [done|by apply Hc]. }
  apply (wp_deliver 0 css b u _ Hi); [by rewrite Hf| |].
  { intros _. rewrite Hm. cbn. by rewrite bool_decide_eq_false_2. }
  rewrite Hcss, Hm, Henum. cbn. rewrite Hres.
  intros b' Hi' _ _ Ht' Hf' _ _. apply IH; [done|congruence|]. by rewrite Hf', Hf.
Qed.
End imports.

(** ** Concrete texts

    The matches of the regular expression are found by searching for the
    prefix and then for the suffix; a set keeps the order of its elements; a
    URL of the web is a style sheet when its host is "css".  The examples are
    in the manner of crw_web_ui_page_builder_unittest.mm, and show the pages
    the builder gets wrong. *)

Module ToyPage.
#[local] Existing Instance Toy.env.

Fixpoint between (fuel : nat) (prefix suffix s : string) : list string :=
  match fuel with
  | O => []
  | S fuel =>
      match string_find prefix s with
      | None => []
      | Some i =>
          let r := string_drop (i + String.length prefix) s in
          match string_find suffix r with
          | None => []
          | Some k => string_take k r :: between fuel prefix suffix (string_drop (k + String.length suffix) r)
          end
      end
  end.

#[export] Instance toy_builder : PageBuilderEnv := {
  matchesInString prefix suffix s := between (String.length s) prefix suffix s;
  set_enumeration := remove_dups;
  FileExtension u := if bool_decide (url_host u = "css") then ".css" else ".js";
  webUIJavaScript := "messaging";
}.
#[export] Instance toy_builder_laws : PageBuilderLaws.
Proof. split. intros l. split; [apply NoDup_remove_dups|intros x; apply elem_of_remove_dups]. Qed.

Definition script (src : string) : string := kJSTagPrefix +:+ src +:+ kJSTagSuffix.
Definition style (href : string) : string := kCSSTagPrefix +:+ href +:+ kCSSTagSuffix.

Fixpoint run_all (l : list BuildEvent) : M PageBuild unit :=
  match l with [] => mret tt | e :: l => run_build_event e;; run_all l end.
(** What the completion handler was given, or why the build ended. *)
Definition build (url : GURL) (html : string) (l : list BuildEvent) : list string + crash :=
  match (buildWebUIPageForHTML;; run_all l) (PageBuild_new url html) with
  | Ok (_, b) => inl (completions b)
  | Crash c => inr c
  end.

Definition page_url : GURL := Toy.web "h" "p".

Example BuildSimplePage : build page_url "<html></html>" [] = inl ["<html></html>"].
Proof. by vm_compute. Qed.

Example BuildPageWithJSSubresource :
  build page_url (script "wh/") [Round; Answer 0 "code"] = inl ["<script>code</script>"].
Proof. by vm_compute. Qed.

Example BuildPageWithCSSSubresource :
  build (Toy.web "css" "p") (style "wcss/") [Round; Answer 0 "b{}"] = inl ["<style>b{}</style>"].
Proof. by vm_compute. Qed.

(** ** Pages it gets wrong *)

(** The URLs of both scripts are replaced by longer ones.  The second is
    looked for in as many characters as the page had at first, which do not
    reach it any more: its tag is not replaced by its text. *)
Definition far : GURL := Toy.web "a.host.with.a.name.that.is.long" "p".
Theorem late_tags_are_not_inlined :
  build far (script "a" +:+ script "b") [Round; Round; Answer 0 "code"; Answer 0 "code"] =
  inl ["<script>code</script>" +:+ script "b"].
Proof. by vm_compute. Qed.

(** The URLs are replaced by shorter ones: the second range is longer than the
    page, which raises an exception. *)
Theorem shorter_urls_raise :
  build page_url (script "scripts/one.js" +:+ script "scripts/two.js") [Round; Round] =
  inr ObjCException.
Proof. by vm_compute. Qed.

(** A name that is part of another one is replaced there too. *)
Theorem names_within_names :
  build page_url (script "a" +:+ script "la") [Round; Round; Answer 0 "code"; Answer 0 "code"] =
  inl ["<script>code</script>" +:+ script "lwh/"].
Proof. by vm_compute. Qed.

(** ** The theorems on a page *)

Definition state_of (d : PageBuild) (r : res (unit * PageBuild)) : PageBuild :=
  match r with Ok (_, b) => b | Crash _ => d end.
Lemma ok_state d r : is_ok r = true → r = Ok (tt, state_of d r).
Proof. by destruct r as [[[] b]|]. Qed.

Definition simple_page : string := script "wh/".
Definition begun : PageBuild :=
  state_of (PageBuild_new page_url simple_page) (buildWebUIPageForHTML (PageBuild_new page_url simple_page)).
Definition asked : PageBuild := state_of begun (run_build_event Round begun).
Definition answered : PageBuild := state_of asked (run_build_event (Answer 0 "code") asked).

Lemma begun_run : buildWebUIPageForHTML (PageBuild_new page_url simple_page) = Ok (tt, begun).
Proof. apply ok_state. by vm_compute. Qed.
Lemma answered_reachable : reachable (answered_step (λ _, "code")) begun answered.
Proof.
  apply (reach_step _ _ asked (Answer 0 "code")).
  - apply (reach_step _ _ begun Round); [apply reach_refl|]. split; [|done].
    apply (ok_state begun). by vm_compute.
  - split; [|by vm_compute]. apply (ok_state asked). by vm_compute.
Qed.
Lemma answered_build : build_reachable page_url simple_page answered.
Proof.
  exists begun. split; [apply begun_run|].
  apply (reach_step _ _ asked (Answer 0 "code")).
  - apply (reach_step _ _ begun Round); [apply reach_refl|]. apply (ok_state begun). by vm_compute.
  - apply (ok_state asked). by vm_compute.
Qed.

Lemma simple_page_urls :
  set_enumeration (matchesInString kJSTagPrefix kJSTagSuffix simple_page ++
    matchesInString kCSSTagPrefix kCSSTagSuffix simple_page) = ["wh/"].
Proof. by vm_compute. Qed.

Lemma page_is_completed_once_witness :
  completions answered =
  (if bool_decide (todo answered = [] ∧ fetching answered = []) then [webUIHTML answered] else []).
Proof. apply (page_is_completed_once page_url simple_page), answered_build. Defined.


(** A style sheet that imports its own URL. *)
Definition style_url : GURL := Toy.web "css" "".
Definition circular : PageBuild :=
  MkBuild style_url 0 "" 1 ∅ [] [style_url] [].
Lemma circular_import_never_completes_witness :
  ∃ b', answer_again "@import url(a);" 7 circular = Ok (tt, b') ∧ fetching b' = [style_url] ∧
    completions b' = [].
Proof.
  apply (circular_import_never_completes circular style_url "@import url(a);" "a" 7).
  - split; done.
  - done.
  - done.
  - by vm_compute.
  - by vm_compute.
  - done.
  - by vm_compute.
Defined.
End ToyPage.
