(* ===== verification/WebFrame.v ===== *)
(** * Frames of a page

    src/web/web_state/web_frame_impl.mm: a frame calls JavaScript functions,
    directly or with an encrypted message, and keeps the callbacks of the calls
    that wait for an answer; each has a timer.  The timers that run, the scripts
    the web state executes and the callbacks that were called are part of the
    state.

    Every call that a frame accepted is answered exactly once: by the page, by
    its timer, or by the end of the web state or of the frame.  A frame that is
    not the main frame is only sent sealed messages, with increasing ids.  What
    happens to an answer that comes too late is [late_results].

    Values, JSON and encryption belong to //base and //crypto.  A callback is
    a number, and does not call the frame back while it runs. *)

From stdpp Require Import sorting.
From S2P Require Import Prelude.
From S2P Require Import WebEnv.

Class FrameEnv := {
  Value : Type;
  JSONWriter_Value : Value → string;
  (* the dictionary with messageId, replyWithResult, functionName, parameters *)
  JSONWriter_Message : Z → bool → string → list Value → string;
  SymmetricKey : Type;
  Seal : SymmetricKey → string → string → option string;
  Base64Encode : string → string;
}.

Section frame.
Context `{ENV : WebEnv} `{FRAME : FrameEnv}.

(** RequestCallbacks: the callback, and its timer. *)
Record RequestCallbacks := MkRequest { completion : Z; timeout_callback : Z }.

(** WebFrameImpl, with the web state's scripts that were executed, those whose
    completion waits ([executing], with the message), and the timers posted so
    far that did not run. *)
Record WebFrameImpl := MkFrame {
  frame_id_ : string;
  is_main_frame_ : bool;
  security_origin_ : GURL;
  web_state_ : bool;
  frame_key_ : option SymmetricKey;
  next_message_id_ : Z;
  pending_requests_ : gmap Z RequestCallbacks;
  scripts : list string;
  executing : list Z;
  timers : list (Z * Z);
  next_timer : Z;
  called : list (Z * option Value);
}.
Implicit Types f : WebFrameImpl.

Definition with_key k f : WebFrameImpl := MkFrame (frame_id_ f) (is_main_frame_ f)
  (security_origin_ f) (web_state_ f) k (next_message_id_ f) (pending_requests_ f) (scripts f)
  (executing f) (timers f) (next_timer f) (called f).
Definition with_next n f : WebFrameImpl := MkFrame (frame_id_ f) (is_main_frame_ f)
  (security_origin_ f) (web_state_ f) (frame_key_ f) n (pending_requests_ f) (scripts f)
  (executing f) (timers f) (next_timer f) (called f).
Definition with_pending p c f : WebFrameImpl := MkFrame (frame_id_ f) (is_main_frame_ f)
  (security_origin_ f) (web_state_ f) (frame_key_ f) (next_message_id_ f) p (scripts f)
  (executing f) (timers f) (next_timer f) c.
Definition with_scripts s e f : WebFrameImpl := MkFrame (frame_id_ f) (is_main_frame_ f)
  (security_origin_ f) (web_state_ f) (frame_key_ f) (next_message_id_ f) (pending_requests_ f) s
  e (timers f) (next_timer f) (called f).
Definition with_timers t n f : WebFrameImpl := MkFrame (frame_id_ f) (is_main_frame_ f)
  (security_origin_ f) (web_state_ f) (frame_key_ f) (next_message_id_ f) (pending_requests_ f)
  (scripts f) (executing f) t n (called f).
Definition with_web_state b f : WebFrameImpl := MkFrame (frame_id_ f) (is_main_frame_ f)
  (security_origin_ f) b (frame_key_ f) (next_message_id_ f) (pending_requests_ f) (scripts f)
  (executing f) (timers f) (next_timer f) (called f).

Notation FM := (M WebFrameImpl).
(** The map's key is a uint32_t, a message's id an int. *)
Definition to_uint32 (z : Z) : Z := z mod 4294967296.
Definition the_frame : FM WebFrameImpl := gets (λ f, f).

Definition WebFrameImpl_new (frame_id : string) (is_main_frame : bool) (security_origin : GURL) :
    WebFrameImpl :=
  MkFrame frame_id is_main_frame security_origin true None 0 ∅ [] [] [] 0 [].

Definition SetEncryptionKey (frame_key : option SymmetricKey) : FM unit :=
  modify (with_key frame_key).
Definition SetNextMessageId (message_id : Z) : FM unit := modify (with_next message_id).

Definition CanCallJavaScriptFunction f : bool :=
  is_main_frame_ f || bool_decide (is_Some (frame_key_ f)).

(** GetWebState()->ExecuteJavaScript, with or without a completion. *)
Definition web_state_ExecuteJavaScript (script : string) (message_id : option Z) : FM unit :=
  f ← the_frame;
  if web_state_ f then
    modify (with_scripts (scripts f ++ [script])
      (match message_id with Some m => executing f ++ [m] | None => executing f end))
  else fail NullDeref.

(** componentsJoinedByString: *)
Fixpoint joined (sep : string) (l : list string) : string :=
  match l with
  | [] => ""
  | [s] => s
  | s :: l => s +:+ sep +:+ joined sep l
  end.

Definition ExecuteJavaScriptFunction (name : string) (parameters : list Value) (message_id : Z)
    (reply_with_result : bool) : FM bool :=
  f ← the_frame;
  if negb (is_main_frame_ f) then mret false
  else
    let script := "__gCrWeb." +:+ name +:+ "(" +:+ joined "," (JSONWriter_Value <$> parameters) +:+ ")" in
    web_state_ExecuteJavaScript script (Some message_id);;
    mret true.

Definition routeMessage (ciphertext iv frame_id : string) : string :=
  "__gCrWeb.message.routeMessage('" +:+ Base64Encode ciphertext +:+ "', '" +:+
    Base64Encode iv +:+ "', '" +:+ frame_id +:+ "')".

(** [iv] is what RandBytes writes. *)
Definition CallJavaScriptFunction (name : string) (parameters : list Value)
    (reply_with_result : bool) (iv : string) : FM bool :=
  f ← the_frame;
  if negb (CanCallJavaScriptFunction f) then mret false
  else
    let message_id := next_message_id_ f in
    next ← int_add message_id 1;
    modify (with_next next);;
    match frame_key_ f with
    | None => ExecuteJavaScriptFunction name parameters message_id reply_with_result
    | Some key =>
        match Seal key (JSONWriter_Message message_id reply_with_result name parameters) iv with
        | None => mret false
        | Some ciphertext =>
            web_state_ExecuteJavaScript (routeMessage ciphertext iv (frame_id_ f)) None;;
            mret true
        end
    end.

(** The call with a callback and a timeout. *)
Definition CallJavaScriptFunctionWithCallback (name : string) (parameters : list Value)
    (callback : Z) (iv : string) : FM bool :=
  f ← the_frame;
  let message_id := next_message_id_ f in
  let request := MkRequest callback (next_timer f) in
  modify (with_pending (<[to_uint32 message_id := request]> (pending_requests_ f)) (called f));;
  modify (with_timers (timers f ++ [(next_timer f, message_id)]) (next_timer f + 1));;
  ok ← CallJavaScriptFunction name parameters true iv;
  whenM (negb ok)
    (modify (λ f, with_pending (delete (to_uint32 message_id) (pending_requests_ f)) (called f) f));;
  mret ok.

(** CompleteRequest of a request, and of a message: the entry is erased after
    the callback ran. *)
Definition CompleteRequest_callbacks (request : RequestCallbacks) (result : option Value) : FM unit :=
  modify (λ f, with_pending (pending_requests_ f) (called f ++ [(completion request, result)]) f).
Definition CompleteRequest (message_id : Z) (result : option Value) : FM unit :=
  f ← the_frame;
  match pending_requests_ f !! to_uint32 message_id with
  | None => mret tt
  | Some request =>
      CompleteRequest_callbacks request result;;
      modify (λ f, with_pending (delete (to_uint32 message_id) (pending_requests_ f)) (called f) f)
  end.
Definition CancelRequest (message_id : Z) : FM unit := CompleteRequest message_id None.

Fixpoint cancel_all (l : list RequestCallbacks) : FM unit :=
  match l with
  | [] => mret tt
  | r :: l => CompleteRequest_callbacks r None;; cancel_all l
  end.
(** The map's order is that of its keys. *)
Definition key_le (p q : Z * RequestCallbacks) : Prop := p.1 <= q.1.
#[global] Instance key_le_dec : RelDecision key_le.
Proof. intros p q. unfold key_le. apply _. Defined.
Definition in_key_order (p : gmap Z RequestCallbacks) : list (Z * RequestCallbacks) :=
  merge_sort key_le (map_to_list p).
Definition CancelPendingRequests : FM unit :=
  f ← the_frame;
  cancel_all ((in_key_order (pending_requests_ f)).*2);;
  modify (λ f, with_pending ∅ (called f) f).

Definition kJavaScriptReplyCommandPrefix : string := "frameMessaging_".
Definition GetScriptCommandPrefix f : string := kJavaScriptReplyCommandPrefix +:+ frame_id_ f.

(** The command a page sends: its name, and its message if that is there, as
    a double or not. *)
Record Command := MkCommand {
  command_name : option string;
  command_messageId : option (option Z);
  command_result : option Value;
}.

Definition OnJavaScriptReply (c : Command) : FM bool :=
  f ← the_frame;
  match command_name c, command_messageId c with
  | Some name, Some message =>
      if negb (bool_decide (name = GetScriptCommandPrefix f +:+ ".reply")) then NOTREACHED
      else
        match message with
        | None => NOTREACHED
        | Some message_id =>
            if negb (in_int message_id) then fail IntOverflow else
            match pending_requests_ f !! to_uint32 message_id with
            | None => NOTREACHED
            | Some request =>
                modify (with_pending (delete (to_uint32 message_id) (pending_requests_ f)) (called f));;
                CompleteRequest_callbacks request (command_result c);;
                mret true
            end
        end
  | _, _ => NOTREACHED
  end.

Definition DetachFromWebState : FM unit := modify (with_web_state false).
Definition WebStateDestroyed : FM unit := CancelPendingRequests;; DetachFromWebState.
Definition WebFrameImpl_destroy : FM unit := CancelPendingRequests;; DetachFromWebState.

(** ** What happens to a frame *)

(** The script of a direct call ended. *)
Definition script_ends (n : nat) (result : option Value) : FM unit :=
  f ← the_frame;
  message_id ← not_null (executing f !! n);
  modify (λ f, with_scripts (scripts f) (delete n (executing f)) f);;
  CompleteRequest message_id result.

(** A timer runs, unless its callback was cancelled, as it is once it ran, or
    its request is gone. *)
Definition timer_alive (t : Z) (p : gmap Z RequestCallbacks) : bool :=
  existsb (λ r, timeout_callback r.2 =? t) (map_to_list p).
Definition timer_fires (n : nat) : FM unit :=
  f ← the_frame;
  timer ← not_null (timers f !! n);
  modify (with_timers (delete n (timers f)) (next_timer f));;
  whenM (timer_alive timer.1 (pending_requests_ f)) (CancelRequest timer.2).

(** The timers run, the oldest first. *)
Fixpoint timers_fire (n : nat) : FM unit :=
  match n with
  | O => mret tt
  | S n => timer_fires 0;; timers_fire n
  end.

Inductive Event :=
  | EvKey (key : option SymmetricKey)
  | EvCall (name : string) (parameters : list Value) (iv : string)
  | EvCallback (name : string) (parameters : list Value) (callback : Z) (iv : string)
  | EvScriptEnds (n : nat) (result : option Value)
  | EvReply (c : Command)
  | EvTimer (n : nat)
  | EvDestroyed.

(** The result of a call with a callback says whether it is answered. *)
Definition run_event (e : Event) : FM (option Z) :=
  match e with
  | EvKey key => SetEncryptionKey key;; mret None
  | EvCall name parameters iv => CallJavaScriptFunction name parameters false iv;; mret None
  | EvCallback name parameters callback iv =>
      (λ ok : bool, if ok then Some callback else None) <$>
        CallJavaScriptFunctionWithCallback name parameters callback iv
  | EvScriptEnds n result => script_ends n result;; mret None
  | EvReply c => OnJavaScriptReply c;; mret None
  | EvTimer n => timer_fires n;; mret None
  | EvDestroyed => WebStateDestroyed;; mret None
  end.

(** The frame, with the callbacks of the calls that returned true. *)
Definition frame_step (s : WebFrameImpl * list Z) (e : Event) (s' : WebFrameImpl * list Z) : Prop :=
  ∃ r, run_event e s.1 = Ok (r, s'.1) ∧
    s'.2 = s.2 ++ match r with Some c => [c] | None => [] end.
Definition frame_reachable (f0 : WebFrameImpl) (f : WebFrameImpl) (accepted : list Z) : Prop :=
  reachable frame_step (f0, ([] : list Z)) (f, accepted).

(** ** Invariant *)

Definition waiting f : list Z := (λ p, completion p.2) <$> map_to_list (pending_requests_ f).

(** Every accepted call was answered or waits, and what waits has an id of the
    past and a timer of its own. *)
Record frame_inv (accepted : list Z) f : Prop := {
  frame_callbacks : (called f).*1 ++ waiting f ≡ₚ accepted;
  frame_ids k r : pending_requests_ f !! k = Some r →
    ∃ m, k = to_uint32 m ∧ INT_MIN <= m < next_message_id_ f ∧ (timeout_callback r, m) ∈ timers f;
  frame_next : INT_MIN <= next_message_id_ f <= INT_MAX;
  frame_timers t m : (t, m) ∈ timers f → t < next_timer f;
  frame_timer_ids : NoDup (timers f).*1;
}.

Lemma waiting_insert f k r c :
  pending_requests_ f !! k = None →
  waiting (with_pending (<[k := r]> (pending_requests_ f)) c f) ≡ₚ completion r :: waiting f.
Proof. intros Hm. unfold waiting. cbn. by rewrite map_to_list_insert. Qed.

Lemma waiting_delete f k r c :
  pending_requests_ f !! k = Some r →
  waiting f ≡ₚ completion r :: waiting (with_pending (delete k (pending_requests_ f)) c f).
Proof. intros Hm. unfold waiting. cbn. by rewrite <-(map_to_list_delete _ k r Hm). Qed.

Lemma to_uint32_inj m n :
  INT_MIN <= m <= INT_MAX → INT_MIN <= n <= INT_MAX → to_uint32 m = to_uint32 n → m = n.
Proof. unfold to_uint32, INT_MIN, INT_MAX. intros ?? H. Z.div_mod_to_equations. lia. Qed.

(** The next message's id is not in the map. *)
Lemma frame_next_fresh accepted f :
  frame_inv accepted f → pending_requests_ f !! to_uint32 (next_message_id_ f) = None.
Proof.
  intros Hi. destruct (pending_requests_ f !! _) as [r|] eqn:Hr; [|done].
  destruct (frame_ids _ _ Hi _ _ Hr) as (m & Hm & ? & ?). pose proof (frame_next _ _ Hi).
  apply to_uint32_inj in Hm; lia.
Qed.

(** A request is answered, and forgotten. *)
Lemma frame_answer accepted f k r result :
  frame_inv accepted f → pending_requests_ f !! k = Some r →
  frame_inv accepted (with_pending (delete k (pending_requests_ f))
    (called f ++ [(completion r, result)]) f).
Proof.
  intros [H1 H2 H3 H4 H5] Hm. split; cbn;
    [|intros k' r' [_ ?]%lookup_delete_Some; by apply H2|done|done|done].
  rewrite <-H1. rewrite (waiting_delete f k r (called f ++ [(completion r, result)]) Hm).
  rewrite fmap_app. cbn. solve_Permutation.
Qed.

Lemma wp_CompleteRequest accepted f m result (Q : unit → WebFrameImpl → Prop) :
  frame_inv accepted f →
  (∀ f', frame_inv accepted f' → timers f' = timers f →
     pending_requests_ f' = delete (to_uint32 m) (pending_requests_ f) → Q tt f') →
  wp (CompleteRequest m result) Q f.
Proof.
  intros Hi HQ. unfold CompleteRequest, the_frame. wp_simp.
  destruct (pending_requests_ f !! _) as [r|] eqn:Hm.
  - unfold CompleteRequest_callbacks. wp_simp. apply HQ; [exact (frame_answer _ _ _ _ result Hi Hm)|done..].
  - wp_simp. apply HQ; [done..|]. by rewrite delete_id.
Qed.

Lemma wp_cancel_all l f (Q : unit → WebFrameImpl → Prop) :
  Q tt (with_pending (pending_requests_ f)
    (called f ++ ((λ r, (completion r, None)) <$> l)) f) →
  wp (cancel_all l) Q f.
Proof.
  revert f. induction l as [|r l IH]; intros f HQ; cbn [cancel_all]; wp_simp.
  { cbn in HQ. rewrite app_nil_r in HQ. by destruct f. }
  unfold CompleteRequest_callbacks. wp_simp. apply IH. cbn. by rewrite <-app_assoc.
Qed.

Lemma wp_CancelPendingRequests accepted f (Q : unit → WebFrameImpl → Prop) :
  frame_inv accepted f →
  (∀ f', frame_inv accepted f' → pending_requests_ f' = ∅ → Q tt f') →
  wp CancelPendingRequests Q f.
Proof.
  intros [H1 H2 H3 H4 H5] HQ. unfold CancelPendingRequests, the_frame. wp_simp.
  apply wp_cancel_all. wp_simp. apply HQ; [|done].
  split; cbn; [|intros m r; by rewrite lookup_empty|done|done|done].
  unfold waiting. cbn. rewrite map_to_list_empty. cbn. rewrite app_nil_r, <-H1, fmap_app. f_equiv.
  unfold waiting, in_key_order. rewrite <-!list_fmap_compose.
  rewrite (merge_sort_Permutation key_le (map_to_list (pending_requests_ f))).
  by apply reflexive_eq, list_fmap_ext.
Qed.
End frame.

(** ** Properties *)
Section spec.
Context `{ENV : WebEnv} `{FRAME : FrameEnv}.
Implicit Types f : WebFrameImpl.

(** A call only takes a message id and executes a script. *)
Lemma call_keeps name parameters reply iv f ok f' :
  CallJavaScriptFunction name parameters reply iv f = Ok (ok, f') →
  pending_requests_ f' = pending_requests_ f ∧ called f' = called f ∧
  timers f' = timers f ∧ next_timer f' = next_timer f ∧
  (next_message_id_ f' = next_message_id_ f ∧ ok = false ∨
   next_message_id_ f' = next_message_id_ f + 1 ∧ in_int (next_message_id_ f + 1) = true).
Proof using Type.
  unfold CallJavaScriptFunction, ExecuteJavaScriptFunction, web_state_ExecuteJavaScript, the_frame,
    int_add, gets, modify, mbind, M_bind, mret, M_ret, fail. cbn.
  destruct (CanCallJavaScriptFunction f); cbn; [|intros ?; simplify_eq; tauto].
  destruct (in_int _) eqn:Hin; cbn; [|done].
  destruct (frame_key_ f) as [key|]; [destruct (Seal _ _ _)|]; cbn;
    try (destruct (is_main_frame_ f); cbn); try (destruct (web_state_ f); cbn);
    intros ?; simplify_eq; cbn; tauto.
Qed.

Lemma in_int_range z : in_int z = true → INT_MIN <= z <= INT_MAX.
Proof. unfold in_int. intros H. by bool_to_prop. Qed.

(** A state with the same requests and timers. *)
Lemma frame_inv_same accepted f f' :
  frame_inv accepted f →
  pending_requests_ f' = pending_requests_ f → called f' = called f →
  timers f' = timers f → next_timer f' = next_timer f →
  next_message_id_ f <= next_message_id_ f' <= INT_MAX →
  frame_inv accepted f'.
Proof using Type.
  intros [H1 H2 H3 H4 H5] Hp Hc Ht Hn Hm. split; unfold waiting; rewrite ?Hp, ?Hc, ?Ht, ?Hn; try done.
  - intros k r Hk. destruct (H2 k r Hk) as (m & -> & ? & ?). exists m. split_and!; [done|lia..|done].
  - lia.
Qed.

Lemma frame_call accepted name parameters reply iv f ok f' :
  frame_inv accepted f → CallJavaScriptFunction name parameters reply iv f = Ok (ok, f') →
  frame_inv accepted f'.
Proof using Type.
  intros Hi (Hp & Hc & Ht & Hn & Hm)%call_keeps. pose proof (frame_next _ _ Hi).
  eapply frame_inv_same; try done.
  destruct Hm as [[-> ?]|[-> ?%in_int_range]]; lia.
Qed.

(** A new timer. *)
Lemma frame_timer accepted f m :
  frame_inv accepted f →
  frame_inv accepted (with_timers (timers f ++ [(next_timer f, m)]) (next_timer f + 1) f).
Proof using Type.
  intros [H1 H2 H3 H4 H5]. split; cbn; [done| |done| |].
  - intros k r Hk. destruct (H2 k r Hk) as (m' & -> & ? & ?). exists m'.
    rewrite elem_of_app. by eauto.
  - intros t m'. rewrite elem_of_app, list_elem_of_singleton. intros [?%H4|?]; simplify_eq; lia.
  - rewrite fmap_app. cbn. apply NoDup_app. split_and!; [done| |apply NoDup_singleton].
    intros t Ht ->%list_elem_of_singleton. apply list_elem_of_fmap in Ht as ([t m'] & Heq & Ht).
    cbn in Heq. subst. apply H4 in Ht. lia.
Qed.

(** A new request, whose timer waits and whose id was taken. *)
Lemma frame_request accepted f f' callback t :
  frame_inv accepted f →
  pending_requests_ f' = <[to_uint32 (next_message_id_ f) := MkRequest callback t]> (pending_requests_ f) →
  called f' = called f → timers f' = timers f → next_timer f' = next_timer f →
  (t, next_message_id_ f) ∈ timers f →
  next_message_id_ f' = next_message_id_ f + 1 → next_message_id_ f' <= INT_MAX →
  frame_inv (accepted ++ [callback]) f'.
Proof using Type.
  intros Hi Hp Hc Ht Hn Hin Hm Hmax. pose proof (frame_next_fresh _ _ Hi) as Hfresh.
  destruct Hi as [H1 H2 H3 H4 H5]. split; rewrite ?Hp, ?Hc, ?Ht, ?Hn, ?Hm; [| |lia|done|done].
  - rewrite <-H1. unfold waiting at 1. rewrite Hp, map_to_list_insert by done. cbn.
    change ((λ p, completion p.2) <$> map_to_list (pending_requests_ f)) with (waiting f).
    solve_Permutation.
  - intros k r [[<- <-]|[_ Hk]]%lookup_insert_Some.
    { exists (next_message_id_ f). split_and!; [done|lia..|done]. }
    destruct (H2 k r Hk) as (m & -> & ? & ?). exists m. split_and!; [done|lia..|done].
Qed.

Lemma frame_callback accepted name parameters callback iv f ok f' :
  frame_inv accepted f →
  CallJavaScriptFunctionWithCallback name parameters callback iv f = Ok (ok, f') →
  frame_inv (accepted ++ if ok then [callback] else []) f'.
Proof using Type.
  intros Hi. pose proof (frame_timer _ _ (next_message_id_ f) Hi) as Hi1.
  set (f1 := with_timers _ _ f) in Hi1. pose proof (frame_next_fresh _ _ Hi1) as Hfresh.
  unfold CallJavaScriptFunctionWithCallback, the_frame, gets, modify, mbind, M_bind, mret, M_ret. cbn.
  destruct (CallJavaScriptFunction _ _ _ _ _) as [[b f2]|] eqn:Hcall; [|done].
  apply call_keeps in Hcall as (Hp & Hc & Ht & Hn & Hm). cbn in *.
  destruct b; cbn; intros Heq; simplify_eq.
  - destruct Hm as [[_ ?]|[Hm ?%in_int_range]]; [done|].
    eapply (frame_request accepted f1); try done; [|lia]. cbn.
    rewrite elem_of_app, list_elem_of_singleton. by right.
  - rewrite app_nil_r. eapply (frame_inv_same accepted f1); cbn; try done.
    + rewrite Hp. apply delete_insert_id. exact Hfresh.
    + pose proof (frame_next _ _ Hi). destruct Hm as [[-> ?]|[-> ?%in_int_range]]; lia.
Qed.

(** ** Timers *)

Lemma timer_alive_spec t (p : gmap Z RequestCallbacks) :
  timer_alive t p = true ↔ ∃ k r, p !! k = Some r ∧ timeout_callback r = t.
Proof using Type.
  unfold timer_alive. rewrite existsb_exists. split.
  - intros ([k r] & Hin & ?%Z.eqb_eq). exists k, r. split; [|done].
    by apply elem_of_map_to_list, list_elem_of_In.
  - intros (k & r & Hk & ?). exists (k, r). split; [|by apply Z.eqb_eq].
    by apply list_elem_of_In, elem_of_map_to_list.
Qed.

(** A timer whose request is gone leaves. *)
Lemma frame_drop_timer accepted f n t m :
  frame_inv accepted f → timers f !! n = Some (t, m) → timer_alive t (pending_requests_ f) = false →
  frame_inv accepted (with_timers (delete n (timers f)) (next_timer f) f).
Proof using Type.
  intros [H1 H2 H3 H4 H5] Hn Ha. pose proof (delete_Permutation _ _ _ Hn) as Hperm.
  split; cbn; [done| |done| |].
  - intros k r Hk. destruct (H2 k r Hk) as (m' & -> & ? & Hin). exists m'. split_and!; [done|lia..|].
    rewrite Hperm in Hin. apply elem_of_cons in Hin as [Heq|Hin]; [|done]. exfalso.
    simplify_eq. apply eq_true_false_abs in Ha; [done|]. apply timer_alive_spec. by eauto.
  - intros t' m' Hin. apply (H4 t' m'). rewrite Hperm. by right.
  - rewrite Hperm in H5. cbn in H5. by apply NoDup_cons in H5 as [_ ?].
Qed.

(** A timer's request is the one with its message. *)
Lemma frame_timer_request accepted f t m k r :
  frame_inv accepted f → (t, m) ∈ timers f → pending_requests_ f !! k = Some r →
  timeout_callback r = t → k = to_uint32 m.
Proof using Type.
  intros Hi Ht Hk <-. destruct (frame_ids _ _ Hi k r Hk) as (m' & -> & _ & Ht').
  f_equal. apply list_elem_of_lookup in Ht as [i Hti], Ht' as [j Htj].
  pose proof (frame_timer_ids _ _ Hi) as Hnd. rewrite NoDup_alt in Hnd.
  specialize (Hnd i j (timeout_callback r)). rewrite !list_lookup_fmap, Hti, Htj in Hnd.
  specialize (Hnd eq_refl eq_refl) as ->. rewrite Hti in Htj. by simplify_eq.
Qed.

Lemma wp_timer_fires accepted f n (Q : unit → WebFrameImpl → Prop) :
  frame_inv accepted f → (n < length (timers f))%nat →
  (∀ f', frame_inv accepted f' → timers f' = delete n (timers f) → Q tt f') →
  wp (timer_fires n) Q f.
Proof using Type.
  intros Hi [[t m] Hn]%lookup_lt_is_Some HQ.
  pose proof (list_elem_of_lookup_2 _ _ _ Hn) as Hin. pose proof Hi as [H1 H2 H3 H4 H5].
  unfold timer_fires, the_frame. wp_simp. exists (t, m). split; [done|]. wp_simp. cbn.
  destruct (timer_alive _ _) eqn:Ha.
  2:{ apply HQ; [by eapply frame_drop_timer|done]. }
  apply timer_alive_spec in Ha as (k & r & Hk & Hr).
  pose proof (frame_timer_request _ _ _ _ _ _ Hi Hin Hk Hr) as ->.
  unfold CancelRequest, CompleteRequest, CompleteRequest_callbacks, the_frame. wp_simp. cbn.
  rewrite Hk. wp_simp. apply HQ; [|done].
  pose proof (frame_answer _ _ _ _ None Hi Hk) as Hi'.
  apply (frame_drop_timer _ _ n t m Hi' Hn). apply not_true_iff_false. cbn.
  intros (k' & r' & [Hne Hk']%lookup_delete_Some & Hr')%timer_alive_spec. apply Hne.
  by rewrite (frame_timer_request _ _ _ _ _ _ Hi Hin Hk' Hr').
Qed.

(** ** Every event *)

(** What [m] returns satisfies [Q], if it returns. *)
Lemma wp_returned {A} (m : M WebFrameImpl A) (Q : A → WebFrameImpl → Prop) f a f' :
  wp m Q f → m f = Ok (a, f') → Q a f'.
Proof using Type. unfold wp. intros Hwp Hrun. by rewrite Hrun in Hwp. Qed.

Lemma frame_script_ends accepted f n result a f' :
  frame_inv accepted f → script_ends n result f = Ok (a, f') → frame_inv accepted f'.
Proof using Type.
  intros Hi. unfold script_ends, the_frame, gets, modify, not_null, mbind, M_bind. cbn.
  destruct (executing f !! n) as [m|]; cbn; [|done].
  intros Hrun. eapply (wp_returned _ (λ _, frame_inv accepted)); [|exact Hrun].
  apply (wp_CompleteRequest accepted); [|done].
  eapply frame_inv_same; try done. pose proof (frame_next _ _ Hi). cbn. lia.
Qed.

Lemma frame_reply accepted f c a f' :
  frame_inv accepted f → OnJavaScriptReply c f = Ok (a, f') → frame_inv accepted f'.
Proof using Type.
  intros Hi. unfold OnJavaScriptReply, CompleteRequest_callbacks, the_frame, gets, modify, NOTREACHED,
    fail, mbind, M_bind, mret, M_ret. cbn.
  destruct (command_name c) as [name|], (command_messageId c) as [[m|]|]; cbn; try done;
    destruct (bool_decide _); cbn; try done.
  destruct (in_int m); cbn; [|done].
  destruct (pending_requests_ f !! _) as [r|] eqn:Hr; cbn; [|done].
  intros ?. simplify_eq. exact (frame_answer _ _ _ _ (command_result c) Hi Hr).
Qed.

Lemma frame_event accepted f e r f' :
  frame_inv accepted f → run_event e f = Ok (r, f') →
  frame_inv (accepted ++ match r with Some c => [c] | None => [] end) f'.
Proof using Type.
  intros Hi. destruct e as [key|name ps iv|name ps cb iv|n v|c|n|]; cbn [run_event];
    unfold SetEncryptionKey, WebStateDestroyed, DetachFromWebState, modify, mbind, M_bind, fmap, M_fmap,
      mret, M_ret; cbn.
  - intros ?. simplify_eq. rewrite app_nil_r. eapply frame_inv_same; try done.
    pose proof (frame_next _ _ Hi). cbn. lia.
  - destruct (CallJavaScriptFunction _ _ _ _ f) as [[ok f1]|] eqn:Hrun; [|done].
    intros ?. simplify_eq. rewrite app_nil_r. by eapply frame_call.
  - destruct (CallJavaScriptFunctionWithCallback _ _ _ _ f) as [[ok f1]|] eqn:Hrun; [|done].
    intros ?. simplify_eq. apply frame_callback with (accepted := accepted) in Hrun; [|done].
    by destruct ok.
  - destruct (script_ends n v f) as [[a f1]|] eqn:Hrun; [|done].
    intros ?. simplify_eq. rewrite app_nil_r. by eapply frame_script_ends.
  - destruct (OnJavaScriptReply c f) as [[a f1]|] eqn:Hrun; [|done].
    intros ?. simplify_eq. rewrite app_nil_r. by eapply frame_reply.
  - destruct (timer_fires n f) as [[a f1]|] eqn:Hrun; [|done].
    intros ?. simplify_eq. rewrite app_nil_r. destruct (decide (n < length (timers f))%nat) as [Hn|Hn].
    + eapply (wp_returned _ (λ _, frame_inv accepted)), Hrun. by apply (wp_timer_fires accepted).
    + unfold timer_fires, the_frame, gets, not_null, mbind, M_bind in Hrun. cbn in Hrun.
      by rewrite lookup_ge_None_2 in Hrun by lia.
  - destruct (CancelPendingRequests f) as [[a f1]|] eqn:Hrun; [|done].
    intros ?. simplify_eq. rewrite app_nil_r.
    assert (frame_inv accepted f1) as Hi1.
    { eapply (wp_returned _ (λ _, frame_inv accepted)), Hrun. by apply (wp_CancelPendingRequests accepted). }
    eapply frame_inv_same; try done. pose proof (frame_next _ _ Hi1). cbn. lia.
Qed.

Lemma frame_inv_new frame_id is_main_frame security_origin n :
  INT_MIN <= n <= INT_MAX →
  frame_inv [] (with_next n (WebFrameImpl_new frame_id is_main_frame security_origin)).
Proof using Type.
  intros ?. split; cbn; [by unfold waiting; cbn; rewrite map_to_list_empty| | | |apply NoDup_nil_2]; try done.
  intros t m Hin. by apply elem_of_nil in Hin.
Qed.

Lemma frame_inv_reachable frame_id is_main_frame security_origin n f accepted :
  INT_MIN <= n <= INT_MAX →
  frame_reachable (with_next n (WebFrameImpl_new frame_id is_main_frame security_origin)) f accepted →
  frame_inv accepted f.
Proof using Type.
  intros Hn Hr. change (frame_inv (f, accepted).2 (f, accepted).1).
  eapply (reachable_invariant _ (λ s, frame_inv s.2 s.1)); [|clear f accepted Hr|exact Hr].
  - by apply frame_inv_new.
  - intros [f acc] e [f' acc'] Hi (r & Hrun & Hacc). cbn in *. subst. by eapply frame_event.
Qed.

Lemma wp_timers_fire accepted n f (Q : unit → WebFrameImpl → Prop) :
  frame_inv accepted f → n = length (timers f) →
  (∀ f', frame_inv accepted f' → timers f' = [] → Q tt f') →
  wp (timers_fire n) Q f.
Proof using Type.
  revert f. induction n as [|n IH]; intros f Hi Hn HQ; cbn [timers_fire]; wp_simp.
  { apply HQ; [done|]. by apply nil_length_inv. }
  apply (wp_timer_fires accepted); [done|lia|]. intros f' Hi' Ht. apply IH; [done| |done].
  rewrite Ht, length_delete by (by apply lookup_lt_is_Some; lia). lia.
Qed.

Lemma waiting_none accepted f :
  frame_inv accepted f → pending_requests_ f = ∅ → (called f).*1 ≡ₚ accepted.
Proof using Type.
  intros Hi Hp. rewrite <-(frame_callbacks _ _ Hi). unfold waiting.
  rewrite Hp, map_to_list_empty. cbn. by rewrite app_nil_r.
Qed.

(** C16: Every call that the frame accepted is answered once: the calls that were
    answered and those that wait are the accepted ones, and the others are
    answered when their timers run and when the frame goes away. *)
Theorem callbacks_run_exactly_once frame_id is_main_frame security_origin n f accepted :
  INT_MIN <= n <= INT_MAX →
  frame_reachable (with_next n (WebFrameImpl_new frame_id is_main_frame security_origin)) f accepted →
  (called f).*1 ++ waiting f ≡ₚ accepted ∧
  wp (timers_fire (length (timers f))) (λ _ f', (called f').*1 ≡ₚ accepted) f ∧
  wp WebFrameImpl_destroy (λ _ f', (called f').*1 ≡ₚ accepted) f.
Proof using Type.
  intros Hn Hr. pose proof (frame_inv_reachable _ _ _ _ _ _ Hn Hr) as Hi.
  split_and!; [apply (frame_callbacks _ _ Hi)| |].
  - apply (wp_timers_fire accepted); [done..|]. intros f' Hi' Ht. apply waiting_none; [done|].
    apply map_empty. intros k. destruct (_ !! k) as [r|] eqn:Hk; [|done].
    destruct (frame_ids _ _ Hi' k r Hk) as (m & _ & _ & Hin). rewrite Ht in Hin. by apply elem_of_nil in Hin.
  - unfold WebFrameImpl_destroy, DetachFromWebState. wp_simp. apply (wp_CancelPendingRequests accepted); [done|].
    intros f' Hi' Hp. wp_simp. exact (waiting_none _ _ Hi' Hp).
Qed.

(** A result that comes after its call was cancelled is ignored when it is the
    end of a script, and is a message that must not be reached when the page
    sends it. *)
Lemma late_results f m r v :
  pending_requests_ f !! to_uint32 m = Some r → in_int m = true →
  wp (CancelRequest m) (λ _ f',
    CompleteRequest m v f' = Ok (tt, f') ∧
    crash_of (OnJavaScriptReply (MkCommand (Some (GetScriptCommandPrefix f +:+ ".reply")) (Some (Some m)) v) f')
      = Some NotReached) f.
Proof using Type.
  intros Hr Hm. unfold CancelRequest, CompleteRequest at 1, CompleteRequest_callbacks, the_frame. wp_simp.
  rewrite Hr. wp_simp. split.
  - unfold CompleteRequest, the_frame, gets, mbind, M_bind. cbn. by rewrite lookup_delete_eq.
  - unfold OnJavaScriptReply, the_frame, gets, mbind, M_bind. cbn.
    rewrite bool_decide_eq_true_2 by done. cbn. by rewrite Hm, lookup_delete_eq.
Qed.

(** ** What an iframe is sent *)

(** The script [s] is the message [m], sealed. *)
Definition sealed (frame_id : string) (s : string) (m : Z) : Prop :=
  ∃ key reply name parameters iv ciphertext,
    Seal key (JSONWriter_Message m reply name parameters) iv = Some ciphertext ∧
    s = routeMessage ciphertext iv frame_id.

Record iframe_inv (frame_id : string) f : Prop := {
  iframe_id : frame_id_ f = frame_id;
  iframe_main : is_main_frame_ f = false;
  iframe_sealed : ∃ ids, Forall2 (sealed frame_id) (scripts f) ids ∧ StronglySorted Z.lt ids ∧
    Forall (λ m, m < next_message_id_ f) ids;
}.

(** The parts of a frame that are not about its requests. *)
Definition outside f := (frame_id_ f, is_main_frame_ f, scripts f, next_message_id_ f).

Lemma iframe_outside frame_id f f' :
  outside f' = outside f → iframe_inv frame_id f → iframe_inv frame_id f'.
Proof using Type.
  unfold outside. intros Heq [H1 H2 H3]. injection Heq as E1 E2 E3 E4.
  split; [by rewrite E1|by rewrite E2|by rewrite E3, E4].
Qed.

Lemma iframe_call frame_id name parameters reply iv f ok f' :
  iframe_inv frame_id f → CallJavaScriptFunction name parameters reply iv f = Ok (ok, f') →
  iframe_inv frame_id f'.
Proof using Type.
  intros [H1 H2 (ids & H3 & H4 & H5)].
  unfold CallJavaScriptFunction, ExecuteJavaScriptFunction, web_state_ExecuteJavaScript, the_frame,
    int_add, CanCallJavaScriptFunction, gets, modify, mbind, M_bind, mret, M_ret, fail. cbn. rewrite H2. cbn.
  destruct (frame_key_ f) as [key|] eqn:Hkey; cbn.
  2:{ intros ?. simplify_eq. split; [done..|by exists ids]. }
  destruct (in_int _); cbn; [|done].
  assert (Forall (λ m, m < next_message_id_ f + 1) ids) as H5'.
  { eapply Forall_impl; [exact H5|]. cbn. lia. }
  destruct (Seal _ _ _) as [c|] eqn:Hseal; cbn.
  2:{ intros ?. simplify_eq. split; [done..|by exists ids]. }
  destruct (web_state_ f); cbn; [|done]. intros ?. simplify_eq. split; [done..|].
  exists (ids ++ [next_message_id_ f]). cbn. split_and!.
  - apply Forall2_app; [done|]. apply Forall2_cons. split; [|by apply Forall2_nil_2].
    exists key, reply, name, parameters, iv, c. done.
  - clear H3 H5'. induction ids as [|i ids IH]; cbn; [by repeat constructor|].
    apply StronglySorted_inv in H4 as [? Hi]. apply Forall_cons in H5 as [? ?].
    constructor; [by apply IH|]. apply Forall_app_2; [done|]. by apply Forall_singleton.
  - apply Forall_app_2; [done|]. apply Forall_singleton. lia.
Qed.

(** Computations that leave these parts alone. *)
Definition keeps {A} (m : M WebFrameImpl A) : Prop :=
  ∀ f a f', m f = Ok (a, f') → outside f' = outside f.

Lemma keeps_ret {A} (a : A) : keeps (mret a).
Proof using Type. intros f b f'. unfold mret, M_ret. intros ?. by simplify_eq. Qed.
Lemma keeps_fail {A} c : keeps (fail (A := A) c).
Proof using Type. done. Qed.
Lemma keeps_gets {A} (g : WebFrameImpl → A) : keeps (gets g).
Proof using Type. intros f b f'. unfold gets. intros ?. by simplify_eq. Qed.
Lemma keeps_modify g : (∀ f, outside (g f) = outside f) → keeps (modify g).
Proof using Type. intros Hg f b f'. unfold modify. intros ?. by simplify_eq. Qed.
Lemma keeps_bind {A B} (m : M WebFrameImpl A) (g : A → M WebFrameImpl B) :
  keeps m → (∀ a, keeps (g a)) → keeps (m ≫= g).
Proof using Type.
  intros Hm Hg f b f'. unfold mbind, M_bind. destruct (m f) as [[a f1]|] eqn:Hrun; [|done].
  intros H. rewrite (Hg _ _ _ _ H). by eapply Hm.
Qed.

Ltac keeps_tac :=
  repeat match goal with
  | |- keeps (mret _) => apply keeps_ret
  | |- keeps (fail _) => apply keeps_fail
  | |- keeps NOTREACHED => apply keeps_fail
  | |- keeps the_frame => apply keeps_gets
  | |- keeps (gets _) => apply keeps_gets
  | |- keeps (modify _) => apply keeps_modify; done
  | |- keeps (_ ≫= _) => apply keeps_bind; [|intros ?]
  | |- keeps (match ?x with _ => _ end) => destruct x
  | |- keeps (whenM ?b _) => destruct b; unfold whenM
  | |- keeps (not_null ?o) => destruct o; unfold not_null
  end; try done.

Lemma keeps_CompleteRequest m v : keeps (CompleteRequest m v).
Proof using Type. unfold CompleteRequest, CompleteRequest_callbacks. keeps_tac. Qed.

Lemma keeps_cancel_all l : keeps (cancel_all l).
Proof using Type.
  induction l as [|r l IH]; cbn [cancel_all]; unfold CompleteRequest_callbacks; keeps_tac.
Qed.

Lemma keeps_CancelPendingRequests : keeps CancelPendingRequests.
Proof using Type.
  unfold CancelPendingRequests. keeps_tac. apply keeps_cancel_all.
Qed.

Lemma iframe_callback frame_id name parameters callback iv f ok f' :
  iframe_inv frame_id f →
  CallJavaScriptFunctionWithCallback name parameters callback iv f = Ok (ok, f') →
  iframe_inv frame_id f'.
Proof using Type.
  intros Hi. unfold CallJavaScriptFunctionWithCallback, the_frame, gets, modify, mbind, M_bind. cbn.
  destruct (CallJavaScriptFunction _ _ _ _ _) as [[b f2]|] eqn:Hcall; [|done].
  apply (iframe_call frame_id) in Hcall; [|by eapply iframe_outside, Hi].
  unfold mret, M_ret. destruct b; cbn; intros ?; simplify_eq; [done|by eapply iframe_outside, Hcall].
Qed.

Lemma keeps_event e :
  match e with EvCall _ _ _ | EvCallback _ _ _ _ => True | _ => keeps (run_event e) end.
Proof using Type.
  destruct e; cbn [run_event]; try done;
    unfold SetEncryptionKey, script_ends, OnJavaScriptReply, CompleteRequest_callbacks, timer_fires,
      CancelRequest, WebStateDestroyed, DetachFromWebState; keeps_tac;
    first [apply keeps_CompleteRequest | apply keeps_CancelPendingRequests].
Qed.

Lemma iframe_event frame_id f e r f' :
  iframe_inv frame_id f → run_event e f = Ok (r, f') → iframe_inv frame_id f'.
Proof using Type.
  intros Hi Hrun. pose proof (keeps_event e) as Hk.
  destruct e; try (eapply iframe_outside, Hi; by eapply Hk);
    cbn [run_event] in Hrun; unfold mbind, M_bind, fmap, M_fmap, mret, M_ret in Hrun.
  - destruct (CallJavaScriptFunction _ _ _ _ f) as [[ok f1]|] eqn:Hcall; simplify_eq.
    by eapply iframe_call.
  - destruct (CallJavaScriptFunctionWithCallback _ _ _ _ f) as [[ok f1]|] eqn:Hcall; simplify_eq.
    by eapply iframe_callback.
Qed.

(** C18: A frame that is not the main frame is only sent sealed messages, with
    increasing ids. *)
Theorem iframe_messages_are_sealed frame_id security_origin n f accepted :
  frame_reachable (with_next n (WebFrameImpl_new frame_id false security_origin)) f accepted →
  ∃ ids, Forall2 (sealed frame_id) (scripts f) ids ∧ StronglySorted Z.lt ids.
Proof using Type.
  intros Hr. assert (iframe_inv frame_id f) as [_ _ (ids & H1 & H2 & _)]; [|by exists ids].
  change (iframe_inv frame_id (f, accepted).1).
  eapply (reachable_invariant _ (λ s, iframe_inv frame_id s.1)); [|clear f accepted Hr|exact Hr].
  - split; [done..|]. exists []. by repeat constructor.
  - intros [f acc] e [f' acc'] Hi (r & Hrun & _). cbn in *. by eapply iframe_event.
Qed.

(** A frame whose web state is gone can not be called. *)
Lemma call_after_WebStateDestroyed name parameters reply iv f :
  is_main_frame_ f = true → frame_key_ f = None → in_int (next_message_id_ f + 1) = true →
  crash_of ((DetachFromWebState;; CallJavaScriptFunction name parameters reply iv) f) = Some NullDeref.
Proof using Type.
  intros Hm Hk Hi. unfold DetachFromWebState, CallJavaScriptFunction, ExecuteJavaScriptFunction,
    web_state_ExecuteJavaScript, the_frame, int_add, CanCallJavaScriptFunction, gets, modify, mbind, M_bind.
  cbn. rewrite Hm, Hi, Hk. cbn. by rewrite Hm.
Qed.
End spec.
