(* ===== verification/WebFramesManager.v ===== *)
(** * The frames of a web state

    src/web/web_state/web_frames_manager_impl.mm, web_frame_util.mm and the
    part of ui/crw_web_controller.mm that adds and removes frames when the page
    says so.  A frame is owned by the map and pointed to by main_web_frame_; a
    pointer is a number with the frame's id, which never changes.

    The page's message is untrusted.  Base64 and SymmetricKey::Import belong to
    //base and //crypto.  GetAllWebFrames returns a set ordered by address: the
    order in which observers hear of the frames of a page that goes away is the
    map's here, and no theorem depends on it.

    Under any sequence of messages, calls, answers and timers, the observers'
    view of the frames is the manager's, the main frame is the map's, and no
    callback of an accepted call is lost: when the page goes away, each was
    called once. *)

From S2P Require Import Prelude.
From S2P Require Import WebEnv.
From S2P Require Import WebFrame.

Section manager.
Context `{ENV : WebEnv} `{FRAME : FrameEnv}.
Variable Base64Decode : string → string.
Variable Import : string → option SymmetricKey.

(** WebFramesManagerImpl; [ended]: what the callbacks of destroyed frames were
    called with; [notified]: WebFrameDidBecomeAvailable (true) and
    WebFrameWillBecomeUnavailable (false), with the frame. *)
Record WebFramesManagerImpl := MkManager {
  web_frames_ : gmap string (Z * WebFrameImpl);
  main_web_frame_ : option (Z * string);
  next_frame : Z;
  isBeingDestroyed : bool;
  notified : list (bool * string);
  ended : list (Z * option Value);
}.
Implicit Types s : WebFramesManagerImpl.

Definition with_frames w m s : WebFramesManagerImpl :=
  MkManager w m (next_frame s) (isBeingDestroyed s) (notified s) (ended s).
Definition with_next_frame n s : WebFramesManagerImpl :=
  MkManager (web_frames_ s) (main_web_frame_ s) n (isBeingDestroyed s) (notified s) (ended s).
Definition with_notified l s : WebFramesManagerImpl :=
  MkManager (web_frames_ s) (main_web_frame_ s) (next_frame s) (isBeingDestroyed s) l (ended s).
Definition with_ended l s : WebFramesManagerImpl :=
  MkManager (web_frames_ s) (main_web_frame_ s) (next_frame s) (isBeingDestroyed s) (notified s) l.
Definition with_isBeingDestroyed b s : WebFramesManagerImpl :=
  MkManager (web_frames_ s) (main_web_frame_ s) (next_frame s) b (notified s) (ended s).

Notation MM := (M WebFramesManagerImpl).
Definition the_manager : MM WebFramesManagerImpl := gets (λ s, s).
Definition WebFramesManagerImpl_new : WebFramesManagerImpl := MkManager ∅ None 0 false [] [].

Definition has_frame s (frame_id : string) : bool := bool_decide (is_Some (web_frames_ s !! frame_id)).

(** The frame's destructor. *)
Definition destroy_frame (f : WebFrameImpl) : MM unit :=
  r ← lift_res (WebFrameImpl_destroy f);
  modify (λ s, with_ended (ended s ++ called r.2) s).

Definition AddFrame (ptr : Z) (frame : WebFrameImpl) : MM unit :=
  let frame_id := frame_id_ frame in
  DCHECK (negb (bool_decide (frame_id = "")));;
  s ← the_manager;
  whenM (is_main_frame_ frame)
    (DCHECK (negb (bool_decide (is_Some (main_web_frame_ s))));;
     modify (λ s, with_frames (web_frames_ s) (Some (ptr, frame_id)) s));;
  DCHECK (negb (has_frame s frame_id));;
  modify (λ s, with_frames (<[frame_id := (ptr, frame)]> (web_frames_ s)) (main_web_frame_ s) s).

Definition RemoveFrameWithId (frame_id : string) : MM unit :=
  DCHECK (negb (bool_decide (frame_id = "")));;
  s ← the_manager;
  DCHECK (match web_frames_ s !! frame_id with
          | Some (ptr, frame) =>
              negb (is_main_frame_ frame) || bool_decide (fst <$> main_web_frame_ s = Some ptr)
          | None => true
          end);;
  whenM (bool_decide (snd <$> main_web_frame_ s = Some frame_id))
    (modify (λ s, with_frames (web_frames_ s) None s));;
  match web_frames_ s !! frame_id with
  | Some (_, frame) =>
      modify (λ s, with_frames (delete frame_id (web_frames_ s)) (main_web_frame_ s) s);;
      destroy_frame frame
  | None => mret tt
  end.

Fixpoint destroy_frames (l : list WebFrameImpl) : MM unit :=
  match l with
  | [] => mret tt
  | f :: l => destroy_frame f;; destroy_frames l
  end.
Definition RemoveAllWebFrames : MM unit :=
  s ← the_manager;
  modify (λ s, with_frames ∅ None s);;
  destroy_frames ((λ p, p.2.2) <$> map_to_list (web_frames_ s)).

Definition GetFrameWithId (frame_id : string) : MM (option (Z * WebFrameImpl)) :=
  DCHECK (negb (bool_decide (frame_id = "")));;
  gets (λ s, web_frames_ s !! frame_id).
Definition GetAllWebFrames s : gset Z :=
  list_to_set ((λ p, p.2.1) <$> map_to_list (web_frames_ s)).
Definition GetMainWebFrame s : option Z := fst <$> main_web_frame_ s.

(** web_frame_util.mm *)
Definition GetMainWebFrameId s : string :=
  match main_web_frame_ s with Some (_, frame_id) => frame_id | None => "" end.
Definition GetWebFrameWithId (frame_id : string) : MM (option (Z * WebFrameImpl)) :=
  if (String.length frame_id =? 0)%nat then mret None else GetFrameWithId frame_id.
Definition GetWebFrameId (frame : option WebFrameImpl) : string :=
  match frame with Some f => frame_id_ f | None => "" end.

(** WebStateImpl tells its observers. *)
Definition OnWebFrameAvailable (frame_id : string) : MM unit :=
  modify (λ s, with_notified (notified s ++ [(true, frame_id)]) s).
Definition OnWebFrameUnavailable (frame_id : string) : MM unit :=
  modify (λ s, with_notified (notified s ++ [(false, frame_id)]) s).

(** ** CRWWebController *)

(** The body of the message when it is a dictionary: a component is there if
    it has the expected type; the frame's own properties are WebKit's. *)
Record AvailableMessage := MkAvailable {
  crwFrameId : option string;
  crwFrameKey : option string;
  crwFrameLastReceivedMessageId : option Z;
  mainFrame : bool;
  securityOrigin : GURL;
}.

(** frameKey and newFrame, before the message id is set. *)
Definition frame_of_message (frameID : string) (message : AvailableMessage) : WebFrameImpl :=
  let frameKey :=
    match crwFrameKey message with
    | Some key => if (0 <? String.length key)%nat then Import (Base64Decode key) else None
    | None => None
    end in
  let newFrame := WebFrameImpl_new frameID (mainFrame message) (securityOrigin message) in
  match frameKey with Some k => with_key (Some k) newFrame | None => newFrame end.

Definition frameBecameAvailableWithMessage (body : option AvailableMessage) : MM unit :=
  s ← the_manager;
  match body with
  | Some message =>
      match crwFrameId message with
      | Some frameID =>
          if isBeingDestroyed s then mret tt
          else
            existing ← GetFrameWithId frameID;
            match existing with
            | Some _ => mret tt
            | None =>
                newFrame ← match crwFrameLastReceivedMessageId message with
                           | Some last =>
                               next ← int_add last 1;
                               mret (with_next (Z.max 0 next) (frame_of_message frameID message))
                           | None => mret (frame_of_message frameID message)
                           end;
                modify (λ s, with_next_frame (next_frame s + 1) s);;
                AddFrame (next_frame s) newFrame;;
                frame ← GetFrameWithId frameID;
                OnWebFrameAvailable frameID
            end
      | None => mret tt
      end
  | None => mret tt
  end.

Definition frameBecameUnavailableWithMessage (body : option string) : MM unit :=
  s ← the_manager;
  match body with
  | Some frameID =>
      if isBeingDestroyed s then mret tt
      else
        frame ← GetFrameWithId frameID;
        match frame with
        | Some _ => OnWebFrameUnavailable frameID;; RemoveFrameWithId frameID
        | None => mret tt
        end
  | None => mret tt
  end.

Fixpoint notify_unavailable (l : list string) : MM unit :=
  match l with
  | [] => mret tt
  | frame_id :: l => OnWebFrameUnavailable frame_id;; notify_unavailable l
  end.
Definition removeAllWebFrames : MM unit :=
  s ← the_manager;
  notify_unavailable ((map_to_list (web_frames_ s)).*1);;
  RemoveAllWebFrames.

(** Something happens to a frame of the page. *)
Definition event_of_frame (frame_id : string) (e : Event) : MM (option Z) :=
  s ← the_manager;
  frame ← not_null (web_frames_ s !! frame_id);
  r ← lift_res (run_event e frame.2);
  modify (λ s, with_frames (<[frame_id := (frame.1, r.2)]> (web_frames_ s)) (main_web_frame_ s) s);;
  mret r.1.

Inductive PageEvent :=
  | EvAvailable (body : option AvailableMessage)
  | EvUnavailable (body : option string)
  | EvRemoveAll
  | EvIsBeingDestroyed
  | EvFrame (frame_id : string) (e : Event).

Definition run_page_event (e : PageEvent) : MM (option Z) :=
  match e with
  | EvAvailable body => frameBecameAvailableWithMessage body;; mret None
  | EvUnavailable body => frameBecameUnavailableWithMessage body;; mret None
  | EvRemoveAll => removeAllWebFrames;; mret None
  | EvIsBeingDestroyed => modify (with_isBeingDestroyed true);; mret None
  | EvFrame frame_id e => event_of_frame frame_id e
  end.

(** The manager, with the callbacks of the calls its frames accepted. *)
Definition page_step (s : WebFramesManagerImpl * list Z) (e : PageEvent)
    (s' : WebFramesManagerImpl * list Z) : Prop :=
  ∃ r, run_page_event e s.1 = Ok (r, s'.1) ∧
    s'.2 = s.2 ++ match r with Some c => [c] | None => [] end.
Definition page_reachable s (accepted : list Z) : Prop :=
  reachable page_step (WebFramesManagerImpl_new, ([] : list Z)) (s, accepted).

(** ** Invariant *)

(** The frames the observers believe are there; [None] when a notification is
    not the one they can expect. *)
Fixpoint observed (there : gset string) (l : list (bool * string)) : option (gset string) :=
  match l with
  | [] => Some there
  | (true, id) :: l => if decide (id ∈ there) then None else observed ({[id]} ∪ there) l
  | (false, id) :: l => if decide (id ∈ there) then observed (there ∖ {[id]}) l else None
  end.

(** The callbacks that a frame called or still has to call. *)
Definition owed (f : WebFrameImpl) : list Z := (called f).*1 ++ waiting f.
Definition all_owed (w : gmap string (Z * WebFrameImpl)) : list Z :=
  map_to_list w ≫= λ p, owed p.2.2.

Record manager_inv (accepted : list Z) s : Prop := {
  manager_frames id ptr f : web_frames_ s !! id = Some (ptr, f) →
    frame_id_ f = id ∧ id ≠ "" ∧ frame_inv (owed f) f;
  manager_main ptr id : main_web_frame_ s = Some (ptr, id) ↔
    ∃ f, web_frames_ s !! id = Some (ptr, f) ∧ is_main_frame_ f = true;
  manager_observed : observed ∅ (notified s) = Some (dom (web_frames_ s));
  manager_owed : (ended s).*1 ++ all_owed (web_frames_ s) ≡ₚ accepted;
}.
End manager.

(** ** Partial correctness

    [wlp m Q s]: what [m] returns, if it trips no check, satisfies [Q]. *)
Section wlp.
Context {S : Type}.
Definition wlp {A} (m : M S A) (Q : A → S → Prop) (s : S) : Prop :=
  ∀ a s', m s = Ok (a, s') → Q a s'.

Lemma wlp_ret {A} (a : A) Q (s : S) : Q a s → wlp (mret a) Q s.
Proof. intros HQ b s'. unfold mret, M_ret. intros ?. by simplify_eq. Qed.
Lemma wlp_fail {A} c Q (s : S) : wlp (fail (A := A) c) Q s.
Proof. done. Qed.
Lemma wlp_bind {A B} (m : M S A) (g : A → M S B) Q s :
  wlp m (λ a, wlp (g a) Q) s → wlp (m ≫= g) Q s.
Proof.
  intros Hm b s'. unfold mbind, M_bind. destruct (m s) as [[a s1]|] eqn:Hrun; [|done]. by apply Hm.
Qed.
Lemma wlp_gets {A} (g : S → A) Q s : Q (g s) s → wlp (gets g) Q s.
Proof. intros HQ a s'. unfold gets. intros ?. by simplify_eq. Qed.
Lemma wlp_modify g Q (s : S) : Q tt (g s) → wlp (modify g) Q s.
Proof. intros HQ a s'. unfold modify. intros ?. by simplify_eq. Qed.
Lemma wlp_DCHECK b Q (s : S) : (b = true → Q tt s) → wlp (DCHECK b) Q s.
Proof. destruct b; intros HQ; [by apply wlp_ret, HQ|done]. Qed.
Lemma wlp_whenM b m Q (s : S) :
  (b = true → wlp m Q s) → (b = false → Q tt s) → wlp (whenM b m) Q s.
Proof. destruct b; intros H1 H2; [by apply H1|by apply wlp_ret, H2]. Qed.
Lemma wlp_not_null {A} (o : option A) Q (s : S) :
  (∀ a, o = Some a → Q a s) → wlp (not_null o) Q s.
Proof. destruct o; intros HQ; [by apply wlp_ret, HQ|done]. Qed.
Lemma wlp_lift_res {A} (r : res A) Q (s : S) :
  (∀ a, r = Ok a → Q a s) → wlp (lift_res r) Q s.
Proof. intros HQ a s'. unfold lift_res. destruct r; intros ?; simplify_eq. by apply HQ. Qed.
Lemma wlp_of_wp {A} (m : M S A) Q s : wp m Q s → wlp m Q s.
Proof. unfold wp. intros Hm a s' Hrun. by rewrite Hrun in Hm. Qed.
Lemma wlp_mono {A} (m : M S A) (Q Q' : A → S → Prop) s :
  (∀ a s', Q a s' → Q' a s') → wlp m Q s → wlp m Q' s.
Proof. intros HQ Hm a s' Hrun. by apply HQ, Hm. Qed.
End wlp.

(** Takes the next step of a computation whose result is known to exist. *)
Ltac wlp_step :=
  match goal with
  | |- wlp (mret _) _ _ => apply wlp_ret
  | |- wlp (fail _) _ _ => apply wlp_fail
  | |- wlp (_ ≫= _) _ _ => apply wlp_bind
  | |- wlp (gets _) _ _ => apply wlp_gets
  | |- wlp (modify _) _ _ => apply wlp_modify
  | |- wlp (DCHECK _) _ _ => apply wlp_DCHECK; intros ?
  | |- wlp (whenM _ _) _ _ => apply wlp_whenM; intros ?
  | |- wlp (not_null _) _ _ => apply wlp_not_null; intros ? ?
  | |- wlp (lift_res _) _ _ => apply wlp_lift_res; intros ? ?
  end; cbv beta.

Section spec.
Context `{ENV : WebEnv} `{FRAME : FrameEnv}.
Implicit Types s : WebFramesManagerImpl.

(** A frame stays the frame it is. *)
Lemma call_same name parameters reply iv f ok f' :
  CallJavaScriptFunction name parameters reply iv f = Ok (ok, f') →
  frame_id_ f' = frame_id_ f ∧ is_main_frame_ f' = is_main_frame_ f.
Proof using Type.
  unfold CallJavaScriptFunction, ExecuteJavaScriptFunction, web_state_ExecuteJavaScript, the_frame,
    int_add, gets, modify, mbind, M_bind, mret, M_ret, fail. cbn.
  destruct (CanCallJavaScriptFunction f); cbn; [|intros ?; by simplify_eq].
  destruct (in_int _); cbn; [|done].
  destruct (frame_key_ f) as [key|]; [destruct (Seal _ _ _)|]; cbn;
    try (destruct (is_main_frame_ f) eqn:?; cbn); try (destruct (web_state_ f); cbn);
    intros ?; by simplify_eq.
Qed.

Lemma callback_same name parameters callback iv f ok f' :
  CallJavaScriptFunctionWithCallback name parameters callback iv f = Ok (ok, f') →
  frame_id_ f' = frame_id_ f ∧ is_main_frame_ f' = is_main_frame_ f.
Proof using Type.
  unfold CallJavaScriptFunctionWithCallback, the_frame, gets, modify, mbind, M_bind. cbn.
  destruct (CallJavaScriptFunction _ _ _ _ _) as [[b f2]|] eqn:Hcall; [|done].
  apply call_same in Hcall. unfold mret, M_ret. destruct b; cbn; intros ?; by simplify_eq.
Qed.

Lemma event_same e f r f' :
  run_event e f = Ok (r, f') → frame_id_ f' = frame_id_ f ∧ is_main_frame_ f' = is_main_frame_ f.
Proof using Type.
  intros Hrun. pose proof (keeps_event e) as Hk.
  destruct e; try (specialize (Hk _ _ _ Hrun); unfold outside in Hk; by simplify_eq);
    cbn [run_event] in Hrun; unfold mbind, M_bind, fmap, M_fmap, mret, M_ret in Hrun.
  - destruct (CallJavaScriptFunction _ _ _ _ f) as [[ok f1]|] eqn:Hcall; simplify_eq.
    by eapply call_same.
  - destruct (CallJavaScriptFunctionWithCallback _ _ _ _ f) as [[ok f1]|] eqn:Hcall; simplify_eq.
    by eapply callback_same.
Qed.

Lemma frame_inv_owed accepted f : frame_inv accepted f → frame_inv (owed f) f.
Proof using Type. intros [H1 H2 H3 H4 H5]. by split. Qed.

Lemma owed_event f e r f' :
  frame_inv (owed f) f → run_event e f = Ok (r, f') →
  frame_inv (owed f') f' ∧ owed f' ≡ₚ owed f ++ match r with Some c => [c] | None => [] end.
Proof using Type.
  intros Hi Hrun. pose proof (frame_event _ _ _ _ _ Hi Hrun) as Hi'. split; [by eapply frame_inv_owed|].
  apply (frame_callbacks _ _ Hi').
Qed.

(** A frame that is destroyed calls what it owes. *)
Lemma destroy_owed f :
  frame_inv (owed f) f → ∃ f', WebFrameImpl_destroy f = Ok (tt, f') ∧ (called f').*1 ≡ₚ owed f.
Proof using Type.
  intros Hi. apply wp_run_unit. unfold WebFrameImpl_destroy, DetachFromWebState. wp_simp.
  apply (wp_CancelPendingRequests (owed f)); [done|]. intros f' Hi' Hp. wp_simp.
  exact (waiting_none _ _ Hi' Hp).
Qed.

Lemma all_owed_insert w id ptr f :
  w !! id = None → all_owed (<[id := (ptr, f)]> w) ≡ₚ owed f ++ all_owed w.
Proof using Type. intros Hid. unfold all_owed. by rewrite map_to_list_insert. Qed.

Lemma all_owed_delete w id ptr f :
  w !! id = Some (ptr, f) → all_owed w ≡ₚ owed f ++ all_owed (delete id w).
Proof using Type. intros Hid. unfold all_owed. by rewrite <-(map_to_list_delete w id (ptr, f) Hid). Qed.

Lemma observed_app there l k :
  observed there (l ++ k) = observed there l ≫= λ there', observed there' k.
Proof using Type.
  revert there. induction l as [|[[] id] l IH]; intros there; cbn; [done|..];
    (destruct (decide _); [try done|try done]; apply IH).
Qed.

(** ** The map changes *)

Lemma manager_add accepted s s' ptr f :
  manager_inv accepted s →
  web_frames_ s !! frame_id_ f = None → frame_id_ f ≠ "" → frame_inv [] f → owed f = [] →
  (is_main_frame_ f = true → main_web_frame_ s = None) →
  web_frames_ s' = <[frame_id_ f := (ptr, f)]> (web_frames_ s) →
  main_web_frame_ s' = (if is_main_frame_ f then Some (ptr, frame_id_ f) else main_web_frame_ s) →
  notified s' = notified s ++ [(true, frame_id_ f)] → ended s' = ended s →
  manager_inv accepted s'.
Proof using Type.
  intros [H1 H2 H3 H4] Hnew Hid Hf Ho Hmain Ew Em En Ee. split.
  - intros id p g. rewrite Ew. intros [[<- ?]|[_ Hg]]%lookup_insert_Some; [|by eapply H1].
    simplify_eq. split_and!; [done..|]. by rewrite Ho.
  - intros p id. rewrite Em, Ew. setoid_rewrite lookup_insert_Some. destruct (is_main_frame_ f) eqn:Hm.
    + split; [intros ?; simplify_eq; exists f; split; [by left|done]|].
      intros (g & [[<- ?]|[_ Hg]] & Hgm); [by simplify_eq|].
      assert (main_web_frame_ s = Some (p, id)) as E by (apply H2; by exists g).
      by rewrite Hmain in E.
    + rewrite H2. split; intros (g & Hg & Hgm); exists g; (split; [|done]).
      * right. split; [|done]. intros <-. by rewrite Hnew in Hg.
      * destruct Hg as [[_ ?]|[_ Hg]]; [|done]. simplify_eq. by rewrite Hm in Hgm.
  - rewrite En, Ew, observed_app, H3. cbn. rewrite decide_False by (by apply not_elem_of_dom).
    by rewrite dom_insert_L.
  - rewrite Ee, Ew, all_owed_insert, Ho by done. done.
Qed.

Lemma manager_remove accepted s s' ptr f id l :
  manager_inv accepted s → web_frames_ s !! id = Some (ptr, f) → l.*1 ≡ₚ owed f →
  web_frames_ s' = delete id (web_frames_ s) →
  main_web_frame_ s' =
    (if bool_decide (snd <$> main_web_frame_ s = Some id) then None else main_web_frame_ s) →
  notified s' = notified s ++ [(false, id)] → ended s' = ended s ++ l →
  manager_inv accepted s'.
Proof using Type.
  intros [H1 H2 H3 H4] Hid Hl Ew Em En Ee. split.
  - intros i p g. rewrite Ew. intros [_ Hg]%lookup_delete_Some. by eapply H1.
  - intros p i. rewrite Em, Ew. setoid_rewrite lookup_delete_Some.
    case_bool_decide as Hm.
    + split; [done|]. intros (g & [Hne Hg] & Hgm).
      assert (main_web_frame_ s = Some (p, i)) as E by (apply H2; by exists g).
      rewrite E in Hm. cbn in Hm. by simplify_eq.
    + rewrite H2. split.
      * intros (g & Hg & Hgm). exists g. split; [|done]. split; [|done]. intros <-. apply Hm.
        assert (main_web_frame_ s = Some (p, id)) as -> by (apply H2; by exists g). done.
      * intros (g & [_ Hg] & Hgm). by exists g.
  - rewrite En, Ew, observed_app, H3. cbn. rewrite decide_True by (apply elem_of_dom; by eexists).
    by rewrite dom_delete_L.
  - rewrite Ee, Ew, <-H4, fmap_app, Hl. rewrite (all_owed_delete (web_frames_ s) id ptr f Hid).
    by rewrite <-app_assoc.
Qed.

Lemma manager_event accepted s s' ptr f f' id r :
  manager_inv accepted s → web_frames_ s !! id = Some (ptr, f) →
  frame_id_ f' = frame_id_ f → is_main_frame_ f' = is_main_frame_ f →
  frame_inv (owed f') f' → owed f' ≡ₚ owed f ++ r →
  web_frames_ s' = <[id := (ptr, f')]> (web_frames_ s) → main_web_frame_ s' = main_web_frame_ s →
  notified s' = notified s → ended s' = ended s →
  manager_inv (accepted ++ r) s'.
Proof using Type.
  intros [H1 H2 H3 H4] Hid Hf Hm Hi Ho Ew Em En Ee. split.
  - intros i p g. rewrite Ew. intros [[<- ?]|[_ Hg]]%lookup_insert_Some; [|by eapply H1].
    simplify_eq. rewrite Hf. destruct (H1 _ _ _ Hid) as (-> & ? & _). done.
  - intros p i. rewrite Em, Ew, H2. setoid_rewrite lookup_insert_Some. split.
    + intros (g & Hg & Hgm). destruct (decide (id = i)) as [<-|Hne].
      * rewrite Hid in Hg. simplify_eq. exists f'. rewrite Hm. split; [by left|done].
      * exists g. split; [by right|done].
    + intros (g & [[<- ?]|[_ Hg]] & Hgm); [|by exists g]. simplify_eq. exists f. by rewrite <-Hm.
  - rewrite En, Ew, H3, dom_insert_L. f_equal. apply elem_of_dom_2 in Hid. set_solver.
  - rewrite Ee, Ew, <-H4, <-insert_delete_eq.
    rewrite all_owed_insert by apply lookup_delete_eq. rewrite Ho.
    rewrite (all_owed_delete (web_frames_ s) id ptr f Hid). solve_Permutation.
Qed.

(** ** Removal of all frames *)

Lemma wp_destroy_frame f s (Q : unit → WebFramesManagerImpl → Prop) :
  frame_inv (owed f) f → (∀ l, l.*1 ≡ₚ owed f → Q tt (with_ended (ended s ++ l) s)) →
  wp (destroy_frame f) Q s.
Proof using Type.
  intros (f' & Hrun & Hf')%destroy_owed HQ. unfold destroy_frame. wp_simp. rewrite Hrun. wp_simp.
  by apply HQ.
Qed.

Lemma wp_destroy_frames l s (Q : unit → WebFramesManagerImpl → Prop) :
  Forall (λ f, frame_inv (owed f) f) l →
  (∀ k, k.*1 ≡ₚ (l ≫= owed) → Q tt (with_ended (ended s ++ k) s)) →
  wp (destroy_frames l) Q s.
Proof using Type.
  revert s. induction l as [|f l IH]; intros s Hl HQ; cbn [destroy_frames]; wp_simp.
  { specialize (HQ []). rewrite app_nil_r in HQ. destruct s. by apply HQ. }
  apply Forall_cons in Hl as [Hf Hl]. apply wp_destroy_frame; [done|]. intros k Hk.
  apply IH; [done|]. intros k' Hk'. specialize (HQ (k ++ k')).
  cbn [ended with_ended]. rewrite <-app_assoc. apply HQ. rewrite fmap_app, Hk, Hk'. done.
Qed.

Lemma wp_notify_unavailable l s (Q : unit → WebFramesManagerImpl → Prop) :
  Q tt (with_notified (notified s ++ (pair false <$> l)) s) → wp (notify_unavailable l) Q s.
Proof using Type.
  revert s. induction l as [|id l IH]; intros s HQ; cbn [notify_unavailable]; wp_simp.
  { cbn in HQ. rewrite app_nil_r in HQ. by destruct s. }
  unfold OnWebFrameUnavailable. wp_simp. apply IH. cbn. by rewrite <-app_assoc.
Qed.

Lemma observed_all there l :
  NoDup l → (∀ id, id ∈ there ↔ id ∈ l) → observed there (pair false <$> l) = Some ∅.
Proof using Type.
  revert there. induction l as [|id l IH]; intros there Hnd Hl; cbn.
  { f_equal. apply set_eq. intros id. rewrite Hl. set_solver. }
  apply NoDup_cons in Hnd as [Hid Hnd]. rewrite decide_True by (apply Hl; by left).
  apply IH; [done|]. intros id'. set_solver.
Qed.

Lemma wp_removeAllWebFrames accepted s (Q : unit → WebFramesManagerImpl → Prop) :
  manager_inv accepted s →
  (∀ s', manager_inv accepted s' → web_frames_ s' = ∅ → Q tt s') →
  wp removeAllWebFrames Q s.
Proof using Type.
  intros [H1 H2 H3 H4] HQ. unfold removeAllWebFrames, RemoveAllWebFrames, the_manager. wp_simp.
  apply wp_notify_unavailable. wp_simp. apply wp_destroy_frames.
  { apply Forall_fmap, Forall_forall. intros [id [ptr f]] Hin%elem_of_map_to_list. by eapply H1. }
  intros k Hk. apply HQ; [|done]. split; cbn.
  - intros id ptr f. by rewrite lookup_empty.
  - intros ptr id. split; [done|]. intros (f & Hf & _). by rewrite lookup_empty in Hf.
  - rewrite observed_app, H3. cbn. rewrite dom_empty_L. apply observed_all.
    + apply NoDup_fst_map_to_list.
    + intros id. rewrite elem_of_dom. split.
      * intros [[ptr f] Hf]. apply list_elem_of_fmap. exists (id, (ptr, f)). by rewrite elem_of_map_to_list.
      * intros ([id' [ptr f]] & -> & Hf)%list_elem_of_fmap. apply elem_of_map_to_list in Hf. by eexists.
  - rewrite fmap_app, Hk, <-H4. unfold all_owed. rewrite map_to_list_empty. cbn.
    rewrite app_nil_r. f_equiv. cbn. rewrite list_fmap_bind. done.
Qed.
End spec.

Section page.
Context `{ENV : WebEnv} `{FRAME : FrameEnv}.
Context (Base64Decode : string → string) (Import : string → option SymmetricKey).
Implicit Types s : WebFramesManagerImpl.

(** ** The page's messages *)

Lemma wlp_AddFrame ptr f s (Q : unit → WebFramesManagerImpl → Prop) :
  (frame_id_ f ≠ "" → web_frames_ s !! frame_id_ f = None →
   (is_main_frame_ f = true → main_web_frame_ s = None) →
   Q tt (with_frames (<[frame_id_ f := (ptr, f)]> (web_frames_ s))
     (if is_main_frame_ f then Some (ptr, frame_id_ f) else main_web_frame_ s) s)) →
  wlp (AddFrame ptr f) Q s.
Proof using Type.
  intros HQ. unfold AddFrame, the_manager, has_frame.
  destruct (is_main_frame_ f) eqn:Hm; repeat wlp_step; cbn in *; try done;
    bool_to_prop; rewrite <-?eq_None_not_Some in *; [by apply HQ|destruct s; by apply HQ].
Qed.

Lemma wlp_GetFrameWithId id s (Q : option (Z * WebFrameImpl) → WebFramesManagerImpl → Prop) :
  (id ≠ "" → Q (web_frames_ s !! id) s) → wlp (GetFrameWithId id) Q s.
Proof using Type.
  intros HQ. unfold GetFrameWithId. repeat wlp_step. bool_to_prop. by apply HQ.
Qed.

Lemma frame_inv_fresh f :
  called f = [] → pending_requests_ f = ∅ → timers f = [] →
  INT_MIN <= next_message_id_ f <= INT_MAX → frame_inv [] f ∧ owed f = [].
Proof using Type.
  intros Hc Hp Ht Hn.
  assert (owed f = []) as Ho by (unfold owed, waiting; rewrite Hc, Hp, map_to_list_empty; done).
  split; [|done]. split; rewrite ?Hp, ?Ht; [|done|done|intros ?? Hin; by apply elem_of_nil in Hin|apply NoDup_nil_2].
  unfold owed in Ho. by rewrite Ho.
Qed.

Lemma wlp_frameBecameAvailable accepted body s :
  manager_inv accepted s →
  wlp (frameBecameAvailableWithMessage Base64Decode Import body) (λ _, manager_inv accepted) s.
Proof using Type.
  intros Hi. unfold frameBecameAvailableWithMessage, the_manager. repeat wlp_step.
  destruct body as [message|]; [|by wlp_step]. destruct (crwFrameId message) as [id|]; [|by wlp_step].
  destruct (isBeingDestroyed s); [by wlp_step|]. wlp_step. apply wlp_GetFrameWithId. intros Hid.
  destruct (web_frames_ s !! id) as [p|] eqn:Hnew; [by wlp_step|]. wlp_step.
  set (f0 := frame_of_message _ _ id message).
  apply (wlp_mono _ (λ f s', s' = s ∧ frame_id_ f = id ∧ frame_inv [] f ∧ owed f = [])).
  2:{ assert (frame_id_ f0 = id ∧ called f0 = [] ∧ pending_requests_ f0 = ∅ ∧ timers f0 = [] ∧
        next_message_id_ f0 = 0) as (? & ? & ? & ? & ?) by (subst f0; unfold frame_of_message; by repeat case_match).
      destruct (crwFrameLastReceivedMessageId message) as [last|].
      - unfold int_add. destruct (in_int _) eqn:Hlast; [|done]. repeat wlp_step.
        apply in_int_range in Hlast. split_and!; [done..| |]; apply frame_inv_fresh; try done;
          cbn; unfold INT_MIN, INT_MAX in *; lia.
      - wlp_step. split_and!; [done..| |]; apply frame_inv_fresh; try done;
          unfold INT_MIN, INT_MAX; lia. }
  intros f s' (-> & Hf & Hfi & Ho). repeat wlp_step. apply wlp_AddFrame. cbn.
  intros _ _ Hmain. wlp_step. apply wlp_GetFrameWithId. intros _. unfold OnWebFrameAvailable. wlp_step.
  rewrite <-Hf in *. by eapply (manager_add accepted s _ (next_frame s) f).
Qed.

Lemma wlp_frameBecameUnavailable accepted body s :
  manager_inv accepted s →
  wlp (frameBecameUnavailableWithMessage body) (λ _, manager_inv accepted) s.
Proof using Type.
  intros Hi. unfold frameBecameUnavailableWithMessage, the_manager. repeat wlp_step.
  destruct body as [id|]; [|by wlp_step]. destruct (isBeingDestroyed s); [by wlp_step|].
  wlp_step. apply wlp_GetFrameWithId. intros Hid.
  destruct (web_frames_ s !! id) as [[ptr f]|] eqn:Hf; [|by wlp_step].
  destruct (manager_frames _ _ Hi _ _ _ Hf) as (_ & _ & Hfi).
  unfold OnWebFrameUnavailable, RemoveFrameWithId, the_manager. repeat wlp_step; cbn; rewrite Hf;
    repeat wlp_step; apply wlp_of_wp, wp_destroy_frame; try done; intros l Hl;
    eapply (manager_remove accepted s _ ptr f id l); try done; cbn in *; by case_bool_decide.
Qed.

Lemma wlp_event_of_frame accepted id e s :
  manager_inv accepted s →
  wlp (event_of_frame id e)
    (λ r, manager_inv (accepted ++ match r with Some c => [c] | None => [] end)) s.
Proof using Type.
  intros Hi. unfold event_of_frame, the_manager. do 3 wlp_step.
  apply wlp_not_null. intros [ptr f] Hf. wlp_step. apply wlp_lift_res. intros [r f'] Hrun.
  repeat wlp_step. cbn in *. destruct (manager_frames _ _ Hi _ _ _ Hf) as (_ & _ & Hfi).
  destruct (owed_event _ _ _ _ Hfi Hrun) as [Hfi' Ho]. destruct (event_same _ _ _ _ Hrun) as [Hid Hm].
  by eapply (manager_event accepted s _ ptr f f' id).
Qed.

Lemma page_event_inv accepted e s :
  manager_inv accepted s →
  wlp (run_page_event Base64Decode Import e)
    (λ r, manager_inv (accepted ++ match r with Some c => [c] | None => [] end)) s.
Proof using Type.
  intros Hi. destruct e as [body|body| | |id e]; cbn [run_page_event].
  5:{ by apply wlp_event_of_frame. }
  all: wlp_step; apply (wlp_mono _ (λ _, manager_inv accepted));
    [intros _ s' Hi'; wlp_step; by rewrite app_nil_r|].
  - by apply wlp_frameBecameAvailable.
  - by apply wlp_frameBecameUnavailable.
  - by apply wlp_of_wp, (wp_removeAllWebFrames accepted).
  - wlp_step. by destruct Hi.
Qed.

Lemma manager_inv_reachable s accepted :
  page_reachable Base64Decode Import s accepted → manager_inv accepted s.
Proof using Type.
  intros Hr. change (manager_inv (s, accepted).2 (s, accepted).1).
  eapply (reachable_invariant _ (λ p, manager_inv p.2 p.1)); [|clear s accepted Hr|exact Hr].
  - split; cbn; [intros ??? Hf; by rewrite lookup_empty in Hf| | |done]; [|by rewrite dom_empty_L].
    intros ptr id. split; [done|]. intros (f & Hf & _). by rewrite lookup_empty in Hf.
  - intros [s acc] e [s' acc'] Hi (r & Hrun & Hacc). cbn in *. subst. by eapply page_event_inv.
Qed.

(** C17: What the observers were told is what the manager has; main_web_frame_ is
    the map's only main frame; when the page's frames are removed, every
    callback of an accepted call was called once. *)
Theorem frames_of_a_page s accepted :
  page_reachable Base64Decode Import s accepted →
  observed ∅ (notified s) = Some (dom (web_frames_ s)) ∧
  (∀ ptr id, main_web_frame_ s = Some (ptr, id) ↔
     ∃ f, web_frames_ s !! id = Some (ptr, f) ∧ is_main_frame_ f = true) ∧
  wp removeAllWebFrames (λ _ s',
    observed ∅ (notified s') = Some ∅ ∧ main_web_frame_ s' = None ∧ (ended s').*1 ≡ₚ accepted) s.
Proof using Type.
  intros Hi%manager_inv_reachable. split_and!; [apply (manager_observed _ _ Hi)|apply (manager_main _ _ Hi)|].
  apply (wp_removeAllWebFrames accepted); [done|]. intros s' [_ H2 H3 H4] Hw. rewrite Hw in *. split_and!.
  - by rewrite H3, dom_empty_L.
  - destruct (main_web_frame_ s') as [[ptr id]|]; [|done].
    destruct (proj1 (H2 ptr id) eq_refl) as (f & Hf & _). by rewrite lookup_empty in Hf.
  - unfold all_owed in H4. rewrite map_to_list_empty in H4. cbn in H4. by rewrite app_nil_r in H4.
Qed.

Lemma AddFrame_run ptr g s :
  bool_decide (frame_id_ g = "") = false → web_frames_ s !! frame_id_ g = None →
  AddFrame ptr g s =
  if is_main_frame_ g && bool_decide (is_Some (main_web_frame_ s)) then Crash DCheckFailed
  else Ok (tt, with_frames (<[frame_id_ g := (ptr, g)]> (web_frames_ s))
    (if is_main_frame_ g then Some (ptr, frame_id_ g) else main_web_frame_ s) s).
Proof using Type.
  intros Hid Hp. unfold AddFrame, the_manager, has_frame, whenM, DCHECK, gets, modify, fail, mbind, M_bind,
    mret, M_ret. cbn. rewrite Hid. cbn.
  destruct (is_main_frame_ g); cbn; [|by rewrite Hp].
  destruct (bool_decide (is_Some (main_web_frame_ s))); cbn; [done|]. by rewrite Hp.
Qed.

End page.
