(* ===== verification/WebFrameExamples.v ===== *)
(** * Frames on concrete pages

    Sealing a message is appending the initialization vector to it, and keys
    and values are numbers.  The examples are those of
    web_frame_impl_unittest.mm and web_frames_manager_impl_unittest.mm, a late
    reply, and the messages with which a page makes a check fail. *)

From stdpp Require Import pretty sorting.
From S2P Require Import Prelude.
From S2P Require Import WebEnv.
From S2P Require Import WebFrame.
From S2P Require Import WebFramesManager.

(** ** Executable runs *)
Section runs.
Context {S Ev : Type} (run : Ev → M S (option Z)).

Definition accept (acc : list Z) (r : option Z) : list Z :=
  acc ++ match r with Some c => [c] | None => [] end.
(** The events in order; the state where a check fails is the last one. *)
Fixpoint run_all (l : list Ev) (s : S * list Z) : S * list Z :=
  match l with
  | [] => s
  | e :: l =>
      match run e s.1 with
      | Ok (r, s') => run_all l (s', accept s.2 r)
      | Crash _ => s
      end
  end.

Lemma run_all_reachable (step : S * list Z → Ev → S * list Z → Prop) l s0 s :
  (∀ s e r s', run e s.1 = Ok (r, s') → step s e (s', accept s.2 r)) →
  reachable step s0 s → reachable step s0 (run_all l s).
Proof using Type.
  intros Hstep. revert s. induction l as [|e l IH]; intros s Hs; cbn; [done|].
  destruct (run e s.1) as [[r s']|] eqn:Hrun; [|done].
  apply IH. eapply reach_step; [exact Hs|]. by apply Hstep.
Qed.
End runs.

Module ToyFrame.
#[local] Existing Instance Toy.env.

#[export] Instance toy_frames : FrameEnv := {
  Value := Z;
  JSONWriter_Value := pretty;
  JSONWriter_Message m reply name parameters := pretty m +:+ ":" +:+ name;
  SymmetricKey := Z;
  Seal key json iv := if key =? 0 then None else Some (json +:+ "+" +:+ iv);
  Base64Encode s := s;
}.

Definition origin : GURL := Toy.web "h" "p".
Definition main_frame : WebFrameImpl := WebFrameImpl_new "f" true origin.
Definition iframe : WebFrameImpl := WebFrameImpl_new "f" false origin.

Definition scripts_after {A} (m : M WebFrameImpl A) (f : WebFrameImpl) : option (list string) :=
  match m f with Ok (_, f') => Some (scripts f') | Crash _ => None end.

Example CreateWebFrameForIFrame :
  CanCallJavaScriptFunction main_frame = true ∧ CanCallJavaScriptFunction iframe = false ∧
  CanCallJavaScriptFunction (with_key (Some 1) iframe) = true.
Proof. done. Qed.

Example CallJavaScriptFunctionMainFrameWithoutKey :
  scripts_after (CallJavaScriptFunction "functionName" [] false "";;
    CallJavaScriptFunction "functionName" [1; 27] false "") main_frame =
  Some ["__gCrWeb.functionName()"; "__gCrWeb.functionName(1,27)"].
Proof. by vm_compute. Qed.

Example CallJavaScriptFunctionIFrameFrameWithoutKey :
  scripts_after (CallJavaScriptFunction "functionName" [1] false "") iframe = Some [].
Proof. done. Qed.

Example CallJavaScriptFunctionMessageProperlyEncoded :
  scripts_after (SetEncryptionKey (Some 1);; SetNextMessageId 11;;
    CallJavaScriptFunction "functionName" [1] false "iv") iframe =
  Some ["__gCrWeb.message.routeMessage('11:functionName+iv', 'iv', 'f')"].
Proof. by vm_compute. Qed.

(** What the callbacks were called with, or why the run ended. *)
Definition outcome {A} (m : M WebFrameImpl A) (f : WebFrameImpl) : list (Z * option Z) + crash :=
  match m f with Ok (_, f') => inl (called f') | Crash c => inr c end.
Definition reply (m v : Z) : Command := MkCommand (Some "frameMessaging_f.reply") (Some (Some m)) (Some v).

Example reply_in_time :
  outcome (SetEncryptionKey (Some 1);; CallJavaScriptFunctionWithCallback "g" [] 7 "iv";;
    OnJavaScriptReply (reply 0 42);; timer_fires 0) iframe = inl [(7, Some 42)].
Proof. by vm_compute. Qed.
(** The header says that a response after the timeout is ignored. *)
Example reply_too_late :
  outcome (SetEncryptionKey (Some 1);; CallJavaScriptFunctionWithCallback "g" [] 7 "iv";;
    timer_fires 0;; OnJavaScriptReply (reply 0 42)) iframe = inr NotReached.
Proof. by vm_compute. Qed.
Example script_too_late :
  outcome (CallJavaScriptFunctionWithCallback "g" [] 7 "iv";; timer_fires 0;; script_ends 0 (Some 42))
    main_frame = inl [(7, None)].
Proof. by vm_compute. Qed.
(** Pending calls are cancelled in the order of their ids as unsigned numbers. *)
Example cancelled_in_order :
  outcome (SetNextMessageId (-1);; CallJavaScriptFunctionWithCallback "g" [] 7 "";;
    CallJavaScriptFunctionWithCallback "g" [] 8 "";; WebStateDestroyed) main_frame =
  inl [(8, None); (7, None)].
Proof. by vm_compute. Qed.
(** An id that is used again loses the first callback. *)
Example reused_id :
  outcome (CallJavaScriptFunctionWithCallback "g" [] 7 "";; SetNextMessageId 0;;
    CallJavaScriptFunctionWithCallback "g" [] 8 "";; WebStateDestroyed) main_frame = inl [(8, None)].
Proof. by vm_compute. Qed.

Definition frame_events : list Event :=
  [EvKey (Some 1); EvCallback "g" [] 7 "a"; EvCallback "g" [] 8 "b"; EvCallback "g" [] 9 "c";
   EvReply (reply 1 42); EvTimer 0].
Definition frame_run : WebFrameImpl * list Z := run_all run_event frame_events (with_next 0 iframe, []).

Lemma frame_run_reachable : frame_reachable (with_next 0 iframe) frame_run.1 frame_run.2.
Proof.
  unfold frame_reachable. rewrite <-surjective_pairing. apply run_all_reachable; [|constructor].
  intros s e r s' Hrun. by exists r.
Qed.

Lemma callbacks_run_exactly_once_witness :
  frame_run.2 = [7; 8; 9] ∧ called frame_run.1 = [(8, Some 42); (7, None)] ∧
  (called frame_run.1).*1 ++ waiting frame_run.1 ≡ₚ frame_run.2 ∧
  wp (timers_fire (length (timers frame_run.1))) (λ _ f', (called f').*1 ≡ₚ frame_run.2) frame_run.1 ∧
  wp WebFrameImpl_destroy (λ _ f', (called f').*1 ≡ₚ frame_run.2) frame_run.1.
Proof.
  split; [by vm_compute|]. split; [by vm_compute|].
  refine (callbacks_run_exactly_once "f" false origin 0 _ _ _ frame_run_reachable). done.
Defined.

Lemma iframe_messages_are_sealed_witness :
  length (scripts frame_run.1) = 3%nat ∧
  ∃ ids, Forall2 (sealed "f") (scripts frame_run.1) ids ∧ StronglySorted Z.lt ids.
Proof.
  split; [by vm_compute|].
  exact (iframe_messages_are_sealed "f" origin 0 _ _ frame_run_reachable).
Defined.

(** ** The frames of a page *)

Definition decode (s : string) : string := s.
Definition import (s : string) : option Z := Some (Z.of_nat (String.length s)).
Definition available (id : string) (main : bool) : PageEvent :=
  EvAvailable (Some (MkAvailable (Some id) (Some "key") None main origin)).
Definition page_run (l : list PageEvent) : WebFramesManagerImpl * list Z :=
  run_all (run_page_event decode import) l (WebFramesManagerImpl_new, []).

Lemma page_run_reachable l : page_reachable decode import (page_run l).1 (page_run l).2.
Proof.
  unfold page_reachable. rewrite <-surjective_pairing. apply run_all_reachable; [|constructor].
  intros s e r s' Hrun. by exists r.
Qed.

Definition frame_ids_of (s : WebFramesManagerImpl) : list string := (map_to_list (web_frames_ s)).*1.

Example NoMainWebFrame :
  let s := (page_run [available "m" true; EvUnavailable (Some "m")]).1 in
  GetMainWebFrame s = None ∧ frame_ids_of s = [] ∧ notified s = [(true, "m"); (false, "m")].
Proof. by vm_compute. Qed.
Example AddFrames :
  let s := (page_run [available "m" true; available "c" false; available "c" false]).1 in
  GetMainWebFrame s = Some 0 ∧ length (frame_ids_of s) = 2%nat ∧ GetMainWebFrameId s = "m".
Proof. by vm_compute. Qed.
Example RemoveNonexistantFrame :
  let s := (page_run [available "m" true; EvUnavailable (Some "m"); EvUnavailable (Some "m")]).1 in
  frame_ids_of s = [] ∧ notified s = [(true, "m"); (false, "m")].
Proof. by vm_compute. Qed.

Definition page_events : list PageEvent :=
  [available "m" true; available "c" false; EvFrame "c" (EvCallback "g" [] 7 "a");
   EvFrame "m" (EvCallback "g" [] 8 "b"); EvFrame "c" (EvCallback "g" [] 9 "c");
   EvFrame "m" (EvTimer 0); EvUnavailable (Some "c"); available "d" false].

Lemma frames_of_a_page_witness :
  let s := (page_run page_events).1 in
  notified s = [(true, "m"); (true, "c"); (false, "c"); (true, "d")] ∧
  ended s = [(7, None); (9, None)] ∧ (page_run page_events).2 = [7; 8; 9] ∧
  observed ∅ (notified s) = Some (dom (web_frames_ s)) ∧
  (∀ ptr id, main_web_frame_ s = Some (ptr, id) ↔
     ∃ f, web_frames_ s !! id = Some (ptr, f) ∧ is_main_frame_ f = true) ∧
  wp removeAllWebFrames (λ _ s',
    observed ∅ (notified s') = Some ∅ ∧ main_web_frame_ s' = None ∧ (ended s').*1 ≡ₚ (page_run page_events).2) s.
Proof.
  intros s. split; [by vm_compute|]. split; [by vm_compute|]. split; [by vm_compute|].
  exact (frames_of_a_page decode import s _ (page_run_reachable page_events)).
Defined.

(** Any frame can send these messages. *)
Definition message_outcome (s : WebFramesManagerImpl) (m : AvailableMessage) : option crash :=
  crash_of (frameBecameAvailableWithMessage decode import (Some m) s).
Example falsified_messages :
  message_outcome WebFramesManagerImpl_new (MkAvailable (Some "") None None false origin) = Some DCheckFailed ∧
  message_outcome WebFramesManagerImpl_new (MkAvailable (Some "x") None (Some INT_MAX) false origin)
    = Some IntOverflow ∧
  message_outcome (page_run [available "m" true]).1 (MkAvailable (Some "x") None None true origin)
    = Some DCheckFailed ∧
  crash_of (frameBecameUnavailableWithMessage (Some "") WebFramesManagerImpl_new) = Some DCheckFailed.
Proof. by vm_compute. Qed.
End ToyFrame.
