(* ===== verification/DialogPresenter.v ===== *)
(** * Modal dialogs of web pages

    src/chrome/browser/ui/dialogs: dialog_presenter.mm, the queue of JavaScript
    and HTTP authentication dialogs; java_script_dialog_blocking_state.mm;
    java_script_dialog_presenter_impl.mm; completion_block_util.mm, which calls
    a completion handler at most once and when nobody can call it any more; and
    alert_coordinator.mm, on which they are built.

    A coordinator is a number and lives while the presenter holds it.  UIKit is
    the environment: it shows an alert when the view is in a window, and a
    button can be tapped while its alert is on the screen.  Handlers do not
    call the presenter back.  Titles, messages and text fields are left out. *)

From S2P Require Import Prelude.
From S2P Require Import WebEnv.

Inductive DialogKind := DialogAlert | DialogConfirm | DialogPrompt | DialogAuth.
#[global] Instance DialogKind_eq_dec : EqDecision DialogKind.
Proof. solve_decision. Defined.

(** What a completion handler is called with. *)
Inductive Answer :=
  | AlertAnswer
  | ConfirmAnswer (isConfirmed : bool)
  | PromptAnswer (input : option string)
  | AuthAnswer (credential : option (string * string))
  (* the callback of a dialog that was blocked *)
  | BlockedAnswer.

(** executeCompletionForCancellation, and the cancel actions. *)
Definition cancellation (k : DialogKind) : Answer :=
  match k with
  | DialogAlert => AlertAnswer
  | DialogConfirm => ConfirmAnswer false
  | DialogPrompt => PromptAnswer None
  | DialogAuth => AuthAnswer None
  end.
(** The confirm actions, with the text of the fields if there are any. *)
Definition confirmation (k : DialogKind) (texts : list (option string)) : Answer :=
  match k with
  | DialogAlert => AlertAnswer
  | DialogConfirm => ConfirmAnswer true
  | DialogPrompt => PromptAnswer (Some (default "" (default None (head texts))))
  | DialogAuth =>
      AuthAnswer match texts with Some u :: Some p :: _ => Some (u, p) | _ => None end
  end.

(** DialogClosedCallback of a JavaScript dialog: the success value and the
    input. *)
Definition dialog_closed (a : Answer) : bool * option string :=
  match a with
  | AlertAnswer => (true, None)
  | ConfirmAnswer b => (b, None)
  | PromptAnswer input => (true, input)
  | AuthAnswer _ | BlockedAnswer => (false, None)
  end.

(** AlertCoordinator with its actions, and the wrapper of its completion. *)
Record AlertCoordinator := MkCoordinator {
  dialog_web_state : Z;
  dialog_kind : DialogKind;
  blocking_item : bool;
  cancelAction : bool;
  noInteractionAction : bool;
  visible : bool;
  executed : bool;
}.

(** JavaScriptDialogBlockingState. *)
Record BlockingState := MkBlocking { dialog_count_ : Z; blocked_item_ : option Z }.
Definition show_blocking_option (b : BlockingState) : bool := 0 <? dialog_count_ b.
Definition blocked (b : BlockingState) : bool := bool_decide (is_Some (blocked_item_ b)).

(** blockingConfirmationCoordinator: the dialog it confirms the blocking of,
    weakly held. *)
Record ConfirmationCoordinator := MkConfirmation { confirms : Z; sheet_visible : bool }.

Record DialogPresenter := MkPresenter {
  active : bool;
  queuedWebStates : list Z;
  dialogCoordinatorsForWebStates : gmap Z (option Z);
  presentedDialogWebState : option Z;
  presentedDialogCoordinator : option Z;
  blockingConfirmationCoordinator : option ConfirmationCoordinator;
  coordinators : gmap Z AlertCoordinator;
  next_coordinator : Z;
  blocking_states : gmap Z BlockingState;
  delegateIsPresenting : bool;
  in_window : bool;
  (* the web states of the dialogs that were asked for, and shown *)
  requested : list Z;
  shown : list Z;
  completed : list (Z * Answer);
}.
Implicit Types p : DialogPresenter.

Definition with_active b p := MkPresenter b (queuedWebStates p) (dialogCoordinatorsForWebStates p)
  (presentedDialogWebState p) (presentedDialogCoordinator p) (blockingConfirmationCoordinator p)
  (coordinators p) (next_coordinator p) (blocking_states p) (delegateIsPresenting p) (in_window p)
  (requested p) (shown p) (completed p).
Definition with_queue q m p := MkPresenter (active p) q m
  (presentedDialogWebState p) (presentedDialogCoordinator p) (blockingConfirmationCoordinator p)
  (coordinators p) (next_coordinator p) (blocking_states p) (delegateIsPresenting p) (in_window p)
  (requested p) (shown p) (completed p).
Definition with_presented w c p := MkPresenter (active p) (queuedWebStates p)
  (dialogCoordinatorsForWebStates p) w c (blockingConfirmationCoordinator p)
  (coordinators p) (next_coordinator p) (blocking_states p) (delegateIsPresenting p) (in_window p)
  (requested p) (shown p) (completed p).
Definition with_confirmation s p := MkPresenter (active p) (queuedWebStates p)
  (dialogCoordinatorsForWebStates p) (presentedDialogWebState p) (presentedDialogCoordinator p) s
  (coordinators p) (next_coordinator p) (blocking_states p) (delegateIsPresenting p) (in_window p)
  (requested p) (shown p) (completed p).
Definition with_coordinators c l p := MkPresenter (active p) (queuedWebStates p)
  (dialogCoordinatorsForWebStates p) (presentedDialogWebState p) (presentedDialogCoordinator p)
  (blockingConfirmationCoordinator p) c (next_coordinator p) (blocking_states p)
  (delegateIsPresenting p) (in_window p) (requested p) (shown p) l.
Definition with_blocking b p := MkPresenter (active p) (queuedWebStates p)
  (dialogCoordinatorsForWebStates p) (presentedDialogWebState p) (presentedDialogCoordinator p)
  (blockingConfirmationCoordinator p) (coordinators p) (next_coordinator p) b
  (delegateIsPresenting p) (in_window p) (requested p) (shown p) (completed p).
Definition with_screen d w p := MkPresenter (active p) (queuedWebStates p)
  (dialogCoordinatorsForWebStates p) (presentedDialogWebState p) (presentedDialogCoordinator p)
  (blockingConfirmationCoordinator p) (coordinators p) (next_coordinator p) (blocking_states p)
  d w (requested p) (shown p) (completed p).
Definition with_log r s p := MkPresenter (active p) (queuedWebStates p)
  (dialogCoordinatorsForWebStates p) (presentedDialogWebState p) (presentedDialogCoordinator p)
  (blockingConfirmationCoordinator p) (coordinators p) (next_coordinator p) (blocking_states p)
  (delegateIsPresenting p) (in_window p) r s (completed p).
Definition with_next_coordinator n p := MkPresenter (active p) (queuedWebStates p)
  (dialogCoordinatorsForWebStates p) (presentedDialogWebState p) (presentedDialogCoordinator p)
  (blockingConfirmationCoordinator p) (coordinators p) n (blocking_states p)
  (delegateIsPresenting p) (in_window p) (requested p) (shown p) (completed p).

Notation DM := (M DialogPresenter).
Definition the_presenter : DM DialogPresenter := gets (λ p, p).
Definition DialogPresenter_new : DialogPresenter :=
  MkPresenter false [] ∅ None None None ∅ 0 ∅ false true [] [] [].

(** ** AlertCoordinator *)

(** A message to a coordinator; nothing happens when it is gone. *)
Definition on_coordinator (c : Z) (g : AlertCoordinator → AlertCoordinator) : DM unit :=
  modify (λ p, with_coordinators (alter g c (coordinators p)) (completed p) p).
Definition set_noInteractionAction b (d : AlertCoordinator) := MkCoordinator (dialog_web_state d)
  (dialog_kind d) (blocking_item d) (cancelAction d) b (visible d) (executed d).
Definition set_visible b (d : AlertCoordinator) := MkCoordinator (dialog_web_state d)
  (dialog_kind d) (blocking_item d) (cancelAction d) (noInteractionAction d) b (executed d).
Definition set_executed (d : AlertCoordinator) := MkCoordinator (dialog_web_state d)
  (dialog_kind d) (blocking_item d) (cancelAction d) (noInteractionAction d) (visible d) true.
Definition dismissed (d : AlertCoordinator) := MkCoordinator (dialog_web_state d)
  (dialog_kind d) (blocking_item d) false false false (executed d).

(** The safe callback: executeCallback of the wrapper. *)
Definition safe_callback (c : Z) (a : AlertCoordinator → Answer) : DM unit :=
  p ← the_presenter;
  match coordinators p !! c with
  | Some d =>
      whenM (negb (executed d))
        (modify (λ p, with_coordinators (<[c := set_executed d]> (coordinators p))
                        (completed p ++ [(c, a d)]) p))
  | None => mret tt
  end.
Definition cancel_answer (d : AlertCoordinator) : Answer := cancellation (dialog_kind d).

Definition executeCancelHandler (c : Z) : DM unit :=
  on_coordinator c (set_noInteractionAction false);;
  p ← the_presenter;
  match coordinators p !! c with
  | Some d => whenM (cancelAction d) (safe_callback c cancel_answer)
  | None => mret tt
  end.

Definition alertDismissed (c : Z) : DM unit := on_coordinator c dismissed.

Definition JavaScriptDialogWasShown (w : Z) : DM unit :=
  modify (λ p, with_blocking
    (alter (λ b, MkBlocking (to_size_t (dialog_count_ b + 1)) (blocked_item_ b)) w (blocking_states p)) p).

Definition start (c : Z) : DM unit :=
  p ← the_presenter;
  if negb (in_window p) then mret tt
  else
    match coordinators p !! c with
    | Some d =>
        whenM (negb (bool_decide (dialog_kind d = DialogAuth)))
          (JavaScriptDialogWasShown (dialog_web_state d));;
        on_coordinator c (set_visible true)
    | None => mret tt
    end.

Definition stop (c : Z) : DM unit :=
  p ← the_presenter;
  match coordinators p !! c with
  | Some d => whenM (noInteractionAction d) (safe_callback c cancel_answer)
  | None => mret tt
  end;;
  alertDismissed c.

(** The presenter lets go of a coordinator: it stops, and its completion
    wrapper with it. *)
Definition release (c : Z) : DM unit :=
  safe_callback c cancel_answer;;
  modify (λ p, with_coordinators (delete c (coordinators p)) (completed p) p).

(** ** DialogPresenter *)

Definition isShowingDialog : DM bool :=
  p ← the_presenter;
  DCHECK (Bool.eqb (bool_decide (is_Some (presentedDialogWebState p)))
                   (bool_decide (is_Some (presentedDialogCoordinator p))));;
  mret (bool_decide (is_Some (presentedDialogCoordinator p))).

(** [_dialogCoordinatorsForWebStates[w]], which inserts nil. *)
Definition coordinator_for (w : Z) : DM (option Z) :=
  p ← the_presenter;
  match dialogCoordinatorsForWebStates p !! w with
  | Some c => mret c
  | None =>
      modify (λ p, with_queue (queuedWebStates p) (<[w := None]> (dialogCoordinatorsForWebStates p)) p);;
      mret None
  end.

Definition showNextDialog : DM unit :=
  p ← the_presenter;
  DCHECK (active p);;
  showing ← isShowingDialog;
  DCHECK (negb showing);;
  match queuedWebStates p with
  | [] => fail DCheckFailed
  | w :: q =>
      c ← coordinator_for w;
      modify (λ p, with_queue q (delete w (dialogCoordinatorsForWebStates p)) (with_presented (Some w) c p));;
      modify (λ p, with_log (requested p) (shown p ++ [w]) p);;
      match c with Some c => start c | None => mret tt end
  end.

(** [coordinator] is a weak pointer, that is nil when the coordinator is gone. *)
Definition dialogCoordinatorWasStopped (coordinator : option Z) : DM unit :=
  p ← the_presenter;
  if negb (bool_decide (coordinator = presentedDialogCoordinator p)) then mret tt
  else
    modify (with_presented None None);;
    modify (with_confirmation None);;
    p ← the_presenter;
    whenM (negb (bool_decide (queuedWebStates p = [])) && negb (delegateIsPresenting p)) showNextDialog;;
    match coordinator with Some c => release c | None => mret tt end.

Definition addDialogCoordinator (c : Z) (w : Z) : DM unit :=
  p ← the_presenter;
  DCHECK (negb (bool_decide (presentedDialogWebState p = Some w)));;
  other ← coordinator_for w;
  DCHECK (negb (bool_decide (is_Some other)));;
  modify (λ p, with_queue (queuedWebStates p ++ [w]) (<[w := Some c]> (dialogCoordinatorsForWebStates p)) p);;
  p ← the_presenter;
  if active p then
    showing ← isShowingDialog;
    whenM (negb showing && negb (delegateIsPresenting p)) showNextDialog
  else mret tt.

(** CreateForWebState of the blocking state. *)
Definition blocking_state_for (w : Z) : DM BlockingState :=
  p ← the_presenter;
  match blocking_states p !! w with
  | Some b => mret b
  | None =>
      modify (with_blocking (<[w := MkBlocking 0 None]> (blocking_states p)));;
      mret (MkBlocking 0 None)
  end.

(** What the four methods below share: the coordinator with its actions, the
    blocking option of a JavaScript dialog, the queue. *)
Definition run_panel (k : DialogKind) (w : Z) : DM unit :=
  p ← the_presenter;
  let c := next_coordinator p in
  option ← (if bool_decide (k = DialogAuth) then mret false
            else show_blocking_option <$> blocking_state_for w);
  modify (λ p, with_next_coordinator (c + 1)
    (with_coordinators (<[c := MkCoordinator w k option true true false false]> (coordinators p))
      (completed p) (with_log (requested p ++ [w]) (shown p) p)));;
  addDialogCoordinator c w.
Definition runJavaScriptAlertPanelWithMessage (w : Z) : DM unit := run_panel DialogAlert w.
Definition runJavaScriptConfirmPanelWithMessage (w : Z) : DM unit := run_panel DialogConfirm w.
Definition runJavaScriptTextInputPanelWithPrompt (w : Z) : DM unit := run_panel DialogPrompt w.
Definition runAuthDialogForProtectionSpace (w : Z) : DM unit := run_panel DialogAuth w.

Definition cancelDialogForWebState (w : Z) : DM unit :=
  p ← the_presenter;
  let cancelingPresentedDialog := bool_decide (presentedDialogWebState p = Some w) in
  dialogToCancel ← (if cancelingPresentedDialog then mret (presentedDialogCoordinator p)
                    else coordinator_for w);
  DCHECK (negb cancelingPresentedDialog || bool_decide (is_Some dialogToCancel));;
  match dialogToCancel with
  | Some c => executeCancelHandler c;; stop c
  | None => mret tt
  end;;
  if cancelingPresentedDialog then
    other ← coordinator_for w;
    DCHECK (bool_decide (other = None));;
    dialogCoordinatorWasStopped dialogToCancel
  else
    match dialogToCancel with
    | Some c =>
        p ← the_presenter;
        DCHECK (bool_decide (w ∈ queuedWebStates p));;
        match list_find (.= w) (queuedWebStates p) with
        | Some (i, _) =>
            modify (λ p, with_queue (delete i (queuedWebStates p))
              (delete w (dialogCoordinatorsForWebStates p)) p)
        | None => mret tt
        end;;
        release c
    | None => mret tt
    end.

Fixpoint cancel_queued (fuel : nat) : DM unit :=
  p ← the_presenter;
  match queuedWebStates p, fuel with
  | [], _ => mret tt
  | _, O => fail NeverReturns
  | w :: _, S fuel => cancelDialogForWebState w;; cancel_queued fuel
  end.
Definition cancelAllDialogs : DM unit :=
  p ← the_presenter;
  match presentedDialogCoordinator p with
  | Some c => executeCancelHandler c;; stop c
  | None => mret tt
  end;;
  modify (with_presented None None);;
  match presentedDialogCoordinator p with Some c => release c | None => mret tt end;;
  p ← the_presenter;
  cancel_queued (length (queuedWebStates p)).

Definition tryToPresent : DM unit :=
  p ← the_presenter;
  if bool_decide (is_Some (blockingConfirmationCoordinator p)) then mret tt
  else
    showing ← isShowingDialog;
    DCHECK (negb showing);;
    whenM (active p && negb (bool_decide (queuedWebStates p = [])) && negb (delegateIsPresenting p))
      showNextDialog.

Definition setActive (b : bool) : DM unit :=
  p ← the_presenter;
  whenM (negb (Bool.eqb (active p) b)) (modify (with_active b);; tryToPresent).

(** ** Buttons *)

(** The handler of a UIAlertAction around its action block. *)
Definition alert_action (c : Z) (actionBlock : DM unit) : DM unit :=
  on_coordinator c (set_noInteractionAction false);;
  actionBlock;;
  alertDismissed c.

(** The weak pointer to a coordinator. *)
Definition weak (c : Z) : DM (option Z) :=
  gets (λ p, if bool_decide (is_Some (coordinators p !! c)) then Some c else None).

Definition tap_confirm (c : Z) (texts : list (option string)) : DM unit :=
  alert_action c
    (safe_callback c (λ d, confirmation (dialog_kind d) texts);;
     c' ← weak c; dialogCoordinatorWasStopped c').
Definition tap_cancel (c : Z) : DM unit :=
  alert_action c (safe_callback c cancel_answer;; c' ← weak c; dialogCoordinatorWasStopped c').
(** The blocking option: a sheet asks for confirmation. *)
Definition tap_blocking (c : Z) : DM unit :=
  alert_action c
    (modify (λ p, with_confirmation (Some (MkConfirmation c (in_window p))) p)).

(** The buttons of the sheet; [item] is the last committed item of the web
    state, and the sheet is dismissed afterwards if it is still there. *)
Definition JavaScriptDialogBlockingOptionSelected (w : Z) (item : option Z) : DM unit :=
  p ← the_presenter;
  b ← not_null (blocking_states p !! w);
  modify (with_blocking (<[w := MkBlocking (dialog_count_ b) item]> (blocking_states p)));;
  DCHECK (bool_decide (is_Some item)).
Definition dismiss_sheet : DM unit :=
  modify (λ p, with_confirmation
    ((λ s, MkConfirmation (confirms s) false) <$> blockingConfirmationCoordinator p) p).
Definition sheet_confirm (c : Z) (item : option Z) : DM unit :=
  safe_callback c cancel_answer;;
  p ← the_presenter;
  w ← not_null (presentedDialogWebState p);
  JavaScriptDialogBlockingOptionSelected w item;;
  c' ← weak c; dialogCoordinatorWasStopped c';;
  dismiss_sheet.
Definition sheet_cancel (c : Z) : DM unit :=
  safe_callback c cancel_answer;;
  c' ← weak c; dialogCoordinatorWasStopped c';;
  dismiss_sheet.

(** ** JavaScriptDialogBlockingState and JavaScriptDialogPresenterImpl *)

(** [item]: the last committed item when the navigation starts. *)
Definition DidStartNavigation (renderer_initiated same_document reload : bool) (item : option Z)
    (b : BlockingState) : BlockingState :=
  if negb renderer_initiated ||
     (negb same_document && negb (bool_decide (item = blocked_item_ b)) && negb reload)
  then MkBlocking 0 None
  else b.

(** A blocked dialog is answered without being requested: it takes a number,
    but no coordinator. *)
Definition RunJavaScriptDialog (k : DialogKind) (w : Z) : DM unit :=
  b ← blocking_state_for w;
  if blocked b then
    p ← the_presenter;
    modify (λ p, with_next_coordinator (next_coordinator p + 1)
      (with_coordinators (coordinators p) (completed p ++ [(next_coordinator p, BlockedAnswer)]) p))
  else
    match k with
    | DialogAlert => runJavaScriptAlertPanelWithMessage w
    | DialogConfirm => runJavaScriptConfirmPanelWithMessage w
    | DialogPrompt => runJavaScriptTextInputPanelWithPrompt w
    | DialogAuth => mret tt
    end.

(** ** Runs *)
Inductive Event :=
  | EvJavaScript (k : DialogKind) (w : Z)
  | EvAuth (w : Z)
  | EvCancel (w : Z)
  | EvCancelAll
  | EvTryToPresent
  | EvActive (b : bool)
  | EvScreen (delegate window : bool)
  | EvTapConfirm (c : Z) (texts : list (option string))
  | EvTapCancel (c : Z)
  | EvTapBlocking (c : Z)
  | EvSheetConfirm (c : Z) (item : option Z)
  | EvSheetCancel (c : Z)
  | EvNavigation (w : Z) (renderer_initiated same_document reload : bool) (item : option Z).

Definition run_event (e : Event) : DM unit :=
  match e with
  | EvJavaScript k w => RunJavaScriptDialog k w
  | EvAuth w => runAuthDialogForProtectionSpace w
  | EvCancel w => cancelDialogForWebState w
  | EvCancelAll => cancelAllDialogs
  | EvTryToPresent => tryToPresent
  | EvActive b => setActive b
  | EvScreen d w => modify (with_screen d w)
  | EvTapConfirm c texts => tap_confirm c texts
  | EvTapCancel c => tap_cancel c
  | EvTapBlocking c => tap_blocking c
  | EvSheetConfirm c item => sheet_confirm c item
  | EvSheetCancel c => sheet_cancel c
  | EvNavigation w r s l item =>
      modify (λ p, with_blocking (alter (DidStartNavigation r s l item) w (blocking_states p)) p)
  end.

(** What UIKit and WebKit do: a button is tapped while it is on the screen. *)
Definition possible (e : Event) p : bool :=
  match e with
  | EvJavaScript k _ => negb (bool_decide (k = DialogAuth))
  | EvTapConfirm c _ => match coordinators p !! c with Some d => visible d | None => false end
  | EvTapCancel c =>
      match coordinators p !! c with
      | Some d => visible d && negb (bool_decide (dialog_kind d = DialogAlert))
      | None => false
      end
  | EvTapBlocking c =>
      match coordinators p !! c with Some d => visible d && blocking_item d | None => false end
  | EvSheetConfirm c _ | EvSheetCancel c =>
      match blockingConfirmationCoordinator p with
      | Some s => sheet_visible s && (confirms s =? c)
      | None => false
      end
  | _ => true
  end.

(** The documented use: a web state asks for one dialog at a time; activity
    changes, and presentation is tried, while no dialog is shown; a sheet is
    answered while its dialog is presented or, to cancel, while the presenter
    is active, and the web state has a committed item. *)
Definition has_dialog (w : Z) p : bool :=
  bool_decide (presentedDialogWebState p = Some w) || bool_decide (w ∈ queuedWebStates p).
Definition showing p : bool := bool_decide (is_Some (presentedDialogCoordinator p)).
Definition legal (e : Event) p : bool :=
  match e with
  | EvJavaScript _ w | EvAuth w => negb (has_dialog w p)
  | EvTryToPresent => bool_decide (is_Some (blockingConfirmationCoordinator p)) || negb (showing p)
  | EvActive b => Bool.eqb (active p) b || negb (showing p)
  | EvSheetConfirm c item =>
      bool_decide (presentedDialogCoordinator p = Some c) && bool_decide (is_Some item)
  | EvSheetCancel c => bool_decide (presentedDialogCoordinator p = Some c) || active p
  | _ => true
  end.

Definition presenter_step p (e : Event) p' : Prop :=
  possible e p = true ∧ legal e p = true ∧ run_event e p = Ok (tt, p').
Definition presenter_reachable p : Prop := reachable presenter_step DialogPresenter_new p.
