(* ===== verification/DialogPresenterSpec.v ===== *)
(** * The dialogs of a presenter

    Under any sequence of requests, taps and cancellations that UIKit and the
    documented use of the presenter allow, no check fails, every completion
    handler is called exactly once, and the dialogs are shown in the order in
    which they were asked for. *)

From S2P Require Import Prelude.
From S2P Require Import WebEnv.
From S2P Require Import DialogPresenter.

Implicit Types p : DialogPresenter.

(** ** Invariant *)

(** The dialogs that were not answered. *)
Definition open_of (m : gmap Z AlertCoordinator) : list Z :=
  (map_to_list (filter (λ x, executed x.2 = false) m)).*1.
Definition open_dialogs p : list Z := open_of (coordinators p).

(** [extra]: a coordinator that an operation under way still holds. *)
Record inv (extra : option Z) p : Prop := {
  i_nodup : NoDup (queuedWebStates p);
  i_queue w : w ∈ queuedWebStates p ↔ ∃ c, dialogCoordinatorsForWebStates p !! w = Some (Some c);
  i_presented :
    match presentedDialogWebState p, presentedDialogCoordinator p with
    | Some w, Some c =>
        w ∉ queuedWebStates p ∧ ∃ d, coordinators p !! c = Some d ∧ dialog_web_state d = w
    | None, None => True
    | _, _ => False
    end;
  i_map w c : dialogCoordinatorsForWebStates p !! w = Some (Some c) →
    ∃ d, coordinators p !! c = Some d ∧ dialog_web_state d = w ∧ visible d = false;
  i_held c d : coordinators p !! c = Some d →
    presentedDialogCoordinator p = Some c ∨
    dialogCoordinatorsForWebStates p !! dialog_web_state d = Some (Some c) ∨ extra = Some c;
  i_extra c : extra = Some c →
    presentedDialogCoordinator p ≠ Some c ∧ ∀ w, dialogCoordinatorsForWebStates p !! w ≠ Some (Some c);
  i_next c : is_Some (coordinators p !! c) → 0 <= c < next_coordinator p;
  i_account : (completed p).*1 ++ open_dialogs p ≡ₚ seqZ 0 (next_coordinator p);
  i_visible c d : coordinators p !! c = Some d → visible d = true →
    presentedDialogCoordinator p = Some c ∨ extra = Some c;
  i_sheet s : blockingConfirmationCoordinator p = Some s →
    confirms s < next_coordinator p ∧
    (is_Some (coordinators p !! confirms s) →
     presentedDialogCoordinator p = Some (confirms s) ∨ extra = Some (confirms s));
  i_sheet_js s d : blockingConfirmationCoordinator p = Some s →
    coordinators p !! confirms s = Some d → dialog_kind d ≠ DialogAuth;
  i_active : is_Some (presentedDialogCoordinator p) → active p = true;
  i_js c d : coordinators p !! c = Some d → dialog_kind d ≠ DialogAuth →
    is_Some (blocking_states p !! dialog_web_state d);
  i_item c d : coordinators p !! c = Some d → blocking_item d = true → dialog_kind d ≠ DialogAuth;
  i_order : sublist (shown p ++ queuedWebStates p) (requested p);
  i_next_nonneg : 0 <= next_coordinator p;
}.

(** A coordinator that changed its actions, or was answered. *)
Definition same_dialog (d d' : AlertCoordinator) : Prop :=
  dialog_web_state d' = dialog_web_state d ∧ dialog_kind d' = dialog_kind d ∧
  blocking_item d' = blocking_item d ∧ (visible d' = true → visible d = true).

(** Two states of the presenter that differ in the actions and answers of the
    coordinators. *)
Record same p p' : Prop := {
  same_queue : queuedWebStates p' = queuedWebStates p;
  same_map : dialogCoordinatorsForWebStates p' = dialogCoordinatorsForWebStates p;
  same_web_state : presentedDialogWebState p' = presentedDialogWebState p;
  same_presented : presentedDialogCoordinator p' = presentedDialogCoordinator p;
  same_confirmation : blockingConfirmationCoordinator p' = blockingConfirmationCoordinator p;
  same_active : active p' = active p;
  same_next : next_coordinator p' = next_coordinator p;
  same_blocking w : is_Some (blocking_states p !! w) → is_Some (blocking_states p' !! w);
  same_delegate : delegateIsPresenting p' = delegateIsPresenting p;
  same_log : requested p' = requested p ∧ shown p' = shown p;
  same_dialogs c : option_Forall2 same_dialog (coordinators p !! c) (coordinators p' !! c);
}.

#[export] Instance same_dialog_refl : Reflexive same_dialog.
Proof. by intros d. Qed.
#[export] Instance same_refl : Reflexive same.
Proof. intros p. by split. Qed.
#[export] Instance same_trans : Transitive same.
Proof.
  intros p q r [] []. split; try congruence; [by eauto|by destruct_and!; split; congruence|].
  intros c. specialize (same_dialogs0 c). specialize (same_dialogs1 c).
  destruct same_dialogs0; inversion same_dialogs1; constructor. unfold same_dialog in *.
  destruct_and!. split_and!; try congruence. auto.
Qed.

(** The invariant only looks at the coordinators through this relation, and at
    the account. *)
Lemma inv_same e p p' :
  inv e p → same p p' →
  (completed p').*1 ++ open_dialogs p' ≡ₚ (completed p).*1 ++ open_dialogs p →
  inv e p'.
Proof.
  intros Hi Hs Ha. pose proof (same_dialogs _ _ Hs) as Hd.
  assert (∀ c d', coordinators p' !! c = Some d' →
    ∃ d, coordinators p !! c = Some d ∧ same_dialog d d') as Hback.
  { intros c d' Hc. specialize (Hd c). rewrite Hc in Hd. inversion Hd; subst. by eauto. }
  assert (∀ c d, coordinators p !! c = Some d →
    ∃ d', coordinators p' !! c = Some d' ∧ same_dialog d d') as Hforth.
  { intros c d Hc. specialize (Hd c). rewrite Hc in Hd. inversion Hd; subst. by eauto. }
  destruct Hs as [E1 E2 E3 E4 E5 E6 E7 E8 E9 [E10 E11] _], Hi.
  split; rewrite ?E1, ?E2, ?E3, ?E4, ?E5, ?E6, ?E7, ?E10, ?E11; try done.
  - destruct (presentedDialogWebState p), (presentedDialogCoordinator p); try done.
    destruct i_presented0 as (? & d & Hc & Hw). split; [done|].
    destruct (Hforth _ _ Hc) as (d' & ? & ? & _). exists d'. split; [done|congruence].
  - intros w c Hm. destruct (i_map0 _ _ Hm) as (d & Hc & Hw & Hv).
    destruct (Hforth _ _ Hc) as (d' & ? & ? & _ & _ & Hv'). exists d'. split_and!; [done|congruence|].
    destruct (visible d'); [|done]. rewrite Hv' in Hv; done.
  - intros c d' Hc'. destruct (Hback _ _ Hc') as (d & Hc & -> & _). by apply i_held0.
  - intros c [d' Hc']. destruct (Hback _ _ Hc') as (d & Hc & _). apply i_next0. by eexists.
  - by rewrite Ha.
  - intros c d' Hc' Hv. destruct (Hback _ _ Hc') as (d & Hc & _ & _ & _ & Hv'). eapply i_visible0; eauto.
  - intros s Hsh. destruct (i_sheet0 s Hsh) as [? Hp]. split; [done|]. intros [d' Hc'].
    destruct (Hback _ _ Hc') as (d & Hc & _). apply Hp. by eexists.
  - intros s d' Hsh Hc'. destruct (Hback _ _ Hc') as (d & Hc & _ & -> & _). by eapply i_sheet_js0.
  - intros c d' Hc' Hk. destruct (Hback _ _ Hc') as (d & Hc & Hw & Hk' & _). rewrite Hw.
    apply E8, (i_js0 c); congruence.
  - intros c d' Hc' Hb. destruct (Hback _ _ Hc') as (d & Hc & _ & Hk & Hb' & _). rewrite Hk.
    apply (i_item0 c); congruence.
Qed.

Definition open_one (c : Z) (d : AlertCoordinator) : list Z := if executed d then [] else [c].

Lemma open_insert m c d : m !! c = None → open_of (<[c := d]> m) ≡ₚ open_one c d ++ open_of m.
Proof.
  intros Hc. unfold open_of, open_one. destruct (executed d) eqn:He.
  - rewrite map_filter_insert_False by (by cbn; congruence). by rewrite delete_id.
  - rewrite map_filter_insert_True by done. rewrite map_to_list_insert; [done|].
    apply map_lookup_filter_None. by left.
Qed.

Lemma open_delete m c d : m !! c = Some d → open_of m ≡ₚ open_one c d ++ open_of (delete c m).
Proof.
  intros Hc. rewrite <-open_insert by apply lookup_delete_eq.
  by rewrite insert_delete_eq, insert_id.
Qed.

Lemma open_update m c d d' :
  m !! c = Some d → open_of (<[c := d']> m) ≡ₚ open_one c d' ++ open_of (delete c m).
Proof.
  intros Hc. rewrite <-open_insert by apply lookup_delete_eq. by rewrite insert_delete_eq.
Qed.

Lemma alter_Some (m : gmap Z AlertCoordinator) g c d :
  m !! c = Some d → alter g c m = <[c := g d]> m.
Proof.
  intros Hc. apply map_eq. intros c'. destruct (decide (c = c')) as [<-|Hne].
  - by rewrite lookup_alter_eq, Hc, lookup_insert_eq.
  - by rewrite lookup_alter_ne, lookup_insert_ne.
Qed.

Lemma same_update p c d d' l b :
  coordinators p !! c = Some d → same_dialog d d' →
  (∀ w, is_Some (blocking_states p !! w) → is_Some (b !! w)) →
  same p (with_blocking b (with_coordinators (<[c := d']> (coordinators p)) l p)).
Proof.
  intros Hc Hd Hb. split; cbn; try done. intros c'. destruct (decide (c = c')) as [<-|Hne].
  - rewrite Hc, lookup_insert_eq. by constructor.
  - by rewrite lookup_insert_ne.
Qed.

(** ** The coordinators' methods *)

Lemma wp_on_coordinator e c g p (Q : unit → DialogPresenter → Prop) :
  inv e p → (∀ d, same_dialog d (g d) ∧ executed (g d) = executed d) →
  (∀ p', inv e p' → same p p' → coordinators p' !! c = g <$> coordinators p !! c → Q tt p') →
  wp (on_coordinator c g) Q p.
Proof.
  intros Hi Hg HQ. unfold on_coordinator. wp_simp. destruct (coordinators p !! c) as [d|] eqn:Hc.
  - rewrite (alter_Some _ _ _ d) by done. destruct (Hg d) as [Hs He].
    pose proof (same_update p c d (g d) (completed p) (blocking_states p) Hc Hs ltac:(done)) as Hsame.
    destruct p. cbn in *. apply HQ; [|done|by cbn; rewrite lookup_insert_eq].
    eapply inv_same; [done..|]. unfold open_dialogs. cbn. f_equiv.
    rewrite (open_update _ _ d) by done. rewrite (open_delete _ _ _ Hc).
    unfold open_one. by rewrite He.
  - rewrite alter_id by (intros ? ?; congruence). destruct p. apply HQ; [done..|]. cbn in *. by rewrite Hc.
Qed.

Lemma wp_safe_callback e c a p (Q : unit → DialogPresenter → Prop) :
  inv e p →
  (∀ p', inv e p' → same p p' → coordinators p' !! c = set_executed <$> coordinators p !! c → Q tt p') →
  wp (safe_callback c a) Q p.
Proof.
  intros Hi HQ. unfold safe_callback, the_presenter. wp_simp.
  destruct (coordinators p !! c) as [d|] eqn:Hc; wp_simp.
  2:{ apply HQ; [done..|]. by rewrite Hc. }
  destruct (executed d) eqn:He; cbn; wp_simp.
  - apply HQ; [done..|]. rewrite Hc. destruct d. cbn in *. by subst.
  - pose proof (same_update p c d (set_executed d) (completed p ++ [(c, a d)]) (blocking_states p) Hc
      ltac:(done) ltac:(done)) as Hsame.
    destruct p. cbn in *. apply HQ; [|done|by cbn; rewrite lookup_insert_eq].
    eapply inv_same; [done..|]. unfold open_dialogs. cbn.
    rewrite (open_update _ _ d) by done. rewrite (open_delete _ _ _ Hc).
    unfold open_one. rewrite He. cbn. rewrite fmap_app. cbn. by rewrite <-app_assoc.
Qed.

Lemma wp_alertDismissed e c p (Q : unit → DialogPresenter → Prop) :
  inv e p → (∀ p', inv e p' → same p p' → Q tt p') → wp (alertDismissed c) Q p.
Proof. intros Hi HQ. apply (wp_on_coordinator e); [done|by intros d|]. intros p' ???. by apply HQ. Qed.

Lemma wp_executeCancelHandler e c p (Q : unit → DialogPresenter → Prop) :
  inv e p → (∀ p', inv e p' → same p p' → Q tt p') → wp (executeCancelHandler c) Q p.
Proof.
  intros Hi HQ. unfold executeCancelHandler, the_presenter. wp_simp.
  apply (wp_on_coordinator e); [done|by intros d|]. intros p1 Hi1 Hs1 _. wp_simp.
  destruct (coordinators p1 !! c) as [d|]; wp_simp; [|by apply HQ].
  destruct (cancelAction d); [|by apply HQ].
  apply (wp_safe_callback e); [done|]. intros p2 Hi2 Hs2 _. apply HQ; [done|by transitivity p1].
Qed.

Lemma wp_stop e c p (Q : unit → DialogPresenter → Prop) :
  inv e p → (∀ p', inv e p' → same p p' → Q tt p') → wp (stop c) Q p.
Proof.
  intros Hi HQ. unfold stop, the_presenter. wp_simp.
  destruct (coordinators p !! c) as [d|]; wp_simp; [destruct (noInteractionAction d)|];
    [apply (wp_safe_callback e); [done|]; intros p1 Hi1 Hs1 _|..];
    (eapply wp_alertDismissed; [done|]; intros p2 Hi2 Hs2; apply HQ; [done|by etransitivity]).
Qed.

(** What an operation on the coordinators leaves alone. *)
Definition same_rest p p' : Prop :=
  queuedWebStates p' = queuedWebStates p ∧
  dialogCoordinatorsForWebStates p' = dialogCoordinatorsForWebStates p ∧
  presentedDialogWebState p' = presentedDialogWebState p ∧
  presentedDialogCoordinator p' = presentedDialogCoordinator p ∧ active p' = active p.

Lemma same_same_rest p p' : same p p' → same_rest p p'.
Proof. by intros []. Qed.

Lemma wp_release c p (Q : unit → DialogPresenter → Prop) :
  inv (Some c) p →
  (∀ p', inv None p' → same_rest p p' → Q tt p') →
  wp (release c) Q p.
Proof.
  intros Hi HQ. unfold release. wp_simp. apply (wp_safe_callback (Some c)); [done|].
  intros p1 Hi1 Hs1 Hc. wp_simp. apply HQ; [|by apply same_same_rest in Hs1].
  clear HQ Hs1 Hi. rename Hi1 into Hi. destruct (i_extra _ _ Hi c eq_refl) as [Hne Hnm].
  assert (∀ d, coordinators p1 !! c = Some d → executed d = true) as Hex.
  { intros d Hd. rewrite Hd in Hc. destruct (coordinators p !! c); by simplify_eq/=. }
  destruct Hi. split; cbn; try done.
  - destruct (presentedDialogWebState p1), (presentedDialogCoordinator p1) as [c'|]; try done.
    destruct i_presented0 as (? & d & ? & ?). split; [done|]. exists d.
    rewrite lookup_delete_ne by congruence. done.
  - intros w c' Hm. destruct (i_map0 _ _ Hm) as (d & ? & ? & ?). exists d.
    rewrite lookup_delete_ne; [done|]. intros <-. by eapply Hnm.
  - intros c' d [Hcc Hd]%lookup_delete_Some. destruct (i_held0 _ _ Hd) as [?|[?|?]]; [by left|by right; left|].
    congruence.
  - intros c' [d [_ ?]%lookup_delete_Some]. apply i_next0. by eexists.
  - rewrite <-i_account0. f_equiv. unfold open_dialogs. cbn.
    destruct (coordinators p1 !! c) as [d|] eqn:Hd.
    + rewrite (open_delete _ _ _ Hd). unfold open_one. by rewrite (Hex d).
    + by rewrite delete_id.
  - intros c' d [Hcc Hd]%lookup_delete_Some Hv. destruct (i_visible0 _ _ Hd Hv) as [?|?]; [by left|congruence].
  - intros s Hs. destruct (i_sheet0 s Hs) as [? Hsh]. split; [done|].
    intros [d [Hcc Hd]%lookup_delete_Some]. destruct Hsh as [?|?]; [by eexists|by left|congruence].
  - intros s d Hs [_ ?]%lookup_delete_Some. by eapply i_sheet_js0.
  - intros c' d [_ ?]%lookup_delete_Some. by apply (i_js0 c').
  - intros c' d [_ ?]%lookup_delete_Some. by apply (i_item0 c').
Qed.

(** The presented coordinator's alert appears. *)
Lemma wp_start e c p (Q : unit → DialogPresenter → Prop) :
  inv e p → presentedDialogCoordinator p = Some c →
  (∀ p', inv e p' → same_rest p p' → Q tt p') →
  wp (start c) Q p.
Proof.
  intros Hi Hc HQ. unfold start, the_presenter. wp_simp. destruct (in_window p); cbn; wp_simp; [|by apply HQ].
  destruct (coordinators p !! c) as [d|] eqn:Hd; wp_simp; [|by apply HQ].
  assert (∀ b, (∀ w, is_Some (blocking_states p !! w) → is_Some (b !! w)) →
    inv e (with_blocking b (with_coordinators (<[c := set_visible true d]> (coordinators p)) (completed p) p))) as Hv.
  { intros b Hb. destruct Hi. split; cbn; try done.
    - rewrite Hc in *. destruct (presentedDialogWebState p); [|done].
      destruct i_presented0 as (? & d' & Hd' & ?). split; [done|]. rewrite Hd in Hd'. simplify_eq.
      exists (set_visible true d'). by rewrite lookup_insert_eq.
    - intros w c' Hm. destruct (decide (c' = c)) as [->|Hne].
      + destruct (i_map0 _ _ Hm) as (d' & Hd' & Hw & _). rewrite Hd in Hd'. simplify_eq.
        exfalso. destruct (presentedDialogWebState p) as [w'|] eqn:Hpw; rewrite Hc in i_presented0; [|done].
        destruct i_presented0 as (Hq & d1 & Hd1 & Hw1). rewrite Hd in Hd1. simplify_eq.
        apply Hq, i_queue0. by eexists.
      + rewrite lookup_insert_ne by done. by apply i_map0.
    - intros c' d' [[<- ?]|[_ ?]]%lookup_insert_Some; [by left|by apply i_held0].
    - intros c' [d' [[<- ?]|[_ ?]]%lookup_insert_Some]; apply i_next0; by eexists.
    - rewrite <-i_account0. f_equiv. unfold open_dialogs. cbn.
      rewrite (open_update _ _ d), (open_delete _ _ _ Hd) by done. done.
    - intros c' d' [[<- ?]|[_ ?]]%lookup_insert_Some Hv'; [by left|by eapply i_visible0].
    - intros s Hs. destruct (i_sheet0 s Hs) as [? Hsh]. split; [done|].
      intros [d' [[Heq ?]|[_ ?]]%lookup_insert_Some]; [left; congruence|apply Hsh; by eexists].
    - intros s d' Hs [[Heq <-]|[_ ?]]%lookup_insert_Some; [apply (i_sheet_js0 s d Hs); congruence|].
      by eapply i_sheet_js0.
    - intros c' d' [[<- <-]|[_ ?]]%lookup_insert_Some Hk; apply Hb; [by apply (i_js0 c d)|by eapply i_js0].
    - intros c' d' [[<- <-]|[_ ?]]%lookup_insert_Some Hk; [by apply (i_item0 c d)|by eapply i_item0]. }
  unfold JavaScriptDialogWasShown, on_coordinator.
  destruct (negb _); wp_simp; cbn; rewrite (alter_Some _ _ _ d) by done; (apply HQ; [|done]).
  - apply Hv. intros w [b Hb]. cbn. destruct (decide (dialog_web_state d = w)) as [<-|Hne].
    + rewrite lookup_alter_eq, Hb. by eexists.
    + rewrite lookup_alter_ne by done. by eexists.
  - specialize (Hv (blocking_states p) ltac:(done)). by destruct p.
Qed.

(** ** The queue *)

(** The map is only looked at where it has a coordinator. *)
Definition same_entries (m m' : gmap Z (option Z)) : Prop :=
  ∀ w c, m' !! w = Some (Some c) ↔ m !! w = Some (Some c).

Lemma inv_entries e m p :
  inv e p → same_entries (dialogCoordinatorsForWebStates p) m → inv e (with_queue (queuedWebStates p) m p).
Proof.
  intros Hi Hm. unfold same_entries in Hm. destruct Hi. split; cbn; try done; try by setoid_rewrite Hm.
Qed.

Lemma wp_coordinator_for e w p (Q : option Z → DialogPresenter → Prop) :
  inv e p →
  (∀ o m, inv e (with_queue (queuedWebStates p) m p) →
     same_entries (dialogCoordinatorsForWebStates p) m →
     match o with
     | Some c => dialogCoordinatorsForWebStates p !! w = Some (Some c)
     | None => w ∉ queuedWebStates p
     end →
     Q o (with_queue (queuedWebStates p) m p)) →
  wp (coordinator_for w) Q p.
Proof.
  intros Hi HQ. unfold coordinator_for, the_presenter. wp_simp.
  destruct (dialogCoordinatorsForWebStates p !! w) as [o|] eqn:Hw; wp_simp.
  - specialize (HQ o (dialogCoordinatorsForWebStates p)). destruct p. cbn in *. apply HQ; [done..|].
    destruct o; [done|]. intros (c & ?)%(i_queue _ _ Hi). cbn in *. congruence.
  - assert (same_entries (dialogCoordinatorsForWebStates p) (<[w:=None]> (dialogCoordinatorsForWebStates p)))
      as Hsame.
    { intros w' c. rewrite lookup_insert_Some. split; [by intros [[_ ?]|[_ ?]]|].
      intros ?. right. split; [congruence|done]. }
    apply HQ; [by apply inv_entries|done|]. intros (c & ?)%(i_queue _ _ Hi). congruence.
Qed.

(** A queued dialog is presented. *)
Lemma inv_present e w q c p :
  inv e p → active p = true → presentedDialogCoordinator p = None →
  queuedWebStates p = w :: q → dialogCoordinatorsForWebStates p !! w = Some (Some c) →
  inv e (with_log (requested p) (shown p ++ [w])
    (with_queue q (delete w (dialogCoordinatorsForWebStates p)) (with_presented (Some w) (Some c) p))).
Proof.
  intros Hi Ha Hc Hq Hw. destruct Hi. rewrite Hq, Hc in *.
  apply NoDup_cons in i_nodup0 as [Hwq Hnd]. split; cbn; try done.
  - intros w'. specialize (i_queue0 w'). rewrite elem_of_cons in i_queue0. setoid_rewrite lookup_delete_Some.
    split.
    + intros Hw'. destruct (proj1 i_queue0 (or_intror Hw')) as [c' ?]. exists c'.
      split; [|done]. by intros <-.
    + intros (c' & Hne & Hw'). destruct (proj2 i_queue0 (ex_intro _ c' Hw')); congruence.
  - split; [done|]. destruct (i_map0 _ _ Hw) as (d & ? & ? & _). by exists d.
  - intros w' c' [_ Hw']%lookup_delete_Some. by apply i_map0.
  - intros c' d Hd. rewrite lookup_delete_Some. destruct (i_held0 _ _ Hd) as [?|[Hm|?]]; [done| |by auto].
    destruct (decide (w = dialog_web_state d)) as [->|]; [|by auto]. left. congruence.
  - intros c' He. destruct (i_extra0 _ He) as [_ Hm]. split.
    + intros ?. simplify_eq. by apply (Hm w).
    + intros w' [_ ?]%lookup_delete_Some. by apply (Hm w').
  - intros c' d Hd Hv. right. by destruct (i_visible0 _ _ Hd Hv).
  - intros s Hs. destruct (i_sheet0 _ Hs) as [? Hsh]. split; [done|]. intros Hal. right.
    by destruct (Hsh Hal).
  - by rewrite <-app_assoc.
Qed.

(** The queue after an operation: the one before, or its tail. *)
Definition queue_shrinks p p' : Prop :=
  queuedWebStates p' = queuedWebStates p ∨ queuedWebStates p' = tail (queuedWebStates p).

Lemma wp_isShowingDialog e p (Q : bool → DialogPresenter → Prop) :
  inv e p → Q (bool_decide (is_Some (presentedDialogCoordinator p))) p → wp isShowingDialog Q p.
Proof.
  intros Hi HQ. unfold isShowingDialog, the_presenter. wp_simp. split; [|done].
  pose proof (i_presented _ _ Hi) as H. destruct (presentedDialogWebState p), (presentedDialogCoordinator p); done.
Qed.

Lemma wp_showNextDialog e p (Q : unit → DialogPresenter → Prop) :
  inv e p → active p = true → presentedDialogCoordinator p = None → queuedWebStates p ≠ [] →
  (∀ p', inv e p' → active p' = true → queuedWebStates p' = tail (queuedWebStates p) → Q tt p') →
  wp showNextDialog Q p.
Proof.
  intros Hi Ha Hc Hq HQ. unfold showNextDialog, the_presenter. wp_simp. split; [done|].
  apply (wp_isShowingDialog e); [done|]. wp_simp. split; [by rewrite Hc|].
  destruct (queuedWebStates p) as [|w q] eqn:Hqueue; [done|].
  assert (w ∈ queuedWebStates p) as (c & Hw)%(i_queue _ _ Hi) by (rewrite Hqueue; left).
  unfold coordinator_for, the_presenter. wp_simp. rewrite Hw. wp_simp.
  apply (wp_start e _ _ _ (inv_present e w q c p Hi Ha Hc Hqueue Hw)); [done|].
  intros p' Hi' (Hq' & _ & _ & _ & Ha'). apply HQ; [done|by rewrite Ha'|by rewrite Hq'].
Qed.

(** The presented dialog ends: the next one is shown. *)
Lemma inv_unpresent p c :
  inv None p → presentedDialogCoordinator p = Some c →
  inv (Some c) (with_confirmation None (with_presented None None p)) ∧
  inv (Some c) (with_presented None None p).
Proof.
  intros Hi Hc.
  assert (∀ w, dialogCoordinatorsForWebStates p !! w ≠ Some (Some c)) as Hnot.
  { intros w Hw. pose proof (i_presented _ _ Hi) as Hp. rewrite Hc in Hp.
    destruct (presentedDialogWebState p); [|done]. destruct Hp as (Hq & d & Hd & <-).
    destruct (i_map _ _ Hi _ _ Hw) as (d' & Hd' & <- & _). rewrite Hd in Hd'. simplify_eq.
    apply Hq, (i_queue _ _ Hi). by eexists. }
  destruct Hi. rewrite Hc in *. split; split; cbn; try done.
  all: try (intros c' d Hd; destruct (i_held0 _ _ Hd) as [?|[?|?]]; [|by auto|done]; right; right; congruence).
  all: try (intros c' d Hd Hv; destruct (i_visible0 _ _ Hd Hv) as [?|?]; [|done]; right; congruence).
  all: try (intros c' [= <-]; done).
  all: try (by intros [? ?]).
  intros s Hs. destruct (i_sheet0 s Hs) as [? Hsh]. split; [done|].
  intros Hal. destruct (Hsh Hal) as [?|?]; [|done]. right. congruence.
Qed.

Lemma wp_dialogCoordinatorWasStopped c p (Q : unit → DialogPresenter → Prop) :
  inv None p → (presentedDialogCoordinator p = None → c = None → active p = true) →
  (∀ p', inv None p' → queue_shrinks p p' → Q tt p') →
  wp (dialogCoordinatorWasStopped c) Q p.
Proof.
  intros Hi Hact HQ. unfold dialogCoordinatorWasStopped, the_presenter. wp_simp.
  case_bool_decide as Heq; cbn; [|wp_simp; apply HQ; [done|by left]]. wp_simp. subst c.
  assert (∃ e, e = presentedDialogCoordinator p ∧
    inv e (with_confirmation None (with_presented None None p))) as (e & He & Hi').
  { exists (presentedDialogCoordinator p). split; [done|].
    destruct (presentedDialogCoordinator p) as [c|] eqn:Hc; [by apply inv_unpresent|].
    destruct Hi. rewrite Hc in *. split; cbn; try done. }
  assert (active p = true) as Ha.
  { destruct (presentedDialogCoordinator p) eqn:Hc; [|by apply Hact]. apply (i_active _ _ Hi). by rewrite Hc. }
  assert (∀ p1, inv e p1 → queue_shrinks p p1 →
    wp (match e with Some c => release c | None => mret tt end) Q p1) as Hend.
  { intros p1 Hi1 Hq1. destruct e as [c|]; [|by apply HQ]. apply wp_release; [done|].
    intros p2 Hi2 (Hq2 & _). apply HQ; [done|]. unfold queue_shrinks in *. by rewrite Hq2. }
  rewrite <-He. destruct (negb _ && negb _) eqn:Hb; [|apply Hend; [done|by left]].
  bool_to_prop. apply (wp_showNextDialog e); [done..|]. intros p1 Hi1 _ Hq1. apply Hend; [done|by right].
Qed.

(** ** Requests *)

Lemma seqZ_next n : 0 <= n → seqZ 0 (n + 1) = seqZ 0 n ++ [n].
Proof. intros Hn. by rewrite seqZ_app by lia. Qed.

Lemma i_fresh e p : inv e p → coordinators p !! next_coordinator p = None.
Proof.
  intros Hi. destruct (_ !! _) as [d|] eqn:Hd; [|done].
  destruct (i_next _ _ Hi (next_coordinator p)); [by eexists|lia].
Qed.

Lemma inv_request p w k b m :
  inv None p → presentedDialogWebState p ≠ Some w → w ∉ queuedWebStates p →
  (k ≠ DialogAuth → is_Some (blocking_states p !! w)) → (b = true → k ≠ DialogAuth) →
  same_entries (dialogCoordinatorsForWebStates p) m →
  inv None (with_queue (queuedWebStates p ++ [w]) (<[w := Some (next_coordinator p)]> m)
    (with_next_coordinator (next_coordinator p + 1)
      (with_coordinators (<[next_coordinator p := MkCoordinator w k b true true false false]> (coordinators p))
        (completed p) (with_log (requested p ++ [w]) (shown p) p)))).
Proof.
  intros Hi Hpw Hq Hjs Hb Hm. pose proof (i_fresh _ _ Hi) as Hfresh. destruct Hi.
  assert (∀ c, is_Some (coordinators p !! c) → next_coordinator p ≠ c) as Hne.
  { intros c Hc <-. rewrite Hfresh in Hc. by destruct Hc. }
  split; cbn; try done.
  - apply NoDup_app. split_and!; [done| |apply NoDup_singleton]. intros w' ? ->%list_elem_of_singleton. done.
  - intros w'. rewrite elem_of_app, list_elem_of_singleton, i_queue0. setoid_rewrite lookup_insert_Some.
    split.
    + intros [[c Hc]| <-]; [|by eexists; left]. exists c. right. split; [|by apply Hm].
      intros <-. apply Hq, i_queue0. by eexists.
    + intros (c & [[<- _]|[_ Hc]]); [by right|]. left. exists c. by apply Hm.
  - destruct (presentedDialogWebState p), (presentedDialogCoordinator p) as [c|]; try done.
    destruct i_presented0 as (? & d & Hd & ?). split.
    + rewrite elem_of_app, list_elem_of_singleton. intros [?| ->]; [done|]. by apply Hpw.
    + exists d. rewrite lookup_insert_ne by (apply Hne; by eexists). done.
  - intros w' c [[<- [= <-]]|[_ Hc]]%lookup_insert_Some; [eexists; by rewrite lookup_insert_eq|].
    apply Hm, i_map0 in Hc as (d & Hd & ? & ?). exists d. rewrite lookup_insert_ne by (apply Hne; by eexists).
    done.
  - intros c d [[<- <-]|[_ Hd]]%lookup_insert_Some; cbn; [right; left; by rewrite lookup_insert_eq|].
    destruct (i_held0 _ _ Hd) as [?|[Hc|?]]; [by left| |done]. right; left.
    rewrite lookup_insert_ne; [by apply Hm|]. intros ->. apply Hq, i_queue0. by eexists.
  - intros c [d [[<- _]|[_ Hd]]%lookup_insert_Some]; [lia|].
    destruct (i_next0 c); [by eexists|lia].
  - rewrite seqZ_next, <-i_account0 by done. unfold open_dialogs. cbn. rewrite open_insert by done.
    unfold open_one. cbn. solve_Permutation.
  - intros c d [[<- <-]|[_ Hd]]%lookup_insert_Some Hv; [done|by eapply i_visible0].
  - intros s Hs. destruct (i_sheet0 s Hs) as [? Hsh]. split; [lia|].
    intros [d [[? _]|[_ Hd]]%lookup_insert_Some]; [lia|]. apply Hsh. by eexists.
  - intros s d Hs [[? _]|[_ Hd]]%lookup_insert_Some; [|by eapply i_sheet_js0].
    destruct (i_sheet0 s Hs). lia.
  - intros c d [[<- <-]|[_ Hd]]%lookup_insert_Some Hk; [by apply Hjs|by eapply i_js0].
  - intros c d [[<- <-]|[_ Hd]]%lookup_insert_Some Hk; [by apply Hb|by eapply i_item0].
  - rewrite app_assoc. by apply sublist_app.
  - lia.
Qed.

Lemma wp_coordinator_for_none w p (Q : option Z → DialogPresenter → Prop) :
  (∀ c, dialogCoordinatorsForWebStates p !! w ≠ Some (Some c)) →
  (∀ m, same_entries (dialogCoordinatorsForWebStates p) m → Q None (with_queue (queuedWebStates p) m p)) →
  wp (coordinator_for w) Q p.
Proof.
  intros Hw HQ. unfold coordinator_for, the_presenter. wp_simp.
  destruct (dialogCoordinatorsForWebStates p !! w) as [[c|]|] eqn:Hm; wp_simp.
  - by destruct (Hw c).
  - specialize (HQ (dialogCoordinatorsForWebStates p)). destruct p. by apply HQ.
  - apply HQ. intros w' c. rewrite lookup_insert_Some. split; [by intros [[_ ?]|[_ ?]]|].
    intros ?. right. split; [congruence|done].
Qed.

Lemma wp_run_panel k w p (Q : unit → DialogPresenter → Prop) :
  inv None p → has_dialog w p = false →
  (∀ p', inv None p' → Q tt p') →
  wp (run_panel k w) Q p.
Proof.
  intros Hi Hw HQ. unfold has_dialog in Hw. bool_to_prop.
  assert (∀ b p', inv None p' → presentedDialogWebState p' ≠ Some w → w ∉ queuedWebStates p' →
    next_coordinator p' = next_coordinator p →
    (k ≠ DialogAuth → is_Some (blocking_states p' !! w)) → (b = true → k ≠ DialogAuth) →
    wp (modify (λ p0, with_next_coordinator (next_coordinator p + 1)
          (with_coordinators (<[next_coordinator p := MkCoordinator w k b true true false false]> (coordinators p0))
            (completed p0) (with_log (requested p0 ++ [w]) (shown p0) p0)));;
        addDialogCoordinator (next_coordinator p) w) Q p') as Hadd.
  { intros b p' Hi' Hpw Hq Hn Hjs Hb. wp_simp. unfold addDialogCoordinator, the_presenter. wp_simp. cbn.
    split; [by rewrite bool_decide_eq_false_2|].
    apply wp_coordinator_for_none; cbn.
    { intros c Hc. apply Hq, (i_queue _ _ Hi'). by eexists. }
    intros m Hm. wp_simp. cbn.
    pose proof (inv_request p' w k b m Hi' Hpw Hq Hjs Hb Hm) as Hi2. rewrite Hn in Hi2.
    destruct (active p') eqn:Ha; [|apply HQ; exact Hi2].
    wp_simp. eapply wp_isShowingDialog; [exact Hi2|]. cbn.
    destruct (presentedDialogCoordinator p') eqn:Hc; cbn; [apply HQ; exact Hi2|].
    destruct (delegateIsPresenting p'); cbn; [apply HQ; exact Hi2|].
    apply (wp_showNextDialog None _ _ Hi2); [done..|cbn; by destruct (queuedWebStates p')|].
    intros p2 Hi3 _ _. by apply HQ. }
  unfold run_panel, the_presenter. wp_simp. case_bool_decide as Hk.
  { wp_simp. by apply (Hadd false p). }
  unfold blocking_state_for, the_presenter. wp_simp.
  destruct (blocking_states p !! w) as [bs|] eqn:Hbs; wp_simp.
  { apply (Hadd (show_blocking_option bs) p); try done. }
  assert (inv None (with_blocking (<[w:=MkBlocking 0 None]> (blocking_states p)) p)) as Hi1.
  { destruct Hi. split; cbn; try done. intros c d Hd Hdk. destruct (i_js0 c d Hd Hdk) as [b Hb].
    rewrite lookup_insert_ne by congruence. by eexists. }
  apply (Hadd false (with_blocking (<[w:=MkBlocking 0 None]> (blocking_states p)) p)); try done.
  cbn. rewrite lookup_insert_eq. by eexists.
Qed.

(** ** Cancellations *)

(** A dialog leaves the queue. *)
Lemma inv_dequeue p w c i :
  inv None p → queuedWebStates p !! i = Some w →
  dialogCoordinatorsForWebStates p !! w = Some (Some c) →
  inv (Some c) (with_queue (delete i (queuedWebStates p)) (delete w (dialogCoordinatorsForWebStates p)) p).
Proof.
  intros Hi Hq Hw. pose proof (delete_Permutation _ _ _ Hq) as Hperm. destruct Hi.
  destruct (i_map0 _ _ Hw) as (d & Hd & Hdw & Hdv).
  rewrite Hperm in i_nodup0. apply NoDup_cons in i_nodup0 as [Hnin Hnd].
  assert (∀ w', w' ∈ delete i (queuedWebStates p) ↔ w' ∈ queuedWebStates p ∧ w' ≠ w) as Hel.
  { intros w'. rewrite Hperm at 2. rewrite elem_of_cons. split; [intros ?; split; [by right|]; by intros ->|].
    by intros [[?|?] ?]. }
  split; cbn; try done.
  - intros w'. rewrite Hel, i_queue0. setoid_rewrite lookup_delete_Some.
    split; [intros [[c' ?] ?]; exists c'; split; [by apply not_eq_sym|done]|].
    intros (c' & ? & ?). split; [by exists c'|by apply not_eq_sym].
  - destruct (presentedDialogWebState p), (presentedDialogCoordinator p); try done.
    destruct i_presented0 as [? Hx]. split; [|done]. rewrite Hel. by intros [? _].
  - intros w' c' [_ ?]%lookup_delete_Some. by apply i_map0.
  - intros c' d' Hd'. rewrite lookup_delete_Some. destruct (i_held0 _ _ Hd') as [?|[Hm|?]]; [by left| |done].
    destruct (decide (w = dialog_web_state d')) as [->|]; [right; right; congruence|by right; left].
  - intros c' [= <-]. split.
    + intros Hc. rewrite Hc in i_presented0. destruct (presentedDialogWebState p); [|done].
      destruct i_presented0 as (Hnq & d' & Hd' & Hw'). rewrite Hd in Hd'. simplify_eq.
      apply Hnq, i_queue0. by eexists.
    + intros w' [Hne Hm]%lookup_delete_Some. destruct (i_map0 _ _ Hm) as (d' & Hd' & ? & _).
      rewrite Hd in Hd'. simplify_eq.
  - intros c' d' Hd' Hv. destruct (i_visible0 _ _ Hd' Hv); [by left|done].
  - intros s Hs. destruct (i_sheet0 s Hs) as [? Hsh]. split; [done|]. intros Hal.
    destruct (Hsh Hal); [by left|done].
  - etransitivity; [|exact i_order0]. apply sublist_app; [done|]. apply sublist_delete.
Qed.

Lemma wp_cancelDialogForWebState w p (Q : unit → DialogPresenter → Prop) :
  inv None p →
  (∀ p', inv None p' →
     (presentedDialogWebState p = None → presentedDialogCoordinator p' = None ∧
        (∀ i, queuedWebStates p !! i = Some w → queuedWebStates p' = delete i (queuedWebStates p))) →
     Q tt p') →
  wp (cancelDialogForWebState w) Q p.
Proof.
  intros Hi HQ. unfold cancelDialogForWebState, the_presenter. wp_simp.
  destruct (bool_decide (presentedDialogWebState p = Some w)) eqn:Hpw; bool_to_prop; wp_simp; cbn.
  - pose proof (i_presented _ _ Hi) as Hpres. rewrite Hpw in Hpres.
    destruct (presentedDialogCoordinator p) as [c|] eqn:Hc; [|done]. destruct Hpres as (Hq & _).
    split; [done|]. wp_simp. apply (wp_executeCancelHandler None); [done|]. intros p1 Hi1 Hs1.
    apply (wp_stop None); [done|]. intros p2 Hi2 Hs2. pose proof (same_trans _ _ _ Hs1 Hs2) as Hs.
    wp_simp. apply wp_coordinator_for_none.
    { intros c' Hc'. rewrite (same_map _ _ Hs) in Hc'. apply Hq, (i_queue _ _ Hi). by eexists. }
    intros m Hm. wp_simp. split; [done|]. apply wp_dialogCoordinatorWasStopped; [by apply inv_entries|done|].
    intros p3 Hi3 _. apply HQ; [done|]. congruence.
  - apply (wp_coordinator_for None); [done|]. intros o m Hi1 Hm Ho. wp_simp.
    destruct o as [c|]; wp_simp.
    2:{ apply HQ; [done|]. intros Hp. cbn. pose proof (i_presented _ _ Hi) as Hpres. rewrite Hp in Hpres.
        split; [by destruct (presentedDialogCoordinator p)|].
        intros i Hwi. destruct Ho. by eapply list_elem_of_lookup_2. }
    apply (wp_executeCancelHandler None); [done|]. intros p1 Hi2 Hs1.
    apply (wp_stop None); [done|]. intros p2 Hi3 Hs2. pose proof (same_trans _ _ _ Hs1 Hs2) as Hs.
    assert (dialogCoordinatorsForWebStates p2 !! w = Some (Some c)) as Hw2.
    { rewrite (same_map _ _ Hs). cbn. by apply Hm. }
    assert (w ∈ queuedWebStates p2) as Hin by (apply (i_queue _ _ Hi3); by eexists).
    wp_simp. split; [by apply bool_decide_eq_true_2|].
    destruct (list_find _ _) as [[i w']|] eqn:Hf; wp_simp.
    2:{ exfalso. apply list_find_None in Hf. rewrite Forall_forall in Hf. by apply (Hf w). }
    apply list_find_Some in Hf as (Hl & <- & _).
    apply wp_release; [by apply inv_dequeue|]. intros p3 Hi4 (Hq3 & _ & Hpw3 & Hpc3 & _). cbn in *.
    apply HQ; [done|]. intros Hp. rewrite Hpc3, (same_presented _ _ Hs). cbn.
    pose proof (i_presented _ _ Hi) as Hpres. rewrite Hp in Hpres.
    split; [by destruct (presentedDialogCoordinator p)|]. intros j Hj.
    rewrite Hq3, (same_queue _ _ Hs). cbn. f_equal. rewrite (same_queue _ _ Hs) in Hl. cbn in Hl.
    by eapply NoDup_lookup, Hj; [apply (i_nodup _ _ Hi)|].
Qed.

Lemma wp_cancel_queued n p (Q : unit → DialogPresenter → Prop) :
  inv None p → presentedDialogWebState p = None → length (queuedWebStates p) = n →
  (∀ p', inv None p' → queuedWebStates p' = [] → presentedDialogCoordinator p' = None → Q tt p') →
  wp (cancel_queued n) Q p.
Proof.
  revert p. induction n as [|n IH]; intros p Hi Hp Hn HQ;
    destruct (queuedWebStates p) as [|w q] eqn:Hq; try done;
    cbn [cancel_queued]; unfold the_presenter; wp_simp; rewrite Hq; wp_simp.
  { apply HQ; [done..|]. pose proof (i_presented _ _ Hi) as H. rewrite Hp in H.
    by destruct (presentedDialogCoordinator p). }
  apply wp_cancelDialogForWebState; [done|]. intros p' Hi' Hp'. destruct (Hp' Hp) as [Hc Hq'].
  apply IH; [done| | |done].
  - pose proof (i_presented _ _ Hi') as H. rewrite Hc in H. by destruct (presentedDialogWebState p').
  - rewrite (Hq' 0%nat) by (by rewrite Hq). rewrite Hq. cbn. cbn in Hn. lia.
Qed.

(** Every dialog is answered. *)
Lemma wp_cancelAllDialogs p (Q : unit → DialogPresenter → Prop) :
  inv None p →
  (∀ p', inv None p' → queuedWebStates p' = [] → presentedDialogCoordinator p' = None → Q tt p') →
  wp cancelAllDialogs Q p.
Proof.
  intros Hi HQ. unfold cancelAllDialogs, the_presenter. wp_simp.
  destruct (presentedDialogCoordinator p) as [c|] eqn:Hc; wp_simp.
  - apply (wp_executeCancelHandler None); [done|]. intros p1 Hi1 Hs1.
    apply (wp_stop None); [done|]. intros p2 Hi2 Hs2. wp_simp.
    assert (presentedDialogCoordinator p2 = Some c) as Hc2.
    { by rewrite (same_presented _ _ Hs2), (same_presented _ _ Hs1). }
    apply wp_release; [by apply inv_unpresent|]. intros p3 Hi3 (_ & _ & Hpw & _). wp_simp.
    by apply wp_cancel_queued.
  - replace (with_presented None None p) with p.
    + apply wp_cancel_queued; [done| |done..]. pose proof (i_presented _ _ Hi) as H. rewrite Hc in H.
      by destruct (presentedDialogWebState p).
    + pose proof (i_presented _ _ Hi) as H. rewrite Hc in H.
      assert (presentedDialogWebState p = None) as Hw by (by destruct (presentedDialogWebState p)).
      clear - Hc Hw. destruct p. cbn in *. by subst.
Qed.

(** ** Presentation *)

Lemma wp_tryToPresent p (Q : unit → DialogPresenter → Prop) :
  inv None p → is_Some (blockingConfirmationCoordinator p) ∨ presentedDialogCoordinator p = None →
  (∀ p', inv None p' → Q tt p') → wp tryToPresent Q p.
Proof.
  intros Hi Hl HQ. unfold tryToPresent, the_presenter. wp_simp.
  case_bool_decide as Hs; [by apply HQ|]. destruct Hl as [?|Hc]; [done|]. wp_simp.
  apply (wp_isShowingDialog None); [done|]. rewrite Hc. wp_simp. split; [done|].
  destruct (_ && negb (delegateIsPresenting p)) eqn:Hb; [|by apply HQ]. bool_to_prop.
  apply (wp_showNextDialog None); [done..|]. intros p' Hi' _ _. by apply HQ.
Qed.

Lemma inv_active b p :
  inv None p → presentedDialogCoordinator p = None → inv None (with_active b p).
Proof.
  intros Hi Hc. destruct Hi. rewrite Hc in *. split; cbn; try done; by rewrite Hc.
Qed.

Lemma wp_setActive b p (Q : unit → DialogPresenter → Prop) :
  inv None p → active p = b ∨ presentedDialogCoordinator p = None →
  (∀ p', inv None p' → Q tt p') → wp (setActive b) Q p.
Proof.
  intros Hi Hl HQ. unfold setActive, the_presenter. wp_simp.
  destruct (Bool.eqb (active p) b) eqn:Hb; cbn; [by apply HQ|]. apply eqb_false_iff in Hb.
  destruct Hl as [?|Hc]; [done|]. wp_simp. apply wp_tryToPresent; [by apply inv_active|by right|done].
Qed.

(** ** Buttons *)

Lemma weak_alive c p d : coordinators p !! c = Some d → weak c p = Ok (Some c, p).
Proof. intros Hc. unfold weak, gets. by rewrite Hc. Qed.

Lemma wp_weak c p (Q : option Z → DialogPresenter → Prop) :
  Q (if bool_decide (is_Some (coordinators p !! c)) then Some c else None) p → wp (weak c) Q p.
Proof. intros HQ. unfold weak. by wp_simp. Qed.

Lemma wp_alert_action c m p (Q : unit → DialogPresenter → Prop) :
  inv None p →
  (∀ p' (Q' : unit → DialogPresenter → Prop), inv None p' → same p p' →
     (∀ p'', inv None p'' → Q' tt p'') → wp m Q' p') →
  (∀ p', inv None p' → Q tt p') →
  wp (alert_action c m) Q p.
Proof.
  intros Hi Hm HQ. unfold alert_action. wp_simp. apply (wp_on_coordinator None); [done|by intros d|].
  intros p1 Hi1 Hs1 _. wp_simp. apply Hm; [done..|]. intros p2 Hi2. wp_simp.
  apply (wp_alertDismissed None); [done|]. intros p3 Hi3 _. by apply HQ.
Qed.

(** The handlers end with the dialog. *)
Lemma wp_stopped c p (Q : unit → DialogPresenter → Prop) :
  inv None p → is_Some (coordinators p !! c) ∨ active p = true →
  (∀ p', inv None p' → Q tt p') →
  wp (weak c) (λ c' s, wp (dialogCoordinatorWasStopped c') Q s) p.
Proof.
  intros Hi Hl HQ. apply wp_weak. apply wp_dialogCoordinatorWasStopped; [done| |intros p2 Hi2 _; by apply HQ].
  intros _. case_bool_decide as Hc; [done|]. by destruct Hl.
Qed.

Lemma wp_stopped_then c p m (Q : unit → DialogPresenter → Prop) :
  inv None p → is_Some (coordinators p !! c) ∨ active p = true →
  (∀ p', inv None p' → wp m Q p') →
  wp (c' ← weak c; dialogCoordinatorWasStopped c';; m) Q p.
Proof.
  intros Hi Hl HQ. pose proof (wp_stopped c p (λ _ s, wp m Q s) Hi Hl HQ) as H. wp_simp.
  eapply wp_mono; [|exact H]. intros c' s. by wp_simp.
Qed.

Lemma same_alive p p' c : same p p' → is_Some (coordinators p !! c) → is_Some (coordinators p' !! c).
Proof. intros Hs [d Hd]. pose proof (same_dialogs _ _ Hs c) as Hx. rewrite Hd in Hx. inversion Hx. by eexists. Qed.

Lemma wp_answered c a p (Q : unit → DialogPresenter → Prop) :
  inv None p → is_Some (coordinators p !! c) ∨ active p = true →
  (∀ p', inv None p' → Q tt p') →
  wp (safe_callback c a) (λ _ s, wp (weak c) (λ c' s', wp (dialogCoordinatorWasStopped c') Q s') s) p.
Proof.
  intros Hi Hl HQ. apply (wp_safe_callback None); [done|]. intros p1 Hi1 Hs1 _.
  apply wp_stopped; [done| |done]. rewrite (same_active _ _ Hs1).
  destruct Hl; [left; by eapply same_alive|by right].
Qed.

Lemma wp_tap c a p (Q : unit → DialogPresenter → Prop) :
  inv None p → is_Some (coordinators p !! c) → (∀ p', inv None p' → Q tt p') →
  wp (alert_action c (safe_callback c a;; c' ← weak c; dialogCoordinatorWasStopped c')) Q p.
Proof.
  intros Hi Hd HQ. apply wp_alert_action; [done| |done]. intros p1 Q1 Hi1 Hs1 HQ1. wp_simp.
  apply wp_answered; [done| |done]. left. by eapply same_alive.
Qed.

Lemma inv_confirmation s p :
  inv None p → (∀ t, s = Some t →
    presentedDialogCoordinator p = Some (confirms t) ∧
      (∀ d, coordinators p !! confirms t = Some d → dialog_kind d ≠ DialogAuth) ∨
    ∃ t', blockingConfirmationCoordinator p = Some t' ∧ confirms t' = confirms t) →
  inv None (with_confirmation s p).
Proof.
  intros Hi Hs. destruct Hi. split; cbn; try done; intros t; [intros ->|intros d ->].
  2:{ destruct (Hs t eq_refl) as [[_ ?]|(t' & Ht' & <-)]; [by auto|by apply i_sheet_js0]. }
  destruct (Hs t eq_refl) as [[Hc _]|(t' & Ht' & <-)]; [|by apply i_sheet0].
  split; [|by left]. apply i_next0. rewrite Hc in i_presented0.
  destruct (presentedDialogWebState p); [|done]. destruct i_presented0 as (_ & d & ? & _). by eexists.
Qed.

Lemma wp_tap_blocking c p (Q : unit → DialogPresenter → Prop) :
  inv None p → (∃ d, coordinators p !! c = Some d ∧ visible d = true ∧ blocking_item d = true) →
  (∀ p', inv None p' → Q tt p') → wp (tap_blocking c) Q p.
Proof.
  intros Hi (d & Hd & Hv & Hb) HQ. destruct (i_visible _ _ Hi _ _ Hd Hv) as [Hc|]; [|done].
  apply wp_alert_action; [done| |done]. intros p1 Q1 Hi1 Hs1 HQ1. wp_simp.
  apply HQ1, inv_confirmation; [done|]. intros t [= <-]. left. cbn. rewrite (same_presented _ _ Hs1).
  split; [done|]. intros d' Hd'. pose proof (same_dialogs _ _ Hs1 c) as Hx. rewrite Hd, Hd' in Hx.
  assert (same_dialog d d') as (_ & -> & _) by (by inversion Hx). by apply (i_item _ _ Hi c).
Qed.

Lemma wp_dismiss_sheet p (Q : unit → DialogPresenter → Prop) :
  inv None p → (∀ p', inv None p' → Q tt p') → wp dismiss_sheet Q p.
Proof.
  intros Hi HQ. unfold dismiss_sheet. wp_simp. apply HQ, inv_confirmation; [done|].
  intros t Ht. right. destruct (blockingConfirmationCoordinator p) as [t'|]; [|done].
  exists t'. by simplify_eq/=.
Qed.

Lemma wp_sheet_cancel c p (Q : unit → DialogPresenter → Prop) :
  inv None p → presentedDialogCoordinator p = Some c ∨ active p = true →
  (∀ p', inv None p' → Q tt p') → wp (sheet_cancel c) Q p.
Proof.
  intros Hi Hl HQ. unfold sheet_cancel.
  assert (active p = true) as Ha.
  { destruct Hl as [Hc|?]; [|done]. apply (i_active _ _ Hi). by rewrite Hc. }
  wp_simp. apply (wp_safe_callback None); [done|]. intros p1 Hi1 Hs1 _.
  apply wp_stopped_then; [done| |intros p' Hi'; by apply wp_dismiss_sheet].
  right. by rewrite (same_active _ _ Hs1).
Qed.

Lemma wp_sheet_confirm c item p (Q : unit → DialogPresenter → Prop) :
  inv None p → presentedDialogCoordinator p = Some c → is_Some item →
  (∀ d, coordinators p !! c = Some d → dialog_kind d ≠ DialogAuth) →
  (∀ p', inv None p' → Q tt p') → wp (sheet_confirm c item) Q p.
Proof.
  intros Hi Hc Hitem Hk HQ. unfold sheet_confirm, JavaScriptDialogBlockingOptionSelected, the_presenter.
  wp_simp. apply (wp_safe_callback None); [done|]. intros p1 Hi1 Hs1 _. wp_simp.
  pose proof (i_presented _ _ Hi) as Hp. rewrite Hc in Hp.
  destruct (presentedDialogWebState p) as [w|] eqn:Hw; [|done]. destruct Hp as (_ & d & Hd & Hdw).
  exists w. split; [by rewrite (same_web_state _ _ Hs1)|]. wp_simp.
  destruct (i_js _ _ Hi c d Hd (Hk d Hd)) as [b0 Hb0]. rewrite Hdw in Hb0.
  destruct (same_blocking _ _ Hs1 w) as [b Hb]; [by eexists|]. exists b. split; [done|]. wp_simp.
  split; [by apply bool_decide_eq_true_2|].
  assert (inv None (with_blocking (<[w:=MkBlocking (dialog_count_ b) item]> (blocking_states p1)) p1)) as Hi2.
  { clear - Hi1. destruct Hi1. split; cbn; try done. intros c d Hd Hdk.
    destruct (i_js0 c d Hd Hdk) as [x Hx]. destruct (decide (w = dialog_web_state d)) as [->|].
    - rewrite lookup_insert_eq. by eexists.
    - rewrite lookup_insert_ne by done. by eexists. }
  apply wp_stopped_then; [done| |intros p' Hi'; by apply wp_dismiss_sheet].
  right. cbn. apply (i_active _ _ Hi1). by rewrite (same_presented _ _ Hs1), Hc.
Qed.

Lemma wp_RunJavaScriptDialog k w p (Q : unit → DialogPresenter → Prop) :
  inv None p → has_dialog w p = false → (∀ p', inv None p' → Q tt p') →
  wp (RunJavaScriptDialog k w) Q p.
Proof.
  intros Hi Hw HQ. unfold RunJavaScriptDialog, blocking_state_for, the_presenter. wp_simp.
  assert (∀ p', inv None p' → has_dialog w p' = false →
    wp (match k with
        | DialogAlert => runJavaScriptAlertPanelWithMessage w
        | DialogConfirm => runJavaScriptConfirmPanelWithMessage w
        | DialogPrompt => runJavaScriptTextInputPanelWithPrompt w
        | DialogAuth => mret tt
        end) Q p') as Hrun.
  { intros p' Hi' Hw'. destruct k; by first [apply wp_run_panel | apply HQ]. }
  destruct (blocking_states p !! w) as [b|] eqn:Hb; wp_simp.
  - destruct (blocked b); [|by apply Hrun]. wp_simp. apply HQ. clear - Hi. destruct Hi.
    split; cbn; try done.
    + intros c Hc. destruct (i_next0 c Hc). lia.
    + rewrite seqZ_next, <-i_account0, fmap_app by done. unfold open_dialogs. cbn. solve_Permutation.
    + intros s Hs. destruct (i_sheet0 s Hs). split; [lia|done].
    + lia.
  - apply Hrun; [|done]. clear - Hi Hb. destruct Hi. split; cbn; try done.
    intros c d Hd Hdk. destruct (i_js0 c d Hd Hdk) as [x Hx].
    rewrite lookup_insert_ne by congruence. by eexists.
Qed.

(** ** Runs *)

Lemma inv_new : inv None DialogPresenter_new.
Proof.
  split; cbn; try done; try (intros ? [? ?]; done); try (by intros [? ?]).
  - apply NoDup_nil_2.
  - intros w. split; [by intros ?%elem_of_nil|]. intros (c & ?). done.
Qed.

(** No event fails, and the invariant is kept. *)
Lemma wp_dialog_event e p :
  inv None p → possible e p = true → legal e p = true → wp (run_event e) (λ _, inv None) p.
Proof.
  intros Hi Hp Hl.
  destruct e as [k w|w|w| | |b|dl wi|c ts|c|c|c item|c|w r sd rl item]; cbn in *.
  - apply wp_RunJavaScriptDialog; [done|by apply negb_true_iff|done].
  - apply wp_run_panel; [done|by apply negb_true_iff|done].
  - by apply wp_cancelDialogForWebState.
  - by apply wp_cancelAllDialogs.
  - apply wp_tryToPresent; [done| |done]. unfold showing in Hl. bool_to_prop; [by left|right].
    by apply eq_None_not_Some.
  - apply wp_setActive; [done| |done]. unfold showing in Hl. apply orb_true_iff in Hl as [Hl|Hl].
    + left. by apply eqb_true_iff.
    + right. bool_to_prop. by apply eq_None_not_Some.
  - wp_simp. by destruct Hi.
  - destruct (coordinators p !! c) eqn:Hc; [|done]. apply wp_tap; [done|by eexists|done].
  - destruct (coordinators p !! c) eqn:Hc; [|done]. apply wp_tap; [done|by eexists|done].
  - destruct (coordinators p !! c) as [d|] eqn:Hc; [|done]. bool_to_prop.
    apply wp_tap_blocking; [done|by exists d|done].
  - destruct (blockingConfirmationCoordinator p) as [s|] eqn:Hs; [|done]. bool_to_prop. subst.
    apply wp_sheet_confirm; try done. intros d. by apply (i_sheet_js _ _ Hi s).
  - destruct (blockingConfirmationCoordinator p) as [s|] eqn:Hs; [|done].
    apply wp_sheet_cancel; [done| |done]. apply orb_true_iff in Hl as [?|?]; [left; by bool_to_prop|by right].
  - wp_simp. destruct Hi. split; cbn; try done. intros c d Hd Hk. destruct (i_js0 c d Hd Hk) as [x Hx].
    destruct (decide (w = dialog_web_state d)) as [->|Hne].
    + rewrite lookup_alter_eq, Hx. by eexists.
    + rewrite lookup_alter_ne by done. by eexists.
Qed.

Lemma inv_reachable p : presenter_reachable p → inv None p.
Proof.
  apply (reachable_invariant _ (inv None)); [apply inv_new|].
  intros q e q' Hi (Hp & Hl & Hrun). pose proof (wp_dialog_event e q Hi Hp Hl) as H.
  unfold wp in H. by rewrite Hrun in H.
Qed.

(** The dialogs that are not answered are presented or queued. *)
Definition pending_dialogs p : list Z :=
  option_list (presentedDialogCoordinator p) ++ omap (λ x, x.2) (map_to_list (dialogCoordinatorsForWebStates p)).

Lemma open_pending p c : inv None p → c ∈ open_dialogs p → c ∈ pending_dialogs p.
Proof.
  intros Hi. unfold open_dialogs, open_of, pending_dialogs.
  intros ([c' d] & -> & Hc)%list_elem_of_fmap. apply elem_of_map_to_list, map_lookup_filter_Some in Hc as [Hc _].
  cbn. destruct (i_held _ _ Hi _ _ Hc) as [->|[Hm|?]]; [by left| |done].
  apply elem_of_app. right. apply list_elem_of_omap. exists (dialog_web_state d, Some c').
  split; [by apply elem_of_map_to_list|done].
Qed.


(** C19: Every dialog that was asked for was answered once, or is open, presented or
    queued, and is answered when all dialogs are cancelled. *)
Theorem dialogs_are_answered_once p :
  presenter_reachable p →
  (completed p).*1 ++ open_dialogs p ≡ₚ seqZ 0 (next_coordinator p) ∧
  (∀ c, c ∈ open_dialogs p → c ∈ pending_dialogs p) ∧
  wp cancelAllDialogs (λ _ p', (completed p').*1 ≡ₚ seqZ 0 (next_coordinator p')) p.
Proof.
  intros Hi%inv_reachable. split_and!; [apply (i_account _ _ Hi)|intros c; by apply open_pending|].
  apply wp_cancelAllDialogs; [done|]. intros p' Hi' Hq Hc. rewrite <-(i_account _ _ Hi').
  replace (open_dialogs p') with ([] : list Z); [by rewrite app_nil_r|].
  symmetry. apply elem_of_nil_inv. intros c Hin%open_pending; [|done]. unfold pending_dialogs in Hin.
  rewrite Hc in Hin. cbn in Hin. apply list_elem_of_omap in Hin as ([w [c'|]] & Hm & ?); [|done].
  apply elem_of_map_to_list in Hm. assert (w ∈ queuedWebStates p') as Hw by (apply (i_queue _ _ Hi'); by eexists).
  rewrite Hq in Hw. by apply elem_of_nil in Hw.
Qed.

(** Dialogs are shown in the order in which they were asked for. *)
Theorem dialogs_are_shown_in_order p :
  presenter_reachable p → sublist (shown p ++ queuedWebStates p) (requested p).
Proof. intros Hi%inv_reachable. apply (i_order _ _ Hi). Qed.
