(* ===== verification/DialogPresenterExamples.v ===== *)
(** * Dialogs of concrete web states

    The tests of dialog_presenter_unittest.mm and
    java_script_dialog_blocking_state_unittest.mm, runs that leave the
    documented use, and the theorems of DialogPresenterSpec.v at a run with
    every kind of dialog. *)

From S2P Require Import Prelude.
From S2P Require Import WebEnv.
From S2P Require Import DialogPresenter.
From S2P Require Import DialogPresenterSpec.

Module ToyDialogs.

(** The events in order; the state where one is impossible, or not of the
    documented use, or fails is the last one. *)
Fixpoint run_legal (l : list Event) (p : DialogPresenter) : DialogPresenter :=
  match l with
  | [] => p
  | e :: l =>
      if possible e p && legal e p then
        match run_event e p with Ok (_, p') => run_legal l p' | Crash _ => p end
      else p
  end.

Lemma run_legal_reachable l p : presenter_reachable p → presenter_reachable (run_legal l p).
Proof.
  revert p. induction l as [|e l IH]; intros p Hp; cbn; [done|].
  destruct (possible e p) eqn:He; [|done]. destruct (legal e p) eqn:Hl; [|done]. cbn.
  destruct (run_event e p) as [[[] p']|] eqn:Hrun; [|done]. apply IH.
  eapply reach_step; [exact Hp|]. by split_and!.
Qed.

(** Any possible events, and why the run ends if it does. *)
Fixpoint run_possible (l : list Event) (p : DialogPresenter) : DialogPresenter + crash :=
  match l with
  | [] => inl p
  | e :: l =>
      if possible e p then
        match run_event e p with Ok (_, p') => run_possible l p' | Crash c => inr c end
      else inl p
  end.
Definition after (l : list Event) : DialogPresenter := run_legal l DialogPresenter_new.
Definition alert (w : Z) : Event := EvJavaScript DialogAlert w.

Example SimpleTest : shown (after [EvActive true; alert 1]) = [1].
Proof. by vm_compute. Qed.
Example QueueTest :
  shown (after [EvActive true; alert 1; alert 2]) = [1] ∧
  shown (after [EvActive true; alert 1; alert 2; EvTapConfirm 0 []]) = [1; 2].
Proof. by vm_compute. Qed.
Example CancelTest :
  let p := after [EvActive true; alert 1; alert 2; EvCancel 2] in
  shown p = [1] ∧ completed p = [(1, AlertAnswer)].
Proof. by vm_compute. Qed.
Example DelegatePresenting :
  let p := after [EvActive true; EvScreen true true; alert 1; EvTryToPresent; EvScreen false true] in
  shown p = [] ∧ shown (run_legal [EvTryToPresent] p) = [1].
Proof. by vm_compute. Qed.
Example CancelAllTest :
  completed (after [EvActive true; alert 1; alert 2; alert 3; EvCancelAll]) =
  [(0, AlertAnswer); (1, AlertAnswer); (2, AlertAnswer)].
Proof. by vm_compute. Qed.
(** A view that is not in a window shows nothing, and waits all the same. *)
Example not_in_window :
  let p := after [EvActive true; EvScreen false false; alert 1; EvTapConfirm 0 []; alert 2] in
  shown p = [1] ∧ presentedDialogCoordinator p = Some 0 ∧ completed p = [].
Proof. by vm_compute. Qed.

(** ** Blocking *)

Definition selected : BlockingState := MkBlocking 0 (Some 1).
Example StopBlockingForUserInitiated :
  blocked (DidStartNavigation false false false (Some 2) selected) = false ∧
  blocked (DidStartNavigation false true false (Some 2) selected) = false.
Proof. by vm_compute. Qed.
Example StopBlockingForDocumentChange :
  blocked (DidStartNavigation true false false (Some 2) selected) = false.
Proof. by vm_compute. Qed.
Example ContinueBlockingForReload :
  blocked (DidStartNavigation true true true (Some 1) selected) = true.
Proof. by vm_compute. Qed.
Example ContinueBlockingForRendererInitiatedSameDocument :
  blocked (DidStartNavigation true true false (Some 1) selected) = true.
Proof. by vm_compute. Qed.

(** The second dialog of a page offers to block the others; the third is
    answered at once. *)
Definition blocking_run : list Event :=
  [EvActive true; alert 1; EvTapConfirm 0 []; EvJavaScript DialogConfirm 1; EvTapBlocking 1;
   EvSheetConfirm 1 (Some 5); alert 1].
Example blocked_dialogs :
  completed (after blocking_run) = [(0, AlertAnswer); (1, ConfirmAnswer false); (2, BlockedAnswer)].
Proof. by vm_compute. Qed.

(** ** Outside the documented use *)

Definition sheet_run : list Event :=
  [EvActive true; alert 1; EvTapConfirm 0 []; alert 1; EvTapBlocking 1].

(** The sheet stays when all dialogs are cancelled, and blocks the dialogs of
    a web state that is null. *)
Lemma confirm_after_cancelAllDialogs :
  run_possible (sheet_run ++ [EvCancelAll; EvSheetConfirm 1 (Some 5)]) DialogPresenter_new = inr NullDeref.
Proof. by vm_compute. Qed.
(** ... or those of the web state whose dialog came in between. *)
Lemma confirm_for_another_web_state :
  match run_possible (sheet_run ++ [EvCancelAll; alert 2; EvSheetConfirm 1 (Some 5)]) DialogPresenter_new with
  | inl p => blocked <$> blocking_states p !! 2 = Some true ∧ blocked <$> blocking_states p !! 1 = Some false
  | inr _ => False
  end.
Proof. by vm_compute. Qed.
(** The presenter can be deactivated under a sheet; the next dialog is shown
    all the same. *)
Lemma deactivated_under_a_sheet :
  run_possible (sheet_run ++ [alert 2; EvActive false; EvSheetCancel 1]) DialogPresenter_new
    = inr DCheckFailed.
Proof. by vm_compute. Qed.
(** A cancelled prompt reports success. *)
Lemma cancelled_prompt_succeeds :
  match completed (after [EvActive true; EvJavaScript DialogPrompt 1; EvTapCancel 0]) with
  | [(_, a)] => dialog_closed a = (true, None)
  | _ => False
  end.
Proof. by vm_compute. Qed.

(** ** The theorems at a run *)

Definition long_run : list Event :=
  [EvActive true; alert 1; EvAuth 2; EvJavaScript DialogPrompt 3; EvTapConfirm 0 [];
   EvJavaScript DialogConfirm 1; EvCancel 3; EvTapConfirm 1 [Some "user"; Some "password"]].
Definition long_state : DialogPresenter := after long_run.

Lemma long_state_reachable : presenter_reachable long_state.
Proof. apply run_legal_reachable. constructor. Qed.


Lemma dialogs_are_answered_once_witness :
  completed long_state = [(0, AlertAnswer); (2, PromptAnswer None); (1, AuthAnswer (Some ("user", "password")))] ∧
  open_dialogs long_state = [3] ∧
  (completed long_state).*1 ++ open_dialogs long_state ≡ₚ seqZ 0 (next_coordinator long_state) ∧
  (∀ c, c ∈ open_dialogs long_state → c ∈ pending_dialogs long_state) ∧
  wp cancelAllDialogs (λ _ p', (completed p').*1 ≡ₚ seqZ 0 (next_coordinator p')) long_state.
Proof.
  split; [by vm_compute|]. split; [by vm_compute|].
  exact (dialogs_are_answered_once long_state long_state_reachable).
Defined.

Lemma dialogs_are_shown_in_order_witness :
  requested long_state = [1; 2; 3; 1] ∧
  sublist (shown long_state ++ queuedWebStates long_state) (requested long_state).
Proof.
  split; [by vm_compute|].
  exact (dialogs_are_shown_in_order long_state long_state_reachable).
Defined.
End ToyDialogs.
